(* ===== verification/_CoqProject ===== *)
-Q . S2P
Prelude.v
Mem.v
Spinlock.v
Kalloc.v
Mmu.v
Vm.v
VmMap.v
VmUser.v
VmImage.v
Sleeplock.v
Block.v
Bio.v
Log.v
Crash.v
Proc.v
Sched.v
ProcInv.v
ProcOps.v
Tx.v
Fs.v
FsAlloc.v
FsInode.v
FsFile.v
FsRw.v
FsDir.v
FsPath.v
FsImage.v
Pipe.v
PipeFifo.v
File.v
FileRefs.v
Kernel.v
Syscall.v
Exec.v
Sysfile.v
Machine.v
KernelImage.v
Descriptors.v
Sysproc.v
Clock.v
Trap.v
TrapSafe.v
Device.v
Console.v
ConsoleLine.v
ConsolePrint.v
Font.v
Terminal.v
User.v
Grep.v
Programs.v
Sh.v
ShParse.v
ShPrint.v
Umalloc.v
UmallocInv.v
UmallocRun.v
Ide.v
IdeFifo.v
Nic.v
Net.v
NetSum.v
Uthread.v
UthreadRun.v
Mp.v
Boot.v
Apic.v
Mkfs.v
MkfsImage.v
MkfsFiles.v
MkfsBoot.v
Startup.v
StartupRun.v
Loader.v
LoaderElf.v
LoaderBoot.v
LoaderImage.v
Usertests.v
System.v
UsertestsRun.v
