(* ===== verification/Prelude.v ===== *)
(** * xv6-UEFI: a verification library for the kernel and its user programs

    The program is xv6 for 32-bit x86, booted through UEFI (src/xv6), with its own
    additions: a loader that runs on UEFI (src/MyLoaderPkg), a multi-level
    feedback queue scheduler, user-level threads, a console on a frame buffer, a
    memory disk, and a network card with ARP, ICMP and TCP replies.  This library
    is a shallow embedding in Rocq of the kernel, its drivers, the boot loaders
    and the user programs, with the theorems that make them correct.

    ** How code is modelled

    A routine is a function [M S A] from a state to an outcome and a new state:
    it returns, panics, or goes to sleep ([outcome]).  C structures are records,
    tables are lists, pointers into a table are indices ([None] or 0 is the null
    pointer), memory is a finite map from addresses to bytes.  Machine integers
    are integers whose wrap-around is written out ([u8], [u16], [u32], [s32]).
    Components are composed through lenses ([zoom]) and type classes (what one
    component promises another).  A loop is [for_until] or [for_each] over the
    values of its index, or a [Fixpoint] with fuel; running out of fuel is a
    panic (or, for a loop that sleeps, the outcome [Sleep]), so a theorem with
    [wp], which says that the routine returns and what holds then, also says
    that the fuel is enough.  Fuels are computed from the loop's bound: the
    bytes of a transfer ([io_fuel], [dir_fuel], [uvm_fuel]), the length of a
    path, the digits of a word.  Null dereferences that the code could perform
    are panics with a text that says so.

    What is not under src/, or is machine, is a parameter of the definitions:
    [swtch] (what the machine does until a process runs again), the linker
    symbols, device handlers, what device registers read, the services of the UEFI
    firmware.  A user program sees the kernel through the class [Os] (a system call
    and its answer).  One instance is a trace of calls with arbitrary answers, so
    that theorems about the program hold for every kernel; another is the modelled
    kernel itself.  Memory-mapped registers and network packets are bytes in
    memory.

    ** Files

    - Prelude (this file): integers, the monad, [wp], lenses, locks as flags,
      the tactics [wp_steps], [run_pure], [inv_ret], [preserve] and the hint
      databases xv6 and pres.
    - Mem: string.c.  Correctness of [memmove] on overlapping ranges, and of
      the others.
    - Spinlock: spinlock.c.  [Module Mutex]: mutual exclusion for all
      interleavings of any number of CPUs; the code refines the flag that the
      single-CPU components use.
    - Kalloc: kalloc.c.  No page is lost or handed out twice.
    - Mmu, Vm, VmMap, VmUser, VmImage: mmu.h, memlayout.h and vm.c on page tables
      in byte memory; [mappages] (VmMap), growing, shrinking and writing user
      memory (VmUser), a concrete space (VmImage).
    - Sleeplock: sleeplock.c.  Exclusion over interleavings with sleeping.
    - Block, Bio: blocks; bio.c and memide.c.  LRU replacement, and that a block
      written is read back.
    - Log, Crash: log.c.  Crash atomicity of commit at every prefix of its disk
      writes, idempotent recovery, space accounting over interleavings.
    - Proc, Sched, ProcInv, ProcOps: proc.c.  The policies, starvation and
      boosting (Sched), the invariant of the table over every interleaving
      (ProcInv), [fork] and [kill] (ProcOps).  The components below are the class
      [KernelServices].
    - Tx, Fs, FsAlloc, FsInode, FsFile, FsRw, FsDir, FsPath, FsImage: fs.c over the class
      [TxBlocks] (a transaction on blocks; Tx has the instance that log.c and
      bio.c give).  Allocation (FsAlloc), the inode cache (FsInode), file contents
      (FsFile, FsRw), directories (FsDir), paths (FsPath), a concrete disk (FsImage).
    - Pipe, PipeFifo: pipe.c.  A pipe is a FIFO for every interleaving.
    - File, FileRefs: file.c and pipealloc.  Reference counts.
    - Kernel: the instance of [KernelServices] that vm.c, file.c and fs.c give.
    - Syscall, Exec, Sysfile, Descriptors: syscall.c, exec.c, sysfile.c.  Safety of
      arguments from user space; descriptors and the counts of open files.
    - Machine, KernelImage: the whole state; a concrete kernel with a process.
    - Sysproc, Clock: sysproc.c.  [sys_sleep] returns in time.
    - Trap, TrapSafe: trap.c and the table of system calls.  A killed process
      does not return to user space.
    - Device, Console, ConsoleLine, ConsolePrint: uart.c, debug.c, kbd.c, graphic.c,
      font.c, console.c.  The line discipline refines an editor and a queue of
      lines; printed numbers read back.
    - Font, Terminal: font_bin.h; the screen as a terminal whose text can be read
      off the pixels.
    - User: user.h, ulib.c, printf.c over the class [Os]; the trace of calls.
    - Grep: grep.c.  The matcher decides the language of a pattern; which lines
      are printed.  Programs: cat, echo, wc, kill, ln, mkdir, rm, init, zombie,
      hello, ls, forktest, stressfs.
    - Sh, ShParse, ShPrint: sh.c.  The parser ends with a well-formed tree or
      exits (ShParse), and reads back what a printer writes (ShPrint).
    - Umalloc, UmallocInv, UmallocRun: umalloc.c on byte memory.  The free list
      and [free] (UmallocInv), [malloc] and whole runs (UmallocRun).
    - Ide, IdeFifo: ide.c.  The queue of requests is served in order.
    - Nic, Net, NetSum: pci.c, i8254.c; eth.c, arp.c, ipv4.c, icmp.c, tcp.c,
      http.c.  Echo replies are well-formed and their checksums verify (NetSum).
    - Uthread, UthreadRun: uthread1.c, uthread3.c, uthread4.c and
      uthread_switch.S.  Threads resume with the context they had (UthreadRun).
    - Mp: mp_uefi.c.  The parser of the firmware's table.
    - Boot: bootmain.c.  Loading the kernel's image.
    - Apic: lapic.c, ioapic.c, picirq.c, and reading the clock.
    - Mkfs, MkfsImage, MkfsFiles: mkfs.c.  The image it builds, one file
      (MkfsImage) and all of them (MkfsFiles), as fs.c reads it; a kernel that
      starts on it finds the files by name (MkfsBoot).
    - Loader, LoaderElf, LoaderBoot, LoaderImage: src/MyLoaderPkg.  The loader
      over a record of firmware services; the kernel image it places (LoaderElf);
      what it hands over to the kernel (LoaderBoot); a concrete firmware
      (LoaderImage).
    - Startup, StartupRun: main.c.  Starting the other processors, under every
      interleaving with them.
    - Usertests, System, UsertestsRun: usertests.c over the class [Os]; the whole
      kernel below a user program, on an image of mkfs and entered through [trap]
      (System); the tests on it, beside a reference kernel (UsertestsRun).

    ** What the theorems show

    Crash safety and space of the log; exclusion by spin and sleep locks;
    conservation of pages; exact effect of the virtual memory operations; the
    process table invariant, scheduling order, liveness of boosting; exact
    effect of file reads and writes, block and inode allocation, directory
    lookup; pipes, open files and descriptors as reference-counted objects over
    all call sequences; safety of system call arguments and of the return from
    traps; termination of [sys_sleep]; the console as an editor, its screen as a terminal.  For user
    space: the allocator's blocks are disjoint and keep their contents; the
    shell's parser is total, typed and inverts a printer; the matcher of grep
    is a decision procedure.  For the machine: the disk queue is first in, first
    out; user threads keep their contexts; the boot loader places every segment;
    firmware tables are read back; network replies carry valid checksums; the
    image that mkfs builds holds the files, and [namei] and [readi] of a kernel
    that starts on it read them back; the UEFI loader places the kernel and hands
    over parameters in which [mpinit_uefi] finds the firmware's processors; each
    processor that [startothers] starts gets its own stack and is waited for.  The
    components together: ten of the system's own tests pass on the modelled kernel,
    which answers every call as a reference kernel does.

    ** Bounds and fuel

    The theorems about the allocator assume a heap below 2^31 bytes, those about
    the boot loader a disk of 2^28 sectors, as the controller's address ports
    have; UthreadRun assumes that no preemption happens inside the scheduler of
    the threads.  The loader's program headers are counted in 16 bits
    ([phdr_fuel]).  Busy loops on hardware take a number of polls as fuel; the
    theorems ask that the hardware answers within it.  The tests' loops that run as
    long as the kernel answers take a number of rounds; a start-up with n processors
    is shown to end within 20 (n + 1) rounds of a fair schedule.

    ** Not modelled

    Messages printed for information; procdump; the order in which main calls the
    initialisation routines, as each component has a state of its own; mp.c, which
    is not part of the build; the tests mem, sbrktest and validatetest and the main
    routine of usertests.c; files the build generates; assembly other than
    [thread_switch] and the instructions of x86.h that the components use.
    Caches, write order and other effects of the hardware memory model are not
    modelled: memory is sequentially consistent. *)
From Stdlib Require Export ZArith Lia Bool.
From stdpp Require Export base strings numbers gmap fin_maps list.

#[global] Open Scope Z_scope.

(** ** Machine integers

    [uint], [ushort] and [uchar] values are integers in [0, 2^w); [int] values
    are integers in [-2^31, 2^31).  The wrap-around of C's unsigned arithmetic
    is written out with these functions. *)
Definition u8 (z : Z) : Z := z mod 256.

Definition u16 (z : Z) : Z := z mod 65536.

Definition u32 (z : Z) : Z := z mod 4294967296.

Definition s32 (z : Z) : Z :=
  let x := z mod 4294967296 in
  if x <? 2147483648 then x else x - 4294967296.

Definition s16 (z : Z) : Z :=
  let x := z mod 65536 in
  if x <? 32768 then x else x - 65536.

(** ** Outcomes and the kernel monad

    A kernel routine either returns, panics, or goes to sleep on a channel.
    The state reached so far is kept in each case. *)
Inductive outcome (A : Type) : Type :=
| Ret (a : A)
| Panic (msg : string)
| Sleep (chan : Z).

Arguments Ret {A} a.
Arguments Panic {A} msg.
Arguments Sleep {A} chan.

Definition M (S A : Type) : Type := S -> outcome A * S.

Definition ret {S A} (a : A) : M S A := fun s => (Ret a, s).

Definition bind {S A B} (m : M S A) (k : A -> M S B) : M S B :=
  fun s => match m s with
           | (Ret a, s') => k a s'
           | (Panic msg, s') => (Panic msg, s')
           | (Sleep c, s') => (Sleep c, s')
           end.

Definition panic {S A} (msg : string) : M S A := fun s => (Panic msg, s).

Definition sleep_on {S A} (chan : Z) : M S A := fun s => (Sleep chan, s).

Definition get {S} : M S S := fun s => (Ret s, s).

Definition gets {S A} (f : S -> A) : M S A := fun s => (Ret (f s), s).

Definition modify {S} (f : S -> S) : M S unit := fun s => (Ret tt, f s).

Declare Scope xv6_scope.
Delimit Scope xv6_scope with xv6.
Bind Scope xv6_scope with M.

Notation "x ← y ; z" := (bind y (fun x => z))
  (at level 20, y at level 100, z at level 200, only parsing) : xv6_scope.
Notation "' x ← y ; z" := (bind y (fun x : _ => z))
  (at level 20, x pattern, y at level 100, z at level 200, only parsing) : xv6_scope.
Notation "x ;; z" := (bind x (fun _ => z))
  (at level 100, z at level 200, only parsing, right associativity) : xv6_scope.

#[global] Open Scope xv6_scope.

(** [if(b) panic(msg);] *)
Definition panic_if {S} (b : bool) (msg : string) : M S unit :=
  if b then panic msg else ret tt.

Definition when {S} (b : bool) (m : M S unit) : M S unit :=
  if b then m else ret tt.

(** A C [for] loop over the values [l] of its index whose body may leave the
    loop: [Some r] stands for a [return], [break] or [goto] with value [r],
    [None] for the end of an iteration. *)
Fixpoint for_until {S I R} (l : list I) (body : I -> M S (option R)) : M S (option R) :=
  match l with
  | [] => ret None
  | i :: l' =>
      r ← body i;
      match r with
      | Some v => ret (Some v)
      | None => for_until l' body
      end
  end.

(** A C [for] loop without early exit. *)
Fixpoint for_each {S I} (l : list I) (body : I -> M S unit) : M S unit :=
  match l with
  | [] => ret tt
  | i :: l' => body i ;; for_each l' body
  end.

(** ** Lenses: a component's state inside a larger one *)
Record lens (S T : Type) : Type := Lens {
  view : S -> T;
  over : (T -> T) -> S -> S;
}.

Arguments Lens {S T} view over.
Arguments view {S T} l s.
Arguments over {S T} l f s.

Definition set {S T} (l : lens S T) (t : T) (s : S) : S := over l (fun _ => t) s.

Class LensLaws {S T} (l : lens S T) : Prop := {
  view_over : forall f s, view l (over l f s) = f (view l s);
  over_view : forall s, over l (fun _ => view l s) s = s;
  over_over : forall f g s, over l f (over l g s) = over l (fun t => f (g t)) s;
}.

Definition zoom {S T A} (l : lens S T) (m : M T A) : M S A :=
  fun s => let '(o, t) := m (view l s) in (o, set l t s).

(** ** Locks as the components see them

    A component that runs on one CPU sees a spin lock as a flag: [acquire]
    panics when this CPU already holds the lock, [release] when it does not.
    File [Spinlock] shows that [spinlock.c] implements this interface. *)
Definition acquire_flag {S} (l : lens S bool) : M S unit :=
  b ← gets (view l); panic_if b "acquire" ;; modify (set l true).

Definition release_flag {S} (l : lens S bool) : M S unit :=
  b ← gets (view l); panic_if (negb b) "release" ;; modify (set l false).

Lemma acquire_flag_run {S} (l : lens S bool) s :
  view l s = false -> acquire_flag l s = (Ret tt, set l true s).
Proof. intros H. unfold acquire_flag, bind, gets. by rewrite H. Qed.

Lemma release_flag_run {S} (l : lens S bool) s :
  view l s = true -> release_flag l s = (Ret tt, set l false s).
Proof. intros H. unfold release_flag, bind, gets. by rewrite H. Qed.

(** [sleep(chan, lk)] gives up the lock and blocks; the caller's loop starts
    over when it is woken. *)
Definition sleep_flag {S A} (l : lens S bool) (chan : Z) : M S A :=
  release_flag l ;; sleep_on chan.

(** The process layer as the code below it sees it: the pid and the killed flag
    of the current process, and the channels [wakeup] has been called on. *)
Record env : Type := Env {
  cur_pid : Z;
  cur_killed : bool;
  woken : list Z;
}.

Definition env_wake (chan : Z) (e : env) : env :=
  Env (cur_pid e) (cur_killed e) (chan :: woken e).

Definition wakeup_ev {S} (e : lens S env) (chan : Z) : M S unit :=
  modify (over e (env_wake chan)).

(** ** Total correctness: the routine returns, and its result satisfies [Q] *)
Definition wp {S A} (m : M S A) (Q : A -> S -> Prop) (s : S) : Prop :=
  match m s with
  | (Ret a, s') => Q a s'
  | _ => False
  end.

Section wp_rules.
Context {S : Type}.
Implicit Types s : S.

Lemma wp_ret {A} (a : A) (Q : A -> S -> Prop) s : Q a s -> wp (ret a) Q s.
Proof. done. Qed.

Lemma wp_bind {A B} (m : M S A) (k : A -> M S B) Q s :
  wp m (fun a s' => wp (k a) Q s') s -> wp (bind m k) Q s.
Proof. unfold wp, bind. by destruct (m s) as [[] ?]. Qed.

Lemma wp_mono {A} (m : M S A) (Q1 Q2 : A -> S -> Prop) s :
  wp m Q1 s -> (forall a s', Q1 a s' -> Q2 a s') -> wp m Q2 s.
Proof. unfold wp. destruct (m s) as [[] ?]; eauto. Qed.

Lemma wp_get (Q : S -> S -> Prop) s : Q s s -> wp get Q s.
Proof. done. Qed.

Lemma wp_gets {A} (f : S -> A) Q s : Q (f s) s -> wp (gets f) Q s.
Proof. done. Qed.

Lemma wp_modify (f : S -> S) Q s : Q tt (f s) -> wp (modify f) Q s.
Proof. done. Qed.

Lemma wp_panic_if b msg Q s : b = false -> Q tt s -> wp (panic_if b msg) Q s.
Proof. by intros ->. Qed.

Lemma wp_eq {A} (m : M S A) Q s a s' : m s = (Ret a, s') -> Q a s' -> wp m Q s.
Proof. unfold wp. by intros ->. Qed.

Lemma wp_returns {A} (m : M S A) Q s :
  wp m Q s -> exists a s', m s = (Ret a, s') /\ Q a s'.
Proof. unfold wp. destruct (m s) as [[] ?]; naive_solver. Qed.

Lemma wp_for_each {I} (l : list I) (body : I -> M S unit) (Inv : list I -> S -> Prop) Q s :
  Inv l s ->
  (forall i l' s', Inv (i :: l') s' -> wp (body i) (fun _ s'' => Inv l' s'') s') ->
  (forall s', Inv [] s' -> Q tt s') ->
  wp (for_each l body) Q s.
Proof.
  intros Hi Hb Hq. revert s Hi. induction l as [|i l IH]; intros s Hi; simpl.
  - apply wp_ret. eauto.
  - apply wp_bind. eapply wp_mono; [by apply Hb|]. intros [] s' Hs'. eauto.
Qed.

Lemma wp_for_until {I R} (l : list I) (body : I -> M S (option R))
    (Inv : list I -> S -> Prop) (Q : option R -> S -> Prop) s :
  Inv l s ->
  (forall i l' s', Inv (i :: l') s' ->
     wp (body i) (fun r s'' => match r with Some _ => Q r s'' | None => Inv l' s'' end) s') ->
  (forall s', Inv [] s' -> Q None s') ->
  wp (for_until l body) Q s.
Proof.
  intros Hi Hb Hq. revert s Hi. induction l as [|i l IH]; intros s Hi; simpl.
  - apply wp_ret. eauto.
  - apply wp_bind. eapply wp_mono; [by apply Hb|].
    intros [r|] s' Hs'; [done|eauto].
Qed.

Lemma bind_Ret {A B} (m : M S A) (k : A -> M S B) s a s' :
  m s = (Ret a, s') -> bind m k s = k a s'.
Proof. unfold bind. by intros ->. Qed.

Lemma bind_Ret_inv {A B} (m : M S A) (k : A -> M S B) s b s' :
  bind m k s = (Ret b, s') ->
  exists a s1, m s = (Ret a, s1) /\ k a s1 = (Ret b, s').
Proof. unfold bind. destruct (m s) as [[] ?]; naive_solver. Qed.

End wp_rules.

(** The monad laws hold pointwise. *)
Lemma bind_assoc {S A B C} (m : M S A) (f : A -> M S B) (g : B -> M S C) s :
  bind (bind m f) g s = bind m (fun a => bind (f a) g) s.
Proof. unfold bind. by destruct (m s) as [[] ?]. Qed.

Lemma bind_ret_r {S A} (m : M S A) s : bind m ret s = m s.
Proof. unfold bind. by destruct (m s) as [[] ?]. Qed.

Lemma for_each_app {S I} (l1 l2 : list I) (body : I -> M S unit) s :
  for_each (l1 ++ l2) body s = (for_each l1 body ;; for_each l2 body) s.
Proof.
  revert s. induction l1 as [|i l1 IH]; intros s; [done|]. simpl.
  unfold bind at 1 2 3. destruct (body i s) as [[] s']; [|done|done].
  rewrite IH. done.
Qed.

(** ** Automation *)
Create HintDb xv6.

Ltac wp_step :=
  match goal with
  | |- wp (bind _ _) _ _ => apply wp_bind
  | |- wp (ret _) _ _ => apply wp_ret
  | |- wp get _ _ => apply wp_get
  | |- wp (gets _) _ _ => apply wp_gets
  | |- wp (modify _) _ _ => apply wp_modify
  | |- wp (panic_if _ _) _ _ => apply wp_panic_if
  | |- wp (when true _) _ _ => unfold when
  | |- wp (when false _) _ _ => unfold when
  end; cbv beta; cbn [fst snd].

Ltac wp_steps := repeat wp_step.

(** Run the first routine of a sequence, whose result the equation [H] gives. *)
Tactic Notation "run_step" uconstr(H) :=
  erewrite (bind_Ret _ _ _ _ _ H); cbv beta.

(** Run a first routine that returns by computation. *)
Ltac run_pure :=
  match goal with
  | |- context [bind ?m ?k ?s] =>
      let r := eval cbv [ret gets get modify when panic_if] in (m s) in
      lazymatch r with
      | (Ret ?a, ?s') => rewrite (bind_Ret m k s a s' eq_refl); cbv beta
      end
  end.

(** Invert an equation saying that a composed routine returned. *)
Ltac inv_ret :=
  repeat match goal with
  | H : bind _ _ _ = (Ret _, _) |- _ =>
      let a := fresh "a" in let s := fresh "s" in let H1 := fresh "Hm" in
      apply bind_Ret_inv in H as (a & s & H1 & H)
  | H : ret _ _ = (Ret _, _) |- _ => unfold ret in H; simplify_eq
  | H : modify _ _ = (Ret _, _) |- _ => unfold modify in H; simplify_eq
  | H : gets _ _ = (Ret _, _) |- _ => unfold gets in H; simplify_eq
  | H : get _ = (Ret _, _) |- _ => unfold get in H; simplify_eq
  | H : panic _ _ = (Ret _, _) |- _ => discriminate H
  end.

(** Boolean integer comparisons to propositions. *)
Ltac bool_to_prop :=
  repeat match goal with
  | H : (_ && _)%bool = true |- _ => apply andb_true_iff in H as [? ?]
  | H : (_ || _)%bool = false |- _ => apply orb_false_iff in H as [? ?]
  | H : (_ && _)%bool = false |- _ => apply andb_false_iff in H as [H|H]
  | H : (_ || _)%bool = true |- _ => apply orb_true_iff in H as [H|H]
  | H : negb _ = true |- _ => apply negb_true_iff in H
  | H : negb _ = false |- _ => apply negb_false_iff in H
  | H : (_ =? _) = true |- _ => apply Z.eqb_eq in H
  | H : (_ =? _) = false |- _ => apply Z.eqb_neq in H
  | H : (_ <? _) = true |- _ => apply Z.ltb_lt in H
  | H : (_ <? _) = false |- _ => apply Z.ltb_ge in H
  | H : (_ <=? _) = true |- _ => apply Z.leb_le in H
  | H : (_ <=? _) = false |- _ => apply Z.leb_gt in H
  end.

(** Case analysis on the tests of a goal. *)
Ltac case_bool :=
  match goal with
  | |- context [if decide ?P then _ else _] => destruct (decide P)
  | |- context [if ?b then _ else _] =>
      let E := fresh "E" in destruct b eqn:E; bool_to_prop
  end.

Ltac case_bools := repeat case_bool; try done; try lia.

(** Linear arithmetic with [/] and [mod] by constants. *)
Ltac zdm := Z.div_mod_to_equations; lia.

(** ** Generic lemmas *)
Lemma u8_range z : 0 <= u8 z < 256.
Proof. unfold u8. apply Z.mod_pos_bound. lia. Qed.

Lemma u16_range z : 0 <= u16 z < 65536.
Proof. unfold u16. apply Z.mod_pos_bound. lia. Qed.

Lemma u32_range z : 0 <= u32 z < 4294967296.
Proof. unfold u32. apply Z.mod_pos_bound. lia. Qed.

Lemma u8_small z : 0 <= z < 256 -> u8 z = z.
Proof. unfold u8. apply Z.mod_small. Qed.

Lemma u16_small z : 0 <= z < 65536 -> u16 z = z.
Proof. unfold u16. apply Z.mod_small. Qed.

Lemma u32_small z : 0 <= z < 4294967296 -> u32 z = z.
Proof. unfold u32. apply Z.mod_small. Qed.

Lemma u8_u8 z : u8 (u8 z) = u8 z.
Proof. apply u8_small, u8_range. Qed.

Lemma u32_u32 z : u32 (u32 z) = u32 z.
Proof. apply u32_small, u32_range. Qed.

Lemma s32_range z : -2147483648 <= s32 z < 2147483648.
Proof.
  unfold s32. pose proof (Z.mod_pos_bound z 4294967296 ltac:(lia)).
  destruct (_ <? _) eqn:E; bool_to_prop; lia.
Qed.

Lemma s32_small z : -2147483648 <= z < 2147483648 -> s32 z = z.
Proof.
  intros Hz. unfold s32. destruct (Z_lt_ge_dec z 0).
  - replace (z mod 4294967296) with (z + 4294967296)
      by (rewrite <- (Z.mod_unique z 4294967296 (-1) (z + 4294967296)); lia).
    destruct (_ <? _) eqn:E; bool_to_prop; lia.
  - rewrite Z.mod_small by lia. destruct (_ <? _) eqn:E; bool_to_prop; lia.
Qed.

Lemma s16_small z : -32768 <= z < 32768 -> s16 z = z.
Proof.
  intros Hz. unfold s16. destruct (Z_lt_ge_dec z 0).
  - replace (z mod 65536) with (z + 65536) by (rewrite <- (Z.mod_unique z 65536 (-1) (z + 65536)); lia).
    destruct (_ <? _) eqn:E; bool_to_prop; lia.
  - rewrite Z.mod_small by lia. destruct (_ <? _) eqn:E; bool_to_prop; lia.
Qed.

Lemma s16_u16 z : s16 (u16 z) = s16 z.
Proof. unfold s16, u16. by rewrite Z.mod_mod by lia. Qed.

(** Disjoint bit fields: [|] is addition. *)
Lemma lor_mul_pow2 a b k : 0 <= k -> 0 <= b < 2 ^ k -> Z.lor (a * 2 ^ k) b = a * 2 ^ k + b.
Proof.
  intros Hk Hb. rewrite <- Z.add_lor_land.
  enough (Z.land (a * 2 ^ k) b = 0) as -> by lia.
  apply Z.bits_inj'. intros i Hi. rewrite Z.land_spec, Z.bits_0.
  destruct (Z_lt_ge_dec i k).
  - by rewrite Z.mul_pow2_bits_low by lia.
  - assert (Z.testbit b i = false) as ->; [|by rewrite andb_false_r].
    destruct (decide (b = 0)) as [->|]; [apply Z.bits_0|].
    apply Z.bits_above_log2; [lia|].
    assert (Z.log2 b < k) by (apply Z.log2_lt_pow2; lia). lia.
Qed.

Lemma land_ones_mod a k : 0 <= k -> Z.land a (2 ^ k - 1) = a mod 2 ^ k.
Proof. intros. rewrite <- Z.land_ones by lia. by rewrite Z.ones_equiv, Z.sub_1_r. Qed.

(** Checking a property of the integers below a bound by evaluation. *)
Definition below (n : nat) (P : Z -> bool) : bool :=
  forallb P (Z.of_nat <$> seq 0 n).

Lemma below_spec n P z : below n P = true -> 0 <= z < Z.of_nat n -> P z = true.
Proof.
  unfold below. rewrite forallb_forall. intros H Hz. apply H.
  apply list_elem_of_In, list_elem_of_fmap. exists (Z.to_nat z).
  split; [lia|]. apply elem_of_seq. lia.
Qed.

Lemma Forall_elem {A} (P : A -> Prop) (l : list A) x : Forall P l -> x ∈ l -> P x.
Proof. intros Hl Hx. rewrite List.Forall_forall in Hl. apply Hl. by apply list_elem_of_In. Qed.

Lemma elem_Forall {A} (P : A -> Prop) (l : list A) : (forall x, x ∈ l -> P x) -> Forall P l.
Proof. intros H. apply List.Forall_forall. intros x Hx. apply H. by apply list_elem_of_In. Qed.

#[export] Hint Resolve u8_range u16_range u32_range : xv6.

(** ** Searching loops

    [first_some g l]: the first result a search of [l] with [g] finds. *)
Fixpoint first_some {A B} (g : A -> option B) (l : list A) : option B :=
  match l with
  | [] => None
  | x :: l' => match g x with Some b => Some b | None => first_some g l' end
  end.

Lemma first_some_spec {A B} (g : A -> option B) (l : list A) :
  match first_some g l with
  | Some b => exists l1 x l2, l = l1 ++ x :: l2 /\ g x = Some b /\ forall y, y ∈ l1 -> g y = None
  | None => forall y, y ∈ l -> g y = None
  end.
Proof.
  induction l as [|x l IH]; simpl; [set_solver|]. destruct (g x) as [b|] eqn:E.
  - exists [], x, l. set_solver.
  - destruct (first_some g l) as [b|].
    + destruct IH as (l1 & y & l2 & -> & Hy & Hl). exists (x :: l1), y, l2. set_solver.
    + set_solver.
Qed.

Lemma for_until_pure {S I R} (l : list I) (body : I -> M S (option R)) (g : I -> option R) s :
  (forall i, i ∈ l -> body i s = (Ret (g i), s)) -> for_until l body s = (Ret (first_some g l), s).
Proof.
  induction l as [|i l IH]; intros Hb; [done|]. simpl.
  rewrite (bind_Ret _ _ _ _ _ (Hb i ltac:(set_solver))). destruct (g i); [done|].
  apply IH. intros j Hj. apply Hb. set_solver.
Qed.

(** A search over the indices of a table finds the first one. *)
Lemma first_some_seq (P : nat -> bool) n :
  match first_some (fun i => if P i then Some i else None) (seq 0 n) with
  | Some i => (i < n)%nat /\ P i = true /\ forall j, (j < i)%nat -> P j = false
  | None => forall i, (i < n)%nat -> P i = false
  end.
Proof.
  pose proof (first_some_spec (fun i => if P i then Some i else None) (seq 0 n)) as H.
  destruct (first_some _ _) as [b|].
  - destruct H as (l1 & x & l2 & E & Hx & Hl). destruct (P x) eqn:Ex; [|done]. injection Hx as <-.
    assert (seq 0 n !! length l1 = Some x) as Hlk by (rewrite E; by apply list_lookup_middle).
    apply lookup_seq in Hlk as [Hxe Hxn]. split; [lia|]. split; [done|]. intros j Hj.
    specialize (Hl j). destruct (P j); [|done]. exfalso. enough (Some j = None) by done. apply Hl.
    apply list_elem_of_lookup. exists j. rewrite <- (lookup_app_l l1 (x :: l2)) by lia. rewrite <- E.
    apply lookup_seq. lia.
  - intros i Hi. specialize (H i). destruct (P i); [|done].
    exfalso. enough (Some i = None) by done. apply H, elem_of_seq. lia.
Qed.

(** ** Routines that leave a part of the state alone, whatever their outcome *)
Definition preserves {S K A} (f : S -> K) (m : M S A) : Prop :=
  forall s o s', m s = (o, s') -> f s' = f s.

Section Preserves.
Context {S K : Type} (f : S -> K).

Lemma pres_ret {A} (a : A) : preserves f (ret a).
Proof. by intros s o s' [= _ <-]. Qed.

Lemma pres_gets {A} (g : S -> A) : preserves f (gets g).
Proof. by intros s o s' [= _ <-]. Qed.

Lemma pres_panic {A} msg : preserves f (panic (A := A) msg).
Proof. by intros s o s' [= _ <-]. Qed.

Lemma pres_sleep_on {A} ch : preserves f (sleep_on (A := A) ch).
Proof. by intros s o s' [= _ <-]. Qed.

Lemma pres_panic_if b msg : preserves f (panic_if b msg).
Proof. destruct b; [apply pres_panic|apply pres_ret]. Qed.

Lemma pres_modify g : (forall s, f (g s) = f s) -> preserves f (modify g).
Proof. intros Hg s o s' [= _ <-]. apply Hg. Qed.

Lemma pres_bind {A B} (m : M S A) (k : A -> M S B) :
  preserves f m -> (forall a, preserves f (k a)) -> preserves f (bind m k).
Proof.
  intros Hm Hk s o s' H. unfold bind in H. destruct (m s) as [[a|msg|ch] s1] eqn:E; apply Hm in E.
  - apply Hk in H. congruence.
  - by injection H as _ <-.
  - by injection H as _ <-.
Qed.

Lemma pres_when b m : preserves f m -> preserves f (when b m).
Proof. destruct b; [done|intros _; apply pres_ret]. Qed.

Lemma pres_for_each {I} (l : list I) (body : I -> M S unit) :
  (forall i, preserves f (body i)) -> preserves f (for_each l body).
Proof. intros Hb. induction l; simpl; [apply pres_ret|]. apply pres_bind; [apply Hb|done]. Qed.

Lemma pres_for_until {I R} (l : list I) (body : I -> M S (option R)) :
  (forall i, preserves f (body i)) -> preserves f (for_until l body).
Proof.
  intros Hb. induction l; simpl; [apply pres_ret|]. apply pres_bind; [apply Hb|].
  intros [r|]; [apply pres_ret|done].
Qed.

Lemma pres_zoom {T A} (l : lens S T) (m : M T A) : (forall g s, f (over l g s) = f s) -> preserves f (zoom l m).
Proof.
  intros Hl s o s' H. unfold zoom in H. destruct (m (view l s)) as [o' t]. injection H as _ <-. apply Hl.
Qed.

Lemma pres_acquire_flag (l : lens S bool) : (forall g s, f (over l g s) = f s) -> preserves f (acquire_flag l).
Proof.
  intros Hl. unfold acquire_flag. apply pres_bind; [apply pres_gets|]. intros b.
  apply pres_bind; [apply pres_panic_if|]. intros _. apply pres_modify. intros s. apply Hl.
Qed.

Lemma pres_release_flag (l : lens S bool) : (forall g s, f (over l g s) = f s) -> preserves f (release_flag l).
Proof.
  intros Hl. unfold release_flag. apply pres_bind; [apply pres_gets|]. intros b.
  apply pres_bind; [apply pres_panic_if|]. intros _. apply pres_modify. intros s. apply Hl.
Qed.

End Preserves.

Create HintDb pres.

#[export] Hint Resolve pres_ret pres_gets pres_panic pres_sleep_on pres_panic_if : pres.

(** Decompose a routine; what remains are its calls and updates. *)
Ltac preserve :=
  repeat match goal with
  | |- preserves _ (bind _ _) => apply pres_bind; [|intros ?]
  | |- preserves _ (when _ _) => apply pres_when
  | |- preserves _ (for_each _ _) => apply pres_for_each; intros ?
  | |- preserves _ (for_until _ _) => apply pres_for_until; intros ?
  | |- preserves _ (if ?b then _ else _) => destruct b
  | |- preserves _ (match ?x with _ => _ end) => let E := fresh "E" in destruct x eqn:E
  | |- preserves _ _ => solve [eauto 2 with pres]
  end.
