(* ===== verification/Mem.v ===== *)
(** * Byte memory and the C string routines (src/xv6/string.c)

    Memory maps 32-bit addresses to bytes; an address never written reads 0.
    Pointer increments wrap at 2^32.  [memset] is modelled down to the
    [rep stosl]/[rep stosb] instructions of src/xv6/x86.h, [memmove] with both
    of its copying directions. *)
From S2P Require Import Prelude.

(** ** Loads and stores *)
Abbreviation mem := (gmap Z Z).

Definition ld8 (m : mem) (a : Z) : Z := u8 (default 0 (m !! a)).

Definition st8 (m : mem) (a v : Z) : mem := <[a := u8 v]> m.

Definition ld16 (m : mem) (a : Z) : Z := ld8 m a + 256 * ld8 m (a + 1).

Definition st16 (m : mem) (a v : Z) : mem :=
  st8 (st8 m a v) (a + 1) (Z.shiftr v 8).

(** Little-endian 32-bit accesses. *)
Definition ld32 (m : mem) (a : Z) : Z :=
  ld8 m a + 256 * ld8 m (a + 1) + 65536 * ld8 m (a + 2) + 16777216 * ld8 m (a + 3).

Definition st32 (m : mem) (a v : Z) : mem :=
  st8 (st8 (st8 (st8 m a v) (a + 1) (Z.shiftr v 8)) (a + 2) (Z.shiftr v 16))
      (a + 3) (Z.shiftr v 24).

(** ** x86.h: the string-store instructions, [n] iterations *)
Fixpoint stosb (m : mem) (addr data : Z) (n : nat) : mem :=
  match n with
  | O => m
  | S k => stosb (st8 m addr data) (u32 (addr + 1)) data k
  end.

Fixpoint stosl (m : mem) (addr data : Z) (n : nat) : mem :=
  match n with
  | O => m
  | S k => stosl (st32 m addr data) (u32 (addr + 4)) data k
  end.

(** ** string.c *)
Definition memset (m : mem) (dst c n : Z) : mem :=
  if (Z.rem (s32 dst) 4 =? 0) && (n mod 4 =? 0) then
    let c := Z.land c 255 in
    stosl m dst
      (Z.lor (Z.lor (Z.lor (Z.shiftl c 24) (Z.shiftl c 16)) (Z.shiftl c 8)) c)
      (Z.to_nat (n / 4))
  else stosb m dst c (Z.to_nat n).

Fixpoint memcmp (m : mem) (s1 s2 : Z) (n : nat) : Z :=
  match n with
  | O => 0
  | S k =>
      if ld8 m s1 =? ld8 m s2 then memcmp m (u32 (s1 + 1)) (u32 (s2 + 1)) k
      else ld8 m s1 - ld8 m s2
  end.

(** [while(n-- > 0) *d++ = *s++;] *)
Fixpoint copy_up (m : mem) (d s : Z) (n : nat) : mem :=
  match n with
  | O => m
  | S k => copy_up (st8 m d (ld8 m s)) (u32 (d + 1)) (u32 (s + 1)) k
  end.

(** [while(n-- > 0) *--d = *--s;] *)
Fixpoint copy_down (m : mem) (d s : Z) (n : nat) : mem :=
  match n with
  | O => m
  | S k =>
      let d' := u32 (d - 1) in
      let s' := u32 (s - 1) in
      copy_down (st8 m d' (ld8 m s')) d' s' k
  end.

Definition memmove (m : mem) (dst src n : Z) : mem :=
  if (src <? dst) && (dst <? u32 (src + n)) then
    copy_down m (u32 (dst + n)) (u32 (src + n)) (Z.to_nat n)
  else copy_up m dst src (Z.to_nat n).

Fixpoint strncmp (m : mem) (p q : Z) (n : nat) : Z :=
  match n with
  | O => 0
  | S k =>
      if negb (ld8 m p =? 0) && (ld8 m p =? ld8 m q)
      then strncmp m (u32 (p + 1)) (u32 (q + 1)) k
      else ld8 m p - ld8 m q
  end.

(** The first loop of [strncpy] copies up to and including the terminator; the
    second one pads the rest of the [n] bytes with zeros. *)
Fixpoint strncpy_loop (m : mem) (s t : Z) (n : nat) : mem :=
  match n with
  | O => m
  | S k =>
      let c := ld8 m t in
      let m' := st8 m s c in
      if c =? 0 then stosb m' (u32 (s + 1)) 0 k
      else strncpy_loop m' (u32 (s + 1)) (u32 (t + 1)) k
  end.

Definition strncpy (m : mem) (s t n : Z) : mem := strncpy_loop m s t (Z.to_nat n).

Fixpoint safestrcpy_loop (m : mem) (s t : Z) (n : nat) : mem :=
  match n with
  | O => st8 m s 0
  | S k =>
      let c := ld8 m t in
      let m' := st8 m s c in
      if c =? 0 then st8 m' (u32 (s + 1)) 0
      else safestrcpy_loop m' (u32 (s + 1)) (u32 (t + 1)) k
  end.

Definition safestrcpy (m : mem) (s t n : Z) : mem :=
  if n <=? 0 then m else safestrcpy_loop m s t (Z.to_nat (n - 1)).

(** [strlen] scans at most [fuel] bytes; [None] when no terminator is met. *)
Fixpoint strlen (fuel : nat) (m : mem) (s : Z) : option Z :=
  match fuel with
  | O => None
  | S k => if ld8 m s =? 0 then Some 0
           else Z.succ <$> strlen k m (u32 (s + 1))
  end.

(** ** Laws of loads and stores *)
Lemma ld8_range m a : 0 <= ld8 m a < 256.
Proof. apply u8_range. Qed.

Lemma ld8_st8 m a b v : ld8 (st8 m a v) b = if a =? b then u8 v else ld8 m b.
Proof.
  unfold ld8, st8. destruct (a =? b) eqn:E; bool_to_prop.
  - subst. rewrite lookup_insert_eq. simpl. apply u8_u8.
  - by rewrite lookup_insert_ne.
Qed.

Lemma ld8_st8_eq m a v : ld8 (st8 m a v) a = u8 v.
Proof. by rewrite ld8_st8, Z.eqb_refl. Qed.

Lemma ld8_st8_ne m a b v : a <> b -> ld8 (st8 m a v) b = ld8 m b.
Proof. intros. rewrite ld8_st8. destruct (a =? b) eqn:E; bool_to_prop; [lia|done]. Qed.

Lemma ld8_st16_ne m a v b : b <> a -> b <> a + 1 -> ld8 (st16 m a v) b = ld8 m b.
Proof. intros. unfold st16. by rewrite !ld8_st8_ne by lia. Qed.

Lemma le32_bytes v : 0 <= v < 4294967296 ->
  u8 v + 256 * u8 (Z.shiftr v 8) + 65536 * u8 (Z.shiftr v 16)
  + 16777216 * u8 (Z.shiftr v 24) = v.
Proof.
  intros Hv. unfold u8. rewrite !Z.shiftr_div_pow2 by lia.
  change (2 ^ 8) with 256. change (2 ^ 16) with 65536. change (2 ^ 24) with 16777216.
  zdm.
Qed.

Lemma ld32_range m a : 0 <= ld32 m a < 4294967296.
Proof.
  unfold ld32.
  pose proof (ld8_range m a). pose proof (ld8_range m (a + 1)).
  pose proof (ld8_range m (a + 2)). pose proof (ld8_range m (a + 3)). lia.
Qed.

Lemma ld8_st32_ne m a v b : ~ (a <= b < a + 4) -> ld8 (st32 m a v) b = ld8 m b.
Proof. intros H. unfold st32. by rewrite !ld8_st8_ne by lia. Qed.

(** What a 32-bit store writes is what a 32-bit load reads back. *)
Lemma ld32_st32_eq m a v : 0 <= v < 4294967296 -> ld32 (st32 m a v) a = v.
Proof.
  intros Hv. unfold ld32, st32.
  rewrite ld8_st8_eq. rewrite !(ld8_st8_ne _ (a + 3)) by lia.
  rewrite ld8_st8_eq. rewrite !(ld8_st8_ne _ (a + 2)) by lia.
  rewrite ld8_st8_eq. rewrite !(ld8_st8_ne _ (a + 1)) by lia.
  rewrite ld8_st8_eq. by apply le32_bytes.
Qed.

Lemma ld32_st32_ne m a b v : a + 4 <= b \/ b + 4 <= a -> ld32 (st32 m a v) b = ld32 m b.
Proof. intros H. unfold ld32. by rewrite !ld8_st32_ne by lia. Qed.

Lemma ld32_ext m m' a : (forall b, a <= b < a + 4 -> ld8 m' b = ld8 m b) -> ld32 m' a = ld32 m a.
Proof. intros H. unfold ld32. by rewrite !H by lia. Qed.

(** ** Correctness of string.c *)
Lemma ld8_stosb m addr data n a :
  0 <= addr -> addr + Z.of_nat n <= 4294967296 ->
  ld8 (stosb m addr data n) a =
    if decide (addr <= a < addr + Z.of_nat n) then u8 data else ld8 m a.
Proof.
  revert m addr. induction n as [|n IH]; intros m addr H0 H1.
  - simpl stosb. case_bools.
  - cbn [stosb]. destruct (decide (n = 0%nat)) as [->|Hn].
    + simpl stosb. rewrite ld8_st8. case_bools.
    + rewrite u32_small, IH, ld8_st8 by lia. case_bools.
Qed.

(** The word [memset] stores with [stosl] has four equal bytes. *)
Definition splat (c : Z) : Z :=
  Z.lor (Z.lor (Z.lor (Z.shiftl c 24) (Z.shiftl c 16)) (Z.shiftl c 8)) c.

Lemma splat_bytes c k : 0 <= c < 256 -> 0 <= k < 4 -> u8 (Z.shiftr (splat c) (8 * k)) = c.
Proof.
  intros Hc Hk.
  pose proof (below_spec 256
    (fun c => forallb (fun k => u8 (Z.shiftr (splat c) (8 * k)) =? c) [0;1;2;3]) c
    ltac:(by vm_compute) Hc) as H.
  rewrite forallb_forall in H. apply Z.eqb_eq, H. simpl. lia.
Qed.

Lemma ld8_st32_splat m a c b : 0 <= c < 256 ->
  ld8 (st32 m a (splat c)) b = if decide (a <= b < a + 4) then c else ld8 m b.
Proof.
  intros Hc. unfold st32. rewrite !ld8_st8.
  pose proof (splat_bytes c 0 Hc ltac:(lia)). pose proof (splat_bytes c 1 Hc ltac:(lia)).
  pose proof (splat_bytes c 2 Hc ltac:(lia)). pose proof (splat_bytes c 3 Hc ltac:(lia)).
  change (8 * 0) with 0 in *. rewrite Z.shiftr_0_r in *. case_bools.
Qed.

Lemma ld8_stosl m addr c n a :
  0 <= c < 256 -> 0 <= addr -> addr + 4 * Z.of_nat n <= 4294967296 ->
  ld8 (stosl m addr (splat c) n) a =
    if decide (addr <= a < addr + 4 * Z.of_nat n) then c else ld8 m a.
Proof.
  intros Hc. revert m addr. induction n as [|n IH]; intros m addr H0 H1.
  - simpl stosl. case_bools.
  - cbn [stosl]. destruct (decide (n = 0%nat)) as [->|Hn].
    + simpl stosl. rewrite ld8_st32_splat by done. case_bools.
    + rewrite u32_small, IH, ld8_st32_splat by lia. case_bools.
Qed.

Lemma memset_bytes m dst c n a :
  0 <= dst -> 0 <= n -> dst + n <= 4294967296 ->
  ld8 (memset m dst c n) a = if decide (dst <= a < dst + n) then u8 c else ld8 m a.
Proof.
  intros Hd Hn Hr. unfold memset.
  destruct (_ && _) eqn:E; bool_to_prop.
  - fold (splat (Z.land c 255)). change 255 with (2 ^ 8 - 1).
    rewrite land_ones_mod by lia. change (2 ^ 8) with 256. fold (u8 c).
    pose proof (u8_range c).
    assert (4 * (n / 4) = n) by zdm.
    rewrite ld8_stosl by lia.
    rewrite Z2Nat.id by (apply Z.div_pos; lia).
    case_bools.
  - rewrite ld8_stosb by lia. rewrite Z2Nat.id by lia. case_bools.
  - rewrite ld8_stosb by lia. rewrite Z2Nat.id by lia. case_bools.
Qed.

Lemma ld8_copy_up m d s n a :
  0 <= d -> d + Z.of_nat n <= 4294967296 -> 0 <= s -> s + Z.of_nat n <= 4294967296 ->
  d <= s \/ s + Z.of_nat n <= d ->
  ld8 (copy_up m d s n) a =
    if decide (d <= a < d + Z.of_nat n) then ld8 m (s + (a - d)) else ld8 m a.
Proof.
  revert m d s. induction n as [|n IH]; intros m d s Hd Hd' Hs Hs' Hov.
  - simpl copy_up. case_bools.
  - cbn [copy_up]. destruct (decide (n = 0%nat)) as [->|Hn].
    + simpl copy_up. rewrite ld8_st8. pose proof (ld8_range m s).
      case_bools; rewrite u8_small by lia; f_equal; lia.
    + rewrite !u32_small by lia. rewrite IH by lia. rewrite !ld8_st8.
      pose proof (ld8_range m s).
      case_bools; try (rewrite u8_small by lia); f_equal; lia.
Qed.

Lemma ld8_copy_down m d s n a :
  Z.of_nat n <= d -> d < 4294967296 -> Z.of_nat n <= s -> s < 4294967296 ->
  s <= d ->
  ld8 (copy_down m d s n) a =
    if decide (d - Z.of_nat n <= a < d) then ld8 m (a - d + s) else ld8 m a.
Proof.
  revert m d s. induction n as [|n IH]; intros m d s Hd Hd' Hs Hs' Hov.
  - simpl copy_down. case_bools.
  - cbn [copy_down]. rewrite !u32_small by lia. rewrite IH by lia. rewrite !ld8_st8.
    pose proof (ld8_range m (s - 1)).
    case_bools; try (rewrite u8_small by lia); f_equal; lia.
Qed.

Lemma memmove_bytes m dst src n a :
  0 <= dst -> dst + n < 4294967296 -> 0 <= src -> src + n < 4294967296 -> 0 <= n ->
  ld8 (memmove m dst src n) a =
    if decide (dst <= a < dst + n) then ld8 m (src + (a - dst)) else ld8 m a.
Proof.
  intros Hd Hd' Hs Hs' Hn. unfold memmove. rewrite !u32_small by lia.
  destruct (_ && _) eqn:E; bool_to_prop.
  - rewrite ld8_copy_down by lia. rewrite Z2Nat.id by lia. case_bools; f_equal; lia.
  - rewrite ld8_copy_up by lia. rewrite Z2Nat.id by lia. case_bools; f_equal; lia.
  - rewrite ld8_copy_up by lia. rewrite Z2Nat.id by lia. case_bools; f_equal; lia.
Qed.

(** ** Views of memory: byte ranges and C strings *)
Fixpoint bytes (m : mem) (a : Z) (n : nat) : list Z :=
  match n with
  | O => []
  | S k => ld8 m a :: bytes m (a + 1) k
  end.

(** The string at [a], up to its terminator or [n] bytes. *)
Fixpoint cstr (m : mem) (a : Z) (n : nat) : list Z :=
  match n with
  | O => []
  | S k => if ld8 m a =? 0 then [] else ld8 m a :: cstr m (a + 1) k
  end.

Lemma cstr_S m a k :
  cstr m a (S k) = if ld8 m a =? 0 then [] else ld8 m a :: cstr m (a + 1) k.
Proof. done. Qed.

Lemma bytes_ext m m' a a' n :
  (forall i, 0 <= i < Z.of_nat n -> ld8 m (a + i) = ld8 m' (a' + i)) ->
  bytes m a n = bytes m' a' n.
Proof.
  revert a a'. induction n as [|n IH]; intros a a' H; [done|]. simpl. f_equal.
  - generalize (H 0 ltac:(lia)). by rewrite !Z.add_0_r.
  - apply IH. intros i Hi. rewrite <- !Z.add_assoc. apply H. lia.
Qed.

Lemma cstr_ext m m' a n :
  (forall i, 0 <= i < Z.of_nat n -> ld8 m (a + i) = ld8 m' (a + i)) ->
  cstr m a n = cstr m' a n.
Proof.
  revert a. induction n as [|n IH]; intros a H; [done|]. simpl.
  generalize (H 0 ltac:(lia)). rewrite !Z.add_0_r. intros ->.
  case_bool; [done|]. f_equal.
  apply IH. intros i Hi. rewrite <- !Z.add_assoc. apply H. lia.
Qed.

Lemma cstr_nonzero m a n : Forall (fun c => 0 < c < 256) (cstr m a n).
Proof.
  revert a. induction n as [|n IH]; intros a; simpl; [constructor|].
  case_bool; constructor; [|apply IH]. pose proof (ld8_range m a). lia.
Qed.

Lemma cstr_length m a n : (length (cstr m a n) <= n)%nat.
Proof.
  revert a. induction n as [|n IH]; intros a; simpl; [lia|].
  case_bool; simpl; [lia|]. specialize (IH (a + 1)). lia.
Qed.

Lemma length_bytes m a n : length (bytes m a n) = n.
Proof. revert a. induction n as [|n IH]; intros a; simpl; auto. Qed.

Lemma memcmp_bytes m s1 s2 n :
  0 <= s1 -> s1 + Z.of_nat n < 4294967296 -> 0 <= s2 -> s2 + Z.of_nat n < 4294967296 ->
  memcmp m s1 s2 n = 0 <-> bytes m s1 n = bytes m s2 n.
Proof.
  revert s1 s2. induction n as [|n IH]; intros s1 s2 H1 H2 H3 H4; simpl; [done|].
  rewrite !u32_small by lia. case_bool.
  - rewrite IH by lia. split; [by intros ->; rewrite E|by intros [=]].
  - split; [lia|by intros [=]].
Qed.

Lemma strncmp_cstr m p q n :
  0 <= p -> p + Z.of_nat n < 4294967296 -> 0 <= q -> q + Z.of_nat n < 4294967296 ->
  strncmp m p q n = 0 <-> cstr m p n = cstr m q n.
Proof.
  revert p q. induction n as [|n IH]; intros p q H1 H2 H3 H4; simpl; [done|].
  rewrite !u32_small by lia. case_bool.
  - rewrite IH by lia. case_bools. case_bools.
    split; [intros ->; congruence|by intros [=]].
  - case_bools; case_bools; split; try done; try lia.
  - case_bools; case_bools; split; try done; try lia.
    intros [=]. lia.
Qed.

(** [strncpy] writes exactly [n] bytes: the string, then zeros. *)
Lemma strncpy_loop_frame m s t n a :
  0 <= s -> s + Z.of_nat n < 4294967296 -> ~ (s <= a < s + Z.of_nat n) ->
  ld8 (strncpy_loop m s t n) a = ld8 m a.
Proof.
  revert m s t. induction n as [|n IH]; intros m s t H1 H2 Ha; simpl; [done|].
  rewrite (u32_small (s + 1)) by lia. case_bool.
  - rewrite ld8_stosb by lia. case_bools. apply ld8_st8_ne. lia.
  - rewrite IH by lia. apply ld8_st8_ne. lia.
Qed.

Lemma bytes_zeros m a n :
  (forall i, 0 <= i < Z.of_nat n -> ld8 m (a + i) = 0) -> bytes m a n = replicate n 0.
Proof.
  revert a. induction n as [|n IH]; intros a H; [done|]. simpl. f_equal.
  - rewrite <- (Z.add_0_r a). apply H. lia.
  - apply IH. intros i Hi. rewrite <- Z.add_assoc. apply H. lia.
Qed.

Lemma strncpy_loop_bytes m s t n :
  0 <= s -> s + Z.of_nat n < 4294967296 -> 0 <= t -> t + Z.of_nat n < 4294967296 ->
  s + Z.of_nat n <= t \/ t + Z.of_nat n <= s ->
  bytes (strncpy_loop m s t n) s n
  = cstr m t n ++ replicate (n - length (cstr m t n)) 0.
Proof.
  revert m s t. induction n as [|n IH]; intros m s t H1 H2 H3 H4 Hd; simpl; [done|].
  rewrite !u32_small by lia. pose proof (ld8_range m t). case_bool; simpl.
  - f_equal.
    + rewrite ld8_stosb by lia. case_bools. by rewrite ld8_st8_eq, E.
    + apply bytes_zeros. intros i Hi. rewrite ld8_stosb by lia. case_bools.
  - f_equal.
    + rewrite strncpy_loop_frame by lia. rewrite ld8_st8_eq. apply u8_small. lia.
    + rewrite IH by lia.
      rewrite (cstr_ext _ m (t + 1)) by (intros; apply ld8_st8_ne; lia). done.
Qed.

Lemma safestrcpy_loop_frame m s t n a :
  0 <= s -> s + Z.of_nat n < 4294967295 -> ~ (s <= a <= s + Z.of_nat n) ->
  ld8 (safestrcpy_loop m s t n) a = ld8 m a.
Proof.
  revert m s t. induction n as [|n IH]; intros m s t H1 H2 Ha; simpl.
  - apply ld8_st8_ne. lia.
  - rewrite (u32_small (s + 1)) by lia. case_bool.
    + by rewrite !ld8_st8_ne by lia.
    + rewrite IH by lia. apply ld8_st8_ne. lia.
Qed.

(** After [safestrcpy] the destination holds the source string, cut to [n-1]
    bytes, and is terminated within its [n] bytes. *)
Lemma safestrcpy_loop_cstr m s t n :
  0 <= s -> s + Z.of_nat n < 4294967295 -> 0 <= t -> t + Z.of_nat n < 4294967296 ->
  s + Z.of_nat n < t \/ t + Z.of_nat n <= s ->
  cstr (safestrcpy_loop m s t n) s (S n) = cstr m t n.
Proof.
  revert m s t. induction n as [|n IH]; intros m s t H1 H2 H3 H4 Hd; cbn [safestrcpy_loop].
  - simpl. by rewrite ld8_st8_eq.
  - rewrite !u32_small by lia. pose proof (ld8_range m t). case_bool.
    + simpl. rewrite ld8_st8_ne, ld8_st8_eq, E by lia. done.
    + rewrite (cstr_S _ s (S n)), (cstr_S m t n).
      rewrite safestrcpy_loop_frame, ld8_st8_eq, u8_small by lia.
      case_bool; [lia|]. f_equal. rewrite IH by lia.
      apply cstr_ext. intros; apply ld8_st8_ne; lia.
Qed.

Lemma strlen_cstr fuel m s n :
  0 <= s -> s + Z.of_nat fuel < 4294967296 ->
  (length (cstr m s n) < n)%nat -> (n <= fuel)%nat ->
  strlen fuel m s = Some (Z.of_nat (length (cstr m s n))).
Proof.
  revert s n. induction fuel as [|fuel IH]; intros s n H1 H2 Hn Hf; [lia|].
  destruct n as [|n]; [lia|]. simpl in *.
  rewrite u32_small by lia. case_bool; [done|]. simpl in Hn.
  rewrite (IH _ n) by lia. simpl. f_equal. lia.
Qed.

Lemma cstr_of_bytes m a n m' t :
  bytes m' a n = cstr m t n ++ replicate (n - length (cstr m t n)) 0 ->
  cstr m' a n = cstr m t n.
Proof.
  pose proof (cstr_nonzero m t n) as Hnz. pose proof (cstr_length m t n) as Hl.
  revert Hnz Hl. generalize (cstr m t n) as l.
  revert a. induction n as [|n IH]; intros a l Hnz Hl Hb.
  - destruct l; [done|simpl in Hl; lia].
  - rewrite cstr_S. destruct l as [|c l]; simpl in Hb; injection Hb as Hc Hb.
    + by rewrite Hc.
    + inversion_clear Hnz. rewrite Hc. case_bool; [lia|].
      f_equal. apply IH; [done|simpl in Hl; lia|done].
Qed.

(** ** Properties *)

(** [memmove] behaves as a simultaneous copy also when the two regions
    overlap: every destination byte gets the byte its source address held
    before the call, and no other byte of memory changes. *)
Theorem memmove_correct m dst src n :
  0 <= dst -> dst + n < 4294967296 -> 0 <= src -> src + n < 4294967296 -> 0 <= n ->
  (forall i, 0 <= i < n -> ld8 (memmove m dst src n) (dst + i) = ld8 m (src + i)) /\
  (forall a, ~ (dst <= a < dst + n) -> ld8 (memmove m dst src n) a = ld8 m a).
Proof.
  intros. split; intros; rewrite memmove_bytes by lia; case_bools. f_equal. lia.
Qed.

(** An overlapping copy by one byte, upwards. *)
Lemma memmove_correct_witness :
  ld8 (memmove (st8 (st8 (st8 ∅ 100 1) 101 2) 102 3) 101 100 3) (101 + 2) = 3.
Proof.
  destruct (memmove_correct (st8 (st8 (st8 ∅ 100 1) 101 2) 102 3) 101 100 3)
    as [H _]; try lia.
  rewrite H by lia. reflexivity.
Defined.

(** [memset] writes the low byte of [c] to each of the [n] bytes at [dst]
    and to no other, whichever of its two instruction sequences it picks. *)
Theorem memset_correct m dst c n :
  0 <= dst -> 0 <= n -> dst + n <= 4294967296 ->
  (forall a, dst <= a < dst + n -> ld8 (memset m dst c n) a = u8 c) /\
  (forall a, ~ (dst <= a < dst + n) -> ld8 (memset m dst c n) a = ld8 m a).
Proof. intros. split; intros; rewrite memset_bytes by lia; case_bools. Qed.

Lemma memset_correct_witness : ld8 (memset ∅ 4096 1 8) 4103 = u8 1.
Proof. apply (memset_correct ∅ 4096 1 8); lia. Defined.

(** [strncmp] returns 0 exactly when the two strings agree up to their
    terminators or [n] bytes, and [strncpy] leaves in its destination the source
    string padded with zeros to exactly [n] bytes, so that a copied name
    compares equal to its source. *)
Theorem strncpy_strncmp m s t n :
  0 <= s -> s + Z.of_nat n < 4294967296 -> 0 <= t -> t + Z.of_nat n < 4294967296 ->
  s + Z.of_nat n <= t \/ t + Z.of_nat n <= s ->
  let m' := strncpy m s t (Z.of_nat n) in
  bytes m' s n = cstr m t n ++ replicate (n - length (cstr m t n)) 0 /\
  strncmp m' s t n = 0.
Proof.
  intros H1 H2 H3 H4 Hd m'. unfold m', strncpy. rewrite Nat2Z.id.
  assert (bytes (strncpy_loop m s t n) s n
          = cstr m t n ++ replicate (n - length (cstr m t n)) 0) as Hb
    by by apply strncpy_loop_bytes.
  split; [done|]. apply strncmp_cstr; try lia.
  rewrite (cstr_ext (strncpy_loop m s t n) m t)
    by (intros; apply strncpy_loop_frame; lia).
  by apply cstr_of_bytes.
Qed.

Lemma strncpy_strncmp_witness :
  strncmp (strncpy (st8 (st8 ∅ 500 97) 501 98) 400 500 14) 400 500 14 = 0.
Proof.
  apply (strncpy_strncmp (st8 (st8 ∅ 500 97) 501 98) 400 500 14); lia.
Defined.

(** [safestrcpy] with [n > 0] leaves a NUL-terminated string of at most
    [n - 1] bytes, a prefix of the source, and writes nothing outside the [n]
    bytes of its destination. *)
Theorem safestrcpy_correct m s t n :
  0 < n -> 0 <= s -> s + n < 4294967296 -> 0 <= t -> t + n < 4294967296 ->
  s + n <= t \/ t + n <= s ->
  cstr (safestrcpy m s t n) s (Z.to_nat n) = cstr m t (Z.to_nat (n - 1)) /\
  strlen (Z.to_nat n) (safestrcpy m s t n) s
    = Some (Z.of_nat (length (cstr m t (Z.to_nat (n - 1))))) /\
  (forall a, ~ (s <= a < s + n) -> ld8 (safestrcpy m s t n) a = ld8 m a).
Proof.
  intros Hn H1 H2 H3 H4 Hd. unfold safestrcpy. case_bool; [lia|].
  replace (Z.to_nat n) with (S (Z.to_nat (n - 1))) by lia.
  assert (cstr (safestrcpy_loop m s t (Z.to_nat (n - 1))) s (S (Z.to_nat (n - 1)))
          = cstr m t (Z.to_nat (n - 1))) as Hc by (apply safestrcpy_loop_cstr; lia).
  split_and!; [done| |intros a Ha; apply safestrcpy_loop_frame; lia].
  pose proof (cstr_length m t (Z.to_nat (n - 1))).
  erewrite strlen_cstr; [by rewrite Hc| |lia|rewrite Hc; lia|lia]. lia.
Qed.

Lemma safestrcpy_correct_witness :
  strlen 3 (safestrcpy (st8 (st8 (st8 (st8 ∅ 500 97) 501 98) 502 99) 503 100) 400 500 3) 400
  = Some 2.
Proof.
  exact (proj1 (proj2 (safestrcpy_correct
    (st8 (st8 (st8 (st8 ∅ 500 97) 501 98) 502 99) 503 100) 400 500 3
    ltac:(lia) ltac:(lia) ltac:(lia) ltac:(lia) ltac:(lia) ltac:(lia)))).
Defined.
