(* ===== verification/Spinlock.v ===== *)
(** * CPUs, interrupts and spin locks (src/xv6/spinlock.c, mycpu of proc.c)

    The sequential part runs one CPU: its EFLAGS register, its local APIC id and
    the table of [struct cpu] entries.  The concurrent part ([Module Mutex])
    splits [acquire] and [release] into their memory operations and interleaves
    any number of CPUs.  The last part is the lock interface the other
    components use, and the proof that spin locks implement it. *)
From S2P Require Import Prelude Mem.

Definition FL_IF : Z := 512.

Definition KERNBASE : Z := 2147483648.

(** ** State *)

(** [struct cpu]; the descriptor tables and the scheduler context are left to
    the machine. *)
Record cpu : Type := Cpu {
  apicid : Z;
  started : Z;
  ncli : Z;
  intena : Z;
  cproc : option nat;
  sched_policy : Z;
}.

Definition set_ncli (f : Z -> Z) (c : cpu) : cpu :=
  Cpu (apicid c) (started c) (f (ncli c)) (intena c) (cproc c) (sched_policy c).

Definition set_intena (v : Z) (c : cpu) : cpu :=
  Cpu (apicid c) (started c) (ncli c) v (cproc c) (sched_policy c).

(** [struct spinlock]; [lkcpu] is the index in [cpus] of the holder. *)
Record spinlock : Type := Spinlock {
  locked : Z;
  lkname : string;
  lkcpu : option nat;
  pcs : list Z;
}.

(** The machine as one CPU sees it. *)
Record mach : Type := Mach {
  cpus : list cpu;
  lapicid : Z;
  eflags : Z;
  lk : spinlock;
  stack : mem;
}.

Definition set_cpus (f : list cpu -> list cpu) (s : mach) : mach :=
  Mach (f (cpus s)) (lapicid s) (eflags s) (lk s) (stack s).

Definition set_eflags (f : Z -> Z) (s : mach) : mach :=
  Mach (cpus s) (lapicid s) (f (eflags s)) (lk s) (stack s).

Definition set_lk (f : spinlock -> spinlock) (s : mach) : mach :=
  Mach (cpus s) (lapicid s) (eflags s) (f (lk s)) (stack s).

(** ** Operations *)
Definition readeflags : M mach Z := gets eflags.

Definition cli : M mach unit := modify (set_eflags (fun e => Z.ldiff e FL_IF)).

Definition sti : M mach unit := modify (set_eflags (fun e => Z.lor e FL_IF)).

Definition if_on (e : Z) : bool := negb (Z.land e FL_IF =? 0).

(** Index of the first entry of [l] that satisfies [p]. *)
Fixpoint find_index {A} (p : A -> bool) (l : list A) : option nat :=
  match l with
  | [] => None
  | x :: l' => if p x then Some O else S <$> find_index p l'
  end.

Definition mycpu : M mach nat :=
  e ← readeflags;
  panic_if (if_on e) "mycpu called with interrupts enabled" ;;
  s ← get;
  match find_index (fun c => apicid c =? lapicid s) (cpus s) with
  | Some i => ret i
  | None => panic "unknown apicid"
  end.

(** [mycpu()->field], and an assignment through [mycpu()]. *)
Definition mycpu_field {A} (f : cpu -> A) (d : A) : M mach A :=
  i ← mycpu; gets (fun s => default d (f <$> cpus s !! i)).

Definition mycpu_update (f : cpu -> cpu) : M mach unit :=
  i ← mycpu; modify (set_cpus (alter f i)).

Definition pushcli : M mach unit :=
  e ← readeflags;
  cli ;;
  n ← mycpu_field ncli 0;
  when (n =? 0) (mycpu_update (set_intena (Z.land e FL_IF))) ;;
  mycpu_update (set_ncli (Z.add 1)).

Definition popcli : M mach unit :=
  e ← readeflags;
  panic_if (if_on e) "popcli - interruptible" ;;
  mycpu_update (set_ncli (fun n => n - 1)) ;;
  n ← mycpu_field ncli 0;
  panic_if (n <? 0) "popcli" ;;
  n ← mycpu_field ncli 0;
  if n =? 0 then
    a ← mycpu_field intena 0;
    when (negb (a =? 0)) sti
  else ret tt.

Definition initlock (name : string) : M mach unit :=
  modify (set_lk (fun l => Spinlock 0 name None (pcs l))).

(** [lock->cpu == mycpu()] is only evaluated when [lock->locked]. *)
Definition holding : M mach bool :=
  l ← gets lk;
  if locked l =? 0 then ret false
  else i ← mycpu; ret (bool_decide (lkcpu l = Some i)).

Fixpoint getcallerpcs_loop (m : mem) (ebp : Z) (n : nat) : list Z :=
  match n with
  | O => []
  | S k =>
      if (ebp =? 0) || (ebp <? KERNBASE) || (ebp =? 4294967295)
      then replicate n 0
      else ld32 m (u32 (ebp + 4)) :: getcallerpcs_loop m (ld32 m ebp) k
  end.

Definition getcallerpcs (m : mem) (v : Z) : list Z := getcallerpcs_loop m (u32 (v - 8)) 10.

(** [xchg(&lk->locked, 1)] *)
Definition xchg_locked : M mach Z :=
  l ← gets lk;
  modify (set_lk (fun l => Spinlock 1 (lkname l) (lkcpu l) (pcs l))) ;;
  ret (locked l).

(** [acquire], up to [spins] failing rounds of its [xchg] loop; [false] says
    that the lock was still taken then.  [v] is the address of the argument, the
    frame that [getcallerpcs] starts from. *)
Fixpoint acquire_spin (spins : nat) (v : Z) : M mach bool :=
  old ← xchg_locked;
  if old =? 0 then
    i ← mycpu;
    modify (set_lk (fun l => Spinlock (locked l) (lkname l) (Some i) (pcs l))) ;;
    modify (fun s => set_lk (fun l =>
      Spinlock (locked l) (lkname l) (lkcpu l) (getcallerpcs (stack s) v)) s) ;;
    ret true
  else match spins with O => ret false | S k => acquire_spin k v end.

Definition acquire (spins : nat) (v : Z) : M mach bool :=
  pushcli ;;
  h ← holding;
  panic_if h "acquire" ;;
  acquire_spin spins v.

Definition release : M mach unit :=
  h ← holding;
  panic_if (negb h) "release" ;;
  modify (set_lk (fun l => Spinlock (locked l) (lkname l) None (<[0%nat := 0]> (pcs l)))) ;;
  modify (set_lk (fun l => Spinlock 0 (lkname l) (lkcpu l) (pcs l))) ;;
  popcli.

(** ** The running CPU *)

(** [running s i c]: the CPU that executes is entry [i] of the table, [c]. *)
Definition running (s : mach) (i : nat) (c : cpu) : Prop :=
  find_index (fun c => apicid c =? lapicid s) (cpus s) = Some i /\ cpus s !! i = Some c.

Lemma find_index_alter {A} (p : A -> bool) f (l : list A) i :
  (forall x, p (f x) = p x) -> find_index p (alter f i l) = find_index p l.
Proof.
  intros Hp. revert i. induction l as [|x l IH]; intros [|i]; simpl; try done.
  - by rewrite Hp.
  - destruct (p x); [done|]. f_equal. apply IH.
Qed.

Lemma running_alter s i c f :
  (forall c, apicid (f c) = apicid c) ->
  running s i c -> running (set_cpus (alter f i) s) i (f c).
Proof.
  intros Hf [H1 H2]. split; simpl.
  - rewrite find_index_alter; [done|]. intros x. by rewrite Hf.
  - by rewrite list_lookup_alter_eq, H2.
Qed.

Lemma if_on_cli e : if_on (Z.ldiff e FL_IF) = false.
Proof.
  unfold if_on. apply negb_false_iff, Z.eqb_eq.
  apply Z.bits_inj'. intros k Hk. rewrite Z.land_spec, Z.ldiff_spec, Z.bits_0.
  by destruct (Z.testbit e k), (Z.testbit FL_IF k).
Qed.

Lemma if_on_sti e : if_on (Z.lor e FL_IF) = true.
Proof.
  unfold if_on. apply negb_true_iff, Z.eqb_neq. intros H.
  assert (Z.testbit (Z.land (Z.lor e FL_IF) FL_IF) 9 = false) as Ht by by rewrite H, Z.bits_0.
  rewrite Z.land_spec, Z.lor_spec in Ht. change (Z.testbit FL_IF 9) with true in Ht.
  by destruct (Z.testbit e 9).
Qed.

Lemma cli_off e : if_on e = false -> Z.ldiff e FL_IF = e.
Proof.
  unfold if_on. intros H%negb_false_iff%Z.eqb_eq.
  apply Z.bits_inj'. intros k Hk. rewrite Z.ldiff_spec.
  assert (Z.testbit (Z.land e FL_IF) k = false) as Ht by by rewrite H, Z.bits_0.
  rewrite Z.land_spec in Ht. by destruct (Z.testbit e k), (Z.testbit FL_IF k).
Qed.

Lemma mycpu_ok s i c : if_on (eflags s) = false -> running s i c -> mycpu s = (Ret i, s).
Proof.
  intros He [Hf _]. unfold mycpu, readeflags, gets, bind, panic_if, get. simpl.
  rewrite He. simpl. by rewrite Hf.
Qed.

Lemma mycpu_field_ok {A} (f : cpu -> A) d s i c :
  if_on (eflags s) = false -> running s i c -> mycpu_field f d s = (Ret (f c), s).
Proof.
  intros He Hr. unfold mycpu_field. run_step (mycpu_ok _ _ _ He Hr).
  unfold gets. by rewrite (proj2 Hr).
Qed.

Lemma mycpu_update_ok f s i c :
  if_on (eflags s) = false -> running s i c ->
  mycpu_update f s = (Ret tt, set_cpus (alter f i) s).
Proof.
  intros He Hr. unfold mycpu_update. by run_step (mycpu_ok _ _ _ He Hr).
Qed.

(** ** pushcli and popcli *)

(** The entry of the running CPU after [pushcli] with EFLAGS [e]. *)
Definition pushed (e : Z) (c : cpu) : cpu :=
  set_ncli (Z.add 1) (if ncli c =? 0 then set_intena (Z.land e FL_IF) c else c).

Lemma pushcli_ok s i c :
  running s i c ->
  exists s', pushcli s = (Ret tt, s') /\ running s' i (pushed (eflags s) c) /\
    eflags s' = Z.ldiff (eflags s) FL_IF /\ lk s' = lk s /\ stack s' = stack s.
Proof.
  intros Hr. unfold pushcli, readeflags, cli.
  rewrite (bind_Ret _ _ s (eflags s) s) by done.
  set (s1 := set_eflags (fun e => Z.ldiff e FL_IF) s).
  rewrite (bind_Ret _ _ s tt s1) by done.
  assert (running s1 i c) as Hr1 by done.
  assert (if_on (eflags s1) = false) as He by apply if_on_cli.
  run_step (mycpu_field_ok ncli 0 s1 i c He Hr1).
  unfold pushed. destruct (ncli c =? 0) eqn:En; cbn [when].
  - run_step (mycpu_update_ok _ _ _ _ He Hr1).
    eapply running_alter with (f := set_intena (Z.land (eflags s) FL_IF)) in Hr1; [|done].
    eexists. split; [by eapply mycpu_update_ok|].
    split_and!; try done. by apply running_alter.
  - rewrite (bind_Ret _ _ s1 tt s1) by done.
    eexists. split; [by eapply mycpu_update_ok|].
    split_and!; try done. by apply running_alter.
Qed.

(** EFLAGS after [popcli] leaves the running CPU with entry [c]. *)
Definition popped_eflags (c : cpu) (e : Z) : Z :=
  if (ncli c =? 0) && negb (intena c =? 0) then Z.lor e FL_IF else e.

Lemma popcli_ok s i c :
  running s i c -> if_on (eflags s) = false -> 0 < ncli c ->
  exists s', popcli s = (Ret tt, s') /\
    running s' i (set_ncli (fun n => n - 1) c) /\
    eflags s' = popped_eflags (set_ncli (fun n => n - 1) c) (eflags s) /\
    lk s' = lk s /\ stack s' = stack s.
Proof.
  intros Hr He Hn. unfold popcli, readeflags.
  rewrite (bind_Ret _ _ s (eflags s) s) by done. rewrite He. cbn [panic_if].
  rewrite (bind_Ret _ _ s tt s) by done.
  run_step (mycpu_update_ok _ _ _ _ He Hr).
  set (s1 := set_cpus _ s). set (c1 := set_ncli (fun n => n - 1) c).
  assert (running s1 i c1) as Hr1 by by apply running_alter.
  assert (if_on (eflags s1) = false) as He1 by done.
  run_step (mycpu_field_ok ncli 0 s1 i c1 He1 Hr1).
  assert ((ncli c1 <? 0) = false) as -> by (apply Z.ltb_ge; simpl; lia). cbn [panic_if].
  rewrite (bind_Ret _ _ s1 tt s1) by done.
  run_step (mycpu_field_ok ncli 0 s1 i c1 He1 Hr1).
  unfold popped_eflags. destruct (ncli c1 =? 0) eqn:E; cbn [andb]; [|by exists s1].
  run_step (mycpu_field_ok intena 0 s1 i c1 He1 Hr1).
  destruct (negb _) eqn:Ei; cbn [when]; eexists; split; done.
Qed.

(** [n] nested critical sections: [n] times [pushcli], then [n] times [popcli]. *)
Fixpoint iter_m (n : nat) (m : M mach unit) : M mach unit :=
  match n with O => ret tt | S k => m ;; iter_m k m end.

Lemma iter_pushcli n s i c :
  running s i c -> 0 < ncli c -> if_on (eflags s) = false ->
  exists s', iter_m n pushcli s = (Ret tt, s') /\
    running s' i (set_ncli (fun k => k + Z.of_nat n) c) /\ eflags s' = eflags s /\
    lk s' = lk s.
Proof.
  revert s c. induction n as [|n IH]; intros s c Hr Hn He.
  - exists s. split_and!; try done. destruct c, Hr as [? Hl]. split; [done|].
    rewrite Hl. unfold set_ncli. simpl. by rewrite Z.add_0_r.
  - destruct (pushcli_ok s i c Hr) as (s1 & H1 & Hr1 & He1 & Hl1 & _).
    assert (pushed (eflags s) c = set_ncli (Z.add 1) c) as Hp.
    { unfold pushed. destruct (ncli c =? 0) eqn:E; [bool_to_prop; lia|done]. }
    rewrite Hp in Hr1. rewrite cli_off in He1 by done.
    destruct (IH s1 _ Hr1) as (s2 & H2 & Hr2 & He2 & Hl2);
      [simpl; lia|by rewrite He1|].
    exists s2. cbn [iter_m]. run_step H1. rewrite H2.
    split_and!; [done| |congruence|congruence].
    unfold set_ncli in *. simpl in *.
    replace (ncli c + Z.of_nat (S n)) with (1 + ncli c + Z.of_nat n) by lia. done.
Qed.

Lemma iter_popcli n s i c :
  running s i c -> ncli c = Z.of_nat (S n) -> if_on (eflags s) = false ->
  exists s', iter_m (S n) popcli s = (Ret tt, s') /\
    running s' i (set_ncli (fun _ => 0) c) /\
    eflags s' = (if intena c =? 0 then eflags s else Z.lor (eflags s) FL_IF) /\
    lk s' = lk s.
Proof.
  revert s c. induction n as [|n IH]; intros s c Hr Hn He; cbn [iter_m];
    destruct (popcli_ok s i c Hr He ltac:(lia)) as (s1 & H1 & Hr1 & He1 & Hl1 & _);
    run_step H1; unfold popped_eflags in He1; simpl in He1.
  - exists s1. split_and!; try done.
    + unfold set_ncli in *. simpl in *. by rewrite Hn in Hr1.
    + rewrite Hn in He1. simpl in He1. by destruct (intena c =? 0).
  - replace (ncli c - 1 =? 0) with false in He1 by (symmetry; apply Z.eqb_neq; lia).
    simpl in He1. destruct (IH s1 _ Hr1) as (s2 & H2 & Hr2 & He2 & Hl2);
      [simpl; lia|by rewrite He1|].
    exists s2. cbn [iter_m] in H2. rewrite H2.
    split_and!; [done|done|by rewrite He2, He1|congruence].
Qed.

(** ** The concurrent protocol

    [acquire] and [release] as the memory operations they are made of, run by
    any number of CPUs in any interleaving on one lock.  The phase of a CPU is
    the point its code has reached; [Dead] is a call of [panic]. *)
Module Mutex.

Inductive phase : Type :=
| Outside        (* not in acquire, not holding *)
| Spin           (* past the holding check, in the xchg loop *)
| Got            (* xchg returned 0; lk->cpu not yet set *)
| Critical       (* acquire returned *)
| Releasing      (* release has cleared lk->cpu, not yet lk->locked *)
| Dead (msg : string).

Record state : Type := State {
  lock_word : Z;              (* lk->locked *)
  lock_cpu : option nat;      (* lk->cpu *)
  phases : gmap nat phase;    (* one per CPU *)
}.

(** What [holding] evaluates to on CPU [i]. *)
Definition holds (s : state) (i : nat) : bool :=
  negb (lock_word s =? 0) && bool_decide (lock_cpu s = Some i).

Definition goto (s : state) (i : nat) (p : phase) : state :=
  State (lock_word s) (lock_cpu s) (<[i := p]> (phases s)).

Inductive step : state -> state -> Prop :=
| step_check_ok s i :
    phases s !! i = Some Outside -> holds s i = false -> step s (goto s i Spin)
| step_check_panic s i :
    phases s !! i = Some Outside -> holds s i = true -> step s (goto s i (Dead "acquire"))
| step_xchg_fail s i :
    phases s !! i = Some Spin -> lock_word s <> 0 ->
    step s (State 1 (lock_cpu s) (phases s))
| step_xchg_ok s i :
    phases s !! i = Some Spin -> lock_word s = 0 ->
    step s (State 1 (lock_cpu s) (<[i := Got]> (phases s)))
| step_set_cpu s i :
    phases s !! i = Some Got ->
    step s (State (lock_word s) (Some i) (<[i := Critical]> (phases s)))
| step_clear_cpu s i :
    phases s !! i = Some Critical -> holds s i = true ->
    step s (State (lock_word s) None (<[i := Releasing]> (phases s)))
| step_release_panic s i :
    phases s !! i = Some Critical -> holds s i = false ->
    step s (goto s i (Dead "release"))
| step_unlock s i :
    phases s !! i = Some Releasing ->
    step s (State 0 (lock_cpu s) (<[i := Outside]> (phases s))).

(** [initlock], then every CPU outside. *)
Definition initial (s : state) : Prop :=
  lock_word s = 0 /\ lock_cpu s = None /\
  forall i p, phases s !! i = Some p -> p = Outside.

Definition reachable (s : state) : Prop := exists s0, initial s0 /\ rtc step s0 s.

Definition owns (p : phase) : bool :=
  match p with Got | Critical | Releasing => true | _ => false end.

Definition alive (p : phase) : bool := match p with Dead _ => false | _ => true end.

Record inv (s : state) : Prop := {
  inv_owner : forall i p, phases s !! i = Some p -> owns p = true -> lock_word s = 1;
  inv_excl : forall i j p q, phases s !! i = Some p -> phases s !! j = Some q ->
    owns p = true -> owns q = true -> i = j;
  inv_cpu : forall i, lock_cpu s = Some i -> phases s !! i = Some Critical;
  inv_crit : forall i, phases s !! i = Some Critical -> lock_cpu s = Some i;
  inv_alive : forall i p, phases s !! i = Some p -> alive p = true;
}.

Lemma initial_inv s : initial s -> inv s.
Proof.
  intros (H1 & H2 & H3). split.
  - intros i p Hp Ho. by rewrite (H3 _ _ Hp) in Ho.
  - intros i j p q Hp _ Ho _. by rewrite (H3 _ _ Hp) in Ho.
  - intros i Hi. congruence.
  - intros i Hi. by apply H3 in Hi.
  - intros i p Hp. by rewrite (H3 _ _ Hp).
Qed.

Lemma holds_critical s i : inv s -> phases s !! i = Some Critical -> holds s i = true.
Proof.
  intros Hi Hp. unfold holds.
  rewrite (inv_owner s Hi i Critical Hp eq_refl), (inv_crit s Hi i Hp).
  by rewrite bool_decide_eq_true_2.
Qed.

Lemma holds_outside s i : inv s -> phases s !! i = Some Outside -> holds s i = false.
Proof.
  intros Hi Hp. unfold holds. apply andb_false_iff. right.
  apply bool_decide_eq_false_2. intros Hc. apply (inv_cpu s Hi) in Hc. congruence.
Qed.

Ltac lookup_cases :=
  repeat match goal with
  | H : <[?i := _]> _ !! ?j = Some _ |- _ =>
      rewrite lookup_insert in H; destruct (decide (i = j)); simplify_eq
  | |- context [<[?i := _]> _ !! ?j] =>
      rewrite lookup_insert; destruct (decide (i = j)); simplify_eq
  end.

Lemma step_inv s s' : inv s -> step s s' -> inv s'.
Proof.
  intros Hi Hs. pose proof (inv_owner s Hi) as Ho. pose proof (inv_excl s Hi) as He.
  pose proof (inv_cpu s Hi) as Hc. pose proof (inv_crit s Hi) as Hr.
  pose proof (inv_alive s Hi) as Ha.
  destruct Hs as [s i Hp Hh|s i Hp Hh|s i Hp Hw|s i Hp Hw|s i Hp|s i Hp Hh|s i Hp Hh|s i Hp].
  - split; simpl; intros; lookup_cases; naive_solver.
  - rewrite (holds_outside s i Hi Hp) in Hh. done.
  - split; simpl; intros; naive_solver.
  - assert (forall j p, phases s !! j = Some p -> owns p = true -> False) as Hno.
    { intros j p Hj Hjo. rewrite (Ho j p Hj Hjo) in Hw. done. }
    split; simpl; intros; lookup_cases; try naive_solver.
  - assert (forall j p, phases s !! j = Some p -> owns p = true -> i = j) as Hone
      by (intros j p Hj Hjo; exact (He i j Got p Hp Hj eq_refl Hjo)).
    split; simpl; intros; lookup_cases; try naive_solver.
  - assert (forall j p, phases s !! j = Some p -> owns p = true -> i = j) as Hone
      by (intros j p Hj Hjo; exact (He i j Critical p Hp Hj eq_refl Hjo)).
    split; simpl; intros; lookup_cases; try naive_solver.
  - rewrite (holds_critical s i Hi Hp) in Hh. done.
  - assert (forall j p, phases s !! j = Some p -> owns p = true -> i = j) as Hone
      by (intros j p Hj Hjo; exact (He i j Releasing p Hp Hj eq_refl Hjo)).
    split; simpl; intros; lookup_cases; try naive_solver.
Qed.

Lemma reachable_inv s : reachable s -> inv s.
Proof.
  intros (s0 & H0 & Hr). apply initial_inv in H0. induction Hr; eauto using step_inv.
Qed.

Lemma initial_two : initial (State 0 None {[0%nat := Outside; 1%nat := Outside]}).
Proof.
  split_and!; [done|done|]. intros i p Hp. simpl in Hp.
  apply lookup_insert_Some in Hp as [[_ <-]|[_ Hp]]; [done|].
  by apply lookup_singleton_Some in Hp as [_ <-].
Qed.

(** C3: mutual exclusion.  In every state that any interleaving of any number
    of CPUs running [acquire] and [release] can reach from an initialised lock,
    at most one CPU is past its [xchg] and not yet past the store that frees the
    lock. *)
Theorem mutual_exclusion s i j p q :
  reachable s -> phases s !! i = Some p -> phases s !! j = Some q ->
  owns p = true -> owns q = true -> i = j.
Proof. intros Hr%reachable_inv. eauto using inv_excl. Qed.

(** Two CPUs; CPU 1 gets the lock while CPU 0 spins. *)
Lemma mutual_exclusion_witness :
  let s0 := State 0 None {[0%nat := Outside; 1%nat := Outside]} in
  let s := State 1 (Some 1%nat) {[0%nat := Spin; 1%nat := Critical]} in
  rtc step s0 s /\ forall j q, phases s !! j = Some q -> owns q = true -> 1%nat = j.
Proof.
  intros s0 s. assert (rtc step s0 s) as Hs.
  { eapply rtc_l; [by apply (step_check_ok s0 1)|].
    eapply rtc_l; [by apply (step_check_ok _ 0)|].
    eapply rtc_l; [by apply (step_xchg_ok _ 1)|].
    eapply rtc_l; [by apply (step_set_cpu _ 1)|].
    match goal with |- rtc step ?a ?b => enough (a = b) as -> by apply rtc_refl end.
    unfold s, s0, goto. simpl. f_equal. }
  split; [done|]. intros j q Hj Hq.
  refine (mutual_exclusion s 1 j Critical q _ _ Hj eq_refl Hq); [|done].
  exists s0. split; [apply initial_two|done].
Defined.

(** the debugging checks of [acquire] and [release] never fire on a CPU
    that follows the protocol: although [holding] reads [lk->locked] and
    [lk->cpu] without synchronisation while other CPUs change them, no reachable
    state has a CPU that called [panic]. *)
Theorem no_spurious_panic s i msg :
  reachable s -> phases s !! i <> Some (Dead msg).
Proof. intros Hr%reachable_inv Hp. by apply (inv_alive s Hr) in Hp. Qed.

Lemma no_spurious_panic_witness :
  let s := State 1 None {[0%nat := Got; 1%nat := Outside]} in
  reachable s /\ phases s !! 1%nat <> Some (Dead "acquire").
Proof.
  intros s. set (s0 := State 0 None {[0%nat := Outside; 1%nat := Outside]}).
  assert (reachable s) as Hr.
  { exists s0. split.
    - apply initial_two.
    - eapply rtc_l; [by apply (step_check_ok s0 0)|].
      eapply rtc_l; [by apply (step_xchg_ok _ 0)|].
      match goal with |- rtc step ?a ?b => enough (a = b) as -> by apply rtc_refl end.
      unfold s, s0, goto. simpl. f_equal. }
  split; [done|]. exact (no_spurious_panic s 1 "acquire" Hr).
Defined.

End Mutex.

(** ** Sequential behaviour of acquire and release *)

Lemma holding_ok s i c : if_on (eflags s) = false -> running s i c ->
  holding s = (Ret (negb (locked (lk s) =? 0) && bool_decide (lkcpu (lk s) = Some i)), s).
Proof.
  intros He Hr. unfold holding. run_pure. destruct (locked (lk s) =? 0); [done|].
  by run_step (mycpu_ok s i c He Hr).
Qed.

(** The lock as held by CPU [i]. *)
Definition held_by (l : spinlock) (i : nat) : bool :=
  negb (locked l =? 0) && bool_decide (lkcpu l = Some i).

Lemma acquire_free s i c spins v :
  running s i c -> locked (lk s) = 0 ->
  exists s', acquire spins v s = (Ret true, s') /\
    running s' i (pushed (eflags s) c) /\ if_on (eflags s') = false /\
    lk s' = Spinlock 1 (lkname (lk s)) (Some i) (getcallerpcs (stack s) v) /\
    eflags s' = Z.ldiff (eflags s) FL_IF.
Proof.
  intros Hr Hl. destruct (pushcli_ok s i c Hr) as (s1 & H1 & Hr1 & He1 & Hl1 & Hs1).
  assert (if_on (eflags s1) = false) as Hoff by (rewrite He1; apply if_on_cli).
  unfold acquire. run_step H1. run_step (holding_ok s1 i _ Hoff Hr1).
  rewrite Hl1, Hl. cbn [Z.eqb negb andb]. run_pure.
  assert (acquire_spin spins v s1 =
    (Ret true, set_lk (fun l => Spinlock 1 (lkname l) (Some i) (getcallerpcs (stack s) v)) s1))
    as ->.
  { destruct spins; cbn [acquire_spin]; unfold xchg_locked; rewrite bind_assoc;
      run_pure; rewrite bind_assoc; run_pure; run_pure; rewrite Hl1, Hl; cbn [Z.eqb];
      match goal with |- bind mycpu _ ?s2 = _ =>
        run_step (mycpu_ok s2 i (pushed (eflags s) c) Hoff Hr1) end;
      run_pure; run_pure; unfold ret; simpl; by rewrite Hs1. }
  eexists. split; [done|]. simpl. by rewrite Hl1.
Qed.

(** Taking the lock again while holding it panics. *)
Lemma acquire_held s i c spins v :
  running s i c -> held_by (lk s) i = true ->
  exists s', acquire spins v s = (Panic "acquire", s').
Proof.
  intros Hr Hl. destruct (pushcli_ok s i c Hr) as (s1 & H1 & Hr1 & He1 & Hl1 & Hs1).
  assert (if_on (eflags s1) = false) as Hoff by (rewrite He1; apply if_on_cli).
  unfold acquire. run_step H1. run_step (holding_ok s1 i _ Hoff Hr1).
  fold (held_by (lk s1) i). rewrite Hl1, Hl. by eexists.
Qed.

Lemma release_held s i c :
  running s i c -> held_by (lk s) i = true -> if_on (eflags s) = false -> 0 < ncli c ->
  exists s', release s = (Ret tt, s') /\
    running s' i (set_ncli (fun n => n - 1) c) /\
    eflags s' = popped_eflags (set_ncli (fun n => n - 1) c) (eflags s) /\
    lk s' = Spinlock 0 (lkname (lk s)) None (<[0%nat := 0]> (pcs (lk s))).
Proof.
  intros Hr Hl He Hn. unfold release. run_step (holding_ok s i c He Hr).
  fold (held_by (lk s) i). rewrite Hl. cbn [negb]. run_pure. run_pure. run_pure.
  match goal with |- exists _, popcli ?s2 = _ /\ _ =>
    destruct (popcli_ok s2 i c Hr He Hn) as (s3 & H3 & Hr3 & He3 & Hl3 & _) end.
  exists s3. split_and!; done.
Qed.

Lemma release_not_held s i c :
  running s i c -> held_by (lk s) i = false -> if_on (eflags s) = false ->
  release s = (Panic "release", s).
Proof.
  intros Hr Hl He. unfold release. run_step (holding_ok s i c He Hr).
  fold (held_by (lk s) i). by rewrite Hl.
Qed.

(** Pushcli/popcli nesting ("it takes two popcli to undo two pushcli; if
    interrupts are off, then pushcli, popcli leaves them off").  From a CPU with
    no pushcli pending, [n+1] calls of [pushcli] leave interrupts off, and the
    [n+1] matching calls of [popcli] all return and restore the interrupt flag
    and the nesting depth, whether interrupts were on or off. *)
Theorem pushcli_popcli_nest n s i c :
  running s i c -> ncli c = 0 ->
  exists s1 s2, iter_m (S n) pushcli s = (Ret tt, s1) /\ if_on (eflags s1) = false /\
    iter_m (S n) popcli s1 = (Ret tt, s2) /\
    if_on (eflags s2) = if_on (eflags s) /\
    exists c', running s2 i c' /\ ncli c' = 0 /\ lk s2 = lk s.
Proof.
  intros Hr Hn. destruct (pushcli_ok s i c Hr) as (s0 & H0 & Hr0 & He0 & Hl0 & _).
  assert (pushed (eflags s) c = set_ncli (fun _ => 1) (set_intena (Z.land (eflags s) FL_IF) c)) as Hp.
  { unfold pushed. rewrite Hn. simpl. unfold set_ncli. simpl. by rewrite Hn. }
  rewrite Hp in Hr0.
  assert (if_on (eflags s0) = false) as Hoff by (rewrite He0; apply if_on_cli).
  destruct (iter_pushcli n s0 i _ Hr0 ltac:(done) Hoff) as (s1 & H1 & Hr1 & He1 & Hl1).
  rewrite <- He1 in Hoff.
  destruct (iter_popcli n s1 i _ Hr1 ltac:(simpl; lia) Hoff) as (s2 & H2 & Hr2 & He2 & Hl2).
  exists s1, s2. split_and!; [cbn [iter_m]; by run_step H0|done|done| |].
  - rewrite He2. simpl. unfold if_on at 2. destruct (Z.land (eflags s) FL_IF =? 0); [done|].
    by rewrite if_on_sti.
  - eexists. split_and!; [done|done|congruence].
Qed.

Lemma pushcli_popcli_nest_witness :
  let s := Mach [Cpu 0 1 0 0 None 0; Cpu 5 1 0 0 None 0] 5 FL_IF (Spinlock 0 "l" None []) ∅ in
  exists s1 s2, iter_m 3 pushcli s = (Ret tt, s1) /\ iter_m 3 popcli s1 = (Ret tt, s2) /\
    if_on (eflags s2) = true.
Proof.
  intros s.
  destruct (pushcli_popcli_nest 2 s 1 (Cpu 5 1 0 0 None 0)) as (s1 & s2 & H1 & _ & H2 & H3 & _);
    [by split|done|].
  exists s1, s2. by split_and!.
Defined.

(** [acquire] of a free lock followed by [release] returns, with interrupts
    off in between, and restores the interrupt flag and the free lock; a second
    [acquire] in between panics instead of deadlocking, and so does a second
    [release]. *)
Theorem acquire_release s i c spins v :
  running s i c -> locked (lk s) = 0 -> ncli c = 0 ->
  exists s1 s2, acquire spins v s = (Ret true, s1) /\ if_on (eflags s1) = false /\
    (exists s1', acquire spins v s1 = (Panic "acquire", s1')) /\
    release s1 = (Ret tt, s2) /\ locked (lk s2) = 0 /\
    if_on (eflags s2) = if_on (eflags s) /\
    (if_on (eflags s) = false -> release s2 = (Panic "release", s2)).
Proof.
  intros Hr Hl Hn.
  destruct (acquire_free s i c spins v Hr Hl) as (s1 & H1 & Hr1 & Hoff & Hl1 & He1).
  assert (held_by (lk s1) i = true) as Hh by (rewrite Hl1; unfold held_by; simpl; by case_bool_decide).
  destruct (release_held s1 i _ Hr1 Hh Hoff) as (s2 & H2 & Hr2 & He2 & Hl2).
  { unfold pushed. rewrite Hn. simpl. lia. }
  assert (if_on (eflags s2) = if_on (eflags s)) as Hif.
  { rewrite He2. unfold popped_eflags, pushed. rewrite Hn. simpl. rewrite Hn. simpl.
    unfold if_on at 2. destruct (Z.land (eflags s) FL_IF =? 0); simpl; [done|apply if_on_sti]. }
  exists s1, s2. split_and!; try done.
  - by eapply acquire_held.
  - by rewrite Hl2.
  - intros Hif0. eapply release_not_held; [done|by rewrite Hl2|congruence].
Qed.

Lemma acquire_release_witness :
  let s := Mach [Cpu 0 1 0 0 None 0] 0 FL_IF (Spinlock 0 "l" None []) ∅ in
  exists s1 s2, acquire 0 0 s = (Ret true, s1) /\ release s1 = (Ret tt, s2) /\
    if_on (eflags s2) = true.
Proof.
  intros s.
  destruct (acquire_release s 0 (Cpu 0 1 0 0 None 0) 0 0)
    as (s1 & s2 & H1 & _ & _ & H2 & _ & H3 & _); [by split|done|done|].
  exists s1, s2. by split_and!.
Defined.

(** ** Spin locks implement the lock interface of the components *)

(** The lock of machine [s], as CPU [i] sees it, is the flag [b]. *)
Record lock_flag (i : nat) (s : mach) (b : bool) : Prop := {
  lf_cpu : exists c, running s i c /\ (if b then 0 < ncli c else 0 <= ncli c);
  lf_off : b = true -> if_on (eflags s) = false;
  lf_held : held_by (lk s) i = b;
  lf_free : b = false -> locked (lk s) = 0;
}.

Definition flag_lens : lens bool bool := Lens id (fun f => f).

(** refinement.  As long as no other CPU holds the lock, [acquire] and
    [release] of spinlock.c simulate the operations on a held flag that the
    other components are written against: same outcome, panics included, and
    the flag tracks the lock. *)
Theorem spinlock_refines_flag i s b spins v :
  lock_flag i s b ->
  match acquire_flag flag_lens b with
  | (Ret _, b') => exists s', acquire spins v s = (Ret true, s') /\ lock_flag i s' b'
  | (Panic msg, _) => exists s', acquire spins v s = (Panic msg, s')
  | (Sleep _, _) => False
  end /\
  (if_on (eflags s) = false ->
   match release_flag flag_lens b with
   | (Ret _, b') => exists s', release s = (Ret tt, s') /\ lock_flag i s' b'
   | (Panic msg, _) => exists s', release s = (Panic msg, s')
   | (Sleep _, _) => False
   end).
Proof.
  intros [(c & Hr & Hn) Hoff Hh Hf]. destruct b; simpl.
  - split; [by eapply acquire_held|]. intros He.
    destruct (release_held s i c Hr Hh He Hn) as (s' & H1 & H2 & H3 & H4).
    exists s'. split; [done|]. split; [|done|by rewrite H4|by rewrite H4].
    eexists. split; [done|]. simpl. lia.
  - split.
    + destruct (acquire_free s i c spins v Hr (Hf eq_refl)) as (s' & H1 & H2 & H3 & H4 & _).
      exists s'. split; [done|]. split; [|done| |done].
      * eexists. split; [done|]. unfold pushed. destruct (ncli c =? 0); simpl; lia.
      * rewrite H4. unfold held_by. simpl. by case_bool_decide.
    + intros He. eexists. by eapply release_not_held.
Qed.

Lemma spinlock_refines_flag_witness :
  let s := Mach [Cpu 0 1 0 0 None 0] 0 FL_IF (Spinlock 0 "l" None []) ∅ in
  exists s', acquire 5 0 s = (Ret true, s') /\ lock_flag 0 s' true.
Proof.
  intros s. refine (proj1 (spinlock_refines_flag 0 s false 5 0 _)).
  split; [exists (Cpu 0 1 0 0 None 0); by split|done|done|done].
Defined.
