(* ===== verification/Kalloc.v ===== *)
(** * Physical page allocator (src/xv6/kalloc.c)

    The free list is threaded through the free pages themselves, as in the
    code: the first word of a free page is the address of the next one. *)
From S2P Require Import Prelude Mem Spinlock.

Definition PGSIZE : Z := 4096.

Definition PHYSTOP : Z := 536870912.

Definition V2P (a : Z) : Z := u32 (a - KERNBASE).

Definition P2V (a : Z) : Z := u32 (a + KERNBASE).

Definition PGROUNDUP (sz : Z) : Z := Z.land (u32 (sz + PGSIZE - 1)) (u32 (Z.lnot (PGSIZE - 1))).

Definition PGROUNDDOWN (a : Z) : Z := Z.land a (u32 (Z.lnot (PGSIZE - 1))).

(** [kmem] and the memory it manages. *)
Record kmem : Type := Kmem {
  kmem_lock : bool;
  use_lock : bool;
  freelist : Z;
  pmem : mem;
}.

Definition set_klock (f : bool -> bool) (k : kmem) : kmem :=
  Kmem (f (kmem_lock k)) (use_lock k) (freelist k) (pmem k).

Definition set_use_lock (b : bool) (k : kmem) : kmem :=
  Kmem (kmem_lock k) b (freelist k) (pmem k).

Definition set_freelist (v : Z) (k : kmem) : kmem :=
  Kmem (kmem_lock k) (use_lock k) v (pmem k).

Definition set_pmem (f : mem -> mem) (k : kmem) : kmem :=
  Kmem (kmem_lock k) (use_lock k) (freelist k) (f (pmem k)).

Definition klock : lens kmem bool := Lens kmem_lock set_klock.

Section kalloc.
(** [kend] is the linker symbol [end], the first address after the kernel. *)
Context (kend : Z).

Definition kfree (v : Z) : M kmem unit :=
  panic_if (negb (v mod PGSIZE =? 0) || (v <? kend) || (PHYSTOP <=? V2P v)) "kfree" ;;
  modify (set_pmem (fun m => memset m v 1 PGSIZE)) ;;
  use ← gets use_lock;
  when use (acquire_flag klock) ;;
  modify (fun k => set_pmem (fun m => st32 m v (freelist k)) k) ;;
  modify (set_freelist v) ;;
  use ← gets use_lock;
  when use (release_flag klock).

Definition kalloc : M kmem Z :=
  use ← gets use_lock;
  when use (acquire_flag klock) ;;
  r ← gets freelist;
  when (negb (r =? 0)) (modify (fun k => set_freelist (ld32 (pmem k) r) k)) ;;
  use ← gets use_lock;
  when use (release_flag klock) ;;
  ret r.

(** [for(; p + PGSIZE <= vend; p += PGSIZE) kfree(p);] *)
Fixpoint freerange_loop (fuel : nat) (p vend : Z) : M kmem unit :=
  if u32 (p + PGSIZE) <=? vend then
    match fuel with
    | O => panic "freerange: out of fuel"
    | S n => kfree p ;; freerange_loop n (u32 (p + PGSIZE)) vend
    end
  else ret tt.

Definition freerange (vstart vend : Z) : M kmem unit :=
  let p := PGROUNDUP vstart in
  freerange_loop (Z.to_nat ((vend - p) / PGSIZE)) p vend.

Definition kinit1 (vstart vend : Z) : M kmem unit :=
  modify (set_klock (fun _ => false)) ;;
  modify (set_use_lock false) ;;
  freerange vstart vend.

Definition kinit2 (vstart vend : Z) : M kmem unit :=
  freerange vstart vend ;;
  modify (set_use_lock true).

(** ** The free list *)
Definition valid_page (p : Z) : Prop :=
  p mod PGSIZE = 0 /\ kend <= p /\ KERNBASE <= p < KERNBASE + PHYSTOP.

Fixpoint is_list (m : mem) (h : Z) (l : list Z) : Prop :=
  match l with
  | [] => h = 0
  | p :: l' => h = p /\ is_list m (ld32 m p) l'
  end.

(** The allocator is at rest and its free pages are [l]. *)
Record kinv (k : kmem) (l : list Z) : Prop := {
  kinv_list : is_list (pmem k) (freelist k) l;
  kinv_nodup : NoDup l;
  kinv_valid : Forall valid_page l;
  kinv_lock : kmem_lock k = false;
}.

Lemma valid_page_check v : 0 <= v < 4294967296 ->
  (negb (v mod PGSIZE =? 0) || (v <? kend) || (PHYSTOP <=? V2P v)) = false <-> valid_page v.
Proof.
  intros Hv. unfold valid_page, V2P, PHYSTOP, KERNBASE, u32.
  rewrite !orb_false_iff, negb_false_iff, Z.eqb_eq, Z.ltb_ge, Z.leb_gt.
  split; intros H; destruct_and!; split_and!; try lia; zdm.
Qed.

Lemma valid_page_disjoint p q : valid_page p -> valid_page q -> p <> q ->
  p + PGSIZE <= q \/ q + PGSIZE <= p.
Proof. unfold valid_page, PGSIZE. intros (H1 & _) (H2 & _) H3. zdm. Qed.

(** Two memories that agree outside of page [v]. *)
Definition agree_off (v : Z) (m m' : mem) : Prop :=
  forall a, ~ (v <= a < v + PGSIZE) -> ld8 m' a = ld8 m a.

Lemma is_list_agree m m' v h l :
  agree_off v m m' -> valid_page v -> Forall valid_page l -> v ∉ l ->
  is_list m h l -> is_list m' h l.
Proof.
  intros Ha Hv Hl. revert h. induction Hl as [|p l Hp Hl IH]; intros h Hn; simpl; [done|].
  apply not_elem_of_cons in Hn as [Hne Hn]. intros [-> Hr]. split; [done|].
  rewrite (ld32_ext m m'); [by apply IH|]. intros b Hb. apply Ha.
  pose proof (valid_page_disjoint p v Hp Hv ltac:(congruence)). unfold PGSIZE in *. lia.
Qed.

(** ** Behaviour of the operations *)
Lemma kfree_run k v :
  valid_page v -> kmem_lock k = false ->
  kfree v k = (Ret tt, Kmem false (use_lock k) v
                         (st32 (memset (pmem k) v 1 PGSIZE) v (freelist k))).
Proof.
  intros Hv Hl. unfold kfree.
  rewrite (proj2 (valid_page_check v ltac:(unfold valid_page, KERNBASE, PHYSTOP in Hv; lia)) Hv).
  destruct k as [lk [] fl m]; simpl in *; subst; done.
Qed.

Lemma kfree_panic k v :
  0 <= v < 4294967296 -> ~ valid_page v -> kfree v k = (Panic "kfree", k).
Proof.
  intros Hr Hv. unfold kfree. destruct (negb _ || _ || _) eqn:E; [done|].
  by apply valid_page_check in E.
Qed.

Lemma kalloc_run k :
  kmem_lock k = false ->
  kalloc k = (Ret (freelist k),
              if freelist k =? 0 then k else set_freelist (ld32 (pmem k) (freelist k)) k).
Proof.
  intros Hl. unfold kalloc.
  destruct k as [lk [] fl m]; cbn [kmem_lock freelist pmem] in *; subst;
    destruct (fl =? 0) eqn:E; cbv [bind gets when ret acquire_flag release_flag]; simpl;
    by rewrite ?E.
Qed.

Lemma kfree_page_agree v m x : valid_page v ->
  agree_off v m (st32 (memset m v 1 PGSIZE) v x).
Proof.
  intros Hv a Ha. unfold valid_page, KERNBASE, PHYSTOP in Hv.
  rewrite ld8_st32_ne by (unfold PGSIZE in *; lia).
  rewrite memset_bytes by (unfold PGSIZE; lia). case_bools.
Qed.

Lemma kfree_inv k l v :
  kinv k l -> valid_page v -> v ∉ l ->
  exists k', kfree v k = (Ret tt, k') /\ kinv k' (v :: l) /\
    agree_off v (pmem k) (pmem k') /\ use_lock k' = use_lock k.
Proof.
  intros [H1 H2 H3 H4] Hv Hn. rewrite (kfree_run k v Hv H4). eexists. split; [done|].
  assert (agree_off v (pmem k) (st32 (memset (pmem k) v 1 PGSIZE) v (freelist k))) as Ha
    by by apply kfree_page_agree.
  split_and!; [|done|done]. split; simpl; [|by constructor|by constructor|done].
  split; [done|]. rewrite ld32_st32_eq.
  - by eapply is_list_agree.
  - destruct l as [|p l]; simpl in H1; [lia|]. destruct H1 as [-> _].
    inversion H3 as [|? ? Hp]. unfold valid_page, KERNBASE, PHYSTOP in Hp. lia.
Qed.

Lemma kalloc_inv k p l :
  kinv k (p :: l) ->
  exists k', kalloc k = (Ret p, k') /\ kinv k' l /\ pmem k' = pmem k /\
    use_lock k' = use_lock k.
Proof.
  intros [[H1 H1'] H2 H3 H4]. rewrite (kalloc_run k H4), H1.
  inversion_clear H3 as [|? ? Hp Hl]. inversion_clear H2.
  destruct (p =? 0) eqn:E; bool_to_prop.
  - unfold valid_page, KERNBASE in Hp. lia.
  - eexists. split; [done|]. split_and!; [by split|done|done].
Qed.

Lemma kalloc_empty k : kinv k [] -> kalloc k = (Ret 0, k).
Proof. intros [H1 _ _ H4]. simpl in H1. by rewrite (kalloc_run k H4), H1. Qed.

(** ** Initialisation *)
Definition pages_from (p : Z) (n : nat) : list Z := (fun i => p + PGSIZE * Z.of_nat i) <$> seq 0 n.

Lemma pages_from_S p n : pages_from p (S n) = p :: pages_from (p + PGSIZE) n.
Proof.
  unfold pages_from. simpl. f_equal; [lia|].
  rewrite <- fmap_S_seq, <- list_fmap_compose. apply list_fmap_ext. intros i x _. simpl. lia.
Qed.

Lemma elem_of_pages_from p n x : x ∈ pages_from p n -> p <= x < p + PGSIZE * Z.of_nat n.
Proof.
  unfold pages_from. intros (i & -> & Hi)%list_elem_of_fmap.
  apply elem_of_seq in Hi. unfold PGSIZE. lia.
Qed.

Lemma freerange_loop_inv n k l p vend :
  kinv k l -> Forall valid_page (pages_from p n) ->
  (forall x, x ∈ pages_from p n -> x ∉ l) ->
  0 <= p -> p + PGSIZE * Z.of_nat n <= vend < p + PGSIZE * Z.of_nat n + PGSIZE ->
  vend < 4294963200 ->
  exists k', freerange_loop n p vend k = (Ret tt, k') /\
    kinv k' (rev (pages_from p n) ++ l) /\ use_lock k' = use_lock k.
Proof.
  revert k l p. induction n as [|n IH]; intros k l p Hk Hv Hd H0 Hr Hm; simpl freerange_loop.
  - rewrite u32_small by (unfold PGSIZE in *; lia).
    destruct (_ <=? _) eqn:E; bool_to_prop; [unfold PGSIZE in *; lia|]. by exists k.
  - rewrite u32_small by (unfold PGSIZE in *; lia).
    destruct (_ <=? _) eqn:E; bool_to_prop; [|unfold PGSIZE in *; lia].
    rewrite pages_from_S in Hv, Hd. inversion Hv as [|? ? Hp Hv']; subst.
    destruct (kfree_inv k l p Hk Hp) as (k1 & H1 & Hk1 & _ & Hu1); [apply Hd; set_solver|].
    run_step H1.
    destruct (IH k1 (p :: l) (p + PGSIZE) Hk1 Hv') as (k2 & H2 & Hk2 & Hu2);
      try (unfold PGSIZE in *; lia).
    { intros x Hx. apply not_elem_of_cons. split; [|apply Hd; set_solver].
      apply elem_of_pages_from in Hx. unfold PGSIZE in *. lia. }
    exists k2. rewrite H2. split_and!; [done| |congruence].
    rewrite pages_from_S. simpl. by rewrite <- app_assoc.
Qed.

(** ** Clients of the allocator

    A client holds pages it was given, writes to them as it likes, and frees
    pages it holds. *)
Inductive kstep : kmem * list Z -> kmem * list Z -> Prop :=
| ks_alloc k held p k' :
    kalloc k = (Ret p, k') -> p <> 0 -> kstep (k, held) (k', p :: held)
| ks_alloc_fail k held k' :
    kalloc k = (Ret 0, k') -> kstep (k, held) (k', held)
| ks_free k h1 p h2 k' :
    kfree p k = (Ret tt, k') -> kstep (k, h1 ++ p :: h2) (k', h1 ++ h2)
| ks_write k held p m' :
    p ∈ held -> agree_off p (pmem k) m' -> kstep (k, held) (set_pmem (fun _ => m') k, held).

(** The free pages and the pages held are the pages [l0], each once. *)
Definition conserved (l0 : list Z) (kh : kmem * list Z) : Prop :=
  exists l, kinv kh.1 l /\ kh.2 ++ l ≡ₚ l0.

Lemma kstep_conserved l0 a b :
  NoDup l0 -> Forall valid_page l0 -> conserved l0 a -> kstep a b -> conserved l0 b.
Proof.
  intros Hnd Hva (l & Hk & Hp) Hs.
  destruct Hs as [k held p k' H Hp0|k held k' H|k h1 p h2 k' H|k held p m' Hin Ha];
    cbn [fst snd] in *.
  - destruct l as [|q l].
    + rewrite (kalloc_empty k Hk) in H. simplify_eq.
    + destruct (kalloc_inv k q l Hk) as (k1 & H1 & Hk1 & _). rewrite H1 in H. simplify_eq.
      exists l. split; [done|]. simpl. rewrite <- Hp. by rewrite <- Permutation_middle.
  - destruct l as [|q l].
    + rewrite (kalloc_empty k Hk) in H. simplify_eq. by exists [].
    + destruct (kalloc_inv k q l Hk) as (k1 & H1 & Hk1 & _). rewrite H1 in H.
      injection H as -> <-. destruct Hk as [_ _ Hv _]. inversion Hv as [|? ? Hq]. unfold valid_page, KERNBASE in Hq. lia.
  - rewrite <- Hp in Hnd, Hva.
    assert (valid_page p) as Hpv by (eapply Forall_elem; [exact Hva|set_solver]).
    assert (p ∉ l) as Hpl.
    { apply NoDup_app in Hnd as (_ & Hd & _). apply Hd. set_solver. }
    destruct (kfree_inv k l p Hk Hpv Hpl) as (k1 & H1 & Hk1 & _). rewrite H1 in H. simplify_eq.
    exists (p :: l). split; [done|]. simpl. rewrite <- Hp.
    rewrite <- !app_assoc. simpl. f_equiv. symmetry. apply Permutation_middle.
  - exists l. split; [|done]. destruct Hk as [H1 H2 H3 H4]. split; try done. simpl.
    rewrite <- Hp in Hnd, Hva.
    eapply is_list_agree; [done|eapply Forall_elem; [exact Hva|set_solver]|done| |done].
    apply NoDup_app in Hnd as (_ & Hd & _). by apply Hd.
Qed.

Lemma ksteps_conserved l0 a b :
  NoDup l0 -> Forall valid_page l0 -> conserved l0 a -> rtc kstep a b -> conserved l0 b.
Proof. intros H1 H2 Ha Hs. induction Hs; eauto using kstep_conserved. Qed.

(** C29: conservation of pages.  Starting from a free list [l0], after any
    sequence of [kalloc], [kfree] of held pages and writes to held pages, the
    pages held and the free pages are together exactly [l0], each once: no page
    is ever handed out twice, lost, or free while held; [kalloc] fails only when
    every page is held; and [kfree] of a held page never panics. *)
Theorem kalloc_conservation l0 k0 k held :
  kinv k0 l0 -> rtc kstep (k0, []) (k, held) ->
  NoDup held /\ (exists l, kinv k l /\ held ++ l ≡ₚ l0) /\
  (forall k', kalloc k = (Ret 0, k') -> held ≡ₚ l0) /\
  (forall p, p ∈ held -> exists k', kfree p k = (Ret tt, k')).
Proof.
  intros H0 Hs. pose proof (kinv_nodup _ _ H0) as Hnd. pose proof (kinv_valid _ _ H0) as Hva.
  assert (conserved l0 (k, held)) as (l & Hk & Hp).
  { eapply ksteps_conserved; [done|done| |done]. by exists l0. }
  simpl in *. rewrite <- Hp in Hnd, Hva. apply NoDup_app in Hnd as (Hn1 & Hn2 & _).
  split_and!; [done|by exists l| |].
  - intros k' Hal. destruct l as [|q l]; [by rewrite app_nil_r in Hp|].
    destruct (kalloc_inv k q l Hk) as (k1 & H1 & _). rewrite H1 in Hal.
    injection Hal as -> <-. destruct Hk as [_ _ Hv _]. inversion Hv as [|? ? Hq]. unfold valid_page, KERNBASE in Hq. lia.
  - intros p Hin. destruct (kfree_inv k l p Hk) as (k1 & H1 & _); [|by apply Hn2|eauto].
    eapply Forall_elem; [exact Hva|set_solver].
Qed.

(** [kinit1] puts on the free list exactly the whole pages of the range it
    is given, each once and each of them valid, and leaves the allocator
    unlocked with locking off. *)
Theorem kinit1_free_pages k vstart n vend :
  kend <= PGROUNDUP vstart -> KERNBASE <= PGROUNDUP vstart ->
  PGROUNDUP vstart mod PGSIZE = 0 ->
  PGROUNDUP vstart + PGSIZE * Z.of_nat n <= vend < PGROUNDUP vstart + PGSIZE * Z.of_nat n + PGSIZE ->
  vend <= KERNBASE + PHYSTOP -> freelist k = 0 ->
  exists k', kinit1 vstart vend k = (Ret tt, k') /\
    kinv k' (rev (pages_from (PGROUNDUP vstart) n)) /\ use_lock k' = false.
Proof.
  intros He Hb Ha Hn Hv Hf. unfold kinit1, freerange. run_pure. run_pure.
  set (p := PGROUNDUP vstart) in *.
  replace (Z.to_nat ((vend - p) / PGSIZE)) with n
    by (unfold PGSIZE in *; apply Nat2Z.inj; rewrite Z2Nat.id; zdm).
  edestruct (freerange_loop_inv n) as (k' & H1 & H2 & H3); cycle 6.
  - exists k'. rewrite H1. split_and!; [done|by rewrite app_nil_r in H2|done].
  - split; [done|constructor|constructor|done].
  - apply elem_Forall. intros x Hx. pose proof (elem_of_pages_from p n x Hx).
    unfold pages_from in Hx. apply list_elem_of_fmap in Hx as (i & -> & _).
    unfold valid_page, PGSIZE, KERNBASE, PHYSTOP in *. split_and!; zdm.
  - set_solver.
  - unfold KERNBASE in *. lia.
  - lia.
  - unfold KERNBASE, PHYSTOP in *. lia.
Qed.
End kalloc.

(** The allocator right after boot, with one free page. *)
Definition one_page : kmem := Kmem false true 2151677952 ∅.

Lemma one_page_inv : kinv 2151677952 one_page [2151677952].
Proof.
  split; [by vm_compute|apply NoDup_singleton| |done].
  constructor; [|constructor]. split_and!; by vm_compute.
Qed.

(** The page is allocated; a second [kalloc] fails; freeing it succeeds. *)
Lemma kalloc_conservation_witness :
  let k := Kmem false true 0 ∅ in
  rtc (kstep 2151677952) (one_page, []) (k, [2151677952]) /\
  kalloc k = (Ret 0, k) /\ exists k', kfree 2151677952 2151677952 k = (Ret tt, k').
Proof.
  intros k.
  assert (rtc (kstep 2151677952) (one_page, []) (k, [2151677952])) as Hs.
  { apply rtc_once. by apply ks_alloc. }
  destruct (kalloc_conservation 2151677952 [2151677952] one_page k [2151677952]
    one_page_inv Hs) as (_ & _ & _ & Hf).
  split_and!; [done|reflexivity|]. apply Hf. set_solver.
Defined.

Lemma kinit1_free_pages_witness :
  exists k', kinit1 2151677952 2151677953 (2151677952 + 8192) (Kmem true true 0 ∅) = (Ret tt, k') /\
    use_lock k' = false.
Proof.
  destruct (kinit1_free_pages 2151677952 (Kmem true true 0 ∅) 2151677953 1 (2151677952 + 8192))
    as (k' & H & _ & Hu); try (vm_compute; split; congruence); try (vm_compute; congruence).
  by exists k'.
Defined.
