(* ===== verification/Mmu.v ===== *)
(** * Memory layout and the x86 MMU (src/xv6/mmu.h, src/xv6/memlayout.h)

    The constants and macros of page tables and segment descriptors that vm.c,
    proc.c and trap.c use. *)
From S2P Require Import Prelude Spinlock Kalloc.

Definition EXTMEM : Z := 1048576.

Definition DEVSPACE : Z := 4261412864.

Definition KERNLINK : Z := KERNBASE + EXTMEM.

Definition PCI_BAR_BASE : Z := 2147483648.

Definition PCI_VP_OFFSET : Z := 1073741824.

Definition PDXSHIFT : Z := 22.

Definition PTXSHIFT : Z := 12.

Definition NPDENTRIES : Z := 1024.

Definition PTE_P : Z := 1.

Definition PTE_W : Z := 2.

Definition PTE_U : Z := 4.

Definition PDX (va : Z) : Z := Z.land (Z.shiftr va PDXSHIFT) 1023.

Definition PTX (va : Z) : Z := Z.land (Z.shiftr va PTXSHIFT) 1023.

Definition PGADDR (d t o : Z) : Z :=
  u32 (Z.lor (Z.lor (Z.shiftl d PDXSHIFT) (Z.shiftl t PTXSHIFT)) o).

Definition PTE_ADDR (pte : Z) : Z := Z.land pte (u32 (Z.lnot 4095)).

Definition PTE_FLAGS (pte : Z) : Z := Z.land pte 4095.

(** src/xv6/param.h *)
Definition KSTACKSIZE : Z := 4096.

(** ** Segments *)
Definition SEG_KCODE : Z := 1.

Definition SEG_KDATA : Z := 2.

Definition SEG_UCODE : Z := 3.

Definition SEG_UDATA : Z := 4.

Definition SEG_TSS : Z := 5.

Definition NSEGS : Z := 6.

Definition DPL_USER : Z := 3.

Definition STA_X : Z := 8.

Definition STA_W : Z := 2.

Definition STA_R : Z := 2.

Definition STS_T32A : Z := 9.

(** [struct segdesc]; the macros below reduce each field to its width. *)
Record segdesc : Type := Segdesc {
  lim_15_0 : Z;
  base_15_0 : Z;
  base_23_16 : Z;
  sd_type : Z;
  sd_s : Z;
  sd_dpl : Z;
  sd_p : Z;
  lim_19_16 : Z;
  sd_avl : Z;
  sd_rsv1 : Z;
  sd_db : Z;
  sd_g : Z;
  base_31_24 : Z;
}.

Definition SEG (type base lim dpl : Z) : segdesc :=
  Segdesc (Z.land (Z.shiftr lim 12) 65535) (Z.land base 65535) (Z.land (Z.shiftr base 16) 255)
    (type mod 16) 1 (dpl mod 4) 1 (Z.shiftr lim 28 mod 16) 0 0 1 1 (Z.shiftr base 24 mod 256).

Definition SEG16 (type base lim dpl : Z) : segdesc :=
  Segdesc (Z.land lim 65535) (Z.land base 65535) (Z.land (Z.shiftr base 16) 255)
    (type mod 16) 1 (dpl mod 4) 1 (Z.shiftr lim 16 mod 16) 0 0 1 0 (Z.shiftr base 24 mod 256).

Definition set_sd_s (v : Z) (d : segdesc) : segdesc :=
  Segdesc (lim_15_0 d) (base_15_0 d) (base_23_16 d) (sd_type d) v (sd_dpl d) (sd_p d) (lim_19_16 d)
    (sd_avl d) (sd_rsv1 d) (sd_db d) (sd_g d) (base_31_24 d).

Definition null_segdesc : segdesc := Segdesc 0 0 0 0 0 0 0 0 0 0 0 0 0.
