(* ===== verification/Vm.v ===== *)
(** * Virtual memory (src/xv6/vm.c)

    Page directories and page tables live in the byte memory of kalloc.c and are
    walked and changed by word loads and stores, as in the code; a pointer is a
    kernel virtual address, the null pointer is 0.  The segment descriptors and
    the task state that [switchuvm] sets are kept per CPU. *)
From S2P Require Import Prelude Mem Spinlock Kalloc Mmu.

(** The descriptor table and the task state of [struct cpu], and the registers
    loaded from them.  Of [struct taskstate], the fields the kernel sets. *)
Record desc : Type := Desc {
  gdt : list segdesc;
  ts_ss0 : Z;
  ts_esp0 : Z;
  ts_iomb : Z;
  gdtr : Z * Z;
  tr : Z;
  cr3 : Z;
}.

Definition null_desc : desc := Desc (replicate 6 null_segdesc) 0 0 0 (0, 0) 0 0.

Definition set_gdt (f : list segdesc -> list segdesc) (d : desc) : desc :=
  Desc (f (gdt d)) (ts_ss0 d) (ts_esp0 d) (ts_iomb d) (gdtr d) (tr d) (cr3 d).

Definition set_ts_ss0 (v : Z) (d : desc) : desc :=
  Desc (gdt d) v (ts_esp0 d) (ts_iomb d) (gdtr d) (tr d) (cr3 d).

Definition set_ts_esp0 (v : Z) (d : desc) : desc :=
  Desc (gdt d) (ts_ss0 d) v (ts_iomb d) (gdtr d) (tr d) (cr3 d).

Definition set_ts_iomb (v : Z) (d : desc) : desc :=
  Desc (gdt d) (ts_ss0 d) (ts_esp0 d) v (gdtr d) (tr d) (cr3 d).

Definition set_gdtr (v : Z * Z) (d : desc) : desc :=
  Desc (gdt d) (ts_ss0 d) (ts_esp0 d) (ts_iomb d) v (tr d) (cr3 d).

Definition set_tr (v : Z) (d : desc) : desc :=
  Desc (gdt d) (ts_ss0 d) (ts_esp0 d) (ts_iomb d) (gdtr d) v (cr3 d).

Definition set_cr3 (v : Z) (d : desc) : desc :=
  Desc (gdt d) (ts_ss0 d) (ts_esp0 d) (ts_iomb d) (gdtr d) (tr d) v.

(** [struct kmap] and [struct gpu] *)
Record kmap_entry : Type := Kmap {
  virt : Z;
  phys_start : Z;
  phys_end : Z;
  perm : Z;
}.

Record gpu : Type := Gpu {
  pvram_addr : Z;
  vvram_addr : Z;
  vram_size : Z;
}.

(** ** State: the allocator, the globals [kmap], [gpu] and [kpgdir], the CPUs *)
Record vst : Type := Vst {
  v_kmem : kmem;
  v_kmap : list kmap_entry;
  v_gpu : gpu;
  v_kpgdir : Z;
  v_mach : mach;
  v_desc : list desc;
}.

Definition upd_kmem (f : kmem -> kmem) (s : vst) : vst :=
  Vst (f (v_kmem s)) (v_kmap s) (v_gpu s) (v_kpgdir s) (v_mach s) (v_desc s).

Definition upd_kmap (f : list kmap_entry -> list kmap_entry) (s : vst) : vst :=
  Vst (v_kmem s) (f (v_kmap s)) (v_gpu s) (v_kpgdir s) (v_mach s) (v_desc s).

Definition set_kpgdir (v : Z) (s : vst) : vst :=
  Vst (v_kmem s) (v_kmap s) (v_gpu s) v (v_mach s) (v_desc s).

Definition upd_mach (f : mach -> mach) (s : vst) : vst :=
  Vst (v_kmem s) (v_kmap s) (v_gpu s) (v_kpgdir s) (f (v_mach s)) (v_desc s).

Definition upd_desc (f : list desc -> list desc) (s : vst) : vst :=
  Vst (v_kmem s) (v_kmap s) (v_gpu s) (v_kpgdir s) (v_mach s) (f (v_desc s)).

Definition kmem_lens : lens vst kmem := Lens v_kmem upd_kmem.

Definition mach_lens : lens vst mach := Lens v_mach upd_mach.

Definition vmem (s : vst) : mem := pmem (v_kmem s).

(** Word loads and stores, and the string routines on kernel memory. *)
Definition load (a : Z) : M vst Z := gets (fun s => ld32 (vmem s) a).

Definition store (a v : Z) : M vst unit := modify (upd_kmem (set_pmem (fun m => st32 m a v))).

Definition vmemset (dst c n : Z) : M vst unit := modify (upd_kmem (set_pmem (fun m => memset m dst c n))).

Definition vmemmove (dst src n : Z) : M vst unit :=
  modify (upd_kmem (set_pmem (fun m => memmove m dst src n))).

(** Bytes from outside the modelled memory, stored at [dst]. *)
Fixpoint st_bytes (m : mem) (dst : Z) (l : list Z) : mem :=
  match l with
  | [] => m
  | b :: l' => st_bytes (st8 m dst b) (u32 (dst + 1)) l'
  end.

Definition copy_in (dst : Z) (l : list Z) : M vst unit :=
  modify (upd_kmem (set_pmem (fun m => st_bytes m dst l))).

(** The x86 MMU: the page-table entry it finds for address [va] of the directory at
    [pgdir], and the memory that a supervisor access to [va] reaches. *)
Definition mmu_pte (m : mem) (pgdir va : Z) : Z :=
  let e := ld32 m (pgdir + 4 * (va / 4194304)) in
  if Z.land e PTE_P =? 0 then 0
  else ld32 m (P2V (PTE_ADDR e) + 4 * ((va / 4096) mod 1024)).

Definition mmu_addr (m : mem) (pgdir va : Z) : option Z :=
  let e := mmu_pte m pgdir va in
  if Z.land e PTE_P =? 0 then None else Some (P2V (PTE_ADDR e) + va mod 4096).

Section Vm.
(** The linker symbols [end] and [data], and the addresses of the per-CPU
    structures. *)
Context (kend kdata : Z) (cpu_gdt cpu_ts : nat -> Z).

Definition vkalloc : M vst Z := zoom kmem_lens kalloc.

Definition vkfree (v : Z) : M vst unit := zoom kmem_lens (kfree kend v).

Definition vmycpu : M vst nat := zoom mach_lens mycpu.

Definition mydesc (f : desc -> desc) : M vst unit :=
  i ← vmycpu; modify (upd_desc (alter f i)).

(** ** vm.c *)
Definition lgdt (i : nat) (size : Z) : M vst unit :=
  modify (upd_desc (alter (set_gdtr (cpu_gdt i, u16 (size - 1))) i)).

Definition seginit : M vst unit :=
  c ← vmycpu;
  modify (upd_desc (alter (set_gdt (fun g =>
    <[Z.to_nat SEG_UDATA := SEG STA_W 0 4294967295 DPL_USER]>
    (<[Z.to_nat SEG_UCODE := SEG (Z.lor STA_X STA_R) 0 4294967295 DPL_USER]>
    (<[Z.to_nat SEG_KDATA := SEG STA_W 0 4294967295 0]>
    (<[Z.to_nat SEG_KCODE := SEG (Z.lor STA_X STA_R) 0 4294967295 0]> g))))) c)) ;;
  lgdt c (8 * NSEGS).

Definition walkpgdir (pgdir va : Z) (alloc : bool) : M vst Z :=
  let pde := u32 (pgdir + 4 * PDX va) in
  e ← load pde;
  if negb (Z.land e PTE_P =? 0) then
    ret (u32 (P2V (PTE_ADDR e) + 4 * PTX va))
  else if negb alloc then ret 0
  else
    pgtab ← vkalloc;
    if pgtab =? 0 then ret 0
    else
      vmemset pgtab 0 PGSIZE ;;
      store pde (Z.lor (Z.lor (Z.lor (V2P pgtab) PTE_P) PTE_W) PTE_U) ;;
      ret (u32 (pgtab + 4 * PTX va)).

(** The [for(;;)] of [mappages]: it ends when [a] reaches [last], after at most
    [fuel] rounds. *)
Fixpoint mappages_loop (fuel : nat) (pgdir a last pa perm : Z) : M vst Z :=
  match fuel with
  | O => panic "mappages: out of fuel"
  | S n =>
      pte ← walkpgdir pgdir a true;
      if pte =? 0 then ret (-1)
      else
        e ← load pte;
        panic_if (negb (Z.land e PTE_P =? 0)) "remap" ;;
        store pte (Z.lor (Z.lor pa perm) PTE_P) ;;
        if a =? last then ret 0
        else mappages_loop n pgdir (u32 (a + PGSIZE)) last (u32 (pa + PGSIZE)) perm
  end.

Definition mappages (pgdir va size pa perm : Z) : M vst Z :=
  let a := PGROUNDDOWN va in
  let last := PGROUNDDOWN (u32 (va + size - 1)) in
  mappages_loop (S (Z.to_nat (u32 (last - a) / PGSIZE))) pgdir a last pa perm.

Fixpoint deallocuvm_loop (fuel : nat) (pgdir a oldsz : Z) : M vst unit :=
  if a <? oldsz then
    match fuel with
    | O => panic "deallocuvm: out of fuel"
    | S n =>
        pte ← walkpgdir pgdir a false;
        if pte =? 0 then
          deallocuvm_loop n pgdir (u32 (u32 (PGADDR (PDX a + 1) 0 0 - PGSIZE) + PGSIZE)) oldsz
        else
          e ← load pte;
          when (negb (Z.land e PTE_P =? 0))
            (let pa := PTE_ADDR e in
             panic_if (pa =? 0) "kfree" ;;
             vkfree (P2V pa) ;;
             store pte 0) ;;
          deallocuvm_loop n pgdir (u32 (a + PGSIZE)) oldsz
    end
  else ret tt.

(** Each round moves [a] up by a page or more. *)
Definition uvm_fuel (a sz : Z) : nat := Z.to_nat ((sz - a) / PGSIZE + 1).

Definition deallocuvm (pgdir oldsz newsz : Z) : M vst Z :=
  if oldsz <=? newsz then ret oldsz
  else
    let a := PGROUNDUP newsz in
    deallocuvm_loop (uvm_fuel a oldsz) pgdir a oldsz ;;
    ret newsz.

Definition freevm (pgdir : Z) : M vst unit :=
  panic_if (pgdir =? 0) "freevm: no pgdir" ;;
  _ ← deallocuvm pgdir KERNBASE 0;
  for_each (seqZ 0 NPDENTRIES) (fun i =>
    e ← load (u32 (pgdir + 4 * i));
    when (negb (Z.land e PTE_P =? 0)) (vkfree (P2V (PTE_ADDR e)))) ;;
  vkfree pgdir.

(** The initial value of [kmap]. *)
Definition kmap_init : list kmap_entry := [
  Kmap KERNBASE 0 EXTMEM PTE_W;
  Kmap KERNLINK (V2P KERNLINK) (V2P kdata) 0;
  Kmap kdata (V2P kdata) PHYSTOP PTE_W;
  Kmap 0 0 0 0;
  Kmap (PCI_BAR_BASE + PCI_VP_OFFSET) PCI_BAR_BASE (268435456 + PCI_BAR_BASE) PTE_W;
  Kmap DEVSPACE DEVSPACE 0 PTE_W].

(** The local [vram] of [setupkvm]. *)
Definition vram_map (g : gpu) : kmap_entry :=
  Kmap (u32 (DEVSPACE - vram_size g)) (pvram_addr g) (u32 (pvram_addr g + vram_size g)) PTE_W.

Definition setupkvm : M vst Z :=
  g ← gets v_gpu;
  modify (upd_kmap (<[3%nat := vram_map g]>)) ;;
  pgdir ← vkalloc;
  if pgdir =? 0 then ret 0
  else
    vmemset pgdir 0 PGSIZE ;;
    panic_if (DEVSPACE <? P2V PHYSTOP) "PHYSTOP too high" ;;
    ks ← gets v_kmap;
    r ← for_until ks (fun k =>
      r ← mappages pgdir (virt k) (u32 (phys_end k - phys_start k)) (phys_start k) (perm k);
      if r <? 0 then freevm pgdir ;; ret (Some 0) else ret None);
    ret (default pgdir r).

Definition lcr3 (v : Z) : M vst unit := mydesc (set_cr3 v).

Definition switchkvm : M vst unit :=
  p ← gets v_kpgdir;
  lcr3 (V2P p).

Definition kvmalloc : M vst unit :=
  p ← setupkvm;
  modify (set_kpgdir p) ;;
  switchkvm.

(** [p]: the fields [kstack] and [pgdir] of the process, or the null pointer *)
Definition switchuvm (p : option (Z * Z)) : M vst unit :=
  match p with
  | None => panic "switchuvm: no process"
  | Some (kstack, pgdir) =>
      panic_if (kstack =? 0) "switchuvm: no kstack" ;;
      panic_if (pgdir =? 0) "switchuvm: no pgdir" ;;
      zoom mach_lens pushcli ;;
      i ← vmycpu;
      mydesc (set_gdt (<[Z.to_nat SEG_TSS := SEG16 STS_T32A (cpu_ts i) 103 0]>)) ;;
      mydesc (set_gdt (alter (set_sd_s 0) (Z.to_nat SEG_TSS))) ;;
      mydesc (set_ts_ss0 (Z.shiftl SEG_KDATA 3)) ;;
      mydesc (set_ts_esp0 (u32 (kstack + KSTACKSIZE))) ;;
      mydesc (set_ts_iomb 65535) ;;
      mydesc (set_tr (Z.shiftl SEG_TSS 3)) ;;
      lcr3 (V2P pgdir) ;;
      zoom mach_lens popcli
  end.

(** [init]: the [sz] bytes of the first program *)
Definition inituvm (pgdir : Z) (init : list Z) (sz : Z) : M vst unit :=
  panic_if (PGSIZE <=? sz) "inituvm: more than a page" ;;
  mem ← vkalloc;
  vmemset mem 0 PGSIZE ;;
  _ ← mappages pgdir 0 PGSIZE (V2P mem) (Z.lor PTE_W PTE_U);
  copy_in mem (take (Z.to_nat sz) init).

Fixpoint allocuvm_loop (fuel : nat) (pgdir a oldsz newsz : Z) : M vst Z :=
  if a <? newsz then
    match fuel with
    | O => panic "allocuvm: out of fuel"
    | S n =>
        mem ← vkalloc;
        if mem =? 0 then
          _ ← deallocuvm pgdir newsz oldsz;
          ret 0
        else
          vmemset mem 0 PGSIZE ;;
          r ← mappages pgdir a PGSIZE (V2P mem) (Z.lor PTE_W PTE_U);
          if r <? 0 then
            _ ← deallocuvm pgdir newsz oldsz;
            vkfree mem ;;
            ret 0
          else allocuvm_loop n pgdir (u32 (a + PGSIZE)) oldsz newsz
    end
  else ret newsz.

Definition allocuvm (pgdir oldsz newsz : Z) : M vst Z :=
  if KERNBASE <=? newsz then ret 0
  else if newsz <? oldsz then ret oldsz
  else
    let a := PGROUNDUP oldsz in
    allocuvm_loop (uvm_fuel a newsz) pgdir a oldsz newsz.

Definition clearpteu (pgdir uva : Z) : M vst unit :=
  pte ← walkpgdir pgdir uva false;
  panic_if (pte =? 0) "clearpteu" ;;
  e ← load pte;
  store pte (Z.land e (u32 (Z.lnot PTE_U))).

Fixpoint copyuvm_loop (fuel : nat) (pgdir d i sz : Z) : M vst Z :=
  if i <? sz then
    match fuel with
    | O => panic "copyuvm: out of fuel"
    | S n =>
        pte ← walkpgdir pgdir i false;
        panic_if (pte =? 0) "copyuvm: pte should exist" ;;
        e ← load pte;
        panic_if (Z.land e PTE_P =? 0) "copyuvm: page not present" ;;
        let pa := PTE_ADDR e in
        let flags := PTE_FLAGS e in
        mem ← vkalloc;
        if mem =? 0 then
          freevm d ;; ret 0
        else
          vmemmove mem (P2V pa) PGSIZE ;;
          r ← mappages d i PGSIZE (V2P mem) flags;
          if r <? 0 then freevm d ;; ret 0
          else copyuvm_loop n pgdir d (u32 (i + PGSIZE)) sz
    end
  else ret d.

Definition copyuvm (pgdir sz : Z) : M vst Z :=
  d ← setupkvm;
  if d =? 0 then ret 0
  else copyuvm_loop (uvm_fuel 0 sz) pgdir d 0 sz.

(** The code does not check that [walkpgdir] found an entry. *)
Definition uva2ka (pgdir uva : Z) : M vst Z :=
  pte ← walkpgdir pgdir uva false;
  e ← load pte;
  if Z.land e PTE_P =? 0 then ret 0
  else if Z.land e PTE_U =? 0 then ret 0
  else ret (P2V (PTE_ADDR e)).

(** [buf]: the [len] bytes at [p] *)
Fixpoint copyout_loop (fuel : nat) (pgdir va : Z) (buf : list Z) (len : Z) : M vst Z :=
  if 0 <? len then
    match fuel with
    | O => panic "copyout: out of fuel"
    | S k =>
        let va0 := PGROUNDDOWN va in
        pa0 ← uva2ka pgdir va0;
        if pa0 =? 0 then ret (-1)
        else
          let n := Z.min (PGSIZE - (va - va0)) len in
          copy_in (u32 (pa0 + (va - va0))) (take (Z.to_nat n) buf) ;;
          copyout_loop k pgdir (u32 (va0 + PGSIZE)) (drop (Z.to_nat n) buf) (len - n)
    end
  else ret 0.

Definition copyout (pgdir va : Z) (buf : list Z) (len : Z) : M vst Z :=
  copyout_loop (Z.to_nat (len / PGSIZE + 2)) pgdir va buf len.

(** [loaduvm] reads from an inode: [read off n] is [readi(ip, dst, off, n)], the
    return value and the bytes it stored. *)
Section Loaduvm.
Context {St : Type} (vl : lens St vst) (read : Z -> Z -> M St (Z * list Z)).

Fixpoint loaduvm_loop (fuel : nat) (pgdir addr offset sz i : Z) : M St Z :=
  if i <? sz then
    match fuel with
    | O => panic "loaduvm: out of fuel"
    | S k =>
        pte ← zoom vl (walkpgdir pgdir (u32 (addr + i)) false);
        panic_if (pte =? 0) "loaduvm: address should exist" ;;
        e ← zoom vl (load pte);
        let pa := PTE_ADDR e in
        let n := if sz - i <? PGSIZE then sz - i else PGSIZE in
        r ← read (u32 (offset + i)) n;
        zoom vl (copy_in (P2V pa) r.2) ;;
        if negb (u32 r.1 =? n) then ret (-1)
        else loaduvm_loop k pgdir addr offset sz (u32 (i + PGSIZE))
    end
  else ret 0.

Definition loaduvm (pgdir addr offset sz : Z) : M St Z :=
  panic_if (negb (addr mod PGSIZE =? 0)) "loaduvm: addr must be page aligned" ;;
  loaduvm_loop (uvm_fuel 0 sz) pgdir addr offset sz 0.

End Loaduvm.

End Vm.
