(* ===== verification/VmMap.v ===== *)
(** * Page tables: their contents, and walkpgdir and mappages on them

    [T] gives, for each present entry of a page directory, the page that holds
    the page table; [pte m T v] is the page-table entry of virtual page [v]. *)
From S2P Require Import Prelude Mem Spinlock Kalloc Mmu Vm.

#[local] Arguments memset : simpl never.
#[local] Arguments st32 : simpl never.
#[local] Arguments ld32 : simpl never.
#[local] Arguments st8 : simpl never.
#[local] Arguments ld8 : simpl never.

(** ** Arithmetic of addresses *)
Lemma land_high_mask e : 0 <= e < 4294967296 -> Z.land e 4294963200 = 4096 * (e / 4096).
Proof.
  intros He. change 4294963200 with (Z.shiftl (Z.ones 20) 12).
  change (e / 4096) with (e / 2 ^ 12). rewrite <- Z.shiftr_div_pow2, Z.mul_comm by lia.
  change (Z.shiftr e 12 * 4096) with (Z.shiftr e 12 * 2 ^ 12). rewrite <- Z.shiftl_mul_pow2 by lia.
  apply Z.bits_inj'. intros i Hi. rewrite Z.land_spec, !Z.shiftl_spec by lia.
  destruct (Z_lt_ge_dec i 12).
  - rewrite !(Z.testbit_neg_r _ (i - 12)) by lia. by rewrite andb_false_r.
  - rewrite Z.shiftr_spec by lia. replace (i - 12 + 12) with i by lia.
    destruct (Z_lt_ge_dec i 32).
    + rewrite Z.ones_spec_low by lia. by rewrite andb_true_r.
    + rewrite Z.ones_spec_high by lia. rewrite andb_false_r.
      destruct (decide (e = 0)) as [->|]; [by rewrite Z.bits_0|].
      rewrite Z.bits_above_log2; [done|lia|].
      assert (Z.log2 e < 32) by (apply Z.log2_lt_pow2; lia). lia.
Qed.

Lemma PTE_ADDR_eq e : 0 <= e < 4294967296 -> PTE_ADDR e = 4096 * (e / 4096).
Proof. intros. by apply land_high_mask. Qed.

Lemma PTE_FLAGS_eq e : PTE_FLAGS e = e mod 4096.
Proof. apply (land_ones_mod e 12). lia. Qed.

Lemma PGROUNDDOWN_eq a : 0 <= a < 4294967296 -> PGROUNDDOWN a = 4096 * (a / 4096).
Proof. intros. by apply land_high_mask. Qed.

Lemma PGROUNDUP_eq a : 0 <= a <= 4294963200 -> PGROUNDUP a = 4096 * ((a + 4095) / 4096).
Proof.
  intros. unfold PGROUNDUP, PGSIZE. replace (a + 4096 - 1) with (a + 4095) by lia.
  rewrite u32_small by lia. apply land_high_mask. lia.
Qed.

Lemma PDX_eq va : 0 <= va < 4294967296 -> PDX va = va / 4194304.
Proof.
  intros. unfold PDX, PDXSHIFT. rewrite (land_ones_mod _ 10), Z.shiftr_div_pow2 by lia.
  apply Z.mod_small. zdm.
Qed.

Lemma PTX_eq va : PTX va = (va / 4096) mod 1024.
Proof. unfold PTX, PTXSHIFT. by rewrite (land_ones_mod _ 10), Z.shiftr_div_pow2 by lia. Qed.

Lemma PDX_page v : 0 <= v < 1048576 -> PDX (4096 * v) = v / 1024.
Proof. intros. rewrite PDX_eq by lia. zdm. Qed.

Lemma PTX_page v : PTX (4096 * v) = v mod 1024.
Proof. rewrite PTX_eq, Z.mul_comm, Z.div_mul by lia. done. Qed.

(** An entry for the page at physical address [pa], present. *)
Lemma entry_lor pa fl : 0 <= fl < 4096 -> Z.lor (Z.lor (4096 * pa) fl) PTE_P = 4096 * pa + Z.lor fl PTE_P.
Proof.
  intros Hf. rewrite <- Z.lor_assoc, Z.mul_comm. apply (lor_mul_pow2 pa _ 12); [lia|].
  split; [apply Z.lor_nonneg; unfold PTE_P; lia|].
  destruct (decide (Z.lor fl PTE_P = 0)) as [->|Hn]; [lia|].
  assert (0 <= Z.lor fl PTE_P) by (apply Z.lor_nonneg; unfold PTE_P; lia).
  apply Z.log2_lt_pow2; [lia|]. rewrite Z.log2_lor by (unfold PTE_P; lia).
  apply Z.max_lub_lt; [|done].
  destruct (decide (fl = 0)) as [->|]; [done|]. apply Z.log2_lt_pow2; lia.
Qed.

Lemma flags_present fl : 0 <= fl < 4096 -> 0 <= Z.lor fl PTE_P < 4096 /\ Z.land (Z.lor fl PTE_P) PTE_P <> 0.
Proof.
  intros Hf.
  assert ((let x := Z.lor fl PTE_P in (0 <=? x) && (x <? 4096) && negb (Z.land x PTE_P =? 0)) = true) as H.
  { apply (below_spec 4096 (fun fl => let x := Z.lor fl PTE_P in (0 <=? x) && (x <? 4096) && negb (Z.land x PTE_P =? 0)));
      [by vm_compute|lia]. }
  simpl in H. bool_to_prop. lia.
Qed.

Lemma present_low a fl : Z.land (4096 * a + fl) PTE_P = Z.land fl PTE_P.
Proof.
  unfold PTE_P. change 1 with (2 ^ 1 - 1). rewrite !land_ones_mod by lia.
  change (2 ^ 1) with 2. rewrite Z.add_mod by lia.
  replace (4096 * a) with (2048 * a * 2) by lia. rewrite Z.mod_mul, Z.add_0_l, Z.mod_mod by lia. done.
Qed.

Lemma P2V_V2P p : 0 <= p < 4294967296 -> P2V (V2P p) = p.
Proof. unfold P2V, V2P, u32, KERNBASE. intros. rewrite Zplus_mod_idemp_l. rewrite <- (Z.mod_small p 4294967296) at 2 by lia. f_equal. lia. Qed.

Section VmMap.
Context (kend kdata : Z) (cpu_gdt cpu_ts : nat -> Z).

Abbreviation valid := (valid_page kend).

Lemma valid_range p : valid p -> 2147483648 <= p <= 2684350464 /\ p mod 4096 = 0.
Proof. unfold valid_page, KERNBASE, PHYSTOP, PGSIZE. intros (H1 & _ & H2). split; [zdm|done]. Qed.

Lemma valid_V2P p : valid p -> V2P p = 4096 * ((p - 2147483648) / 4096) /\ 0 <= (p - 2147483648) / 4096 < 131072.
Proof. intros [H1 H2]%valid_range. unfold V2P, KERNBASE. rewrite u32_small by lia. zdm. Qed.

(** ** Page tables in memory *)
Definition pt_pages (pgdir : Z) (T : gmap Z Z) : list Z := pgdir :: (map_to_list T).*2.

Record pt_rep (m : mem) (pgdir : Z) (T : gmap Z Z) : Prop := {
  pt_valid : Forall valid (pt_pages pgdir T);
  pt_nodup : NoDup (pt_pages pgdir T);
  pt_dom : forall i p, T !! i = Some p -> 0 <= i < 1024;
  pt_some : forall i p, T !! i = Some p ->
    PTE_ADDR (ld32 m (pgdir + 4 * i)) = V2P p /\ Z.land (ld32 m (pgdir + 4 * i)) PTE_P <> 0;
  pt_none : forall i, 0 <= i < 1024 -> T !! i = None -> Z.land (ld32 m (pgdir + 4 * i)) PTE_P = 0;
}.

Definition pte (m : mem) (T : gmap Z Z) (v : Z) : Z :=
  match T !! (v / 1024) with
  | Some p => ld32 m (p + 4 * (v mod 1024))
  | None => 0
  end.

(** The memories agree outside of the pages [ps]. *)
Definition agree_pages (ps : list Z) (m m' : mem) : Prop :=
  forall a, (forall p, p ∈ ps -> ~ (p <= a < p + PGSIZE)) -> ld8 m' a = ld8 m a.

Lemma agree_pages_refl ps m : agree_pages ps m m.
Proof. done. Qed.

Lemma agree_pages_trans ps qs m1 m2 m3 :
  agree_pages ps m1 m2 -> agree_pages qs m2 m3 -> ps ⊆ qs -> agree_pages qs m1 m3.
Proof. intros H1 H2 Hs a Ha. rewrite H2, H1 by auto. done. Qed.

Lemma agree_pages_mono ps qs m m' : agree_pages ps m m' -> ps ⊆ qs -> agree_pages qs m m'.
Proof. intros H Hs a Ha. apply H. auto. Qed.

Lemma elem_of_tables pgdir T i p : T !! i = Some p -> p ∈ pt_pages pgdir T.
Proof.
  intros H. apply list_elem_of_further, list_elem_of_fmap. exists (i, p).
  split; [done|]. by apply elem_of_map_to_list.
Qed.

Lemma pt_table_valid m pgdir T i p : pt_rep m pgdir T -> T !! i = Some p -> valid p.
Proof. intros H Hi. eapply Forall_elem; [apply (pt_valid _ _ _ H)|by eapply elem_of_tables]. Qed.

Lemma pt_dir_valid m pgdir T : pt_rep m pgdir T -> valid pgdir.
Proof. intros H. pose proof (pt_valid _ _ _ H) as Hv. by inversion Hv. Qed.

Lemma pt_ne_dir m pgdir T i p : pt_rep m pgdir T -> T !! i = Some p -> p <> pgdir.
Proof.
  intros H Hi ->. pose proof (pt_nodup _ _ _ H) as Hn. apply NoDup_cons in Hn as [Hn _].
  apply Hn, list_elem_of_fmap. exists (i, pgdir). split; [done|]. by apply elem_of_map_to_list.
Qed.

Lemma pt_inj m pgdir T i j p : pt_rep m pgdir T -> T !! i = Some p -> T !! j = Some p -> i = j.
Proof.
  intros H Hi Hj. pose proof (pt_nodup _ _ _ H) as Hn. apply NoDup_cons in Hn as [_ Hn].
  apply elem_of_map_to_list in Hi, Hj.
  apply list_elem_of_lookup in Hi as [x Hx], Hj as [y Hy].
  assert (x = y) as ->; [|congruence].
  eapply (NoDup_lookup _ _ _ p Hn); rewrite list_lookup_fmap; [by rewrite Hx|by rewrite Hy].
Qed.

(** A word of a page other than those changed. *)
Lemma ld32_off ps m m' p a :
  agree_pages ps m m' -> Forall valid ps -> valid p -> p ∉ ps -> p <= a -> a + 4 <= p + PGSIZE ->
  ld32 m' a = ld32 m a.
Proof.
  intros Ha Hps Hp Hn H1 H2. apply ld32_ext. intros b Hb. apply Ha. intros q Hq Hr.
  pose proof (Forall_elem _ _ _ Hps Hq) as Hqv.
  destruct (valid_page_disjoint kend p q Hp Hqv); [congruence|lia..].
Qed.

Lemma pt_rep_agree ps m m' pgdir T :
  pt_rep m pgdir T -> agree_pages ps m m' -> Forall valid ps ->
  (forall p, p ∈ ps -> p ∉ pt_pages pgdir T) ->
  pt_rep m' pgdir T /\ forall v, pte m' T v = pte m T v.
Proof.
  intros H Ha Hv Hd. assert (forall i, 0 <= i < 1024 -> ld32 m' (pgdir + 4 * i) = ld32 m (pgdir + 4 * i)) as E.
  { intros i Hi. eapply ld32_off; [done|done|by eapply pt_dir_valid| |lia|unfold PGSIZE; lia].
    intros Hp. apply (Hd _ Hp). left. }
  split.
  - destruct H as [H1 H2 H3 H4 H5]. split; try done.
    + intros i p Hi. rewrite E by eauto. eauto.
    + intros i Hi Hn. rewrite E by done. eauto.
  - intros v. unfold pte. destruct (T !! _) as [p|] eqn:Et; [|done].
    eapply ld32_off; [done|done|by eapply pt_table_valid| | |].
    + intros Hp. apply (Hd _ Hp). by eapply elem_of_tables.
    + zdm.
    + unfold PGSIZE. zdm.
Qed.

(** A store to the entry of page [v]. *)
Lemma pt_rep_store m pgdir T v p x :
  pt_rep m pgdir T -> 0 <= v -> T !! (v / 1024) = Some p -> 0 <= x < 4294967296 ->
  let m' := st32 m (p + 4 * (v mod 1024)) x in
  pt_rep m' pgdir T /\ agree_pages [p] m m' /\
  forall v', 0 <= v' -> pte m' T v' = if v' =? v then x else pte m T v'.
Proof.
  intros H Hv0 Hp Hx m'. pose proof (pt_table_valid _ _ _ _ _ H Hp) as Hpv.
  assert (agree_pages [p] m m') as Ha.
  { intros a Hna. apply ld8_st32_ne. specialize (Hna p ltac:(set_solver)). unfold PGSIZE in Hna. zdm. }
  assert (forall i, 0 <= i < 1024 -> ld32 m' (pgdir + 4 * i) = ld32 m (pgdir + 4 * i)) as E.
  { intros i Hi. eapply ld32_off; [done|by constructor|by eapply pt_dir_valid| |lia|unfold PGSIZE; lia].
    rewrite list_elem_of_singleton. intros ->. by eapply pt_ne_dir. }
  split_and!; [|done|].
  - destruct H as [H1 H2 H3 H4 H5]. split; try done.
    + intros i q Hi. rewrite E by eauto. eauto.
    + intros i Hi Hn. rewrite E by done. eauto.
  - intros v' Hv'. unfold pte. destruct (v' =? v) eqn:Ev; bool_to_prop.
    + subst v'. rewrite Hp. by apply ld32_st32_eq.
    + destruct (T !! (v' / 1024)) as [q|] eqn:Eq; [|done]. destruct (decide (q = p)) as [->|Hne].
      * assert (v' / 1024 = v / 1024) by by eapply pt_inj. apply ld32_st32_ne. zdm.
      * eapply ld32_off; [done|by constructor|by eapply pt_table_valid|set_solver| |]; unfold PGSIZE; zdm.
Qed.

Lemma memset_page m p c a : valid p ->
  ld8 (memset m p c PGSIZE) a = if decide (p <= a < p + PGSIZE) then u8 c else ld8 m a.
Proof. intros [Hr _]%valid_range. apply memset_bytes; unfold PGSIZE; lia. Qed.

Lemma memset_agree m p c : valid p -> agree_pages [p] m (memset m p c PGSIZE).
Proof. intros Hp a Ha. rewrite memset_page by done. specialize (Ha p ltac:(set_solver)). case_bools. Qed.

Lemma zero_page_word m p a : valid p -> p <= a -> a + 4 <= p + PGSIZE -> ld32 (memset m p 0 PGSIZE) a = 0.
Proof.
  intros Hp H1 H2. unfold ld32. rewrite !memset_page by done.
  rewrite !decide_True by lia. done.
Qed.

Lemma pt_pages_insert pgdir T i p : T !! i = None -> pt_pages pgdir (<[i := p]> T) ≡ₚ p :: pt_pages pgdir T.
Proof. intros H. unfold pt_pages. rewrite map_to_list_insert by done. simpl. apply Permutation_swap. Qed.

(** The directory entry for a new table at [p]. *)
Definition new_pde (p : Z) : Z := Z.lor (Z.lor (Z.lor (V2P p) PTE_P) PTE_W) PTE_U.

Lemma new_pde_eq p : valid p ->
  0 <= new_pde p < 4294967296 /\ PTE_ADDR (new_pde p) = V2P p /\ Z.land (new_pde p) PTE_P <> 0.
Proof.
  intros Hp. destruct (valid_V2P p Hp) as [E Hr]. unfold new_pde.
  rewrite <- !Z.lor_assoc. change (Z.lor PTE_P (Z.lor PTE_W PTE_U)) with 7.
  rewrite E, Z.mul_comm, (lor_mul_pow2 _ 7 12), Z.mul_comm by lia. change (2 ^ 12) with 4096.
  split_and!; [lia|lia|rewrite PTE_ADDR_eq by lia; zdm|by rewrite present_low].
Qed.

Lemma pt_rep_new m pgdir T i p :
  pt_rep m pgdir T -> 0 <= i < 1024 -> T !! i = None -> valid p -> p ∉ pt_pages pgdir T ->
  let m' := st32 (memset m p 0 PGSIZE) (pgdir + 4 * i) (new_pde p) in
  pt_rep m' pgdir (<[i := p]> T) /\ agree_pages [pgdir; p] m m' /\
  forall v, 0 <= v -> pte m' (<[i := p]> T) v = pte m T v.
Proof.
  intros H Hi Hn Hp Hnew m'. pose proof (pt_dir_valid _ _ _ H) as Hd.
  destruct (new_pde_eq p Hp) as (Hx & Hpa & Hpp).
  destruct (pt_rep_agree [p] m (memset m p 0 PGSIZE) pgdir T) as [H1 Hpte];
    [done|by apply memset_agree|by constructor|set_solver|].
  set (m1 := memset m p 0 PGSIZE) in *.
  assert (agree_pages [pgdir] m1 m') as Ha2.
  { intros a Ha. apply ld8_st32_ne. specialize (Ha pgdir ltac:(set_solver)). unfold PGSIZE in Ha. lia. }
  assert (agree_pages [pgdir; p] m m') as Ha.
  { eapply agree_pages_trans; [apply memset_agree, Hp| |].
    - eapply agree_pages_mono; [exact Ha2|set_solver].
    - set_solver. }
  split_and!; [|done|].
  - split.
    + rewrite pt_pages_insert by done. constructor; [done|apply (pt_valid _ _ _ H)].
    + rewrite pt_pages_insert by done. constructor; [done|apply (pt_nodup _ _ _ H)].
    + intros j q. rewrite lookup_insert_Some. intros [[<- _]|[_ Hj]]; [done|by eapply pt_dom].
    + intros j q. rewrite lookup_insert_Some. intros [[<- <-]|[Hne Hj]].
      * unfold m'. by rewrite ld32_st32_eq.
      * pose proof (pt_dom _ _ _ H _ _ Hj). unfold m'. rewrite ld32_st32_ne by lia. by apply (pt_some _ _ _ H1).
    + intros j Hj [Hj1 Hj2]%lookup_insert_None. unfold m'. rewrite ld32_st32_ne by lia. by apply (pt_none _ _ _ H1).
  - intros v Hv. rewrite <- Hpte. unfold pte. destruct (decide (v / 1024 = i)) as [<-|Hne].
    + rewrite lookup_insert_eq, Hn.
      erewrite (ld32_off [pgdir] m1 m' p); [|exact Ha2|by constructor|exact Hp| | |].
      * apply zero_page_word; [done|zdm|unfold PGSIZE; zdm].
      * rewrite list_elem_of_singleton. intros ->. apply Hnew. left.
      * zdm.
      * unfold PGSIZE. zdm.
    + rewrite lookup_insert_ne by done. destruct (T !! (v / 1024)) as [q|] eqn:Eq; [|done].
      eapply ld32_off; [exact Ha2|by constructor|by eapply (pt_table_valid _ _ _ _ _ H)| |zdm|unfold PGSIZE; zdm].
      rewrite list_elem_of_singleton. by eapply pt_ne_dir.
Qed.

(** ** Page tables and the allocator *)

(** The allocator's free pages are [l], and the tables of [pgdir] are apart. *)
Record space (s : vst) (l : list Z) (pgdir : Z) (T : gmap Z Z) : Prop := {
  sp_kinv : kinv kend (v_kmem s) l;
  sp_pt : pt_rep (vmem s) pgdir T;
  sp_disj : forall p, p ∈ l -> p ∉ pt_pages pgdir T;
}.

(** From [s] to [s'], the tables have grown by pages taken off the free list and
    nothing else but the tables has changed. *)
Record grown (pgdir : Z) (s : vst) (l : list Z) (T : gmap Z Z) (s' : vst) (l' : list Z) (T' : gmap Z Z) : Prop := {
  gr_pages : exists u, l = u ++ l' /\ pt_pages pgdir T' ≡ₚ u ++ pt_pages pgdir T;
  gr_sub : T ⊆ T';
  gr_agree : agree_pages (pt_pages pgdir T') (vmem s) (vmem s');
  gr_rest : s' = upd_kmem (fun _ => v_kmem s') s;
  gr_lock : use_lock (v_kmem s') = use_lock (v_kmem s);
}.

Lemma grown_refl pgdir s l T : grown pgdir s l T s l T.
Proof. split; try done; [by exists []|by destruct s]. Qed.

Lemma grown_trans pgdir s1 l1 T1 s2 l2 T2 s3 l3 T3 :
  grown pgdir s1 l1 T1 s2 l2 T2 -> grown pgdir s2 l2 T2 s3 l3 T3 -> grown pgdir s1 l1 T1 s3 l3 T3.
Proof.
  intros [(u & E1 & P1) S1 A1 R1 L1] [(w & E2 & P2) S2 A2 R2 L2]. split.
  - exists (u ++ w). split; [by rewrite E1, E2, app_assoc|].
    rewrite P2, P1, !app_assoc. by rewrite (Permutation_app_comm w u).
  - by etrans.
  - eapply agree_pages_trans; [done..|]. rewrite P2. set_solver.
  - rewrite R2, R1. done.
  - congruence.
Qed.

Lemma kinv_agree k l ps m' :
  kinv kend k l -> agree_pages ps (pmem k) m' -> Forall valid ps -> (forall p, p ∈ l -> p ∉ ps) ->
  kinv kend (set_pmem (fun _ => m') k) l.
Proof.
  intros [H1 H2 H3 H4] Ha Hv Hd. split; try done. simpl. clear H2 H4.
  revert H1. generalize (freelist k). induction l as [|p l IH]; intros h; [done|]. simpl.
  inversion_clear H3 as [|? ? Hp Hl]. intros [-> Hr]. split; [done|].
  erewrite (ld32_off ps _ m' p); [apply IH; [done|set_solver|done]|done|done|done|set_solver|lia|unfold PGSIZE; lia].
Qed.

(** ** walkpgdir *)
Definition entry_addr (T : gmap Z Z) (v : Z) : Z :=
  match T !! (v / 1024) with Some p => p + 4 * (v mod 1024) | None => 0 end.

Lemma entry_addr_nz m pgdir T v p : pt_rep m pgdir T -> T !! (v / 1024) = Some p ->
  entry_addr T v <> 0 /\ entry_addr T v = p + 4 * (v mod 1024) /\ u32 (p + 4 * (v mod 1024)) = entry_addr T v.
Proof.
  intros H Hp. destruct (valid_range p (pt_table_valid _ _ _ _ _ H Hp)) as [Hr _].
  unfold entry_addr. rewrite Hp. pose proof (Z.mod_pos_bound v 1024 ltac:(lia)).
  split_and!; [lia|done|]. apply u32_small. lia.
Qed.

(** Both forms of a virtual address in page [v]. *)
Lemma page_index va : 0 <= va < 4294967296 ->
  PDX va = va / 4096 / 1024 /\ PTX va = (va / 4096) mod 1024 /\ 0 <= PDX va < 1024.
Proof. intros H. rewrite PDX_eq, PTX_eq by done. split_and!; [|done|zdm|zdm]. rewrite Z.div_div by lia. done. Qed.

Lemma pde_addr m pgdir T i : pt_rep m pgdir T -> 0 <= i < 1024 -> u32 (pgdir + 4 * i) = pgdir + 4 * i.
Proof. intros H Hi. destruct (valid_range _ (pt_dir_valid _ _ _ H)). apply u32_small. lia. Qed.

Lemma present_test e : negb (Z.land e PTE_P =? 0) = bool_decide (Z.land e PTE_P <> 0).
Proof. destruct (Z.land e PTE_P =? 0) eqn:E; bool_to_prop; case_bool_decide; by try lia. Qed.

Lemma walk_found s pgdir T va alloc p :
  pt_rep (vmem s) pgdir T -> 0 <= va < 4294967296 -> T !! (va / 4096 / 1024) = Some p ->
  walkpgdir pgdir va alloc s = (Ret (entry_addr T (va / 4096)), s).
Proof.
  intros H Hva Hp. destruct (page_index va Hva) as (E1 & E2 & Hr). unfold walkpgdir, load.
  run_pure. rewrite (pde_addr _ _ _ _ H Hr), E1.
  destruct (pt_some _ _ _ H _ _ Hp) as [Ha Hpp]. rewrite present_test, bool_decide_eq_true_2 by done.
  unfold ret. do 2 f_equal. rewrite Ha, E2.
  destruct (valid_range p (pt_table_valid _ _ _ _ _ H Hp)). rewrite P2V_V2P by lia.
  by eapply (entry_addr_nz _ _ _ _ _ H).
Qed.

Lemma walk_missing s pgdir T va :
  pt_rep (vmem s) pgdir T -> 0 <= va < 4294967296 -> T !! (va / 4096 / 1024) = None ->
  walkpgdir pgdir va false s = (Ret 0, s).
Proof.
  intros H Hva Hp. destruct (page_index va Hva) as (E1 & E2 & Hr). unfold walkpgdir, load.
  run_pure. rewrite (pde_addr _ _ _ _ H Hr), present_test, bool_decide_eq_false_2; [done|].
  rewrite (pt_none _ _ _ H); [lia|done|by rewrite E1].
Qed.

Lemma walk_lookup s pgdir T va :
  pt_rep (vmem s) pgdir T -> 0 <= va < 4294967296 ->
  walkpgdir pgdir va false s = (Ret (entry_addr T (va / 4096)), s).
Proof.
  intros H Hva. destruct (T !! (va / 4096 / 1024)) as [p|] eqn:E; [by eapply walk_found|].
  rewrite (walk_missing s pgdir T va) by done. unfold entry_addr. by rewrite E.
Qed.

Lemma zoom_kmem {A} (m : M kmem A) s o k' : m (v_kmem s) = (o, k') -> zoom kmem_lens m s = (o, upd_kmem (fun _ => k') s).
Proof. intros H. unfold zoom, set. simpl. by rewrite H. Qed.

Lemma upd_kmem_same s : upd_kmem (fun _ => v_kmem s) s = s.
Proof. by destruct s. Qed.

Lemma wp_vkalloc s l (Q : Z -> vst -> Prop) :
  kinv kend (v_kmem s) l ->
  (l = [] -> Q 0 s) ->
  (forall p l' k', l = p :: l' -> valid p -> p ∉ l' -> p <> 0 -> kinv kend k' l' ->
     pmem k' = pmem (v_kmem s) -> use_lock k' = use_lock (v_kmem s) -> Q p (upd_kmem (fun _ => k') s)) ->
  wp vkalloc Q s.
Proof.
  intros Hk H0 H1. destruct l as [|p l].
  - eapply wp_eq; [apply zoom_kmem, (kalloc_empty _ _ Hk)|]. rewrite upd_kmem_same. by apply H0.
  - destruct (kalloc_inv _ _ _ _ Hk) as (k' & Hal & Hk' & Hm & Hu).
    eapply wp_eq; [apply zoom_kmem, Hal|].
    pose proof (kinv_valid _ _ _ Hk) as Hv. inversion_clear Hv as [|? ? Hp _].
    pose proof (kinv_nodup _ _ _ Hk) as Hn. inversion_clear Hn.
    destruct (valid_range p Hp). eapply H1; try done. lia.
Qed.

Lemma wp_walk_alloc s l pgdir T va (Q : Z -> vst -> Prop) :
  space s l pgdir T -> 0 <= va < 4294967296 ->
  (T !! (va / 4096 / 1024) = None -> l = [] -> Q 0 s) ->
  (forall s' l' T' p, space s' l' pgdir T' -> grown pgdir s l T s' l' T' ->
     T' !! (va / 4096 / 1024) = Some p -> (forall v, 0 <= v -> pte (vmem s') T' v = pte (vmem s) T v) ->
     Q (entry_addr T' (va / 4096)) s') ->
  wp (walkpgdir pgdir va true) Q s.
Proof.
  intros [Hk Hpt Hd] Hva Hnone Hsome. destruct (page_index va Hva) as (E1 & E2 & Hr).
  destruct (T !! (va / 4096 / 1024)) as [p|] eqn:Ep.
  { eapply wp_eq; [by eapply walk_found|]. eapply Hsome; [by split|apply grown_refl|done|done]. }
  unfold walkpgdir, load. apply wp_bind, wp_gets. rewrite (pde_addr _ _ _ _ Hpt Hr), present_test, bool_decide_eq_false_2.
  2: { rewrite (pt_none _ _ _ Hpt); [lia|done|by rewrite E1]. }
  cbn [negb]. apply wp_bind. eapply wp_vkalloc; [done|by intros ->; apply Hnone|].
  intros p l' k' -> Hpv Hpl Hp0 Hk' Hm Hu.
  destruct (p =? 0) eqn:E0; bool_to_prop; [lia|]. unfold vmemset, store. wp_steps.
  assert (T !! PDX va = None) as En by by rewrite E1.
  assert (p ∉ pt_pages pgdir T) as Hnew by (apply Hd; left).
  destruct (pt_rep_new (vmem s) pgdir T (PDX va) p) as (Hpt' & Ha & Hpte); [done..|].
  rewrite E2. replace (u32 (p + 4 * ((va / 4096) mod 1024))) with (entry_addr (<[PDX va := p]> T) (va / 4096)).
  2: { unfold entry_addr. rewrite E1, lookup_insert_eq, u32_small; [done|].
       pose proof (Z.mod_pos_bound (va / 4096) 1024 ltac:(lia)). destruct (valid_range p Hpv). lia. }
  set (m' := st32 (memset (vmem s) p 0 PGSIZE) (pgdir + 4 * PDX va) (new_pde p)) in *.
  assert (kinv kend (set_pmem (fun _ => m') k') l') as Hki.
  { apply (kinv_agree k' l' [pgdir; p]); [done|by rewrite Hm| |].
    - constructor; [by eapply pt_dir_valid|]. constructor; [done|constructor].
    - intros q Hq Hin. apply list_elem_of_In in Hin as [->|[->|[]]]; [|done].
      eapply Hd; [right; exact Hq|left]. }
  match goal with |- Q _ ?st =>
    replace st with (upd_kmem (fun _ => set_pmem (fun _ => m') k') s)
      by (unfold upd_kmem, set_pmem, m', vmem; cbn [v_kmem v_kmap v_gpu v_kpgdir v_mach v_desc pmem kmem_lock use_lock freelist]; by rewrite Hm)
  end.
  eapply (Hsome _ l' (<[PDX va := p]> T) p); cycle 2.
  - by rewrite E1, lookup_insert_eq.
  - exact Hpte.
  - split; [exact Hki|exact Hpt'|]. intros q Hq. rewrite pt_pages_insert by done. apply not_elem_of_cons.
    split; [congruence|]. apply Hd. by right.
  - split; [|by apply insert_subseteq| |done|exact Hu].
    + exists [p]. split; [done|]. by apply pt_pages_insert.
    + eapply agree_pages_mono; [exact Ha|]. rewrite pt_pages_insert by done.
      clear. unfold pt_pages. set_solver.
Qed.

Lemma load_entry s T v p : T !! (v / 1024) = Some p -> load (entry_addr T v) s = (Ret (pte (vmem s) T v), s).
Proof. intros H. unfold load, gets, pte, entry_addr. by rewrite H. Qed.

Lemma wp_store_entry s l pgdir T v p x (Q : unit -> vst -> Prop) :
  space s l pgdir T -> 0 <= v -> T !! (v / 1024) = Some p -> 0 <= x < 4294967296 ->
  (forall s', space s' l pgdir T -> grown pgdir s l T s' l T ->
     (forall v', 0 <= v' -> pte (vmem s') T v' = if v' =? v then x else pte (vmem s) T v') -> Q tt s') ->
  wp (store (entry_addr T v) x) Q s.
Proof.
  intros [Hk Hpt Hd] Hv Hp Hx HQ. unfold store. apply wp_modify.
  destruct (pt_rep_store _ _ _ _ _ x Hpt Hv Hp Hx) as (Hpt' & Ha & Hpte).
  pose proof (pt_table_valid _ _ _ _ _ Hpt Hp) as Hpv.
  pose proof (elem_of_tables pgdir T _ _ Hp) as Hin.
  assert (entry_addr T v = p + 4 * (v mod 1024)) as Ee by (unfold entry_addr; by rewrite Hp).
  rewrite Ee. set (m' := st32 (vmem s) (p + 4 * (v mod 1024)) x) in *.
  change (upd_kmem _ s) with (upd_kmem (fun _ => set_pmem (fun _ => m') (v_kmem s)) s).
  apply HQ; [split; [|exact Hpt'|done]| |exact Hpte].
  - apply (kinv_agree _ _ [p]); [done|exact Ha|by constructor|].
    intros q Hq. rewrite list_elem_of_singleton. intros ->. by apply (Hd p).
  - split; try done; [by exists []|]. eapply agree_pages_mono; [exact Ha|]. intros q. rewrite list_elem_of_singleton. by intros ->.
Qed.

(** ** mappages *)

(** The entry mappages writes for the [k]th page. *)
Definition entry_for (pa perm k : Z) : Z := Z.lor (Z.lor (u32 (pa + 4096 * k)) perm) PTE_P.

Lemma entry_for_range pa perm k : 0 <= perm < 4096 -> 0 <= entry_for pa perm k < 4294967296.
Proof.
  intros Hp. assert (forall z, 0 <= z < 4294967296 -> Z.log2 z < 32) as Hl.
  { intros z Hz. destruct (decide (z = 0)) as [->|]; [done|]. apply Z.log2_lt_pow2; lia. }
  pose proof (u32_range (pa + 4096 * k)). unfold entry_for.
  assert (0 <= Z.lor (Z.lor (u32 (pa + 4096 * k)) perm) PTE_P) as H0
    by (rewrite !Z.lor_nonneg; unfold PTE_P; lia).
  split; [done|]. destruct (decide (Z.lor (Z.lor (u32 (pa + 4096 * k)) perm) PTE_P = 0)) as [->|]; [lia|].
  apply (Z.log2_lt_pow2 _ 32); [lia|]. rewrite Z.log2_lor, Z.log2_lor; [|lia|lia|apply Z.lor_nonneg; lia|done].
  pose proof (Hl (u32 (pa + 4096 * k)) ltac:(lia)). pose proof (Hl perm ltac:(lia)). change (Z.log2 PTE_P) with 0. lia.
Qed.

(** What mappages does to the entries of the pages from [v0]: [n] of them are
    written, all others are as before. *)
Definition mapped_run (m : mem) (T : gmap Z Z) (m' : mem) (T' : gmap Z Z) (v0 n pa perm : Z) : Prop :=
  forall v, 0 <= v -> pte m' T' v =
    if (v0 <=? v) && (v <? v0 + n) then entry_for pa perm (v - v0) else pte m T v.

Definition unmapped (m : mem) (T : gmap Z Z) (v0 n : Z) : Prop :=
  forall v, v0 <= v < v0 + n -> Z.land (pte m T v) PTE_P = 0.

Lemma mapped_run_S m T m1 T1 m2 T2 v0 n pa perm :
  0 <= n -> (forall v, 0 <= v -> pte m1 T1 v = if v =? v0 then entry_for pa perm 0 else pte m T v) ->
  mapped_run m1 T1 m2 T2 (v0 + 1) n (u32 (pa + 4096)) perm ->
  mapped_run m T m2 T2 v0 (n + 1) pa perm.
Proof.
  intros Hn H1 H2 v Hv. rewrite (H2 v Hv). destruct (decide (v = v0)) as [->|Hne].
  - rewrite (H1 v0 Hv), Z.eqb_refl. replace ((v0 + 1 <=? v0) && (v0 <? v0 + 1 + n)) with false by (symmetry; apply andb_false_iff; left; apply Z.leb_gt; lia).
    rewrite (proj2 (andb_true_iff _ _)); [by rewrite Z.sub_diag|split; [apply Z.leb_le|apply Z.ltb_lt]; lia].
  - rewrite (H1 v Hv). replace (v =? v0) with false by (symmetry; by apply Z.eqb_neq).
    replace ((v0 <=? v) && (v <? v0 + (n + 1))) with ((v0 + 1 <=? v) && (v <? v0 + 1 + n)).
    + destruct (_ && _); [|done]. unfold entry_for. do 2 f_equal. unfold u32. rewrite Zplus_mod_idemp_l. f_equal. lia.
    + f_equal; [|f_equal; lia]. destruct (v0 + 1 <=? v) eqn:E1, (v0 <=? v) eqn:E2; bool_to_prop; by try lia.
Qed.

Lemma wp_mappages_loop n s l pgdir T v0 pa perm (Q : Z -> vst -> Prop) :
  space s l pgdir T -> 0 <= v0 -> v0 + Z.of_nat n < 1048576 -> 0 <= pa < 4294967296 -> 0 <= perm < 4096 ->
  unmapped (vmem s) T v0 (Z.of_nat n + 1) ->
  (forall s' l' T', space s' l' pgdir T' -> grown pgdir s l T s' l' T' ->
     mapped_run (vmem s) T (vmem s') T' v0 (Z.of_nat n + 1) pa perm -> Q 0 s') ->
  (forall s' T' k, 0 <= k <= Z.of_nat n -> space s' [] pgdir T' -> grown pgdir s l T s' [] T' ->
     T' !! ((v0 + k) / 1024) = None -> mapped_run (vmem s) T (vmem s') T' v0 k pa perm -> Q (-1) s') ->
  wp (mappages_loop (S n) pgdir (4096 * v0) (4096 * (v0 + Z.of_nat n)) pa perm) Q s.
Proof.
  revert s l T v0 pa Q. induction n as [|n IH]; intros s l T v0 pa Q Hsp Hv0 Hmax Hpa Hperm Hun HQ0 HQ1.
  all: assert (4096 * v0 / 4096 = v0) as Ediv by (rewrite Z.mul_comm; apply Z.div_mul; lia).
  all: match goal with |- wp (mappages_loop (S ?n) _ _ _ _ _) _ _ =>
    change (mappages_loop (S n)) with (fun pgdir a last pa perm =>
      pte ← walkpgdir pgdir a true;
      if pte =? 0 then ret (-1)
      else e ← load pte; panic_if (negb (Z.land e PTE_P =? 0)) "remap" ;;
        store pte (Z.lor (Z.lor pa perm) PTE_P) ;;
        if a =? last then ret 0 else mappages_loop n pgdir (u32 (a + PGSIZE)) last (u32 (pa + PGSIZE)) perm) end;
    cbv beta; apply wp_bind; eapply wp_walk_alloc; [exact Hsp|lia|rewrite Ediv|rewrite Ediv].
  all: try (intros Hn ->; apply wp_ret; apply (HQ1 s T 0); [lia|done|apply grown_refl|by rewrite Z.add_0_r|];
    intros v Hv; destruct (_ && _) eqn:E; [bool_to_prop; lia|done]).
  all: intros s1 l1 T1 p Hsp1 Hg1 Hp Hpte1;
    destruct (entry_addr_nz _ _ _ _ _ (sp_pt _ _ _ _ Hsp1) Hp) as (Hnz & _);
    (destruct (entry_addr T1 v0 =? 0) eqn:E0; [bool_to_prop; lia|]);
    apply wp_bind; (eapply wp_eq; [by eapply load_entry|]);
    rewrite Hpte1 by done; rewrite (Hun v0) by lia; apply wp_bind, wp_panic_if; [done|];
    (assert (Z.lor (Z.lor pa perm) PTE_P = entry_for pa perm 0) as -> by
      (unfold entry_for; by rewrite Z.mul_0_r, Z.add_0_r, u32_small));
    apply wp_bind; eapply wp_store_entry; [done|done|done|by apply entry_for_range|];
    intros s2 Hsp2 Hg2 Hpte2;
    (assert (forall v, 0 <= v -> pte (vmem s2) T1 v = if v =? v0 then entry_for pa perm 0 else pte (vmem s) T v) as Hp2
      by (intros v Hv; rewrite Hpte2 by done; destruct (v =? v0); [done|by apply Hpte1]));
    pose proof (grown_trans _ _ _ _ _ _ _ _ _ _ Hg1 Hg2) as Hg.
  - replace (4096 * v0 =? _) with true by (symmetry; apply Z.eqb_eq; lia). apply wp_ret.
    eapply HQ0; [done|done|]. intros v Hv. rewrite Hp2 by done.
    destruct (v =? v0) eqn:E; bool_to_prop.
    + subst v. rewrite (proj2 (andb_true_iff _ _)); [by rewrite Z.sub_diag|split; [apply Z.leb_le|apply Z.ltb_lt]; lia].
    + destruct (_ && _) eqn:E2; [bool_to_prop; lia|done].
  - replace (4096 * v0 =? _) with false by (symmetry; apply Z.eqb_neq; lia).
    unfold PGSIZE. replace (u32 (4096 * v0 + 4096)) with (4096 * (v0 + 1)) by (rewrite u32_small; lia).
    replace (v0 + Z.of_nat (S n)) with (v0 + 1 + Z.of_nat n) by lia.
    eapply IH; [done|lia|lia|apply u32_range|done| | |].
    + intros v Hv. rewrite Hp2 by lia. replace (v =? v0) with false by (symmetry; apply Z.eqb_neq; lia). apply Hun. lia.
    + intros s3 l3 T3 Hsp3 Hg3 Hm3. eapply HQ0; [done|by eapply grown_trans|].
      replace (Z.of_nat (S n) + 1) with (Z.of_nat n + 1 + 1) by lia. eapply mapped_run_S; [lia|done|done].
    + intros s3 T3 k Hk Hsp3 Hg3 Hn3 Hm3. apply (HQ1 s3 T3 (k + 1)); [lia|done|by eapply grown_trans| |].
      * by replace (v0 + (k + 1)) with (v0 + 1 + k) by lia.
      * eapply mapped_run_S; [lia|done|done].
Qed.

Lemma wp_mappages s l pgdir T va size pa perm (Q : Z -> vst -> Prop) :
  let v0 := va / 4096 in
  let n := (va + size - 1) / 4096 - v0 + 1 in
  space s l pgdir T -> 0 <= va -> 0 < size -> va + size <= 4294967296 ->
  0 <= pa < 4294967296 -> 0 <= perm < 4096 -> unmapped (vmem s) T v0 n ->
  (forall s' l' T', space s' l' pgdir T' -> grown pgdir s l T s' l' T' ->
     mapped_run (vmem s) T (vmem s') T' v0 n pa perm -> Q 0 s') ->
  (forall s' T' k, 0 <= k < n -> space s' [] pgdir T' -> grown pgdir s l T s' [] T' ->
     T' !! ((v0 + k) / 1024) = None -> mapped_run (vmem s) T (vmem s') T' v0 k pa perm -> Q (-1) s') ->
  wp (mappages pgdir va size pa perm) Q s.
Proof.
  intros v0 n Hsp Hva Hsz Hmax Hpa Hperm Hun HQ0 HQ1. unfold mappages.
  rewrite (u32_small (va + size - 1)), !PGROUNDDOWN_eq by lia. fold v0.
  assert (0 <= v0 /\ 0 <= n - 1 /\ v0 + n - 1 < 1048576) as (Hv0 & Hn & Hn') by (unfold n, v0; split_and!; zdm).
  replace (4096 * ((va + size - 1) / 4096)) with (4096 * (v0 + (n - 1))) by (unfold n; lia).
  clearbody n v0.
  assert (u32 (4096 * (v0 + (n - 1)) - 4096 * v0) / PGSIZE = n - 1) as ->.
  { unfold PGSIZE. rewrite u32_small by lia. replace (_ - _) with ((n - 1) * 4096) by lia. apply Z.div_mul. lia. }
  rewrite <- (Z2Nat.id (n - 1)) at 2 by lia.
  assert (Z.of_nat (Z.to_nat (n - 1)) + 1 = n) as En by lia.
  eapply wp_mappages_loop; [done|done|lia|done|done|by rewrite En| |].
  - intros s' l' T'. rewrite En. apply HQ0.
  - intros s' T' k Hk. apply HQ1. lia.
Qed.

Lemma mmu_pte_eq m pgdir T va : pt_rep m pgdir T -> 0 <= va < 4294967296 -> mmu_pte m pgdir va = pte m T (va / 4096).
Proof.
  intros H Hva. unfold mmu_pte, pte. rewrite Z.div_div by lia. change (4096 * 1024) with 4194304.
  destruct (T !! (va / 4194304)) as [p|] eqn:E.
  - destruct (pt_some _ _ _ H _ _ E) as [Ha Hp]. destruct (_ =? 0) eqn:E2; bool_to_prop; [lia|].
    rewrite Ha. destruct (valid_range p (pt_table_valid _ _ _ _ _ H E)). by rewrite P2V_V2P by lia.
  - rewrite (pt_none _ _ _ H); [done|zdm|done].
Qed.

(** C28: [mappages] on an unmapped range.  Either it returns 0, the MMU then finds
    for every address of the range the entry for its physical page with the given
    permission, and every other address of the address space is mapped as before;
    or it returns -1 because the allocator has no page left, and then only pages
    at the start of the range have been mapped.  In both cases the tables stay
    well formed, pages are taken off the free list for new tables only, and
    memory outside of the tables is untouched.  A range that starts at a mapped
    page panics. *)
Theorem mappages_spec s l pgdir T va size pa perm :
  let v0 := va / 4096 in
  let n := (va + size - 1) / 4096 - v0 + 1 in
  space s l pgdir T -> 0 <= va -> 0 < size -> va + size <= 4294967296 ->
  0 <= pa < 4294967296 -> 0 <= perm < 4096 ->
  (unmapped (vmem s) T v0 n ->
   wp (mappages pgdir va size pa perm) (fun r s' => exists l' T',
     space s' l' pgdir T' /\ grown pgdir s l T s' l' T' /\
     exists k, (r = 0 /\ k = n \/ r = -1 /\ l' = [] /\ 0 <= k < n) /\
     forall a, 0 <= a < 4294967296 -> mmu_pte (vmem s') pgdir a =
       if (v0 <=? a / 4096) && (a / 4096 <? v0 + k) then entry_for pa perm (a / 4096 - v0)
       else mmu_pte (vmem s) pgdir a) s) /\
  (Z.land (mmu_pte (vmem s) pgdir va) PTE_P <> 0 ->
   exists s', mappages pgdir va size pa perm s = (Panic "remap", s')).
Proof.
  intros v0 n Hsp Hva Hsz Hmax Hpa Hperm. split.
  - intros Hun. eapply (wp_mappages s l pgdir T va size); try done.
    + intros s' l' T' Hsp' Hg Hm. exists l', T'. split_and!; [done..|]. exists n. split; [by left|].
      intros a Ha. erewrite !mmu_pte_eq by first [done|apply Hsp|apply Hsp']. apply Hm, Z.div_pos; lia.
    + intros s' T' k Hk Hsp' Hg _ Hm. exists [], T'. split_and!; [done..|]. exists k. split; [by right|].
      intros a Ha. erewrite !mmu_pte_eq by first [done|apply Hsp|apply Hsp']. apply Hm, Z.div_pos; lia.
  - intros Hp. pose proof (sp_pt _ _ _ _ Hsp) as Hpt. rewrite (mmu_pte_eq _ _ T) in Hp by (done || lia).
    destruct (T !! (va / 4096 / 1024)) as [p|] eqn:E.
    2: { unfold pte in Hp. by rewrite E in Hp. }
    assert (0 <= 4096 * (va / 4096) < 4294967296) as Hal by (clear -Hva Hsz Hmax; zdm).
    unfold mappages. cbn [mappages_loop]. rewrite PGROUNDDOWN_eq by lia.
    assert (4096 * (va / 4096) / 4096 = va / 4096) as Ed by (rewrite Z.mul_comm; apply Z.div_mul; lia).
    erewrite bind_Ret by (eapply (walk_found _ _ _ _ _ p Hpt); [exact Hal|by rewrite Ed]). rewrite Ed.
    destruct (entry_addr_nz _ _ _ _ _ Hpt E) as (Hnz & _).
    destruct (_ =? 0) eqn:E0; bool_to_prop; [lia|].
    erewrite bind_Ret by (by eapply load_entry).
    destruct (Z.land _ _ =? 0) eqn:E1; bool_to_prop; [lia|]. by exists s.
Qed.

End VmMap.
