(* ===== verification/VmUser.v ===== *)
(** * User memory: growing, shrinking and writing an address space

    [U] gives, for each mapped user page, the kernel address of its frame and the
    flags of its entry.  A space owns its free pages, its tables and its frames;
    the routines below move pages between these, never losing one. *)
From S2P Require Import Prelude Mem Spinlock Kalloc Mmu Vm VmMap.

#[local] Arguments memset : simpl never.
#[local] Arguments st32 : simpl never.
#[local] Arguments ld32 : simpl never.
#[local] Arguments st8 : simpl never.
#[local] Arguments ld8 : simpl never.

(** The first page number above the user part: [KERNBASE / PGSIZE]. *)
Abbreviation NUSER := 524288.

Section VmUser.
Context (kend : Z) (kend_above : KERNBASE < kend).

Abbreviation valid := (valid_page kend).
Abbreviation space := (VmMap.space kend).

Abbreviation pages := (gmap Z (Z * Z)).

Record uspace (s : vst) (l : list Z) (pgdir : Z) (T : gmap Z Z) (U : pages) : Prop := {
  us_space : space s l pgdir T;
  us_pte : forall v, 0 <= v < NUSER ->
    pte (vmem s) T v = match U !! v with Some (p, fl) => (V2P p + fl)%Z | None => 0 end;
  us_entry : forall v p fl, U !! v = Some (p, fl) ->
    0 <= v < NUSER /\ valid p /\ 0 <= fl < 4096 /\ Z.land fl PTE_P <> 0;
  us_inj : forall v w p fl fl', U !! v = Some (p, fl) -> U !! w = Some (p, fl') -> v = w;
  us_disj : forall v p fl, U !! v = Some (p, fl) -> (p ∉ l) /\ (p ∉ pt_pages pgdir T);
}.

(** The pages a space owns. *)
Definition owned (l : list Z) (pgdir : Z) (T : gmap Z Z) (U : pages) (p : Z) : Prop :=
  p ∈ l \/ p ∈ pt_pages pgdir T \/ exists v fl, U !! v = Some (p, fl).

(** From one state of the space to another: the same pages are owned, the kernel
    part is mapped as before, the frames that stay keep their contents, and
    memory that is not owned is untouched. *)
Record evolves (pgdir : Z) (s : vst) (l : list Z) (T : gmap Z Z) (U : pages)
    (s' : vst) (l' : list Z) (T' : gmap Z Z) (U' : pages) : Prop := {
  ev_sub : T ⊆ T';
  ev_owned : forall p, owned l' pgdir T' U' p <-> owned l pgdir T U p;
  ev_kernel : forall v, NUSER <= v -> pte (vmem s') T' v = pte (vmem s) T v;
  ev_kept : forall v p fl a, U !! v = Some (p, fl) -> U' !! v = Some (p, fl) ->
    p <= a < p + PGSIZE -> ld8 (vmem s') a = ld8 (vmem s) a;
  ev_out : forall a, (forall p, owned l pgdir T U p -> ~ (p <= a < p + PGSIZE)) ->
    ld8 (vmem s') a = ld8 (vmem s) a;
  ev_rest : s' = upd_kmem (fun _ => v_kmem s') s;
}.

Lemma evolves_refl pgdir s l T U : evolves pgdir s l T U s l T U.
Proof. split; try done. by destruct s. Qed.

Lemma evolves_trans pgdir s1 l1 T1 U1 s2 l2 T2 U2 s3 l3 T3 U3 :
  evolves pgdir s1 l1 T1 U1 s2 l2 T2 U2 -> evolves pgdir s2 l2 T2 U2 s3 l3 T3 U3 ->
  (forall v e, U1 !! v = Some e -> U3 !! v = Some e -> U2 !! v = Some e) ->
  evolves pgdir s1 l1 T1 U1 s3 l3 T3 U3.
Proof.
  intros [A1 B1 C1 D1 E1 F1] [A2 B2 C2 D2 E2 F2] HU. split.
  - by etrans.
  - intros p. by rewrite B2, B1.
  - intros v Hv. by rewrite C2, C1.
  - intros v p fl a H1 H3 Ha. pose proof (HU _ _ H1 H3) as H2. by rewrite (D2 v p fl a), (D1 v p fl a).
  - intros a Ha. rewrite E2; [by apply E1|]. intros p Hp. apply Ha. by apply B1.
  - rewrite F2, F1. done.
Qed.

(** Pages of the space are apart from each other. *)
Lemma page_apart p q a : valid p -> valid q -> p <> q -> p <= a < p + PGSIZE -> ~ (q <= a < q + PGSIZE).
Proof. intros Hp Hq Hne Ha. destruct (valid_page_disjoint kend p q Hp Hq Hne); lia. Qed.

Lemma tables_valid s l pgdir T p : space s l pgdir T -> p ∈ pt_pages pgdir T -> valid p.
Proof. intros H Hp. eapply Forall_elem; [apply (pt_valid _ _ _ _ (sp_pt _ _ _ _ _ H))|done]. Qed.

Lemma free_valid s l pgdir T p : space s l pgdir T -> p ∈ l -> valid p.
Proof. intros H Hp. eapply Forall_elem; [apply (kinv_valid _ _ _ (sp_kinv _ _ _ _ _ H))|done]. Qed.

Lemma entry_nz s l pgdir T U v p fl : uspace s l pgdir T U -> U !! v = Some (p, fl) ->
  V2P p + fl <> 0 /\ PTE_ADDR (V2P p + fl) = V2P p /\ V2P p <> 0 /\ P2V (V2P p) = p /\
  Z.land (V2P p + fl) PTE_P <> 0 /\ PTE_FLAGS (V2P p + fl) = fl.
Proof.
  intros H Hv. destruct (us_entry _ _ _ _ _ H _ _ _ Hv) as (_ & Hp & Hfl & Hpr).
  destruct (valid_V2P _ _ Hp) as [E Hr]. destruct (valid_range _ _ Hp) as [Hb Hm].
  assert (kend <= p) as Hk by apply Hp. unfold KERNBASE in kend_above.
  assert (V2P p = p - 2147483648) as E' by (unfold V2P, KERNBASE; rewrite u32_small; lia).
  assert (fl <> 0) as Hf0 by (intros ->; by rewrite Z.land_0_l in Hpr).
  split_and!; [lia| | | |by rewrite E, present_low|].
  - rewrite PTE_ADDR_eq by lia. rewrite E. clear -Hfl. generalize ((p - 2147483648) / 4096). intros x. zdm.
  - lia.
  - apply P2V_V2P. lia.
  - rewrite PTE_FLAGS_eq, E. zdm.
Qed.

(** Without a table, no user page of the table's range is mapped. *)
Lemma no_table s l pgdir T U v : uspace s l pgdir T U -> 0 <= v < NUSER -> T !! (v / 1024) = None -> U !! v = None.
Proof.
  intros H Hv Ht. destruct (U !! v) as [[p fl]|] eqn:E; [|done].
  pose proof (us_pte _ _ _ _ _ H v Hv) as Hp. rewrite E in Hp. unfold pte in Hp. rewrite Ht in Hp.
  destruct (entry_nz _ _ _ _ _ _ _ _ H E) as (Hnz & _). lia.
Qed.

Lemma wp_vkfree s l p (Q : unit -> vst -> Prop) :
  kinv kend (v_kmem s) l -> valid p -> p ∉ l ->
  (forall k', kinv kend k' (p :: l) -> agree_pages [p] (vmem s) (pmem k') -> Q tt (upd_kmem (fun _ => k') s)) ->
  wp (vkfree kend p) Q s.
Proof.
  intros Hk Hp Hn HQ. destruct (kfree_inv _ _ _ _ Hk Hp Hn) as (k' & Hf & Hk' & Ha & Hu).
  eapply wp_eq; [apply zoom_kmem, Hf|]. apply HQ; [done|]. intros a Hna. apply Ha. apply (Hna p). set_solver.
Qed.

(** [kfree] of the frame of [v], then [*pte = 0] *)
Lemma wp_free_frame s l pgdir T U v p fl t (Q : unit -> vst -> Prop) :
  uspace s l pgdir T U -> U !! v = Some (p, fl) -> T !! (v / 1024) = Some t ->
  (forall s', uspace s' (p :: l) pgdir T (delete v U) ->
     evolves pgdir s l T U s' (p :: l) T (delete v U) -> Q tt s') ->
  wp (vkfree kend p ;; store (entry_addr T v) 0) Q s.
Proof.
  intros H Hv Ht HQ. pose proof H as [Hsp Hpte Hen Hinj Hdis].
  destruct (Hen _ _ _ Hv) as (Hvr & Hp & _ & _). destruct (Hdis _ _ _ Hv) as [Hpl Hpt].
  apply wp_bind. eapply wp_vkfree; [apply Hsp|done|done|]. intros k' Hk' Ha.
  destruct (pt_rep_agree kend [p] (vmem s) (pmem k') pgdir T) as [Hr' Hp']; [apply Hsp|done|by constructor| |].
  { intros q. rewrite list_elem_of_singleton. by intros ->. }
  assert (space (upd_kmem (fun _ => k') s) (p :: l) pgdir T) as Hsp1.
  { split; [done|done|]. intros q [->|Hq]%elem_of_cons; [done|]. by apply (sp_disj _ _ _ _ _ Hsp). }
  eapply wp_store_entry; [exact Hsp1|lia|done|lia|]. intros s' Hsp' Hg Hst.
  assert (forall w, 0 <= w -> pte (vmem s') T w = if w =? v then 0 else pte (vmem s) T w) as Hw.
  { intros w Hw. rewrite Hst by done. destruct (w =? v); [done|]. apply Hp'. }
  apply HQ; split; try done.
  - intros w Hw'. rewrite Hw by lia. destruct (w =? v) eqn:E; bool_to_prop.
    + subst w. by rewrite lookup_delete_eq.
    + rewrite lookup_delete_ne by lia. by apply Hpte.
  - intros w q f [_ Hq]%lookup_delete_Some. eauto.
  - intros w w' q f f' [_ Hq]%lookup_delete_Some [_ Hq']%lookup_delete_Some. eauto.
  - intros w q f [Hne Hq]%lookup_delete_Some. destruct (Hdis _ _ _ Hq) as [Hq1 Hq2]. split; [|done].
    intros [->|Hin]%elem_of_cons; [|done]. apply Hne. symmetry. by eapply Hinj.
  - intros q. unfold owned. rewrite elem_of_cons. split.
    + intros [[->|Hq]|[Hq|(w & f & Hq)]]; [|by left|by right; left|].
      * right; right. by exists v, fl.
      * apply lookup_delete_Some in Hq as [_ Hq]. right; right. by exists w, f.
    + intros [Hq|[Hq|(w & f & Hq)]]; [by left; right|by right; left|].
      destruct (decide (w = v)) as [->|Hne]; [left; left; congruence|].
      right; right. exists w, f. by rewrite lookup_delete_ne.
  - intros w Hw'. rewrite Hw by lia. replace (w =? v) with false by (symmetry; apply Z.eqb_neq; lia). done.
  - intros w q f a Hq [Hne _]%lookup_delete_Some Hr. destruct (Hen _ _ _ Hq) as (_ & Hqv & _).
    rewrite (gr_agree _ _ _ _ _ _ _ Hg).
    + apply Ha. intros x. rewrite list_elem_of_singleton. intros ->. eapply page_apart; [exact Hqv|done| |done].
      intros ->. apply Hne. symmetry. by eapply Hinj.
    + intros x Hx. eapply page_apart; [exact Hqv|by eapply tables_valid| |done]. intros ->. by apply (Hdis _ _ _ Hq).
  - intros a Hna. rewrite (gr_agree _ _ _ _ _ _ _ Hg).
    + apply Ha. intros x. rewrite list_elem_of_singleton. intros ->. apply Hna. right; right. by exists v, fl.
    + intros x Hx. apply Hna. by right; left.
  - by rewrite (gr_rest _ _ _ _ _ _ _ Hg).
Qed.

(** ** deallocuvm *)

(** The pages outside of [[lo, hi)]. *)
Definition umask (lo hi : Z) (U : pages) : pages := filter (fun kv => ~ (lo <= kv.1 < hi)) U.

Lemma lookup_umask lo hi U v : umask lo hi U !! v = if decide (lo <= v < hi) then None else U !! v.
Proof.
  unfold umask. apply option_eq. intros e. rewrite map_lookup_filter_Some. simpl.
  case_decide; naive_solver.
Qed.

(** A part of the range in which nothing is mapped need not be removed. *)
Lemma umask_skip lo mid hi U : lo <= mid -> (forall v, lo <= v < mid -> v < hi -> U !! v = None) ->
  umask mid hi U = umask lo hi U.
Proof.
  intros Hm Hn. apply map_eq. intros v. rewrite !lookup_umask. repeat case_decide; try done; try lia.
  apply Hn; lia.
Qed.

Lemma umask_delete lo hi U : lo < hi -> umask (lo + 1) hi (delete lo U) = umask lo hi U.
Proof.
  intros Hl. apply map_eq. intros v. rewrite !lookup_umask. destruct (decide (v = lo)) as [->|Hne].
  - rewrite lookup_delete_eq. repeat case_decide; try done; lia.
  - rewrite lookup_delete_ne by done. repeat case_decide; try done; lia.
Qed.

Lemma umask_nil lo hi U : hi <= lo -> umask lo hi U = U.
Proof. intros H. apply map_eq. intros v. rewrite lookup_umask. case_decide; [lia|done]. Qed.

Lemma umask_sub lo hi U v e : umask lo hi U !! v = Some e -> U !! v = Some e.
Proof. rewrite lookup_umask. by case_decide. Qed.

(** One past the last page of the first [sz] bytes. *)
Definition npages (sz : Z) : Z := (sz + 4095) / 4096.

Lemma npages_lt v sz : 4096 * v < sz <-> v < npages sz.
Proof. unfold npages. split; intros; zdm. Qed.

Lemma wp_deallocuvm_loop fuel s l pgdir T U v oldsz (Q : unit -> vst -> Prop) :
  uspace s l pgdir T U -> 0 <= v <= NUSER -> 0 <= oldsz <= KERNBASE ->
  oldsz <= 4096 * v + 4096 * Z.of_nat fuel ->
  (forall s' l', uspace s' l' pgdir T (umask v (npages oldsz) U) -> l ⊆ l' ->
     evolves pgdir s l T U s' l' T (umask v (npages oldsz) U) -> Q tt s') ->
  wp (deallocuvm_loop kend fuel pgdir (4096 * v) oldsz) Q s.
Proof.
  unfold KERNBASE. revert s l U v Q.
  induction fuel as [|n IH]; intros s l U v Q H Hv Hsz Hfuel HQ; cbn [deallocuvm_loop].
  all: destruct (4096 * v <? oldsz) eqn:Elt; bool_to_prop;
    [|apply wp_ret; rewrite umask_nil in HQ by (pose proof (npages_lt v oldsz); lia);
      apply (HQ s l); [done|done|apply evolves_refl]].
  { lia. }
  assert (v < npages oldsz) as Hvn by by apply npages_lt.
  assert (4096 * v / 4096 = v) as Ed by (rewrite Z.mul_comm; apply Z.div_mul; lia).
  pose proof (sp_pt _ _ _ _ _ (us_space _ _ _ _ _ H)) as Hpt.
  apply wp_bind. eapply wp_eq; [eapply (walk_lookup kend); [exact Hpt|lia]|]. rewrite Ed.
  destruct (T !! (v / 1024)) as [t|] eqn:Et.
  - destruct (entry_addr_nz kend _ _ _ _ _ Hpt Et) as (Hnz & _).
    destruct (entry_addr T v =? 0) eqn:E0; bool_to_prop; [lia|].
    apply wp_bind. eapply wp_eq; [by eapply load_entry|]. rewrite (us_pte _ _ _ _ _ H v) by lia.
    replace (u32 (4096 * v + PGSIZE)) with (4096 * (v + 1)) by (unfold PGSIZE; rewrite u32_small; lia).
    destruct (U !! v) as [[p fl]|] eqn:Eu.
    + destruct (entry_nz _ _ _ _ _ _ _ _ H Eu) as (_ & Ea & Hva & Ep & Hpr & _).
      rewrite present_test, bool_decide_eq_true_2 by done. cbn [when]. rewrite Ea, Ep.
      apply wp_bind, wp_bind, wp_panic_if; [by apply Z.eqb_neq|].
      eapply wp_free_frame; [done|done|done|]. intros s1 H1 Hev1.
      eapply IH; [exact H1|lia|lia|lia|]. intros s2 l2. rewrite umask_delete by done. intros H2 Hl2 Hev2.
      eapply HQ; [done|set_solver|]. eapply evolves_trans; [done..|].
      intros w e _. rewrite lookup_umask, lookup_delete. case_decide; [done|].
      destruct (decide (v = w)) as [->|]; [lia|done].
    + rewrite present_test, bool_decide_eq_false_2 by (rewrite Z.land_0_l; lia). cbn [when].
      apply wp_bind, wp_ret. eapply IH; [exact H|lia|lia|lia|].
      rewrite (umask_skip v (v + 1)); [exact HQ|lia|]. intros w Hw _. by replace w with v by lia.
  - assert (entry_addr T v = 0) as -> by (unfold entry_addr; by rewrite Et). cbn [Z.eqb].
    set (v' := 1024 * (v / 1024 + 1)).
    assert (v < v' <= NUSER) as Hv' by (unfold v'; zdm).
    replace (u32 _) with (4096 * v').
    2: { rewrite PDX_page by lia. unfold PGADDR, PDXSHIFT, PTXSHIFT, PGSIZE.
         rewrite Z.shiftl_0_l, !Z.lor_0_r, Z.shiftl_mul_pow2 by lia.
         change (2 ^ 22) with 4194304. unfold v' in *. unfold u32. rewrite Zminus_mod_idemp_l, Zplus_mod_idemp_l.
         rewrite Z.mod_small by lia. lia. }
    eapply IH; [exact H|lia|lia|lia|]. rewrite (umask_skip v v'); [exact HQ|lia|].
    intros w Hw _. eapply no_table; [done|lia|]. by replace (w / 1024) with (v / 1024) by (unfold v' in *; zdm).
Qed.

Lemma wp_deallocuvm s l pgdir T U oldsz newsz (Q : Z -> vst -> Prop) :
  uspace s l pgdir T U -> 0 <= newsz -> 0 <= oldsz <= KERNBASE ->
  (oldsz <= newsz -> Q oldsz s) ->
  (newsz < oldsz -> forall s' l', uspace s' l' pgdir T (umask (npages newsz) (npages oldsz) U) -> l ⊆ l' ->
     evolves pgdir s l T U s' l' T (umask (npages newsz) (npages oldsz) U) -> Q newsz s') ->
  wp (deallocuvm kend pgdir oldsz newsz) Q s.
Proof.
  intros H Hn Ho HQ0 HQ1. unfold deallocuvm. destruct (oldsz <=? newsz) eqn:E; bool_to_prop.
  { by apply wp_ret, HQ0. }
  unfold KERNBASE in Ho. rewrite PGROUNDUP_eq by lia. fold (npages newsz). apply wp_bind.
  assert (0 <= npages newsz <= NUSER) by (unfold npages; zdm).
  eapply wp_deallocuvm_loop; [done|lia|unfold KERNBASE; lia| |].
  - unfold uvm_fuel, PGSIZE. zdm.
  - intros s' l' H' Hl Hev. apply wp_ret. by eapply HQ1.
Qed.

(** ** allocuvm *)

(** A page in hand is counted as free. *)
Lemma evolves_hand pgdir s l T U s' l' T' U' p :
  evolves pgdir s l T U s' l' T' U' -> evolves pgdir s (p :: l) T U s' (p :: l') T' U'.
Proof.
  intros [A B C D E F]. split; try done.
  - intros q. specialize (B q). unfold owned in *. rewrite !elem_of_cons. tauto.
  - intros a Ha. apply E. intros q Hq. apply Ha. unfold owned in *. rewrite elem_of_cons. tauto.
Qed.

(** The page in hand becomes the frame of [v]. *)
Lemma evolves_take pgdir s l T U v p fl :
  U !! v = None -> evolves pgdir s (p :: l) T U s l T (<[v := (p, fl)]> U).
Proof.
  intros Hv. split; try done; [|by destruct s]. intros q. unfold owned. rewrite elem_of_cons. split.
  - intros [Hq|[Hq|(w & f & Hq)]]; [tauto|tauto|]. apply lookup_insert_Some in Hq as [[_ [= <- _]]|[_ Hq]]; [tauto|].
    right; right. by exists w, f.
  - intros [[->|Hq]|[Hq|(w & f & Hq)]]; [|tauto|tauto|].
    + right; right. exists v, fl. by rewrite lookup_insert_eq.
    + right; right. exists w, f. rewrite lookup_insert_ne; congruence.
Qed.

Lemma grown_evolves pgdir s l T U s' l' T' :
  uspace s l pgdir T U -> space s' l' pgdir T' -> grown pgdir s l T s' l' T' ->
  (forall v, NUSER <= v -> pte (vmem s') T' v = pte (vmem s) T v) ->
  evolves pgdir s l T U s' l' T' U.
Proof.
  intros H Hsp [(u & E & P) Hs Ha Hr _] Hk.
  assert (forall p, owned l' pgdir T' U p <-> owned l pgdir T U p) as Ho.
  { intros p. unfold owned. rewrite P, E, !elem_of_app. tauto. }
  split; try done.
  - intros v p fl a Hv _ Hin. apply Ha. intros q Hq.
    destruct (us_entry _ _ _ _ _ H _ _ _ Hv) as (_ & Hp & _). destruct (us_disj _ _ _ _ _ H _ _ _ Hv) as [H1 H2].
    eapply page_apart; [exact Hp|by eapply tables_valid| |done]. intros ->.
    rewrite P, elem_of_app in Hq. destruct Hq as [Hq|Hq]; [|done]. apply H1. rewrite E. set_solver.
  - intros a Hna. apply Ha. intros q Hq. apply Hna, Ho. unfold owned. tauto.
Qed.

(** A write to a page that the space does not map. *)
Lemma uspace_write s l pgdir T U p k' :
  uspace s l pgdir T U -> valid p -> p ∉ pt_pages pgdir T ->
  (forall v fl, U !! v <> Some (p, fl)) -> kinv kend k' l -> agree_pages [p] (vmem s) (pmem k') ->
  uspace (upd_kmem (fun _ => k') s) l pgdir T U.
Proof.
  intros [[Hk Hpt Hd] Hpte Hen Hinj Hdis] Hp Hnt Hnf Hk' Ha.
  destruct (pt_rep_agree kend [p] (vmem s) (pmem k') pgdir T) as [Hr Hw]; [done|done|by constructor| |].
  { intros q. rewrite list_elem_of_singleton. by intros ->. }
  split; try done. intros v Hv. unfold vmem. simpl. rewrite Hw. by apply Hpte.
Qed.

Lemma write_evolves s l0 l pgdir T U p k' :
  uspace s l0 pgdir T U -> valid p -> (forall v fl, U !! v <> Some (p, fl)) -> p ∉ pt_pages pgdir T ->
  agree_pages [p] (vmem s) (pmem k') ->
  evolves pgdir s (p :: l) T U (upd_kmem (fun _ => k') s) (p :: l) T U.
Proof.
  intros H Hp Hnf Hnt Ha. split; try done.
  - intros v Hv. destruct (pt_rep_agree kend [p] (vmem s) (pmem k') pgdir T) as [_ Hw]; [apply H|done|by constructor| |apply Hw].
    intros q. rewrite list_elem_of_singleton. by intros ->.
  - intros v q fl a Hv _ Hin. apply Ha. intros x. rewrite list_elem_of_singleton. intros ->.
    destruct (us_entry _ _ _ _ _ H _ _ _ Hv) as (_ & Hq & _). eapply page_apart; [exact Hq|done| |done].
    intros ->. by eapply Hnf.
  - intros a Hna. apply Ha. intros x. rewrite list_elem_of_singleton. intros ->. apply Hna. left. left.
Qed.

Definition PTE_UW : Z := 7.

(** [mem = kalloc(); memset(mem, 0, PGSIZE);] *)
Lemma wp_zeroed_page {A} s l pgdir T U (m0 : M vst A) (k : Z -> M vst A) (R : A -> vst -> Prop) :
  uspace s l pgdir T U ->
  (l = [] -> wp m0 R s) ->
  (forall p l' s', l = p :: l' -> valid p -> p <> 0 -> p ∉ l' -> p ∉ pt_pages pgdir T ->
     (forall v fl, U !! v <> Some (p, fl)) -> uspace s' l' pgdir T U ->
     evolves pgdir s l T U s' l T U -> (forall a, p <= a < p + PGSIZE -> ld8 (vmem s') a = 0) ->
     wp (k p) R s') ->
  wp (mem ← vkalloc; if mem =? 0 then m0 else vmemset mem 0 PGSIZE ;; k mem) R s.
Proof.
  intros H H0 H1. apply wp_bind. eapply wp_vkalloc; [apply H|by intros ->; apply H0|].
  intros p l' k' -> Hp Hpl Hp0 Hk' Hm Hu. destruct (p =? 0) eqn:E; bool_to_prop; [done|].
  assert (p ∉ pt_pages pgdir T) as Hnt by (apply (sp_disj _ _ _ _ _ (us_space _ _ _ _ _ H)); left).
  assert (forall v fl, U !! v <> Some (p, fl)) as Hnf.
  { intros v fl Hv. destruct (us_disj _ _ _ _ _ H _ _ _ Hv) as [Hn _]. apply Hn. left. }
  unfold vmemset. apply wp_bind, wp_modify.
  set (m' := memset (vmem s) p 0 PGSIZE).
  assert (agree_pages [p] (vmem s) m') as Ha by by apply (memset_agree kend).
  match goal with |- wp _ _ ?st =>
    replace st with (upd_kmem (fun _ => set_pmem (fun _ => m') k') s)
      by (unfold upd_kmem, set_pmem, m', vmem; cbn [v_kmem v_kmap v_gpu v_kpgdir v_mach v_desc pmem kmem_lock use_lock freelist]; by rewrite Hm)
  end.
  assert (kinv kend (set_pmem (fun _ => m') k') l') as Hki.
  { apply (kinv_agree kend k' l' [p]); [done|by rewrite Hm|by constructor|].
    intros q Hq. rewrite list_elem_of_singleton. by intros ->. }
  assert (uspace (upd_kmem (fun _ => k') s) l' pgdir T U) as Hus.
  { destruct H as [[Hk Hpt Hd] Hpte Hen Hinj Hdis]. split; [split| | | |]; try done.
    - unfold vmem. simpl. rewrite Hm. exact Hpt.
    - intros q Hq. apply Hd. by right.
    - intros v Hv. unfold vmem. simpl. rewrite Hm. by apply Hpte.
    - intros v q fl Hv. destruct (Hdis _ _ _ Hv) as [Hq1 Hq2]. split; [|done]. intros Hq. apply Hq1. by right. }
  apply (H1 p l'); try done.
  - change (upd_kmem (fun _ => set_pmem (fun _ => m') k') s)
      with (upd_kmem (fun _ => set_pmem (fun _ => m') k') (upd_kmem (fun _ => k') s)).
    eapply uspace_write; [exact Hus|exact Hp|done|done|done|]. unfold vmem. simpl. by rewrite Hm.
  - by eapply write_evolves.
  - intros a Hin. unfold vmem. simpl. unfold m'. rewrite (memset_page kend) by done. by case_decide.
Qed.

(** Mapping the page in hand at user page [v]. *)
Lemma wp_map_frame s l pgdir T U v p (Q : Z -> vst -> Prop) :
  uspace s l pgdir T U -> 0 <= v < NUSER -> U !! v = None ->
  valid p -> p ∉ l -> p ∉ pt_pages pgdir T -> (forall v fl, U !! v <> Some (p, fl)) ->
  (forall s' l' T', uspace s' l' pgdir T' (<[v := (p, PTE_UW)]> U) -> l' ⊆ l ->
     evolves pgdir s (p :: l) T U s' l' T' (<[v := (p, PTE_UW)]> U) ->
     (forall a, p <= a < p + PGSIZE -> ld8 (vmem s') a = ld8 (vmem s) a) -> Q 0 s') ->
  (forall s' T', uspace s' [] pgdir T' U -> p ∉ pt_pages pgdir T' ->
     evolves pgdir s (p :: l) T U s' [p] T' U -> Q (-1) s') ->
  wp (mappages pgdir (4096 * v) PGSIZE (V2P p) (Z.lor PTE_W PTE_U)) Q s.
Proof.
  intros H Hv Hun Hp Hpl Hpt Hpf HQ0 HQ1. pose proof H as [Hsp Hpte Hen Hinj Hdis].
  destruct (valid_V2P _ _ Hp) as [Evp Hvp].
  assert (4096 * v / 4096 = v) as Ed by (rewrite Z.mul_comm; apply Z.div_mul; lia).
  assert ((4096 * v + PGSIZE - 1) / 4096 - 4096 * v / 4096 + 1 = 1) as En by (rewrite Ed; unfold PGSIZE; zdm).
  eapply (wp_mappages kend s l pgdir T); [done|lia|done|unfold PGSIZE; lia|lia|done| | |].
  - rewrite En, Ed. intros w Hw. replace w with v by lia. rewrite Hpte, Hun by lia. done.
  - rewrite En, Ed. intros s' l' T' Hsp' Hg Hm.
    assert (forall w, 0 <= w -> pte (vmem s') T' w = if w =? v then V2P p + PTE_UW else pte (vmem s) T w) as Hw.
    { intros w Hw. rewrite (Hm w Hw). destruct (w =? v) eqn:E; bool_to_prop.
      - subst w. rewrite (proj2 (andb_true_iff _ _)) by (split; [apply Z.leb_le|apply Z.ltb_lt]; lia).
        unfold entry_for. rewrite Z.sub_diag, Z.mul_0_r, Z.add_0_r, u32_small by lia. rewrite Evp.
        by rewrite entry_lor.
      - destruct (_ && _) eqn:E2; [bool_to_prop; lia|done]. }
    assert ((p ∉ l') /\ (p ∉ pt_pages pgdir T') /\ l' ⊆ l) as (Hpl' & Hpt' & Hll).
    { destruct (gr_pages _ _ _ _ _ _ _ Hg) as (u & -> & P). rewrite P. set_solver. }
    eapply HQ0; [|done| |].
    + split; [done| | | |].
      * intros w Hw'. rewrite Hw by lia. destruct (w =? v) eqn:E; bool_to_prop.
        -- subst. by rewrite lookup_insert_eq.
        -- rewrite lookup_insert_ne by done. by apply Hpte.
      * intros w q f [[<- [= <- <-]]|[_ Hq]]%lookup_insert_Some; [done|eauto].
      * intros w w' q f f' H1 H2. apply lookup_insert_Some in H1 as [[<- E1]|[Hne1 H1]], H2 as [[<- E2]|[Hne2 H2]]; simplify_eq.
        -- done.
        -- by destruct (Hpf _ _ H2).
        -- by destruct (Hpf _ _ H1).
        -- by eapply Hinj.
      * intros w q f [[<- [= <- <-]]|[_ Hq]]%lookup_insert_Some; [done|].
        destruct (Hdis _ _ _ Hq) as [H1 H2]. destruct (gr_pages _ _ _ _ _ _ _ Hg) as (u & El & P).
        rewrite P. rewrite El in H1. set_solver.
    + eapply evolves_trans; [apply evolves_hand; eapply grown_evolves; [exact H|exact Hsp'|done|]|by apply evolves_take|done].
      intros w Hw'. rewrite Hw by lia. replace (w =? v) with false by (symmetry; apply Z.eqb_neq; lia). done.
    + intros a Ha. apply (gr_agree _ _ _ _ _ _ _ Hg). intros q Hq.
      eapply page_apart; [exact Hp|by eapply tables_valid| |done]. by intros ->.
  - rewrite En, Ed. intros s' T' k Hk Hsp' Hg _ Hm. replace k with 0 in Hm by lia.
    assert (forall w, 0 <= w -> pte (vmem s') T' w = pte (vmem s) T w) as Hw.
    { intros w Hw. rewrite (Hm w Hw). destruct (_ && _) eqn:E2; [bool_to_prop; lia|done]. }
    destruct (gr_pages _ _ _ _ _ _ _ Hg) as (u & El & P). rewrite app_nil_r in El. subst u.
    assert (p ∉ pt_pages pgdir T') as Hpt' by (rewrite P; set_solver).
    eapply HQ1; [|done|].
    + split; [done| |done|done|].
      * intros w Hw'. rewrite Hw by lia. by apply Hpte.
      * intros w q f Hq. destruct (Hdis _ _ _ Hq) as [H1 H2]. split; [set_solver|]. rewrite P. set_solver.
    + apply evolves_hand. eapply grown_evolves; [done..|]. intros w Hw'. apply Hw. lia.
Qed.

Lemma umask_insert lo hi U v e : lo <= v < hi -> umask lo hi (<[v := e]> U) = umask lo hi U.
Proof.
  intros Hv. apply map_eq. intros w. rewrite !lookup_umask. case_decide; [done|]. rewrite lookup_insert_ne; [done|lia].
Qed.

(** Giving the page in hand back. *)
Lemma wp_kfree_hand s l pgdir T U p (Q : unit -> vst -> Prop) :
  uspace s l pgdir T U -> valid p -> p ∉ l -> p ∉ pt_pages pgdir T -> (forall v fl, U !! v <> Some (p, fl)) ->
  (forall s', uspace s' (p :: l) pgdir T U -> evolves pgdir s (p :: l) T U s' (p :: l) T U -> Q tt s') ->
  wp (vkfree kend p) Q s.
Proof.
  intros H Hp Hpl Hpt Hpf HQ. eapply wp_vkfree; [apply H|done|done|]. intros k' Hk' Ha.
  apply HQ; [|by eapply write_evolves].
  destruct (pt_rep_agree kend [p] (vmem s) (pmem k') pgdir T) as [Hr Hw]; [apply H|done|by constructor| |].
  { intros q. rewrite list_elem_of_singleton. by intros ->. }
  destruct H as [[Hk Hr0 Hd] Hpte Hen Hinj Hdis]. split; [split| | | |]; try done.
  - intros q [->|Hq]%elem_of_cons; [done|by apply Hd].
  - intros v Hv. unfold vmem. simpl. rewrite Hw. by apply Hpte.
  - intros v q fl Hv. destruct (Hdis _ _ _ Hv) as [Hq1 Hq2]. split; [|done].
    intros [->|Hq]%elem_of_cons; [by destruct (Hpf _ _ Hv)|done].
Qed.

(** The pages that [allocuvm] adds: fresh, zeroed, writable by the user. *)
Definition fresh_pages (s : vst) (l : list Z) (U' : pages) (lo hi : Z) : Prop :=
  forall w, lo <= w < hi -> exists p, U' !! w = Some (p, PTE_UW) /\ p ∈ l /\
    forall a, p <= a < p + PGSIZE -> ld8 (vmem s) a = 0.

Lemma wp_allocuvm_loop fuel s l pgdir T U v oldsz newsz (Q : Z -> vst -> Prop) :
  uspace s l pgdir T U -> 0 <= oldsz <= newsz -> newsz < KERNBASE -> npages oldsz <= v ->
  newsz <= 4096 * v + 4096 * Z.of_nat fuel ->
  (forall w, v <= w < npages newsz -> U !! w = None) ->
  (forall s' l' T' U', uspace s' l' pgdir T' U' -> l' ⊆ l ->
     (forall w, ~ (v <= w < npages newsz) -> U' !! w = U !! w) -> fresh_pages s' l U' v (npages newsz) ->
     evolves pgdir s l T U s' l' T' U' -> Q newsz s') ->
  (forall s' l' T', uspace s' l' pgdir T' (umask (npages oldsz) (npages newsz) U) ->
     evolves pgdir s l T U s' l' T' (umask (npages oldsz) (npages newsz) U) -> Q 0 s') ->
  wp (allocuvm_loop kend fuel pgdir (4096 * v) oldsz newsz) Q s.
Proof.
  unfold KERNBASE. revert s l T U v Q.
  induction fuel as [|n IH]; intros s l T U v Q H Hsz Hmax Hv Hfuel Hun HQ0 HQ1; cbn [allocuvm_loop].
  all: assert (0 <= npages oldsz) as Hlo by (unfold npages; zdm).
  all: destruct (4096 * v <? newsz) eqn:Elt; bool_to_prop;
    [|apply wp_ret; pose proof (npages_lt v newsz);
      apply (HQ0 s l T U); [done|done|done|intros w Hw; lia|apply evolves_refl]].
  { lia. }
  assert (v < npages newsz) as Hvn by by apply npages_lt.
  assert (npages newsz <= NUSER) as Hnu by (unfold npages; zdm).
  eapply (wp_zeroed_page s l pgdir T U); [done| |].
  { intros ->. apply wp_bind. eapply wp_deallocuvm; [done|lia|unfold KERNBASE; lia| |].
    - intros Hle. exfalso. assert (oldsz = newsz) as -> by lia. lia.
    - intros Hlt s' l' H' _ Hev. apply wp_ret. by eapply HQ1. }
  intros p l1 s1 -> Hp Hp0 Hpl Hpt Hpf H1 Hev1 Hz. apply wp_bind.
  eapply wp_map_frame; [exact H1|lia|apply Hun; lia|done..| |].
  - intros s2 l2 T2 H2 Hl2 Hev2 Hc. cbn [Z.ltb Z.compare].
    replace (u32 (4096 * v + PGSIZE)) with (4096 * (v + 1)) by (unfold PGSIZE; rewrite u32_small; lia).
    assert (evolves pgdir s (p :: l1) T U s2 l2 T2 (<[v := (p, PTE_UW)]> U)) as Hev
      by (eapply evolves_trans; [exact Hev1|exact Hev2|done]).
    eapply IH; [exact H2|lia|lia|lia|lia| | |].
    + intros w Hw. rewrite lookup_insert_ne by lia. apply Hun. lia.
    + intros s3 l3 T3 U3 H3 Hl3 Hsame Hfr Hev3. eapply (HQ0 s3 l3 T3 U3); [done|set_solver| | |].
      * intros w Hw. rewrite Hsame by lia. rewrite lookup_insert_ne by lia. done.
      * intros w Hw. destruct (decide (w = v)) as [->|Hne].
        -- exists p. rewrite (Hsame v), lookup_insert_eq by lia. split_and!; [done|left|].
           intros a Ha. rewrite (ev_kept _ _ _ _ _ _ _ _ _ Hev3 v p PTE_UW); [|by rewrite lookup_insert_eq| |done].
           ++ rewrite Hc by done. by apply Hz.
           ++ by rewrite (Hsame v), lookup_insert_eq by lia.
        -- destruct (Hfr w ltac:(lia)) as (q & Hq1 & Hq2 & Hq3). exists q. split_and!; [done|set_solver|done].
      * eapply evolves_trans; [exact Hev|exact Hev3|]. intros w e He _.
        rewrite lookup_insert_ne; [done|]. intros <-. rewrite Hun in He by lia. done.
    + intros s3 l3 T3 H3 Hev3. rewrite umask_insert in H3, Hev3 by lia. eapply HQ1; [exact H3|].
      eapply evolves_trans; [exact Hev|exact Hev3|]. intros w e He _.
      rewrite lookup_insert_ne; [done|]. intros <-. rewrite Hun in He by lia. done.
  - intros s2 T2 H2 Hpt2 Hev2. cbn [Z.ltb Z.compare]. apply wp_bind.
    eapply wp_deallocuvm; [exact H2|lia|unfold KERNBASE; lia| |].
    { intros Hle. exfalso. assert (oldsz = newsz) as -> by lia. lia. }
    intros Hlt s3 l3 H3 _ Hev3. apply wp_bind.
    assert (forall w fl, umask (npages oldsz) (npages newsz) U !! w <> Some (p, fl)) as Hpf3.
    { intros w fl Hw%umask_sub. by eapply Hpf. }
    eapply wp_kfree_hand; [exact H3|exact Hp| |exact Hpt2|exact Hpf3|].
    { intros Hin. assert (owned l3 pgdir T2 (umask (npages oldsz) (npages newsz) U) p) as Ho by by left.
      apply (ev_owned _ _ _ _ _ _ _ _ _ Hev3) in Ho as [Ho|[Ho|(w & fl & Ho)]]; [set_solver|done|by eapply Hpf]. }
    intros s4 H4 Hev4. apply wp_ret. eapply HQ1; [exact H4|].
    eapply evolves_trans; [exact Hev1| |done].
    eapply evolves_trans; [exact Hev2| |done].
    eapply evolves_trans; [apply evolves_hand, Hev3|exact Hev4|done].
Qed.

(** C25: [allocuvm] refuses to grow into the kernel, leaves a process that would
    shrink alone, and otherwise either returns the new size, having mapped every
    page up to it to a distinct, zeroed, user-writable page that was free, or
    returns 0 with the user part mapped exactly as before.  In every case no page
    is lost: the pages that are free, in tables or mapped are the same before and
    after; the kernel part, the contents of the pages that were mapped and memory
    outside of the space are untouched. *)
Theorem allocuvm_spec s l pgdir T U oldsz newsz :
  uspace s l pgdir T U -> 0 <= oldsz ->
  (KERNBASE <= newsz -> allocuvm kend pgdir oldsz newsz s = (Ret 0, s)) /\
  (newsz < KERNBASE -> newsz < oldsz -> allocuvm kend pgdir oldsz newsz s = (Ret oldsz, s)) /\
  (oldsz <= newsz < KERNBASE -> (forall w, npages oldsz <= w < npages newsz -> U !! w = None) ->
   wp (allocuvm kend pgdir oldsz newsz) (fun r s' => exists l' T' U',
     uspace s' l' pgdir T' U' /\ evolves pgdir s l T U s' l' T' U' /\
     (r = newsz /\ (forall w, ~ (npages oldsz <= w < npages newsz) -> U' !! w = U !! w) /\
        fresh_pages s' l U' (npages oldsz) (npages newsz) \/
      r = 0 /\ U' = U)) s).
Proof.
  intros H Ho. unfold allocuvm. split_and!.
  - intros Hn. by rewrite (proj2 (Z.leb_le _ _)).
  - intros H1 H2. rewrite (proj2 (Z.leb_gt _ _)), (proj2 (Z.ltb_lt _ _)) by done. done.
  - intros [H1 H2] Hun. rewrite (proj2 (Z.leb_gt _ _)), (proj2 (Z.ltb_ge _ _)) by lia.
    unfold KERNBASE in H2. rewrite PGROUNDUP_eq by lia. fold (npages oldsz).
    assert (0 <= npages oldsz <= NUSER) by (unfold npages; zdm).
    eapply wp_allocuvm_loop; [exact H|lia|unfold KERNBASE; lia|lia| |done| |].
    + unfold uvm_fuel, PGSIZE. zdm.
    + intros s' l' T' U' H' _ Hs Hf Hev. exists l', T', U'. split_and!; [done|done|]. by left.
    + intros s' l' T'. rewrite <- (umask_skip _ (npages newsz)), umask_nil by (lia || (unfold npages; zdm) || auto).
      intros H' Hev. exists l', T', U. split_and!; [done|done|by right].
Qed.

(** C26: [deallocuvm], with its jumps over missing page tables, unmaps exactly the
    user pages between the new and the old size: each of them is back on the free
    list, every other page of the space stays mapped with its contents, and the
    kernel part is untouched; when the new size is not smaller nothing happens. *)
Theorem deallocuvm_spec s l pgdir T U oldsz newsz :
  uspace s l pgdir T U -> 0 <= newsz -> 0 <= oldsz <= KERNBASE ->
  (oldsz <= newsz -> deallocuvm kend pgdir oldsz newsz s = (Ret oldsz, s)) /\
  (newsz < oldsz ->
   wp (deallocuvm kend pgdir oldsz newsz) (fun r s' => exists l', r = newsz /\
     let U' := umask (npages newsz) (npages oldsz) U in
     uspace s' l' pgdir T U' /\ evolves pgdir s l T U s' l' T U' /\ l ⊆ l' /\
     (forall v p fl, npages newsz <= v < npages oldsz -> U !! v = Some (p, fl) -> p ∈ l')) s).
Proof.
  intros H Hn Ho. split.
  - intros Hle. unfold deallocuvm. by rewrite (proj2 (Z.leb_le _ _)).
  - intros Hlt. eapply wp_deallocuvm; [exact H|done|done|lia|]. intros _ s' l' H' Hl Hev.
    exists l'. cbv zeta. split_and!; [done|done|done|done|]. intros v p fl Hv Hp.
    assert (owned l' pgdir T (umask (npages newsz) (npages oldsz) U) p) as [Hin|[Hin|(w & f & Hw)]].
    { apply (ev_owned _ _ _ _ _ _ _ _ _ Hev). right; right. by exists v, fl. }
    + done.
    + by destruct (us_disj _ _ _ _ _ H _ _ _ Hp).
    + rewrite lookup_umask in Hw. case_decide as Hd; [done|]. destruct Hd.
      assert (w = v) as -> by (by eapply (us_inj _ _ _ _ _ H)). done.
Qed.

(** ** copyout *)
Lemma ld8_st_bytes m dst l a : 0 <= dst -> dst + Z.of_nat (length l) <= 4294967296 ->
  ld8 (st_bytes m dst l) a =
  if decide (dst <= a < dst + Z.of_nat (length l)) then u8 (default 0 (l !! Z.to_nat (a - dst))) else ld8 m a.
Proof.
  revert m dst. induction l as [|b l IH]; intros m dst H0 Hm; cbn [st_bytes length] in *.
  { case_decide; [lia|done]. }
  destruct l as [|c l].
  { cbn [st_bytes]. rewrite ld8_st8. destruct (dst =? a) eqn:E; bool_to_prop; case_decide; simpl in *; try lia; try done.
    subst. by rewrite Z.sub_diag. }
  rewrite u32_small, IH by (cbn [length] in *; lia). repeat case_decide; try lia.
  - replace (Z.to_nat (a - dst)) with (S (Z.to_nat (a - (dst + 1)))) by lia. done.
  - assert (a = dst) as -> by lia. rewrite ld8_st8_eq. by rewrite Z.sub_diag.
  - by rewrite ld8_st8_ne by lia.
Qed.

(** The byte of the user at address [a]. *)
Definition ubyte (s : vst) (U : pages) (a : Z) : Z :=
  match U !! (a / 4096) with
  | Some (p, _) => ld8 (vmem s) (p + a mod 4096)
  | None => 0
  end.

Definition user_page (U : pages) (v : Z) : Prop :=
  exists p fl, U !! v = Some (p, fl) /\ Z.land fl PTE_U <> 0.

Lemma land_low a fl f : 0 <= f < 4096 -> 0 <= fl < 4096 -> Z.land (4096 * a + fl) f = Z.land fl f.
Proof.
  intros Hf Hfl. replace f with (Z.land 4095 f) at 1.
  - rewrite Z.land_assoc. change 4095 with (2 ^ 12 - 1). rewrite land_ones_mod by lia. f_equal. change (2 ^ 12) with 4096. zdm.
  - rewrite Z.land_comm. change 4095 with (2 ^ 12 - 1). rewrite land_ones_mod by lia. apply Z.mod_small. lia.
Qed.

Lemma uva2ka_run s l pgdir T U v t :
  uspace s l pgdir T U -> 0 <= v < NUSER -> T !! (v / 1024) = Some t ->
  uva2ka pgdir (4096 * v) s = (Ret (match U !! v with
    | Some (p, fl) => if Z.land fl PTE_U =? 0 then 0 else p
    | None => 0
    end), s).
Proof.
  intros H Hv Ht. unfold uva2ka. pose proof (sp_pt _ _ _ _ _ (us_space _ _ _ _ _ H)) as Hpt.
  assert (4096 * v / 4096 = v) as Ed by (rewrite Z.mul_comm; apply Z.div_mul; lia).
  erewrite bind_Ret by (eapply (walk_lookup kend); [exact Hpt|lia]). rewrite Ed.
  erewrite bind_Ret by (by eapply load_entry). rewrite (us_pte _ _ _ _ _ H v Hv).
  destruct (U !! v) as [[p fl]|] eqn:E; [|done].
  destruct (entry_nz _ _ _ _ _ _ _ _ H E) as (_ & Ea & _ & Ep & Hpr & _).
  destruct (us_entry _ _ _ _ _ H _ _ _ E) as (_ & Hp & Hfl & _). destruct (valid_V2P _ _ Hp) as [Ev _].
  destruct (Z.land (V2P p + fl) PTE_P =? 0) eqn:E1; bool_to_prop; [done|].
  replace (Z.land (V2P p + fl) PTE_U) with (Z.land fl PTE_U) by (rewrite Ev, land_low; done || unfold PTE_U; lia).
  rewrite Ea, Ep. by destruct (_ =? 0).
Qed.

(** Writing [bs] into the frame of [v] from offset [o]. *)
Lemma uspace_frame_write s l pgdir T U v p fl o bs :
  uspace s l pgdir T U -> U !! v = Some (p, fl) -> 0 <= o -> o + Z.of_nat (length bs) <= 4096 ->
  let s' := upd_kmem (set_pmem (fun m => st_bytes m (p + o) bs)) s in
  uspace s' l pgdir T U /\ agree_pages [p] (vmem s) (vmem s') /\
  forall a, 0 <= a -> ubyte s' U a =
    if decide (4096 * v + o <= a < 4096 * v + o + Z.of_nat (length bs))
    then u8 (default 0 (bs !! Z.to_nat (a - (4096 * v + o)))) else ubyte s U a.
Proof.
  intros H Hv Ho Hl s'. pose proof H as [[Hk Hpt Hd] Hpte Hen Hinj Hdis].
  destruct (Hen _ _ _ Hv) as (Hvr & Hp & _). destruct (Hdis _ _ _ Hv) as [Hpl Hpt'].
  destruct (valid_range _ _ Hp) as [Hpr _].
  assert (forall a, ld8 (vmem s') a = if decide (p + o <= a < p + o + Z.of_nat (length bs))
    then u8 (default 0 (bs !! Z.to_nat (a - (p + o)))) else ld8 (vmem s) a) as Hm.
  { intros a. apply ld8_st_bytes; lia. }
  assert (agree_pages [p] (vmem s) (vmem s')) as Ha.
  { intros a Hna. rewrite Hm. specialize (Hna p ltac:(set_solver)). unfold PGSIZE in Hna. case_decide; [lia|done]. }
  destruct (pt_rep_agree kend [p] (vmem s) (vmem s') pgdir T) as [Hr Hw]; [done|done|by constructor| |].
  { intros q. rewrite list_elem_of_singleton. by intros ->. }
  split_and!; [|done|].
  - split; [split|..]; try done.
    + apply (kinv_agree kend (v_kmem s) l [p]); [done|done|by constructor|].
      intros q Hq. rewrite list_elem_of_singleton. by intros ->.
    + intros w Hw'. rewrite Hw. by apply Hpte.
  - intros a Ha0. unfold ubyte. destruct (U !! (a / 4096)) as [[q f]|] eqn:Eq.
    + rewrite Hm. destruct (decide (q = p)) as [->|Hne].
      * assert (a / 4096 = v) as Ev by by eapply Hinj.
        assert (a = 4096 * v + a mod 4096) as Ea by (rewrite <- Ev; apply Z.div_mod; lia).
        repeat case_decide; try lia; try done; do 3 f_equal; lia.
      * destruct (Hen _ _ _ Eq) as (_ & Hq & _).
        assert (q <= q + a mod 4096 < q + PGSIZE) as Hin by (unfold PGSIZE; pose proof (Z.mod_pos_bound a 4096 ltac:(lia)); lia).
        pose proof (page_apart q p (q + a mod 4096) Hq Hp Hne Hin) as Hap. unfold PGSIZE in Hap.
        rewrite decide_False by lia. rewrite decide_False; [done|]. intros Hr'.
        assert (a / 4096 = v) by zdm. congruence.
    + rewrite decide_False; [done|]. intros Hr'. assert (a / 4096 = v) by zdm. congruence.
Qed.

Lemma wp_copyout_loop fuel s l pgdir T U va buf (Q : Z -> vst -> Prop) :
  let len := Z.of_nat (length buf) in
  uspace s l pgdir T U -> 0 <= va -> va + len <= KERNBASE -> va mod 4096 + len <= 4096 * Z.of_nat fuel ->
  (forall a, va <= a < va + len -> user_page U (a / 4096)) ->
  (forall s', uspace s' l pgdir T U ->
     (forall a, 0 <= a -> ubyte s' U a =
        if decide (va <= a < va + len) then u8 (default 0 (buf !! Z.to_nat (a - va))) else ubyte s U a) ->
     (forall a, (forall v p fl, U !! v = Some (p, fl) -> ~ (p <= a < p + PGSIZE)) -> ld8 (vmem s') a = ld8 (vmem s) a) ->
     Q 0 s') ->
  wp (copyout_loop fuel pgdir va buf len) Q s.
Proof.
  revert s va buf Q.
  induction fuel as [|n IH]; intros s va buf Q len H Hva Hmax Hfuel Hus HQ; unfold KERNBASE in Hmax; cbn [copyout_loop].
  all: destruct (0 <? len) eqn:El; bool_to_prop;
    [|apply wp_ret, HQ; [done|intros a Ha; case_decide; [lia|done]|done]].
  { pose proof (Z.mod_pos_bound va 4096 ltac:(lia)). lia. }
  rewrite PGROUNDDOWN_eq by lia. set (v := va / 4096).
  assert (va = 4096 * v + va mod 4096 /\ 0 <= va mod 4096 < 4096) as [Eva Ho]
    by (unfold v; split; [apply Z.div_mod; lia|apply Z.mod_pos_bound; lia]).
  set (o := va mod 4096) in *. replace (va - 4096 * v) with o by lia.
  destruct (Hus va ltac:(lia)) as (p & fl & Hp & Hfl). fold v in Hp.
  destruct (us_entry _ _ _ _ _ H _ _ _ Hp) as (Hvr & Hpv & _). destruct (valid_range _ _ Hpv) as [Hpr _].
  destruct (T !! (v / 1024)) as [t|] eqn:Et.
  2: { by rewrite (no_table _ _ _ _ _ _ H Hvr Et) in Hp. }
  apply wp_bind. eapply wp_eq; [by eapply uva2ka_run|]. rewrite Hp.
  destruct (Z.land fl PTE_U =? 0) eqn:E1; bool_to_prop; [done|].
  destruct (p =? 0) eqn:E2; bool_to_prop; [lia|].
  set (k := Z.min (PGSIZE - o) len). assert (0 < k <= len /\ k <= 4096 - o) as [Hk1 Hk2] by (unfold k, PGSIZE; lia).
  assert (k = len \/ k = 4096 - o) as Hk3 by (unfold k, PGSIZE; lia). clearbody k.
  unfold copy_in. apply wp_bind, wp_modify. rewrite (u32_small (p + o)) by lia.
  assert (Z.of_nat (length (take (Z.to_nat k) buf)) = k) as Etk by (rewrite length_take; unfold len in *; lia).
  destruct (uspace_frame_write s l pgdir T U v p fl o (take (Z.to_nat k) buf) H Hp) as (H1 & Ha1 & Hb1); [lia|lia|].
  rewrite Etk in Hb1. set (s1 := upd_kmem _ s) in *.
  assert (len - k = Z.of_nat (length (drop (Z.to_nat k) buf))) as -> by (rewrite length_drop; unfold len in *; lia).
  assert (forall a, (forall v p fl, U !! v = Some (p, fl) -> ~ (p <= a < p + PGSIZE)) -> ld8 (vmem s1) a = ld8 (vmem s) a) as Hout1.
  { intros a Hna. apply Ha1. intros q. rewrite list_elem_of_singleton. intros ->. by eapply Hna. }
  assert (Z.of_nat (length (drop (Z.to_nat k) buf)) = len - k) as Edk by (rewrite length_drop; unfold len in *; lia).
  unfold PGSIZE at 1. replace (u32 (4096 * v + 4096)) with (4096 * (v + 1)) by (rewrite u32_small; lia).
  eapply IH; [exact H1|lia|rewrite Edk; unfold KERNBASE; lia| |rewrite Edk|rewrite Edk].
  { rewrite Edk. replace (4096 * (v + 1)) with ((v + 1) * 4096) by lia. rewrite Z.mod_mul by lia. lia. }
  { intros a Hr. apply Hus. lia. }
  intros s2 H2 Hb2 Hout2. apply HQ; [done| |].
  - intros a Ha0. rewrite Hb2, Hb1 by done. repeat case_decide; try lia; try done.
    + rewrite lookup_drop. do 3 f_equal. lia.
    + rewrite lookup_take_lt by lia. do 3 f_equal. lia.
  - intros a Hna. rewrite Hout2, Hout1 by done. done.
Qed.


End VmUser.
