(* ===== verification/VmImage.v ===== *)
(** * A concrete address space

    One user page, its page table, its directory and two free pages: the input
    that the theorems on page tables and user memory are applied to. *)
From S2P Require Import Prelude Mem Spinlock Kalloc Mmu Vm VmMap VmUser.

Definition img_end : Z := 2152726528.

Lemma img_end_above : KERNBASE < img_end.
Proof. done. Qed.

Definition img_dir : Z := 2153775104.

Definition img_tab : Z := img_dir + 4096.

Definition img_frame : Z := img_dir + 8192.

Definition img_free1 : Z := img_dir + 12288.

Definition img_free2 : Z := img_dir + 16384.

Definition img_mem : mem :=
  st32 (st32 (st32 ∅ img_free1 img_free2) img_dir (new_pde img_tab)) img_tab (V2P img_frame + PTE_UW).

Definition img : vst :=
  Vst (Kmem false true img_free1 img_mem) (kmap_init 2148532224) (Gpu 3221225472 0 4194304) 0
    (Mach [Cpu 0 1 0 0 None 0] 0 0 (Spinlock 0 "l" None []) ∅) [null_desc].

Definition img_T : gmap Z Z := {[0 := img_tab]}.

Definition img_U : gmap Z (Z * Z) := {[0 := (img_frame, PTE_UW)]}.

Lemma img_T_Some i p : img_T !! i = Some p -> 0 = i /\ img_tab = p.
Proof. apply lookup_singleton_Some. Qed.

Lemma img_T_None i : img_T !! i = None -> 0 <> i.
Proof. apply lookup_singleton_None. Qed.

Lemma img_U_Some v e : img_U !! v = Some e -> 0 = v /\ (img_frame, PTE_UW) = e.
Proof. apply lookup_singleton_Some. Qed.

Lemma img_word a : a + 4 <= img_free1 -> img_dir + 4 <= a -> a + 4 <= img_tab \/ img_tab + 4 <= a -> ld32 img_mem a = 0.
Proof.
  intros H1 H2 H3. unfold img_mem. rewrite !ld32_st32_ne by (unfold img_tab in *; lia).
  unfold ld32, ld8. by rewrite !lookup_empty.
Qed.

Lemma img_valid a : a ∈ [img_dir; img_tab; img_frame; img_free1; img_free2] -> valid_page img_end a.
Proof. intros H. repeat (apply elem_of_cons in H as [->|H]; [by vm_compute|]). by apply not_elem_of_nil in H. Qed.

Lemma img_space : space img_end img [img_free1; img_free2] img_dir img_T.
Proof.
  assert (pt_pages img_dir img_T = [img_dir; img_tab]) as Ep by (unfold pt_pages, img_T; by rewrite map_to_list_singleton).
  split; [split| |].
  - by vm_compute.
  - apply NoDup_cons. split; [|apply NoDup_singleton]. rewrite list_elem_of_singleton. by vm_compute.
  - repeat constructor; try (by vm_compute).
  - done.
  - split.
    + rewrite Ep. apply elem_Forall. intros x Hx. apply img_valid. set_solver.
    + rewrite Ep. apply NoDup_cons. split; [|apply NoDup_singleton]. rewrite list_elem_of_singleton. by vm_compute.
    + intros i p [<- <-]%img_T_Some. lia.
    + intros i p [<- <-]%img_T_Some. by vm_compute.
    + intros i Hi Hn%img_T_None. change (vmem img) with img_mem.
      rewrite img_word; [done|unfold img_free1; lia|lia|unfold img_tab; lia].
  - rewrite Ep. intros p Hp [Hq|Hq]%elem_of_cons; [|apply list_elem_of_singleton in Hq]; subst;
      repeat (apply elem_of_cons in Hp as [Hp|Hp]; [by vm_compute in Hp|]); by apply not_elem_of_nil in Hp.
Qed.

Lemma img_uspace : uspace img_end img [img_free1; img_free2] img_dir img_T img_U.
Proof.
  assert (pt_pages img_dir img_T = [img_dir; img_tab]) as Ep by (unfold pt_pages, img_T; by rewrite map_to_list_singleton).
  split; [apply img_space|..].
  - intros v Hv. unfold pte, img_T, img_U. destruct (decide (v = 0)) as [->|Hne].
    + rewrite lookup_singleton_eq. by vm_compute.
    + rewrite (lookup_singleton_ne 0 v) by lia. destruct (decide (v / 1024 = 0)) as [E|E].
      * rewrite E, lookup_singleton_eq. change (vmem img) with img_mem. pose proof (Z.mod_pos_bound v 1024 ltac:(lia)).
        assert (v mod 1024 <> 0) by zdm. apply img_word; unfold img_tab, img_free1; lia.
      * by rewrite lookup_singleton_ne.
  - intros v p fl [<- [= <- <-]]%img_U_Some. split_and!; by vm_compute.
  - intros v w p fl fl' [<- _]%img_U_Some [<- _]%img_U_Some. done.
  - intros v p fl [<- [= <- <-]]%img_U_Some. rewrite Ep. split; intros Hp;
      repeat (apply elem_of_cons in Hp as [Hp|Hp]; [by vm_compute in Hp|]); by apply not_elem_of_nil in Hp.
Qed.

(** Mapping two pages at 0x3ff800: the second lies in a table that does not exist yet. *)
Lemma mappages_spec_witness :
  exists r s', mappages img_dir 4192256 4096 65536 PTE_W img = (Ret r, s') /\
    (r = 0 -> mmu_pte (vmem s') img_dir 4194304 = entry_for 65536 PTE_W 1).
Proof.
  destruct (mappages_spec img_end img [img_free1; img_free2] img_dir img_T 4192256 4096 65536 PTE_W
    img_space ltac:(lia) ltac:(lia) ltac:(lia) ltac:(lia) ltac:(unfold PTE_W; lia)) as [H _].
  assert (unmapped (vmem img) img_T 1023 2) as Hu.
  { intros v Hv. assert (v = 1023 \/ v = 1024) as [->| ->] by lia; by vm_compute. }
  destruct (wp_returns _ _ _ (H Hu)) as (r & s' & E & l' & T' & _ & _ & k & Hk & Hm).
  exists r, s'. split; [done|]. intros ->. destruct Hk as [[_ ->]|[? _]]; [|done].
  rewrite (Hm 4194304 ltac:(lia)). reflexivity.
Defined.

(** Growing by one page. *)
Lemma allocuvm_spec_witness :
  exists r s', allocuvm img_end img_dir 4096 5000 img = (Ret r, s') /\ (r = 5000 \/ r = 0).
Proof.
  destruct (allocuvm_spec img_end img_end_above img [img_free1; img_free2] img_dir img_T img_U 4096 5000
    img_uspace ltac:(lia)) as (_ & _ & H).
  assert (forall w, npages 4096 <= w < npages 5000 -> img_U !! w = None) as Hu.
  { change (npages 4096) with 1. intros w Hw. apply lookup_singleton_ne. lia. }
  destruct (wp_returns _ _ _ (H ltac:(unfold KERNBASE; lia) Hu)) as (r & s' & E & l' & T' & U' & _ & _ & Hr).
  exists r, s'. split; [done|]. destruct Hr as [[-> _]|[-> _]]; auto.
Defined.

(** Shrinking to nothing frees the page. *)
Lemma deallocuvm_spec_witness :
  exists s' l', deallocuvm img_end img_dir 4096 0 img = (Ret 0, s') /\ img_frame ∈ l' /\ kinv img_end (v_kmem s') l'.
Proof.
  destruct (deallocuvm_spec img_end img_end_above img [img_free1; img_free2] img_dir img_T img_U 4096 0
    img_uspace ltac:(lia) ltac:(unfold KERNBASE; lia)) as [_ H].
  destruct (wp_returns _ _ _ (H ltac:(lia))) as (r & s' & E & l' & -> & Hu & _ & _ & Hf).
  exists s', l'. split_and!; [done| |apply Hu]. apply (Hf 0 _ PTE_UW); [change (npages 0) with 0; change (npages 4096) with 1; lia|]. apply lookup_singleton_eq.
Defined.

