(* ===== verification/Sleeplock.v ===== *)
(** * Sleep locks (src/xv6/sleeplock.c)

    The state of the routines is the lock and the process environment; a
    component that owns sleep locks runs them through a lens. *)
From S2P Require Import Prelude.

(** [struct sleeplock]; [sl_lk] is the spin lock that protects it. *)
Record sleeplock : Type := Sleeplock {
  sl_lk : bool;
  sl_locked : bool;
  sl_pid : Z;
}.

Definition set_sl_lk (f : bool -> bool) (l : sleeplock) : sleeplock :=
  Sleeplock (f (sl_lk l)) (sl_locked l) (sl_pid l).

Definition set_sl_locked (b : bool) (l : sleeplock) : sleeplock :=
  Sleeplock (sl_lk l) b (sl_pid l).

Definition set_sl_pid (p : Z) (l : sleeplock) : sleeplock :=
  Sleeplock (sl_lk l) (sl_locked l) p.

Abbreviation slstate := (sleeplock * env)%type.

Definition on_lock (f : sleeplock -> sleeplock) (s : slstate) : slstate := (f s.1, s.2).

(** The spin lock inside the sleep lock, and the process environment. *)
Definition spin_of : lens slstate bool :=
  Lens (fun s => sl_lk s.1) (fun f => on_lock (set_sl_lk f)).

Definition env_of : lens slstate env :=
  Lens snd (fun f s => (s.1, f s.2)).

Definition initsleeplock : M slstate unit :=
  modify (on_lock (fun _ => Sleeplock false false 0)).

(** One run of [acquiresleep] up to its first [sleep]; when the process is
    woken it runs the loop again from the start.  [chan] is the address of the
    lock. *)
Definition acquiresleep (chan : Z) : M slstate unit :=
  acquire_flag spin_of ;;
  b ← gets (fun s => sl_locked s.1);
  if (b : bool) then sleep_flag spin_of chan
  else
    modify (on_lock (set_sl_locked true)) ;;
    modify (fun s => on_lock (set_sl_pid (cur_pid s.2)) s) ;;
    release_flag spin_of.

Definition releasesleep (chan : Z) : M slstate unit :=
  acquire_flag spin_of ;;
  modify (on_lock (set_sl_locked false)) ;;
  modify (on_lock (set_sl_pid 0)) ;;
  wakeup_ev env_of chan ;;
  release_flag spin_of.

Definition holdingsleep : M slstate bool :=
  acquire_flag spin_of ;;
  r ← gets (fun s => sl_locked s.1);
  release_flag spin_of ;;
  ret r.

(** ** Behaviour *)
Lemma acquiresleep_free chan pid e :
  acquiresleep chan (Sleeplock false false pid, e)
  = (Ret tt, (Sleeplock false true (cur_pid e), e)).
Proof. done. Qed.

Lemma acquiresleep_taken chan pid e :
  acquiresleep chan (Sleeplock false true pid, e)
  = (Sleep chan, (Sleeplock false true pid, e)).
Proof. done. Qed.

Lemma releasesleep_run chan b pid e :
  releasesleep chan (Sleeplock false b pid, e)
  = (Ret tt, (Sleeplock false false 0, env_wake chan e)).
Proof. done. Qed.

Lemma holdingsleep_run b pid e :
  holdingsleep (Sleeplock false b pid, e) = (Ret b, (Sleeplock false b pid, e)).
Proof. done. Qed.

(** ** Processes contending for one sleep lock

    A process is outside, blocked in [acquiresleep] (asleep on the lock's
    channel or already woken and about to try again), or holds the lock. *)
Inductive pphase : Type := POut | PBlocked | PReady | PHold.

Record contention : Type := Contention {
  slk : sleeplock;
  procs : gmap Z pphase;      (* by pid *)
}.

(** [wakeup(lk)]: every blocked process becomes runnable. *)
Definition wake_blocked (p : pphase) : pphase :=
  match p with PBlocked => PReady | _ => p end.

Inductive cstep (chan : Z) : contention -> contention -> Prop :=
| c_acquire c pid l' e ph :
    procs c !! pid = Some ph -> ph = POut \/ ph = PReady ->
    acquiresleep chan (slk c, Env pid false []) = (Ret tt, (l', e)) ->
    cstep chan c (Contention l' (<[pid := PHold]> (procs c)))
| c_block c pid l' e ph :
    procs c !! pid = Some ph -> ph = POut \/ ph = PReady ->
    acquiresleep chan (slk c, Env pid false []) = (Sleep chan, (l', e)) ->
    cstep chan c (Contention l' (<[pid := PBlocked]> (procs c)))
| c_release c pid l' e :
    procs c !! pid = Some PHold ->
    releasesleep chan (slk c, Env pid false []) = (Ret tt, (l', e)) ->
    woken e = [chan] ->
    cstep chan c (Contention l' (wake_blocked <$> <[pid := POut]> (procs c))).

Definition holders (c : contention) (pid : Z) : Prop := procs c !! pid = Some PHold.

Record cinv (c : contention) : Prop := {
  cinv_spin : sl_lk (slk c) = false;
  cinv_one : forall p q, holders c p -> holders c q -> p = q;
  cinv_locked : forall p, holders c p -> sl_locked (slk c) = true /\ sl_pid (slk c) = p;
  cinv_free : sl_locked (slk c) = true -> exists p, holders c p;
  cinv_blocked : sl_locked (slk c) = false -> forall p, procs c !! p <> Some PBlocked;
}.

Lemma holders_insert c l pid ph q :
  holders (Contention l (<[pid := ph]> (procs c))) q ->
  (q = pid /\ ph = PHold) \/ (q <> pid /\ holders c q).
Proof.
  unfold holders. simpl. rewrite lookup_insert. case_decide; naive_solver.
Qed.

Lemma acquiresleep_cases chan l e :
  sl_lk l = false ->
  acquiresleep chan (l, e) =
    if sl_locked l then (Sleep chan, (l, e))
    else (Ret tt, (Sleeplock false true (cur_pid e), e)).
Proof. destruct l as [[] [] pid]; done. Qed.

Lemma cstep_cinv chan c c' : cinv c -> cstep chan c c' -> cinv c'.
Proof.
  intros [Hs H1 H2 H3 H4] Hst.
  inversion Hst as [c0 pid l' e ph Hp Hph Ha|c0 pid l' e ph Hp Hph Ha|c0 pid l' e Hp Hr Hw];
    subst; clear Hst.
  - rewrite acquiresleep_cases in Ha by done.
    destruct (sl_locked (slk c)) eqn:El; simplify_eq. simpl.
    assert (forall q, ~ holders c q) as Hno by (intros q Hq; apply H2 in Hq; naive_solver).
    split; simpl; try done.
    + intros p q [[-> _]|[_ ?]]%holders_insert [[-> _]|[_ ?]]%holders_insert; naive_solver.
    + intros p [[-> _]|[_ ?]]%holders_insert; naive_solver.
    + intros _. exists pid. unfold holders. simpl. by rewrite lookup_insert_eq.
  - rewrite acquiresleep_cases in Ha by done.
    destruct (sl_locked (slk c)) eqn:El; simplify_eq. split; simpl; try done.
    + intros p q [[_ ?]|[_ ?]]%holders_insert [[_ ?]|[_ ?]]%holders_insert; naive_solver.
    + intros p [[_ ?]|[_ ?]]%holders_insert; naive_solver.
    + intros _. destruct (H3 eq_refl) as [q Hq]. exists q. unfold holders in *. simpl.
      rewrite lookup_insert_ne; [done|]. intros ->. rewrite Hp in Hq. naive_solver.
    + intros ?. congruence.
  - destruct (slk c) as [lk lo pd] eqn:Ec. simpl in Hs. subst lk.
    rewrite releasesleep_run in Hr. simplify_eq.
    assert (forall q, ~ holders (Contention (Sleeplock false false 0)
              (wake_blocked <$> <[pid := POut]> (procs c))) q) as Hno.
    { intros q. unfold holders. simpl. rewrite lookup_fmap, lookup_insert.
      case_decide; simpl; [naive_solver|]. destruct (procs c !! q) as [[]|] eqn:Eq; try done.
      simpl. intros _. by specialize (H1 pid q Hp Eq). }
    split; simpl; [done|intros p q Hq; by apply Hno in Hq|intros p Hq; by apply Hno in Hq|done|].
    intros _ q. rewrite lookup_fmap, lookup_insert.
    case_decide; simpl; [done|]. by destruct (procs c !! q) as [[]|].
Qed.

Lemma csteps_cinv chan c c' : cinv c -> rtc (cstep chan) c c' -> cinv c'.
Proof. intros Hc Hs. induction Hs; eauto using cstep_cinv. Qed.

Definition fresh_contention (ps : gmap Z pphase) : Prop :=
  forall p ph, ps !! p = Some ph -> ph = POut.

(** a sleep lock excludes: whatever sequence of [acquiresleep] and
    [releasesleep] calls processes make, at most one process holds the lock, the
    lock records the pid of that process, and whenever the lock is free no
    process is left blocked on it, so no wakeup is lost. *)
Theorem sleeplock_excludes chan ps c :
  fresh_contention ps ->
  rtc (cstep chan) (Contention (Sleeplock false false 0) ps) c ->
  (forall p q, holders c p -> holders c q -> p = q) /\
  (forall p, holders c p -> sl_pid (slk c) = p) /\
  (sl_locked (slk c) = false -> forall p, procs c !! p <> Some PBlocked).
Proof.
  intros Hf Hs. apply csteps_cinv in Hs as [_ H1 H2 _ H4].
  - split_and!; [done|intros p Hp; by apply H2|done].
  - split; simpl; [done| | |done|]; unfold holders; simpl; intros;
      match goal with H : ps !! _ = Some _ |- _ => by apply Hf in H | _ => idtac end.
    intros Hb. by apply Hf in Hb.
Qed.

Lemma sleeplock_excludes_witness :
  let c := Contention (Sleeplock false true 7)
             (<[9 := PBlocked]> (<[7 := PHold]> {[7 := POut; 9 := POut]})) in
  rtc (cstep 100) (Contention (Sleeplock false false 0) {[7 := POut; 9 := POut]}) c /\
  forall p, holders c p -> sl_pid (slk c) = p.
Proof.
  intros c.
  assert (rtc (cstep 100) (Contention (Sleeplock false false 0) {[7 := POut; 9 := POut]}) c) as Hs.
  { set (c0 := Contention (Sleeplock false false 0) {[7 := POut; 9 := POut]}).
    set (c1 := Contention (Sleeplock false true 7) (<[7 := PHold]> (procs c0))).
    apply rtc_l with c1; [|apply rtc_once].
    - apply (c_acquire 100 c0 7 _ (Env 7 false []) POut); [done|by left|done].
    - apply (c_block 100 c1 9 _ (Env 9 false []) POut); [done|by left|done]. }
  split; [done|]. eapply (sleeplock_excludes 100 _ c); [|done].
  intros p ph Hp. apply lookup_insert_Some in Hp as [[_ <-]|[_ Hp]]; [done|].
  by apply lookup_singleton_Some in Hp as [_ <-].
Defined.
