(* ===== verification/Block.v ===== *)
(** * Disk blocks and the block-cache interface

    A block is the list of its [BSIZE] bytes; the structures on disk (log header,
    superblock, inodes, directory entries) are little-endian fields of it.  The
    class [BlockCache] states what the layers above bio.c use of it: its
    operations ([bread], [bwrite], [brelse], access to [b->data] and [b->flags])
    and their laws in terms of what is on disk, what a reader sees, which blocks
    are dirty and which buffers are held. *)
From S2P Require Import Prelude.

Definition BSIZE : nat := 512.

Abbreviation block := (list Z).

Definition zero_block : block := replicate BSIZE 0.

(** ** Little-endian fields *)
Definition get8 (b : block) (off : nat) : Z := default 0 (b !! off).

Definition get16 (b : block) (off : nat) : Z := get8 b off + 256 * get8 b (off + 1).

Definition get32 (b : block) (off : nat) : Z :=
  get8 b off + 256 * get8 b (off + 1) + 65536 * get8 b (off + 2) + 16777216 * get8 b (off + 3).

Definition le16 (v : Z) : list Z := [v mod 256; v / 256 mod 256].

Definition le32 (v : Z) : list Z :=
  [v mod 256; v / 256 mod 256; v / 65536 mod 256; v / 16777216 mod 256].

(** [memmove(b + off, bs, ...)] inside one block *)
Definition put_bytes (off : nat) (bs : list Z) (b : block) : block := list_inserts off bs b.

Definition get_bytes (off len : nat) (b : block) : list Z := take len (drop off b).

Definition put16 (off : nat) (v : Z) (b : block) : block := put_bytes off (le16 v) b.

Definition put32 (off : nat) (v : Z) (b : block) : block := put_bytes off (le32 v) b.

Lemma length_put_bytes off bs b : length (put_bytes off bs b) = length b.
Proof. apply length_inserts. Qed.

Lemma get8_put_in off bs b i : (off + length bs <= length b)%nat -> (i < length bs)%nat ->
  get8 (put_bytes off bs b) (off + i) = default 0 (bs !! i).
Proof.
  intros Hl Hi. unfold get8, put_bytes. rewrite list_lookup_inserts by lia.
  by replace (off + i - off)%nat with i by lia.
Qed.

Lemma get8_put_out off bs b i : (i < off \/ off + length bs <= i)%nat ->
  get8 (put_bytes off bs b) i = get8 b i.
Proof.
  intros [Hi|Hi]; unfold get8, put_bytes;
    [by rewrite list_lookup_inserts_lt|by rewrite list_lookup_inserts_ge].
Qed.

Lemma get32_put32 off v b : (off + 4 <= length b)%nat -> get32 (put32 off v b) off = u32 v.
Proof.
  intros Hl. unfold get32, put32.
  pose proof (get8_put_in off (le32 v) b 0) as H0. rewrite Nat.add_0_r in H0.
  rewrite H0, !get8_put_in by (simpl; lia). simpl. unfold u32. zdm.
Qed.

Lemma get32_put_out off bs b i : (i + 4 <= off \/ off + length bs <= i)%nat ->
  get32 (put_bytes off bs b) i = get32 b i.
Proof. intros Hi. unfold get32. by rewrite !get8_put_out by lia. Qed.

Lemma get16_put16 off v b : (off + 2 <= length b)%nat -> get16 (put16 off v b) off = u16 v.
Proof.
  intros Hl. unfold get16, put16.
  pose proof (get8_put_in off (le16 v) b 0) as H0. rewrite Nat.add_0_r in H0.
  rewrite H0, !get8_put_in by (simpl; lia). simpl. unfold u16. zdm.
Qed.

Lemma get16_put_out off bs b i : (i + 2 <= off \/ off + length bs <= i)%nat ->
  get16 (put_bytes off bs b) i = get16 b i.
Proof. intros Hi. unfold get16. by rewrite !get8_put_out by lia. Qed.

Lemma length_get_bytes off len b : (off + len <= length b)%nat -> length (get_bytes off len b) = len.
Proof. intros. unfold get_bytes. rewrite length_take, length_drop. lia. Qed.

Lemma get_put_bytes off bs b : (off + length bs <= length b)%nat ->
  get_bytes off (length bs) (put_bytes off bs b) = bs.
Proof.
  intros Hl. apply list_eq. intros i. unfold get_bytes.
  destruct (decide (i < length bs)%nat).
  - rewrite lookup_take_lt, lookup_drop by lia. unfold put_bytes.
    rewrite list_lookup_inserts by lia. f_equal. lia.
  - rewrite lookup_take_ge by lia. symmetry. apply lookup_ge_None_2. lia.
Qed.

Lemma get_bytes_put_out off bs b i len :
  (i + len <= off \/ off + length bs <= i)%nat ->
  get_bytes i len (put_bytes off bs b) = get_bytes i len b.
Proof.
  intros Hi. apply list_eq. intros j. unfold get_bytes.
  destruct (decide (j < len)%nat); [|by rewrite !lookup_take_ge by lia].
  rewrite !lookup_take_lt, !lookup_drop by lia. unfold put_bytes. destruct Hi.
  - by rewrite list_lookup_inserts_lt by lia.
  - by rewrite list_lookup_inserts_ge by lia.
Qed.

Definition upd_fn {A} (f : Z -> A) (b : Z) (v : A) : Z -> A :=
  fun x => if decide (b = x) then v else f x.

Lemma upd_fn_eq {A} (f : Z -> A) b v : upd_fn f b v b = v.
Proof. unfold upd_fn. by case_decide. Qed.

Lemma upd_fn_ne {A} (f : Z -> A) b v x : b <> x -> upd_fn f b v x = f x.
Proof. intros. unfold upd_fn. by case_decide. Qed.

(** ** What a client knows of the cache and the disk *)
Record cview : Type := CView {
  cv_n : Z;                     (* number of disk blocks *)
  cv_disk : Z -> block;         (* contents of the disk *)
  cv_view : Z -> block;         (* what a reader sees *)
  cv_dirty : gset Z;            (* blocks whose buffer has B_DIRTY *)
  cv_locked : gset Z;           (* blocks whose buffer is held *)
  cv_log : list (Z * block);    (* block writes so far *)
}.

Definition v_lock (b : Z) (v : cview) : cview :=
  CView (cv_n v) (cv_disk v) (cv_view v) (cv_dirty v) ({[b]} ∪ cv_locked v) (cv_log v).

Definition v_unlock (b : Z) (v : cview) : cview :=
  CView (cv_n v) (cv_disk v) (cv_view v) (cv_dirty v) (cv_locked v ∖ {[b]}) (cv_log v).

Definition v_set (b : Z) (d : block) (v : cview) : cview :=
  CView (cv_n v) (cv_disk v) (upd_fn (cv_view v) b d) (cv_dirty v) (cv_locked v) (cv_log v).

Definition v_dirty (b : Z) (v : cview) : cview :=
  CView (cv_n v) (cv_disk v) (cv_view v) ({[b]} ∪ cv_dirty v) (cv_locked v) (cv_log v).

Definition v_write (b : Z) (v : cview) : cview :=
  CView (cv_n v) (upd_fn (cv_disk v) b (cv_view v b)) (cv_view v) (cv_dirty v ∖ {[b]}) (cv_locked v)
        (cv_log v ++ [(b, cv_view v b)]).

Definition ROOTDEV : Z := 1.

Class BlockCache (C : Type) : Type := {
  bread : Z -> Z -> M C nat;
  bwrite : nat -> M C unit;
  brelse : nat -> M C unit;
  bdata : C -> nat -> block;
  blockno : C -> nat -> Z;
  set_bdata : nat -> (block -> block) -> M C unit;
  set_dirty : nat -> M C unit;
  cenv : lens C env;
  cwlog : C -> list (Z * block);
  cap : nat;
  cabs : C -> cview -> Prop;
  handle : C -> nat -> Z -> Prop;
}.

(** The buffers held before are still held. *)
Definition keeps {C} `{BlockCache C} (c c' : C) : Prop :=
  forall j x, handle c j x -> handle c' j x.

Class BlockCacheLaws (C : Type) `{BlockCache C} : Prop := {
  bread_law : forall c v b,
    cabs c v -> 0 <= b < cv_n v -> b ∉ cv_locked v ->
    b ∈ cv_dirty v \/ (size (cv_dirty v ∪ cv_locked v) < cap)%nat ->
    wp (bread ROOTDEV b) (fun i c' => cabs c' (v_lock b v) /\ handle c' i b /\ keeps c c') c;
  bdata_law : forall c v i b, cabs c v -> handle c i b -> bdata c i = cv_view v b /\ blockno c i = b;
  set_bdata_law : forall c v i b f,
    cabs c v -> handle c i b ->
    wp (set_bdata i f) (fun _ c' => cabs c' (v_set b (f (cv_view v b)) v) /\ keeps c c') c;
  set_dirty_law : forall c v i b,
    cabs c v -> handle c i b ->
    wp (set_dirty i) (fun _ c' => cabs c' (v_dirty b v) /\ keeps c c') c;
  bwrite_law : forall c v i b,
    cabs c v -> handle c i b ->
    wp (bwrite i) (fun _ c' => cabs c' (v_write b v) /\ keeps c c') c;
  brelse_law : forall c v i b,
    cabs c v -> handle c i b -> b ∈ cv_dirty v \/ cv_view v b = cv_disk v b ->
    wp (brelse i) (fun _ c' => cabs c' (v_unlock b v) /\
      forall j x, x <> b -> handle c j x -> handle c' j x) c;
  cwlog_law : forall c v, cabs c v -> cwlog c = cv_log v;
  cabs_size : forall c v, cabs c v -> cv_n v <= 2147483648;
  handle_range : forall c v i b, cabs c v -> handle c i b -> 0 <= b < cv_n v;
  cenv_laws : LensLaws cenv;
  cenv_abs : forall c v f, cabs c v -> cabs (over cenv f c) v;
  cenv_handle : forall c f i b, handle c i b -> handle (over cenv f c) i b;
  cabs_ext : forall c v v', cabs c v -> cv_n v' = cv_n v -> cv_dirty v' = cv_dirty v ->
    cv_locked v' = cv_locked v -> cv_log v' = cv_log v ->
    (forall b, 0 <= b < cv_n v -> cv_disk v' b = cv_disk v b /\ cv_view v' b = cv_view v b) ->
    cabs c v';
}.
