(* ===== verification/Bio.v ===== *)
(** * Buffer cache and memory disk (src/xv6/bio.c, src/xv6/memide.c)

    [bcache.buf[0..NBUF-1]] and [bcache.head], which the linker places right
    after the array, are the entries [0..NBUF] of one list of buffers; [prev] and
    [next] are indices into it, so the LRU list is the doubly linked list of the
    code.  The disk is the list of its blocks; the model also records the sequence
    of block writes, from which a crash keeps a prefix. *)
From S2P Require Import Prelude Block Sleeplock.

Module Bio.

Definition NBUF : nat := 30.

Definition B_VALID : Z := 2.

Definition B_DIRTY : Z := 4.

(** [struct buf] *)
Record buf : Type := Buf {
  b_flags : Z;
  b_dev : Z;
  b_blockno : Z;
  b_lock : sleeplock;
  b_refcnt : Z;
  b_prev : nat;
  b_next : nat;
  b_data : block;
}.

Definition set_flags (f : Z -> Z) (b : buf) : buf :=
  Buf (f (b_flags b)) (b_dev b) (b_blockno b) (b_lock b) (b_refcnt b) (b_prev b) (b_next b) (b_data b).

Definition set_dev (v : Z) (b : buf) : buf :=
  Buf (b_flags b) v (b_blockno b) (b_lock b) (b_refcnt b) (b_prev b) (b_next b) (b_data b).

Definition set_blockno (v : Z) (b : buf) : buf :=
  Buf (b_flags b) (b_dev b) v (b_lock b) (b_refcnt b) (b_prev b) (b_next b) (b_data b).

Definition set_lock (l : sleeplock) (b : buf) : buf :=
  Buf (b_flags b) (b_dev b) (b_blockno b) l (b_refcnt b) (b_prev b) (b_next b) (b_data b).

Definition set_refcnt (f : Z -> Z) (b : buf) : buf :=
  Buf (b_flags b) (b_dev b) (b_blockno b) (b_lock b) (f (b_refcnt b)) (b_prev b) (b_next b) (b_data b).

Definition set_prev (v : nat) (b : buf) : buf :=
  Buf (b_flags b) (b_dev b) (b_blockno b) (b_lock b) (b_refcnt b) v (b_next b) (b_data b).

Definition set_next (v : nat) (b : buf) : buf :=
  Buf (b_flags b) (b_dev b) (b_blockno b) (b_lock b) (b_refcnt b) (b_prev b) v (b_data b).

Definition set_data (f : block -> block) (b : buf) : buf :=
  Buf (b_flags b) (b_dev b) (b_blockno b) (b_lock b) (b_refcnt b) (b_prev b) (b_next b) (f (b_data b)).

(** A buffer of the zero-initialised cache. *)
Definition null_buf : buf := Buf 0 0 0 (Sleeplock false false 0) 0 0 0 zero_block.

(** [bcache], the disk, the history of disk writes and the process layer. *)
Record bio : Type := Bio {
  bc_lock : bool;
  bufs : list buf;
  disk : list block;
  wlog : list (Z * block);
  benv : env;
}.

Definition set_bc_lock (f : bool -> bool) (s : bio) : bio :=
  Bio (f (bc_lock s)) (bufs s) (disk s) (wlog s) (benv s).

Definition set_bufs (f : list buf -> list buf) (s : bio) : bio :=
  Bio (bc_lock s) (f (bufs s)) (disk s) (wlog s) (benv s).

Definition set_benv (e : env) (s : bio) : bio :=
  Bio (bc_lock s) (bufs s) (disk s) (wlog s) e.

Definition head : nat := NBUF.

Definition bclock : lens bio bool := Lens bc_lock set_bc_lock.

Definition buf_at (s : bio) (i : nat) : buf := default null_buf (bufs s !! i).

Definition upd_buf (i : nat) (f : buf -> buf) : M bio unit := modify (set_bufs (alter f i)).

(** The sleep lock of buffer [i], with the process layer. *)
Definition buf_sl (i : nat) : lens bio slstate :=
  Lens (fun s => (b_lock (buf_at s i), benv s))
       (fun f s => let le := f (b_lock (buf_at s i), benv s) in
                   set_benv le.2 (set_bufs (alter (set_lock le.1) i) s)).

Definition buf_chan (i : nat) : Z := Z.of_nat i + 1.

(** ** memide.c *)
Definition disk_write (bno : Z) (d : block) : M bio unit :=
  modify (fun s => Bio (bc_lock s) (bufs s) (<[Z.to_nat bno := d]> (disk s))
                       (wlog s ++ [(bno, d)]) (benv s)).

Definition disk_at (s : bio) (bno : Z) : block := default zero_block (disk s !! Z.to_nat bno).

Definition iderw (i : nat) : M bio unit :=
  h ← zoom (buf_sl i) holdingsleep;
  panic_if (negb h) "iderw: buf not locked" ;;
  b ← gets (fun s => buf_at s i);
  panic_if (Z.land (b_flags b) (Z.lor B_VALID B_DIRTY) =? B_VALID) "iderw: nothing to do" ;;
  panic_if (negb (b_dev b =? 1)) "iderw: request not for disk 1" ;;
  n ← gets (fun s => Z.of_nat (length (disk s)));
  panic_if (n <=? b_blockno b) "iderw: block out of range" ;;
  (if negb (Z.land (b_flags b) B_DIRTY =? 0) then
     upd_buf i (set_flags (fun f => Z.ldiff f B_DIRTY)) ;;
     disk_write (b_blockno b) (b_data b)
   else
     d ← gets (fun s => disk_at s (b_blockno b));
     upd_buf i (set_data (fun _ => d))) ;;
  upd_buf i (set_flags (fun f => Z.lor f B_VALID)).

(** ** bio.c *)
Definition binit : M bio unit :=
  modify (set_bc_lock (fun _ => false)) ;;
  upd_buf head (set_prev head) ;;
  upd_buf head (set_next head) ;;
  for_each (seq 0 NBUF) (fun b =>
    hn ← gets (fun s => b_next (buf_at s head));
    upd_buf b (set_next hn) ;;
    upd_buf b (set_prev head) ;;
    zoom (buf_sl b) initsleeplock ;;
    hn ← gets (fun s => b_next (buf_at s head));
    upd_buf hn (set_prev b) ;;
    upd_buf head (set_next b)).

(** [for(b = start; b != &bcache.head; b = b->dir)], stopping at the first
    buffer that satisfies [p]. *)
Fixpoint scan (fuel : nat) (dir : buf -> nat) (p : buf -> bool) (s : bio) (b : nat) : option nat :=
  match fuel with
  | O => None
  | S n => if decide (b = head) then None
           else if p (buf_at s b) then Some b
           else scan n dir p s (dir (buf_at s b))
  end.

Definition is_block (dev bno : Z) (b : buf) : bool :=
  (b_dev b =? dev) && (b_blockno b =? bno).

Definition recyclable (b : buf) : bool :=
  (b_refcnt b =? 0) && (Z.land (b_flags b) B_DIRTY =? 0).

Definition bget (dev bno : Z) : M bio nat :=
  acquire_flag bclock ;;
  s ← get;
  match scan (S NBUF) b_next (is_block dev bno) s (b_next (buf_at s head)) with
  | Some b =>
      upd_buf b (set_refcnt (Z.add 1)) ;;
      release_flag bclock ;;
      zoom (buf_sl b) (acquiresleep (buf_chan b)) ;;
      ret b
  | None =>
      match scan (S NBUF) b_prev recyclable s (b_prev (buf_at s head)) with
      | Some b =>
          upd_buf b (set_dev dev) ;;
          upd_buf b (set_blockno bno) ;;
          upd_buf b (set_flags (fun _ => 0)) ;;
          upd_buf b (set_refcnt (fun _ => 1)) ;;
          release_flag bclock ;;
          zoom (buf_sl b) (acquiresleep (buf_chan b)) ;;
          ret b
      | None => panic "bget: no buffers"
      end
  end.

Definition bread (dev bno : Z) : M bio nat :=
  b ← bget dev bno;
  f ← gets (fun s => b_flags (buf_at s b));
  when (Z.land f B_VALID =? 0) (iderw b) ;;
  ret b.

Definition bwrite (b : nat) : M bio unit :=
  h ← zoom (buf_sl b) holdingsleep;
  panic_if (negb h) "bwrite" ;;
  upd_buf b (set_flags (fun f => Z.lor f B_DIRTY)) ;;
  iderw b.

(** Unlink [b] and put it at the front of the list. *)
Definition move_front (b : nat) : M bio unit :=
  x ← gets (fun s => buf_at s b);
  upd_buf (b_next x) (set_prev (b_prev x)) ;;
  x ← gets (fun s => buf_at s b);
  upd_buf (b_prev x) (set_next (b_next x)) ;;
  hn ← gets (fun s => b_next (buf_at s head));
  upd_buf b (set_next hn) ;;
  upd_buf b (set_prev head) ;;
  hn ← gets (fun s => b_next (buf_at s head));
  upd_buf hn (set_prev b) ;;
  upd_buf head (set_next b).

Definition brelse (b : nat) : M bio unit :=
  h ← zoom (buf_sl b) holdingsleep;
  panic_if (negb h) "brelse" ;;
  zoom (buf_sl b) (releasesleep (buf_chan b)) ;;
  acquire_flag bclock ;;
  upd_buf b (set_refcnt (fun r => r - 1)) ;;
  r ← gets (fun s => b_refcnt (buf_at s b));
  when (r =? 0) (move_front b) ;;
  release_flag bclock.

(** [bp->data] *)
Definition bdata (b : nat) : M bio block := gets (fun s => b_data (buf_at s b)).

Definition set_bdata (b : nat) (f : block -> block) : M bio unit := upd_buf b (set_data f).

(** The machine at boot: zeroed cache, given disk. *)
Definition boot (d : list block) (pid : Z) : bio :=
  Bio false (replicate (S NBUF) null_buf) d [] (Env pid false []).

Example bread_boot :
  match (binit ;; b ← bread 1 2; d ← bdata b; brelse b ;; ret (b, d)) (boot (replicate 5 [7]) 1) with
  | (Ret r, s) => r = (0%nat, [7]) /\ b_next (buf_at s head) = 0%nat
  | _ => False
  end.
Proof. vm_compute. done. Qed.

#[global] Opaque NBUF.

(** ** Doubly linked lists

    [seg n p x l y]: following [n] from [x] leads through [l] to [y], and [p]
    leads back. *)
Definition upd (f : nat -> nat) (a v : nat) : nat -> nat :=
  fun x => if decide (a = x) then v else f x.

Fixpoint seg (n p : nat -> nat) (x : nat) (l : list nat) (y : nat) : Prop :=
  match l with
  | [] => n x = y /\ p y = x
  | z :: l' => n x = z /\ p z = x /\ seg n p z l' y
  end.

Lemma upd_eq f a v : upd f a v a = v.
Proof. unfold upd. by case_decide. Qed.

Lemma upd_ne f a v x : a <> x -> upd f a v x = f x.
Proof. intros. unfold upd. by case_decide. Qed.

Lemma seg_app n p x l1 z l2 y :
  seg n p x (l1 ++ z :: l2) y <-> seg n p x l1 z /\ seg n p z l2 y.
Proof. revert x. induction l1 as [|w l1 IH]; intros x; simpl; [tauto|]. rewrite IH. tauto. Qed.

Lemma seg_rev n p x l y : seg n p x l y -> seg p n y (rev l) x.
Proof.
  revert x. induction l as [|z l IH]; intros x; simpl; [tauto|].
  intros (H1 & H2 & H3). apply seg_app. split; [by apply IH|]. by simpl.
Qed.

Lemma seg_ext n p n' p' x l y :
  (forall a, a ∈ x :: l -> n' a = n a) -> (forall a, a ∈ l ++ [y] -> p' a = p a) ->
  seg n p x l y -> seg n' p' x l y.
Proof.
  revert x. induction l as [|z l IH]; intros x Hn Hp; simpl.
  - intros [H1 H2]. rewrite (Hn x), (Hp y) by set_solver. done.
  - intros (H1 & H2 & H3). rewrite (Hn x), (Hp z) by set_solver. split_and!; [done|done|].
    apply IH; [intros; apply Hn; set_solver|intros; apply Hp; set_solver|done].
Qed.

Lemma seg_last n p x l y : seg n p x l y -> p y ∈ x :: l.
Proof.
  revert x. induction l as [|z l IH]; intros x; simpl.
  - intros [_ ->]. set_solver.
  - intros (_ & _ & H). apply IH in H. set_solver.
Qed.

Lemma seg_retarget n p x l y y' :
  seg n p x l y -> NoDup (x :: l) -> y' ∉ l ->
  seg (upd n (p y) y') (upd p y' (p y)) x l y'.
Proof.
  revert x. induction l as [|z l IH]; intros x; simpl.
  - intros [H1 H2] _ _. rewrite H2. by rewrite !upd_eq.
  - intros (H1 & H2 & H3) Hnd Hy. apply NoDup_cons in Hnd as [Hx Hnd].
    pose proof (seg_last _ _ _ _ _ H3) as Hl.
    rewrite (upd_ne n) by congruence. rewrite (upd_ne p) by set_solver.
    split_and!; [done|done|]. apply IH; [done|done|set_solver].
Qed.

Lemma seg_restart n p x l y b :
  seg n p x l y -> NoDup (l ++ [y]) -> b ∉ l -> seg (upd n b (n x)) (upd p (n x) b) b l y.
Proof.
  destruct l as [|z l]; simpl.
  - intros [H1 H2] _ _. rewrite H1. by rewrite !upd_eq.
  - intros (H1 & H2 & H3) Hnd Hb. rewrite H1, !upd_eq. split_and!; [done|done|].
    apply NoDup_cons in Hnd as [Hz Hnd].
    eapply seg_ext; [| |done]; intros a Ha; apply upd_ne; set_solver.
Qed.

(** The pointer assignments of [move_front] on the two link fields. *)
Definition front_next (n p : nat -> nat) (b : nat) : nat -> nat :=
  let n1 := upd n (p b) (n b) in upd (upd n1 b (n1 head)) head b.

Definition front_prev (n p : nat -> nat) (b : nat) : nat -> nat :=
  let p1 := upd p (n b) (p b) in
  let n1 := upd n (p b) (n b) in
  upd (upd p1 b head) (upd n1 b (n1 head) head) b.

Lemma seg_unlink n p x l1 b l2 :
  seg n p x (l1 ++ b :: l2) x -> NoDup (x :: l1 ++ b :: l2) ->
  seg (upd n (p b) (n b)) (upd p (n b) (p b)) x (l1 ++ l2) x.
Proof.
  intros [H1 H2]%seg_app Hnd. apply NoDup_cons in Hnd as [Hx Hnd].
  apply NoDup_app in Hnd as (Hn1 & Hd & Hn2). apply NoDup_cons in Hn2 as [Hb Hn2].
  assert (NoDup (x :: l1)) as Hx1 by (apply NoDup_cons; set_solver).
  destruct l2 as [|c l2].
  - simpl in H2. destruct H2 as [Hnb _]. rewrite Hnb, app_nil_r.
    apply seg_retarget; set_solver.
  - simpl in H2. destruct H2 as (Hnb & Hpc & H2). rewrite Hnb. apply seg_app. split.
    + apply seg_retarget; [done|done|]. set_solver.
    + pose proof (seg_last _ _ _ _ _ H1). apply NoDup_cons in Hn2 as [Hc Hn2].
      eapply seg_ext; [| |done]; intros a Ha; apply upd_ne; set_solver.
Qed.

Lemma seg_front n p l1 b l2 :
  seg n p head (l1 ++ b :: l2) head -> NoDup (head :: l1 ++ b :: l2) ->
  seg (front_next n p b) (front_prev n p b) head (b :: l1 ++ l2) head.
Proof.
  intros Hs Hnd. pose proof (seg_unlink _ _ _ _ _ _ Hs Hnd) as Hu.
  apply NoDup_cons in Hnd as [Hx Hnd].
  assert (b <> head) as Hbh by set_solver.
  assert (NoDup (l1 ++ l2) /\ b ∉ l1 ++ l2) as [Hnd' Hb].
  { apply NoDup_app in Hnd as (Hn1 & Hd & Hn2). apply NoDup_cons in Hn2 as [Hb Hn2].
    split; [|set_solver]. apply NoDup_app. split_and!; [done|set_solver|done]. }
  set (n1 := upd n (p b) (n b)) in *. set (p1 := upd p (n b) (p b)) in *.
  assert (NoDup ((l1 ++ l2) ++ [head])) as Hnh.
  { apply NoDup_app. split_and!; [done|set_solver|apply NoDup_singleton]. }
  assert (n1 head ∈ (l1 ++ l2) ++ [head]) as Hin.
  { clear -Hu. destruct (l1 ++ l2) as [|z l]; simpl in Hu; destruct Hu as [-> _]; set_solver. }
  assert (n1 head <> b) as Hnb by (intros Heq; rewrite Heq in Hin; set_solver).
  unfold front_next, front_prev. fold n1 p1. cbv zeta.
  rewrite (upd_ne n1 b _ head) by done. simpl. split_and!.
  - apply upd_eq.
  - rewrite upd_ne by done. apply upd_eq.
  - eapply seg_ext; [| |apply (seg_restart n1 p1 head (l1 ++ l2) head b Hu Hnh Hb)].
    + intros a Ha. apply upd_ne. set_solver.
    + intros a Ha. destruct (decide (n1 head = a)) as [<-|Hne]; [by rewrite !upd_eq|].
      rewrite !(upd_ne _ (n1 head)) by done. apply upd_ne. set_solver.
Qed.

(** Scanning along the list is searching it. *)
Lemma scan_seg s dir bdir P l x fuel :
  seg (fun i => dir (buf_at s i)) bdir x l head -> head ∉ l -> (length l < fuel)%nat ->
  scan fuel dir P s (dir (buf_at s x)) = List.find (fun i => P (buf_at s i)) l.
Proof.
  revert x fuel. induction l as [|z l IH]; intros x fuel; simpl.
  - intros [-> _] _ Hf. destruct fuel; [lia|]. simpl. by case_decide.
  - intros (-> & _ & Hs) Hh Hf. destruct fuel as [|fuel]; [lia|]. simpl.
    case_decide; [set_solver|]. destruct (P (buf_at s z)); [done|].
    apply IH; [done|set_solver|lia].
Qed.

(** ** Buffers after an update *)
Lemma length_set_bufs f i s : length (bufs (set_bufs (alter f i) s)) = length (bufs s).
Proof. simpl. apply length_alter. Qed.

Lemma buf_at_upd s i f j : (i < length (bufs s))%nat ->
  buf_at (set_bufs (alter f i) s) j = if decide (i = j) then f (buf_at s i) else buf_at s j.
Proof.
  intros Hi. unfold buf_at. simpl. case_decide; subst.
  - rewrite list_lookup_alter_eq. destruct (lookup_lt_is_Some_2 (bufs s) j Hi) as [x Hx].
    by rewrite Hx.
  - by rewrite list_lookup_alter_ne.
Qed.

Lemma buf_at_upd_eq s i f : (i < length (bufs s))%nat ->
  buf_at (set_bufs (alter f i) s) i = f (buf_at s i).
Proof. intros. rewrite buf_at_upd by done. by case_decide. Qed.

Lemma buf_at_upd_ne s i f j : i <> j -> buf_at (set_bufs (alter f i) s) j = buf_at s j.
Proof. intros Hne. unfold buf_at. simpl. by rewrite list_lookup_alter_ne. Qed.

(** [same_but s s']: everything but the buffers is the same. *)
Definition same_but (s s' : bio) : Prop :=
  bc_lock s' = bc_lock s /\ disk s' = disk s /\ wlog s' = wlog s /\
  length (bufs s') = length (bufs s).

Lemma same_but_upd s s' i f : same_but s s' -> same_but s (set_bufs (alter f i) s').
Proof. intros (H1 & H2 & H3 & H4). split_and!; try done. by rewrite length_set_bufs. Qed.

(** [links s s' n p]: [s'] is [s] with link fields [n] and [p]. *)
Definition links (s s' : bio) (n p : nat -> nat) : Prop :=
  same_but s s' /\
  forall j, (j < length (bufs s))%nat -> buf_at s' j = set_prev (p j) (set_next (n j) (buf_at s j)).

Definition nxt (s : bio) (i : nat) : nat := b_next (buf_at s i).

Definition prv (s : bio) (i : nat) : nat := b_prev (buf_at s i).

Lemma links_refl s : links s s (nxt s) (prv s).
Proof. split; [done|]. intros j _. unfold nxt, prv. by destruct (buf_at s j). Qed.

Lemma links_prev s s' n p i v : links s s' n p -> (i < length (bufs s))%nat ->
  links s (set_bufs (alter (set_prev v) i) s') n (upd p i v).
Proof.
  intros [Hs Hl] Hi. split; [by apply same_but_upd|]. intros j Hj.
  rewrite buf_at_upd by (destruct Hs; destruct_and!; lia). unfold upd.
  case_decide; subst; rewrite Hl by done; done.
Qed.

Lemma links_next s s' n p i v : links s s' n p -> (i < length (bufs s))%nat ->
  links s (set_bufs (alter (set_next v) i) s') (upd n i v) p.
Proof.
  intros [Hs Hl] Hi. split; [by apply same_but_upd|]. intros j Hj.
  rewrite buf_at_upd by (destruct Hs; destruct_and!; lia). unfold upd.
  case_decide; subst; rewrite Hl by done; done.
Qed.

Lemma links_buf s s' n p i : links s s' n p -> (i < length (bufs s))%nat ->
  b_next (buf_at s' i) = n i /\ b_prev (buf_at s' i) = p i.
Proof. intros [_ Hl] Hi. by rewrite Hl. Qed.

Definition in_range (s : bio) (l : list nat) : Prop := forall i, i ∈ l -> (i < length (bufs s))%nat.

Lemma seg_succ_in n p x l1 b l2 y : seg n p x (l1 ++ b :: l2) y -> n b ∈ l2 ++ [y].
Proof. intros [_ H]%seg_app. destruct l2; simpl in H; destruct H as [-> _]; set_solver. Qed.

Lemma move_front_run s l1 b l2 :
  seg (nxt s) (prv s) head (l1 ++ b :: l2) head -> NoDup (head :: l1 ++ b :: l2) ->
  in_range s (head :: l1 ++ b :: l2) ->
  exists s', move_front b s = (Ret tt, s') /\
    links s s' (front_next (nxt s) (prv s) b) (front_prev (nxt s) (prv s) b) /\
    seg (nxt s') (prv s') head (b :: l1 ++ l2) head.
Proof.
  intros Hs Hnd Hr.
  assert (nxt s b <> b /\ b <> head) as [Hnb Hbh].
  { apply seg_succ_in in Hs. apply NoDup_cons in Hnd as [Hh Hnd].
    apply NoDup_app in Hnd as (_ & _ & Hnd). apply NoDup_cons in Hnd as [Hb _].
    split; [intros Heq; rewrite Heq in Hs; set_solver|set_solver]. }
  assert (nxt s b < length (bufs s))%nat as Hn1.
  { apply seg_succ_in in Hs. apply Hr. set_solver. }
  assert (prv s b < length (bufs s))%nat as Hp1.
  { apply seg_app in Hs as [Hs _]. apply seg_last in Hs. apply Hr. set_solver. }
  assert (b < length (bufs s))%nat as Hb by (apply Hr; set_solver).
  assert (head < length (bufs s))%nat as Hh by (apply Hr; set_solver).
  unfold move_front, upd_buf. run_pure. run_pure. run_pure.
  pose proof (links_refl s) as H0.
  pose proof (links_prev _ _ _ _ (nxt s b) (prv s b) H0 Hn1) as H1.
  fold (nxt s b) (prv s b).
  destruct (links_buf _ _ _ _ b H1 Hb) as [-> ->]. rewrite upd_ne by done.
  run_pure. pose proof (links_next _ _ _ _ (prv s b) (nxt s b) H1 Hp1) as H2.
  run_pure. destruct (links_buf _ _ _ _ head H2 Hh) as [-> _].
  run_pure. eapply links_next in H2; [|exact Hb].
  run_pure. eapply links_prev in H2; [|exact Hb].
  run_pure. destruct (links_buf _ _ _ _ head H2 Hh) as [-> _].
  set (n1 := upd (nxt s) (prv s b) (nxt s b)) in *.
  assert (upd n1 b (n1 head) head < length (bufs s))%nat as Hx.
  { rewrite upd_ne by done. pose proof (seg_unlink _ _ _ _ _ _ Hs Hnd) as Hu.
    apply Hr. fold n1 in Hu. clear -Hu.
    destruct (l1 ++ l2) as [|z l] eqn:E; simpl in Hu; destruct Hu as [-> _]; [set_solver|].
    assert (z ∈ l1 ++ l2) by (rewrite E; set_solver). set_solver. }
  run_pure. eapply links_prev in H2; [|exact Hx].
  eapply links_next in H2; [|exact Hh].
  eexists. split; [done|]. split; [exact H2|].
  eapply seg_ext; [| |exact (seg_front _ _ _ _ _ Hs Hnd)]; intros a Ha;
    (assert (a < length (bufs s))%nat as Har by (apply Hr; set_solver));
    by destruct (links_buf _ _ _ _ a H2 Har).
Qed.

(** ** Invariant of the cache

    A buffer is unused (never assigned to a block) or caches a block of the
    disk; an unlocked clean buffer has the contents of the disk.  At most one
    buffer caches a block. *)
Record buf_ok (s : bio) (b : buf) : Prop := {
  ok_spin : sl_lk (b_lock b) = false;
  ok_ref : b_refcnt b = if sl_locked (b_lock b) then 1 else 0;
  ok_use : (b_dev b = 0 /\ b_flags b = 0 /\ sl_locked (b_lock b) = false) \/
           (b_dev b = 1 /\ 0 <= b_blockno b < Z.of_nat (length (disk s)) /\
            (b_flags b = 6 \/ b_flags b = 2 /\
              (sl_locked (b_lock b) = false -> b_data b = disk_at s (b_blockno b))));
}.

Definition cached (s : bio) (bno : Z) (i : nat) : Prop :=
  (i < NBUF)%nat /\ is_block 1 bno (buf_at s i) = true.

Record binv (s : bio) (l : list nat) : Prop := {
  bi_len : length (bufs s) = S NBUF;
  bi_lock : bc_lock s = false;
  bi_seg : seg (nxt s) (prv s) head l head;
  bi_perm : l ≡ₚ seq 0 NBUF;
  bi_buf : forall i, (i < NBUF)%nat -> buf_ok s (buf_at s i);
  bi_uniq : forall bno i j, cached s bno i -> cached s bno j -> i = j;
}.

(** What a reader of block [bno] sees. *)
Definition bview (s : bio) (bno : Z) : block :=
  match List.find (fun i => is_block 1 bno (buf_at s i)) (seq 0 NBUF) with
  | Some i => b_data (buf_at s i)
  | None => disk_at s bno
  end.

Lemma find_cached s bno :
  match List.find (fun i => is_block 1 bno (buf_at s i)) (seq 0 NBUF) with
  | Some i => cached s bno i
  | None => forall i, ~ cached s bno i
  end.
Proof.
  destruct (List.find _ _) as [i|] eqn:E.
  - apply List.find_some in E as [Hin Hi]. apply in_seq in Hin. split; [lia|done].
  - intros i [Hi Hb]. assert (In i (seq 0 NBUF)) as Hin by (apply in_seq; lia).
    pose proof (List.find_none _ _ E i Hin) as Hn. simpl in Hn. congruence.
Qed.

Lemma bview_cached s l bno i : binv s l -> cached s bno i -> bview s bno = b_data (buf_at s i).
Proof.
  intros Hi Hc. pose proof (find_cached s bno) as Hf. unfold bview.
  destruct (List.find _ _) as [j|]; [by rewrite (bi_uniq _ _ Hi bno i j)|by apply Hf in Hc].
Qed.

Lemma bview_uncached s bno : (forall i, ~ cached s bno i) -> bview s bno = disk_at s bno.
Proof.
  intros Hn. pose proof (find_cached s bno) as Hf. unfold bview.
  by destruct (List.find _ _) as [j|]; [apply Hn in Hf|].
Qed.

Lemma cached_dec s bno : (exists i, cached s bno i) \/ (forall i, ~ cached s bno i).
Proof. pose proof (find_cached s bno) as Hf. destruct (List.find _ _); eauto. Qed.

(** The fields of a buffer that do not link it into the list. *)
Definition core (b : buf) : buf := set_prev 0 (set_next 0 b).

Lemma core_fields b b' : core b = core b' ->
  b_flags b = b_flags b' /\ b_dev b = b_dev b' /\ b_blockno b = b_blockno b' /\
  b_lock b = b_lock b' /\ b_refcnt b = b_refcnt b' /\ b_data b = b_data b'.
Proof. destruct b, b'. unfold core. simpl. intros [=]. done. Qed.

Lemma core_is_block b b' dev bno : core b = core b' -> is_block dev bno b = is_block dev bno b'.
Proof. intros (_ & H1 & H2 & _)%core_fields. unfold is_block. by rewrite H1, H2. Qed.

Lemma core_recyclable b b' : core b = core b' -> recyclable b = recyclable b'.
Proof. intros (H1 & _ & _ & _ & H2 & _)%core_fields. unfold recyclable. by rewrite H1, H2. Qed.

Lemma core_ok s b b' : core b = core b' -> buf_ok s b -> buf_ok s b'.
Proof.
  intros (E1 & E2 & E3 & E4 & E5 & E6)%core_fields [H1 H2 H3].
  rewrite E1, E2, E3, E4, E5, E6 in *. by split.
Qed.

Lemma is_block_true dev bno b : is_block dev bno b = true <-> b_dev b = dev /\ b_blockno b = bno.
Proof. unfold is_block. by rewrite andb_true_iff, !Z.eqb_eq. Qed.

(** [becomes s s' i b]: buffer [i] becomes [b], the others stay the same. *)
Definition becomes (s s' : bio) (i : nat) (b : buf) : Prop :=
  (i < NBUF)%nat /\ core (buf_at s' i) = core b /\
  forall j, (j < NBUF)%nat -> j <> i -> core (buf_at s' j) = core (buf_at s j).

Lemma becomes_trans s s1 s2 i b b' :
  becomes s s1 i b -> becomes s1 s2 i b' -> becomes s s2 i b'.
Proof.
  intros (Hi & H1 & H2) (_ & H3 & H4). split_and!; [done|done|].
  intros j Hj Hne. by rewrite H4, H2.
Qed.

Lemma becomes_upd s i f : (i < NBUF)%nat -> length (bufs s) = S NBUF ->
  becomes s (set_bufs (alter f i) s) i (f (buf_at s i)).
Proof.
  intros Hi Hl. split_and!; [done|by rewrite buf_at_upd_eq by lia|].
  intros j _ Hne. by rewrite buf_at_upd_ne.
Qed.

(** The invariant after buffer [i] became [b] and the list [l']. *)
Lemma becomes_inv s s' i b l l' :
  binv s l -> becomes s s' i b ->
  length (bufs s') = S NBUF -> bc_lock s' = false ->
  seg (nxt s') (prv s') head l' head -> l' ≡ₚ l ->
  length (disk s') = length (disk s) ->
  (forall j, (j < NBUF)%nat -> j <> i -> b_dev (buf_at s j) = 1 ->
     disk_at s' (b_blockno (buf_at s j)) = disk_at s (b_blockno (buf_at s j))) ->
  buf_ok s' b ->
  (forall j, (j < NBUF)%nat -> j <> i -> b_dev b = 1 -> ~ cached s (b_blockno b) j) ->
  binv s' l'.
Proof.
  intros Hb (Hi & Hc & Ho) Hl Hk Hs Hp Hd Hda Hok Hu.
  assert (forall j, (j < NBUF)%nat -> buf_ok s' (buf_at s' j)) as Hall.
  { intros j Hj. destruct (decide (j = i)) as [->|Hne]; [by eapply core_ok|].
    eapply core_ok; [symmetry; by apply Ho|].
    destruct (bi_buf _ _ Hb j Hj) as [H1 H2 H3]. split; [done|done|].
    destruct H3 as [?|(H4 & H5 & H6)]; [by left|right]. rewrite Hd, Hda by done. done. }
  split; [done|done|done|by rewrite Hp; apply (bi_perm _ _ Hb)|done|].
  assert (forall bno j, cached s' bno j -> j <> i -> cached s bno j) as Hcc.
  { intros bno j [Hj Hc'] Hne. split; [done|]. by rewrite <- (core_is_block _ _ _ _ (Ho j Hj Hne)). }
  assert (forall bno, cached s' bno i -> b_dev b = 1 /\ b_blockno b = bno) as Hci.
  { intros bno [_ Hc']. rewrite (core_is_block _ _ _ _ Hc) in Hc'. by apply is_block_true. }
  intros bno j k Hj Hk'.
  destruct (decide (j = i)) as [->|Hji], (decide (k = i)) as [->|Hki]; [done| | |].
  - destruct (Hci bno Hj) as [? <-]. exfalso. eapply (Hu k); [apply Hk'|done|done|by apply Hcc].
  - destruct (Hci bno Hk') as [? <-]. exfalso. eapply (Hu j); [apply Hj|done|done|by apply Hcc].
  - by apply (bi_uniq _ _ Hb bno); apply Hcc.
Qed.

Lemma zoom_buf {A} s i (m : M slstate A) o l' e' :
  m (b_lock (buf_at s i), benv s) = (o, (l', e')) ->
  zoom (buf_sl i) m s = (o, set_benv e' (set_bufs (alter (set_lock l') i) s)).
Proof. intros Hm. unfold zoom. simpl. by rewrite Hm. Qed.

Lemma alter_set_lock_id s i :
  set_benv (benv s) (set_bufs (alter (set_lock (b_lock (buf_at s i))) i) s) = s.
Proof.
  destruct s as [a bs d w e]. unfold set_benv, set_bufs. simpl. f_equal. unfold buf_at. simpl.
  apply list_eq. intros j. destruct (decide (i = j)) as [->|Hne].
  - rewrite list_lookup_alter_eq. destruct (bs !! j) as [b|]; [|done]. simpl. by destruct b.
  - by rewrite list_lookup_alter_ne.
Qed.

Lemma holding_buf s i :
  sl_lk (b_lock (buf_at s i)) = false ->
  zoom (buf_sl i) holdingsleep s = (Ret (sl_locked (b_lock (buf_at s i))), s).
Proof.
  intros Hl. destruct (b_lock (buf_at s i)) as [lk lo pd] eqn:E. simpl in Hl. subst.
  erewrite zoom_buf; [|rewrite E; apply holdingsleep_run].
  simpl. rewrite <- E. by rewrite alter_set_lock_id.
Qed.

(** [stepped s s' i b]: exactly buffer [i] changed, to [b]. *)
Definition stepped (s s' : bio) (i : nat) (b : buf) : Prop :=
  (i < NBUF)%nat /\ length (bufs s) = S NBUF /\ length (bufs s') = S NBUF /\
  buf_at s' i = b /\ forall j, j <> i -> buf_at s' j = buf_at s j.

Lemma stepped_refl s i : (i < NBUF)%nat -> length (bufs s) = S NBUF -> stepped s s i (buf_at s i).
Proof. done. Qed.

Lemma stepped_upd s s' i b f : stepped s s' i b -> stepped s (set_bufs (alter f i) s') i (f b).
Proof.
  intros (H1 & H2 & H3 & H4 & H5). split_and!; [done|done|by rewrite length_set_bufs| |].
  - rewrite buf_at_upd_eq by lia. by rewrite H4.
  - intros j Hj. rewrite buf_at_upd_ne by done. by apply H5.
Qed.

(** Changes outside of the buffers do not matter. *)
Lemma stepped_other s s' s2 i b : bufs s2 = bufs s' -> stepped s s' i b -> stepped s s2 i b.
Proof.
  intros E (H1 & H2 & H3 & H4 & H5). unfold stepped, buf_at in *. rewrite E. by split_and!.
Qed.

Lemma stepped_becomes s s' i b : stepped s s' i b -> becomes s s' i b.
Proof.
  intros (H1 & _ & _ & H4 & H5). split_and!; [done|by rewrite H4|].
  intros j _ Hj. by rewrite H5.
Qed.

Lemma stepped_seg s s' i b l :
  stepped s s' i b -> b_next b = b_next (buf_at s i) -> b_prev b = b_prev (buf_at s i) ->
  seg (nxt s) (prv s) head l head -> seg (nxt s') (prv s') head l head.
Proof.
  intros (H1 & _ & _ & H4 & H5) Hn Hp. apply seg_ext; intros a _; unfold nxt, prv;
    (destruct (decide (a = i)) as [->|Hne]; [by rewrite H4|by rewrite H5]).
Qed.

(** [iderw] of a locked, invalid buffer reads the block. *)
Lemma iderw_read s i :
  length (bufs s) = S NBUF -> (i < NBUF)%nat ->
  sl_lk (b_lock (buf_at s i)) = false -> sl_locked (b_lock (buf_at s i)) = true ->
  b_flags (buf_at s i) = 0 -> b_dev (buf_at s i) = 1 ->
  b_blockno (buf_at s i) < Z.of_nat (length (disk s)) ->
  exists s', iderw i s = (Ret tt, s') /\ same_but s s' /\
    stepped s s' i (set_flags (fun _ => B_VALID)
      (set_data (fun _ => disk_at s (b_blockno (buf_at s i))) (buf_at s i))).
Proof.
  intros Hl Hi H1 H2 H3 H4 H5. unfold iderw.
  run_step (holding_buf s i H1). rewrite H2. cbn [negb]. run_pure. run_pure.
  rewrite H3, H4. change (Z.land 0 (Z.lor B_VALID B_DIRTY) =? B_VALID) with false.
  change (negb (1 =? 1)) with false. run_pure. run_pure. run_pure.
  replace (Z.of_nat (length (disk s)) <=? b_blockno (buf_at s i)) with false
    by (symmetry; apply Z.leb_gt; lia).
  run_pure. change (negb (Z.land 0 B_DIRTY =? 0)) with false. cbv iota.
  unfold upd_buf. rewrite bind_assoc. run_pure. run_pure.
  eexists. split; [done|]. split; [by do 2 apply same_but_upd|].
  pose proof (stepped_upd _ _ _ _ (set_data (fun _ => disk_at s (b_blockno (buf_at s i))))
    (stepped_refl s i Hi Hl)) as Hst.
  apply (stepped_upd _ _ _ _ (set_flags (fun f => Z.lor f B_VALID))) in Hst.
  unfold set_flags at 2 in Hst. simpl in Hst. rewrite H3 in Hst. exact Hst.
Qed.

(** [iderw] of a locked, dirty buffer writes the block. *)
Lemma iderw_write s i :
  length (bufs s) = S NBUF -> (i < NBUF)%nat ->
  sl_lk (b_lock (buf_at s i)) = false -> sl_locked (b_lock (buf_at s i)) = true ->
  b_flags (buf_at s i) = 6 -> b_dev (buf_at s i) = 1 ->
  b_blockno (buf_at s i) < Z.of_nat (length (disk s)) ->
  exists s', iderw i s = (Ret tt, s') /\ bc_lock s' = bc_lock s /\
    disk s' = <[Z.to_nat (b_blockno (buf_at s i)) := b_data (buf_at s i)]> (disk s) /\
    wlog s' = wlog s ++ [(b_blockno (buf_at s i), b_data (buf_at s i))] /\
    stepped s s' i (set_flags (fun _ => B_VALID) (buf_at s i)).
Proof.
  intros Hl Hi H1 H2 H3 H4 H5. unfold iderw.
  run_step (holding_buf s i H1). rewrite H2. cbn [negb]. run_pure. run_pure.
  rewrite H3, H4. change (Z.land 6 (Z.lor B_VALID B_DIRTY) =? B_VALID) with false.
  change (negb (1 =? 1)) with false. run_pure. run_pure. run_pure.
  replace (Z.of_nat (length (disk s)) <=? b_blockno (buf_at s i)) with false
    by (symmetry; apply Z.leb_gt; lia).
  run_pure. change (negb (Z.land 6 B_DIRTY =? 0)) with true. cbv iota.
  unfold upd_buf, disk_write. rewrite bind_assoc. run_pure. run_pure.
  eexists. split; [done|]. split_and!; [done|done|done|].
  pose proof (stepped_upd _ _ _ _ (set_flags (fun f => Z.ldiff f B_DIRTY))
    (stepped_refl s i Hi Hl)) as Hst.
  eapply (stepped_other _ _ (Bio _ _ _ _ _)) in Hst; [|reflexivity].
  apply (stepped_upd _ _ _ _ (set_flags (fun f => Z.lor f B_VALID))) in Hst.
  unfold set_flags at 2 3 in Hst. simpl in Hst. rewrite H3 in Hst. exact Hst.
Qed.

Lemma binv_range s l i : binv s l -> i ∈ l <-> (i < NBUF)%nat.
Proof. intros Hb. rewrite (bi_perm _ _ Hb), elem_of_seq. lia. Qed.

Lemma binv_head s l : binv s l -> head ∉ l.
Proof. intros Hb. rewrite (binv_range _ _ _ Hb). unfold head. lia. Qed.

Lemma binv_length s l : binv s l -> length l = NBUF.
Proof. intros Hb. by rewrite (bi_perm _ _ Hb), length_seq. Qed.

Lemma binv_nodup s l : binv s l -> NoDup (head :: l).
Proof.
  intros Hb. apply NoDup_cons. split; [by eapply binv_head|].
  rewrite (bi_perm _ _ Hb). apply NoDup_seq.
Qed.

Lemma scan_fwd s l P : binv s l ->
  scan (S NBUF) b_next P s (b_next (buf_at s head)) = List.find (fun i => P (buf_at s i)) l.
Proof.
  intros Hb. eapply (scan_seg s b_next (prv s)); [apply (bi_seg _ _ Hb)|by eapply binv_head|].
  rewrite (binv_length _ _ Hb). lia.
Qed.

Lemma scan_bwd s l P : binv s l ->
  scan (S NBUF) b_prev P s (b_prev (buf_at s head)) = List.find (fun i => P (buf_at s i)) (rev l).
Proof.
  intros Hb. eapply (scan_seg s b_prev (nxt s)); [apply seg_rev, (bi_seg _ _ Hb)| |].
  - rewrite list_elem_of_In, <- in_rev, <- list_elem_of_In. by eapply binv_head.
  - rewrite List.length_rev, (binv_length _ _ Hb). lia.
Qed.

Lemma find_block s l bno i : binv s l -> cached s bno i ->
  List.find (fun j => is_block 1 bno (buf_at s j)) l = Some i.
Proof.
  intros Hb Hc. destruct (List.find _ l) as [j|] eqn:E.
  - apply List.find_some in E as [Hj Hp]. f_equal. apply (bi_uniq _ _ Hb bno); [|done].
    split; [|done]. by apply (binv_range _ _ _ Hb), list_elem_of_In.
  - exfalso. assert (In i l) as Hin by (apply list_elem_of_In, (binv_range _ _ _ Hb), Hc).
    pose proof (List.find_none _ _ E i Hin) as Hn. simpl in Hn. destruct Hc. congruence.
Qed.

Lemma find_no_block s l bno : binv s l -> (forall i, ~ cached s bno i) ->
  List.find (fun j => is_block 1 bno (buf_at s j)) l = None.
Proof.
  intros Hb Hn. destruct (List.find _ l) as [j|] eqn:E; [|done].
  apply List.find_some in E as [Hj Hp]. exfalso. apply (Hn j). split; [|done].
  by apply (binv_range _ _ _ Hb), list_elem_of_In.
Qed.

Lemma find_recyclable s l i : binv s l -> (i < NBUF)%nat -> recyclable (buf_at s i) = true ->
  exists j, List.find (fun j => recyclable (buf_at s j)) (rev l) = Some j /\
    (j < NBUF)%nat /\ recyclable (buf_at s j) = true.
Proof.
  intros Hb Hi Hr. destruct (List.find _ (rev l)) as [j|] eqn:E.
  - exists j. apply List.find_some in E as [Hj Hp]. split_and!; [done| |done].
    by apply (binv_range _ _ _ Hb), list_elem_of_In, in_rev.
  - exfalso. assert (In i (rev l)) as Hin.
    { rewrite <- in_rev. by apply list_elem_of_In, (binv_range _ _ _ Hb). }
    pose proof (List.find_none _ _ E i Hin) as Hn. simpl in Hn. congruence.
Qed.

Lemma scan_bclock fuel dir P s v b : scan fuel dir P (set bclock v s) b = scan fuel dir P s b.
Proof.
  revert b. induction fuel as [|n IH]; intros b; simpl; [done|].
  case_decide; [done|]. change (buf_at (set bclock v s) b) with (buf_at s b).
  destruct (P _); [done|apply IH].
Qed.

(** The buffer that [bread] returns: locked, with the contents of the block. *)
Definition read_buf (s : bio) (bno f : Z) (b : buf) : buf :=
  Buf f 1 bno (Sleeplock false true (cur_pid (benv s))) 1 (b_prev b) (b_next b) (bview s bno).

Lemma bget_cached s l bno i :
  binv s l -> cached s bno i -> sl_locked (b_lock (buf_at s i)) = false ->
  exists s', bget 1 bno s = (Ret i, s') /\ same_but s s' /\
    stepped s s' i (set_lock (Sleeplock false true (cur_pid (benv s)))
                     (set_refcnt (Z.add 1) (buf_at s i))).
Proof.
  intros Hb Hc Hlk. pose proof (bi_buf _ _ Hb i (proj1 Hc)) as [Hs _ _].
  unfold bget. run_step (acquire_flag_run bclock s (bi_lock _ _ Hb)). run_pure.
  change (buf_at (set bclock true s)) with (buf_at s).
  rewrite scan_bclock, (scan_fwd s l _ Hb), (find_block s l bno i Hb Hc).
  unfold upd_buf. run_pure. erewrite bind_Ret by by apply release_flag_run.
  set (s1 := set bclock false _).
  assert (stepped s s1 i (set_refcnt (Z.add 1) (buf_at s i))) as Hst.
  { eapply stepped_other; [|apply (stepped_upd s s), stepped_refl; [apply Hc|apply (bi_len _ _ Hb)]].
    reflexivity. }
  assert (buf_at s1 i = set_refcnt (Z.add 1) (buf_at s i)) as Hbi by apply Hst.
  assert (b_lock (buf_at s1 i) = Sleeplock false false (sl_pid (b_lock (buf_at s i)))) as Hl1.
  { rewrite Hbi. simpl. destruct (b_lock (buf_at s i)) as [lk lo pd]. simpl in *. by subst. }
  erewrite bind_Ret; [|apply zoom_buf; rewrite Hl1; apply acquiresleep_free].
  eexists. split; [done|]. split.
  - split_and!; simpl; [by rewrite (bi_lock _ _ Hb)|done|done|by rewrite !length_alter].
  - eapply stepped_other; [|apply (stepped_upd _ _ _ _ _ Hst)]. reflexivity.
Qed.

Lemma bget_recycle s l bno j :
  binv s l -> (forall i, ~ cached s bno i) -> (j < NBUF)%nat -> recyclable (buf_at s j) = true ->
  exists i s', bget 1 bno s = (Ret i, s') /\ same_but s s' /\ recyclable (buf_at s i) = true /\
    List.find (fun j => recyclable (buf_at s j)) (rev l) = Some i /\
    stepped s s' i (Buf 0 1 bno (Sleeplock false true (cur_pid (benv s))) 1
                     (b_prev (buf_at s i)) (b_next (buf_at s i)) (b_data (buf_at s i))).
Proof.
  intros Hb Hn Hj Hjr. destruct (find_recyclable s l j Hb Hj Hjr) as (i & Hf & Hi & Hr).
  pose proof (bi_buf _ _ Hb i Hi) as [Hs Href Huse].
  assert (sl_locked (b_lock (buf_at s i)) = false) as Hlk.
  { unfold recyclable in Hr. bool_to_prop. destruct (sl_locked _); [lia|done]. }
  exists i. unfold bget. run_step (acquire_flag_run bclock s (bi_lock _ _ Hb)). run_pure.
  change (buf_at (set bclock true s)) with (buf_at s).
  rewrite scan_bclock, (scan_fwd s l _ Hb), (find_no_block s l bno Hb Hn).
  rewrite scan_bclock, (scan_bwd s l _ Hb), Hf.
  unfold upd_buf. do 4 run_pure. erewrite bind_Ret by by apply release_flag_run.
  set (s1 := set bclock false _).
  set (b0 := buf_at s i) in *.
  assert (stepped s s1 i (Buf 0 1 bno (b_lock b0) 1 (b_prev b0) (b_next b0) (b_data b0))) as Hst.
  { pose proof (stepped_refl s i Hi (bi_len _ _ Hb)) as H. fold b0 in H.
    apply (stepped_upd _ _ _ _ (set_dev 1)), (stepped_upd _ _ _ _ (set_blockno bno)),
      (stepped_upd _ _ _ _ (set_flags (fun _ => 0))), (stepped_upd _ _ _ _ (set_refcnt (fun _ => 1))) in H.
    eapply stepped_other; [|exact H]. reflexivity. }
  assert (b_lock (buf_at s1 i) = Sleeplock false false (sl_pid (b_lock b0))) as Hl1.
  { assert (buf_at s1 i = Buf 0 1 bno (b_lock b0) 1 (b_prev b0) (b_next b0) (b_data b0)) as ->
      by apply Hst. simpl. destruct (b_lock b0) as [lk lo pd]. simpl in *. by subst. }
  erewrite bind_Ret; [|apply zoom_buf; rewrite Hl1; apply acquiresleep_free].
  eexists. split; [done|]. split; [|split; [done|]; split; [done|]].
  - split_and!; simpl; [by rewrite (bi_lock _ _ Hb)|done|done|by rewrite !length_alter].
  - eapply stepped_other; [|apply (stepped_upd _ _ _ _
      (set_lock (Sleeplock false true (cur_pid (benv s)))) Hst)]. reflexivity.
Qed.

Lemma becomes_view s s' i b bno l l' :
  binv s l -> binv s' l' -> becomes s s' i b -> disk_at s' bno = disk_at s bno ->
  (cached s bno i -> is_block 1 bno b = true /\ b_data b = b_data (buf_at s i) \/
     b_data (buf_at s i) = disk_at s bno /\ is_block 1 bno b = false) ->
  (is_block 1 bno b = true -> ~ cached s bno i -> b_data b = bview s bno) ->
  bview s' bno = bview s bno.
Proof.
  intros Hb Hb' Hbe Hd Hc Hn. pose proof Hbe as (Hi & Hci & Hco).
  destruct (is_block 1 bno b) eqn:Eb.
  - assert (cached s' bno i) as Hc' by (split; [done|by rewrite (core_is_block _ _ _ _ Hci)]).
    rewrite (bview_cached _ _ _ _ Hb' Hc').
    apply core_fields in Hci as (_ & _ & _ & _ & _ & ->).
    destruct (is_block 1 bno (buf_at s i)) eqn:Ei.
    + assert (cached s bno i) as Hcs by done.
      rewrite (bview_cached _ _ _ _ Hb Hcs). destruct (Hc Hcs) as [[_ ->]|[_ ?]]; done.
    + apply Hn; [done|]. intros [_ ?]. congruence.
  - assert (forall j, j <> i -> cached s bno j <-> cached s' bno j) as Hiff.
    { intros j Hj. split; intros [Hjn Hjb]; (split; [done|]);
        by rewrite ?(core_is_block _ _ _ _ (Hco j Hjn Hj)) in *. }
    assert (~ cached s' bno i) as Hni by (intros [_ H]; rewrite (core_is_block _ _ _ _ Hci) in H; congruence).
    destruct (cached_dec s' bno) as [[j Hj]|Hnone].
    + assert (j <> i) as Hji by congruence. assert (cached s bno j) as Hjs by by apply Hiff.
      rewrite (bview_cached _ _ _ _ Hb' Hj), (bview_cached _ _ _ _ Hb Hjs).
      by destruct (core_fields _ _ (Hco j (proj1 Hj) Hji)) as (_ & _ & _ & _ & _ & ->).
    + rewrite (bview_uncached _ _ Hnone), Hd.
      destruct (cached_dec s bno) as [[j Hj]|Hnone'].
      * destruct (decide (j = i)) as [->|Hji]; [|by apply Hiff, Hnone in Hj].
        rewrite (bview_cached _ _ _ _ Hb Hj). destruct (Hc Hj) as [[? _]|[-> _]]; done.
      * by rewrite bview_uncached.
Qed.

Lemma recyclable_clean s b : buf_ok s b -> recyclable b = true ->
  sl_locked (b_lock b) = false /\ b_flags b <> 6 /\
  (b_dev b = 1 -> b_data b = disk_at s (b_blockno b)).
Proof.
  intros [H1 H2 H3] Hr. unfold recyclable in Hr. bool_to_prop.
  assert (sl_locked (b_lock b) = false) as Hl by (destruct (sl_locked _); [lia|done]).
  split; [done|]. destruct H3 as [(? & Hf & _)|(? & _ & [Hf|[Hf Hd]])]; rewrite Hf in *.
  - split; [done|]. lia.
  - done.
  - split; [done|]. intros _. by apply Hd.
Qed.

(** [bread] returns a locked buffer with what the block holds, and changes
    what no block holds. *)
Definition bread_post (s s' : bio) (l : list nat) (bno : Z) (i : nat) (f : Z) : Prop :=
  disk s' = disk s /\ wlog s' = wlog s /\ binv s' l /\
  becomes s s' i (read_buf s bno f (buf_at s i)) /\
  sl_locked (b_lock (buf_at s i)) = false /\
  (f = 6 /\ cached s bno i /\ b_flags (buf_at s i) = 6 \/ f = 2 /\ b_flags (buf_at s i) <> 6) /\
  forall b', bview s' b' = bview s b'.

Lemma read_buf_ok s s' bno f b :
  disk s' = disk s -> 0 <= bno < Z.of_nat (length (disk s)) -> f = 6 \/ f = 2 ->
  buf_ok s' (read_buf s bno f b).
Proof.
  intros Hd Hr Hf. split; simpl; [done|done|]. right. rewrite Hd.
  split_and!; [done|lia|lia|]. destruct Hf as [->| ->]; [by left|right; by split].
Qed.

Lemma bread_cached s l bno i :
  binv s l -> cached s bno i -> sl_locked (b_lock (buf_at s i)) = false ->
  exists s', bread 1 bno s = (Ret i, s') /\ bread_post s s' l bno i (b_flags (buf_at s i)).
Proof.
  intros Hb Hc Hl. pose proof (bi_buf _ _ Hb i (proj1 Hc)) as Hok.
  pose proof (proj2 Hc) as [Hdev Hbno]%is_block_true.
  assert (0 <= bno < Z.of_nat (length (disk s)) /\
          (b_flags (buf_at s i) = 6 \/ b_flags (buf_at s i) = 2)) as [Hr Hf].
  { destruct (ok_use _ _ Hok) as [?|(_ & Hx & Hy)]; [lia|]. rewrite Hbno in Hx.
    split; [done|]. destruct Hy as [?|[? _]]; auto. }
  destruct (bget_cached s l bno i Hb Hc Hl) as (s' & Hg & (Hk & Hd & Hw & Hlen) & Hst).
  assert (set_lock (Sleeplock false true (cur_pid (benv s))) (set_refcnt (Z.add 1) (buf_at s i))
          = read_buf s bno (b_flags (buf_at s i)) (buf_at s i)) as Hrb.
  { unfold read_buf. rewrite (bview_cached _ _ _ _ Hb Hc).
    destruct Hok as [_ Href _]. rewrite Hl in Href. unfold set_lock, set_refcnt. simpl.
    by rewrite Href, Hdev, Hbno. }
  rewrite Hrb in Hst. exists s'. unfold bread. run_step Hg. run_pure.
  assert (b_flags (buf_at s' i) = b_flags (buf_at s i)) as -> by by destruct Hst as (_ & _ & _ & -> & _).
  replace (Z.land (b_flags (buf_at s i)) B_VALID =? 0) with false by by destruct Hf as [->| ->].
  run_pure. split; [done|].
  pose proof (stepped_becomes _ _ _ _ Hst) as Hbe.
  assert (binv s' l) as Hb'.
  { eapply (becomes_inv s s'); [done|exact Hbe| |by rewrite Hk; apply (bi_lock _ _ Hb)| |done| | | |].
    - by rewrite Hlen, (bi_len _ _ Hb).
    - eapply stepped_seg; [exact Hst|done|done|apply (bi_seg _ _ Hb)].
    - by rewrite Hd.
    - intros. unfold disk_at. by rewrite Hd.
    - by apply read_buf_ok.
    - simpl. intros j Hj Hne _ Hcj. apply Hne. by eapply (bi_uniq _ _ Hb). }
  split_and!; [done|done|done|done|done| |].
  - destruct Hf as [Hf|Hf]; rewrite Hf; [by left|by right].
  - intros b'. eapply becomes_view; [exact Hb|exact Hb'|exact Hbe|unfold disk_at; by rewrite Hd| |].
    + intros Hcb. left. split; [|simpl; by apply (bview_cached _ _ _ _ Hb)].
      destruct Hcb as [_ [_ <-]%is_block_true]. rewrite Hbno. by apply is_block_true.
    + intros [_ <-]%is_block_true Hn. exfalso. by apply Hn.
Qed.

Lemma bread_uncached s l bno j :
  binv s l -> (forall i, ~ cached s bno i) -> 0 <= bno < Z.of_nat (length (disk s)) ->
  (j < NBUF)%nat -> recyclable (buf_at s j) = true ->
  exists i s', bread 1 bno s = (Ret i, s') /\ bread_post s s' l bno i 2 /\
    List.find (fun j => recyclable (buf_at s j)) (rev l) = Some i.
Proof.
  intros Hb Hn Hr Hj Hjr.
  destruct (bget_recycle s l bno j Hb Hn Hj Hjr) as (i & s1 & Hg & (Hk & Hd & Hw & Hlen) & Hir & Hfi & Hst).
  pose proof Hst as (Hi & _ & Hlen1 & Hbi & Hoth).
  pose proof (bi_buf _ _ Hb i Hi) as Hok.
  destruct (recyclable_clean _ _ Hok Hir) as (Hl & Hf & Hcl).
  destruct (iderw_read s1 i Hlen1 Hi) as (s2 & Hid & (Hk2 & Hd2 & Hw2 & Hlen2) & Hst2);
    [by rewrite Hbi|by rewrite Hbi|by rewrite Hbi|by rewrite Hbi|rewrite Hbi, Hd; simpl; lia|].
  exists i, s2. unfold bread. run_step Hg. run_pure.
  rewrite Hbi. cbn [b_flags]. change (Z.land 0 B_VALID =? 0) with true. cbn [when].
  run_step Hid. split; [done|]. split; [|done].
  assert (stepped s s2 i (read_buf s bno 2 (buf_at s i))) as Hst'.
  { destruct Hst2 as (_ & _ & H3 & H4 & H5). split_and!; [done|apply (bi_len _ _ Hb)|done| |].
    - rewrite H4, Hbi. unfold read_buf. rewrite (bview_uncached _ _ Hn). simpl.
      unfold disk_at. by rewrite Hd.
    - intros k Hk'. by rewrite H5, Hoth. }
  pose proof (stepped_becomes _ _ _ _ Hst') as Hbe.
  assert (disk s2 = disk s) as Hdd by congruence.
  assert (binv s2 l) as Hb'.
  { eapply (becomes_inv s s2); [done|exact Hbe|apply Hst'| | |done| | | |].
    - rewrite Hk2, Hk. apply (bi_lock _ _ Hb).
    - eapply stepped_seg; [exact Hst'|done|done|apply (bi_seg _ _ Hb)].
    - by rewrite Hdd.
    - intros. unfold disk_at. by rewrite Hdd.
    - apply read_buf_ok; auto.
    - simpl. intros k Hk' Hne _ Hcj. by apply Hn in Hcj. }
  split_and!; [done|congruence|done|done|done|by right|].
  intros b'. eapply becomes_view; [exact Hb|exact Hb'|exact Hbe|unfold disk_at; by rewrite Hdd| |].
  - intros Hcb. right. pose proof (proj2 Hcb) as [Hdv Hbn]%is_block_true. split; [rewrite <- Hbn; by apply Hcl|].
    destruct (is_block 1 b' _) eqn:E; [|done]. apply is_block_true in E as [_ E]. simpl in E. subst b'.
    exfalso. apply (Hn i). by rewrite E.
  - intros [_ E]%is_block_true _. simpl in E. subst b'. done.
Qed.

(** Updating the data or the flags of a locked buffer keeps the invariant. *)
Lemma locked_update s l i f :
  binv s l -> (i < NBUF)%nat -> sl_locked (b_lock (buf_at s i)) = true ->
  (forall b, b_lock (f b) = b_lock b /\ b_dev (f b) = b_dev b /\ b_blockno (f b) = b_blockno b /\
     b_refcnt (f b) = b_refcnt b /\ b_prev (f b) = b_prev b /\ b_next (f b) = b_next b) ->
  b_flags (f (buf_at s i)) = 6 \/ b_flags (f (buf_at s i)) = 2 ->
  upd_buf i f s = (Ret tt, set_bufs (alter f i) s) /\
  binv (set_bufs (alter f i) s) l /\
  becomes s (set_bufs (alter f i) s) i (f (buf_at s i)).
Proof.
  intros Hb Hi Hl Hf Hfl. split; [done|].
  pose proof (becomes_upd s i f Hi (bi_len _ _ Hb)) as Hbe. split; [|done].
  destruct (Hf (buf_at s i)) as (E1 & E2 & E3 & E4 & E5 & E6).
  pose proof (bi_buf _ _ Hb i Hi) as Hok.
  assert (b_dev (buf_at s i) = 1) as Hdev.
  { destruct (ok_use _ _ Hok) as [(_ & _ & ?)|[? _]]; congruence. }
  eapply becomes_inv; [exact Hb|exact Hbe| |apply (bi_lock _ _ Hb)| |done|done|done| |].
  - rewrite length_set_bufs. apply (bi_len _ _ Hb).
  - eapply stepped_seg; [apply stepped_upd, stepped_refl; [exact Hi|apply (bi_len _ _ Hb)]| | |
      apply (bi_seg _ _ Hb)]; done.
  - destruct Hok as [H1 H2 H3]. split; [by rewrite E1|by rewrite E1, E4|]. right.
    rewrite E1, E2, E3. destruct H3 as [(_ & _ & ?)|(_ & Hx & _)]; [congruence|].
    split; [done|]. split; [done|]. destruct Hfl as [?|?]; [by left|right]. split; [done|congruence].
  - intros j Hj Hne _ Hcj. apply Hne. eapply (bi_uniq _ _ Hb); [done|]. rewrite E3.
    split; [done|]. by apply is_block_true.
Qed.

(** [bwrite] of a locked buffer makes its contents the contents of the disk
    block, with one disk write. *)
Lemma bwrite_spec s l i :
  binv s l -> (i < NBUF)%nat -> sl_locked (b_lock (buf_at s i)) = true ->
  let bno := b_blockno (buf_at s i) in
  let d := b_data (buf_at s i) in
  exists s', bwrite i s = (Ret tt, s') /\ binv s' l /\
    disk s' = <[Z.to_nat bno := d]> (disk s) /\ wlog s' = wlog s ++ [(bno, d)] /\
    becomes s s' i (set_flags (fun _ => 2) (buf_at s i)).
Proof.
  intros Hb Hi Hl bno d. pose proof (bi_buf _ _ Hb i Hi) as Hok.
  destruct (ok_use _ _ Hok) as [(_ & _ & ?)|(Hdev & Hr & Hfl)]; [congruence|].
  assert (Z.lor (b_flags (buf_at s i)) B_DIRTY = 6) as H6
    by (destruct Hfl as [->|[-> _]]; done).
  unfold bwrite. run_step (holding_buf s i (ok_spin _ _ Hok)). rewrite Hl. cbn [negb]. run_pure.
  destruct (locked_update s l i (set_flags (fun f => Z.lor f B_DIRTY)) Hb Hi Hl) as (Hu & Hb1 & Hbe1);
    [done|by left|].
  run_step Hu. set (s1 := set_bufs _ s) in *.
  assert (buf_at s1 i = set_flags (fun _ => 6) (buf_at s i)) as Hbi.
  { unfold s1. rewrite buf_at_upd_eq by (rewrite (bi_len _ _ Hb); lia).
    unfold set_flags. by rewrite H6. }
  destruct (iderw_write s1 i) as (s' & Hid & Hk & Hd & Hw & Hst);
    [apply (bi_len _ _ Hb1)|done|by rewrite Hbi; apply (ok_spin _ _ Hok)|by rewrite Hbi|by rewrite Hbi|
     by rewrite Hbi|rewrite Hbi; simpl; lia|].
  rewrite Hbi in Hd, Hw, Hst. simpl in Hd, Hw.
  change (set_flags (fun _ => B_VALID) (set_flags (fun _ => 6) (buf_at s i)))
    with (set_flags (fun _ => 2) (buf_at s i)) in Hst.
  pose proof (stepped_becomes _ _ _ _ Hst) as Hbe.
  exists s'. split; [exact Hid|]. split_and!; [|exact Hd|exact Hw|by eapply becomes_trans].
  eapply (becomes_inv s1 s'); [exact Hb1|exact Hbe|apply Hst| | |done| | | |].
  - rewrite Hk. apply (bi_lock _ _ Hb1).
  - eapply stepped_seg; [exact Hst|by rewrite Hbi|by rewrite Hbi|apply (bi_seg _ _ Hb1)].
  - by rewrite Hd, length_insert.
  - intros j Hj Hne Hjd. unfold disk_at. rewrite Hd, list_lookup_insert_ne; [done|].
    intros Heq. apply Hne.
    assert (b_dev (buf_at s1 i) = 1 /\ b_blockno (buf_at s1 i) = bno) as [Hx Hy] by by rewrite Hbi.
    pose proof (bi_buf _ _ Hb1 j Hj) as Hokj.
    destruct (ok_use _ _ Hokj) as [(? & _)|(_ & Hrj & _)]; [lia|].
    eapply (bi_uniq _ _ Hb1 bno); split; [done| |done|]; apply is_block_true; [|done].
    split; [done|]. unfold bno in *. lia.
  - destruct Hok as [H1 H2 H3]. split; [done|done|]. right. rewrite Hd, length_insert.
    split; [done|]. split; [done|]. right. split; [done|]. simpl. congruence.
  - simpl. intros j Hj Hne _ Hcj. apply Hne. eapply (bi_uniq _ _ Hb1); [done|].
    split; [done|]. rewrite Hbi. by apply is_block_true.
Qed.

Definition unlocked (b : buf) : buf :=
  set_refcnt (fun _ => 0) (set_lock (Sleeplock false false 0) b).

Lemma released_ok s s' b :
  sl_locked (b_lock b) = true -> disk s' = disk s -> buf_ok s b ->
  b_flags b = 6 \/ b_data b = disk_at s (b_blockno b) -> buf_ok s' (unlocked b).
Proof.
  intros Hl Hd [H1 H2 H3] Hda. split; [done|done|]. simpl. rewrite Hd. right.
  destruct H3 as [(_ & _ & ?)|(? & ? & Hfl)]; [congruence|]. split; [done|]. split; [done|].
  unfold disk_at in *. rewrite Hd. destruct Hfl as [?|[? _]]; [by left|].
  destruct Hda as [?|?]; [by left|by right].
Qed.

Lemma brelse_spec s l i :
  binv s l -> (i < NBUF)%nat -> sl_locked (b_lock (buf_at s i)) = true ->
  b_flags (buf_at s i) = 6 \/ b_data (buf_at s i) = disk_at s (b_blockno (buf_at s i)) ->
  exists s' l1 l2, brelse i s = (Ret tt, s') /\ l = l1 ++ i :: l2 /\ binv s' (i :: l1 ++ l2) /\
    disk s' = disk s /\ wlog s' = wlog s /\ becomes s s' i (unlocked (buf_at s i)).
Proof.
  intros Hb Hi Hl Hda. pose proof (bi_buf _ _ Hb i Hi) as Hok.
  assert (i ∈ l) as (l1 & l2 & ->)%list_elem_of_split by by apply (binv_range _ _ _ Hb).
  unfold brelse. run_step (holding_buf s i (ok_spin _ _ Hok)). rewrite Hl. cbn [negb]. run_pure.
  destruct (b_lock (buf_at s i)) as [lk lo pd] eqn:El.
  pose proof (ok_spin _ _ Hok) as Hsp. pose proof (ok_ref _ _ Hok) as Href.
  rewrite El in Hsp, Href. simpl in Hsp, Href, Hl. subst lk lo.
  erewrite bind_Ret; [|apply zoom_buf; rewrite El; apply releasesleep_run].
  set (s1 := set_benv _ _).
  assert (stepped s s1 i (set_lock (Sleeplock false false 0) (buf_at s i))) as Hst1.
  { eapply stepped_other; [|apply (stepped_upd s s i _ (set_lock (Sleeplock false false 0))),
      stepped_refl; [exact Hi|apply (bi_len _ _ Hb)]]. reflexivity. }
  run_step (acquire_flag_run bclock s1 (bi_lock _ _ Hb)).
  unfold upd_buf. run_pure. run_pure.
  set (s2 := set_bufs _ _).
  assert (stepped s s2 i (unlocked (buf_at s i))) as Hst2.
  { pose proof (stepped_upd _ _ _ _ (set_refcnt (fun r => r - 1)) Hst1) as H.
    eapply stepped_other in H; [|instantiate (1 := s2); reflexivity].
    unfold set_refcnt at 1 in H. simpl in H. rewrite Href in H. exact H. }
  assert (buf_at s2 i = unlocked (buf_at s i)) as Hbi by apply Hst2.
  rewrite Hbi. cbn [b_refcnt unlocked set_refcnt]. change (0 =? 0) with true. cbn [when].
  assert (seg (nxt s2) (prv s2) head (l1 ++ i :: l2) head) as Hseg2
    by (eapply stepped_seg; [exact Hst2|done|done|apply (bi_seg _ _ Hb)]).
  assert (length (bufs s2) = S NBUF) as Hlen2 by apply Hst2.
  destruct (move_front_run s2 l1 i l2 Hseg2 (binv_nodup _ _ Hb)) as (s3 & Hm & [Hsb3 Hlk3] & Hseg3).
  { intros a [->|Ha]%elem_of_cons; rewrite Hlen2; [unfold head; lia|].
    apply (binv_range _ _ _ Hb) in Ha. lia. }
  destruct Hsb3 as (Hk3 & Hd3 & Hw3 & Hlen3).
  run_step Hm. rewrite (release_flag_run bclock s3 Hk3).
  assert (becomes s (set bclock false s3) i (unlocked (buf_at s i))) as Hbe.
  { split_and!; [done| |].
    - change (buf_at (set bclock false s3)) with (buf_at s3). rewrite Hlk3 by lia. by rewrite Hbi.
    - intros j Hj Hne. change (buf_at (set bclock false s3)) with (buf_at s3).
      rewrite Hlk3 by lia. destruct Hst2 as (_ & _ & _ & _ & Ho). by rewrite Ho. }
  exists (set bclock false s3), l1, l2.
  split_and!; [done|done| |by simpl; rewrite Hd3|by simpl; rewrite Hw3|done].
  eapply becomes_inv; [exact Hb|exact Hbe|simpl; by rewrite Hlen3|done|exact Hseg3|
    apply Permutation_middle|simpl; by rewrite Hd3|intros; unfold disk_at; simpl; by rewrite Hd3| |].
  - apply (released_ok s); [by rewrite El|by simpl; rewrite Hd3|done|done].
  - simpl. intros j Hj Hne Hdv Hcj. apply Hne. eapply (bi_uniq _ _ Hb); [done|].
    split; [done|]. by apply is_block_true.
Qed.

(** ** The cache as a client sees it

    [cache_abs s n D V dirty locked]: the disk has [n] blocks with contents [D];
    a reader sees [V]; [dirty] are the blocks with modifications that are not on
    disk, [locked] those whose buffer the client holds. *)
Record cache_abs (s : bio) (n : Z) (D V : Z -> block) (dirty locked : gset Z) : Prop := {
  ca_inv : exists l, binv s l;
  ca_size : n = Z.of_nat (length (disk s));
  ca_disk : forall b, 0 <= b < n -> disk_at s b = D b;
  ca_view : forall b, 0 <= b < n -> bview s b = V b;
  ca_dirty : forall b, b ∈ dirty <-> exists i, cached s b i /\ b_flags (buf_at s i) = 6;
  ca_locked : forall b, b ∈ locked <-> exists i, cached s b i /\ sl_locked (b_lock (buf_at s i)) = true;
}.

(** [i] is the buffer of block [b], held by the client. *)
Definition handle (s : bio) (i : nat) (b : Z) : Prop :=
  cached s b i /\ sl_locked (b_lock (buf_at s i)) = true.

Lemma cached_range s l b i : binv s l -> cached s b i -> 0 <= b < Z.of_nat (length (disk s)).
Proof.
  intros Hb [Hi [Hd <-]%is_block_true]. destruct (ok_use _ _ (bi_buf _ _ Hb i Hi)) as [?|?]; lia.
Qed.

Lemma becomes_cached s s' i b bno j :
  becomes s s' i b -> cached s' bno j <->
    (j = i /\ is_block 1 bno b = true) \/ (j <> i /\ cached s bno j).
Proof.
  intros (Hi & Hc & Ho). unfold cached. destruct (decide (j = i)) as [->|Hne].
  - rewrite (core_is_block _ _ _ _ Hc). naive_solver.
  - split; [intros [Hj Hjb]|intros [[? _]|[_ [Hj Hjb]]]; [done|]].
    + right. split; [done|]. split; [done|]. by rewrite <- (core_is_block _ _ _ _ (Ho j Hj Hne)).
    + split; [done|]. by rewrite (core_is_block _ _ _ _ (Ho j Hj Hne)).
Qed.

(** A set of blocks described by a test on their buffers, after buffer [i],
    which caches block [bno] before and after, became [b]. *)
Lemma becomes_set (t : buf -> Prop) s s' i b bno l (X : gset Z) :
  (forall b b', core b = core b' -> t b -> t b') ->
  binv s l -> becomes s s' i b -> cached s bno i -> is_block 1 bno b = true ->
  (forall x, x ∈ X <-> exists j, cached s x j /\ t (buf_at s j)) ->
  forall x, (exists j, cached s' x j /\ t (buf_at s' j)) <->
    (x = bno /\ t b) \/ (x <> bno /\ x ∈ X).
Proof.
  intros Ht Hb Hbe Hc Hib HX x. pose proof Hbe as (Hi & Hci & Ho). split.
  - intros (j & Hj & Htj). apply (becomes_cached _ _ _ _ _ _ Hbe) in Hj as [[-> Hx]|[Hne Hj]].
    + left. apply is_block_true in Hx as [_ <-]. apply is_block_true in Hib as [_ <-].
      split; [done|]. by eapply Ht.
    + destruct (decide (x = bno)) as [->|Hx].
      * exfalso. apply Hne. by eapply (bi_uniq _ _ Hb).
      * right. split; [done|]. apply HX. exists j. split; [done|].
        eapply Ht; [|exact Htj]. apply Ho; [apply Hj|done].
  - intros [[-> Hx]|[Hx HxX]].
    + exists i. split; [by apply (becomes_cached _ _ _ _ _ _ Hbe); left|]. by eapply Ht.
    + apply HX in HxX as (j & Hj & Htj). assert (j <> i) as Hne.
      { intros ->. destruct Hj as [_ [_ E1]%is_block_true], Hc as [_ [_ E2]%is_block_true]. congruence. }
      exists j. split; [by apply (becomes_cached _ _ _ _ _ _ Hbe); right|].
      eapply Ht; [|exact Htj]. symmetry. apply Ho; [apply Hj|done].
Qed.

Definition t_dirty (b : buf) : Prop := b_flags b = 6.

Definition t_locked (b : buf) : Prop := sl_locked (b_lock b) = true.

Lemma t_dirty_core b b' : core b = core b' -> t_dirty b -> t_dirty b'.
Proof. intros (H & _)%core_fields. unfold t_dirty. by rewrite H. Qed.

Lemma t_locked_core b b' : core b = core b' -> t_locked b -> t_locked b'.
Proof. intros (_ & _ & _ & H & _)%core_fields. unfold t_locked. by rewrite H. Qed.

#[export] Instance t_dirty_dec b : Decision (t_dirty b).
Proof. unfold t_dirty. apply _. Defined.

#[export] Instance t_locked_dec b : Decision (t_locked b).
Proof. unfold t_locked. apply _. Defined.

Lemma set_update (P : Prop) `{!Decision P} (X : gset Z) b x :
  x ∈ (if decide P then {[b]} ∪ X else X ∖ {[b]}) <-> (x = b /\ P) \/ (x <> b /\ x ∈ X).
Proof.
  destruct (decide P), (decide (x = b)) as [->|];
    rewrite ?elem_of_union, ?elem_of_difference, ?elem_of_singleton; tauto.
Qed.

(** The client's view after a buffer it holds became [b]. *)
Lemma cache_abs_step s s' n D V D' dirty locked i b bno l' :
  cache_abs s n D V dirty locked -> handle s i bno -> becomes s s' i b ->
  is_block 1 bno b = true -> binv s' l' -> length (disk s') = length (disk s) ->
  (forall x, 0 <= x < n -> disk_at s' x = D' x) ->
  (forall x, x <> bno -> 0 <= x < n -> D' x = D x) ->
  cache_abs s' n D' (upd_fn V bno (b_data b))
    (if decide (t_dirty b) then {[bno]} ∪ dirty else dirty ∖ {[bno]})
    (if decide (t_locked b) then {[bno]} ∪ locked else locked ∖ {[bno]}).
Proof.
  intros [[l Hb] Hn HD HV Hdi Hlo] [Hc Hl] Hbe Hib Hb' Hlen HD' HDD.
  split; [eauto|by rewrite Hlen|done| | |].
  - intros x Hx. unfold upd_fn. case_decide as E; [subst x|].
    + assert (cached s' bno i) as Hci by (apply (becomes_cached _ _ _ _ _ _ Hbe); by left).
      rewrite (bview_cached _ _ _ _ Hb' Hci). destruct Hbe as (_ & Hco & _).
      by apply core_fields in Hco as (_ & _ & _ & _ & _ & ->).
    + rewrite <- (HV x Hx). eapply becomes_view; [exact Hb|exact Hb'|exact Hbe| | |].
      * rewrite HD' by done. rewrite HDD by done. symmetry. by apply HD.
      * intros [_ [_ E1]%is_block_true]. destruct Hc as [_ [_ E2]%is_block_true]. congruence.
      * intros [_ E1]%is_block_true. apply is_block_true in Hib as [_ E2]. congruence.
  - intros x. pose proof (becomes_set t_dirty s s' i b bno l dirty t_dirty_core Hb Hbe Hc Hib Hdi x) as Hs.
    unfold t_dirty in Hs at 1. rewrite Hs. apply set_update.
  - intros x. pose proof (becomes_set t_locked s s' i b bno l locked t_locked_core Hb Hbe Hc Hib Hlo x) as Hs.
    unfold t_locked in Hs at 1. rewrite Hs. apply set_update.
Qed.

(** A buffer can be recycled unless every buffer is dirty or held. *)
Lemma recyclable_exists s l (X : gset Z) :
  binv s l -> (size X < NBUF)%nat ->
  (forall i b, cached s b i -> t_dirty (buf_at s i) \/ t_locked (buf_at s i) -> b ∈ X) ->
  exists j, (j < NBUF)%nat /\ recyclable (buf_at s j) = true.
Proof.
  intros Hb Hsz HX.
  destruct (List.find (fun j => recyclable (buf_at s j)) (seq 0 NBUF)) as [j|] eqn:E.
  { apply List.find_some in E as [Hj Hr]. apply in_seq in Hj. exists j. split; [lia|done]. }
  exfalso.
  assert (forall i, (i < NBUF)%nat -> cached s (b_blockno (buf_at s i)) i /\ b_blockno (buf_at s i) ∈ X) as Hall.
  { intros i Hi. assert (In i (seq 0 NBUF)) as Hin by (apply in_seq; lia).
    pose proof (List.find_none _ _ E i Hin) as Hn. simpl in Hn. unfold recyclable in Hn.
    pose proof (bi_buf _ _ Hb i Hi) as [H1 H2 H3].
    assert (b_dev (buf_at s i) = 1 /\ (t_dirty (buf_at s i) \/ t_locked (buf_at s i))) as [Hd Ht].
    { unfold t_dirty, t_locked. destruct (sl_locked _), H3 as [(? & Hf & ?)|(? & _ & [Hf|[Hf _]])];
        try rewrite H2, Hf in Hn; simpl in Hn; try done; auto. }
    assert (cached s (b_blockno (buf_at s i)) i) by (split; [done|by apply is_block_true]).
    split; [done|by eapply HX]. }
  assert (NoDup ((fun i => b_blockno (buf_at s i)) <$> seq 0 NBUF)) as Hnd.
  { apply NoDup_fmap_2_strong; [|apply NoDup_seq]. intros i j Hi%elem_of_seq Hj%elem_of_seq Heq.
    eapply (bi_uniq _ _ Hb); [apply Hall; lia|]. simpl in Heq. rewrite Heq. apply Hall. lia. }
  assert (list_to_set ((fun i => b_blockno (buf_at s i)) <$> seq 0 NBUF) ⊆ X) as Hsub.
  { intros x Hx%elem_of_list_to_set. apply list_elem_of_fmap in Hx as (i & -> & Hi%elem_of_seq).
    apply Hall. lia. }
  apply subseteq_size in Hsub. rewrite size_list_to_set in Hsub by done.
  rewrite length_fmap, length_seq in Hsub. lia.
Qed.

(** [bread] of a block that is not held, when a buffer is available. *)
Lemma cache_bread_raw s l bno (X : gset Z) :
  binv s l -> 0 <= bno < Z.of_nat (length (disk s)) ->
  (forall i, cached s bno i -> ~ t_locked (buf_at s i)) ->
  (forall i b, cached s b i -> t_dirty (buf_at s i) \/ t_locked (buf_at s i) -> b ∈ X) ->
  (exists i, cached s bno i) \/ (size X < NBUF)%nat ->
  exists i s' f, bread 1 bno s = (Ret i, s') /\ bread_post s s' l bno i f.
Proof.
  intros Hb Hr Hnl HX Hav. destruct (cached_dec s bno) as [[i Hc]|Hn].
  - assert (sl_locked (b_lock (buf_at s i)) = false) as Hl.
    { specialize (Hnl i Hc). unfold t_locked in Hnl. by destruct (sl_locked _). }
    destruct (bread_cached s l bno i Hb Hc Hl) as (s' & H1 & H2). eauto 10.
  - destruct Hav as [[i Hi]|Hsz]; [by apply Hn in Hi|].
    destruct (recyclable_exists s l X Hb Hsz HX) as (j & Hj & Hjr).
    destruct (bread_uncached s l bno j Hb Hn Hr Hj Hjr) as (i & s' & H1 & H2 & _). eauto 10.
Qed.

(** The sets of dirty and of held blocks after [bread]. *)
Lemma bread_post_set (t : buf -> Prop) s s' l bno i f :
  (forall b b', core b = core b' -> t b -> t b') ->
  binv s l -> bread_post s s' l bno i f ->
  (t (buf_at s i) -> cached s bno i /\ t (read_buf s bno f (buf_at s i))) ->
  forall x, (exists j, cached s' x j /\ t (buf_at s' j)) <->
    (x = bno /\ t (read_buf s bno f (buf_at s i))) \/ (exists j, cached s x j /\ t (buf_at s j)).
Proof.
  intros Ht Hb (_ & _ & Hb' & Hbe & _ & _ & _) Hti x. pose proof Hbe as (Hi & Hci & Ho).
  split.
  - intros (j & Hj & Htj). apply (becomes_cached _ _ _ _ _ _ Hbe) in Hj as [[-> Hx]|[Hne Hj]].
    + left. apply is_block_true in Hx as [_ <-]. split; [done|]. by eapply Ht.
    + right. exists j. split; [done|]. eapply Ht; [|exact Htj]. apply Ho; [apply Hj|done].
  - intros [[-> Hx]|(j & Hj & Htj)].
    + exists i. split; [|by eapply Ht]. apply (becomes_cached _ _ _ _ _ _ Hbe). left.
      split; [done|]. by apply is_block_true.
    + destruct (decide (j = i)) as [->|Hne].
      * destruct (Hti Htj) as [Hc Htr]. exists i.
        assert (x = bno) as ->.
        { destruct Hj as [_ [_ <-]%is_block_true], Hc as [_ [_ <-]%is_block_true]. done. }
        split; [|by eapply Ht]. apply (becomes_cached _ _ _ _ _ _ Hbe). left.
        split; [done|]. by apply is_block_true.
      * exists j. split; [by apply (becomes_cached _ _ _ _ _ _ Hbe); right|].
        eapply Ht; [|exact Htj]. symmetry. apply Ho; [apply Hj|done].
Qed.

Lemma cache_bread s n D V dirty locked bno :
  cache_abs s n D V dirty locked -> 0 <= bno < n -> bno ∉ locked ->
  bno ∈ dirty \/ (size (dirty ∪ locked) < NBUF)%nat ->
  exists i s', bread 1 bno s = (Ret i, s') /\
    cache_abs s' n D V dirty ({[bno]} ∪ locked) /\ handle s' i bno /\ wlog s' = wlog s /\
    forall j c, handle s j c -> handle s' j c.
Proof.
  intros [[l Hb] Hn HD HV Hdi Hlo] Hr Hnl Hav. subst n.
  destruct (cache_bread_raw s l bno (dirty ∪ locked) Hb Hr) as (i & s' & f & Hrd & Hp).
  - intros i Hc Ht. apply Hnl, Hlo. eauto.
  - intros i b Hc [Ht|Ht]; apply elem_of_union; [left; apply Hdi|right; apply Hlo]; eauto.
  - destruct Hav as [(i & Hc & _)%Hdi|?]; [left; eauto|by right].
  - exists i, s'. split; [done|].
    pose proof Hp as (Hdk & Hw & Hb' & Hbe & Hl & Hf & Hv).
    pose proof Hbe as (Hi & Hci & Ho).
    split_and!; [|split; [|]|done|].
    + split; [eauto|by rewrite Hdk| | | |].
      * intros b Hbr. unfold disk_at. rewrite Hdk. by apply HD.
      * intros b Hbr. rewrite Hv. by apply HV.
      * intros x. etrans; [apply Hdi|]. symmetry.
        etrans; [apply (bread_post_set t_dirty s s' l bno i f t_dirty_core Hb Hp)|].
        { intros Ht. destruct Hf as [(-> & Hc & _)|[_ Hf]]; [done|]. by unfold t_dirty in Ht. }
        split; [|tauto]. intros [[-> Ht]|?]; [|done]. unfold t_dirty in Ht. simpl in Ht.
        destruct Hf as [(_ & ? & ?)|[? _]]; [eauto|lia].
      * intros x. rewrite elem_of_union, elem_of_singleton.
        rewrite (Hlo x). symmetry.
        etrans; [apply (bread_post_set t_locked s s' l bno i f t_locked_core Hb Hp)|].
        { unfold t_locked. congruence. }
        unfold t_locked. simpl. tauto.
    + apply (becomes_cached _ _ _ _ _ _ Hbe). left. split; [done|]. by apply is_block_true.
    + by apply core_fields in Hci as (_ & _ & _ & -> & _).
    + intros j c [Hc Hlj]. assert (j <> i) as Hne by congruence.
      split; [apply (becomes_cached _ _ _ _ _ _ Hbe); by right|].
      by destruct (core_fields _ _ (Ho j (proj1 Hc) Hne)) as (_ & _ & _ & -> & _).
Qed.

Lemma handle_data s n D V dirty locked i b :
  cache_abs s n D V dirty locked -> handle s i b -> b_data (buf_at s i) = V b.
Proof.
  intros [[l Hb] Hn HD HV Hdi Hlo] [Hc Hl]. rewrite <- (bview_cached _ _ _ _ Hb Hc). apply HV.
  rewrite Hn. by eapply cached_range.
Qed.

Lemma handle_becomes s s' i b bno j c :
  becomes s s' i b -> handle s i bno -> handle s j c ->
  (j = i -> is_block 1 bno b = true /\ t_locked b) -> handle s' j c.
Proof.
  intros Hbe [Hc Hl] [Hcj Hlj] Ht. pose proof Hbe as (Hi & Hci & Ho).
  destruct (decide (j = i)) as [->|Hne].
  - destruct (Ht eq_refl) as [Hib Htl]. split.
    + apply (becomes_cached _ _ _ _ _ _ Hbe). left. split; [done|].
      destruct Hc as [_ [_ E1]%is_block_true], Hcj as [_ [_ E2]%is_block_true]. congruence.
    + by apply core_fields in Hci as (_ & _ & _ & -> & _).
  - split; [apply (becomes_cached _ _ _ _ _ _ Hbe); by right|].
    by destruct (core_fields _ _ (Ho j (proj1 Hcj) Hne)) as (_ & _ & _ & -> & _).
Qed.

Lemma handle_dirty s n D V dirty locked i b :
  cache_abs s n D V dirty locked -> handle s i b -> t_dirty (buf_at s i) <-> b ∈ dirty.
Proof.
  intros [[l Hb] Hn HD HV Hdi Hlo] [Hc Hl]. rewrite Hdi. split; [eauto|].
  intros (j & Hj & Ht). by rewrite <- (bi_uniq _ _ Hb b j i).
Qed.

Lemma handle_locked s n D V dirty locked i b :
  cache_abs s n D V dirty locked -> handle s i b -> b ∈ locked.
Proof. intros [[l Hb] Hn HD HV Hdi Hlo] [Hc Hl]. apply Hlo. eauto. Qed.

Lemma handle_locked_iff s n D V dirty locked i b :
  cache_abs s n D V dirty locked -> handle s i b -> t_locked (buf_at s i) <-> b ∈ locked.
Proof. intros Ha Hh. split; [intros _; by eapply handle_locked|by destruct Hh]. Qed.

Lemma handle_flags s n D V dirty locked i b :
  cache_abs s n D V dirty locked -> handle s i b ->
  b_flags (buf_at s i) = 6 \/ b_flags (buf_at s i) = 2.
Proof.
  intros [[l Hb] _ _ _ _ _] [Hc Hl]. destruct (ok_use _ _ (bi_buf _ _ Hb i (proj1 Hc)))
    as [(_ & _ & ?)|(_ & _ & [?|[? _]])]; [congruence|auto..].
Qed.

Lemma set_if_in (P : Prop) `{!Decision P} (X : gset Z) b :
  (P <-> b ∈ X) -> (if decide P then {[b]} ∪ X else X ∖ {[b]}) = X.
Proof.
  intros Hp. apply set_eq. intros x. rewrite set_update.
  destruct (decide (x = b)) as [->|]; tauto.
Qed.

(** Writing to the data of a held buffer. *)
Lemma cache_set_data s n D V dirty locked i b f :
  cache_abs s n D V dirty locked -> handle s i b ->
  exists s', set_bdata i f s = (Ret tt, s') /\
    cache_abs s' n D (upd_fn V b (f (V b))) dirty locked /\ wlog s' = wlog s /\
    forall j c, handle s j c -> handle s' j c.
Proof.
  intros Ha Hh. pose proof Hh as [Hc Hl]. destruct (ca_inv _ _ _ _ _ _ Ha) as [l Hb].
  destruct (locked_update s l i (set_data f) Hb (proj1 Hc) Hl) as (Hu & Hb' & Hbe);
    [done|simpl; by eapply handle_flags|].
  eexists. split; [exact Hu|].
  assert (is_block 1 b (set_data f (buf_at s i)) = true) as Hib by apply Hc.
  pose proof (cache_abs_step _ _ _ _ _ D _ _ _ _ _ _ Ha Hh Hbe Hib Hb' eq_refl) as Hst.
  split_and!; [|done|].
  - rewrite (set_if_in (t_dirty _) dirty b), (set_if_in (t_locked _) locked b) in Hst.
    + simpl in Hst. rewrite (handle_data _ _ _ _ _ _ _ _ Ha Hh) in Hst.
      apply Hst; [apply (ca_disk _ _ _ _ _ _ Ha)|done].
    + by eapply (handle_locked_iff s).
    + by eapply (handle_dirty s).
  - intros j c Hj. eapply handle_becomes; [exact Hbe|exact Hh|exact Hj|]. intros _. split; [apply Hc|apply Hl].
Qed.

(** [bp->flags |= B_DIRTY] on a held buffer pins it in the cache. *)
Definition set_dirty (b : nat) : M bio unit := upd_buf b (set_flags (fun f => Z.lor f B_DIRTY)).

Lemma cache_set_dirty s n D V dirty locked i b :
  cache_abs s n D V dirty locked -> handle s i b ->
  exists s', set_dirty i s = (Ret tt, s') /\
    cache_abs s' n D V ({[b]} ∪ dirty) locked /\ wlog s' = wlog s /\
    forall j c, handle s j c -> handle s' j c.
Proof.
  intros Ha Hh. pose proof Hh as [Hc Hl]. destruct (ca_inv _ _ _ _ _ _ Ha) as [l Hb].
  pose proof (handle_flags _ _ _ _ _ _ _ _ Ha Hh) as Hf.
  assert (t_dirty (set_flags (fun f => Z.lor f B_DIRTY) (buf_at s i))) as Ht
    by (unfold t_dirty; simpl; by destruct Hf as [->| ->]).
  destruct (locked_update s l i (set_flags (fun f => Z.lor f B_DIRTY)) Hb (proj1 Hc) Hl)
    as (Hu & Hb' & Hbe); [done|by left|].
  eexists. split; [exact Hu|]. split_and!; [|done|].
  - eapply cache_abs_step in Ha as Hst; [|exact Hh|exact Hbe|apply Hc|exact Hb'|done|
      apply (ca_disk _ _ _ _ _ _ Ha)|done].
    rewrite (decide_True_pi Ht), (set_if_in (t_locked _) locked b) in Hst.
    + simpl in Hst. destruct Hst as [H1 H2 H3 H4 H5 H6]. split; try done.
      intros x Hx. rewrite H4 by done. unfold upd_fn. case_decide; [subst|done].
      by eapply handle_data.
    + by eapply (handle_locked_iff s).
  - intros j c Hj. eapply handle_becomes; [exact Hbe|exact Hh|exact Hj|]. intros _. split; [apply Hc|apply Hl].
Qed.

Lemma cache_bwrite s n D V dirty locked i b :
  cache_abs s n D V dirty locked -> handle s i b ->
  exists s', bwrite i s = (Ret tt, s') /\
    cache_abs s' n (upd_fn D b (V b)) V (dirty ∖ {[b]}) locked /\
    wlog s' = wlog s ++ [(b, V b)] /\
    forall j c, handle s j c -> handle s' j c.
Proof.
  intros Ha Hh. pose proof Hh as [Hc Hl]. destruct (ca_inv _ _ _ _ _ _ Ha) as [l Hb].
  pose proof (handle_data _ _ _ _ _ _ _ _ Ha Hh) as HV.
  pose proof (cached_range _ _ _ _ Hb Hc) as Hr.
  pose proof (proj2 Hc) as [Hdev Hbno]%is_block_true.
  destruct (bwrite_spec s l i Hb (proj1 Hc) Hl) as (s' & Hw & Hb' & Hd & Hwl & Hbe).
  rewrite Hbno, HV in Hd, Hwl.
  exists s'. split; [done|]. split_and!; [|done|].
  - eapply (cache_abs_step _ _ _ _ _ (upd_fn D b (V b))) in Ha as Hst;
      [|exact Hh|exact Hbe|apply Hc|exact Hb'|by rewrite Hd, length_insert| |].
    + rewrite (set_if_in (t_locked _) locked b) in Hst
        by by eapply (handle_locked_iff s).
      rewrite decide_False in Hst by done. simpl in Hst.
      destruct Hst as [H1 H2 H3 H4 H5 H6]. split; try done.
      intros x Hx. rewrite H4 by done. unfold upd_fn. by case_decide; [subst|].
    + intros x Hx. pose proof (ca_size _ _ _ _ _ _ Ha) as Hn. unfold disk_at, upd_fn. rewrite Hd.
      case_decide as E; [subst x; rewrite list_lookup_insert_eq by lia; done|].
      rewrite list_lookup_insert_ne by lia. by apply (ca_disk _ _ _ _ _ _ Ha).
    + intros x Hx _. unfold upd_fn. by case_decide.
  - intros j c Hj. eapply handle_becomes; [exact Hbe|exact Hh|exact Hj|]. intros _. split; [apply Hc|apply Hl].
Qed.

Lemma cache_brelse s n D V dirty locked i b :
  cache_abs s n D V dirty locked -> handle s i b -> b ∈ dirty \/ V b = D b ->
  exists s', brelse i s = (Ret tt, s') /\
    cache_abs s' n D V dirty (locked ∖ {[b]}) /\ wlog s' = wlog s /\
    forall j c, c <> b -> handle s j c -> handle s' j c.
Proof.
  intros Ha Hh Hcl. pose proof Hh as [Hc Hl]. destruct (ca_inv _ _ _ _ _ _ Ha) as [l Hb].
  pose proof (handle_data _ _ _ _ _ _ _ _ Ha Hh) as HV.
  pose proof (cached_range _ _ _ _ Hb Hc) as Hr.
  pose proof (proj2 Hc) as [Hdev Hbno]%is_block_true.
  destruct (brelse_spec s l i Hb (proj1 Hc) Hl) as (s' & l1 & l2 & Hw & -> & Hb' & Hd & Hwl & Hbe).
  { destruct Hcl as [Hdi|Heq]; [left; by apply (handle_dirty _ _ _ _ _ _ _ _ Ha Hh)|right].
    rewrite HV, Hbno, Heq. symmetry. apply (ca_disk _ _ _ _ _ _ Ha).
    by rewrite (ca_size _ _ _ _ _ _ Ha). }
  exists s'. split; [done|]. split_and!; [|done|].
  - eapply (cache_abs_step _ _ _ _ _ D) in Ha as Hst;
      [|exact Hh|exact Hbe|apply Hc|exact Hb'|by rewrite Hd| |done].
    + rewrite (set_if_in (t_dirty _) dirty b) in Hst by by eapply (handle_dirty s).
      rewrite decide_False in Hst by done. simpl in Hst.
      destruct Hst as [H1 H2 H3 H4 H5 H6]. split; try done.
      intros x Hx. rewrite H4 by done. unfold upd_fn. case_decide; [|done]. by subst x.
    + intros x Hx. unfold disk_at. rewrite Hd. by apply (ca_disk _ _ _ _ _ _ Ha).
  - intros j c Hne Hj. eapply handle_becomes; [exact Hbe|exact Hh|exact Hj|].
    intros ->. destruct Hj as [[_ [_ E]%is_block_true] _]. congruence.
Qed.

(** ** Booting *)
#[local] Transparent NBUF.

Lemma binit_bufs d pid : bufs (binit (boot d pid)).2 = bufs (binit (boot [] 0)).2.
Proof. vm_compute. reflexivity. Qed.

Definition fresh_buf (b : buf) : bool :=
  negb (sl_lk (b_lock b)) && negb (sl_locked (b_lock b)) && (b_refcnt b =? 0) &&
  (b_dev b =? 0) && (b_flags b =? 0).

Lemma fresh_ok s b : fresh_buf b = true -> buf_ok s b.
Proof.
  unfold fresh_buf. intros Hf. bool_to_prop. split; [done| |by left].
  by destruct (sl_locked (b_lock b)).
Qed.

Lemma fresh_dev b : fresh_buf b = true -> b_dev b <> 1.
Proof. unfold fresh_buf. intros Hf. bool_to_prop. lia. Qed.

Lemma binit_fresh d pid i : (i < NBUF)%nat -> fresh_buf (buf_at (binit (boot d pid)).2 i) = true.
Proof.
  intros Hi. unfold buf_at. rewrite binit_bufs.
  assert (forallb (fun i => fresh_buf (default null_buf (bufs (binit (boot [] 0)).2 !! i))) (seq 0 NBUF) = true)
    as Hall by (vm_compute; reflexivity).
  rewrite forallb_forall in Hall. apply Hall, in_seq. lia.
Qed.

Lemma binit_seg d pid :
  seg (nxt (binit (boot d pid)).2) (prv (binit (boot d pid)).2) head (rev (seq 0 NBUF)) head.
Proof.
  apply (seg_ext (nxt (binit (boot [] 0)).2) (prv (binit (boot [] 0)).2));
    [intros a _; unfold nxt, prv, buf_at; by rewrite (binit_bufs d pid)..|].
  vm_compute. by split_and!.
Qed.

Lemma binit_inv d pid :
  exists s, binit (boot d pid) = (Ret tt, s) /\ binv s (rev (seq 0 NBUF)) /\
    disk s = d /\ wlog s = [] /\ (forall b i, ~ cached s b i).
Proof.
  exists (binit (boot d pid)).2.
  assert (binit (boot d pid) = (Ret tt, (binit (boot d pid)).2)) as Hr by (vm_compute; reflexivity).
  assert (forall b i, ~ cached (binit (boot d pid)).2 b i) as Hnc.
  { intros b i [Hi [Hd _]%is_block_true]. exact (fresh_dev _ (binit_fresh d pid i Hi) Hd). }
  split; [exact Hr|]. split; [|split; [vm_compute; reflexivity|split; [vm_compute; reflexivity|exact Hnc]]].
  split.
  - rewrite binit_bufs. vm_compute. reflexivity.
  - vm_compute. reflexivity.
  - apply binit_seg.
  - symmetry. apply Permutation_rev.
  - intros i Hi. apply fresh_ok, (binit_fresh d pid i Hi).
  - intros b i j Hi _. destruct (Hnc b i Hi).
Qed.

Definition disk_fn (d : list block) (b : Z) : block := default zero_block (d !! Z.to_nat b).

Lemma binit_abs d pid :
  exists s, binit (boot d pid) = (Ret tt, s) /\ wlog s = [] /\
    cache_abs s (Z.of_nat (length d)) (disk_fn d) (disk_fn d) ∅ ∅.
Proof.
  destruct (binit_inv d pid) as (s & Hs & Hb & Hd & Hw & Hn).
  exists s. split; [exact Hs|]. split; [exact Hw|]. clear Hs.
  split; [eauto|by rewrite Hd| | | |].
  - intros b _. unfold disk_at. by rewrite Hd.
  - intros b _. rewrite bview_uncached by apply Hn. unfold disk_at. by rewrite Hd.
  - intros b. split; [set_solver|]. intros (i & Hi & _). by apply Hn in Hi.
  - intros b. split; [set_solver|]. intros (i & Hi & _). by apply Hn in Hi.
Qed.

#[global] Opaque NBUF.

End Bio.

(** ** The cache implements the interface *)
#[export] Instance bio_cache : BlockCache Bio.bio := {
  bread := Bio.bread;
  bwrite := Bio.bwrite;
  brelse := Bio.brelse;
  bdata := fun s i => Bio.b_data (Bio.buf_at s i);
  blockno := fun s i => Bio.b_blockno (Bio.buf_at s i);
  set_bdata := Bio.set_bdata;
  set_dirty := Bio.set_dirty;
  cenv := Lens Bio.benv (fun f s => Bio.set_benv (f (Bio.benv s)) s);
  cwlog := Bio.wlog;
  cap := Bio.NBUF;
  cabs := fun s v => Bio.cache_abs s (cv_n v) (cv_disk v) (cv_view v) (cv_dirty v) (cv_locked v) /\
                     Bio.wlog s = cv_log v /\ cv_n v <= 2147483648;
  handle := Bio.handle;
}.

#[export] Instance bio_cache_laws : BlockCacheLaws Bio.bio.
Proof.
  split; simpl.
  - intros c v b (Ha & Hw & Hn) Hr Hl Hav.
    destruct (Bio.cache_bread _ _ _ _ _ _ _ Ha Hr Hl Hav) as (i & s' & Hb & Ha' & Hh & Hw' & Hk).
    eapply wp_eq; [exact Hb|]. split_and!; [done|by rewrite Hw'|done|done|exact Hk].
  - intros c v i b (Ha & _ & _) Hh. split; [by eapply Bio.handle_data|].
    destruct Hh as [[_ [_ Hb]%Bio.is_block_true] _]. done.
  - intros c v i b f (Ha & Hw & Hn) Hh.
    destruct (Bio.cache_set_data _ _ _ _ _ _ _ _ f Ha Hh) as (s' & Hb & Ha' & Hw' & Hk).
    eapply wp_eq; [exact Hb|]. split_and!; [done|by rewrite Hw'|done|exact Hk].
  - intros c v i b (Ha & Hw & Hn) Hh.
    destruct (Bio.cache_set_dirty _ _ _ _ _ _ _ _ Ha Hh) as (s' & Hb & Ha' & Hw' & Hk).
    eapply wp_eq; [exact Hb|]. split_and!; [done|by rewrite Hw'|done|exact Hk].
  - intros c v i b (Ha & Hw & Hn) Hh.
    destruct (Bio.cache_bwrite _ _ _ _ _ _ _ _ Ha Hh) as (s' & Hb & Ha' & Hw' & Hk).
    eapply wp_eq; [exact Hb|]. split_and!; [done|simpl; by rewrite Hw', Hw|done|exact Hk].
  - intros c v i b (Ha & Hw & Hn) Hh Hcl.
    destruct (Bio.cache_brelse _ _ _ _ _ _ _ _ Ha Hh Hcl) as (s' & Hb & Ha' & Hw' & Hk).
    eapply wp_eq; [exact Hb|]. split_and!; [done|by rewrite Hw'|done|exact Hk].
  - by intros c v (_ & Hw & _).
  - by intros c v (_ & _ & Hn).
  - intros c v i b (Ha & _ & _) [Hc _]. destruct (Bio.ca_inv _ _ _ _ _ _ Ha) as [l Hb].
    rewrite (Bio.ca_size _ _ _ _ _ _ Ha). by eapply Bio.cached_range.
  - split; [done|by intros []|done].
  - intros c v f (Ha & Hw & Hn). split; [|done]. destruct Ha as [[l Hb] H2 H3 H4 H5 H6].
    split; [|done..]. exists l. destruct Hb as [B1 B2 B3 B4 B5 B6]. split; try done.
    intros i Hi. destruct (B5 i Hi). by split.
  - done.
  - intros c v v' ([H1 H2 H3 H4 H5 H6] & Hw & Hn) En Ed El Ew Hf. rewrite En, Ed, El, Ew.
    split_and!; [|done|done]. split; try done; intros b Hb; destruct (Hf b Hb) as [E1 E2]; rewrite ?E1, ?E2; auto.
Qed.

(** ** Properties of the cache *)
Lemma find_rev_split {A} (P : A -> bool) (l : list A) x :
  List.find P (rev l) = Some x ->
  exists l1 l2, l = l1 ++ x :: l2 /\ P x = true /\ Forall (fun y => P y = false) l2.
Proof.
  induction l as [|y l IH] using rev_ind; [done|]. rewrite rev_app_distr. simpl.
  destruct (P y) eqn:E; intros Hf.
  - simplify_eq. exists l, []. by split_and!.
  - destruct (IH Hf) as (l1 & l2 & -> & Hx & Hl). exists l1, (l2 ++ [y]).
    split_and!; [by rewrite <- app_assoc|done|]. apply Forall_app. split; [done|]. by apply Forall_singleton.
Qed.

(** [bread] of a block that is not cached recycles the least recently
    released buffer that is neither in use nor dirty, and returns it locked
    with the contents of the disk block; the list, the disk and what every other
    reader sees stay the same. *)
Theorem bread_lru s l bno j :
  Bio.binv s l -> (forall i, ~ Bio.cached s bno i) -> 0 <= bno < Z.of_nat (length (Bio.disk s)) ->
  (j < Bio.NBUF)%nat -> Bio.recyclable (Bio.buf_at s j) = true ->
  exists i s' l1 l2, Bio.bread 1 bno s = (Ret i, s') /\ l = l1 ++ i :: l2 /\
    Bio.recyclable (Bio.buf_at s i) = true /\
    Forall (fun k => Bio.recyclable (Bio.buf_at s k) = false) l2 /\
    Bio.handle s' i bno /\ Bio.b_data (Bio.buf_at s' i) = Bio.disk_at s bno /\
    Bio.binv s' l /\ Bio.disk s' = Bio.disk s /\ forall b, Bio.bview s' b = Bio.bview s b.
Proof.
  intros Hb Hn Hr Hj Hjr.
  destruct (Bio.bread_uncached s l bno j Hb Hn Hr Hj Hjr) as (i & s' & Hrd & Hp & Hf).
  destruct Hp as (Hd & _ & Hb' & (Hi & Hc & _) & _ & _ & Hv).
  apply find_rev_split in Hf as (l1 & l2 & El & Hx & Hl2).
  apply Bio.core_fields in Hc as (_ & E2 & E3 & E4 & _ & E6).
  exists i, s', l1, l2. split_and!; try done.
  - split; [split; [done|by apply Bio.is_block_true]|by rewrite E4].
  - rewrite E6. simpl. by apply Bio.bview_uncached.
Qed.

Lemma bread_lru_witness :
  exists s i s', Bio.bread 1 2 s = (Ret i, s') /\ Bio.b_data (Bio.buf_at s' i) = [7].
Proof.
  destruct (Bio.binit_inv (replicate 5 [7]) 1) as (s & _ & Hb & Hd & _ & Hn).
  assert (0 < Bio.NBUF)%nat as H0 by (vm_compute; lia).
  assert (size (∅ : gset Z) < Bio.NBUF)%nat as Hs by (rewrite size_empty; exact H0).
  destruct (Bio.recyclable_exists s _ ∅ Hb Hs) as (j & Hj & Hr).
  { intros i b Hc. destruct (Hn b i Hc). }
  destruct (bread_lru s _ 2 j Hb (Hn 2) ltac:(rewrite Hd; done) Hj Hr)
    as (i & s' & l1 & l2 & Hrd & _ & _ & _ & _ & Hdat & _).
  exists s, i, s'. split; [exact Hrd|]. rewrite Hdat. unfold Bio.disk_at. by rewrite Hd.
Defined.

(** a block written through the cache is read back and is on the disk: with
    a buffer available, reading block [b], replacing its contents by [d],
    [bwrite] and [brelse], then reading it again returns [d]; the disk is changed
    at [b] only, and no block is dirtied or left locked but [b]. *)
Theorem write_read_back s v b d :
  cabs s v -> 0 <= b < cv_n v -> b ∉ cv_locked v ->
  (size (cv_dirty v ∪ cv_locked v) < Bio.NBUF)%nat ->
  wp (i ← Bio.bread 1 b; Bio.set_bdata i (fun _ => d) ;; Bio.bwrite i ;; Bio.brelse i ;;
      j ← Bio.bread 1 b; x ← Bio.bdata j; ret x)
    (fun x s' => x = d /\
       cabs s' (CView (cv_n v) (upd_fn (cv_disk v) b d) (upd_fn (cv_view v) b d) (cv_dirty v ∖ {[b]})
                  ({[b]} ∪ cv_locked v) (cv_log v ++ [(b, d)]))) s.
Proof.
  intros Ha Hr Hl Hsz.
  wp_step. eapply wp_mono; [apply (bread_law s v b Ha Hr Hl); by right|]. intros i s1 (Ha1 & Hh1 & _).
  wp_step. eapply wp_mono; [apply (set_bdata_law _ _ _ _ (fun _ => d) Ha1 Hh1)|]. intros [] s2 (Ha2 & Hk2).
  apply Hk2 in Hh1. wp_step. eapply wp_mono; [apply (bwrite_law _ _ _ _ Ha2 Hh1)|]. intros [] s3 (Ha3 & Hk3).
  apply Hk3 in Hh1. wp_step. eapply wp_mono; [apply (brelse_law _ _ _ _ Ha3 Hh1)|].
  { right. simpl. by rewrite !upd_fn_eq. }
  intros [] s4 (Ha4 & _). wp_step. eapply wp_mono; [apply (bread_law _ _ b Ha4)|].
  - done.
  - simpl. set_solver.
  - right. eapply Nat.le_lt_trans; [apply subseteq_size|exact Hsz]. simpl. set_solver.
  - intros j s5 (Ha5 & Hh5 & _). unfold Bio.bdata. wp_steps.
    destruct (bdata_law _ _ _ _ Ha5 Hh5) as [Hx _]. split.
    + change (Bio.b_data (Bio.buf_at s5 j)) with (bdata s5 j). rewrite Hx. simpl. by rewrite upd_fn_eq.
    + eapply cabs_ext; [exact Ha5|done|done| |simpl; by rewrite upd_fn_eq|].
      * simpl. set_solver.
      * intros x _. simpl. by rewrite upd_fn_eq.
Qed.

Lemma write_read_back_witness :
  exists (s s' : Bio.bio), (i ← Bio.bread 1 2; Bio.set_bdata i (fun _ => [9]) ;; Bio.bwrite i ;; Bio.brelse i ;;
      j ← Bio.bread 1 2; x ← Bio.bdata j; ret x) s = (Ret [9], s').
Proof.
  destruct (Bio.binit_abs (replicate 5 [7]) 1) as (s & _ & Hw & Ha).
  assert (5 <= 2147483648) as H5 by done.
  assert (size (∅ ∪ ∅ : gset Z) < Bio.NBUF)%nat as Hs
    by (replace (∅ ∪ ∅ : gset Z) with (∅ : gset Z) by set_solver; rewrite size_empty; vm_compute; lia).
  destruct (wp_returns _ _ _ (write_read_back s (CView 5 (Bio.disk_fn (replicate 5 [7]))
    (Bio.disk_fn (replicate 5 [7])) ∅ ∅ []) 2 [9] (conj Ha (conj Hw H5)) ltac:(done) ltac:(simpl; set_solver) Hs))
    as (x & s' & Hr & -> & _).
  exists s, s'. exact Hr.
Defined.
