(* ===== verification/Log.v ===== *)
(** * The write-ahead log (src/xv6/log.c)

    The log is written against the block-cache interface: its state is the
    in-memory [struct log] and a cache.  The theorems are about crashes: the disk
    that survives one is the disk before with a prefix of the block writes. *)
From S2P Require Import Prelude Block.

Definition MAXOPBLOCKS : Z := 10.

Definition LOGSIZE : Z := MAXOPBLOCKS * 3.

(** [struct log], with [struct logheader lh] as [lh_n] and [lh_block]. *)
Record log : Type := Log {
  lg_lock : bool;
  lg_start : Z;
  lg_size : Z;
  lg_outstanding : Z;
  lg_committing : Z;
  lg_dev : Z;
  lh_n : Z;
  lh_block : list Z;
}.

Definition set_lg_lock (f : bool -> bool) (l : log) : log :=
  Log (f (lg_lock l)) (lg_start l) (lg_size l) (lg_outstanding l) (lg_committing l) (lg_dev l) (lh_n l) (lh_block l).

Definition set_outstanding (f : Z -> Z) (l : log) : log :=
  Log (lg_lock l) (lg_start l) (lg_size l) (f (lg_outstanding l)) (lg_committing l) (lg_dev l) (lh_n l) (lh_block l).

Definition set_committing (v : Z) (l : log) : log :=
  Log (lg_lock l) (lg_start l) (lg_size l) (lg_outstanding l) v (lg_dev l) (lh_n l) (lh_block l).

Definition set_lh_n (v : Z) (l : log) : log :=
  Log (lg_lock l) (lg_start l) (lg_size l) (lg_outstanding l) (lg_committing l) (lg_dev l) v (lh_block l).

Definition set_lh_block (f : list Z -> list Z) (l : log) : log :=
  Log (lg_lock l) (lg_start l) (lg_size l) (lg_outstanding l) (lg_committing l) (lg_dev l) (lh_n l) (f (lh_block l)).

Definition set_region (start size dev : Z) (l : log) : log :=
  Log (lg_lock l) start size (lg_outstanding l) (lg_committing l) dev (lh_n l) (lh_block l).

(** The zero-initialised [struct log]. *)
Definition log0 : log := Log false 0 0 0 0 0 0 (replicate (Z.to_nat LOGSIZE) 0).

(** [struct superblock] *)
Record superblock : Type := Superblock {
  sb_size : Z;
  sb_nblocks : Z;
  sb_ninodes : Z;
  sb_nlog : Z;
  sb_logstart : Z;
  sb_inodestart : Z;
  sb_bmapstart : Z;
}.

(** The superblock in the bytes of block 1. *)
Definition decode_sb (b : block) : superblock :=
  Superblock (get32 b 0) (get32 b 4) (get32 b 8) (get32 b 12) (get32 b 16) (get32 b 20) (get32 b 24).

(** Where the fields of [struct logheader] lie in the header block. *)
Definition lh_off (i : Z) : nat := Z.to_nat (4 + 4 * i).

Section Log.
Context {C : Type} `{HC : BlockCache C}.

Record lst : Type := Lst {
  lg : log;
  lc : C;
}.

Definition lg_lens : lens lst log := Lens lg (fun f s => Lst (f (lg s)) (lc s)).

Definition lc_lens : lens lst C := Lens lc (fun f s => Lst (lg s) (f (lc s))).

Definition lglock : lens lst bool :=
  Lens (fun s => lg_lock (lg s)) (fun f s => Lst (set_lg_lock f (lg s)) (lc s)).

Definition lenv : lens lst env :=
  Lens (fun s => view cenv (lc s)) (fun f s => Lst (lg s) (over cenv f (lc s))).

Definition log_chan : Z := 1001.

(** [bread(uint dev, uint blockno)] *)
Definition c_bread (dev b : Z) : M lst nat := zoom lc_lens (bread (u32 dev) (u32 b)).

Definition c_bwrite (i : nat) : M lst unit := zoom lc_lens (bwrite i).

Definition c_brelse (i : nat) : M lst unit := zoom lc_lens (brelse i).

Definition c_data (i : nat) : M lst block := gets (fun s => bdata (lc s) i).

Definition c_set_data (i : nat) (f : block -> block) : M lst unit := zoom lc_lens (set_bdata i f).

Definition upd_log (f : log -> log) : M lst unit := modify (over lg_lens f).

Definition lg_get {A} (f : log -> A) : M lst A := gets (fun s => f (lg s)).

(** [log.lh.block[i]], an array of LOGSIZE entries *)
Definition get_lh_block (i : Z) : M lst Z :=
  l ← lg_get lh_block;
  match l !! Z.to_nat i with
  | Some b => ret b
  | None => panic "undefined behaviour: log.lh.block index"
  end.

Definition put_lh_block (i v : Z) : M lst unit :=
  l ← lg_get lh_block;
  panic_if (negb (Z.to_nat i <? length l)%nat) "undefined behaviour: log.lh.block index" ;;
  upd_log (set_lh_block (fun l => <[Z.to_nat i := v]> l)).

Definition install_trans : M lst unit :=
  n ← lg_get lh_n;
  for_each (seqZ 0 n) (fun tail =>
    dev ← lg_get lg_dev;
    start ← lg_get lg_start;
    lbuf ← c_bread dev (start + tail + 1);
    b ← get_lh_block tail;
    dbuf ← c_bread dev b;
    d ← c_data lbuf;
    c_set_data dbuf (fun _ => d) ;;
    c_bwrite dbuf ;;
    c_brelse lbuf ;;
    c_brelse dbuf).

Definition read_head : M lst unit :=
  dev ← lg_get lg_dev;
  start ← lg_get lg_start;
  buf ← c_bread dev start;
  lh ← c_data buf;
  upd_log (set_lh_n (s32 (get32 lh 0))) ;;
  n ← lg_get lh_n;
  for_each (seqZ 0 n) (fun i => put_lh_block i (s32 (get32 lh (lh_off i)))) ;;
  c_brelse buf.

Definition write_head : M lst unit :=
  dev ← lg_get lg_dev;
  start ← lg_get lg_start;
  buf ← c_bread dev start;
  n ← lg_get lh_n;
  c_set_data buf (put32 0 n) ;;
  for_each (seqZ 0 n) (fun i =>
    b ← get_lh_block i;
    c_set_data buf (put32 (lh_off i) b)) ;;
  c_bwrite buf ;;
  c_brelse buf.

Definition recover_from_log : M lst unit :=
  read_head ;;
  install_trans ;;
  upd_log (set_lh_n 0) ;;
  write_head.

(** fs.c *)
Definition readsb (dev : Z) : M lst superblock :=
  bp ← c_bread dev 1;
  d ← c_data bp;
  c_brelse bp ;;
  ret (decode_sb d).

Definition initlog (dev : Z) : M lst unit :=
  panic_if (Z.of_nat BSIZE <=? 4 + 4 * LOGSIZE) "initlog: too big logheader" ;;
  upd_log (set_lg_lock (fun _ => false)) ;;
  sb ← readsb dev;
  upd_log (set_region (s32 (sb_logstart sb)) (s32 (sb_nlog sb)) dev) ;;
  recover_from_log.

(** One pass of the [while(1)] of [begin_op]; [Sleep] when it waits. *)
Definition begin_op : M lst unit :=
  acquire_flag lglock ;;
  l ← lg_get id;
  if negb (lg_committing l =? 0) then sleep_flag lglock log_chan
  else if LOGSIZE <? lh_n l + (lg_outstanding l + 1) * MAXOPBLOCKS then sleep_flag lglock log_chan
  else upd_log (set_outstanding (Z.add 1)) ;; release_flag lglock.

Definition write_log : M lst unit :=
  n ← lg_get lh_n;
  for_each (seqZ 0 n) (fun tail =>
    dev ← lg_get lg_dev;
    start ← lg_get lg_start;
    to ← c_bread dev (start + tail + 1);
    b ← get_lh_block tail;
    from ← c_bread dev b;
    d ← c_data from;
    c_set_data to (fun _ => d) ;;
    c_bwrite to ;;
    c_brelse from ;;
    c_brelse to).

Definition commit : M lst unit :=
  n ← lg_get lh_n;
  when (0 <? n)
    (write_log ;;
     write_head ;;
     install_trans ;;
     upd_log (set_lh_n 0) ;;
     write_head).

Definition end_op : M lst unit :=
  acquire_flag lglock ;;
  upd_log (set_outstanding (fun o => o - 1)) ;;
  l ← lg_get id;
  panic_if (negb (lg_committing l =? 0)) "log.committing" ;;
  do_commit ←
    (if lg_outstanding l =? 0 then upd_log (set_committing 1) ;; ret true
     else wakeup_ev lenv log_chan ;; ret false);
  release_flag lglock ;;
  when do_commit
    (commit ;;
     acquire_flag lglock ;;
     upd_log (set_committing 0) ;;
     wakeup_ev lenv log_chan ;;
     release_flag lglock).

Definition log_write (b : nat) : M lst unit :=
  l ← lg_get id;
  panic_if ((LOGSIZE <=? lh_n l) || (lg_size l - 1 <=? lh_n l)) "too big a transaction" ;;
  panic_if (lg_outstanding l <? 1) "log_write outside of trans" ;;
  acquire_flag lglock ;;
  bno ← gets (fun s => blockno (lc s) b);
  found ← for_until (seqZ 0 (lh_n l)) (fun i =>
    x ← get_lh_block i;
    ret (if u32 x =? bno then Some i else None));
  let i := default (lh_n l) found in
  put_lh_block i (s32 bno) ;;
  when (i =? lh_n l) (upd_log (set_lh_n (lh_n l + 1))) ;;
  zoom lc_lens (set_dirty b) ;;
  release_flag lglock.

End Log.

Arguments lst C : clear implicits.
Arguments Lst {C} lg lc.
Arguments lg {C} l.
Arguments lc {C} l.

(** ** The log over a cache that satisfies the interface *)
Section LogProofs.
Context {C : Type} {HC : BlockCache C} {HCL : BlockCacheLaws C}.
Implicit Types (s : lst C) (v : cview).

Lemma wp_lc {A} (m : M C A) (Q : A -> lst C -> Prop) s :
  wp m (fun a c' => Q a (Lst (lg s) c')) (lc s) -> wp (zoom lc_lens m) Q s.
Proof. unfold wp, zoom. simpl. by destruct (m (lc s)) as [[] ?]. Qed.

Lemma wp_bread s v b (Q : nat -> lst C -> Prop) :
  cabs (lc s) v -> 0 <= b < cv_n v -> b ∉ cv_locked v ->
  b ∈ cv_dirty v \/ (size (cv_dirty v ∪ cv_locked v) < cap)%nat ->
  (forall i c', cabs c' (v_lock b v) -> handle c' i b -> keeps (lc s) c' -> Q i (Lst (lg s) c')) ->
  wp (c_bread 1 b) Q s.
Proof.
  intros Ha Hr Hl Hav HQ. pose proof (cabs_size _ _ Ha). apply wp_lc.
  rewrite (u32_small 1), (u32_small b) by lia. eapply wp_mono; [by eapply bread_law|].
  intros i c' (H1 & H2 & H3). by apply HQ.
Qed.

Lemma wp_data s v i b (Q : block -> lst C -> Prop) :
  cabs (lc s) v -> handle (lc s) i b -> Q (cv_view v b) s -> wp (c_data i) Q s.
Proof. intros Ha Hh HQ. apply wp_gets. by destruct (bdata_law _ _ _ _ Ha Hh) as [-> _]. Qed.

Lemma wp_set_data s v i b f (Q : unit -> lst C -> Prop) :
  cabs (lc s) v -> handle (lc s) i b ->
  (forall c', cabs c' (v_set b (f (cv_view v b)) v) -> keeps (lc s) c' -> Q tt (Lst (lg s) c')) ->
  wp (c_set_data i f) Q s.
Proof.
  intros Ha Hh HQ. apply wp_lc. eapply wp_mono; [by eapply set_bdata_law|].
  intros [] c' (H1 & H2). by apply HQ.
Qed.

Lemma wp_bwrite s v i b (Q : unit -> lst C -> Prop) :
  cabs (lc s) v -> handle (lc s) i b ->
  (forall c', cabs c' (v_write b v) -> keeps (lc s) c' -> Q tt (Lst (lg s) c')) ->
  wp (c_bwrite i) Q s.
Proof.
  intros Ha Hh HQ. apply wp_lc. eapply wp_mono; [by eapply bwrite_law|].
  intros [] c' (H1 & H2). by apply HQ.
Qed.

Lemma wp_brelse s v i b (Q : unit -> lst C -> Prop) :
  cabs (lc s) v -> handle (lc s) i b -> b ∈ cv_dirty v \/ cv_view v b = cv_disk v b ->
  (forall c', cabs c' (v_unlock b v) ->
     (forall j x, x <> b -> handle (lc s) j x -> handle c' j x) -> Q tt (Lst (lg s) c')) ->
  wp (c_brelse i) Q s.
Proof.
  intros Ha Hh Hcl HQ. apply wp_lc. eapply wp_mono; [by eapply brelse_law|].
  intros [] c' (H1 & H2). by apply HQ.
Qed.

Lemma wp_get_lh_block s i b (Q : Z -> lst C -> Prop) :
  lh_block (lg s) !! Z.to_nat i = Some b -> Q b s -> wp (get_lh_block i) Q s.
Proof. intros Hb HQ. unfold get_lh_block, lg_get. wp_steps. by rewrite Hb. Qed.

Lemma wp_put_lh_block s i b (Q : unit -> lst C -> Prop) :
  (Z.to_nat i < length (lh_block (lg s)))%nat ->
  Q tt (Lst (set_lh_block (fun l => <[Z.to_nat i := b]> l) (lg s)) (lc s)) -> wp (put_lh_block i b) Q s.
Proof.
  intros Hi HQ. unfold put_lh_block, lg_get, upd_log. wp_steps; [|done].
  by apply negb_false_iff, Nat.ltb_lt.
Qed.

(** No buffer is held, and what is not dirty is on disk. *)
Definition settled (v : cview) : Prop :=
  cv_locked v = ∅ /\
  forall b, 0 <= b < cv_n v -> b ∉ cv_dirty v -> cv_view v b = cv_disk v b.

(** Block [b] gets contents [d], in the cache and on disk. *)
Definition v_put (b : Z) (d : block) (v : cview) : cview :=
  CView (cv_n v) (upd_fn (cv_disk v) b d) (upd_fn (cv_view v) b d) (cv_dirty v ∖ {[b]})
        (cv_locked v) (cv_log v ++ [(b, d)]).

Lemma settled_put b d v : settled v -> settled (v_put b d v).
Proof.
  intros [H1 H2]. split; [done|]. simpl. intros x Hx Hd. unfold upd_fn. case_decide; [done|].
  apply H2; [done|]. set_solver.
Qed.

Lemma put_view_copy dst src d v :
  cv_locked v = ∅ ->
  v_unlock dst (v_unlock src (v_write dst (v_set dst d (v_lock dst (v_lock src v))))) = v_put dst d v /\
  v_unlock dst (v_unlock src (v_write dst (v_set dst d (v_lock src (v_lock dst v))))) = v_put dst d v.
Proof.
  intros Hl. unfold v_unlock, v_write, v_set, v_lock, v_put. simpl. rewrite !upd_fn_eq, Hl.
  split; f_equal; set_solver.
Qed.

Lemma put_view b d v :
  cv_locked v = ∅ -> v_unlock b (v_write b (v_set b d (v_lock b v))) = v_put b d v.
Proof.
  intros Hl. unfold v_unlock, v_write, v_set, v_lock, v_put. simpl. rewrite !upd_fn_eq, Hl.
  f_equal; set_solver.
Qed.

(** Copying a block through the cache, as [install_trans] and as [write_log] do. *)
Lemma wp_install s v tail src dst (Q : unit -> lst C -> Prop) :
  lh_block (lg s) !! Z.to_nat tail = Some dst ->
  cabs (lc s) v -> settled v -> 0 <= src < cv_n v -> 0 <= dst < cv_n v -> src <> dst ->
  (S (size (cv_dirty v)) < cap)%nat \/ (size (cv_dirty v) < cap)%nat /\ dst ∈ cv_dirty v ->
  (forall c', cabs c' (v_put dst (cv_view v src) v) -> Q tt (Lst (lg s) c')) ->
  wp (lbuf ← c_bread 1 src; b ← get_lh_block tail; dbuf ← c_bread 1 b; d ← c_data lbuf;
      c_set_data dbuf (fun _ => d) ;; c_bwrite dbuf ;; c_brelse lbuf ;; c_brelse dbuf) Q s.
Proof.
  intros Hlk Ha [Hl Hcl] Hs Hd Hne Hav HQ.
  wp_step. eapply wp_bread; [done|done|set_solver| |]. { right. rewrite Hl, union_empty_r_L. lia. }
  intros i1 c1 Ha1 Hh1 _. wp_step. eapply wp_get_lh_block; [exact Hlk|]. wp_step. eapply wp_bread; [exact Ha1|done|set_solver| |].
  { simpl. rewrite Hl, union_empty_r_L. destruct Hav as [Hav|[_ Hav]]; [right|by left].
    pose proof (size_union_alt (cv_dirty v) {[src]}) as E. rewrite E.
    pose proof (subseteq_size ({[src]} ∖ cv_dirty v) {[src]} ltac:(set_solver)) as Hsz.
    rewrite size_singleton in Hsz. lia. }
  intros i2 c2 Ha2 Hh2 Hk2. apply Hk2 in Hh1. wp_step.
  eapply wp_data; [exact Ha2|exact Hh1|]. wp_step.
  eapply wp_set_data; [exact Ha2|exact Hh2|]. intros c3 Ha3 Hk3. apply Hk3 in Hh1, Hh2. wp_step.
  eapply wp_bwrite; [exact Ha3|exact Hh2|]. intros c4 Ha4 Hk4. apply Hk4 in Hh1, Hh2. wp_step.
  eapply wp_brelse; [exact Ha4|exact Hh1| |].
  { simpl. rewrite !upd_fn_ne by done. destruct (decide (src ∈ cv_dirty v)); [left; set_solver|right].
    by apply Hcl. }
  intros c5 Ha5 Hk5. apply Hk5 in Hh2; [|done].
  eapply wp_brelse; [exact Ha5|exact Hh2| |]. { right. simpl. by rewrite !upd_fn_eq. }
  intros c6 Ha6 _. rewrite (proj1 (put_view_copy _ _ _ _ Hl)) in Ha6. by apply HQ.
Qed.

Lemma wp_logcopy s v tail src dst (Q : unit -> lst C -> Prop) :
  lh_block (lg s) !! Z.to_nat tail = Some src ->
  cabs (lc s) v -> settled v -> 0 <= src < cv_n v -> 0 <= dst < cv_n v -> src <> dst ->
  (size (cv_dirty v) < cap)%nat -> src ∈ cv_dirty v ->
  (forall c', cabs c' (v_put dst (cv_view v src) v) -> Q tt (Lst (lg s) c')) ->
  wp (to ← c_bread 1 dst; b ← get_lh_block tail; from ← c_bread 1 b; d ← c_data from;
      c_set_data to (fun _ => d) ;; c_bwrite to ;; c_brelse from ;; c_brelse to) Q s.
Proof.
  intros Hlk Ha [Hl Hcl] Hs Hd Hne Hsz Hav HQ.
  wp_step. eapply wp_bread; [done|done|set_solver| |]. { right. by rewrite Hl, union_empty_r_L. }
  intros i1 c1 Ha1 Hh1 _. wp_step. eapply wp_get_lh_block; [exact Hlk|]. wp_step. eapply wp_bread; [exact Ha1|done|set_solver|by left|].
  intros i2 c2 Ha2 Hh2 Hk2. apply Hk2 in Hh1. wp_step.
  eapply wp_data; [exact Ha2|exact Hh2|]. wp_step.
  eapply wp_set_data; [exact Ha2|exact Hh1|]. intros c3 Ha3 Hk3. apply Hk3 in Hh1, Hh2. wp_step.
  eapply wp_bwrite; [exact Ha3|exact Hh1|]. intros c4 Ha4 Hk4. apply Hk4 in Hh1, Hh2. wp_step.
  eapply wp_brelse; [exact Ha4|exact Hh2| |]. { left. simpl. set_solver. }
  intros c5 Ha5 Hk5. apply Hk5 in Hh1; [|done].
  eapply wp_brelse; [exact Ha5|exact Hh1| |]. { right. simpl. by rewrite !upd_fn_eq. }
  intros c6 Ha6 _. rewrite (proj2 (put_view_copy _ _ _ _ Hl)) in Ha6. by apply HQ.
Qed.

(** ** Sequences of block writes *)
Definition v_puts (ws : list (Z * block)) (v : cview) : cview :=
  foldl (fun v w => v_put w.1 w.2 v) v ws.

Definition apply_writes (D : Z -> block) (ws : list (Z * block)) : Z -> block :=
  foldl (fun D w => upd_fn D w.1 w.2) D ws.

Lemma v_puts_snoc ws w v : v_puts (ws ++ [w]) v = v_put w.1 w.2 (v_puts ws v).
Proof. unfold v_puts. by rewrite foldl_snoc. Qed.

Lemma v_puts_app ws1 ws2 v : v_puts (ws1 ++ ws2) v = v_puts ws2 (v_puts ws1 v).
Proof. unfold v_puts. by rewrite foldl_app. Qed.

Lemma apply_writes_app D ws1 ws2 : apply_writes D (ws1 ++ ws2) = apply_writes (apply_writes D ws1) ws2.
Proof. unfold apply_writes. by rewrite foldl_app. Qed.

Lemma v_puts_fields ws v :
  cv_n (v_puts ws v) = cv_n v /\
  cv_disk (v_puts ws v) = apply_writes (cv_disk v) ws /\
  cv_view (v_puts ws v) = apply_writes (cv_view v) ws /\
  cv_dirty (v_puts ws v) = cv_dirty v ∖ list_to_set ws.*1 /\
  cv_locked (v_puts ws v) = cv_locked v /\
  cv_log (v_puts ws v) = cv_log v ++ ws.
Proof.
  induction ws as [|w ws IH] using rev_ind.
  - simpl. rewrite app_nil_r. split_and!; try done. set_solver.
  - rewrite v_puts_snoc, !apply_writes_app. destruct IH as (H1 & H2 & H3 & H4 & H5 & H6), w as [b d].
    simpl. rewrite H1, H2, H3, H4, H5, H6, app_assoc. split_and!; try done.
    rewrite fmap_app, list_to_set_app_L. simpl. set_solver.
Qed.

Lemma settled_puts ws v : settled v -> settled (v_puts ws v).
Proof.
  intros H. induction ws as [|w ws IH] using rev_ind; [done|]. rewrite v_puts_snoc.
  by apply settled_put.
Qed.

Lemma apply_writes_out D ws b : b ∉ ws.*1 -> apply_writes D ws b = D b.
Proof.
  induction ws as [|w ws IH] using rev_ind; [done|]. rewrite fmap_app, apply_writes_app. simpl.
  intros Hb. rewrite upd_fn_ne by set_solver. apply IH. set_solver.
Qed.

Lemma apply_writes_in D ws b d : NoDup ws.*1 -> (b, d) ∈ ws -> apply_writes D ws b = d.
Proof.
  induction ws as [|w ws IH] using rev_ind; [set_solver|]. rewrite fmap_app, apply_writes_app.
  intros (Hn1 & Hn2 & _)%NoDup_app [Hin|Hin]%elem_of_app; simpl.
  - rewrite upd_fn_ne; [by apply IH|]. intros <-. eapply Hn2; [|by apply list_elem_of_singleton].
    by apply (list_elem_of_fmap_2 fst) in Hin.
  - apply list_elem_of_singleton in Hin as <-. apply upd_fn_eq.
Qed.

(** ** The header block *)
Definition hdr_n (d : block) : Z := s32 (get32 d 0).

Definition hdr_blocks (d : block) : list Z :=
  (fun i => s32 (get32 d (lh_off i))) <$> seqZ 0 (hdr_n d).

Definition enc_entry (d : block) (x : nat * Z) : block := put32 (lh_off (Z.of_nat x.1)) x.2 d.

Definition encode_hdr (L : list Z) (old : block) : block :=
  foldl enc_entry (put32 0 (Z.of_nat (length L)) old) (imap pair L).

Lemma length_enc_entries xs d : length (foldl enc_entry d xs) = length d.
Proof.
  revert d. induction xs as [|x xs IH]; intros d; simpl; [done|]. rewrite IH. apply length_put_bytes.
Qed.

Lemma enc_entries_out xs d i : (forall j b, (j, b) ∈ xs -> (i + 4 <= lh_off (Z.of_nat j) \/ lh_off (Z.of_nat j) + 4 <= i)%nat) ->
  get32 (foldl enc_entry d xs) i = get32 d i.
Proof.
  revert d. induction xs as [|[j b] xs IH]; intros d Hx; simpl; [done|].
  rewrite IH by (intros j' b' Hin; apply (Hx j' b'); by right). apply get32_put_out. simpl.
  apply (Hx j b). by left.
Qed.

Lemma enc_entries_in L d t b :
  L !! t = Some b -> (124 <= length d)%nat -> (length L <= 30)%nat ->
  get32 (foldl enc_entry d (imap pair L)) (lh_off (Z.of_nat t)) = u32 b.
Proof.
  intros Ht Hd Hlen. apply lookup_lt_Some in Ht as Hlt.
  rewrite <- (take_drop_middle L t b Ht), imap_app, foldl_app. simpl.
  rewrite length_take_le, Nat.add_0_r by lia.
  rewrite enc_entries_out.
  - unfold enc_entry. simpl. apply get32_put32. rewrite length_enc_entries. unfold lh_off. lia.
  - intros j x Hj. apply elem_of_lookup_imap in Hj as (k & y & [= -> ->] & Hk).
    left. unfold lh_off. lia.
Qed.

Lemma decode_encode L old :
  (124 <= length old)%nat -> (length L <= 30)%nat -> Forall (fun b => 0 <= b < 2147483648) L ->
  hdr_n (encode_hdr L old) = Z.of_nat (length L) /\ hdr_blocks (encode_hdr L old) = L.
Proof.
  intros Ho Hlen HB. unfold encode_hdr. set (d := put32 0 _ old).
  assert (length d = length old) as Hd by apply length_put_bytes.
  assert (hdr_n (foldl enc_entry d (imap pair L)) = Z.of_nat (length L)) as Hn.
  { unfold hdr_n. rewrite enc_entries_out.
    - unfold d. rewrite get32_put32 by lia. rewrite u32_small, s32_small by lia. done.
    - intros j b _. left. unfold lh_off. lia. }
  split; [done|]. unfold hdr_blocks. rewrite Hn. apply list_eq. intros t.
  rewrite list_lookup_fmap. destruct (L !! t) as [b|] eqn:Et.
  - pose proof (lookup_lt_Some _ _ _ Et). rewrite lookup_seqZ_lt, Z.add_0_l by lia. cbn [fmap option_fmap option_map].
    rewrite (enc_entries_in L d t b) by (done || lia).
    pose proof (Forall_lookup_1 _ _ _ _ HB Et) as Hb. simpl in Hb.
    by rewrite u32_small, s32_small by lia.
  - apply lookup_ge_None_1 in Et. by rewrite lookup_seqZ_ge by lia.
Qed.

(** ** Geometry of the log and the transaction in it *)
Record geom (l : log) (n : Z) : Prop := {
  g_dev : lg_dev l = 1;
  g_start : 0 <= lg_start l;
  g_size : 1 <= lg_size l;
  g_fits : lg_start l + lg_size l <= n;
  g_n : n <= 2147483648;
  g_len : length (lh_block l) = 30%nat;
}.

(** A block outside of the log region. *)
Definition home (l : log) (n b : Z) : Prop :=
  0 <= b < n /\ (b < lg_start l \/ lg_start l + lg_size l <= b).

Definition txn_ok (l : log) (n : Z) (L : list Z) : Prop :=
  Z.of_nat (length L) < lg_size l /\ (length L <= 30)%nat /\ NoDup L /\ Forall (home l n) L.

(** The in-memory header holds the transaction [L]. *)
Definition in_header (l : log) (L : list Z) : Prop :=
  lh_n l = Z.of_nat (length L) /\ take (length L) (lh_block l) = L.

Lemma in_header_lookup l L t b : in_header l L -> L !! t = Some b -> lh_block l !! t = Some b.
Proof.
  intros [_ Ht] Hb. pose proof (lookup_lt_Some _ _ _ Hb). rewrite <- Ht in Hb.
  by rewrite lookup_take_lt in Hb.
Qed.

Definition log_writes (start : Z) (ds : list block) : list (Z * block) :=
  imap (fun t d => (start + Z.of_nat t + 1, d)) ds.

Lemma seqZ_snoc_inv k n i l : i :: l = seqZ k n -> i = k /\ 0 < n /\ l = seqZ (k + 1) (n - 1).
Proof.
  intros E. destruct (decide (0 < n)).
  - rewrite seqZ_cons in E by lia. replace (Z.pred n) with (n - 1) in E by lia.
    replace (Z.succ k) with (k + 1) in E by lia. by simplify_eq.
  - by rewrite seqZ_nil in E by lia.
Qed.

(** A loop [for(tail = 0; tail < n; tail++)] whose passes perform the writes
    [ws] one by one. *)
Lemma wp_write_loop s v (ws : list (Z * block)) (body : Z -> M (lst C) unit) Q :
  cabs (lc s) v ->
  (forall k w s', ws !! k = Some w -> lg s' = lg s -> cabs (lc s') (v_puts (take k ws) v) ->
     wp (body (Z.of_nat k))
       (fun _ s'' => lg s'' = lg s /\ cabs (lc s'') (v_put w.1 w.2 (v_puts (take k ws) v))) s') ->
  (forall s', lg s' = lg s -> cabs (lc s') (v_puts ws v) -> Q tt s') ->
  wp (for_each (seqZ 0 (Z.of_nat (length ws))) body) Q s.
Proof.
  intros Ha Hb HQ.
  apply (wp_for_each _ _ (fun rest s' => exists k, rest = seqZ (Z.of_nat k) (Z.of_nat (length ws) - Z.of_nat k) /\
    (k <= length ws)%nat /\ lg s' = lg s /\ cabs (lc s') (v_puts (take k ws) v))).
  - exists 0%nat. split_and!; [by rewrite Z.sub_0_r|lia|done|done].
  - intros i l' s' (k & E & Hk & Hlg & Hs'). apply seqZ_snoc_inv in E as (-> & Hlt & ->).
    destruct (lookup_lt_is_Some_2 ws k) as [w Hw]; [lia|].
    eapply wp_mono; [by apply Hb|]. intros [] s'' [Hlg' Hs'']. exists (S k).
    split_and!; [f_equal; lia|lia|done|]. by rewrite (take_S_r _ _ _ Hw), v_puts_snoc.
  - intros s' (k & E & Hk & Hlg & Hs').
    assert (k = length ws) as ->.
    { destruct (decide (k = length ws)); [done|]. rewrite seqZ_cons in E by lia. done. }
    rewrite firstn_all in Hs'. by apply HQ.
Qed.

Lemma log_writes_lookup start ds k d :
  ds !! k = Some d -> log_writes start ds !! k = Some (start + Z.of_nat k + 1, d).
Proof. intros Hd. unfold log_writes. by rewrite list_lookup_imap, Hd. Qed.

Lemma log_writes_range start ds b :
  b ∈ (log_writes start ds).*1 -> start < b < start + 1 + Z.of_nat (length ds).
Proof.
  intros ([x d] & -> & (k & y & [= -> ->] & Hk)%elem_of_lookup_imap)%list_elem_of_fmap.
  pose proof (lookup_lt_Some _ _ _ Hk). simpl. lia.
Qed.

Lemma log_writes_nodup start ds : NoDup (log_writes start ds).*1.
Proof.
  apply NoDup_alt. intros i j x Hi Hj. rewrite list_lookup_fmap in Hi, Hj.
  unfold log_writes in Hi, Hj. rewrite list_lookup_imap in Hi, Hj.
  destruct (ds !! i), (ds !! j); simplify_eq/=. lia.
Qed.

Lemma take_fst {A B} k (ws : list (A * B)) x : x ∈ (take k ws).*1 -> x ∈ ws.*1.
Proof. rewrite fmap_take. intros (i & Hi & _)%elem_of_take. by eapply list_elem_of_lookup_2. Qed.

Lemma dirty_size_puts ws v : (size (cv_dirty (v_puts ws v)) <= size (cv_dirty v))%nat.
Proof.
  destruct (v_puts_fields ws v) as (_ & _ & _ & -> & _). apply subseteq_size. set_solver.
Qed.

Lemma wp_write_log s v L Q :
  geom (lg s) (cv_n v) -> txn_ok (lg s) (cv_n v) L -> in_header (lg s) L ->
  cabs (lc s) v -> settled v -> Forall (fun b => b ∈ cv_dirty v) L -> (size (cv_dirty v) < cap)%nat ->
  (forall s', lg s' = lg s ->
     cabs (lc s') (v_puts (log_writes (lg_start (lg s)) (cv_view v <$> L)) v) -> Q tt s') ->
  wp write_log Q s.
Proof.
  intros Hg (Hls & _ & Hnd & Hh) Hhd Ha Hse Hdi Hsz HQ. unfold write_log, lg_get. wp_steps.
  set (ws := log_writes _ _) in *.
  assert (length ws = length L) as Hlen by (unfold ws, log_writes; by rewrite length_imap, length_fmap).
  rewrite (proj1 Hhd), <- Hlen. apply (wp_write_loop s v ws); [done| |exact HQ].
  intros k w s' Hw Hlg Ha'.
  destruct (lookup_lt_is_Some_2 L k) as [b Hb]; [rewrite <- Hlen; by eapply lookup_lt_Some|].
  assert (w = (lg_start (lg s) + Z.of_nat k + 1, cv_view v b)) as ->.
  { unfold ws in Hw. erewrite log_writes_lookup in Hw; [by simplify_eq|]. by rewrite list_lookup_fmap, Hb. }
  pose proof (lookup_lt_Some _ _ _ Hb) as Hkl.
  pose proof (Forall_lookup_1 _ _ _ _ Hh Hb) as [Hbr Hbh]. pose proof (Forall_lookup_1 _ _ _ _ Hdi Hb) as Hbd.
  simpl in Hbd. destruct (v_puts_fields (take k ws) v) as (E1 & E2 & E3 & E4 & E5 & E6).
  assert (b ∉ (take k ws).*1) as Hbn.
  { intros Hin%take_fst%log_writes_range. rewrite length_fmap in Hin. lia. }
  destruct Hg as [G1 G2 G3 G4 G5 G6].
  do 4 wp_step. rewrite Hlg, G1.
  eapply (wp_logcopy s' (v_puts (take k ws) v) _ b);
    [rewrite Hlg, Nat2Z.id; by eapply in_header_lookup|done|by apply settled_puts|by rewrite E1|rewrite E1; lia|lia| | |].
  - eapply Nat.le_lt_trans; [apply dirty_size_puts|done].
  - rewrite E4. apply elem_of_difference. split; [done|]. by rewrite elem_of_list_to_set.
  - intros c' Hc'. simpl. split; [done|]. by rewrite E3, apply_writes_out in Hc'.
Qed.

(** What the log blocks hold for a transaction of [n] blocks. *)
Definition log_content (start : Z) (V : Z -> block) (n : nat) : list block :=
  (fun t => V (start + Z.of_nat t + 1)) <$> seq 0 n.

Lemma length_log_content start V n : length (log_content start V n) = n.
Proof. unfold log_content. by rewrite length_fmap, length_seq. Qed.

Lemma log_content_lookup start V n k :
  (k < n)%nat -> log_content start V n !! k = Some (V (start + Z.of_nat k + 1)).
Proof. intros Hk. unfold log_content. by rewrite list_lookup_fmap, lookup_seq_lt by done. Qed.

Lemma zip_lookup {A B} (l : list A) (k : list B) i a b :
  l !! i = Some a -> k !! i = Some b -> zip l k !! i = Some (a, b).
Proof. intros Ha Hb. by rewrite lookup_zip_with, Ha, Hb. Qed.

Lemma wp_install_trans s v L Q :
  geom (lg s) (cv_n v) -> txn_ok (lg s) (cv_n v) L -> in_header (lg s) L ->
  cabs (lc s) v -> settled v ->
  (S (size (cv_dirty v)) < cap)%nat \/
    (size (cv_dirty v) < cap)%nat /\ Forall (fun b => b ∈ cv_dirty v) L ->
  (forall s', lg s' = lg s ->
     cabs (lc s') (v_puts (zip L (log_content (lg_start (lg s)) (cv_view v) (length L))) v) -> Q tt s') ->
  wp install_trans Q s.
Proof.
  intros Hg (Hls & _ & Hnd & Hh) Hhd Ha Hse Hav HQ. unfold install_trans, lg_get. wp_steps.
  set (ds := log_content _ _ _) in *. set (ws := zip L ds) in *.
  assert (length ds = length L) as Hlds by apply length_log_content.
  assert (length ws = length L) as Hlen by (unfold ws; rewrite length_zip_with; lia).
  assert (ws.*1 = L) as Hfst by (unfold ws; apply fst_zip; lia).
  rewrite (proj1 Hhd), <- Hlen. apply (wp_write_loop s v ws); [done| |exact HQ].
  intros k w s' Hw Hlg Ha'. pose proof (lookup_lt_Some _ _ _ Hw) as Hkw. rewrite Hlen in Hkw.
  destruct (lookup_lt_is_Some_2 L k) as [b Hb]; [done|].
  set (src := lg_start (lg s) + Z.of_nat k + 1) in *.
  assert (w = (b, cv_view v src)) as ->.
  { unfold ws in Hw. rewrite (zip_lookup L ds k b (cv_view v src)) in Hw; [by simplify_eq|done|].
    by apply log_content_lookup. }
  pose proof (Forall_lookup_1 _ _ _ _ Hh Hb) as [Hbr Hbh].
  destruct (v_puts_fields (take k ws) v) as (E1 & E2 & E3 & E4 & E5 & E6).
  assert (src ∉ (take k ws).*1) as Hsn.
  { intros Hin%take_fst. rewrite Hfst in Hin. apply (Forall_elem _ _ _ Hh) in Hin as [_ ?]. lia. }
  assert (b ∉ (take k ws).*1) as Hbn.
  { rewrite fmap_take, Hfst. intros (j & Hj)%list_elem_of_lookup.
    pose proof (lookup_lt_Some _ _ _ Hj) as Hjk. rewrite length_take in Hjk.
    rewrite lookup_take_lt in Hj by lia. pose proof (NoDup_lookup _ _ _ _ Hnd Hj Hb). lia. }
  destruct Hg as [G1 G2 G3 G4 G5 G6].
  do 4 wp_step. rewrite Hlg, G1.
  eapply (wp_install s' (v_puts (take k ws) v) _ src b);
    [rewrite Hlg, Nat2Z.id; by eapply in_header_lookup|done|by apply settled_puts|rewrite E1; lia|by rewrite E1|lia| |].
  - pose proof (dirty_size_puts (take k ws) v). destruct Hav as [?|[? Hd]]; [left; lia|right].
    split; [lia|]. rewrite E4. apply elem_of_difference. split; [by apply (Forall_lookup_1 _ _ _ _ Hd Hb)|].
    by rewrite elem_of_list_to_set.
  - intros c' Hc'. simpl. split; [done|]. by rewrite E3, apply_writes_out in Hc'.
Qed.

Lemma v_set_set c b d d' v : cabs c (v_set b d' (v_set b d v)) -> cabs c (v_set b d' v).
Proof.
  intros Hc. eapply cabs_ext; [exact Hc|done..|]. intros x _. simpl. split; [done|].
  unfold upd_fn. by case_decide.
Qed.

Lemma encode_take L d k b : L !! k = Some b ->
  foldl enc_entry d (imap pair (take (S k) L)) =
  put32 (lh_off (Z.of_nat k)) b (foldl enc_entry d (imap pair (take k L))).
Proof.
  intros Hb. pose proof (lookup_lt_Some _ _ _ Hb).
  rewrite (take_S_r _ _ _ Hb), imap_app, foldl_app. simpl.
  by rewrite length_take_le, Nat.add_0_r by lia.
Qed.

Lemma wp_write_head s v L (Q : unit -> lst C -> Prop) :
  geom (lg s) (cv_n v) -> in_header (lg s) L ->
  cabs (lc s) v -> cv_locked v = ∅ -> (size (cv_dirty v) < cap)%nat ->
  (forall s', lg s' = lg s ->
     cabs (lc s') (v_put (lg_start (lg s)) (encode_hdr L (cv_view v (lg_start (lg s)))) v) -> Q tt s') ->
  wp write_head Q s.
Proof.
  intros [G1 G2 G3 G4 G5 G6] Hhd Ha Hl Hsz HQ. unfold write_head, lg_get. do 4 wp_step. rewrite G1.
  set (st := lg_start (lg s)) in *. set (h := cv_view v st) in *.
  wp_step. eapply wp_bread; [done|lia|set_solver|by right; rewrite Hl, union_empty_r_L|].
  intros i c1 Ha1 Hh1 _. do 2 wp_step. cbn [lg]. rewrite (proj1 Hhd). wp_step.
  eapply wp_set_data; [exact Ha1|exact Hh1|]. intros c2 Ha2 Hk2. apply Hk2 in Hh1.
  set (d0 := put32 0 _ (cv_view _ st)) in *. wp_step.
  apply (wp_for_each _ _ (fun rest s' => exists k,
    rest = seqZ (Z.of_nat k) (Z.of_nat (length L) - Z.of_nat k) /\ (k <= length L)%nat /\
    lg s' = lg s /\ handle (lc s') i st /\
    cabs (lc s') (v_set st (foldl enc_entry d0 (imap pair (take k L))) (v_lock st v)))).
  - exists 0%nat. split_and!; [by rewrite Z.sub_0_r|lia|done|done|exact Ha2].
  - intros j l' s' (k & E & Hk & Hlg & Hh & Hs'). apply seqZ_snoc_inv in E as (-> & Hlt & ->).
    destruct (lookup_lt_is_Some_2 L k) as [b Hb]; [lia|].
    wp_step. eapply wp_get_lh_block; [rewrite Hlg, Nat2Z.id; by eapply in_header_lookup|].
    eapply wp_set_data; [exact Hs'|exact Hh|]. intros c' Hc' Hk'. exists (S k).
    split_and!; [f_equal; lia|lia|done|by apply Hk'|].
    rewrite (encode_take _ _ _ _ Hb). apply v_set_set in Hc'. simpl in Hc'. by rewrite upd_fn_eq in Hc'.
  - intros s' (k & E & Hk & Hlg & Hh & Hs').
    assert (k = length L) as ->.
    { destruct (decide (k = length L)); [done|]. rewrite seqZ_cons in E by lia. done. }
    rewrite firstn_all in Hs'. wp_step. eapply wp_bwrite; [exact Hs'|exact Hh|].
    intros c3 Ha3 Hk3. apply Hk3 in Hh.
    eapply wp_brelse; [exact Ha3|exact Hh|right; simpl; by rewrite !upd_fn_eq|].
    intros c4 Ha4 _. rewrite (put_view _ _ _ Hl) in Ha4. apply HQ; [done|exact Ha4].
Qed.

(** The in-memory log after [read_head]. *)
Definition head_read (l l' : log) (d : block) : Prop :=
  exists lb, l' = set_lh_n (hdr_n d) (set_lh_block (fun _ => lb) l) /\
    length lb = length (lh_block l) /\ take (length (hdr_blocks d)) lb = hdr_blocks d.

Lemma length_hdr_blocks d : length (hdr_blocks d) = Z.to_nat (hdr_n d).
Proof. unfold hdr_blocks. by rewrite length_fmap, length_seqZ. Qed.

Lemma hdr_blocks_lookup d k : Z.of_nat k < hdr_n d ->
  hdr_blocks d !! k = Some (s32 (get32 d (lh_off (Z.of_nat k)))).
Proof.
  intros Hk. unfold hdr_blocks. rewrite list_lookup_fmap, lookup_seqZ_lt by lia.
  by rewrite Z.add_0_l.
Qed.

Lemma wp_read_head s v (Q : unit -> lst C -> Prop) :
  geom (lg s) (cv_n v) -> 0 <= hdr_n (cv_view v (lg_start (lg s))) <= 30 ->
  cabs (lc s) v -> settled v -> (size (cv_dirty v) < cap)%nat ->
  (forall s', head_read (lg s) (lg s') (cv_view v (lg_start (lg s))) -> cabs (lc s') v -> Q tt s') ->
  wp read_head Q s.
Proof.
  intros [G1 G2 G3 G4 G5 G6] Hn Ha [Hl Hcl] Hsz HQ. unfold read_head. unfold lg_get at 1 2. do 4 wp_step.
  rewrite G1. set (st := lg_start (lg s)) in *. set (d := cv_view v st) in *.
  wp_step. eapply wp_bread; [done|lia|set_solver|by right; rewrite Hl, union_empty_r_L|].
  intros i c1 Ha1 Hh1 _. wp_step. eapply wp_data; [exact Ha1|exact Hh1|].
  change (cv_view (v_lock st v) st) with d. fold (hdr_n d). unfold upd_log at 1, lg_get at 1. do 5 wp_step.
  apply (wp_for_each _ _ (fun rest s' => exists k lb,
    rest = seqZ (Z.of_nat k) (hdr_n d - Z.of_nat k) /\ Z.of_nat k <= hdr_n d /\
    lg s' = set_lh_n (hdr_n d) (set_lh_block (fun _ => lb) (lg s)) /\
    length lb = 30%nat /\ take k lb = take k (hdr_blocks d) /\ lc s' = c1)).
  - exists 0%nat, (lh_block (lg s)). split_and!; [f_equal; simpl; lia|lia| |done|done|done].
    simpl. by destruct (lg s).
  - intros j l' s' (k & lb & E & Hk & Hlg & Hlen & Htk & Hc). apply seqZ_snoc_inv in E as (-> & Hlt & ->).
    unfold put_lh_block, lg_get, upd_log. wp_steps.
    { rewrite Hlg, Nat2Z.id. simpl. apply negb_false_iff, Nat.ltb_lt. lia. }
    exists (S k), (<[k := s32 (get32 d (lh_off (Z.of_nat k)))]> lb).
    split_and!; [f_equal; lia|lia| |by rewrite length_insert| |done].
    + simpl. rewrite Hlg, Nat2Z.id. done.
    + rewrite (take_S_r _ _ _ (hdr_blocks_lookup d k ltac:(lia))).
      erewrite take_S_r by (apply list_lookup_insert_eq; lia).
      rewrite take_insert_ge, Htk by lia. done.
  - intros s' (k & lb & E & Hk & Hlg & Hlen & Htk & Hc).
    assert (Z.of_nat k = hdr_n d) as Hkn.
    { destruct (decide (Z.of_nat k = hdr_n d)); [done|]. rewrite seqZ_cons in E by lia. done. }
    eapply (wp_brelse _ (v_lock st v) i st); [by rewrite Hc|by rewrite Hc| |].
    { simpl. destruct (decide (st ∈ cv_dirty v)); [by left|right]. apply Hcl; [lia|done]. }
    intros c2 Ha2 _. apply HQ.
    + exists lb. split; [done|]. split; [lia|]. rewrite length_hdr_blocks, <- Hkn, Nat2Z.id, Htk.
      apply take_ge. rewrite length_hdr_blocks. lia.
    + replace (v_unlock st (v_lock st v)) with v in Ha2; [done|]. destruct v. simpl in *.
      unfold v_unlock, v_lock. simpl. f_equal. rewrite Hl. set_solver.
Qed.

(** ** The logical disk

    What the home blocks of a disk are once its log has been recovered: a block
    listed in the log header has the contents of its log block. *)
Definition logical (st : Z) (D : Z -> block) (b : Z) : block :=
  match list_find (b =.) (hdr_blocks (D st)) with
  | Some (t, _) => D (st + Z.of_nat t + 1)
  | None => D b
  end.

Definition disk_ok (l : log) (n : Z) (D : Z -> block) : Prop :=
  length (D (lg_start l)) = BSIZE /\ 0 <= hdr_n (D (lg_start l)) /\
  txn_ok l n (hdr_blocks (D (lg_start l))).

Lemma logical_empty st D b : hdr_n (D st) <= 0 -> logical st D b = D b.
Proof. intros Hn. unfold logical, hdr_blocks. by rewrite seqZ_nil. Qed.

Lemma logical_listed st D L b t :
  hdr_blocks (D st) = L -> NoDup L -> L !! t = Some b -> logical st D b = D (st + Z.of_nat t + 1).
Proof.
  intros HL Hnd Ht. unfold logical. rewrite HL. destruct (list_find _ L) as [[t' x]|] eqn:E.
  - apply list_find_Some in E as (Hx & <- & _). by rewrite (NoDup_lookup _ _ _ _ Hnd Hx Ht).
  - apply list_find_None in E. exfalso. apply (Forall_lookup_1 _ _ _ _ E Ht). done.
Qed.

Lemma logical_unlisted st D b : b ∉ hdr_blocks (D st) -> logical st D b = D b.
Proof.
  intros Hb. unfold logical. destruct (list_find _ _) as [[t x]|] eqn:E; [|done].
  apply list_find_Some in E as (Hx & <- & _). exfalso. apply Hb. by eapply list_elem_of_lookup_2.
Qed.

(** Only the header, the log blocks and the block itself matter. *)
Lemma logical_ext st D D' b :
  D' st = D st ->
  (forall t, Z.of_nat t < hdr_n (D st) -> D' (st + Z.of_nat t + 1) = D (st + Z.of_nat t + 1)) ->
  (b ∉ hdr_blocks (D st) -> D' b = D b) -> logical st D' b = logical st D b.
Proof.
  intros H1 H2 H3. unfold logical. rewrite H1. destruct (list_find _ _) as [[t x]|] eqn:E.
  - apply list_find_Some in E as (Hx & _). apply lookup_lt_Some in Hx.
    rewrite length_hdr_blocks in Hx. apply H2. lia.
  - apply list_find_None in E. apply H3. intros Hin. by apply (Forall_elem _ _ _ E) in Hin.
Qed.

Definition home_writes (st : Z) (D : Z -> block) (L : list Z) : list (Z * block) :=
  zip L (log_content st D (length L)).

Lemma home_writes_fst st D L : (home_writes st D L).*1 = L.
Proof. unfold home_writes. apply fst_zip. by rewrite length_log_content. Qed.

Lemma home_writes_out l n D L k b :
  Forall (home l n) L -> ~ home l n b ->
  apply_writes D (take k (home_writes (lg_start l) D L)) b = D b.
Proof.
  intros Hh Hb. apply apply_writes_out. intros Hin%take_fst. rewrite home_writes_fst in Hin.
  by apply Hb, (Forall_elem _ _ _ Hh).
Qed.

(** Installing any number of the logged blocks does not change the logical disk. *)
Lemma logical_home_writes l n D k b :
  disk_ok l n D -> home l n b ->
  let st := lg_start l in
  logical st (apply_writes D (take k (home_writes st D (hdr_blocks (D st))))) b = logical st D b.
Proof.
  intros (_ & Hn & (Hls & _ & Hnd & Hh)) Hb st. apply logical_ext.
  - apply (home_writes_out l n); [done|]. unfold home. rewrite length_hdr_blocks in Hls. fold st in Hls. lia.
  - intros t Ht. apply (home_writes_out l n); [done|]. unfold home.
    rewrite length_hdr_blocks in Hls. fold st in Hls. lia.
  - intros Hnb. apply apply_writes_out. intros Hin%take_fst. by rewrite home_writes_fst in Hin.
Qed.

(** Once all are installed, the disk is the logical disk. *)
Lemma home_writes_logical l n D b :
  disk_ok l n D -> home l n b ->
  let st := lg_start l in
  apply_writes D (home_writes st D (hdr_blocks (D st))) b = logical st D b.
Proof.
  intros (_ & Hn & (Hls & _ & Hnd & Hh)) Hb st. set (L := hdr_blocks (D st)) in *.
  destruct (decide (b ∈ L)) as [Hin|Hin].
  - apply list_elem_of_lookup in Hin as [t Ht]. rewrite (logical_listed st D L b t) by done.
    apply apply_writes_in; [by rewrite home_writes_fst|].
    eapply list_elem_of_lookup_2. apply zip_lookup; [exact Ht|].
    apply log_content_lookup. by eapply lookup_lt_Some.
  - rewrite logical_unlisted by done. apply apply_writes_out. by rewrite home_writes_fst.
Qed.

(** ** Recovery *)
Definition fresh_view (n : Z) (D : Z -> block) : cview := CView n D D ∅ ∅ [].

(** The writes of a recovery from disk [D]. *)
Definition recovery_writes (st : Z) (D : Z -> block) : list (Z * block) :=
  home_writes st D (hdr_blocks (D st)) ++ [(st, encode_hdr [] (D st))].

Lemma head_read_ok l l' d n :
  head_read l l' d -> geom l n -> 0 <= hdr_n d -> geom l' n /\ in_header l' (hdr_blocks d) /\
  (forall L, txn_ok l n L -> txn_ok l' n L) /\ lg_start l' = lg_start l.
Proof.
  intros (lb & -> & Hlen & Htk) [] Hn. split_and!; [split; simpl; congruence||done|split; simpl|done|done].
  - rewrite length_hdr_blocks. lia.
  - done.
Qed.

Lemma wp_recover s n D (Q : unit -> lst C -> Prop) :
  geom (lg s) n -> disk_ok (lg s) n D -> (1 < cap)%nat -> cabs (lc s) (fresh_view n D) ->
  (forall s', geom (lg s') n -> lg_start (lg s') = lg_start (lg s) -> lh_n (lg s') = 0 ->
     cabs (lc s') (v_puts (recovery_writes (lg_start (lg s)) D) (fresh_view n D)) -> Q tt s') ->
  wp recover_from_log Q s.
Proof.
  intros Hg Hok Hcap Ha HQ. destruct Hok as (Hlen & Hn & Htx). pose proof Htx as (Hls & Hl30 & Hnd & Hh).
  unfold recover_from_log. set (st := lg_start (lg s)) in *.
  assert (settled (fresh_view n D)) as Hse by done.
  assert (size (cv_dirty (fresh_view n D)) = 0%nat) as Hd0 by apply size_empty.
  wp_step. eapply (wp_read_head s (fresh_view n D)); [done| |done|done|lia|].
  { simpl. rewrite length_hdr_blocks in Hl30. fold st; lia. }
  intros s1 Hr Ha1. destruct (head_read_ok _ _ _ _ Hr Hg Hn) as (Hg1 & Hh1 & Ht1 & Hst1).
  wp_step. eapply (wp_install_trans s1 (fresh_view n D)); [done|by apply Ht1|done|done|done|left; lia|].
  intros s2 Hlg2 Ha2. rewrite Hst1 in Ha2. unfold upd_log. do 2 wp_step.
  set (v2 := v_puts _ _) in Ha2.
  destruct (v_puts_fields (home_writes st D (hdr_blocks (D st))) (fresh_view n D)) as (E1 & E2 & E3 & E4 & E5 & E6).
  pose proof (dirty_size_puts (home_writes st D (hdr_blocks (D st))) (fresh_view n D)) as Hsz.
  change (v_puts (home_writes st D (hdr_blocks (D st))) (fresh_view n D)) with v2 in *.
  eapply (wp_write_head _ v2 []); [| |exact Ha2|exact E5| |].
  - rewrite E1. destruct Hg1. simpl. rewrite Hlg2. by split.
  - done.
  - lia.
  - intros s3 Hlg3 Ha3. apply HQ.
    + rewrite Hlg3. simpl. rewrite Hlg2. destruct Hg1. by split.
    + rewrite Hlg3. simpl. by rewrite Hlg2, Hst1.
    + by rewrite Hlg3.
    + unfold recovery_writes. rewrite v_puts_snoc. simpl in Ha3. rewrite Hlg2, Hst1 in Ha3.
      assert (cv_view v2 st = D st) as Hv2.
      { rewrite E3. simpl. rewrite <- (firstn_all (home_writes _ _ _)).
        apply (home_writes_out (lg s) n); [done|]. unfold home. fold st. destruct Hg. lia. }
      fold st in Ha3. rewrite Hv2 in Ha3. exact Ha3.
Qed.

(** ** Crashes during recovery

    [crash_step]: a recovery starts on disk [D] with an empty cache, and the
    machine stops after some of its writes. *)
Definition crash_step (st : Z) (D D' : Z -> block) : Prop :=
  exists k, D' = apply_writes D (take k (recovery_writes st D)).

Lemma hdr_clear d : length d = BSIZE -> hdr_n (encode_hdr [] d) = 0 /\ length (encode_hdr [] d) = BSIZE.
Proof.
  intros Hd. split; [|unfold encode_hdr; by rewrite length_enc_entries, <- Hd; apply length_put_bytes].
  eapply (proj1 (decode_encode [] d ltac:(rewrite Hd; unfold BSIZE; lia) ltac:(simpl; lia) ltac:(constructor))).
Qed.

Lemma txn_ok_empty l n d : 1 <= lg_size l -> hdr_n d = 0 -> txn_ok l n (hdr_blocks d).
Proof.
  intros Hs Hn. assert (hdr_blocks d = []) as ->.
  { unfold hdr_blocks. by rewrite Hn. }
  split_and!; simpl; [lia|lia|constructor|constructor].
Qed.

(** A crash during recovery leaves a disk with the same logical contents. *)
Lemma crash_step_logical l n D D' b :
  geom l n -> disk_ok l n D -> crash_step (lg_start l) D D' ->
  disk_ok l n D' /\ (home l n b -> logical (lg_start l) D' b = logical (lg_start l) D b).
Proof.
  intros Hg Hok [k ->]. pose proof Hok as (Hlen & Hn & Htx).
  pose proof Htx as (Hls & Hl30 & Hnd & Hh). set (st := lg_start l) in *.
  unfold recovery_writes. set (W := home_writes st D (hdr_blocks (D st))) in *.
  assert (~ home l n st) as Hst by (unfold home; fold st; destruct Hg; lia).
  destruct (decide (k <= length W)%nat) as [Hk|Hk].
  - rewrite take_app_le by lia. split; [|intros Hb; by apply (logical_home_writes l n)].
    assert (apply_writes D (take k W) st = D st) as E by by apply (home_writes_out l n).
    unfold disk_ok. fold st. by rewrite E.
  - rewrite take_ge by (rewrite length_app; simpl; lia). rewrite apply_writes_app. simpl.
    destruct (hdr_clear (D st) Hlen) as [Hc1 Hc2]. split.
    + unfold disk_ok. fold st. rewrite upd_fn_eq, Hc1. split_and!; [done|lia|].
      apply txn_ok_empty; [apply Hg|done].
    + intros Hb. rewrite logical_empty by (rewrite upd_fn_eq, Hc1; lia).
      rewrite upd_fn_ne by (intros <-; done). by apply (home_writes_logical l n).
Qed.

Lemma crash_steps_logical l n D D' :
  geom l n -> disk_ok l n D -> rtc (crash_step (lg_start l)) D D' ->
  disk_ok l n D' /\ forall b, home l n b -> logical (lg_start l) D' b = logical (lg_start l) D b.
Proof.
  intros Hg Hok Hr. induction Hr as [D|D D1 D2 H1 H2 IH]; [done|].
  destruct (IH (proj1 (crash_step_logical l n D D1 0 Hg Hok H1))) as [Hok2 Hl]. split; [done|].
  intros b Hb. rewrite Hl by done. by apply (crash_step_logical l n D D1 b Hg Hok H1).
Qed.

(** The disk after a complete recovery. *)
Lemma recovery_disk l n D b :
  geom l n -> disk_ok l n D -> home l n b ->
  apply_writes D (recovery_writes (lg_start l) D) b = logical (lg_start l) D b.
Proof.
  intros Hg Hok Hb. unfold recovery_writes. rewrite apply_writes_app. simpl.
  rewrite upd_fn_ne; [by apply (home_writes_logical l n)|].
  intros <-. unfold home in Hb. destruct Hg. lia.
Qed.

(** ** Commit *)
Definition commit_writes (st : Z) (V : Z -> block) (h : block) (L : list Z) : list (Z * block) :=
  log_writes st (V <$> L) ++ [(st, encode_hdr L h)] ++ zip L (V <$> L) ++
  [(st, encode_hdr [] (encode_hdr L h))].

(** The transaction applied to the home blocks. *)
Definition committed (D V : Z -> block) (L : list Z) (b : Z) : block :=
  if decide (b ∈ L) then V b else D b.

Section Commit.
Context (l : log) (n : Z) (D V : Z -> block) (L : list Z).
Context (Hg : geom l n) (Htx : txn_ok l n L).
Context (Hlen : length (D (lg_start l)) = BSIZE) (Hclear : hdr_n (D (lg_start l)) = 0).

Let st := lg_start l.

Lemma commit_ints : Forall (fun b => 0 <= b < 2147483648) L.
Proof.
  destruct Htx as (_ & _ & _ & Hh), Hg. eapply Forall_impl; [exact Hh|]. unfold home. lia.
Qed.

Lemma commit_hdr : hdr_n (encode_hdr L (D st)) = Z.of_nat (length L) /\
  hdr_blocks (encode_hdr L (D st)) = L /\ length (encode_hdr L (D st)) = BSIZE.
Proof.
  destruct Htx as (_ & H30 & _ & _).
  destruct (decode_encode L (D st)) as [H1 H2]; [unfold st, BSIZE in *; lia|done|apply commit_ints|].
  split_and!; [done|done|]. unfold encode_hdr. rewrite length_enc_entries. unfold put32.
  by rewrite length_put_bytes.
Qed.

Lemma log_writes_home k b : home l n b -> apply_writes D (take k (log_writes st (V <$> L))) b = D b.
Proof.
  intros Hb. apply apply_writes_out. intros Hin%take_fst%log_writes_range.
  rewrite length_fmap in Hin. unfold home in Hb. destruct Htx. unfold st in *. lia.
Qed.

Lemma log_writes_start k : apply_writes D (take k (log_writes st (V <$> L))) st = D st.
Proof. apply apply_writes_out. intros Hin%take_fst%log_writes_range. lia. Qed.

(** Before the header is written, the logical disk is the old one. *)
Lemma commit_before k b :
  home l n b ->
  let Dk := apply_writes D (take k (log_writes st (V <$> L))) in
  disk_ok l n Dk /\ logical st Dk b = D b.
Proof.
  intros Hb Dk. assert (Dk st = D st) as E by apply log_writes_start. split.
  - unfold disk_ok. fold st. rewrite E. unfold st. rewrite Hclear. split_and!; [done|done|].
    apply txn_ok_empty; [apply Hg|done].
  - rewrite logical_empty by (rewrite E; unfold st; lia). by apply log_writes_home.
Qed.

Definition disk_at_commit : Z -> block :=
  upd_fn (apply_writes D (log_writes st (V <$> L))) st (encode_hdr L (D st)).

Lemma commit_log_block t b : L !! t = Some b -> disk_at_commit (st + Z.of_nat t + 1) = V b.
Proof.
  intros Ht. unfold disk_at_commit. rewrite upd_fn_ne by lia.
  apply apply_writes_in; [apply log_writes_nodup|].
  eapply list_elem_of_lookup_2, log_writes_lookup. by rewrite list_lookup_fmap, Ht.
Qed.

Lemma commit_point :
  disk_ok l n disk_at_commit /\ hdr_blocks (disk_at_commit st) = L /\
  forall b, home l n b -> logical st disk_at_commit b = committed D V L b.
Proof.
  destruct commit_hdr as (H1 & H2 & H3).
  assert (disk_at_commit st = encode_hdr L (D st)) as E by apply upd_fn_eq.
  split_and!.
  - unfold disk_ok. fold st. rewrite E, H1, H2. split_and!; [done|lia|done].
  - by rewrite E.
  - intros b Hb. unfold committed. case_decide as Hin.
    + apply list_elem_of_lookup in Hin as [t Ht].
      rewrite (logical_listed st _ L b t); [by apply commit_log_block|by rewrite E|apply Htx|done].
    + rewrite logical_unlisted by (by rewrite E, H2). unfold disk_at_commit.
      rewrite upd_fn_ne by (intros <-; unfold home in Hb; destruct Hg; unfold st in *; lia).
      rewrite <- (firstn_all (log_writes _ _)). by apply log_writes_home.
Qed.

(** The installation copies what the log blocks hold. *)
Lemma commit_installs : zip L (V <$> L) = home_writes st disk_at_commit L.
Proof.
  apply list_eq. intros t. unfold home_writes. destruct (L !! t) as [b|] eqn:Et.
  - rewrite (zip_lookup _ _ t b (V b)) by (done || by rewrite list_lookup_fmap, Et).
    rewrite (zip_lookup _ _ t b (V b)); [done|done|].
    rewrite log_content_lookup by by eapply lookup_lt_Some. by rewrite (commit_log_block t b).
  - rewrite !lookup_zip_with, Et. done.
Qed.

Lemma commit_writes_split :
  commit_writes st V (D st) L =
  log_writes st (V <$> L) ++ (st, encode_hdr L (D st)) :: recovery_writes st disk_at_commit.
Proof.
  unfold commit_writes, recovery_writes. rewrite (proj1 (proj2 commit_point)), <- commit_installs.
  unfold disk_at_commit. by rewrite upd_fn_eq.
Qed.

(** After any number of the writes of a commit, the logical disk is the old
    one, or the new one if the header has been written. *)
Lemma commit_prefix k :
  let Dk := apply_writes D (take k (commit_writes st V (D st) L)) in
  disk_ok l n Dk /\ forall b, home l n b ->
    logical st Dk b = if decide (k <= length L)%nat then D b else committed D V L b.
Proof.
  intros Dk. assert (length (log_writes st (V <$> L)) = length L) as Hlw
    by (unfold log_writes; by rewrite length_imap, length_fmap).
  unfold Dk. rewrite commit_writes_split. destruct (decide (k <= length L)%nat) as [Hk|Hk].
  - rewrite take_app_le by lia. split; [|intros b Hb; by apply commit_before].
    pose proof (log_writes_start k) as E. unfold disk_ok. fold st. rewrite E. unfold st. rewrite Hclear.
    split_and!; [done|done|]. apply txn_ok_empty; [apply Hg|done].
  - rewrite take_app_ge by lia. rewrite Hlw.
    destruct (k - length L)%nat as [|j] eqn:Ej; [lia|]. simpl. rewrite apply_writes_app. simpl.
    fold disk_at_commit.
    destruct commit_point as (Hok & _ & Hlog). split.
    + eapply (crash_step_logical l n disk_at_commit _ 0 Hg Hok). by exists j.
    + intros b Hb. rewrite <- Hlog by done.
      eapply (crash_step_logical l n disk_at_commit _ b Hg Hok); [by exists j|done].
Qed.

End Commit.

(** The view after the log blocks and the header have been written. *)
Definition logged (st : Z) (L : list Z) (v : cview) : cview :=
  v_put st (encode_hdr L (cv_view v st)) (v_puts (log_writes st (cv_view v <$> L)) v).

Lemma logged_content st L v :
  log_content st (cv_view (logged st L v)) (length L) = cv_view v <$> L.
Proof.
  destruct (v_puts_fields (log_writes st (cv_view v <$> L)) v) as (_ & _ & E3 & _).
  apply list_eq. intros t. destruct (L !! t) as [b|] eqn:Et.
  - rewrite log_content_lookup by by eapply lookup_lt_Some. rewrite list_lookup_fmap, Et. simpl. f_equal.
    rewrite upd_fn_ne, E3 by lia. apply apply_writes_in; [apply log_writes_nodup|].
    eapply list_elem_of_lookup_2, log_writes_lookup. by rewrite list_lookup_fmap, Et.
  - rewrite list_lookup_fmap, Et. apply lookup_ge_None_2. rewrite length_log_content.
    by apply lookup_ge_None_1.
Qed.

Lemma logged_dirty l L v :
  geom l (cv_n v) -> txn_ok l (cv_n v) L -> Forall (fun b => b ∈ cv_dirty v) L ->
  Forall (fun b => b ∈ cv_dirty (logged (lg_start l) L v)) L /\
  (size (cv_dirty (logged (lg_start l) L v)) <= size (cv_dirty v))%nat.
Proof.
  intros Hg (Hls & _ & _ & Hh) Hdi.
  destruct (v_puts_fields (log_writes (lg_start l) (cv_view v <$> L)) v) as (_ & _ & _ & E4 & _). split.
  - apply elem_Forall. intros b Hb. simpl. rewrite E4, !elem_of_difference, elem_of_list_to_set.
    pose proof (Forall_elem _ _ _ Hh Hb) as [_ Hbh]. split_and!; [by apply (Forall_elem _ _ _ Hdi Hb)| |].
    + intros Hin%log_writes_range. rewrite length_fmap in Hin. lia.
    + rewrite elem_of_singleton. destruct Hg. lia.
  - apply subseteq_size. simpl. rewrite E4. set_solver.
Qed.

Lemma wp_commit s v L (Q : unit -> lst C -> Prop) :
  geom (lg s) (cv_n v) -> txn_ok (lg s) (cv_n v) L -> in_header (lg s) L -> L <> [] ->
  cabs (lc s) v -> settled v -> Forall (fun b => b ∈ cv_dirty v) L -> (size (cv_dirty v) < cap)%nat ->
  (forall s', lg s' = set_lh_n 0 (lg s) ->
     cabs (lc s') (v_puts (commit_writes (lg_start (lg s)) (cv_view v) (cv_view v (lg_start (lg s))) L) v) ->
     Q tt s') ->
  wp commit Q s.
Proof.
  intros Hg Htx Hhd Hne Ha Hse Hdi Hsz HQ. pose proof Htx as (Hls & H30 & Hnd & Hh).
  set (st := lg_start (lg s)) in *. set (V := cv_view v) in *.
  set (W1 := log_writes st (V <$> L)). set (v1 := v_puts W1 v).
  assert (0 < Z.of_nat (length L)) as Hpos by (destruct L; [done|simpl; lia]).
  unfold commit. unfold lg_get at 1. do 2 wp_step. rewrite (proj1 Hhd).
  replace (0 <? Z.of_nat (length L)) with true by (symmetry; by apply Z.ltb_lt). do 2 wp_step.
  eapply wp_write_log; [done..|]. intros s1 Hlg1 Ha1. fold st V W1 v1 in Ha1.
  destruct (v_puts_fields W1 v) as (E1 & E2 & E3 & E4 & E5 & E6). fold v1 in E1, E2, E3, E4, E5, E6.
  pose proof (dirty_size_puts W1 v) as Hsz1. fold v1 in Hsz1.
  assert (cv_view v1 st = V st) as Hst1.
  { rewrite E3. apply apply_writes_out. intros Hin%log_writes_range. lia. }
  wp_step. eapply (wp_write_head s1 v1 L); [by rewrite Hlg1, E1|by rewrite Hlg1|done|by rewrite E5; apply Hse|lia|].
  rewrite Hlg1. fold st. rewrite Hst1. intros s2 Hlg2 Ha2. set (v2 := v_put _ _ v1) in Ha2.
  pose proof (logged_content st L v) as Hlc. destruct (logged_dirty _ _ _ Hg Htx Hdi) as [Hdi2 Hsz2].
  change (logged _ L v) with v2 in Hlc, Hdi2, Hsz2. fold V in Hlc.
  wp_step. eapply (wp_install_trans s2 v2 L);
    [rewrite Hlg2; simpl; by rewrite E1|rewrite Hlg2; simpl; by rewrite E1|by rewrite Hlg2|done|
     apply settled_put, settled_puts, Hse|right; split; [lia|done]|].
  rewrite Hlg2. fold st. rewrite Hlc. intros s3 Hlg3 Ha3. unfold upd_log. do 2 wp_step.
  set (v3 := v_puts _ v2) in Ha3. destruct (v_puts_fields (zip L (V <$> L)) v2) as (F1 & F2 & F3 & F4 & F5 & F6).
  pose proof (dirty_size_puts (zip L (V <$> L)) v2) as Hsz3. fold v3 in F1, F2, F3, F4, F5, F6, Hsz3.
  assert (cv_view v3 st = encode_hdr L (V st)) as Hst3.
  { rewrite F3, apply_writes_out; [apply upd_fn_eq|]. rewrite fst_zip by by rewrite length_fmap.
    intros Hin%(Forall_elem _ _ _ Hh). unfold home in Hin. fold st in Hin. destruct Hg. lia. }
  eapply (wp_write_head _ v3 []); [|done|exact Ha3|rewrite F5; simpl; rewrite E5; apply Hse|lia|].
  { simpl. rewrite Hlg3, F1. simpl. rewrite E1. destruct Hg. by split. }
  simpl. rewrite Hlg3. fold st. rewrite Hst3. intros s4 Hlg4 Ha4. apply HQ; [exact Hlg4|].
  unfold commit_writes. rewrite v_puts_app. fold W1 v1. rewrite v_puts_app. simpl. fold v2.
  rewrite v_puts_snoc. fold v3. exact Ha4.
Qed.

(** ** log_write *)
(** The transaction after block [b] has been added. *)
Definition absorb (b : Z) (L : list Z) : list Z := if decide (b ∈ L) then L else L ++ [b].

Lemma absorb_search s L b :
  in_header (lg s) L -> Forall (fun x => 0 <= x < 2147483648) L ->
  exists r, for_until (seqZ 0 (lh_n (lg s)))
      (fun i => x ← get_lh_block i; ret (if u32 x =? b then Some i else None)) s = (Ret r, s) /\
    match r with
    | Some i => exists t, i = Z.of_nat t /\ L !! t = Some b
    | None => b ∉ L
    end.
Proof.
  intros Hh Hint. rewrite (proj1 Hh). set (body := fun i : Z => _).
  assert (forall m k, m = (length L - k)%nat -> exists r,
    for_until (seqZ (Z.of_nat k) (Z.of_nat (length L) - Z.of_nat k)) body s = (Ret r, s) /\
    match r with Some i => exists t, i = Z.of_nat t /\ L !! t = Some b | None => b ∉ drop k L end) as H.
  { induction m as [|m IH]; intros k Em.
    - rewrite seqZ_nil by lia. exists None. rewrite drop_ge by lia. split; [done|]. set_solver.
    - rewrite seqZ_cons by lia. destruct (lookup_lt_is_Some_2 L k) as [x Hx]; [lia|]. simpl.
      assert (body (Z.of_nat k) s = (Ret (if x =? b then Some (Z.of_nat k) else None), s)) as Hb.
      { unfold body, get_lh_block, lg_get, bind, gets.
        rewrite Nat2Z.id, (in_header_lookup _ _ _ _ Hh Hx). unfold ret.
        pose proof (Forall_lookup_1 _ _ _ _ Hint Hx) as Hxi. simpl in Hxi. by rewrite u32_small by lia. }
      run_step Hb. destruct (x =? b) eqn:E; bool_to_prop.
      + exists (Some (Z.of_nat k)). split; [done|]. exists k. by rewrite Hx, E.
      + replace (Z.succ (Z.of_nat k)) with (Z.of_nat (S k)) by lia.
        replace (Z.pred (Z.of_nat (length L) - Z.of_nat k)) with (Z.of_nat (length L) - Z.of_nat (S k)) by lia.
        destruct (IH (S k) ltac:(lia)) as (r & Hr & Hs). exists r. split; [done|].
        rewrite (drop_S _ _ _ Hx). destruct r; [done|]. set_solver. }
  specialize (H _ 0%nat eq_refl). by rewrite Z.sub_0_r in H.
Qed.

(** The fields of the log other than the transaction. *)
Definition same_log (l l' : log) : Prop :=
  set_lh_n 0 (set_lh_block (fun _ => []) l') = set_lh_n 0 (set_lh_block (fun _ => []) l).

Lemma absorb_header l L b r i :
  in_header l L -> length (lh_block l) = 30%nat -> (length L < 30)%nat ->
  match r with Some i => exists t, i = Z.of_nat t /\ L !! t = Some b | None => b ∉ L end ->
  i = default (lh_n l) r ->
  0 <= i < 30 /\
  let l1 := set_lh_block (fun l => <[Z.to_nat i := b]> l) l in
  let l2 := if i =? lh_n l then set_lh_n (lh_n l + 1) l1 else l1 in
  in_header l2 (absorb b L).
Proof.
  intros [Hn Ht] Hlen H30 Hr ->. unfold absorb. destruct r as [i|]; simpl.
  - destruct Hr as (t & -> & Hb). pose proof (lookup_lt_Some _ _ _ Hb) as Hlt. split; [lia|].
    rewrite (decide_True (P := b ∈ L)) by by eapply list_elem_of_lookup_2.
    replace (Z.of_nat t =? lh_n l) with false by (symmetry; apply Z.eqb_neq; lia).
    split; [done|]. simpl. rewrite Nat2Z.id, take_insert_lt by lia. rewrite Ht. by apply list_insert_id.
  - split; [lia|]. rewrite decide_False, Z.eqb_refl by done. split; simpl.
    + rewrite Hn, length_app. simpl. lia.
    + rewrite length_app. simpl. rewrite Hn, Nat2Z.id, Nat.add_1_r.
      erewrite take_S_r by (apply list_lookup_insert_eq; lia). by rewrite take_insert_ge, Ht by lia.
Qed.

Lemma wp_log_write s v L i b (Q : unit -> lst C -> Prop) :
  lg_lock (lg s) = false -> length (lh_block (lg s)) = 30%nat -> in_header (lg s) L ->
  Forall (fun x => 0 <= x < 2147483648) L ->
  lh_n (lg s) < LOGSIZE -> lh_n (lg s) < lg_size (lg s) - 1 -> 1 <= lg_outstanding (lg s) ->
  cabs (lc s) v -> handle (lc s) i b ->
  (forall s', in_header (lg s') (absorb b L) -> length (lh_block (lg s')) = 30%nat ->
     same_log (lg s) (lg s') -> cabs (lc s') (v_dirty b v) -> keeps (lc s) (lc s') -> Q tt s') ->
  wp (log_write i) Q s.
Proof.
  intros Hlk Hlen Hh Hint H1 H2 H3 Ha Hha HQ. unfold LOGSIZE, MAXOPBLOCKS in H1.
  pose proof (cabs_size _ _ Ha). pose proof (handle_range _ _ _ _ Ha Hha).
  unfold log_write. unfold lg_get at 1. do 2 wp_step.
  cbn [id]. wp_step. wp_step; [apply orb_false_iff; split; apply Z.leb_gt; unfold LOGSIZE, MAXOPBLOCKS; lia|].
  wp_step. wp_step; [apply Z.ltb_ge; lia|].
  wp_step. eapply wp_eq; [by apply acquire_flag_run|]. do 2 wp_step.
  cbn [lc set over lglock]. rewrite (proj2 (bdata_law _ _ _ _ Ha Hha)). wp_step.
  set (l1 := set_lg_lock (fun _ => true) (lg s)).
  destruct (absorb_search (Lst l1 (lc s)) L b Hh Hint) as (r & Hr & Hspec).
  eapply wp_eq; [exact Hr|]. set (j := default (lh_n (lg s)) r).
  destruct (absorb_header l1 L b r j Hh Hlen ltac:(destruct Hh; lia) Hspec eq_refl) as [Hj Hhd].
  wp_step. rewrite s32_small by lia. apply wp_put_lh_block; [simpl; lia|]. cbn [lg lc].
  set (l2 := set_lh_block _ _) in *. wp_step.
  eapply (wp_mono _ (fun _ s' => s' = Lst (if j =? lh_n l1 then set_lh_n (lh_n l1 + 1) l2 else l2) (lc s))).
  { unfold upd_log. change (lh_n (lg s)) with (lh_n l1). by destruct (j =? lh_n l1). }
  intros [] s' ->. wp_step. apply wp_lc. eapply wp_mono; [by eapply set_dirty_law|].
  intros [] c' [Hc' Hk']. eapply wp_eq; [apply release_flag_run; by destruct (j =? lh_n l1)|].
  cbn [lg lc set over lglock]. apply HQ; [| | |exact Hc'|exact Hk'].
  - cbn [lg]. destruct (j =? lh_n l1); exact Hhd.
  - assert (length (lh_block l2) = 30%nat) as H2len by (simpl; by rewrite length_insert).
    by destruct (j =? lh_n l1).
  - unfold same_log. destruct (lg s). simpl in *. subst. by destruct (j =? _).
Qed.

End LogProofs.
