(* ===== verification/Crash.v ===== *)
(** * Crash safety of the file-system log

    The theorems about log.c, stated over any cache that satisfies the
    block-cache interface and witnessed with the cache of bio.c on the memory
    disk of memide.c. *)
From S2P Require Import Prelude Block Bio Log.

(** ** Transactions survive a crash whole or not at all *)
Section Crash.
Context {C : Type} {HC : BlockCache C} {HCL : BlockCacheLaws C}.
Implicit Types (s : lst C) (v : cview).

(** The state in which [commit] runs: transaction [L] in the header, its blocks
    dirty in the cache, no buffer held, an empty log on disk. *)
Record commit_ready (s : lst C) (v : cview) (L : list Z) : Prop := {
  cr_geom : geom (lg s) (cv_n v);
  cr_txn : txn_ok (lg s) (cv_n v) L;
  cr_hdr : in_header (lg s) L;
  cr_abs : cabs (lc s) v;
  cr_settled : settled v;
  cr_dirty : Forall (fun b => b ∈ cv_dirty v) L;
  cr_cap : (size (cv_dirty v) < cap)%nat;
  cr_start : lg_start (lg s) ∉ cv_dirty v;
  cr_len : length (cv_disk v (lg_start (lg s))) = BSIZE;
  cr_clear : hdr_n (cv_disk v (lg_start (lg s))) = 0;
}.

(** A log of the same geometry, as [initlog] finds it after a reboot. *)
Definition rebooted (l l' : log) (n : Z) : Prop :=
  geom l' n /\ lg_start l' = lg_start l /\ lg_size l' = lg_size l.

Lemma rebooted_home l l' n b : rebooted l l' n -> home l n b <-> home l' n b.
Proof. intros (_ & E1 & E2). unfold home. by rewrite E1, E2. Qed.

Lemma rebooted_ok l l' n D : rebooted l l' n -> disk_ok l n D -> disk_ok l' n D.
Proof.
  intros Hr (H1 & H2 & H3 & H4 & H5 & H6). pose proof Hr as (_ & E1 & E2).
  unfold disk_ok, txn_ok. rewrite E1, E2. split_and!; try done.
  eapply Forall_impl; [exact H6|]. intros b. apply (rebooted_home l l' n b Hr).
Qed.

(** Recovery of a disk makes its home blocks the logical ones and empties the log. *)
Lemma recover_logical l' n D c :
  geom l' n -> disk_ok l' n D -> (1 < cap)%nat -> cabs c (fresh_view n D) ->
  wp recover_from_log
    (fun _ s2 => exists v2, cabs (lc s2) v2 /\ settled v2 /\ cv_dirty v2 = ∅ /\ lh_n (lg s2) = 0 /\
       cwlog (lc s2) = recovery_writes (lg_start l') D /\
       forall b, home l' n b -> cv_disk v2 b = logical (lg_start l') D b /\ cv_view v2 b = cv_disk v2 b)
    (Lst l' c).
Proof.
  intros Hg Hok Hcap Hc. eapply (wp_recover (Lst l' c)); [exact Hg|exact Hok|done|exact Hc|].
  simpl. intros s' Hg' Hst Hn Ha. eexists. split; [exact Ha|].
  destruct (v_puts_fields (recovery_writes (lg_start l') D) (fresh_view n D)) as (E1 & E2 & E3 & E4 & E5 & E6).
  assert (settled (v_puts (recovery_writes (lg_start l') D) (fresh_view n D))) as Hse by by apply settled_puts.
  assert (cv_dirty (v_puts (recovery_writes (lg_start l') D) (fresh_view n D)) = ∅) as Hd
    by (rewrite E4; simpl; set_solver).
  split_and!; [done|done|done|by rewrite (cwlog_law _ _ Ha), E6|].
  intros b Hb. split.
  - rewrite E2. by eapply recovery_disk.
  - apply Hse; [rewrite E1; apply Hb|]. rewrite Hd. set_solver.
Qed.

Definition commit_log (s : lst C) (v : cview) (L : list Z) : list (Z * block) :=
  match L with
  | [] => []
  | _ => commit_writes (lg_start (lg s)) (cv_view v) (cv_view v (lg_start (lg s))) L
  end.

Lemma commit_run s v L :
  commit_ready s v L ->
  wp commit (fun _ s' => lg s' = set_lh_n 0 (lg s) /\ cabs (lc s') (v_puts (commit_log s v L) v)) s.
Proof.
  intros [Hg Htx Hh Ha Hse Hd Hcap _ _ _]. destruct L as [|b L].
  - unfold commit, lg_get. do 2 wp_step. rewrite (proj1 Hh). simpl. unfold wp; simpl. split; [|done].
    destruct Hh as [Hn _]. simpl in Hn. destruct (lg s). simpl in *. by subst.
  - eapply wp_commit; [done..|]. auto.
Qed.

(** C1: [commit] writes the transaction so that a crash cannot tear it.  After
    any number [k] of its block writes, [recover_from_log] run on the disk that
    is left, with an empty cache, returns with an empty log and every block
    outside of the log region as it was before the transaction if the header
    had not been written ([k <= length L]), and as the transaction left it
    otherwise. *)
Theorem commit_crash_atomic s v L :
  commit_ready s v L -> (1 < cap)%nat ->
  exists s' W, commit s = (Ret tt, s') /\ cwlog (lc s') = cwlog (lc s) ++ W /\
  forall k l' c,
    rebooted (lg s) l' (cv_n v) ->
    cabs c (fresh_view (cv_n v) (apply_writes (cv_disk v) (take k W))) ->
    wp recover_from_log
      (fun _ s2 => lh_n (lg s2) = 0 /\ exists v2, cabs (lc s2) v2 /\ settled v2 /\
         forall b, home (lg s) (cv_n v) b ->
           cv_view v2 b = cv_disk v2 b /\
           cv_disk v2 b = if decide (k <= length L)%nat then cv_disk v b
                          else if decide (b ∈ L) then cv_view v b else cv_disk v b)
      (Lst l' c).
Proof.
  intros Hr Hcap. destruct (wp_returns _ _ _ (commit_run s v L Hr)) as ([] & s' & Hrun & Hlg & Ha).
  exists s', (commit_log s v L). split; [done|].
  destruct Hr as [Hg Htx Hh Hc Hse Hd _ Hst Hlen Hclear].
  assert (cv_view v (lg_start (lg s)) = cv_disk v (lg_start (lg s))) as Hv
    by (apply Hse; [destruct Hg; lia|done]).
  destruct (v_puts_fields (commit_log s v L) v) as (_ & _ & _ & _ & _ & E6).
  rewrite (cwlog_law _ _ Ha), (cwlog_law _ _ Hc), E6. split; [done|]. intros k l' c Hre Hc'.
  assert (disk_ok (lg s) (cv_n v) (apply_writes (cv_disk v) (take k (commit_log s v L))) /\
    forall b, home (lg s) (cv_n v) b -> logical (lg_start (lg s)) (apply_writes (cv_disk v) (take k (commit_log s v L))) b =
     if decide (k <= length L)%nat then cv_disk v b else committed (cv_disk v) (cv_view v) L b) as [Hok Hlo].
  { pose proof (commit_prefix (lg s) (cv_n v) (cv_disk v) (cv_view v) L Hg Htx Hlen Hclear) as Hp.
    unfold commit_log. rewrite Hv. destruct L as [|x L]; [|by apply Hp].
    rewrite take_nil. destruct (Hp 0%nat) as [Hok Hlo]. simpl in *. split; [done|].
    intros b Hb. rewrite (Hlo b Hb). unfold committed.
    destruct (decide (b ∈ [])) as [[]%elem_of_nil|]; by destruct (decide (k <= 0)%nat). }
  pose proof Hre as (Hg' & E1 & E2).
  eapply wp_mono; [apply (recover_logical l' (cv_n v)); [done|exact (rebooted_ok _ _ _ _ Hre Hok)|done|exact Hc']|].
  intros [] s2 (v2 & Ha2 & Hse2 & _ & Hn2 & _ & Hb2). split; [done|]. exists v2. split_and!; [done|done|].
  intros b Hb. destruct (Hb2 b) as [H1 H2]; [by apply (rebooted_home _ _ _ _ Hre)|]. split; [done|].
  rewrite H1, E1, Hlo by done. unfold committed. done.
Qed.

(** A recovery that starts on disk [D] and is cut off by a crash after [k] of
    its block writes. *)
Definition recovery_crash (l : log) (n : Z) (D D' : Z -> block) : Prop :=
  exists c s' k, cabs c (fresh_view n D) /\ recover_from_log (Lst l c) = (Ret tt, s') /\
    D' = apply_writes D (take k (cwlog (lc s'))).

Lemma recovery_crash_step l n D D' :
  geom l n -> disk_ok l n D -> (1 < cap)%nat -> recovery_crash l n D D' -> crash_step (lg_start l) D D'.
Proof.
  intros Hg Hok Hcap (c & s' & k & Hc & Hr & ->).
  pose proof (recover_logical l n D c Hg Hok Hcap Hc) as Hw. unfold wp in Hw. rewrite Hr in Hw.
  destruct Hw as (v2 & _ & _ & _ & _ & -> & _). by exists k.
Qed.

(** C2: recovery is idempotent: however often it is cut off by a crash and
    started again from the disk that is left, the recovery that completes makes
    each block outside of the log region what the first one would have made it. *)
Theorem recovery_idempotent l n D D' :
  geom l n -> disk_ok l n D -> (1 < cap)%nat -> rtc (recovery_crash l n) D D' ->
  forall c, cabs c (fresh_view n D') ->
  wp recover_from_log
    (fun _ s2 => lh_n (lg s2) = 0 /\ exists v2, cabs (lc s2) v2 /\ settled v2 /\
       forall b, home l n b -> cv_disk v2 b = logical (lg_start l) D b)
    (Lst l c).
Proof.
  intros Hg Hok Hcap Hr.
  assert (disk_ok l n D' /\ forall b, home l n b -> logical (lg_start l) D' b = logical (lg_start l) D b) as [Hok' Hlo].
  { induction Hr as [D|D D1 D2 H1 H2 IH]; [done|].
    apply (recovery_crash_step l n D D1 Hg Hok Hcap) in H1.
    destruct (IH (proj1 (crash_step_logical l n D D1 0 Hg Hok H1))) as [Hok2 Hl]. split; [done|].
    intros b Hb. rewrite Hl by done. by apply (crash_step_logical l n D D1 b Hg Hok H1). }
  intros c Hc. eapply wp_mono; [by apply (recover_logical l n D')|].
  intros [] s2 (v2 & Ha2 & Hse2 & _ & Hn2 & _ & Hb2). split; [done|]. exists v2. split_and!; [done|done|].
  intros b Hb. destruct (Hb2 b Hb) as [-> _]. by apply Hlo.
Qed.

(** ** Operations of a transaction *)
Lemma absorb_nodup b L : NoDup L -> NoDup (absorb b L).
Proof.
  intros Hnd. unfold absorb. case_decide; [done|]. apply NoDup_app.
  split_and!; [done| |apply NoDup_singleton]. intros x Hx ->%list_elem_of_singleton. done.
Qed.

Lemma absorb_elem b L x : x ∈ absorb b L <-> x = b \/ x ∈ L.
Proof. unfold absorb. case_decide; set_solver. Qed.

(** [log_write] on a held buffer records its block in the transaction
    exactly once (a block already in it is absorbed), marks the buffer dirty so
    that it stays in the cache, and changes nothing else. *)
Theorem log_write_absorbs s v L i b :
  lg_lock (lg s) = false -> length (lh_block (lg s)) = 30%nat -> in_header (lg s) L -> NoDup L ->
  Forall (fun x => 0 <= x < 2147483648) L -> lh_n (lg s) < LOGSIZE -> lh_n (lg s) < lg_size (lg s) - 1 -> 1 <= lg_outstanding (lg s) ->
  cabs (lc s) v -> handle (lc s) i b ->
  exists s' L', log_write i s = (Ret tt, s') /\ in_header (lg s') L' /\ NoDup L' /\
    (forall x, x ∈ L' <-> x = b \/ x ∈ L) /\
    same_log (lg s) (lg s') /\ cabs (lc s') (v_dirty b v) /\ keeps (lc s) (lc s').
Proof.
  intros Hlk Hlen Hh Hnd Hint H1 H2 H3 Ha Hha.
  assert (wp (log_write i) (fun _ s' => in_header (lg s') (absorb b L) /\ same_log (lg s) (lg s') /\
     cabs (lc s') (v_dirty b v) /\ keeps (lc s) (lc s')) s) as Hw.
  { eapply wp_log_write; [done..|]. auto. }
  destruct (wp_returns _ _ _ Hw) as ([] & s' & Hr & Hh' & Hs' & Ha' & Hk').
  exists s', (absorb b L). split_and!; try done; [by apply absorb_nodup|]. intros x. apply absorb_elem.
Qed.

(** [s] with another [struct log] that has the same region and transaction. *)
Lemma commit_ready_log s v L l :
  lg_start l = lg_start (lg s) -> lg_size l = lg_size (lg s) -> lg_dev l = lg_dev (lg s) ->
  lh_n l = lh_n (lg s) -> lh_block l = lh_block (lg s) ->
  commit_ready s v L -> commit_ready (Lst l (lc s)) v L.
Proof.
  intros E1 E2 E3 E4 E5 [Hg Htx Hh Ha Hse Hd Hcap Hst Hlen Hcl]. split; simpl; rewrite ?E1; try done.
  - destruct Hg. split; congruence.
  - unfold txn_ok, home in *. by rewrite E1, E2.
  - destruct Hh. split; congruence.
Qed.

Lemma commit_log_nonempty s v L : L <> [] ->
  commit_log s v L = commit_writes (lg_start (lg s)) (cv_view v) (cv_view v (lg_start (lg s))) L.
Proof. by destruct L. Qed.

Lemma apply_commit_log s v L b :
  commit_ready s v L -> home (lg s) (cv_n v) b ->
  apply_writes (cv_disk v) (commit_log s v L) b = committed (cv_disk v) (cv_view v) L b /\
  apply_writes (cv_view v) (commit_log s v L) b = cv_view v b.
Proof.
  intros [Hg (Hls & _ & Hnd & Hh) _ _ _ _ _ _ _ _] Hb. unfold committed.
  assert (forall D, apply_writes D (commit_log s v L) b = if decide (b ∈ L) then cv_view v b else D b) as H.
  { intros D. destruct (decide (L = [])) as [->|Hne]; [done|]. rewrite (commit_log_nonempty s v L Hne).
    assert (b <> lg_start (lg s)) as Hbs by (unfold home in Hb; destruct Hg; lia).
    unfold commit_writes. rewrite !apply_writes_app. simpl. rewrite upd_fn_ne by done.
    case_decide as Hin.
    - apply apply_writes_in; [rewrite fst_zip; [done|by rewrite length_fmap]|].
      apply list_elem_of_lookup in Hin as [t Ht]. eapply list_elem_of_lookup_2, zip_lookup; [exact Ht|].
      by rewrite list_lookup_fmap, Ht.
    - rewrite apply_writes_out by (rewrite fst_zip; [done|by rewrite length_fmap]).
      rewrite upd_fn_ne by done. apply apply_writes_out. intros Hr%log_writes_range.
      rewrite length_fmap in Hr. unfold home in Hb. lia. }
  rewrite !H. split; [done|]. by case_decide.
Qed.

(** the [end_op] that leaves no operation outstanding commits: it returns
    with the log idle and empty, every logged block has reached its home on
    disk, and what readers see is unchanged. *)
Theorem end_op_commits s v L :
  commit_ready s v L -> lg_lock (lg s) = false -> lg_outstanding (lg s) = 1 -> lg_committing (lg s) = 0 ->
  exists s' v', end_op s = (Ret tt, s') /\
    lg_lock (lg s') = false /\ lg_outstanding (lg s') = 0 /\ lg_committing (lg s') = 0 /\ lh_n (lg s') = 0 /\
    cabs (lc s') v' /\ settled v' /\ (forall b, b ∈ L -> b ∉ cv_dirty v') /\
    forall b, home (lg s) (cv_n v) b ->
      cv_view v' b = cv_view v b /\
      cv_disk v' b = if decide (b ∈ L) then cv_view v b else cv_disk v b.
Proof.
  intros Hr Hlk Ho Hc.
  set (l1 := set_lg_lock (fun _ => false) (set_committing 1 (set_outstanding (fun o => o - 1)
    (set_lg_lock (fun _ => true) (lg s))))).
  assert (commit_ready (Lst l1 (lc s)) v L) as Hr1 by by apply commit_ready_log.
  destruct (wp_returns _ _ _ (commit_run _ _ _ Hr1)) as ([] & s2 & Hrun & Hlg2 & Ha2).
  destruct s2 as [l2 c2]. simpl in Hlg2, Ha2. subst l2.
  assert (wp end_op (fun _ s' => s' = Lst (set_committing 0 (set_lh_n 0 l1)) (over cenv (env_wake log_chan) c2)) s)
    as Hw.
  { unfold end_op, upd_log, lg_get, wakeup_ev. wp_step. eapply wp_eq; [by apply acquire_flag_run|].
    do 5 wp_step. wp_step; [by cbn; rewrite Hc|]. wp_step. cbn -[wp]. rewrite Ho.
    change (1 - 1 =? 0) with true. cbv iota. wp_steps.
    eapply wp_eq; [by apply release_flag_run|]. cbn [when]. wp_step.
    eapply wp_eq; [exact Hrun|]. wp_step. eapply wp_eq; [by apply acquire_flag_run|]. wp_steps.
    eapply wp_eq; [by apply release_flag_run|]. done. }
  destruct (wp_returns _ _ _ Hw) as ([] & s' & Hend & ->).
  eexists _, (v_puts (commit_log (Lst l1 (lc s)) v L) v). split; [exact Hend|].
  destruct (v_puts_fields (commit_log (Lst l1 (lc s)) v L) v) as (E1 & E2 & E3 & E4 & E5 & E6).
  cbn. rewrite Ho. split_and!; try done.
  - by apply cenv_abs.
  - apply settled_puts, Hr.
  - intros b Hb. rewrite E4, elem_of_difference, elem_of_list_to_set. intros [_ Hn]. apply Hn.
    destruct (decide (L = [])) as [->|Hne]; [set_solver|]. rewrite commit_log_nonempty by done.
    unfold commit_writes. rewrite !fmap_app, (fst_zip _ _) by (by rewrite length_fmap). set_solver.
  - intros b Hb. rewrite E2, E3. destruct (apply_commit_log _ _ _ b Hr1 Hb) as [H1 H2]. by rewrite H1, H2.
Qed.

End Crash.

(** ** Space in the log

    Operations of several processes interleaved: [us] are the numbers of
    [log_write]s of the outstanding operations, each at most MAXOPBLOCKS. *)
Section Space.
Context {C : Type} {HC : BlockCache C}.
Implicit Types (s : lst C).

Inductive op_step : lst C * list Z -> lst C * list Z -> Prop :=
| op_begin s s' us :
    begin_op s = (Ret tt, s') -> op_step (s, us) (s', us ++ [0])
| op_write s s' us k u b :
    us !! k = Some u -> u < MAXOPBLOCKS -> log_write b s = (Ret tt, s') ->
    op_step (s, us) (s', <[k := u + 1]> us)
| op_end s s' us k u :
    us !! k = Some u -> end_op s = (Ret tt, s') -> op_step (s, us) (s', delete k us).

(** The unused reservations of the outstanding operations. *)
Definition reserved (us : list Z) : Z := foldr (fun u r => MAXOPBLOCKS - u + r) 0 us.

Record space_ok (x : lst C * list Z) : Prop := {
  sp_n : 0 <= lh_n (lg x.1);
  sp_room : lh_n (lg x.1) + reserved x.2 <= LOGSIZE;
  sp_out : lg_outstanding (lg x.1) = Z.of_nat (length x.2);
  sp_used : Forall (fun u => 0 <= u <= MAXOPBLOCKS) x.2;
  sp_ops : Z.of_nat (length x.2) * MAXOPBLOCKS <= LOGSIZE;
}.

(** A routine that only touches the cache. *)
Definition keeps_log {A} (m : M (lst C) A) : Prop := forall s o s', m s = (o, s') -> lg s' = lg s.

Lemma keeps_log_zoom {A} (m : M C A) : keeps_log (zoom lc_lens m).
Proof. intros s o s'. unfold zoom. destruct (m _) as [o' c']. by intros [= <- <-]. Qed.

Lemma keeps_log_bind {A B} (m : M (lst C) A) (k : A -> M (lst C) B) :
  keeps_log m -> (forall a, keeps_log (k a)) -> keeps_log (bind m k).
Proof.
  intros Hm Hk s o s'. unfold bind. destruct (m s) as [[a|msg|c] s1] eqn:E; apply Hm in E.
  - intros H. apply Hk in H. congruence.
  - by intros [= <- <-].
  - by intros [= <- <-].
Qed.

Lemma keeps_log_gets {A} (f : lst C -> A) : keeps_log (gets f).
Proof. by intros s o s' [= <- <-]. Qed.

Lemma keeps_log_for {I} (l : list I) (body : I -> M (lst C) unit) :
  (forall i, keeps_log (body i)) -> keeps_log (for_each l body).
Proof.
  intros Hb. induction l as [|i l IH]; simpl; [by intros s o s' [= <- <-]|by apply keeps_log_bind].
Qed.

Lemma keeps_log_get_lh i : keeps_log (get_lh_block i).
Proof.
  apply keeps_log_bind; [apply keeps_log_gets|]. intros l. by destruct (_ !! _); intros s o s' [= <- <-].
Qed.

Ltac keeps_log_auto :=
  repeat match goal with
  | |- keeps_log (bind _ _) => apply keeps_log_bind
  | |- keeps_log (for_each _ _) => apply keeps_log_for
  | |- keeps_log (lg_get _) => apply keeps_log_gets
  | |- keeps_log (c_data _) => apply keeps_log_gets
  | |- keeps_log (get_lh_block _) => apply keeps_log_get_lh
  | |- keeps_log _ => apply keeps_log_zoom
  | |- forall _, _ => intros ?
  end.

Lemma keeps_log_install : keeps_log install_trans.
Proof.
  unfold install_trans.
  keeps_log_auto.
Qed.

Lemma keeps_log_write_log : keeps_log write_log.
Proof.
  unfold write_log.
  keeps_log_auto.
Qed.

Lemma keeps_log_write_head : keeps_log write_head.
Proof.
  unfold write_head. keeps_log_auto.
Qed.

Lemma commit_empties s a s' : commit s = (Ret a, s') -> 0 <= lh_n (lg s) -> lg s' = set_lh_n 0 (lg s).
Proof.
  unfold commit, lg_get. intros H Hn. unfold bind at 1, gets in H.
  destruct (0 <? lh_n (lg s)) eqn:E; bool_to_prop; cbn [when] in H.
  - inv_ret. unfold upd_log in *. inv_ret.
    repeat match goal with
    | H : write_head _ = _ |- _ => apply keeps_log_write_head in H
    | H : write_log _ = _ |- _ => apply keeps_log_write_log in H
    | H : install_trans _ = _ |- _ => apply keeps_log_install in H
    end. simpl in *. congruence.
  - injection H as <- <-. assert (lh_n (lg s) = 0) as E0 by lia. unfold set_lh_n. rewrite <- E0.
    by destruct (lg s).
Qed.

Lemma reserved_app us vs : reserved (us ++ vs) = reserved us + reserved vs.
Proof. unfold reserved. induction us as [|u us IH]; simpl; [done|]. rewrite IH. lia. Qed.

Lemma reserved_delete us k u : us !! k = Some u ->
  reserved us = reserved (delete k us) + (MAXOPBLOCKS - u).
Proof.
  intros Hk. rewrite <- (take_drop_middle us k u Hk) at 1. rewrite delete_take_drop, !reserved_app.
  simpl. lia.
Qed.

Lemma reserved_insert us k u v : us !! k = Some u -> reserved (<[k := v]> us) = reserved us + u - v.
Proof.
  intros Hk. pose proof (lookup_lt_Some _ _ _ Hk).
  rewrite insert_take_drop by done. rewrite <- (take_drop_middle us k u Hk) at 3.
  rewrite !reserved_app. simpl. lia.
Qed.

Lemma reserved_bounds us : Forall (fun u => 0 <= u <= MAXOPBLOCKS) us ->
  0 <= reserved us <= MAXOPBLOCKS * Z.of_nat (length us).
Proof.
  unfold MAXOPBLOCKS. induction 1 as [|u us Hu Hus IH]; [done|].
  unfold reserved, MAXOPBLOCKS in *. cbn [foldr length]. lia.
Qed.

Lemma begin_op_returns s s' : begin_op s = (Ret tt, s') ->
  lg s' = set_outstanding (Z.add 1) (lg s) /\ lc s' = lc s /\
  lh_n (lg s) + (lg_outstanding (lg s) + 1) * MAXOPBLOCKS <= LOGSIZE /\ lg_committing (lg s) = 0.
Proof.
  unfold begin_op, acquire_flag, release_flag, sleep_flag, sleep_on, lg_get, upd_log.
  unfold bind, gets, panic_if, modify, ret, panic. simpl.
  destruct (lg_lock (lg s)) eqn:El; [done|]. simpl.
  destruct (negb _) eqn:E1; [done|]. destruct (LOGSIZE <? _) eqn:E2; [done|]. bool_to_prop. simpl.
  intros [= <-]. simpl. split_and!; [|done|lia|done]. destruct (lg s); simpl in *. by subst.
Qed.

Lemma acquire_flag_inv s a s' : acquire_flag lglock s = (Ret a, s') ->
  lg s' = set_lg_lock (fun _ => true) (lg s).
Proof.
  unfold acquire_flag, bind, gets, panic_if. simpl. destruct (lg_lock _); [done|]. by intros [= <- <-].
Qed.

Lemma release_flag_inv s a s' : release_flag lglock s = (Ret a, s') ->
  lg s' = set_lg_lock (fun _ => false) (lg s).
Proof.
  unfold release_flag, bind, gets, panic_if. simpl. destruct (lg_lock _); [|done]. by intros [= <- <-].
Qed.

Lemma end_op_returns s s' : end_op s = (Ret tt, s') -> 0 <= lh_n (lg s) ->
  lg_outstanding (lg s') = lg_outstanding (lg s) - 1 /\ 0 <= lh_n (lg s') <= lh_n (lg s).
Proof.
  intros H Hn. unfold end_op, upd_log, lg_get, wakeup_ev in H.
  apply bind_Ret_inv in H as ([] & s1 & H1%acquire_flag_inv & H).
  unfold bind at 1, modify at 1 in H. unfold bind at 1, gets at 1 in H. cbn [id] in H.
  apply bind_Ret_inv in H as ([] & s2 & H2 & H).
  assert (s2 = over lg_lens (set_outstanding (fun o => o - 1)) s1) as ->.
  { unfold panic_if in H2. destruct (negb _); [done|]. by injection H2 as <-. }
  destruct (lg_outstanding _ =? 0).
  - inv_ret. cbn [when] in H. inv_ret.
    repeat match goal with
    | Hx : release_flag _ _ = _ |- _ => apply release_flag_inv in Hx
    | Hx : acquire_flag _ _ = _ |- _ => apply acquire_flag_inv in Hx
    end.
    match goal with Hx : commit _ = _ |- _ => apply commit_empties in Hx; [|rewrite Hm0; simpl; by rewrite H1] end.
    repeat (match goal with E : lg ?s = _ |- context [lg ?s] => rewrite E end; simpl). lia.
  - inv_ret. apply release_flag_inv in Hm0. cbn [when] in H. inv_ret. rewrite Hm0. simpl. rewrite H1. simpl. lia.
Qed.

Lemma for_until_keeps {I R} (l : list I) (body : I -> M (lst C) (option R)) :
  (forall i, keeps_log (body i)) -> keeps_log (for_until l body).
Proof.
  intros Hb. induction l as [|i l IH]; simpl; [by intros s o s' [= <- <-]|].
  apply keeps_log_bind; [done|]. intros [r|]; [by intros s o s' [= <- <-]|done].
Qed.

Lemma log_write_returns b s s' : log_write b s = (Ret tt, s') ->
  lg_outstanding (lg s') = lg_outstanding (lg s) /\ lg_size (lg s') = lg_size (lg s) /\
  lh_n (lg s) <= lh_n (lg s') <= lh_n (lg s) + 1.
Proof.
  intros H. unfold log_write in H. unfold lg_get at 1 in H. unfold bind at 1, gets at 1 in H. cbn [id] in H.
  apply bind_Ret_inv in H as ([] & s1 & H1 & H). apply bind_Ret_inv in H as ([] & s2 & H2 & H).
  assert (s1 = s) as -> by (unfold panic_if in H1; destruct (_ || _); [done|by injection H1]).
  assert (s2 = s) as -> by (unfold panic_if in H2; destruct (_ <? _); [done|by injection H2]).
  apply bind_Ret_inv in H as ([] & s3 & H3%acquire_flag_inv & H).
  unfold bind at 1, gets at 1 in H. apply bind_Ret_inv in H as (r & s4 & H4 & H).
  apply for_until_keeps in H4; [|intros i; apply keeps_log_bind; [apply keeps_log_get_lh|intros ? ? ? ?; by intros [= <- <-]]].
  apply bind_Ret_inv in H as ([] & s5 & H5 & H).
  assert (exists f, lg s5 = set_lh_block f (lg s4)) as [f H5'].
  { unfold put_lh_block, lg_get, upd_log, panic_if in H5. inv_ret. destruct (negb _); [done|]. inv_ret. by eexists. }
  apply bind_Ret_inv in H as ([] & s6 & H6 & H). apply bind_Ret_inv in H as ([] & s7 & H7%keeps_log_zoom & H%release_flag_inv).
  rewrite H, H7. unfold when, upd_log in H6.
  destruct (_ =? _) eqn:E; inv_ret; simpl; rewrite H5'; simpl; rewrite H4, H3; simpl; lia.
Qed.

Lemma space_step x y : op_step x y -> space_ok x -> space_ok y.
Proof.
  intros Hs [Hn Hr Ho Hu Hops]. destruct Hs as [s s' us Hb|s s' us k u b Hk Hlt Hw|s s' us k u Hk He]; simpl in *.
  - apply begin_op_returns in Hb as (E & _ & Hg & _). pose proof (reserved_bounds us Hu) as Hb.
    unfold MAXOPBLOCKS in *. split; simpl; rewrite ?E; simpl; [done| | | |].
    + rewrite reserved_app. simpl. unfold MAXOPBLOCKS. lia.
    + rewrite length_app. simpl. lia.
    + apply Forall_app. split; [done|]. apply Forall_singleton. unfold MAXOPBLOCKS. lia.
    + rewrite length_app. simpl. unfold MAXOPBLOCKS. lia.
  - apply log_write_returns in Hw as (E1 & _ & E2). pose proof (Forall_lookup_1 _ _ _ _ Hu Hk) as Hb.
    split; simpl; [lia|rewrite (reserved_insert _ _ _ _ Hk); lia|by rewrite length_insert, E1| |by rewrite length_insert].
    apply Forall_insert; [done|]. simpl in Hb. lia.
  - apply end_op_returns in He as [E1 E2]; [|done]. pose proof (Forall_lookup_1 _ _ _ _ Hu Hk) as Hb.
    pose proof (reserved_delete _ _ _ Hk) as Hd. pose proof (lookup_lt_Some _ _ _ Hk). simpl in Hb.
    assert (length (delete k us) = length us - 1)%nat as Hl by (apply length_delete; by eexists).
    unfold MAXOPBLOCKS in *. split; simpl; [lia|lia|lia|by apply Forall_delete|unfold MAXOPBLOCKS; lia].
Qed.


End Space.

(** ** Witnesses on the cache of bio.c *)
Lemma bio_fresh (d : list block) :
  Z.of_nat (length d) <= 2147483648 -> exists c : Bio.bio, cabs c (fresh_view (Z.of_nat (length d)) (Bio.disk_fn d)).
Proof. intros Hd. destruct (Bio.binit_abs d 1) as (s & _ & Hw & Ha). exists s. by split_and!. Qed.

Lemma bio_cap : cap (C := Bio.bio) = 30%nat.
Proof. reflexivity. Qed.

(** A cache in which the buffer of block [b] is held. *)
Lemma bio_held (d : list block) (b : Z) :
  0 <= b < Z.of_nat (length d) -> Z.of_nat (length d) <= 2147483648 ->
  exists (c : Bio.bio) i, cabs c (v_lock b (fresh_view (Z.of_nat (length d)) (Bio.disk_fn d))) /\ handle c i b.
Proof.
  intros Hb Hd. destruct (bio_fresh d Hd) as [c0 Hc0].
  assert (size (∅ ∪ ∅ : gset Z) < cap (C := Bio.bio))%nat as Hav
    by (replace (∅ ∪ ∅ : gset Z) with (∅ : gset Z) by set_solver; rewrite size_empty, bio_cap; lia).
  destruct (wp_returns _ _ _ (bread_law c0 _ b Hc0 Hb ltac:(simpl; set_solver) (or_intror Hav)))
    as (i & c1 & _ & Hc1 & Hh1 & _). by exists c1, i.
Qed.

(** A cache in which block [b] has been modified and marked dirty. *)
Lemma bio_modified (d : list block) (b : Z) (x : block) :
  0 <= b < Z.of_nat (length d) -> Z.of_nat (length d) <= 2147483648 ->
  exists c : Bio.bio,
    cabs c (CView (Z.of_nat (length d)) (Bio.disk_fn d) (upd_fn (Bio.disk_fn d) b x) {[b]} ∅ []).
Proof.
  intros Hb Hd. destruct (bio_held d b Hb Hd) as (c1 & i & Hc1 & Hh1).
  destruct (wp_returns _ _ _ (set_bdata_law c1 _ i b (fun _ => x) Hc1 Hh1)) as ([] & c2 & _ & Hc2 & Hk2).
  destruct (wp_returns _ _ _ (set_dirty_law c2 _ i b Hc2 (Hk2 _ _ Hh1))) as ([] & c3 & _ & Hc3 & Hk3).
  destruct (wp_returns _ _ _ (brelse_law c3 _ i b Hc3 (Hk3 _ _ (Hk2 _ _ Hh1)) ltac:(left; simpl; set_solver)))
    as ([] & c4 & _ & Hc4 & _).
  exists c4. eapply cabs_ext; [exact Hc4|done| |simpl; set_solver|done|done]. simpl. set_solver.
Qed.

(** A disk of eight zero blocks with the log in blocks 2 to 5. *)
Definition disk8 : list block := replicate 8 zero_block.

Definition log8 (o n b : Z) : log := Log false 2 4 o 0 1 n (b :: replicate 29 0).

Lemma geom8 o n b : geom (log8 o n b) 8.
Proof. by split. Qed.

Lemma disk8_at b : 0 <= b < 8 -> Bio.disk_fn disk8 b = zero_block.
Proof.
  intros Hb. unfold Bio.disk_fn, disk8. by rewrite lookup_replicate_2 by lia.
Qed.

Lemma zero_hdr : hdr_n zero_block = 0 /\ length zero_block = BSIZE.
Proof. vm_compute. done. Qed.

Lemma txn8 o n : txn_ok (log8 o n 6) 8 [6].
Proof.
  split_and!; [done|simpl; lia|apply NoDup_singleton|]. constructor; [|constructor].
  split; simpl; lia.
Qed.

Lemma ready8 o : exists (s : lst Bio.bio) v, lg s = log8 o 1 6 /\ cv_n v = 8 /\ commit_ready s v [6].
Proof.
  destruct (bio_modified disk8 6 [7]) as [c Hc]; [done|done|].
  exists (Lst (log8 o 1 6) c), (CView 8 (Bio.disk_fn disk8) (upd_fn (Bio.disk_fn disk8) 6 [7]) {[6]} ∅ []).
  assert (size ({[6%Z]} : gset Z) < cap (C := Bio.bio))%nat as Hsz by (rewrite size_singleton, bio_cap; lia).
  split_and!; [done|done|]. split; cbn [lg lc cv_n cv_disk cv_view cv_dirty lg_start log8];
    [apply geom8|apply txn8|done|exact Hc| |apply Forall_singleton; set_solver|exact Hsz|
     set_solver|rewrite disk8_at by done; apply zero_hdr|rewrite disk8_at by done; apply zero_hdr].
  split; [done|]. intros b _ Hb. simpl in *. apply upd_fn_ne. set_solver.
Qed.

Lemma commit_crash_atomic_witness :
  exists (s s' : lst Bio.bio), lh_n (lg s) = 1 /\ commit s = (Ret tt, s').
Proof.
  destruct (ready8 0) as (s & v & Hs & Hn & Hr).
  destruct (commit_crash_atomic s v [6] Hr ltac:(rewrite bio_cap; lia)) as (s' & W & Hrun & _).
  exists s, s'. rewrite Hs. done.
Defined.

Lemma disk_ok8 o n b D : (forall x, 0 <= x < 8 -> D x = zero_block) -> disk_ok (log8 o n b) 8 D.
Proof.
  intros HD. destruct zero_hdr as [H1 H2]. unfold disk_ok. cbn [lg_start log8]. rewrite HD by done.
  split_and!; [done|by rewrite H1|]. by apply txn_ok_empty.
Qed.

Lemma recovery_idempotent_witness :
  exists (c : Bio.bio) s2, recover_from_log (Lst (log8 0 0 0) c) = (Ret tt, s2) /\ lh_n (lg s2) = 0.
Proof.
  destruct (bio_fresh disk8) as [c Hc]; [done|].
  pose proof (recovery_idempotent (C := Bio.bio) (log8 0 0 0) 8 (Bio.disk_fn disk8) (Bio.disk_fn disk8)
    (geom8 0 0 0) (disk_ok8 0 0 0 _ disk8_at) ltac:(rewrite bio_cap; lia) ltac:(apply rtc_refl) c Hc) as Hw.
  destruct (wp_returns _ _ _ Hw) as ([] & s2 & Hr & Hn & _). exists c, s2. done.
Defined.

Lemma log_write_absorbs_witness :
  exists (s s' : lst Bio.bio) i L', log_write i s = (Ret tt, s') /\ in_header (lg s') L' /\ 7 ∈ L' /\ 6 ∈ L'.
Proof.
  destruct (bio_held disk8 7) as (c & i & Hc & Hh); [done|done|].
  destruct (log_write_absorbs (Lst (log8 1 1 6) c) _ [6] i 7 eq_refl eq_refl ltac:(done)
    ltac:(apply NoDup_singleton) ltac:(by apply Forall_singleton) ltac:(done) ltac:(done) ltac:(done) Hc Hh)
    as (s' & L' & Hr & Hh' & _ & Hx & _).
  exists (Lst (log8 1 1 6) c), s', i, L'. split_and!; [done|done|apply Hx; by left|apply Hx; right; set_solver].
Defined.

Lemma end_op_commits_witness :
  exists (s s' : lst Bio.bio), lh_n (lg s) = 1 /\ end_op s = (Ret tt, s') /\ lh_n (lg s') = 0.
Proof.
  destruct (ready8 1) as (s & v & Hs & Hn & Hr).
  destruct (end_op_commits s v [6] Hr ltac:(by rewrite Hs) ltac:(by rewrite Hs) ltac:(by rewrite Hs))
    as (s' & v' & Hrun & _ & _ & _ & H0 & _).
  exists s, s'. rewrite Hs. done.
Defined.

(** An operation that modifies one block through the log. *)
Definition log_block (b : Z) : M (lst Bio.bio) unit :=
  i ← c_bread 1 b;
  c_set_data i (put32 0 b) ;;
  log_write i ;;
  c_brelse i.

(** The machine after [binit], with the log in blocks 2 to [2 + size - 1]. *)
Definition boot_log (size : Z) (d : list block) : lst Bio.bio :=
  Lst (Log false 2 size 0 0 1 0 (replicate 30 0)) (Bio.binit (Bio.boot d 1)).2.


