(* ===== verification/Proc.v ===== *)
(** * Processes (src/xv6/proc.c, src/xv6/proc.h)

    The process table, the operations on it and the two schedulers.  A process is
    the index of its slot in the table; the null pointer is [None].  What proc.c
    calls in kalloc.c, vm.c, file.c, fs.c and log.c is the class [KernelServices];
    [swtch] is a parameter: what the machine does until control comes back. *)
From S2P Require Import Prelude Spinlock Kalloc Mmu.

Definition NPROC : nat := 64.

Definition NOFILE : nat := 16.

Inductive procstate : Type := UNUSED | EMBRYO | SLEEPING | RUNNABLE | RUNNING | ZOMBIE.

#[export] Instance procstate_eq_dec : EqDecision procstate.
Proof. solve_decision. Defined.

(** [struct trapframe], without its padding *)
Record trapframe : Type := Trapframe {
  tf_edi : Z;
  tf_esi : Z;
  tf_ebp : Z;
  tf_oesp : Z;
  tf_ebx : Z;
  tf_edx : Z;
  tf_ecx : Z;
  tf_eax : Z;
  tf_gs : Z;
  tf_fs : Z;
  tf_es : Z;
  tf_ds : Z;
  tf_trapno : Z;
  tf_err : Z;
  tf_eip : Z;
  tf_cs : Z;
  tf_eflags : Z;
  tf_esp : Z;
  tf_ss : Z;
}.

Definition upd_tf_eax (f : Z -> Z) (x : trapframe) : trapframe :=
  Trapframe (tf_edi x) (tf_esi x) (tf_ebp x) (tf_oesp x) (tf_ebx x) (tf_edx x) (tf_ecx x) (f (tf_eax x))
    (tf_gs x) (tf_fs x) (tf_es x) (tf_ds x) (tf_trapno x) (tf_err x) (tf_eip x) (tf_cs x)
    (tf_eflags x) (tf_esp x) (tf_ss x).

Definition zero_tf : trapframe := Trapframe 0 0 0 0 0 0 0 0 0 0 0 0 0 0 0 0 0 0 0.

(** [struct context] *)
Record context : Type := Context {
  ctx_edi : Z;
  ctx_esi : Z;
  ctx_ebx : Z;
  ctx_ebp : Z;
  ctx_eip : Z;
}.

(** [struct proc].  [p_tf] and [p_context] are the pointers into the kernel stack,
    [p_tf_data] and [p_context_data] what they point to, and [p_ret_addr] the
    word between them *)
Record proc : Type := Proc {
  p_sz : Z;
  p_pgdir : Z;
  p_kstack : Z;
  p_state : procstate;
  p_pid : Z;
  p_parent : option nat;
  p_tf : Z;
  p_tf_data : trapframe;
  p_context : Z;
  p_context_data : context;
  p_ret_addr : Z;
  p_chan : Z;
  p_killed : Z;
  p_ofile : list Z;
  p_cwd : Z;
  p_name : list Z;
  p_scheduler : Z;
  p_is_threaded : Z;
  p_priority : Z;
  p_ticks : list Z;
  p_wait_ticks : list Z;
}.

Definition upd_p_sz (f : Z -> Z) (x : proc) : proc :=
  Proc (f (p_sz x)) (p_pgdir x) (p_kstack x) (p_state x) (p_pid x) (p_parent x) (p_tf x) (p_tf_data
    x) (p_context x) (p_context_data x) (p_ret_addr x) (p_chan x) (p_killed x) (p_ofile x)
    (p_cwd x) (p_name x) (p_scheduler x) (p_is_threaded x) (p_priority x) (p_ticks x)
    (p_wait_ticks x).

Definition upd_p_pgdir (f : Z -> Z) (x : proc) : proc :=
  Proc (p_sz x) (f (p_pgdir x)) (p_kstack x) (p_state x) (p_pid x) (p_parent x) (p_tf x) (p_tf_data
    x) (p_context x) (p_context_data x) (p_ret_addr x) (p_chan x) (p_killed x) (p_ofile x)
    (p_cwd x) (p_name x) (p_scheduler x) (p_is_threaded x) (p_priority x) (p_ticks x)
    (p_wait_ticks x).

Definition upd_p_kstack (f : Z -> Z) (x : proc) : proc :=
  Proc (p_sz x) (p_pgdir x) (f (p_kstack x)) (p_state x) (p_pid x) (p_parent x) (p_tf x) (p_tf_data
    x) (p_context x) (p_context_data x) (p_ret_addr x) (p_chan x) (p_killed x) (p_ofile x)
    (p_cwd x) (p_name x) (p_scheduler x) (p_is_threaded x) (p_priority x) (p_ticks x)
    (p_wait_ticks x).

Definition upd_p_state (f : procstate -> procstate) (x : proc) : proc :=
  Proc (p_sz x) (p_pgdir x) (p_kstack x) (f (p_state x)) (p_pid x) (p_parent x) (p_tf x) (p_tf_data
    x) (p_context x) (p_context_data x) (p_ret_addr x) (p_chan x) (p_killed x) (p_ofile x)
    (p_cwd x) (p_name x) (p_scheduler x) (p_is_threaded x) (p_priority x) (p_ticks x)
    (p_wait_ticks x).

Definition upd_p_pid (f : Z -> Z) (x : proc) : proc :=
  Proc (p_sz x) (p_pgdir x) (p_kstack x) (p_state x) (f (p_pid x)) (p_parent x) (p_tf x) (p_tf_data
    x) (p_context x) (p_context_data x) (p_ret_addr x) (p_chan x) (p_killed x) (p_ofile x)
    (p_cwd x) (p_name x) (p_scheduler x) (p_is_threaded x) (p_priority x) (p_ticks x)
    (p_wait_ticks x).

Definition upd_p_parent (f : (option nat) -> (option nat)) (x : proc) : proc :=
  Proc (p_sz x) (p_pgdir x) (p_kstack x) (p_state x) (p_pid x) (f (p_parent x)) (p_tf x) (p_tf_data
    x) (p_context x) (p_context_data x) (p_ret_addr x) (p_chan x) (p_killed x) (p_ofile x)
    (p_cwd x) (p_name x) (p_scheduler x) (p_is_threaded x) (p_priority x) (p_ticks x)
    (p_wait_ticks x).

Definition upd_p_tf (f : Z -> Z) (x : proc) : proc :=
  Proc (p_sz x) (p_pgdir x) (p_kstack x) (p_state x) (p_pid x) (p_parent x) (f (p_tf x)) (p_tf_data
    x) (p_context x) (p_context_data x) (p_ret_addr x) (p_chan x) (p_killed x) (p_ofile x)
    (p_cwd x) (p_name x) (p_scheduler x) (p_is_threaded x) (p_priority x) (p_ticks x)
    (p_wait_ticks x).

Definition upd_p_tf_data (f : trapframe -> trapframe) (x : proc) : proc :=
  Proc (p_sz x) (p_pgdir x) (p_kstack x) (p_state x) (p_pid x) (p_parent x) (p_tf x) (f (p_tf_data
    x)) (p_context x) (p_context_data x) (p_ret_addr x) (p_chan x) (p_killed x) (p_ofile x)
    (p_cwd x) (p_name x) (p_scheduler x) (p_is_threaded x) (p_priority x) (p_ticks x)
    (p_wait_ticks x).

Definition upd_p_context (f : Z -> Z) (x : proc) : proc :=
  Proc (p_sz x) (p_pgdir x) (p_kstack x) (p_state x) (p_pid x) (p_parent x) (p_tf x) (p_tf_data x)
    (f (p_context x)) (p_context_data x) (p_ret_addr x) (p_chan x) (p_killed x) (p_ofile x)
    (p_cwd x) (p_name x) (p_scheduler x) (p_is_threaded x) (p_priority x) (p_ticks x)
    (p_wait_ticks x).

Definition upd_p_context_data (f : context -> context) (x : proc) : proc :=
  Proc (p_sz x) (p_pgdir x) (p_kstack x) (p_state x) (p_pid x) (p_parent x) (p_tf x) (p_tf_data x)
    (p_context x) (f (p_context_data x)) (p_ret_addr x) (p_chan x) (p_killed x) (p_ofile x)
    (p_cwd x) (p_name x) (p_scheduler x) (p_is_threaded x) (p_priority x) (p_ticks x)
    (p_wait_ticks x).

Definition upd_p_ret_addr (f : Z -> Z) (x : proc) : proc :=
  Proc (p_sz x) (p_pgdir x) (p_kstack x) (p_state x) (p_pid x) (p_parent x) (p_tf x) (p_tf_data x)
    (p_context x) (p_context_data x) (f (p_ret_addr x)) (p_chan x) (p_killed x) (p_ofile x)
    (p_cwd x) (p_name x) (p_scheduler x) (p_is_threaded x) (p_priority x) (p_ticks x)
    (p_wait_ticks x).

Definition upd_p_chan (f : Z -> Z) (x : proc) : proc :=
  Proc (p_sz x) (p_pgdir x) (p_kstack x) (p_state x) (p_pid x) (p_parent x) (p_tf x) (p_tf_data x)
    (p_context x) (p_context_data x) (p_ret_addr x) (f (p_chan x)) (p_killed x) (p_ofile x)
    (p_cwd x) (p_name x) (p_scheduler x) (p_is_threaded x) (p_priority x) (p_ticks x)
    (p_wait_ticks x).

Definition upd_p_killed (f : Z -> Z) (x : proc) : proc :=
  Proc (p_sz x) (p_pgdir x) (p_kstack x) (p_state x) (p_pid x) (p_parent x) (p_tf x) (p_tf_data x)
    (p_context x) (p_context_data x) (p_ret_addr x) (p_chan x) (f (p_killed x)) (p_ofile x)
    (p_cwd x) (p_name x) (p_scheduler x) (p_is_threaded x) (p_priority x) (p_ticks x)
    (p_wait_ticks x).

Definition upd_p_ofile (f : (list Z) -> (list Z)) (x : proc) : proc :=
  Proc (p_sz x) (p_pgdir x) (p_kstack x) (p_state x) (p_pid x) (p_parent x) (p_tf x) (p_tf_data x)
    (p_context x) (p_context_data x) (p_ret_addr x) (p_chan x) (p_killed x) (f (p_ofile x))
    (p_cwd x) (p_name x) (p_scheduler x) (p_is_threaded x) (p_priority x) (p_ticks x)
    (p_wait_ticks x).

Definition upd_p_cwd (f : Z -> Z) (x : proc) : proc :=
  Proc (p_sz x) (p_pgdir x) (p_kstack x) (p_state x) (p_pid x) (p_parent x) (p_tf x) (p_tf_data x)
    (p_context x) (p_context_data x) (p_ret_addr x) (p_chan x) (p_killed x) (p_ofile x) (f
    (p_cwd x)) (p_name x) (p_scheduler x) (p_is_threaded x) (p_priority x) (p_ticks x)
    (p_wait_ticks x).

Definition upd_p_name (f : (list Z) -> (list Z)) (x : proc) : proc :=
  Proc (p_sz x) (p_pgdir x) (p_kstack x) (p_state x) (p_pid x) (p_parent x) (p_tf x) (p_tf_data x)
    (p_context x) (p_context_data x) (p_ret_addr x) (p_chan x) (p_killed x) (p_ofile x)
    (p_cwd x) (f (p_name x)) (p_scheduler x) (p_is_threaded x) (p_priority x) (p_ticks x)
    (p_wait_ticks x).

Definition upd_p_scheduler (f : Z -> Z) (x : proc) : proc :=
  Proc (p_sz x) (p_pgdir x) (p_kstack x) (p_state x) (p_pid x) (p_parent x) (p_tf x) (p_tf_data x)
    (p_context x) (p_context_data x) (p_ret_addr x) (p_chan x) (p_killed x) (p_ofile x)
    (p_cwd x) (p_name x) (f (p_scheduler x)) (p_is_threaded x) (p_priority x) (p_ticks x)
    (p_wait_ticks x).

Definition upd_p_is_threaded (f : Z -> Z) (x : proc) : proc :=
  Proc (p_sz x) (p_pgdir x) (p_kstack x) (p_state x) (p_pid x) (p_parent x) (p_tf x) (p_tf_data x)
    (p_context x) (p_context_data x) (p_ret_addr x) (p_chan x) (p_killed x) (p_ofile x)
    (p_cwd x) (p_name x) (p_scheduler x) (f (p_is_threaded x)) (p_priority x) (p_ticks x)
    (p_wait_ticks x).

Definition upd_p_priority (f : Z -> Z) (x : proc) : proc :=
  Proc (p_sz x) (p_pgdir x) (p_kstack x) (p_state x) (p_pid x) (p_parent x) (p_tf x) (p_tf_data x)
    (p_context x) (p_context_data x) (p_ret_addr x) (p_chan x) (p_killed x) (p_ofile x)
    (p_cwd x) (p_name x) (p_scheduler x) (p_is_threaded x) (f (p_priority x)) (p_ticks x)
    (p_wait_ticks x).

Definition upd_p_ticks (f : (list Z) -> (list Z)) (x : proc) : proc :=
  Proc (p_sz x) (p_pgdir x) (p_kstack x) (p_state x) (p_pid x) (p_parent x) (p_tf x) (p_tf_data x)
    (p_context x) (p_context_data x) (p_ret_addr x) (p_chan x) (p_killed x) (p_ofile x)
    (p_cwd x) (p_name x) (p_scheduler x) (p_is_threaded x) (p_priority x) (f (p_ticks x))
    (p_wait_ticks x).

Definition upd_p_wait_ticks (f : (list Z) -> (list Z)) (x : proc) : proc :=
  Proc (p_sz x) (p_pgdir x) (p_kstack x) (p_state x) (p_pid x) (p_parent x) (p_tf x) (p_tf_data x)
    (p_context x) (p_context_data x) (p_ret_addr x) (p_chan x) (p_killed x) (p_ofile x)
    (p_cwd x) (p_name x) (p_scheduler x) (p_is_threaded x) (p_priority x) (p_ticks x) (f
    (p_wait_ticks x)).

(** A slot of the zero-initialised table. *)
Definition null_proc : proc :=
  Proc 0 0 0 UNUSED 0 None 0 zero_tf 0 (Context 0 0 0 0 0) 0 0 0 (replicate NOFILE 0) 0
    (replicate 16 0) 0 0 0 [0; 0; 0; 0] [0; 0; 0; 0].

(** What [struct cpu] and the flags register hold for a CPU *)
Record pcpu : Type := Pcpu {
  c_proc : option nat;
  c_policy : Z;
  c_ncli : Z;
  c_intena : bool;
  c_if : bool;
}.

Definition upd_c_proc (f : (option nat) -> (option nat)) (x : pcpu) : pcpu :=
  Pcpu (f (c_proc x)) (c_policy x) (c_ncli x) (c_intena x) (c_if x).

Definition upd_c_policy (f : Z -> Z) (x : pcpu) : pcpu :=
  Pcpu (c_proc x) (f (c_policy x)) (c_ncli x) (c_intena x) (c_if x).

Definition upd_c_ncli (f : Z -> Z) (x : pcpu) : pcpu :=
  Pcpu (c_proc x) (c_policy x) (f (c_ncli x)) (c_intena x) (c_if x).

Definition upd_c_intena (f : bool -> bool) (x : pcpu) : pcpu :=
  Pcpu (c_proc x) (c_policy x) (c_ncli x) (f (c_intena x)) (c_if x).

Definition upd_c_if (f : bool -> bool) (x : pcpu) : pcpu :=
  Pcpu (c_proc x) (c_policy x) (c_ncli x) (c_intena x) (f (c_if x)).

(** What the process code uses of the other components; [K] is their state. *)
Class KernelServices (K : Type) : Type := {
  ks_kalloc : M K Z;
  ks_kfree : Z -> M K unit;
  ks_setupkvm : M K Z;
  ks_inituvm : Z -> M K unit;
  ks_copyuvm : Z -> Z -> M K Z;
  ks_freevm : Z -> M K unit;
  ks_allocuvm : Z -> Z -> Z -> M K Z;
  ks_deallocuvm : Z -> Z -> Z -> M K Z;
  ks_switchuvm : proc -> M K unit;
  ks_switchkvm : M K unit;
  ks_filedup : Z -> M K Z;
  ks_fileclose : Z -> M K unit;
  ks_idup : Z -> M K Z;
  ks_iput : Z -> M K unit;
  ks_namei_root : M K Z;
  ks_begin_op : M K unit;
  ks_end_op : M K unit;
  ks_iinit : M K unit;
  ks_initlog : M K unit;
}.

Section Proc.
Context {K : Type} {KS : KernelServices K}.

(** [ptable], [nextpid], [initproc], the CPUs and the other components *)
Record pst : Type := Pst {
  pt_lock : bool;
  procs : list proc;
  nextpid : Z;
  initproc : option nat;
  pcpus : list pcpu;
  first_forkret : bool;
  kserv : K;
}.

Definition upd_pt_lock (f : bool -> bool) (x : pst) : pst :=
  Pst (f (pt_lock x)) (procs x) (nextpid x) (initproc x) (pcpus x) (first_forkret x) (kserv x).

Definition upd_procs (f : (list proc) -> (list proc)) (x : pst) : pst :=
  Pst (pt_lock x) (f (procs x)) (nextpid x) (initproc x) (pcpus x) (first_forkret x) (kserv x).

Definition upd_nextpid (f : Z -> Z) (x : pst) : pst :=
  Pst (pt_lock x) (procs x) (f (nextpid x)) (initproc x) (pcpus x) (first_forkret x) (kserv x).

Definition upd_initproc (f : (option nat) -> (option nat)) (x : pst) : pst :=
  Pst (pt_lock x) (procs x) (nextpid x) (f (initproc x)) (pcpus x) (first_forkret x) (kserv x).

Definition upd_pcpus (f : (list pcpu) -> (list pcpu)) (x : pst) : pst :=
  Pst (pt_lock x) (procs x) (nextpid x) (initproc x) (f (pcpus x)) (first_forkret x) (kserv x).

Definition upd_first_forkret (f : bool -> bool) (x : pst) : pst :=
  Pst (pt_lock x) (procs x) (nextpid x) (initproc x) (pcpus x) (f (first_forkret x)) (kserv x).

Definition upd_kserv (f : K -> K) (x : pst) : pst :=
  Pst (pt_lock x) (procs x) (nextpid x) (initproc x) (pcpus x) (first_forkret x) (f (kserv x)).

Definition kserv_lens : lens pst K := Lens kserv upd_kserv.

Definition svc {A} (m : M K A) : M pst A := zoom kserv_lens m.

Definition proc_at (s : pst) (i : nat) : proc := default null_proc (procs s !! i).

Definition updp (i : nat) (f : proc -> proc) : M pst unit := modify (upd_procs (alter f i)).

Definition getp {A} (i : nat) (f : proc -> A) : M pst A := gets (fun s => f (proc_at s i)).

Definition null_cpu : pcpu := Pcpu None 0 0 false false.

Definition cpu_at (s : pst) (c : nat) : pcpu := default null_cpu (pcpus s !! c).

Definition updc (c : nat) (f : pcpu -> pcpu) : M pst unit := modify (upd_pcpus (alter f c)).

Definition getc {A} (c : nat) (f : pcpu -> A) : M pst A := gets (fun s => f (cpu_at s c)).

(** The address of a slot of the table, as a sleep channel. *)
Definition proc_addr (i : nat) : Z := 1 + Z.of_nat i.

Definition proc_chan (p : option nat) : Z :=
  match p with
  | Some i => proc_addr i
  | None => 0
  end.

(** [acquire(&ptable.lock)] and [release(&ptable.lock)] on CPU [c]: see
    Spinlock.v for spinlock.c itself. *)
Definition pushcli_on (c : nat) : M pst unit :=
  cp ← getc c id;
  updc c (upd_c_if (fun _ => false)) ;;
  when (c_ncli cp =? 0) (updc c (upd_c_intena (fun _ => c_if cp))) ;;
  updc c (upd_c_ncli (Z.add 1)).

Definition popcli_on (c : nat) : M pst unit :=
  b ← getc c c_if;
  panic_if b "popcli - interruptible" ;;
  updc c (upd_c_ncli (fun n => n - 1)) ;;
  cp ← getc c id;
  panic_if (c_ncli cp <? 0) "popcli" ;;
  when ((c_ncli cp =? 0) && c_intena cp) (updc c (upd_c_if (fun _ => true))).

Definition acquire_pt (c : nat) : M pst unit :=
  pushcli_on c ;;
  b ← gets pt_lock;
  panic_if b "acquire" ;;
  modify (upd_pt_lock (fun _ => true)).

Definition release_pt (c : nat) : M pst unit :=
  b ← gets pt_lock;
  panic_if (negb b) "release" ;;
  modify (upd_pt_lock (fun _ => false)) ;;
  popcli_on c.

(** Code that dereferences [myproc()] when no process runs on the CPU. *)
Definition null_deref {A} : M pst A := panic "undefined behaviour: null pointer".

Definition myproc (c : nat) : M pst (option nat) := getc c c_proc.

Definition curproc (c : nat) : M pst nat :=
  p ← myproc c;
  match p with
  | Some i => ret i
  | None => null_deref
  end.

(** Addresses of assembly routines, fixed by the linker. *)
Context (trapret forkret_addr : Z).

Definition sizeof_trapframe : Z := 76.

Definition sizeof_context : Z := 20.

Definition allocproc (c : nat) : M pst (option nat) :=
  acquire_pt c ;;
  found ← for_until (seq 0 NPROC) (fun p =>
    st ← getp p p_state;
    ret (if decide (st = UNUSED) then Some p else None));
  match found with
  | None =>
      release_pt c ;;
      ret None
  | Some p =>
      updp p (upd_p_state (fun _ => EMBRYO)) ;;
      pid ← gets nextpid;
      updp p (upd_p_pid (fun _ => pid)) ;;
      modify (upd_nextpid (fun n => s32 (n + 1))) ;;
      updp p (upd_p_priority (fun _ => 3)) ;;
      for_each (seq 0 4) (fun i =>
        updp p (upd_p_ticks (fun t => <[i := 0]> t)) ;;
        updp p (upd_p_wait_ticks (fun t => <[i := 0]> t))) ;;
      release_pt c ;;
      ks ← svc ks_kalloc;
      updp p (upd_p_kstack (fun _ => ks)) ;;
      if ks =? 0 then
        updp p (upd_p_state (fun _ => UNUSED)) ;;
        ret None
      else
        let sp := ks + KSTACKSIZE - sizeof_trapframe in
        updp p (upd_p_tf (fun _ => sp)) ;;
        let sp := sp - 4 in
        updp p (upd_p_ret_addr (fun _ => trapret)) ;;
        let sp := sp - sizeof_context in
        updp p (upd_p_context (fun _ => sp)) ;;
        updp p (upd_p_context_data (fun _ => Context 0 0 0 0 0)) ;;
        updp p (upd_p_context_data (fun _ => Context 0 0 0 0 forkret_addr)) ;;
        ret (Some p)
  end.

(** The string in a byte array. *)
Fixpoint until_nul (l : list Z) : list Z :=
  match l with
  | [] => []
  | b :: l' => if b =? 0 then [] else b :: until_nul l'
  end.

(** [safestrcpy(p->name, s, sizeof(p->name))] for a string [s] *)
Definition name_of (s : list Z) : list Z := take 15 s ++ [0].

Definition put_name (s old : list Z) : list Z := name_of s ++ drop (length (name_of s)) old.

Definition initcode_name : list Z := [105; 110; 105; 116; 99; 111; 100; 101].

Definition userinit (c : nat) : M pst unit :=
  op ← allocproc c;
  modify (upd_initproc (fun _ => op)) ;;
  match op with
  | None => null_deref
  | Some p =>
      pg ← svc ks_setupkvm;
      updp p (upd_p_pgdir (fun _ => pg)) ;;
      panic_if (pg =? 0) "userinit: out of memory?" ;;
      svc (ks_inituvm pg) ;;
      updp p (upd_p_sz (fun _ => PGSIZE)) ;;
      let ds := Z.lor (Z.shiftl SEG_UDATA 3) DPL_USER in
      updp p (upd_p_tf_data (fun _ =>
        Trapframe 0 0 0 0 0 0 0 0 0 0 ds ds 0 0 0 (Z.lor (Z.shiftl SEG_UCODE 3) DPL_USER)
          FL_IF PGSIZE ds)) ;;
      updp p (upd_p_name (put_name initcode_name)) ;;
      ip ← svc ks_namei_root;
      updp p (upd_p_cwd (fun _ => ip)) ;;
      acquire_pt c ;;
      updp p (upd_p_state (fun _ => RUNNABLE)) ;;
      release_pt c
  end.

Definition growproc (c : nat) (n : Z) : M pst Z :=
  p ← curproc c;
  sz ← getp p p_sz;
  pg ← getp p p_pgdir;
  r ← (if 0 <? n then svc (ks_allocuvm pg sz (u32 (sz + n)))
       else if n <? 0 then svc (ks_deallocuvm pg sz (u32 (sz + n)))
       else ret sz);
  if negb (n =? 0) && (r =? 0) then ret (-1)
  else
    updp p (upd_p_sz (fun _ => r)) ;;
    x ← getp p id;
    svc (ks_switchuvm x) ;;
    ret 0.

Definition fork (c : nat) : M pst Z :=
  cur ← curproc c;
  op ← allocproc c;
  match op with
  | None => ret (-1)
  | Some np =>
      pg0 ← getp cur p_pgdir;
      sz0 ← getp cur p_sz;
      pg ← svc (ks_copyuvm pg0 sz0);
      updp np (upd_p_pgdir (fun _ => pg)) ;;
      if pg =? 0 then
        ks ← getp np p_kstack;
        svc (ks_kfree ks) ;;
        updp np (upd_p_kstack (fun _ => 0)) ;;
        updp np (upd_p_state (fun _ => UNUSED)) ;;
        ret (-1)
      else
        sz ← getp cur p_sz;
        updp np (upd_p_sz (fun _ => sz)) ;;
        updp np (upd_p_parent (fun _ => Some cur)) ;;
        tf ← getp cur p_tf_data;
        updp np (upd_p_tf_data (fun _ => tf)) ;;
        updp np (upd_p_tf_data (upd_tf_eax (fun _ => 0))) ;;
        for_each (seq 0 NOFILE) (fun i =>
          f ← getp cur (fun p => default 0 (p_ofile p !! i));
          when (negb (f =? 0))
            (g ← svc (ks_filedup f);
             updp np (upd_p_ofile (fun l => <[i := g]> l)))) ;;
        cwd ← getp cur p_cwd;
        ip ← svc (ks_idup cwd);
        updp np (upd_p_cwd (fun _ => ip)) ;;
        nm ← getp cur p_name;
        updp np (upd_p_name (put_name (until_nul nm))) ;;
        pid ← getp np p_pid;
        acquire_pt c ;;
        updp np (upd_p_state (fun _ => RUNNABLE)) ;;
        release_pt c ;;
        ret pid
  end.

(** The ptable lock is held. *)
Definition wakeup1 (chan : Z) : M pst unit :=
  for_each (seq 0 NPROC) (fun p =>
    x ← getp p id;
    when (bool_decide (p_state x = SLEEPING) && (p_chan x =? chan))
      (updp p (upd_p_state (fun _ => RUNNABLE)))).

Definition wakeup (c : nat) (chan : Z) : M pst unit :=
  acquire_pt c ;;
  wakeup1 chan ;;
  release_pt c.

(** Control leaves the process on CPU [c] for the scheduler and comes back later. *)
Context (swtch : nat -> nat -> M pst unit).

Definition sched (c : nat) : M pst unit :=
  p ← curproc c;
  lk ← gets pt_lock;
  panic_if (negb lk) "sched ptable.lock" ;;
  n ← getc c c_ncli;
  panic_if (negb (n =? 1)) "sched locks" ;;
  st ← getp p p_state;
  panic_if (bool_decide (st = RUNNING)) "sched running" ;;
  b ← getc c c_if;
  panic_if b "sched interruptible" ;;
  intena ← getc c c_intena;
  swtch c p ;;
  updc c (upd_c_intena (fun _ => intena)).

Definition yield (c : nat) : M pst unit :=
  acquire_pt c ;;
  p ← curproc c;
  updp p (upd_p_state (fun _ => RUNNABLE)) ;;
  sched c ;;
  release_pt c.

Definition forkret (c : nat) : M pst unit :=
  release_pt c ;;
  b ← gets first_forkret;
  when b
    (modify (upd_first_forkret (fun _ => false)) ;;
     svc ks_iinit ;;
     svc ks_initlog).

(** A lock other than ptable.lock, taken and released on CPU [c]. *)
Definition acquire_on (c : nat) (l : lens pst bool) : M pst unit :=
  pushcli_on c ;; acquire_flag l.

Definition release_on (c : nat) (l : lens pst bool) : M pst unit :=
  release_flag l ;; popcli_on c.

(** The lock passed to [sleep]: the null pointer, [&ptable.lock] or another lock. *)
Inductive lockptr : Type :=
| LkNull
| LkPtable
| LkOther (l : lens pst bool).

Definition sleep (c : nat) (chan : Z) (lk : lockptr) : M pst unit :=
  op ← myproc c;
  match op with
  | None => panic "sleep"
  | Some p =>
      panic_if (match lk with LkNull => true | _ => false end) "sleep without lk" ;;
      match lk with
      | LkOther l => acquire_pt c ;; release_on c l
      | _ => ret tt
      end ;;
      updp p (upd_p_chan (fun _ => chan)) ;;
      updp p (upd_p_state (fun _ => SLEEPING)) ;;
      sched c ;;
      updp p (upd_p_chan (fun _ => 0)) ;;
      match lk with
      | LkOther l => release_pt c ;; acquire_on c l
      | _ => ret tt
      end
  end.

(** Pass abandoned children to init. *)
Definition reparent (cur : nat) : M pst unit :=
  for_each (seq 0 NPROC) (fun p =>
    x ← getp p id;
    when (bool_decide (p_parent x = Some cur))
      (ip ← gets initproc;
       updp p (upd_p_parent (fun _ => ip)) ;;
       when (bool_decide (p_state x = ZOMBIE)) (wakeup1 (proc_chan ip)))).

Definition exit (c : nat) : M pst unit :=
  cur ← curproc c;
  ip ← gets initproc;
  panic_if (bool_decide (Some cur = ip)) "init exiting" ;;
  for_each (seq 0 NOFILE) (fun fd =>
    f ← getp cur (fun p => default 0 (p_ofile p !! fd));
    when (negb (f =? 0))
      (svc (ks_fileclose f) ;;
       updp cur (upd_p_ofile (fun l => <[fd := 0]> l)))) ;;
  svc ks_begin_op ;;
  cwd ← getp cur p_cwd;
  svc (ks_iput cwd) ;;
  svc ks_end_op ;;
  updp cur (upd_p_cwd (fun _ => 0)) ;;
  acquire_pt c ;;
  par ← getp cur p_parent;
  wakeup1 (proc_chan par) ;;
  reparent cur ;;
  updp cur (upd_p_state (fun _ => ZOMBIE)) ;;
  sched c ;;
  panic "zombie exit".

(** One scan of [wait] over the table: [inl pid] when a zombie child was reaped,
    [inr havekids] otherwise. *)
Definition wait_scan (c cur : nat) : M pst (Z + bool) :=
  havekids ← gets (fun s => existsb (fun x => bool_decide (p_parent x = Some cur)) (procs s));
  r ← for_until (seq 0 NPROC) (fun p =>
    x ← getp p id;
    if bool_decide (p_parent x = Some cur) && bool_decide (p_state x = ZOMBIE) then
      let pid := p_pid x in
      svc (ks_kfree (p_kstack x)) ;;
      updp p (upd_p_kstack (fun _ => 0)) ;;
      svc (ks_freevm (p_pgdir x)) ;;
      updp p (upd_p_pid (fun _ => 0)) ;;
      updp p (upd_p_parent (fun _ => None)) ;;
      updp p (upd_p_name (fun l => <[0%nat := 0]> l)) ;;
      updp p (upd_p_killed (fun _ => 0)) ;;
      updp p (upd_p_state (fun _ => UNUSED)) ;;
      release_pt c ;;
      ret (Some pid)
    else ret None);
  ret (match r with Some pid => inl pid | None => inr havekids end).

(** The [for(;;)] of [wait], for [fuel] rounds; [None] when they are used up. *)
Fixpoint wait_loop (fuel : nat) (c cur : nat) : M pst (option Z) :=
  match fuel with
  | O => ret None
  | S n =>
      r ← wait_scan c cur;
      match r with
      | inl pid => ret (Some pid)
      | inr havekids =>
          k ← getp cur p_killed;
          if negb havekids || negb (k =? 0) then
            release_pt c ;;
            ret (Some (-1))
          else
            sleep c (proc_addr cur) LkPtable ;;
            wait_loop n c cur
      end
  end.

Definition wait (fuel : nat) (c : nat) : M pst (option Z) :=
  cur ← curproc c;
  acquire_pt c ;;
  wait_loop fuel c cur.

Definition kill (c : nat) (pid : Z) : M pst Z :=
  acquire_pt c ;;
  r ← for_until (seq 0 NPROC) (fun p =>
    x ← getp p id;
    if p_pid x =? pid then
      updp p (upd_p_killed (fun _ => 1)) ;;
      when (bool_decide (p_state x = SLEEPING)) (updp p (upd_p_state (fun _ => RUNNABLE))) ;;
      release_pt c ;;
      ret (Some 0)
    else ret None);
  match r with
  | Some v => ret v
  | None => release_pt c ;; ret (-1)
  end.

(** ** The multi-level feedback queue *)
Definition slice (prio : Z) : Z := nth (Z.to_nat prio) [0; 32; 16; 8] 0.

Definition nth_tick (l : list Z) (prio : Z) : Z := nth (Z.to_nat prio) l 0.

Definition update_wait_ticks (running : nat) : M pst unit :=
  for_each (seq 0 NPROC) (fun p =>
    x ← getp p id;
    when (negb (Nat.eqb p running) && bool_decide (p_state x = RUNNABLE) &&
          negb ((p_priority x <? 0) || (3 <? p_priority x)))
      (updp p (upd_p_wait_ticks (fun l => alter (fun t => s32 (t + 1)) (Z.to_nat (p_priority x)) l)))).

Definition priority_boost : M pst unit :=
  for_each (seq 0 NPROC) (fun p =>
    x ← getp p id;
    when (negb (bool_decide (p_state x = UNUSED)))
      (let prio := p_priority x in
       when ((prio =? 2) || (prio =? 1))
         (when (10 * slice prio <=? nth_tick (p_wait_ticks x) prio)
            (updp p (upd_p_priority (Z.add 1)) ;;
             updp p (upd_p_wait_ticks (fun l => <[Z.to_nat prio := 0]> l)))) ;;
       when (prio =? 0)
         (when (500 <=? nth_tick (p_wait_ticks x) 0)
            (updp p (upd_p_priority (fun _ => 1)) ;;
             updp p (upd_p_wait_ticks (fun l => <[0%nat := 0]> l)))))).

(** The process the MLFQ policy selects. *)
Definition mlfq_select : M pst (option nat) :=
  for_until [3; 2; 1; 0] (fun prio =>
    for_until (seq 0 NPROC) (fun p =>
      x ← getp p id;
      ret (if bool_decide (p_state x = RUNNABLE) && (p_priority x =? prio) then Some p else None))).

(** The scheduler runs process [p] on CPU [c] until it comes back. *)
Context (run : nat -> nat -> M pst unit).

Definition dispatch (c p : nat) : M pst unit :=
  updc c (upd_c_proc (fun _ => Some p)) ;;
  x ← getp p id;
  svc (ks_switchuvm x) ;;
  updp p (upd_p_state (fun _ => RUNNING)) ;;
  run c p ;;
  svc ks_switchkvm.

Definition demote (p : nat) : M pst unit :=
  x ← getp p id;
  let prio := p_priority x in
  when ((0 <? prio) && (slice prio <=? nth_tick (p_ticks x) prio))
    (updp p (upd_p_priority (fun q => q - 1)) ;;
     updp p (upd_p_ticks (fun l => <[Z.to_nat prio := 0]> l))).

Definition mlfq_pass (c : nat) : M pst unit :=
  sel ← mlfq_select;
  match sel with
  | None => ret tt
  | Some p =>
      dispatch c p ;;
      demote p ;;
      update_wait_ticks p ;;
      priority_boost ;;
      updc c (upd_c_proc (fun _ => None))
  end.

Definition rr_pass (c : nat) : M pst unit :=
  for_each (seq 0 NPROC) (fun p =>
    st ← getp p p_state;
    when (bool_decide (st = RUNNABLE))
      (dispatch c p ;;
       updc c (upd_c_proc (fun _ => None)))).

(** One iteration of the [for(;;)] of [scheduler]. *)
Definition scheduler_pass (c : nat) : M pst unit :=
  updc c (upd_c_if (fun _ => true)) ;;
  acquire_pt c ;;
  pol ← getc c c_policy;
  (if pol =? 1 then mlfq_pass c else rr_pass c) ;;
  release_pt c.

Fixpoint scheduler_loop (fuel : nat) (c : nat) : M pst unit :=
  match fuel with
  | O => ret tt
  | S n => scheduler_pass c ;; scheduler_loop n c
  end.

Definition scheduler (fuel : nat) (c : nat) : M pst unit :=
  updc c (upd_c_proc (fun _ => None)) ;;
  scheduler_loop fuel c.

(** ** System calls defined in proc.c *)
Record pstat_entry : Type := PstatEntry {
  ps_inuse : bool;
  ps_pid : Z;
  ps_priority : Z;
  ps_state : procstate;
  ps_ticks : list Z;
  ps_wait_ticks : list Z;
}.

Definition pstat_of (p : proc) : pstat_entry :=
  PstatEntry (negb (bool_decide (p_state p = UNUSED))) (p_pid p) (p_priority p) (p_state p)
    (p_ticks p) (p_wait_ticks p).

(** [ok]: the user's buffer has passed [argptr]. *)
Definition sys_getpinfo (c : nat) (ok : bool) : M pst (Z * list pstat_entry) :=
  if negb ok then ret (-1, [])
  else
    acquire_pt c ;;
    ps ← gets (fun s => pstat_of <$> procs s);
    release_pt c ;;
    ret (0, ps).

(** [arg]: the argument [argint] fetched, if it could. *)
Definition sys_setSchedPolicy (c : nat) (arg : option Z) : M pst Z :=
  match arg with
  | None => ret (-1)
  | Some policy =>
      if (policy <? 0) || (3 <? policy) then ret (-1)
      else
        updc c (upd_c_if (fun _ => false)) ;;
        updc c (upd_c_policy (fun _ => policy)) ;;
        updc c (upd_c_if (fun _ => true)) ;;
        ret 0
  end.

End Proc.

Arguments pst K : clear implicits.
