(* ===== verification/Sched.v ===== *)
(** * The multi-level feedback queue of proc.c

    What the loops of the scheduler do to the process table, as functions on
    single processes, and the properties of the policy: which process is
    selected, how priorities move, how long a process waits for a boost. *)
From S2P Require Import Prelude Spinlock Kalloc Proc.

Section Table.
Context {K : Type}.
Implicit Types s : pst K.

Lemma updp_run i f s : updp i f s = (Ret tt, upd_procs (alter f i) s).
Proof. done. Qed.

Lemma upd_procs_ext f g s : f (procs s) = g (procs s) -> upd_procs f s = upd_procs g s.
Proof. intros E. unfold upd_procs. by rewrite E. Qed.

Lemma upd_procs_id f s : f (procs s) = procs s -> upd_procs f s = s.
Proof. intros E. unfold upd_procs. rewrite E. by destruct s. Qed.

Lemma proc_at_lookup s i x : procs s !! i = Some x -> proc_at s i = x.
Proof. unfold proc_at. by intros ->. Qed.

Lemma proc_at_upd s f i : proc_at (upd_procs f s) i = default null_proc (f (procs s) !! i).
Proof. done. Qed.

Lemma alter_cond_id {A} (f : A -> A) i (l : list A) : (forall x, l !! i = Some x -> f x = x) -> alter f i l = l.
Proof.
  intros Hf. apply list_eq. intros j. destruct (decide (i = j)) as [->|Hne].
  - rewrite list_lookup_alter_eq. destruct (l !! j) as [x|] eqn:E; [|done]. simpl. by rewrite Hf.
  - by rewrite list_lookup_alter_ne.
Qed.

(** A loop over the slots whose body changes only its own slot. *)
Lemma slot_loop_from (f : nat -> proc -> proc) (body : nat -> M (pst K) unit) k m s :
  (forall i s', (k <= i < k + m)%nat -> body i s' = (Ret tt, upd_procs (alter (f i) i) s')) ->
  for_each (seq k m) body s =
  (Ret tt, upd_procs (imap (fun i x => if decide (k <= i < k + m)%nat then f i x else x)) s).
Proof.
  revert k s. induction m as [|m IH]; intros k s Hb; simpl.
  - unfold ret. f_equal. symmetry. apply upd_procs_id. apply list_eq. intros i. rewrite list_lookup_imap.
    destruct (procs s !! i); [|done]. simpl. rewrite decide_False by lia. done.
  - rewrite (bind_Ret _ _ _ _ _ (Hb k s ltac:(lia))). rewrite IH by (intros i s' Hi; apply (Hb i s'); lia). f_equal.
    unfold upd_procs. simpl. f_equal. apply list_eq. intros i. rewrite !list_lookup_imap.
    destruct (decide (k = i)) as [->|Hne].
    + rewrite list_lookup_alter_eq. destruct (procs s !! i); [|done]. simpl.
      rewrite decide_False, decide_True by lia. done.
    + rewrite list_lookup_alter_ne by done. destruct (procs s !! i); [|done]. simpl.
      repeat case_decide; (done || lia).
Qed.

Lemma slot_loop (f : nat -> proc -> proc) (body : nat -> M (pst K) unit) s :
  length (procs s) = NPROC ->
  (forall i s', (i < NPROC)%nat -> body i s' = (Ret tt, upd_procs (alter (f i) i) s')) ->
  for_each (seq 0 NPROC) body s = (Ret tt, upd_procs (imap f) s).
Proof.
  intros Hl Hb. rewrite (slot_loop_from f) by (intros; apply Hb; lia). f_equal. apply upd_procs_ext.
  apply list_eq. intros i. rewrite !list_lookup_imap. destruct (procs s !! i) eqn:E; [|done]. simpl.
  apply lookup_lt_Some in E. rewrite decide_True by lia. done.
Qed.

(** A body that reads its slot and updates it under a condition. *)
Lemma cond_body i (cnd : proc -> bool) (g : proc -> proc) (m : proc -> M (pst K) unit) s :
  (forall x, procs s !! i = Some x -> cnd x = true -> m x s = (Ret tt, upd_procs (alter g i) s)) ->
  (i < length (procs s))%nat ->
  (x ← getp i id; when (cnd x) (m x)) s =
  (Ret tt, upd_procs (alter (fun x => if cnd x then g x else x) i) s).
Proof.
  intros Hm Hi. destruct (lookup_lt_is_Some_2 _ _ Hi) as [x Hx].
  unfold getp. unfold bind at 1, gets. rewrite (proj2 (conj I (proc_at_lookup _ _ _ Hx))). cbn [id].
  destruct (cnd x) eqn:E; simpl.
  - rewrite (Hm x Hx E). f_equal. apply upd_procs_ext. apply list_eq. intros j.
    destruct (decide (i = j)) as [->|Hne].
    + rewrite !list_lookup_alter_eq, Hx. simpl. by rewrite E.
    + by rewrite !list_lookup_alter_ne.
  - unfold ret. f_equal. symmetry. apply upd_procs_id, alter_cond_id. intros y Hy. simplify_eq. by rewrite E.
Qed.

Lemma length_imap_procs f s : length (procs (upd_procs (imap f) s)) = length (procs s).
Proof. simpl. apply length_imap. Qed.

(** ** The loops *)
Definition wake (chan : Z) (x : proc) : proc :=
  if bool_decide (p_state x = SLEEPING) && (p_chan x =? chan) then upd_p_state (fun _ => RUNNABLE) x else x.

Lemma slot_loop_len (f : nat -> proc -> proc) (body : nat -> M (pst K) unit) s :
  length (procs s) = NPROC ->
  (forall i s', (i < NPROC)%nat -> length (procs s') = NPROC ->
     body i s' = (Ret tt, upd_procs (alter (f i) i) s')) ->
  for_each (seq 0 NPROC) body s = (Ret tt, upd_procs (imap f) s).
Proof.
  intros Hl Hb.
  assert (forall l s', length (procs s') = NPROC -> (forall i, i ∈ l -> (i < NPROC)%nat) ->
    for_each l body s' = for_each l (fun i => updp i (f i)) s') as E.
  { induction l as [|i l IH]; intros s' Hs' Hin; [done|]. simpl.
    rewrite (bind_Ret _ _ _ _ _ (Hb i s' (Hin i ltac:(set_solver)) Hs')).
    rewrite (bind_Ret _ _ _ _ _ (updp_run i (f i) s')). apply IH; [simpl; by rewrite length_alter|set_solver]. }
  rewrite E by (done || (intros i Hi%elem_of_seq; lia)). by apply slot_loop.
Qed.

Lemma wakeup1_run chan s : length (procs s) = NPROC ->
  wakeup1 chan s = (Ret tt, upd_procs (imap (fun _ => wake chan)) s).
Proof.
  intros Hl. unfold wakeup1. apply slot_loop_len; [done|]. intros i s' Hi Hs'. unfold wake.
  apply (cond_body i (fun x => bool_decide (p_state x = SLEEPING) && (p_chan x =? chan))); [done|lia].
Qed.

(** What a pass does to a process that waited. *)
Definition waited (x : proc) : proc :=
  if bool_decide (p_state x = RUNNABLE) && negb ((p_priority x <? 0) || (3 <? p_priority x))
  then upd_p_wait_ticks (alter (fun t => s32 (t + 1)) (Z.to_nat (p_priority x))) x else x.

Lemma update_wait_ticks_run r s : length (procs s) = NPROC ->
  update_wait_ticks r s = (Ret tt, upd_procs (imap (fun i x => if decide (i = r) then x else waited x)) s).
Proof.
  intros Hl. unfold update_wait_ticks. apply slot_loop_len; [done|]. intros i s' Hi Hs'.
  destruct (decide (i = r)) as [->|Hne].
  - rewrite Nat.eqb_refl. simpl. unfold bind, getp, gets, ret. f_equal. symmetry.
    apply upd_procs_id, alter_cond_id. done.
  - rewrite (proj2 (Nat.eqb_neq i r) Hne). cbn [negb andb]. unfold waited.
    apply (cond_body i (fun x => bool_decide (p_state x = RUNNABLE) && negb ((p_priority x <? 0) || (3 <? p_priority x)))
      (fun x => upd_p_wait_ticks (alter (fun t => s32 (t + 1)) (Z.to_nat (p_priority x))) x)); [|lia].
    intros x Hx _. rewrite updp_run. f_equal. apply upd_procs_ext. apply list_eq. intros j.
    destruct (decide (i = j)) as [->|Hj]; [rewrite !list_lookup_alter_eq, Hx; done|by rewrite !list_lookup_alter_ne].
Qed.

(** The starvation rule on one process. *)
Definition boosted (x : proc) : proc :=
  if bool_decide (p_state x = UNUSED) then x
  else if ((p_priority x =? 2) || (p_priority x =? 1)) &&
          (10 * slice (p_priority x) <=? nth_tick (p_wait_ticks x) (p_priority x))
  then upd_p_wait_ticks (fun l => <[Z.to_nat (p_priority x) := 0]> l) (upd_p_priority (Z.add 1) x)
  else if (p_priority x =? 0) && (500 <=? nth_tick (p_wait_ticks x) 0)
  then upd_p_wait_ticks (fun l => <[0%nat := 0]> l) (upd_p_priority (fun _ => 1) x)
  else x.

Lemma alter_two i (f g : proc -> proc) (h : proc -> proc) s x :
  procs s !! i = Some x -> g (f x) = h x ->
  (updp i f ;; updp i g) s = (Ret tt, upd_procs (alter h i) s).
Proof.
  intros Hx E. unfold updp, bind, modify. f_equal. unfold upd_procs. simpl. f_equal. apply list_eq. intros j.
  destruct (decide (i = j)) as [->|Hj].
  - rewrite !list_lookup_alter_eq, Hx. simpl. by rewrite E.
  - by rewrite !list_lookup_alter_ne.
Qed.

Lemma alter_id_run i (h : proc -> proc) s x :
  procs s !! i = Some x -> h x = x -> ret tt s = (Ret tt, upd_procs (alter h i) s).
Proof.
  intros Hx E. unfold ret. f_equal. symmetry. apply upd_procs_id, alter_cond_id. intros y Hy. by simplify_eq.
Qed.

Lemma priority_boost_run s : length (procs s) = NPROC ->
  priority_boost s = (Ret tt, upd_procs (imap (fun _ => boosted)) s).
Proof.
  intros Hl. unfold priority_boost. apply slot_loop_len; [done|]. intros i s' Hi Hs'.
  destruct (lookup_lt_is_Some_2 (procs s') i) as [x Hx]; [lia|].
  unfold getp. unfold bind at 1, gets. rewrite (proc_at_lookup _ _ _ Hx). cbn [id]. unfold when at 1.
  destruct (bool_decide (p_state x = UNUSED)) eqn:Eu; cbn [negb].
  { apply (alter_id_run i _ s' x Hx). unfold boosted. by rewrite Eu. }
  destruct ((p_priority x =? 2) || (p_priority x =? 1)) eqn:E1; cbn [when].
  - replace (p_priority x =? 0) with false by (symmetry; apply Z.eqb_neq; bool_to_prop; lia). cbn [when].
    destruct (10 * slice (p_priority x) <=? _) eqn:E2; cbn [when].
    + erewrite bind_Ret; [|apply (alter_two i _ _ boosted s' x Hx)]; [done|].
      unfold boosted. by rewrite Eu, E1, E2.
    + unfold bind at 1, ret at 1. apply (alter_id_run i _ s' x Hx). unfold boosted. rewrite Eu, E1, E2.
      replace (p_priority x =? 0) with false by (symmetry; apply Z.eqb_neq; bool_to_prop; lia). done.
  - unfold bind at 1, ret at 1. destruct (p_priority x =? 0) eqn:E0; cbn [when].
    + destruct (500 <=? _) eqn:E2; cbn [when].
      * apply (alter_two i _ _ boosted s' x Hx). unfold boosted. rewrite Eu, E1, E0, E2. done.
      * apply (alter_id_run i _ s' x Hx). unfold boosted. by rewrite Eu, E1, E0, E2.
    + apply (alter_id_run i _ s' x Hx). unfold boosted. by rewrite Eu, E1, E0.
Qed.

(** ** Selection *)
Definition at_prio (s : pst K) (prio : Z) (i : nat) : bool :=
  bool_decide (p_state (proc_at s i) = RUNNABLE) && (p_priority (proc_at s i) =? prio).

Definition selected (s : pst K) : option nat :=
  first_some (fun prio => first_some (fun i => if at_prio s prio i then Some i else None) (seq 0 NPROC))
    [3; 2; 1; 0].

Lemma mlfq_select_run s : mlfq_select s = (Ret (selected s), s).
Proof.
  unfold mlfq_select, selected. apply for_until_pure. intros prio _. apply for_until_pure.
  intros i _. unfold bind, getp, gets, ret, at_prio. simpl. done.
Qed.

Definition runnable (s : pst K) (i : nat) : Prop :=
  (i < NPROC)%nat /\ p_state (proc_at s i) = RUNNABLE /\ 0 <= p_priority (proc_at s i) <= 3.

Lemma at_prio_true s prio i : at_prio s prio i = true <->
  p_state (proc_at s i) = RUNNABLE /\ p_priority (proc_at s i) = prio.
Proof. unfold at_prio. rewrite andb_true_iff, bool_decide_eq_true, Z.eqb_eq. done. Qed.

Lemma selected_spec s :
  match selected s with
  | Some p => runnable s p /\
      (forall q, runnable s q -> p_priority (proc_at s q) <= p_priority (proc_at s p)) /\
      (forall q, runnable s q -> p_priority (proc_at s q) = p_priority (proc_at s p) -> (p <= q)%nat)
  | None => forall q, ~ runnable s q
  end.
Proof.
  unfold selected.
  pose proof (first_some_spec (fun prio => first_some (fun i => if at_prio s prio i then Some i else None) (seq 0 NPROC))
    [3; 2; 1; 0]) as H.
  destruct (first_some _ [3; 2; 1; 0]) as [p|].
  - destruct H as (l1 & prio & l2 & E & Hp & Hl).
    pose proof (first_some_seq (at_prio s prio) NPROC) as Hs. rewrite Hp in Hs.
    destruct Hs as (Hlt & Hat & Hfirst). apply at_prio_true in Hat as [Hst Hpr].
    assert (0 <= prio <= 3 /\ forall k, prio < k <= 3 -> k ∈ l1) as [Hrange Hhigher].
    { destruct l1 as [|a [|b [|d [|e l1]]]]; simplify_eq/=; [..|by destruct l1];
        (split; [lia|]; intros k Hk; rewrite ?elem_of_cons, elem_of_nil; lia). }
    assert (forall q, runnable s q -> p_priority (proc_at s q) <= prio) as Hmax.
    { intros q (Hq & Hqs & Hqp). destruct (Z_le_gt_dec (p_priority (proc_at s q)) prio) as [|Hgt]; [done|].
      specialize (Hl _ (Hhigher (p_priority (proc_at s q)) ltac:(lia))). cbv beta in Hl.
      pose proof (first_some_seq (at_prio s (p_priority (proc_at s q))) NPROC) as Hn. rewrite Hl in Hn.
      specialize (Hn q Hq). rewrite (proj2 (at_prio_true s _ q)) in Hn by done. done. }
    rewrite Hpr. split_and!; [split; [done|]; split; [done|lia]|done|].
    intros q (Hq & Hqs & Hqp) Heq. destruct (decide (p <= q)%nat); [done|].
    specialize (Hfirst q ltac:(lia)). by rewrite (proj2 (at_prio_true s _ q)) in Hfirst.
  - intros q (Hq & Hqs & Hqp). assert (p_priority (proc_at s q) ∈ [3; 2; 1; 0]) as Hin.
    { assert (p_priority (proc_at s q) = 3 \/ p_priority (proc_at s q) = 2 \/ p_priority (proc_at s q) = 1 \/
        p_priority (proc_at s q) = 0) as Hk by lia. set_solver. }
    specialize (H _ Hin). cbv beta in H.
    pose proof (first_some_seq (at_prio s (p_priority (proc_at s q))) NPROC) as Hn. rewrite H in Hn.
    specialize (Hn q Hq). by rewrite (proj2 (at_prio_true s _ q)) in Hn.
Qed.

End Table.

(** ** A pass of the MLFQ scheduler *)
Definition demoted (x : proc) : proc :=
  if (0 <? p_priority x) && (slice (p_priority x) <=? nth_tick (p_ticks x) (p_priority x))
  then upd_p_ticks (fun l => <[Z.to_nat (p_priority x) := 0]> l) (upd_p_priority (fun q => q - 1) x) else x.

(** What a pass that ran process [p] does to slot [i]. *)
Definition after_pass (p i : nat) (x : proc) : proc :=
  boosted (if decide (i = p) then demoted x else waited x).

Section Pass.
Context {K : Type} {KS : KernelServices K} (run : nat -> nat -> M (pst K) unit).
Implicit Types s : pst K.

Lemma demote_run p s : (p < length (procs s))%nat ->
  demote p s = (Ret tt, upd_procs (alter demoted p) s).
Proof.
  intros Hp. destruct (lookup_lt_is_Some_2 _ _ Hp) as [x Hx]. unfold demote, getp. unfold bind at 1, gets.
  rewrite (proc_at_lookup _ _ _ Hx). cbn [id]. unfold when.
  destruct ((0 <? p_priority x) && _) eqn:E.
  - apply (alter_two p _ _ demoted s x Hx). unfold demoted. by rewrite E.
  - apply (alter_id_run p _ s x Hx). unfold demoted. by rewrite E.
Qed.

Lemma mlfq_pass_run c s p s2 :
  selected s = Some p -> dispatch run c p s = (Ret tt, s2) -> length (procs s2) = NPROC -> (p < NPROC)%nat ->
  exists s', mlfq_pass run c s = (Ret tt, s') /\ procs s' = imap (after_pass p) (procs s2) /\
    nextpid s' = nextpid s2 /\ initproc s' = initproc s2 /\
    pcpus s' = alter (upd_c_proc (fun _ => None)) c (pcpus s2).
Proof.
  intros Hsel Hd Hl Hp. unfold mlfq_pass. rewrite (bind_Ret _ _ _ _ _ (mlfq_select_run s)), Hsel.
  rewrite (bind_Ret _ _ _ _ _ Hd), (bind_Ret _ _ _ _ _ (demote_run p s2 ltac:(lia))).
  assert (length (procs (upd_procs (alter demoted p) s2)) = NPROC) as Hl1 by (simpl; by rewrite length_alter).
  rewrite (bind_Ret _ _ _ _ _ (update_wait_ticks_run p _ Hl1)).
  rewrite <- (length_imap_procs (fun i x => if decide (i = p) then x else waited x)) in Hl1.
  rewrite (bind_Ret _ _ _ _ _ (priority_boost_run _ Hl1)).
  eexists. split; [done|]. simpl. split_and!; [|done|done|done]. apply list_eq. intros i.
  rewrite !list_lookup_imap. unfold after_pass. destruct (decide (p = i)) as [->|Hne].
  - rewrite list_lookup_alter_eq. destruct (procs s2 !! i); [|done]. simpl. by rewrite !decide_True.
  - rewrite list_lookup_alter_ne by done. destruct (procs s2 !! i); [|done]. simpl.
    by rewrite !decide_False by congruence.
Qed.

(** the MLFQ policy selects a runnable process of the highest priority among
    the runnable ones, the one with the lowest index among those, and selects
    none exactly when no process with a valid priority is runnable. *)
Theorem mlfq_selects s :
  exists r, mlfq_select s = (Ret r, s) /\
  match r with
  | Some p => runnable s p /\
      forall q, runnable s q ->
        p_priority (proc_at s q) < p_priority (proc_at s p) \/
        p_priority (proc_at s q) = p_priority (proc_at s p) /\ (p <= q)%nat
  | None => forall q, ~ runnable s q
  end.
Proof.
  exists (selected s). split; [apply mlfq_select_run|]. pose proof (selected_spec s) as H.
  destruct (selected s) as [p|]; [|done]. destruct H as (H1 & H2 & H3). split; [done|].
  intros q Hq. specialize (H2 q Hq). specialize (H3 q Hq).
  destruct (Z_lt_ge_dec (p_priority (proc_at s q)) (p_priority (proc_at s p))); [by left|right].
  assert (p_priority (proc_at s q) = p_priority (proc_at s p)) by lia. auto.
Qed.

Lemma demoted_priority x : 0 <= p_priority x <= 3 ->
  0 <= p_priority (demoted x) <= p_priority x /\ p_priority x <= p_priority (demoted x) + 1 /\
  (p_priority (demoted x) < p_priority x <->
   0 < p_priority x /\ slice (p_priority x) <= nth_tick (p_ticks x) (p_priority x)).
Proof. intros Hx. unfold demoted. destruct (_ && _) eqn:E; simpl; bool_to_prop; lia. Qed.

Lemma boosted_priority x : 0 <= p_priority x <= 3 ->
  p_priority x <= p_priority (boosted x) <= 3 /\ p_priority (boosted x) <= p_priority x + 1 /\
  p_state (boosted x) = p_state x.
Proof.
  intros Hx. unfold boosted. destruct (bool_decide _); [split_and!; first [done|lia]|].
  destruct (((p_priority x =? 2) || (p_priority x =? 1)) && _) eqn:E1.
  - simpl. apply andb_true_iff in E1 as [E1 _]. bool_to_prop; split_and!; first [done|lia].
  - destruct ((p_priority x =? 0) && _) eqn:E2; [|split_and!; first [done|lia]].
    clear E1. apply andb_true_iff in E2 as [E2 _]. bool_to_prop. simpl. split_and!; first [done|lia].
Qed.

Lemma waited_fields x : p_priority (waited x) = p_priority x /\ p_state (waited x) = p_state x.
Proof. unfold waited. by destruct (_ && _). Qed.

(** C39: a pass of the MLFQ scheduler keeps every priority in 0..3 and moves it
    by at most one queue; only the process that ran can move down, and only
    when it has used its time slice in its queue. *)
Theorem mlfq_priorities c s p s2 :
  selected s = Some p -> dispatch run c p s = (Ret tt, s2) ->
  length (procs s2) = NPROC -> Forall (fun x => 0 <= p_priority x <= 3) (procs s2) ->
  exists s', mlfq_pass run c s = (Ret tt, s') /\ length (procs s') = NPROC /\
    forall i x, procs s2 !! i = Some x -> exists x', procs s' !! i = Some x' /\
      0 <= p_priority x' <= 3 /\ p_state x' = p_state x /\
      p_priority x - 1 <= p_priority x' <= p_priority x + 1 /\
      (p_priority x' < p_priority x ->
         i = p /\ slice (p_priority x) <= nth_tick (p_ticks x) (p_priority x)).
Proof.
  intros Hsel Hd Hl Hpr. pose proof (selected_spec s) as Hs. rewrite Hsel in Hs. destruct Hs as [(Hp & _) _].
  destruct (mlfq_pass_run c s p s2 Hsel Hd Hl Hp) as (s' & Hrun & Hps & _).
  exists s'. split; [done|]. split; [by rewrite Hps, length_imap|]. intros i x Hx.
  exists (after_pass p i x). rewrite Hps, list_lookup_imap, Hx. split; [done|].
  pose proof (Forall_lookup_1 _ _ _ _ Hpr Hx) as Hxr. simpl in Hxr. unfold after_pass. case_decide as Hip.
  - destruct (demoted_priority x Hxr) as (H1 & H2 & H3).
    destruct (boosted_priority (demoted x)) as (H4 & H5 & H6); [lia|].
    assert (p_state (demoted x) = p_state x) as Hst by (unfold demoted; by destruct (_ && _)).
    split_and!; [lia|lia|congruence|lia|lia|]. intros Hlt. split; [done|]. apply H3. lia.
  - destruct (waited_fields x) as [Hw1 Hw2]. destruct (boosted_priority (waited x)) as (H4 & H5 & H6); [lia|].
    split_and!; [lia|lia|congruence|lia|lia|]. lia.
Qed.

(** ** Waiting for a boost *)
Definition wait_at (x : proc) (q : nat) : Z := nth q (p_wait_ticks x) 0.

(** The number of passes a waiting process has to be passed over before it is
    in the top queue. *)
Definition boost_need (x : proc) : Z :=
  let n2 := Z.max 1 (160 - wait_at x 2) in
  let n1 := Z.max 1 (320 - wait_at x 1) in
  let n0 := Z.max 1 (500 - wait_at x 0) in
  if p_priority x =? 3 then 0
  else if p_priority x =? 2 then n2
  else if p_priority x =? 1 then n1 + n2
  else n0 + n1 + n2.

(** A waiting process, with counters that have not overflowed. *)
Record waiting (x : proc) : Prop := {
  wt_state : p_state x = RUNNABLE;
  wt_prio : 0 <= p_priority x <= 3;
  wt_len : length (p_wait_ticks x) = 4%nat;
  wt_int : forall q, (q < 3)%nat -> 0 <= wait_at x q < 2147483647;
}.

Lemma nth_alter (l : list Z) f i j : (i < length l)%nat ->
  nth j (alter f i l) 0 = if decide (i = j) then f (nth i l 0) else nth j l 0.
Proof.
  intros Hi. rewrite !nth_lookup. case_decide; subst.
  - rewrite list_lookup_alter_eq. destruct (lookup_lt_is_Some_2 l j Hi) as [v ->]. done.
  - by rewrite list_lookup_alter_ne.
Qed.

Lemma nth_insert (l : list Z) v i j : (i < length l)%nat ->
  nth j (<[i := v]> l) 0 = if decide (i = j) then v else nth j l 0.
Proof.
  intros Hi. rewrite !nth_lookup. case_decide; subst.
  - by rewrite list_lookup_insert_eq by done.
  - by rewrite list_lookup_insert_ne.
Qed.

Definition boost_limit (prio : Z) : Z := nth (Z.to_nat prio) [500; 320; 160] 0.

Lemma boosted_below_top w : p_state w <> UNUSED -> 0 <= p_priority w < 3 ->
  boosted w = if boost_limit (p_priority w) <=? nth_tick (p_wait_ticks w) (p_priority w)
    then upd_p_wait_ticks (fun l => <[Z.to_nat (p_priority w) := 0]> l) (upd_p_priority (Z.add 1) w) else w.
Proof.
  intros Hs Hp. unfold boosted. rewrite bool_decide_false by done.
  assert (p_priority w = 0 \/ p_priority w = 1 \/ p_priority w = 2) as [E|[E|E]] by lia; rewrite E.
  - change ((0 =? 2) || (0 =? 1)) with false. change (0 =? 0) with true. cbn [andb].
    change (boost_limit 0) with 500. destruct (500 <=? _); [|done].
    unfold upd_p_priority. rewrite E. done.
  - change ((1 =? 2) || (1 =? 1)) with true. change (1 =? 0) with false. cbn [andb].
    change (10 * slice 1) with 320. change (boost_limit 1) with 320. by destruct (320 <=? _).
  - change ((2 =? 2) || (2 =? 1)) with true. change (2 =? 0) with false. cbn [andb].
    change (10 * slice 2) with 160. change (boost_limit 2) with 160. by destruct (160 <=? _).
Qed.

(** Being passed over once: the wait counter of the queue counts up, or the
    process moves up one queue. *)
Lemma passed_over x : waiting x -> p_priority x < 3 ->
  let y := boosted (waited x) in
  let q := Z.to_nat (p_priority x) in
  p_state y = RUNNABLE /\ length (p_wait_ticks y) = 4%nat /\
  (wait_at x q + 1 < boost_limit (p_priority x) /\ p_priority y = p_priority x /\
     (forall j, wait_at y j = if decide (q = j) then wait_at x q + 1 else wait_at x j) \/
   boost_limit (p_priority x) <= wait_at x q + 1 /\ p_priority y = p_priority x + 1 /\
     (forall j, wait_at y j = if decide (q = j) then 0 else wait_at x j)).
Proof.
  intros [Hs Hp Hl Hi] Hlt y q.
  assert (s32 (wait_at x q + 1) = wait_at x q + 1) as Hs32.
  { apply s32_small. specialize (Hi q ltac:(unfold q; lia)). lia. }
  set (w := upd_p_wait_ticks (alter (fun t => s32 (t + 1)) q) x).
  assert (waited x = w) as Hw.
  { unfold waited. rewrite bool_decide_true by done.
    replace ((p_priority x <? 0) || (3 <? p_priority x)) with false; [done|].
    symmetry. apply orb_false_iff. split; apply Z.ltb_ge; lia. }
  assert (length (p_wait_ticks w) = 4%nat) as Hlw by (unfold w; simpl; by rewrite length_alter).
  assert (forall j, wait_at w j = if decide (q = j) then wait_at x q + 1 else wait_at x j) as Hwj.
  { intros j. unfold w, wait_at at 1. simpl. rewrite nth_alter by (unfold q; lia).
    case_decide; [|done]. fold (wait_at x q). by rewrite Hs32. }
  assert (nth_tick (p_wait_ticks w) (p_priority w) = wait_at x q + 1) as Hn.
  { change (wait_at w q = wait_at x q + 1). rewrite Hwj. by rewrite decide_True. }
  assert (p_state w <> UNUSED) as Hsw by (simpl; congruence).
  unfold y. rewrite Hw, (boosted_below_top w Hsw ltac:(simpl; lia)), Hn.
  change (p_priority w) with (p_priority x). destruct (_ <=? _) eqn:Eb; bool_to_prop.
  - split; [done|]. split; [cbn [upd_p_wait_ticks p_wait_ticks]; by rewrite length_insert|]. right.
    split; [lia|]. split; [simpl; lia|]. intros j. unfold wait_at at 1. cbn [upd_p_wait_ticks p_wait_ticks].
    rewrite nth_insert by (simpl in *; unfold q in *; lia). fold q. case_decide; [done|].
    change (wait_at w j = wait_at x j). rewrite Hwj. by rewrite decide_False.
  - split; [done|]. split; [done|]. left. split; [lia|]. done.
Qed.

Lemma boosted_top y : p_priority y = 3 -> boosted y = y.
Proof. intros Hy. unfold boosted. rewrite Hy. simpl. by destruct (bool_decide _). Qed.

Lemma demoted_top y : p_priority y = 3 -> nth_tick (p_ticks y) 3 < 8 -> demoted y = y.
Proof.
  intros Hy Ht. unfold demoted. rewrite Hy. change (slice 3) with 8.
  replace (8 <=? nth_tick (p_ticks y) 3) with false by (symmetry; apply Z.leb_gt; lia). done.
Qed.

Lemma waiting_step x : waiting x -> waiting (boosted (waited x)) /\
  (p_priority x < 3 -> boost_need (boosted (waited x)) = boost_need x - 1) /\
  (p_priority x = 3 -> p_priority (boosted (waited x)) = 3).
Proof.
  intros Hw. pose proof Hw as [Hs Hp Hl Hi]. destruct (decide (p_priority x = 3)) as [E|E].
  - rewrite boosted_top by (rewrite (proj1 (waited_fields x)); done). destruct (waited_fields x) as [H1 H2].
    split_and!; [split; rewrite ?H1, ?H2; try done|lia|congruence].
    + unfold waited. destruct (_ && _); [|done]. simpl. by rewrite length_alter.
    + intros q Hq. unfold wait_at, waited. destruct (_ && _); [|by apply Hi]. simpl.
      rewrite nth_alter by lia. rewrite decide_False by lia. by apply Hi.
  - destruct (passed_over x Hw ltac:(lia)) as (H1 & H2 & H3). set (y := boosted (waited x)) in *.
    set (q := Z.to_nat (p_priority x)) in *. pose proof (Hi q ltac:(unfold q; lia)) as Hiq.
    pose proof (Hi 0%nat ltac:(lia)). pose proof (Hi 1%nat ltac:(lia)). pose proof (Hi 2%nat ltac:(lia)).
    split_and!; [split; try done| |lia].
    + destruct H3 as [(_ & -> & _)|(_ & -> & _)]; lia.
    + intros j Hj. assert (boost_limit (p_priority x) <= 500) as Hlim.
      { assert (p_priority x = 0 \/ p_priority x = 1 \/ p_priority x = 2) as [->|[->| ->]] by lia; done. }
      destruct H3 as [(Hlt & _ & Hy)|(_ & _ & Hy)]; rewrite Hy; case_decide; (by apply Hi) || lia.
    + intros _. unfold boost_need.
      assert (p_priority x = 0 \/ p_priority x = 1 \/ p_priority x = 2) as Hc by lia.
      destruct H3 as [(Hlt & Hpy & Hy)|(Hge & Hpy & Hy)]; rewrite Hpy, !Hy; unfold q in *;
        destruct Hc as [Ec|[Ec|Ec]]; rewrite Ec in *; unfold boost_limit in *;
        change (Z.to_nat 0) with 0%nat in *; change (Z.to_nat 1) with 1%nat in *; change (Z.to_nat 2) with 2%nat in *;
        repeat case_decide; try lia; simpl in *; lia.
Qed.

(** One pass that selects another process than [q] and leaves slot [q] to the
    scheduler: the process that ran did not touch it. *)
Definition passes_over (c q : nat) (s s' : pst K) : Prop :=
  exists p s2, selected s = Some p /\ p <> q /\ dispatch run c p s = (Ret tt, s2) /\
    length (procs s2) = NPROC /\ procs s2 !! q = procs s !! q /\ mlfq_pass run c s = (Ret tt, s').

Lemma passes_over_slot c q s s' x :
  passes_over c q s s' -> procs s !! q = Some x -> procs s' !! q = Some (boosted (waited x)).
Proof.
  intros (p & s2 & Hsel & Hne & Hd & Hl & Hq & Hp) Hx.
  pose proof (selected_spec s) as Hs. rewrite Hsel in Hs. destruct Hs as [(Hpn & _) _].
  destruct (mlfq_pass_run c s p s2 Hsel Hd Hl Hpn) as (s1 & Hp1 & Hps & _).
  rewrite Hp in Hp1. injection Hp1 as <-. rewrite Hps, list_lookup_imap, Hq, Hx. simpl.
  unfold after_pass. by rewrite decide_False by congruence.
Qed.

(** C38: no process is stuck in a lower queue: a runnable process that is passed
    over moves up, and after at most 500 + 320 + 160 passes (fewer by what its
    wait counters already show) it is in the top queue. *)
Theorem boost_liveness c q (st : nat -> pst K) x :
  procs (st 0%nat) !! q = Some x -> waiting x ->
  (forall k, (k < Z.to_nat (boost_need x))%nat -> passes_over c q (st k) (st (S k))) ->
  0 <= boost_need x <= 980 /\
  p_priority (proc_at (st (Z.to_nat (boost_need x))) q) = 3.
Proof.
  intros H0 Hw Hst.
  assert (forall y, waiting y -> 0 <= boost_need y <= 980 /\ (boost_need y = 0 -> p_priority y = 3)) as Hneed.
  { intros y [_ Hp _ Hi]. unfold boost_need. pose proof (Hi 0%nat ltac:(lia)). pose proof (Hi 1%nat ltac:(lia)).
    pose proof (Hi 2%nat ltac:(lia)).
    destruct (p_priority y =? 3) eqn:E3; bool_to_prop; [lia|]. destruct (p_priority y =? 2); [lia|].
    destruct (p_priority y =? 1); lia. }
  split; [by apply Hneed|].
  assert (forall k, (k <= Z.to_nat (boost_need x))%nat -> exists y, procs (st k) !! q = Some y /\ waiting y /\
    boost_need y = boost_need x - Z.of_nat k) as H.
  { induction k as [|k IH]; intros Hk; [exists x; split_and!; [done|done|lia]|].
    destruct IH as (y & Hy & Hwy & Hn); [lia|]. exists (boosted (waited y)).
    destruct (waiting_step y Hwy) as (H1 & H2 & _). split_and!; [|done|].
    - eapply passes_over_slot; [apply Hst; lia|done].
    - rewrite H2; [lia|]. destruct (Hneed y Hwy) as [Hr H3]. destruct Hwy. destruct (decide (p_priority y = 3)) as [E|]; [|lia].
      assert (boost_need y = 0) by (unfold boost_need; by rewrite E). lia. }
  destruct (H (Z.to_nat (boost_need x)) ltac:(lia)) as (y & Hy & Hwy & Hn).
  rewrite (proc_at_lookup _ _ _ Hy). apply (Hneed y Hwy). destruct (Hneed x Hw). lia.
Qed.

End Pass.

(** ** Instances for the witnesses *)
Definition null_services : KernelServices unit := {|
  ks_kalloc := ret 4096; ks_kfree := fun _ => ret tt; ks_setupkvm := ret 8192; ks_inituvm := fun _ => ret tt;
  ks_copyuvm := fun _ _ => ret 8192; ks_freevm := fun _ => ret tt; ks_allocuvm := fun _ _ n => ret n;
  ks_deallocuvm := fun _ _ n => ret n; ks_switchuvm := fun _ => ret tt; ks_switchkvm := ret tt;
  ks_filedup := fun f => ret f; ks_fileclose := fun _ => ret tt; ks_idup := fun i => ret i;
  ks_iput := fun _ => ret tt; ks_namei_root := ret 1; ks_begin_op := ret tt; ks_end_op := ret tt;
  ks_iinit := ret tt; ks_initlog := ret tt |}.

(** A process that gives up the CPU as soon as it gets it. *)
Definition yields (c p : nat) : M (pst unit) unit := updp p (upd_p_state (fun _ => RUNNABLE)).

Definition mk_proc (pid : Z) (st : procstate) (prio : Z) (wt : list Z) : proc :=
  upd_p_wait_ticks (fun _ => wt) (upd_p_priority (fun _ => prio)
    (upd_p_pid (fun _ => pid) (upd_p_state (fun _ => st) null_proc))).

Definition mk_state (ps : list proc) : pst unit :=
  Pst false (ps ++ replicate (NPROC - length ps) null_proc) 100 (Some 0%nat) [Pcpu None 1 0 false true] false tt.

Definition two_procs : pst unit :=
  mk_state [mk_proc 1 RUNNABLE 3 [0; 0; 0; 0]; mk_proc 2 RUNNABLE 2 [0; 0; 159; 0]].

Lemma mlfq_priorities_witness :
  exists s', mlfq_pass (KS := null_services) yields 0 two_procs = (Ret tt, s').
Proof.
  set (s2 := (dispatch (KS := null_services) yields 0 0 two_procs).2).
  assert (dispatch (KS := null_services) yields 0 0 two_procs = (Ret tt, s2)) as Hd by reflexivity.
  destruct (mlfq_priorities (KS := null_services) yields 0 two_procs 0 s2 eq_refl Hd eq_refl)
    as (s' & Hp & _); [|by exists s'].
  apply Forall_forall. intros x. vm_compute. set_solver.
Defined.

Definition one_pass (k : nat) : pst unit :=
  match k with
  | O => two_procs
  | _ => (mlfq_pass (KS := null_services) yields 0 two_procs).2
  end.

Lemma one_pass_over : passes_over (KS := null_services) yields 0 1 (one_pass 0) (one_pass 1).
Proof.
  exists 0%nat, (dispatch (KS := null_services) yields 0 0 two_procs).2.
  split_and!; [vm_compute; reflexivity|done|vm_compute; reflexivity..].
Qed.

Lemma boost_liveness_witness : p_priority (proc_at (one_pass 1) 1) = 3.
Proof.
  destruct (boost_liveness (KS := null_services) yields 0 1 one_pass (mk_proc 2 RUNNABLE 2 [0; 0; 159; 0]))
    as [_ H].
  - vm_compute. reflexivity.
  - split; [done|done|done|]. intros q Hq. destruct q as [|[|[|]]]; (done || lia).
  - intros k Hk. change (Z.to_nat (boost_need _)) with 1%nat in Hk. assert (k = 0)%nat as -> by lia.
    apply one_pass_over.
  - change (Z.to_nat (boost_need _)) with 1%nat in H. exact H.
Defined.

(** ** Starvation in the top queue *)
Record greedy (s : pst unit) : Prop := {
  gr_len : length (procs s) = NPROC;
  gr_state : p_state (proc_at s 0) = RUNNABLE;
  gr_prio : p_priority (proc_at s 0) = 3;
  gr_ticks : nth_tick (p_ticks (proc_at s 0)) 3 < 8;
}.

Lemma greedy_selected s : greedy s -> selected s = Some 0%nat.
Proof.
  intros [Hl Hst Hpr _]. pose proof (selected_spec s) as Hs.
  assert (runnable s 0) as H0 by (split; [unfold NPROC; lia|]; split; [done|lia]).
  destruct (selected s) as [p|]; [|by apply Hs in H0]. destruct Hs as ((Hp1 & Hp2 & Hp3) & H2 & H3). f_equal.
  specialize (H2 _ H0). assert (p <= 0)%nat; [|lia]. apply H3; [done|lia].
Qed.

Lemma dispatch_yields s :
  dispatch (KS := null_services) yields 0 0 s =
  (Ret tt, upd_procs (alter (upd_p_state (fun _ => RUNNABLE)) 0%nat)
    (upd_procs (alter (upd_p_state (fun _ => RUNNING)) 0%nat) (upd_pcpus (alter (upd_c_proc (fun _ => Some 0%nat)) 0%nat) s))).
Proof. by destruct s as [? ? ? ? ? ? []]. Qed.

Lemma greedy_pass s : greedy s ->
  exists s', mlfq_pass (KS := null_services) yields 0 s = (Ret tt, s') /\ greedy s'.
Proof.
  intros Hg. pose proof (greedy_selected s Hg) as Hsel. destruct Hg as [Hl Hst Hpr Htk].
  destruct (lookup_lt_is_Some_2 (procs s) 0) as [x Hx]; [rewrite Hl; unfold NPROC; lia|].
  rewrite (proc_at_lookup _ _ _ Hx) in *.
  destruct (mlfq_pass_run (KS := null_services) yields 0 s 0 _ Hsel (dispatch_yields s)) as (s' & Hp & Hps & _);
    [simpl; by rewrite !length_alter|unfold NPROC; lia|].
  exists s'. split; [done|].
  assert (procs s' !! 0%nat = Some (upd_p_state (fun _ => RUNNABLE) x)) as H0.
  { rewrite Hps, list_lookup_imap. simpl. rewrite !list_lookup_alter_eq, Hx. simpl. f_equal. unfold after_pass.
    rewrite decide_True by done. rewrite demoted_top by done. by apply boosted_top. }
  split; rewrite ?(proc_at_lookup _ _ _ H0); try done. rewrite Hps, length_imap. simpl. by rewrite !length_alter.
Qed.

(** in the top queue the policy starves: of two processes of priority 3, one
    that always yields before a timer tick is selected in every pass, and the
    other one, which no boost can raise, never runs. *)
Theorem mlfq_starves n :
  let s0 := mk_state [mk_proc 1 RUNNABLE 3 [0; 0; 0; 0]; mk_proc 2 RUNNABLE 3 [0; 0; 0; 0]] in
  exists s, Nat.iter n (fun m => m ;; mlfq_pass (KS := null_services) yields 0) (ret tt) s0 = (Ret tt, s) /\
    mlfq_select s = (Ret (Some 0%nat), s).
Proof.
  intros s0. assert (exists s, Nat.iter n (fun m => m ;; mlfq_pass (KS := null_services) yields 0) (ret tt) s0 = (Ret tt, s) /\
    greedy s) as (s & Hs & Hg).
  { induction n as [|n IH]; [exists s0; split; [done|]; by split|]. destruct IH as (s & Hs & Hg).
    destruct (greedy_pass s Hg) as (s' & Hp & Hg'). exists s'. split; [|done].
    simpl. by rewrite (bind_Ret _ _ _ _ _ Hs). }
  exists s. split; [done|]. by rewrite mlfq_select_run, (greedy_selected s Hg).
Qed.
