(* ===== verification/ProcInv.v ===== *)
(** * Invariant of the process table

    A step relation over the critical sections of proc.c on any number of CPUs,
    and what holds in every reachable state: a process runs on at most one CPU,
    pids are unique, priorities stay in range. *)
From S2P Require Import Prelude Spinlock Kalloc Proc Sched.

(** ** What the invariant is about: state, pid and priority of each slot, the
    next pid, and the process on each CPU. *)
Definition key (x : proc) : procstate * Z * Z := (p_state x, p_pid x, p_priority x).

Record tkey : Type := Tkey {
  k_slots : list (procstate * Z * Z);
  k_next : Z;
  k_cpus : list (option nat);
}.

Definition tbkey {K} (s : pst K) : tkey := Tkey (key <$> procs s) (nextpid s) (c_proc <$> pcpus s).

Section Keeps.
Context {K : Type} {KS : KernelServices K}.
Implicit Types s : pst K.

(** A routine that does not change it. *)
Definition keeps_key {A} (m : M (pst K) A) : Prop :=
  forall s o s', m s = (o, s') -> tbkey s' = tbkey s.

Lemma keeps_bind {A B} (m : M (pst K) A) (k : A -> M (pst K) B) :
  keeps_key m -> (forall a, keeps_key (k a)) -> keeps_key (bind m k).
Proof.
  intros Hm Hk s o s'. unfold bind. destruct (m s) as [[a|msg|ch] s1] eqn:E; apply Hm in E.
  - intros H. apply Hk in H. congruence.
  - by intros [= <- <-].
  - by intros [= <- <-].
Qed.

Lemma keeps_gets {A} (f : pst K -> A) : keeps_key (gets f).
Proof. by intros s o s' [= <- <-]. Qed.

Lemma keeps_ret {A} (a : A) : keeps_key (ret a).
Proof. by intros s o s' [= <- <-]. Qed.

Lemma keeps_panic {A} msg : keeps_key (panic (A := A) msg).
Proof. by intros s o s' [= <- <-]. Qed.

Lemma keeps_panic_if b msg : keeps_key (panic_if b msg).
Proof. destruct b; by intros s o s' [= <- <-]. Qed.

Lemma keeps_svc {A} (m : M K A) : keeps_key (svc m).
Proof. intros s o s'. unfold svc, zoom. destruct (m _) as [o' k']. by intros [= <- <-]. Qed.

Lemma keeps_when b (m : M (pst K) unit) : keeps_key m -> keeps_key (when b m).
Proof. intros Hm. destruct b; [done|apply keeps_ret]. Qed.

Lemma fmap_alter_same {A B} (g : A -> B) f i (l : list A) :
  (forall x, g (f x) = g x) -> g <$> alter f i l = g <$> l.
Proof.
  intros Hf. apply list_eq. intros j. rewrite !list_lookup_fmap. destruct (decide (i = j)) as [->|Hne].
  - rewrite list_lookup_alter_eq. destruct (l !! j); [|done]. simpl. by rewrite Hf.
  - by rewrite list_lookup_alter_ne.
Qed.

Lemma keeps_updp i f : (forall x, key (f x) = key x) -> keeps_key (updp (K := K) i f).
Proof. intros Hf s o s' [= <- <-]. unfold tbkey. simpl. by rewrite fmap_alter_same. Qed.

Lemma keeps_updc c f : (forall x, c_proc (f x) = c_proc x) -> keeps_key (updc (K := K) c f).
Proof. intros Hf s o s' [= <- <-]. unfold tbkey. simpl. by rewrite fmap_alter_same. Qed.

Lemma keeps_lock f : keeps_key (modify (upd_pt_lock (K := K) f)).
Proof. by intros s o s' [= <- <-]. Qed.

Lemma keeps_initproc f : keeps_key (modify (upd_initproc (K := K) f)).
Proof. by intros s o s' [= <- <-]. Qed.

Lemma keeps_for {I} (l : list I) (body : I -> M (pst K) unit) :
  (forall i, keeps_key (body i)) -> keeps_key (for_each l body).
Proof. intros Hb. induction l as [|i l IH]; simpl; [apply keeps_ret|by apply keeps_bind]. Qed.

Lemma keeps_until {I R} (l : list I) (body : I -> M (pst K) (option R)) :
  (forall i, keeps_key (body i)) -> keeps_key (for_until l body).
Proof.
  intros Hb. induction l as [|i l IH]; simpl; [apply keeps_ret|]. apply keeps_bind; [done|].
  intros [r|]; [apply keeps_ret|done].
Qed.

End Keeps.

Ltac keeps :=
  repeat match goal with
  | |- forall _, _ => intros ?
  | |- keeps_key (bind _ _) => apply keeps_bind
  | |- keeps_key (ret _) => apply keeps_ret
  | |- keeps_key (panic _) => apply keeps_panic
  | |- keeps_key (panic_if _ _) => apply keeps_panic_if
  | |- keeps_key (gets _) => apply keeps_gets
  | |- keeps_key (getp _ _) => apply keeps_gets
  | |- keeps_key (getc _ _) => apply keeps_gets
  | |- keeps_key (svc _) => apply keeps_svc
  | |- keeps_key (when _ _) => apply keeps_when
  | |- keeps_key (updp _ _) => apply keeps_updp; done
  | |- keeps_key (updc _ _) => apply keeps_updc; done
  | |- keeps_key (modify (upd_pt_lock _)) => apply keeps_lock
  | |- keeps_key (modify (upd_initproc _)) => apply keeps_initproc
  | |- keeps_key (for_each _ _) => apply keeps_for
  | |- keeps_key (for_until _ _) => apply keeps_until
  | |- keeps_key (match ?x with _ => _ end) => destruct x
  | |- keeps_key (if ?x then _ else _) => destruct x
  end.

Section Steps.
Context {K : Type} {KS : KernelServices K} (trapret forkret_addr : Z).
Implicit Types s : pst K.

Lemma keeps_acquire c : keeps_key (acquire_pt (K := K) c).
Proof. unfold acquire_pt, pushcli_on. keeps. Qed.

Lemma keeps_release c : keeps_key (release_pt (K := K) c).
Proof. unfold release_pt, popcli_on. keeps. Qed.

Lemma keeps_curproc c : keeps_key (curproc (K := K) c).
Proof. unfold curproc, myproc, null_deref. keeps. Qed.

(** The scheduler context: control goes to the scheduler and this run stops. *)
Definition stop (c p : nat) : M (pst K) unit := sleep_on 0.

(** What the scheduler does when process [p] comes back to it on CPU [c]. *)
Definition back (c p : nat) : M (pst K) unit :=
  svc ks_switchkvm ;;
  pol ← getc c c_policy;
  (if pol =? 1 then demote p ;; update_wait_ticks p ;; priority_boost else ret tt) ;;
  updc c (upd_c_proc (fun _ => None)) ;;
  release_pt c.

(** [leaves c p m s s']: the process [p] on CPU [c] gives up the CPU in routine
    [m], in a state other than RUNNING, and the scheduler finishes its pass. *)
Definition leaves {A} (c p : nat) (m : M (pst K) A) s s' : Prop :=
  exists ch s1, c_proc (cpu_at s c) = Some p /\ m s = (Sleep ch, s1) /\
    p_state (proc_at s1 p) <> RUNNING /\ back c p s1 = (Ret tt, s').

(** A timer tick charges the process on CPU [c]. *)
Definition charge (c : nat) : M (pst K) unit :=
  p ← curproc c;
  q ← getp p p_priority;
  updp p (upd_p_ticks (alter (fun t => s32 (t + 1)) (Z.to_nat q))).

(** A lock that is not part of the process table. *)
Definition outside (lk : lockptr (K := K)) : Prop :=
  match lk with
  | LkOther l => forall f s, tbkey (over l f s) = tbkey s
  | _ => True
  end.

Inductive pstep : pst K -> pst K -> Prop :=
| ps_dispatch c p s s' :
    (c < length (pcpus s))%nat -> c_proc (cpu_at s c) = None ->
    (p < NPROC)%nat -> p_state (proc_at s p) = RUNNABLE ->
    dispatch stop c p s = (Sleep 0, s') -> p_state (proc_at s' p) = RUNNING -> pstep s s'
| ps_yield c p s s' : leaves c p (yield stop c) s s' -> pstep s s'
| ps_sleep c p chan lk s s' : outside lk -> leaves c p (sleep stop c chan lk) s s' -> pstep s s'
| ps_exit c p s s' : leaves c p (exit stop c) s s' -> pstep s s'
| ps_wait_sleep c p s s' : leaves c p (wait stop 1 c) s s' -> pstep s s'
| ps_wait c s r s' : wait stop 1 c s = (Ret r, s') -> pstep s s'
| ps_wakeup c chan s s' : wakeup c chan s = (Ret tt, s') -> pstep s s'
| ps_kill c pid s r s' : kill c pid s = (Ret r, s') -> pstep s s'
| ps_fork c s r s' : nextpid s < 2147483647 -> fork trapret forkret_addr c s = (Ret r, s') -> pstep s s'
| ps_charge c s s' : charge c s = (Ret tt, s') -> pstep s s'.

(** ** Effects of the routines *)
Definition set_st (i : nat) (st : procstate) (t : tkey) : tkey :=
  Tkey (alter (fun k => (st, k.1.2, k.2)) i (k_slots t)) (k_next t) (k_cpus t).

Definition set_cpu (c : nat) (o : option nat) (t : tkey) : tkey :=
  Tkey (k_slots t) (k_next t) (alter (fun _ => o) c (k_cpus t)).

Lemma fmap_alter_key (f : proc -> proc) g i (l : list proc) :
  (forall x, key (f x) = g (key x)) -> key <$> alter f i l = alter g i (key <$> l).
Proof.
  intros Hf. apply list_eq. intros j. rewrite list_lookup_fmap. destruct (decide (i = j)) as [->|Hne].
  - rewrite !list_lookup_alter_eq, list_lookup_fmap. destruct (l !! j); [|done]. simpl. by rewrite Hf.
  - by rewrite !list_lookup_alter_ne, list_lookup_fmap by done.
Qed.

Lemma updp_state_key i st s s' o : updp i (upd_p_state (fun _ => st)) s = (o, s') ->
  tbkey s' = set_st i st (tbkey s).
Proof. intros [= <- <-]. unfold tbkey, set_st. simpl. f_equal. by apply fmap_alter_key. Qed.

Lemma updc_proc_key c q s s' o : updc c (upd_c_proc (fun _ => q)) s = (o, s') ->
  tbkey s' = set_cpu c q (tbkey s).
Proof.
  intros [= <- <-]. unfold tbkey, set_cpu. simpl. f_equal. apply list_eq. intros j.
  rewrite list_lookup_fmap. destruct (decide (c = j)) as [->|Hne].
  - rewrite !list_lookup_alter_eq, list_lookup_fmap. by destruct (pcpus s !! j).
  - by rewrite !list_lookup_alter_ne, list_lookup_fmap by done.
Qed.

Lemma bind_inv {A B} (m : M (pst K) A) (k : A -> M (pst K) B) s o s' :
  bind m k s = (o, s') ->
  (exists a s1, m s = (Ret a, s1) /\ k a s1 = (o, s')) \/ (exists o1, m s = (o1, s')).
Proof. unfold bind. destruct (m s) as [[a|msg|ch] s1]; naive_solver. Qed.

Lemma on_cpu_key s c p : c_proc (cpu_at s c) = Some p <-> k_cpus (tbkey s) !! c = Some (Some p).
Proof.
  unfold cpu_at. simpl. rewrite list_lookup_fmap. destruct (pcpus s !! c); simpl; [|done].
  split; [by intros ->|congruence].
Qed.

Lemma curproc_inv c s q s1 p : curproc c s = (Ret q, s1) -> k_cpus (tbkey s) !! c = Some (Some p) ->
  s1 = s /\ q = p.
Proof.
  intros H Hp. apply on_cpu_key in Hp. unfold curproc, myproc, getc, bind, gets, null_deref in H.
  rewrite Hp in H. by injection H as -> ->.
Qed.

Lemma curproc_state c s q s1 : curproc c s = (Ret q, s1) -> s1 = s /\ c_proc (cpu_at s c) = Some q.
Proof.
  unfold curproc, myproc, getc, bind, gets, null_deref. destruct (c_proc (cpu_at s c)); [|done].
  intros H. by injection H as <- <-.
Qed.

Lemma keeps_sched c : keeps_key (sched stop c).
Proof.
  unfold sched. apply keeps_bind; [apply keeps_curproc|]. keeps. unfold stop. by intros s o s' [= <- <-].
Qed.

(** Split a run of [m ;; k] where [m] keeps the key: either [m] stopped, or the
    rest ran from a state with the same key. *)
Ltac kstep H lem :=
  let a := fresh "a" in let s1 := fresh "s" in let Hm := fresh "Hm" in let o1 := fresh "o" in
  apply bind_inv in H as [(a & s1 & Hm & H)|(o1 & H)];
  [pose proof (lem _ _ _ Hm)|apply lem in H].

Lemma yield_key c p s o s1 : yield stop c s = (o, s1) -> k_cpus (tbkey s) !! c = Some (Some p) ->
  tbkey s1 = tbkey s \/ tbkey s1 = set_st p RUNNABLE (tbkey s).
Proof.
  intros H Hp. unfold yield in H. kstep H (keeps_acquire c); [|by left].
  kstep H (keeps_curproc c); [|left; congruence].
  destruct (curproc_inv c s0 a0 s2 p Hm0) as [-> ->]; [congruence|].
  right. apply bind_inv in H as [([] & s3 & Hu & H)|(o1 & Hu)]; apply updp_state_key in Hu; [|congruence].
  assert (keeps_key (sched stop c ;; release_pt c)) as Hk by (apply keeps_bind; [apply keeps_sched|intros; apply keeps_release]).
  apply Hk in H. congruence.
Qed.

Lemma keeps_release_on c l : (forall f s, tbkey (over l f s) = tbkey s) -> keeps_key (release_on (K := K) c l).
Proof.
  intros Hl. unfold release_on, popcli_on, release_flag, set. keeps. by intros s o s' [= <- <-].
Qed.

Lemma keeps_acquire_on c l : (forall f s, tbkey (over l f s) = tbkey s) -> keeps_key (acquire_on (K := K) c l).
Proof.
  intros Hl. unfold acquire_on, pushcli_on, acquire_flag, set. keeps. by intros s o s' [= <- <-].
Qed.

(** Run an update of a slot that does not change its key, or its state. *)
Ltac kupd H :=
  match type of H with
  | bind (updp ?i ?f) _ ?s = _ =>
      rewrite (bind_Ret (updp i f) _ s tt _ eq_refl) in H
  end.

Lemma updp_key_same i f s : (forall x, key (f x) = key x) -> tbkey (upd_procs (alter f i) s) = tbkey s.
Proof. intros Hf. by apply (keeps_updp i f Hf s (Ret tt)). Qed.

Lemma updp_key_state i st s : tbkey (upd_procs (alter (upd_p_state (fun _ => st)) i) s) = set_st i st (tbkey s).
Proof. by apply (updp_state_key i st s _ (Ret tt)). Qed.

Lemma sleep_key c p chan lk s o s1 :
  sleep stop c chan lk s = (o, s1) -> outside lk -> k_cpus (tbkey s) !! c = Some (Some p) ->
  tbkey s1 = tbkey s \/ tbkey s1 = set_st p SLEEPING (tbkey s).
Proof.
  intros H Hlk Hp. unfold sleep, myproc in H. unfold bind at 1, getc, gets in H.
  apply on_cpu_key in Hp. rewrite Hp in H.
  assert (keeps_key (match lk with LkOther l => acquire_pt c ;; release_on c l | _ => ret tt end)) as Hk1.
  { destruct lk as [| |l]; [apply keeps_ret..|apply keeps_bind; [apply keeps_acquire|intros; by apply keeps_release_on]]. }
  assert (keeps_key (match lk with LkOther l => release_pt c ;; acquire_on c l | _ => ret tt end)) as Hk2.
  { destruct lk as [| |l]; [apply keeps_ret..|apply keeps_bind; [apply keeps_release|intros; by apply keeps_acquire_on]]. }
  kstep H (keeps_panic_if (K := K) (match lk with LkNull => true | _ => false end) "sleep without lk"); [|by left].
  kstep H Hk1; [|left; congruence]. right. kupd H. kupd H.
  assert (keeps_key (sched stop c ;; updp p (upd_p_chan (fun _ => 0)) ;;
    match lk with LkOther l => release_pt c ;; acquire_on c l | _ => ret tt end)) as Hk3.
  { apply keeps_bind; [apply keeps_sched|]. intros. apply keeps_bind; [by apply keeps_updp|done]. }
  apply Hk3 in H. rewrite H, updp_key_state, updp_key_same by done. congruence.
Qed.

(** Waking sleepers. *)
Definition softk (k k' : procstate * Z * Z) : Prop :=
  k'.1.2 = k.1.2 /\ (k'.1.1 = k.1.1 \/ k.1.1 = SLEEPING /\ k'.1.1 = RUNNABLE) /\
  (0 <= k.2 <= 3 -> 0 <= k'.2 <= 3).

Record soft (t t' : tkey) : Prop := {
  so_slots : Forall2 softk (k_slots t) (k_slots t');
  so_next : k_next t' = k_next t;
  so_cpus : k_cpus t' = k_cpus t;
}.

Lemma softk_refl k : softk k k.
Proof. split_and!; auto. Qed.

Lemma softk_trans k1 k2 k3 : softk k1 k2 -> softk k2 k3 -> softk k1 k3.
Proof.
  intros (A1 & A2 & A3) (B1 & B2 & B3). split_and!; [congruence| |auto].
  destruct A2 as [A2|[A2 A2']], B2 as [B2|[B2 B2']]; [left|right|right|right]; split_and? || idtac; congruence.
Qed.

Lemma soft_refl t : soft t t.
Proof. split; [|done|done]. apply Forall_Forall2_diag, elem_Forall. intros k _. apply softk_refl. Qed.

Lemma soft_trans t1 t2 t3 : soft t1 t2 -> soft t2 t3 -> soft t1 t3.
Proof.
  intros [A1 A2 A3] [B1 B2 B3]. split; [|congruence|congruence].
  assert (Transitive softk) by (intros k1 k2 k3; apply softk_trans). by etrans.
Qed.

Lemma soft_imap (f : nat -> proc -> proc) s : (forall i x, softk (key x) (key (f i x))) ->
  soft (tbkey s) (tbkey (upd_procs (imap f) s)).
Proof.
  intros Hf. split; [|done|done]. simpl. apply Forall2_fmap, Forall2_same_length_lookup.
  split; [by rewrite length_imap|]. intros i x y Hx Hy. rewrite list_lookup_imap, Hx in Hy. simpl in Hy.
  injection Hy as <-. apply Hf.
Qed.

Lemma soft_alter (f : proc -> proc) i s : (forall x, procs s !! i = Some x -> softk (key x) (key (f x))) ->
  soft (tbkey s) (tbkey (upd_procs (alter f i) s)).
Proof.
  intros Hf. split; [|done|done]. simpl. apply Forall2_fmap, Forall2_same_length_lookup.
  split; [by rewrite length_alter|]. intros j x y Hx Hy. destruct (decide (i = j)) as [->|Hne].
  - rewrite list_lookup_alter_eq, Hx in Hy. injection Hy as <-. by apply Hf.
  - rewrite list_lookup_alter_ne, Hx in Hy by done. injection Hy as <-. apply softk_refl.
Qed.

Lemma softk_wake chan x : softk (key x) (key (wake chan x)).
Proof.
  unfold wake. destruct (_ && _) eqn:E; [|apply softk_refl]. apply andb_true_iff in E as [E _].
  apply bool_decide_eq_true in E. split_and!; simpl; auto.
Qed.

Lemma wakeup1_soft chan s o s' : length (procs s) = NPROC -> wakeup1 chan s = (o, s') ->
  soft (tbkey s) (tbkey s') /\ o = Ret tt.
Proof. intros Hl. rewrite wakeup1_run by done. intros [= <- <-]. split; [|done]. apply soft_imap. intros. apply softk_wake. Qed.

Lemma soft_length s s' : soft (tbkey s) (tbkey s') -> length (procs s') = length (procs s).
Proof. intros [H _ _]. apply Forall2_length in H. simpl in H. by rewrite !length_fmap in H. Qed.

Lemma key_length s s' : tbkey s' = tbkey s -> length (procs s') = length (procs s).
Proof. intros [= H _ _]. apply (f_equal length) in H. by rewrite !length_fmap in H. Qed.


Lemma reparent_soft cur s o s' : length (procs s) = NPROC -> reparent cur s = (o, s') -> soft (tbkey s) (tbkey s').
Proof.
  unfold reparent. generalize (seq 0 NPROC) as l. intros l. revert s. induction l as [|i l IH]; intros s Hl H; simpl in H.
  - injection H as <- <-. apply soft_refl.
  - set (body := x ← getp i id; _) in H.
    assert (forall o1 s1, body s = (o1, s1) -> soft (tbkey s) (tbkey s1)) as Hb.
    { intros o1 s1 Hb. unfold body, getp in Hb. unfold bind at 1, gets in Hb. unfold when at 1 in Hb.
      destruct (bool_decide (p_parent _ = _)); [|injection Hb as <- <-; apply soft_refl].
      unfold bind at 1 in Hb. kupd Hb. unfold when in Hb.
      assert (tbkey (upd_procs (alter (upd_p_parent (fun _ => initproc s)) i) s) = tbkey s) as E by by apply updp_key_same.
      destruct (bool_decide _); [|injection Hb as <- <-; rewrite E; apply soft_refl].
      apply wakeup1_soft in Hb as [Hb _]; [by rewrite E in Hb|simpl; by rewrite length_alter]. }
    apply bind_inv in H as [(a & s1 & Hm & H)|(o1 & Hm)]; apply Hb in Hm; [|done].
    eapply soft_trans; [exact Hm|]. apply IH; [|done]. by rewrite (soft_length _ _ Hm).
Qed.

Lemma exit_key c p s o s1 : exit stop c s = (o, s1) -> length (procs s) = NPROC ->
  k_cpus (tbkey s) !! c = Some (Some p) ->
  exists t, soft (tbkey s) t /\ (tbkey s1 = t \/ tbkey s1 = set_st p ZOMBIE t).
Proof.
  intros H Hl Hp. unfold exit in H. kstep H (keeps_curproc c); [|exists (tbkey s); split; [apply soft_refl|by left]].
  destruct (curproc_inv c s a s0 p Hm Hp) as [-> ->]. clear H0 Hm.
  unfold bind at 1, gets in H.
  assert (exists s2, tbkey s2 = tbkey s /\ (s1 = s2 \/
    (par ← getp p p_parent; wakeup1 (proc_chan par) ;; reparent p ;; updp p (upd_p_state (fun _ => ZOMBIE)) ;;
     sched stop c ;; panic "zombie exit") s2 = (o, s1))) as (s2 & E2 & Hs2).
  { kstep H (keeps_panic_if (K := K) (bool_decide (Some p = initproc s)) "init exiting"); [|by exists s1; auto].
    match type of H with bind ?m _ _ = _ => assert (keeps_key m) as Hk1 by keeps end.
    kstep H Hk1; [|exists s1; split; [congruence|by left]].
    kstep H (keeps_svc (K := K) ks_begin_op); [|exists s1; split; [congruence|by left]].
    unfold bind at 1, getp at 1, gets in H.
    match type of H with bind ?m _ _ = _ => assert (keeps_key m) as Hk2 by apply keeps_svc end.
    kstep H Hk2; [|exists s1; split; [congruence|by left]].
    kstep H (keeps_svc (K := K) ks_end_op); [|exists s1; split; [congruence|by left]].
    kupd H. kstep H (keeps_acquire c).
    - eexists. split; [|right; exact H]. rewrite updp_key_same in * by done. congruence.
    - exists s1. split; [|by left]. rewrite updp_key_same in * by done. congruence. }
  assert (length (procs s2) = NPROC) as Hl2 by (rewrite (key_length _ _ E2); done).
  destruct Hs2 as [->|H2]; [exists (tbkey s2); rewrite E2; split; [apply soft_refl|by left]|].
  unfold bind at 1, getp at 1, gets in H2.
  apply bind_inv in H2 as [(a & s3 & Hw & H2)|(o1 & Hw)]; apply wakeup1_soft in Hw as [Hs3 _]; try done.
  2: { exists (tbkey s1). rewrite <- E2. auto. }
  apply bind_inv in H2 as [(b & s4 & Hr & H2)|(o1 & Hr)]; apply reparent_soft in Hr as Hs4; try by rewrite (soft_length _ _ Hs3).
  2: { exists (tbkey s1). rewrite <- E2. split; [by eapply soft_trans|auto]. }
  kupd H2. exists (tbkey s4). rewrite <- E2. split; [by eapply soft_trans|right].
  assert (keeps_key (sched stop c ;; panic (A := unit) "zombie exit")) as Hk
    by (apply keeps_bind; [apply keeps_sched|intros; apply keeps_panic]).
  apply Hk in H2. by rewrite H2, updp_key_state.
Qed.

Lemma softk_demoted x : softk (key x) (key (demoted x)).
Proof.
  unfold demoted. destruct (_ && _) eqn:E; [|apply softk_refl]. apply andb_true_iff in E as [E _]. bool_to_prop.
  split_and!; simpl; [done|by left|lia].
Qed.

Lemma softk_boosted x : softk (key x) (key (boosted x)).
Proof.
  assert (p_pid (boosted x) = p_pid x) as Hp
    by (unfold boosted; repeat case_match; done).
  assert (p_state (boosted x) = p_state x) as Hs
    by (unfold boosted; repeat case_match; done).
  split_and!; simpl; [done|by left|]. intros Hx. destruct (boosted_priority x Hx). lia.
Qed.

Lemma back_key c p s s' : back c p s = (Ret tt, s') -> length (procs s) = NPROC -> (p < NPROC)%nat ->
  exists t, soft (tbkey s) t /\ tbkey s' = set_cpu c None t.
Proof.
  intros H Hl Hp. unfold back in H. apply bind_Ret_inv in H as (a & s1 & Hk%keeps_svc & H).
  assert (length (procs s1) = NPROC) as Hl1 by by rewrite (key_length _ _ Hk).
  unfold bind at 1, getc, gets in H.
  apply bind_Ret_inv in H as (b & s2 & Hm & H).
  assert (soft (tbkey s1) (tbkey s2)) as Hs2.
  { destruct (_ =? 1); [|injection Hm as _ <-; apply soft_refl].
    rewrite (bind_Ret _ _ _ _ _ (demote_run p s1 ltac:(lia))) in Hm.
    assert (length (procs (upd_procs (alter demoted p) s1)) = NPROC) as Hl2 by (simpl; by rewrite length_alter).
    rewrite (bind_Ret _ _ _ _ _ (update_wait_ticks_run p _ Hl2)) in Hm.
    rewrite <- (length_imap_procs (fun i x => if decide (i = p) then x else waited x)) in Hl2.
    rewrite (priority_boost_run _ Hl2) in Hm. injection Hm as _ <-.
    eapply soft_trans; [apply (soft_alter demoted p); intros; apply softk_demoted|].
    eapply soft_trans; [|apply soft_imap; intros; apply softk_boosted].
    apply soft_imap. intros i x. case_decide; [apply softk_refl|].
    unfold waited. destruct (_ && _); apply softk_refl. }
  exists (tbkey s2). rewrite <- Hk. split; [done|].
  apply bind_Ret_inv in H as (d & s3 & Hu%updc_proc_key & Hr%keeps_release). congruence.
Qed.

Lemma dispatch_key c p s o s' : dispatch stop c p s = (o, s') -> p_state (proc_at s' p) = RUNNING ->
  p_state (proc_at s p) <> RUNNING -> (p < length (procs s))%nat ->
  tbkey s' = set_st p RUNNING (set_cpu c (Some p) (tbkey s)).
Proof.
  intros H Hr Hn Hp. unfold dispatch in H.
  apply bind_inv in H as [(a & s1 & Hu & H)|(o1 & Hu)]; [|by injection Hu as _ <-].
  injection Hu as _ Hu. assert (tbkey s1 = set_cpu c (Some p) (tbkey s)) as E1 by (by apply (updc_proc_key c (Some p) s s1 (Ret tt)); subst s1).
  assert (procs s1 = procs s) as Ep by by subst s1.
  unfold bind at 1, getp, gets in H.
  apply bind_inv in H as [(b & s2 & Hm & H)|(o1 & Hm)].
  - apply keeps_svc in Hm. kupd H. 
    assert (keeps_key (stop c p ;; svc ks_switchkvm)) as Hk.
    { apply keeps_bind; [by intros ? ? ? [= <- <-]|intros; apply keeps_svc]. }
    apply Hk in H. rewrite H, updp_key_state. congruence.
  - exfalso. apply Hn. rewrite <- Hr. unfold svc, zoom in Hm. destruct (ks_switchuvm _ _) in Hm.
    injection Hm as _ <-. unfold proc_at. simpl. by rewrite Ep.
Qed.

Lemma kill_key c pid s o s' : kill c pid s = (o, s') -> soft (tbkey s) (tbkey s').
Proof.
  intros H. unfold kill in H. kstep H (keeps_acquire c); [|rewrite H; apply soft_refl]. rewrite <- H0. clear H0 Hm.
  assert (forall l s0 o1 s1, for_until l (fun p => x ← getp p id;
    if p_pid x =? pid then
      updp p (upd_p_killed (fun _ => 1)) ;;
      when (bool_decide (p_state x = SLEEPING)) (updp p (upd_p_state (fun _ => RUNNABLE))) ;;
      release_pt c ;; ret (Some 0)
    else ret None) s0 = (o1, s1) -> soft (tbkey s0) (tbkey s1)) as Hl.
  { clear. induction l as [|i l IH]; intros s0 o1 s1 H; simpl in H; [injection H as _ <-; apply soft_refl|].
    set (body := x ← getp i id; _) in H.
    assert (forall o2 s2, body s0 = (o2, s2) -> soft (tbkey s0) (tbkey s2)) as Hb.
    { intros o2 s2 Hb. unfold body, getp in Hb. unfold bind at 1, gets in Hb. cbn [id] in Hb.
      destruct (p_pid (proc_at s0 i) =? pid); [|injection Hb as _ <-; apply soft_refl]. kupd Hb.
      set (s3 := upd_procs _ s0) in Hb. assert (tbkey s3 = tbkey s0) as E3 by by apply updp_key_same.
      assert (keeps_key (release_pt c ;; ret (Some 0))) as Hk by (apply keeps_bind; [apply keeps_release|intros; apply keeps_ret]).
      unfold when in Hb. destruct (bool_decide (p_state (proc_at s0 i) = SLEEPING)) eqn:Es.
      - kupd Hb. apply Hk in Hb. rewrite Hb, <- E3. apply soft_alter. intros x Hx. split_and!; [done|right|done].
        split; [|done]. apply bool_decide_eq_true in Es. rewrite <- Es. simpl in Hx. rewrite list_lookup_alter_eq in Hx.
        unfold proc_at. destruct (procs s0 !! i) as [z|]; [|done]. simpl in *. by injection Hx as <-.
      - unfold bind at 1, ret at 1 in Hb. apply Hk in Hb. rewrite Hb, <- E3. apply soft_refl. }
    apply bind_inv in H as [(r & s2 & Hm & H)|(o2 & Hm)]; apply Hb in Hm; [|done]. eapply soft_trans; [exact Hm|].
    destruct r; [injection H as _ <-; apply soft_refl|by eapply IH]. }
  apply bind_inv in H as [(r & s2 & Hm & H)|(o2 & Hm)]; apply Hl in Hm; [|done]. eapply soft_trans; [exact Hm|].
  destruct r as [v|]; [injection H as _ <-; apply soft_refl|].
  assert (keeps_key (release_pt (K := K) c ;; ret (-1))) as Hk by (apply keeps_bind; [apply keeps_release|intros; apply keeps_ret]).
  apply Hk in H. rewrite H. apply soft_refl.
Qed.

Lemma updp_key_gen i f g s : (forall x, key (f x) = g (key x)) ->
  tbkey (upd_procs (alter f i) s) = Tkey (alter g i (k_slots (tbkey s))) (k_next (tbkey s)) (k_cpus (tbkey s)).
Proof. intros Hf. unfold tbkey. simpl. f_equal. by apply fmap_alter_key. Qed.

Lemma alter_alter {A} (f g h : A -> A) i (l : list A) : (forall x, f (g x) = h x) -> alter f i (alter g i l) = alter h i l.
Proof.
  intros Hf. apply list_eq. intros j. destruct (decide (i = j)) as [->|Hne].
  - rewrite !list_lookup_alter_eq. destruct (l !! j); [|done]. simpl. by rewrite Hf.
  - by rewrite !list_lookup_alter_ne.
Qed.

Lemma proc_at_some s i : p_state (proc_at s i) <> UNUSED -> exists x, procs s !! i = Some x.
Proof. unfold proc_at. destruct (procs s !! i); [eauto|done]. Qed.

(** Reaping a zombie. *)
Definition reap (i : nat) (t : tkey) : tkey :=
  Tkey (alter (fun k => (UNUSED, 0, k.2)) i (k_slots t)) (k_next t) (k_cpus t).

Lemma wait_scan_key c cur s o s' : wait_scan c cur s = (o, s') ->
  tbkey s' = tbkey s \/
  exists i pid prio, k_slots (tbkey s) !! i = Some (ZOMBIE, pid, prio) /\ tbkey s' = reap i (tbkey s).
Proof.
  intros H. unfold wait_scan in H. unfold bind at 1, gets in H. revert H. generalize (seq 0 NPROC) as l.
  intros l H. set (body := fun p : nat => x ← getp p id; _) in H.
  assert (forall i s0 o1 s1, body i s0 = (o1, s1) -> o1 = Ret None /\ s1 = s0 \/ tbkey s1 = tbkey s0 \/
    o1 <> Ret None /\
    exists pid prio, k_slots (tbkey s0) !! i = Some (ZOMBIE, pid, prio) /\ tbkey s1 = reap i (tbkey s0)) as Hb.
  { clear. intros i s0 o1 s1 Hb. unfold body in Hb. unfold bind at 1, getp, gets in Hb. cbn [id] in Hb.
    destruct (bool_decide _ && bool_decide _) eqn:E; [|left; by injection Hb as <- <-]. right.
    apply andb_true_iff in E as [_ E%bool_decide_eq_true].
    kstep Hb (keeps_svc (K := K) (ks_kfree (p_kstack (proc_at s0 i)))); [|by left]. kupd Hb.
    kstep Hb (keeps_svc (K := K) (ks_freevm (p_pgdir (proc_at s0 i)))).
    2: { left. rewrite Hb, updp_key_same by done. done. }
    rewrite updp_key_same in H0 by done. do 5 kupd Hb. right.
    assert (keeps_key (release_pt (K := K) c ;; ret (Some (p_pid (proc_at s0 i))))) as Hk
      by (apply keeps_bind; [apply keeps_release|intros; apply keeps_ret]).
    split; [intros ->; apply bind_Ret_inv in Hb as (? & ? & _ & Hb); done|].
    apply Hk in Hb. rewrite updp_key_state in Hb. rewrite !updp_key_same in Hb by done.
    rewrite (updp_key_gen i _ (fun k => (k.1.1, 0, k.2))) in Hb by done.
    destruct (proc_at_some s0 i ltac:(congruence)) as [x Hx].
    exists (p_pid x), (p_priority x). split.
    - simpl. rewrite list_lookup_fmap, Hx. simpl. unfold key. by rewrite <- (proc_at_lookup _ _ _ Hx), E.
    - rewrite Hb, H0, H. unfold set_st, reap. simpl. f_equal. apply alter_alter. done. }
  assert (forall l s0 o1 s1, for_until l body s0 = (o1, s1) -> tbkey s1 = tbkey s0 \/
    exists i pid prio, k_slots (tbkey s0) !! i = Some (ZOMBIE, pid, prio) /\ tbkey s1 = reap i (tbkey s0)) as Hl.
  { clear H. clear l. induction l as [|i l IH]; intros s0 o1 s1 H; simpl in H; [injection H as _ <-; by left|].
    apply bind_inv in H as [(r & s2 & Hm & H)|(o2 & Hm)].
    - destruct (Hb _ _ _ _ Hm) as [[_ ->]|[E|(Hn & pid & prio & H1 & H2)]].
      + destruct r; [injection H as _ <-; by left|by eapply IH].
      + destruct r; [injection H as _ <-; by left|]. apply IH in H. by rewrite E in H.
      + destruct r; [injection H as _ <-; right; eauto|done].
    - destruct (Hb _ _ _ _ Hm) as [[_ ->]|[?|(_ & pid & prio & H1 & H2)]]; [by left|by left|right; eauto]. }
  apply bind_inv in H as [(r & s2 & Hm & H)|(o2 & Hm)]; [|by apply Hl in Hm].
  injection H as _ <-. by apply Hl in Hm.
Qed.

Lemma wait_key c p s o s' : wait stop 1 c s = (o, s') -> k_cpus (tbkey s) !! c = Some (Some p) ->
  tbkey s' = tbkey s \/ tbkey s' = set_st p SLEEPING (tbkey s) \/
  exists i pid prio, k_slots (tbkey s) !! i = Some (ZOMBIE, pid, prio) /\
    (tbkey s' = reap i (tbkey s) \/ tbkey s' = set_st p SLEEPING (reap i (tbkey s))).
Proof.
  intros H Hp. unfold wait in H. kstep H (keeps_curproc c); [|by left].
  destruct (curproc_inv c s a s0 p Hm Hp) as [-> ->]. clear H0 Hm.
  kstep H (keeps_acquire c); [|by left]. rewrite <- H0 in *. clear H0 Hm. unfold wait_loop in H.
  apply bind_inv in H as [(r & s1 & Hw & H)|(o1 & Hw)]; apply wait_scan_key in Hw.
  2: { destruct Hw as [?|(i & pid & prio & H1 & H2)]; [by left|right; right; eauto 10]. }
  assert (tbkey s' = tbkey s1 \/ tbkey s' = set_st p SLEEPING (tbkey s1)) as Hs'.
  { destruct r as [pid|havekids]; [injection H as _ <-; by left|]. unfold bind at 1, getp, gets in H.
    destruct (_ || _).
    - assert (keeps_key (release_pt (K := K) c ;; ret (Some (-1)))) as Hk by (apply keeps_bind; [apply keeps_release|intros; apply keeps_ret]).
      apply Hk in H. by left.
    - assert (k_cpus (tbkey s1) !! c = Some (Some p)) as Hp1
        by (destruct Hw as [->|(i & ? & ? & _ & ->)]; done).
      apply bind_inv in H as [(u & s3 & Hs & H)|(o1 & Hs)]; apply (sleep_key c p) in Hs; try done.
      injection H as _ <-. done. }
  destruct Hw as [E|(i & pid & prio & H1 & E)]; rewrite E in Hs'; [tauto|]. right; right. exists i, pid, prio. tauto.
Qed.

Lemma sched_stop_ret c s a s' : sched (K := K) stop c s <> (Ret a, s').
Proof. intros H. unfold sched in H. inv_ret. Qed.

Lemma sleep_stop_ret c chan lk s a s' : sleep (K := K) stop c chan lk s <> (Ret a, s').
Proof.
  intros H. unfold sleep, myproc in H. unfold bind at 1, getc, gets in H.
  destruct (c_proc _); [|done]. inv_ret. by apply sched_stop_ret in Hm3.
Qed.

Lemma wait_ret_key c p s r s' : wait stop 1 c s = (Ret r, s') -> k_cpus (tbkey s) !! c = Some (Some p) ->
  tbkey s' = tbkey s \/
  exists i pid prio, k_slots (tbkey s) !! i = Some (ZOMBIE, pid, prio) /\ tbkey s' = reap i (tbkey s).
Proof.
  intros H Hp. unfold wait in H. apply bind_Ret_inv in H as (a & s0 & Hm & H).
  destruct (curproc_inv c s a s0 p Hm Hp) as [-> ->]. apply bind_Ret_inv in H as ([] & s1 & Ha%keeps_acquire & H).
  rewrite <- Ha. unfold wait_loop in H. apply bind_Ret_inv in H as (x & s2 & Hw%wait_scan_key & H).
  assert (tbkey s' = tbkey s2) as ->; [|done].
  destruct x as [pid|havekids]; [by injection H as _ <-|]. unfold bind at 1, getp, gets in H. destruct (_ || _).
  - apply bind_Ret_inv in H as ([] & s3 & Hr%keeps_release & H). injection H as _ <-. done.
  - apply bind_Ret_inv in H as (u & s3 & Hs & _). by apply sleep_stop_ret in Hs.
Qed.

(** Allocating a slot. *)
Definition alloc_key (i : nat) (st : procstate) (t : tkey) : tkey :=
  Tkey (alter (fun _ => (st, k_next t, 3)) i (k_slots t)) (s32 (k_next t + 1)) (k_cpus t).

Lemma alloc_search s s1 found : for_until (seq 0 NPROC) (fun p =>
    st ← getp (K := K) p p_state; ret (if decide (st = UNUSED) then Some p else None)) s = (Ret found, s1) ->
  s1 = s /\ match found with Some p => (p < NPROC)%nat /\ p_state (proc_at s p) = UNUSED | None => True end.
Proof.
  intros H. pose proof (first_some_seq (fun p => bool_decide (p_state (proc_at s p) = UNUSED)) NPROC) as Hs.
  cbv beta in Hs. remember (first_some _ _) as r eqn:Er.
  rewrite (for_until_pure _ _ (fun p => if bool_decide (p_state (proc_at s p) = UNUSED) then Some p else None)) in H.
  - rewrite <- Er in H. injection H as <- <-. split; [done|]. destruct r; [|done].
    destruct Hs as (H1 & H2 & _). by apply bool_decide_eq_true in H2.
  - intros p _. unfold bind, getp, gets, ret. by destruct (decide _), (bool_decide_reflect (p_state (proc_at s p) = UNUSED)).
Qed.

Lemma allocproc_key c s o s' : allocproc trapret forkret_addr c s = (Ret o, s') -> length (procs s) = NPROC ->
  match o with
  | Some i => (i < NPROC)%nat /\ p_state (proc_at s i) = UNUSED /\ tbkey s' = alloc_key i EMBRYO (tbkey s)
  | None => tbkey s' = tbkey s \/
      exists i, (i < NPROC)%nat /\ p_state (proc_at s i) = UNUSED /\ tbkey s' = alloc_key i UNUSED (tbkey s)
  end.
Proof.
  intros H Hl. unfold allocproc in H. apply bind_Ret_inv in H as ([] & s1 & Ha & H).
  apply bind_Ret_inv in H as (found & s2 & Hf & H). apply alloc_search in Hf as [-> Hf].
  apply keeps_acquire in Ha as Hk. destruct found as [p|].
  2: { apply bind_Ret_inv in H as ([] & s3 & Hr%keeps_release & H). injection H as <- <-. left. congruence. }
  destruct Hf as [Hp Hst].
  assert (p_state (proc_at s p) = UNUSED) as Hst0.
  { assert ((key <$> procs s1) !! p = (key <$> procs s) !! p) as E by (injection Hk as ->; done).
    unfold proc_at in *. rewrite !list_lookup_fmap in E.
    destruct (procs s1 !! p), (procs s !! p); simplify_eq/=; congruence. }
  kupd H. unfold bind at 1, gets in H. kupd H. unfold bind at 1, modify at 1 in H. kupd H.
  match type of H with bind ?m _ ?s = _ => assert (keeps_key m) as Hk1 by keeps; set (s2 := s) in H end.
  assert (tbkey s2 = alloc_key p EMBRYO (tbkey s)) as E2.
  { unfold s2. rewrite (updp_key_gen p _ (fun k => (k.1.1, k.1.2, 3))) by done. unfold tbkey at 1 2 3. simpl.
    rewrite (fmap_alter_key _ (fun k => (k.1.1, nextpid s1, k.2))) by done.
    rewrite (fmap_alter_key _ (fun k => (EMBRYO, k.1.2, k.2))) by done.
    unfold alloc_key. rewrite <- Hk. simpl. f_equal. rewrite (alter_alter _ _ (fun k => (k.1.1, nextpid s1, 3))) by done.
    by apply alter_alter. }
  apply bind_Ret_inv in H as ([] & s3 & H3%Hk1 & H). apply bind_Ret_inv in H as ([] & s4 & H4%keeps_release & H).
  apply bind_Ret_inv in H as (ks & s5 & H5%keeps_svc & H). kupd H.
  set (s6 := upd_procs _ s5) in H. assert (tbkey s6 = alloc_key p EMBRYO (tbkey s)) as E6.
  { unfold s6. rewrite updp_key_same by done. congruence. }
  destruct (ks =? 0).
  - kupd H. injection H as <- <-. right. exists p. split_and!; [done|done|].
    rewrite updp_key_state, E6. unfold set_st, alloc_key. simpl. f_equal. by apply alter_alter.
  - do 5 kupd H. injection H as <- <-. split_and!; [done|done|]. by rewrite !updp_key_same by done.
Qed.

(** Choosing a slot for a new process, and what becomes of it. *)
Lemma fork_key c s r s' : fork trapret forkret_addr c s = (Ret r, s') -> length (procs s) = NPROC ->
  tbkey s' = tbkey s \/
  exists i st, (i < NPROC)%nat /\ p_state (proc_at s i) = UNUSED /\ st <> RUNNING /\ tbkey s' = alloc_key i st (tbkey s).
Proof.
  intros H Hl. unfold fork in H. apply bind_Ret_inv in H as (cur & s0 & Hc & H).
  destruct (curproc_state _ _ _ _ Hc) as [-> _].
  apply bind_Ret_inv in H as (op & s1 & Ha & H). apply allocproc_key in Ha; [|done]. destruct op as [np|].
  2: { injection H as _ <-. destruct Ha as [?|(i & Hi & Hst & ?)]; [by left|right]. by exists i, UNUSED. }
  destruct Ha as (Hi & Hst & E1). right.
  unfold bind at 1, getp at 1, gets at 1 in H. unfold bind at 1, getp at 1, gets at 1 in H.
  apply bind_Ret_inv in H as (pg & s2 & H2%keeps_svc & H). kupd H.
  set (s3 := upd_procs _ s2) in H. assert (tbkey s3 = alloc_key np EMBRYO (tbkey s)) as E3.
  { unfold s3. rewrite updp_key_same by done. congruence. }
  assert (forall st, set_st np st (alloc_key np EMBRYO (tbkey s)) = alloc_key np st (tbkey s)) as Eset.
  { intros st. unfold set_st, alloc_key. simpl. f_equal. by apply alter_alter. }
  destruct (pg =? 0).
  - unfold bind at 1, getp at 1, gets at 1 in H. apply bind_Ret_inv in H as (u & s4 & H4%keeps_svc & H).
    do 2 kupd H. injection H as _ <-. exists np, UNUSED. split_and!; try done.
    rewrite updp_key_state, updp_key_same, H4, E3 by done. apply Eset.
  - exists np, RUNNABLE. split_and!; try done. rewrite <- Eset, <- E3. clear E1 E3 Eset H2.
    unfold bind at 1, getp at 1, gets at 1 in H. do 2 kupd H. unfold bind at 1, getp at 1, gets at 1 in H. do 2 kupd H.
    match type of H with bind ?m _ ?s = _ => assert (keeps_key m) as Hk1 by keeps; set (s4 := s) in H end.
    assert (tbkey s4 = tbkey s3) as E4 by (unfold s4; by rewrite !updp_key_same by done).
    apply bind_Ret_inv in H as ([] & s5 & H5%Hk1 & H). unfold bind at 1, getp at 1, gets at 1 in H.
    apply bind_Ret_inv in H as (ip & s6 & H6%keeps_svc & H). kupd H.
    unfold bind at 1, getp at 1, gets at 1 in H. kupd H. unfold bind at 1, getp at 1, gets at 1 in H.
    apply bind_Ret_inv in H as ([] & s7 & H7%keeps_acquire & H). kupd H.
    apply bind_Ret_inv in H as ([] & s8 & H8%keeps_release & H). injection H as _ <-.
    rewrite H8, updp_key_state, H7, !updp_key_same by done. congruence.
Qed.

End Steps.

(** ** The invariant *)
Record tinv (t : tkey) : Prop := {
  ti_len : length (k_slots t) = NPROC;
  ti_next : 1 <= k_next t;
  ti_cpu : forall c i, k_cpus t !! c = Some (Some i) -> exists pid prio, k_slots t !! i = Some (RUNNING, pid, prio);
  ti_one : forall c c' i, k_cpus t !! c = Some (Some i) -> k_cpus t !! c' = Some (Some i) -> c = c';
  ti_run : forall i pid prio, k_slots t !! i = Some (RUNNING, pid, prio) -> exists c, k_cpus t !! c = Some (Some i);
  ti_pid : forall i st pid prio, k_slots t !! i = Some (st, pid, prio) -> st <> UNUSED -> 1 <= pid < k_next t;
  ti_uniq : forall i j st st' pid prio prio', k_slots t !! i = Some (st, pid, prio) ->
    k_slots t !! j = Some (st', pid, prio') -> st <> UNUSED -> st' <> UNUSED -> i = j;
  ti_prio : forall i st pid prio, k_slots t !! i = Some (st, pid, prio) -> 0 <= prio <= 3;
}.

Lemma alter_Some {A} (f : A -> A) i (l : list A) j y :
  alter f i l !! j = Some y <->
  (i = j /\ exists x, l !! j = Some x /\ y = f x) \/ (i <> j /\ l !! j = Some y).
Proof.
  destruct (decide (i = j)) as [->|Hne].
  - rewrite list_lookup_alter_eq, fmap_Some. naive_solver.
  - rewrite list_lookup_alter_ne by done. naive_solver.
Qed.

Lemma tinv_soft t t' : soft t t' -> tinv t -> tinv t'.
Proof.
  intros [Hs Hn Hc] [T1 T2 T3 T4 T5 T6 T7 T8].
  assert (forall i st pid prio, k_slots t' !! i = Some (st, pid, prio) -> exists st0 prio0,
    k_slots t !! i = Some (st0, pid, prio0) /\ (st = st0 \/ st0 = SLEEPING /\ st = RUNNABLE) /\
    (0 <= prio0 <= 3 -> 0 <= prio <= 3)) as Hback.
  { intros i st pid prio Hi. destruct (Forall2_lookup_r _ _ _ _ _ Hs Hi) as ([[st0 pid0] prio0] & H0 & (E1 & E2 & E3)).
    simpl in *. subst. eauto 10. }
  assert (forall i st pid prio, k_slots t !! i = Some (st, pid, prio) -> exists st' prio',
    k_slots t' !! i = Some (st', pid, prio') /\ (st' = st \/ st = SLEEPING)) as Hfwd.
  { intros i st pid prio Hi. destruct (Forall2_lookup_l _ _ _ _ _ Hs Hi) as ([[st0 pid0] prio0] & H0 & (E1 & E2 & E3)).
    simpl in *. subst. destruct E2 as [->|[-> ->]]; eauto 10. }
  split.
  - by rewrite <- (Forall2_length _ _ _ Hs).
  - by rewrite Hn.
  - intros c i Hi. rewrite Hc in Hi. destruct (T3 c i Hi) as (pid & prio & H1).
    destruct (Hfwd _ _ _ _ H1) as (st' & prio' & H2 & [->|?]); [eauto|done].
  - intros c c' i. rewrite Hc. apply T4.
  - intros i pid prio Hi. rewrite Hc. destruct (Hback _ _ _ _ Hi) as (st0 & prio0 & H1 & [<-|[_ ?]] & _); [eauto|done].
  - intros i st pid prio Hi Hu. rewrite Hn. destruct (Hback _ _ _ _ Hi) as (st0 & prio0 & H1 & Hst & _).
    eapply T6; [exact H1|]. destruct Hst as [->|[-> _]]; done.
  - intros i j st st' pid prio prio' Hi Hj Hu Hu'.
    destruct (Hback _ _ _ _ Hi) as (st0 & p0 & H1 & Hst & _). destruct (Hback _ _ _ _ Hj) as (st1 & p1 & H2 & Hst' & _).
    eapply T7; [exact H1|exact H2| |]; [destruct Hst as [->|[-> _]]|destruct Hst' as [->|[-> _]]]; done.
  - intros i st pid prio Hi. destruct (Hback _ _ _ _ Hi) as (st0 & prio0 & H1 & _ & Hp). apply Hp. by eapply T8.
Qed.

Lemma tinv_leave t c p st : tinv t -> k_cpus t !! c = Some (Some p) -> st <> RUNNING -> st <> UNUSED ->
  tinv (set_cpu c None (set_st p st t)).
Proof.
  intros [T1 T2 T3 T4 T5 T6 T7 T8] Hc Hr Hu.
  assert (forall i st' pid prio, k_slots (set_st p st t) !! i = Some (st', pid, prio) ->
    exists st0, k_slots t !! i = Some (st0, pid, prio) /\ (p = i /\ st' = st \/ p <> i /\ st' = st0)) as Hb.
  { intros i st' pid prio [(-> & [[st0 pid0] prio0] & Hx & E)|(Hne & Hx)]%alter_Some; [|eauto 10].
    simpl in E. simplify_eq. eauto 10. }
  destruct (T3 c p Hc) as (pp & pr & Hp). split; simpl.
  - by rewrite length_alter.
  - done.
  - intros c' i [(-> & x & Hx & E)|(Hne & Hx)]%alter_Some; [done|]. destruct (T3 c' i Hx) as (pid & prio & H1).
    exists pid, prio. apply alter_Some. right. split; [|done]. intros ->. apply Hne. by eapply T4.
  - intros c1 c2 i [(-> & x & Hx & E)|(Hne & Hx)]%alter_Some [(-> & y & Hy & E')|(Hne' & Hy)]%alter_Some; try done.
    by eapply T4.
  - intros i pid prio Hi. destruct (Hb _ _ _ _ Hi) as (st0 & H1 & [[-> ?]|[Hne <-]]); [done|].
    destruct (T5 _ _ _ H1) as [c' Hc']. exists c'. apply alter_Some. right. split; [|done]. intros ->. congruence.
  - intros i st' pid prio Hi Hn. destruct (Hb _ _ _ _ Hi) as (st0 & H1 & [[-> ->]|[Hne <-]]); [|by eapply T6].
    rewrite Hp in H1. simplify_eq. by eapply T6.
  - intros i j st1 st2 pid prio prio' Hi Hj Hn1 Hn2.
    destruct (Hb _ _ _ _ Hi) as (s1 & H1 & Hc1). destruct (Hb _ _ _ _ Hj) as (s2 & H2 & Hc2).
    eapply T7; [exact H1|exact H2| |].
    + destruct Hc1 as [[-> _]|[_ <-]]; [|done]. rewrite Hp in H1. by simplify_eq.
    + destruct Hc2 as [[-> _]|[_ <-]]; [|done]. rewrite Hp in H2. by simplify_eq.
  - intros i st' pid prio Hi. destruct (Hb _ _ _ _ Hi) as (st0 & H1 & _). by eapply T8.
Qed.

Lemma tinv_dispatch t c p pid prio : tinv t -> k_cpus t !! c = Some None -> k_slots t !! p = Some (RUNNABLE, pid, prio) ->
  tinv (set_st p RUNNING (set_cpu c (Some p) t)).
Proof.
  intros [T1 T2 T3 T4 T5 T6 T7 T8] Hc Hp.
  assert (forall i st' pid prio, alter (fun k : procstate * Z * Z => (RUNNING, k.1.2, k.2)) p (k_slots t) !! i = Some (st', pid, prio) ->
    exists st0, k_slots t !! i = Some (st0, pid, prio) /\ (p = i /\ st' = RUNNING \/ p <> i /\ st' = st0)) as Hb.
  { intros i st' pid' prio' [(-> & [[st0 pid0] prio0] & Hx & E)|(Hne & Hx)]%alter_Some; [|eauto 10].
    simpl in E. simplify_eq. eauto 10. }
  assert (forall c', k_cpus t !! c' <> Some (Some p)) as Hnone.
  { intros c' Hc'. destruct (T3 _ _ Hc') as (? & ? & ?). congruence. }
  split; simpl.
  - by rewrite length_alter.
  - done.
  - intros c' i [(-> & x & Hx & [= <-])|(Hne & Hx)]%alter_Some.
    + exists pid, prio. apply alter_Some. left. split; [done|]. eexists. split; [exact Hp|done].
    + destruct (T3 c' i Hx) as (pid' & prio' & H1). exists pid', prio'. apply alter_Some. right. split; [|done].
      intros ->. by eapply Hnone.
  - intros c1 c2 i [(-> & x & Hx & E)|(Hne & Hx)]%alter_Some [(-> & y & Hy & E')|(Hne' & Hy)]%alter_Some; simplify_eq; try done.
    + by apply Hnone in Hy.
    + by apply Hnone in Hx.
    + by eapply T4.
  - intros i pid' prio' Hi. destruct (Hb _ _ _ _ Hi) as (st0 & H1 & [[<- _]|[Hne <-]]).
    + exists c. apply alter_Some. left. eauto.
    + destruct (T5 _ _ _ H1) as [c' Hc']. exists c'. apply alter_Some. right. split; [|done]. intros ->. congruence.
  - intros i st' pid' prio' Hi Hn. destruct (Hb _ _ _ _ Hi) as (st0 & H1 & [[-> ->]|[Hne <-]]); [|by eapply T6].
    rewrite Hp in H1. simplify_eq. by eapply T6.
  - intros i j st1 st2 pid' prio1 prio2 Hi Hj Hn1 Hn2.
    destruct (Hb _ _ _ _ Hi) as (s1 & H1 & Hc1). destruct (Hb _ _ _ _ Hj) as (s2 & H2 & Hc2).
    eapply T7; [exact H1|exact H2| |].
    + destruct Hc1 as [[-> _]|[_ <-]]; [|done]. rewrite Hp in H1. by simplify_eq.
    + destruct Hc2 as [[-> _]|[_ <-]]; [|done]. rewrite Hp in H2. by simplify_eq.
  - intros i st' pid' prio' Hi. destruct (Hb _ _ _ _ Hi) as (st0 & H1 & _). by eapply T8.
Qed.

(** A slot that is not running is given another identity: unused, or with a
    pid that has not been used yet. *)
Lemma tinv_replace t i st0 pid0 prio0 f st pid prio next :
  tinv t -> k_slots t !! i = Some (st0, pid0, prio0) -> st0 <> RUNNING -> st <> RUNNING ->
  f (st0, pid0, prio0) = (st, pid, prio) -> k_next t <= next -> 0 <= prio <= 3 ->
  (st <> UNUSED -> k_next t <= pid < next) ->
  tinv (Tkey (alter f i (k_slots t)) next (k_cpus t)).
Proof.
  intros [T1 T2 T3 T4 T5 T6 T7 T8] Hi Hr0 Hr Hf Hn Hp Hpid.
  assert (forall j st' pid' prio', alter f i (k_slots t) !! j = Some (st', pid', prio') ->
    i = j /\ st' = st /\ pid' = pid /\ prio' = prio \/ i <> j /\ k_slots t !! j = Some (st', pid', prio')) as Hb.
  { intros j st' pid' prio' [(-> & x & Hx & E)|(Hne & Hx)]%alter_Some; [left|by right]. rewrite Hi in Hx. simplify_eq.
    rewrite Hf in E. by simplify_eq. }
  split; simpl.
  - by rewrite length_alter.
  - lia.
  - intros c j Hj. destruct (T3 c j Hj) as (p' & q' & H1). exists p', q'. apply alter_Some. right. split; [|done].
    intros ->. rewrite Hi in H1. by simplify_eq.
  - done.
  - intros j p' q' Hj. destruct (Hb _ _ _ _ Hj) as [(_ & E & _)|[_ H1]]; [by rewrite E in Hr|by eapply T5].
  - intros j st' p' q' Hj Hu. destruct (Hb _ _ _ _ Hj) as [(_ & -> & -> & _)|[_ H1]].
    + specialize (Hpid Hu). lia.
    + specialize (T6 _ _ _ _ H1 Hu). lia.
  - intros j k s1 s2 p' q1 q2 Hj Hk Hu1 Hu2.
    destruct (Hb _ _ _ _ Hj) as [(<- & -> & -> & _)|[Hne1 H1]], (Hb _ _ _ _ Hk) as [(<- & -> & E2 & _)|[Hne2 H2]]; [done| | |].
    + specialize (T6 _ _ _ _ H2 Hu2). specialize (Hpid Hu1). lia.
    + subst p'. specialize (T6 _ _ _ _ H1 Hu1). specialize (Hpid Hu2). lia.
    + by eapply T7.
  - intros j st' p' q' Hj. destruct (Hb _ _ _ _ Hj) as [(_ & _ & _ & ->)|[_ H1]]; [done|by eapply T8].
Qed.

Lemma tinv_reap t i pid prio : tinv t -> k_slots t !! i = Some (ZOMBIE, pid, prio) -> tinv (reap i t).
Proof.
  intros Ht Hi. eapply (tinv_replace t i ZOMBIE pid prio _ UNUSED 0 prio); [done|done|done|done|done|lia| |done].
  by eapply (ti_prio t Ht).
Qed.

Lemma soft_set_cpu c o t t' : soft t t' -> soft (set_cpu c o t) (set_cpu c o t').
Proof. intros [H1 H2 H3]. split; simpl; [done|done|]. by rewrite H3. Qed.

Section Reachable.
Context {K : Type} {KS : KernelServices K} (trapret forkret_addr : Z).
Implicit Types s : pst K.

Lemma slot_key s i : (i < length (procs s))%nat -> k_slots (tbkey s) !! i = Some (key (proc_at s i)).
Proof.
  intros Hi. simpl. rewrite list_lookup_fmap. unfold proc_at.
  by destruct (lookup_lt_is_Some_2 _ _ Hi) as [x ->].
Qed.

Lemma tinv_procs s : tinv (tbkey s) -> length (procs s) = NPROC.
Proof. intros H. rewrite <- (ti_len _ H). simpl. by rewrite length_fmap. Qed.

Lemma state_key s t i st pid prio : tbkey s = t -> k_slots t !! i = Some (st, pid, prio) -> p_state (proc_at s i) = st.
Proof.
  intros <- Hi. simpl in Hi. rewrite list_lookup_fmap in Hi. unfold proc_at.
  destruct (procs s !! i); [|done]. simpl in *. unfold key in Hi. congruence.
Qed.

(** A process that left the CPU in state [st]. *)
Lemma tinv_left c p st t s1 s' :
  tinv t -> k_cpus t !! c = Some (Some p) -> st <> RUNNING -> st <> UNUSED ->
  tbkey s1 = t \/ tbkey s1 = set_st p st t -> p_state (proc_at s1 p) <> RUNNING -> back c p s1 = (Ret tt, s') ->
  tinv (tbkey s').
Proof.
  intros Ht0 Hp0 Hr Hu H1 Hnr Hb. destruct (ti_cpu _ Ht0 _ _ Hp0) as (pid & prio & Hslot).
  destruct H1 as [H1|H1]; [exfalso; apply Hnr; by eapply state_key|].
  assert (p < NPROC)%nat as Hpn by (rewrite <- (ti_len _ Ht0); by eapply lookup_lt_Some).
  apply back_key in Hb as (t2 & Hs2 & ->); [|rewrite <- (ti_len _ Ht0)|done].
  - rewrite H1 in Hs2. eapply tinv_soft; [by apply soft_set_cpu|]. by apply tinv_leave.
  - pose proof (f_equal k_slots H1) as E. simpl in E. apply (f_equal length) in E.
    rewrite length_fmap, length_alter in E. done.
Qed.

Lemma tinv_wait c s r s' : wait stop 1 c s = (Ret r, s') -> tinv (tbkey s) -> tinv (tbkey s').
Proof.
  intros Hw Ht. pose proof Hw as Hw0. unfold wait in Hw0. apply bind_Ret_inv in Hw0 as (p & s0 & Hc & _).
  apply curproc_state in Hc as [_ Hc%on_cpu_key].
  destruct (wait_ret_key c p s r s' Hw Hc) as [->|(i & pid & prio & Hz & ->)]; [done|by eapply tinv_reap].
Qed.

Lemma pstep_tinv s s' : pstep trapret forkret_addr s s' -> tinv (tbkey s) -> tinv (tbkey s').
Proof.
  intros Hstep Ht. pose proof (tinv_procs s Ht) as Hl.
  destruct Hstep as [c p s s' Hc Hcp Hp Hst Hd Hr|c p s s' (ch & s1 & Hcp & Hm & Hn & Hb)|c p chan lk s s' Hlk (ch & s1 & Hcp & Hm & Hn & Hb)
    |c p s s' (ch & s1 & Hcp & Hm & Hn & Hb)|c p s s' (ch & s1 & Hcp & Hm & Hn & Hb)|c s r s' Hw|c chan s s' Hw|c pid s r s' Hk
    |c s r s' Hnp Hf|c s s' Hch].
  - rewrite (dispatch_key c p s _ s' Hd Hr) by (congruence || lia).
    eapply tinv_dispatch; [done| |rewrite slot_key by lia; unfold key; by rewrite Hst].
    simpl. rewrite list_lookup_fmap. unfold cpu_at in Hcp. destruct (lookup_lt_is_Some_2 _ _ Hc) as [x Hx].
    rewrite Hx in *. simpl in *. by rewrite Hcp.
  - apply on_cpu_key in Hcp. eapply (tinv_left c p RUNNABLE); try done. by eapply yield_key.
  - apply on_cpu_key in Hcp. eapply (tinv_left c p SLEEPING); try done. by eapply sleep_key.
  - apply on_cpu_key in Hcp. destruct (exit_key c p s _ s1 Hm Hl Hcp) as (t & Hs & Ho).
    eapply (tinv_left c p ZOMBIE t); [by eapply tinv_soft|by rewrite (so_cpus _ _ Hs)|done..].
  - apply on_cpu_key in Hcp. destruct (wait_key c p s _ s1 Hm Hcp) as [E|[E|(i & pid & prio & Hz & E)]].
    + eapply (tinv_left c p SLEEPING _ s1); [exact Ht|done|done|done|by left|done|done].
    + eapply (tinv_left c p SLEEPING _ s1); [exact Ht|done|done|done|by right|done|done].
    + eapply (tinv_left c p SLEEPING _ s1); [by eapply tinv_reap|done|done|done|done|done|done].
  - by eapply tinv_wait.
  - unfold wakeup in Hw. apply bind_Ret_inv in Hw as ([] & s1 & Ha%keeps_acquire & Hw).
    apply bind_Ret_inv in Hw as ([] & s2 & Hw1 & Hr%keeps_release).
    apply wakeup1_soft in Hw1 as [Hs _]; [|by rewrite (key_length _ _ Ha)].
    rewrite Hr. eapply tinv_soft; [exact Hs|]. by rewrite Ha.
  - eapply tinv_soft; [by eapply kill_key|done].
  - destruct (fork_key trapret forkret_addr c s r s' Hf Hl) as [->|(i & st & Hi & Hu & Hst & ->)]; [done|].
    pose proof (slot_key s i ltac:(lia)) as Hk. unfold key in Hk. rewrite Hu in Hk.
    pose proof (ti_next _ Ht) as Hn1. simpl in Hn1.
    eapply tinv_replace; [done|exact Hk|done|exact Hst|done| |lia|]; simpl; rewrite s32_small by lia; lia.
  - assert (keeps_key (charge (K := K) c)) as Hkc.
    { unfold charge. apply keeps_bind; [apply keeps_curproc|]. keeps. }
    by rewrite (Hkc _ _ _ Hch).
Qed.

Definition pst_ok s : Prop := tinv (tbkey s).


End Reachable.

(** One process, runnable, and two idle CPUs; it is dispatched and forks. *)
Definition boot_procs : pst unit :=
  Pst false (mk_proc 1 RUNNABLE 3 [0; 0; 0; 0] :: replicate 63 null_proc) 2 (Some 0%nat)
    [Pcpu None 1 1 true false; Pcpu None 1 0 true true] false tt.

Lemma boot_slots i st pid prio : k_slots (tbkey boot_procs) !! i = Some (st, pid, prio) ->
  i = 0%nat /\ st = RUNNABLE /\ pid = 1 /\ prio = 3 \/ st = UNUSED /\ prio = 0.
Proof.
  assert (k_slots (tbkey boot_procs) = (RUNNABLE, 1, 3) :: replicate 63 (UNUSED, 0, 0)) as -> by reflexivity.
  generalize 63%nat. intros n. destruct i as [|i]; simpl; [intros [= <- <- <-]; by left|].
  intros [[= -> -> ->] _]%lookup_replicate. by right.
Qed.

Lemma boot_procs_ok : pst_ok boot_procs.
Proof.
  split.
  - reflexivity.
  - done.
  - intros [|[|c]] i; simpl; done.
  - intros [|[|c]] c' i; simpl; done.
  - intros i pid prio Hi%boot_slots. naive_solver.
  - intros i st pid prio Hi%boot_slots Hu. simpl. destruct Hi as [(_ & _ & -> & _)|[? _]]; [lia|done].
  - intros i j st st' pid prio prio' Hi%boot_slots Hj%boot_slots Hu Hu'. naive_solver.
  - intros i st pid prio Hi%boot_slots. destruct Hi as [(_ & _ & _ & ->)|[_ ->]]; lia.
Qed.

