(* ===== verification/ProcOps.v ===== *)
(** * Operations on single processes (src/xv6/proc.c)

    What [kill], [wakeup] and [fork] do when they are called with the table
    lock free: total correctness, with the lock and the CPU given back. *)
From S2P Require Import Prelude Spinlock Kalloc Mmu Proc Sched ProcInv.

Section Ops.
Context {K : Type} {KS : KernelServices K}.
Implicit Types s : pst K.

(** CPU [c] may take the table lock; CPU [c] holds it. *)
Record unlocked (c : nat) s : Prop := {
  un_lock : pt_lock s = false;
  un_cpu : (c < length (pcpus s))%nat;
  un_ncli : 0 <= c_ncli (cpu_at s c);
}.

Record locked (c : nat) s : Prop := {
  lo_lock : pt_lock s = true;
  lo_cpu : (c < length (pcpus s))%nat;
  lo_if : c_if (cpu_at s c) = false;
  lo_ncli : 1 <= c_ncli (cpu_at s c);
}.

(** What taking and releasing the lock leaves alone. *)
Record same_table s s' : Prop := {
  sa_procs : procs s' = procs s;
  sa_next : nextpid s' = nextpid s;
  sa_init : initproc s' = initproc s;
  sa_kserv : kserv s' = kserv s;
  sa_cpus : c_proc <$> pcpus s' = c_proc <$> pcpus s;
}.

Lemma cpu_at_alter f c s : (c < length (pcpus s))%nat ->
  cpu_at (upd_pcpus (alter f c) s) c = f (cpu_at s c).
Proof.
  intros Hc. unfold cpu_at. simpl. rewrite list_lookup_alter_eq.
  by destruct (lookup_lt_is_Some_2 _ _ Hc) as [x ->].
Qed.

Lemma same_refl s : same_table s s.
Proof. by split. Qed.

Lemma same_trans s1 s2 s3 : same_table s1 s2 -> same_table s2 s3 -> same_table s1 s3.
Proof. intros [] []. split; congruence. Qed.

Lemma same_updc f c s : (forall x, c_proc (f x) = c_proc x) -> same_table s (upd_pcpus (alter f c) s).
Proof. intros Hf. split; try done. simpl. by apply fmap_alter_same. Qed.

Lemma same_proc_at s s' i : same_table s s' -> proc_at s' i = proc_at s i.
Proof. intros H. unfold proc_at. by rewrite (sa_procs _ _ H). Qed.

Lemma same_c_proc s s' c : same_table s s' -> c_proc (cpu_at s' c) = c_proc (cpu_at s c).
Proof.
  intros H. pose proof (f_equal (fun l => l !! c) (sa_cpus _ _ H)) as E. simpl in E.
  rewrite !list_lookup_fmap in E. unfold cpu_at.
  destruct (pcpus s' !! c), (pcpus s !! c); simpl in *; congruence.
Qed.

Lemma wp_pushcli c s (Q : unit -> pst K -> Prop) :
  (c < length (pcpus s))%nat -> 0 <= c_ncli (cpu_at s c) ->
  (forall s', pt_lock s' = pt_lock s -> (c < length (pcpus s'))%nat -> c_if (cpu_at s' c) = false ->
     1 <= c_ncli (cpu_at s' c) -> same_table s s' -> Q tt s') -> wp (pushcli_on c) Q s.
Proof.
  intros Hc Hn HQ. unfold pushcli_on, getc, updc. wp_steps. cbn [id].
  destruct (c_ncli (cpu_at s c) =? 0); cbn [when]; wp_steps;
    apply HQ; try (simpl; rewrite ?length_alter; done);
    repeat (rewrite cpu_at_alter by (simpl; rewrite ?length_alter; done)); try done; try (simpl; unfold id; lia);
    repeat (eapply same_trans; [|by apply same_updc]); apply same_refl.
Qed.

Lemma wp_acquire_pt c s (Q : unit -> pst K -> Prop) :
  unlocked c s -> (forall s', locked c s' -> same_table s s' -> Q tt s') -> wp (acquire_pt c) Q s.
Proof.
  intros [Hl Hc Hn] HQ. unfold acquire_pt. apply wp_bind, wp_pushcli; [done..|].
  intros s' Hl' Hc' Hi' Hn' Hs. wp_steps; [congruence|]. apply HQ; [by split|].
  destruct Hs. by split.
Qed.

Lemma wp_release_pt c s (Q : unit -> pst K -> Prop) :
  locked c s -> (forall s', unlocked c s' -> same_table s s' -> Q tt s') -> wp (release_pt c) Q s.
Proof.
  intros [Hl Hc Hi Hn] HQ. unfold release_pt, popcli_on, getc, updc. wp_steps; [by rewrite Hl|done| |].
  { rewrite cpu_at_alter by done. simpl. apply Z.ltb_ge. unfold id. simpl. change (cpu_at _ c) with (cpu_at s c). lia. }
  set (s1 := upd_pcpus _ _).
  assert (unlocked c s1) as Hu.
  { split; [done|simpl; by rewrite length_alter|]. unfold s1. rewrite cpu_at_alter by done. simpl.
    change (cpu_at _ c) with (cpu_at s c). lia. }
  assert (same_table s s1) as Hs.
  { split; try done. simpl. by apply fmap_alter_same. }
  destruct (_ && _); simpl; [|by apply wp_ret, HQ].
  apply wp_modify, HQ; [|eapply same_trans; [done|by apply same_updc]].
  destruct Hu as [? Hc1 ?]. split; [done|simpl; by rewrite length_alter|]. by rewrite cpu_at_alter.
Qed.

Lemma locked_procs c s s' : locked c s -> pt_lock s' = pt_lock s -> pcpus s' = pcpus s -> locked c s'.
Proof. intros [] E1 E2. split; unfold cpu_at in *; by rewrite ?E1, ?E2. Qed.

Lemma alter_eq_ext {A} (f h : A -> A) i (l : list A) :
  (forall x, l !! i = Some x -> f x = h x) -> alter f i l = alter h i l.
Proof.
  intros E. apply list_eq. intros j. destruct (decide (i = j)) as [->|Hne].
  - rewrite !list_lookup_alter_eq. destruct (l !! j) eqn:El; [simpl; f_equal; by apply E|done].
  - by rewrite !list_lookup_alter_ne.
Qed.

(** ** kill *)
Definition mark_killed (x : proc) : proc :=
  let x := upd_p_killed (fun _ => 1) x in
  if decide (p_state x = SLEEPING) then upd_p_state (fun _ => RUNNABLE) x else x.

(** The slot [kill] finds. *)
Definition first_pid (pid : Z) s : option nat :=
  first_some (fun i => if p_pid (proc_at s i) =? pid then Some i else None) (seq 0 NPROC).

Lemma kill_loop c pid s (Q : option Z -> pst K -> Prop) l :
  locked c s -> length (procs s) = NPROC -> (forall i, i ∈ l -> (i < NPROC)%nat) ->
  match first_some (fun i => if p_pid (proc_at s i) =? pid then Some i else None) l with
  | Some i => forall s', unlocked c s' -> same_table (upd_procs (alter mark_killed i) s) s' -> Q (Some 0) s'
  | None => Q None s
  end ->
  wp (for_until l (fun p =>
    x ← getp p id;
    if p_pid x =? pid then
      updp p (upd_p_killed (fun _ => 1)) ;;
      when (bool_decide (p_state x = SLEEPING)) (updp p (upd_p_state (fun _ => RUNNABLE))) ;;
      release_pt c ;;
      ret (Some 0)
    else ret None)) Q s.
Proof.
  intros Hlk Hlen. induction l as [|i l IH]; intros Hin HQ; simpl in *; [by apply wp_ret|].
  apply wp_bind. unfold getp, updp. wp_steps. cbn [id]. destruct (p_pid (proc_at s i) =? pid) eqn:E.
  - apply wp_bind. wp_step. apply wp_bind. set (s1 := upd_procs _ s).
    assert (i < length (procs s))%nat as Hi by (rewrite Hlen; apply Hin; set_solver).
    destruct (lookup_lt_is_Some_2 _ _ Hi) as [x Hx]. rewrite (proc_at_lookup _ _ _ Hx).
    assert (forall s2, procs s2 = alter mark_killed i (procs s) -> pt_lock s2 = pt_lock s -> pcpus s2 = pcpus s ->
      nextpid s2 = nextpid s -> initproc s2 = initproc s -> kserv s2 = kserv s ->
      wp (release_pt c ;; ret (Some 0)) (fun a s' => a = Some 0 /\ Q a s') s2) as Hend.
    { intros s2 E1 E2 E3 E4 E5 E6. apply wp_bind, wp_release_pt; [by eapply locked_procs|].
      intros s3 Hu Hs. wp_steps. split; [done|]. apply HQ; [done|]. eapply same_trans; [|done].
      split; simpl; congruence. }
    destruct (decide (p_state x = SLEEPING)) as [Hsl|Hsl].
    + rewrite bool_decide_true by done. simpl. apply wp_modify.
      eapply wp_mono; [apply Hend; try done|intros a s2 [-> ?]; by apply wp_ret]. simpl.
      erewrite alter_alter by (intros; reflexivity). apply alter_eq_ext. intros y Hy. simplify_eq/=.
      unfold mark_killed. simpl. by rewrite decide_True.
    + rewrite bool_decide_false by done. simpl. apply wp_ret.
      eapply wp_mono; [apply Hend; try done|intros a s2 [-> ?]; by apply wp_ret]. simpl.
      apply alter_eq_ext. intros y Hy. simplify_eq/=. unfold mark_killed. simpl. by rewrite decide_False.
  - wp_steps. apply IH; [set_solver|done].
Qed.

(** [kill(pid)] returns 0 exactly when a slot of the table has that pid; the
    first such process is marked killed and taken off its sleep, every other
    process is left as it is, and with no such slot the call returns -1 and
    changes nothing. *)
Theorem kill_spec c pid s :
  unlocked c s -> length (procs s) = NPROC ->
  wp (kill c pid) (fun r s' =>
    unlocked c s' /\ (r = 0 \/ r = -1) /\
    (r = 0 <-> exists i, (i < NPROC)%nat /\ p_pid (proc_at s i) = pid) /\
    (r = -1 -> procs s' = procs s) /\
    (r = 0 -> exists i, p_pid (proc_at s i) = pid /\ p_killed (proc_at s' i) = 1 /\
       p_state (proc_at s' i) <> SLEEPING /\
       (forall j, (j < i)%nat -> p_pid (proc_at s j) <> pid) /\
       forall j, j <> i -> proc_at s' j = proc_at s j)) s.
Proof.
  intros Hu Hlen. unfold kill. apply wp_bind, wp_acquire_pt; [done|]. intros s1 Hl1 Hs1.
  assert (length (procs s1) = NPROC) as Hlen1 by (by rewrite (sa_procs _ _ Hs1)).
  apply wp_bind, kill_loop; [done|done|intros i Hi%elem_of_seq; lia|].
  pose proof (first_some_seq (fun i => p_pid (proc_at s1 i) =? pid) NPROC) as Hf. cbv beta in Hf.
  destruct (first_some _ _) as [i|].
  - destruct Hf as (Hi & Hp & Hlow). intros s2 Hu2 Hs2. wp_steps. bool_to_prop.
    rewrite (same_proc_at _ _ _ Hs1) in Hp.
    split; [done|]. split; [by left|]. split; [split; [eauto|done]|]. split; [done|]. intros _. exists i.
    assert (i < length (procs s1))%nat as Hi' by lia. destruct (lookup_lt_is_Some_2 _ _ Hi') as [x Hx].
    assert (proc_at s2 i = mark_killed x) as ->.
    { rewrite (same_proc_at _ _ _ Hs2). unfold proc_at. simpl. by rewrite list_lookup_alter_eq, Hx. }
    split_and!; [done|unfold mark_killed; by case_decide|unfold mark_killed; by case_decide| |].
    + intros j Hj. specialize (Hlow j Hj). bool_to_prop. by rewrite <- (same_proc_at _ _ _ Hs1).
    + intros j Hj. rewrite (same_proc_at _ _ _ Hs2), <- (same_proc_at _ _ _ Hs1). unfold proc_at. simpl.
      by rewrite list_lookup_alter_ne.
  - apply wp_bind, wp_release_pt; [done|]. intros s2 Hu2 Hs2. wp_steps.
    assert (procs s2 = procs s) as E by (by rewrite (sa_procs _ _ Hs2), (sa_procs _ _ Hs1)).
    split; [done|]. split; [by right|]. split; [|done]. split; [done|].
    intros (i & Hi & Hp). specialize (Hf i Hi). bool_to_prop. by rewrite (same_proc_at _ _ _ Hs1) in Hf.
Qed.

(** ** fork

    [edits np F s s']: only slot [np] of the table changed, by [F]. *)
Record edits (np : nat) (F : proc -> proc) s s' : Prop := {
  ed_procs : procs s' = alter F np (procs s);
  ed_next : nextpid s' = nextpid s;
  ed_cpus : c_proc <$> pcpus s' = c_proc <$> pcpus s;
}.

Lemma edits_trans np F G s1 s2 s3 :
  edits np F s1 s2 -> edits np G s2 s3 -> edits np (fun x => G (F x)) s1 s3.
Proof.
  intros [E1 E2 E3] [E1' E2' E3']. split; [|congruence..]. rewrite E1', E1. by apply alter_alter.
Qed.

Lemma edits_same np F s1 s2 s3 : edits np F s1 s2 -> same_table s2 s3 -> edits np F s1 s3.
Proof. intros [] []. split; congruence. Qed.

Lemma edits_updp np F G s1 s2 : edits np F s1 s2 -> edits np (fun x => G (F x)) s1 (upd_procs (alter G np) s2).
Proof. intros H. eapply edits_trans; [done|]. by split. Qed.

Lemma edits_svc np F s1 s2 k : edits np F s1 s2 -> edits np F s1 (upd_kserv k s2).
Proof. intros []. by split. Qed.

Lemma edits_at np F s s' : edits np F s s' -> (np < length (procs s))%nat -> proc_at s' np = F (proc_at s np).
Proof.
  intros H Hn. unfold proc_at. rewrite (ed_procs _ _ _ _ H), list_lookup_alter_eq.
  by destruct (lookup_lt_is_Some_2 _ _ Hn) as [x ->].
Qed.

Lemma edits_ne np F s s' j : edits np F s s' -> j <> np -> proc_at s' j = proc_at s j.
Proof. intros H Hn. unfold proc_at. by rewrite (ed_procs _ _ _ _ H), list_lookup_alter_ne. Qed.

Lemma edits_len np F s s' : edits np F s s' -> length (procs s') = length (procs s).
Proof. intros H. by rewrite (ed_procs _ _ _ _ H), length_alter. Qed.

Lemma unlocked_eq c s s' : unlocked c s -> pt_lock s' = pt_lock s -> pcpus s' = pcpus s -> unlocked c s'.
Proof. intros [] E1 E2. split; unfold cpu_at in *; by rewrite ?E1, ?E2. Qed.

Lemma wp_svc {A} (m : M K A) (Q : A -> pst K -> Prop) s a k :
  m (kserv s) = (Ret a, k) -> Q a (upd_kserv (fun _ => k) s) -> wp (svc m) Q s.
Proof. intros E HQ. unfold wp, svc, zoom. simpl. by rewrite E. Qed.

(** The services [fork] uses return; the reference counts they keep are theirs. *)
Class ServicesReturn : Prop := {
  sr_kalloc : forall k, exists a k', ks_kalloc k = (Ret a, k');
  sr_kfree : forall a k, exists k', ks_kfree a k = (Ret tt, k');
  sr_copyuvm : forall pg sz k, exists a k', ks_copyuvm pg sz k = (Ret a, k');
  sr_filedup : forall f k, exists k', ks_filedup f k = (Ret f, k');
  sr_idup : forall i k, exists k', ks_idup i k = (Ret i, k');
}.

Context {SR : ServicesReturn} (trapret forkret_addr : Z).

(** The slot after [allocproc] has taken it. *)
Definition embryo (pid : Z) (x : proc) : proc :=
  upd_p_wait_ticks (fun t => <[3%nat := 0]> (<[2%nat := 0]> (<[1%nat := 0]> (<[0%nat := 0]> t))))
    (upd_p_ticks (fun t => <[3%nat := 0]> (<[2%nat := 0]> (<[1%nat := 0]> (<[0%nat := 0]> t))))
      (upd_p_priority (fun _ => 3) (upd_p_pid (fun _ => pid) (upd_p_state (fun _ => EMBRYO) x)))).

(** ... and set up its kernel stack at [ks]. *)
Definition with_stack (ks : Z) (x : proc) : proc :=
  upd_p_context_data (fun _ => Context 0 0 0 0 forkret_addr)
    (upd_p_context (fun _ => ks + KSTACKSIZE - sizeof_trapframe - 4 - sizeof_context)
      (upd_p_ret_addr (fun _ => trapret)
        (upd_p_tf (fun _ => ks + KSTACKSIZE - sizeof_trapframe) (upd_p_kstack (fun _ => ks) x)))).

Definition next_pid s : pst K := upd_nextpid (fun n => s32 (n + 1)) s.

(** [np] is the slot [allocproc] takes. *)
Definition free_slot (np : nat) s : Prop :=
  (np < NPROC)%nat /\ p_state (proc_at s np) = UNUSED /\
  forall j, (j < np)%nat -> p_state (proc_at s j) <> UNUSED.

Lemma free_search s (Q : option nat -> pst K -> Prop) :
  ((forall i, (i < NPROC)%nat -> p_state (proc_at s i) <> UNUSED) -> Q None s) ->
  (forall i, free_slot i s -> Q (Some i) s) ->
  wp (for_until (seq 0 NPROC) (fun p =>
    st ← getp p p_state;
    ret (if decide (st = UNUSED) then Some p else None))) Q s.
Proof.
  intros HN HS.
  set (P := fun i => bool_decide (p_state (proc_at s i) = UNUSED)).
  eapply wp_eq.
  { apply (for_until_pure _ _ (fun i => if P i then Some i else None)). intros i _.
    unfold bind, getp, gets, ret, P. case_bool_decide; [by rewrite decide_True|by rewrite decide_False]. }
  pose proof (first_some_seq P NPROC) as Hf. destruct (first_some _ _) as [i|].
  - destruct Hf as (Hi & HP & Hlow). apply HS. unfold P in *. split; [done|]. apply bool_decide_eq_true in HP.
    split; [done|]. intros j Hj. specialize (Hlow j Hj). by apply bool_decide_eq_false in Hlow.
  - apply HN. intros i Hi. specialize (Hf i Hi). by apply bool_decide_eq_false in Hf.
Qed.

Lemma wp_allocproc c s (Q : option nat -> pst K -> Prop) :
  unlocked c s -> length (procs s) = NPROC ->
  (forall s', (forall i, (i < NPROC)%nat -> p_state (proc_at s i) <> UNUSED) -> unlocked c s' -> same_table s s' -> Q None s') ->
  (forall np s', free_slot np s -> unlocked c s' ->
     edits np (fun x => upd_p_state (fun _ => UNUSED) (upd_p_kstack (fun _ => 0) (embryo (nextpid s) x))) (next_pid s) s' ->
     Q None s') ->
  (forall np ks s', free_slot np s -> unlocked c s' -> ks <> 0 ->
     edits np (fun x => with_stack ks (embryo (nextpid s) x)) (next_pid s) s' -> Q (Some np) s') ->
  wp (allocproc trapret forkret_addr c) Q s.
Proof.
  intros Hu Hlen HN HF HS. unfold allocproc. apply wp_bind, wp_acquire_pt; [done|]. intros s1 Hl1 Hs1.
  apply wp_bind, free_search.
  - intros Hno. apply wp_bind, wp_release_pt; [done|]. intros s2 Hu2 Hs2. wp_steps.
    apply HN; [|done|by eapply same_trans]. intros i Hi. rewrite <- (same_proc_at _ _ _ Hs1). by apply Hno.
  - intros np Hnp.
    assert (free_slot np s) as Hfree.
    { destruct Hnp as (? & ? & Hlow). rewrite (same_proc_at _ _ _ Hs1) in *. split_and!; [done..|].
      intros j Hj. rewrite <- (same_proc_at _ _ _ Hs1). by apply Hlow. }
    unfold updp, getp. cbn [for_each seq]. wp_steps.
    match goal with |- wp (release_pt c) _ ?x => set (s2 := x) end.
    assert (edits np (embryo (nextpid s)) (next_pid s) s2) as He.
    { split; simpl; [|by rewrite (sa_next _ _ Hs1)|by rewrite (sa_cpus _ _ Hs1)].
      rewrite (sa_procs _ _ Hs1), (sa_next _ _ Hs1). repeat (erewrite alter_alter by (intros; reflexivity)).
      by apply alter_eq_ext. }
    apply wp_release_pt; [by eapply locked_procs|]. intros s3 Hu3 Hs3. wp_steps.
    destruct (sr_kalloc (kserv s3)) as (ks & k' & Ek). apply (wp_svc _ _ _ _ _ Ek). wp_steps.
    pose proof (edits_updp np _ (upd_p_kstack (fun _ => ks)) _ _ (edits_svc _ _ _ _ (fun _ => k') (edits_same _ _ _ _ _ He Hs3))) as He4.
    destruct (ks =? 0) eqn:E; bool_to_prop.
    + subst ks. wp_steps. eapply (HF np); [done|by eapply unlocked_eq|].
      exact (edits_updp _ _ (upd_p_state (fun _ => UNUSED)) _ _ He4).
    + wp_steps. eapply (HS np ks); [done|by eapply unlocked_eq|done|].
      destruct He4 as [E1 E2 E3]. split; [|done..]. cbn [procs upd_procs upd_kserv] in E1 |- *. rewrite E1.
      repeat (erewrite alter_alter by (intros; reflexivity)). by apply alter_eq_ext.
Qed.

(** The descriptors the loop of [fork] copies. *)
Definition dup_files (ofs : list Z) (idx : list nat) (old : list Z) : list Z :=
  foldl (fun acc i => if default 0 (ofs !! i) =? 0 then acc else <[i := default 0 (ofs !! i)]> acc) old idx.

Lemma dup_files_lookup ofs old n fd :
  (fd < n)%nat -> (n <= length old)%nat ->
  dup_files ofs (seq 0 n) old !! fd =
  if default 0 (ofs !! fd) =? 0 then old !! fd else Some (default 0 (ofs !! fd)).
Proof.
  intros Hfd Hn. unfold dup_files.
  assert (forall m k old', (k + m <= length old')%nat ->
    foldl (fun acc i => if default 0 (ofs !! i) =? 0 then acc else <[i := default 0 (ofs !! i)]> acc) old' (seq k m) !! fd =
    if decide (k <= fd < k + m)%nat then (if default 0 (ofs !! fd) =? 0 then old' !! fd else Some (default 0 (ofs !! fd)))
    else old' !! fd) as H.
  { induction m as [|m IH]; intros k old' Hk; simpl; [by rewrite decide_False by lia|].
    rewrite IH. 2: { destruct (default 0 (ofs !! k) =? 0); rewrite ?length_insert; lia. }
    destruct (decide (fd = k)) as [->|Hne].
    - rewrite decide_False by lia. rewrite decide_True by lia. destruct (_ =? 0); [done|].
      rewrite list_lookup_insert_eq; [done|lia].
    - rewrite (decide_ext (S k <= fd < S k + m)%nat (k <= fd < k + S m)%nat) by lia.
      destruct (default 0 (ofs !! k) =? 0); [done|]. by rewrite list_lookup_insert_ne by lia. }
  rewrite H by lia. by rewrite decide_True by lia.
Qed.

Lemma wp_dup_files c cur np F s0 idx s (Q : unit -> pst K -> Prop) :
  cur <> np -> unlocked c s -> edits np F s0 s ->
  (forall s', unlocked c s' ->
     edits np (fun x => upd_p_ofile (dup_files (p_ofile (proc_at s0 cur)) idx) (F x)) s0 s' -> Q tt s') ->
  wp (for_each idx (fun i =>
        f ← getp cur (fun p => default 0 (p_ofile p !! i));
        when (negb (f =? 0))
          (g ← svc (ks_filedup f);
           updp np (upd_p_ofile (fun l => <[i := g]> l))))) Q s.
Proof.
  intros Hne. revert F s. induction idx as [|i idx IH]; intros F s Hu He HQ.
  - apply wp_ret, HQ; [done|]. destruct He as [E1 E2 E3]. split; [|done..]. rewrite E1. apply alter_eq_ext.
    intros x _. by destruct (F x).
  - simpl. unfold getp. wp_steps. rewrite (edits_ne _ _ _ _ cur He Hne).
    destruct (_ =? 0) eqn:E; cbn [negb when].
    + wp_steps. apply (IH F); [done..|]. intros s' Hu' He'. apply HQ; [done|]. unfold dup_files in *. cbn [foldl]. by rewrite E.
    + wp_steps. destruct (sr_filedup (default 0 (p_ofile (proc_at s0 cur) !! i)) (kserv s)) as (k' & Ek).
      apply (wp_svc _ _ _ _ _ Ek). unfold updp. wp_steps.
      eapply IH; [by eapply unlocked_eq|eapply edits_updp, edits_svc, He|]. intros s' Hu' [E1 E2 E3].
      apply HQ; [done|]. split; [|done..]. rewrite E1. apply alter_eq_ext. intros x _. unfold dup_files. cbn [foldl]. by rewrite E.
Qed.

Lemma proc_at_ne np f s j : j <> np -> proc_at (upd_procs (alter f np) s) j = proc_at s j.
Proof. intros Hj. unfold proc_at. simpl. by rewrite list_lookup_alter_ne. Qed.

(** Compute the fields of an updated process. *)
Ltac fields :=
  cbv [with_stack embryo ctx_eip upd_p_sz upd_p_pgdir upd_p_kstack upd_p_state upd_p_pid
    upd_p_parent upd_p_tf upd_p_tf_data upd_p_context upd_p_context_data upd_p_ret_addr
    upd_p_chan upd_p_killed upd_p_ofile upd_p_cwd upd_p_name upd_p_scheduler upd_p_is_threaded
    upd_p_priority upd_p_ticks upd_p_wait_ticks p_sz p_pgdir p_kstack p_state p_pid p_parent
    p_tf p_tf_data p_context p_context_data p_ret_addr p_chan p_killed p_ofile p_cwd p_name
    p_scheduler p_is_threaded p_priority p_ticks p_wait_ticks].

(** The child [x'] that a process [x] forks into a slot that held [y]. *)
Record child_of (cur : nat) (x y : proc) (pid : Z) (x' : proc) : Prop := {
  ch_state : p_state x' = RUNNABLE;
  ch_pid : p_pid x' = pid;
  ch_parent : p_parent x' = Some cur;
  ch_sz : p_sz x' = p_sz x;
  ch_tf : p_tf_data x' = upd_tf_eax (fun _ => 0) (p_tf_data x);
  ch_cwd : p_cwd x' = p_cwd x;
  ch_name : p_name x' = put_name (until_nul (p_name x)) (p_name y);
  ch_files : forall fd, (fd < NOFILE)%nat ->
    p_ofile x' !! fd = if default 0 (p_ofile x !! fd) =? 0 then p_ofile y !! fd else p_ofile x !! fd;
  ch_priority : p_priority x' = 3;
  ch_pgdir : p_pgdir x' <> 0;
  ch_start : ctx_eip (p_context_data x') = forkret_addr /\ p_ret_addr x' = trapret /\
    p_tf x' = p_kstack x' + KSTACKSIZE - sizeof_trapframe /\
    p_context x' = p_tf x' - 4 - sizeof_context;
  ch_killed : p_killed x' = p_killed y;
}.


End Ops.

Lemma kill_spec_witness : exists r s', kill 0 1 boot_procs = (Ret r, s') /\ r = 0.
Proof.
  assert (unlocked 0 boot_procs) as Hu by (split; [reflexivity|simpl; lia|simpl; lia]).
  destruct (wp_returns _ _ _ (kill_spec 0 1 boot_procs Hu eq_refl)) as (r & s' & E & _ & _ & Hr & _).
  exists r, s'. split; [exact E|]. apply Hr. exists 0%nat. split; [unfold NPROC; lia|reflexivity].
Defined.

#[export] Instance null_services_return : ServicesReturn (KS := null_services).
Proof. split; simpl; unfold ret; eauto. Qed.

(** The first process running on a CPU. *)
Definition running_procs : pst unit :=
  Pst false (mk_proc 1 RUNNING 3 [0; 0; 0; 0] :: replicate 63 null_proc) 2 (Some 0%nat)
    [Pcpu (Some 0%nat) 1 0 true true] false tt.

Lemma running_files i : (i < NPROC)%nat -> length (p_ofile (proc_at running_procs i)) = NOFILE.
Proof.
  intros Hi. unfold proc_at, running_procs. cbn [procs].
  destruct (decide (i = 0%nat)) as [->|]; [reflexivity|]. rewrite lookup_cons_ne_0 by done.
  rewrite lookup_replicate_2; [reflexivity|]. unfold NPROC in Hi. lia.
Qed.


(** [kill(0)] succeeds although no process has pid 0: it finds a free slot,
    whose pid is 0, and marks it killed; [allocproc] does not reset the mark, so
    the next child that is forked into the slot is born killed. *)
Theorem kill_zero_marks_free_slot :
  wp (r ← kill 0 0; pid ← fork (KS := null_services) 0 0 0; k ← getp 1 p_killed; ret (r, pid, k))
    (fun v _ => v = (0, 2, 1)) running_procs.
Proof. vm_compute. reflexivity. Qed.
