(* ===== verification/Tx.v ===== *)
(** * Blocks inside a transaction

    What fs.c uses of the layers below it: [bread], [brelse], access to
    [bp->data], and [log_write].  The class [TxBlocks] states the operations and
    [TxBlocksLaws] their laws, in terms of what a reader sees, which blocks the
    current transaction has logged and which buffers are held.  log.c over any
    block cache (Log.v, Block.v) satisfies them. *)
From S2P Require Import Prelude Block Log.

(** What a client knows: the number of blocks, their contents, the blocks in the
    transaction, the most it may hold, the buffers held, and the held buffers that
    were changed since they were last passed to [log_write]. *)
Record tview : Type := TView {
  tv_n : Z;
  tv_blk : Z -> block;
  tv_logged : gset Z;
  tv_limit : nat;
  tv_held : gset Z;
  tv_mod : gset Z;
}.

Definition tv_hold (b : Z) (v : tview) : tview :=
  TView (tv_n v) (tv_blk v) (tv_logged v) (tv_limit v) ({[b]} ∪ tv_held v) (tv_mod v).

Definition tv_drop (b : Z) (v : tview) : tview :=
  TView (tv_n v) (tv_blk v) (tv_logged v) (tv_limit v) (tv_held v ∖ {[b]}) (tv_mod v).

Definition tv_put (b : Z) (d : block) (v : tview) : tview :=
  TView (tv_n v) (upd_fn (tv_blk v) b d) (tv_logged v) (tv_limit v) (tv_held v) ({[b]} ∪ tv_mod v).

Definition tv_record (b : Z) (v : tview) : tview :=
  TView (tv_n v) (tv_blk v) ({[b]} ∪ tv_logged v) (tv_limit v) (tv_held v) (tv_mod v ∖ {[b]}).

Class TxBlocks (T : Type) : Type := {
  tx_bread : Z -> Z -> M T nat;
  tx_brelse : nat -> M T unit;
  tx_data : T -> nat -> block;
  tx_set_data : nat -> (block -> block) -> M T unit;
  tx_log_write : nat -> M T unit;
  tx_env : lens T env;
  tx_cap : nat;
  tabs : T -> tview -> Prop;
  thandle : T -> nat -> Z -> Prop;
}.

Definition tkeeps {T} `{TxBlocks T} (t t' : T) : Prop :=
  forall j x, thandle t j x -> thandle t' j x.

(** A buffer for block [b] can be had. *)
Definition tv_avail {T} `{TxBlocks T} (b : Z) (v : tview) : Prop :=
  b ∈ tv_logged v \/ (size (tv_logged v ∪ tv_held v) < tx_cap)%nat.

Class TxBlocksLaws (T : Type) `{TxBlocks T} : Prop := {
  tx_bread_law : forall t v b,
    tabs t v -> 0 <= b < tv_n v -> b ∉ tv_held v -> tv_avail b v ->
    wp (tx_bread ROOTDEV b) (fun i t' => tabs t' (tv_hold b v) /\ thandle t' i b /\ tkeeps t t') t;
  tx_data_law : forall t v i b, tabs t v -> thandle t i b -> tx_data t i = tv_blk v b;
  tx_set_data_law : forall t v i b f,
    tabs t v -> thandle t i b ->
    wp (tx_set_data i f) (fun _ t' => tabs t' (tv_put b (f (tv_blk v b)) v) /\ tkeeps t t') t;
  tx_log_write_law : forall t v i b,
    tabs t v -> thandle t i b -> (size (tv_logged v) < tv_limit v)%nat ->
    wp (tx_log_write i) (fun _ t' => tabs t' (tv_record b v) /\ tkeeps t t') t;
  tx_brelse_law : forall t v i b,
    tabs t v -> thandle t i b -> b ∉ tv_mod v ->
    wp (tx_brelse i) (fun _ t' => tabs t' (tv_drop b v) /\
      forall j x, x <> b -> thandle t j x -> thandle t' j x) t;
  tx_range : forall t v i b, tabs t v -> thandle t i b -> 0 <= b < tv_n v;
  tx_size : forall t v, tabs t v -> tv_n v <= 2147483648;
  tx_env_laws : LensLaws tx_env;
  tx_env_abs : forall t v f, tabs t v -> tabs (over tx_env f t) v;
  tx_env_handle : forall t f i b, thandle t i b -> thandle (over tx_env f t) i b;
  tabs_ext : forall t v v', tabs t v -> tv_n v' = tv_n v -> tv_logged v' = tv_logged v ->
    tv_limit v' = tv_limit v -> tv_held v' = tv_held v -> tv_mod v' = tv_mod v ->
    (forall b, 0 <= b < tv_n v -> tv_blk v' b = tv_blk v b) -> tabs t v';
}.

(** ** log.c over a block cache *)
Section LogTx.
Context {C : Type} {HC : BlockCache C}.

(** The transaction [L] in the header and the view [w] of the cache stand for [v]. *)
Record log_tx (s : lst C) (v : tview) (w : cview) (L : list Z) : Prop := {
  lt_lock : lg_lock (lg s) = false;
  lt_len : length (lh_block (lg s)) = 30%nat;
  lt_hdr : in_header (lg s) L;
  lt_nodup : NoDup L;
  lt_ints : Forall (fun x => 0 <= x < 2147483648) L;
  lt_out : 1 <= lg_outstanding (lg s);
  lt_limit : tv_limit v = Z.to_nat (Z.min LOGSIZE (lg_size (lg s) - 1));
  lt_abs : cabs (lc s) w;
  lt_n : tv_n v = cv_n w;
  lt_blk : forall b, 0 <= b < cv_n w -> tv_blk v b = cv_view w b;
  lt_logged : tv_logged v = list_to_set L;
  lt_dirty : cv_dirty w = tv_logged v;
  lt_held : tv_held v = cv_locked w;
  lt_clean : forall b, 0 <= b < cv_n w -> b ∉ cv_dirty w -> b ∉ tv_mod v -> cv_view w b = cv_disk w b;
}.

#[export] Instance log_blocks : TxBlocks (lst C) := {
  tx_bread := c_bread;
  tx_brelse := c_brelse;
  tx_data := fun s i => bdata (lc s) i;
  tx_set_data := c_set_data;
  tx_log_write := log_write;
  tx_env := lenv;
  tx_cap := cap;
  tabs := fun s v => exists w L, log_tx s v w L;
  thandle := fun s i b => handle (lc s) i b;
}.

Context {HCL : BlockCacheLaws C}.

Lemma log_tx_bread s v b :
  tabs s v -> 0 <= b < tv_n v -> b ∉ tv_held v -> tv_avail b v ->
  wp (c_bread ROOTDEV b) (fun i s' => tabs s' (tv_hold b v) /\ thandle s' i b /\ tkeeps s s') s.
Proof.
  intros (w & L & H) Hb Hh Hav. pose proof H as [].
  eapply (wp_bread s w b); [done|lia|congruence|by rewrite lt_dirty0, <- lt_held0|].
  intros i c' Ha Hi Hk. split_and!; [|done|done]. exists (v_lock b w), L.
  split; try done. simpl. congruence.
Qed.

Lemma log_tx_set_data s v i b f :
  tabs s v -> thandle s i b ->
  wp (c_set_data i f) (fun _ s' => tabs s' (tv_put b (f (tv_blk v b)) v) /\ tkeeps s s') s.
Proof.
  intros (w & L & H) Hi. pose proof H as [].
  pose proof (handle_range _ _ _ _ lt_abs0 Hi) as Hr.
  eapply (wp_set_data s w i b); [done..|]. intros c' Ha Hk. split; [|done]. exists (v_set b (f (cv_view w b)) w), L.
  split; try done; simpl.
  - intros x Hx. unfold upd_fn. rewrite lt_blk0 by done. case_decide; [done|by apply lt_blk0].
  - intros x Hx Hd Hm. rewrite upd_fn_ne by set_solver. apply lt_clean0; set_solver.
Qed.

Lemma log_tx_log_write s v i b :
  tabs s v -> thandle s i b -> (size (tv_logged v) < tv_limit v)%nat ->
  wp (log_write i) (fun _ s' => tabs s' (tv_record b v) /\ tkeeps s s') s.
Proof.
  intros (w & L & H) Hi Hroom. pose proof H as [].
  assert (size (tv_logged v) = length L) as Hsz by (rewrite lt_logged0; by apply size_list_to_set).
  pose proof (cabs_size _ _ lt_abs0). pose proof (handle_range _ _ _ _ lt_abs0 Hi) as Hr.
  pose proof (proj1 lt_hdr0) as Hn.
  eapply (wp_log_write s w L i b); try done; [lia..|].
  intros s' Hh Hl Hs Ha Hk. split; [|done]. exists (v_dirty b w), (absorb b L).
  assert (NoDup (absorb b L) /\ (list_to_set (absorb b L) : gset Z) = {[b]} ∪ list_to_set L /\
          Forall (fun x => 0 <= x < 2147483648) (absorb b L)) as (Hnd & Hset & Hf).
  { unfold absorb. case_decide as Hin; [split_and!; [done|set_solver|done]|].
    split_and!; [|set_solver|].
    - apply NoDup_app. split_and!; [done|set_solver|apply NoDup_singleton].
    - apply Forall_app. split; [done|]. constructor; [lia|constructor]. }
  assert (lg_lock (lg s') = lg_lock (lg s) /\ lg_outstanding (lg s') = lg_outstanding (lg s) /\
          lg_size (lg s') = lg_size (lg s)) as (E1 & E2 & E3).
  { unfold same_log in Hs. destruct (lg s), (lg s'). simpl in *. naive_solver. }
  split; simpl; try done; try congruence.
  intros x Hx Hd Hm. apply lt_clean0; set_solver.
Qed.

Lemma log_tx_brelse s v i b :
  tabs s v -> thandle s i b -> b ∉ tv_mod v ->
  wp (c_brelse i) (fun _ s' => tabs s' (tv_drop b v) /\
    forall j x, x <> b -> thandle s j x -> thandle s' j x) s.
Proof.
  intros (w & L & H) Hi Hm. pose proof H as []. pose proof (handle_range _ _ _ _ lt_abs0 Hi).
  eapply (wp_brelse s w i b); [done|done|destruct (decide (b ∈ cv_dirty w)); [by left|right; by apply lt_clean0]|].
  intros c' Ha Hk. split; [|done]. exists (v_unlock b w), L. split; try done. simpl. congruence.
Qed.

#[export] Instance log_blocks_laws : TxBlocksLaws (lst C).
Proof.
  split; intros.
  - by apply log_tx_bread.
  - match goal with H : tabs _ _ |- _ => destruct H as (w & L & Ht) end. pose proof (lt_abs _ _ _ _ Ht) as Ha.
    destruct (bdata_law _ _ _ _ Ha H0) as [E _]. simpl. rewrite E. symmetry.
    apply (lt_blk _ _ _ _ Ht). by apply (handle_range _ _ _ _ Ha H0).
  - by apply log_tx_set_data.
  - by apply log_tx_log_write.
  - by apply log_tx_brelse.
  - match goal with H : tabs _ _ |- _ => destruct H as (w & L & Ht) end. rewrite (lt_n _ _ _ _ Ht).
    exact (handle_range _ _ _ _ (lt_abs _ _ _ _ Ht) H0).
  - match goal with H : tabs _ _ |- _ => destruct H as (w & L & Ht) end. rewrite (lt_n _ _ _ _ Ht).
    eapply cabs_size, lt_abs, Ht.
  - destruct cenv_laws as [L1 L2 L3]. split; simpl.
    + intros f [l c]. apply L1.
    + intros [l c]. simpl. by rewrite L2.
    + intros f g [l c]. simpl. by rewrite L3.
  - match goal with H : tabs _ _ |- _ => destruct H as (w & L & Ht) end. exists w, L. destruct Ht.
    split; try done. by apply cenv_abs.
  - by apply cenv_handle.
  - match goal with H : tabs _ _ |- _ => destruct H as (w & L & Ht) end. exists w, L. destruct Ht.
    split; try done; try congruence.
    + intros b Hb. rewrite H5 by lia. auto.
    + intros b Hb Hd Hm. apply lt_clean0; [done..|]. congruence.
Qed.

End LogTx.
