(* ===== verification/Fs.v ===== *)
(** * Files, directories and names (src/xv6/fs.c)

    The state is [icache], the superblock [sb] and the blocks below, through the
    interface of Tx.v.  A pointer to an inode is its index in the cache; the null
    pointer is [None].  Buffers the code copies to or from are byte lists. *)
From S2P Require Import Prelude Block Log Tx Sleeplock.

Definition ROOTINO : Z := 1.

Definition NDIRECT : nat := 12.

Definition NINDIRECT : nat := 128.

Definition MAXFILE : Z := 140.

Definition DIRSIZ : nat := 14.

Definition NINODE : nat := 50.

Definition NDEV : Z := 10.

Definition T_DIR : Z := 1.

Definition T_FILE : Z := 2.

Definition T_DEV : Z := 3.

(** [BSIZE / sizeof(struct dinode)] and [BSIZE*8] *)
Definition IPB : Z := 8.

Definition BPB : Z := 4096.

Definition IBLOCK (i : Z) (sb : superblock) : Z := u32 (i / IPB + sb_inodestart sb).

Definition BBLOCK (b : Z) (sb : superblock) : Z := u32 (b / BPB + sb_bmapstart sb).

(** ** struct dinode *)
Record dinode : Type := Dinode {
  d_type : Z;
  d_major : Z;
  d_minor : Z;
  d_nlink : Z;
  d_size : Z;
  d_addrs : list Z;
}.

Definition sizeof_dinode : nat := 64.

(** The offset of inode [inum] in its block: the pointer [dip]. *)
Definition dip_off (inum : Z) : nat := (sizeof_dinode * Z.to_nat (inum mod IPB))%nat.

Definition get_dinode (off : nat) (b : block) : dinode :=
  Dinode (s16 (get16 b off)) (s16 (get16 b (off + 2))) (s16 (get16 b (off + 4)))
    (s16 (get16 b (off + 6))) (get32 b (off + 8))
    ((fun k => get32 b (off + 12 + 4 * k)) <$> seq 0 (NDIRECT + 1)).

Definition put_addrs (off : nat) (l : list Z) (b : block) : block := put_bytes off (l ≫= le32) b.

Definition put_dinode (off : nat) (d : dinode) (b : block) : block :=
  put_addrs (off + 12) (d_addrs d)
    (put32 (off + 8) (d_size d)
      (put16 (off + 6) (d_nlink d)
        (put16 (off + 4) (d_minor d)
          (put16 (off + 2) (d_major d)
            (put16 off (d_type d) b))))).

(** ** struct inode *)
Record inode : Type := Inode {
  i_dev : Z;
  i_inum : Z;
  i_ref : Z;
  i_lock : sleeplock;
  i_valid : Z;
  i_type : Z;
  i_major : Z;
  i_minor : Z;
  i_nlink : Z;
  i_size : Z;
  i_addrs : list Z;
}.

Definition upd_i_dev (f : Z -> Z) (x : inode) : inode :=
  Inode (f (i_dev x)) (i_inum x) (i_ref x) (i_lock x) (i_valid x) (i_type x) (i_major x) (i_minor x)
    (i_nlink x) (i_size x) (i_addrs x).

Definition upd_i_inum (f : Z -> Z) (x : inode) : inode :=
  Inode (i_dev x) (f (i_inum x)) (i_ref x) (i_lock x) (i_valid x) (i_type x) (i_major x) (i_minor x)
    (i_nlink x) (i_size x) (i_addrs x).

Definition upd_i_ref (f : Z -> Z) (x : inode) : inode :=
  Inode (i_dev x) (i_inum x) (f (i_ref x)) (i_lock x) (i_valid x) (i_type x) (i_major x) (i_minor x)
    (i_nlink x) (i_size x) (i_addrs x).

Definition upd_i_lock (f : sleeplock -> sleeplock) (x : inode) : inode :=
  Inode (i_dev x) (i_inum x) (i_ref x) (f (i_lock x)) (i_valid x) (i_type x) (i_major x) (i_minor x)
    (i_nlink x) (i_size x) (i_addrs x).

Definition upd_i_valid (f : Z -> Z) (x : inode) : inode :=
  Inode (i_dev x) (i_inum x) (i_ref x) (i_lock x) (f (i_valid x)) (i_type x) (i_major x) (i_minor x)
    (i_nlink x) (i_size x) (i_addrs x).

Definition upd_i_type (f : Z -> Z) (x : inode) : inode :=
  Inode (i_dev x) (i_inum x) (i_ref x) (i_lock x) (i_valid x) (f (i_type x)) (i_major x) (i_minor x)
    (i_nlink x) (i_size x) (i_addrs x).

Definition upd_i_major (f : Z -> Z) (x : inode) : inode :=
  Inode (i_dev x) (i_inum x) (i_ref x) (i_lock x) (i_valid x) (i_type x) (f (i_major x)) (i_minor x)
    (i_nlink x) (i_size x) (i_addrs x).

Definition upd_i_minor (f : Z -> Z) (x : inode) : inode :=
  Inode (i_dev x) (i_inum x) (i_ref x) (i_lock x) (i_valid x) (i_type x) (i_major x) (f (i_minor x))
    (i_nlink x) (i_size x) (i_addrs x).

Definition upd_i_nlink (f : Z -> Z) (x : inode) : inode :=
  Inode (i_dev x) (i_inum x) (i_ref x) (i_lock x) (i_valid x) (i_type x) (i_major x) (i_minor x) (f
    (i_nlink x)) (i_size x) (i_addrs x).

Definition upd_i_size (f : Z -> Z) (x : inode) : inode :=
  Inode (i_dev x) (i_inum x) (i_ref x) (i_lock x) (i_valid x) (i_type x) (i_major x) (i_minor x)
    (i_nlink x) (f (i_size x)) (i_addrs x).

Definition upd_i_addrs (f : (list Z) -> (list Z)) (x : inode) : inode :=
  Inode (i_dev x) (i_inum x) (i_ref x) (i_lock x) (i_valid x) (i_type x) (i_major x) (i_minor x)
    (i_nlink x) (i_size x) (f (i_addrs x)).

(** An entry of the zero-initialised cache. *)
Definition null_inode : inode := Inode 0 0 0 (Sleeplock false false 0) 0 0 0 0 0 0 (replicate 13 0).

(** The fields of an inode that are copied from and to disk. *)
Definition inode_load (d : dinode) (x : inode) : inode :=
  Inode (i_dev x) (i_inum x) (i_ref x) (i_lock x) (i_valid x) (d_type d) (d_major d) (d_minor d) (d_nlink d)
    (d_size d) (d_addrs d).

Definition inode_dinode (x : inode) : dinode :=
  Dinode (i_type x) (i_major x) (i_minor x) (i_nlink x) (i_size x) (i_addrs x).

(** [struct stat] *)
Record stat : Type := Stat {
  st_type : Z;
  st_dev : Z;
  st_ino : Z;
  st_nlink : Z;
  st_size : Z;
}.

(** ** Names *)

(** [strncmp(s, t, n)] of string.c on the bytes of two strings *)
Fixpoint strncmp_bytes (n : nat) (s t : list Z) : Z :=
  match n with
  | O => 0
  | S n' =>
      let p := default 0 (head s) in
      let q := default 0 (head t) in
      if negb (p =? 0) && (p =? q) then strncmp_bytes n' (tail s) (tail t)
      else p - q
  end.

(** [strncpy(s, t, n)]: the bytes it writes *)
Fixpoint strncpy_bytes (n : nat) (t : list Z) : list Z :=
  match n with
  | O => []
  | S n' =>
      match t with
      | [] => 0 :: strncpy_bytes n' []
      | b :: t' => if b =? 0 then 0 :: strncpy_bytes n' [] else b :: strncpy_bytes n' t'
      end
  end.

Definition namecmp (s t : list Z) : Z := strncmp_bytes DIRSIZ s t.

(** [struct dirent]: a [ushort] and [DIRSIZ] bytes *)
Definition sizeof_dirent : Z := 16.

Definition de_inum (d : list Z) : Z := get16 d 0.

Definition de_name (d : list Z) : list Z := get_bytes 2 DIRSIZ d.

Definition mk_dirent (inum : Z) (name : list Z) : list Z := le16 inum ++ strncpy_bytes DIRSIZ name.

Definition slash : Z := 47.

(** The loop that skips slashes. *)
Fixpoint skip_slashes (path : list Z) : list Z :=
  match path with
  | c :: path' => if c =? slash then skip_slashes path' else path
  | [] => []
  end.

(** The loop that runs to the end of an element: the element and what follows *)
Fixpoint split_elem (path : list Z) : list Z * list Z :=
  match path with
  | c :: path' =>
      if (c =? slash) || (c =? 0) then ([], path)
      else let r := split_elem path' in (c :: r.1, r.2)
  | [] => ([], [])
  end.

Definition at_end (path : list Z) : bool := default 0 (head path) =? 0.

(** A path is the bytes of the string without the final NUL; [name] is the
    caller's buffer, returned with what the function wrote to it. *)
Definition skipelem (path name : list Z) : option (list Z * list Z) :=
  let path := skip_slashes path in
  if at_end path then None
  else
    let '(s, path) := split_elem path in
    let len := length s in
    let name := if (DIRSIZ <=? len)%nat then put_bytes 0 (take DIRSIZ s) name
                else <[len := 0]> (put_bytes 0 s name) in
    Some (skip_slashes path, name).

Section Fs.
Context {T : Type} {HT : TxBlocks T}.

(** [icache], [sb] and the layers below *)
Record fs : Type := Fs {
  ic_lock : bool;
  inodes : list inode;
  fsb : superblock;
  ftx : T;
}.

Definition upd_ic_lock (f : bool -> bool) (x : fs) : fs :=
  Fs (f (ic_lock x)) (inodes x) (fsb x) (ftx x).

Definition upd_inodes (f : (list inode) -> (list inode)) (x : fs) : fs :=
  Fs (ic_lock x) (f (inodes x)) (fsb x) (ftx x).

Definition upd_fsb (f : superblock -> superblock) (x : fs) : fs :=
  Fs (ic_lock x) (inodes x) (f (fsb x)) (ftx x).

Definition upd_ftx (f : T -> T) (x : fs) : fs :=
  Fs (ic_lock x) (inodes x) (fsb x) (f (ftx x)).

Definition tx_lens : lens fs T := Lens ftx upd_ftx.

Definition iclock : lens fs bool := Lens ic_lock upd_ic_lock.

Definition fs_bread (dev b : Z) : M fs nat := zoom tx_lens (tx_bread (u32 dev) (u32 b)).

Definition fs_brelse (bp : nat) : M fs unit := zoom tx_lens (tx_brelse bp).

Definition fs_data (bp : nat) : M fs block := gets (fun s => tx_data (ftx s) bp).

Definition fs_set_data (bp : nat) (f : block -> block) : M fs unit := zoom tx_lens (tx_set_data bp f).

Definition fs_log_write (bp : nat) : M fs unit := zoom tx_lens (tx_log_write bp).

Definition inode_at (s : fs) (ip : nat) : inode := default null_inode (inodes s !! ip).

Definition geti {A} (ip : nat) (f : inode -> A) : M fs A := gets (fun s => f (inode_at s ip)).

Definition updi (ip : nat) (f : inode -> inode) : M fs unit := modify (upd_inodes (alter f ip)).

(** The sleep lock of an inode, with the process layer. *)
Definition inode_sl (ip : nat) : lens fs slstate :=
  Lens (fun s => (i_lock (inode_at s ip), view tx_env (ftx s)))
       (fun f s => let le := f (i_lock (inode_at s ip), view tx_env (ftx s)) in
          upd_ftx (over tx_env (fun _ => le.2)) (upd_inodes (alter (upd_i_lock (fun _ => le.1)) ip) s)).

Definition inode_chan (ip : nat) : Z := 2001 + Z.of_nat ip.

(** ** Blocks *)
Definition readsb_fs (dev : Z) : M fs unit :=
  bp ← fs_bread dev 1;
  d ← fs_data bp;
  modify (upd_fsb (fun _ => decode_sb d)) ;;
  fs_brelse bp.

Definition bzero (dev bno : Z) : M fs unit :=
  bp ← fs_bread dev bno;
  fs_set_data bp (fun _ => zero_block) ;;
  fs_log_write bp ;;
  fs_brelse bp.

Definition bit_mask (bi : Z) : Z := Z.shiftl 1 (bi mod 8).

(** [bp->data[k] op= ...] *)
Definition set_byte (k : Z) (f : Z -> Z) (d : block) : block :=
  <[Z.to_nat k := f (get8 d (Z.to_nat k))]> d.

(** The values of [b] in [for(b = 0; b < sb.size; b += BPB)] *)
Definition bitmap_starts (size : Z) : list Z :=
  (fun k => k * BPB) <$> seqZ 0 ((size + BPB - 1) / BPB).

Definition balloc (dev : Z) : M fs Z :=
  size ← gets (fun s => sb_size (fsb s));
  r ← for_until (bitmap_starts size) (fun b =>
    sb ← gets fsb;
    bp ← fs_bread dev (BBLOCK b sb);
    found ← for_until (seqZ 0 (Z.min BPB (size - b))) (fun bi =>
      d ← fs_data bp;
      let m := bit_mask bi in
      if Z.land (get8 d (Z.to_nat (bi / 8))) m =? 0 then
        fs_set_data bp (set_byte (bi / 8) (fun x => Z.lor x m)) ;;
        fs_log_write bp ;;
        fs_brelse bp ;;
        bzero dev (b + bi) ;;
        ret (Some (b + bi))
      else ret None);
    match found with
    | Some x => ret (Some x)
    | None => fs_brelse bp ;; ret None
    end);
  match r with
  | Some b => ret b
  | None => panic "balloc: out of blocks"
  end.

Definition bfree (dev b : Z) : M fs unit :=
  readsb_fs dev ;;
  sb ← gets fsb;
  bp ← fs_bread dev (BBLOCK b sb);
  let bi := b mod BPB in
  let m := bit_mask bi in
  d ← fs_data bp;
  panic_if (Z.land (get8 d (Z.to_nat (bi / 8))) m =? 0) "freeing free block" ;;
  fs_set_data bp (set_byte (bi / 8) (fun x => Z.ldiff x m)) ;;
  fs_log_write bp ;;
  fs_brelse bp.

(** ** Inodes *)
Definition iinit (dev : Z) : M fs unit :=
  modify (upd_ic_lock (fun _ => false)) ;;
  for_each (seq 0 NINODE) (fun i => zoom (inode_sl i) initsleeplock) ;;
  readsb_fs dev.

(** The scan of the cache in [iget]: a cached inode, or the first free entry. *)
Fixpoint iget_scan (dev inum : Z) (l : list inode) (ip : nat) (empty : option nat) : nat + option nat :=
  match l with
  | [] => inr empty
  | x :: l' =>
      if (0 <? i_ref x) && (i_dev x =? dev) && (i_inum x =? inum) then inl ip
      else iget_scan dev inum l' (S ip)
             (match empty with None => if i_ref x =? 0 then Some ip else None | Some _ => empty end)
  end.

Definition iget (dev inum : Z) : M fs nat :=
  acquire_flag iclock ;;
  r ← gets (fun s => iget_scan dev inum (inodes s) 0 None);
  match r with
  | inl ip =>
      updi ip (upd_i_ref (fun n => s32 (n + 1))) ;;
      release_flag iclock ;;
      ret ip
  | inr None => panic "iget: no inodes"
  | inr (Some ip) =>
      updi ip (upd_i_dev (fun _ => dev)) ;;
      updi ip (upd_i_inum (fun _ => inum)) ;;
      updi ip (upd_i_ref (fun _ => 1)) ;;
      updi ip (upd_i_valid (fun _ => 0)) ;;
      release_flag iclock ;;
      ret ip
  end.

Definition ialloc (dev type : Z) : M fs nat :=
  ninodes ← gets (fun s => sb_ninodes (fsb s));
  r ← for_until (seqZ 1 (ninodes - 1)) (fun inum =>
    sb ← gets fsb;
    bp ← fs_bread dev (IBLOCK inum sb);
    d ← fs_data bp;
    if d_type (get_dinode (dip_off inum) d) =? 0 then
      fs_set_data bp (put_bytes (dip_off inum) (replicate sizeof_dinode 0)) ;;
      fs_set_data bp (put16 (dip_off inum) type) ;;
      fs_log_write bp ;;
      fs_brelse bp ;;
      ip ← iget dev inum;
      ret (Some ip)
    else
      fs_brelse bp ;;
      ret None);
  match r with
  | Some ip => ret ip
  | None => panic "ialloc: no inodes"
  end.

Definition iupdate (ip : nat) : M fs unit :=
  x ← geti ip id;
  sb ← gets fsb;
  bp ← fs_bread (i_dev x) (IBLOCK (i_inum x) sb);
  fs_set_data bp (put_dinode (dip_off (i_inum x)) (inode_dinode x)) ;;
  fs_log_write bp ;;
  fs_brelse bp.

Definition idup (ip : nat) : M fs nat :=
  acquire_flag iclock ;;
  updi ip (upd_i_ref (fun n => s32 (n + 1))) ;;
  release_flag iclock ;;
  ret ip.

Definition ilock (p : option nat) : M fs unit :=
  match p with
  | None => panic "ilock"
  | Some ip =>
      r ← geti ip i_ref;
      panic_if (r <? 1) "ilock" ;;
      zoom (inode_sl ip) (acquiresleep (inode_chan ip)) ;;
      x ← geti ip id;
      when (i_valid x =? 0)
        (sb ← gets fsb;
         bp ← fs_bread (i_dev x) (IBLOCK (i_inum x) sb);
         d ← fs_data bp;
         updi ip (inode_load (get_dinode (dip_off (i_inum x)) d)) ;;
         fs_brelse bp ;;
         updi ip (upd_i_valid (fun _ => 1)) ;;
         t ← geti ip i_type;
         panic_if (t =? 0) "ilock: no type")
  end.

Definition iunlock (p : option nat) : M fs unit :=
  match p with
  | None => panic "iunlock"
  | Some ip =>
      h ← zoom (inode_sl ip) holdingsleep;
      r ← geti ip i_ref;
      panic_if (negb h || (r <? 1)) "iunlock" ;;
      zoom (inode_sl ip) (releasesleep (inode_chan ip))
  end.

(** [ip->addrs[i]] *)
Definition get_addr (ip i : nat) : M fs Z := geti ip (fun x => default 0 (i_addrs x !! i)).

Definition set_addr (ip i : nat) (v : Z) : M fs unit := updi ip (upd_i_addrs (fun l => <[i := v]> l)).

Definition itrunc (ip : nat) : M fs unit :=
  dev ← geti ip i_dev;
  for_each (seq 0 NDIRECT) (fun i =>
    a ← get_addr ip i;
    when (negb (a =? 0))
      (bfree dev a ;;
       set_addr ip i 0)) ;;
  ind ← get_addr ip NDIRECT;
  when (negb (ind =? 0))
    (bp ← fs_bread dev ind;
     for_each (seq 0 NINDIRECT) (fun j =>
       d ← fs_data bp;
       let a := get32 d (4 * j) in
       when (negb (a =? 0)) (bfree dev a)) ;;
     fs_brelse bp ;;
     bfree dev ind ;;
     set_addr ip NDIRECT 0) ;;
  updi ip (upd_i_size (fun _ => 0)) ;;
  iupdate ip.

Definition iput (ip : nat) : M fs unit :=
  zoom (inode_sl ip) (acquiresleep (inode_chan ip)) ;;
  x ← geti ip id;
  when (negb (i_valid x =? 0) && (i_nlink x =? 0))
    (acquire_flag iclock ;;
     r ← geti ip i_ref;
     release_flag iclock ;;
     when (r =? 1)
       (itrunc ip ;;
        updi ip (upd_i_type (fun _ => 0)) ;;
        iupdate ip ;;
        updi ip (upd_i_valid (fun _ => 0)))) ;;
  zoom (inode_sl ip) (releasesleep (inode_chan ip)) ;;
  acquire_flag iclock ;;
  updi ip (upd_i_ref (fun n => s32 (n - 1))) ;;
  release_flag iclock.

Definition iunlockput (ip : nat) : M fs unit :=
  iunlock (Some ip) ;;
  iput ip.

(** ** Inode content *)
Definition bmap (ip : nat) (bn : Z) : M fs Z :=
  dev ← geti ip i_dev;
  if bn <? Z.of_nat NDIRECT then
    addr ← get_addr ip (Z.to_nat bn);
    if addr =? 0 then
      addr ← balloc dev;
      set_addr ip (Z.to_nat bn) addr ;;
      ret addr
    else ret addr
  else
    let bn := bn - Z.of_nat NDIRECT in
    if bn <? Z.of_nat NINDIRECT then
      addr ← get_addr ip NDIRECT;
      addr ← (if addr =? 0 then
                addr ← balloc dev;
                set_addr ip NDIRECT addr ;;
                ret addr
              else ret addr);
      bp ← fs_bread dev addr;
      d ← fs_data bp;
      let addr := get32 d (4 * Z.to_nat bn) in
      addr ← (if addr =? 0 then
                addr ← balloc dev;
                fs_set_data bp (put32 (4 * Z.to_nat bn) addr) ;;
                fs_log_write bp ;;
                ret addr
              else ret addr);
      fs_brelse bp ;;
      ret addr
    else panic "bmap: out of range".

Definition stati (ip : nat) : M fs stat :=
  geti ip (fun x => Stat (i_type x) (i_dev x) (i_inum x) (i_nlink x) (i_size x)).

(** The loops of [readi] and [writei] for [fuel] rounds. *)
Definition bs : Z := Z.of_nat BSIZE.

Fixpoint readi_loop (fuel : nat) (ip : nat) (off tot n : Z) : M fs (list Z) :=
  match fuel with
  | O => panic "readi: out of fuel"
  | S k =>
      if tot <? n then
        dev ← geti ip i_dev;
        b ← bmap ip (off / bs);
        bp ← fs_bread dev b;
        let m := Z.min (n - tot) (bs - off mod bs) in
        d ← fs_data bp;
        let chunk := get_bytes (Z.to_nat (off mod bs)) (Z.to_nat m) d in
        fs_brelse bp ;;
        rest ← readi_loop k ip (u32 (off + m)) (u32 (tot + m)) n;
        ret (chunk ++ rest)
      else ret []
  end.

Fixpoint writei_loop (fuel : nat) (ip : nat) (src : list Z) (off tot n : Z) : M fs Z :=
  match fuel with
  | O => panic "writei: out of fuel"
  | S k =>
      if tot <? n then
        dev ← geti ip i_dev;
        b ← bmap ip (off / bs);
        bp ← fs_bread dev b;
        let m := Z.min (n - tot) (bs - off mod bs) in
        fs_set_data bp (put_bytes (Z.to_nat (off mod bs)) (take (Z.to_nat m) src)) ;;
        fs_log_write bp ;;
        fs_brelse bp ;;
        writei_loop k ip (drop (Z.to_nat m) src) (u32 (off + m)) (u32 (tot + m)) n
      else ret off
  end.

(** Each round but the first ends at a block boundary. *)
Definition io_fuel (n : Z) : nat := Z.to_nat (n / bs + 3).

(** [devsw]: the read and write functions of a device, by major number. *)
Record devops : Type := Devops {
  dev_read : option (nat -> Z -> M fs (Z * list Z));
  dev_write : option (nat -> list Z -> Z -> M fs Z);
}.

Context (devsw : Z -> devops).

(** [readi(ip, dst, off, n)]: the return value and the bytes stored at [dst] *)
Definition readi (ip : nat) (off n : Z) : M fs (Z * list Z) :=
  x ← geti ip id;
  if i_type x =? T_DEV then
    if (i_major x <? 0) || (NDEV <=? i_major x) then ret (-1, [])
    else match dev_read (devsw (i_major x)) with
         | None => ret (-1, [])
         | Some f => f ip n
         end
  else if (i_size x <? off) || (u32 (off + n) <? off) then ret (-1, [])
  else
    let n := if i_size x <? u32 (off + n) then u32 (i_size x - off) else n in
    d ← readi_loop (io_fuel n) ip off 0 n;
    ret (s32 n, d).

(** [writei(ip, src, off, n)] *)
Definition writei (ip : nat) (src : list Z) (off n : Z) : M fs Z :=
  x ← geti ip id;
  if i_type x =? T_DEV then
    if (i_major x <? 0) || (NDEV <=? i_major x) then ret (-1)
    else match dev_write (devsw (i_major x)) with
         | None => ret (-1)
         | Some f => f ip src n
         end
  else if (i_size x <? off) || (u32 (off + n) <? off) then ret (-1)
  else if MAXFILE * bs <? u32 (off + n) then ret (-1)
  else
    off ← writei_loop (io_fuel n) ip src off 0 n;
    size ← geti ip i_size;
    when ((0 <? n) && (size <? off))
      (updi ip (upd_i_size (fun _ => off)) ;;
       iupdate ip) ;;
    ret (s32 n).

(** ** Directories *)

(** The loop of [dirlookup] for [fuel] entries from [off]. *)
Fixpoint dirlookup_loop (fuel : nat) (dp : nat) (name : list Z) (off : Z) : M fs (option (nat * Z)) :=
  match fuel with
  | O => panic "dirlookup: out of fuel"
  | S k =>
      size ← geti dp i_size;
      if off <? size then
        r ← readi dp off sizeof_dirent;
        panic_if (negb (r.1 =? sizeof_dirent)) "dirlookup read" ;;
        if de_inum r.2 =? 0 then dirlookup_loop k dp name (u32 (off + sizeof_dirent))
        else if namecmp name (de_name r.2) =? 0 then
          dev ← geti dp i_dev;
          ip ← iget dev (de_inum r.2);
          ret (Some (ip, off))
        else dirlookup_loop k dp name (u32 (off + sizeof_dirent))
      else ret None
  end.

Definition dir_fuel (size : Z) : nat := Z.to_nat (size / sizeof_dirent + 2).

(** The inode found, with the offset [*poff] of its entry. *)
Definition dirlookup (dp : nat) (name : list Z) : M fs (option (nat * Z)) :=
  x ← geti dp id;
  panic_if (negb (i_type x =? T_DIR)) "dirlookup not DIR" ;;
  dirlookup_loop (dir_fuel (i_size x)) dp name 0.

(** The search for an empty entry in [dirlink]. *)
Fixpoint free_entry (fuel : nat) (dp : nat) (off : Z) : M fs Z :=
  match fuel with
  | O => panic "dirlink: out of fuel"
  | S k =>
      size ← geti dp i_size;
      if u32 off <? size then
        r ← readi dp (u32 off) sizeof_dirent;
        panic_if (negb (r.1 =? sizeof_dirent)) "dirlink read" ;;
        if de_inum r.2 =? 0 then ret off else free_entry k dp (s32 (off + sizeof_dirent))
      else ret off
  end.

Definition dirlink (dp : nat) (name : list Z) (inum : Z) : M fs Z :=
  found ← dirlookup dp name;
  match found with
  | Some (ip, _) =>
      iput ip ;;
      ret (-1)
  | None =>
      size ← geti dp i_size;
      off ← free_entry (dir_fuel size) dp 0;
      r ← writei dp (mk_dirent inum name) (u32 off) sizeof_dirent;
      panic_if (negb (r =? sizeof_dirent)) "dirlink" ;;
      ret 0
  end.

(** ** Paths *)

(** The [while] of [namex]; the last component of the result is the buffer [name]. *)
Fixpoint namex_loop (fuel : nat) (nameiparent : bool) (ip : nat) (path name : list Z)
    : M fs (option nat * list Z) :=
  match fuel with
  | O => panic "namex: out of fuel"
  | S k =>
      match skipelem path name with
      | None =>
          if nameiparent then
            iput ip ;;
            ret (None, name)
          else ret (Some ip, name)
      | Some (path, name) =>
          ilock (Some ip) ;;
          t ← geti ip i_type;
          if negb (t =? T_DIR) then
            iunlockput ip ;;
            ret (None, name)
          else if nameiparent && at_end path then
            iunlock (Some ip) ;;
            ret (Some ip, name)
          else
            next ← dirlookup ip name;
            match next with
            | None =>
                iunlockput ip ;;
                ret (None, name)
            | Some (next, _) =>
                iunlockput ip ;;
                namex_loop k nameiparent next path name
            end
      end
  end.

(** [cwd]: the inode [myproc()->cwd] *)
Definition namex (cwd : nat) (path : list Z) (nameiparent : bool) (name : list Z) : M fs (option nat * list Z) :=
  ip ← (if default 0 (head path) =? slash then iget ROOTDEV ROOTINO else idup cwd);
  namex_loop (S (length path)) nameiparent ip path name.

(** The local buffer [char name[DIRSIZ]] of [namei] holds arbitrary bytes. *)
Definition namei (cwd : nat) (path buffer : list Z) : M fs (option nat) :=
  r ← namex cwd path false buffer;
  ret r.1.

Definition nameiparent (cwd : nat) (path name : list Z) : M fs (option nat * list Z) :=
  namex cwd path true name.

End Fs.

Arguments fs T : clear implicits.
