(* ===== verification/FsAlloc.v ===== *)
(** * The block allocator of fs.c

    Rules for the block operations of fs.c over any transactional block store,
    and the correctness of [balloc] and [bfree]: the bitmap on disk is the set of
    allocated blocks. *)
From S2P Require Import Prelude Block Log Tx Sleeplock Fs.

(** A block rewritten and logged. *)
Definition tv_write (b : Z) (d : block) (v : tview) : tview :=
  TView (tv_n v) (upd_fn (tv_blk v) b d) ({[b]} ∪ tv_logged v) (tv_limit v) (tv_held v) (tv_mod v).

Section Rules.
Context {T : Type} {HT : TxBlocks T} {HTL : TxBlocksLaws T}.
Implicit Types (s : fs T) (v : tview).

(** The file-system state [s] over the blocks [t]. *)
Definition on_tx s (t : T) : fs T := Fs (ic_lock s) (inodes s) (fsb s) t.

Lemma wp_tx {A} (m : M T A) (Q : A -> fs T -> Prop) s :
  wp m (fun a t => Q a (on_tx s t)) (ftx s) -> wp (zoom tx_lens m) Q s.
Proof. unfold wp, zoom. simpl. by destruct (m (ftx s)) as [[] ?]. Qed.

Lemma wp_fs_bread s v b (Q : nat -> fs T -> Prop) :
  tabs (ftx s) v -> 0 <= b < tv_n v -> b ∉ tv_held v -> tv_avail b v ->
  (forall i t, tabs t (tv_hold b v) -> thandle t i b -> tkeeps (ftx s) t -> Q i (on_tx s t)) ->
  wp (fs_bread 1 b) Q s.
Proof.
  intros Ha Hb Hh Hav HQ. pose proof (tx_size _ _ Ha). apply wp_tx.
  rewrite (u32_small 1), (u32_small b) by lia. eapply wp_mono; [by eapply tx_bread_law|].
  intros i t (H1 & H2 & H3). by apply HQ.
Qed.

Lemma wp_fs_data s v i b (Q : block -> fs T -> Prop) :
  tabs (ftx s) v -> thandle (ftx s) i b -> Q (tv_blk v b) s -> wp (fs_data i) Q s.
Proof. intros Ha Hh HQ. apply wp_gets. by rewrite (tx_data_law _ _ _ _ Ha Hh). Qed.

Lemma wp_fs_set_data s v i b f (Q : unit -> fs T -> Prop) :
  tabs (ftx s) v -> thandle (ftx s) i b ->
  (forall t, tabs t (tv_put b (f (tv_blk v b)) v) -> tkeeps (ftx s) t -> Q tt (on_tx s t)) ->
  wp (fs_set_data i f) Q s.
Proof.
  intros Ha Hh HQ. apply wp_tx. eapply wp_mono; [by eapply tx_set_data_law|]. intros [] t [H1 H2]. by apply HQ.
Qed.

Lemma wp_fs_log_write s v i b (Q : unit -> fs T -> Prop) :
  tabs (ftx s) v -> thandle (ftx s) i b -> (size (tv_logged v) < tv_limit v)%nat ->
  (forall t, tabs t (tv_record b v) -> tkeeps (ftx s) t -> Q tt (on_tx s t)) ->
  wp (fs_log_write i) Q s.
Proof.
  intros Ha Hh Hr HQ. apply wp_tx. eapply wp_mono; [by eapply tx_log_write_law|]. intros [] t [H1 H2]. by apply HQ.
Qed.

Lemma wp_fs_brelse s v i b (Q : unit -> fs T -> Prop) :
  tabs (ftx s) v -> thandle (ftx s) i b -> b ∉ tv_mod v ->
  (forall t, tabs t (tv_drop b v) -> (forall j x, x <> b -> thandle (ftx s) j x -> thandle t j x) ->
     Q tt (on_tx s t)) ->
  wp (fs_brelse i) Q s.
Proof.
  intros Ha Hh Hm HQ. apply wp_tx. eapply wp_mono; [by eapply tx_brelse_law|]. intros [] t [H1 H2]. by apply HQ.
Qed.

Lemma drop_hold t b v : tabs t (tv_drop b (tv_hold b v)) -> b ∉ tv_held v -> tabs t v.
Proof. intros H Hb. eapply tabs_ext; [exact H|done..| |done|done]. simpl. set_solver. Qed.

(** The buffers held in [v] stay held. *)
Definition hkeeps v (t t' : T) : Prop := forall j x, x ∈ tv_held v -> thandle t j x -> thandle t' j x.

Lemma hkeeps_refl v t : hkeeps v t t.
Proof. by intros j x. Qed.

Lemma hkeeps_trans v t1 t2 t3 : hkeeps v t1 t2 -> hkeeps v t2 t3 -> hkeeps v t1 t3.
Proof. intros H1 H2 j x Hx Hj. by apply H2, H1. Qed.

Lemma tkeeps_hkeeps v t t' : tkeeps t t' -> hkeeps v t t'.
Proof. intros H j x _. apply H. Qed.

(** Release a buffer that was only read. *)
Lemma wp_release_read s v i b (Q : unit -> fs T -> Prop) :
  tabs (ftx s) (tv_hold b v) -> thandle (ftx s) i b -> b ∉ tv_held v -> b ∉ tv_mod v ->
  (forall t, tabs t v -> hkeeps v (ftx s) t -> Q tt (on_tx s t)) ->
  wp (fs_brelse i) Q s.
Proof.
  intros Ha Hh Hb Hm HQ. eapply wp_fs_brelse; [done..|]. intros t Ht Hk. apply HQ; [by eapply drop_hold|].
  intros j x Hx. apply Hk. set_solver.
Qed.

(** Change the data of a held buffer, log it and release it. *)
Lemma wp_commit_buf s v i b f (Q : unit -> fs T -> Prop) :
  tabs (ftx s) (tv_hold b v) -> thandle (ftx s) i b -> b ∉ tv_held v -> b ∉ tv_mod v ->
  (size (tv_logged v) < tv_limit v)%nat ->
  (forall t, tabs t (tv_write b (f (tv_blk v b)) v) -> hkeeps v (ftx s) t -> Q tt (on_tx s t)) ->
  wp (fs_set_data i f ;; fs_log_write i ;; fs_brelse i) Q s.
Proof.
  intros Ha Hh Hb Hm Hr HQ. apply wp_bind. eapply wp_fs_set_data; [done..|]. intros t1 H1 K1.
  apply wp_bind. eapply wp_fs_log_write; [done|by apply K1|done|]. intros t2 H2 K2.
  eapply wp_fs_brelse; [done|by apply K2, K1|simpl; set_solver|]. intros t3 H3 K3.
  apply HQ; [|intros j x Hx Hj; apply K3; [set_solver|by apply K2, K1]].
  eapply tabs_ext; [exact H3|done..| | |done]; simpl; set_solver.
Qed.

(** The same in front of a continuation. *)
Lemma wp_commit_buf_k {A} s v i b f (k : M (fs T) A) (Q : A -> fs T -> Prop) :
  tabs (ftx s) (tv_hold b v) -> thandle (ftx s) i b -> b ∉ tv_held v -> b ∉ tv_mod v ->
  (size (tv_logged v) < tv_limit v)%nat ->
  (forall t, tabs t (tv_write b (f (tv_blk v b)) v) -> hkeeps v (ftx s) t -> wp k Q (on_tx s t)) ->
  wp (fs_set_data i f ;; fs_log_write i ;; fs_brelse i ;; k) Q s.
Proof.
  intros Ha Hh Hb Hm Hr HQ.
  assert (wp (bind (fs_set_data i f ;; fs_log_write i ;; fs_brelse i) (fun _ => k)) Q s) as H.
  { apply wp_bind. by eapply wp_commit_buf. }
  unfold wp in *. rewrite bind_assoc in H. unfold bind at 1. unfold bind at 1 in H.
  destruct (fs_set_data i f s) as [[] s']; [|done|done]. by rewrite bind_assoc in H.
Qed.

Lemma wp_bzero s v b (Q : unit -> fs T -> Prop) :
  tabs (ftx s) v -> 0 <= b < tv_n v -> b ∉ tv_held v -> b ∉ tv_mod v -> tv_avail b v ->
  (size (tv_logged v) < tv_limit v)%nat ->
  (forall t, tabs t (tv_write b zero_block v) -> hkeeps v (ftx s) t -> Q tt (on_tx s t)) ->
  wp (bzero 1 b) Q s.
Proof.
  intros Ha Hb Hh Hm Hav Hr HQ. unfold bzero. apply wp_bind. eapply wp_fs_bread; [done..|].
  intros i t Ht Hi Hk. eapply (wp_commit_buf _ v); [exact Ht|done..|]. intros t' Ht' Hk'.
  apply HQ; [done|]. eapply hkeeps_trans; [by apply tkeeps_hkeeps|exact Hk'].
Qed.

End Rules.

(** ** The bitmap *)
Definition bit_at (sb : superblock) (D : Z -> block) (x : Z) : bool :=
  Z.testbit (get8 (D (BBLOCK x sb)) (Z.to_nat (x mod BPB / 8))) (x mod 8).

Lemma land_mask x bi : (Z.land x (bit_mask bi) =? 0) = negb (Z.testbit x (bi mod 8)).
Proof.
  unfold bit_mask. pose proof (Z.mod_pos_bound bi 8 ltac:(lia)). set (k := bi mod 8) in *.
  rewrite Z.shiftl_1_l. destruct (Z.testbit x k) eqn:E; simpl.
  - apply Z.eqb_neq. intros H0. assert (Z.testbit (Z.land x (2 ^ k)) k = true) as H1.
    { by rewrite Z.land_spec, E, Z.pow2_bits_true by lia. }
    by rewrite H0, Z.bits_0 in H1.
  - apply Z.eqb_eq. apply Z.bits_inj'. intros n Hn. rewrite Z.land_spec, Z.pow2_bits_eqb, Z.bits_0 by lia.
    destruct (Z.eqb_spec k n) as [<-|]; [by rewrite E|by rewrite andb_false_r].
Qed.

(** The blocks the allocator works on. *)
Record alloc_wf (sb : superblock) (v : tview) : Prop := {
  aw_size : 0 < sb_size sb <= tv_n v;
  aw_bmap : 0 <= sb_bmapstart sb /\ sb_bmapstart sb + (sb_size sb - 1) / BPB < tv_n v;
  aw_len : forall b, 0 <= b < tv_n v -> length (tv_blk v b) = BSIZE;
  aw_meta : forall x y, 0 <= x < sb_size sb -> 0 <= y < sb_size sb ->
    bit_at sb (tv_blk v) x = false -> x <> BBLOCK y sb;
}.

Lemma bblock_range sb v x : alloc_wf sb v -> tv_n v <= 2147483648 -> 0 <= x < sb_size sb ->
  BBLOCK x sb = x / BPB + sb_bmapstart sb /\ 0 <= BBLOCK x sb < tv_n v.
Proof.
  intros [Hs Hb _ _] Hn Hx. unfold BBLOCK, BPB in *.
  assert (x / 4096 <= (sb_size sb - 1) / 4096) by (apply Z.div_le_mono; lia).
  assert (0 <= x / 4096) by (apply Z.div_pos; lia). rewrite u32_small by lia. lia.
Qed.

(** Two blocks with the same place in the bitmap are the same. *)
Lemma bit_place x y : 0 <= x -> 0 <= y -> x / BPB = y / BPB ->
  x mod BPB / 8 = y mod BPB / 8 -> x mod 8 = y mod 8 -> x = y.
Proof. unfold BPB. intros. zdm. Qed.

Lemma testbit_byte_set d x y (f : Z -> Z) (val : bool) sb D :
  length (D (BBLOCK x sb)) = BSIZE -> 0 <= x -> 0 <= y ->
  (BBLOCK x sb = BBLOCK y sb -> x / BPB = y / BPB) ->
  d = set_byte (x mod BPB / 8) f (D (BBLOCK x sb)) ->
  (forall b k, 0 <= k < 8 -> Z.testbit (f b) k = if k =? x mod 8 then val else Z.testbit b k) ->
  bit_at sb (upd_fn D (BBLOCK x sb) d) y = if y =? x then val else bit_at sb D y.
Proof.
  intros Hlen Hx Hy Hinj -> Hf. unfold bit_at, upd_fn. case_decide as E.
  - specialize (Hinj E). unfold set_byte. rewrite <- E.
    assert (0 <= x mod BPB / 8 < 512) by (unfold BPB; zdm).
    assert (0 <= y mod BPB / 8 < 512) by (unfold BPB; zdm).
    destruct (decide (x mod BPB / 8 = y mod BPB / 8)) as [E8|Hne].
    + rewrite <- E8. unfold get8 at 1. rewrite list_lookup_insert_eq by (rewrite Hlen; unfold BSIZE; lia).
      simpl. rewrite Hf by (apply Z.mod_pos_bound; lia).
      destruct (Z.eqb_spec y x) as [->|Hxy]; [by rewrite Z.eqb_refl|].
      destruct (Z.eqb_spec (y mod 8) (x mod 8)) as [Em|]; [|done].
      destruct Hxy. symmetry. by apply bit_place.
    + unfold get8 at 1. rewrite list_lookup_insert_ne by lia.
      destruct (Z.eqb_spec y x) as [->|]; [done|done].
  - destruct (Z.eqb_spec y x) as [->|]; [done|done].
Qed.

Lemma mask_set b bi k : 0 <= k -> Z.testbit (Z.lor b (bit_mask bi)) k = if k =? bi mod 8 then true else Z.testbit b k.
Proof.
  intros Hk. pose proof (Z.mod_pos_bound bi 8 ltac:(lia)). unfold bit_mask.
  rewrite Z.lor_spec, Z.shiftl_1_l, Z.pow2_bits_eqb by lia. rewrite Z.eqb_sym.
  destruct (k =? bi mod 8); [apply orb_true_r|apply orb_false_r].
Qed.

Lemma mask_clear b bi k : 0 <= k -> Z.testbit (Z.ldiff b (bit_mask bi)) k = if k =? bi mod 8 then false else Z.testbit b k.
Proof.
  intros Hk. pose proof (Z.mod_pos_bound bi 8 ltac:(lia)). unfold bit_mask.
  rewrite Z.ldiff_spec, Z.shiftl_1_l, Z.pow2_bits_eqb by lia. rewrite (Z.eqb_sym (bi mod 8)).
  destruct (k =? bi mod 8); simpl; [apply andb_false_r|apply andb_true_r].
Qed.

(** Marking block [x] in the bitmap. *)
Definition mark (sb : superblock) (D : Z -> block) (x : Z) : block :=
  set_byte (x mod BPB / 8) (fun y => Z.lor y (bit_mask (x mod BPB))) (D (BBLOCK x sb)).

Definition unmark (sb : superblock) (D : Z -> block) (x : Z) : block :=
  set_byte (x mod BPB / 8) (fun y => Z.ldiff y (bit_mask (x mod BPB))) (D (BBLOCK x sb)).

Lemma mod_8_4096 x : x mod BPB mod 8 = x mod 8.
Proof. unfold BPB. zdm. Qed.

Lemma bblock_inj sb v x y : alloc_wf sb v -> tv_n v <= 2147483648 -> 0 <= x < sb_size sb -> 0 <= y < sb_size sb ->
  BBLOCK x sb = BBLOCK y sb -> x / BPB = y / BPB.
Proof.
  intros Hw Hn Hx Hy E. destruct (bblock_range sb v x Hw Hn Hx) as [E1 _].
  destruct (bblock_range sb v y Hw Hn Hy) as [E2 _]. lia.
Qed.

Lemma mark_bit sb v x y : alloc_wf sb v -> tv_n v <= 2147483648 -> 0 <= x < sb_size sb -> 0 <= y < sb_size sb ->
  bit_at sb (upd_fn (tv_blk v) (BBLOCK x sb) (mark sb (tv_blk v) x)) y =
  if y =? x then true else bit_at sb (tv_blk v) y.
Proof.
  intros Hw Hn Hx Hy. destruct (bblock_range sb v x Hw Hn Hx) as [_ Hr].
  eapply testbit_byte_set; [by apply (aw_len _ _ Hw)|lia|lia|by apply (bblock_inj sb v)|reflexivity|].
  intros b k Hk. cbv beta. rewrite mask_set by lia. by rewrite mod_8_4096.
Qed.

Lemma unmark_bit sb v x y : alloc_wf sb v -> tv_n v <= 2147483648 -> 0 <= x < sb_size sb -> 0 <= y < sb_size sb ->
  bit_at sb (upd_fn (tv_blk v) (BBLOCK x sb) (unmark sb (tv_blk v) x)) y =
  if y =? x then false else bit_at sb (tv_blk v) y.
Proof.
  intros Hw Hn Hx Hy. destruct (bblock_range sb v x Hw Hn Hx) as [_ Hr].
  eapply testbit_byte_set; [by apply (aw_len _ _ Hw)|lia|lia|by apply (bblock_inj sb v)|reflexivity|].
  intros b k Hk. cbv beta. rewrite mask_clear by lia. by rewrite mod_8_4096.
Qed.

Lemma size_add (b : Z) (X : gset Z) : (size ({[b]} ∪ X) <= S (size X))%nat.
Proof.
  rewrite size_union_alt, size_singleton. pose proof (subseteq_size (X ∖ {[b]}) X ltac:(set_solver)). lia.
Qed.

(** The view after block [x] has been allocated. *)
Definition allocated (sb : superblock) (x : Z) (v : tview) : tview :=
  tv_write x zero_block (tv_write (BBLOCK x sb) (mark sb (tv_blk v) x) v).

Section Balloc.
Context {T : Type} {HT : TxBlocks T} {HTL : TxBlocksLaws T}.
Implicit Types (s : fs T) (v : tview).

(** Buffers and log space for [k] more blocks. *)
Definition room (k : nat) v : Prop :=
  ((size (tv_logged v) + k <= tv_limit v)%nat) /\ ((size (tv_logged v ∪ tv_held v) + k <= tx_cap)%nat).

(** A block that is neither held nor changed without being logged. *)
Definition quiet v (b : Z) : Prop := (b ∉ tv_held v) /\ (b ∉ tv_mod v).

Record can_alloc (sb : superblock) v : Prop := {
  ca_wf : alloc_wf sb v;
  ca_n : tv_n v <= 2147483648;
  ca_bmap : forall x, 0 <= x < sb_size sb -> quiet v (BBLOCK x sb);
  ca_free : forall x, 0 <= x < sb_size sb -> bit_at sb (tv_blk v) x = false -> quiet v x;
}.

Lemma room_avail k v b : room (S k) v -> tv_avail b v.
Proof. intros [_ H]. right. lia. Qed.

Lemma room_write b d k v : room (S k) v -> room k (tv_write b d v).
Proof.
  intros [H1 H2]. unfold room. simpl. split.
  - pose proof (size_add b (tv_logged v)). lia.
  - replace ({[b]} ∪ tv_logged v ∪ tv_held v) with ({[b]} ∪ (tv_logged v ∪ tv_held v)) by set_solver.
    pose proof (size_add b (tv_logged v ∪ tv_held v)). lia.
Qed.

(** The scan of one bitmap block, from bit [0] of block [b] on. *)
Lemma wp_scan_block s v b i (Q : option Z -> fs T -> Prop) :
  can_alloc (fsb s) v -> room 2 v -> 0 <= b < sb_size (fsb s) -> b mod BPB = 0 ->
  tabs (ftx s) (tv_hold (BBLOCK b (fsb s)) v) -> thandle (ftx s) i (BBLOCK b (fsb s)) ->
  (forall x t, b <= x < b + Z.min BPB (sb_size (fsb s) - b) -> bit_at (fsb s) (tv_blk v) x = false ->
     (forall y, b <= y < x -> bit_at (fsb s) (tv_blk v) y = true) ->
     tabs t (allocated (fsb s) x v) -> hkeeps v (ftx s) t -> Q (Some x) (on_tx s t)) ->
  ((forall y, b <= y < b + Z.min BPB (sb_size (fsb s) - b) -> bit_at (fsb s) (tv_blk v) y = true) -> Q None s) ->
  wp (for_until (seqZ 0 (Z.min BPB (sb_size (fsb s) - b))) (fun bi =>
      d ← fs_data i;
      let m := bit_mask bi in
      if Z.land (get8 d (Z.to_nat (bi / 8))) m =? 0 then
        fs_set_data i (set_byte (bi / 8) (fun x => Z.lor x m)) ;;
        fs_log_write i ;;
        fs_brelse i ;;
        bzero 1 (b + bi) ;;
        ret (Some (b + bi))
      else ret None)) Q s.
Proof.
  intros Hca Hroom Hb Hb0 Ha Hi HS HN. set (sb := fsb s) in *. set (len := Z.min BPB (sb_size sb - b)) in *.
  destruct Hca as [Hwf Hn Hq Hfr].
  eapply (wp_for_until _ _ (fun l s' => s' = s /\ exists j, 0 <= j /\ l = seqZ j (len - j) /\
    forall y, b <= y < b + j -> bit_at sb (tv_blk v) y = true)).
  - split; [done|]. exists 0. rewrite Z.sub_0_r. split_and!; [done..|lia].
  - intros bi l s' [-> (j & Hj & El & Hall)].
    assert (0 < len - j) as Hlt.
    { destruct (decide (0 < len - j)); [done|]. by rewrite seqZ_nil in El by lia. }
    rewrite seqZ_cons in El by lia. injection El as -> ->.
    assert (0 <= j < BPB /\ b + j < sb_size sb) as [Hj1 Hj2] by (unfold len in Hlt; lia).
    assert ((b + j) / BPB = b / BPB /\ (b + j) mod BPB = j) as [Ediv Emod] by (unfold BPB in *; split; zdm).
    assert (BBLOCK b sb = BBLOCK (b + j) sb) as Ebb by (unfold BBLOCK; by rewrite Ediv).
    assert (Z.testbit (get8 (tv_blk v (BBLOCK b sb)) (Z.to_nat (j / 8))) (j mod 8) = bit_at sb (tv_blk v) (b + j)) as Ebit.
    { unfold bit_at. rewrite <- Ebb, Emod. f_equal. by rewrite <- (mod_8_4096 (b + j)), Emod. }
    apply wp_bind. eapply wp_fs_data; [done..|]. cbv zeta. rewrite land_mask. cbn [tv_blk tv_hold]. rewrite Ebit.
    destruct (bit_at sb (tv_blk v) (b + j)) eqn:Eb; simpl.
    + apply wp_ret. split; [done|]. exists (j + 1). split; [lia|]. split; [f_equal; lia|].
      intros y Hy. destruct (decide (y = b + j)) as [->|]; [done|]. apply Hall. lia.
    + destruct (Hq (b + j) ltac:(lia)) as [Q1 Q2]. rewrite <- Ebb in Q1, Q2.
      destruct (Hfr (b + j) ltac:(lia) Eb) as [F1 F2].
      eapply (wp_commit_buf_k _ v); [done|done|done|done|destruct Hroom; lia|]. intros t Ht Hk. apply wp_bind.
      eapply (wp_bzero _ (tv_write (BBLOCK b sb) _ v)); [exact Ht|simpl; pose proof (aw_size _ _ Hwf); lia|done|done| | |].
      * eapply (room_avail 0). by eapply (room_write _ _ 1).
      * destruct (room_write (BBLOCK b sb) zero_block 1 v Hroom) as [R1 _]. simpl in *. lia.
      * intros t' Ht' Hk'. apply wp_ret. apply HS; [lia|done|intros y Hy; apply Hall; lia| |].
        -- unfold allocated, mark. by rewrite <- Ebb, Emod.
        -- by eapply hkeeps_trans.
  - intros s' [-> (j & Hj & El & Hall)]. apply HN. intros y Hy. apply Hall.
    destruct (decide (0 < len - j)); [|lia]. by rewrite seqZ_cons in El by lia.
Qed.

(** The loop of [balloc] over the bitmap blocks. *)
Definition balloc_loop (dev size : Z) : M (fs T) (option Z) :=
  for_until (bitmap_starts size) (fun b =>
    sb ← gets fsb;
    bp ← fs_bread dev (BBLOCK b sb);
    found ← for_until (seqZ 0 (Z.min BPB (size - b))) (fun bi =>
      d ← fs_data bp;
      let m := bit_mask bi in
      if Z.land (get8 d (Z.to_nat (bi / 8))) m =? 0 then
        fs_set_data bp (set_byte (bi / 8) (fun x => Z.lor x m)) ;;
        fs_log_write bp ;;
        fs_brelse bp ;;
        bzero dev (b + bi) ;;
        ret (Some (b + bi))
      else ret None);
    match found with
    | Some x => ret (Some x)
    | None => fs_brelse bp ;; ret None
    end).

Lemma wp_balloc_loop s v (Q : option Z -> fs T -> Prop) :
  can_alloc (fsb s) v -> room 2 v -> tabs (ftx s) v ->
  (forall x t, 0 <= x < sb_size (fsb s) -> bit_at (fsb s) (tv_blk v) x = false ->
     (forall y, 0 <= y < x -> bit_at (fsb s) (tv_blk v) y = true) ->
     tabs t (allocated (fsb s) x v) -> hkeeps v (ftx s) t -> Q (Some x) (on_tx s t)) ->
  (forall t, (forall y, 0 <= y < sb_size (fsb s) -> bit_at (fsb s) (tv_blk v) y = true) -> Q None (on_tx s t)) ->
  wp (balloc_loop 1 (sb_size (fsb s))) Q s.
Proof.
  intros Hca Hroom Ha HS HN. pose proof Hca as [Hwf Hn Hq _]. set (sb := fsb s) in *.
  set (N := (sb_size sb + BPB - 1) / BPB).
  assert (forall k, 0 <= k < N -> 0 <= k * BPB < sb_size sb) as Hstart by (unfold N, BPB; intros; zdm).
  assert (sb_size sb <= N * BPB) as HN2 by (unfold N, BPB; zdm).
  eapply (wp_for_until _ _ (fun l s' => exists t k, s' = on_tx s t /\ tabs t v /\ hkeeps v (ftx s) t /\ 0 <= k /\
    l = (fun k => k * BPB) <$> seqZ k (N - k) /\
    forall y, 0 <= y < sb_size sb -> y < k * BPB -> bit_at sb (tv_blk v) y = true)).
  - exists (ftx s), 0. split_and!; [by destruct s|done|apply hkeeps_refl|done|by rewrite Z.sub_0_r|lia].
  - intros b l s' (t & k & -> & Ht & Hk & Hk0 & El & Hall).
    destruct (decide (0 < N - k)); [|by rewrite seqZ_nil in El by lia].
    rewrite seqZ_cons in El by lia. injection El as -> ->. pose proof (Hstart k ltac:(lia)) as Hkb.
    assert (k * BPB mod BPB = 0) as Hmod by (apply Z.mod_mul; done).
    destruct (bblock_range sb v _ Hwf Hn Hkb) as [_ Hbr]. destruct (Hq _ Hkb) as [Q1 Q2].
    apply wp_bind, wp_gets, wp_bind. eapply wp_fs_bread; [done..|by eapply room_avail|].
    intros i t1 H1 Hi1 K1. apply wp_bind.
    eapply (wp_scan_block (on_tx s t1) v); [exact Hca|done|done|done|exact H1|exact Hi1| |].
    + intros x t2 Hx Hf Hlow H2 K2. change (fsb (on_tx s t1)) with sb in *. apply wp_ret. apply HS; [lia|done| |done|].
      * intros y Hy. destruct (decide (y < k * BPB)); [apply Hall; lia|apply Hlow; lia].
      * eapply hkeeps_trans; [exact Hk|]. eapply hkeeps_trans; [by eapply tkeeps_hkeeps|exact K2].
    + intros Hfull. apply wp_bind. eapply (wp_release_read _ v); [done|done|done|done|]. intros t2 H2 K2.
      apply wp_ret. exists t2, (k + 1). split_and!; [done|done| |lia| |].
      * eapply hkeeps_trans; [exact Hk|]. eapply hkeeps_trans; [by eapply tkeeps_hkeeps|exact K2].
      * do 2 f_equal; lia.
      * intros y Hy Hy2. destruct (decide (y < k * BPB)); [by apply Hall|]. apply Hfull. simpl. fold sb. lia.
  - intros s' (t & k & -> & Ht & Hk & Hk0 & El & Hall). apply HN. intros y Hy. apply Hall; [done|].
    destruct (decide (0 < N - k)); [by rewrite seqZ_cons in El by lia|]. unfold BPB in *. lia.
Qed.

Lemma wp_balloc s v (Q : Z -> fs T -> Prop) :
  can_alloc (fsb s) v -> room 2 v -> tabs (ftx s) v ->
  (exists x, 0 <= x < sb_size (fsb s) /\ bit_at (fsb s) (tv_blk v) x = false) ->
  (forall x t, 0 <= x < sb_size (fsb s) -> bit_at (fsb s) (tv_blk v) x = false ->
     (forall y, 0 <= y < x -> bit_at (fsb s) (tv_blk v) y = true) ->
     tabs t (allocated (fsb s) x v) -> hkeeps v (ftx s) t -> Q x (on_tx s t)) ->
  wp (balloc 1) Q s.
Proof.
  intros Hca Hr Ha (x0 & Hx0 & Hf0) HQ. unfold balloc. apply wp_bind, wp_gets, wp_bind.
  eapply wp_balloc_loop; [done..| |].
  - intros x t Hx Hf Hlow Ht Hk. apply wp_ret. by apply HQ.
  - intros t Hfull. rewrite Hfull in Hf0; [done|lia].
Qed.

(** [balloc] returns the first free block of the bitmap: it is marked
    allocated and filled with zeros, no other bit and no block outside of the
    bitmap changes, and exactly these blocks are added to the transaction; when
    no block is free, it panics. *)
Theorem balloc_spec s v :
  can_alloc (fsb s) v -> room 2 v -> tabs (ftx s) v ->
  match balloc 1 s with
  | (Ret x, s') => 0 <= x < sb_size (fsb s) /\ bit_at (fsb s) (tv_blk v) x = false /\
      (forall y, 0 <= y < x -> bit_at (fsb s) (tv_blk v) y = true) /\
      inodes s' = inodes s /\ fsb s' = fsb s /\
      exists v', tabs (ftx s') v' /\ tv_blk v' x = zero_block /\
        tv_logged v' = {[x; BBLOCK x (fsb s)]} ∪ tv_logged v /\ tv_held v' = tv_held v /\
        (forall y, 0 <= y < sb_size (fsb s) -> bit_at (fsb s) (tv_blk v') y = (y =? x) || bit_at (fsb s) (tv_blk v) y) /\
        (forall b, b <> x -> b <> BBLOCK x (fsb s) -> tv_blk v' b = tv_blk v b)
  | (Panic _, _) => forall y, 0 <= y < sb_size (fsb s) -> bit_at (fsb s) (tv_blk v) y = true
  | (Sleep _, _) => False
  end.
Proof.
  intros Hca Hr Ha. pose proof Hca as [Hwf Hn _ _].
  assert (wp (balloc_loop 1 (sb_size (fsb s))) (fun r s' =>
    match r with
    | Some x => 0 <= x < sb_size (fsb s) /\ bit_at (fsb s) (tv_blk v) x = false /\
        (forall y, 0 <= y < x -> bit_at (fsb s) (tv_blk v) y = true) /\
        exists t, s' = on_tx s t /\ tabs t (allocated (fsb s) x v)
    | None => forall y, 0 <= y < sb_size (fsb s) -> bit_at (fsb s) (tv_blk v) y = true
    end) s) as H.
  { eapply wp_balloc_loop; [done..| |done]. intros x t Hx Hf Hlow Ht _. split_and!; [lia|lia|done|done|]. by exists t. }
  apply wp_returns in H as (r & s1 & E & H). unfold balloc. unfold bind at 1, gets.
  change (for_until _ _) with (balloc_loop 1 (sb_size (fsb s))). rewrite (bind_Ret _ _ _ _ _ E).
  destruct r as [x|]; [|exact H]. destruct H as (Hx & Hf & Hlow & t & -> & Ht). cbn [ret].
  split_and!; [lia|lia|done|done|done|done|]. exists (allocated (fsb s) x v).
  pose proof (aw_meta _ _ Hwf x) as Hmeta.
  split_and!; [exact Ht|simpl; by rewrite upd_fn_eq|simpl; set_solver|done| |].
  - intros y Hy. unfold allocated. simpl.
    assert (forall d D, bit_at (fsb s) (upd_fn D x d) y = bit_at (fsb s) D y) as E1.
    { intros d D. unfold bit_at. rewrite upd_fn_ne; [done|]. by apply Hmeta. }
    rewrite E1, (mark_bit _ v) by done. by destruct (y =? x).
  - intros b Hb1 Hb2. simpl. by rewrite !upd_fn_ne by done.
Qed.

(** The view after block [x] has been freed. *)
Definition freed (sb : superblock) (x : Z) v : tview := tv_write (BBLOCK x sb) (unmark sb (tv_blk v) x) v.

(** The superblock in memory is the one on disk, and block 1 can be read. *)
Definition sb_cached (sb : superblock) v : Prop :=
  1 < tv_n v /\ quiet v 1 /\ decode_sb (tv_blk v 1) = sb.

Lemma wp_readsb_fs s v (Q : unit -> fs T -> Prop) :
  tabs (ftx s) v -> sb_cached (fsb s) v -> room 1 v ->
  (forall t, tabs t v -> hkeeps v (ftx s) t -> Q tt (on_tx s t)) -> wp (readsb_fs 1) Q s.
Proof.
  intros Ha (Hn & [Hq1 Hq2] & Hsb) Hr HQ. unfold readsb_fs. apply wp_bind.
  eapply (wp_fs_bread s v 1); [done|lia|done|by eapply room_avail|]. intros i t Ht Hi Hk.
  apply wp_bind. eapply wp_fs_data; [done..|]. apply wp_bind, wp_modify.
  assert (forall k, upd_fsb (fun _ => decode_sb (tv_blk (tv_hold 1 v) 1)) (on_tx s k) = on_tx s k) as E
    by (intros k; unfold upd_fsb, on_tx; simpl; by rewrite Hsb).
  rewrite E. eapply (wp_release_read _ v); [done..|]. intros t2 H2 K2. apply HQ; [done|].
  eapply hkeeps_trans; [by eapply tkeeps_hkeeps|exact K2].
Qed.

Lemma wp_bfree s v x (Q : unit -> fs T -> Prop) :
  can_alloc (fsb s) v -> room 1 v -> tabs (ftx s) v -> sb_cached (fsb s) v ->
  0 <= x < sb_size (fsb s) -> bit_at (fsb s) (tv_blk v) x = true ->
  (forall t, tabs t (freed (fsb s) x v) -> hkeeps v (ftx s) t -> Q tt (on_tx s t)) ->
  wp (bfree 1 x) Q s.
Proof.
  intros [Hwf Hn Hq Hfr] Hr Ha Hsb Hx Hbit HQ. unfold bfree. apply wp_bind.
  eapply wp_readsb_fs; [done..|]. intros t Ht Hk. apply wp_bind, wp_gets, wp_bind.
  destruct (bblock_range _ _ _ Hwf Hn Hx) as [_ Hbr]. destruct (Hq x Hx) as [Q1 Q2].
  eapply (wp_fs_bread _ v); [done..|by eapply room_avail|]. intros i t1 H1 Hi1 K1. cbv zeta.
  apply wp_bind. eapply wp_fs_data; [done..|]. apply wp_bind, wp_panic_if.
  { cbn [tv_blk tv_hold on_tx fsb]. rewrite land_mask, mod_8_4096. unfold bit_at in Hbit. by rewrite Hbit. }
  eapply (wp_commit_buf _ v); [done|done|done|done|destruct Hr; lia|]. intros t2 H2 K2.
  apply HQ; [exact H2|]. eapply hkeeps_trans; [exact Hk|].
  eapply hkeeps_trans; [by eapply tkeeps_hkeeps|exact K2].
Qed.

End Balloc.
