(* ===== verification/FsInode.v ===== *)
(** * The inode cache of fs.c

    Which entries of [icache] hold which inode, and how their reference counts
    follow the references that the rest of the kernel holds. *)
From S2P Require Import Prelude Block Log Tx Sleeplock Fs.

Section Cache.
Context {T : Type} {HT : TxBlocks T}.
Implicit Types s : fs T.

(** What identifies an entry, and its reference count. *)
Definition ickey s : list (Z * Z * Z) := (fun x => (i_dev x, i_inum x, i_ref x)) <$> inodes s.

Lemma ickey_alter f i s : (forall x, (i_dev (f x), i_inum (f x), i_ref (f x)) = (i_dev x, i_inum x, i_ref x)) ->
  ickey (upd_inodes (alter f i) s) = ickey s.
Proof.
  intros Hf. unfold ickey. simpl. apply list_eq. intros j. rewrite !list_lookup_fmap.
  destruct (decide (i = j)) as [->|Hne].
  - rewrite list_lookup_alter_eq. destruct (inodes s !! j); [|done]. simpl. by rewrite Hf.
  - by rewrite list_lookup_alter_ne.
Qed.

Lemma pres_updi ip f : (forall x, (i_dev (f x), i_inum (f x), i_ref (f x)) = (i_dev x, i_inum x, i_ref x)) ->
  preserves ickey (updi ip f).
Proof. intros Hf. apply pres_modify. intros s. by apply ickey_alter. Qed.

Lemma pres_tx {A} (m : M T A) : preserves ickey (zoom tx_lens m).
Proof. by apply pres_zoom. Qed.

Lemma pres_sl {A} ip (m : M slstate A) : preserves ickey (zoom (inode_sl ip) m).
Proof. apply pres_zoom. intros g s. cbn [over inode_sl]. by rewrite <- (ickey_alter (upd_i_lock (fun _ => (g (i_lock (inode_at s ip), view tx_env (ftx s))).1)) ip s). Qed.

Lemma pres_sb g : preserves ickey (modify (upd_fsb g)).
Proof. by apply pres_modify. Qed.

Lemma pres_geti {A} ip (f : inode -> A) : preserves ickey (geti ip f).
Proof. apply pres_gets. Qed.

Lemma pres_acq : preserves ickey (acquire_flag iclock).
Proof. by apply pres_acquire_flag. Qed.

Lemma pres_rel : preserves ickey (release_flag iclock).
Proof. by apply pres_release_flag. Qed.

#[local] Hint Resolve pres_tx pres_sl pres_sb pres_geti pres_acq pres_rel : pres.

Lemma pres_fs_bread dev b : preserves ickey (fs_bread dev b).
Proof. apply pres_tx. Qed.

Lemma pres_fs_brelse i : preserves ickey (fs_brelse i).
Proof. apply pres_tx. Qed.

Lemma pres_fs_data i : preserves ickey (fs_data i).
Proof. apply pres_gets. Qed.

Lemma pres_fs_set i f : preserves ickey (fs_set_data i f).
Proof. apply pres_tx. Qed.

Lemma pres_fs_log i : preserves ickey (fs_log_write i).
Proof. apply pres_tx. Qed.

#[local] Hint Resolve pres_fs_bread pres_fs_brelse pres_fs_data pres_fs_set pres_fs_log : pres.

Lemma pres_bzero dev b : preserves ickey (bzero dev b).
Proof. unfold bzero. preserve. Qed.

#[local] Hint Resolve pres_bzero : pres.

Lemma pres_balloc dev : preserves ickey (balloc dev).
Proof. unfold balloc. preserve. Qed.

Lemma pres_readsb dev : preserves ickey (readsb_fs dev).
Proof. unfold readsb_fs. preserve. Qed.

#[local] Hint Resolve pres_balloc pres_readsb : pres.

Lemma pres_bfree dev b : preserves ickey (bfree dev b).
Proof. unfold bfree. preserve. Qed.

Lemma pres_iupdate ip : preserves ickey (iupdate ip).
Proof. unfold iupdate. preserve. Qed.

Lemma pres_get_addr ip i : preserves ickey (get_addr ip i).
Proof. apply pres_gets. Qed.

Lemma pres_set_addr ip i v : preserves ickey (set_addr ip i v).
Proof. by apply pres_updi. Qed.

#[local] Hint Resolve pres_bfree pres_iupdate pres_get_addr pres_set_addr : pres.

Lemma pres_itrunc ip : preserves ickey (itrunc ip).
Proof. unfold itrunc. preserve. by apply pres_updi. Qed.

Lemma pres_ilock p : preserves ickey (ilock p).
Proof. unfold ilock. preserve; by apply pres_updi. Qed.

Lemma pres_iunlock p : preserves ickey (iunlock p).
Proof. unfold iunlock. preserve. Qed.

Lemma pres_bmap ip bn : preserves ickey (bmap ip bn).
Proof. unfold bmap. preserve. Qed.

#[local] Hint Resolve pres_itrunc pres_ilock pres_iunlock pres_bmap : pres.

Lemma pres_readi_loop fuel ip off tot n : preserves ickey (readi_loop fuel ip off tot n).
Proof. revert off tot. induction fuel; intros; simpl; preserve. Qed.

Lemma pres_writei_loop fuel ip src off tot n : preserves ickey (writei_loop fuel ip src off tot n).
Proof. revert src off tot. induction fuel; intros; simpl; preserve. Qed.

#[local] Hint Resolve pres_readi_loop pres_writei_loop : pres.

(** The devices leave the cache entries alone. *)
Context (devsw : Z -> devops (T := T)).

Class DevsOk : Prop := {
  dev_read_ok : forall major f ip n, dev_read (devsw major) = Some f -> preserves ickey (f ip n);
  dev_write_ok : forall major f ip src n, dev_write (devsw major) = Some f -> preserves ickey (f ip src n);
}.

Context {HD : DevsOk}.

Lemma pres_readi ip off n : preserves ickey (readi devsw ip off n).
Proof.
  unfold readi. preserve. by eapply dev_read_ok.
Qed.

Lemma pres_writei ip src off n : preserves ickey (writei devsw ip src off n).
Proof.
  unfold writei. preserve; [by eapply dev_write_ok|by apply pres_updi].
Qed.

(** ** Searching the cache *)
Definition cached (dev inum : Z) (k : Z * Z * Z) : Prop := k.1 = (dev, inum) /\ 0 < k.2.

Lemma iget_scan_spec dev inum (l : list inode) ip empty :
  let k := (fun x => (i_dev x, i_inum x, i_ref x)) <$> l in
  match iget_scan dev inum l ip empty with
  | inl j => exists i x, j = (ip + i)%nat /\ k !! i = Some x /\ cached dev inum x
  | inr r => (forall i x, k !! i = Some x -> ~ cached dev inum x) /\
      (r = empty \/ exists i d n, r = Some (ip + i)%nat /\ k !! i = Some (d, n, 0))
  end.
Proof.
  revert ip empty. induction l as [|x l IH]; intros ip empty; simpl; [split; [done|by left]|].
  destruct (_ && _) eqn:E.
  - bool_to_prop. exists 0%nat, (i_dev x, i_inum x, i_ref x). split_and!; [lia|done|]. split; simpl; [congruence|done].
  - assert (~ cached dev inum (i_dev x, i_inum x, i_ref x)) as Hx.
    { intros [[= H1 H2] H3]. simpl in *. subst. by rewrite !Z.eqb_refl, (proj2 (Z.ltb_lt _ _) H3) in E. }
    clear E.
    specialize (IH (S ip) (match empty with None => if i_ref x =? 0 then Some ip else None | Some _ => empty end)).
    cbv zeta in IH. destruct (iget_scan _ _ _ _ _) as [j|r].
    + destruct IH as (i & y & -> & Hy & Hc). exists (S i), y. split_and!; [lia|done|done].
    + destruct IH as [Hno Hr]. split.
      { intros [|i] y Hy; simpl in Hy; [by simplify_eq|by eapply Hno]. }
      destruct Hr as [->|(i & d & n & -> & Hi)].
      * destruct empty; [by left|]. destruct (i_ref x =? 0) eqn:E0; [|by left]. right. bool_to_prop.
        exists 0%nat, (i_dev x), (i_inum x). split; [f_equal; lia|]. simpl. by rewrite E0.
      * right. exists (S i), d, n. split; [f_equal; lia|done].
Qed.

(** What [updi] does to the key of an entry. *)
Lemma ickey_set f ip s x : inodes s !! ip = Some x ->
  ickey (upd_inodes (alter f ip) s) = <[ip := (i_dev (f x), i_inum (f x), i_ref (f x))]> (ickey s).
Proof.
  intros Hx. unfold ickey. simpl. apply list_eq. intros j. rewrite list_lookup_fmap.
  assert (ip < length (inodes s))%nat by by eapply lookup_lt_Some.
  destruct (decide (ip = j)) as [->|Hne].
  - rewrite list_lookup_alter_eq, Hx, list_lookup_insert_eq by (by rewrite length_fmap). done.
  - by rewrite list_lookup_alter_ne, list_lookup_insert_ne, list_lookup_fmap by done.
Qed.

Lemma ickey_lookup s ip d n r : ickey s !! ip = Some (d, n, r) ->
  exists x, inodes s !! ip = Some x /\ i_dev x = d /\ i_inum x = n /\ i_ref x = r.
Proof.
  unfold ickey. rewrite list_lookup_fmap. destruct (inodes s !! ip) as [x|]; [|done].
  intros [= <- <- <-]. by exists x.
Qed.

Lemma iget_key dev inum s ip s' : iget dev inum s = (Ret ip, s') ->
  (exists r, 0 < r /\ ickey s !! ip = Some (dev, inum, r) /\ ickey s' = <[ip := (dev, inum, s32 (r + 1))]> (ickey s)) \/
  (forall i x, ickey s !! i = Some x -> ~ cached dev inum x) /\
  (exists d n, ickey s !! ip = Some (d, n, 0)) /\ ickey s' = <[ip := (dev, inum, 1)]> (ickey s).
Proof.
  intros H. unfold iget in H. apply bind_Ret_inv in H as ([] & s1 & Ha%pres_acq & H). rewrite <- Ha.
  unfold bind at 1, gets in H. pose proof (iget_scan_spec dev inum (inodes s1) 0 None) as Hsc. cbv zeta in Hsc.
  destruct (iget_scan _ _ _ _ _) as [j|[j|]]; [| |done].
  - destruct Hsc as (i & [[d n] r] & -> & Hi & [[= -> ->] Hr]). simpl in *.
    destruct (ickey_lookup s1 i _ _ _ Hi) as (x & Hx & Hxd & Hxn & Hxr).
    apply bind_Ret_inv in H as ([] & s2 & [= <-] & H). apply bind_Ret_inv in H as ([] & s3 & Hrel%pres_rel & H).
    injection H as <- <-. left. exists r. split_and!; [done|done|]. rewrite Hrel, (ickey_set _ _ _ _ Hx). simpl. congruence.
  - destruct Hsc as [Hno Hr]. destruct Hr as [|(i & d & n & [= ->] & Hi)]; [done|]. simpl in *. right.
    destruct (ickey_lookup s1 i _ _ _ Hi) as (x & Hx & _).
    do 4 (apply bind_Ret_inv in H as ([] & ? & [= <-] & H)).
    apply bind_Ret_inv in H as ([] & s3 & Hrel%pres_rel & H). injection H as <- <-.
    split_and!; [done|by exists d, n|]. rewrite Hrel, ickey_alter by done.
    erewrite ickey_set by (cbn [inodes upd_inodes]; rewrite !list_lookup_alter_eq, Hx; reflexivity).
    erewrite ickey_set by (cbn [inodes upd_inodes]; rewrite !list_lookup_alter_eq, Hx; reflexivity).
    erewrite ickey_set by (cbn [inodes upd_inodes]; rewrite Hx; reflexivity).
    by rewrite !list_insert_insert_eq.
Qed.

Lemma idup_key ip s a s' d n r : idup ip s = (Ret a, s') -> ickey s !! ip = Some (d, n, r) ->
  a = ip /\ ickey s' = <[ip := (d, n, s32 (r + 1))]> (ickey s).
Proof.
  intros H Hi. unfold idup in H. apply bind_Ret_inv in H as ([] & s1 & Ha%pres_acq & H). rewrite <- Ha in *.
  destruct (ickey_lookup s1 ip _ _ _ Hi) as (x & Hx & <- & <- & <-).
  apply bind_Ret_inv in H as ([] & s2 & [= <-] & H). apply bind_Ret_inv in H as ([] & s3 & Hrel%pres_rel & H).
  injection H as <- <-. split; [done|]. by rewrite Hrel, (ickey_set _ _ _ _ Hx).
Qed.

(** The part of [iput] before it drops the reference. *)
Lemma pres_iput_free ip x : preserves ickey
  (when (negb (i_valid x =? 0) && (i_nlink x =? 0))
    (acquire_flag iclock ;;
     r ← geti ip i_ref;
     release_flag iclock ;;
     when (r =? 1)
       (itrunc ip ;;
        updi ip (upd_i_type (fun _ => 0)) ;;
        iupdate ip ;;
        updi ip (upd_i_valid (fun _ => 0))))).
Proof. preserve; by apply pres_updi. Qed.

Lemma iput_key ip s s' d n r : iput ip s = (Ret tt, s') -> ickey s !! ip = Some (d, n, r) ->
  ickey s' = <[ip := (d, n, s32 (r - 1))]> (ickey s).
Proof.
  intros H Hi. unfold iput in H. apply bind_Ret_inv in H as ([] & s1 & H1%pres_sl & H).
  apply bind_Ret_inv in H as (x & s2 & H2%pres_geti & H).
  apply bind_Ret_inv in H as ([] & s3 & H3%pres_iput_free & H).
  apply bind_Ret_inv in H as ([] & s4 & H4%pres_sl & H).
  apply bind_Ret_inv in H as ([] & s5 & H5%pres_acq & H).
  assert (ickey s5 = ickey s) as E by congruence. rewrite <- E in *.
  destruct (ickey_lookup s5 ip _ _ _ Hi) as (y & Hy & <- & <- & <-).
  apply bind_Ret_inv in H as ([] & s6 & [= <-] & H). apply pres_rel in H.
  by rewrite H, (ickey_set _ _ _ _ Hy).
Qed.

(** A routine that obtains one reference with [iget]. *)
Definition by_iget {A} (m : M (fs T) A) (f : A -> option nat) : Prop :=
  forall s a s', m s = (Ret a, s') ->
  match f a with
  | Some ip => exists dev inum s1 s2, ickey s1 = ickey s /\ iget dev inum s1 = (Ret ip, s2) /\ ickey s' = ickey s2
  | None => ickey s' = ickey s
  end.

Lemma by_iget_bind {A B} (m : M (fs T) A) (k : A -> M (fs T) B) f :
  preserves ickey m -> (forall a, by_iget (k a) f) -> by_iget (bind m k) f.
Proof.
  intros Hm Hk s b s' H. apply bind_Ret_inv in H as (a & s1 & H1%Hm & H). apply Hk in H.
  destruct (f b); [|congruence]. rewrite <- H1. exact H.
Qed.

Lemma by_iget_ret {A} (a : A) f : f a = None -> by_iget (ret a) f.
Proof. intros Hf s b s' [= <- <-]. by rewrite Hf. Qed.

Lemma by_iget_call {B} dev inum (k : nat -> B) f : (forall ip, f (k ip) = Some ip) ->
  by_iget (ip ← iget dev inum; ret (k ip)) f.
Proof.
  intros Hf s b s' H. apply bind_Ret_inv in H as (ip & s1 & H1 & [= <- <-]). rewrite Hf. eauto 10.
Qed.

Lemma dirlookup_iget dp name : by_iget (dirlookup devsw dp name) (option_map fst).
Proof.
  unfold dirlookup. apply by_iget_bind; [apply pres_geti|intros x].
  apply by_iget_bind; [apply pres_panic_if|intros _]. generalize (dir_fuel (i_size x)) 0. clear x.
  induction n as [|n IH]; intros off; simpl; [by intros s a s'|].
  apply by_iget_bind; [apply pres_geti|intros size]. destruct (_ <? _); [|by apply by_iget_ret].
  apply by_iget_bind; [apply pres_readi|intros r]. apply by_iget_bind; [apply pres_panic_if|intros _].
  destruct (_ =? 0); [done|]. destruct (_ =? 0); [|done].
  apply by_iget_bind; [apply pres_geti|intros dev]. by apply by_iget_call.
Qed.

Lemma by_iget_until {I} (l : list I) (body : I -> M (fs T) (option nat)) :
  (forall i, by_iget (body i) id) -> by_iget (for_until l body) id.
Proof.
  intros Hb. induction l as [|i l IH]; [by apply by_iget_ret|]. intros s a s' H. simpl in H.
  apply bind_Ret_inv in H as (r & s1 & H1%Hb & H). destruct r as [ip|]; simpl in H1.
  - injection H as <- <-. exact H1.
  - apply IH in H. destruct a; simpl in *; [|congruence]. by rewrite <- H1.
Qed.

Lemma ialloc_iget dev type : by_iget (ialloc dev type) Some.
Proof.
  unfold ialloc. apply by_iget_bind; [apply pres_gets|intros ni]. intros s a s' H.
  apply bind_Ret_inv in H as (r & s1 & H1 & H).
  eapply (by_iget_until _ _) in H1.
  - destruct r as [ip|]; [|done]. by injection H as <- <-.
  - intros inum. apply by_iget_bind; [apply pres_gets|intros sb].
    apply by_iget_bind; [apply pres_fs_bread|intros bp]. apply by_iget_bind; [apply pres_fs_data|intros d].
    destruct (_ =? 0).
    + do 4 (apply by_iget_bind; [auto with pres|intros _]). by apply by_iget_call.
    + apply by_iget_bind; [apply pres_fs_brelse|intros _]. by apply by_iget_ret.
Qed.

(** ** References

    The second component of a state is the list of the references to inodes that
    the kernel holds: open files, working directories and local variables. *)
Definition refs_of (o : list nat) (ip : nat) : Z := Z.of_nat (length (filter (eq ip) o)).

Inductive istep : fs T * list nat -> fs T * list nat -> Prop :=
| is_iget dev inum ip s s' o :
    Z.of_nat (length o) < 2147483646 ->
    iget dev inum s = (Ret ip, s') -> istep (s, o) (s', ip :: o)
| is_ialloc dev type ip s s' o :
    Z.of_nat (length o) < 2147483646 ->
    ialloc dev type s = (Ret ip, s') -> istep (s, o) (s', ip :: o)
| is_dirlookup dp name r s s' o :
    Z.of_nat (length o) < 2147483646 ->
    dirlookup devsw dp name s = (Ret r, s') -> istep (s, o) (s', match r with Some (ip, _) => ip :: o | None => o end)
| is_idup ip a s s' o :
    Z.of_nat (length o) < 2147483646 -> ip ∈ o ->
    idup ip s = (Ret a, s') -> istep (s, o) (s', ip :: o)
| is_iput ip s s' o o' :
    o ≡ₚ ip :: o' -> iput ip s = (Ret tt, s') -> istep (s, o) (s', o')
| is_ilock p r s s' o : ilock p s = (r, s') -> istep (s, o) (s', o)
| is_iunlock p r s s' o : iunlock p s = (r, s') -> istep (s, o) (s', o)
| is_iupdate ip r s s' o : iupdate ip s = (r, s') -> istep (s, o) (s', o)
| is_readi ip off n r s s' o : readi devsw ip off n s = (r, s') -> istep (s, o) (s', o)
| is_writei ip src off n r s s' o : writei devsw ip src off n s = (r, s') -> istep (s, o) (s', o).

Record ic_inv (k : list (Z * Z * Z)) (o : list nat) : Prop := {
  ic_len : length k = NINODE;
  ic_ref : forall i d n r, k !! i = Some (d, n, r) -> r = refs_of o i;
  ic_bound : Z.of_nat (length o) <= 2147483646;
  ic_own : forall ip, ip ∈ o -> (ip < NINODE)%nat;
  ic_uniq : forall i j d n r r', k !! i = Some (d, n, r) -> k !! j = Some (d, n, r') -> 0 < r -> 0 < r' -> i = j;
}.

Lemma refs_cons ip o j : refs_of (ip :: o) j = refs_of o j + if decide (j = ip) then 1 else 0.
Proof. unfold refs_of. rewrite filter_cons. case_decide; simpl; lia. Qed.

Lemma refs_perm o o' j : o ≡ₚ o' -> refs_of o j = refs_of o' j.
Proof. intros H. unfold refs_of. by rewrite H. Qed.

Lemma refs_bound o j : 0 <= refs_of o j <= Z.of_nat (length o).
Proof. unfold refs_of. pose proof (length_filter (eq j) o). lia. Qed.

Lemma refs_pos o j : j ∈ o -> 0 < refs_of o j.
Proof.
  intros Hj. unfold refs_of. assert (j ∈ filter (eq j) o) as H by (by apply list_elem_of_filter).
  destruct (filter (eq j) o); [by apply elem_of_nil in H|simpl; lia].
Qed.

(** Taking one more reference to entry [ip]. *)
Lemma inv_take k o ip d0 n0 r d n :
  ic_inv k o -> Z.of_nat (length o) < 2147483646 -> k !! ip = Some (d0, n0, r) ->
  (d, n) = (d0, n0) /\ 0 < r \/ r = 0 /\ (forall i x, k !! i = Some x -> ~ cached d n x) ->
  ic_inv (<[ip := (d, n, r + 1)]> k) (ip :: o).
Proof.
  intros [Hl Hr Hbd Ho Hu] Hb Hip Hc. assert (ip < length k)%nat as Hlt by by eapply lookup_lt_Some.
  pose proof (Hr _ _ _ _ Hip) as Er. pose proof (refs_bound o ip).
  split.
  - by rewrite length_insert.
  - intros i d' n' r' Hi. rewrite refs_cons. apply list_lookup_insert_Some in Hi as [(<- & [= <- <- <-] & _)|(Hne & Hi)].
    + rewrite decide_True by done. lia.
    + rewrite decide_False by done. rewrite (Hr _ _ _ _ Hi). lia.
  - simpl. lia.
  - intros j [->|Hj]%elem_of_cons; [lia|by apply Ho].
  - assert (forall j d' n' r', j <> ip -> k !! j = Some (d', n', r') -> 0 < r' -> (d', n') <> (d, n)) as Hother.
    { intros j d' n' r' Hne Hj Hr' E. simplify_eq. destruct Hc as [[E Hpos]|[_ Hno]].
      - simplify_eq. by apply Hne, (Hu _ _ _ _ _ _ Hj Hip).
      - by apply (Hno _ _ Hj). }
    intros i j d' n' r1 r2 Hi Hj H1 H2.
    apply list_lookup_insert_Some in Hi as [(<- & [= <- <- <-] & _)|(Hni & Hi)];
      apply list_lookup_insert_Some in Hj as [(<- & Ej & _)|(Hnj & Hj)]; simplify_eq.
    + done.
    + by destruct (Hother j _ _ _ (not_eq_sym Hnj) Hj H2).
    + by destruct (Hother i _ _ _ (not_eq_sym Hni) Hi H1).
    + by eapply Hu.
Qed.

(** Giving one up. *)
Lemma inv_drop k o o' ip d n r :
  ic_inv k o -> k !! ip = Some (d, n, r) -> o ≡ₚ ip :: o' -> ic_inv (<[ip := (d, n, r - 1)]> k) o'.
Proof.
  intros [Hl Hr Hbd Ho Hu] Hip Hp. assert (ip < length k)%nat as Hlt by by eapply lookup_lt_Some.
  pose proof (Hr _ _ _ _ Hip) as Er. rewrite (refs_perm _ _ _ Hp), refs_cons, decide_True in Er by done.
  split.
  - by rewrite length_insert.
  - intros i d' n' r' Hi. apply list_lookup_insert_Some in Hi as [(<- & [= <- <- <-] & _)|(Hne & Hi)]; [lia|].
    rewrite (Hr _ _ _ _ Hi), (refs_perm _ _ _ Hp), refs_cons, decide_False by done. lia.
  - rewrite Hp in Hbd. simpl in Hbd. lia.
  - intros j Hj. apply Ho. rewrite Hp. by right.
  - intros i j d' n' r1 r2 Hi Hj H1 H2.
    apply list_lookup_insert_Some in Hi as [(<- & [= <- <- <-] & _)|(Hni & Hi)];
      apply list_lookup_insert_Some in Hj as [(<- & Ej & _)|(Hnj & Hj)]; simplify_eq; [done| | |by eapply Hu].
    + eapply Hu; [exact Hip|exact Hj|lia|done].
    + eapply Hu; [exact Hi|exact Hip|done|lia].
Qed.

(** The entry of [ip] holds the same inode in both. *)
Definition same_id (k k' : list (Z * Z * Z)) (ip : nat) : Prop := fst <$> k' !! ip = fst <$> k !! ip.

Lemma same_id_insert k ip d n r r' j : k !! ip = Some (d, n, r) -> same_id k (<[ip := (d, n, r')]> k) j.
Proof.
  intros Hip. unfold same_id. destruct (decide (ip = j)) as [->|Hne]; [|by rewrite list_lookup_insert_ne].
  rewrite list_lookup_insert_eq by by eapply lookup_lt_Some. by rewrite Hip.
Qed.

Lemma inv_iget dev inum ip s s' o : ic_inv (ickey s) o -> Z.of_nat (length o) < 2147483646 ->
  iget dev inum s = (Ret ip, s') ->
  ic_inv (ickey s') (ip :: o) /\ forall j, j ∈ o -> same_id (ickey s) (ickey s') j.
Proof.
  intros Hi Hb H. apply iget_key in H as [(r & Hr & Hip & ->)|(Hno & (d & n & Hip) & ->)].
  - pose proof (ic_ref _ _ Hi _ _ _ _ Hip) as Er. pose proof (refs_bound o ip). rewrite s32_small by lia.
    split; [eapply inv_take; [done..|by left]|]. intros j _. by eapply same_id_insert.
  - split; [change 1 with (0 + 1); eapply inv_take; [done..|by right]|]. intros j Hj.
    unfold same_id. rewrite list_lookup_insert_ne; [done|]. intros ->.
    pose proof (ic_ref _ _ Hi _ _ _ _ Hip). pose proof (refs_pos _ _ Hj). lia.
Qed.

Lemma own_lookup k o ip : ic_inv k o -> ip ∈ o -> exists d n r, k !! ip = Some (d, n, r) /\ 0 < r <= Z.of_nat (length o).
Proof.
  intros Hi Ho. destruct (lookup_lt_is_Some_2 k ip) as [[[d n] r] Hip].
  { rewrite (ic_len _ _ Hi). by apply (ic_own _ _ Hi). }
  exists d, n, r. split; [done|]. rewrite (ic_ref _ _ Hi _ _ _ _ Hip).
  pose proof (refs_pos _ _ Ho). pose proof (refs_bound o ip). lia.
Qed.

Lemma istep_inv s o s' o' : istep (s, o) (s', o') -> ic_inv (ickey s) o ->
  ic_inv (ickey s') o' /\ forall ip, ip ∈ o -> same_id (ickey s) (ickey s') ip.
Proof.
  intros Hst Hi.
  assert (forall s', ickey s' = ickey s ->
    ic_inv (ickey s') o /\ forall ip, ip ∈ o -> same_id (ickey s) (ickey s') ip) as Hkeep.
  { intros s1 E. unfold same_id. by rewrite E. }
  inversion Hst; subst.
  - by eapply inv_iget.
  - match goal with H : ialloc _ _ _ = _ |- _ => apply ialloc_iget in H as (dev' & inum & s1 & s2 & E1 & Hg & E2) end.
    rewrite E2, <- E1 in *. by eapply inv_iget.
  - match goal with H : dirlookup _ _ _ _ = _ |- _ => apply dirlookup_iget in H end.
    destruct r as [[ip off]|]; simpl in *; [|by apply Hkeep].
    match goal with H : exists _, _ |- _ => destruct H as (dev & inum & s1 & s2 & E1 & Hg & E2) end.
    rewrite E2, <- E1 in *. by eapply inv_iget.
  - destruct (own_lookup _ _ ip Hi) as (d & n & r & Hip & Hr); [done|].
    match goal with H : idup _ _ = _ |- _ => destruct (idup_key _ _ _ _ _ _ _ H Hip) as [_ ->] end.
    rewrite s32_small by lia. split; [eapply inv_take; [done..|left; split; [done|lia]]|].
    intros j _. by eapply same_id_insert.
  - assert (ip ∈ o) as Hin.
    { match goal with H : o ≡ₚ _ |- _ => rewrite H end. by left. }
    destruct (own_lookup _ _ ip Hi Hin) as (d & n & r & Hip & Hr).
    match goal with H : iput _ _ = _ |- _ => rewrite (iput_key _ _ _ _ _ _ H Hip) end.
    pose proof (ic_bound _ _ Hi). rewrite s32_small by lia. split; [by eapply inv_drop|].
    intros j _. by eapply same_id_insert.
  - apply Hkeep. by eapply pres_ilock.
  - apply Hkeep. by eapply pres_iunlock.
  - apply Hkeep. by eapply pres_iupdate.
  - apply Hkeep. by eapply pres_readi.
  - apply Hkeep. by eapply pres_writei.
Qed.

Lemma isteps_inv x y : rtc istep x y -> ic_inv (ickey x.1) x.2 -> ic_inv (ickey y.1) y.2.
Proof. intros Hr. induction Hr as [x|[] [] z Hst _ IH]; [done|]. intros Hx. apply IH. by eapply istep_inv. Qed.

(** C30: reference counts of the inode cache are exact and inode pointers stay
    valid: in every state reachable from an empty cache by any sequence of
    iget, ialloc, dirlookup, idup, iput and operations on inodes, the count of
    an entry is the number of references the kernel holds to it, no two entries
    in use hold the same inode, and no step changes which inode an entry holds
    while the kernel has a reference to it. *)
Theorem icache_references s0 s o :
  length (inodes s0) = NINODE -> Forall (fun x => i_ref x = 0) (inodes s0) ->
  rtc istep (s0, []) (s, o) ->
  (forall ip, (ip < NINODE)%nat -> i_ref (inode_at s ip) = refs_of o ip) /\
  (forall i j, (i < NINODE)%nat -> (j < NINODE)%nat -> 0 < i_ref (inode_at s i) -> 0 < i_ref (inode_at s j) ->
     i_dev (inode_at s i) = i_dev (inode_at s j) -> i_inum (inode_at s i) = i_inum (inode_at s j) -> i = j) /\
  (forall s' o' ip, istep (s, o) (s', o') -> ip ∈ o ->
     i_dev (inode_at s' ip) = i_dev (inode_at s ip) /\ i_inum (inode_at s' ip) = i_inum (inode_at s ip)).
Proof.
  intros Hlen Hz Hr.
  assert (ic_inv (ickey s0) []) as H0.
  { split; [unfold ickey; by rewrite length_fmap| |simpl; lia|by intros ? ?%elem_of_nil|].
    - intros i d n r Hi. destruct (ickey_lookup _ _ _ _ _ Hi) as (x & Hx & _ & _ & <-).
      by rewrite (Forall_lookup_1 _ _ _ _ Hz Hx).
    - intros i j d n r r' Hi _ Hr1. destruct (ickey_lookup _ _ _ _ _ Hi) as (x & Hx & _ & _ & <-).
      rewrite (Forall_lookup_1 _ _ _ _ Hz Hx) in Hr1. lia. }
  assert (ic_inv (ickey s) o) as Hi.
  { exact (isteps_inv _ _ Hr H0). }
  assert (forall ip, (ip < NINODE)%nat -> ickey s !! ip =
    Some (i_dev (inode_at s ip), i_inum (inode_at s ip), i_ref (inode_at s ip))) as Hk.
  { intros ip Hip. rewrite <- (ic_len _ _ Hi) in Hip. unfold ickey, inode_at in *. rewrite length_fmap in Hip.
    rewrite list_lookup_fmap. by destruct (lookup_lt_is_Some_2 _ _ Hip) as [x ->]. }
  split_and!.
  - intros ip Hip. by apply (ic_ref _ _ Hi _ _ _ _ (Hk ip Hip)).
  - intros i j Hii Hjj H1 H2 Ed En. pose proof (Hk i Hii) as Ki. rewrite Ed, En in Ki.
    by eapply (ic_uniq _ _ Hi _ _ _ _ _ _ Ki (Hk j Hjj)).
  - intros s' o' ip Hst Hip. destruct (istep_inv _ _ _ _ Hst Hi) as [Hi' Hid]. specialize (Hid ip Hip).
    unfold same_id in Hid. rewrite (Hk ip) in Hid by by apply (ic_own _ _ Hi).
    destruct (ickey s' !! ip) as [[[d n] r]|] eqn:E; [|done].
    destruct (ickey_lookup _ _ _ _ _ E) as (x & Hx & <- & <- & _). unfold inode_at at 1 3. rewrite Hx.
    simpl in *. by injection Hid as <- <-.
Qed.

End Cache.
