(* ===== verification/FsFile.v ===== *)
(** * File contents of fs.c

    What [bmap], [readi] and [writei] do to the bytes of a file.  A file is the
    list of its 13 block addresses; [addr_of] is the block of a file block number,
    [file_byte] the byte at an offset. *)
From S2P Require Import Prelude Block Log Tx Sleeplock Fs FsAlloc.

(** ** The map from file blocks to disk blocks *)
Definition ind (l : list Z) : Z := default 0 (l !! NDIRECT).

Definition addr_of (v : tview) (l : list Z) (bn : nat) : Z :=
  if (bn <? NDIRECT)%nat then default 0 (l !! bn)
  else if ind l =? 0 then 0 else get32 (tv_blk v (ind l)) (4 * (bn - NDIRECT)).

Definition file_byte (v : tview) (l : list Z) (k : Z) : Z :=
  let a := addr_of v l (Z.to_nat (k / bs)) in
  if a =? 0 then 0 else get8 (tv_blk v a) (Z.to_nat (k mod bs)).

(** A block that may hold file data: allocated, and neither bitmap nor inode block. *)
Record data_ok (sb : superblock) (ib : Z) (v : tview) (a : Z) : Prop := {
  do_range : 0 < a < sb_size sb;
  do_bit : bit_at sb (tv_blk v) a = true;
  do_bmap : forall y, 0 <= y < sb_size sb -> a <> BBLOCK y sb;
  do_inode : a <> ib;
  do_quiet : quiet v a;
}.

Definition nblocks : nat := 140.

Record file_wf (sb : superblock) (ib : Z) (v : tview) (l : list Z) : Prop := {
  fw_len : length l = 13%nat;
  fw_ok : forall bn, (bn < nblocks)%nat -> addr_of v l bn <> 0 -> data_ok sb ib v (addr_of v l bn);
  fw_ind : ind l <> 0 -> data_ok sb ib v (ind l);
  fw_inj : forall bn bn', (bn < nblocks)%nat -> (bn' < nblocks)%nat ->
    addr_of v l bn <> 0 -> addr_of v l bn = addr_of v l bn' -> bn = bn';
  fw_apart : forall bn, (bn < nblocks)%nat -> addr_of v l bn <> 0 -> addr_of v l bn <> ind l;
}.

(** The allocator can run, and block 0 and the inode's block are allocated. *)
Record fs_ready (sb : superblock) (ib : Z) (v : tview) : Prop := {
  fr_alloc : can_alloc sb v;
  fr_boot : bit_at sb (tv_blk v) 0 = true;
  fr_ib : 0 < ib < sb_size sb /\ bit_at sb (tv_blk v) ib = true;
  fr_ib_bmap : forall y, 0 <= y < sb_size sb -> ib <> BBLOCK y sb;
  fr_ib_quiet : quiet v ib;
}.

(** ** Steps on views *)

(** The bits only depend on the bitmap blocks. *)
Lemma bit_frame sb v v' x :
  (forall y, 0 <= y < sb_size sb -> tv_blk v' (BBLOCK y sb) = tv_blk v (BBLOCK y sb)) ->
  0 <= x < sb_size sb -> bit_at sb (tv_blk v') x = bit_at sb (tv_blk v) x.
Proof. intros H Hx. unfold bit_at. by rewrite H. Qed.

Lemma write_bits sb b d v x : (forall y, 0 <= y < sb_size sb -> b <> BBLOCK y sb) -> 0 <= x < sb_size sb ->
  bit_at sb (tv_blk (tv_write b d v)) x = bit_at sb (tv_blk v) x.
Proof. intros Hb Hx. apply bit_frame; [|done]. intros y Hy. simpl. apply upd_fn_ne. by apply Hb. Qed.

Lemma can_alloc_write sb b d v : can_alloc sb v -> (forall y, 0 <= y < sb_size sb -> b <> BBLOCK y sb) ->
  length d = BSIZE -> can_alloc sb (tv_write b d v).
Proof.
  intros [[H1 H2 H3 H4] Hn Hq Hf] Hb Hd. split; [split|done|done|]; try done.
  - intros x Hx. simpl. unfold upd_fn. case_decide; [done|by apply H3].
  - intros x y Hx Hy Hbit. rewrite write_bits in Hbit by done. by apply H4.
  - intros x Hx Hbit. rewrite write_bits in Hbit by done. by apply Hf.
Qed.

Lemma length_set_byte k f d : length (set_byte k f d) = length d.
Proof. apply length_insert. Qed.

(** After an allocation only the bit of [x] has changed. *)
Lemma allocated_bits sb v x y : can_alloc sb v -> 0 <= x < sb_size sb -> 0 <= y < sb_size sb ->
  bit_at sb (tv_blk v) x = false ->
  bit_at sb (tv_blk (allocated sb x v)) y = (y =? x) || bit_at sb (tv_blk v) y.
Proof.
  intros [Hw Hn _ _] Hx Hy Hf. unfold allocated. rewrite write_bits by (done || intros; by apply (aw_meta _ _ Hw)).
  cbn [tv_blk tv_write]. rewrite (mark_bit sb v) by done. by destruct (y =? x).
Qed.

Lemma can_alloc_allocated sb v x : can_alloc sb v -> 0 <= x < sb_size sb -> bit_at sb (tv_blk v) x = false ->
  can_alloc sb (allocated sb x v).
Proof.
  intros Hc Hx Hf. pose proof Hc as [Hw Hn Hq Hfr]. pose proof Hw as [H1 H2 H3 H4].
  destruct (bblock_range sb v x Hw Hn Hx) as [_ Hbr].
  split; [split|done|done|]; try done.
  - intros b Hb. simpl. unfold upd_fn. repeat case_decide; [done| |by apply H3].
    unfold mark. rewrite length_set_byte. by apply H3.
  - intros a y Ha Hy Hbit. rewrite allocated_bits in Hbit by done. apply orb_false_iff in Hbit as [_ Hbit].
    by apply H4.
  - intros a Ha Hbit. rewrite allocated_bits in Hbit by done. apply orb_false_iff in Hbit as [_ Hbit].
    by apply Hfr.
Qed.

(** Blocks that are allocated already are not touched by an allocation. *)
Lemma allocated_frame sb v x b : 0 <= b < sb_size sb -> bit_at sb (tv_blk v) b = true ->
  bit_at sb (tv_blk v) x = false ->
  (forall y, 0 <= y < sb_size sb -> b <> BBLOCK y sb) -> 0 <= x < sb_size sb ->
  tv_blk (allocated sb x v) b = tv_blk v b.
Proof.
  intros Hb Hbit Hx Hbm Hxr. simpl. rewrite !upd_fn_ne; [done| |].
  - intros E. by apply (Hbm x Hxr).
  - intros ->. congruence.
Qed.

Lemma data_ok_allocated sb ib v x a : can_alloc sb v -> 0 <= x < sb_size sb -> bit_at sb (tv_blk v) x = false ->
  data_ok sb ib v a -> data_ok sb ib (allocated sb x v) a /\ tv_blk (allocated sb x v) a = tv_blk v a.
Proof.
  intros Hc Hx Hf [H1 H2 H3 H4 H5]. split; [split; try done|].
  - rewrite allocated_bits, H2 by (done || lia). apply orb_true_r.
  - apply allocated_frame; (done || lia).
Qed.

Lemma fs_ready_allocated sb ib v x : fs_ready sb ib v -> 0 <= x < sb_size sb -> bit_at sb (tv_blk v) x = false ->
  fs_ready sb ib (allocated sb x v).
Proof.
  intros [Hc Hb [Hi Hib] Hibm Hq] Hx Hf. pose proof (aw_size _ _ (ca_wf _ _ Hc)).
  split; try done.
  - by apply can_alloc_allocated.
  - rewrite allocated_bits, Hb by (done || lia). apply orb_true_r.
  - split; [done|]. rewrite allocated_bits, Hib by (done || lia). apply orb_true_r.
Qed.

Lemma data_ok_new sb ib v x : fs_ready sb ib v -> 0 <= x < sb_size sb -> bit_at sb (tv_blk v) x = false ->
  data_ok sb ib (allocated sb x v) x /\ tv_blk (allocated sb x v) x = zero_block.
Proof.
  intros [Hc Hb [Hi Hib] _ _] Hx Hf. split; [|simpl; apply upd_fn_eq]. split.
  - destruct (decide (x = 0)) as [->|]; [congruence|lia].
  - by rewrite allocated_bits, Z.eqb_refl by done.
  - intros y Hy. by apply (aw_meta _ _ (ca_wf _ _ Hc)).
  - intros ->. congruence.
  - by apply (ca_free _ _ Hc).
Qed.

(** A change of view that leaves the data blocks of a file alone leaves the file
    alone. *)
Lemma addr_of_frame v v' l bn : (ind l <> 0 -> tv_blk v' (ind l) = tv_blk v (ind l)) ->
  addr_of v' l bn = addr_of v l bn.
Proof.
  intros H. unfold addr_of. destruct (_ <? _)%nat; [done|]. destruct (ind l =? 0) eqn:E; [done|].
  bool_to_prop. by rewrite H.
Qed.

Lemma file_frame sb ib v v' l : file_wf sb ib v l ->
  (forall a, data_ok sb ib v a -> data_ok sb ib v' a /\ tv_blk v' a = tv_blk v a) ->
  file_wf sb ib v' l /\ (forall bn, addr_of v' l bn = addr_of v l bn) /\
  (forall k, 0 <= k < Z.of_nat nblocks * bs -> file_byte v' l k = file_byte v l k).
Proof.
  intros [H1 H2 H3 H4 H5] Hfr.
  assert (forall bn, addr_of v' l bn = addr_of v l bn) as Ha.
  { intros bn. apply addr_of_frame. intros Hi. by apply Hfr, H3. }
  split_and!; [split|done|].
  - done.
  - intros bn Hbn. rewrite Ha. intros Hne. by apply Hfr, H2.
  - intros Hi. by apply Hfr, H3.
  - intros bn bn' Hbn Hbn'. rewrite !Ha. by apply H4.
  - intros bn Hbn. rewrite Ha. by apply H5.
  - intros k Hk. unfold file_byte. rewrite Ha. destruct (_ =? 0) eqn:E; [done|]. bool_to_prop.
    destruct (Hfr (addr_of v l (Z.to_nat (k / bs)))) as [_ ->]; [|done]. apply H2; [|done].
    unfold bs, BSIZE, nblocks in *. zdm.
Qed.

Lemma file_allocated sb ib v x l : can_alloc sb v -> 0 <= x < sb_size sb -> bit_at sb (tv_blk v) x = false ->
  file_wf sb ib v l ->
  file_wf sb ib (allocated sb x v) l /\ (forall bn, addr_of (allocated sb x v) l bn = addr_of v l bn) /\
  (forall k, 0 <= k < Z.of_nat nblocks * bs -> file_byte (allocated sb x v) l k = file_byte v l k).
Proof. intros Hc Hx Hf Hw. apply (file_frame sb ib v); [done|]. intros a Ha. by apply data_ok_allocated. Qed.

(** A block that the file does not use. *)
Definition unused (v : tview) (l : list Z) (x : Z) : Prop :=
  x <> 0 /\ x <> ind l /\ forall bn, (bn < nblocks)%nat -> addr_of v l bn <> x.

Lemma unused_new sb ib v x l : fs_ready sb ib v -> file_wf sb ib v l -> 0 <= x < sb_size sb ->
  bit_at sb (tv_blk v) x = false -> unused (allocated sb x v) l x.
Proof.
  intros Hr Hw Hx Hf. pose proof (fr_alloc _ _ _ Hr) as Hc.
  destruct (data_ok_new sb ib v x Hr Hx Hf) as [[Hx0 _ _ _ _] _].
  destruct (file_allocated sb ib v x l Hc Hx Hf Hw) as (_ & Ha & _).
  split; [lia|]. split.
  - intros E. pose proof (fw_ind _ _ _ _ Hw ltac:(lia)) as [_ Hb _ _ _]. congruence.
  - intros bn Hbn. rewrite Ha. intros E. pose proof (fw_ok _ _ _ _ Hw bn Hbn ltac:(lia)) as [_ Hb _ _ _]. congruence.
Qed.

Lemma get8_zero i : get8 zero_block i = 0.
Proof.
  unfold get8, zero_block. destruct (decide (i < BSIZE)%nat) as [Hi|Hi].
  - by rewrite lookup_replicate_2.
  - rewrite lookup_ge_None_2; [done|]. rewrite length_replicate. lia.
Qed.

(** What a step that adds block [x] as file block [bn] guarantees. *)
Record extends (sb : superblock) (ib : Z) (v : tview) (l : list Z) (v' : tview) (l' : list Z) (bn : nat) (x : Z) : Prop := {
  ex_wf : file_wf sb ib v' l';
  ex_new : addr_of v' l' bn = x;
  ex_old : forall j, j <> bn -> (j < nblocks)%nat -> addr_of v' l' j = addr_of v l j;
  ex_byte : forall k, 0 <= k < Z.of_nat nblocks * bs -> file_byte v' l' k = file_byte v l k;
}.

Lemma extends_byte v l v' l' bn x : addr_of v l bn = 0 -> addr_of v' l' bn = x -> tv_blk v' x = zero_block ->
  (forall j, j <> bn -> (j < nblocks)%nat -> addr_of v' l' j = addr_of v l j) ->
  (forall j, (j < nblocks)%nat -> addr_of v l j <> 0 -> tv_blk v' (addr_of v l j) = tv_blk v (addr_of v l j)) ->
  forall k, 0 <= k < Z.of_nat nblocks * bs -> file_byte v' l' k = file_byte v l k.
Proof.
  intros H0 Hx Hz Hold Hblk k Hk. unfold file_byte.
  assert (Z.to_nat (k / bs) < nblocks)%nat as Hj by (unfold bs, BSIZE, nblocks in *; zdm).
  destruct (decide (Z.to_nat (k / bs) = bn)) as [->|Hne].
  - rewrite H0, Hx, Hz, get8_zero. by destruct (x =? 0).
  - rewrite Hold by done. destruct (_ =? 0) eqn:E; [done|]. bool_to_prop. by rewrite Hblk.
Qed.

Lemma wf_extend sb ib v l v' l' bn x :
  file_wf sb ib v l -> length l' = 13%nat -> ind l' = ind l ->
  (forall a, data_ok sb ib v a -> data_ok sb ib v' a) -> data_ok sb ib v' x -> unused v l x ->
  addr_of v' l' bn = x -> (forall j, j <> bn -> (j < nblocks)%nat -> addr_of v' l' j = addr_of v l j) ->
  file_wf sb ib v' l'.
Proof.
  intros [H1 H2 H3 H4 H5] Hlen Hind Hd Hx (Hx0 & Hxi & Hxb) Hbn Hold. split; [done|..].
  - intros j Hj. destruct (decide (j = bn)) as [->|Hne]; [by rewrite Hbn|]. rewrite Hold by done. eauto.
  - rewrite Hind. eauto.
  - intros j j' Hj Hj' Hnz E.
    destruct (decide (j = bn)) as [->|Hn1], (decide (j' = bn)) as [->|Hn2]; [done|..].
    + rewrite Hbn, Hold in E by done. by destruct (Hxb j' Hj').
    + rewrite Hbn, Hold in E by done. by destruct (Hxb j Hj).
    + rewrite !Hold in * by done. eauto.
  - intros j Hj. rewrite Hind. destruct (decide (j = bn)) as [->|Hne]; [by rewrite Hbn|]. rewrite Hold by done. eauto.
Qed.

Lemma ind_insert bn x l : (bn < NDIRECT)%nat -> ind (<[bn := x]> l) = ind l.
Proof. intros Hb. unfold ind. rewrite list_lookup_insert_ne by lia. done. Qed.

Lemma assign_direct sb ib v l bn x : file_wf sb ib v l -> unused v l x -> data_ok sb ib v x ->
  tv_blk v x = zero_block -> (bn < NDIRECT)%nat -> addr_of v l bn = 0 ->
  extends sb ib v l v (<[bn := x]> l) bn x.
Proof.
  intros Hw Hu Hx Hz Hbn H0. pose proof (fw_len _ _ _ _ Hw) as Hl.
  assert (addr_of v (<[bn := x]> l) bn = x) as Hnew.
  { unfold addr_of. rewrite (proj2 (Nat.ltb_lt _ _) Hbn), list_lookup_insert_eq by (unfold NDIRECT in *; lia). done. }
  assert (forall j, j <> bn -> addr_of v (<[bn := x]> l) j = addr_of v l j) as Hold.
  { intros j Hj. unfold addr_of. rewrite ind_insert, list_lookup_insert_ne by done. done. }
  split; [|done|by intros; apply Hold|].
  - eapply (wf_extend _ _ v l v _ bn x); [done|by rewrite length_insert|by apply ind_insert|done|done|done|exact Hnew|].
    intros j Hj _. by apply Hold.
  - eapply extends_byte; [exact H0|exact Hnew|done|by intros; apply Hold|done].
Qed.

Lemma data_ok_write sb ib v b d a : data_ok sb ib v b -> data_ok sb ib v a -> data_ok sb ib (tv_write b d v) a.
Proof.
  intros Hb [H1 H2 H3 H4 H5]. split; try done. rewrite write_bits; [done|apply Hb|lia].
Qed.

Lemma fs_ready_write sb ib v b d : fs_ready sb ib v -> data_ok sb ib v b -> length d = BSIZE ->
  fs_ready sb ib (tv_write b d v).
Proof.
  intros [Hc Hb0 [Hi Hib] Hibm Hq] Hb Hd. pose proof (aw_size _ _ (ca_wf _ _ Hc)).
  split; try done.
  - apply can_alloc_write; [done|apply Hb|done].
  - rewrite write_bits; [done|apply Hb|lia].
  - split; [done|]. rewrite write_bits; [done|apply Hb|lia].
Qed.

Lemma assign_indirect sb ib v l bn x : file_wf sb ib v l -> unused v l x -> data_ok sb ib v x ->
  tv_blk v x = zero_block -> (NDIRECT <= bn < nblocks)%nat -> addr_of v l bn = 0 -> ind l <> 0 ->
  length (tv_blk v (ind l)) = BSIZE -> x < 4294967296 ->
  extends sb ib v l (tv_write (ind l) (put32 (4 * (bn - NDIRECT)) x (tv_blk v (ind l))) v) l bn x.
Proof.
  intros Hw Hu Hx Hz Hbn H0 Hi Hlen Hx32. set (v' := tv_write _ _ v).
  pose proof (fw_ind _ _ _ _ Hw Hi) as Hio. pose proof Hu as (Hx0 & Hxi & Hxb). pose proof (do_range _ _ _ _ Hx).
  assert (forall j, addr_of v' l j = if (j <? NDIRECT)%nat then default 0 (l !! j)
      else get32 (put32 (4 * (bn - NDIRECT)) x (tv_blk v (ind l))) (4 * (j - NDIRECT))) as Ha.
  { intros j. unfold addr_of. destruct (_ <? _)%nat; [done|]. rewrite (proj2 (Z.eqb_neq _ _) Hi).
    simpl. by rewrite upd_fn_eq. }
  assert (addr_of v' l bn = x) as Hnew.
  { rewrite Ha, (proj2 (Nat.ltb_ge _ _)) by lia.
    rewrite get32_put32 by (rewrite Hlen; unfold nblocks, NDIRECT, BSIZE in *; lia). by apply u32_small; lia. }
  assert (forall j, j <> bn -> addr_of v' l j = addr_of v l j) as Hold.
  { intros j Hj. rewrite Ha. unfold addr_of. destruct (Nat.ltb_spec j NDIRECT); [done|].
    rewrite (proj2 (Z.eqb_neq _ _) Hi). unfold put32. apply get32_put_out. simpl. lia. }
  split; [|done|by intros; apply Hold|].
  - eapply (wf_extend _ _ v l v' l bn x); [done|by apply Hw|done| |by apply data_ok_write|done|exact Hnew|by intros; apply Hold].
    intros a. by apply data_ok_write.
  - eapply extends_byte; [exact H0|exact Hnew| |by intros; apply Hold|].
    + simpl. by rewrite upd_fn_ne.
    + intros j Hj Hnz. simpl. rewrite upd_fn_ne; [done|]. pose proof (fw_apart _ _ _ _ Hw j Hj Hnz). congruence.
Qed.

Lemma get32_zero i : get32 zero_block i = 0.
Proof. unfold get32. by rewrite !get8_zero. Qed.

Lemma assign_ind sb ib v l x : file_wf sb ib v l -> unused v l x -> data_ok sb ib v x ->
  tv_blk v x = zero_block -> ind l = 0 ->
  file_wf sb ib v (<[NDIRECT := x]> l) /\ ind (<[NDIRECT := x]> l) = x /\
  (forall j, addr_of v (<[NDIRECT := x]> l) j = addr_of v l j).
Proof.
  intros [H1 H2 H3 H4 H5] (Hx0 & Hxi & Hxb) Hx Hz Hi.
  assert (ind (<[NDIRECT := x]> l) = x) as Hind.
  { unfold ind. rewrite list_lookup_insert_eq by (unfold NDIRECT; lia). done. }
  assert (forall j, addr_of v (<[NDIRECT := x]> l) j = addr_of v l j) as Ha.
  { intros j. unfold addr_of. rewrite Hind, Hi. destruct (Nat.ltb_spec j NDIRECT).
    - by rewrite list_lookup_insert_ne by lia.
    - rewrite (proj2 (Z.eqb_neq _ _) Hx0), Hz. apply get32_zero. }
  split_and!; [split|done|done].
  - by rewrite length_insert.
  - intros bn Hbn. rewrite Ha. eauto.
  - by rewrite Hind.
  - intros bn bn' Hb Hb'. rewrite !Ha. eauto.
  - intros bn Hbn _. rewrite Ha, Hind. by apply Hxb.
Qed.

(** ** Free blocks *)
Definition has_free (k : nat) (sb : superblock) (v : tview) : Prop :=
  exists X : gset Z, (k <= size X)%nat /\ forall x, x ∈ X -> 0 <= x < sb_size sb /\ bit_at sb (tv_blk v) x = false.

Lemma has_free_some k sb v : has_free (S k) sb v -> exists x, 0 <= x < sb_size sb /\ bit_at sb (tv_blk v) x = false.
Proof. intros (X & Hs & HX). destruct (size_pos_elem_of X) as [x Hx]; [lia|]. exists x. by apply HX. Qed.

Lemma has_free_le k k' sb v : (k' <= k)%nat -> has_free k sb v -> has_free k' sb v.
Proof. intros Hk (X & Hs & HX). exists X. split; [lia|done]. Qed.

Lemma has_free_allocated k sb v x : can_alloc sb v -> 0 <= x < sb_size sb -> bit_at sb (tv_blk v) x = false ->
  has_free (S k) sb v -> has_free k sb (allocated sb x v).
Proof.
  intros Hc Hx Hf (X & Hs & HX). exists (X ∖ {[x]}). split.
  - pose proof (size_add x (X ∖ {[x]})) as H. pose proof (subseteq_size X ({[x]} ∪ X ∖ {[x]})) as H'.
    assert (X ⊆ {[x]} ∪ X ∖ {[x]}) as Hsub by (intros y Hy; destruct (decide (y = x)); set_solver).
    specialize (H' Hsub). lia.
  - intros y [Hy Hne]%elem_of_difference. destruct (HX y Hy) as [Hr Hb]. split; [done|].
    rewrite allocated_bits, Hb by done. rewrite (proj2 (Z.eqb_neq _ _)); [done|set_solver].
Qed.

(** An allocated block that belongs neither to the bitmap nor to the file. *)
Record other (sb : superblock) (v : tview) (l : list Z) (b : Z) : Prop := {
  ot_range : 0 < b < sb_size sb;
  ot_bit : bit_at sb (tv_blk v) b = true;
  ot_bmap : forall y, 0 <= y < sb_size sb -> b <> BBLOCK y sb;
  ot_ind : b <> ind l;
  ot_data : forall j, (j < nblocks)%nat -> addr_of v l j <> b;
}.

(** Adding the free block [x] to the file leaves the other blocks alone. *)
Lemma other_extend sb v l v' l' b x :
  other sb v l b -> bit_at sb (tv_blk v) x = false ->
  (forall y, 0 <= y < sb_size sb -> bit_at sb (tv_blk v) y = true -> bit_at sb (tv_blk v') y = true) ->
  ind l' = ind l \/ ind l' = x ->
  (forall j, (j < nblocks)%nat -> addr_of v' l' j = addr_of v l j \/ addr_of v' l' j = x) ->
  other sb v' l' b.
Proof.
  intros [H1 H2 H3 H4 H5] Hx Hbits Hi Ha. assert (b <> x) by congruence. split; [done| |done| |].
  - apply Hbits; [lia|done].
  - destruct Hi as [->| ->]; congruence.
  - intros j Hj. destruct (Ha j Hj) as [->| ->]; [by apply H5|congruence].
Qed.

(** What [bmap] guarantees when it maps file block [bn] to block [a], logging at
    most [lg] blocks and allocating at most [fr]. *)
Record mapped (lg fr : nat) (sb : superblock) (ib : Z) (v : tview) (l : list Z) (v' : tview) (l' : list Z) (bn : nat) (a : Z) : Prop := {
  mp_ready : fs_ready sb ib v';
  mp_wf : file_wf sb ib v' l';
  mp_addr : addr_of v' l' bn = a /\ a <> 0;
  mp_keep : forall j, (j < nblocks)%nat -> addr_of v l j <> 0 -> addr_of v' l' j = addr_of v l j;
  mp_byte : forall k, 0 <= k < Z.of_nat nblocks * bs -> file_byte v' l' k = file_byte v l k;
  mp_cfg : tv_n v' = tv_n v /\ tv_limit v' = tv_limit v /\ tv_held v' = tv_held v /\ tv_mod v' = tv_mod v;
  mp_logged : exists e : gset Z, (size e <= lg)%nat /\ tv_logged v' = e ∪ tv_logged v;
  mp_free : forall k, has_free (fr + k) sb v -> has_free k sb v';
  mp_noop : addr_of v l bn <> 0 -> v' = v /\ l' = l;
  mp_frame : forall b, other sb v l b -> other sb v' l' b /\ tv_blk v' b = tv_blk v b;
}.

Section Bmap.
Context {T : Type} {HT : TxBlocks T} {HTL : TxBlocksLaws T}.
Implicit Types (s : fs T) (v : tview).

(** The state [s] with block addresses [l] in inode [ip], over the blocks [t]. *)
Definition with_addrs s (ip : nat) (l : list Z) (t : T) : fs T :=
  Fs (ic_lock s) (alter (upd_i_addrs (fun _ => l)) ip (inodes s)) (fsb s) t.

Lemma with_addrs_at s ip l t : (ip < length (inodes s))%nat ->
  inode_at (with_addrs s ip l t) ip = upd_i_addrs (fun _ => l) (inode_at s ip).
Proof.
  intros Hip. unfold inode_at, with_addrs. simpl. rewrite list_lookup_alter_eq.
  by destruct (lookup_lt_is_Some_2 _ _ Hip) as [x ->].
Qed.

Lemma with_addrs_id s ip t : (ip < length (inodes s))%nat ->
  with_addrs s ip (i_addrs (inode_at s ip)) t = on_tx s t.
Proof.
  intros Hip. unfold with_addrs, on_tx. f_equal. destruct (lookup_lt_is_Some_2 _ _ Hip) as [x Hx].
  unfold inode_at. rewrite Hx. simpl. apply list_eq. intros j. destruct (decide (ip = j)) as [->|Hne].
  - rewrite list_lookup_alter_eq, Hx. simpl. by destruct x.
  - by rewrite list_lookup_alter_ne.
Qed.

Lemma with_addrs_set s ip l t i a :
  upd_inodes (alter (upd_i_addrs (fun l => <[i := a]> l)) ip) (with_addrs s ip l t) = with_addrs s ip (<[i := a]> l) t.
Proof.
  unfold with_addrs, upd_inodes. simpl. f_equal. apply list_eq. intros j. destruct (decide (ip = j)) as [->|Hne].
  - rewrite !list_lookup_alter_eq. by destruct (inodes s !! j).
  - by rewrite !list_lookup_alter_ne.
Qed.

Lemma on_with_addrs s ip l t t' : on_tx (with_addrs s ip l t) t' = with_addrs s ip l t'.
Proof. done. Qed.

Lemma can_alloc_hold sb v b : can_alloc sb v -> (forall y, 0 <= y < sb_size sb -> b <> BBLOCK y sb) ->
  bit_at sb (tv_blk v) b = true -> can_alloc sb (tv_hold b v).
Proof.
  intros [[H1 H2 H3 H4] Hn Hq Hf] Hb Hbit. split; [by split|done| |].
  - intros x Hx. destruct (Hq x Hx). split; [simpl; pose proof (Hb x Hx); set_solver|done].
  - intros x Hx Hx0. destruct (Hf x Hx Hx0). split; [simpl|done].
    assert (x <> b) by (intros ->; simpl in Hx0; congruence). set_solver.
Qed.

Lemma room_mono k k' v : (k' <= k)%nat -> room k v -> room k' v.
Proof. intros Hk [H1 H2]. split; lia. Qed.

Lemma room_hold k v b : room (S k) v -> room k (tv_hold b v).
Proof.
  intros [H1 H2]. split; simpl; [lia|]. pose proof (size_add b (tv_logged v ∪ tv_held v)).
  replace (tv_logged v ∪ ({[b]} ∪ tv_held v)) with ({[b]} ∪ (tv_logged v ∪ tv_held v)) by set_solver. lia.
Qed.

(** The view after a direct block has been added. *)
Lemma mapped_direct sb ib v l bn x : fs_ready sb ib v -> file_wf sb ib v l -> (bn < NDIRECT)%nat -> addr_of v l bn = 0 ->
  0 <= x < sb_size sb -> bit_at sb (tv_blk v) x = false ->
  mapped 2 1 sb ib v l (allocated sb x v) (<[bn := x]> l) bn x.
Proof.
  intros Hr Hw Hbn H0 Hx Hf. pose proof (fr_alloc _ _ _ Hr) as Hc.
  destruct (data_ok_new sb ib v x Hr Hx Hf) as [Hdx Hz].
  destruct (file_allocated sb ib v x l Hc Hx Hf Hw) as (Hw' & Ha & Hb).
  destruct (assign_direct sb ib (allocated sb x v) l bn x Hw' (unused_new sb ib v x l Hr Hw Hx Hf) Hdx Hz Hbn)
    as [E1 E2 E3 E4]; [by rewrite Ha|].
  split.
  - by apply fs_ready_allocated.
  - done.
  - split; [done|]. pose proof (do_range _ _ _ _ Hdx). lia.
  - intros j Hj Hnz. rewrite E3, Ha; [done|by intros ->|done].
  - intros k Hk. by rewrite E4, Hb.
  - done.
  - exists {[x; BBLOCK x sb]}. split; [|simpl; set_solver].
    etrans; [apply size_add|]. rewrite size_singleton. lia.
  - intros k Hk. by apply has_free_allocated.
  - done.
  - intros b Ho. pose proof Ho as [O1 O2 O3 O4 O5]. split; [|apply allocated_frame; (done || lia)].
    apply (other_extend sb v l _ _ b x); [done|done| | |].
    + intros y Hy Hb1. rewrite allocated_bits, Hb1 by done. apply orb_true_r.
    + left. by apply ind_insert.
    + intros j Hj. destruct (decide (j = bn)) as [->|Hne]; [by right|left]. by rewrite E3, Ha.
Qed.

Lemma mapped_mono lg fr lg' fr' sb ib v l v' l' bn a : (lg <= lg')%nat -> (fr <= fr')%nat ->
  mapped lg fr sb ib v l v' l' bn a -> mapped lg' fr' sb ib v l v' l' bn a.
Proof.
  intros Hl Hf []. split; try done.
  - destruct mp_logged0 as (e & He & ->). exists e. split; [lia|done].
  - intros k Hk. apply mp_free0. eapply has_free_le; [|exact Hk]. lia.
Qed.

Lemma mapped_noop sb ib v l bn : fs_ready sb ib v -> file_wf sb ib v l -> addr_of v l bn <> 0 ->
  mapped 0 0 sb ib v l v l bn (addr_of v l bn).
Proof. intros Hr Hw Hn. split; try done. exists ∅. split; [by rewrite size_empty|set_solver]. Qed.

(** Allocating the indirect block changes no address. *)
Record ind_made (sb : superblock) (ib : Z) v (l : list Z) v1 (l1 : list Z) : Prop := {
  im_ready : fs_ready sb ib v1;
  im_wf : file_wf sb ib v1 l1;
  im_ind : ind l1 <> 0;
  im_addr : forall j, addr_of v1 l1 j = addr_of v l j;
  im_byte : forall k, 0 <= k < Z.of_nat nblocks * bs -> file_byte v1 l1 k = file_byte v l k;
  im_cfg : tv_n v1 = tv_n v /\ tv_limit v1 = tv_limit v /\ tv_held v1 = tv_held v /\ tv_mod v1 = tv_mod v;
  im_logged : exists e : gset Z, (size e <= 2)%nat /\ tv_logged v1 = e ∪ tv_logged v;
  im_free : forall k, has_free (S k) sb v -> has_free k sb v1;
  im_noop : ind l <> 0 -> v1 = v /\ l1 = l;
  im_frame : forall b, other sb v l b -> other sb v1 l1 b /\ tv_blk v1 b = tv_blk v b;
}.

Lemma ind_made_noop sb ib v l : fs_ready sb ib v -> file_wf sb ib v l -> ind l <> 0 -> ind_made sb ib v l v l.
Proof.
  intros Hr Hw Hn. split; try done.
  - exists ∅. split; [rewrite size_empty; lia|set_solver].
  - intros k Hk. by eapply has_free_le; [|exact Hk]; lia.
Qed.

Lemma ind_made_new sb ib v l x : fs_ready sb ib v -> file_wf sb ib v l -> ind l = 0 ->
  0 <= x < sb_size sb -> bit_at sb (tv_blk v) x = false ->
  ind_made sb ib v l (allocated sb x v) (<[NDIRECT := x]> l).
Proof.
  intros Hr Hw Hi Hx Hf. pose proof (fr_alloc _ _ _ Hr) as Hc.
  destruct (data_ok_new sb ib v x Hr Hx Hf) as [Hdx Hz].
  destruct (file_allocated sb ib v x l Hc Hx Hf Hw) as (Hw' & Ha & Hb).
  destruct (assign_ind sb ib (allocated sb x v) l x Hw' (unused_new sb ib v x l Hr Hw Hx Hf) Hdx Hz Hi) as (E1 & E2 & E3).
  pose proof (do_range _ _ _ _ Hdx).
  split.
  - by apply fs_ready_allocated.
  - done.
  - rewrite E2. lia.
  - intros j. by rewrite E3, Ha.
  - intros k Hk. rewrite <- Hb by done. unfold file_byte. by rewrite E3.
  - done.
  - exists {[x; BBLOCK x sb]}. split; [|simpl; set_solver].
    etrans; [apply size_add|]. rewrite size_singleton. lia.
  - intros k Hk. by apply has_free_allocated.
  - done.
  - intros b Ho. pose proof Ho as [O1 O2 O3 O4 O5]. split; [|apply allocated_frame; (done || lia)].
    apply (other_extend sb v l _ _ b x); [done|done| |by right|].
    + intros y Hy Hb1. rewrite allocated_bits, Hb1 by done. apply orb_true_r.
    + intros j Hj. left. by rewrite E3, Ha.
Qed.

Lemma mapped_compose lg fr sb ib v l v1 l1 v' l' bn a :
  ind_made sb ib v l v1 l1 -> mapped lg fr sb ib v1 l1 v' l' bn a -> addr_of v l bn = 0 \/ (v1 = v /\ l1 = l) ->
  mapped (2 + lg) (1 + fr) sb ib v l v' l' bn a.
Proof.
  intros [I1 I2 I3 I4 I5 I6 I7 I8 I9 I10] [M1 M2 M3 M4 M5 M6 M7 M8 M9 M10] Hno. split; try done.
  - intros j Hj Hnz. rewrite M4; [done|done|]. by rewrite I4.
  - intros k Hk. by rewrite M5, I5.
  - destruct M6 as (-> & -> & -> & ->). done.
  - destruct I7 as (e & He & E1), M7 as (e' & He' & E2). exists (e' ∪ e). split; [|rewrite E2, E1; set_solver].
    rewrite size_union_alt. pose proof (subseteq_size (e ∖ e') e ltac:(set_solver)). lia.
  - intros k Hk. by apply M8, I8.
  - intros Hnz. destruct Hno as [?|[-> ->]]; [done|]. by apply M9.
  - intros b Ho. destruct (I10 b Ho) as [O1 E1]. destruct (M10 b O1) as [O2 E2]. split; [done|congruence].
Qed.

(** The view after a block has been added through the indirect block. *)
Definition ind_write (l : list Z) (bn : nat) (y : Z) v : tview :=
  tv_write (ind l) (put32 (4 * (bn - NDIRECT)) y (tv_blk v (ind l))) v.

Lemma mapped_indirect sb ib v l bn y : fs_ready sb ib v -> file_wf sb ib v l -> (NDIRECT <= bn < nblocks)%nat ->
  addr_of v l bn = 0 -> ind l <> 0 -> 0 <= y < sb_size sb -> bit_at sb (tv_blk v) y = false ->
  mapped 3 1 sb ib v l (ind_write l bn y (allocated sb y v)) l bn y.
Proof.
  intros Hr Hw Hbn H0 Hi Hy Hf. pose proof (fr_alloc _ _ _ Hr) as Hc.
  destruct (data_ok_new sb ib v y Hr Hy Hf) as [Hdy Hz].
  destruct (file_allocated sb ib v y l Hc Hy Hf Hw) as (Hw' & Ha & Hb).
  pose proof (fs_ready_allocated _ _ _ _ Hr Hy Hf) as Hr'.
  pose proof (fw_ind _ _ _ _ Hw' Hi) as Hio. pose proof (do_range _ _ _ _ Hio) as Hir.
  pose proof (fr_alloc _ _ _ Hr') as [Haw Hn' _ _].
  assert (length (tv_blk (allocated sb y v) (ind l)) = BSIZE) as Hlen.
  { apply (aw_len _ _ Haw). pose proof (aw_size _ _ Haw). lia. }
  pose proof (aw_size _ _ Haw) as Hsz.
  destruct (assign_indirect sb ib (allocated sb y v) l bn y Hw' (unused_new sb ib v y l Hr Hw Hy Hf) Hdy Hz Hbn)
    as [E1 E2 E3 E4]; [by rewrite Ha|done|done|lia|].
  split.
  - apply fs_ready_write; [done|done|]. unfold put32. by rewrite length_put_bytes.
  - done.
  - split; [done|]. pose proof (do_range _ _ _ _ Hdy). lia.
  - intros j Hj Hnz. unfold ind_write. rewrite E3, Ha; [done|by intros ->|done].
  - intros k Hk. unfold ind_write. by rewrite E4, Hb.
  - done.
  - exists {[ind l; y; BBLOCK y sb]}. split; [|simpl; set_solver].
    replace {[ind l; y; BBLOCK y sb]} with (({[ind l]} : gset Z) ∪ ({[y]} ∪ {[BBLOCK y sb]})) by set_solver.
    etrans; [apply size_add|]. apply le_n_S. etrans; [apply size_add|]. by rewrite size_singleton.
  - intros k Hk. destruct (has_free_allocated k sb v y Hc Hy Hf Hk) as (X & HX & Hx). exists X. split; [done|].
    intros z Hz'. destruct (Hx z Hz'). split; [done|]. unfold ind_write. rewrite write_bits; [done|apply Hio|done].
  - done.
  - intros b Ho. pose proof Ho as [O1 O2 O3 O4 O5]. split.
    + apply (other_extend sb v l _ _ b y); [done|done| |by left|].
      * intros z Hz' Hb1. unfold ind_write. rewrite write_bits; [|apply Hio|done].
        rewrite allocated_bits, Hb1 by done. apply orb_true_r.
      * intros j Hj. destruct (decide (j = bn)) as [->|Hne]; [by right|left]. unfold ind_write. by rewrite E3, Ha.
    + unfold ind_write. cbn [tv_blk tv_write]. rewrite upd_fn_ne by done. apply allocated_frame; (done || lia).
Qed.

(** The inode [ip] in memory, with the addresses [l]. *)
Definition inode_has s (ip : nat) (l : list Z) : Prop :=
  (ip < length (inodes s))%nat /\ i_dev (inode_at s ip) = 1 /\ i_addrs (inode_at s ip) = l.

Lemma with_addrs_self s ip l : inode_has s ip l -> with_addrs s ip l (ftx s) = s.
Proof. intros (Hip & _ & <-). rewrite with_addrs_id by done. by destruct s. Qed.

Lemma wp_set_addr s ip l t i a (Q : unit -> fs T -> Prop) :
  Q tt (with_addrs s ip (<[i := a]> l) t) -> wp (set_addr ip i a) Q (with_addrs s ip l t).
Proof. intros HQ. apply wp_modify. by rewrite with_addrs_set. Qed.

Lemma room_ind v v1 (k : nat) : (exists e : gset Z, (size e <= 2)%nat /\ tv_logged v1 = e ∪ tv_logged v) ->
  tv_held v1 = tv_held v -> tv_limit v1 = tv_limit v -> room (2 + k) v -> room k v1.
Proof.
  intros (e & He & E) Eh El [R1 R2]. unfold room. rewrite E, Eh, El.
  assert (forall X : gset Z, size (e ∪ X) <= size e + size X)%nat as Hs.
  { intros X. rewrite size_union_alt. pose proof (subseteq_size (X ∖ e) X ltac:(set_solver)). lia. }
  replace (e ∪ tv_logged v ∪ tv_held v) with (e ∪ (tv_logged v ∪ tv_held v)) by set_solver.
  pose proof (Hs (tv_logged v)). pose proof (Hs (tv_logged v ∪ tv_held v)). split; lia.
Qed.

(** The first half of the indirect case: make sure there is an indirect block. *)
Lemma wp_get_ind s v ip l ib (Q : Z -> fs T -> Prop) :
  inode_has s ip l -> tabs (ftx s) v -> fs_ready (fsb s) ib v -> file_wf (fsb s) ib v l ->
  (ind l = 0 -> room 2 v /\ has_free 1 (fsb s) v) ->
  (forall t v1 l1, tabs t v1 -> ind_made (fsb s) ib v l v1 l1 -> hkeeps v (ftx s) t ->
     Q (ind l1) (with_addrs s ip l1 t)) ->
  wp (addr ← get_addr ip NDIRECT;
      if addr =? 0 then
        addr ← balloc 1;
        set_addr ip NDIRECT addr ;;
        ret addr
      else ret addr) Q s.
Proof.
  intros (Hip & Hdev & Hl) Ha Hr Hw Hroom HQ. unfold get_addr, geti. apply wp_bind, wp_gets. rewrite Hl.
  change (default 0 (l !! NDIRECT)) with (ind l). destruct (ind l =? 0) eqn:E; bool_to_prop.
  - destruct (Hroom E) as [Hrm Hfr]. pose proof (fr_alloc _ _ _ Hr) as Hc. apply wp_bind.
    eapply wp_balloc; [done..|by eapply has_free_some|]. intros x t Hx Hf _ Ht Hk.
    apply wp_bind. rewrite <- (with_addrs_id s ip t Hip), Hl. apply wp_set_addr, wp_ret.
    pose proof (ind_made_new _ _ _ _ _ Hr Hw E Hx Hf) as Hm.
    assert (ind (<[NDIRECT := x]> l) = x) as Ei.
    { unfold ind. rewrite list_lookup_insert_eq by (rewrite (fw_len _ _ _ _ Hw); unfold NDIRECT; lia). done. }
    rewrite <- Ei at 1. by eapply HQ.
  - apply wp_ret. pose proof (HQ (ftx s) v l Ha (ind_made_noop _ _ _ _ Hr Hw E) (hkeeps_refl v _)) as H.
    by rewrite (with_addrs_self s ip l) in H.
Qed.

Lemma addr_of_indirect v l bn : (NDIRECT <= bn)%nat -> ind l <> 0 ->
  addr_of v l bn = get32 (tv_blk v (ind l)) (4 * (bn - NDIRECT)).
Proof. intros Hb Hi. unfold addr_of. by rewrite (proj2 (Nat.ltb_ge _ _) Hb), (proj2 (Z.eqb_neq _ _) Hi). Qed.

(** The second half: the entry of the indirect block. *)
Lemma wp_get_entry s v l ib bn (Q : Z -> fs T -> Prop) :
  tabs (ftx s) v -> fs_ready (fsb s) ib v -> file_wf (fsb s) ib v l -> (NDIRECT <= bn < nblocks)%nat ->
  ind l <> 0 -> room 1 v -> (addr_of v l bn = 0 -> room 4 v /\ has_free 1 (fsb s) v) ->
  (forall t v' a, tabs t v' -> mapped 3 1 (fsb s) ib v l v' l bn a -> hkeeps v (ftx s) t -> Q a (on_tx s t)) ->
  wp (bp ← fs_bread 1 (ind l);
      d ← fs_data bp;
      let addr := get32 d (4 * (bn - NDIRECT)) in
      addr ← (if addr =? 0 then
                addr ← balloc 1;
                fs_set_data bp (put32 (4 * (bn - NDIRECT)) addr) ;;
                fs_log_write bp ;;
                ret addr
              else ret addr);
      fs_brelse bp ;;
      ret addr) Q s.
Proof.
  intros Ha Hr Hw Hbn Hi Hr1 Hrm HQ. pose proof (fr_alloc _ _ _ Hr) as Hc. pose proof Hc as [Haw Hn _ _].
  pose proof (fw_ind _ _ _ _ Hw Hi) as [Hir Hibit Hibm _ [Hiq1 Hiq2]]. pose proof (aw_size _ _ Haw) as Hsz.
  apply wp_bind. eapply wp_fs_bread; [done|lia|done|by eapply room_avail|]. intros i t Ht Hh Hk.
  apply wp_bind. eapply wp_fs_data; [done..|]. cbv zeta. cbn [tv_blk tv_hold].
  rewrite <- addr_of_indirect by (done || lia). apply wp_bind.
  destruct (addr_of v l bn =? 0) eqn:E; bool_to_prop.
  - destruct (Hrm E) as [Hr4 Hfree].
    apply wp_bind. eapply (wp_balloc _ (tv_hold (ind l) v)).
    { by apply can_alloc_hold. }
    { apply room_hold. by eapply room_mono; [|exact Hr4]; lia. }
    { done. }
    { by eapply has_free_some. }
    intros y t1 Hy Hf _ Ht1 Hk1. cbn [fsb on_tx] in *. apply wp_bind.
    assert (thandle t1 i (ind l)) as Hh1 by (apply Hk1; [simpl; set_solver|done]).
    eapply wp_fs_set_data; [exact Ht1|done|]. intros t2 Ht2 Hk2. apply wp_bind.
    eapply wp_fs_log_write; [exact Ht2|by apply Hk2| |].
    { simpl. destruct Hr4 as [R _]. pose proof (size_add y ({[BBLOCK y (fsb s)]} ∪ tv_logged v)).
      pose proof (size_add (BBLOCK y (fsb s)) (tv_logged v)). lia. }
    intros t3 Ht3 Hk3. apply wp_ret, wp_bind.
    eapply wp_fs_brelse; [exact Ht3|by apply Hk3, Hk2|simpl; set_solver|]. intros t4 Ht4 Hk4. apply wp_ret.
    eapply HQ; [|by apply mapped_indirect|].
    + eapply tabs_ext; [exact Ht4|done|simpl; set_solver|done|simpl; set_solver|simpl; set_solver|].
      intros b Hb. done.
    + intros j x Hx Hj. apply Hk4; [set_solver|]. apply Hk3, Hk2, Hk1; [simpl; set_solver|]. by apply Hk.
  - apply wp_ret, wp_bind. eapply (wp_release_read _ v); [exact Ht|exact Hh|done|done|]. intros t2 Ht2 Hk2. apply wp_ret.
    eapply (HQ t2 v); [done|eapply mapped_mono; [| |by apply mapped_noop]; lia|].
    eapply hkeeps_trans; [by apply tkeeps_hkeeps|exact Hk2].
Qed.

Lemma wp_bmap s v ip l ib bn (Q : Z -> fs T -> Prop) :
  inode_has s ip l -> tabs (ftx s) v -> fs_ready (fsb s) ib v -> file_wf (fsb s) ib v l ->
  0 <= bn < Z.of_nat nblocks -> room 1 v ->
  (addr_of v l (Z.to_nat bn) = 0 -> room 6 v /\ has_free 2 (fsb s) v) ->
  (forall t v' l' a, tabs t v' -> mapped 5 2 (fsb s) ib v l v' l' (Z.to_nat bn) a -> hkeeps v (ftx s) t ->
     Q a (with_addrs s ip l' t)) ->
  wp (bmap ip bn) Q s.
Proof.
  intros Hin Ha Hr Hw Hbn Hr1 Hrm HQ. pose proof Hin as (Hip & Hdev & Hl). pose proof (fr_alloc _ _ _ Hr) as Hc.
  unfold bmap. apply wp_bind, wp_gets. rewrite Hdev. destruct (bn <? Z.of_nat NDIRECT) eqn:E; bool_to_prop.
  - assert (Z.to_nat bn < NDIRECT)%nat as Hlt by lia.
    assert (addr_of v l (Z.to_nat bn) = default 0 (l !! Z.to_nat bn)) as Ea.
    { unfold addr_of. by rewrite (proj2 (Nat.ltb_lt _ _) Hlt). }
    unfold get_addr, geti. apply wp_bind, wp_gets. rewrite Hl, <- Ea.
    destruct (_ =? 0) eqn:E0; bool_to_prop.
    + destruct (Hrm E0) as [Hr6 Hfr]. apply wp_bind.
      eapply wp_balloc; [done|by eapply room_mono; [|exact Hr6]; lia|done|by eapply has_free_some|].
      intros x t Hx Hf _ Ht Hk. apply wp_bind. rewrite <- (with_addrs_id s ip t Hip), Hl. apply wp_set_addr, wp_ret.
      eapply HQ; [done| |done]. eapply mapped_mono; [| |by apply mapped_direct]; lia.
    + apply wp_ret. rewrite <- (with_addrs_self s ip l Hin) at 1.
      eapply HQ; [done|eapply mapped_mono; [| |by apply mapped_noop]; lia|apply hkeeps_refl].
  - rewrite (proj2 (Z.ltb_lt (bn - Z.of_nat NDIRECT) (Z.of_nat NINDIRECT)))
      by (unfold nblocks, NDIRECT, NINDIRECT in *; lia).
    assert (NDIRECT <= Z.to_nat bn < nblocks)%nat as Hbn' by lia.
    replace (Z.to_nat (bn - Z.of_nat NDIRECT)) with (Z.to_nat bn - NDIRECT)%nat by lia.
    match goal with |- wp (bind ?m (fun addr => bind (@?f addr) ?k)) _ _ =>
      enough (wp (bind (bind m f) k) Q s) as H by (unfold wp in *; by rewrite bind_assoc in H) end.
    apply wp_bind. eapply (wp_get_ind s v ip l ib); [done..| |].
    { intros Ei. assert (addr_of v l (Z.to_nat bn) = 0) as H0.
      { unfold addr_of. rewrite (proj2 (Nat.ltb_ge _ _)) by lia. by rewrite Ei. }
      destruct (Hrm H0) as [H6 Hf]. split; [by eapply room_mono; [|exact H6]; lia|].
      by eapply has_free_le; [|exact Hf]; lia. }
    intros t v1 l1 Ht Him Hk. pose proof Him as [I1 I2 I3 I4 I5 I6 I7 I8 I9 I10].
    destruct I6 as (In & Il & Ih & Imod).
    eapply (wp_get_entry (with_addrs s ip l1 t) v1 l1 ib); [exact Ht|exact I1|exact I2|exact Hbn'|exact I3| | |].
    + destruct (decide (ind l = 0)) as [Ei|Ei]; [|by destruct (I9 Ei) as [-> ->]].
      assert (addr_of v l (Z.to_nat bn) = 0) as H0.
      { unfold addr_of. rewrite (proj2 (Nat.ltb_ge _ _)) by lia. by rewrite Ei. }
      destruct (Hrm H0) as [H6 _]. eapply room_mono; [|by eapply (room_ind v v1 4)]; lia.
    + rewrite I4. intros H0. destruct (Hrm H0) as [H6 Hf]. split; [by eapply (room_ind v v1 4)|]. by apply I8.
    + intros t' v' a Ht' Hm Hk'. eapply (HQ t' v' l1); [done| |].
      * apply (mapped_compose 3 1 _ _ _ _ v1 l1); [done|done|].
        destruct (decide (ind l = 0)) as [Ei|Ei]; [left|right; by apply I9].
        unfold addr_of. rewrite (proj2 (Nat.ltb_ge _ _)) by lia. by rewrite Ei.
      * eapply hkeeps_trans; [exact Hk|]. intros j x Hx. apply Hk'. by rewrite Ih.
Qed.

End Bmap.
