(* ===== verification/FsRw.v ===== *)
(** * Reading and writing files (readi and writei of fs.c)

    Total correctness of the two loops in terms of the bytes of the file. *)
From S2P Require Import Prelude Block Log Tx Sleeplock Fs FsAlloc FsFile.

Lemma room_mapped lg fr sb ib v l v' l' bn a k {T} {HT : TxBlocks T} :
  mapped lg fr sb ib v l v' l' bn a -> room (lg + k) v -> room k v'.
Proof.
  intros Hm [R1 R2]. destruct (mp_logged _ _ _ _ _ _ _ _ _ _ Hm) as (e & He & E).
  destruct (mp_cfg _ _ _ _ _ _ _ _ _ _ Hm) as (_ & El & Eh & _). unfold room. rewrite E, Eh, El.
  assert (forall X : gset Z, size (e ∪ X) <= size e + size X)%nat as Hs.
  { intros X. rewrite size_union_alt. pose proof (subseteq_size (X ∖ e) X ltac:(set_solver)). lia. }
  replace (e ∪ tv_logged v ∪ tv_held v) with (e ∪ (tv_logged v ∪ tv_held v)) by set_solver.
  pose proof (Hs (tv_logged v)). pose proof (Hs (tv_logged v ∪ tv_held v)). split; lia.
Qed.

(** The bytes [off .. off+m) of a file that lie in one block. *)
Lemma chunk_bytes v l a off m : 0 <= off -> 0 <= m -> off mod bs + m <= bs ->
  length (tv_blk v a) = BSIZE -> a <> 0 -> addr_of v l (Z.to_nat (off / bs)) = a ->
  get_bytes (Z.to_nat (off mod bs)) (Z.to_nat m) (tv_blk v a) = file_byte v l <$> seqZ off m.
Proof.
  intros Hoff Hm Hfit Hlen Ha Haddr. unfold bs in *. change (Z.of_nat BSIZE) with 512 in *. unfold BSIZE in *.
  pose proof (Z.mod_pos_bound off 512 ltac:(lia)) as Hmod.
  apply list_eq. intros i. rewrite list_lookup_fmap. unfold get_bytes.
  destruct (decide (i < Z.to_nat m)%nat) as [Hi|Hi].
  - rewrite lookup_take_lt, lookup_drop by lia. rewrite lookup_seqZ_lt by lia. simpl.
    assert ((off + Z.of_nat i) / 512 = off / 512) as E1 by (zdm).
    assert ((off + Z.of_nat i) mod 512 = off mod 512 + Z.of_nat i) as E2 by (zdm).
    unfold file_byte, bs. change (Z.of_nat BSIZE) with 512. rewrite E1, E2, Haddr, (proj2 (Z.eqb_neq _ _) Ha).
    replace (Z.to_nat (off mod 512 + Z.of_nat i)) with (Z.to_nat (off mod 512) + i)%nat by lia.
    unfold get8. destruct (lookup_lt_is_Some_2 (tv_blk v a) (Z.to_nat (off mod 512) + i)) as [x Hx]; [lia|].
    by rewrite Hx.
  - rewrite lookup_take_ge by lia. rewrite lookup_seqZ_ge by lia. done.
Qed.

(** A round of the loops: how far it gets, and that the offset stays in range. *)
Lemma round_step off rem : 0 <= off -> 0 < rem -> off + rem <= 71680 ->
  let m := Z.min rem (bs - off mod bs) in
  0 < m <= rem /\ off mod bs + m <= bs /\ u32 (off + m) = off + m /\
  (m = rem \/ (off + m) mod bs = 0 /\ m = bs - off mod bs) /\ 0 <= off / bs < Z.of_nat nblocks.
Proof.
  intros Hoff Hrem Hfit m. unfold m, bs, nblocks. change (Z.of_nat BSIZE) with 512.
  pose proof (Z.mod_pos_bound off 512 ltac:(lia)). rewrite u32_small by lia.
  split_and!; try lia; [|zdm|zdm].
  destruct (Z.min_spec rem (512 - off mod 512)) as [[_ ->]|[_ ->]]; [by left|right]. split; [zdm|lia].
Qed.

(** Enough rounds for [rem] bytes from [off] on. *)
Definition rounds (r : Z) (off rem : Z) : Prop := rem = 0 /\ 0 <= r \/ off mod bs + rem <= bs * r.

Lemma rounds_step r off rem : 0 <= off -> 0 < rem -> off + rem <= 71680 -> rounds r off rem ->
  let m := Z.min rem (bs - off mod bs) in rounds (r - 1) (off + m) (rem - m) /\ 1 <= r.
Proof.
  intros Hoff Hrem Hfit Hr m. destruct (round_step off rem Hoff Hrem Hfit) as (Hm & Hfits & _ & Hcase & _).
  fold m in Hm, Hfits, Hcase. pose proof (Z.mod_pos_bound off bs ltac:(done)).
  unfold rounds in *. assert (1 <= r).
  { destruct Hr as [|Hr]; [lia|]. unfold bs in *. change (Z.of_nat BSIZE) with 512 in *. lia. }
  split; [|done]. destruct Hr as [|Hr]; [lia|]. destruct Hcase as [->|[E1 E2]]; [left; lia|right]. rewrite E1.
  unfold bs in *. change (Z.of_nat BSIZE) with 512 in *. lia.
Qed.

Lemma io_rounds off n : 0 <= off -> 0 <= n -> rounds (Z.of_nat (io_fuel n) - 1) off n.
Proof.
  intros Hoff Hn. right. unfold io_fuel, bs. change (Z.of_nat BSIZE) with 512.
  pose proof (Z.mod_pos_bound off 512 ltac:(lia)). assert (0 <= n / 512) by (apply Z.div_pos; lia). zdm.
Qed.

Section Read.
Context {T : Type} {HT : TxBlocks T} {HTL : TxBlocksLaws T}.
Implicit Types (s : fs T) (v : tview).

(** There are no holes in the bytes [off .. off+n). *)
Definition dense v (l : list Z) (off n : Z) : Prop :=
  forall k, off <= k < off + n -> addr_of v l (Z.to_nat (k / bs)) <> 0.

Lemma wp_readi_loop fuel s v ip l ib off tot n (Q : list Z -> fs T -> Prop) :
  inode_has s ip l -> tabs (ftx s) v -> fs_ready (fsb s) ib v -> file_wf (fsb s) ib v l -> room 1 v ->
  0 <= off -> 0 <= tot <= n -> n <= 71680 -> off + (n - tot) <= 71680 -> dense v l off (n - tot) ->
  rounds (Z.of_nat fuel - 1) off (n - tot) ->
  (forall t, tabs t v -> hkeeps v (ftx s) t -> Q (file_byte v l <$> seqZ off (n - tot)) (on_tx s t)) ->
  wp (readi_loop fuel ip off tot n) Q s.
Proof.
  revert s off tot Q. induction fuel as [|fuel IH]; intros s off tot Q Hin Ha Hr Hw Hrm Hoff Htot Hn Hfit Hd Hfuel HQ.
  { destruct Hfuel as [[_ ?]|Hf]; [lia|]. exfalso. pose proof (Z.mod_pos_bound off bs ltac:(done)).
    unfold bs in *. change (Z.of_nat BSIZE) with 512 in *. lia. }
  simpl. destruct (tot <? n) eqn:E; bool_to_prop.
  2: { apply wp_ret. pose proof (HQ (ftx s) Ha (hkeeps_refl v _)) as H. rewrite seqZ_nil in H by lia.
       destruct s. exact H. }
  pose proof Hin as (Hip & Hdev & Hl).
  destruct (round_step off (n - tot) Hoff ltac:(lia) Hfit) as (Hm & Hchunk & Hu & _ & Hbn).
  destruct (rounds_step _ off (n - tot) Hoff ltac:(lia) Hfit Hfuel) as [Hnext _].
  set (m := Z.min (n - tot) (bs - off mod bs)) in *. cbv zeta in Hnext.
  assert (addr_of v l (Z.to_nat (off / bs)) <> 0) as Hnz by (apply Hd; lia).
  apply wp_bind, wp_gets. rewrite Hdev. apply wp_bind.
  eapply (wp_bmap s v ip l ib); [done..|]. intros t v' l' a Ht Hmp Hk.
  destruct (mp_noop _ _ _ _ _ _ _ _ _ _ Hmp Hnz) as [-> ->]. destruct (mp_addr _ _ _ _ _ _ _ _ _ _ Hmp) as [Eaddr Ha0].
  rewrite <- Eaddr in *. set (a' := addr_of v l (Z.to_nat (off / bs))) in *.
  pose proof (fw_ok _ _ _ _ Hw (Z.to_nat (off / bs)) ltac:(lia) Hnz) as [Har _ _ _ [Hq1 Hq2]]. fold a' in Har, Hq1, Hq2.
  pose proof (fr_alloc _ _ _ Hr) as [Haw _ _ _]. pose proof (aw_size _ _ Haw) as Hsz.
  apply wp_bind. eapply (wp_fs_bread _ v); [exact Ht|lia|done|by eapply room_avail|]. intros i t1 Ht1 Hi1 Hk1.
  apply wp_bind. eapply wp_fs_data; [exact Ht1|exact Hi1|]. cbn [tv_blk tv_hold].
  apply wp_bind. eapply (wp_release_read _ v); [exact Ht1|exact Hi1|done|done|]. intros t2 Ht2 Hk2.
  apply wp_bind. rewrite Hu, (u32_small (tot + m)) by lia.
  assert (hkeeps v (ftx s) t2) as Hkk.
  { eapply hkeeps_trans; [exact Hk|]. eapply hkeeps_trans; [by apply tkeeps_hkeeps|exact Hk2]. }
  change (on_tx _ t2) with (with_addrs s ip l t2). rewrite <- Hl, with_addrs_id by done.
  eapply (IH (on_tx s t2)); [done|done|done|done|done|lia|lia|lia|lia| | |].
  - intros k Hk3. apply Hd. lia.
  - replace (n - (tot + m)) with (n - tot - m) by lia. replace (Z.of_nat fuel - 1) with (Z.of_nat (S fuel) - 1 - 1) by lia.
    exact Hnext.
  - intros t3 Ht3 Hk3. apply wp_ret.
    pose proof (HQ t3 Ht3 (hkeeps_trans v _ _ _ Hkk Hk3)) as H.
    replace (n - tot) with (m + (n - (tot + m))) in H by lia. rewrite seqZ_app, fmap_app in H by lia.
    rewrite (chunk_bytes v l) by (done || lia || (by apply (aw_len _ _ Haw); lia)). exact H.
Qed.

End Read.

(** What writing the bytes [src] at offset [off] does to a file. *)
Record written (sb : superblock) (ib : Z) (v : tview) (l : list Z) (v' : tview) (l' : list Z) (off : Z) (src : list Z) : Prop := {
  wr_ready : fs_ready sb ib v';
  wr_wf : file_wf sb ib v' l';
  wr_cfg : tv_n v' = tv_n v /\ tv_limit v' = tv_limit v /\ tv_held v' = tv_held v /\ tv_mod v' = tv_mod v;
  wr_byte : forall k, 0 <= k < 71680 -> file_byte v' l' k =
    if decide (off <= k < off + Z.of_nat (length src)) then default 0 (src !! Z.to_nat (k - off)) else file_byte v l k;
  wr_keep : forall j, (j < nblocks)%nat -> addr_of v l j <> 0 -> addr_of v' l' j <> 0;
  wr_dense : dense v' l' off (Z.of_nat (length src));
  wr_same : dense v l off (Z.of_nat (length src)) -> l' = l;
  wr_frame : forall b, other sb v l b -> other sb v' l' b /\ tv_blk v' b = tv_blk v b;
}.

Lemma get8_put off bs' d i : (off + length bs' <= length d)%nat ->
  get8 (put_bytes off bs' d) i =
  if decide (off <= i < off + length bs')%nat then default 0 (bs' !! (i - off)%nat) else get8 d i.
Proof.
  intros Hl. case_decide as Hi.
  - replace i with (off + (i - off))%nat at 1 by lia. by apply get8_put_in; lia.
  - apply get8_put_out. lia.
Qed.

(** Writing a chunk into block [a] of the file. *)
Lemma write_chunk sb ib v l off chunk a :
  fs_ready sb ib v -> file_wf sb ib v l -> 0 <= off < 71680 -> off mod bs + Z.of_nat (length chunk) <= bs ->
  a <> 0 -> addr_of v l (Z.to_nat (off / bs)) = a ->
  let v' := tv_write a (put_bytes (Z.to_nat (off mod bs)) chunk (tv_blk v a)) v in
  written sb ib v l v' l off chunk /\ forall j, addr_of v' l j = addr_of v l j.
Proof.
  intros Hr Hw Hoff Hfit Ha Haddr v'.
  assert (Z.to_nat (off / bs) < nblocks)%nat as Hbn
    by (unfold bs, nblocks; change (Z.of_nat BSIZE) with 512; zdm).
  pose proof (fw_ok _ _ _ _ Hw _ Hbn) as Hdo. rewrite Haddr in Hdo. specialize (Hdo Ha).
  pose proof (fw_apart _ _ _ _ Hw _ Hbn) as Hap. rewrite Haddr in Hap. specialize (Hap Ha).
  pose proof (fr_alloc _ _ _ Hr) as [Haw _ _ _]. pose proof (aw_size _ _ Haw). pose proof (do_range _ _ _ _ Hdo).
  assert (length (tv_blk v a) = BSIZE) as Hlen by (apply (aw_len _ _ Haw); lia).
  assert (forall j, addr_of v' l j = addr_of v l j) as Hadr.
  { intros j. apply addr_of_frame. intros Hi. simpl. by rewrite upd_fn_ne. }
  assert (forall k, 0 <= k -> k / bs = off / bs -> k = off - off mod bs + k mod bs) as Hk.
  { intros k Hk E. unfold bs in *. change (Z.of_nat BSIZE) with 512 in *. zdm. }
  pose proof (Z.mod_pos_bound off bs ltac:(done)) as Hmod.
  split; [|done]. split.
  - apply fs_ready_write; [done|done|]. by rewrite length_put_bytes.
  - destruct Hw as [W1 W2 W3 W4 W5]. split; [done|..].
    + intros j Hj. rewrite Hadr. intros Hnz. apply data_ok_write; [done|]. by apply W2.
    + intros Hi. apply data_ok_write; [done|]. by apply W3.
    + intros j j' Hj Hj'. rewrite !Hadr. by apply W4.
    + intros j Hj. rewrite Hadr. by apply W5.
  - done.
  - intros k Hkr. unfold file_byte. rewrite Hadr. pose proof (Z.mod_pos_bound k bs ltac:(done)) as Hkm.
    destruct (decide (k / bs = off / bs)) as [E|E].
    + rewrite E, Haddr, (proj2 (Z.eqb_neq _ _) Ha). cbn [tv_blk tv_write v']. rewrite upd_fn_eq.
      rewrite get8_put by (rewrite Hlen; unfold bs in *; lia). specialize (Hk k ltac:(lia) E).
      rewrite (decide_ext (Z.to_nat (off mod bs) <= Z.to_nat (k mod bs) < Z.to_nat (off mod bs) + length chunk)%nat
        (off <= k < off + Z.of_nat (length chunk))) by lia.
      case_decide; [|done]. do 2 f_equal. lia.
    + assert ((k / bs =? off / bs) = false) by by apply Z.eqb_neq.
      rewrite decide_False.
      2: { intros Hin. apply E. unfold bs in *. change (Z.of_nat BSIZE) with 512 in *. zdm. }
      destruct (addr_of v l (Z.to_nat (k / bs)) =? 0) eqn:E0; [done|]. bool_to_prop.
      simpl. rewrite upd_fn_ne; [done|]. intros Eaa. apply E.
      assert (Z.to_nat (k / bs) = Z.to_nat (off / bs)) as Enat.
      { apply (fw_inj _ _ _ _ Hw); [unfold bs, nblocks; change (Z.of_nat BSIZE) with 512; zdm|done|done|congruence]. }
      assert (0 <= k / bs) by (apply Z.div_pos; done || lia). assert (0 <= off / bs) by (apply Z.div_pos; done || lia). lia.
  - intros j Hj. by rewrite Hadr.
  - intros k Hkr. rewrite Hadr. replace (k / bs) with (off / bs); [congruence|].
    unfold bs in *. change (Z.of_nat BSIZE) with 512 in *. zdm.
  - done.
  - intros b [O1 O2 O3 O4 O5]. split; [split; try done|].
    + unfold v'. rewrite write_bits; [done|apply Hdo|lia].
    + intros j Hj. rewrite Hadr. by apply O5.
    + simpl. rewrite upd_fn_ne; [done|]. rewrite <- Haddr. by apply O5.
Qed.

Lemma written_mapped lg fr sb ib v l v1 l1 bn a v' l' off src :
  mapped lg fr sb ib v l v1 l1 bn a -> bn = Z.to_nat (off / bs) -> src <> [] ->
  written sb ib v1 l1 v' l' off src -> written sb ib v l v' l' off src.
Proof.
  intros [M1 M2 M3 M4 M5 M6 M7 M8 M9 M10] Ebn Hne [W1 W2 W3 W4 W5 W6 W8 W7]. split; try done.
  - destruct M6 as (<- & <- & <- & <-). done.
  - intros k Hk. rewrite W4 by done. case_decide; [done|]. apply M5. done.
  - intros j Hj Hnz. apply W5; [done|]. by rewrite M4.
  - intros Hd. destruct (M9) as [-> ->]; [|by apply W8]. rewrite Ebn. apply Hd. destruct src; [done|simpl; lia].
  - intros b Ho. destruct (M10 b Ho) as [O1 E1]. destruct (W7 b O1) as [O2 E2]. split; [done|congruence].
Qed.

Lemma written_app sb ib v l v1 l1 v' l' off src1 src2 : 0 <= off -> off + Z.of_nat (length src1 + length src2) <= 71680 ->
  written sb ib v l v1 l1 off src1 -> written sb ib v1 l1 v' l' (off + Z.of_nat (length src1)) src2 ->
  written sb ib v l v' l' off (src1 ++ src2).
Proof.
  intros Hoff Hmax [U1 U2 U3 U4 U5 U6 U8 U7] [W1 W2 W3 W4 W5 W6 W8 W7]. split; try done.
  - destruct U3 as (<- & <- & <- & <-). done.
  - intros k Hk. rewrite W4, length_app by done. rewrite (U4 k Hk).
    repeat case_decide; try lia; try done.
    + rewrite lookup_app_r by lia. do 2 f_equal. lia.
    + rewrite lookup_app_l by lia. done.
  - eauto.
  - intros k Hk. rewrite length_app in Hk.
    destruct (decide (k < off + Z.of_nat (length src1))); [|apply W6; lia].
    apply W5; [|apply U6; lia]. unfold bs, nblocks. change (Z.of_nat BSIZE) with 512. zdm.
  - rewrite length_app. intros Hd. rewrite W8, U8; [done|intros k Hk; apply Hd; lia|].
    intros k Hk. apply U5; [unfold bs, nblocks; change (Z.of_nat BSIZE) with 512; zdm|]. apply Hd. lia.
  - intros b Ho. destruct (U7 b Ho) as [O1 E1]. destruct (W7 b O1) as [O2 E2]. split; [done|congruence].
Qed.

Section Write.
Context {T : Type} {HT : TxBlocks T} {HTL : TxBlocksLaws T}.
Implicit Types (s : fs T) (v : tview).

Lemma with_addrs_with s ip l l' t t' : with_addrs (with_addrs s ip l t) ip l' t' = with_addrs s ip l' t'.
Proof.
  unfold with_addrs. simpl. f_equal. apply list_eq. intros j. destruct (decide (ip = j)) as [->|Hne].
  - rewrite !list_lookup_alter_eq. by destruct (inodes s !! j).
  - by rewrite !list_lookup_alter_ne.
Qed.

Lemma with_addrs_has s ip l l' t : inode_has s ip l -> inode_has (with_addrs s ip l' t) ip l'.
Proof.
  intros (Hip & Hd & _). unfold inode_has. rewrite with_addrs_at by done. simpl. by rewrite length_alter.
Qed.

Lemma written_nil sb ib v l off : fs_ready sb ib v -> file_wf sb ib v l -> written sb ib v l v l off [].
Proof.
  intros Hr Hw. split; try done.
  - intros k Hk. rewrite decide_False; [done|]. simpl. lia.
  - intros k Hk. simpl in Hk. lia.
Qed.

Lemma wp_writei_loop fuel (r k0 : nat) s v ip l ib src off tot n (Q : Z -> fs T -> Prop) :
  inode_has s ip l -> tabs (ftx s) v -> fs_ready (fsb s) ib v -> file_wf (fsb s) ib v l ->
  room (6 * r + k0) v -> has_free (2 * r) (fsb s) v -> rounds (Z.of_nat r) off (n - tot) ->
  0 <= off -> 0 <= tot <= n -> n <= 71680 -> off + (n - tot) <= 71680 -> Z.of_nat (length src) = n - tot ->
  rounds (Z.of_nat fuel - 1) off (n - tot) ->
  (forall t v' l', tabs t v' -> written (fsb s) ib v l v' l' off src -> room k0 v' -> hkeeps v (ftx s) t ->
     Q (off + (n - tot)) (with_addrs s ip l' t)) ->
  wp (writei_loop fuel ip src off tot n) Q s.
Proof.
  revert r s v l src off tot Q.
  induction fuel as [|fuel IH]; intros r s v l src off tot Q Hin Ha Hr Hw Hrm Hfree Hrnd Hoff Htot Hn Hfit Hlen Hfuel HQ.
  { destruct Hfuel as [[_ ?]|Hf]; [lia|]. exfalso. pose proof (Z.mod_pos_bound off bs ltac:(done)).
    unfold bs in *. change (Z.of_nat BSIZE) with 512 in *. lia. }
  simpl. destruct (tot <? n) eqn:E; bool_to_prop.
  2: { apply wp_ret. assert (src = []) as -> by (destruct src; [done|simpl in *; lia]).
       pose proof (HQ (ftx s) v l Ha (written_nil _ _ _ _ _ Hr Hw)) as H. rewrite (with_addrs_self s ip l) in H by done.
       replace (off + (n - tot)) with off in H by lia. apply H; [|apply hkeeps_refl].
       by eapply room_mono; [|exact Hrm]; lia. }
  pose proof Hin as (Hip & Hdev & Hl).
  destruct (round_step off (n - tot) Hoff ltac:(lia) Hfit) as (Hm & Hchunk & Hu & _ & Hbn).
  destruct (rounds_step _ off (n - tot) Hoff ltac:(lia) Hfit Hfuel) as [Hnext _].
  destruct (rounds_step _ off (n - tot) Hoff ltac:(lia) Hfit Hrnd) as [Hrnext Hr1].
  set (m := Z.min (n - tot) (bs - off mod bs)) in *. cbv zeta in Hnext, Hrnext.
  destruct r as [|r]; [lia|].
  apply wp_bind, wp_gets. rewrite Hdev. apply wp_bind.
  eapply (wp_bmap s v ip l ib); [done..|by eapply room_mono; [|exact Hrm]; lia| |].
  { intros _. split; [by eapply room_mono; [|exact Hrm]; lia|by eapply has_free_le; [|exact Hfree]; lia]. }
  intros t v1 l1 a Ht Hmp Hk. pose proof (mp_addr _ _ _ _ _ _ _ _ _ _ Hmp) as [Eaddr Ha0].
  assert (room (1 + (6 * r + k0)) v1) as Hrm1.
  { apply (room_mapped 5 2 (fsb s) ib v l v1 l1 (Z.to_nat (off / bs)) a); [done|].
    by eapply room_mono; [|exact Hrm]; lia. }
  pose proof (mp_ready _ _ _ _ _ _ _ _ _ _ Hmp) as Hr'. pose proof (mp_wf _ _ _ _ _ _ _ _ _ _ Hmp) as Hw'.
  pose proof (fw_ok _ _ _ _ Hw' (Z.to_nat (off / bs)) ltac:(lia)) as Hdo. rewrite Eaddr in Hdo. specialize (Hdo Ha0).
  pose proof Hdo as [Har _ _ _ [Hq1 Hq2]].
  pose proof (fr_alloc _ _ _ Hr') as [Haw _ _ _]. pose proof (aw_size _ _ Haw) as Hsz.
  apply wp_bind. eapply (wp_fs_bread _ v1); [exact Ht|lia|done|by eapply room_avail|]. intros i t1 Ht1 Hi1 Hk1.
  eapply (wp_commit_buf_k _ v1); [exact Ht1|exact Hi1|done|done|destruct Hrm1; lia|]. intros t2 Ht2 Hk2.
  change (on_tx (on_tx (with_addrs s ip l1 t) t1) t2) with (with_addrs s ip l1 t2).
  assert (length (take (Z.to_nat m) src) = Z.to_nat m) as Hlc by (rewrite length_take; lia).
  destruct (write_chunk (fsb s) ib v1 l1 off (take (Z.to_nat m) src) a Hr' Hw') as [Hwr _];
    [lia|rewrite Hlc; lia|done|done|]. cbv zeta in Hwr.
  rewrite Hu, (u32_small (tot + m)) by lia. set (v2 := tv_write _ _ v1) in *.
  assert (room (6 * r + k0) v2) as Hrm2 by (by apply room_write).
  assert (has_free (2 * r) (fsb s) v2) as Hfree2.
  { destruct (mp_free _ _ _ _ _ _ _ _ _ _ Hmp (2 * r)) as (X & HX & Hx).
    - by eapply has_free_le; [|exact Hfree]; lia.
    - exists X. split; [done|]. intros x Hx'. destruct (Hx x Hx'). split; [done|].
      unfold v2. rewrite write_bits; [done|apply Hdo|done]. }
  eapply (IH r (with_addrs s ip l1 t2) v2 l1); [by eapply with_addrs_has|exact Ht2|apply Hwr|apply Hwr|done|done| |lia|lia|lia|lia| | |].
  - replace (n - (tot + m)) with (n - tot - m) by lia. by replace (Z.of_nat r) with (Z.of_nat (S r) - 1) by lia.
  - rewrite length_drop. lia.
  - replace (n - (tot + m)) with (n - tot - m) by lia. by replace (Z.of_nat fuel - 1) with (Z.of_nat (S fuel) - 1 - 1) by lia.
  - intros t3 v3 l3 Ht3 Hwr3 Hrm3 Hk3. rewrite with_addrs_with.
    replace (off + m + (n - (tot + m))) with (off + (n - tot)) by lia.
    apply (HQ t3 v3 l3); [done| |done|].
    + eapply written_mapped; [exact Hmp|done|destruct src; [simpl in *; lia|done]|].
      rewrite <- (take_drop (Z.to_nat m) src). eapply written_app; [done| |exact Hwr|].
      * rewrite Hlc, length_drop. lia.
      * rewrite Hlc, Z2Nat.id by lia. exact Hwr3.
    + destruct (mp_cfg _ _ _ _ _ _ _ _ _ _ Hmp) as (_ & _ & Eh & _).
      eapply hkeeps_trans; [exact Hk|]. intros j x Hx Hj. apply Hk3; [simpl; congruence|].
      apply Hk2; [congruence|]. by apply Hk1.
Qed.

End Write.

(** ** Inodes on disk *)
Record dinode_ok (d : dinode) : Prop := {
  dk_type : -32768 <= d_type d < 32768;
  dk_major : -32768 <= d_major d < 32768;
  dk_minor : -32768 <= d_minor d < 32768;
  dk_nlink : -32768 <= d_nlink d < 32768;
  dk_size : 0 <= d_size d < 4294967296;
  dk_len : length (d_addrs d) = 13%nat;
  dk_addrs : Forall (fun a => 0 <= a < 4294967296) (d_addrs d);
}.

Lemma le32_concat (l : list Z) k j a : l !! k = Some a -> (j < 4)%nat ->
  (l ≫= le32) !! (4 * k + j)%nat = le32 a !! j.
Proof.
  revert k. induction l as [|b l IH]; intros k Hk Hj; [done|]. rewrite bind_cons. destruct k as [|k].
  - injection Hk as ->. rewrite lookup_app_l by (simpl; lia). by rewrite Nat.mul_0_r.
  - rewrite lookup_app_r by (simpl; lia). rewrite <- (IH k Hk Hj). f_equal. simpl length. lia.
Qed.

Lemma length_le32_concat (l : list Z) : length (l ≫= le32) = (4 * length l)%nat.
Proof. induction l as [|b l IH]; [done|]. rewrite bind_cons, length_app, IH. simpl. lia. Qed.

Lemma get32_put_addrs off l b k a : l !! k = Some a -> (off + 4 * length l <= length b)%nat ->
  get32 (put_addrs off l b) (off + 4 * k) = u32 a.
Proof.
  intros Hk Hl. pose proof (lookup_lt_Some _ _ _ Hk). unfold put_addrs, get32.
  assert (forall j, (j < 4)%nat -> get8 (put_bytes off (l ≫= le32) b) (off + 4 * k + j) = default 0 (le32 a !! j)) as H8.
  { intros j Hj. replace (off + 4 * k + j)%nat with (off + (4 * k + j))%nat by lia.
    rewrite get8_put_in by (rewrite length_le32_concat; lia). by rewrite (le32_concat _ _ _ _ Hk Hj). }
  pose proof (H8 0%nat ltac:(lia)) as H0. rewrite Nat.add_0_r in H0. rewrite H0, !H8 by lia. simpl. unfold u32. zdm.
Qed.

Lemma get_put_dinode off d b : dinode_ok d -> (off + 64 <= length b)%nat ->
  get_dinode off (put_dinode off d b) = d.
Proof.
  intros [H1 H2 H3 H4 H5 H6 H7] Hl. destruct d as [ty ma mi nl sz ad]. simpl in *. unfold put_dinode, get_dinode. cbn [d_type d_major d_minor d_nlink d_size d_addrs].
  assert (forall o v c, (o + 2 <= off + 64)%nat -> length c = length b -> get16 (put16 o v c) o = u16 v) as G16
    by (intros; apply get16_put16; lia).
  assert (forall i a c, (i + 2 <= a)%nat -> get16 (put_addrs a ad c) i = get16 c i) as GA
    by (intros; apply get16_put_out; lia).
  assert (forall i o v c, (i + 2 <= o)%nat -> get16 (put16 o v c) i = get16 c i) as GP
    by (intros; apply get16_put_out; lia).
  assert (forall i o v c, (i + 2 <= o)%nat -> get16 (put32 o v c) i = get16 c i) as GQ
    by (intros; apply get16_put_out; lia).
  f_equal.
  - rewrite GA, GQ, !GP, get16_put16, s16_u16 by lia. by apply s16_small.
  - rewrite GA, GQ, !GP, get16_put16, s16_u16 by (unfold put16; rewrite ?length_put_bytes; lia). by apply s16_small.
  - rewrite GA, GQ, !GP, get16_put16, s16_u16 by (unfold put16; rewrite ?length_put_bytes; lia). by apply s16_small.
  - rewrite GA, GQ, get16_put16, s16_u16 by (unfold put16; rewrite ?length_put_bytes; lia). by apply s16_small.
  - unfold put_addrs. rewrite get32_put_out by lia.
    rewrite get32_put32 by (unfold put16; rewrite ?length_put_bytes; lia). by apply u32_small.
  - apply list_eq. intros k. rewrite list_lookup_fmap. change (NDIRECT + 1)%nat with 13%nat.
    destruct (ad !! k) as [a|] eqn:Ek.
    + pose proof (lookup_lt_Some _ _ _ Ek). rewrite lookup_seq_lt by lia. cbn [fmap option_fmap option_map]. rewrite Nat.add_0_l.
      rewrite (get32_put_addrs _ _ _ _ a) by (done || (unfold put32, put16; rewrite ?length_put_bytes; lia)).
      f_equal. apply u32_small. by apply (Forall_lookup_1 _ _ _ _ H7 Ek).
    + apply lookup_ge_None_1 in Ek. rewrite lookup_seq_ge by lia. done.
Qed.

Lemma length_put_dinode off d b : length (put_dinode off d b) = length b.
Proof. unfold put_dinode, put_addrs, put32, put16. by rewrite !length_put_bytes. Qed.

Section Update.
Context {T : Type} {HT : TxBlocks T} {HTL : TxBlocksLaws T}.
Implicit Types (s : fs T) (v : tview).

(** The view after the inode [x] has been copied to disk. *)
Definition synced (sb : superblock) (x : inode) v : tview :=
  let ib := IBLOCK (i_inum x) sb in
  tv_write ib (put_dinode (dip_off (i_inum x)) (inode_dinode x) (tv_blk v ib)) v.

Lemma wp_iupdate s v ip (Q : unit -> fs T -> Prop) :
  let x := inode_at s ip in
  i_dev x = 1 -> tabs (ftx s) v -> 0 <= IBLOCK (i_inum x) (fsb s) < tv_n v -> quiet v (IBLOCK (i_inum x) (fsb s)) ->
  room 1 v ->
  (forall t, tabs t (synced (fsb s) x v) -> hkeeps v (ftx s) t -> Q tt (on_tx s t)) ->
  wp (iupdate ip) Q s.
Proof.
  intros x Hd Ha Hb [Hq1 Hq2] Hr HQ. unfold iupdate. apply wp_bind, wp_gets, wp_bind, wp_gets. cbn [id]. fold x.
  rewrite Hd. apply wp_bind. eapply (wp_fs_bread _ v); [done..|by eapply room_avail|]. intros i t Ht Hi Hk.
  eapply (wp_commit_buf _ v); [exact Ht|exact Hi|done|done|destruct Hr; lia|]. intros t2 Ht2 Hk2.
  apply HQ; [done|]. eapply hkeeps_trans; [by apply tkeeps_hkeeps|exact Hk2].
Qed.

(** The inode on disk is the one in memory. *)
Definition on_disk (sb : superblock) (x : inode) v : Prop :=
  get_dinode (dip_off (i_inum x)) (tv_blk v (IBLOCK (i_inum x) sb)) = inode_dinode x.

Lemma synced_on_disk sb x v : dinode_ok (inode_dinode x) -> length (tv_blk v (IBLOCK (i_inum x) sb)) = BSIZE ->
  on_disk sb x (synced sb x v).
Proof.
  intros Hx Hl. unfold on_disk, synced. simpl. rewrite upd_fn_eq. apply get_put_dinode; [done|].
  rewrite Hl. unfold dip_off, sizeof_dinode, IPB, BSIZE. pose proof (Z.mod_pos_bound (i_inum x) 8 ltac:(lia)). lia.
Qed.

(** Syncing the inode leaves the contents of the file alone. *)
Lemma synced_file sb x v l : let ib := IBLOCK (i_inum x) sb in
  fs_ready sb ib v -> file_wf sb ib v l ->
  fs_ready sb ib (synced sb x v) /\ file_wf sb ib (synced sb x v) l /\
  (forall j, addr_of (synced sb x v) l j = addr_of v l j) /\
  (forall k, 0 <= k < 71680 -> file_byte (synced sb x v) l k = file_byte v l k).
Proof.
  intros ib Hr Hw. pose proof Hr as [Hc Hb [Hir Hib] Hibm Hq]. pose proof Hc as [Haw _ _ _].
  pose proof (aw_size _ _ Haw).
  assert (fs_ready sb ib (synced sb x v)) as Hr'.
  { split; try done.
    - apply can_alloc_write; [done|done|]. rewrite length_put_dinode. apply (aw_len _ _ Haw). fold ib. lia.
    - unfold synced. rewrite write_bits; [done|done|lia].
    - split; [done|]. unfold synced. rewrite write_bits; [done|done|lia]. }
  split; [done|]. apply (file_frame sb ib v); [done|]. intros a [D1 D2 D3 D4 D5]. split.
  - split; try done. unfold synced. rewrite write_bits; [done|done|lia].
  - unfold synced. simpl. rewrite upd_fn_ne; [done|]. by apply not_eq_sym.
Qed.

End Update.

Section FileOps.
Context {T : Type} {HT : TxBlocks T} {HTL : TxBlocksLaws T} (devsw : Z -> devops (T := T)).
Implicit Types (s : fs T) (v : tview).

(** The inode [ip] holds an ordinary file with addresses [l], whose blocks are
    those of the view [v]. *)
Record file_at s v (ip : nat) (l : list Z) : Prop := {
  fa_has : inode_has s ip l;
  fa_type : i_type (inode_at s ip) <> T_DEV;
  fa_abs : tabs (ftx s) v;
  fa_ready : fs_ready (fsb s) (IBLOCK (i_inum (inode_at s ip)) (fsb s)) v;
  fa_wf : file_wf (fsb s) (IBLOCK (i_inum (inode_at s ip)) (fsb s)) v l;
  fa_size : 0 <= i_size (inode_at s ip) <= 71680;
  fa_dense : dense v l 0 (i_size (inode_at s ip));
  fa_disk : on_disk (fsb s) (inode_at s ip) v;
  fa_ints : dinode_ok (inode_dinode (inode_at s ip));
}.

Lemma wp_readi s v ip l off n (Q : Z * list Z -> fs T -> Prop) :
  file_at s v ip l -> room 1 v -> 0 <= off <= i_size (inode_at s ip) -> 0 <= n < 2147483648 ->
  let n' := Z.min n (i_size (inode_at s ip) - off) in
  (forall t, tabs t v -> hkeeps v (ftx s) t -> Q (n', file_byte v l <$> seqZ off n') (on_tx s t)) ->
  wp (readi devsw ip off n) Q s.
Proof.
  intros [Hin Hty Ha Hr Hw Hsz Hd _ _] Hrm Hoff Hn n' HQ. unfold readi. apply wp_bind, wp_gets. cbn [id].
  rewrite (proj2 (Z.eqb_neq _ _) Hty), (u32_small (off + n)) by lia.
  rewrite (proj2 (Z.ltb_ge _ _)) by lia. rewrite (proj2 (Z.ltb_ge (off + n) off)) by lia. simpl.
  assert ((if i_size (inode_at s ip) <? off + n then u32 (i_size (inode_at s ip) - off) else n) = n') as ->.
  { unfold n'. destruct (_ <? _) eqn:E; bool_to_prop; [rewrite u32_small by lia; lia|lia]. }
  apply wp_bind. eapply (wp_readi_loop _ _ v ip l); [done..|lia|unfold n'; lia|unfold n'; lia|unfold n'; lia| | |].
  - intros k Hk. apply Hd. unfold n' in Hk. lia.
  - rewrite Z.sub_0_r. apply io_rounds; unfold n'; lia.
  - intros t Ht Hk. apply wp_ret. rewrite Z.sub_0_r, s32_small by (unfold n'; lia). by apply HQ.
Qed.

(** The state after a write: addresses [l'] and size [sz] in the inode. *)
Definition with_file s (ip : nat) (l : list Z) (sz : Z) (t : T) : fs T :=
  Fs (ic_lock s) (alter (fun x => upd_i_size (fun _ => sz) (upd_i_addrs (fun _ => l) x)) ip (inodes s)) (fsb s) t.

Lemma with_file_at s ip l sz t : (ip < length (inodes s))%nat ->
  inode_at (with_file s ip l sz t) ip = upd_i_size (fun _ => sz) (upd_i_addrs (fun _ => l) (inode_at s ip)).
Proof.
  intros Hip. unfold inode_at, with_file. simpl. rewrite list_lookup_alter_eq.
  by destruct (lookup_lt_is_Some_2 _ _ Hip) as [x ->].
Qed.

Lemma with_file_addrs s ip l t : (ip < length (inodes s))%nat ->
  with_file s ip l (i_size (inode_at s ip)) t = with_addrs s ip l t.
Proof.
  intros Hip. unfold with_file, with_addrs, inode_at. f_equal. destruct (lookup_lt_is_Some_2 _ _ Hip) as [x Hx].
  rewrite Hx. simpl. apply list_eq. intros j. destruct (decide (ip = j)) as [->|Hne].
  - rewrite !list_lookup_alter_eq, Hx. simpl. by destruct x.
  - by rewrite !list_lookup_alter_ne.
Qed.

Lemma with_addrs_size s ip l sz t :
  upd_inodes (alter (upd_i_size (fun _ => sz)) ip) (with_addrs s ip l t) = with_file s ip l sz t.
Proof.
  unfold with_addrs, with_file, upd_inodes. simpl. f_equal. apply list_eq. intros j.
  destruct (decide (ip = j)) as [->|Hne].
  - rewrite !list_lookup_alter_eq. by destruct (inodes s !! j).
  - by rewrite !list_lookup_alter_ne.
Qed.

Lemma addrs_int sb ib v l : fs_ready sb ib v -> file_wf sb ib v l -> Forall (fun a => 0 <= a < 4294967296) l.
Proof.
  intros Hr Hw. pose proof (fr_alloc _ _ _ Hr) as [Haw Hn _ _]. pose proof (aw_size _ _ Haw).
  assert (forall a, (a <> 0 -> data_ok sb ib v a) -> 0 <= a < 4294967296) as Hd.
  { intros a Ha. destruct (decide (a = 0)) as [->|Hne]; [lia|]. pose proof (do_range _ _ _ _ (Ha Hne)). lia. }
  apply Forall_lookup_2. intros j a Hj. pose proof (lookup_lt_Some _ _ _ Hj) as Hlt. rewrite (fw_len _ _ _ _ Hw) in Hlt.
  apply Hd. intros Hne. destruct (decide (j = NDIRECT)) as [->|Hj12].
  - replace a with (ind l) in * by (unfold ind; by rewrite Hj). by apply (fw_ind _ _ _ _ Hw).
  - assert (addr_of v l j = a) as <-.
    { unfold addr_of. rewrite (proj2 (Nat.ltb_lt _ _)) by (unfold NDIRECT in *; lia). by rewrite Hj. }
    apply (fw_ok _ _ _ _ Hw); [unfold nblocks; lia|done].
Qed.

Lemma ib_other sb ib v l : fs_ready sb ib v -> file_wf sb ib v l -> other sb v l ib.
Proof.
  intros [_ _ [Hi Hb] Hbm _] Hw. split; try done.
  - destruct (decide (ind l = 0)) as [->|Hne]; [lia|]. apply not_eq_sym, (fw_ind _ _ _ _ Hw Hne).
  - intros j Hj. destruct (decide (addr_of v l j = 0)) as [->|Hne]; [lia|]. by apply (fw_ok _ _ _ _ Hw j Hj Hne).
Qed.

Lemma wp_writei s v ip l src off (r k0 : nat) (Q : Z -> fs T -> Prop) :
  let n := Z.of_nat (length src) in
  let sz := Z.max (i_size (inode_at s ip)) (off + n) in
  let ib := IBLOCK (i_inum (inode_at s ip)) (fsb s) in
  file_at s v ip l -> 0 <= off <= i_size (inode_at s ip) -> off + n <= 71680 ->
  rounds (Z.of_nat r) off n -> room (6 * r + (1 + k0)) v -> has_free (2 * r) (fsb s) v ->
  (forall t v' l', file_at (with_file s ip l' sz t) v' ip l' -> room k0 v' -> hkeeps v (ftx s) t ->
     (forall k, 0 <= k < 71680 -> file_byte v' l' k =
        if decide (off <= k < off + n) then default 0 (src !! Z.to_nat (k - off)) else file_byte v l k) ->
     (forall b, other (fsb s) v l b -> b <> ib -> tv_blk v' b = tv_blk v b) ->
     Q n (with_file s ip l' sz t)) ->
  wp (writei devsw ip src off n) Q s.
Proof.
  intros n sz ib [Hin Hty Ha Hr Hw Hsz Hd Hdisk Hints] Hoff Hmax Hrnd Hrm Hfree HQ. pose proof Hin as (Hip & Hdev & Hl).
  unfold writei. apply wp_bind, wp_gets. cbn [id].
  rewrite (proj2 (Z.eqb_neq _ _) Hty), (u32_small (off + n)) by lia.
  rewrite (proj2 (Z.ltb_ge _ _)) by lia. rewrite (proj2 (Z.ltb_ge (off + n) off)) by lia. simpl.
  rewrite (proj2 (Z.ltb_ge (MAXFILE * bs) (off + n))) by (unfold MAXFILE, bs; change (Z.of_nat BSIZE) with 512; lia).
  apply wp_bind. fold ib in Hr, Hw.
  eapply (wp_writei_loop _ r (1 + k0) s v ip l ib); [done..|by rewrite Z.sub_0_r|lia|lia|lia|lia|lia| |].
  { rewrite Z.sub_0_r. apply io_rounds; lia. }
  intros t v1 l1 Ht Hwr Hrm1 Hk. rewrite Z.sub_0_r. apply wp_bind, wp_gets. rewrite with_addrs_at by done. cbn [i_size upd_i_addrs].
  pose proof Hwr as [W1 W2 (Wn & Wl & Wh & Wm) W4 W5 W6 W7 W8].
  pose proof (fr_alloc _ _ _ W1) as [Haw Hn2 _ _]. pose proof (aw_size _ _ Haw) as Hsz1.
  pose proof (fr_ib _ _ _ W1) as [Hibr _].
  assert (dense v1 l1 0 sz) as Hd1.
  { intros k Hk1. destruct (decide (off <= k)); [destruct (decide (k < off + n)); [apply W6; lia|]|];
      (apply W5; [unfold bs, nblocks; change (Z.of_nat BSIZE) with 512; zdm|apply Hd; lia]). }
  assert (dinode_ok (inode_dinode (upd_i_size (fun _ => sz) (upd_i_addrs (fun _ => l1) (inode_at s ip))))) as Hok.
  { destruct Hints. split; simpl in *; try done; [lia|by apply W2|by eapply addrs_int]. }
  assert (forall t v', tabs t v' -> fs_ready (fsb s) ib v' -> file_wf (fsb s) ib v' l1 -> dense v' l1 0 sz ->
    on_disk (fsb s) (upd_i_size (fun _ => sz) (upd_i_addrs (fun _ => l1) (inode_at s ip))) v' ->
    file_at (with_file s ip l1 sz t) v' ip l1) as Hfa.
  { intros t' v' T1 T2 T3 T4 T5. split; rewrite ?with_file_at by done; simpl; try done; [|lia].
    unfold inode_has. rewrite with_file_at by done. simpl. by rewrite length_alter. }
  apply wp_bind. destruct ((0 <? n) && (i_size (inode_at s ip) <? off + n)) eqn:Egrow; cbn [when].
  - apply andb_true_iff in Egrow as [E1 E2]. bool_to_prop. apply wp_bind, wp_modify. rewrite with_addrs_size.
    replace (off + n) with sz by lia.
    pose proof (with_file_at s ip l1 sz t Hip) as Eat.
    eapply (wp_iupdate _ v1); rewrite ?Eat; cbn [i_dev i_inum upd_i_size upd_i_addrs fsb with_file ftx];
      [done|exact Ht|fold ib; lia|by apply (fr_ib_quiet _ _ _ W1)|by eapply room_mono; [|exact Hrm1]; lia|].
    intros t2 Ht2 Hk2. change (on_tx (with_file s ip l1 sz t) t2) with (with_file s ip l1 sz t2).
    apply wp_ret. rewrite s32_small by lia.
    destruct (synced_file (fsb s) (upd_i_size (fun _ => sz) (upd_i_addrs (fun _ => l1) (inode_at s ip))) v1 l1 W1 W2)
      as (S1 & S2 & S3 & S4).
    eapply HQ; [apply Hfa; [exact Ht2|exact S1|exact S2| |]| | | |].
    + intros k Hk3. rewrite S3. by apply Hd1.
    + apply synced_on_disk; [done|]. apply (aw_len _ _ Haw). simpl. fold ib. lia.
    + by apply room_write.
    + eapply hkeeps_trans; [exact Hk|]. intros j x Hx. apply Hk2. congruence.
    + intros k Hk3. rewrite S4 by done. by apply W4.
    + intros b Ho Hb. destruct (W8 b Ho) as [_ Eb]. unfold synced. simpl. fold ib. rewrite upd_fn_ne by done. done.
  - assert (sz = i_size (inode_at s ip)) as Esz.
    { unfold sz. apply andb_false_iff in Egrow as [?|?]; bool_to_prop; lia. }
    apply wp_ret, wp_ret. rewrite s32_small by lia. rewrite <- with_file_addrs, <- Esz by done.
    assert (l1 = l) as El. { apply W7. intros k Hk3. apply Hd. lia. }
    eapply HQ; [apply Hfa; try done| |done|done|].
    + destruct (W8 ib (ib_other _ _ _ _ Hr Hw)) as [_ Eb]. unfold on_disk in *. simpl. fold ib. rewrite Eb.
      unfold inode_dinode in *. simpl. rewrite Esz, El, <- Hl. exact Hdisk.
    + by eapply room_mono; [|exact Hrm1]; lia.
    + intros b Ho _. by apply W8.
Qed.


(** [readi] returns the bytes of the file from the offset on, at most [n] and
    none beyond the end, and changes no block; a read that starts beyond the end of
    the file returns -1. *)
Theorem readi_spec s v ip l off n :
  let size := i_size (inode_at s ip) in
  file_at s v ip l -> 0 <= n < 2147483648 -> room 1 v ->
  (0 <= off <= size ->
   wp (readi devsw ip off n) (fun ret s' =>
     ret = (Z.min n (size - off), file_byte v l <$> seqZ off (Z.min n (size - off))) /\
     tabs (ftx s') v /\ inodes s' = inodes s) s) /\
  (size < off -> readi devsw ip off n s = (Ret (-1, []), s)).
Proof.
  intros size Hf Hn Hrm. split.
  - intros Hoff. eapply wp_readi; [done..|]. intros t Ht _. done.
  - intros He. unfold readi, bind, geti, gets. cbn [id]. rewrite (proj2 (Z.eqb_neq _ _) (fa_type _ _ _ _ Hf)).
    fold size. by rewrite (proj2 (Z.ltb_lt size off) He).
Qed.

(** what [writei] has written, [readi] reads back. *)
Theorem write_then_read s v ip l src off (r : nat) :
  let n := Z.of_nat (length src) in
  file_at s v ip l -> 0 <= off <= i_size (inode_at s ip) -> off + n <= MAXFILE * bs ->
  rounds (Z.of_nat r) off n -> room (6 * r + 2) v -> has_free (2 * r) (fsb s) v ->
  wp (writei devsw ip src off n ;; readi devsw ip off n) (fun ret _ => ret = (n, src)) s.
Proof.
  intros n Hf Hoff Hmax Hrnd Hrm Hfree. change (MAXFILE * bs) with 71680 in *. pose proof (fa_has _ _ _ _ Hf) as (Hip & _ & _).
  apply wp_bind. eapply (wp_writei s v ip l src off r 1); [done..|]. intros t v' l' Hfa Hrm' _ Hb _. fold n in Hfa, Hb |- *.
  assert (i_size (inode_at (with_file s ip l' (Z.max (i_size (inode_at s ip)) (off + n)) t) ip) =
    Z.max (i_size (inode_at s ip)) (off + n)) as Esz by (by rewrite with_file_at).
  eapply wp_readi; [done|done|rewrite Esz; lia|lia|]. intros t2 _ _. rewrite Esz.
  replace (Z.min n _) with n by lia. f_equal. apply list_eq. intros i. rewrite list_lookup_fmap.
  destruct (src !! i) as [b|] eqn:E.
  - pose proof (lookup_lt_Some _ _ _ E). rewrite lookup_seqZ_lt by lia. simpl. rewrite Hb by lia.
    rewrite decide_True by lia. replace (Z.to_nat (off + Z.of_nat i - off)) with i by lia. by rewrite E.
  - apply lookup_ge_None_1 in E. by rewrite lookup_seqZ_ge by lia.
Qed.

End FileOps.
