(* ===== verification/FsDir.v ===== *)
(** * Directories and path names of fs.c

    [skipelem] against a reference definition of the elements of a path, and
    [dirlookup] and [dirlink] as a map from names to inode numbers. *)
From S2P Require Import Prelude Block Log Tx Sleeplock Fs FsAlloc FsFile FsRw.

(** ** Names *)

(** Two names are equal to [namecmp] when their padded forms are. *)
Lemma strncpy_nil n : strncpy_bytes n [] = replicate n 0.
Proof. induction n as [|n IH]; [done|]. simpl. by rewrite IH. Qed.

Lemma length_strncpy n t : length (strncpy_bytes n t) = n.
Proof.
  revert t. induction n as [|n IH]; intros t; [done|]. simpl.
  destruct t as [|b t]; [simpl; by rewrite IH|]. destruct (b =? 0); simpl; by rewrite IH.
Qed.

Lemma strncmp_strncpy n s t : strncmp_bytes n s t = 0 <-> strncpy_bytes n s = strncpy_bytes n t.
Proof.
  revert s t. induction n as [|n IH]; intros s t; [done|]. simpl.
  destruct s as [|p s], t as [|q t]; simpl.
  - done.
  - destruct (Z.eqb_spec q 0) as [->|Hq]; [done|]. split; [lia|]. intros [= H _]. lia.
  - destruct (Z.eqb_spec p 0) as [->|Hp]; simpl; [done|].
    split; [lia|]. intros [= H _]. lia.
  - destruct (Z.eqb_spec p 0) as [->|Hp]; simpl.
    + destruct (Z.eqb_spec q 0) as [->|Hq]; [done|]. split; [lia|]. intros [= H _]. lia.
    + destruct (Z.eqb_spec p q) as [->|Hpq].
      * rewrite (proj2 (Z.eqb_neq _ _) Hp), IH. split; congruence.
      * split; [lia|]. destruct (Z.eqb_spec q 0) as [->|Hq]; intros [= H _]; lia.
Qed.

Lemma strncpy_idem n t : strncpy_bytes n (strncpy_bytes n t) = strncpy_bytes n t.
Proof.
  revert t. induction n as [|n IH]; intros t; [done|]. simpl.
  destruct t as [|b t]; simpl; [by rewrite strncpy_nil|]. destruct (Z.eqb_spec b 0) as [->|Hb]; simpl.
  - done.
  - by rewrite (proj2 (Z.eqb_neq _ _) Hb), IH.
Qed.

Definition same_name (s t : list Z) : Prop := strncpy_bytes DIRSIZ s = strncpy_bytes DIRSIZ t.

#[export] Instance same_name_dec s t : Decision (same_name s t).
Proof. unfold same_name. apply _. Defined.

Lemma namecmp_spec s t : (namecmp s t =? 0) = bool_decide (same_name s t).
Proof.
  unfold namecmp, same_name. case_bool_decide as H; [apply Z.eqb_eq|apply Z.eqb_neq]; by rewrite strncmp_strncpy.
Qed.

(** ** Paths *)

(** The reference: the maximal runs of bytes other than slashes. *)
Fixpoint elements (path : list Z) (cur : list Z) : list (list Z) :=
  match path with
  | [] => match cur with [] => [] | _ => [cur] end
  | c :: path' =>
      if c =? slash then match cur with [] => elements path' [] | _ => cur :: elements path' [] end
      else elements path' (cur ++ [c])
  end.

(** The names that the loop of [namex] looks up. *)
Fixpoint path_names (fuel : nat) (path name : list Z) : option (list (list Z)) :=
  match fuel with
  | O => None
  | S k =>
      match skipelem path name with
      | None => Some []
      | Some (path, name) => option_map (cons (strncpy_bytes DIRSIZ name)) (path_names k path name)
      end
  end.

Definition no_nul (path : list Z) : Prop := Forall (fun c => c <> 0) path.

Lemma skip_slashes_elements path : elements (skip_slashes path) [] = elements path [].
Proof. induction path as [|c path IH]; [done|]. simpl. destruct (c =? slash) eqn:E; [done|]. simpl. by rewrite E. Qed.

Lemma skip_slashes_no_nul path : no_nul path -> no_nul (skip_slashes path).
Proof.
  intros H. induction H as [|c path Hc H IH]; [constructor|]. simpl. destruct (_ =? _); [done|by constructor].
Qed.

Lemma length_skip_slashes path : (length (skip_slashes path) <= length path)%nat.
Proof. induction path as [|c path IH]; [done|]. simpl. destruct (_ =? _); simpl; lia. Qed.

Lemma skip_slashes_head path c rest : skip_slashes path = c :: rest -> c <> slash.
Proof.
  induction path as [|b path IH]; [done|]. simpl. destruct (b =? slash) eqn:E; [done|]. bool_to_prop. by intros [= <- _].
Qed.

Lemma split_elem_spec path : no_nul path ->
  let '(s, rest) := split_elem path in
  path = s ++ rest /\ Forall (fun c => c <> 0 /\ c <> slash) s /\ (rest = [] \/ exists rest', rest = slash :: rest').
Proof.
  intros H. induction H as [|c path Hc H IH]; simpl; [by split_and!; [|constructor|left]|].
  destruct (c =? slash) eqn:E; simpl; bool_to_prop.
  - subst c. split_and!; [done|constructor|right; eauto].
  - rewrite (proj2 (Z.eqb_neq _ _) Hc). destruct (split_elem path) as [s rest]. simpl.
    destruct IH as (-> & Hs & Hr). split_and!; [done|by constructor|done].
Qed.

Lemma elements_run s rest cur : Forall (fun c => c <> 0 /\ c <> slash) s ->
  elements (s ++ rest) cur = elements rest (cur ++ s).
Proof.
  intros H. revert cur. induction H as [|c s [_ Hc] H IH]; intros cur; simpl; [by rewrite app_nil_r|].
  rewrite (proj2 (Z.eqb_neq _ _) Hc), IH, <- app_assoc. done.
Qed.

(** Storing an element in the buffer and reading it back as a name. *)
Lemma name_buffer s (name : list Z) : Forall (fun c => c <> 0 /\ c <> slash) s -> length name = DIRSIZ ->
  let name' := if (DIRSIZ <=? length s)%nat then put_bytes 0 (take DIRSIZ s) name
               else <[length s := 0]> (put_bytes 0 s name) in
  strncpy_bytes DIRSIZ name' = strncpy_bytes DIRSIZ s /\ length name' = DIRSIZ.
Proof.
  intros Hs Hn name'.
  assert (forall n (u w : list Z), (forall i, (i < n)%nat -> default 0 (u !! i) = default 0 (w !! i) \/
    exists j, (j < i)%nat /\ default 0 (u !! j) = 0 /\ default 0 (w !! j) = 0) ->
    strncpy_bytes n u = strncpy_bytes n w) as Hext.
  { induction n as [|n IH]; intros u w H; [done|]. pose proof (H 0%nat ltac:(lia)) as H0.
    destruct H0 as [H0|(j & ? & _)]; [|lia].
    assert (default 0 (u !! 0%nat) <> 0 -> forall i, (i < n)%nat -> default 0 (tail u !! i) = default 0 (tail w !! i) \/
      exists j, (j < i)%nat /\ default 0 (tail u !! j) = 0 /\ default 0 (tail w !! j) = 0) as Ht.
    { intros Hnz i Hi. destruct (H (S i) ltac:(lia)) as [E|([|j] & Hj & Eu & Ew)].
      - left. by destruct u, w.
      - done.
      - right. exists j. split; [lia|]. by destruct u, w. }
    destruct u as [|a u], w as [|b w]; simpl in *.
    - done.
    - subst b. by rewrite Z.eqb_refl, strncpy_nil.
    - subst a. by rewrite Z.eqb_refl, strncpy_nil.
    - subst b. destruct (Z.eqb_spec a 0) as [->|Ha]; [done|]. f_equal. apply IH. by apply Ht. }
  unfold name'. destruct (Nat.leb_spec DIRSIZ (length s)) as [Hle|Hlt].
  - split; [|by rewrite length_put_bytes]. apply Hext. intros i Hi. left.
    unfold put_bytes. rewrite list_lookup_inserts by (rewrite ?length_take; lia).
    by rewrite Nat.sub_0_r, lookup_take_lt by lia.
  - split; [|by rewrite length_insert, length_put_bytes]. apply Hext. intros i Hi.
    destruct (decide (i < length s)%nat) as [Hi2|Hi2].
    + left. rewrite list_lookup_insert_ne by lia. unfold put_bytes. rewrite list_lookup_inserts by lia. by rewrite Nat.sub_0_r.
    + destruct (decide (i = length s)) as [->|Hne].
      * left. rewrite list_lookup_insert_eq by (rewrite length_put_bytes; lia). by rewrite lookup_ge_None_2 by lia.
      * right. exists (length s). split; [lia|]. rewrite list_lookup_insert_eq by (rewrite length_put_bytes; lia).
        by rewrite lookup_ge_None_2 by lia.
Qed.

(** [skipelem] splits a path as documented: run over a whole path, as [namex]
    does, it yields exactly the non-empty elements between slashes in order, each
    cut to DIRSIZ bytes, and the loop ends within one round more than the path has
    bytes. *)
Theorem skipelem_elements path name :
  no_nul path -> length name = DIRSIZ ->
  path_names (S (length path)) path name = Some (strncpy_bytes DIRSIZ <$> elements path []).
Proof.
  intros Hp. remember (S (length path)) as fuel eqn:Ef. assert (length path < fuel)%nat as Hf by lia. clear Ef.
  revert path name Hp Hf. induction fuel as [|fuel IH]; intros path name Hp Hf Hn; [lia|]. cbn [path_names]. unfold skipelem.
  rewrite <- skip_slashes_elements. pose proof (skip_slashes_no_nul _ Hp) as Hp'.
  pose proof (length_skip_slashes path) as Hlen. pose proof (skip_slashes_head path) as Hhd.
  destruct (skip_slashes path) as [|c rest] eqn:Es; [done|]. inversion Hp' as [|? ? Hc Hrest]; subst.
  cbv zeta. change (at_end (c :: rest)) with (c =? 0). rewrite (proj2 (Z.eqb_neq _ _) Hc).
  pose proof (split_elem_spec (c :: rest) Hp') as Hsp. destruct (split_elem (c :: rest)) as [s rest'] eqn:Esp.
  destruct Hsp as (E & Hs & Hr). destruct s as [|c' s'].
  { simpl in E. subst rest'. destruct Hr as [?|(r & [= -> _])]; [done|]. by destruct (Hhd slash rest eq_refl). }
  destruct (name_buffer (c' :: s') name Hs Hn) as [Hb Hl]. cbv zeta in Hb, Hl.
  set (name' := if (DIRSIZ <=? length (c' :: s'))%nat then _ else _) in *.
  rewrite IH; [| | |done].
  - cbn [option_map]. rewrite Hb, E, elements_run by done. rewrite app_nil_l, skip_slashes_elements.
    destruct Hr as [->|(r & ->)]; [done|]. reflexivity.
  - apply skip_slashes_no_nul. rewrite E in Hp'. by apply Forall_app in Hp' as [_ ?].
  - pose proof (length_skip_slashes rest'). apply (f_equal length) in E. rewrite length_app in E. simpl in E, Hlen. lia.
Qed.

Lemma skipelem_elements_witness :
  path_names 8 [47; 47; 97; 47; 98; 98; 47] (replicate 14 9) =
  Some [strncpy_bytes DIRSIZ [97]; strncpy_bytes DIRSIZ [98; 98]].
Proof.
  apply (skipelem_elements [47; 47; 97; 47; 98; 98; 47] (replicate 14 9)); [|reflexivity].
  repeat constructor; lia.
Defined.

(** ** Directory entries *)
Definition dirent_at (v : tview) (l : list Z) (i : nat) : list Z :=
  file_byte v l <$> seqZ (16 * Z.of_nat i) 16.

(** The inode number an entry gives for [name], if it is that of [name]. *)
Definition entry_for (name d : list Z) : option Z :=
  if de_inum d =? 0 then None else if decide (same_name name (de_name d)) then Some (de_inum d) else None.

Definition dir_search (v : tview) (l : list Z) (name : list Z) (i n : nat) : option (nat * Z) :=
  first_some (fun j => option_map (pair j) (entry_for name (dirent_at v l j))) (seq i n).

(** What a directory of [n] entries maps [name] to: index and inode number. *)
Definition dir_map (v : tview) (l : list Z) (n : nat) (name : list Z) : option (nat * Z) := dir_search v l name 0 n.

Lemma first_some_app {A B} (g : A -> option B) l1 l2 :
  first_some g (l1 ++ l2) = match first_some g l1 with Some b => Some b | None => first_some g l2 end.
Proof. induction l1 as [|x l1 IH]; [done|]. simpl. by destruct (g x). Qed.

Lemma first_some_ext {A B} (f g : A -> option B) l : (forall x, x ∈ l -> f x = g x) -> first_some f l = first_some g l.
Proof.
  induction l as [|x l IH]; intros H; [done|]. simpl. rewrite (H x) by by left. destruct (g x); [done|].
  apply IH. intros y Hy. apply H. by right.
Qed.

Lemma first_some_only {B} (g : nat -> option B) n j b : (j < n)%nat -> g j = Some b ->
  (forall i, (i < n)%nat -> i <> j -> g i = None) -> first_some g (seq 0 n) = Some b.
Proof.
  intros Hj Hb Hno. pose proof (first_some_spec g (seq 0 n)) as H. destruct (first_some g (seq 0 n)) as [b'|].
  - destruct H as (l1 & x & l2 & E & Hx & _). assert (x ∈ seq 0 n) as Hin by (rewrite E; set_solver).
    apply elem_of_seq in Hin. destruct (decide (x = j)) as [->|Hne]; [congruence|]. by rewrite Hno in Hx by lia.
  - rewrite H in Hb; [done|]. apply elem_of_seq. lia.
Qed.

Lemma mk_dirent_inum inum name : 0 <= inum < 65536 -> de_inum (mk_dirent inum name) = inum.
Proof. intros Hi. unfold de_inum, mk_dirent, get16, get8. simpl. zdm. Qed.

Lemma mk_dirent_name inum name : de_name (mk_dirent inum name) = strncpy_bytes DIRSIZ name.
Proof.
  unfold de_name, mk_dirent, get_bytes. change (le16 inum ++ strncpy_bytes DIRSIZ name)
    with ([inum mod 256; inum / 256 mod 256] ++ strncpy_bytes DIRSIZ name).
  rewrite drop_app_length' by done. apply take_ge. by rewrite length_strncpy.
Qed.

Lemma length_mk_dirent inum name : length (mk_dirent inum name) = 16%nat.
Proof. unfold mk_dirent. by rewrite length_app, length_strncpy. Qed.

Lemma entry_for_new name name' inum : 0 < inum < 65536 ->
  entry_for name' (mk_dirent inum name) = if decide (same_name name' name) then Some inum else None.
Proof.
  intros Hi. unfold entry_for. rewrite mk_dirent_inum, mk_dirent_name by lia. rewrite (proj2 (Z.eqb_neq inum 0)) by lia.
  assert (same_name name' (strncpy_bytes DIRSIZ name) <-> same_name name' name) as E
    by (unfold same_name; by rewrite strncpy_idem).
  repeat case_decide; naive_solver.
Qed.

Section Dir.
Context {T : Type} {HT : TxBlocks T} {HTL : TxBlocksLaws T} (devsw : Z -> devops (T := T)).
Implicit Types (s : fs T) (v : tview).

(** [dp] is a directory of [n] entries. *)
Record dir_at s v (dp : nat) (l : list Z) (n : nat) : Prop := {
  da_file : file_at s v dp l;
  da_dir : i_type (inode_at s dp) = T_DIR;
  da_size : i_size (inode_at s dp) = 16 * Z.of_nat n;
}.

Lemma file_at_tx s v ip l t : file_at s v ip l -> tabs t v -> file_at (on_tx s t) v ip l.
Proof. intros [] Ht. by split. Qed.

Lemma dir_at_tx s v dp l n t : dir_at s v dp l n -> tabs t v -> dir_at (on_tx s t) v dp l n.
Proof. intros [H1 H2 H3] Ht. split; [by apply file_at_tx|done..]. Qed.

Lemma read_entry s v dp l n i : dir_at s v dp l n -> room 1 v -> (i < n)%nat ->
  exists t, readi devsw dp (16 * Z.of_nat i) sizeof_dirent s = (Ret (16, dirent_at v l i), on_tx s t) /\
    tabs t v /\ hkeeps v (ftx s) t.
Proof.
  intros [Hf Hty Hsz] Hrm Hi.
  assert (wp (readi devsw dp (16 * Z.of_nat i) sizeof_dirent) (fun r s' => r = (16, dirent_at v l i) /\
    exists t, s' = on_tx s t /\ tabs t v /\ hkeeps v (ftx s) t) s) as H.
  { eapply wp_readi; [done..|rewrite Hsz; lia|unfold sizeof_dirent; lia|]. intros t Ht Hk. rewrite Hsz.
    unfold sizeof_dirent. replace (Z.min 16 (16 * Z.of_nat n - 16 * Z.of_nat i)) with 16 by lia. split; [done|eauto]. }
  apply wp_returns in H as (r & s' & E & -> & t & -> & Ht & Hk). exists t. by rewrite E.
Qed.

(** The loop finds the first matching entry and gets its inode. *)
Lemma dirlookup_loop_run fuel s v dp l n name i :
  dir_at s v dp l n -> room 1 v -> (i <= n)%nat -> (n - i < fuel)%nat ->
  exists t, tabs t v /\ hkeeps v (ftx s) t /\
  dirlookup_loop devsw fuel dp name (16 * Z.of_nat i) s =
  match dir_search v l name i (n - i) with
  | Some (j, inum) => (ip ← iget 1 inum; ret (Some (ip, 16 * Z.of_nat j))) (on_tx s t)
  | None => (Ret None, on_tx s t)
  end.
Proof.
  revert s i. induction fuel as [|fuel IH]; intros s i Hd Hrm Hi Hf; [lia|]. pose proof Hd as [Hfa _ Hsz].
  pose proof (fa_size _ _ _ _ Hfa) as Hmax. rewrite Hsz in Hmax.
  cbn [dirlookup_loop]. unfold bind at 1, geti, gets. rewrite Hsz.
  destruct (decide (i = n)) as [->|Hne].
  - rewrite (proj2 (Z.ltb_ge _ _)) by lia. rewrite Nat.sub_diag. exists (ftx s).
    split; [apply Hfa|]. split; [apply hkeeps_refl|]. by destruct s.
  - rewrite (proj2 (Z.ltb_lt _ _)) by lia. destruct (read_entry s v dp l n i Hd Hrm) as (t & E & Ht & Hk); [lia|].
    rewrite (bind_Ret _ _ _ _ _ E). cbn [fst snd]. change (16 =? sizeof_dirent) with true. cbn [negb panic_if].
    unfold bind at 1, ret at 1. replace (n - i)%nat with (S (n - S i)) by lia.
    unfold dir_search. cbn [seq first_some]. unfold entry_for at 1. rewrite namecmp_spec.
    destruct (IH (on_tx s t) (S i)) as (t2 & Ht2 & Hk2 & E2); [by apply dir_at_tx|done|lia|lia|].
    assert (u32 (16 * Z.of_nat i + sizeof_dirent) = 16 * Z.of_nat (S i)) as Eoff
      by (unfold sizeof_dirent; rewrite u32_small; lia).
    rewrite Eoff. destruct (de_inum (dirent_at v l i) =? 0).
    + exists t2. split; [done|]. split; [by eapply hkeeps_trans|exact E2].
    + destruct (decide (same_name name (de_name (dirent_at v l i)))) as [Hs|Hs].
      * rewrite bool_decide_true by done. exists t. split_and!; [done|done|]. cbn [option_map].
        unfold bind at 1. change (i_dev (inode_at (on_tx s t) dp)) with (i_dev (inode_at s dp)).
        by destruct (fa_has _ _ _ _ Hfa) as (_ & -> & _).
      * rewrite bool_decide_false by done. exists t2. split; [done|]. split; [by eapply hkeeps_trans|exact E2].
Qed.

Lemma dirlookup_run s v dp l n name : dir_at s v dp l n -> room 1 v ->
  exists t, tabs t v /\ hkeeps v (ftx s) t /\
  dirlookup devsw dp name s =
  match dir_map v l n name with
  | Some (j, inum) => (ip ← iget 1 inum; ret (Some (ip, 16 * Z.of_nat j))) (on_tx s t)
  | None => (Ret None, on_tx s t)
  end.
Proof.
  intros Hd Hrm. pose proof Hd as [Hfa Hty Hsz]. unfold dirlookup. unfold bind at 1, geti, gets. cbn [id].
  rewrite Hty, Z.eqb_refl. cbn [negb panic_if]. unfold bind at 1, ret at 1.
  destruct (dirlookup_loop_run (dir_fuel (i_size (inode_at s dp))) s v dp l n name 0 Hd Hrm) as (t & Ht & Hk & E);
    [lia| |exists t; by rewrite Nat.sub_0_r in E].
  rewrite Hsz. unfold dir_fuel, sizeof_dirent. assert (16 * Z.of_nat n / 16 = Z.of_nat n) as -> by (by rewrite Z.mul_comm, Z.div_mul).
  lia.
Qed.

(** The entry [dirlink] writes to: the first free one, or the one after the end. *)
Definition free_at v (l : list Z) (n j : nat) : Prop :=
  (j <= n)%nat /\ (forall i, (i < j)%nat -> de_inum (dirent_at v l i) <> 0) /\
  ((j < n)%nat -> de_inum (dirent_at v l j) = 0).

Lemma free_entry_run fuel s v dp l n i :
  dir_at s v dp l n -> room 1 v -> (i <= n)%nat -> (n - i < fuel)%nat ->
  (forall k, (k < i)%nat -> de_inum (dirent_at v l k) <> 0) ->
  exists t j, tabs t v /\ hkeeps v (ftx s) t /\ free_at v l n j /\
    free_entry devsw fuel dp (16 * Z.of_nat i) s = (Ret (16 * Z.of_nat j), on_tx s t).
Proof.
  revert s i. induction fuel as [|fuel IH]; intros s i Hd Hrm Hi Hf Hno; [lia|]. pose proof Hd as [Hfa _ Hsz].
  pose proof (fa_size _ _ _ _ Hfa) as Hmax. rewrite Hsz in Hmax.
  cbn [free_entry]. unfold bind at 1, geti, gets. rewrite Hsz, u32_small by lia.
  destruct (decide (i = n)) as [->|Hne].
  - rewrite (proj2 (Z.ltb_ge _ _)) by lia. exists (ftx s), n. split; [apply Hfa|]. split; [apply hkeeps_refl|].
    split; [|by destruct s]. split_and!; [lia|done|lia].
  - rewrite (proj2 (Z.ltb_lt _ _)) by lia. destruct (read_entry s v dp l n i Hd Hrm) as (t & E & Ht & Hk); [lia|].
    rewrite (bind_Ret _ _ _ _ _ E). cbn [fst snd]. change (16 =? sizeof_dirent) with true. cbn [negb panic_if].
    unfold bind at 1, ret at 1. destruct (de_inum (dirent_at v l i) =? 0) eqn:E0; bool_to_prop.
    + exists t, i. split_and!; [done|done| |done]. split_and!; [lia|done|done].
    + replace (s32 (16 * Z.of_nat i + sizeof_dirent)) with (16 * Z.of_nat (S i))
        by (unfold sizeof_dirent; rewrite s32_small; lia).
      destruct (IH (on_tx s t) (S i)) as (t2 & j & Ht2 & Hk2 & Hj & E2); [by apply dir_at_tx|done|lia|lia| |].
      * intros k Hk3. destruct (decide (k = i)) as [->|]; [done|]. apply Hno. lia.
      * exists t2, j. split_and!; [done|by eapply hkeeps_trans|done|exact E2].
Qed.

Lemma dirent_frame v l v' l' i : (forall k, 16 * Z.of_nat i <= k < 16 * Z.of_nat i + 16 -> file_byte v' l' k = file_byte v l k) ->
  dirent_at v' l' i = dirent_at v l i.
Proof.
  intros H. unfold dirent_at. apply list_fmap_ext. intros j k Hk. apply H. apply lookup_seqZ in Hk. lia.
Qed.

(** The map after an entry for [name] has been written to the free place [j]. *)
Lemma dir_map_added v l v' l' n j name inum : let n' := Nat.max n (S j) in
  free_at v l n j -> dir_map v l n name = None -> 0 < inum < 65536 ->
  dirent_at v' l' j = mk_dirent inum name ->
  (forall i, i <> j -> (i < n')%nat -> dirent_at v' l' i = dirent_at v l i) ->
  dir_map v' l' n' name = Some (j, inum) /\
  forall name', ~ same_name name' name -> dir_map v' l' n' name' = dir_map v l n name'.
Proof.
  intros n' (Hj1 & Hj2 & Hj3) Hnone Hin Enew Eold. split.
  - unfold dir_map, dir_search. apply (first_some_only _ n' j); [lia| |].
    + rewrite Enew, entry_for_new by done. by rewrite decide_True.
    + intros i Hi Hne. rewrite Eold by done. unfold dir_map, dir_search in Hnone.
      pose proof (first_some_spec (fun j => option_map (pair j) (entry_for name (dirent_at v l j))) (seq 0 n)) as H.
      rewrite Hnone in H. apply H, elem_of_seq. lia.
  - intros name' Hne. unfold dir_map, dir_search.
    assert (forall i, (i < n')%nat -> entry_for name' (dirent_at v' l' i) =
      if decide (i < n)%nat then entry_for name' (dirent_at v l i) else None) as Hent.
    { intros i Hi. destruct (decide (i = j)) as [->|Hij].
      - rewrite Enew, entry_for_new, decide_False by done. case_decide; [|done].
        unfold entry_for. by rewrite Hj3 by done.
      - rewrite Eold by done. case_decide; [done|lia]. }
    replace n' with (n + (n' - n))%nat by lia. rewrite seq_app, first_some_app.
    rewrite (first_some_ext _ (fun j => option_map (pair j) (entry_for name' (dirent_at v l j)))).
    2: { intros i Hi%elem_of_seq. rewrite Hent, decide_True by lia. done. }
    destruct (first_some _ (seq 0 n)) as [b|]; [done|].
    rewrite (first_some_ext _ (fun _ => None)).
    2: { intros i Hi%elem_of_seq. rewrite Hent, decide_False by lia. done. }
    clear. induction (seq (0 + n) (n' - n)) as [|x r IH]; [done|exact IH].
Qed.

(** C31: [dirlink] adds a name: when the directory has no entry for it, [dirlink]
    returns 0, afterwards the directory maps the name to the inode number, and
    every other name to what it was mapped to before. *)
Theorem dirlink_spec s v dp l n name inum :
  dir_at s v dp l n -> dir_map v l n name = None -> 0 < inum < 65536 ->
  16 * (Z.of_nat n + 1) <= MAXFILE * bs -> room 7 v -> has_free 2 (fsb s) v ->
  wp (dirlink devsw dp name inum) (fun r s' => r = 0 /\ exists v' l' n' j,
    dir_at s' v' dp l' n' /\ dir_map v' l' n' name = Some (j, inum) /\
    forall name', ~ same_name name' name -> dir_map v' l' n' name' = dir_map v l n name') s.
Proof.
  intros Hd Hnone Hin Hmax Hrm Hfree. change (MAXFILE * bs) with 71680 in Hmax.
  assert (room 1 v) as Hrm1 by (eapply room_mono; [|exact Hrm]; lia).
  unfold dirlink. destruct (dirlookup_run s v dp l n name Hd Hrm1) as (t & Ht & Hk & E). rewrite Hnone in E.
  apply wp_bind. eapply wp_eq; [exact E|]. cbv beta iota. apply wp_bind, wp_gets. apply wp_bind.
  pose proof (dir_at_tx _ _ _ _ _ _ Hd Ht) as Hd1. pose proof Hd1 as [Hfa1 Hty1 Hsz1].
  destruct (free_entry_run (dir_fuel (i_size (inode_at (on_tx s t) dp))) (on_tx s t) v dp l n 0 Hd1 Hrm1)
    as (t2 & j & Ht2 & Hk2 & (Hj1 & Hj2 & Hj3) & E2); [lia| |lia|].
  { rewrite Hsz1. unfold dir_fuel, sizeof_dirent. rewrite (Z.mul_comm 16), Z.div_mul by done. lia. }
  eapply wp_eq; [exact E2|]. cbv beta. apply wp_bind. rewrite u32_small by lia.
  change (on_tx (on_tx s t) t2) with (on_tx s t2).
  pose proof (dir_at_tx _ _ _ _ _ _ Hd Ht2) as Hd2. pose proof Hd2 as [Hfa2 Hty2 Hsz2].
  pose proof (length_mk_dirent inum name) as Hlen.
  change sizeof_dirent with (Z.of_nat 16). rewrite <- Hlen.
  eapply (wp_writei devsw (on_tx s t2) v dp l (mk_dirent inum name) (16 * Z.of_nat j) 1 0); rewrite ?Hlen;
    [done|rewrite Hsz2; lia|lia| |exact Hrm|exact Hfree|].
  { right. unfold bs. change (Z.of_nat BSIZE) with 512. zdm. }
  intros t3 v' l' Hfa' _ _ Hbytes _. cbn [panic_if negb]. change (Z.of_nat 16 =? Z.of_nat 16) with true.
  cbn [panic_if negb]. apply wp_bind, wp_ret, wp_ret. split; [done|].
  pose proof (fa_has _ _ _ _ Hfa2) as (Hip & _ & _). rewrite Hsz2 in *.
  set (n' := Nat.max n (S j)). exists v', l', n', j.
  assert (dirent_at v' l' j = mk_dirent inum name) as Enew.
  { apply list_eq. intros i. unfold dirent_at. rewrite list_lookup_fmap. destruct (decide (i < 16)%nat) as [Hi|Hi].
    - rewrite lookup_seqZ_lt by lia. cbn [fmap option_fmap option_map]. rewrite Hbytes, decide_True by lia.
      replace (Z.to_nat (16 * Z.of_nat j + Z.of_nat i - 16 * Z.of_nat j)) with i by lia.
      destruct (lookup_lt_is_Some_2 (mk_dirent inum name) i) as [b ->]; [lia|done].
    - rewrite lookup_seqZ_ge by lia. symmetry. apply lookup_ge_None_2. lia. }
  assert (forall i, i <> j -> (i < n')%nat -> dirent_at v' l' i = dirent_at v l i) as Eold.
  { intros i Hi Hin'. apply dirent_frame. intros k Hk3. rewrite Hbytes by lia. rewrite decide_False by lia. done. }
  split.
  - split; [done| |]; rewrite with_file_at by done; simpl; [done|lia].
  - by apply dir_map_added.
Qed.

End Dir.
