(* ===== verification/FsPath.v ===== *)
(** * Inodes taken from disk, and paths (src/xv6/fs.c)

    What [iget], [ilock], [iunlockput] and [namei] do when nobody else holds the
    inode: the entry of the cache is filled from the block of the inode, and
    a name in the root directory leads to the inode of its entry. *)
From S2P Require Import Prelude Block Log Tx Sleeplock Fs FsAlloc FsFile FsRw FsDir.

(** ** A path of one element *)
Definition file_name (name : list Z) : Prop := name <> [] /\ Forall (fun c => c <> 0 /\ c <> slash) name.

Lemma split_elem_name name : Forall (fun c => c <> 0 /\ c <> slash) name -> split_elem name = (name, []).
Proof.
  intros H. induction H as [|c name [Hc1 Hc2] H IH]; [done|]. cbn [split_elem]. rewrite (proj2 (Z.eqb_neq _ _) Hc1), (proj2 (Z.eqb_neq _ _) Hc2). cbn [orb]. by rewrite IH.
Qed.

Lemma skipelem_single name buf : file_name name -> length buf = DIRSIZ ->
  exists buf', skipelem (slash :: name) buf = Some ([], buf') /\ same_name buf' name /\ length buf' = DIRSIZ.
Proof.
  intros [Hne Hf] Hb. destruct (name_buffer name buf Hf Hb) as [Hs Hl]. eexists. split; [|by split].
  unfold skipelem. cbn [skip_slashes]. rewrite Z.eqb_refl. destruct name as [|c name']; [done|]. inversion Hf as [|? ? [Hc1 Hc2] _]; subst.
  assert (skip_slashes (c :: name') = c :: name') as -> by (cbn [skip_slashes]; by rewrite (proj2 (Z.eqb_neq _ _) Hc2)).
  unfold at_end. cbn [head default from_option id]. rewrite (proj2 (Z.eqb_neq _ _) Hc1). by rewrite (split_elem_name _ Hf).
Qed.

Lemma dir_map_same v l n a b : same_name a b -> dir_map v l n a = dir_map v l n b.
Proof.
  intros H. unfold dir_map, dir_search. apply first_some_ext. intros j _. f_equal. unfold entry_for. destruct (de_inum _ =? 0); [done|].
  unfold same_name in *. repeat case_decide; congruence.
Qed.

Lemma wp_via {S A} (m m' : M S A) (Q : A -> S -> Prop) s s' : m s = m' s' -> wp m' Q s' -> wp m Q s.
Proof. intros E H. unfold wp. by rewrite E. Qed.

Section Path.
Context {T : Type} {HT : TxBlocks T} {HTL : TxBlocksLaws T}.
Implicit Types (s : fs T) (v : tview).

(** Entry [ip] of the cache replaced by [x]. *)
Definition with_inode s (ip : nat) (x : inode) (t : T) : fs T := Fs (ic_lock s) (<[ip := x]> (inodes s)) (fsb s) t.

Lemma with_inode_at s ip x t : (ip < length (inodes s))%nat -> inode_at (with_inode s ip x t) ip = x.
Proof. intros H. unfold inode_at. cbn [inodes with_inode]. by rewrite list_lookup_insert_eq. Qed.

Lemma with_inode_other s ip jp x t : ip <> jp -> inode_at (with_inode s ip x t) jp = inode_at s jp.
Proof. intros H. unfold inode_at. cbn [inodes with_inode]. by rewrite list_lookup_insert_ne. Qed.

Lemma alter_inode s ip f t : (ip < length (inodes s))%nat ->
  Fs (ic_lock s) (alter f ip (inodes s)) (fsb s) t = with_inode s ip (f (inode_at s ip)) t.
Proof.
  intros H. unfold with_inode. f_equal. apply list_eq. intros j. destruct (decide (j = ip)) as [->|Hne].
  - rewrite list_lookup_alter_eq, list_lookup_insert_eq by done. unfold inode_at. by destruct (lookup_lt_is_Some_2 _ _ H) as [x ->].
  - by rewrite list_lookup_alter_ne, list_lookup_insert_ne by done.
Qed.

Lemma with_inode_twice s ip x y t t' : with_inode (with_inode s ip x t) ip y t' = with_inode s ip y t'.
Proof. unfold with_inode. cbn [ic_lock inodes fsb]. by rewrite list_insert_insert_eq. Qed.

Lemma wp_updi s ip f (Q : unit -> fs T -> Prop) : (ip < length (inodes s))%nat ->
  Q tt (with_inode s ip (f (inode_at s ip)) (ftx s)) -> wp (updi ip f) Q s.
Proof. intros H HQ. apply wp_modify. unfold upd_inodes. by rewrite alter_inode. Qed.

(** The sleep lock of an inode. *)
Definition lock_of (x : inode) (l : sleeplock) : inode := upd_i_lock (fun _ => l) x.

Lemma wp_inode_sl {A} s ip (m : M slstate A) a l' e' (Q : A -> fs T -> Prop) : (ip < length (inodes s))%nat ->
  m (i_lock (inode_at s ip), view tx_env (ftx s)) = (Ret a, (l', e')) ->
  Q a (with_inode s ip (lock_of (inode_at s ip) l') (over tx_env (fun _ => e') (ftx s))) -> wp (zoom (inode_sl ip) m) Q s.
Proof.
  intros H E HQ. eapply wp_eq; [unfold zoom; cbn [view inode_sl]; rewrite E; reflexivity|]. unfold set. cbn [over inode_sl fst snd].
  unfold upd_ftx, upd_inodes. cbn [ic_lock inodes fsb ftx]. by rewrite alter_inode.
Qed.

(** ** A new entry of the cache *)
Definition new_inode (x : inode) (inum : Z) : inode :=
  Inode ROOTDEV inum 1 (i_lock x) 0 (i_type x) (i_major x) (i_minor x) (i_nlink x) (i_size x) (i_addrs x).

Lemma wp_iget_new s inum ip (Q : nat -> fs T -> Prop) : ic_lock s = false -> (ip < length (inodes s))%nat ->
  iget_scan ROOTDEV inum (inodes s) 0 None = inr (Some ip) ->
  Q ip (with_inode s ip (new_inode (inode_at s ip) inum) (ftx s)) -> wp (iget ROOTDEV inum) Q s.
Proof.
  intros Hl Hip Hs HQ. destruct s as [lk l sb t]. cbn [ic_lock inodes ftx] in *. subst lk.
  unfold iget. apply wp_bind. eapply wp_eq; [by apply acquire_flag_run|]. apply wp_bind, wp_gets.
  change (inodes (set iclock true (Fs false l sb t))) with l. rewrite Hs.
  do 4 (apply wp_bind, wp_updi; [cbn [inodes set iclock over upd_ic_lock with_inode]; rewrite ?length_insert; exact Hip|]).
  rewrite !with_inode_at by (cbn [inodes set iclock over upd_ic_lock with_inode]; rewrite ?length_insert; exact Hip). rewrite !with_inode_twice.
  apply wp_bind. eapply wp_eq; [by apply release_flag_run|]. apply wp_ret. exact HQ.
Qed.

(** ** Loading an inode *)
Definition loaded (x : inode) (d : dinode) (pid : Z) : inode :=
  Inode (i_dev x) (i_inum x) (i_ref x) (Sleeplock false true pid) 1 (d_type d) (d_major d) (d_minor d) (d_nlink d) (d_size d) (d_addrs d).

Lemma wp_ilock_load s v ip p (Q : unit -> fs T -> Prop) : let x := inode_at s ip in let ib := IBLOCK (i_inum x) (fsb s) in
  let d := get_dinode (dip_off (i_inum x)) (tv_blk v ib) in
  (ip < length (inodes s))%nat -> i_dev x = 1 -> 1 <= i_ref x -> i_lock x = Sleeplock false false p -> i_valid x = 0 -> d_type d <> 0 ->
  tabs (ftx s) v -> room 1 v -> 0 <= ib < tv_n v -> quiet v ib ->
  (forall t, tabs t v -> Q tt (with_inode s ip (loaded x d (cur_pid (view tx_env (ftx s)))) t)) ->
  wp (ilock (Some ip)) Q s.
Proof.
  intros x ib d Hip Hdev Href Hlk Hval Hty Ha Hrm Hib [Hq1 Hq2] HQ. unfold ilock. apply wp_bind, wp_gets. fold x.
  apply wp_bind, wp_panic_if; [apply Z.ltb_ge; lia|]. apply wp_bind. eapply wp_inode_sl; [done|fold x; rewrite Hlk; apply acquiresleep_free|]. fold x.
  set (s1 := with_inode s ip _ _). assert (inode_at s1 ip = lock_of x (Sleeplock false true (cur_pid (view tx_env (ftx s))))) as E1 by (by apply with_inode_at).
  assert (tabs (ftx s1) v) as Ha1 by (by apply tx_env_abs). assert (ip < length (inodes s1))%nat as Hip1 by (cbn [s1 inodes with_inode]; by rewrite length_insert).
  apply wp_bind, wp_gets. unfold id. rewrite E1. change (i_valid (lock_of x _)) with (i_valid x). rewrite Hval. cbn [Z.eqb when].
  apply wp_bind, wp_gets. change (fsb s1) with (fsb s). change (i_inum (lock_of x _)) with (i_inum x). change (i_dev (lock_of x _)) with (i_dev x). rewrite Hdev. fold ib.
  apply wp_bind. eapply (wp_fs_bread _ v); [exact Ha1|done|done|by eapply room_avail|]. intros i t1 Ht1 Hi1 _.
  apply wp_bind. eapply wp_fs_data; [exact Ht1|exact Hi1|]. cbn [tv_blk tv_hold]. fold d.
  apply wp_bind, wp_updi; [done|]. apply wp_bind. eapply (wp_release_read _ v); [exact Ht1|exact Hi1|done|done|]. intros t2 Ht2 _.
  apply wp_bind, wp_updi; [cbn [inodes with_inode on_tx]; rewrite length_insert; done|]. apply wp_bind, wp_gets.
  change (inode_at (on_tx s1 t1) ip) with (inode_at s1 ip). set (y := inode_load d (inode_at s1 ip)).
  change (on_tx (with_inode (on_tx s1 t1) ip y (ftx (on_tx s1 t1))) t2) with (with_inode s1 ip y t2). rewrite with_inode_twice, !with_inode_at by done.
  change (ftx (with_inode s1 ip y t2)) with t2. unfold s1. rewrite !with_inode_twice, ?with_inode_at by done. fold s1.
  assert (upd_i_valid (fun _ => 1) y = loaded x d (cur_pid (view tx_env (ftx s)))) as Ey by (unfold y; rewrite E1; done). rewrite Ey.
  apply wp_panic_if; [by apply Z.eqb_neq|]. by apply HQ.
Qed.

(** ** Giving an inode back *)
Definition put_back (x : inode) : inode := upd_i_ref (fun n => s32 (n - 1)) (lock_of x (Sleeplock false false 0)).

Lemma wp_iunlockput s v ip p (Q : unit -> fs T -> Prop) : let x := inode_at s ip in
  (ip < length (inodes s))%nat -> ic_lock s = false -> 1 <= i_ref x -> i_lock x = Sleeplock false true p -> i_nlink x <> 0 -> tabs (ftx s) v ->
  (forall t, tabs t v -> Q tt (with_inode s ip (put_back x) t)) ->
  wp (iunlockput ip) Q s.
Proof.
  intros x Hip Hlk Href Hl Hnl Ha HQ. unfold iunlockput. apply wp_bind. unfold iunlock.
  apply wp_bind. eapply wp_inode_sl; [done|fold x; rewrite Hl; apply holdingsleep_run|]. fold x.
  apply wp_bind, wp_gets. rewrite with_inode_at by done. apply wp_bind, wp_panic_if; [apply Z.ltb_ge; exact Href|].
  eapply wp_inode_sl; [cbn [inodes with_inode]; by rewrite length_insert|rewrite with_inode_at by done; apply releasesleep_run|].
  rewrite with_inode_twice, with_inode_at by done. set (s1 := with_inode s ip _ _).
  assert (tabs (ftx s1) v) as Ha1 by (do 2 apply tx_env_abs; exact Ha). assert (ip < length (inodes s1))%nat as Hip1 by (cbn [s1 inodes with_inode]; by rewrite length_insert).
  assert (inode_at s1 ip = lock_of x (Sleeplock false false 0)) as E1 by (by apply with_inode_at).
  unfold iput. apply wp_bind. eapply wp_inode_sl; [exact Hip1|rewrite E1; apply acquiresleep_free|]. rewrite E1.
  apply wp_bind, wp_gets. rewrite with_inode_at by done. unfold id. change (i_nlink (lock_of _ _)) with (i_nlink x). rewrite (proj2 (Z.eqb_neq _ _) Hnl), andb_false_r. cbn [when].
  apply wp_bind, wp_ret. apply wp_bind. eapply wp_inode_sl; [cbn [inodes with_inode]; by rewrite length_insert|rewrite with_inode_at by done; apply releasesleep_run|].
  rewrite with_inode_twice, with_inode_at by done. unfold s1 at 1. rewrite with_inode_twice.
  set (t2 := over tx_env _ _). assert (tabs t2 v) as Ha2 by (do 2 apply tx_env_abs; exact Ha1). clearbody t2.
  apply wp_bind. eapply wp_eq; [by apply acquire_flag_run|]. apply wp_bind, wp_updi; [cbn [inodes with_inode set over iclock upd_ic_lock]; by rewrite length_insert|].
  eapply wp_eq; [by apply release_flag_run|]. specialize (HQ t2 Ha2). destruct s as [lk l sb t]. cbn [ic_lock] in Hlk. subst lk.
  set (y := lock_of (lock_of (lock_of x _) _) _). change (inode_at (set iclock true (with_inode (Fs false l sb t) ip y t2)) ip) with (inode_at (with_inode (Fs false l sb t) ip y t2) ip).
  rewrite with_inode_at by done. match goal with |- Q tt ?st => replace st with (with_inode (Fs false l sb t) ip (put_back x) t2); [exact HQ|] end.
  unfold set, with_inode. cbn [over iclock upd_ic_lock ic_lock inodes fsb ftx]. by rewrite list_insert_insert_eq.
Qed.

(** ** Files on disk *)

(** Inode [inum] on disk is [d], of a file or directory without holes. *)
Record on_image (sb : superblock) v (inum : Z) (d : dinode) : Prop := {
  oi_read : get_dinode (dip_off inum) (tv_blk v (IBLOCK inum sb)) = d;
  oi_ok : dinode_ok d;
  oi_type : d_type d <> 0 /\ d_type d <> T_DEV;
  oi_ready : fs_ready sb (IBLOCK inum sb) v;
  oi_wf : file_wf sb (IBLOCK inum sb) v (d_addrs d);
  oi_size : 0 <= d_size d <= 71680;
  oi_dense : dense v (d_addrs d) 0 (d_size d);
}.

(** An entry taken and not loaded yet. *)
Definition taken (x : inode) (inum : Z) : Prop :=
  i_dev x = 1 /\ i_inum x = inum /\ 1 <= i_ref x /\ i_valid x = 0 /\ exists p, i_lock x = Sleeplock false false p.

Lemma wp_ilock_image s v ip inum d (Q : unit -> fs T -> Prop) : let x := inode_at s ip in
  (ip < length (inodes s))%nat -> taken x inum -> on_image (fsb s) v inum d -> tabs (ftx s) v -> room 1 v ->
  (forall t pid, file_at (with_inode s ip (loaded x d pid) t) v ip (d_addrs d) -> Q tt (with_inode s ip (loaded x d pid) t)) ->
  wp (ilock (Some ip)) Q s.
Proof.
  intros x Hip (Hdev & Hin & Href & Hval & p & Hlk) [O1 O2 [O3 O4] O5 O6 O7 O8] Ha Hrm HQ.
  pose proof (fr_ib _ _ _ O5) as [Hib _]. pose proof (aw_size _ _ (ca_wf _ _ (fr_alloc _ _ _ O5))) as Hsz.
  eapply (wp_ilock_load s v ip p); fold x; rewrite ?Hin, ?O1; try done; [lia|apply (fr_ib_quiet _ _ _ O5)|].
  intros t Ht. apply HQ. assert (inode_at (with_inode s ip (loaded x d (cur_pid (view tx_env (ftx s)))) t) ip = loaded x d (cur_pid (view tx_env (ftx s)))) as E by (by apply with_inode_at).
  split; rewrite ?E; cbn [loaded i_type i_inum i_size i_addrs fsb with_inode ftx]; rewrite ?Hin; try done.
  - split; [cbn [inodes with_inode]; by rewrite length_insert|]. by rewrite E.
  - unfold on_disk. cbn [loaded i_inum]. rewrite Hin. rewrite O1. by destruct d.
  - by destruct d.
Qed.

Lemma iget_scan_first (l : list inode) inum ip : Forall (fun x => i_ref x = 0) l -> iget_scan ROOTDEV inum l ip None = inr (match l with [] => None | _ => Some ip end).
Proof.
  assert (forall l' ip' e, Forall (fun x => i_ref x = 0) l' -> iget_scan ROOTDEV inum l' ip' (Some e) = inr (Some e)) as H.
  { intros l' ip' e Hl. revert ip'. induction Hl as [|x l' Hx Hl IH]; intros ip'; [done|]. cbn [iget_scan]. rewrite Hx. apply IH. }
  intros Hl. destruct Hl as [|x l Hx Hl]; [done|]. cbn [iget_scan]. rewrite Hx. by apply H.
Qed.

(** ** Names in the root directory *)
Context (devsw : Z -> devops (T := T)).

(** With an empty cache, the path of a name that the root directory maps to
    [inum] leads to a new entry for that inode. *)
Lemma wp_namei_root s v d n name buf cwd j inum (Q : option nat -> fs T -> Prop) :
  ic_lock s = false -> (2 <= length (inodes s))%nat -> Forall (fun x => x = null_inode) (inodes s) -> tabs (ftx s) v -> room 1 v ->
  on_image (fsb s) v ROOTINO d -> d_type d = T_DIR -> d_size d = 16 * Z.of_nat n -> d_nlink d <> 0 ->
  file_name name -> length buf = DIRSIZ -> dir_map v (d_addrs d) n name = Some (j, inum) -> inum <> ROOTINO ->
  (forall s' t, length (inodes s') = length (inodes s) -> fsb s' = fsb s -> ftx s' = t -> tabs t v -> taken (inode_at s' 1) inum -> Q (Some 1%nat) s') ->
  wp (namei devsw cwd (slash :: name) buf) Q s.
Proof.
  intros Hlk Hlen Hnull Ha Hrm Hroot Hdir Hsz Hnl Hname Hbuf Hmap Hino HQ.
  assert (forall k, inode_at s k = null_inode) as Hat.
  { intros k. unfold inode_at. destruct (inodes s !! k) as [x|] eqn:E; [|done]. by apply (Forall_lookup_1 _ _ _ _ Hnull E). }
  assert (Forall (fun x => i_ref x = 0) (inodes s)) as Href by (eapply Forall_impl; [exact Hnull|]; by intros x ->).
  assert (exists a l, inodes s = a :: l /\ l <> []) as (a & l & El0 & Hl0) by (destruct (inodes s) as [|a [|b l]]; cbn in Hlen; try lia; eauto).
  unfold namei, namex. apply wp_bind, wp_bind. cbn [head default from_option id]. rewrite Z.eqb_refl.
  eapply (wp_iget_new s ROOTINO 0); [done|lia|rewrite iget_scan_first by done; by rewrite El0|]. rewrite Hat.
  set (s1 := with_inode s 0 _ _). assert (length (inodes s1) = length (inodes s)) as Hl1 by (cbn [s1 inodes with_inode]; by rewrite length_insert).
  assert (inode_at s1 0 = new_inode null_inode ROOTINO) as E1 by (apply with_inode_at; lia).
  cbn [namex_loop length]. destruct (skipelem_single name buf Hname Hbuf) as (buf' & -> & Hsame & Hbl).
  apply wp_bind. eapply (wp_ilock_image s1 v 0 ROOTINO d); [lia|rewrite E1; unfold taken; cbn; repeat split; [lia|eauto]|done|done|done|]. rewrite E1. intros t2 pid Hfa.
  set (s2 := with_inode s1 0 _ t2) in *. assert (inode_at s2 0 = loaded (new_inode null_inode ROOTINO) d pid) as E2 by (apply with_inode_at; lia).
  apply wp_bind, wp_gets. rewrite E2. cbn [loaded i_type]. rewrite Hdir, Z.eqb_refl. cbn [negb andb].
  assert (dir_at s2 v 0 (d_addrs d) n) as Hda by (split; [done|by rewrite E2|by rewrite E2]).
  destruct (dirlookup_run devsw s2 v 0 (d_addrs d) n buf' Hda Hrm) as (t3 & Ht3 & _ & Hdl). rewrite (dir_map_same _ _ _ _ _ Hsame), Hmap in Hdl.
  apply wp_bind. eapply wp_via; [exact Hdl|]. apply wp_bind.
  set (s3 := on_tx s2 t3). assert (length (inodes s3) = length (inodes s)) as Hl3 by (cbn [s3 on_tx s2 inodes with_inode]; by rewrite length_insert).
  eapply (wp_iget_new s3 inum 1); [done|lia| |].
  { cbn [s3 on_tx s2 s1 inodes with_inode]. rewrite list_insert_insert_eq. rewrite El0 in Href |- *. cbn [insert list_insert iget_scan loaded new_inode i_ref i_dev i_inum].
    rewrite (proj2 (Z.eqb_neq ROOTINO inum)) by congruence. cbn [andb Z.ltb Z.compare Z.eqb]. inversion Href; subst. rewrite iget_scan_first by done. by destruct l. }
  apply wp_ret. set (s4 := with_inode s3 1 _ _). assert (length (inodes s4) = length (inodes s)) as Hl4 by (cbn [s4 inodes with_inode]; by rewrite length_insert).
  assert (inode_at s4 0 = loaded (new_inode null_inode ROOTINO) d pid) as E4 by (unfold s4; by rewrite with_inode_other).
  apply wp_bind. eapply (wp_iunlockput s4 v 0 pid); rewrite ?E4; cbn [loaded i_ref i_lock i_nlink new_inode]; try done; [lia|].
  intros t5 Ht5. destruct (length name) eqn:El; [by destruct name, Hname|]. cbn [namex_loop]. change (skipelem [] buf') with (@None (list Z * list Z)). apply wp_ret, wp_ret. cbn [fst].
  apply (HQ _ t5); try done.
  - cbn [inodes with_inode]. by rewrite length_insert.
  - rewrite with_inode_other by done. unfold s4. rewrite with_inode_at by lia. change (inode_at s3 1) with (inode_at s2 1). unfold s2, s1. rewrite !with_inode_other, Hat by done. unfold taken. cbn. repeat split; [lia|eauto].
Qed.
End Path.
