(* ===== verification/FsImage.v ===== *)
(** * A small file-system image

    A concrete disk of 64 blocks over the buffer cache of bio.c and the log of
    log.c, with a root directory and one file, on which the hypotheses of the
    file-system theorems hold. *)
From S2P Require Import Prelude Block Sleeplock Bio Log Crash Tx Fs FsAlloc FsInode FsFile FsRw FsDir.

(** Blocks: 0 boot, 1 superblock, 2-32 log, 33-34 inodes, 35 bitmap, 36- data. *)
Definition img_sb : superblock := Superblock 64 28 16 31 2 33 35.

Definition sb_block : block :=
  put32 24 35 (put32 20 33 (put32 16 2 (put32 12 31 (put32 8 16 (put32 4 28 (put32 0 64 zero_block)))))).

Definition root_dinode : dinode := Dinode T_DIR 0 0 1 48 (37 :: replicate 12 0).

Definition file_dinode : dinode := Dinode T_FILE 0 0 1 5 (36 :: replicate 12 0).

Definition inode_block : block :=
  put_dinode (dip_off 2) file_dinode (put_dinode (dip_off 1) root_dinode zero_block).

(** Blocks 0 to 37 are allocated. *)
Definition bitmap_block : block := put_bytes 0 [255; 255; 255; 255; 63] zero_block.

Definition hello : list Z := [104; 101; 108; 108; 111].

Definition dir_block : block :=
  put_bytes 0 (mk_dirent 1 [46] ++ mk_dirent 1 [46; 46] ++ mk_dirent 2 [102]) zero_block.

Definition img : list block :=
  [zero_block; sb_block] ++ replicate 31 zero_block ++ [inode_block; zero_block; bitmap_block] ++
  [put_bytes 0 hello zero_block; dir_block] ++ replicate 26 zero_block.

Definition img_view : tview := TView 64 (Bio.disk_fn img) ∅ 30 ∅ ∅.

Lemma img_length : length img = 64%nat.
Proof. vm_compute. reflexivity. Qed.

Lemma img_tabs : exists t : lst Bio.bio, tabs t img_view.
Proof.
  destruct (bio_fresh img) as [c Hc]; [rewrite img_length; lia|].
  exists (Lst (Log false 2 31 1 0 1 0 (replicate 30 0)) c), (fresh_view 64 (Bio.disk_fn img)), [].
  rewrite img_length in Hc. split; try done; constructor.
Qed.

(** Properties of all blocks, checked by evaluation. *)
Lemma img_check (P : Z -> bool) x : below 64 P = true -> 0 <= x < 64 -> P x = true.
Proof. intros H Hx. by apply (below_spec 64 P x). Qed.

Lemma img_bit x : 0 <= x < 64 -> bit_at img_sb (tv_blk img_view) x = (x <? 38).
Proof.
  intros Hx. apply eqb_prop.
  apply (img_check (fun x => Bool.eqb (bit_at img_sb (tv_blk img_view) x) (x <? 38))); [vm_compute; reflexivity|done].
Qed.

Lemma img_bblock x : 0 <= x < 64 -> BBLOCK x img_sb = 35.
Proof.
  intros Hx. apply Z.eqb_eq. apply (img_check (fun x => BBLOCK x img_sb =? 35)); [vm_compute; reflexivity|done].
Qed.

Lemma img_quiet b : quiet img_view b.
Proof. split; simpl; set_solver. Qed.

Lemma img_can_alloc : can_alloc img_sb img_view.
Proof.
  split; [split|done|intros; apply img_quiet|intros; apply img_quiet].
  - done.
  - done.
  - intros b Hb. apply Nat.eqb_eq.
    apply (img_check (fun b => (length (tv_blk img_view b) =? BSIZE)%nat)); [vm_compute; reflexivity|done].
  - intros x y Hx Hy Hbit. change (sb_size img_sb) with 64 in *. rewrite img_bit in Hbit by done. bool_to_prop.
    rewrite img_bblock by done. lia.
Qed.

Lemma img_ready : fs_ready img_sb 33 img_view.
Proof.
  split; [apply img_can_alloc|by rewrite img_bit|by rewrite img_bit| |apply img_quiet].
  intros y Hy. change (sb_size img_sb) with 64 in *. by rewrite img_bblock.
Qed.

Definition file_addrs : list Z := 36 :: replicate 12 0.

Lemma file_addr_of bn : addr_of img_view file_addrs bn = if decide (bn = 0)%nat then 36 else 0.
Proof.
  unfold addr_of. destruct (Nat.ltb_spec bn NDIRECT) as [Hlt|Hge].
  - unfold NDIRECT in Hlt. do 12 (destruct bn as [|bn]; [done|]). lia.
  - rewrite decide_False by (unfold NDIRECT in *; lia). reflexivity.
Qed.

Lemma img_data_ok a : 36 <= a < 38 -> data_ok img_sb 33 img_view a.
Proof.
  intros Ha. split; [simpl; lia|rewrite img_bit by lia; apply Z.ltb_lt; lia| |lia|apply img_quiet].
  intros y Hy. change (sb_size img_sb) with 64 in *. rewrite img_bblock by done. lia.
Qed.

Lemma img_file_wf : file_wf img_sb 33 img_view file_addrs.
Proof.
  split; [done|..].
  - intros bn _. rewrite file_addr_of. case_decide; [|done]. intros _. apply img_data_ok. lia.
  - done.
  - intros bn bn' _ _. rewrite !file_addr_of. repeat case_decide; naive_solver.
  - intros bn _. rewrite file_addr_of. by case_decide.
Qed.

(** The file's inode is in entry 0 of the cache. *)
Definition img_inode : inode := Inode 1 2 1 (Sleeplock false true 1) 1 T_FILE 0 0 1 5 file_addrs.

Definition img_fs (t : lst Bio.bio) : fs (lst Bio.bio) := Fs false (img_inode :: replicate 49 null_inode) img_sb t.

Lemma img_at t : inode_at (img_fs t) 0 = img_inode.
Proof. reflexivity. Qed.

Lemma img_on_disk : on_disk img_sb img_inode img_view.
Proof. unfold on_disk. vm_compute. reflexivity. Qed.

Lemma img_file t : tabs t img_view -> file_at (img_fs t) img_view 0 file_addrs.
Proof.
  intros Ht. split; rewrite ?img_at.
  - split; [simpl; lia|done].
  - done.
  - exact Ht.
  - exact img_ready.
  - exact img_file_wf.
  - simpl. lia.
  - intros k Hk. simpl in Hk. unfold bs. change (Z.of_nat BSIZE) with 512. rewrite Z.div_small by lia.
    by rewrite file_addr_of.
  - exact img_on_disk.
  - split; simpl; try lia; try done. repeat constructor; lia.
Qed.

Lemma img_room k : (k <= 30)%nat -> room (T := lst Bio.bio) k img_view.
Proof.
  intros Hk. split.
  - change (size (∅ : gset Z) + k <= 30)%nat. rewrite size_empty. lia.
  - change (size (∅ ∪ ∅ : gset Z) + k <= cap (C := Bio.bio))%nat. rewrite union_empty_l_L, size_empty, bio_cap. lia.
Qed.

Lemma img_free : has_free 2 img_sb img_view.
Proof.
  exists {[40; 41]}. split; [vm_compute; lia|]. intros x Hx.
  assert (x = 40 \/ x = 41) as [->| ->] by set_solver; by rewrite img_bit.
Qed.

Definition no_devs (major : Z) : devops (T := lst Bio.bio) := Devops None None.

#[export] Instance no_devs_ok : DevsOk no_devs.
Proof. split; done. Qed.

Lemma balloc_spec_witness : exists t : lst Bio.bio,
  match balloc 1 (img_fs t) with (Ret x, _) => bit_at img_sb (tv_blk img_view) x = false | (Panic _, _) => True | _ => False end.
Proof.
  destruct img_tabs as [t Ht]. exists t.
  pose proof (balloc_spec (img_fs t) img_view img_can_alloc (img_room 2 ltac:(lia)) Ht) as H.
  destruct (balloc 1 (img_fs t)) as [[x|msg|ch] s']; [apply H|exact I|exact H].
Defined.


Lemma readi_spec_witness : exists t : lst Bio.bio,
  wp (readi no_devs 0 1 3) (fun r _ => r = (3, [101; 108; 108])) (img_fs t).
Proof.
  destruct img_tabs as [t Ht]. exists t.
  destruct (readi_spec no_devs (img_fs t) img_view 0 file_addrs 1 3 (img_file t Ht)) as [H _]; [lia|apply img_room; lia|].
  eapply wp_mono; [apply H; simpl; lia|]. intros r s' [-> _]. vm_compute. reflexivity.
Defined.

Lemma write_then_read_witness : exists t : lst Bio.bio,
  wp (writei no_devs 0 [33; 33] 5 2 ;; readi no_devs 0 5 2) (fun r _ => r = (2, [33; 33])) (img_fs t).
Proof.
  destruct img_tabs as [t Ht]. exists t.
  apply (write_then_read no_devs (img_fs t) img_view 0 file_addrs [33; 33] 5 1 (img_file t Ht)).
  - simpl. lia.
  - vm_compute. discriminate.
  - right. vm_compute. discriminate.
  - apply img_room. simpl. lia.
  - exact img_free.
Defined.

(** An empty inode cache; [iget] takes the first entry. *)
Definition empty_fs (t : lst Bio.bio) : fs (lst Bio.bio) := Fs false (replicate 50 null_inode) img_sb t.

Lemma icache_references_witness : exists t s,
  rtc (istep no_devs) (empty_fs t, []) (s, [0%nat]) /\ i_ref (inode_at s 0) = 1.
Proof.
  destruct img_tabs as [t _]. set (s := (iget 1 2 (empty_fs t)).2). exists t, s.
  assert (rtc (istep no_devs) (empty_fs t, []) (s, [0%nat])) as Hr.
  { assert (iget 1 2 (empty_fs t) = (Ret 0%nat, s)) as E by (vm_compute; reflexivity).
    eapply rtc_l; [|apply rtc_refl]. apply (is_iget no_devs 1 2 0 (empty_fs t) s []); [simpl; lia|exact E]. }
  split; [exact Hr|]. refine (proj1 (icache_references no_devs (empty_fs t) s [0%nat] eq_refl _ Hr) 0%nat _).
  - apply Forall_replicate. reflexivity.
  - unfold NINODE. lia.
Defined.

(** The root directory, with the entries ".", ".." and "f". *)
Definition root_addrs : list Z := 37 :: replicate 12 0.

Definition root_inode : inode := Inode 1 1 1 (Sleeplock false true 1) 1 T_DIR 0 0 1 48 root_addrs.

Definition root_fs (t : lst Bio.bio) : fs (lst Bio.bio) := Fs false (root_inode :: replicate 49 null_inode) img_sb t.

Lemma root_addr_of bn : addr_of img_view root_addrs bn = if decide (bn = 0)%nat then 37 else 0.
Proof.
  unfold addr_of. destruct (Nat.ltb_spec bn NDIRECT) as [Hlt|Hge].
  - unfold NDIRECT in Hlt. do 12 (destruct bn as [|bn]; [done|]). lia.
  - rewrite decide_False by (unfold NDIRECT in *; lia). reflexivity.
Qed.

Lemma root_wf : file_wf img_sb 33 img_view root_addrs.
Proof.
  split; [done|..].
  - intros bn _. rewrite root_addr_of. case_decide; [|done]. intros _. apply img_data_ok. lia.
  - done.
  - intros bn bn' _ _. rewrite !root_addr_of. repeat case_decide; naive_solver.
  - intros bn _. rewrite root_addr_of. by case_decide.
Qed.

Lemma root_dir t : tabs t img_view -> dir_at (root_fs t) img_view 0 root_addrs 3.
Proof.
  intros Ht. split; [|reflexivity|reflexivity]. assert (inode_at (root_fs t) 0 = root_inode) as E by reflexivity.
  split; rewrite ?E.
  - split; [simpl; lia|done].
  - done.
  - exact Ht.
  - exact img_ready.
  - exact root_wf.
  - simpl. lia.
  - intros k Hk. simpl in Hk. unfold bs. change (Z.of_nat BSIZE) with 512. rewrite Z.div_small by lia.
    by rewrite root_addr_of.
  - vm_compute. reflexivity.
  - split; simpl; try lia; try done. repeat constructor; lia.
Qed.

Lemma dirlink_spec_witness : exists t : lst Bio.bio,
  wp (dirlink no_devs 0 [103] 5) (fun r _ => r = 0) (root_fs t).
Proof.
  destruct img_tabs as [t Ht]. exists t.
  assert (dir_map img_view root_addrs 3 [103] = None) as Hnone by (vm_compute; reflexivity).
  eapply wp_mono; [apply (dirlink_spec no_devs (root_fs t) img_view 0 root_addrs 3 [103] 5 (root_dir t Ht) Hnone)|].
  - lia.
  - vm_compute. discriminate.
  - apply img_room. lia.
  - exact img_free.
  - intros r s' [-> _]. reflexivity.
Defined.
