(* ===== verification/Pipe.v ===== *)
(** * Pipes (src/xv6/pipe.c)

    A call of [pipewrite] or [piperead] runs with the pipe's lock held from one
    [sleep] to the next; such a stretch is [pipewrite_seg] or [piperead_seg].  The
    whole call is a sequence of stretches with [sleep] in between, a parameter:
    what happens while the caller has given up the lock. *)
From S2P Require Import Prelude.

Definition PIPESIZE : Z := 512.

Record pipe : Type := Pipe {
  pp_lock : bool;
  pp_data : list Z;
  nread : Z;
  nwrite : Z;
  readopen : Z;
  writeopen : Z;
}.

Definition upd_pp_lock (f : bool -> bool) (p : pipe) : pipe :=
  Pipe (f (pp_lock p)) (pp_data p) (nread p) (nwrite p) (readopen p) (writeopen p).

Definition set_readopen (v : Z) (p : pipe) : pipe :=
  Pipe (pp_lock p) (pp_data p) (nread p) (nwrite p) v (writeopen p).

Definition set_writeopen (v : Z) (p : pipe) : pipe :=
  Pipe (pp_lock p) (pp_data p) (nread p) (nwrite p) (readopen p) v.

(** The fields [pipealloc] sets in a new pipe whose page held [data]. *)
Definition new_pipe (data : list Z) : pipe := Pipe false data 0 0 1 1.

(** [p->data[p->nwrite++ % PIPESIZE] = b] *)
Definition pipe_put (b : Z) (p : pipe) : pipe :=
  Pipe (pp_lock p) (<[Z.to_nat (nwrite p mod PIPESIZE) := b]> (pp_data p)) (nread p)
    (u32 (nwrite p + 1)) (readopen p) (writeopen p).

(** [p->data[p->nread++ % PIPESIZE]]: the byte read, and the counter moved on *)
Definition pipe_get (p : pipe) : Z := default 0 (pp_data p !! Z.to_nat (nread p mod PIPESIZE)).

Definition pipe_next (p : pipe) : pipe :=
  Pipe (pp_lock p) (pp_data p) (u32 (nread p + 1)) (nwrite p) (readopen p) (writeopen p).

(** [&p->nread] and [&p->nwrite] of the pipe at address [p] *)
Definition nread_chan (p : Z) : Z := p + 564.

Definition nwrite_chan (p : Z) : Z := p + 568.

Section Pipe.
Context {S : Type} (pl : lens S pipe) (el : lens S env) (addr : Z).

Definition pplock : lens S bool :=
  Lens (fun s => pp_lock (view pl s)) (fun f s => over pl (upd_pp_lock f) s).

Definition killed : M S bool := gets (fun s => cur_killed (view el s)).

Definition pipe_is_full (p : pipe) : bool := nwrite p =? u32 (nread p + PIPESIZE).

Definition pipe_is_empty (p : pipe) : bool := nread p =? nwrite p.

(** Sleeping on [&p->nwrite] with the bytes [inr rest] still to be written. *)
Fixpoint pipewrite_seg (data : list Z) (n : Z) : M S (Z + list Z) :=
  match data with
  | [] =>
      wakeup_ev el (nread_chan addr) ;;
      release_flag pplock ;;
      ret (inl n)
  | b :: rest =>
      p ← gets (view pl);
      if pipe_is_full p then
        k ← killed;
        if (readopen p =? 0) || k then
          release_flag pplock ;;
          ret (inl (-1))
        else
          wakeup_ev el (nread_chan addr) ;;
          ret (inr data)
      else
        modify (over pl (pipe_put b)) ;;
        pipewrite_seg rest n
  end.

(** The copying loop of [piperead]: the bytes read. *)
Fixpoint piperead_copy (n : nat) : M S (list Z) :=
  match n with
  | O => ret []
  | Datatypes.S k =>
      p ← gets (view pl);
      if pipe_is_empty p then ret []
      else
        modify (over pl pipe_next) ;;
        rest ← piperead_copy k;
        ret (pipe_get p :: rest)
  end.

(** [inr tt]: sleeping on [&p->nread] *)
Definition piperead_seg (n : Z) : M S ((Z * list Z) + unit) :=
  p ← gets (view pl);
  if pipe_is_empty p && negb (writeopen p =? 0) then
    k ← killed;
    if k then
      release_flag pplock ;;
      ret (inl (-1, []))
    else ret (inr tt)
  else
    d ← piperead_copy (Z.to_nat n);
    wakeup_ev el (nwrite_chan addr) ;;
    release_flag pplock ;;
    ret (inl (Z.of_nat (length d), d)).

(** [sleep(chan, &p->lock)]: the lock is given up and taken back. *)
Context (sleep : Z -> M S unit).

(** A call that is still asleep after [wakeups] wake-ups ends in [Sleep]. *)
Fixpoint pipewrite_loop (wakeups : nat) (data : list Z) (n : Z) : M S Z :=
  r ← pipewrite_seg data n;
  match r with
  | inl v => ret v
  | inr rest =>
      match wakeups with
      | O => release_flag pplock ;; sleep_on (nwrite_chan addr)
      | Datatypes.S k => sleep (nwrite_chan addr) ;; pipewrite_loop k rest n
      end
  end.

(** [data]: the bytes at [addr] *)
Definition pipewrite (wakeups : nat) (data : list Z) (n : Z) : M S Z :=
  acquire_flag pplock ;;
  pipewrite_loop wakeups (take (Z.to_nat n) data) n.

Fixpoint piperead_loop (wakeups : nat) (n : Z) : M S (Z * list Z) :=
  r ← piperead_seg n;
  match r with
  | inl v => ret v
  | inr _ =>
      match wakeups with
      | O => release_flag pplock ;; sleep_on (nread_chan addr)
      | Datatypes.S k => sleep (nread_chan addr) ;; piperead_loop k n
      end
  end.

Definition piperead (wakeups : nat) (n : Z) : M S (Z * list Z) :=
  acquire_flag pplock ;;
  piperead_loop wakeups n.

(** [kfree((char* )p)] when both ends are closed *)
Definition pipeclose (kfree : M S unit) (writable : bool) : M S unit :=
  acquire_flag pplock ;;
  (if writable then
     modify (over pl (set_writeopen 0)) ;;
     wakeup_ev el (nread_chan addr)
   else
     modify (over pl (set_readopen 0)) ;;
     wakeup_ev el (nwrite_chan addr)) ;;
  p ← gets (view pl);
  if (readopen p =? 0) && (writeopen p =? 0) then
    release_flag pplock ;;
    kfree
  else release_flag pplock.

End Pipe.
