(* ===== verification/PipeFifo.v ===== *)
(** * A pipe is a bounded queue of bytes without lost wake-ups

    The ring buffer with its two wrapping counters stands for a list; readers and
    writers run their stretches of pipe.c in any order. *)
From S2P Require Import Prelude Pipe.

(** ** The buffer *)
Definition count (p : pipe) : Z := u32 (nwrite p - nread p).

Definition slot (p : pipe) (k : nat) : Z :=
  default 0 (pp_data p !! Z.to_nat ((nread p + Z.of_nat k) mod PIPESIZE)).

(** The bytes in the pipe, oldest first. *)
Definition contents (p : pipe) : list Z := slot p <$> seq 0 (Z.to_nat (count p)).

Record pipe_ok (p : pipe) : Prop := {
  ok_len : length (pp_data p) = 512%nat;
  ok_nread : 0 <= nread p < 4294967296;
  ok_nwrite : 0 <= nwrite p < 4294967296;
  ok_count : count p <= 512;
}.

Lemma count_range p : 0 <= count p < 4294967296.
Proof. apply u32_range. Qed.

Lemma length_contents p : length (contents p) = Z.to_nat (count p).
Proof. unfold contents. by rewrite length_fmap, length_seq. Qed.

Lemma full_count p : pipe_ok p -> pipe_is_full p = (count p =? 512).
Proof.
  intros [_ Hr Hw _]. unfold pipe_is_full, count, u32, PIPESIZE in *.
  destruct (_ =? _) eqn:E1, (_ mod _ =? 512) eqn:E2; bool_to_prop; try done; zdm.
Qed.

Lemma empty_count p : pipe_ok p -> pipe_is_empty p = (count p =? 0).
Proof.
  intros [_ Hr Hw _]. unfold pipe_is_empty, count, u32 in *.
  destruct (_ =? nwrite p) eqn:E1, (_ mod _ =? 0) eqn:E2; bool_to_prop; try done; zdm.
Qed.

Lemma put_ok b p : pipe_ok p -> count p < 512 ->
  pipe_ok (pipe_put b p) /\ contents (pipe_put b p) = contents p ++ [b].
Proof.
  intros [Hl Hr Hw Hc] Hn. pose proof (count_range p) as H0.
  assert (count (pipe_put b p) = count p + 1) as E.
  { unfold count in *. simpl. unfold u32 in *. rewrite Zminus_mod_idemp_l. zdm. }
  split.
  - split; simpl; [by rewrite length_insert|done|apply u32_range|unfold count in *; simpl in *; lia].
  - unfold contents. rewrite E. replace (Z.to_nat (count p + 1)) with (S (Z.to_nat (count p))) by lia.
    rewrite seq_S, fmap_app. simpl. f_equal.
    + apply list_fmap_ext. intros j x Hx. apply lookup_seq in Hx as [-> Hj]. unfold slot. simpl.
      rewrite list_lookup_insert_ne; [done|].
      unfold PIPESIZE, count, u32 in *. intros Heq. apply Z2Nat.inj in Heq; [|zdm|zdm]. zdm.
    + f_equal. unfold slot. simpl.
      assert ((nread p + Z.of_nat (Z.to_nat (count p))) mod PIPESIZE = nwrite p mod PIPESIZE) as ->.
      { rewrite Z2Nat.id by lia. unfold count, u32, PIPESIZE in *. zdm. }
      rewrite list_lookup_insert_eq; [done|]. rewrite Hl. unfold PIPESIZE. zdm.
Qed.

Lemma get_ok p : pipe_ok p -> 0 < count p ->
  pipe_ok (pipe_next p) /\ contents p = pipe_get p :: contents (pipe_next p).
Proof.
  intros [Hl Hr Hw Hc] Hn.
  assert (count (pipe_next p) = count p - 1) as E.
  { unfold count in *. simpl. unfold u32 in *. rewrite Zminus_mod_idemp_r. zdm. }
  split.
  - split; simpl; [done|apply u32_range|done|unfold count in *; simpl in *; lia].
  - unfold contents. rewrite E. replace (Z.to_nat (count p)) with (S (Z.to_nat (count p - 1))) by lia.
    rewrite <- cons_seq, fmap_cons. f_equal.
    + unfold slot, pipe_get. by rewrite Z.add_0_r.
    + rewrite <- fmap_S_seq, <- list_fmap_compose. apply list_fmap_ext. intros j x Hx.
      unfold slot. simpl. do 3 f_equal. unfold u32, PIPESIZE. rewrite (Z.mod_eq (nread p + 1) 4294967296) by lia.
      zdm.
Qed.

(** ** Stretches *)
Definition pe : Type := pipe * env.

Definition pe_pipe : lens pe pipe := Lens fst (fun f s => (f s.1, s.2)).

Definition pe_env : lens pe env := Lens snd (fun f s => (s.1, f s.2)).

Section Stretches.
Context (addr : Z).

Abbreviation wseg := (pipewrite_seg pe_pipe pe_env addr).
Abbreviation rseg := (piperead_seg pe_pipe pe_env addr).

Definition lock_pipe (b : bool) (p : pipe) : pipe := upd_pp_lock (fun _ => b) p.

Lemma contents_lock b p : contents (lock_pipe b p) = contents p.
Proof. done. Qed.

Lemma ok_lock b p : pipe_ok p -> pipe_ok (lock_pipe b p).
Proof. intros []. by split. Qed.

(** The pipe after [bs] was put into it. *)
Definition puts (bs : list Z) (p : pipe) : pipe := foldl (fun p b => pipe_put b p) p bs.

Lemma puts_ok bs p : pipe_ok p -> count p + Z.of_nat (length bs) <= 512 ->
  pipe_ok (puts bs p) /\ contents (puts bs p) = contents p ++ bs /\ pp_lock (puts bs p) = pp_lock p /\
  readopen (puts bs p) = readopen p /\ writeopen (puts bs p) = writeopen p /\ nread (puts bs p) = nread p.
Proof.
  revert p. induction bs as [|b bs IH]; intros p H Hc; simpl in *; [by rewrite app_nil_r|].
  destruct (put_ok b p H) as [H1 H2]; [lia|].
  assert (count (pipe_put b p) = count p + 1) as E.
  { pose proof (length_contents (pipe_put b p)) as El. rewrite H2, length_app, length_contents in El. simpl in El.
    pose proof (count_range p). pose proof (count_range (pipe_put b p)). lia. }
  destruct (IH (pipe_put b p) H1) as (A & B & C & D & F & G); [lia|].
  split_and!; [done| |done|done|done|done]. rewrite B, H2, <- app_assoc. done.
Qed.

Definition room (p : pipe) : nat := Z.to_nat (512 - count p).

(** What a stretch of [pipewrite] does. *)
Lemma wseg_run data n p e : pipe_ok p -> pp_lock p = true ->
  let p' := puts (take (room p) data) p in
  wseg data n (p, e) =
    if (length data <=? room p)%nat then (Ret (inl n), (lock_pipe false p', env_wake (nread_chan addr) e))
    else if (readopen p =? 0) || cur_killed e then (Ret (inl (-1)), (lock_pipe false p', e))
    else (Ret (inr (drop (room p) data)), (p', env_wake (nread_chan addr) e)).
Proof.
  revert p. induction data as [|b data IH]; intros p H Hl.
  - cbn [pipewrite_seg length]. unfold wakeup_ev. cbv zeta. rewrite take_nil. cbn [Nat.leb puts foldl].
    run_pure. unfold release_flag. rewrite bind_assoc. run_pure. simpl. rewrite Hl. done.
  - cbn [pipewrite_seg]. run_pure. change (view pe_pipe (p, e)) with p. rewrite full_count by done.
    pose proof (count_range p) as H0. pose proof (ok_count _ H) as Hc.
    destruct (count p =? 512) eqn:E; bool_to_prop.
    + assert (room p = 0%nat) as -> by (unfold room; lia). cbn [length Nat.leb take drop puts foldl].
      unfold killed. run_pure. change (view pe_env (p, e)) with e.
      destruct (_ || _).
      * unfold release_flag. rewrite bind_assoc. run_pure. simpl. rewrite Hl. done.
      * unfold wakeup_ev. run_pure. done.
    + assert (room p = S (room (pipe_put b p))) as Er.
      { destruct (puts_ok [b] p H) as (_ & E2 & _); [simpl; lia|]. simpl in E2.
        pose proof (length_contents (pipe_put b p)) as El. rewrite E2, length_app, length_contents in El. simpl in El.
        pose proof (count_range (pipe_put b p)). unfold room. lia. }
      run_pure. change (over pe_pipe (pipe_put b) (p, e)) with (pipe_put b p, e).
      destruct (put_ok b p H) as [H1 _]; [lia|].
      rewrite (IH (pipe_put b p) H1 Hl). rewrite Er. done.
Qed.

(** What the copying loop of [piperead] does. *)
Lemma rcopy_run n p e : pipe_ok p ->
  exists p', piperead_copy pe_pipe n (p, e) = (Ret (take n (contents p)), (p', e)) /\
    pipe_ok p' /\ contents p' = drop n (contents p) /\ pp_lock p' = pp_lock p /\
    readopen p' = readopen p /\ writeopen p' = writeopen p /\ nwrite p' = nwrite p.
Proof.
  revert p. induction n as [|n IH]; intros p H; cbn [piperead_copy].
  { exists p. by rewrite drop_0. }
  run_pure. change (view pe_pipe (p, e)) with p. rewrite empty_count by done. pose proof (count_range p).
  destruct (count p =? 0) eqn:E; bool_to_prop.
  - exists p. assert (contents p = []) as -> by (apply length_zero_iff_nil; rewrite length_contents; lia). done.
  - destruct (get_ok p H) as [H1 H2]; [lia|]. run_pure.
    destruct (IH (pipe_next p) H1) as (p' & E1 & Hp' & E2 & E3 & E4 & E5 & E6).
    exists p'. change (over pe_pipe pipe_next (p, e)) with (pipe_next p, e). run_step E1.
    rewrite H2. split_and!; try done.
Qed.

Lemma rseg_run n p e : pipe_ok p -> pp_lock p = true ->
  if (count p =? 0) && negb (writeopen p =? 0) then
    rseg n (p, e) = if cur_killed e then (Ret (inl (-1, [])), (lock_pipe false p, e)) else (Ret (inr tt), (p, e))
  else
    let d := take (Z.to_nat n) (contents p) in
    exists p', rseg n (p, e) = (Ret (inl (Z.of_nat (length d), d)), (p', env_wake (nwrite_chan addr) e)) /\
      pipe_ok p' /\ contents p' = drop (Z.to_nat n) (contents p) /\ pp_lock p' = false /\
      readopen p' = readopen p /\ writeopen p' = writeopen p /\ nwrite p' = nwrite p.
Proof.
  intros H Hl. unfold piperead_seg. rewrite <- (empty_count p H).
  destruct (pipe_is_empty p && negb (writeopen p =? 0)) eqn:E.
  - run_pure. change (view pe_pipe (p, e)) with p. rewrite E. unfold killed. run_pure.
    change (view pe_env (p, e)) with e. destruct (cur_killed e); [|done].
    unfold release_flag. rewrite bind_assoc. run_pure. simpl. by rewrite Hl.
  - destruct (rcopy_run (Z.to_nat n) p e H) as (p' & E1 & Hp' & E2 & E3 & E4 & E5 & E6).
    exists (lock_pipe false p'). split_and!; try done; [|by apply ok_lock].
    run_pure. change (view pe_pipe (p, e)) with p. rewrite E. run_step E1. unfold wakeup_ev. run_pure.
    unfold release_flag. rewrite bind_assoc. run_pure. simpl. rewrite E3, Hl. done.
Qed.

(** ** Readers and writers *)
Inductive call : Type :=
| Writer (data : list Z) (n : Z)
| Reader (n : Z).

(** A call in progress: where it stands, whether it is asleep, and whether its
    process has been killed. *)
Record thread : Type := Thread {
  th_call : call;
  th_asleep : bool;
  th_killed : bool;
}.

(** [sent] and [recv] are the bytes that went into and came out of the pipe so
    far, in order; [kills] says whether a process was killed during a call. *)
Record system : Type := System {
  y_pipe : pipe;
  threads : gmap nat thread;
  sent : list Z;
  recv : list Z;
  kills : bool;
}.

Definition is_writer (c : call) : bool := match c with Writer _ _ => true | Reader _ => false end.

(** [wakeup] on the channels [ws]: a writer sleeps on [&p->nwrite], a reader on
    [&p->nread]. *)
Definition wakes (ws : list Z) (t : thread) : thread :=
  let ch := if is_writer (th_call t) then nwrite_chan addr else nread_chan addr in
  Thread (th_call t) (th_asleep t && negb (bool_decide (ch ∈ ws))) (th_killed t).

Definition acquired (b : bool) (p : pipe) : pe := (lock_pipe true p, Env 0 b []).

Inductive step : system -> system -> Prop :=
| step_call y i c :
    threads y !! i = None ->
    (if is_writer c then writeopen (y_pipe y) <> 0 else readopen (y_pipe y) <> 0) ->
    step y (System (y_pipe y) (<[i := Thread c false false]> (threads y)) (sent y) (recv y) (kills y))
| step_write y i data n k v p' e' :
    threads y !! i = Some (Thread (Writer data n) false k) ->
    wseg data n (acquired k (y_pipe y)) = (Ret (inl v), (p', e')) ->
    step y (System p' (wakes (woken e') <$> delete i (threads y))
      (sent y ++ take (Z.to_nat (u32 (nwrite p' - nwrite (y_pipe y)))) data) (recv y) (kills y))
| step_write_sleep y i data n k rest p' e' :
    threads y !! i = Some (Thread (Writer data n) false k) ->
    wseg data n (acquired k (y_pipe y)) = (Ret (inr rest), (p', e')) ->
    step y (System (lock_pipe false p')
      (<[i := Thread (Writer rest n) true k]> (wakes (woken e') <$> threads y))
      (sent y ++ take (Z.to_nat (u32 (nwrite p' - nwrite (y_pipe y)))) data) (recv y) (kills y))
| step_read y i n k v d p' e' :
    threads y !! i = Some (Thread (Reader n) false k) ->
    rseg n (acquired k (y_pipe y)) = (Ret (inl (v, d)), (p', e')) ->
    step y (System p' (wakes (woken e') <$> delete i (threads y)) (sent y) (recv y ++ d) (kills y))
| step_read_sleep y i n k p' e' :
    threads y !! i = Some (Thread (Reader n) false k) ->
    rseg n (acquired k (y_pipe y)) = (Ret (inr tt), (p', e')) ->
    step y (System (lock_pipe false p')
      (<[i := Thread (Reader n) true k]> (wakes (woken e') <$> threads y)) (sent y) (recv y) (kills y))
| step_close y w p' e' :
    (forall i t, threads y !! i = Some t -> is_writer (th_call t) <> w) ->
    pipeclose pe_pipe pe_env addr (ret tt) w (y_pipe y, Env 0 false []) = (Ret tt, (p', e')) ->
    step y (System p' (wakes (woken e') <$> threads y) (sent y) (recv y) (kills y))
| step_kill y i t :
    threads y !! i = Some t ->
    step y (System (y_pipe y) (<[i := Thread (th_call t) false true]> (threads y)) (sent y) (recv y) true).

Definition fresh (y : system) : Prop :=
  exists data, length data = 512%nat /\ y_pipe y = new_pipe data /\ threads y = ∅ /\ sent y = [] /\ recv y = [] /\ kills y = false.

Record inv (y : system) : Prop := {
  inv_ok : pipe_ok (y_pipe y);
  inv_lock : pp_lock (y_pipe y) = false;
  inv_fifo : sent y = recv y ++ contents (y_pipe y);
  inv_writer : forall i t, threads y !! i = Some t -> is_writer (th_call t) = true -> writeopen (y_pipe y) <> 0 /\
    (th_asleep t = true -> count (y_pipe y) = 512 /\ readopen (y_pipe y) <> 0);
  inv_reader : forall i t, threads y !! i = Some t -> is_writer (th_call t) = false -> readopen (y_pipe y) <> 0 /\
    (th_asleep t = true -> writeopen (y_pipe y) <> 0 /\ (kills y = false -> count (y_pipe y) = 0));
  inv_killed : forall i t, threads y !! i = Some t -> th_killed t = true -> kills y = true;
}.

Lemma fresh_inv y : fresh y -> inv y.
Proof.
  intros (data & Hl & Ep & Et & Es & Er & _). split; rewrite ?Ep, ?Et, ?Es, ?Er; done.
Qed.

Lemma nread_ne_nwrite : nread_chan addr <> nwrite_chan addr.
Proof. unfold nread_chan, nwrite_chan. lia. Qed.

(** After a stretch that woke the other side, no thread of that side sleeps. *)
Lemma wakes_lookup ws (ts : gmap nat thread) i t : (wakes ws <$> ts) !! i = Some t ->
  exists t0, ts !! i = Some t0 /\ th_call t = th_call t0 /\ th_killed t = th_killed t0 /\
    (th_asleep t = true -> th_asleep t0 = true /\
      (if is_writer (th_call t0) then nwrite_chan addr ∉ ws else nread_chan addr ∉ ws)).
Proof.
  rewrite lookup_fmap. intros (t0 & H0 & ->)%fmap_Some. exists t0. split_and!; [done|done|done|].
  simpl. intros [Ha Hb]%andb_true_iff. split; [done|]. apply negb_true_iff, bool_decide_eq_false in Hb.
  by destruct (is_writer _).
Qed.

Lemma contents_count p q : contents p = contents q -> count p = count q.
Proof.
  intros H. pose proof (length_contents p) as H1. rewrite H, length_contents in H1.
  pose proof (count_range p). pose proof (count_range q). lia.
Qed.

Lemma sent_puts p data : pipe_ok p -> let p' := puts (take (room p) data) p in
  take (Z.to_nat (u32 (nwrite p' - nwrite p))) data = take (room p) data /\
  pipe_ok p' /\ contents p' = contents p ++ take (room p) data /\
  readopen p' = readopen p /\ writeopen p' = writeopen p /\ pp_lock p' = pp_lock p.
Proof.
  intros H p'. pose proof (ok_count _ H). pose proof (count_range p). set (bs := take (room p) data).
  assert (length bs <= room p)%nat as Hl by (unfold bs; rewrite length_take; lia).
  destruct (puts_ok bs p H) as (A & B & C & D & F & G); [unfold room in Hl; lia|].
  split_and!; try done. fold bs in p'. fold p' in A, B, C, D, F, G.
  pose proof (length_contents p') as E. rewrite B, length_app, length_contents in E.
  assert (Z.to_nat (u32 (nwrite p' - nwrite p)) = length bs) as ->.
  { pose proof (count_range p'). assert (count p' = count p + Z.of_nat (length bs)) as Ec by lia.
    unfold count in Ec. rewrite G in Ec. destruct H, A. unfold u32 in *. zdm. }
  unfold bs. rewrite length_take. destruct (decide (room p <= length data)%nat).
  - by rewrite Nat.min_l.
  - rewrite Nat.min_r by lia. rewrite !take_ge by lia. done.
Qed.

(** A stretch that changed the pipe from [p] to [p'] keeps the promises to the
    threads of a map whose sleepers were woken as needed. *)
Lemma inv_threads y p' ws ts' i0 sent' recv' :
  inv y -> pipe_ok p' -> pp_lock p' = false -> sent' = recv' ++ contents p' ->
  readopen p' = readopen (y_pipe y) -> writeopen p' = writeopen (y_pipe y) ->
  (count p' = count (y_pipe y) \/ count (y_pipe y) <> 512 \/ nwrite_chan addr ∈ ws) ->
  (count p' = count (y_pipe y) \/ count (y_pipe y) <> 0 \/ nread_chan addr ∈ ws \/ kills y = true \/ readopen p' = 0) ->
  (forall i t, i <> i0 -> ts' !! i = Some t -> (wakes ws <$> threads y) !! i = Some t) ->
  (forall t, ts' !! i0 = Some t -> (th_killed t = true -> kills y = true) /\ if is_writer (th_call t)
     then writeopen p' <> 0 /\ (th_asleep t = true -> count p' = 512 /\ readopen p' <> 0)
     else readopen p' <> 0 /\ (th_asleep t = true -> writeopen p' <> 0 /\ (kills y = false -> count p' = 0))) ->
  inv (System p' ts' sent' recv' (kills y)).
Proof.
  intros Hi Hok Hlk Hs Hro Hwo Hw Hr Hts H0. split; simpl; try done; intros i t Ht Hc.
  all: destruct (decide (i = i0)) as [->|Hne]; [destruct (H0 t Ht) as [? H0']; try rewrite Hc in H0'; by auto|].
  all: destruct (wakes_lookup _ _ _ _ (Hts i t Hne Ht)) as (t0 & Ht0 & Ec & Ek & Ha).
  - rewrite Ec in Hc. destruct (inv_writer y Hi i t0 Ht0 Hc) as [H1 H2]. rewrite Hro, Hwo. split; [done|].
    intros Hs'. destruct (Ha Hs') as [Ha1 Ha2]. rewrite Hc in Ha2. destruct (H2 Ha1) as [E1 E2].
    split; [|done]. destruct Hw as [->|[?|?]]; done.
  - rewrite Ec in Hc. destruct (inv_reader y Hi i t0 Ht0 Hc) as [H1 H2]. rewrite Hro, Hwo. split; [done|].
    intros Hs'. destruct (Ha Hs') as [Ha1 Ha2]. rewrite Hc in Ha2. destruct (H2 Ha1) as [E1 E2].
    split; [done|]. intros Hk. specialize (E2 Hk). destruct Hr as [->|[?|[?|[?|?]]]]; congruence.
  - eapply (inv_killed y Hi); [done|congruence].
Qed.

Lemma lookup_fmap_delete {A B} (f : A -> B) (m : gmap nat A) i j x :
  j <> i -> (f <$> delete i m) !! j = Some x -> (f <$> m) !! j = Some x.
Proof. intros Hne. by rewrite fmap_delete, lookup_delete_ne. Qed.

Lemma inv_write y i data n k (r : Z + list Z) p' e' :
  inv y -> threads y !! i = Some (Thread (Writer data n) false k) ->
  wseg data n (acquired k (y_pipe y)) = (Ret r, (p', e')) ->
  exists ts', inv (System (lock_pipe false p') ts'
      (sent y ++ take (Z.to_nat (u32 (nwrite p' - nwrite (y_pipe y)))) data) (recv y) (kills y)) /\
    match r with
    | inl _ => ts' = wakes (woken e') <$> delete i (threads y) /\ lock_pipe false p' = p'
    | inr rest => ts' = <[i := Thread (Writer rest n) true k]> (wakes (woken e') <$> threads y)
    end.
Proof.
  intros Hi Ht Hrun. pose proof (inv_ok y Hi) as Hok. set (p := y_pipe y) in *.
  destruct (inv_writer y Hi i _ Ht eq_refl) as [Hwo _]. fold p in Hwo.
  pose proof (count_range p) as Hcr. pose proof (ok_count _ Hok) as Hc.
  unfold acquired in Hrun. rewrite (wseg_run data n (lock_pipe true p) (Env 0 k [])) in Hrun by (done || by apply ok_lock).
  destruct (sent_puts (lock_pipe true p) data (ok_lock true p Hok)) as (Es & Hok' & Ec & Ero & Ewo & _).
  set (q := puts (take (room (lock_pipe true p)) data) (lock_pipe true p)) in *. cbv zeta in Hrun. fold q in Hrun.
  change (contents (lock_pipe true p)) with (contents p) in Ec.
  change (nwrite (lock_pipe true p)) with (nwrite p) in Es.
  change (room (lock_pipe true p)) with (room p) in *. change (readopen (lock_pipe true p)) with (readopen p) in *.
  change (writeopen (lock_pipe true p)) with (writeopen p) in *. simpl cur_killed in Hrun.
  assert (sent y ++ take (room p) data = recv y ++ contents q) as Hf.
  { rewrite Ec, (inv_fifo y Hi). fold p. by rewrite app_assoc. }
  assert (length (contents q) = Z.to_nat (count p) + length (take (room p) data))%nat as El
    by (rewrite Ec, length_app, length_contents; done).
  rewrite length_contents, length_take in El. pose proof (count_range q) as Hcq.
  destruct (_ <=? _)%nat eqn:E1; [|destruct (_ || _) eqn:E2]; injection Hrun as <- <- <-.
  - eexists. split; [|split; [reflexivity|done]]. change (nwrite (lock_pipe false q)) with (nwrite q). rewrite Es.
    eapply (inv_threads y _ (nread_chan addr :: []) _ i); [done|by repeat apply ok_lock|done|done|done|done| | | |].
    + destruct (decide (length data = 0)%nat); [left; change (count q = count p); lia|].
      right; left. fold p. apply Nat.leb_le in E1. unfold room in E1. lia.
    + right; right; left. left.
    + intros j t Hne Hj. by eapply lookup_fmap_delete.
    + intros t. by rewrite lookup_fmap, lookup_delete_eq.
  - eexists. split; [|split; [reflexivity|done]]. change (nwrite (lock_pipe false q)) with (nwrite q). rewrite Es.
    eapply (inv_threads y _ [] _ i); [done|by repeat apply ok_lock|done|done|done|done| | | |].
    + destruct (decide (room p = 0)%nat); [left; change (count q = count p); lia|]. right; left. fold p. unfold room in *. lia.
    + right; right; right. apply orb_true_iff in E2 as [E2|E2]; [right|left; by apply (inv_killed y Hi i _ Ht)].
      bool_to_prop. simpl. congruence.
    + intros j t Hne Hj. by eapply lookup_fmap_delete.
    + intros t. by rewrite lookup_fmap, lookup_delete_eq.
  - eexists. split; [|reflexivity]. rewrite Es.
    eapply (inv_threads y _ (nread_chan addr :: []) _ i); [done|by repeat apply ok_lock|done|done|done|done| | | |].
    + destruct (decide (room p = 0)%nat); [left; change (count q = count p); lia|]. right; left. fold p. unfold room in *. lia.
    + right; right; left. left.
    + intros j t Hne. by rewrite lookup_insert_ne.
    + intros t. rewrite lookup_insert_eq. intros [= <-]. simpl. rewrite Ero, Ewo.
      split; [by apply (inv_killed y Hi i _ Ht)|]. split; [done|]. intros _.
      apply Nat.leb_gt in E1. apply orb_false_iff in E2 as [E2 _]. bool_to_prop.
      split; [change (count (lock_pipe false q)) with (count q); unfold room in *; lia|done].
Qed.

Lemma inv_read y i n k (r : (Z * list Z) + unit) p' e' :
  inv y -> threads y !! i = Some (Thread (Reader n) false k) ->
  rseg n (acquired k (y_pipe y)) = (Ret r, (p', e')) ->
  match r with
  | inl (_, d) => inv (System p' (wakes (woken e') <$> delete i (threads y)) (sent y) (recv y ++ d) (kills y))
  | inr _ => inv (System (lock_pipe false p')
      (<[i := Thread (Reader n) true k]> (wakes (woken e') <$> threads y)) (sent y) (recv y) (kills y))
  end.
Proof.
  intros Hi Ht Hrun. pose proof (inv_ok y Hi) as Hok. destruct (inv_reader y Hi i _ Ht eq_refl) as [Hro _].
  pose proof (rseg_run n _ (Env 0 k []) (ok_lock true _ Hok) eq_refl) as Hrs. unfold acquired in Hrun.
  change (count (lock_pipe true (y_pipe y))) with (count (y_pipe y)) in Hrs.
  change (writeopen (lock_pipe true (y_pipe y))) with (writeopen (y_pipe y)) in Hrs.
  destruct (_ && _) eqn:E; [bool_to_prop|].
  - simpl cur_killed in Hrs. rewrite Hrs in Hrun. destruct k; injection Hrun as <- <- <-.
    + rewrite app_nil_r. eapply (inv_threads y _ [] _ i); try done; [by repeat apply ok_lock|apply (inv_fifo y Hi)|by left|by left| |].
      * intros j t Hne Hj. by eapply lookup_fmap_delete.
      * intros t. by rewrite lookup_fmap, lookup_delete_eq.
    + eapply (inv_threads y _ [] _ i); try done; [by repeat apply ok_lock|apply (inv_fifo y Hi)|by left|by left| |].
      * intros j t Hne. by rewrite lookup_insert_ne.
      * intros t. rewrite lookup_insert_eq. by intros [= <-].
  - clear E. destruct Hrs as (q & E1 & Hq & E2 & E3 & E4 & E5 & _). rewrite E1 in Hrun. injection Hrun as <- <- <-.
    change (contents (lock_pipe true (y_pipe y))) with (contents (y_pipe y)) in *.
    eapply (inv_threads y _ [nwrite_chan addr] _ i); try done.
    + rewrite E2, (inv_fifo y Hi), <- app_assoc. by rewrite take_drop.
    + right; right. left.
    + destruct (decide (count (y_pipe y) = 0)) as [E0|]; [left|by right; left].
      rewrite E0. pose proof (length_contents q) as El. rewrite E2, length_drop, length_contents in El.
      pose proof (count_range q). lia.
    + intros j t Hne Hj. by eapply lookup_fmap_delete.
    + intros t. by rewrite lookup_fmap, lookup_delete_eq.
Qed.

Lemma close_run w p e : pp_lock p = false ->
  pipeclose pe_pipe pe_env addr (ret tt) w (p, e) =
    (Ret tt, if w then (set_writeopen 0 p, env_wake (nread_chan addr) e)
             else (set_readopen 0 p, env_wake (nwrite_chan addr) e)).
Proof.
  intros Hl. destruct p as [lk d nr nw ro wo]. simpl in Hl. subst lk. unfold pipeclose, acquire_flag, release_flag, wakeup_ev.
  destruct w; cbv [bind gets ret panic_if modify]; simpl; [destruct (ro =? 0)|destruct (wo =? 0)]; done.
Qed.

Lemma inv_step y y' : inv y -> step y y' -> inv y'.
Proof.
  intros Hi Hs. destruct Hs as [y i c Hn Ho|y i data n k v p' e' Ht Hrun|y i data n k rest p' e' Ht Hrun
    |y i n k v d p' e' Ht Hrun|y i n k p' e' Ht Hrun|y w p' e' Hw Hrun|y i t Ht].
  - destruct Hi as [A B C D E F]. split; simpl; try done; intros j t; rewrite lookup_insert_Some;
      intros [[<- <-]|[_ Hj]]; simpl; try (by eauto); intros Hc; rewrite Hc in Ho; done.
  - destruct (inv_write y i data n k _ p' e' Hi Ht Hrun) as (ts' & Hi' & -> & El). by rewrite El in Hi'.
  - destruct (inv_write y i data n k _ p' e' Hi Ht Hrun) as (ts' & Hi' & ->). done.
  - exact (inv_read y i n k _ p' e' Hi Ht Hrun).
  - exact (inv_read y i n k _ p' e' Hi Ht Hrun).
  - rewrite close_run in Hrun by apply Hi. destruct Hi as [[A1 A2 A3 A4] B C D E F].
    destruct w; injection Hrun as <- <-; split; simpl; try done.
    + intros i t (t0 & Ht0 & Ec & _)%wakes_lookup Hc. rewrite Ec in Hc. by destruct (Hw i t0 Ht0).
    + intros i t (t0 & Ht0 & Ec & Ek & Ha)%wakes_lookup Hc. rewrite Ec in Hc. destruct (E i t0 Ht0 Hc) as [H1 _].
      split; [done|]. intros Hs. destruct (Ha Hs) as [_ Hn]. rewrite Hc in Hn. set_solver.
    + intros i t (t0 & Ht0 & Ec & Ek & Ha)%wakes_lookup Hk. rewrite Ek in Hk. by eapply F.
    + intros i t (t0 & Ht0 & Ec & Ek & Ha)%wakes_lookup Hc. rewrite Ec in Hc. destruct (D i t0 Ht0 Hc) as [H1 _].
      split; [done|]. intros Hs. destruct (Ha Hs) as [_ Hn]. rewrite Hc in Hn. set_solver.
    + intros i t (t0 & Ht0 & Ec & _)%wakes_lookup Hc. rewrite Ec in Hc. apply not_true_iff_false in Hc. by destruct (Hw i t0 Ht0); destruct (is_writer _).
    + intros i t (t0 & Ht0 & Ec & Ek & Ha)%wakes_lookup Hk. rewrite Ek in Hk. by eapply F.
  - destruct Hi as [A B C D E F]. split; simpl; try done.
    + intros j t'. rewrite lookup_insert_Some. intros [[<- <-]|[_ Hj]] Hc; simpl in *; [|by eauto].
      split; [by eapply D|done].
    + intros j t'. rewrite lookup_insert_Some. intros [[<- <-]|[_ Hj]] Hc; simpl in *.
      * split; [by eapply E|done].
      * destruct (E j t' Hj Hc) as [H1 H2]. split; [done|]. intros Hs. by destruct (H2 Hs).
Qed.

(** A call that is not asleep can always go on. *)
Lemma step_progress y i t : inv y -> threads y !! i = Some t -> th_asleep t = false -> exists y', step y y'.
Proof.
  intros Hi Ht Ha. destruct t as [[data n|n] a k]; simpl in Ha; subst a; pose proof (ok_lock true _ (inv_ok y Hi)) as Hok.
  - pose proof (wseg_run data n _ (Env 0 k []) Hok eq_refl) as Hr. cbv zeta in Hr.
    destruct (_ <=? _)%nat; [|destruct (_ || _)]; eexists;
      (eapply step_write + eapply step_write_sleep); [exact Ht|exact Hr|exact Ht|exact Hr|exact Ht|exact Hr].
  - pose proof (rseg_run n _ (Env 0 k []) Hok eq_refl) as Hr. destruct (_ && _).
    + simpl in Hr. destruct k; eexists; [eapply step_read|eapply step_read_sleep]; done.
    + destruct Hr as (p' & Hr & _). eexists. by eapply step_read.
Qed.

End Stretches.

Definition reachable (addr : Z) (y : system) : Prop := exists y0, fresh y0 /\ rtc (step addr) y0 y.

Lemma pipe_reachable_inv addr y : reachable addr y -> inv y.
Proof. intros (y0 & H0 & Hs). apply fresh_inv in H0. induction Hs; eauto using inv_step. Qed.

(** C6: a pipe is a FIFO of at most 512 bytes, for any number of readers and
    writers in any interleaving, with calls killed and ends closed at any time,
    and although both counters wrap at 2^32: the bytes put in are those taken out
    so far followed by those in the buffer.  A writer sleeps only while the pipe
    is full and can still be read, a reader only while it can still be written
    and, unless a process was killed during a call, only while it is empty; so
    no wake-up is lost.  A call that is not asleep can go on, and once both ends
    are closed and the page is freed no call is in progress. *)
Theorem pipe_fifo addr y :
  reachable addr y ->
  sent y = recv y ++ contents (y_pipe y) /\ (length (contents (y_pipe y)) <= 512)%nat /\
  (forall i data n k, threads y !! i = Some (Thread (Writer data n) true k) ->
     length (contents (y_pipe y)) = 512%nat /\ readopen (y_pipe y) <> 0) /\
  (forall i n k, threads y !! i = Some (Thread (Reader n) true k) ->
     writeopen (y_pipe y) <> 0 /\ (kills y = false -> contents (y_pipe y) = [])) /\
  (forall i t, threads y !! i = Some t -> th_asleep t = false -> exists y', step addr y y') /\
  (readopen (y_pipe y) = 0 -> writeopen (y_pipe y) = 0 -> threads y = ∅).
Proof.
  intros Hi%pipe_reachable_inv. pose proof (ok_count _ (inv_ok y Hi)). pose proof (count_range (y_pipe y)).
  rewrite length_contents. split_and!; [apply Hi|lia| | | |].
  - intros i data n k Ht. destruct (inv_writer y Hi i _ Ht eq_refl) as [_ Hw]. destruct (Hw eq_refl). split; [lia|done].
  - intros i n k Ht. destruct (inv_reader y Hi i _ Ht eq_refl) as [_ Hr]. destruct (Hr eq_refl) as [H1 H2].
    split; [done|]. intros Hk. apply length_zero_iff_nil. rewrite length_contents, (H2 Hk). done.
  - intros i t Ht Ha. by eapply step_progress.
  - intros Hr Hw. apply map_empty. intros i. destruct (threads y !! i) as [t|] eqn:Et; [|done].
    destruct (is_writer (th_call t)) eqn:Ec.
    + by destruct (inv_writer y Hi i t Et Ec).
    + by destruct (inv_reader y Hi i t Et Ec).
Qed.

(** A writer puts three bytes into a new pipe. *)
Lemma pipe_fifo_witness :
  exists y, reachable 4096 y /\ contents (y_pipe y) = [1; 2; 3] /\ sent y = recv y ++ contents (y_pipe y).
Proof.
  set (y0 := System (new_pipe (replicate 512 0)) ∅ [] [] false).
  set (y1 := System (new_pipe (replicate 512 0)) {[1%nat := Thread (Writer [1; 2; 3] 3) false false]} [] [] false).
  assert (exists y2, step 4096 y1 y2 /\ contents (y_pipe y2) = [1; 2; 3]) as (y2 & H2 & E2).
  { eexists. split; [by eapply (step_write 4096 y1 1 [1; 2; 3] 3 false)|]. by vm_compute. }
  assert (reachable 4096 y2) as Hr.
  { exists y0. split; [by exists (replicate 512 0)|].
    eapply rtc_l; [by apply (step_call 4096 y0 1 (Writer [1; 2; 3] 3))|]. by apply rtc_once. }
  exists y2. split_and!; [done|done|]. by destruct (pipe_fifo 4096 y2 Hr) as [H _].
Defined.

(** A killed writer with more bytes than fit fills the pipe and leaves without
    waking the reader. *)
Lemma lost_wakeup_from addr np (d : list Z) :
  pipe_ok np -> count np = 0 -> writeopen np = 1 -> readopen np = 1 -> pp_lock np = false -> length d = 600%nat ->
  exists y, rtc (step addr) (System np ∅ [] [] false) y /\
    threads y !! 0%nat = Some (Thread (Reader 2) true false) /\
    length (contents (y_pipe y)) = 512%nat /\ writeopen (y_pipe y) <> 0.
Proof.
  intros Hok Hc Hwo Hro Hlk Hd. set (y0 := System np ∅ [] [] false).
  set (t0 := {[0%nat := Thread (Reader 2) true false]} : gmap nat thread).
  set (t1 := <[1%nat := Thread (Writer d 600) false true]> t0).
  assert (lock_pipe false (lock_pipe true np) = np) as Enp by (destruct np; simpl in *; by subst).
  assert (rtc (step addr) y0 (System np t1 [] [] true)) as Hs.
  { eapply rtc_l; [apply (step_call addr y0 0 (Reader 2)); [done|simpl; lia]|].
    eapply (rtc_l _ _ (System np t0 [] [] false)).
    { pose proof (rseg_run addr 2 _ (Env 0 false []) (ok_lock true _ Hok) eq_refl) as Hr.
      change (count (lock_pipe true np)) with (count np) in Hr. simpl writeopen in Hr. rewrite Hc, Hwo in Hr.
      match goal with |- step _ ?y _ => pose proof (step_read_sleep addr y 0 2 false _ _ eq_refl Hr) as Hst end.
      rewrite Enp in Hst. exact Hst. }
    eapply rtc_l; [apply (step_call addr (System np t0 [] [] false) 1 (Writer d 600)); [done|simpl; lia]|].
    eapply rtc_l; [apply (step_kill addr _ 1 (Thread (Writer d 600) false false)); by apply lookup_insert_eq|].
    simpl. unfold t1. rewrite insert_insert_eq. apply rtc_refl. }
  pose proof (wseg_run addr d 600 _ (Env 0 true []) (ok_lock true _ Hok) eq_refl) as Hw.
  destruct (sent_puts (lock_pipe true np) d (ok_lock true _ Hok)) as (_ & _ & Ec & _ & Ewo & _).
  assert (room (lock_pipe true np) = 512%nat) as Er by (unfold room; change (count (lock_pipe true np)) with (count np); by rewrite Hc).
  rewrite Er in *. cbv zeta in Hw, Ec, Ewo. set (q := puts (take 512 d) (lock_pipe true np)) in *.
  rewrite Hd, orb_true_r in Hw. cbn [Nat.leb] in Hw.
  pose proof (step_write addr (System np t1 [] [] true) 1 d 600 true _ _ _ (lookup_insert_eq _ _ _) Hw) as Hst.
  refine (ex_intro _ _ (conj (rtc_r _ _ _ Hs Hst) _)).
  cbn [y_pipe threads]. split_and!.
  - rewrite lookup_fmap, lookup_delete_ne by done. unfold t1, t0. by rewrite lookup_insert_ne, lookup_singleton_eq.
  - rewrite contents_lock, Ec, length_app, length_take, Hd, length_contents.
    change (count (lock_pipe true np)) with (count np). by rewrite Hc.
  - simpl. rewrite Ewo. simpl. by rewrite Hwo.
Qed.

(** A reader can sleep on a full pipe whose write end is open, after a writer was
    killed. *)
Theorem killed_writer_lost_wakeup :
  exists y, reachable 4096 y /\ threads y !! 0%nat = Some (Thread (Reader 2) true false) /\
    length (contents (y_pipe y)) = 512%nat /\ writeopen (y_pipe y) <> 0.
Proof.
  set (np := new_pipe (replicate 512 0)).
  assert (fresh (System np ∅ [] [] false)) as Hf by by exists (replicate 512 0).
  destruct (lost_wakeup_from 4096 np (replicate 600 7)) as (y & Hs & Hy); try done.
  exists y. split; [|done]. by exists (System np ∅ [] [] false).
Qed.
