(* ===== verification/File.v ===== *)
(** * Open files (src/xv6/file.c, pipealloc and pipeclose of src/xv6/pipe.c)

    [ftable], the pipes, and below them virtual memory and the file system.  A
    pointer to a file is its index in the table; a pipe is known by the address
    of its page.  [sleep] and [wakeups] are those of Pipe.v. *)
From S2P Require Import Prelude Mem Kalloc Vm Block Log Tx Fs Pipe.

Definition NFILE : nat := 100.

Inductive ftype : Type := FD_NONE | FD_PIPE | FD_INODE.

#[export] Instance ftype_eq_dec : EqDecision ftype.
Proof. solve_decision. Defined.

(** [struct file] *)
Record file : Type := File {
  f_type : ftype;
  f_ref : Z;
  f_readable : Z;
  f_writable : Z;
  f_pipe : Z;
  f_ip : option nat;
  f_off : Z;
}.

Definition set_f_ref (f : Z -> Z) (x : file) : file :=
  File (f_type x) (f (f_ref x)) (f_readable x) (f_writable x) (f_pipe x) (f_ip x) (f_off x).

Definition set_f_type (t : ftype) (x : file) : file :=
  File t (f_ref x) (f_readable x) (f_writable x) (f_pipe x) (f_ip x) (f_off x).

Definition set_f_off (f : Z -> Z) (x : file) : file :=
  File (f_type x) (f_ref x) (f_readable x) (f_writable x) (f_pipe x) (f_ip x) (f (f_off x)).

Definition set_f_pipe_end (p r w : Z) (x : file) : file :=
  File FD_PIPE (f_ref x) r w p (f_ip x) (f_off x).

Definition set_f_inode (ip : option nat) (r w : Z) (x : file) : file :=
  File FD_INODE (f_ref x) r w (f_pipe x) ip 0.

(** An entry of the zero-initialised table. *)
Definition null_file : file := File FD_NONE 0 0 0 0 None 0.

(** [begin_op], [end_op] and [initlog] of log.c *)
Class TxOps (T : Type) : Type := {
  tx_begin : M T unit;
  tx_end : M T unit;
  tx_init : Z -> M T unit;
}.

#[export] Instance log_ops {C} `{BlockCache C} : TxOps (lst C) := {
  tx_begin := begin_op;
  tx_end := end_op;
  tx_init := initlog;
}.

Section File.
Context {T : Type} {HT : TxBlocks T} {HO : TxOps T} (devsw : Z -> devops (T := T)) (kend : Z).

(** [ftable], the pipes by address, vm.c and fs.c *)
Record kst : Type := Kst {
  ft_lock : bool;
  files : list file;
  pipes : gmap Z pipe;
  kvm : vst;
  kfs : fs T;
}.

Definition upd_ft_lock (f : bool -> bool) (s : kst) : kst :=
  Kst (f (ft_lock s)) (files s) (pipes s) (kvm s) (kfs s).

Definition upd_files (f : list file -> list file) (s : kst) : kst :=
  Kst (ft_lock s) (f (files s)) (pipes s) (kvm s) (kfs s).

Definition upd_pipes (f : gmap Z pipe -> gmap Z pipe) (s : kst) : kst :=
  Kst (ft_lock s) (files s) (f (pipes s)) (kvm s) (kfs s).

Definition upd_kvm (f : vst -> vst) (s : kst) : kst :=
  Kst (ft_lock s) (files s) (pipes s) (f (kvm s)) (kfs s).

Definition upd_kfs (f : fs T -> fs T) (s : kst) : kst :=
  Kst (ft_lock s) (files s) (pipes s) (kvm s) (f (kfs s)).

Definition ftlock : lens kst bool := Lens ft_lock upd_ft_lock.

Definition vm_lens : lens kst vst := Lens kvm upd_kvm.

Definition fs_lens : lens kst (fs T) := Lens kfs upd_kfs.

Definition tx_of : lens kst T :=
  Lens (fun s => ftx (kfs s)) (fun f s => upd_kfs (upd_ftx f) s).

Definition kenv : lens kst env :=
  Lens (fun s => view tx_env (ftx (kfs s))) (fun f s => upd_kfs (upd_ftx (over tx_env f)) s).

Definition pipe_at (p : Z) : lens kst pipe :=
  Lens (fun s => default (new_pipe []) (pipes s !! p)) (fun f s => upd_pipes (alter f p) s).

Definition kbegin_op : M kst unit := zoom tx_of tx_begin.

Definition kend_op : M kst unit := zoom tx_of tx_end.

Definition file_at (s : kst) (f : nat) : file := default null_file (files s !! f).

Definition getf {A} (f : nat) (g : file -> A) : M kst A := gets (fun s => g (file_at s f)).

Definition updf (f : nat) (g : file -> file) : M kst unit := modify (upd_files (alter g f)).

(** ** file.c *)
Definition fileinit : M kst unit := modify (upd_ft_lock (fun _ => false)).

Definition filealloc : M kst (option nat) :=
  acquire_flag ftlock ;;
  r ← for_until (seq 0 NFILE) (fun f =>
    n ← getf f f_ref;
    if n =? 0 then
      updf f (set_f_ref (fun _ => 1)) ;;
      release_flag ftlock ;;
      ret (Some f)
    else ret None);
  match r with
  | Some f => ret (Some f)
  | None =>
      release_flag ftlock ;;
      ret None
  end.

Definition filedup (f : nat) : M kst nat :=
  acquire_flag ftlock ;;
  n ← getf f f_ref;
  panic_if (n <? 1) "filedup" ;;
  updf f (set_f_ref (fun n => s32 (n + 1))) ;;
  release_flag ftlock ;;
  ret f.

(** [pipeclose] of the pipe at address [p]; its page goes back to the allocator. *)
Definition kpipeclose (p : Z) (writable : bool) : M kst unit :=
  pipeclose (pipe_at p) kenv p
    (modify (upd_pipes (delete p)) ;; zoom vm_lens (vkfree kend p)) writable.

(** [ff.ip] is not null: the file was opened on an inode. *)
Definition kiput (ip : option nat) : M kst unit :=
  match ip with
  | Some ip => zoom fs_lens (iput ip)
  | None => panic "undefined behaviour: null pointer"
  end.

Definition fileclose (f : nat) : M kst unit :=
  acquire_flag ftlock ;;
  n ← getf f f_ref;
  panic_if (n <? 1) "fileclose" ;;
  updf f (set_f_ref (fun n => n - 1)) ;;
  n ← getf f f_ref;
  if 0 <? n then release_flag ftlock
  else
    ff ← getf f id;
    updf f (set_f_ref (fun _ => 0)) ;;
    updf f (set_f_type FD_NONE) ;;
    release_flag ftlock ;;
    match f_type ff with
    | FD_PIPE => kpipeclose (f_pipe ff) (negb (f_writable ff =? 0))
    | FD_INODE =>
        kbegin_op ;;
        kiput (f_ip ff) ;;
        kend_op
    | FD_NONE => ret tt
    end.

Definition with_ip {A} (ip : option nat) (m : nat -> M (fs T) A) : M kst A :=
  match ip with
  | Some ip => zoom fs_lens (m ip)
  | None => panic "undefined behaviour: null pointer"
  end.

(** The return value and the structure written. *)
Definition filestat (f : nat) : M kst (Z * option stat) :=
  x ← getf f id;
  match f_type x with
  | FD_INODE =>
      zoom fs_lens (ilock (f_ip x)) ;;
      st ← with_ip (f_ip x) stati;
      zoom fs_lens (iunlock (f_ip x)) ;;
      ret (0, Some st)
  | _ => ret (-1, None)
  end.

Section Sleeping.
Context (sleep : Z -> Z -> M kst unit) (wakeups : nat).

(** The return value and the bytes stored at [addr]. *)
Definition fileread (f : nat) (n : Z) : M kst (Z * list Z) :=
  x ← getf f id;
  if f_readable x =? 0 then ret (-1, [])
  else match f_type x with
  | FD_PIPE => piperead (pipe_at (f_pipe x)) kenv (f_pipe x) (sleep (f_pipe x)) wakeups n
  | FD_INODE =>
      zoom fs_lens (ilock (f_ip x)) ;;
      r ← with_ip (f_ip x) (fun ip => readi devsw ip (f_off x) (u32 n));
      when (0 <? r.1) (updf f (set_f_off (fun o => u32 (o + r.1)))) ;;
      zoom fs_lens (iunlock (f_ip x)) ;;
      ret r
  | FD_NONE => panic "fileread"
  end.

(** [((MAXOPBLOCKS-1-1-2) / 2) * 512] *)
Definition max_write : Z := (MAXOPBLOCKS - 1 - 1 - 2) / 2 * 512.

(** The [while] of [filewrite]: the final value of [i]. *)
Fixpoint filewrite_loop (fuel : nat) (f : nat) (addr : list Z) (i n : Z) : M kst Z :=
  if i <? n then
    match fuel with
    | O => panic "filewrite: out of fuel"
    | S k =>
        let n1 := if max_write <? n - i then max_write else n - i in
        ip ← getf f f_ip;
        kbegin_op ;;
        zoom fs_lens (ilock ip) ;;
        off ← getf f f_off;
        r ← with_ip ip (fun ip => writei devsw ip (drop (Z.to_nat i) addr) off n1);
        when (0 <? r) (updf f (set_f_off (fun o => u32 (o + r)))) ;;
        zoom fs_lens (iunlock ip) ;;
        kend_op ;;
        if r <? 0 then ret i
        else
          panic_if (negb (r =? n1)) "short filewrite" ;;
          filewrite_loop k f addr (i + r) n
    end
  else ret i.

(** Each round but the last writes [max_write] bytes. *)
Definition filewrite (f : nat) (addr : list Z) (n : Z) : M kst Z :=
  x ← getf f id;
  if f_writable x =? 0 then ret (-1)
  else match f_type x with
  | FD_PIPE => pipewrite (pipe_at (f_pipe x)) kenv (f_pipe x) (sleep (f_pipe x)) wakeups addr n
  | FD_INODE =>
      i ← filewrite_loop (Z.to_nat (n / max_write + 1)) f addr 0 n;
      ret (if i =? n then n else -1)
  | FD_NONE => panic "filewrite"
  end.

End Sleeping.

(** The bytes of [data] in the page that a new pipe is placed in. *)
Definition page_data (m : mem) (p : Z) : list Z := (fun i => ld8 m (p + 52 + Z.of_nat i)) <$> seq 0 512.

(** The label [bad:] of [pipealloc]. *)
Definition pipealloc_bad (p : Z) (f0 f1 : option nat) : M kst Z :=
  when (negb (p =? 0)) (zoom vm_lens (vkfree kend p)) ;;
  match f0 with Some f => fileclose f | None => ret tt end ;;
  match f1 with Some f => fileclose f | None => ret tt end ;;
  ret (-1).

(** The return value and [*f0], [*f1]. *)
Definition pipealloc : M kst (Z * option nat * option nat) :=
  f0 ← filealloc;
  match f0 with
  | None =>
      r ← pipealloc_bad 0 None None;
      ret (r, None, None)
  | Some a =>
      f1 ← filealloc;
      match f1 with
      | None =>
          r ← pipealloc_bad 0 f0 None;
          ret (r, f0, None)
      | Some b =>
          p ← zoom vm_lens vkalloc;
          if p =? 0 then
            r ← pipealloc_bad 0 f0 f1;
            ret (r, f0, f1)
          else
            modify (fun s => upd_pipes (<[p := new_pipe (page_data (vmem (kvm s)) p)]>) s) ;;
            updf a (set_f_pipe_end p 1 0) ;;
            updf b (set_f_pipe_end p 0 1) ;;
            ret (0, f0, f1)
      end
  end.

End File.

Arguments kst T : clear implicits.
