(* ===== verification/FileRefs.v ===== *)
(** * Reference counts of open files, and the life of a pipe

    Which files are referenced, which ends of which pipes they keep open, and
    that a pipe's page is freed exactly when its last end is closed. *)
From S2P Require Import Prelude Mem Kalloc Vm Block Log Tx Fs Pipe File VmMap.

Section Refs.
Context {T : Type} {HT : TxBlocks T} {HO : TxOps T} (devsw : Z -> devops (T := T)) (kend : Z).
Context (sleep : Z -> Z -> M (kst T) unit) (wakeups : nat).
Implicit Types s : kst T.

(** What matters of a file, of a pipe, and of the state. *)
Record fview : Type := FView {
  fv_type : ftype;
  fv_ref : Z;
  fv_readable : Z;
  fv_writable : Z;
  fv_pipe : Z;
}.

Definition view_of (x : file) : fview := FView (f_type x) (f_ref x) (f_readable x) (f_writable x) (f_pipe x).

Definition ends (p : pipe) : Z * Z := (readopen p, writeopen p).

Definition key s : list fview * gmap Z (Z * Z) * kmem :=
  (view_of <$> files s, ends <$> pipes s, v_kmem (kvm s)).

(** What the process layer does while a call sleeps leaves it alone. *)
Hypothesis sleep_key : forall p ch, preserves key (sleep p ch).

Lemma key_files f (g : file -> file) s : (forall x, view_of (g x) = view_of x) -> key (upd_files (alter g f) s) = key s.
Proof.
  intros Hg. unfold key. simpl. do 2 f_equal. apply list_eq. intros j. rewrite !list_lookup_fmap.
  destruct (decide (f = j)) as [->|Hne].
  - rewrite list_lookup_alter_eq. destruct (files s !! j); [|done]. simpl. by rewrite Hg.
  - by rewrite list_lookup_alter_ne.
Qed.

Lemma key_pipe p g s : (forall x, ends (g x) = ends x) -> key (over (pipe_at p) g s) = key s.
Proof.
  intros Hg. unfold key. simpl. do 2 f_equal. apply map_eq. intros q. rewrite !lookup_fmap.
  destruct (decide (p = q)) as [->|Hne].
  - rewrite lookup_alter_eq. destruct (pipes s !! q); [|done]. simpl. by rewrite Hg.
  - by rewrite lookup_alter_ne.
Qed.

Lemma pres_fs {A} (m : M (fs T) A) : preserves key (zoom fs_lens m).
Proof. by apply pres_zoom. Qed.

Lemma pres_tx_of {A} (m : M T A) : preserves key (zoom tx_of m).
Proof. by apply pres_zoom. Qed.

Lemma pres_wake ch : preserves key (wakeup_ev kenv ch).
Proof. by apply pres_modify. Qed.

Lemma pres_pipe p g : (forall x, ends (g x) = ends x) -> preserves key (modify (over (pipe_at p) g)).
Proof. intros Hg. apply pres_modify. intros s. by apply key_pipe. Qed.

Lemma pres_acq_pipe p : preserves key (acquire_flag (pplock (pipe_at p))).
Proof. apply pres_acquire_flag. intros g s. cbn [over pplock]. by apply key_pipe. Qed.

Lemma pres_rel_pipe p : preserves key (release_flag (pplock (pipe_at p))).
Proof. apply pres_release_flag. intros g s. cbn [over pplock]. by apply key_pipe. Qed.

Lemma pres_getf {A} f (g : file -> A) : preserves key (getf f g).
Proof. apply pres_gets. Qed.

Lemma pres_killed : preserves key (killed kenv).
Proof. apply pres_gets. Qed.

Lemma pres_off f g : preserves key (updf f (set_f_off g)).
Proof. apply pres_modify. intros s. by apply key_files. Qed.

Lemma pres_with_ip {A} ip (m : nat -> M (fs T) A) : preserves key (with_ip ip m).
Proof. destruct ip; [apply pres_fs|apply pres_panic]. Qed.

#[local] Hint Resolve pres_fs pres_tx_of pres_wake pres_acq_pipe pres_rel_pipe pres_getf pres_killed pres_off
  pres_with_ip sleep_key : pres.

Lemma pres_pipewrite_seg p data n : preserves key (pipewrite_seg (pipe_at p) kenv p data n).
Proof. induction data as [|b data IH]; simpl; preserve; by apply pres_pipe. Qed.

Lemma pres_piperead_copy p n : preserves key (piperead_copy (pipe_at p) n).
Proof. induction n as [|n IH]; simpl; preserve; by apply pres_pipe. Qed.

#[local] Hint Resolve pres_pipewrite_seg pres_piperead_copy : pres.

Lemma pres_pipewrite p data n : preserves key (pipewrite (pipe_at p) kenv p (sleep p) wakeups data n).
Proof.
  unfold pipewrite. apply pres_bind; [apply pres_acq_pipe|intros _]. generalize (take (Z.to_nat n) data).
  induction wakeups as [|k IH]; intros d; simpl; preserve.
Qed.

Lemma pres_piperead p n : preserves key (piperead (pipe_at p) kenv p (sleep p) wakeups n).
Proof.
  unfold piperead. apply pres_bind; [apply pres_acq_pipe|intros _].
  assert (preserves key (piperead_seg (pipe_at p) kenv p n)) as Hs by (unfold piperead_seg; preserve).
  induction wakeups as [|k IH]; simpl; (apply pres_bind; [exact Hs|intros r]); preserve.
Qed.

Lemma pres_fileread f n : preserves key (fileread devsw sleep wakeups f n).
Proof. unfold fileread. preserve. apply pres_piperead. Qed.

Lemma pres_filewrite f d n : preserves key (filewrite devsw sleep wakeups f d n).
Proof.
  unfold filewrite, kbegin_op, kend_op. preserve; [apply pres_pipewrite|].
  generalize (Z.to_nat (n / max_write + 1)). generalize 0 at 1.
  intros i fuel. revert i. induction fuel as [|k IH]; intros i; simpl; unfold kbegin_op, kend_op; preserve.
Qed.

Lemma pres_filestat f : preserves key (filestat f).
Proof. unfold filestat. preserve. Qed.

(** ** The invariant *)
Definition frefs (f : nat) (held : list nat) : nat := length (filter (fun g => g = f) held).

Lemma frefs_pos f held : f ∈ held <-> (0 < frefs f held)%nat.
Proof.
  unfold frefs. split.
  - intros H. destruct (filter _ held) as [|x l] eqn:E; [|simpl; lia].
    assert (f ∈ filter (fun g => g = f) held) as H' by by apply list_elem_of_filter. rewrite E in H'. by apply not_elem_of_nil in H'.
  - intros H. destruct (filter _ held) as [|x l] eqn:E; [simpl in H; lia|].
    assert (x ∈ filter (fun g => g = f) held) as H' by (rewrite E; left). by apply list_elem_of_filter in H' as [-> H'].
Qed.

Lemma frefs_cons f g held : frefs f (g :: held) = ((if decide (g = f) then 1 else 0) + frefs f held)%nat.
Proof. unfold frefs. rewrite filter_cons. by case_decide. Qed.

Lemma frefs_middle f g h1 h2 : frefs f (h1 ++ g :: h2) = ((if decide (g = f) then 1 else 0) + frefs f (h1 ++ h2))%nat.
Proof. unfold frefs. rewrite !filter_app, filter_cons, !length_app. case_decide; simpl; lia. Qed.

(** The references [held] by file descriptors and calls, against the tables. *)
Record J (kt : list fview * gmap Z (Z * Z) * kmem) (held : list nat) : Prop := {
  j_len : length kt.1.1 = NFILE;
  j_held : forall f, f ∈ held -> (f < NFILE)%nat;
  j_ref : forall f v, kt.1.1 !! f = Some v -> fv_ref v = Z.of_nat (frefs f held);
  j_none : forall f v, kt.1.1 !! f = Some v -> f ∉ held -> fv_type v = FD_NONE;
  j_pipe : forall f v, kt.1.1 !! f = Some v -> fv_type v = FD_PIPE ->
    exists e, kt.1.2 !! fv_pipe v = Some e /\ (if fv_writable v =? 0 then e.1 <> 0 else e.2 <> 0);
  j_uniq : forall f g v w, kt.1.1 !! f = Some v -> kt.1.1 !! g = Some w ->
    fv_type v = FD_PIPE -> fv_type w = FD_PIPE -> fv_pipe v = fv_pipe w ->
    (fv_writable v =? 0) = (fv_writable w =? 0) -> f = g;
  j_open : forall p e, kt.1.2 !! p = Some e -> e.1 <> 0 \/ e.2 <> 0;
  j_end : forall p e (b : bool), kt.1.2 !! p = Some e -> (if b then e.1 else e.2) <> 0 ->
    exists f v, kt.1.1 !! f = Some v /\ fv_type v = FD_PIPE /\ fv_pipe v = p /\ (fv_writable v =? 0) = b;
  j_page : exists l, kinv kend kt.2 l /\ forall p, is_Some (kt.1.2 !! p) -> valid_page kend p /\ p ∉ l;
}.

Lemma key_eta s : key s = ((key s).1.1, (key s).1.2, (key s).2).
Proof. by destruct (key s) as [[??]?]. Qed.

Lemma key_updf s f x g : files s !! f = Some x ->
  key (upd_files (alter g f) s) = (<[f := view_of (g x)]> (key s).1.1, (key s).1.2, (key s).2).
Proof.
  intros Hx. unfold key. simpl. do 2 f_equal. apply list_eq. intros j. rewrite list_lookup_fmap.
  destruct (decide (f = j)) as [->|Hne].
  - rewrite list_lookup_alter_eq, Hx. simpl. rewrite list_lookup_insert_eq; [done|].
    rewrite length_fmap. by eapply lookup_lt_Some.
  - rewrite list_lookup_alter_ne, list_lookup_insert_ne by done. by rewrite list_lookup_fmap.
Qed.

Lemma key_lookup s f x : files s !! f = Some x -> (key s).1.1 !! f = Some (view_of x).
Proof. intros H. unfold key. simpl. by rewrite list_lookup_fmap, H. Qed.

Lemma J_file s held f : J (key s) held -> (f < NFILE)%nat -> exists x, files s !! f = Some x /\ file_at s f = x.
Proof.
  intros HJ Hf. pose proof (j_len _ _ HJ) as Hl. unfold key in Hl. simpl in Hl. rewrite length_fmap in Hl.
  destruct (lookup_lt_is_Some_2 (files s) f) as [x Hx]; [lia|]. exists x. split; [done|]. unfold file_at. by rewrite Hx.
Qed.

(** Changing the view of file [f] from [v] to [v'] without touching its pipe. *)
Lemma J_set F P k held held' f v v' :
  J (F, P, k) held -> F !! f = Some v ->
  fv_type v' = fv_type v \/ fv_type v <> FD_PIPE /\ fv_type v' <> FD_PIPE ->
  (fv_type v' = FD_PIPE -> fv_pipe v' = fv_pipe v /\ fv_writable v' = fv_writable v) ->
  fv_ref v' = Z.of_nat (frefs f held') ->
  (f ∈ held' \/ fv_type v' = FD_NONE) ->
  (forall g, g <> f -> frefs g held' = frefs g held) -> (forall g, g ∈ held' -> g = f \/ g ∈ held) ->
  J (<[f := v']> F, P, k) held'.
Proof.
  intros HJ Hf Ht Hp Hr Hn Hoth Hin. pose proof (lookup_lt_Some _ _ _ Hf) as Hlt.
  pose proof (j_len _ _ HJ) as Hlen. simpl in Hlen.
  assert (forall g w, <[f := v']> F !! g = Some w ->
    g = f /\ w = v' \/ g <> f /\ F !! g = Some w) as Hlk.
  { intros g w. destruct (decide (g = f)) as [->|Hne].
    - rewrite list_lookup_insert_eq by done. intros [= <-]. by left.
    - rewrite list_lookup_insert_ne by done. intros Hg. by right. }
  assert (forall g w, <[f := v']> F !! g = Some w -> fv_type w = FD_PIPE ->
    exists w0, F !! g = Some w0 /\ fv_type w0 = FD_PIPE /\ fv_pipe w = fv_pipe w0 /\ fv_writable w = fv_writable w0) as Hpw.
  { intros g w [[-> ->]|[_ Hg]]%Hlk Hw; [|by exists w]. exists v. destruct (Hp Hw).
    split_and!; [done| |done|done]. destruct Ht as [<-|[_ Ht]]; done. }
  split; simpl.
  - by rewrite length_insert.
  - intros g [->|Hg]%Hin; [lia|by apply (j_held _ _ HJ)].
  - intros g w [[-> ->]|[Hne Hg]]%Hlk; [done|]. rewrite Hoth by done. by apply (j_ref _ _ HJ).
  - intros g w [[-> ->]|[Hne Hg]]%Hlk Hnh; [by destruct Hn|]. apply (j_none _ _ HJ g w Hg).
    intros Hh. apply Hnh, frefs_pos. rewrite Hoth by done. by apply frefs_pos.
  - intros g w Hg Hw. destruct (Hpw g w Hg Hw) as (w0 & H1 & H2 & -> & ->). by apply (j_pipe _ _ HJ g).
  - intros g g' w w' Hg Hg' Hw Hw' Hpp Hww. destruct (Hpw g w Hg Hw) as (w0 & H1 & H2 & E1 & E2).
    destruct (Hpw g' w' Hg' Hw') as (w1 & H3 & H4 & E3 & E4).
    apply (j_uniq _ _ HJ g g' w0 w1); simpl; congruence.
  - apply (j_open _ _ HJ).
  - intros p e b He Hb. destruct (j_end _ _ HJ p e b He Hb) as (g & w & Hg & Hw & Hpp & Hww). simpl in *.
    destruct (decide (g = f)) as [->|Hne].
    + assert (w = v) as -> by congruence. destruct Ht as [Ht|[Ht _]]; [|done].
      destruct Hp as [E1 E2]; [congruence|]. exists f, v'. rewrite list_lookup_insert_eq by done.
      split_and!; congruence.
    + exists g, w. by rewrite list_lookup_insert_ne by done.
  - apply (j_page _ _ HJ).
Qed.

(** ** filealloc, filedup and fileclose *)
Lemma ft_lock_key (b : bool) s s' : (if b then acquire_flag ftlock else release_flag ftlock) s = (Ret tt, s') ->
  key s' = key s /\ files s' = files s /\ pipes s' = pipes s /\ kvm s' = kvm s.
Proof.
  destruct s as [[] fl pp vm fx], b; cbv [acquire_flag release_flag bind gets panic_if panic ret modify]; simpl;
    intros H; simplify_eq; done.
Qed.

Lemma alloc_scan l s f s' :
  for_until l (fun f => n ← getf f f_ref;
    if n =? 0 then updf f (set_f_ref (fun _ => 1)) ;; release_flag ftlock ;; ret (Some f) else ret None) s = (Ret f, s') ->
  match f with
  | Some f => f ∈ l /\ f_ref (file_at s f) = 0 /\ release_flag ftlock (upd_files (alter (set_f_ref (fun _ => 1)) f) s) = (Ret tt, s')
  | None => s' = s
  end.
Proof.
  induction l as [|i l IH]; cbn [for_until]; intros H; [unfold ret in H; by simplify_eq|].
  unfold getf, updf in *. cbv [bind gets modify ret] in H.
  destruct (f_ref (file_at s i) =? 0) eqn:E; bool_to_prop.
  - destruct (release_flag ftlock _) as [[[]| |] s1] eqn:Er; simplify_eq. split_and!; [left|done|done].
  - apply IH in H. destruct f as [f|]; [|done]. destruct H as (H1 & H2 & H3). split_and!; [by right|done|done].
Qed.

Lemma filealloc_J s held r s' : J (key s) held -> filealloc s = (Ret r, s') ->
  match r with
  | Some f => (f ∉ held) /\ J (key s') (f :: held) /\
      exists v, key s' = (<[f := v]> (key s).1.1, (key s).1.2, (key s).2) /\ (f < length (key s).1.1)%nat /\ fv_type v = FD_NONE
  | None => key s' = key s
  end.
Proof.
  intros HJ H. unfold filealloc in H. apply bind_Ret_inv in H as ([] & s0 & H0 & H).
  apply bind_Ret_inv in H as (r0 & s1 & H1 & H). apply (ft_lock_key true) in H0 as (Ek & Ef & _).
  apply alloc_scan in H1. destruct r0 as [f|].
  - unfold ret in H. injection H as <- <-. destruct H1 as (Hin & Hr & Hrel). apply elem_of_seq in Hin.
    apply (ft_lock_key false) in Hrel as [Ek' _]. rewrite <- Ek in HJ.
    destruct (J_file _ _ f HJ) as (x & Hx & Ex); [lia|]. rewrite Ex in Hr.
    pose proof (j_ref _ _ HJ f _ (key_lookup _ _ _ Hx)) as Href. simpl in Href.
    assert (f ∉ held) as Hnh by (rewrite frefs_pos; lia).
    pose proof (j_none _ _ HJ f _ (key_lookup _ _ _ Hx) Hnh) as Hty. simpl in Hty.
    split; [done|]. rewrite Ek', (key_updf _ _ x _ Hx). split.
    2: { eexists. rewrite Ek. split_and!; [done| |exact Hty]. rewrite <- Ek. eapply lookup_lt_Some, key_lookup, Hx. }
    eapply J_set; [rewrite <- key_eta; exact HJ|by apply key_lookup| | | | | |]; simpl.
    + by left.
    + by rewrite Hty.
    + rewrite frefs_cons, decide_True by done. lia.
    + left. left.
    + intros g Hne. rewrite frefs_cons, decide_False by done. done.
    + intros g. rewrite elem_of_cons. tauto.
  - subst. apply bind_Ret_inv in H as ([] & s2 & H2 & H). unfold ret in H. injection H as <- <-.
    apply (ft_lock_key false) in H2 as [Ek' _]. congruence.
Qed.

Lemma filedup_J s held f r s' : J (key s) held -> Z.of_nat (length held) < 2147483647 -> f ∈ held ->
  filedup f s = (Ret r, s') -> r = f /\ J (key s') (f :: held).
Proof.
  intros HJ Hb Hf H. unfold filedup, getf, updf in H. apply bind_Ret_inv in H as ([] & s0 & H0 & H).
  cbv [bind gets modify] in H. unfold panic_if in H.
  destruct (_ <? 1); [done|]. simpl in H. destruct (release_flag ftlock _) as [[[]| |] s1] eqn:Er; try done.
  unfold ret in H. injection H as <- <-.
  apply (ft_lock_key true) in H0 as (Ek & Ef & _). apply (ft_lock_key false) in Er as (Ek' & _). rewrite <- Ek in HJ.
  destruct (J_file _ _ f HJ (j_held _ _ HJ f Hf)) as (x & Hx & Ex).
  pose proof (j_ref _ _ HJ f _ (key_lookup _ _ _ Hx)) as Href. simpl in Href.
  assert (frefs f held <= length held)%nat by (unfold frefs; apply length_filter).
  split; [done|]. rewrite Ek', (key_updf _ _ x _ Hx). eapply J_set; [rewrite <- key_eta; exact HJ|by apply key_lookup| | | | | |]; simpl.
  - by left.
  - done.
  - rewrite frefs_cons, decide_True, Href, s32_small by (done || lia). lia.
  - left. left.
  - intros g Hne. by rewrite frefs_cons, decide_False.
  - intros g. rewrite elem_of_cons. tauto.
Qed.

Lemma key_pipe_set p pp g s : pipes s !! p = Some pp ->
  key (over (pipe_at p) g s) = ((key s).1.1, <[p := ends (g pp)]> (key s).1.2, (key s).2).
Proof.
  intros Hp. unfold key. simpl. do 2 f_equal. apply map_eq. intros q. rewrite !lookup_fmap.
  destruct (decide (p = q)) as [->|Hne].
  - by rewrite lookup_alter_eq, Hp, lookup_insert_eq.
  - rewrite lookup_alter_ne, lookup_insert_ne by done. by rewrite lookup_fmap.
Qed.

Lemma key_pipe_at s p e : (key s).1.2 !! p = Some e -> exists pp, pipes s !! p = Some pp /\ ends pp = e /\ view (pipe_at p) s = pp.
Proof.
  unfold key. simpl. rewrite lookup_fmap. intros (pp & Hp & ->)%fmap_Some. exists pp. by rewrite Hp.
Qed.

Lemma kpipeclose_key p (w : bool) s s' e :
  kpipeclose kend p w s = (Ret tt, s') -> (key s).1.2 !! p = Some e ->
  let e' := if w then (e.1, 0) else (0, e.2) in
  (key s').1.1 = (key s).1.1 /\
  if (e'.1 =? 0) && (e'.2 =? 0)
  then (key s').1.2 = delete p (key s).1.2 /\ kfree kend p (key s).2 = (Ret tt, (key s').2)
  else (key s').1.2 = <[p := e']> (key s).1.2 /\ (key s').2 = (key s).2.
Proof.
  intros H He e'. unfold kpipeclose, pipeclose in H.
  apply bind_Ret_inv in H as ([] & s1 & H1 & H). apply (pres_acq_pipe p) in H1.
  apply bind_Ret_inv in H as ([] & s2 & H2 & H).
  rewrite <- H1 in He. destruct (key_pipe_at _ _ _ He) as (pp & Hpp & Eends & _).
  assert (key s2 = ((key s).1.1, <[p := e']> (key s).1.2, (key s).2)) as E2.
  { assert (exists s3 ch, s3 = over (pipe_at p) (if w then set_writeopen 0 else set_readopen 0) s1 /\
      wakeup_ev kenv ch s3 = (Ret tt, s2)) as (s3 & ch & -> & H3).
    { destruct w; apply bind_Ret_inv in H2 as ([] & s3 & H3 & H2); unfold modify in H3;
        eexists s3, _; (split; [congruence|exact H2]). }
    apply (pres_wake ch) in H3. rewrite H3, (key_pipe_set _ pp _ _ Hpp), H1. subst e. by destruct w. }
  assert ((key s2).1.2 !! p = Some e') as He2 by (rewrite E2; simpl; by rewrite lookup_insert_eq).
  destruct (key_pipe_at _ _ _ He2) as (pp2 & Hpp2 & Eends2 & Ev). unfold gets, bind at 1 in H. rewrite Ev in H.
  assert ((readopen pp2 =? 0) && (writeopen pp2 =? 0) = ((e'.1 =? 0) && (e'.2 =? 0))) as Et by by rewrite <- Eends2.
  rewrite Et in H. destruct ((e'.1 =? 0) && (e'.2 =? 0)).
  - apply bind_Ret_inv in H as ([] & s3 & H3 & H). apply (pres_rel_pipe p) in H3.
    unfold bind, modify, zoom in H. unfold vkfree, zoom in H. cbn [view over kvm vm_lens kmem_lens upd_pipes] in H.
    assert (v_kmem (kvm s3) = (key s).2) as Ekm by (change (v_kmem (kvm s3)) with ((key s3).2); by rewrite H3, E2).
    rewrite Ekm in H. destruct (kfree kend p (key s).2) as [o k'] eqn:Ek. injection H as -> <-.
    assert (key s3 = ((key s).1.1, <[p := e']> (key s).1.2, (key s).2)) as E3 by congruence.
    unfold key in E3 |- *. simpl in *. injection E3 as E31 E32 E33. split; [done|]. split; [|done].
    rewrite fmap_delete, E32. by rewrite delete_insert_eq.
  - apply (pres_rel_pipe p) in H. rewrite H, E2. done.
Qed.

Lemma kfree_J k l p k' : kinv kend k l -> valid_page kend p -> p ∉ l -> kfree kend p k = (Ret tt, k') -> kinv kend k' (p :: l).
Proof. intros Hk Hp Hn H. destruct (kfree_inv kend k l p Hk Hp Hn) as (k1 & H1 & H2 & _). congruence. Qed.

(** The last reference to file [f] goes: the file is free again, and if it was
    an end of a pipe, the end is closed. *)
Definition close_end (c : bool) (e : Z * Z) : Z * Z := if c then (0, e.2) else (e.1, 0).

Lemma J_close_pipe F P k h1 h2 f v v' e P' k' :
  J (F, P, k) (h1 ++ f :: h2) -> frefs f (h1 ++ h2) = 0%nat -> F !! f = Some v -> fv_type v = FD_PIPE ->
  fv_type v' = FD_NONE -> fv_ref v' = 0 -> P !! fv_pipe v = Some e ->
  let e' := close_end (fv_writable v =? 0) e in
  (if (e'.1 =? 0) && (e'.2 =? 0) then P' = delete (fv_pipe v) P /\ kfree kend (fv_pipe v) k = (Ret tt, k')
   else P' = <[fv_pipe v := e']> P /\ k' = k) ->
  J (<[f := v']> F, P', k') (h1 ++ h2).
Proof.
  intros HJ Hr Hf Hty Hty' Hr' He e' HP. pose proof (lookup_lt_Some _ _ _ Hf) as Hlt.
  assert (forall g w, <[f := v']> F !! g = Some w -> g = f /\ w = v' \/ g <> f /\ F !! g = Some w) as Hlk.
  { intros g w. destruct (decide (g = f)) as [->|Hne].
    - rewrite list_lookup_insert_eq by done. intros [= <-]. by left.
    - rewrite list_lookup_insert_ne by done. intros Hg. by right. }
  assert (forall g w, <[f := v']> F !! g = Some w -> fv_type w = FD_PIPE -> g <> f /\ F !! g = Some w) as Hpw.
  { intros g w [[-> ->]|Hg]%Hlk Hw; [congruence|done]. }
  assert (forall q x, P' !! q = Some x -> q <> fv_pipe v /\ P !! q = Some x \/
    q = fv_pipe v /\ x = e' /\ (e'.1 <> 0 \/ e'.2 <> 0)) as HP'.
  { intros q x Hq. destruct ((e'.1 =? 0) && (e'.2 =? 0)) eqn:E; destruct HP as [-> _].
    - apply lookup_delete_Some in Hq as [Hne Hq]. left. split; [congruence|done].
    - apply lookup_insert_Some in Hq as [[<- <-]|[Hne Hq]]; [right|left; split; [congruence|done]].
      split_and!; [done|done|]. apply andb_false_iff in E as [E|E]; bool_to_prop; auto. }
  assert (forall q, q <> fv_pipe v -> P' !! q = P !! q) as HPo.
  { intros q Hq. destruct ((e'.1 =? 0) && (e'.2 =? 0)); destruct HP as [-> _];
      [by rewrite lookup_delete_ne|by rewrite lookup_insert_ne]. }
  split; simpl.
  - rewrite length_insert. apply (j_len _ _ HJ).
  - intros g Hg. apply (j_held _ _ HJ). set_solver.
  - intros g w [[-> ->]|[Hne Hg]]%Hlk; [by rewrite Hr, Hr'|].
    rewrite (j_ref _ _ HJ g w Hg), frefs_middle, decide_False by done. done.
  - intros g w [[-> ->]|[Hne Hg]]%Hlk Hnh; [done|]. apply (j_none _ _ HJ g w Hg). set_solver.
  - intros g w Hg Hw. destruct (Hpw g w Hg Hw) as [Hne Hg']. destruct (j_pipe _ _ HJ g w Hg' Hw) as (x & Hx & Hxe). simpl in Hx.
    destruct (decide (fv_pipe w = fv_pipe v)) as [Ep|Ep].
    + assert (x = e) as -> by congruence.
      assert ((fv_writable w =? 0) <> (fv_writable v =? 0)) as Hwv.
      { intros Hwv. apply Hne. eapply (j_uniq _ _ HJ g f w v); done. }
      exists e'. assert (if fv_writable w =? 0 then e'.1 <> 0 else e'.2 <> 0) as Hee.
      { unfold e', close_end. destruct (fv_writable w =? 0), (fv_writable v =? 0); done. }
      split; [|done]. rewrite Ep. destruct ((e'.1 =? 0) && (e'.2 =? 0)) eqn:E.
      * bool_to_prop. by destruct (fv_writable w =? 0).
      * destruct HP as [-> _]. by rewrite lookup_insert_eq.
    + exists x. by rewrite HPo.
  - intros g g' w w' Hg Hg' Hw Hw' Hp Hww. destruct (Hpw g w Hg Hw) as [_ H1], (Hpw g' w' Hg' Hw') as [_ H2].
    by eapply (j_uniq _ _ HJ g g' w w').
  - intros q x [[_ Hq]|(_ & -> & Hq)]%HP'; [by eapply (j_open _ _ HJ)|done].
  - intros q x b Hq Hb. assert (exists g w, g <> f /\ F !! g = Some w /\ fv_type w = FD_PIPE /\ fv_pipe w = q /\ (fv_writable w =? 0) = b) as (g & w & Hne & Hg & Hrest).
    { apply HP' in Hq as [[Hne Hq]|(-> & -> & _)].
      - destruct (j_end _ _ HJ q x b Hq Hb) as (g & w & Hg & Hw & Hp & Hww). exists g, w. split_and!; try done.
        intros ->. simpl in Hg. congruence.
      - destruct (j_end _ _ HJ (fv_pipe v) e b He) as (g & w & Hg & Hw & Hp & Hww).
        { unfold e', close_end in Hb. by destruct b, (fv_writable v =? 0). }
        exists g, w. split_and!; try done. intros ->. simpl in Hg. assert (w = v) as -> by congruence.
        unfold e', close_end in Hb. rewrite Hww in Hb. by destruct b. }
    exists g, w. by rewrite list_lookup_insert_ne by done.
  - destruct (j_page _ _ HJ) as (l & Hk & Hl). simpl in *.
    destruct ((e'.1 =? 0) && (e'.2 =? 0)); destruct HP as [-> Hkk].
    + destruct (Hl (fv_pipe v)) as [Hvp Hnl]; [by rewrite He|].
      exists (fv_pipe v :: l). split; [by eapply kfree_J|]. intros q [x Hq].
      apply lookup_delete_Some in Hq as [Hne Hq]. destruct (Hl q) as [H1 H2]; [done|].
      split; [done|]. apply not_elem_of_cons. split; [congruence|done].
    + subst k'. exists l. split; [done|]. intros q [x Hq]. apply Hl.
      apply lookup_insert_Some in Hq as [[<- _]|[_ Hq]]; by eexists.
Qed.

Lemma fileclose_J s h1 f h2 s' : J (key s) (h1 ++ f :: h2) -> fileclose kend f s = (Ret tt, s') -> J (key s') (h1 ++ h2).
Proof.
  intros HJ H. unfold fileclose in H. apply bind_Ret_inv in H as ([] & s0 & H0 & H).
  apply (ft_lock_key true) in H0 as (Ek & _). rewrite <- Ek in HJ.
  assert (f ∈ h1 ++ f :: h2) as Hin by set_solver.
  destruct (J_file _ _ f HJ (j_held _ _ HJ f Hin)) as (x & Hx & Ex).
  pose proof (key_lookup _ _ _ Hx) as Hv. pose proof (j_ref _ _ HJ f _ Hv) as Href. simpl in Href.
  rewrite frefs_middle, decide_True in Href by done.
  unfold getf, updf in H. cbv [bind gets modify] in H. rewrite Ex in H. unfold panic_if in H.
  destruct (f_ref x <? 1) eqn:E1; [done|]. cbn [ret] in H. unfold ret in H.
  set (s1 := upd_files (alter (set_f_ref (fun n => n - 1)) f) s0) in *.
  assert (files s1 !! f = Some (set_f_ref (fun n => n - 1) x)) as Hx1 by (simpl; by rewrite list_lookup_alter_eq, Hx).
  assert (file_at s1 f = set_f_ref (fun n => n - 1) x) as Ex1 by (unfold file_at; by rewrite Hx1).
  rewrite Ex1 in H. change (f_ref (set_f_ref (fun n => n - 1) x)) with (f_ref x - 1) in H.
  destruct (0 <? f_ref x - 1) eqn:E2; bool_to_prop; cbv beta in H; unfold id in H; rewrite ?Ex1 in H.
  - apply (ft_lock_key false) in H as (Ek' & _). rewrite Ek'. unfold s1. rewrite (key_updf _ _ x _ Hx).
    eapply J_set; [rewrite <- key_eta; exact HJ|exact Hv| | | | | |]; simpl; [by left|done|lia| | |].
    + left. rewrite frefs_pos. lia.
    + intros g Hne. by rewrite frefs_middle, decide_False.
    + set_solver.
  - set (s2 := upd_files (alter (set_f_type FD_NONE) f) (upd_files (alter (set_f_ref (fun _ => 0)) f) s1)) in H.
    assert (frefs f (h1 ++ h2) = 0%nat) as Hr0 by lia. set (v' := view_of (set_f_type FD_NONE (set_f_ref (fun _ => 0) x))).
    assert (key s2 = (<[f := v']> (key s0).1.1, (key s0).1.2, (key s0).2)) as Ek2.
    { unfold s2, s1. erewrite key_updf by (simpl; by rewrite !list_lookup_alter_eq, Hx).
      erewrite key_updf by (simpl; by rewrite list_lookup_alter_eq, Hx). rewrite (key_updf _ _ x _ Hx).
      simpl. by rewrite !list_insert_insert_eq. }
    destruct (release_flag ftlock s2) as [[[]| |] s3] eqn:Er; try done. apply (ft_lock_key false) in Er as (Ek3 & _).
    cbn [f_type set_f_ref] in H. destruct (f_type x) eqn:Ety.
    + injection H as <-. rewrite Ek3, Ek2. eapply J_set; [rewrite <- key_eta; exact HJ|exact Hv| | | | | |]; simpl.
      * right. by rewrite Ety.
      * done.
      * by rewrite Hr0.
      * by right.
      * intros g Hne. by rewrite frefs_middle, decide_False.
      * set_solver.
    + cbn [f_pipe f_writable set_f_ref] in H.
      destruct (j_pipe _ _ HJ f _ Hv Ety) as (e & He & _). simpl in He.
      assert ((key s3).1.2 !! f_pipe x = Some e) as He3 by by rewrite Ek3, Ek2.
      destruct (kpipeclose_key _ _ _ _ _ H He3) as [EF HP]. rewrite Ek3, Ek2 in EF, HP. cbn [fst snd] in EF, HP.
      rewrite (key_eta s'), EF.
      apply (J_close_pipe (key s0).1.1 (key s0).1.2 (key s0).2 h1 h2 f (view_of x) v' e);
        [rewrite <- key_eta; exact HJ|exact Hr0|exact Hv|exact Ety|done|done|exact He|].
      unfold close_end. change (fv_writable (view_of x)) with (f_writable x). change (fv_pipe (view_of x)) with (f_pipe x).
      destruct (f_writable x =? 0); cbn [negb fst snd] in HP |- *; exact HP.
    + assert (key s' = key s3) as ->.
      { assert (preserves key (kbegin_op ;; kiput (f_ip x) ;; kend_op)) as Hp.
        { unfold kbegin_op, kend_op, kiput. preserve. }
        eapply Hp. exact H. }
      rewrite Ek3, Ek2. eapply J_set; [rewrite <- key_eta; exact HJ|exact Hv| | | | | |]; simpl.
      * right. by rewrite Ety.
      * done.
      * by rewrite Hr0.
      * by right.
      * intros g Hne. by rewrite frefs_middle, decide_False.
      * set_solver.
Qed.

(** ** pipealloc *)
Lemma kalloc_J k l p k' : kinv kend k l -> kalloc k = (Ret p, k') -> p <> 0 -> exists l', l = p :: l' /\ kinv kend k' l'.
Proof.
  intros Hk H Hp. destruct l as [|q l].
  - rewrite (kalloc_empty _ _ Hk) in H. congruence.
  - destruct (kalloc_inv _ _ _ _ Hk) as (k1 & H1 & H2 & _). rewrite H1 in H. injection H as -> <-. by exists l.
Qed.

Lemma J_new_pipe F P k held a b va vb va' vb' p k' :
  J (F, P, k) held -> a ∈ held -> b ∈ held -> a <> b -> F !! a = Some va -> F !! b = Some vb ->
  fv_type va = FD_NONE -> fv_type vb = FD_NONE ->
  va' = FView FD_PIPE (fv_ref va) 1 0 p -> vb' = FView FD_PIPE (fv_ref vb) 0 1 p ->
  kalloc k = (Ret p, k') -> p <> 0 ->
  J (<[b := vb']> (<[a := va']> F), <[p := (1, 1)]> P, k') held.
Proof.
  intros HJ Ha Hb Hab HFa HFb Hta Htb -> -> Hal Hp.
  pose proof (lookup_lt_Some _ _ _ HFa) as Hla. pose proof (lookup_lt_Some _ _ _ HFb) as Hlb.
  destruct (j_page _ _ HJ) as (l & Hk & Hl). simpl in Hk, Hl. destruct (kalloc_J _ _ _ _ Hk Hal Hp) as (l' & -> & Hk').
  assert (P !! p = None) as HPp.
  { destruct (P !! p) eqn:E; [|done]. destruct (Hl p) as [_ Hn]; [by rewrite E|]. destruct Hn. left. }
  set (F' := <[b := _]> (<[a := _]> F)).
  assert (forall g w, F' !! g = Some w ->
    g = a /\ w = FView FD_PIPE (fv_ref va) 1 0 p \/ g = b /\ w = FView FD_PIPE (fv_ref vb) 0 1 p \/
    g <> a /\ g <> b /\ F !! g = Some w) as Hlk.
  { intros g w. unfold F'. destruct (decide (g = b)) as [->|Hgb].
    - rewrite list_lookup_insert_eq by (by rewrite length_insert). intros [= <-]. by right; left.
    - rewrite list_lookup_insert_ne by done. destruct (decide (g = a)) as [->|Hga].
      + rewrite list_lookup_insert_eq by done. intros [= <-]. by left.
      + rewrite list_lookup_insert_ne by done. intros Hg. by right; right. }
  assert (F' !! a = Some (FView FD_PIPE (fv_ref va) 1 0 p)) as HFa'
    by (unfold F'; by rewrite list_lookup_insert_ne, list_lookup_insert_eq).
  assert (F' !! b = Some (FView FD_PIPE (fv_ref vb) 0 1 p)) as HFb'
    by (unfold F'; rewrite list_lookup_insert_eq; [done|by rewrite length_insert]).
  assert (forall g w, F !! g = Some w -> fv_type w = FD_PIPE -> fv_pipe w <> p) as Hold.
  { intros g w Hg Hw Ep. destruct (j_pipe _ _ HJ g w Hg Hw) as (e & He & _). simpl in He. rewrite Ep in He; congruence. }
  split; simpl.
  - unfold F'. rewrite !length_insert. apply (j_len _ _ HJ).
  - apply (j_held _ _ HJ).
  - intros g w [[-> ->]|[[-> ->]|(_ & _ & Hg)]]%Hlk; simpl; [by apply (j_ref _ _ HJ)..|by apply (j_ref _ _ HJ)].
  - intros g w [[-> ->]|[[-> ->]|(_ & _ & Hg)]]%Hlk Hn; [done..|by apply (j_none _ _ HJ g w)].
  - intros g w [[-> ->]|[[-> ->]|(_ & _ & Hg)]]%Hlk Hw; simpl; [exists (1, 1); by rewrite lookup_insert_eq..|].
    rewrite lookup_insert_ne; [by apply (j_pipe _ _ HJ g)|]. intros E. by apply (Hold g w Hg Hw).
  - intros g g' w w' [[-> ->]|[[-> ->]|(_ & _ & Hg)]]%Hlk [[-> ->]|[[-> ->]|(_ & _ & Hg')]]%Hlk Hw Hw' Hpp Hww; simpl in *;
      try done; try (exfalso; by eapply Hold); try (exfalso; symmetry in Hpp; by eapply Hold).
    by eapply (j_uniq _ _ HJ g g' w w').
  - intros q e [[<- <-]|[_ Hq]]%lookup_insert_Some; [simpl; lia|by apply (j_open _ _ HJ q)].
  - intros q e c [[<- <-]|[Hne Hq]]%lookup_insert_Some Hc.
    + destruct c; [exists a|exists b]; eexists; by split_and!.
    + destruct (j_end _ _ HJ q e c Hq Hc) as (g & w & Hg & Hw & Hpp & Hww). exists g, w. simpl in Hg.
      split_and!; try done. unfold F'. rewrite !list_lookup_insert_ne; [done| |]; intros <-; congruence.
  - exists l'. split; [done|]. intros q [e He]. apply lookup_insert_Some in He as [[<- _]|[Hne He]].
    + pose proof (kinv_valid _ _ _ Hk) as Hv. inversion_clear Hv. pose proof (kinv_nodup _ _ _ Hk) as Hn. by inversion_clear Hn.
    + destruct (Hl q) as [H1 H2]; [done|]. split; [done|]. intros Hq. apply H2. by right.
Qed.

Lemma J_perm kt held held' : held ≡ₚ held' -> J kt held -> J kt held'.
Proof.
  intros Hp [H1 H2 H3 H4 H5 H6 H7 H8 H9]. split; try done.
  - intros f. rewrite <- Hp. apply H2.
  - intros f v Hf. rewrite (H3 f v Hf). unfold frefs. by rewrite Hp.
  - intros f v Hf. rewrite <- Hp. by apply H4.
Qed.

Lemma pipealloc_J s held r s' : J (key s) held -> pipealloc kend s = (Ret r, s') ->
  match r with
  | (0, Some a, Some b) => J (key s') (a :: b :: held)
  | _ => r.1.1 = -1 /\ J (key s') held
  end.
Proof.
  intros HJ H. unfold pipealloc in H. apply bind_Ret_inv in H as (f0 & s1 & H1 & H).
  pose proof (filealloc_J _ _ _ _ HJ H1) as HA. destruct f0 as [a|].
  2: { unfold pipealloc_bad in H. cbn [Z.eqb negb when] in H. cbv [bind ret] in H. injection H as <- <-.
       split; [done|]. by rewrite HA. }
  destruct HA as (Hna & HJ1 & va & Ek1 & Hla & Hva). apply bind_Ret_inv in H as (f1 & s2 & H2 & H).
  pose proof (filealloc_J _ _ _ _ HJ1 H2) as HB. destruct f1 as [b|].
  2: { apply bind_Ret_inv in H as (r0 & s3 & H3 & H). unfold ret in H. injection H as <- <-.
       unfold pipealloc_bad in H3. cbn [Z.eqb negb when] in H3.
       apply bind_Ret_inv in H3 as (? & ? & Hx & H3). unfold ret in Hx. injection Hx as <- <-.
       apply bind_Ret_inv in H3 as ([] & s4 & H4 & H3). rewrite <- HB in HJ1.
       apply (fileclose_J s2 [] a held) in H4; [|done]. unfold bind, ret in H3. injection H3 as <- <-. done. }
  destruct HB as (Hnb & HJ2 & vb & Ek2 & Hlb & Hvb). apply bind_Ret_inv in H as (p & s3 & H3 & H).
  unfold vkalloc, zoom in H3. cbn [view over kvm vm_lens kmem_lens] in H3.
  destruct (kalloc (v_kmem (kvm s2))) as [o k'] eqn:Eal. injection H3 as -> <-.
  change (v_kmem (kvm s2)) with ((key s2).2) in Eal.
  destruct (p =? 0) eqn:Ep; bool_to_prop.
  - subst p. apply bind_Ret_inv in H as (r0 & s4 & H4 & H). unfold ret in H. injection H as <- <-.
    assert (key s2 = key (set vm_lens (set kmem_lens k' (kvm s2)) s2)) as Ek3.
    { destruct (j_page _ _ HJ2) as (l & Hk & Hl). destruct l as [|q l].
      - rewrite (kalloc_empty _ _ Hk) in Eal. injection Eal as <-. by destruct s2 as [? ? ? [] ?].
      - destruct (kalloc_inv _ _ _ _ Hk) as (k1 & H5 & _). rewrite H5 in Eal. injection Eal as -> _.
        pose proof (kinv_valid _ _ _ Hk) as Hv. inversion_clear Hv as [|? ? Hq _]. destruct (valid_range _ _ Hq). lia. }
    rewrite Ek3 in HJ2. unfold pipealloc_bad in H4. cbn [Z.eqb negb when] in H4.
    apply bind_Ret_inv in H4 as (? & ? & Hx & H4). unfold ret in Hx. injection Hx as <- <-.
    apply bind_Ret_inv in H4 as ([] & s5 & H5 & H4).
    apply (fileclose_J _ [b] a held) in H5; [|done]. apply bind_Ret_inv in H4 as ([] & s6 & H6 & H4).
    apply (fileclose_J _ [] b held) in H6; [|done]. unfold ret in H4. injection H4 as <- <-. done.
  - unfold updf in H. cbv [bind modify ret] in H. injection H as <- <-.
    assert (a <> b) as Hab by (intros ->; apply Hnb; left).
    rewrite Ek1 in Ek2, Hlb. cbn [fst snd] in Ek2, Hlb. rewrite length_insert in Hlb.
    assert ((key s2).1.1 !! a = Some va) as HFa.
    { rewrite Ek2. cbn [fst]. by rewrite list_lookup_insert_ne, list_lookup_insert_eq. }
    assert ((key s2).1.1 !! b = Some vb) as HFb.
    { rewrite Ek2. cbn [fst]. rewrite list_lookup_insert_eq; [done|by rewrite length_insert]. }
    assert (exists xa, files s2 !! a = Some xa /\ view_of xa = va) as (xa & Hxa & Exa).
    { unfold key in HFa. simpl in HFa. rewrite list_lookup_fmap in HFa. apply fmap_Some in HFa as (x & Hx & ->). by exists x. }
    assert (exists xb, files s2 !! b = Some xb /\ view_of xb = vb) as (xb & Hxb & Exb).
    { unfold key in HFb. simpl in HFb. rewrite list_lookup_fmap in HFb. apply fmap_Some in HFb as (x & Hx & ->). by exists x. }
    erewrite key_updf by (simpl; rewrite list_lookup_alter_ne by done; exact Hxb).
    erewrite key_updf by (simpl; exact Hxa).
    apply (J_perm _ _ (a :: b :: held)) in HJ2; [|constructor].
    pose proof (J_new_pipe (key s2).1.1 (key s2).1.2 (key s2).2 (a :: b :: held) a b va vb
      (view_of (set_f_pipe_end p 1 0 xa)) (view_of (set_f_pipe_end p 0 1 xb)) p k') as HN.
    unfold key in HN |- *. simpl in HN |- *. rewrite fmap_insert. apply HN; try (subst; done); try set_solver.
Qed.

(** ** Clients

    A client holds references to files and gives back those it holds; [fstep]
    says how each call changes the references held.  [fs_open] is the assignment
    of the fields that [sys_open] makes to a file it has just allocated. *)
Inductive fstep : kst T * list nat -> kst T * list nat -> Prop :=
| fs_alloc s held f s' : filealloc s = (Ret (Some f), s') -> fstep (s, held) (s', f :: held)
| fs_alloc_none s held s' : filealloc s = (Ret None, s') -> fstep (s, held) (s', held)
| fs_open s held f x ip r w :
    f ∈ held -> files s !! f = Some x -> f_type x = FD_NONE ->
    fstep (s, held) (upd_files (alter (set_f_inode ip r w) f) s, held)
| fs_dup s held f r s' :
    f ∈ held -> Z.of_nat (length held) < 2147483647 -> filedup f s = (Ret r, s') -> fstep (s, held) (s', f :: held)
| fs_close s h1 f h2 s' : fileclose kend f s = (Ret tt, s') -> fstep (s, h1 ++ f :: h2) (s', h1 ++ h2)
| fs_pipe s held a b s' : pipealloc kend s = (Ret (0, Some a, Some b), s') -> fstep (s, held) (s', a :: b :: held)
| fs_pipe_fail s held r s' : pipealloc kend s = (Ret r, s') -> r.1.1 <> 0 -> fstep (s, held) (s', held)
| fs_read s held f n r s' : fileread devsw sleep wakeups f n s = (Ret r, s') -> fstep (s, held) (s', held)
| fs_write s held f d n r s' : filewrite devsw sleep wakeups f d n s = (Ret r, s') -> fstep (s, held) (s', held)
| fs_stat s held f r s' : filestat f s = (Ret r, s') -> fstep (s, held) (s', held).

Lemma fstep_J a b : J (key a.1) a.2 -> fstep a b -> J (key b.1) b.2.
Proof.
  intros HJ Hs. destruct Hs as [s held f s' H|s held s' H|s held f x ip r w Hin Hx Ht|s held f r s' Hin Hb H|s h1 f h2 s' H
    |s held a b s' H|s held r s' H Hr|s held f n r s' H|s held f d n r s' H|s held f r s' H]; cbn [fst snd] in *.
  - by apply (filealloc_J s held (Some f)) in H as (_ & H & _).
  - apply (filealloc_J s held None) in H; [|done]. by rewrite H.
  - rewrite (key_updf _ _ x _ Hx). pose proof (key_lookup _ _ _ Hx) as Hv.
    eapply J_set; [rewrite <- key_eta; exact HJ|exact Hv| | | | | |]; simpl; [by right; rewrite Ht|done| |by left|done|by right].
    apply (j_ref _ _ HJ f _ Hv).
  - by apply (filedup_J s held f r) in H as [_ H].
  - by apply (fileclose_J s h1 f h2) in H.
  - exact (pipealloc_J _ _ _ _ HJ H).
  - pose proof (pipealloc_J _ _ _ _ HJ H) as Hp. destruct r as [[z oa] ob]. simpl in Hr.
    destruct z; [done|..]; by destruct Hp.
  - apply pres_fileread in H. by rewrite H.
  - apply pres_filewrite in H. by rewrite H.
  - apply pres_filestat in H. by rewrite H.
Qed.

Lemma fsteps_J a b : J (key a.1) a.2 -> rtc fstep a b -> J (key b.1) b.2.
Proof. intros HJ Hs. induction Hs; eauto using fstep_J. Qed.

(** The tables at boot: no file is open and there are no pipes. *)
Definition no_files s : Prop :=
  length (files s) = NFILE /\ (forall f x, files s !! f = Some x -> f_ref x = 0 /\ f_type x = FD_NONE) /\
  pipes s = ∅ /\ exists l, kinv kend (v_kmem (kvm s)) l.

Lemma no_files_J s : no_files s -> J (key s) [].
Proof.
  intros (Hl & Hf & Hp & l & Hk).
  assert (forall f v, (key s).1.1 !! f = Some v -> fv_ref v = 0 /\ fv_type v = FD_NONE) as Hv.
  { intros f v. unfold key. simpl. rewrite list_lookup_fmap. intros (x & Hx & ->)%fmap_Some. by apply (Hf f). }
  assert ((key s).1.2 = ∅) as HP by (unfold key; simpl; by rewrite Hp, fmap_empty).
  split.
  - unfold key. simpl. by rewrite length_fmap.
  - intros f Hin. by apply not_elem_of_nil in Hin.
  - intros f v H. by destruct (Hv f v H) as [-> _].
  - intros f v H _. by destruct (Hv f v H).
  - intros f v H Ht. destruct (Hv f v H). congruence.
  - intros f g v w H _ Ht. destruct (Hv f v H). congruence.
  - intros p e. rewrite HP. done.
  - intros p e b. rewrite HP. done.
  - exists l. split; [done|]. intros p. rewrite HP. intros [? ?]. done.
Qed.


End Refs.
