(* ===== verification/Kernel.v ===== *)
(** * The kernel below the process table, put together

    vm.c, file.c, fs.c and log.c provide the services that proc.c is written
    against.  A pointer held by the process table is 0 or one more than the index
    in the table it points into. *)
From S2P Require Import Prelude Mem Spinlock Kalloc Mmu Vm Block Log Tx Fs Pipe File Proc.

Definition ptr (i : nat) : Z := 1 + Z.of_nat i.

Definition ptr_of (o : option nat) : Z := match o with Some i => ptr i | None => 0 end.

Definition index_of (p : Z) : nat := Z.to_nat (p - 1).

Section Kernel.
Context {T : Type} {HT : TxBlocks T} {HO : TxOps T} (devsw : Z -> devops (T := T)).
Context (kend : Z) (cpu_ts : nat -> Z) (initcode : list Z).

Definition on_vm {A} (m : M vst A) : M (kst T) A := zoom vm_lens m.

Definition on_fs {A} (m : M (fs T) A) : M (kst T) A := zoom fs_lens m.

#[export] Instance kernel_services : KernelServices (kst T) := {
  ks_kalloc := on_vm vkalloc;
  ks_kfree := fun v => on_vm (vkfree kend v);
  ks_setupkvm := on_vm (setupkvm kend);
  ks_inituvm := fun pgdir => on_vm (inituvm pgdir initcode (Z.of_nat (length initcode)));
  ks_copyuvm := fun pgdir sz => on_vm (copyuvm kend pgdir sz);
  ks_freevm := fun pgdir => on_vm (freevm kend pgdir);
  ks_allocuvm := fun pgdir oldsz newsz => on_vm (allocuvm kend pgdir oldsz newsz);
  ks_deallocuvm := fun pgdir oldsz newsz => on_vm (deallocuvm kend pgdir oldsz newsz);
  ks_switchuvm := fun p => on_vm (switchuvm cpu_ts (Some (p_kstack p, p_pgdir p)));
  ks_switchkvm := on_vm switchkvm;
  ks_filedup := fun f => (i ← filedup (index_of f); ret (ptr i));
  ks_fileclose := fun f => fileclose kend (index_of f);
  ks_idup := fun ip => (i ← on_fs (idup (index_of ip)); ret (ptr i));
  ks_iput := fun ip => on_fs (iput (index_of ip));
  ks_namei_root := (r ← on_fs (namei devsw 0 [slash] (replicate DIRSIZ 0)); ret (ptr_of r));
  ks_begin_op := kbegin_op;
  ks_end_op := kend_op;
  ks_iinit := on_fs (iinit ROOTDEV);
  ks_initlog := zoom tx_of (tx_init ROOTDEV);
}.

End Kernel.
