(* ===== verification/Syscall.v ===== *)
(** * System call entry (src/xv6/syscall.c, src/xv6/syscall.h)

    The kernel reads the caller's memory through the page table of the current
    process; an access that the MMU cannot translate is a fault in kernel mode,
    which trap.c turns into a panic.  [None] stands for the return value -1 of the
    fetching functions. *)
From S2P Require Import Prelude Mem Spinlock Kalloc Mmu Vm Block Log Tx Fs Pipe File Proc Kernel.

Section Syscall.
Context {T : Type} {HT : TxBlocks T}.

Abbreviation kernel := (pst (kst T)).

(** ** User memory *)
Definition kmem_of (s : kernel) : mem := vmem (kvm (kserv s)).

Definition cur_field {A} (c : nat) (f : proc -> A) : M kernel A := p ← curproc c; getp p f.

Definition uload8 (c : nat) (a : Z) : M kernel Z :=
  pg ← cur_field c p_pgdir;
  m ← gets kmem_of;
  match mmu_addr m pg a with
  | Some k => ret (ld8 m k)
  | None => panic "trap"
  end.

Definition uload32 (c : nat) (a : Z) : M kernel Z :=
  b0 ← uload8 c a;
  b1 ← uload8 c (u32 (a + 1));
  b2 ← uload8 c (u32 (a + 2));
  b3 ← uload8 c (u32 (a + 3));
  ret (b0 + 256 * b1 + 65536 * b2 + 16777216 * b3).

Definition ustore8 (c : nat) (a v : Z) : M kernel unit :=
  pg ← cur_field c p_pgdir;
  m ← gets kmem_of;
  match mmu_addr m pg a with
  | Some k => svc (zoom vm_lens (modify (upd_kmem (set_pmem (fun m => st8 m k v)))))
  | None => panic "trap"
  end.

Fixpoint ustore (c : nat) (a : Z) (l : list Z) : M kernel unit :=
  match l with
  | [] => ret tt
  | b :: l' => ustore8 c a b ;; ustore c (u32 (a + 1)) l'
  end.

Fixpoint uload (c : nat) (a : Z) (n : nat) : M kernel (list Z) :=
  match n with
  | O => ret []
  | S k => b ← uload8 c a; l ← uload c (u32 (a + 1)) k; ret (b :: l)
  end.

(** ** Arguments *)
Definition fetchint (c : nat) (addr : Z) : M kernel (option Z) :=
  sz ← cur_field c p_sz;
  if (sz <=? addr) || (sz <? u32 (addr + 4)) then ret None
  else v ← uload32 c addr; ret (Some (s32 v)).

(** The scan of [fetchstr] from [s] up to [ep]: the length of the string. *)
Fixpoint fetchstr_loop (fuel : nat) (c : nat) (pp s ep : Z) : M kernel (option Z) :=
  if s <? ep then
    match fuel with
    | O => panic "fetchstr: out of fuel"
    | S k =>
        b ← uload8 c s;
        if b =? 0 then ret (Some (s - pp)) else fetchstr_loop k c pp (u32 (s + 1)) ep
    end
  else ret None.

(** The string and its length; the code returns the length and sets [*pp]. *)
Definition fetchstr (c : nat) (addr : Z) : M kernel (option (Z * Z)) :=
  sz ← cur_field c p_sz;
  if sz <=? addr then ret None
  else
    r ← fetchstr_loop (Z.to_nat (sz - addr)) c addr addr sz;
    ret ((fun n => (addr, n)) <$> r).

Definition argint (c : nat) (n : Z) : M kernel (option Z) :=
  tf ← cur_field c p_tf_data;
  fetchint c (u32 (tf_esp tf + 4 + 4 * n)).

Definition argptr (c : nat) (n size : Z) : M kernel (option Z) :=
  r ← argint c n;
  match r with
  | None => ret None
  | Some i =>
      sz ← cur_field c p_sz;
      if (size <? 0) || (sz <=? u32 i) || (sz <? u32 (u32 i + size)) then ret None
      else ret (Some (u32 i))
  end.

Definition argstr (c : nat) (n : Z) : M kernel (option (Z * Z)) :=
  r ← argint c n;
  match r with
  | None => ret None
  | Some addr => fetchstr c (u32 addr)
  end.

(** ** Dispatch *)
Definition SYS_fork : Z := 1.

Definition SYS_exit : Z := 2.

Definition SYS_wait : Z := 3.

Definition SYS_pipe : Z := 4.

Definition SYS_read : Z := 5.

Definition SYS_kill : Z := 6.

Definition SYS_exec : Z := 7.

Definition SYS_fstat : Z := 8.

Definition SYS_chdir : Z := 9.

Definition SYS_dup : Z := 10.

Definition SYS_getpid : Z := 11.

Definition SYS_sbrk : Z := 12.

Definition SYS_sleep : Z := 13.

Definition SYS_uptime : Z := 14.

Definition SYS_open : Z := 15.

Definition SYS_write : Z := 16.

Definition SYS_mknod : Z := 17.

Definition SYS_unlink : Z := 18.

Definition SYS_link : Z := 19.

Definition SYS_mkdir : Z := 20.

Definition SYS_close : Z := 21.

Definition SYS_uthread_init : Z := 22.

Definition SYS_getpinfo : Z := 23.

Definition SYS_setSchedPolicy : Z := 24.

Definition SYS_yield : Z := 25.

(** [NELEM(syscalls)] *)
Definition nsyscalls : Z := 26.

(** Dispatch in any state [St] that has a kernel in it; [syscalls] is the table of
    handlers. *)
Section Dispatch.
Context {St : Type} (kl : lens St kernel) (syscalls : Z -> option (M St Z)).

Definition set_eax (p : nat) (v : Z) : M kernel unit :=
  updp p (upd_p_tf_data (upd_tf_eax (fun _ => u32 v))).

Definition syscall (c : nat) : M St unit :=
  p ← zoom kl (curproc c);
  tf ← zoom kl (getp p p_tf_data);
  let num := s32 (tf_eax tf) in
  match (if (0 <? num) && (num <? nsyscalls) then syscalls num else None) with
  | Some h =>
      r ← h;
      zoom kl (set_eax p r)
  | None => zoom kl (set_eax p (-1))
  end.

End Dispatch.

(** ** Safety of the arguments *)

(** Process [p] runs on CPU [c] and all memory below its size is mapped. *)
Record caller (s : kernel) (c p : nat) : Prop := {
  ca_cur : c_proc (cpu_at s c) = Some p;
  ca_sz : 0 <= p_sz (proc_at s p) <= KERNBASE;
  ca_mapped : forall a, 0 <= a < p_sz (proc_at s p) -> is_Some (mmu_addr (kmem_of s) (p_pgdir (proc_at s p)) a);
}.

(** The byte at address [a] of the process. *)
Definition user_byte (s : kernel) (p : nat) (a : Z) : Z :=
  ld8 (kmem_of s) (default 0 (mmu_addr (kmem_of s) (p_pgdir (proc_at s p)) a)).

Lemma cur_field_run {A} (f : proc -> A) s c p : c_proc (cpu_at s c) = Some p -> cur_field c f s = (Ret (f (proc_at s p)), s).
Proof. intros H. unfold cur_field, curproc, myproc, getc, getp, bind, gets. by rewrite H. Qed.

Lemma uload8_run s c p a : caller s c p -> 0 <= a < p_sz (proc_at s p) -> uload8 c a s = (Ret (user_byte s p a), s).
Proof.
  intros [Hc Hz Hm] Ha. unfold uload8. rewrite (bind_Ret _ _ _ _ _ (cur_field_run _ _ _ _ Hc)). run_pure.
  unfold user_byte. destruct (Hm a Ha) as [k ->]. done.
Qed.

Lemma uload32_run s c p a : caller s c p -> 0 <= a -> a + 4 <= p_sz (proc_at s p) ->
  uload32 c a s = (Ret (user_byte s p a + 256 * user_byte s p (a + 1) + 65536 * user_byte s p (a + 2) +
    16777216 * user_byte s p (a + 3)), s).
Proof.
  intros H H0 H4. pose proof (ca_sz _ _ _ H) as Hz. unfold KERNBASE in Hz. unfold uload32.
  rewrite (u32_small (a + 1)), (u32_small (a + 2)), (u32_small (a + 3)) by lia.
  rewrite (bind_Ret _ _ _ _ _ (uload8_run s c p a H ltac:(lia))).
  rewrite (bind_Ret _ _ _ _ _ (uload8_run s c p (a + 1) H ltac:(lia))).
  rewrite (bind_Ret _ _ _ _ _ (uload8_run s c p (a + 2) H ltac:(lia))).
  rewrite (bind_Ret _ _ _ _ _ (uload8_run s c p (a + 3) H ltac:(lia))). done.
Qed.

Lemma wp_fetchint s c p addr (Q : option Z -> kernel -> Prop) :
  caller s c p -> 0 <= addr < 4294967296 -> Q None s ->
  (forall v, addr + 4 <= p_sz (proc_at s p) -> -2147483648 <= v < 2147483648 -> Q (Some v) s) ->
  wp (fetchint c addr) Q s.
Proof.
  intros H Ha H0 H1. pose proof (ca_sz _ _ _ H) as Hz. unfold KERNBASE in Hz. unfold fetchint. apply wp_bind.
  eapply wp_eq; [apply cur_field_run, H|]. destruct (_ || _) eqn:E; [by apply wp_ret|]. bool_to_prop.
  rewrite u32_small in * by lia. apply wp_bind. eapply wp_eq; [apply (uload32_run s c p); [done|lia|lia]|].
  apply wp_ret, H1; [lia|]. apply s32_range.
Qed.

Lemma wp_argint s c p n (Q : option Z -> kernel -> Prop) :
  caller s c p -> Q None s -> (forall v, -2147483648 <= v < 2147483648 -> Q (Some v) s) -> wp (argint c n) Q s.
Proof.
  intros H H0 H1. unfold argint. apply wp_bind. eapply wp_eq; [apply cur_field_run, H|].
  eapply wp_fetchint; [done|apply u32_range|done|]. auto.
Qed.

Lemma wp_fetchstr_loop fuel s c p pp a (Q : option Z -> kernel -> Prop) :
  let sz := p_sz (proc_at s p) in
  caller s c p -> 0 <= pp <= a -> sz - a <= Z.of_nat fuel ->
  (forall i, pp <= i < a -> user_byte s p i <> 0) -> Q None s ->
  (forall n, 0 <= n -> pp + n < sz -> user_byte s p (pp + n) = 0 ->
     (forall i, pp <= i < pp + n -> user_byte s p i <> 0) -> Q (Some n) s) ->
  wp (fetchstr_loop fuel c pp a sz) Q s.
Proof.
  intros sz H Hp Hf Hb H0 H1. pose proof (ca_sz _ _ _ H) as Hz. unfold KERNBASE in Hz. revert a Hp Hf Hb.
  induction fuel as [|k IH]; intros a Hp Hf Hb; cbn [fetchstr_loop];
    (destruct (a <? sz) eqn:E; bool_to_prop; [|by apply wp_ret]); [lia|].
  apply wp_bind. eapply wp_eq; [apply (uload8_run s c p); [done|unfold sz in *; lia]|].
  destruct (user_byte s p a =? 0) eqn:E2; bool_to_prop.
  - apply wp_ret, H1; [lia|lia| |]; replace (pp + (a - pp)) with a by lia; done.
  - rewrite u32_small by (unfold sz in *; lia). apply IH; [lia|lia|]. intros i Hi.
    destruct (decide (i = a)) as [->|]; [done|]. apply Hb. lia.
Qed.

(** C9: arguments from user space cannot make the kernel leave the process.  For a
    process whose memory below its size is mapped and lies below KERNBASE,
    [argptr] and [argstr] always return without a fault and change nothing,
    whatever the stack pointer, the argument number and the words on the stack
    are; a pointer [argptr] accepts spans [size] bytes that all belong to the
    process (the sum that is checked cannot wrap), and a string [argstr] accepts
    ends with a zero byte inside the process and has no earlier one. *)
Theorem argument_safety s c p n size :
  caller s c p -> -2147483648 <= size < 2147483648 ->
  wp (argptr c n size) (fun r s' => s' = s /\
    match r with
    | Some a => 0 <= a < p_sz (proc_at s p) /\ 0 <= size /\ a + size <= p_sz (proc_at s p)
    | None => True
    end) s /\
  wp (argstr c n) (fun r s' => s' = s /\
    match r with
    | Some (a, len) => 0 <= a /\ 0 <= len /\ a + len < p_sz (proc_at s p) /\ user_byte s p (a + len) = 0 /\
        forall i, a <= i < a + len -> user_byte s p i <> 0
    | None => True
    end) s.
Proof.
  intros H Hs. pose proof (ca_sz _ _ _ H) as Hz. unfold KERNBASE in Hz. split.
  - unfold argptr. apply wp_bind. eapply wp_argint; [done|by apply wp_ret|]. intros v Hv.
    apply wp_bind. eapply wp_eq; [apply cur_field_run, H|]. pose proof (u32_range v).
    destruct (_ || _) eqn:E; [by apply wp_ret|]. bool_to_prop. rewrite (u32_small (u32 v + size)) in * by lia. apply wp_ret. split; [done|lia].
  - unfold argstr. apply wp_bind. eapply wp_argint; [done|by apply wp_ret|]. intros v Hv. pose proof (u32_range v).
    unfold fetchstr. apply wp_bind. eapply wp_eq; [apply cur_field_run, H|].
    destruct (_ <=? _) eqn:E; [by apply wp_ret|]. bool_to_prop. apply wp_bind.
    eapply wp_fetchstr_loop; [done|lia|lia|lia|by apply wp_ret|].
    intros len Hl1 Hl2 Hb1 Hb2. apply wp_ret. simpl. split_and!; [done|lia|done|lia|done|done].
Qed.

End Syscall.
