(* ===== verification/Exec.v ===== *)
(** * exec (src/xv6/exec.c, src/xv6/elf.h)

    A string argument is its address and its length in the caller's memory, as
    [fetchstr] found it. *)
From S2P Require Import Prelude Mem Spinlock Kalloc Mmu Vm Block Log Tx Fs Pipe File Proc Kernel Syscall.

Definition ELF_MAGIC : Z := 1179403647.

Definition ELF_PROG_LOAD : Z := 1.

Definition MAXARG : Z := 32.

(** [struct elfhdr]: the fields exec uses, at their offsets *)
Record elfhdr : Type := Elfhdr {
  elf_magic : Z;
  elf_entry : Z;
  elf_phoff : Z;
  elf_phnum : Z;
}.

Definition sizeof_elfhdr : Z := 52.

Definition get_elfhdr (b : list Z) : elfhdr := Elfhdr (get32 b 0) (get32 b 24) (get32 b 28) (get16 b 44).

(** [struct proghdr] *)
Record proghdr : Type := Proghdr {
  ph_type : Z;
  ph_off : Z;
  ph_vaddr : Z;
  ph_filesz : Z;
  ph_memsz : Z;
}.

Definition sizeof_proghdr : Z := 32.

Definition get_proghdr (b : list Z) : proghdr :=
  Proghdr (get32 b 0) (get32 b 4) (get32 b 8) (get32 b 16) (get32 b 20).

Definition set_entry (eip esp : Z) (x : trapframe) : trapframe :=
  Trapframe (tf_edi x) (tf_esi x) (tf_ebp x) (tf_oesp x) (tf_ebx x) (tf_edx x) (tf_ecx x) (tf_eax x)
    (tf_gs x) (tf_fs x) (tf_es x) (tf_ds x) (tf_trapno x) (tf_err x) eip (tf_cs x) (tf_eflags x) esp (tf_ss x).

(** The part of a path after its last slash. *)
Fixpoint last_elem (s last : list Z) : list Z :=
  match s with
  | [] => last
  | b :: s' => last_elem s' (if b =? slash then s' else last)
  end.

(** [(sp - (len + 1)) & ~3] *)
Definition push_string (sp len : Z) : Z := Z.land (u32 (sp - (len + 1))) (u32 (Z.lnot 3)).

(** The words of [ustack]: [sps] are the addresses of the strings. *)
Definition ustack_words (sps : list Z) (sp : Z) : list Z :=
  [4294967295; Z.of_nat (length sps); u32 (sp - (Z.of_nat (length sps) + 1) * 4)] ++ sps ++ [0].

Section Exec.
Context {T : Type} {HT : TxBlocks T} {HO : TxOps T} (devsw : Z -> devops (T := T)).
Context (kend : Z) (cpu_ts : nat -> Z).

Abbreviation kernel := (pst (kst T)).

Definition kvm_lens : lens kernel vst :=
  Lens (fun s => kvm (kserv s)) (fun f s => upd_kserv (upd_kvm f) s).

Definition vm {A} (m : M vst A) : M kernel A := zoom kvm_lens m.

Definition kfs_op {A} (m : M (fs T) A) : M kernel A := svc (on_fs m).

(** The inode of [myproc()->cwd]. *)
Definition cur_cwd (c : nat) : M kernel nat := w ← cur_field c p_cwd; ret (index_of w).

(** The local buffer for a path element, uninitialised. *)
Context (name_buf : list Z).

Definition exec_bad (pgdir : Z) (ip : option nat) : M kernel Z :=
  when (negb (pgdir =? 0)) (vm (freevm kend pgdir)) ;;
  match ip with
  | Some ip => kfs_op (iunlockput ip) ;; svc kend_op
  | None => ret tt
  end ;;
  ret (-1).

(** The loading loop, for [n] program headers from offset [off]; [None] is
    [goto bad]. *)
Fixpoint load_loop (n : nat) (ip : nat) (pgdir off sz : Z) : M kernel (option Z) :=
  match n with
  | O => ret (Some sz)
  | S k =>
      r ← kfs_op (readi devsw ip (u32 off) sizeof_proghdr);
      if negb (r.1 =? sizeof_proghdr) then ret None
      else
        let ph := get_proghdr r.2 in
        if negb (ph_type ph =? ELF_PROG_LOAD) then load_loop k ip pgdir (s32 (off + sizeof_proghdr)) sz
        else if ph_memsz ph <? ph_filesz ph then ret None
        else if u32 (ph_vaddr ph + ph_memsz ph) <? ph_vaddr ph then ret None
        else
          sz ← vm (allocuvm kend pgdir sz (u32 (ph_vaddr ph + ph_memsz ph)));
          if sz =? 0 then ret None
          else if negb (ph_vaddr ph mod PGSIZE =? 0) then ret None
          else
            l ← loaduvm kvm_lens (fun o n => kfs_op (readi devsw ip o n))
                  pgdir (ph_vaddr ph) (ph_off ph) (ph_filesz ph);
            if l <? 0 then ret None
            else load_loop k ip pgdir (s32 (off + sizeof_proghdr)) sz
  end.

(** The loop that pushes the argument strings: the addresses of the strings and
    the stack pointer. *)
Fixpoint push_args (c : nat) (pgdir : Z) (argv : list (Z * Z)) (argc sp : Z) (sps : list Z)
    : M kernel (option (list Z * Z)) :=
  match argv with
  | [] => ret (Some (sps, sp))
  | (addr, len) :: argv' =>
      if MAXARG <=? argc then ret None
      else
        let sp := push_string sp len in
        str ← uload c addr (Z.to_nat (len + 1));
        r ← vm (copyout pgdir sp str (len + 1));
        if r <? 0 then ret None
        else push_args c pgdir argv' (argc + 1) sp (sps ++ [sp])
  end.

(** [path]: the bytes of the path; [argv]: the arguments before the null pointer *)
Definition exec (c : nat) (path : list Z) (argv : list (Z * Z)) : M kernel Z :=
  cur ← curproc c;
  svc kbegin_op ;;
  cwd ← cur_cwd c;
  ip ← kfs_op (namei devsw cwd path name_buf);
  match ip with
  | None => svc kend_op ;; ret (-1)
  | Some ip =>
      kfs_op (ilock (Some ip)) ;;
      r ← kfs_op (readi devsw ip 0 sizeof_elfhdr);
      if negb (r.1 =? sizeof_elfhdr) then exec_bad 0 (Some ip)
      else
        let elf := get_elfhdr r.2 in
        if negb (elf_magic elf =? ELF_MAGIC) then exec_bad 0 (Some ip)
        else
          pgdir ← vm (setupkvm kend);
          if pgdir =? 0 then exec_bad 0 (Some ip)
          else
            l ← load_loop (Z.to_nat (elf_phnum elf)) ip pgdir (s32 (elf_phoff elf)) 0;
            match l with
            | None => exec_bad pgdir (Some ip)
            | Some sz =>
                kfs_op (iunlockput ip) ;;
                svc kend_op ;;
                let sz := PGROUNDUP sz in
                sz ← vm (allocuvm kend pgdir sz (u32 (sz + 2 * PGSIZE)));
                if sz =? 0 then exec_bad pgdir None
                else
                  vm (clearpteu pgdir (u32 (sz - 2 * PGSIZE))) ;;
                  a ← push_args c pgdir argv 0 sz [];
                  match a with
                  | None => exec_bad pgdir None
                  | Some (sps, sp) =>
                      let ws := ustack_words sps sp in
                      let n := Z.of_nat (length ws) * 4 in
                      let sp := u32 (sp - n) in
                      r ← vm (copyout pgdir sp (ws ≫= le32) n);
                      if r <? 0 then exec_bad pgdir None
                      else
                        updp cur (upd_p_name (put_name (last_elem path path))) ;;
                        old ← getp cur p_pgdir;
                        updp cur (upd_p_pgdir (fun _ => pgdir)) ;;
                        updp cur (upd_p_sz (fun _ => sz)) ;;
                        updp cur (upd_p_tf_data (set_entry (elf_entry elf) sp)) ;;
                        ks ← getp cur p_kstack;
                        vm (switchuvm cpu_ts (Some (ks, pgdir))) ;;
                        vm (freevm kend old) ;;
                        ret 0
                  end
            end
  end.

End Exec.
