(* ===== verification/Sysfile.v ===== *)
(** * System calls on files (src/xv6/sysfile.c, src/xv6/fcntl.h)

    The file layer below, the memory of the caller and its descriptors above.  A
    path is the bytes [argstr] accepted; a structure that the kernel fills in is
    stored at the address [argptr] accepted. *)
From S2P Require Import Prelude Mem Spinlock Kalloc Mmu Vm Block Log Tx Fs Pipe File Proc Kernel Syscall Exec.

Definition O_RDONLY : Z := 0.

Definition O_WRONLY : Z := 1.

Definition O_RDWR : Z := 2.

Definition O_CREATE : Z := 512.

Definition sizeof_stat : Z := 20.

Definition dot : list Z := [46].

Definition dotdot : list Z := [46; 46].

Section Sysfile.
Context {T : Type} {HT : TxBlocks T} {HO : TxOps T} (devsw : Z -> devops (T := T)).
Context (kend : Z) (cpu_ts : nat -> Z).

(** The local buffers [char name[DIRSIZ]], uninitialised. *)
Context (name_buf : list Z).

(** What happens while a process sleeps in a pipe, see Pipe.v. *)
Context (sleep : Z -> Z -> M (kst T) unit) (wakeups : nat).

Abbreviation kernel := (pst (kst T)).

(** ** Descriptors *)
Definition cur_ofile (c : nat) (fd : Z) : M kernel Z :=
  cur_field c (fun p => default 0 (p_ofile p !! Z.to_nat fd)).

Definition set_ofile (c : nat) (fd f : Z) : M kernel unit :=
  p ← curproc c;
  updp p (upd_p_ofile (fun l => <[Z.to_nat fd := f]> l)).

(** The descriptor and the file. *)
Definition argfd (c : nat) (n : Z) : M kernel (option (Z * nat)) :=
  r ← argint c n;
  match r with
  | None => ret None
  | Some fd =>
      if (fd <? 0) || (Z.of_nat NOFILE <=? fd) then ret None
      else
        f ← cur_ofile c fd;
        if f =? 0 then ret None else ret (Some (fd, index_of f))
  end.

Definition fdalloc (c : nat) (f : nat) : M kernel Z :=
  r ← for_until (seqZ 0 (Z.of_nat NOFILE)) (fun fd =>
    g ← cur_ofile c fd;
    if g =? 0 then
      set_ofile c fd (ptr f) ;;
      ret (Some fd)
    else ret None);
  ret (default (-1) r).

Definition sys_dup (c : nat) : M kernel Z :=
  a ← argfd c 0;
  match a with
  | None => ret (-1)
  | Some (_, f) =>
      fd ← fdalloc c f;
      if fd <? 0 then ret (-1)
      else
        svc (filedup f) ;;
        ret fd
  end.

(** The arguments of [read] and [write]: the file, the buffer and its size. *)
Definition rw_args (c : nat) : M kernel (option (nat * Z * Z)) :=
  a ← argfd c 0;
  match a with
  | None => ret None
  | Some (_, f) =>
      n ← argint c 2;
      match n with
      | None => ret None
      | Some n =>
          p ← argptr c 1 n;
          ret ((fun p => (f, p, n)) <$> p)
      end
  end.

Definition sys_read (c : nat) : M kernel Z :=
  a ← rw_args c;
  match a with
  | None => ret (-1)
  | Some (f, p, n) =>
      r ← svc (fileread devsw sleep wakeups f n);
      ustore c p r.2 ;;
      ret r.1
  end.

Definition sys_write (c : nat) : M kernel Z :=
  a ← rw_args c;
  match a with
  | None => ret (-1)
  | Some (f, p, n) =>
      bytes ← uload c p (Z.to_nat n);
      svc (filewrite devsw sleep wakeups f bytes n)
  end.

Definition sys_close (c : nat) : M kernel Z :=
  a ← argfd c 0;
  match a with
  | None => ret (-1)
  | Some (fd, f) =>
      set_ofile c fd 0 ;;
      svc (fileclose kend f) ;;
      ret 0
  end.

(** The fields of [struct stat] at their offsets. *)
Definition store_stat (c : nat) (a : Z) (st : stat) : M kernel unit :=
  ustore c (u32 (a + 4)) (le32 (st_dev st)) ;;
  ustore c (u32 (a + 8)) (le32 (st_ino st)) ;;
  ustore c a (le16 (st_type st)) ;;
  ustore c (u32 (a + 12)) (le16 (st_nlink st)) ;;
  ustore c (u32 (a + 16)) (le32 (st_size st)).

Definition sys_fstat (c : nat) : M kernel Z :=
  a ← argfd c 0;
  match a with
  | None => ret (-1)
  | Some (_, f) =>
      p ← argptr c 1 sizeof_stat;
      match p with
      | None => ret (-1)
      | Some p =>
          r ← svc (filestat f);
          match r.2 with
          | Some st => store_stat c p st
          | None => ret tt
          end ;;
          ret r.1
      end
  end.

(** ** Paths *)
Definition argpath (c : nat) (n : Z) : M kernel (option (list Z)) :=
  r ← argstr c n;
  match r with
  | None => ret None
  | Some (a, len) => path ← uload c a (Z.to_nat len); ret (Some path)
  end.

Definition knamei (c : nat) (path : list Z) : M kernel (option nat) :=
  cwd ← cur_cwd c;
  kfs_op (namei devsw cwd path name_buf).

Definition knameiparent (c : nat) (path : list Z) : M kernel (option nat * list Z) :=
  cwd ← cur_cwd c;
  kfs_op (nameiparent devsw cwd path name_buf).

Definition geti_k {A} (ip : nat) (f : inode -> A) : M kernel A := kfs_op (geti ip f).

(** [end_op(); return -1;] *)
Definition fail_op : M kernel Z := svc kend_op ;; ret (-1).

(** The label [bad:] of [sys_link]. *)
Definition link_bad (ip : nat) : M kernel Z :=
  kfs_op (ilock (Some ip)) ;;
  kfs_op (updi ip (upd_i_nlink (fun n => s16 (n - 1)))) ;;
  kfs_op (iupdate ip) ;;
  kfs_op (iunlockput ip) ;;
  fail_op.

Definition sys_link (c : nat) : M kernel Z :=
  old ← argpath c 0;
  match old with
  | None => ret (-1)
  | Some old =>
      new ← argpath c 1;
      match new with
      | None => ret (-1)
      | Some new =>
          svc kbegin_op ;;
          ip ← knamei c old;
          match ip with
          | None => fail_op
          | Some ip =>
              kfs_op (ilock (Some ip)) ;;
              t ← geti_k ip i_type;
              if t =? T_DIR then
                kfs_op (iunlockput ip) ;;
                fail_op
              else
                kfs_op (updi ip (upd_i_nlink (fun n => s16 (n + 1)))) ;;
                kfs_op (iupdate ip) ;;
                kfs_op (iunlock (Some ip)) ;;
                '(dp, name) ← knameiparent c new;
                match dp with
                | None => link_bad ip
                | Some dp =>
                    kfs_op (ilock (Some dp)) ;;
                    ddev ← geti_k dp i_dev;
                    x ← geti_k ip id;
                    r ← (if negb (ddev =? i_dev x) then ret (-1)
                         else kfs_op (dirlink devsw dp name (i_inum x)));
                    if r <? 0 then
                      kfs_op (iunlockput dp) ;;
                      link_bad ip
                    else
                      kfs_op (iunlockput dp) ;;
                      kfs_op (iput ip) ;;
                      svc kend_op ;;
                      ret 0
                end
          end
      end
  end.

(** The loop of [isdirempty] from [off]. *)
Fixpoint isdirempty_loop (fuel : nat) (dp : nat) (off : Z) : M kernel bool :=
  match fuel with
  | O => panic "isdirempty: out of fuel"
  | S k =>
      size ← geti_k dp i_size;
      if u32 off <? size then
        r ← kfs_op (readi devsw dp (u32 off) sizeof_dirent);
        panic_if (negb (r.1 =? sizeof_dirent)) "isdirempty: readi" ;;
        if negb (de_inum r.2 =? 0) then ret false
        else isdirempty_loop k dp (s32 (off + sizeof_dirent))
      else ret true
  end.

Definition isdirempty (dp : nat) : M kernel bool :=
  size ← geti_k dp i_size;
  isdirempty_loop (dir_fuel size) dp (2 * sizeof_dirent).

(** The label [bad:] of [sys_unlink]. *)
Definition unlink_bad (dp : nat) : M kernel Z := kfs_op (iunlockput dp) ;; fail_op.

Definition sys_unlink (c : nat) : M kernel Z :=
  path ← argpath c 0;
  match path with
  | None => ret (-1)
  | Some path =>
      svc kbegin_op ;;
      '(dp, name) ← knameiparent c path;
      match dp with
      | None => fail_op
      | Some dp =>
          kfs_op (ilock (Some dp)) ;;
          if (namecmp name dot =? 0) || (namecmp name dotdot =? 0) then unlink_bad dp
          else
            found ← kfs_op (dirlookup devsw dp name);
            match found with
            | None => unlink_bad dp
            | Some (ip, off) =>
                kfs_op (ilock (Some ip)) ;;
                x ← geti_k ip id;
                panic_if (i_nlink x <? 1) "unlink: nlink < 1" ;;
                e ← (if i_type x =? T_DIR then isdirempty ip else ret true);
                if negb e then
                  kfs_op (iunlockput ip) ;;
                  unlink_bad dp
                else
                  w ← kfs_op (writei devsw dp (replicate (Z.to_nat sizeof_dirent) 0) off sizeof_dirent);
                  panic_if (negb (w =? sizeof_dirent)) "unlink: writei" ;;
                  t ← geti_k ip i_type;
                  when (t =? T_DIR)
                    (kfs_op (updi dp (upd_i_nlink (fun n => s16 (n - 1)))) ;;
                     kfs_op (iupdate dp)) ;;
                  kfs_op (iunlockput dp) ;;
                  kfs_op (updi ip (upd_i_nlink (fun n => s16 (n - 1)))) ;;
                  kfs_op (iupdate ip) ;;
                  kfs_op (iunlockput ip) ;;
                  svc kend_op ;;
                  ret 0
            end
      end
  end.

(** ** Creation *)
Definition create (c : nat) (path : list Z) (type major minor : Z) : M kernel (option nat) :=
  '(dp, name) ← knameiparent c path;
  match dp with
  | None => ret None
  | Some dp =>
      kfs_op (ilock (Some dp)) ;;
      found ← kfs_op (dirlookup devsw dp name);
      match found with
      | Some (ip, _) =>
          kfs_op (iunlockput dp) ;;
          kfs_op (ilock (Some ip)) ;;
          t ← geti_k ip i_type;
          if (type =? T_FILE) && (t =? T_FILE) then ret (Some ip)
          else
            kfs_op (iunlockput ip) ;;
            ret None
      | None =>
          ddev ← geti_k dp i_dev;
          ip ← kfs_op (ialloc ddev type);
          kfs_op (ilock (Some ip)) ;;
          kfs_op (updi ip (upd_i_major (fun _ => major))) ;;
          kfs_op (updi ip (upd_i_minor (fun _ => minor))) ;;
          kfs_op (updi ip (upd_i_nlink (fun _ => 1))) ;;
          kfs_op (iupdate ip) ;;
          when (type =? T_DIR)
            (kfs_op (updi dp (upd_i_nlink (fun n => s16 (n + 1)))) ;;
             kfs_op (iupdate dp) ;;
             inum ← geti_k ip i_inum;
             r1 ← kfs_op (dirlink devsw ip dot inum);
             panic_if (r1 <? 0) "create dots" ;;
             dinum ← geti_k dp i_inum;
             r2 ← kfs_op (dirlink devsw ip dotdot dinum);
             panic_if (r2 <? 0) "create dots") ;;
          inum ← geti_k ip i_inum;
          r ← kfs_op (dirlink devsw dp name inum);
          panic_if (r <? 0) "create: dirlink" ;;
          kfs_op (iunlockput dp) ;;
          ret (Some ip)
      end
  end.

(** The part of [sys_open] that finds the inode, which it returns locked; [None]
    when the call fails, its operation ended. *)
Definition open_inode (c : nat) (path : list Z) (omode : Z) : M kernel (option nat) :=
  if negb (Z.land omode O_CREATE =? 0) then
    ip ← create c path T_FILE 0 0;
    match ip with
    | None => svc kend_op ;; ret None
    | Some ip => ret (Some ip)
    end
  else
    ip ← knamei c path;
    match ip with
    | None => svc kend_op ;; ret None
    | Some ip =>
        kfs_op (ilock (Some ip)) ;;
        t ← geti_k ip i_type;
        if (t =? T_DIR) && negb (omode =? O_RDONLY) then
          kfs_op (iunlockput ip) ;;
          svc kend_op ;;
          ret None
        else ret (Some ip)
    end.

Definition open_readable (omode : Z) : Z := if Z.land omode O_WRONLY =? 0 then 1 else 0.

Definition open_writable (omode : Z) : Z :=
  if negb (Z.land omode O_WRONLY =? 0) || negb (Z.land omode O_RDWR =? 0) then 1 else 0.

Definition sys_open (c : nat) : M kernel Z :=
  path ← argpath c 0;
  match path with
  | None => ret (-1)
  | Some path =>
      om ← argint c 1;
      match om with
      | None => ret (-1)
      | Some omode =>
          svc kbegin_op ;;
          r ← open_inode c path omode;
          match r with
          | None => ret (-1)
          | Some ip =>
              f ← svc filealloc;
              match f with
              | None =>
                  kfs_op (iunlockput ip) ;;
                  fail_op
              | Some f =>
                  fd ← fdalloc c f;
                  if fd <? 0 then
                    svc (fileclose kend f) ;;
                    kfs_op (iunlockput ip) ;;
                    fail_op
                  else
                    kfs_op (iunlock (Some ip)) ;;
                    svc kend_op ;;
                    svc (updf f (set_f_inode (Some ip) (open_readable omode) (open_writable omode))) ;;
                    ret fd
              end
          end
      end
  end.

(** The end of [sys_mkdir] and [sys_mknod]. *)
Definition made (ip : option nat) : M kernel Z :=
  match ip with
  | None => fail_op
  | Some ip =>
      kfs_op (iunlockput ip) ;;
      svc kend_op ;;
      ret 0
  end.

Definition sys_mkdir (c : nat) : M kernel Z :=
  svc kbegin_op ;;
  path ← argpath c 0;
  match path with
  | None => fail_op
  | Some path => ip ← create c path T_DIR 0 0; made ip
  end.

Definition sys_mknod (c : nat) : M kernel Z :=
  svc kbegin_op ;;
  path ← argpath c 0;
  match path with
  | None => fail_op
  | Some path =>
      major ← argint c 1;
      match major with
      | None => fail_op
      | Some major =>
          minor ← argint c 2;
          match minor with
          | None => fail_op
          | Some minor => ip ← create c path T_DEV (s16 major) (s16 minor); made ip
          end
      end
  end.

Definition sys_chdir (c : nat) : M kernel Z :=
  p ← curproc c;
  svc kbegin_op ;;
  path ← argpath c 0;
  match path with
  | None => fail_op
  | Some path =>
      ip ← knamei c path;
      match ip with
      | None => fail_op
      | Some ip =>
          kfs_op (ilock (Some ip)) ;;
          t ← geti_k ip i_type;
          if negb (t =? T_DIR) then
            kfs_op (iunlockput ip) ;;
            fail_op
          else
            kfs_op (iunlock (Some ip)) ;;
            old ← getp p p_cwd;
            kfs_op (iput (index_of old)) ;;
            svc kend_op ;;
            updp p (upd_p_cwd (fun _ => ptr ip)) ;;
            ret 0
      end
  end.

(** ** exec and pipe *)

(** The loop of [sys_exec] over [uargv], with [n] of the [MAXARG] rounds left: the
    strings before the null pointer. *)
Fixpoint exec_args (n : nat) (c : nat) (a : Z) (argv : list (Z * Z)) : M kernel (option (list (Z * Z))) :=
  match n with
  | O => ret None
  | S k =>
      r ← fetchint c a;
      match r with
      | None => ret None
      | Some uarg =>
          if uarg =? 0 then ret (Some argv)
          else
            s ← fetchstr c (u32 uarg);
            match s with
            | None => ret None
            | Some s => exec_args k c (u32 (a + 4)) (argv ++ [s])
            end
      end
  end.

Definition sys_exec (c : nat) : M kernel Z :=
  path ← argpath c 0;
  match path with
  | None => ret (-1)
  | Some path =>
      u ← argint c 1;
      match u with
      | None => ret (-1)
      | Some uargv =>
          argv ← exec_args (Z.to_nat MAXARG) c (u32 uargv) [];
          match argv with
          | None => ret (-1)
          | Some argv => exec devsw kend cpu_ts name_buf c path argv
          end
      end
  end.

(** The failure of [fdalloc] in [sys_pipe]: [fd0] is the first descriptor or -1. *)
Definition pipe_undo (c : nat) (fd0 : Z) (rf wf : nat) : M kernel Z :=
  when (0 <=? fd0) (set_ofile c fd0 0) ;;
  svc (fileclose kend rf) ;;
  svc (fileclose kend wf) ;;
  ret (-1).

Definition sys_pipe (c : nat) : M kernel Z :=
  a ← argptr c 0 8;
  match a with
  | None => ret (-1)
  | Some fd =>
      r ← svc (pipealloc kend);
      match r with
      | (v, Some rf, Some wf) =>
          if v <? 0 then ret (-1)
          else
            fd0 ← fdalloc c rf;
            if fd0 <? 0 then pipe_undo c fd0 rf wf
            else
              fd1 ← fdalloc c wf;
              if fd1 <? 0 then pipe_undo c fd0 rf wf
              else
                ustore c fd (le32 fd0) ;;
                ustore c (u32 (fd + 4)) (le32 fd1) ;;
                ret 0
      | _ => ret (-1)
      end
  end.

End Sysfile.
