(* ===== verification/Machine.v ===== *)
(** * The whole kernel state (the globals of src/xv6/trap.c, src/xv6/mmu.h)

    Around the process table and the components below it: the clock and the
    interrupt descriptor table.  [knl] is the kernel of the previous files inside
    the whole state. *)
From S2P Require Import Prelude Proc.

Definition STS_IG32 : Z := 14.

Definition STS_TG32 : Z := 15.

(** [struct gatedesc] *)
Record gatedesc : Type := Gatedesc {
  off_15_0 : Z;
  gd_cs : Z;
  gd_args : Z;
  gd_rsv1 : Z;
  gd_type : Z;
  gd_s : Z;
  gd_dpl : Z;
  gd_p : Z;
  off_31_16 : Z;
}.

Definition SETGATE (istrap : bool) (sel off d : Z) : gatedesc :=
  Gatedesc (Z.land (u32 off) 65535) (sel mod 65536) 0 0 (if istrap then STS_TG32 else STS_IG32) 0 (d mod 4) 1
    (Z.shiftr (u32 off) 16).

Definition null_gate : gatedesc := Gatedesc 0 0 0 0 0 0 0 0 0.

(** The components below the process table, and the globals of trap.c; [idtr] is
    the table register of each CPU, loaded or not. *)
Record mst (K : Type) : Type := Mst {
  m_kst : K;
  ticks : Z;
  tickslock : bool;
  idt : list gatedesc;
  idtr : list bool;
}.

Arguments Mst {K} _ _ _ _ _.
Arguments m_kst {K} _.
Arguments ticks {K} _.
Arguments tickslock {K} _.
Arguments idt {K} _.
Arguments idtr {K} _.

Section Machine.
Context {K : Type}.

Definition upd_m_kst (f : K -> K) (x : mst K) : mst K := Mst (f (m_kst x)) (ticks x) (tickslock x) (idt x) (idtr x).

Definition upd_ticks (f : Z -> Z) (x : mst K) : mst K := Mst (m_kst x) (f (ticks x)) (tickslock x) (idt x) (idtr x).

Definition upd_tickslock (f : bool -> bool) (x : mst K) : mst K :=
  Mst (m_kst x) (ticks x) (f (tickslock x)) (idt x) (idtr x).

Definition upd_idt (f : list gatedesc -> list gatedesc) (x : mst K) : mst K :=
  Mst (m_kst x) (ticks x) (tickslock x) (f (idt x)) (idtr x).

Definition upd_idtr (f : list bool -> list bool) (x : mst K) : mst K :=
  Mst (m_kst x) (ticks x) (tickslock x) (idt x) (f (idtr x)).

Abbreviation sys := (pst (mst K)).

Definition kst_lens : lens (mst K) K := Lens m_kst upd_m_kst.

(** [&tickslock], as a lock that [sleep] takes. *)
Definition tlock : lens sys bool :=
  Lens (fun s => tickslock (kserv s)) (fun f s => upd_kserv (upd_tickslock f) s).

Definition get_ticks : M sys Z := gets (fun s => ticks (kserv s)).

Definition with_kserv {A B} (k : A) (s : pst B) : pst A :=
  Pst (pt_lock s) (procs s) (nextpid s) (initproc s) (pcpus s) (first_forkret s) k.

Definition knl : lens sys (pst K) :=
  Lens (fun s => with_kserv (m_kst (kserv s)) s)
    (fun f s => let s' := f (with_kserv (m_kst (kserv s)) s) in
                with_kserv (upd_m_kst (fun _ => kserv s') (kserv s)) s').

#[export] Instance knl_laws : LensLaws knl.
Proof. split; intros; unfold knl, with_kserv, upd_m_kst; simpl; [by destruct (f _)|by destruct s as [? ? ? ? ? ? []]|by destruct (g _)]. Qed.

(** The services of the components, in the whole state. *)
#[export] Instance machine_services `{KernelServices K} : KernelServices (mst K) := {
  ks_kalloc := zoom kst_lens ks_kalloc;
  ks_kfree := fun v => zoom kst_lens (ks_kfree v);
  ks_setupkvm := zoom kst_lens ks_setupkvm;
  ks_inituvm := fun pg => zoom kst_lens (ks_inituvm pg);
  ks_copyuvm := fun pg sz => zoom kst_lens (ks_copyuvm pg sz);
  ks_freevm := fun pg => zoom kst_lens (ks_freevm pg);
  ks_allocuvm := fun pg o n => zoom kst_lens (ks_allocuvm pg o n);
  ks_deallocuvm := fun pg o n => zoom kst_lens (ks_deallocuvm pg o n);
  ks_switchuvm := fun p => zoom kst_lens (ks_switchuvm p);
  ks_switchkvm := zoom kst_lens ks_switchkvm;
  ks_filedup := fun f => zoom kst_lens (ks_filedup f);
  ks_fileclose := fun f => zoom kst_lens (ks_fileclose f);
  ks_idup := fun ip => zoom kst_lens (ks_idup ip);
  ks_iput := fun ip => zoom kst_lens (ks_iput ip);
  ks_namei_root := zoom kst_lens ks_namei_root;
  ks_begin_op := zoom kst_lens ks_begin_op;
  ks_end_op := zoom kst_lens ks_end_op;
  ks_iinit := zoom kst_lens ks_iinit;
  ks_initlog := zoom kst_lens ks_initlog;
}.

End Machine.
