(* ===== verification/KernelImage.v ===== *)
(** * A concrete kernel with a running process

    The empty file table over the address space of VmImage.v and the disk of
    FsImage.v, and one process that runs in that space. *)
From S2P Require Import Prelude Mem Spinlock Kalloc Mmu Vm VmMap VmUser VmImage Block Log Bio Tx Fs FsImage Pipe File FileRefs.
From S2P Require Import Proc Kernel Syscall Machine.

(** ** The file layer *)
Definition boot_kst (t : lst Bio.bio) : kst (lst Bio.bio) :=
  Kst false (replicate NFILE null_file) ∅ VmImage.img (empty_fs t).

Lemma boot_no_files t : no_files img_end (boot_kst t).
Proof.
  split_and!; [apply length_replicate| |done|].
  - intros f x [-> _]%lookup_replicate. done.
  - eexists. apply (sp_kinv _ _ _ _ _ img_space).
Qed.


(** ** A process in the table of a booted machine *)
Definition one_proc (x : proc) {K} (k : K) : pst K :=
  Pst false (x :: replicate 63 null_proc) 2 (Some 0%nat) [Pcpu (Some 0%nat) 0 0 false true] true k.

Definition live_proc : proc :=
  upd_p_sz (fun _ => 4096) (upd_p_pgdir (fun _ => img_dir) (upd_p_state (fun _ => RUNNING) (upd_p_pid (fun _ => 1) null_proc))).

Definition boot_mst (t : lst Bio.bio) : mst (kst (lst Bio.bio)) := Mst (boot_kst t) 0 false [] [].

(** The frame of an interrupt in user space. *)
Definition user_frame (trapno : Z) : trapframe :=
  Trapframe 0 0 0 0 0 0 0 0 0 0 35 35 trapno 0 0 27 512 4096 35.

Lemma img_mapped a : 0 <= a < 4096 -> mmu_addr (vmem VmImage.img) img_dir a = Some (img_frame + a).
Proof.
  intros Ha. unfold mmu_addr. rewrite (mmu_pte_eq img_end _ _ img_T) by (first [apply img_space|lia]).
  rewrite (us_pte _ _ _ _ _ _ img_uspace) by zdm.
  replace (a / 4096) with 0 by zdm. unfold img_U. rewrite lookup_singleton_eq.
  change (Z.land (V2P img_frame + PTE_UW) PTE_P =? 0) with false. cbv iota.
  rewrite Z.mod_small by lia. done.
Qed.

Lemma img_caller t : caller (one_proc live_proc (boot_kst t)) 0 0.
Proof.
  split; [done|simpl; unfold KERNBASE; lia|]. intros a Ha.
  change (kmem_of (one_proc live_proc (boot_kst t))) with (vmem VmImage.img). change (p_pgdir (proc_at _ _)) with img_dir.
  rewrite img_mapped; [done|exact Ha].
Qed.

(** An argument pointer of the process. *)
Lemma argument_safety_witness : exists t r, argptr 0 0 100 (one_proc live_proc (boot_kst t)) = (Ret r, one_proc live_proc (boot_kst t)).
Proof.
  destruct img_tabs as [t _]. exists t.
  destruct (argument_safety (one_proc live_proc (boot_kst t)) 0 0 0 100 (img_caller t) ltac:(lia)) as [H _].
  destruct (wp_returns _ _ _ H) as (r & s' & E & -> & _). exists r. exact E.
Defined.
