(* ===== verification/Descriptors.v ===== *)
(** * File descriptors and the counts of open files

    The system calls of sysfile.c keep the count of every open file equal to the
    number of descriptors, in all processes, that refer to it. *)
From S2P Require Import Prelude Mem Spinlock Kalloc Mmu Vm Block Log Bio Tx Fs FsImage Pipe File FileRefs.
From S2P Require Import Proc Kernel Syscall Exec Sysfile VmImage KernelImage.

(** ** Counting descriptors *)

(** The files that the descriptor tables [O] of all processes refer to. *)
Definition fds (O : list (list Z)) : list nat := index_of <$> filter (fun z => z <> 0) (mjoin O).

Definition set_fd (p fd : nat) (v : Z) (O : list (list Z)) : list (list Z) := alter (<[fd := v]>) p O.

Lemma fds_split (O : list (list Z)) p l fd z : O !! p = Some l -> l !! fd = Some z ->
  exists rest, fds O ≡ₚ (if decide (z = 0) then [] else [index_of z]) ++ rest /\
    forall v, fds (set_fd p fd v O) ≡ₚ (if decide (v = 0) then [] else [index_of v]) ++ rest.
Proof.
  intros Hp Hfd. exists (fds (take p O ++ [take fd l ++ drop (S fd) l] ++ drop (S p) O)).
  assert (forall v, (index_of <$> filter (fun z => z <> 0) (mjoin (take p O ++ [take fd l ++ v :: drop (S fd) l] ++ drop (S p) O))) ≡ₚ
    (if decide (v = 0) then [] else [index_of v]) ++ fds (take p O ++ [take fd l ++ drop (S fd) l] ++ drop (S p) O)) as Hs.
  { intros v. unfold fds. rewrite !join_app, !filter_app, !fmap_app. cbn [mjoin list_join]. rewrite !app_nil_r, !filter_app, !fmap_app.
    rewrite filter_cons. destruct (decide (v = 0)) as [->|Hv]; [by rewrite decide_False by tauto|].
    rewrite decide_True by done. cbn [fmap list_fmap]. solve_Permutation. }
  split.
  - specialize (Hs z). rewrite (take_drop_middle l fd z Hfd) in Hs.
    change ([l] ++ drop (S p) O) with (l :: drop (S p) O) in Hs. by rewrite (take_drop_middle O p l Hp) in Hs.
  - intros v. specialize (Hs v). rewrite <- Hs. unfold fds, set_fd. do 3 f_equiv.
    rewrite <- (take_drop_middle O p l Hp) at 1.
    rewrite alter_app_r_alt by (rewrite length_take; lia). rewrite length_take_le by (apply lookup_lt_Some in Hp; lia).
    rewrite Nat.sub_diag. simpl. by rewrite insert_take_drop by (by eapply lookup_lt_Some).
Qed.

Lemma frefs_perm f l l' : l ≡ₚ l' -> frefs f l = frefs f l'.
Proof. intros H. unfold frefs. apply Permutation_length. by rewrite H. Qed.

(** ** The counts in the file table *)
Section Counts.
Context {T : Type} {HT : TxBlocks T} {HO : TxOps T} (kend : Z).
Implicit Types k : kst T.

Definition refs k : list Z := f_ref <$> files k.

(** The counts [R] are those of the references [held]. *)
Record counted (R : list Z) (held : list nat) : Prop := {
  cn_len : length R = NFILE;
  cn_ref : forall f, default 0 (R !! f) = Z.of_nat (frefs f held);
}.

Lemma counted_perm R h h' : h ≡ₚ h' -> counted R h -> counted R h'.
Proof. intros Hp [H1 H2]. split; [done|]. intros f. rewrite H2. by rewrite (frefs_perm f h h'). Qed.

(** One count changes by the references to that file. *)
Lemma counted_set R h h' f v : counted R h -> (f < length R)%nat -> v = Z.of_nat (frefs f h') ->
  (forall g, g <> f -> frefs g h' = frefs g h) -> counted (<[f := v]> R) h'.
Proof.
  intros [H1 H2] Hf Hv Hg. split; [by rewrite length_insert|]. intros g. destruct (decide (g = f)) as [->|Hne].
  - by rewrite list_lookup_insert_eq.
  - rewrite list_lookup_insert_ne by done. by rewrite H2, Hg.
Qed.

Lemma refs_updf f g k x : files k !! f = Some x -> refs (upd_files (alter g f) k) = <[f := f_ref (g x)]> (refs k).
Proof.
  intros Hx. unfold refs. simpl. apply list_eq. intros j. destruct (decide (f = j)) as [->|Hne].
  - rewrite list_lookup_insert_eq by (rewrite length_fmap; by eapply lookup_lt_Some).
    by rewrite list_lookup_fmap, list_lookup_alter_eq, Hx.
  - by rewrite list_lookup_insert_ne, !list_lookup_fmap, list_lookup_alter_ne.
Qed.

Lemma refs_lookup k f : default 0 (refs k !! f) = f_ref (file_at k f).
Proof. unfold refs, file_at. rewrite list_lookup_fmap. by destruct (files k !! f). Qed.

Lemma pres_flock (b : bool) k k' : (if b then acquire_flag ftlock else release_flag ftlock) k = (Ret tt, k') -> files k' = files k.
Proof. intros H. by apply ft_lock_key in H as (_ & H & _). Qed.

Lemma filealloc_counted k r k' held : counted (refs k) held -> filealloc k = (Ret r, k') ->
  match r with
  | Some f => counted (refs k') (f :: held) /\ (f < NFILE)%nat
  | None => refs k' = refs k
  end.
Proof.
  intros HR H. unfold filealloc in H. apply bind_Ret_inv in H as ([] & s0 & H0 & H).
  apply bind_Ret_inv in H as (r0 & s1 & H1 & H). apply (pres_flock true) in H0.
  apply alloc_scan in H1. destruct r0 as [f|].
  - unfold ret in H. injection H as <- <-. destruct H1 as (Hin & Hr & Hrel). apply elem_of_seq in Hin.
    apply (pres_flock false) in Hrel. pose proof (cn_len _ _ HR) as Hl. unfold refs in Hl. rewrite length_fmap, <- H0 in Hl.
    destruct (lookup_lt_is_Some_2 (files s0) f ltac:(lia)) as [x Hx]. split; [|lia].
    unfold refs at 1. rewrite Hrel. change (f_ref <$> files (upd_files ?u s0)) with (refs (upd_files u s0)).
    rewrite (refs_updf _ _ _ _ Hx). simpl. assert (refs s0 = refs k) as E by (unfold refs; by rewrite H0).
    assert (frefs f held = 0%nat) as Hz by (pose proof (cn_ref _ _ HR f) as Hq; rewrite <- E, refs_lookup, Hr in Hq; lia).
    rewrite E. eapply counted_set; [exact HR|rewrite (cn_len _ _ HR); lia| |].
    + rewrite frefs_cons, decide_True by done. lia.
    + intros g Hne. by rewrite frefs_cons, decide_False.
  - subst. apply bind_Ret_inv in H as ([] & s2 & H2 & H). unfold ret in H. injection H as <- <-.
    apply (pres_flock false) in H2. unfold refs. congruence.
Qed.

Lemma filedup_counted k f r k' held : counted (refs k) held -> f ∈ held -> Z.of_nat (length held) < 2147483647 ->
  filedup f k = (Ret r, k') -> r = f /\ counted (refs k') (f :: held).
Proof.
  intros HR Hf Hb H. unfold filedup, getf, updf in H. apply bind_Ret_inv in H as ([] & s0 & H0 & H).
  cbv [bind gets modify] in H. unfold panic_if in H.
  destruct (_ <? 1); [done|]. simpl in H. destruct (release_flag ftlock _) as [[[]| |] s1] eqn:Er; try done.
  unfold ret in H. injection H as <- <-. apply (pres_flock true) in H0. apply (pres_flock false) in Er.
  pose proof (cn_ref _ _ HR f) as Hr. rewrite refs_lookup in Hr. apply frefs_pos in Hf.
  unfold file_at in Hr. destruct (files k !! f) as [x|] eqn:Hx; simpl in Hr; [|lia].
  assert (frefs f held <= length held)%nat by (unfold frefs; apply length_filter).
  split; [done|]. unfold refs at 1. rewrite Er. change (f_ref <$> files (upd_files ?u s0)) with (refs (upd_files u s0)).
  rewrite (refs_updf _ _ _ x) by congruence. replace (refs s0) with (refs k) by (unfold refs; congruence).
  eapply counted_set; [exact HR|unfold refs; rewrite length_fmap; by eapply lookup_lt_Some| |]; simpl.
  - rewrite frefs_cons, decide_True, s32_small by (done || lia). lia.
  - intros g Hne. by rewrite frefs_cons, decide_False.
Qed.

Lemma refs_fs {A} (m : M (fs T) A) : preserves refs (zoom fs_lens m).
Proof. by apply pres_zoom. Qed.

Lemma refs_vm {A} (m : M vst A) : preserves refs (zoom vm_lens m).
Proof. by apply pres_zoom. Qed.

Lemma refs_begin : preserves refs kbegin_op.
Proof. by apply pres_zoom. Qed.

Lemma refs_end : preserves refs kend_op.
Proof. by apply pres_zoom. Qed.

Lemma refs_iput ip : preserves refs (kiput ip).
Proof. destruct ip; [apply refs_fs|apply pres_panic]. Qed.

Lemma refs_pipeclose p w : preserves refs (kpipeclose kend p w).
Proof.
  unfold kpipeclose, pipeclose. apply pres_bind; [by apply pres_acquire_flag|]. intros _.
  apply pres_bind; [destruct w; apply pres_bind; try (intros _); by apply pres_modify|]. intros _.
  apply pres_bind; [apply pres_gets|]. intros a. destruct (_ && _); [|by apply pres_release_flag].
  apply pres_bind; [by apply pres_release_flag|]. intros _. apply pres_bind; [by apply pres_modify|]. intros _. apply refs_vm.
Qed.

Lemma fileclose_counted k f k' held : counted (refs k) (f :: held) -> fileclose kend f k = (Ret tt, k') -> counted (refs k') held.
Proof.
  intros HR H. unfold fileclose in H. apply bind_Ret_inv in H as ([] & s0 & H0 & H). apply (pres_flock true) in H0.
  assert (refs s0 = refs k) as E0 by (unfold refs; congruence).
  pose proof (cn_ref _ _ HR f) as Hr. rewrite <- E0, refs_lookup, frefs_cons, decide_True in Hr by done.
  unfold file_at in Hr. destruct (files s0 !! f) as [x|] eqn:Hx; simpl in Hr; [|lia].
  assert (forall v, v = Z.of_nat (frefs f held) -> counted (<[f := v]> (refs k)) held) as Hset.
  { intros v Hv. eapply counted_set; [exact HR|rewrite <- E0; unfold refs; rewrite length_fmap; by eapply lookup_lt_Some|done|].
    intros g Hne. by rewrite frefs_cons, decide_False. }
  unfold getf, updf, file_at in H. cbv [bind gets modify] in H. rewrite Hx in H. unfold panic_if in H.
  change (default null_file (Some x)) with x in H.
  destruct (f_ref x <? 1) eqn:E1; [done|]. cbn [ret] in H. unfold ret in H.
  cbn [files upd_files] in H. rewrite list_lookup_alter_eq, Hx in H. change (default null_file (set_f_ref (fun n => n - 1) <$> Some x)) with (set_f_ref (fun n => n - 1) x) in H.
  change (f_ref (set_f_ref (fun n => n - 1) x)) with (f_ref x - 1) in H.
  destruct (0 <? f_ref x - 1) eqn:E2; bool_to_prop.
  - apply (pres_flock false) in H. unfold refs. rewrite H. change (f_ref <$> files (upd_files ?u s0)) with (refs (upd_files u s0)).
    rewrite (refs_updf _ _ _ _ Hx), E0. apply Hset. simpl. lia.
  - set (s2 := upd_files (alter (set_f_type FD_NONE) f) _) in H.
    destruct (release_flag ftlock s2) as [[[]| |] s3] eqn:Er; [|discriminate H|discriminate H].
    apply (pres_flock false) in Er.
    assert (refs k' = refs s3) as ->.
    { cbn [files upd_files] in H. rewrite list_lookup_alter_eq, Hx in H.
      change (default null_file (set_f_ref (fun n => n - 1) <$> Some x)) with (set_f_ref (fun n => n - 1) x) in H.
      unfold id in H. cbn [f_type set_f_ref] in H. destruct (f_type x).
      - by injection H as <-.
      - by eapply refs_pipeclose.
      - cbn [f_ip set_f_ref] in H. assert (preserves refs (kbegin_op ;; kiput (f_ip x) ;; kend_op)) as Hp.
        { apply pres_bind; [apply refs_begin|]. intros _. apply pres_bind; [apply refs_iput|]. intros _. apply refs_end. }
        by eapply Hp. }
    unfold refs. rewrite Er. change (f_ref <$> files s2) with (refs s2). unfold s2.
    erewrite refs_updf by (cbn [files upd_files]; by rewrite !list_lookup_alter_eq, Hx).
    erewrite refs_updf by (cbn [files upd_files]; by rewrite list_lookup_alter_eq, Hx).
    rewrite (refs_updf _ _ _ _ Hx), E0, !list_insert_insert_eq. apply Hset. simpl. lia.
Qed.

Lemma close_opt_counted k f k' held : counted (refs k) ((match f with Some f => [f] | None => [] end) ++ held) ->
  (match f with Some f => fileclose kend f | None => ret tt end) k = (Ret tt, k') -> counted (refs k') held.
Proof. destruct f; simpl; [apply fileclose_counted|]. by intros H [= <-]. Qed.

Lemma pipealloc_bad_counted k p f0 f1 r k' held :
  counted (refs k) ((match f0 with Some f => [f] | None => [] end) ++ (match f1 with Some f => [f] | None => [] end) ++ held) ->
  pipealloc_bad kend p f0 f1 k = (Ret r, k') -> r = -1 /\ counted (refs k') held.
Proof.
  intros HR H. unfold pipealloc_bad in H. apply bind_Ret_inv in H as ([] & s1 & H1 & H).
  apply bind_Ret_inv in H as ([] & s2 & H2 & H). apply bind_Ret_inv in H as ([] & s3 & H3 & [= <- <-]).
  assert (preserves refs (when (negb (p =? 0)) (zoom (vm_lens (T := T)) (vkfree kend p)))) as Hp by (apply pres_when, refs_vm).
  rewrite <- (Hp _ _ _ H1) in HR. split; [done|]. eapply close_opt_counted; [|exact H3]. eapply close_opt_counted; [|exact H2]. done.
Qed.

Lemma pipealloc_counted k r k' held : counted (refs k) held -> pipealloc kend k = (Ret r, k') ->
  if r.1.1 <? 0 then counted (refs k') held
  else exists a b, r = (0, Some a, Some b) /\ counted (refs k') (a :: b :: held).
Proof.
  intros HR H. unfold pipealloc in H. apply bind_Ret_inv in H as (f0 & s1 & H1 & H).
  apply (filealloc_counted _ _ _ held HR) in H1. destruct f0 as [a|].
  2: { apply bind_Ret_inv in H as (v & s2 & H2 & [= <- <-]). rewrite <- H1 in HR.
       destruct (pipealloc_bad_counted s1 0 None None v s2 held HR H2) as [-> HR']. done. }
  destruct H1 as [H1 _]. apply bind_Ret_inv in H as (f1 & s2 & H2 & H).
  apply (filealloc_counted _ _ _ (a :: held) H1) in H2. destruct f1 as [b|].
  2: { apply bind_Ret_inv in H as (v & s3 & H3 & [= <- <-]). rewrite <- H2 in H1.
       destruct (pipealloc_bad_counted s2 0 (Some a) None v s3 held H1 H3) as [-> HR']. done. }
  destruct H2 as [H2 _]. apply bind_Ret_inv in H as (p & s3 & H3 & H). apply (refs_vm vkalloc) in H3.
  rewrite <- H3 in H2. destruct (p =? 0).
  - apply bind_Ret_inv in H as (v & s4 & H4 & [= <- <-]).
    destruct (pipealloc_bad_counted s3 0 (Some a) (Some b) v s4 held) as [-> HR']; [|exact H4|done].
    eapply counted_perm; [|exact H2]. simpl. apply perm_swap.
  - unfold updf in H. cbv [bind modify ret] in H. injection H as <- <-. exists a, b. split; [done|].
    eapply counted_perm; [apply perm_swap|]. change ((0, Some a, Some b).1.1 <? 0) with false. unfold refs. cbn [files upd_files upd_pipes].
    replace (f_ref <$> alter _ b (alter _ a (files s3))) with (refs s3); [done|]. unfold refs.
    apply list_eq. intros j. rewrite !list_lookup_fmap.
    rewrite !list_lookup_alter. repeat case_decide; subst; rewrite ?list_lookup_alter; repeat case_decide; try done; by destruct (files s3 !! j).
Qed.

End Counts.

(** ** Calls that leave the descriptors alone *)
Section Descriptors.
Context {T : Type} {HT : TxBlocks T} {HO : TxOps T} (devsw : Z -> devops (T := T)).
Context (kend : Z) (cpu_ts : nat -> Z) (name_buf : list Z).

Abbreviation kernel := (pst (kst T)).

Implicit Types s : kernel.

(** The descriptor tables, the counts, and who runs where. *)
Definition fdp s : list (list Z) * list Z * list (option nat) :=
  (p_ofile <$> procs s, refs (kserv s), c_proc <$> pcpus s).

Lemma fd_svc {A} (m : M (kst T) A) : preserves refs m -> preserves fdp (svc m).
Proof.
  intros Hm s o s' H. unfold svc, zoom in H. destruct (m _) as [o' k] eqn:E. injection H as <- <-.
  apply Hm in E. unfold fdp. cbn in E |- *. by rewrite E.
Qed.

Lemma fd_fs {A} (m : M (fs T) A) : preserves fdp (kfs_op m).
Proof. apply fd_svc, refs_fs. Qed.

Lemma fd_vm {A} (m : M vst A) : preserves fdp (vm m).
Proof. by apply pres_zoom. Qed.

Lemma fd_begin : preserves fdp (svc kbegin_op).
Proof. apply fd_svc, refs_begin. Qed.

Lemma fd_end : preserves fdp (svc kend_op).
Proof. apply fd_svc, refs_end. Qed.

Lemma fd_updp p f : (forall x, p_ofile (f x) = p_ofile x) -> preserves fdp (updp p f).
Proof.
  intros Hf. apply pres_modify. intros s. unfold fdp. simpl. do 2 f_equal. apply list_eq. intros j.
  rewrite !list_lookup_fmap, list_lookup_alter. case_decide; [|done]. subst. destruct (procs s !! j); [|done]. simpl. by rewrite Hf.
Qed.

Lemma fd_getp {A} p (f : proc -> A) : preserves fdp (getp p f).
Proof. apply pres_gets. Qed.

Lemma fd_curproc c : preserves fdp (curproc c).
Proof. unfold curproc, myproc, getc, null_deref. preserve. Qed.

#[local] Hint Resolve fd_fs fd_vm fd_begin fd_end fd_getp fd_curproc : pres.

Lemma fd_cur {A} c (f : proc -> A) : preserves fdp (cur_field c f).
Proof. unfold cur_field. preserve. Qed.

#[local] Hint Resolve fd_cur : pres.

Lemma fd_uload8 c a : preserves fdp (uload8 c a).
Proof. unfold uload8. preserve. Qed.

#[local] Hint Resolve fd_uload8 : pres.

Lemma fd_uload c n a : preserves fdp (uload c a n).
Proof. revert a. induction n as [|n IH]; intros a; simpl; preserve. Qed.

Lemma fd_ustore8 c a v : preserves fdp (ustore8 c a v).
Proof. unfold ustore8. preserve. apply fd_svc, refs_vm. Qed.

#[local] Hint Resolve fd_uload fd_ustore8 : pres.

Lemma fd_ustore c l a : preserves fdp (ustore c a l).
Proof. revert a. induction l as [|b l IH]; intros a; simpl; preserve. Qed.

Lemma fd_fetchint c a : preserves fdp (fetchint c a).
Proof. unfold fetchint, uload32. preserve. Qed.

#[local] Hint Resolve fd_ustore fd_fetchint : pres.

Lemma fd_fetchstr_loop c pp ep n a : preserves fdp (fetchstr_loop n c pp a ep).
Proof. revert a. induction n as [|k IH]; intros a; simpl; preserve. Qed.

#[local] Hint Resolve fd_fetchstr_loop : pres.

Lemma fd_fetchstr c a : preserves fdp (fetchstr c a).
Proof. unfold fetchstr. preserve. Qed.

Lemma fd_argint c n : preserves fdp (argint c n).
Proof. unfold argint. preserve. Qed.

#[local] Hint Resolve fd_fetchstr fd_argint : pres.

Lemma fd_argptr c n z : preserves fdp (argptr c n z).
Proof. unfold argptr. preserve. Qed.

Lemma fd_argpath c n : preserves fdp (argpath c n).
Proof. unfold argpath, argstr. preserve. Qed.

Lemma fd_namei c path : preserves fdp (knamei devsw name_buf c path).
Proof. unfold knamei, cur_cwd. preserve. Qed.

Lemma fd_nameiparent c path : preserves fdp (knameiparent devsw name_buf c path).
Proof. unfold knameiparent, cur_cwd. preserve. Qed.

#[local] Hint Resolve fd_argptr fd_argpath fd_namei fd_nameiparent : pres.

Lemma fd_geti {A} ip (f : inode -> A) : preserves fdp (geti_k ip f).
Proof. apply fd_fs. Qed.

#[local] Hint Resolve fd_geti : pres.

Lemma fd_create c path t ma mi : preserves fdp (create devsw name_buf c path t ma mi).
Proof. unfold create. preserve. Qed.

#[local] Hint Resolve fd_create : pres.

Lemma fd_isdirempty_loop dp n off : preserves fdp (isdirempty_loop devsw n dp off).
Proof. revert off. induction n as [|k IH]; intros off; simpl; preserve. Qed.

#[local] Hint Resolve fd_isdirempty_loop : pres.

Lemma fd_isdirempty dp : preserves fdp (isdirempty devsw dp).
Proof. unfold isdirempty. preserve. Qed.

Lemma fd_zoom_vm {A} (m : M vst A) : preserves fdp (zoom kvm_lens m).
Proof. by apply pres_zoom. Qed.

#[local] Hint Resolve fd_isdirempty fd_zoom_vm : pres.

Lemma fd_loaduvm ip pg va off sz : preserves fdp (loaduvm kvm_lens (fun o n => kfs_op (readi devsw ip o n)) pg va off sz).
Proof.
  unfold loaduvm. preserve. generalize (uvm_fuel 0 sz). generalize 0. intros i n. revert i.
  induction n as [|k IH]; intros i; simpl; preserve.
Qed.

#[local] Hint Resolve fd_loaduvm : pres.

Lemma fd_load_loop ip pg n off sz : preserves fdp (load_loop devsw kend n ip pg off sz).
Proof. revert off sz. induction n as [|k IH]; intros off sz; cbn [load_loop]; preserve. Qed.

Lemma fd_push_args c pg argv argc sp sps : preserves fdp (push_args c pg argv argc sp sps).
Proof. revert argc sp sps. induction argv as [|[a l] argv IH]; intros argc sp sps; cbn [push_args]; preserve. Qed.

#[local] Hint Resolve fd_load_loop fd_push_args : pres.

Lemma fd_exec c path argv : preserves fdp (exec devsw kend cpu_ts name_buf c path argv).
Proof. unfold exec, exec_bad, cur_cwd. preserve; by apply fd_updp. Qed.

Lemma fd_exec_args c n a argv : preserves fdp (exec_args n c a argv).
Proof. revert a argv. induction n as [|k IH]; intros a argv; simpl; preserve. Qed.

#[local] Hint Resolve fd_exec fd_exec_args : pres.

(** The calls that do not open, close or duplicate a descriptor. *)
Definition plain_calls (c : nat) : list (M kernel Z) :=
  [sys_fstat c; sys_link devsw name_buf c; sys_unlink devsw name_buf c; sys_mkdir devsw name_buf c;
   sys_mknod devsw name_buf c; sys_chdir devsw name_buf c; sys_exec devsw kend cpu_ts name_buf c].

Lemma fd_argfd c n : preserves fdp (argfd c n).
Proof. unfold argfd, cur_ofile. preserve. Qed.

Lemma fd_filestat f : preserves fdp (svc (filestat (T := T) f)).
Proof.
  apply fd_svc. unfold filestat, getf, with_ip. preserve; apply refs_fs.
Qed.

#[local] Hint Resolve fd_argfd fd_filestat : pres.

Lemma fd_plain c m : m ∈ plain_calls c -> preserves fdp m.
Proof.
  unfold plain_calls. intros H. repeat (apply elem_of_cons in H as [->|H]); [..|by apply not_elem_of_nil in H];
    unfold sys_fstat, store_stat, sys_link, link_bad, sys_unlink, unlink_bad, sys_mkdir, sys_mknod, made, sys_chdir, sys_exec, fail_op;
    preserve; by apply fd_updp.
Qed.

(** ** The invariant *)

(** Every count is the number of descriptors that refer to the file, and of the
    references [x] that the call in progress holds. *)
Record fdinv (t : list (list Z) * list Z * list (option nat)) (x : list nat) : Prop := {
  fi_procs : length t.1.1 = NPROC;
  fi_ofile : forall p l, t.1.1 !! p = Some l -> length l = NOFILE;
  fi_cpus : forall c p, t.2 !! c = Some (Some p) -> (p < NPROC)%nat;
  fi_refs : counted t.1.2 (x ++ fds t.1.1);
}.

Lemma curproc_fdp c s p s1 : curproc c s = (Ret p, s1) -> s1 = s /\ (fdp s).2 !! c = Some (Some p).
Proof.
  unfold curproc, myproc, getc. intros H. apply bind_Ret_inv in H as (o & s2 & [= <- <-] & H).
  unfold cpu_at in H. unfold fdp. simpl. rewrite list_lookup_fmap. destruct (pcpus s !! c) as [y|]; [|done]. simpl in *.
  destruct (c_proc y) as [q|]; [|done]. by injection H as <- <-.
Qed.

Lemma cur_ofile_fdp c fd s z s1 : cur_ofile c fd s = (Ret z, s1) ->
  s1 = s /\ exists p, (fdp s).2 !! c = Some (Some p) /\ z = default 0 (p_ofile (proc_at s p) !! Z.to_nat fd).
Proof.
  unfold cur_ofile, cur_field. intros H. apply bind_Ret_inv in H as (p & s2 & H1 & H).
  apply curproc_fdp in H1 as [-> Hp]. injection H as <- <-. split; [done|]. by exists p.
Qed.

(** A descriptor of the current process. *)
Lemma ofile_slot s x c p fd : fdinv (fdp s) x -> (fdp s).2 !! c = Some (Some p) -> 0 <= fd < Z.of_nat NOFILE ->
  exists l z, (fdp s).1.1 !! p = Some l /\ l !! Z.to_nat fd = Some z /\ default 0 (p_ofile (proc_at s p) !! Z.to_nat fd) = z.
Proof.
  intros HI Hc Hfd. pose proof (fi_cpus _ _ HI c p Hc) as Hp. rewrite <- (fi_procs _ _ HI) in Hp.
  destruct (lookup_lt_is_Some_2 _ _ Hp) as [l Hl]. pose proof (fi_ofile _ _ HI p l Hl) as Hlen.
  destruct (lookup_lt_is_Some_2 l (Z.to_nat fd)) as [z Hz]; [unfold NOFILE in *; lia|].
  exists l, z. split_and!; [done|done|]. unfold fdp in Hl. simpl in Hl. rewrite list_lookup_fmap in Hl.
  unfold proc_at. destruct (procs s !! p) as [y|]; [|done]. simpl in *. injection Hl as Hl. by rewrite Hl, Hz.
Qed.

Lemma set_ofile_fdp c fd v s s1 p : set_ofile c fd v s = (Ret tt, s1) -> (fdp s).2 !! c = Some (Some p) ->
  fdp s1 = (set_fd p (Z.to_nat fd) v (fdp s).1.1, (fdp s).1.2, (fdp s).2).
Proof.
  unfold set_ofile. intros H Hc. apply bind_Ret_inv in H as (q & s2 & H1 & H). apply curproc_fdp in H1 as [-> Hq].
  assert (q = p) as -> by congruence. injection H as <-. unfold fdp, set_fd. simpl. do 2 f_equal.
  apply list_eq. intros j. rewrite !list_lookup_fmap, !list_lookup_alter. case_decide; [subst|by rewrite list_lookup_fmap].
  rewrite list_lookup_fmap. by destruct (procs s !! j).
Qed.

Lemma argfd_fdp c n s x fd f s1 : fdinv (fdp s) x -> argfd c n s = (Ret (Some (fd, f)), s1) ->
  fdp s1 = fdp s /\ 0 <= fd < Z.of_nat NOFILE /\
  exists p l z, (fdp s).2 !! c = Some (Some p) /\ (fdp s).1.1 !! p = Some l /\ l !! Z.to_nat fd = Some z /\ z <> 0 /\ f = index_of z.
Proof.
  intros HI H. pose proof (fd_argfd c n _ _ _ H) as E. split; [done|]. unfold argfd in H.
  apply bind_Ret_inv in H as (r & s2 & H2 & H). apply fd_argint in H2. destruct r as [fd'|]; [|done].
  destruct (_ || _) eqn:Eb; [done|]. bool_to_prop. apply bind_Ret_inv in H as (z & s3 & H3 & H).
  apply cur_ofile_fdp in H3 as [-> (p & Hp & Hz)]. destruct (z =? 0) eqn:Ez; [done|]. injection H as <- <- <-. bool_to_prop.
  split; [lia|]. rewrite <- E in HI. rewrite <- E.
  destruct (ofile_slot _ _ c p fd' HI Hp ltac:(lia)) as (l & z' & Hl & Hlz & Ez'). exists p, l, z. rewrite Ez' in Hz. subst.
  split_and!; done.
Qed.

Lemma fdalloc_fdp c f s x r s1 : fdinv (fdp s) x -> fdalloc c f s = (Ret r, s1) ->
  (r = -1 /\ fdp s1 = fdp s) \/
  (0 <= r < Z.of_nat NOFILE /\ exists p l, (fdp s).2 !! c = Some (Some p) /\ (fdp s).1.1 !! p = Some l /\ l !! Z.to_nat r = Some 0 /\
    fdp s1 = (set_fd p (Z.to_nat r) (ptr f) (fdp s).1.1, (fdp s).1.2, (fdp s).2)).
Proof.
  intros HI H. unfold fdalloc in H. apply bind_Ret_inv in H as (o & s2 & H2 & [= <- <-]).
  assert (forall fd, fd ∈ seqZ 0 (Z.of_nat NOFILE) -> 0 <= fd < Z.of_nat NOFILE) as Hb by (intros fd Hfd; apply elem_of_seqZ in Hfd; lia).
  revert Hb H2. generalize (seqZ 0 (Z.of_nat NOFILE)). intros L. induction L as [|fd L IH]; intros Hb H2.
  - injection H2 as <- <-. by left.
  - cbn [for_until] in H2. apply bind_Ret_inv in H2 as (o2 & s3 & H3 & H2). apply bind_Ret_inv in H3 as (z & s4 & H4 & H3).
    apply cur_ofile_fdp in H4 as [-> (p & Hp & Hz)]. pose proof (Hb fd ltac:(left)) as Hfd.
    destruct (ofile_slot _ _ c p fd HI Hp Hfd) as (l & z' & Hl & Hlz & Ez). rewrite Ez in Hz. subst z'.
    destruct (z =? 0) eqn:E0; bool_to_prop.
    + apply bind_Ret_inv in H3 as ([] & s5 & H5 & [= <- <-]). injection H2 as <- <-. right. split; [done|].
      exists p, l. subst z. split_and!; [done|done|done|]. by apply (set_ofile_fdp _ _ _ _ _ p) in H5.
    + injection H3 as <- <-. apply IH; [|done]. intros j Hj. apply Hb. by right.
Qed.

Lemma length_fds O : length O = NPROC -> (forall p l, O !! p = Some l -> length l = NOFILE) -> Z.of_nat (length (fds O)) < 2147483647.
Proof.
  intros H1 H2. unfold fds. rewrite length_fmap. pose proof (length_filter (fun z => z <> 0) (mjoin O)).
  enough (length (mjoin O) <= 16 * length O)%nat by (unfold NPROC in H1; lia). clear H1 H.
  induction O as [|l O IH]; simpl; [lia|]. rewrite length_app. pose proof (H2 0%nat l eq_refl) as Hl. unfold NOFILE in Hl.
  specialize (IH (fun p => H2 (S p))). lia.
Qed.

Lemma fds_put O p l fd f : O !! p = Some l -> l !! fd = Some 0 -> fds (set_fd p fd (ptr f) O) ≡ₚ f :: fds O.
Proof.
  intros Hp Hfd. destruct (fds_split O p l fd 0 Hp Hfd) as (rest & H1 & H2). rewrite (H2 (ptr f)), H1.
  assert (ptr f <> 0) by (unfold ptr; lia). rewrite decide_False by done. simpl.
  by replace (index_of (ptr f)) with f by (unfold index_of, ptr; lia).
Qed.

Lemma fds_clear O p l fd z : O !! p = Some l -> l !! fd = Some z -> z <> 0 -> fds O ≡ₚ index_of z :: fds (set_fd p fd 0 O).
Proof.
  intros Hp Hfd Hz. destruct (fds_split O p l fd z Hp Hfd) as (rest & H1 & H2). rewrite (H2 0), H1.
  by rewrite decide_False, decide_True by done.
Qed.

Lemma svc_fdp {A} (m : M (kst T) A) s a s1 : svc m s = (Ret a, s1) ->
  m (kserv s) = (Ret a, kserv s1) /\ fdp s1 = ((fdp s).1.1, refs (kserv s1), (fdp s).2).
Proof. unfold svc, zoom. destruct (m _) as [o k] eqn:E. intros [= -> <-]. cbn in E |- *. by split. Qed.

Lemma fdinv_refs t R x x' : fdinv t x -> counted R (x' ++ fds t.1.1) -> fdinv (t.1.1, R, t.2) x'.
Proof. intros HI HR. split; [apply HI|apply HI|apply HI|exact HR]. Qed.

Lemma fdinv_set t R p fd v x x' : fdinv t x -> counted R (x' ++ fds (set_fd p fd v t.1.1)) ->
  fdinv (set_fd p fd v t.1.1, R, t.2) x'.
Proof.
  intros HI HR. split; [| |apply HI|exact HR]; unfold set_fd; cbn [fst snd].
  - rewrite length_alter. apply HI.
  - intros q l. rewrite list_lookup_alter. case_decide; [|apply HI]. subst. intros Hq.
    destruct (t.1.1 !! q) as [l'|] eqn:E; [|done]. injection Hq as <-. rewrite length_insert. by eapply HI.
Qed.

(** The file that a call holds becomes a descriptor. *)
Lemma fdalloc_inv c f s x r s1 : fdinv (fdp s) (f :: x) -> fdalloc c f s = (Ret r, s1) ->
  if r <? 0 then fdp s1 = fdp s /\ r = -1
  else fdinv (fdp s1) x /\ exists p l, (fdp s).2 !! c = Some (Some p) /\ (fdp s).1.1 !! p = Some l /\ l !! Z.to_nat r = Some 0 /\
    fdp s1 = (set_fd p (Z.to_nat r) (ptr f) (fdp s).1.1, (fdp s).1.2, (fdp s).2).
Proof.
  intros HI H. destruct (fdalloc_fdp _ _ _ _ _ _ HI H) as [[-> E]|(Hr & p & l & Hc & Hp & Hl & E)]; [done|].
  destruct (r <? 0) eqn:Er; bool_to_prop; [lia|]. split; [|by exists p, l]. rewrite E. apply (fdinv_set _ _ _ _ _ (f :: x)); [done|].
  eapply counted_perm; [|apply (fi_refs _ _ HI)]. rewrite (fds_put _ _ _ _ _ Hp Hl). simpl. by rewrite Permutation_middle.
Qed.

Lemma close_inv f s x s1 : fdinv (fdp s) (f :: x) -> svc (fileclose kend f) s = (Ret tt, s1) -> fdinv (fdp s1) x.
Proof.
  intros HI H. apply svc_fdp in H as [H E]. rewrite E. eapply fdinv_refs; [exact HI|].
  eapply fileclose_counted; [|exact H]. apply (fi_refs _ _ HI).
Qed.

Lemma sys_dup_inv c s r s' : fdinv (fdp s) [] -> sys_dup c s = (Ret r, s') -> fdinv (fdp s') [].
Proof.
  intros HI H. unfold sys_dup in H. apply bind_Ret_inv in H as (a & s1 & H1 & H).
  destruct a as [[fd f]|]; [|injection H as _ <-; by rewrite (fd_argfd _ _ _ _ _ H1)].
  destruct (argfd_fdp _ _ _ _ _ _ _ HI H1) as (E1 & Hfd & p & l & z & Hc & Hp & Hl & Hz & ->).
  apply bind_Ret_inv in H as (fd' & s2 & H2 & H). rewrite <- E1 in HI, Hc, Hp.
  destruct (fdalloc_fdp _ _ _ _ _ _ HI H2) as [[-> E]|(Hr & q & l' & Hc' & Hq & Hl' & E)].
  { injection H as _ <-. by rewrite E. }
  destruct (fd' <? 0) eqn:Er; bool_to_prop; [lia|]. apply bind_Ret_inv in H as (g & s3 & H3 & H). injection H as _ <-.
  apply svc_fdp in H3 as [H3 E3]. rewrite E3, E. cbn [fst snd]. pose proof (fi_refs _ _ HI) as HR. simpl in HR.
  assert (refs (kserv s1) = refs (kserv s2)) as Ek by by injection E.
  eapply fdinv_set; [exact HI|]. eapply counted_perm; [by rewrite (fds_put _ _ _ _ _ Hq Hl')|].
  simpl. apply (filedup_counted (kserv s2) (index_of z) g (kserv s3)); [by rewrite <- Ek| |by apply length_fds; apply HI|done].
  rewrite (fds_clear _ _ _ _ _ Hp Hl Hz). left.
Qed.

Lemma sys_close_inv c s r s' : fdinv (fdp s) [] -> sys_close kend c s = (Ret r, s') -> fdinv (fdp s') [].
Proof.
  intros HI H. unfold sys_close in H. apply bind_Ret_inv in H as (a & s1 & H1 & H).
  destruct a as [[fd f]|]; [|injection H as _ <-; by rewrite (fd_argfd _ _ _ _ _ H1)].
  destruct (argfd_fdp _ _ _ _ _ _ _ HI H1) as (E1 & Hfd & p & l & z & Hc & Hp & Hl & Hz & ->).
  apply bind_Ret_inv in H as ([] & s2 & H2 & H). apply bind_Ret_inv in H as ([] & s3 & H3 & H). injection H as _ <-.
  apply (set_ofile_fdp _ _ _ _ _ p) in H2; [|by rewrite E1]. rewrite E1 in H2.
  eapply close_inv; [|exact H3]. rewrite H2. eapply fdinv_set; [exact HI|].
  eapply counted_perm; [|apply (fi_refs _ _ HI)]. simpl. by rewrite <- (fds_clear _ _ _ _ _ Hp Hl Hz).
Qed.

Lemma fd_set_inode f ip r w : preserves fdp (svc (updf (T := T) f (set_f_inode ip r w))).
Proof.
  apply fd_svc, pres_modify. intros k. unfold refs. simpl. apply list_eq. intros j.
  rewrite !list_lookup_fmap, list_lookup_alter. case_decide; [|done]. subst. by destruct (files k !! j).
Qed.

Lemma fd_open_inode c path om : preserves fdp (open_inode devsw name_buf c path om).
Proof. unfold open_inode. preserve. Qed.

#[local] Hint Resolve fd_set_inode fd_open_inode : pres.

Lemma sys_open_inv c s r s' : fdinv (fdp s) [] -> sys_open devsw kend name_buf c s = (Ret r, s') -> fdinv (fdp s') [].
Proof.
  intros HI H. unfold sys_open in H. apply bind_Ret_inv in H as (path & s1 & H1 & H). apply fd_argpath in H1.
  destruct path as [path|]; [|injection H as _ <-; by rewrite H1].
  apply bind_Ret_inv in H as (om & s2 & H2 & H). apply fd_argint in H2. rewrite H1 in H2.
  destruct om as [om|]; [|injection H as _ <-; by rewrite H2].
  apply bind_Ret_inv in H as ([] & s3 & H3 & H). apply fd_begin in H3. rewrite H2 in H3.
  apply bind_Ret_inv in H as (o & s4 & H4 & H). apply fd_open_inode in H4. rewrite H3 in H4.
  destruct o as [ip|]; [|injection H as _ <-; by rewrite H4].
  apply bind_Ret_inv in H as (f & s5 & H5 & H). apply svc_fdp in H5 as [H5 E5]. rewrite <- H4 in HI.
  apply (filealloc_counted _ _ _ _ (fi_refs _ _ HI)) in H5. destruct f as [f|].
  2: { assert (preserves fdp (kfs_op (iunlockput ip) ;; fail_op)) as Hp by (unfold fail_op; preserve).
       rewrite (Hp _ _ _ H), E5, H5. exact HI. }
  destruct H5 as [H5 _]. assert (fdinv (fdp s5) [f]) as HI5 by (rewrite E5; by eapply fdinv_refs).
  apply bind_Ret_inv in H as (fd & s6 & H6 & H). pose proof (fdalloc_inv _ _ _ _ _ _ HI5 H6) as HF. destruct (fd <? 0).
  - destruct HF as [E6 ->]. rewrite <- E6 in HI5. apply bind_Ret_inv in H as ([] & s7 & H7 & H).
    apply (close_inv _ _ _ _ HI5) in H7.
    assert (preserves fdp (kfs_op (iunlockput ip) ;; fail_op)) as Hp by (unfold fail_op; preserve). by rewrite (Hp _ _ _ H).
  - destruct HF as [HF _]. match type of H with ?m _ = _ => assert (preserves fdp m) as Hp by preserve end. by rewrite (Hp _ _ _ H).
Qed.

Lemma pipe_undo_inv c fd0 a b s r s' p l x :
  fdinv (fdp s) x -> (fdp s).2 !! c = Some (Some p) -> (fdp s).1.1 !! p = Some l ->
  (if 0 <=? fd0 then l !! Z.to_nat fd0 = Some (ptr a) /\ x = [b] else x = [a; b]) ->
  pipe_undo kend c fd0 a b s = (Ret r, s') -> fdinv (fdp s') [].
Proof.
  intros HI Hc Hp Hfd H. unfold pipe_undo in H. apply bind_Ret_inv in H as ([] & s1 & H1 & H).
  apply bind_Ret_inv in H as ([] & s2 & H2 & H). apply bind_Ret_inv in H as ([] & s3 & H3 & H). injection H as _ <-.
  assert (fdinv (fdp s1) [a; b]) as HI1.
  { destruct (0 <=? fd0); [|injection H1 as <-; by subst x]. destruct Hfd as [Hl ->].
    apply (set_ofile_fdp _ _ _ _ _ p) in H1; [|done]. rewrite H1. eapply fdinv_set; [exact HI|].
    eapply counted_perm; [|apply (fi_refs _ _ HI)].
    rewrite (fds_clear _ _ _ _ _ Hp Hl) by (unfold ptr; lia).
    replace (index_of (ptr a)) with a by (unfold index_of, ptr; lia). simpl. apply perm_swap. }
  eapply close_inv; [|exact H3]. by eapply close_inv; [|exact H2].
Qed.

Lemma sys_pipe_inv c s r s' : fdinv (fdp s) [] -> sys_pipe kend c s = (Ret r, s') -> fdinv (fdp s') [].
Proof.
  intros HI H. unfold sys_pipe in H. apply bind_Ret_inv in H as (o & s1 & H1 & H). apply fd_argptr in H1.
  destruct o as [a0|]; [|injection H as _ <-; by rewrite H1]. rewrite <- H1 in HI.
  apply bind_Ret_inv in H as (v & s2 & H2 & H). apply svc_fdp in H2 as [H2 E2].
  apply (pipealloc_counted _ _ _ _ _ (fi_refs _ _ HI)) in H2. destruct (v.1.1 <? 0) eqn:Ev.
  { assert (s' = s2) as -> by (destruct v as [[v [|]] [|]]; cbn [fst snd] in Ev; rewrite ?Ev in H; by injection H as _ <-).
    rewrite E2. by eapply fdinv_refs. }
  destruct H2 as (a & b & -> & H2). cbn [Z.ltb Z.compare] in H.
  assert (fdinv (fdp s2) [a; b]) as HI2 by (rewrite E2; by eapply fdinv_refs). clear HI.
  apply bind_Ret_inv in H as (fd0 & s3 & H3 & H). pose proof (fdalloc_inv _ _ _ _ _ _ HI2 H3) as HF0.
  destruct (fd0 <? 0) eqn:E0.
  { destruct HF0 as [E3 ->]. rewrite <- E3 in HI2.
    unfold pipe_undo in H. simpl in H. apply bind_Ret_inv in H as ([] & s4 & [= <-] & H).
    apply bind_Ret_inv in H as ([] & s5 & H5 & H). apply bind_Ret_inv in H as ([] & s6 & H6 & H). injection H as _ <-.
    eapply close_inv; [|exact H6]. by eapply close_inv; [|exact H5]. }
  destruct HF0 as (HI3 & p & l & Hc & Hp & Hl & E3).
  apply bind_Ret_inv in H as (fd1 & s4 & H4 & H). pose proof (fdalloc_inv _ _ _ _ _ _ HI3 H4) as HF1.
  destruct (fd1 <? 0).
  - destruct HF1 as [E4 _]. rewrite <- E4 in HI3. rewrite E3 in E4. bool_to_prop.
    eapply (pipe_undo_inv c fd0 a b s4 r s' p (<[Z.to_nat fd0 := ptr a]> l)); [exact HI3| | | |exact H].
    + by rewrite E4.
    + rewrite E4. unfold set_fd. cbn [fst snd]. by rewrite list_lookup_alter_eq, Hp.
    + destruct (0 <=? fd0) eqn:E; bool_to_prop; [|lia]. split; [|done]. apply list_lookup_insert_eq. by eapply lookup_lt_Some.
  - destruct HF1 as [HF1 _]. match type of H with ?m _ = _ => assert (preserves fdp m) as Hpr by preserve end. by rewrite (Hpr _ _ _ H).
Qed.

(** The calls of sysfile.c, but for [read] and [write]. *)
Definition file_calls (c : nat) : list (M kernel Z) :=
  [sys_dup c; sys_close kend c; sys_open devsw kend name_buf c; sys_pipe kend c] ++ plain_calls c.

(** Any sequence of completed calls, on any CPUs. *)
Inductive fcall : kernel -> kernel -> Prop :=
| fcall_one c m s r s' : m ∈ file_calls c -> m s = (Ret r, s') -> fcall s s'.

Lemma fcall_inv s s' : fcall s s' -> fdinv (fdp s) [] -> fdinv (fdp s') [].
Proof.
  intros [c m s0 r s1 Hm H] HI. unfold file_calls in Hm. apply elem_of_app in Hm as [Hm|Hm].
  - apply elem_of_cons in Hm as [->|Hm]; [by eapply sys_dup_inv|].
    apply elem_of_cons in Hm as [->|Hm]; [by eapply sys_close_inv|].
    apply elem_of_cons in Hm as [->|Hm]; [by eapply sys_open_inv|].
    apply list_elem_of_singleton in Hm as ->. by eapply sys_pipe_inv.
  - by rewrite (fd_plain _ _ Hm _ _ _ H).
Qed.

(** The invariant of the descriptors, in the terms of the tables. *)
Definition descriptors_ok s : Prop := fdinv (fdp s) [].


End Descriptors.

(** ** A process with one open file *)
Definition fd_proc : proc := upd_p_ofile (<[0%nat := 1]>) live_proc.

Definition fd_kst (t : lst Bio.bio) : kst (lst Bio.bio) :=
  upd_files (<[0%nat := set_f_ref (fun _ => 1) null_file]>) (boot_kst t).

Lemma fd_start_ok t : descriptors_ok (one_proc fd_proc (fd_kst t)).
Proof.
  split.
  - done.
  - intros p l Hl. unfold fdp in Hl. cbn [fst snd procs one_proc] in Hl. rewrite list_lookup_fmap in Hl.
    destruct p as [|p]; [by injection Hl as <-|]. cbn [lookup list_lookup] in Hl.
    destruct (replicate 63 null_proc !! p) as [y|] eqn:E; [|done]. apply lookup_replicate in E as [-> _]. by injection Hl as <-.
  - intros [|[|c]] p Hc; [|done|done]. injection Hc as <-. unfold NPROC. lia.
  - assert (fds (p_ofile <$> procs (one_proc fd_proc (fd_kst t))) = [0%nat]) as E by by vm_compute.
    split; [done|]. intros f. cbn [fst snd app fdp]. rewrite E, frefs_cons. destruct f as [|f].
    + by rewrite decide_True.
    + rewrite decide_False by done. unfold refs. cbn [kserv one_proc files fd_kst upd_files boot_kst].
      change (<[0%nat := ?x]> (replicate NFILE null_file)) with (x :: replicate 99 null_file).
      rewrite list_lookup_fmap. cbn [lookup list_lookup].
      destruct (replicate 99 null_file !! f) as [y|] eqn:Ef; [|done]. by apply lookup_replicate in Ef as [-> _].
Qed.

