(* ===== verification/Sysproc.v ===== *)
(** * System calls on processes (src/xv6/sysproc.c)

    A call that does not return before the given number of wakeups is used up
    ends in the outcome [Sleep]: the process is still asleep. *)
From S2P Require Import Prelude Mem Spinlock Kalloc Mmu Vm Block Log Tx Fs Pipe File Proc Kernel Syscall Machine.

Section Sysproc.
Context {T : Type} {HT : TxBlocks T}.

Abbreviation sys := (pst (mst (kst T))).

Context {KS : KernelServices (mst (kst T))}.
Context (trapret forkret_addr : Z) (swtch : nat -> nat -> M sys unit) (wakeups : nat).

(** The address [&ticks]. *)
Context (ticks_chan : Z).

Definition kn {A} (m : M (pst (kst T)) A) : M sys A := zoom knl m.

Definition sys_fork (c : nat) : M sys Z := fork trapret forkret_addr c.

Definition sys_exit (c : nat) : M sys Z := exit swtch c ;; ret 0.

Definition sys_wait (c : nat) : M sys Z :=
  cur ← curproc c;
  r ← wait swtch wakeups c;
  match r with
  | Some pid => ret pid
  | None => sleep_on (proc_addr cur)
  end.

Definition sys_kill (c : nat) : M sys Z :=
  r ← kn (argint c 0);
  match r with
  | None => ret (-1)
  | Some pid => kill c pid
  end.

Definition sys_getpid (c : nat) : M sys Z := p ← curproc c; getp p p_pid.

Definition sys_sbrk (c : nat) : M sys Z :=
  r ← kn (argint c 0);
  match r with
  | None => ret (-1)
  | Some n =>
      p ← curproc c;
      addr ← getp p p_sz;
      g ← growproc c n;
      if g <? 0 then ret (-1) else ret (s32 addr)
  end.

(** The [while] of [sys_sleep]; [n] is converted to unsigned for the comparison. *)
Fixpoint sys_sleep_loop (fuel : nat) (c : nat) (ticks0 n : Z) : M sys Z :=
  t ← get_ticks;
  if u32 (t - ticks0) <? u32 n then
    p ← curproc c;
    k ← getp p p_killed;
    if negb (k =? 0) then
      release_on c tlock ;;
      ret (-1)
    else
      match fuel with
      | O => sleep_on ticks_chan
      | S f =>
          sleep swtch c ticks_chan (LkOther tlock) ;;
          sys_sleep_loop f c ticks0 n
      end
  else
    release_on c tlock ;;
    ret 0.

Definition sys_sleep (c : nat) : M sys Z :=
  r ← kn (argint c 0);
  match r with
  | None => ret (-1)
  | Some n =>
      acquire_on c tlock ;;
      ticks0 ← get_ticks;
      sys_sleep_loop wakeups c ticks0 n
  end.

Definition sys_uptime (c : nat) : M sys Z :=
  acquire_on c tlock ;;
  xticks ← get_ticks;
  release_on c tlock ;;
  ret (s32 xticks).

Definition sys_uthread_init (c : nat) : M sys Z :=
  r ← kn (argint c 0);
  match r with
  | None => ret (-1)
  | Some sched =>
      p ← curproc c;
      updp p (upd_p_scheduler (fun _ => u32 sched)) ;;
      updp p (upd_p_is_threaded (fun _ => 1)) ;;
      ret 0
  end.

Definition sys_yield (c : nat) : M sys Z := yield swtch c ;; ret 0.

(** ** The calls of proc.c with their arguments *)
Definition sizeof_pstat : Z := 3072.

Definition procstate_num (st : procstate) : Z :=
  match st with
  | UNUSED => 0 | EMBRYO => 1 | SLEEPING => 2 | RUNNABLE => 3 | RUNNING => 4 | ZOMBIE => 5
  end.

(** [struct pstat] in memory. *)
Definition pstat_bytes (l : list pstat_entry) : list Z :=
  (l ≫= fun e => le32 (if ps_inuse e then 1 else 0)) ++
  (l ≫= fun e => le32 (ps_pid e)) ++
  (l ≫= fun e => le32 (ps_priority e)) ++
  (l ≫= fun e => le32 (procstate_num (ps_state e))) ++
  (l ≫= fun e => ps_ticks e ≫= le32) ++
  (l ≫= fun e => ps_wait_ticks e ≫= le32).

Definition call_getpinfo (c : nat) : M sys Z :=
  a ← kn (argptr c 0 sizeof_pstat);
  r ← sys_getpinfo c (bool_decide (is_Some a));
  kn (ustore c (default 0 a) (pstat_bytes r.2)) ;;
  ret r.1.

Definition call_setSchedPolicy (c : nat) : M sys Z :=
  a ← kn (argint c 0);
  sys_setSchedPolicy c a.

End Sysproc.
