(* ===== verification/Clock.v ===== *)
(** * Sleeping for a time (sys_sleep of src/xv6/sysproc.c)

    The call ends after as many wake-ups as there are ticks to wait for, and not
    before that time has passed. *)
From S2P Require Import Prelude Mem Spinlock Kalloc Mmu Vm Block Log Bio Tx Fs FsImage Pipe File Proc ProcOps.
From S2P Require Import Kernel Syscall VmImage KernelImage Machine Sysproc.

Section Clock.
Context {T : Type} {HT : TxBlocks T}.

Abbreviation sys := (pst (mst (kst T))).

Implicit Types s : sys.

Context (c p : nat).

(** Process [p] on CPU [c]: the two locks, the depth of [pushcli], the clock, and
    whether the process was killed. *)
Record cst (lk tl : bool) (n t : Z) (k : bool) s : Prop := {
  cs_lock : pt_lock s = lk;
  cs_tlock : tickslock (kserv s) = tl;
  cs_ticks : ticks (kserv s) = t;
  cs_cpu : (c < length (pcpus s))%nat;
  cs_slot : (p < length (procs s))%nat;
  cs_cur : c_proc (cpu_at s c) = Some p;
  cs_ncli : c_ncli (cpu_at s c) = n;
  cs_if : 1 <= n -> c_if (cpu_at s c) = false;
  cs_killed : negb (p_killed (proc_at s p) =? 0) = k;
}.

Lemma cst_updc lk tl n t k s f : cst lk tl n t k s -> let x := cpu_at s c in
  c_proc (f x) = c_proc x -> (1 <= c_ncli (f x) -> c_if (f x) = false) ->
  cst lk tl (c_ncli (f x)) t k (upd_pcpus (alter f c) s).
Proof.
  intros H x Hp Hi. destruct H. split; try done; try (rewrite cpu_at_alter by done; fold x; done).
  - simpl. by rewrite length_alter.
  - rewrite cpu_at_alter by done. fold x. by rewrite Hp.
Qed.

Lemma wp_push lk tl n t k s (Q : unit -> sys -> Prop) : cst lk tl n t k s -> 0 <= n ->
  (forall s', cst lk tl (n + 1) t k s' -> Q tt s') -> wp (pushcli_on c) Q s.
Proof.
  intros H Hn HQ. unfold pushcli_on, getc, updc. wp_steps. cbn [id].
  pose proof (cst_updc _ _ _ _ _ _ (upd_c_if (fun _ => false)) H eq_refl (fun _ => eq_refl)) as H1. cbv zeta in H1.
  change (c_ncli (upd_c_if _ _)) with (c_ncli (cpu_at s c)) in H1.
  assert (forall s1, cst lk tl (c_ncli (cpu_at s c)) t k s1 -> c_if (cpu_at s1 c) = false -> Q tt (upd_pcpus (alter (upd_c_ncli (Z.add 1)) c) s1)) as Hf.
  { intros s1 Hs1 Hi. apply HQ. pose proof (cst_updc _ _ _ _ _ _ (upd_c_ncli (Z.add 1)) Hs1 eq_refl (fun _ => Hi)) as H2. cbv zeta in H2.
    change (c_ncli (upd_c_ncli _ _)) with (1 + c_ncli (cpu_at s1 c)) in H2. rewrite (cs_ncli _ _ _ _ _ _ Hs1), (cs_ncli _ _ _ _ _ _ H) in H2.
    by rewrite Z.add_comm. }
  assert (c_if (cpu_at (upd_pcpus (alter (upd_c_if (fun _ => false)) c) s) c) = false) as Hi0 by (by rewrite cpu_at_alter by apply H).
  destruct (c_ncli (cpu_at s c) =? 0); cbn [when]; wp_steps; apply Hf; [|by rewrite cpu_at_alter by apply H1|done|done].
  pose proof (cst_updc _ _ _ _ _ _ (upd_c_intena (fun _ => c_if (cpu_at s c))) H1 eq_refl (fun _ => Hi0)) as H2. cbv zeta in H2.
  change (c_ncli (upd_c_intena _ ?x)) with (c_ncli x) in H2. by rewrite (cs_ncli _ _ _ _ _ _ H1) in H2.
Qed.

Lemma wp_pop lk tl n t k s (Q : unit -> sys -> Prop) : cst lk tl n t k s -> 1 <= n ->
  (forall s', cst lk tl (n - 1) t k s' -> Q tt s') -> wp (popcli_on c) Q s.
Proof.
  intros H Hn HQ. unfold popcli_on, getc, updc. pose proof (cs_if _ _ _ _ _ _ H Hn) as Hi.
  pose proof (cst_updc _ _ _ _ _ _ (upd_c_ncli (fun n => n - 1)) H eq_refl (fun _ => Hi)) as H1. cbv zeta in H1.
  change (c_ncli (upd_c_ncli _ _)) with (c_ncli (cpu_at s c) - 1) in H1. rewrite (cs_ncli _ _ _ _ _ _ H) in H1.
  pose proof (cs_ncli _ _ _ _ _ _ H1) as Hn1. wp_steps; [done|apply Z.ltb_ge; unfold id; lia|]. unfold id. rewrite Hn1.
  destruct (_ && _) eqn:Eb; cbn [when]; wp_steps; apply HQ; [|done]. apply andb_true_iff in Eb as [E0 _]. apply Z.eqb_eq in E0.
  pose proof (cst_updc _ _ _ _ _ _ (upd_c_if (fun _ => true)) H1 eq_refl) as H2. cbv zeta in H2.
  change (c_ncli (upd_c_if _ ?x)) with (c_ncli x) in H2. rewrite Hn1 in H2. apply H2. lia.
Qed.

Lemma cst_lock lk tl n t k s b : cst lk tl n t k s -> cst b tl n t k (upd_pt_lock (fun _ => b) s).
Proof. intros []. by split. Qed.

Lemma cst_tlock lk tl n t k s b : cst lk tl n t k s -> cst lk b n t k (set tlock b s).
Proof. intros []. by split. Qed.

Lemma cst_updp lk tl n t k s f : cst lk tl n t k s -> (forall x, p_killed (f x) = p_killed x) ->
  cst lk tl n t k (upd_procs (alter f p) s).
Proof.
  intros [] Hf. split; try done; [simpl; by rewrite length_alter|]. unfold proc_at in *. simpl.
  rewrite list_lookup_alter_eq. destruct (procs s !! p); [|done]. simpl in *. by rewrite Hf.
Qed.

Lemma wp_acquire_pt_c tl n t k s (Q : unit -> sys -> Prop) : cst false tl n t k s -> 0 <= n ->
  (forall s', cst true tl (n + 1) t k s' -> Q tt s') -> wp (acquire_pt c) Q s.
Proof.
  intros H Hn HQ. unfold acquire_pt. apply wp_bind. eapply wp_push; [done|done|]. intros s1 H1. wp_steps; [apply H1|].
  apply HQ. by eapply cst_lock.
Qed.

Lemma wp_release_pt_c tl n t k s (Q : unit -> sys -> Prop) : cst true tl n t k s -> 1 <= n ->
  (forall s', cst false tl (n - 1) t k s' -> Q tt s') -> wp (release_pt c) Q s.
Proof.
  intros H Hn HQ. unfold release_pt. wp_steps; [by rewrite (cs_lock _ _ _ _ _ _ H)|].
  eapply wp_pop; [by eapply cst_lock|done|done].
Qed.

Lemma wp_acquire_tl lk n t k s (Q : unit -> sys -> Prop) : cst lk false n t k s -> 0 <= n ->
  (forall s', cst lk true (n + 1) t k s' -> Q tt s') -> wp (acquire_on c tlock) Q s.
Proof.
  intros H Hn HQ. unfold acquire_on. apply wp_bind. eapply wp_push; [done|done|]. intros s1 H1.
  eapply wp_eq; [apply acquire_flag_run, H1|]. apply HQ. by eapply cst_tlock.
Qed.

Lemma wp_release_tl lk n t k s (Q : unit -> sys -> Prop) : cst lk true n t k s -> 1 <= n ->
  (forall s', cst lk false (n - 1) t k s' -> Q tt s') -> wp (release_on c tlock) Q s.
Proof.
  intros H Hn HQ. unfold release_on. apply wp_bind. eapply wp_eq; [apply release_flag_run, H|].
  eapply wp_pop; [by eapply cst_tlock|done|done].
Qed.

(** What the rest of the machine does while the process sleeps on the clock: it
    runs again with the table locked, either because [d] ticks have passed or
    because it was killed. *)
Definition clock_resumes (swtch : nat -> nat -> M sys unit) : Prop :=
  forall t k s, cst true false 1 t k s -> exists d k' s',
    swtch c p s = (Ret tt, s') /\ cst true false 1 (u32 (t + d)) k' s' /\ 0 <= d < 2147483648 /\ (d = 0 -> k' = true).

Context (swtch : nat -> nat -> M sys unit) (Hsw : clock_resumes swtch) (chan : Z).

Lemma curproc_run s lk tl n t k : cst lk tl n t k s -> curproc c s = (Ret p, s).
Proof. intros H. unfold curproc, myproc, getc, bind, gets. by rewrite (cs_cur _ _ _ _ _ _ H). Qed.

Lemma wp_sched_c t k s (Q : unit -> sys -> Prop) : cst true false 1 t k s -> p_state (proc_at s p) = SLEEPING ->
  (forall d k' s', cst true false 1 (u32 (t + d)) k' s' -> 0 <= d < 2147483648 -> (d = 0 -> k' = true) -> Q tt s') ->
  wp (sched swtch c) Q s.
Proof.
  intros H Hst HQ. unfold sched. apply wp_bind. eapply wp_eq; [by eapply curproc_run|]. unfold getc, getp, updc.
  wp_steps; [by rewrite (cs_lock _ _ _ _ _ _ H)|by rewrite (cs_ncli _ _ _ _ _ _ H)| | |].
  { by rewrite Hst. }
  { apply (cs_if _ _ _ _ _ _ H). lia. }
  destruct (Hsw _ _ _ H) as (d & k' & s' & E & H' & Hd & Hk). eapply wp_eq; [exact E|]. wp_steps.
  eapply HQ; [|exact Hd|exact Hk]. pose proof (cst_updc _ _ _ _ _ _ (upd_c_intena (fun _ => c_intena (cpu_at s c))) H' eq_refl) as H2.
  cbv zeta in H2. change (c_ncli (upd_c_intena _ ?x)) with (c_ncli x) in H2. rewrite (cs_ncli _ _ _ _ _ _ H') in H2.
  apply H2. intros _. apply (cs_if _ _ _ _ _ _ H'). lia.
Qed.

Lemma wp_clock_sleep t k s (Q : unit -> sys -> Prop) : cst false true 1 t k s ->
  (forall d k' s', cst false true 1 (u32 (t + d)) k' s' -> 0 <= d < 2147483648 -> (d = 0 -> k' = true) -> Q tt s') ->
  wp (sleep swtch c chan (LkOther tlock)) Q s.
Proof.
  intros H HQ. unfold sleep, myproc, getc, updp. wp_steps. rewrite (cs_cur _ _ _ _ _ _ H). wp_steps; [done|].
  eapply wp_acquire_pt_c; [done|lia|]. intros s1 H1. eapply wp_release_tl; [done|lia|]. intros s2 H2. wp_steps.
  assert (cst true false 1 t k (upd_procs (alter (upd_p_state (fun _ => SLEEPING)) p) (upd_procs (alter (upd_p_chan (fun _ => chan)) p) s2))) as H3
    by (by do 2 (apply cst_updp; [|done])).
  eapply wp_sched_c; [exact H3| |].
  { unfold proc_at. simpl. rewrite !list_lookup_alter_eq. by destruct (lookup_lt_is_Some_2 _ _ (cs_slot _ _ _ _ _ _ H2)) as [x ->]. }
  intros d k' s4 H4 Hd Hk. wp_steps. eapply wp_release_pt_c; [apply cst_updp; [exact H4|done]|lia|]. intros s5 H5.
  eapply wp_acquire_tl; [done|lia|]. intros s6 H6. by eapply HQ.
Qed.

Lemma elapsed_step t t0 d : 0 <= t < 4294967296 -> u32 (t - t0) + d < 4294967296 -> 0 <= d ->
  u32 (u32 (t + d) - t0) = u32 (t - t0) + d.
Proof. unfold u32. intros. Z.div_mod_to_equations. lia. Qed.

Lemma wp_sleep_loop t0 n fuel t k s : 0 <= n < 2147483648 -> 0 <= t < 4294967296 -> cst false true 1 t k s ->
  n - u32 (t - t0) <= Z.of_nat fuel \/ k = true ->
  wp (sys_sleep_loop swtch chan fuel c t0 n) (fun r s' => exists t' k', cst false false 0 t' k' s' /\
    ((r = 0 /\ n <= u32 (t' - t0)) \/ (r = -1 /\ k' = true))) s.
Proof.
  intros Hn. revert t k s. induction fuel as [|fuel IH]; intros t k s Ht H Hf; cbn [sys_sleep_loop]; unfold get_ticks; wp_steps;
    rewrite (cs_ticks _ _ _ _ _ _ H), (u32_small n) by lia; (destruct (u32 (t - t0) <? n) eqn:E; bool_to_prop;
      [|apply wp_bind; eapply wp_release_tl; [done|lia|]; intros s1 H1; wp_steps; exists t, k; split; [done|by left]]);
    apply wp_bind; (eapply wp_eq; [by eapply curproc_run|]); apply wp_bind, wp_gets; rewrite (cs_killed _ _ _ _ _ _ H);
    (destruct k; [apply wp_bind; eapply wp_release_tl; [done|lia|]; intros s1 H1; wp_steps; exists t, true; split; [done|by right]|]).
  - destruct Hf as [Hf|Hf]; [lia|done].
  - destruct Hf as [Hf|Hf]; [|done]. apply wp_bind. eapply wp_clock_sleep; [exact H|]. intros d k' s1 H1 Hd Hk.
    apply (IH (u32 (t + d)) k'); [apply u32_range|done|]. destruct (decide (d = 0)) as [->|Hd0]; [right; by apply Hk|left].
    rewrite elapsed_step; lia.
Qed.

(** C36: [sleep(n)] comes back.  For [n] that is not negative, as long as the clock
    wakes the process up each time (or it is killed), the call returns after at
    most [n] wake-ups: with 0 when at least [n] ticks have passed since it was
    called, although the counter may have wrapped around, or with -1 when the
    process was killed; both locks are released and interrupts are as before. *)
Theorem sys_sleep_returns n fuel t k s :
  cst false false 0 t k s -> 0 <= t < 4294967296 -> kn (argint c 0) s = (Ret (Some n), s) -> 0 <= n < 2147483648 ->
  n <= Z.of_nat fuel ->
  wp (sys_sleep swtch fuel chan c) (fun r s' => exists t' k', cst false false 0 t' k' s' /\
    ((r = 0 /\ n <= u32 (t' - t)) \/ (r = -1 /\ k' = true))) s.
Proof.
  intros H Ht Ha Hn Hf. unfold sys_sleep. apply wp_bind. eapply wp_eq; [exact Ha|]. apply wp_bind.
  eapply wp_acquire_tl; [done|lia|]. intros s1 H1. unfold get_ticks. wp_steps. rewrite (cs_ticks _ _ _ _ _ _ H1).
  apply (wp_sleep_loop t n fuel t k); [done|done|done|left]. rewrite Z.sub_diag. change (u32 0) with 0. lia.
Qed.

End Clock.

(** ** A clock that ticks while the process sleeps *)
Definition tick_swtch {K} (c p : nat) : M (pst (mst K)) unit :=
  modify (upd_kserv (upd_ticks (fun t => u32 (t + 1)))).

Lemma tick_resumes {T : Type} c p : clock_resumes (T := T) c p tick_swtch.
Proof. intros t k s []. exists 1, k. eexists. split; [reflexivity|]. split; [|split; [lia|done]]. split; try done. simpl. congruence. Qed.

(** The word at address 4 of the image is 0; with 5 stored there, the argument is 5. *)
Definition sleep_kst (t : lst Bio.bio) : kst (lst Bio.bio) :=
  upd_kvm (upd_kmem (set_pmem (fun m => st8 m (img_frame + 4) 5))) (boot_kst t).

(** [sleep(5)] *)
Lemma sys_sleep_returns_witness : exists t r s',
  sys_sleep tick_swtch 5 1 0 (one_proc live_proc (Mst (sleep_kst t) 4294967294 false [] [])) = (Ret r, s') /\
  (r = 0 -> 5 <= u32 (ticks (kserv s') - 4294967294)).
Proof.
  destruct img_tabs as [t _]. exists t. set (s := one_proc live_proc (Mst (sleep_kst t) 4294967294 false [] [])).
  assert (kn (argint 0 0) s = (Ret (Some 5), s)) as Ha by (vm_compute; reflexivity).
  assert (cst 0 0 false false 0 4294967294 false s) as Hc.
  { split; [reflexivity..|apply Nat.lt_0_succ|apply Nat.lt_0_succ|reflexivity|reflexivity|intros Hn; lia|reflexivity]. }
  destruct (wp_returns _ _ _ (sys_sleep_returns 0 0 tick_swtch (tick_resumes 0 0) 1 5 5 4294967294 false s Hc ltac:(lia) Ha ltac:(lia) ltac:(lia)))
    as (r & s' & E & t' & k' & Hs & Hr).
  exists r, s'. split; [exact E|]. intros ->. rewrite (cs_ticks _ _ _ _ _ _ _ _ Hs). destruct Hr as [[_ ?]|[? _]]; [done|done].
Defined.
