(* ===== verification/Trap.v ===== *)
(** * Traps (src/xv6/trap.c, src/xv6/traps.h, the table of src/xv6/syscall.c)

    The trap frame is on the kernel stack of the interrupted process: [tfa] is its
    address, [tf] its content.  The handlers of the devices and the scheduler
    function that a process has registered in its own code are parameters.  What
    the kernel prints about a trap is left out. *)
From S2P Require Import Prelude Mem Spinlock Kalloc Mmu Vm Block Log Tx Fs Pipe File Proc Kernel Syscall Exec Sysfile Machine Sysproc.

Definition T_SYSCALL : Z := 64.

Definition T_IRQ0 : Z := 32.

Definition IRQ_TIMER : Z := 0.

Definition IRQ_KBD : Z := 1.

Definition IRQ_COM1 : Z := 4.

Definition IRQ_IDE : Z := 14.

Definition IRQ_SPURIOUS : Z := 31.

(** The cases of the [switch] in [trap]. *)
Inductive cause : Type :=
| CTimer | CIde | CIde1 | CKbd | CCom1 | CNet | CSpurious | CDefault.

Definition cause_of (trapno : Z) : cause :=
  if trapno =? T_IRQ0 + IRQ_TIMER then CTimer
  else if trapno =? T_IRQ0 + IRQ_IDE then CIde
  else if trapno =? T_IRQ0 + IRQ_IDE + 1 then CIde1
  else if trapno =? T_IRQ0 + IRQ_KBD then CKbd
  else if trapno =? T_IRQ0 + IRQ_COM1 then CCom1
  else if trapno =? T_IRQ0 + 11 then CNet
  else if trapno =? T_IRQ0 + IRQ_SPURIOUS then CSpurious
  else CDefault.

Section Trap.
Context {T : Type} {HT : TxBlocks T} {HO : TxOps T} {KS : KernelServices (mst (kst T))}.
Context (devsw : Z -> devops (T := T)) (kend : Z) (cpu_ts : nat -> Z) (name_buf : list Z).
Context (pipe_sleep : Z -> Z -> M (kst T) unit).

Abbreviation sys := (pst (mst (kst T))).

Context (trapret forkret_addr : Z) (swtch : nat -> nat -> M sys unit) (wakeups : nat) (ticks_chan : Z).

(** [vectors]: the entry points that vectors.pl generates. *)
Context (vectors : list Z).

(** Device handlers, and the call of a process's own scheduler. *)
Context (lapiceoi ideintr kbdintr uartintr i8254_intr : M sys unit) (user_scheduler : Z -> M sys unit).

Definition mach {A} (m : M (mst (kst T)) A) : M sys A := zoom kserv_lens m.

Definition vector (i : nat) : Z := default 0 (vectors !! i).

Definition tvinit : M sys unit :=
  for_each (seq 0 256) (fun i =>
    mach (modify (upd_idt (<[i := SETGATE false (Z.shiftl SEG_KCODE 3) (vector i) 0]>)))) ;;
  let n := Z.to_nat T_SYSCALL in
  mach (modify (upd_idt (<[n := SETGATE true (Z.shiftl SEG_KCODE 3) (vector n) DPL_USER]>))) ;;
  mach (modify (upd_tickslock (fun _ => false))).

Definition idtinit (c : nat) : M sys unit := mach (modify (upd_idtr (<[c := true]>))).

(** [syscalls[]] *)
Definition syscalls (c : nat) (num : Z) : option (M sys Z) :=
  if num =? SYS_fork then Some (sys_fork trapret forkret_addr c)
  else if num =? SYS_exit then Some (sys_exit swtch c)
  else if num =? SYS_wait then Some (sys_wait swtch wakeups c)
  else if num =? SYS_pipe then Some (kn (sys_pipe kend c))
  else if num =? SYS_read then Some (kn (sys_read devsw pipe_sleep wakeups c))
  else if num =? SYS_kill then Some (sys_kill c)
  else if num =? SYS_exec then Some (kn (sys_exec devsw kend cpu_ts name_buf c))
  else if num =? SYS_fstat then Some (kn (sys_fstat c))
  else if num =? SYS_chdir then Some (kn (sys_chdir devsw name_buf c))
  else if num =? SYS_dup then Some (kn (sys_dup c))
  else if num =? SYS_getpid then Some (sys_getpid c)
  else if num =? SYS_sbrk then Some (sys_sbrk c)
  else if num =? SYS_sleep then Some (sys_sleep swtch wakeups ticks_chan c)
  else if num =? SYS_uptime then Some (sys_uptime c)
  else if num =? SYS_open then Some (kn (sys_open devsw kend name_buf c))
  else if num =? SYS_write then Some (kn (sys_write devsw pipe_sleep wakeups c))
  else if num =? SYS_mknod then Some (kn (sys_mknod devsw name_buf c))
  else if num =? SYS_unlink then Some (kn (sys_unlink devsw name_buf c))
  else if num =? SYS_link then Some (kn (sys_link devsw name_buf c))
  else if num =? SYS_mkdir then Some (kn (sys_mkdir devsw name_buf c))
  else if num =? SYS_close then Some (kn (sys_close kend c))
  else if num =? SYS_uthread_init then Some (sys_uthread_init c)
  else if num =? SYS_getpinfo then Some (call_getpinfo c)
  else if num =? SYS_setSchedPolicy then Some (call_setSchedPolicy c)
  else if num =? SYS_yield then Some (sys_yield swtch c)
  else None.

Definition do_syscall (c : nat) : M sys unit := syscall knl (syscalls c) c.

Definition exit_if_killed (c : nat) : M sys unit :=
  p ← curproc c;
  k ← getp p p_killed;
  when (negb (k =? 0)) (exit swtch c).

(** [if(myproc() && myproc()->killed && (tf->cs&3) == DPL_USER) exit();] *)
Definition exit_killed_user (c : nat) (tf : trapframe) : M sys unit :=
  op ← myproc c;
  match op with
  | None => ret tt
  | Some p =>
      k ← getp p p_killed;
      when (negb (k =? 0) && (Z.land (tf_cs tf) 3 =? DPL_USER)) (exit swtch c)
  end.

Definition timer_tick (c : nat) : M sys unit :=
  acquire_on c tlock ;;
  mach (modify (upd_ticks (fun t => u32 (t + 1)))) ;;
  wakeup c ticks_chan ;;
  release_on c tlock.

(** The test and call of the registered scheduler. *)
Definition thread_tick (c : nat) : M sys unit :=
  op ← myproc c;
  match op with
  | None => ret tt
  | Some p =>
      x ← getp p id;
      when (bool_decide (p_state x = RUNNING) && negb (p_is_threaded x =? 0) && negb (p_scheduler x =? 0))
        (user_scheduler (p_scheduler x))
  end.

Definition trap_cause (c : nat) (tf : trapframe) : M sys unit :=
  match cause_of (tf_trapno tf) with
  | CTimer =>
      when (Nat.eqb c 0) (timer_tick c) ;;
      lapiceoi ;;
      thread_tick c
  | CIde => ideintr ;; lapiceoi
  | CIde1 => ret tt
  | CKbd => kbdintr ;; lapiceoi
  | CCom1 => uartintr ;; lapiceoi
  | CNet => i8254_intr ;; lapiceoi
  | CSpurious => lapiceoi
  | CDefault =>
      op ← myproc c;
      match op with
      | None => panic "trap"
      | Some p =>
          if Z.land (tf_cs tf) 3 =? 0 then panic "trap"
          else updp p (upd_p_killed (fun _ => 1))
      end
  end.

(** The accounting of a time slice and the preemption of the process. *)
Definition preempt (c : nat) (tf : trapframe) : M sys unit :=
  op ← myproc c;
  match op with
  | None => ret tt
  | Some p =>
      x ← getp p id;
      when (bool_decide (p_state x = RUNNING) && (tf_trapno tf =? T_IRQ0 + IRQ_TIMER))
        (updp p (upd_p_ticks (alter (fun t => s32 (t + 1)) (Z.to_nat (p_priority x)))) ;;
         yield swtch c)
  end.

Definition trap (c : nat) (tfa : Z) (tf : trapframe) : M sys unit :=
  if tf_trapno tf =? T_SYSCALL then
    exit_if_killed c ;;
    p ← curproc c;
    updp p (upd_p_tf (fun _ => tfa)) ;;
    updp p (upd_p_tf_data (fun _ => tf)) ;;
    do_syscall c ;;
    exit_if_killed c
  else
    trap_cause c tf ;;
    exit_killed_user c tf ;;
    preempt c tf ;;
    exit_killed_user c tf.

End Trap.
