(* ===== verification/TrapSafe.v ===== *)
(** * Returning from a trap

    [exit] does not return, so the checks of trap.c keep a killed process from
    going back to user space. *)
From S2P Require Import Prelude Mem Spinlock Kalloc Mmu Vm VmMap VmUser VmImage Block Log Bio Tx Fs FsImage Pipe File FileRefs.
From S2P Require Import Proc Kernel Syscall Exec Sysfile Machine Sysproc Trap KernelImage.

Section TrapSafe.
Context {T : Type} {HT : TxBlocks T} {HO : TxOps T} {KS : KernelServices (mst (kst T))}.
Context (devsw : Z -> devops (T := T)) (kend : Z) (cpu_ts : nat -> Z) (name_buf : list Z).
Context (pipe_sleep : Z -> Z -> M (kst T) unit).

Abbreviation sys := (pst (mst (kst T))).

Context (trapret forkret_addr : Z) (swtch : nat -> nat -> M sys unit) (wakeups : nat) (ticks_chan : Z).
Context (lapiceoi ideintr kbdintr uartintr i8254_intr : M sys unit) (user_scheduler : Z -> M sys unit).

Implicit Types s : sys.

Abbreviation handle := (trap devsw kend cpu_ts name_buf pipe_sleep trapret forkret_addr swtch wakeups ticks_chan
  lapiceoi ideintr kbdintr uartintr i8254_intr user_scheduler).

(** The process on CPU [c], if there is one, has not been killed. *)
Definition alive (c : nat) s : Prop := forall p, c_proc (cpu_at s c) = Some p -> p_killed (proc_at s p) = 0.

Lemma exit_no_return c s r s' : exit swtch c s <> (Ret r, s').
Proof.
  intros H. unfold exit in H.
  repeat (apply bind_Ret_inv in H as (? & ? & _ & H)). discriminate H.
Qed.

Lemma exit_if_killed_alive c s s' : exit_if_killed swtch c s = (Ret tt, s') -> s' = s /\ alive c s.
Proof.
  intros H. unfold exit_if_killed in H. apply bind_Ret_inv in H as (p & s1 & H1 & H).
  unfold curproc, myproc, getc in H1. apply bind_Ret_inv in H1 as (op & s2 & [= <- <-] & H1).
  destruct (c_proc (cpu_at s c)) as [q|] eqn:E; [|discriminate H1]. injection H1 as <- <-.
  apply bind_Ret_inv in H as (k & s3 & [= <- <-] & H).
  destruct (p_killed (proc_at s q) =? 0) eqn:Ek; bool_to_prop; cbn [negb when] in H.
  - injection H as <-. split; [done|]. intros p Hp. congruence.
  - by apply exit_no_return in H.
Qed.

Lemma exit_killed_user_alive c tf s s' : exit_killed_user swtch c tf s = (Ret tt, s') ->
  s' = s /\ (Z.land (tf_cs tf) 3 = DPL_USER -> alive c s).
Proof.
  intros H. unfold exit_killed_user, myproc, getc in H. apply bind_Ret_inv in H as (op & s1 & [= <- <-] & H).
  destruct (c_proc (cpu_at s c)) as [q|] eqn:E.
  - apply bind_Ret_inv in H as (k & s2 & [= <- <-] & H).
    destruct (negb _ && _) eqn:Eb; [by apply exit_no_return in H|]. injection H as <-. split; [done|].
    intros Hu p Hp. assert (p = q) as -> by congruence. bool_to_prop; [done|congruence].
  - injection H as <-. split; [done|]. intros _ p Hp. congruence.
Qed.

(** A fault: not a system call and not an interrupt. *)
Definition fault (tf : trapframe) : Prop := tf_trapno tf <> T_SYSCALL /\ cause_of (tf_trapno tf) = CDefault.

(** C10: no process that has been killed goes back to user space, faults are
    confined, and the kernel stops on its own faults.  When a trap from user
    space or a system call returns, the process that then runs on the CPU has not
    been killed, whatever the handlers did and whoever ran while the process was
    switched out.  A fault in user space never returns to the process; a fault
    in the kernel, or with no process, panics with the state untouched. *)
Theorem trap_return_safe c tfa tf s :
  (forall s', handle c tfa tf s = (Ret tt, s') ->
     tf_trapno tf = T_SYSCALL \/ Z.land (tf_cs tf) 3 = DPL_USER -> alive c s') /\
  (forall p, fault tf -> Z.land (tf_cs tf) 3 = DPL_USER -> c_proc (cpu_at s c) = Some p -> (p < length (procs s))%nat ->
     forall s', handle c tfa tf s <> (Ret tt, s')) /\
  (fault tf -> Z.land (tf_cs tf) 3 = 0 \/ c_proc (cpu_at s c) = None -> handle c tfa tf s = (Panic "trap", s)).
Proof.
  split_and!.
  - intros s' H Hu. unfold Trap.trap in H. destruct (tf_trapno tf =? T_SYSCALL) eqn:Et.
    + do 5 (apply bind_Ret_inv in H as (? & ? & _ & H)). by apply exit_if_killed_alive in H as [-> ?].
    + bool_to_prop. do 3 (apply bind_Ret_inv in H as (? & ? & _ & H)).
      apply exit_killed_user_alive in H as [-> H]. destruct Hu as [Hu|Hu]; [done|by apply H].
  - intros p [Ht Hc] Hu Hp Hl s' H. unfold Trap.trap in H. apply Z.eqb_neq in Ht. rewrite Ht in H.
    apply bind_Ret_inv in H as ([] & s1 & H1 & H). apply bind_Ret_inv in H as ([] & s2 & H2 & _).
    apply exit_killed_user_alive in H2 as [_ Ha]. unfold trap_cause in H1. rewrite Hc in H1.
    apply bind_Ret_inv in H1 as (op & s3 & [= <- <-] & H1). rewrite Hp in H1.
    rewrite Hu in H1. cbn [Z.eqb DPL_USER] in H1. injection H1 as <-.
    specialize (Ha Hu p Hp). unfold proc_at in Ha. simpl in Ha. rewrite list_lookup_alter_eq in Ha.
    apply lookup_lt_is_Some in Hl as [x Hx]. by rewrite Hx in Ha.
  - intros [Ht Hc] Hu. unfold Trap.trap. apply Z.eqb_neq in Ht. rewrite Ht. unfold trap_cause. rewrite Hc.
    unfold bind, myproc, getc, gets. destruct (c_proc (cpu_at s c)) as [p|] eqn:E; [|done].
    destruct Hu as [Hu|Hu]; [|done]. by rewrite Hu.
Qed.

End TrapSafe.

(** A spurious disk interrupt returns; a page fault does not. *)
Lemma trap_return_safe_witness : exists t : lst Bio.bio,
  let KS := machine_services (H := kernel_services no_devs img_end (fun _ => 0) []) in
  let tr := trap (KS := KS) no_devs img_end (fun _ => 0) [] (fun _ _ => ret tt) 0 0 (fun _ _ => ret tt) 0 1
              (ret tt) (ret tt) (ret tt) (ret tt) (ret tt) (fun _ => ret tt) 0 0 in
  let s := one_proc live_proc (boot_mst t) in
  (exists s', tr (user_frame 47) s = (Ret tt, s') /\ alive 0 s') /\
  (forall s', tr (user_frame 14) s <> (Ret tt, s')).
Proof.
  destruct img_tabs as [t _]. exists t. intros KS tr s.
  pose proof (fun tf => trap_return_safe (KS := KS) no_devs img_end (fun _ => 0) [] (fun _ _ => ret tt) 0 0 (fun _ _ => ret tt) 0 1
    (ret tt) (ret tt) (ret tt) (ret tt) (ret tt) (fun _ => ret tt) 0 0 tf s) as H. split.
  - exists s. assert (tr (user_frame 47) s = (Ret tt, s)) as E by reflexivity. split; [done|].
    destruct (H (user_frame 47)) as [H1 _]. apply (H1 s E). by right.
  - destruct (H (user_frame 14)) as (_ & H2 & _).
    apply (H2 0%nat); [split; [done|reflexivity]|reflexivity|reflexivity|simpl; lia].
Defined.
