(* ===== verification/Device.v ===== *)
(** * Console devices (src/xv6/uart.c, debug.c, kbd.c, kbd.h, graphic.c, font.c)

    Port I/O is a list of values to read and a list of values written; the frame
    buffer is byte memory.  [font_bin] is the table of font_bin.h: rows outside
    the table are what the memory around it holds. *)
From S2P Require Import Prelude Mem Mmu Vm.

(** [struct gpu], with the fields graphic.c uses *)
Record display : Type := Display {
  d_pvram_addr : Z;
  d_vvram_addr : Z;
  d_vram_size : Z;
  d_hres : Z;
  d_vres : Z;
  d_pixels_per_line : Z;
}.

(** The globals of console.c, uart.c, kbd.c and graphic.c; [io_in] are the values that the
    next [inb] instructions return (0 when there are none left), [io_out] what [outb] has
    written, latest first *)
Record con : Type := Con {
  cons_lock : bool;
  cons_locking : bool;
  panicked : bool;
  console_pos : Z;
  in_buf : list Z;
  in_r : Z;
  in_w : Z;
  in_e : Z;
  uart : bool;
  kbd_shift : Z;
  io_in : list Z;
  io_out : list (Z * Z);
  vram : mem;
  screen : display;
  con_env : env;
}.

Definition upd_cons_lock (f : bool -> bool) (x : con) : con :=
  Con (f (cons_lock x)) (cons_locking x) (panicked x) (console_pos x) (in_buf x) (in_r x) (in_w x)
    (in_e x) (uart x) (kbd_shift x) (io_in x) (io_out x) (vram x) (screen x) (con_env x).

Definition upd_cons_locking (f : bool -> bool) (x : con) : con :=
  Con (cons_lock x) (f (cons_locking x)) (panicked x) (console_pos x) (in_buf x) (in_r x) (in_w x)
    (in_e x) (uart x) (kbd_shift x) (io_in x) (io_out x) (vram x) (screen x) (con_env x).

Definition upd_panicked (f : bool -> bool) (x : con) : con :=
  Con (cons_lock x) (cons_locking x) (f (panicked x)) (console_pos x) (in_buf x) (in_r x) (in_w x)
    (in_e x) (uart x) (kbd_shift x) (io_in x) (io_out x) (vram x) (screen x) (con_env x).

Definition upd_console_pos (f : Z -> Z) (x : con) : con :=
  Con (cons_lock x) (cons_locking x) (panicked x) (f (console_pos x)) (in_buf x) (in_r x) (in_w x)
    (in_e x) (uart x) (kbd_shift x) (io_in x) (io_out x) (vram x) (screen x) (con_env x).

Definition upd_in_buf (f : (list Z) -> (list Z)) (x : con) : con :=
  Con (cons_lock x) (cons_locking x) (panicked x) (console_pos x) (f (in_buf x)) (in_r x) (in_w x)
    (in_e x) (uart x) (kbd_shift x) (io_in x) (io_out x) (vram x) (screen x) (con_env x).

Definition upd_in_r (f : Z -> Z) (x : con) : con :=
  Con (cons_lock x) (cons_locking x) (panicked x) (console_pos x) (in_buf x) (f (in_r x)) (in_w x)
    (in_e x) (uart x) (kbd_shift x) (io_in x) (io_out x) (vram x) (screen x) (con_env x).

Definition upd_in_w (f : Z -> Z) (x : con) : con :=
  Con (cons_lock x) (cons_locking x) (panicked x) (console_pos x) (in_buf x) (in_r x) (f (in_w x))
    (in_e x) (uart x) (kbd_shift x) (io_in x) (io_out x) (vram x) (screen x) (con_env x).

Definition upd_in_e (f : Z -> Z) (x : con) : con :=
  Con (cons_lock x) (cons_locking x) (panicked x) (console_pos x) (in_buf x) (in_r x) (in_w x) (f
    (in_e x)) (uart x) (kbd_shift x) (io_in x) (io_out x) (vram x) (screen x) (con_env x).

Definition upd_uart (f : bool -> bool) (x : con) : con :=
  Con (cons_lock x) (cons_locking x) (panicked x) (console_pos x) (in_buf x) (in_r x) (in_w x)
    (in_e x) (f (uart x)) (kbd_shift x) (io_in x) (io_out x) (vram x) (screen x) (con_env x).

Definition upd_kbd_shift (f : Z -> Z) (x : con) : con :=
  Con (cons_lock x) (cons_locking x) (panicked x) (console_pos x) (in_buf x) (in_r x) (in_w x)
    (in_e x) (uart x) (f (kbd_shift x)) (io_in x) (io_out x) (vram x) (screen x) (con_env x).

Definition upd_io_in (f : (list Z) -> (list Z)) (x : con) : con :=
  Con (cons_lock x) (cons_locking x) (panicked x) (console_pos x) (in_buf x) (in_r x) (in_w x)
    (in_e x) (uart x) (kbd_shift x) (f (io_in x)) (io_out x) (vram x) (screen x) (con_env x).

Definition upd_io_out (f : (list (Z * Z)) -> (list (Z * Z))) (x : con) : con :=
  Con (cons_lock x) (cons_locking x) (panicked x) (console_pos x) (in_buf x) (in_r x) (in_w x)
    (in_e x) (uart x) (kbd_shift x) (io_in x) (f (io_out x)) (vram x) (screen x) (con_env x).

Definition upd_vram (f : mem -> mem) (x : con) : con :=
  Con (cons_lock x) (cons_locking x) (panicked x) (console_pos x) (in_buf x) (in_r x) (in_w x)
    (in_e x) (uart x) (kbd_shift x) (io_in x) (io_out x) (f (vram x)) (screen x) (con_env x).

Definition upd_screen (f : display -> display) (x : con) : con :=
  Con (cons_lock x) (cons_locking x) (panicked x) (console_pos x) (in_buf x) (in_r x) (in_w x)
    (in_e x) (uart x) (kbd_shift x) (io_in x) (io_out x) (vram x) (f (screen x)) (con_env x).

Definition upd_con_env (f : env -> env) (x : con) : con :=
  Con (cons_lock x) (cons_locking x) (panicked x) (console_pos x) (in_buf x) (in_r x) (in_w x)
    (in_e x) (uart x) (kbd_shift x) (io_in x) (io_out x) (vram x) (screen x) (f (con_env x)).

(** ** Ports *)
Definition inb (port : Z) : M con Z :=
  l ← gets io_in;
  match l with
  | [] => ret 0
  | v :: l' => modify (upd_io_in (fun _ => l')) ;; ret (u8 v)
  end.

Definition outb (port data : Z) : M con unit := modify (upd_io_out (cons (port, u8 data))).

(** ** uart.c *)
Definition COM1 : Z := 1016.

(** The wait of [uartputc] for the transmitter, [n] rounds at most. *)
Fixpoint uart_wait (n : nat) : M con unit :=
  match n with
  | O => ret tt
  | S k =>
      st ← inb (COM1 + 5);
      if Z.land st 32 =? 0 then uart_wait k else ret tt
  end.

Definition uartputc (c : Z) : M con unit :=
  u ← gets uart;
  if negb u then ret tt
  else
    uart_wait 128 ;;
    outb (COM1 + 0) c.

Definition uartgetc : M con Z :=
  u ← gets uart;
  if negb u then ret (-1)
  else
    st ← inb (COM1 + 5);
    if Z.land st 1 =? 0 then ret (-1) else inb (COM1 + 0).

(** "xv6...\n" *)
Definition uart_banner : list Z := [120; 118; 54; 46; 46; 46; 10].

Section Uartinit.
Context (ioapicenable : Z -> Z -> M con unit).

Definition uartinit : M con unit :=
  outb (COM1 + 2) 0 ;;
  outb (COM1 + 3) 128 ;;
  outb (COM1 + 0) (115200 / 9600) ;;
  outb (COM1 + 1) 0 ;;
  outb (COM1 + 3) 3 ;;
  outb (COM1 + 4) 0 ;;
  outb (COM1 + 1) 1 ;;
  st ← inb (COM1 + 5);
  if st =? 255 then ret tt
  else
    modify (upd_uart (fun _ => true)) ;;
    inb (COM1 + 2) ;;
    inb (COM1 + 0) ;;
    ioapicenable 4 0 ;;
    for_each uart_banner uartputc.

End Uartinit.

(** ** debug.c *)
Definition uart_debug (p : Z) : M con unit :=
  outb (COM1 + 2) 0 ;;
  outb (COM1 + 3) 128 ;;
  outb (COM1 + 0) (115200 / 9600) ;;
  outb (COM1 + 1) 0 ;;
  outb (COM1 + 3) 3 ;;
  outb (COM1 + 4) 0 ;;
  uart_wait 128 ;;
  outb (COM1 + 0) p.

(** [p]: the characters before the terminator *)
Definition uart_debugs (p : list Z) : M con unit := for_each p uart_debug.

(** ** kbd.c and kbd.h *)
Definition KBSTATP : Z := 100.

Definition KBS_DIB : Z := 1.

Definition KBDATAP : Z := 96.

Definition SHIFT : Z := 1.

Definition CTL : Z := 2.

Definition CAPSLOCK : Z := 8.

Definition E0ESC : Z := 64.

Definition shiftcode : list Z :=
  [0; 0; 0; 0; 0; 0; 0; 0; 0; 0; 0; 0; 0; 0; 0; 0;
   0; 0; 0; 0; 0; 0; 0; 0; 0; 0; 0; 0; 0; 2; 0; 0;
   0; 0; 0; 0; 0; 0; 0; 0; 0; 0; 1; 0; 0; 0; 0; 0;
   0; 0; 0; 0; 0; 0; 1; 0; 4; 0; 0; 0; 0; 0; 0; 0;
   0; 0; 0; 0; 0; 0; 0; 0; 0; 0; 0; 0; 0; 0; 0; 0;
   0; 0; 0; 0; 0; 0; 0; 0; 0; 0; 0; 0; 0; 0; 0; 0;
   0; 0; 0; 0; 0; 0; 0; 0; 0; 0; 0; 0; 0; 0; 0; 0;
   0; 0; 0; 0; 0; 0; 0; 0; 0; 0; 0; 0; 0; 0; 0; 0;
   0; 0; 0; 0; 0; 0; 0; 0; 0; 0; 0; 0; 0; 0; 0; 0;
   0; 0; 0; 0; 0; 0; 0; 0; 0; 0; 0; 0; 0; 2; 0; 0;
   0; 0; 0; 0; 0; 0; 0; 0; 0; 0; 0; 0; 0; 0; 0; 0;
   0; 0; 0; 0; 0; 0; 0; 0; 4; 0; 0; 0; 0; 0; 0; 0;
   0; 0; 0; 0; 0; 0; 0; 0; 0; 0; 0; 0; 0; 0; 0; 0;
   0; 0; 0; 0; 0; 0; 0; 0; 0; 0; 0; 0; 0; 0; 0; 0;
   0; 0; 0; 0; 0; 0; 0; 0; 0; 0; 0; 0; 0; 0; 0; 0;
   0; 0; 0; 0; 0; 0; 0; 0; 0; 0; 0; 0; 0; 0; 0; 0].

Definition togglecode : list Z :=
  [0; 0; 0; 0; 0; 0; 0; 0; 0; 0; 0; 0; 0; 0; 0; 0;
   0; 0; 0; 0; 0; 0; 0; 0; 0; 0; 0; 0; 0; 0; 0; 0;
   0; 0; 0; 0; 0; 0; 0; 0; 0; 0; 0; 0; 0; 0; 0; 0;
   0; 0; 0; 0; 0; 0; 0; 0; 0; 0; 8; 0; 0; 0; 0; 0;
   0; 0; 0; 0; 0; 16; 32; 0; 0; 0; 0; 0; 0; 0; 0; 0;
   0; 0; 0; 0; 0; 0; 0; 0; 0; 0; 0; 0; 0; 0; 0; 0;
   0; 0; 0; 0; 0; 0; 0; 0; 0; 0; 0; 0; 0; 0; 0; 0;
   0; 0; 0; 0; 0; 0; 0; 0; 0; 0; 0; 0; 0; 0; 0; 0;
   0; 0; 0; 0; 0; 0; 0; 0; 0; 0; 0; 0; 0; 0; 0; 0;
   0; 0; 0; 0; 0; 0; 0; 0; 0; 0; 0; 0; 0; 0; 0; 0;
   0; 0; 0; 0; 0; 0; 0; 0; 0; 0; 0; 0; 0; 0; 0; 0;
   0; 0; 0; 0; 0; 0; 0; 0; 0; 0; 0; 0; 0; 0; 0; 0;
   0; 0; 0; 0; 0; 0; 0; 0; 0; 0; 0; 0; 0; 0; 0; 0;
   0; 0; 0; 0; 0; 0; 0; 0; 0; 0; 0; 0; 0; 0; 0; 0;
   0; 0; 0; 0; 0; 0; 0; 0; 0; 0; 0; 0; 0; 0; 0; 0;
   0; 0; 0; 0; 0; 0; 0; 0; 0; 0; 0; 0; 0; 0; 0; 0].

Definition normalmap : list Z :=
  [0; 27; 49; 50; 51; 52; 53; 54; 55; 56; 57; 48; 45; 61; 8; 9;
   113; 119; 101; 114; 116; 121; 117; 105; 111; 112; 91; 93; 10; 0; 97; 115;
   100; 102; 103; 104; 106; 107; 108; 59; 39; 96; 0; 92; 122; 120; 99; 118;
   98; 110; 109; 44; 46; 47; 0; 42; 0; 32; 0; 0; 0; 0; 0; 0;
   0; 0; 0; 0; 0; 0; 0; 55; 56; 57; 45; 52; 53; 54; 43; 49;
   50; 51; 48; 46; 0; 0; 0; 0; 0; 0; 0; 0; 0; 0; 0; 0;
   0; 0; 0; 0; 0; 0; 0; 0; 0; 0; 0; 0; 0; 0; 0; 0;
   0; 0; 0; 0; 0; 0; 0; 0; 0; 0; 0; 0; 0; 0; 0; 0;
   0; 0; 0; 0; 0; 0; 0; 0; 0; 0; 0; 0; 0; 0; 0; 0;
   0; 0; 0; 0; 0; 0; 0; 224; 0; 0; 0; 0; 10; 0; 0; 0;
   0; 0; 0; 0; 0; 0; 0; 0; 0; 0; 0; 0; 0; 0; 0; 0;
   0; 0; 0; 0; 0; 47; 0; 0; 0; 0; 0; 0; 0; 0; 0; 0;
   0; 0; 0; 0; 0; 0; 0; 0; 226; 230; 0; 228; 0; 229; 0; 225;
   227; 231; 232; 233; 0; 0; 0; 0; 0; 0; 0; 0; 0; 0; 0; 0;
   0; 0; 0; 0; 0; 0; 0; 0; 0; 0; 0; 0; 0; 0; 0; 0;
   0; 0; 0; 0; 0; 0; 0; 0; 0; 0; 0; 0; 0; 0; 0; 0].

Definition shiftmap : list Z :=
  [0; 27; 33; 64; 35; 36; 37; 94; 38; 42; 40; 41; 95; 43; 8; 9;
   81; 87; 69; 82; 84; 89; 85; 73; 79; 80; 123; 125; 10; 0; 65; 83;
   68; 70; 71; 72; 74; 75; 76; 58; 34; 126; 0; 124; 90; 88; 67; 86;
   66; 78; 77; 60; 62; 63; 0; 42; 0; 32; 0; 0; 0; 0; 0; 0;
   0; 0; 0; 0; 0; 0; 0; 55; 56; 57; 45; 52; 53; 54; 43; 49;
   50; 51; 48; 46; 0; 0; 0; 0; 0; 0; 0; 0; 0; 0; 0; 0;
   0; 0; 0; 0; 0; 0; 0; 0; 0; 0; 0; 0; 0; 0; 0; 0;
   0; 0; 0; 0; 0; 0; 0; 0; 0; 0; 0; 0; 0; 0; 0; 0;
   0; 0; 0; 0; 0; 0; 0; 0; 0; 0; 0; 0; 0; 0; 0; 0;
   0; 0; 0; 0; 0; 0; 0; 224; 0; 0; 0; 0; 10; 0; 0; 0;
   0; 0; 0; 0; 0; 0; 0; 0; 0; 0; 0; 0; 0; 0; 0; 0;
   0; 0; 0; 0; 0; 47; 0; 0; 0; 0; 0; 0; 0; 0; 0; 0;
   0; 0; 0; 0; 0; 0; 0; 0; 226; 230; 0; 228; 0; 229; 0; 225;
   227; 231; 232; 233; 0; 0; 0; 0; 0; 0; 0; 0; 0; 0; 0; 0;
   0; 0; 0; 0; 0; 0; 0; 0; 0; 0; 0; 0; 0; 0; 0; 0;
   0; 0; 0; 0; 0; 0; 0; 0; 0; 0; 0; 0; 0; 0; 0; 0].

Definition ctlmap : list Z :=
  [0; 0; 0; 0; 0; 0; 0; 0; 0; 0; 0; 0; 0; 0; 0; 0;
   17; 23; 5; 18; 20; 25; 21; 9; 15; 16; 0; 0; 13; 0; 1; 19;
   4; 6; 7; 8; 10; 11; 12; 0; 0; 0; 0; 28; 26; 24; 3; 22;
   2; 14; 13; 0; 0; 239; 0; 0; 0; 0; 0; 0; 0; 0; 0; 0;
   0; 0; 0; 0; 0; 0; 0; 0; 0; 0; 0; 0; 0; 0; 0; 0;
   0; 0; 0; 0; 0; 0; 0; 0; 0; 0; 0; 0; 0; 0; 0; 0;
   0; 0; 0; 0; 0; 0; 0; 0; 0; 0; 0; 0; 0; 0; 0; 0;
   0; 0; 0; 0; 0; 0; 0; 0; 0; 0; 0; 0; 0; 0; 0; 0;
   0; 0; 0; 0; 0; 0; 0; 0; 0; 0; 0; 0; 0; 0; 0; 0;
   0; 0; 0; 0; 0; 0; 0; 224; 0; 0; 0; 0; 13; 0; 0; 0;
   0; 0; 0; 0; 0; 0; 0; 0; 0; 0; 0; 0; 0; 0; 0; 0;
   0; 0; 0; 0; 0; 239; 0; 0; 0; 0; 0; 0; 0; 0; 0; 0;
   0; 0; 0; 0; 0; 0; 0; 0; 226; 230; 0; 228; 0; 229; 0; 225;
   227; 231; 232; 233; 0; 0; 0; 0; 0; 0; 0; 0; 0; 0; 0; 0;
   0; 0; 0; 0; 0; 0; 0; 0; 0; 0; 0; 0; 0; 0; 0; 0;
   0; 0; 0; 0; 0; 0; 0; 0; 0; 0; 0; 0; 0; 0; 0; 0].

(** [charcode[i]] *)
Definition charcode (i : Z) : list Z :=
  if i =? 0 then normalmap else if i =? 1 then shiftmap else ctlmap.

Definition at_code (t : list Z) (data : Z) : Z := default 0 (t !! Z.to_nat data).

(** The end of [kbdgetc]: a key was pressed, with scan code [data]. *)
Definition kbd_press (data : Z) : M con Z :=
  modify (upd_kbd_shift (fun sh => Z.lor sh (at_code shiftcode data))) ;;
  modify (upd_kbd_shift (fun sh => Z.lxor sh (at_code togglecode data))) ;;
  sh ← gets kbd_shift;
  let c := at_code (charcode (Z.land sh (Z.lor CTL SHIFT))) data in
  ret (if negb (Z.land sh CAPSLOCK =? 0) then
         if (97 <=? c) && (c <=? 122) then c - 32
         else if (65 <=? c) && (c <=? 90) then c + 32
         else c
       else c).

Definition kbdgetc : M con Z :=
  st ← inb KBSTATP;
  if Z.land st KBS_DIB =? 0 then ret (-1)
  else
    data ← inb KBDATAP;
    sh ← gets kbd_shift;
    if data =? 224 then
      modify (upd_kbd_shift (fun sh => Z.lor sh E0ESC)) ;;
      ret 0
    else if negb (Z.land data 128 =? 0) then
      let data := if negb (Z.land sh E0ESC =? 0) then data else Z.land data 127 in
      modify (upd_kbd_shift (fun sh => Z.land sh (Z.lnot (Z.lor (at_code shiftcode data) E0ESC)))) ;;
      ret 0
    else if negb (Z.land sh E0ESC =? 0) then
      modify (upd_kbd_shift (fun sh => Z.land sh (Z.lnot E0ESC))) ;;
      kbd_press (Z.lor data 128)
    else kbd_press data.

(** ** graphic.c *)

(** [struct graphic_config] of the boot parameters *)
Record graphic_config : Type := GraphicConfig {
  frame_base : Z;
  frame_size : Z;
  horizontal_resolution : Z;
  vertical_resolution : Z;
  pixels_per_line : Z;
}.

Definition graphic_init (cfg : graphic_config) : M con unit :=
  let size := u32 (frame_size cfg) in
  modify (upd_screen (fun _ =>
    Display (u32 (frame_base cfg)) (u32 (DEVSPACE - size)) size
      (u32 (Z.land (horizontal_resolution cfg) 4294967295))
      (u32 (Z.land (vertical_resolution cfg) 4294967295))
      (u32 (Z.land (pixels_per_line cfg) 4294967295)))).

(** [struct graphic_pixel] *)
Record graphic_pixel : Type := Pixel {
  px_blue : Z;
  px_green : Z;
  px_red : Z;
}.

Definition graphic_draw_pixel (x y : Z) (px : graphic_pixel) : M con unit :=
  d ← gets screen;
  let pixel := u32 (d_vvram_addr d + 4 * (y * d_pixels_per_line d + x)) in
  modify (upd_vram (fun m => st8 (st8 (st8 m pixel (px_blue px)) (u32 (pixel + 1)) (px_green px)) (u32 (pixel + 2)) (px_red px))).

Definition graphic_scroll_up (height : Z) : M con unit :=
  d ← gets screen;
  let diff := u32 (4 * d_pixels_per_line d * height) in
  modify (upd_vram (fun m => memmove m (d_vvram_addr d) (u32 (d_vvram_addr d + diff)) (u32 (d_vram_size d - diff)))) ;;
  modify (upd_vram (fun m => memset m (u32 (d_vvram_addr d + d_vram_size d - diff)) 0 diff)).

(** ** font.c *)
Definition FONT_WIDTH : Z := 15.

Definition FONT_HEIGHT : Z := 30.

Definition black_pixel : graphic_pixel := Pixel 0 0 0.

Definition white_pixel : graphic_pixel := Pixel 255 255 255.

Section Font.
Context (font_bin : Z -> Z -> Z).

Definition font_render (x y index : Z) : M con unit :=
  for_each (seqZ 0 30) (fun i =>
    for_each (rev (seqZ 0 15)) (fun j =>
      let bin := Z.land (font_bin (index - 32) i) (Z.shiftl 1 j) in
      if bin =? Z.shiftl 1 j then graphic_draw_pixel (x + (14 - j)) (y + i) white_pixel
      else graphic_draw_pixel (x + (14 - j)) (y + i) black_pixel)).

(** The characters of a string from the [i]-th. *)
Fixpoint font_string_loop (string : list Z) (i row : Z) : M con unit :=
  match string with
  | [] => ret tt
  | c :: string' =>
      if negb (c =? 0) && (i <? 52) then
        font_render (i * 15 + 2) (row * 30) c ;;
        font_string_loop string' (i + 1) row
      else ret tt
  end.

Definition font_render_string (string : list Z) (row : Z) : M con unit := font_string_loop string 0 row.

End Font.
