(* ===== verification/Console.v ===== *)
(** * The console (src/xv6/console.c)

    Output, line editing and reading.  A process that reads sleeps in the middle
    of [consoleread]; [sleep] is what happens until it is woken.  [panicked]
    freezes the CPU, which is the outcome [Panic]. *)
From S2P Require Import Prelude Mem Vm Device.

Definition BACKSPACE : Z := 256.

Definition CONSOLE_HORIZONTAL_MAX : Z := 53.

Definition CONSOLE_VERTICAL_MAX : Z := 20.

Definition INPUT_BUF : Z := 128.

Definition newline : Z := 10.

(** [C('P')], [C('U')], [C('H')], [C('D')] and [x7f] *)
Definition C (x : Z) : Z := x - 64.

Definition ctrl_P : Z := C 80.

Definition ctrl_U : Z := C 85.

Definition ctrl_H : Z := C 72.

Definition ctrl_D : Z := C 68.

Definition DEL : Z := 127.

(** The address [&input.r]. *)
Definition input_chan : Z := 3001.

Definition conslock : lens con bool := Lens cons_lock upd_cons_lock.

Definition con_envl : lens con env := Lens con_env upd_con_env.

(** An argument of [cprintf]: a word, or a pointer to a string. *)
Inductive carg : Type :=
| CInt (v : Z)
| CStr (s : option (list Z)).

Definition digit (d : Z) : Z := if d <? 10 then 48 + d else 87 + d.

(** The [do] loop of [printint]: the contents of [buf]. *)
Fixpoint print_digits (fuel : nat) (x base : Z) : list Z :=
  match fuel with
  | O => []
  | S k =>
      digit (x mod base) ::
      (if negb (x / base =? 0) then print_digits k (x / base) base else [])
  end.

(** What [printint] prints; a 32-bit word has at most 32 digits. *)
Definition int_chars (xx base : Z) (sign : bool) : list Z :=
  let neg := sign && (s32 xx <? 0) in
  let x := if neg then u32 (- s32 xx) else u32 xx in
  let buf := print_digits 32 x base in
  rev (if neg then buf ++ [45] else buf).

(** "(null)" *)
Definition null_string : list Z := [40; 110; 117; 108; 108; 41].

Section Console.
Context (font_bin : Z -> Z -> Z).

Definition graphic_putc (c : Z) : M con unit :=
  pos ← gets console_pos;
  if c =? newline then
    let pos := pos + CONSOLE_HORIZONTAL_MAX - Z.rem pos CONSOLE_HORIZONTAL_MAX in
    modify (upd_console_pos (fun _ => pos)) ;;
    when (CONSOLE_VERTICAL_MAX * CONSOLE_HORIZONTAL_MAX <=? pos)
      (modify (upd_console_pos (fun p => p - CONSOLE_HORIZONTAL_MAX)) ;;
       graphic_scroll_up 30)
  else if c =? BACKSPACE then
    when (0 <? pos) (modify (upd_console_pos (fun p => p - 1)))
  else
    when (CONSOLE_VERTICAL_MAX * CONSOLE_HORIZONTAL_MAX <=? pos)
      (modify (upd_console_pos (fun p => p - CONSOLE_HORIZONTAL_MAX)) ;;
       graphic_scroll_up 30) ;;
    pos ← gets console_pos;
    let x := Z.rem pos CONSOLE_HORIZONTAL_MAX * FONT_WIDTH + 2 in
    let y := Z.quot pos CONSOLE_HORIZONTAL_MAX * FONT_HEIGHT in
    font_render font_bin x y c ;;
    modify (upd_console_pos (fun p => p + 1)).

Definition consputc (c : Z) : M con unit :=
  p ← gets panicked;
  panic_if p "frozen" ;;
  (if c =? BACKSPACE then
     uartputc 8 ;; uartputc 32 ;; uartputc 8
   else uartputc c) ;;
  graphic_putc c.

Definition printint (xx base : Z) (sign : bool) : M con unit := for_each (int_chars xx base sign) consputc.

Definition bad_arg : M con unit := panic "undefined behaviour: argument".

(** The loop of [cprintf]; the format ends at its NUL, or at the end of the list. *)
Fixpoint cprintf_loop (fmt : list Z) (args : list carg) : M con unit :=
  match fmt with
  | [] => ret tt
  | c :: fmt =>
      if c =? 0 then ret tt
      else if negb (c =? 37) then
        consputc c ;;
        cprintf_loop fmt args
      else
        match fmt with
        | [] => ret tt
        | c :: fmt =>
            if c =? 0 then ret tt
            else if c =? 100 then
              match args with
              | CInt v :: args => printint v 10 true ;; cprintf_loop fmt args
              | _ => bad_arg
              end
            else if (c =? 120) || (c =? 112) then
              match args with
              | CInt v :: args => printint v 16 false ;; cprintf_loop fmt args
              | _ => bad_arg
              end
            else if c =? 115 then
              match args with
              | CStr s :: args => for_each (default null_string s) consputc ;; cprintf_loop fmt args
              | _ => bad_arg
              end
            else if c =? 37 then
              consputc 37 ;;
              cprintf_loop fmt args
            else
              consputc 37 ;;
              consputc c ;;
              cprintf_loop fmt args
        end
  end.

(** [fmt]: [None] is the null pointer *)
Definition cprintf (fmt : option (list Z)) (args : list carg) : M con unit :=
  locking ← gets cons_locking;
  when locking (acquire_flag conslock) ;;
  match fmt with
  | None => panic "null fmt"
  | Some fmt => cprintf_loop fmt args
  end ;;
  when locking (release_flag conslock).

(** "lapicid %d: panic: ", "\n" and " %p" *)
Definition panic_fmt : list Z := [108; 97; 112; 105; 99; 105; 100; 32; 37; 100; 58; 32; 112; 97; 110; 105; 99; 58; 32].

Definition pc_fmt : list Z := [32; 37; 112].

(** [panic(s)]: [lapicid] and the return addresses [pcs] are those of the CPU. *)
Definition panic_console (lapicid : Z) (pcs : list Z) (s : list Z) : M con unit :=
  modify (upd_cons_locking (fun _ => false)) ;;
  cprintf (Some panic_fmt) [CInt lapicid] ;;
  cprintf (Some s) [] ;;
  cprintf (Some [newline]) [] ;;
  for_each pcs (fun pc => cprintf (Some pc_fmt) [CInt pc]) ;;
  modify (upd_panicked (fun _ => true)) ;;
  panic "frozen".

(** ** Input *)
Definition in_at (s : con) (i : Z) : Z := default 0 (in_buf s !! Z.to_nat (i mod INPUT_BUF)).

(** The loop that kills a line. *)
Fixpoint kill_line (fuel : nat) : M con unit :=
  s ← get;
  if negb (in_e s =? in_w s) && negb (in_at s (u32 (in_e s - 1)) =? newline) then
    match fuel with
    | O => panic "consoleintr: out of fuel"
    | S k =>
        modify (upd_in_e (fun e => u32 (e - 1))) ;;
        consputc BACKSPACE ;;
        kill_line k
    end
  else ret tt.

(** [input.buf[input.e++ % INPUT_BUF] = c;] *)
Definition put_char (c : Z) : M con unit :=
  modify (fun s => upd_in_buf (<[Z.to_nat (in_e s mod INPUT_BUF) := u8 c]>) s) ;;
  modify (upd_in_e (fun e => u32 (e + 1))).

(** The body of the loop of [consoleintr]: whether to call [procdump]. *)
Definition console_char (c : Z) : M con bool :=
  if c =? ctrl_P then ret true
  else if c =? ctrl_U then
    kill_line (Z.to_nat INPUT_BUF) ;;
    ret false
  else if (c =? ctrl_H) || (c =? DEL) then
    s ← get;
    when (negb (in_e s =? in_w s))
      (modify (upd_in_e (fun e => u32 (e - 1))) ;;
       consputc BACKSPACE) ;;
    ret false
  else
    s ← get;
    when (negb (c =? 0) && (u32 (in_e s - in_r s) <? INPUT_BUF))
      (let c := if c =? 13 then newline else c in
       put_char c ;;
       consputc c ;;
       s ← get;
       when ((c =? newline) || (c =? ctrl_D) || (in_e s =? u32 (in_r s + INPUT_BUF)))
         (modify (upd_in_w (fun _ => in_e s)) ;;
          wakeup_ev con_envl input_chan)) ;;
    ret false.

Section Getc.
Context (getc : M con Z) (procdump : M con unit).

(** The loop of [consoleintr], for at most [fuel] characters. *)
Fixpoint console_loop (fuel : nat) (doprocdump : bool) : M con bool :=
  c ← getc;
  if 0 <=? c then
    match fuel with
    | O => panic "consoleintr: out of fuel"
    | S k =>
        b ← console_char c;
        console_loop k (doprocdump || b)
    end
  else ret doprocdump.

Definition consoleintr (fuel : nat) : M con unit :=
  acquire_flag conslock ;;
  d ← console_loop fuel false;
  release_flag conslock ;;
  when d procdump.

End Getc.

Definition kbdintr (procdump : M con unit) (fuel : nat) : M con unit := consoleintr kbdgetc procdump fuel.

Definition uartintr (procdump : M con unit) (fuel : nat) : M con unit := consoleintr uartgetc procdump fuel.

(** ** The device *)
Section Dev.
Context (iunlock ilock : M con unit) (sleep : M con unit).

(** The outer loop of [consoleread]: the value of [target - n] and the bytes
    stored, or -1 when the process was killed. *)
Fixpoint consoleread_loop (fuel : nat) (target n : Z) (dst : list Z) : M con (Z * list Z) :=
  if 0 <? n then
    match fuel with
    | O => sleep_on input_chan
    | S k =>
        s ← get;
        if in_r s =? in_w s then
          if cur_killed (con_env s) then ret (-1, dst)
          else
            sleep ;;
            consoleread_loop k target n dst
        else
          let c := in_at s (in_r s) in
          modify (upd_in_r (fun r => u32 (r + 1))) ;;
          if c =? ctrl_D then
            when (n <? target) (modify (upd_in_r (fun r => u32 (r - 1)))) ;;
            ret (target - n, dst)
          else if c =? newline then ret (target - (n - 1), dst ++ [c])
          else consoleread_loop k target (n - 1) (dst ++ [c])
    end
  else ret (target - n, dst).

(** The return value and the bytes stored at [dst]; each round of the loop reads a
    byte or sleeps. *)
Definition consoleread (wakeups : nat) (n : Z) : M con (Z * list Z) :=
  iunlock ;;
  acquire_flag conslock ;;
  r ← consoleread_loop (Z.to_nat n + wakeups) n n [];
  release_flag conslock ;;
  ilock ;;
  ret r.

Definition consolewrite (buf : list Z) (n : Z) : M con Z :=
  iunlock ;;
  acquire_flag conslock ;;
  for_each (take (Z.to_nat n) buf) (fun b => consputc (Z.land b 255)) ;;
  release_flag conslock ;;
  ilock ;;
  ret n.

End Dev.

(** "Starting XV6_UEFI...\n" *)
Definition console_banner : list Z :=
  [83; 116; 97; 114; 116; 105; 110; 103; 32; 88; 86; 54; 95; 85; 69; 70; 73; 46; 46; 46; 10].

Definition consoleinit (ioapicenable : Z -> Z -> M con unit) : M con unit :=
  modify (upd_panicked (fun _ => false)) ;;
  modify (upd_cons_lock (fun _ => false)) ;;
  for_each console_banner graphic_putc ;;
  modify (upd_cons_locking (fun _ => true)) ;;
  ioapicenable 1 0.

End Console.
