(* ===== verification/ConsoleLine.v ===== *)
(** * The line discipline of the console

    The ring buffer with its three wrapping counters holds the bytes that may be
    read and the line that is being edited; the interrupt handler and
    [consoleread] act on these as an editor and a reader of lines. *)
From S2P Require Import Prelude Mem Vm Device Console.

(** ** Output leaves the input alone *)
Definition inp (s : con) := (cons_lock s, panicked s, in_buf s, in_r s, in_w s, in_e s, cur_killed (con_env s)).

(** The routine returns and leaves the input alone. *)
Definition quiet {A} (m : M con A) : Prop := forall s, exists a s', m s = (Ret a, s') /\ inp s' = inp s.

Lemma quiet_ret {A} (a : A) : quiet (ret a).
Proof. intros s. by exists a, s. Qed.

Lemma quiet_gets {A} (f : con -> A) : quiet (gets f).
Proof. intros s. by exists (f s), s. Qed.

Lemma quiet_modify f : (forall s, inp (f s) = inp s) -> quiet (modify f).
Proof. intros Hf s. exists tt, (f s). by split. Qed.

Lemma quiet_bind {A B} (m : M con A) (k : A -> M con B) : quiet m -> (forall a, quiet (k a)) -> quiet (bind m k).
Proof.
  intros Hm Hk s. destruct (Hm s) as (a & s1 & E1 & I1). destruct (Hk a s1) as (b & s2 & E2 & I2).
  exists b, s2. rewrite (bind_Ret _ _ _ _ _ E1). split; [done|congruence].
Qed.

Lemma quiet_when b m : quiet m -> quiet (when b m).
Proof. destruct b; [done|intros _; apply quiet_ret]. Qed.

Lemma quiet_for_each {I} (l : list I) (body : I -> M con unit) : (forall i, quiet (body i)) -> quiet (for_each l body).
Proof. intros Hb. induction l; simpl; [apply quiet_ret|]. by apply quiet_bind. Qed.

Ltac quieten :=
  repeat match goal with
  | |- quiet (bind _ _) => apply quiet_bind; [|intros ?]
  | |- quiet (when _ _) => apply quiet_when
  | |- quiet (for_each _ _) => apply quiet_for_each; intros ?
  | |- quiet (ret _) => apply quiet_ret
  | |- quiet (gets _) => apply quiet_gets
  | |- quiet (modify _) => by apply quiet_modify
  | |- quiet (if ?b then _ else _) => destruct b
  | |- quiet (match ?x with _ => _ end) => destruct x
  end.

Lemma quiet_inb port : quiet (inb port).
Proof. unfold inb. quieten. Qed.

Lemma quiet_uartputc c : quiet (uartputc c).
Proof.
  unfold uartputc, outb. quieten. generalize 128%nat. intros n. induction n as [|k IH]; simpl; quieten; [apply quiet_inb|done].
Qed.

Section Line.
Context (font_bin : Z -> Z -> Z).

Lemma quiet_graphic_putc c : quiet (graphic_putc font_bin c).
Proof. unfold graphic_putc, graphic_scroll_up, font_render, graphic_draw_pixel. quieten. Qed.

Lemma consputc_run c s : panicked s = false -> exists s', consputc font_bin c s = (Ret tt, s') /\ inp s' = inp s.
Proof.
  intros Hp. unfold consputc. run_pure. rewrite Hp. run_pure.
  match goal with |- exists s', ?m s = _ /\ _ => assert (quiet m) as Hq end.
  { quieten; first [apply quiet_uartputc|apply quiet_graphic_putc]. }
  destruct (Hq s) as ([] & s' & E & I). by exists s'.
Qed.

Lemma wp_consputc c s (Q : unit -> con -> Prop) : panicked s = false -> (forall s', inp s' = inp s -> Q tt s') -> wp (consputc font_bin c) Q s.
Proof. intros Hp HQ. destruct (consputc_run c s Hp) as (s' & E & I). eapply wp_eq; [exact E|]. by apply HQ. Qed.

(** ** The ring buffer *)
Definition ring (s : con) (a : Z) (n : nat) : list Z := (fun i => in_at s (a + Z.of_nat i)) <$> seq 0 n.

Definition cnt (a b : Z) : nat := Z.to_nat (u32 (b - a)).

(** The bytes a reader may take, and the line being edited. *)
Definition committed (s : con) : list Z := ring s (in_r s) (cnt (in_r s) (in_w s)).

Definition line (s : con) : list Z := ring s (in_w s) (cnt (in_w s) (in_e s)).

Record con_ok (s : con) : Prop := {
  co_len : length (in_buf s) = 128%nat;
  co_r : 0 <= in_r s < 4294967296;
  co_w : 0 <= in_w s < 4294967296;
  co_e : 0 <= in_e s < 4294967296;
  co_room : (cnt (in_r s) (in_w s) + cnt (in_w s) (in_e s) <= 128)%nat;
  co_line : newline ∉ line s;
  co_run : panicked s = false;
}.

Lemma length_ring s a n : length (ring s a n) = n.
Proof. unfold ring. by rewrite length_fmap, length_seq. Qed.

Lemma in_at_u32 s x : in_at s (u32 x) = in_at s x.
Proof. unfold in_at, u32, INPUT_BUF. f_equal. f_equal. f_equal. zdm. Qed.

Lemma ring_app s a n m : ring s a (n + m) = ring s a n ++ ring s (u32 (a + Z.of_nat n)) m.
Proof.
  unfold ring. rewrite seq_app, fmap_app. f_equal. simpl.
  replace (seq n m) with (Nat.add n <$> seq 0 m) by (rewrite fmap_add_seq; f_equal; lia). rewrite <- list_fmap_compose.
  apply list_fmap_ext. intros i x _. simpl. rewrite <- in_at_u32, <- (in_at_u32 _ (u32 _ + _)). f_equal. unfold u32. zdm.
Qed.

Lemma ring_ext s s' a n : in_buf s' = in_buf s -> ring s' a n = ring s a n.
Proof. intros E. unfold ring, in_at. by rewrite E. Qed.

Lemma inp_ok s s' : inp s' = inp s -> con_ok s -> con_ok s' /\ committed s' = committed s /\ line s' = line s.
Proof.
  intros [= E1 E2 E3 E4 E5 E6 E7] [H1 H2 H3 H4 H5 H6 H7].
  assert (committed s' = committed s) as Ec by (unfold committed; rewrite (ring_ext s s' _ _ E3); congruence).
  assert (line s' = line s) as El by (unfold line; rewrite (ring_ext s s' _ _ E3); congruence).
  split; [|done]. split; rewrite ?E2, ?E3, ?E4, ?E5, ?E6, ?El; done.
Qed.

(** The counters: [e] is [n] bytes after [a]. *)
Lemma cnt_sum s : con_ok s -> cnt (in_r s) (in_e s) = (cnt (in_r s) (in_w s) + cnt (in_w s) (in_e s))%nat.
Proof. intros [H1 H2 H3 H4 H5 _ _]. unfold cnt, u32 in *. zdm. Qed.

(** ** Editing *)
Definition edit (c : Z) (a : list Z * list Z) : list Z * list Z :=
  let '(cm, ln) := a in
  if c =? ctrl_P then a
  else if c =? ctrl_U then (cm, [])
  else if (c =? ctrl_H) || (c =? DEL) then (cm, removelast ln)
  else if (c =? 0) || (128 <=? length cm + length ln)%nat then a
  else
    let c := if c =? 13 then newline else c in
    let ln := ln ++ [c] in
    if (c =? newline) || (c =? ctrl_D) || (length cm + length ln =? 128)%nat then (cm ++ ln, []) else (cm, ln).

Definition abs (s : con) : list Z * list Z := (committed s, line s).

(** One character less in the line. *)
Lemma line_shorter s : con_ok s -> in_e s <> in_w s -> let s' := upd_in_e (fun e => u32 (e - 1)) s in
  con_ok s' /\ committed s' = committed s /\ line s' = removelast (line s) /\
  S (cnt (in_w s') (in_e s')) = cnt (in_w s) (in_e s) /\ last (line s) = Some (in_at s (u32 (in_e s - 1))).
Proof.
  intros H Hne s'. destruct H as [H1 H2 H3 H4 H5 H6 H7].
  assert (cnt (in_w s) (in_e s) = S (cnt (in_w s) (u32 (in_e s - 1)))) as En by (unfold cnt, u32 in *; zdm).
  assert (line s = line s' ++ [in_at s (u32 (in_e s - 1))]) as El.
  { unfold line. rewrite En, <- Nat.add_1_r, ring_app. f_equal. unfold ring. simpl. f_equal.
    rewrite <- in_at_u32. f_equal. unfold cnt, u32. zdm. }
  split_and!; [|done| |done|by rewrite El, last_snoc].
  - split; try done; [apply u32_range|simpl; lia|]. intros Hin. apply H6. rewrite El. set_solver.
  - rewrite El. by rewrite removelast_last.
Qed.

Lemma wp_kill_line fuel s (Q : unit -> con -> Prop) : con_ok s -> (cnt (in_w s) (in_e s) <= fuel)%nat ->
  (forall s', con_ok s' -> abs s' = (committed s, []) -> cons_lock s' = cons_lock s -> Q tt s') ->
  wp (kill_line font_bin fuel) Q s.
Proof.
  revert s. induction fuel as [|k IH]; intros s H Hf HQ; cbn [kill_line]; apply wp_bind, wp_get.
  all: destruct (in_e s =? in_w s) eqn:E; bool_to_prop; cbn [negb andb].
  1, 3: apply wp_ret, HQ; [done| |done]; unfold abs, line; rewrite E; unfold cnt; by rewrite Z.sub_diag.
  all: destruct (line_shorter s H E) as (H' & Ec & El & En & Hlast).
  - lia.
  - assert (in_at s (u32 (in_e s - 1)) <> newline) as Hnl.
    { intros Heq. apply (co_line _ H). rewrite Heq in Hlast. by apply last_Some_elem_of in Hlast. }
    apply Z.eqb_neq in Hnl. rewrite Hnl. cbn [negb]. wp_steps. apply wp_consputc; [apply H'|]. intros s2 I2.
    destruct (inp_ok _ _ I2 H') as (H2 & Ec2 & El2). injection I2 as I21 _ _ _ I25 I26 _.
    apply IH; [done|rewrite I25, I26; cbn [in_w in_e upd_in_e] in En |- *; lia|]. intros s3 H3 E3 L3. apply HQ; [done| |congruence]. by rewrite E3, Ec2.
Qed.

Lemma ring_put s c a n t : length (in_buf s) = 128%nat -> 0 <= in_e s < 4294967296 -> u32 (a + Z.of_nat t) = in_e s -> (n <= t <= 127)%nat ->
  ring (upd_in_buf (<[Z.to_nat (in_e s mod INPUT_BUF) := c]>) s) a n = ring s a n.
Proof.
  intros Hl He Ht Hn. unfold ring. apply list_fmap_ext. intros i x Hx. apply lookup_seq in Hx as [-> Hi].
  unfold in_at. simpl. rewrite list_lookup_insert_ne; [done|]. unfold INPUT_BUF, u32 in *. zdm.
Qed.

(** One character more in the line. *)
Lemma line_longer s c : con_ok s -> (cnt (in_r s) (in_e s) < 128)%nat -> 0 <= c < 256 ->
  let s' := upd_in_e (fun e => u32 (e + 1)) (upd_in_buf (<[Z.to_nat (in_e s mod INPUT_BUF) := u8 c]>) s) in
  committed s' = committed s /\ line s' = line s ++ [c] /\ cnt (in_w s') (in_e s') = S (cnt (in_w s) (in_e s)).
Proof.
  intros H Hr Hc s'. pose proof (cnt_sum _ H) as Hs. destruct H as [H1 H2 H3 H4 H5 H6 H7].
  assert (cnt (in_w s') (in_e s') = S (cnt (in_w s) (in_e s))) as En.
  { unfold s', cnt in *. simpl. unfold u32 in *. zdm. }
  split_and!; [| |done].
  - unfold committed, s'. simpl. apply (ring_put s (u8 c) _ _ (cnt (in_r s) (in_e s))); [done|done| |lia].
    unfold cnt, u32. zdm.
  - unfold line. rewrite En, <- Nat.add_1_r, ring_app. f_equal.
    + unfold s'. simpl. apply (ring_put s (u8 c) _ _ (cnt (in_w s) (in_e s))); [done|done| |lia]. unfold cnt, u32. zdm.
    + unfold ring. cbn [seq fmap list_fmap]. f_equal. rewrite <- in_at_u32. change (Z.of_nat 0) with 0. change (in_w s') with (in_w s).
      replace (u32 (u32 (in_w s + Z.of_nat (cnt (in_w s) (in_e s))) + 0)) with (in_e s) by (unfold cnt, u32; zdm).
      unfold in_at, s'. cbn [in_buf upd_in_e upd_in_buf]. rewrite list_lookup_insert_eq by (rewrite H1; unfold INPUT_BUF; zdm). simpl. by apply u8_small.
Qed.

(** The line is handed to the readers. *)
Lemma line_commit s : 0 <= in_w s < 4294967296 -> cnt (in_r s) (in_e s) = (cnt (in_r s) (in_w s) + cnt (in_w s) (in_e s))%nat ->
  let s' := upd_in_w (fun _ => in_e s) s in
  committed s' = committed s ++ line s /\ line s' = [] /\ cnt (in_r s') (in_w s') = cnt (in_r s) (in_e s).
Proof.
  intros Hw Hc s'. split_and!; [| |done].
  - unfold committed, line, s'. cbn [in_r in_w upd_in_w]. rewrite Hc, !(ring_ext s (upd_in_w _ s)) by done. rewrite ring_app. do 2 f_equal.
    unfold cnt, u32 in *. zdm.
  - unfold line, s', cnt. simpl. by rewrite Z.sub_diag.
Qed.

Lemma wp_put_char c s (Q : unit -> con -> Prop) :
  Q tt (upd_in_e (fun e => u32 (e + 1)) (upd_in_buf (<[Z.to_nat (in_e s mod INPUT_BUF) := u8 c]>) s)) -> wp (put_char c) Q s.
Proof. done. Qed.

(** The bytes that a handled character commits, or not. *)
Lemma wp_console_char c s : con_ok s -> 0 <= c < 256 ->
  wp (console_char font_bin c) (fun b s' => con_ok s' /\ abs s' = edit c (abs s) /\ cons_lock s' = cons_lock s) s.
Proof.
  intros H Hc. unfold console_char, edit, abs. destruct (c =? ctrl_P); [by apply wp_ret|].
  destruct (c =? ctrl_U).
  { apply wp_bind, wp_kill_line; [done|pose proof (co_room _ H); change (Z.to_nat INPUT_BUF) with 128%nat; lia|]. intros s' H' E L. by apply wp_ret. }
  destruct (_ || _).
  { apply wp_bind, wp_get. destruct (in_e s =? in_w s) eqn:E; bool_to_prop; cbn [negb when]; wp_steps.
    - split_and!; [done| |done]. f_equal. unfold line. rewrite E. unfold cnt. by rewrite Z.sub_diag.
    - destruct (line_shorter s H E) as (H' & Ec & El & _). apply wp_consputc; [apply H'|]. intros s2 I2. wp_steps.
      destruct (inp_ok _ _ I2 H') as (H2 & Ec2 & El2). split_and!; [done|congruence|]. by injection I2. }
  pose proof (cnt_sum _ H) as Hsum. apply wp_bind, wp_get.
  assert ((u32 (in_e s - in_r s) <? INPUT_BUF) = negb (128 <=? length (committed s) + length (line s))%nat) as Eroom.
  { unfold committed, line. rewrite !length_ring, <- Hsum. unfold cnt, INPUT_BUF. pose proof (u32_range (in_e s - in_r s)).
    destruct (_ <? _) eqn:E1, (_ <=? _)%nat eqn:E2; bool_to_prop; try done;
      [apply Nat.leb_le in E2; lia|apply Nat.leb_gt in E2; lia]. }
  rewrite Eroom, <- negb_orb. destruct (_ || _) eqn:Eb; cbn [negb when]; [by wp_steps|].
  apply orb_false_iff in Eb as [_ Eb]. apply Nat.leb_gt in Eb. unfold committed, line in Eb. rewrite !length_ring in Eb.
  set (c' := if c =? 13 then newline else c). assert (0 <= c' < 256) as Hc' by (unfold c', newline; destruct (c =? 13); lia).
  wp_steps. apply wp_put_char. destruct (line_longer s c' H ltac:(lia) Hc') as (Ecm & Eln & En).
  set (s1 := upd_in_e _ _) in *. wp_steps. apply wp_consputc; [apply H|]. intros s2 I2. wp_steps. cbv zeta.
  assert (committed s2 = committed s /\ line s2 = line s ++ [c']) as [Ec2 El2].
  { injection I2 as _ _ I3 I4 I5 I6 _. unfold committed, line in *. rewrite !(ring_ext s1 s2) by done. by rewrite I4, I5, I6. }
  assert (cnt (in_w s2) (in_e s2) = S (cnt (in_w s) (in_e s)) /\ cnt (in_r s2) (in_w s2) = cnt (in_r s) (in_w s) /\
    cnt (in_r s2) (in_e s2) = S (cnt (in_r s) (in_e s)) /\ 0 <= in_w s2 < 4294967296 /\ 0 <= in_r s2 < 4294967296 /\
    0 <= in_e s2 < 4294967296 /\ length (in_buf s2) = 128%nat /\ panicked s2 = false /\ cons_lock s2 = cons_lock s) as (E1 & E2 & E3 & E4 & E5 & E6 & E7 & E8 & E9).
  { destruct H as [H1 H2 H3 H4 H5 H6 H7]. injection I2 as J1 J2 J3 J4 J5 J6 _. rewrite J3, J4, J5, J6. unfold s1. simpl. rewrite length_insert.
    split_and!; try congruence; try done; try lia; try apply u32_range. unfold cnt, u32 in *. zdm. }
  assert ((in_e s2 =? u32 (in_r s2 + INPUT_BUF)) = (length (committed s) + length (line s ++ [c']) =? 128)%nat) as Efull.
  { unfold committed, line. rewrite length_app, !length_ring. cbn [length].
    assert (in_e s2 = u32 (in_r s2 + INPUT_BUF) <-> cnt (in_r s2) (in_e s2) = 128%nat) as Hiff
      by (unfold cnt, INPUT_BUF, u32 in *; split; intros; zdm).
    apply eq_iff_eq_true. rewrite Z.eqb_eq, Nat.eqb_eq, Hiff. lia. }
  rewrite Efull. destruct (_ || _) eqn:Ecm2; cbn [when]; wp_steps.
  - destruct (line_commit s2 E4 ltac:(lia)) as (F1 & F2 & F3). set (s3 := upd_in_w _ s2) in *.
    assert (inp (over con_envl (env_wake input_chan) s3) = inp s3) as I3 by done.
    assert (con_ok s3) as H3.
    { assert (cnt (in_w s3) (in_e s3) = 0%nat) as Hz by (unfold cnt, s3; simpl; by rewrite Z.sub_diag).
      split; try done; [|by rewrite F2; apply not_elem_of_nil]. rewrite F3, Hz. lia. }
    destruct (inp_ok _ _ I3 H3) as (H4 & G1 & G2). split_and!; [done| |done]. rewrite G1, G2, F1, F2. congruence.
  - split_and!; [|congruence|done]. split; try done; [lia|]. rewrite El2, elem_of_app, list_elem_of_singleton.
    intros [Hin|Hin]; [by apply (co_line _ H)|]. rewrite <- Hin in Ecm2. discriminate Ecm2.
Qed.

(** ** Reading *)

(** The bytes that a read of [n] bytes takes from [cm], and what stays; [None] when
    the reader has to wait.  [got]: some bytes were read before. *)
Fixpoint take_line (n : nat) (got : bool) (cm : list Z) : option (list Z * list Z) :=
  match n with
  | O => Some ([], cm)
  | S k =>
      match cm with
      | [] => None
      | c :: cm' =>
          if c =? ctrl_D then Some ([], if got then cm else cm')
          else if c =? newline then Some ([c], cm')
          else match take_line k true cm' with
               | Some (l, rest) => Some (c :: l, rest)
               | None => None
               end
      end
  end.

(** A byte is taken. *)
Lemma read_byte s : con_ok s -> in_r s <> in_w s -> let s' := upd_in_r (fun r => u32 (r + 1)) s in
  con_ok s' /\ committed s = in_at s (in_r s) :: committed s' /\ line s' = line s.
Proof.
  intros H Hne s'. destruct H as [H1 H2 H3 H4 H5 H6 H7].
  assert (cnt (in_r s) (in_w s) = S (cnt (u32 (in_r s + 1)) (in_w s))) as En by (unfold cnt, u32 in *; zdm).
  split_and!; [|..|done].
  - split; try done; [apply u32_range|simpl; lia].
  - unfold committed, s'. cbn [in_r in_w upd_in_r]. rewrite En, (ring_app s _ 1). rewrite (ring_ext s (upd_in_r _ s)) by done.
    unfold ring at 1. cbn [seq fmap list_fmap app]. do 2 f_equal. change (Z.of_nat 0) with 0. by rewrite Z.add_0_r.
Qed.

Lemma unread s : 0 <= in_r s < 4294967296 -> upd_in_r (fun r => u32 (r - 1)) (upd_in_r (fun r => u32 (r + 1)) s) = s.
Proof.
  intros H. destruct s. unfold upd_in_r. simpl in *. f_equal. unfold u32. zdm.
Qed.

Lemma committed_nil s : con_ok s -> in_r s = in_w s -> committed s = [].
Proof. intros _ E. unfold committed, cnt. by rewrite E, Z.sub_diag. Qed.

Lemma wp_read_loop sleep fuel target n dst s l rest : con_ok s -> n <= target ->
  take_line (Z.to_nat n) (n <? target) (committed s) = Some (l, rest) -> (Z.to_nat n <= fuel)%nat -> 0 <= n ->
  wp (consoleread_loop sleep fuel target n dst) (fun r s' => r = (target - n + Z.of_nat (length l), dst ++ l) /\
    con_ok s' /\ abs s' = (rest, line s) /\ cons_lock s' = cons_lock s) s.
Proof.
  revert n dst s l. induction fuel as [|k IH]; intros n dst s l H Ht Hl Hf Hn; cbn [consoleread_loop];
    (destruct (0 <? n) eqn:E0; bool_to_prop;
     [|replace n with 0 in * by lia; injection Hl as <- <-; apply wp_ret; rewrite app_nil_r; split_and!; [f_equal; simpl; lia|done|done|done]]); [lia|].
  destruct (Z.to_nat n) as [|m] eqn:Em; [lia|]. cbn [take_line] in Hl. apply wp_bind, wp_get.
  destruct (in_r s =? in_w s) eqn:E; bool_to_prop.
  { rewrite (committed_nil s H E) in Hl. discriminate Hl. }
  destruct (read_byte s H E) as (H1 & Ec & El). set (s1 := upd_in_r _ s) in *. rewrite Ec in Hl. wp_steps. fold s1.
  destruct (in_at s (in_r s) =? ctrl_D) eqn:ED; bool_to_prop.
  - injection Hl as <- <-. rewrite app_nil_r. destruct (n <? target); cbn [when]; wp_steps.
    + rewrite <- Ec. unfold s1. rewrite (unread s (co_r _ H)). split_and!; [f_equal; simpl; lia|done|done|done].
    + split_and!; [f_equal; simpl; lia|done| |done]. unfold abs. by rewrite El.
  - destruct (in_at s (in_r s) =? newline) eqn:EN; bool_to_prop.
    + injection Hl as <- <-. wp_steps. split_and!; [f_equal; simpl; lia|done| |done]. unfold abs. by rewrite El.
    + destruct (take_line m true (committed s1)) as [[l' rest']|] eqn:Et; [|discriminate Hl]. injection Hl as <- <-.
      assert ((n - 1 <? target) = true) as Elt by (apply Z.ltb_lt; lia).
      eapply wp_mono; [apply (IH (n - 1) (dst ++ [in_at s (in_r s)]) s1 l'); [done|lia| |lia|lia]|].
      * rewrite Elt. by replace (Z.to_nat (n - 1)) with m by lia.
      * intros r s' (-> & H' & Ea & L). split_and!; [|done|by rewrite Ea, El|done]. rewrite <- app_assoc. cbn [app length]. f_equal. lia.
Qed.

Lemma lock_ok b s : con_ok s -> con_ok (set conslock b s) /\ abs (set conslock b s) = abs s /\ cons_lock (set conslock b s) = b.
Proof. intros []. split; [by split|done]. Qed.

(** ** Both sides *)
Section Interrupt.
Context (getc : M con Z) (procdump iunlock ilock sleep : M con unit) (pending : con -> list Z) (ready : con -> Prop).

(** In the states [ready] the device delivers the characters [pending] and nothing
    else. *)
Definition delivers : Prop := forall s, ready s ->
  match pending s with
  | [] => exists s', getc s = (Ret (-1), s') /\ inp s' = inp s
  | c :: l => 0 <= c < 256 /\ exists s', getc s = (Ret c, s') /\ inp s' = inp s /\ pending s' = l /\ ready s'
  end.

(** Taking the lock and handling a character do not consume input. *)
Definition keeps_pending : Prop := forall s, ready s ->
  (forall b, pending (set conslock b s) = pending s /\ ready (set conslock b s)) /\
  (forall c b s', console_char font_bin c s = (Ret b, s') -> pending s' = pending s /\ ready s').

Lemma wp_console_loop fuel d s : delivers -> keeps_pending -> ready s -> con_ok s -> (length (pending s) <= fuel)%nat ->
  wp (console_loop font_bin getc fuel d) (fun _ s' => con_ok s' /\ abs s' = foldl (fun a c => edit c a) (abs s) (pending s) /\
    cons_lock s' = cons_lock s) s.
Proof.
  intros HD HK. revert d s. induction fuel as [|k IH]; intros d s HR H Hf; cbn [console_loop]; apply wp_bind;
    pose proof (HD s HR) as Hd; destruct (pending s) as [|c l] eqn:Ep.
  1, 3: destruct Hd as (s1 & E1 & I1); eapply wp_eq; [exact E1|]; apply wp_ret; destruct (inp_ok _ _ I1 H) as (H1 & Ec & El);
    split_and!; [done|unfold abs; simpl; congruence|by injection I1].
  { simpl in Hf. lia. }
  destruct Hd as (Hc & s1 & E1 & I1 & P1 & R1). eapply wp_eq; [exact E1|]. assert ((0 <=? c) = true) as -> by (apply Z.leb_le; lia).
  destruct (inp_ok _ _ I1 H) as (H1 & Ec & El). destruct (wp_returns _ _ _ (wp_console_char c s1 H1 Hc)) as (b & s2 & E2 & H2 & A2 & L2).
  apply wp_bind. eapply wp_eq; [exact E2|]. destruct (proj2 (HK s1 R1) _ _ _ E2) as [P2 R2]. rewrite P1 in P2. simpl in Hf.
  eapply wp_mono; [apply (IH _ s2 R2 H2); rewrite P2; lia|]. intros _ s3 (H3 & A3 & L3). split_and!; [done| |].
  - rewrite A3, P2. cbn [foldl]. rewrite A2. unfold abs. congruence.
  - rewrite L3, L2. by injection I1.
Qed.

(** C11: the console is a line editor in front of a queue of lines, although its
    state is a ring buffer with three counters that wrap around.  The interrupt
    handler, given any characters, returns and has edited exactly as [edit] says:
    backspace and kill affect only the line being typed, a line is handed over
    when it ends or the buffer is full, and nothing is overwritten; a read that
    need not wait takes the bytes [take_line] says (up to a newline; an
    end-of-file mark ends it and is kept if bytes were read before), and leaves
    the line being typed alone. *)
Theorem console_line_discipline s : con_ok s -> cons_lock s = false ->
  (delivers -> keeps_pending -> ready s -> quiet procdump ->
     wp (consoleintr font_bin getc procdump (length (pending s)))
       (fun _ s' => con_ok s' /\ cons_lock s' = false /\ abs s' = foldl (fun a c => edit c a) (abs s) (pending s)) s) /\
  (forall n wakeups l rest, quiet iunlock -> quiet ilock -> 0 <= n ->
     take_line (Z.to_nat n) false (committed s) = Some (l, rest) ->
     wp (consoleread iunlock ilock sleep wakeups n)
       (fun r s' => r = (Z.of_nat (length l), l) /\ con_ok s' /\ cons_lock s' = false /\ abs s' = (rest, line s)) s).
Proof.
  intros H HL. split.
  - intros HD HK HR HP. unfold consoleintr. apply wp_bind. eapply wp_eq; [by apply acquire_flag_run|].
    destruct (lock_ok true s H) as (H1 & A1 & _). destruct (proj1 (HK s HR) true) as [P1 R1].
    rewrite <- A1, <- P1. apply wp_bind.
    eapply wp_mono; [by apply wp_console_loop|]. intros d s2 (H2 & A2 & L2). apply wp_bind.
    eapply wp_eq; [apply release_flag_run; exact L2|]. destruct (lock_ok false s2 H2) as (H3 & A3 & L3).
    assert (quiet (when d procdump)) as Hq by by apply quiet_when. destruct (Hq (set conslock false s2)) as ([] & s4 & E4 & I4).
    eapply wp_eq; [exact E4|]. destruct (inp_ok _ _ I4 H3) as (H4 & Ec & El). split_and!; [done|by injection I4|].
    unfold abs in *. congruence.
  - intros n wakeups l rest Hu Hk Hn Hl. unfold consoleread. apply wp_bind. destruct (Hu s) as ([] & s1 & E1 & I1).
    eapply wp_eq; [exact E1|]. destruct (inp_ok _ _ I1 H) as (H1 & Ec1 & El1). apply wp_bind.
    assert (cons_lock s1 = false) as L1 by (injection I1; congruence).
    eapply wp_eq; [apply acquire_flag_run; exact L1|]. destruct (lock_ok true s1 H1) as (H2 & A2 & _). apply wp_bind.
    pose proof (f_equal fst A2) as A21. pose proof (f_equal snd A2) as A22. cbn [fst snd abs] in A21, A22. eapply wp_mono; [apply (wp_read_loop sleep _ n n [] _ l rest H2); [lia| |lia|done]|].
    { rewrite Z.ltb_irrefl, A21. by rewrite Ec1. }
    intros r s3 (-> & H3 & A3 & L3). apply wp_bind. eapply wp_eq; [apply release_flag_run; exact L3|].
    destruct (lock_ok false s3 H3) as (H4 & A4 & L4). apply wp_bind. destruct (Hk (set conslock false s3)) as ([] & s5 & E5 & I5).
    eapply wp_eq; [exact E5|]. apply wp_ret. destruct (inp_ok _ _ I5 H4) as (H5 & Ec5 & El5). split_and!; [|done|by injection I5|].
    + f_equal. lia.
    + unfold abs in *. pose proof (f_equal fst A4) as A41. pose proof (f_equal snd A4) as A42. cbn [fst snd] in A41, A42.
      injection A3 as A31 A32. change (line (upd_cons_lock (fun _ => true) s1)) with (line s1) in A32. congruence.
Qed.

End Interrupt.
End Line.

(** ** A console without a serial port *)
Definition con0 (l : list Z) : con :=
  Con false false false 0 (replicate 128 0) 4294967290 4294967290 4294967290 false 0 l [] ∅ (Display 0 0 0 0 0 0) (Env 0 false []).

(** A device that delivers what is in [io_in]. *)
Definition getc0 : M con Z :=
  l ← gets io_in;
  match l with
  | [] => ret (-1)
  | v :: l' => modify (upd_io_in (fun _ => l')) ;; ret (u8 v)
  end.

Definition dev (s : con) : list Z * bool := (io_in s, uart s).

Definition idle (s : con) : Prop := uart s = false.

Lemma delivers0 : delivers getc0 (fun s => u8 <$> io_in s) idle.
Proof.
  intros s Hr. unfold getc0. destruct (io_in s) as [|v l] eqn:E; simpl.
  - exists s. unfold bind, gets. by rewrite E.
  - split; [apply u8_range|]. eexists. unfold bind, gets. rewrite E. split; [reflexivity|done].
Qed.

(** Without a serial port, output reads no ports. *)
Definition keepdev {A} (m : M con A) : Prop := forall s o s', uart s = false -> m s = (o, s') -> dev s' = dev s.

Lemma keepdev_pres {A} (m : M con A) : preserves dev m -> keepdev m.
Proof. intros H s o s' _. apply H. Qed.

Lemma keepdev_bind {A B} (m : M con A) (k : A -> M con B) : keepdev m -> (forall a, keepdev (k a)) -> keepdev (bind m k).
Proof.
  intros Hm Hk s o s' Hu H. unfold bind in H. destruct (m s) as [[a|msg|ch] s1] eqn:E; pose proof (Hm _ _ _ Hu E) as E1;
    [|by injection H as _ <-..]. rewrite <- E1. eapply Hk; [|exact H]. injection E1 as _ ->. done.
Qed.

Lemma keepdev_uart c : keepdev (uartputc c).
Proof. intros s o s' Hu E. unfold uartputc, bind, gets in E. rewrite Hu in E. by injection E as _ <-. Qed.

Lemma keepdev_graphic f c : keepdev (graphic_putc f c).
Proof.
  apply keepdev_pres. unfold graphic_putc, graphic_scroll_up, font_render, graphic_draw_pixel. preserve; by apply pres_modify.
Qed.

Ltac keeping :=
  repeat match goal with
  | |- keepdev (bind _ _) => apply keepdev_bind; [|intros ?]
  | |- keepdev (if ?b then _ else _) => destruct b
  | |- keepdev (when ?b _) => destruct b; cbn [when]
  | |- keepdev (uartputc _) => apply keepdev_uart
  | |- keepdev (graphic_putc _ _) => apply keepdev_graphic
  | |- keepdev (modify _) => by apply keepdev_pres, pres_modify
  | |- keepdev _ => by apply keepdev_pres; eauto with pres
  end.

Lemma keepdev_consputc f c : keepdev (consputc f c).
Proof. unfold consputc. keeping. Qed.

Lemma keepdev_get : keepdev get.
Proof. by intros s o s' _ [= _ <-]. Qed.

Lemma keepdev_kill f n : keepdev (kill_line f n).
Proof.
  induction n as [|k IH]; cbn [kill_line]; (apply keepdev_bind; [apply keepdev_get|intros s]); keeping; try done; apply keepdev_consputc.
Qed.

Lemma keepdev_char f c : keepdev (console_char f c).
Proof.
  unfold console_char, put_char, wakeup_ev. keeping; try apply keepdev_kill; try apply keepdev_get; try apply keepdev_consputc.
Qed.

Lemma keeps0 f : keeps_pending f (fun s => u8 <$> io_in s) idle.
Proof.
  intros s Hr. split; [done|]. intros c b s' E. pose proof (keepdev_char f c s _ s' Hr E) as [= E1 E2].
  rewrite E1. split; [done|]. unfold idle. by rewrite E2.
Qed.

(** Typing "lx", backspace, "s", return, and reading the line. *)
Lemma console_line_discipline_witness : exists s1 s2 : con,
  consoleintr (fun _ _ => 0) getc0 (ret tt) 5 (con0 [108; 120; 8; 115; 13]) = (Ret tt, s1) /\
  abs s1 = ([108; 115; 10], []) /\
  consoleread (ret tt) (ret tt) (ret tt) 0 100 s1 = (Ret (3, [108; 115; 10]), s2).
Proof.
  assert (con_ok (con0 [108; 120; 8; 115; 13])) as H0.
  { split; try done; try (simpl; lia); try (by vm_compute; lia). apply not_elem_of_nil. }
  destruct (console_line_discipline (fun _ _ => 0) getc0 (ret tt) (ret tt) (ret tt) (ret tt) (fun s => u8 <$> io_in s) idle _ H0 eq_refl) as [H1 _].
  destruct (wp_returns _ _ _ (H1 delivers0 (keeps0 _) eq_refl (quiet_ret tt))) as ([] & s1 & E1 & H2 & L2 & A2). exists s1.
  assert (abs s1 = ([108; 115; 10], [])) as Ea by (rewrite A2; by vm_compute).
  destruct (console_line_discipline (fun _ _ => 0) getc0 (ret tt) (ret tt) (ret tt) (ret tt) (fun s => u8 <$> io_in s) idle s1 H2 L2) as [_ H3].
  assert (take_line (Z.to_nat 100) false (committed s1) = Some ([108; 115; 10], [])) as Et.
  { change (committed s1) with (abs s1).1. by rewrite Ea. }
  destruct (wp_returns _ _ _ (H3 100 0%nat _ _ (quiet_ret tt) (quiet_ret tt) ltac:(lia) Et)) as (r & s2 & E2 & -> & _).
  exists s2. split_and!; [exact E1|exact Ea|exact E2].
Defined.
