(* ===== verification/ConsolePrint.v ===== *)
(** * What printint prints

    The digits are read back with the usual positional value. *)
From S2P Require Import Prelude Mem Vm Device Console.

(** The value of a digit, of digits, and of a signed decimal number. *)
Definition dval (c : Z) : Z := if c <? 58 then c - 48 else c - 87.

Definition value (base : Z) (l : list Z) : Z := foldl (fun acc c => acc * base + dval c) 0 l.

Definition parse_int (l : list Z) : Z :=
  match l with
  | c :: l' => if c =? 45 then - value 10 l' else value 10 l
  | [] => 0
  end.

Lemma dval_digit d : 0 <= d < 16 -> dval (digit d) = d /\ digit d <> 45.
Proof. intros Hd. unfold dval, digit. destruct (d <? 10) eqn:E; bool_to_prop; case_bools; lia. Qed.

Lemma value_snoc base l c : value base (l ++ [c]) = value base l * base + dval c.
Proof. unfold value. by rewrite foldl_app. Qed.

Section Digits.
Context (base : Z) (Hbase : 2 <= base <= 16).

Lemma print_digits_value fuel x : 0 <= x < base ^ Z.of_nat fuel ->
  value base (rev (print_digits fuel x base)) = x /\ Forall (fun c => c <> 45) (print_digits fuel x base).
Proof.
  revert x. induction fuel as [|k IH]; intros x Hx; [change (base ^ Z.of_nat 0) with 1 in Hx; assert (x = 0) as -> by lia; split; [done|constructor]|].
  rewrite Nat2Z.inj_succ, Z.pow_succ_r in Hx by lia. cbn [print_digits rev].
  pose proof (Z.mod_pos_bound x base ltac:(lia)) as Hm. destruct (dval_digit (x mod base) ltac:(lia)) as [Hd Hd'].
  rewrite value_snoc, Hd. pose proof (Z.div_mod x base ltac:(lia)).
  destruct (x / base =? 0) eqn:E; bool_to_prop; cbn [negb].
  - rewrite E in H. split; [change (value base (rev [])) with 0; lia|by repeat constructor].
  - destruct (IH (x / base)) as [H1 H2]; [split; [apply Z.div_pos; lia|apply Z.div_lt_upper_bound; lia]|].
    rewrite H1. split; [lia|by constructor].
Qed.

(** No more digits than the number needs. *)
Lemma print_digits_length fuel n x : 0 <= x < base ^ Z.of_nat (S n) -> (length (print_digits fuel x base) <= S n)%nat.
Proof.
  revert fuel x. induction n as [|n IH]; intros [|fuel] x Hx; cbn [print_digits length]; try lia.
  - change (base ^ Z.of_nat 1) with (base ^ 1) in Hx. rewrite Z.pow_1_r in Hx. by rewrite Z.div_small.
  - destruct (negb _); [|simpl; lia]. enough (length (print_digits fuel (x / base) base) <= S n)%nat by lia. apply IH.
    rewrite (Nat2Z.inj_succ (S n)), Z.pow_succ_r in Hx by lia. split; [apply Z.div_pos; lia|apply Z.div_lt_upper_bound; lia].
Qed.

(** No leading zero, but for the number 0. *)
Lemma print_digits_last fuel x : 0 < x < base ^ Z.of_nat fuel -> last (print_digits fuel x base) <> Some 48.
Proof.
  revert x. induction fuel as [|k IH]; intros x Hx; [change (base ^ Z.of_nat 0) with 1 in Hx; lia|].
  rewrite Nat2Z.inj_succ, Z.pow_succ_r in Hx by lia. cbn [print_digits]. pose proof (Z.div_mod x base ltac:(lia)).
  pose proof (Z.mod_pos_bound x base ltac:(lia)) as Hm. destruct (x / base =? 0) eqn:E; bool_to_prop; cbn [negb].
  - rewrite E in H. cbn [last]. unfold digit. destruct (_ <? 10) eqn:E2; bool_to_prop; intros [=]; lia.
  - assert (0 < x / base) by (pose proof (Z.div_pos x base); lia).
    assert (x / base < base ^ Z.of_nat k) by (apply Z.div_lt_upper_bound; lia).
    specialize (IH (x / base) ltac:(lia)). rewrite last_cons. destruct (last _) eqn:El; [done|].
    apply last_None in El. destruct k; [simpl in *; lia|done].
Qed.

End Digits.

Lemma value_head c l : c <> 45 -> parse_int (c :: l) = value 10 (c :: l).
Proof. intros H. unfold parse_int. by apply Z.eqb_neq in H as ->. Qed.

Lemma print_digits_nonempty fuel x base : print_digits (S fuel) x base <> [].
Proof. done. Qed.

Lemma digits_head fuel x : 0 <= x < 10 ^ Z.of_nat (S fuel) -> parse_int (rev (print_digits (S fuel) x 10)) = x.
Proof.
  intros Hx. destruct (print_digits_value 10 ltac:(lia) (S fuel) x Hx) as [Hv Hf]. rewrite <- Hv at 2.
  destruct (rev (print_digits (S fuel) x 10)) as [|c l] eqn:E; [done|]. apply value_head.
  assert (c ∈ print_digits (S fuel) x 10) as Hc by (apply list_elem_of_In, in_rev; rewrite E; by left).
  by apply (Forall_elem _ _ c Hf).
Qed.

(** printing an integer and reading it back.  The decimal text of every 32-bit
    integer, the smallest one included, denotes that integer, and the
    hexadecimal text denotes the word; both fit the 16-byte buffer of
    [printint] (11 and 8 characters at most) and have no superfluous zeros. *)
Theorem printint_roundtrip xx : -2147483648 <= xx < 2147483648 ->
  parse_int (int_chars xx 10 true) = xx /\ (length (int_chars xx 10 true) <= 11)%nat /\
  value 16 (int_chars xx 16 false) = u32 xx /\ (length (int_chars xx 16 false) <= 8)%nat /\
  (xx <> 0 -> head (int_chars xx 16 false) <> Some 48).
Proof.
  intros Hx. unfold int_chars. rewrite s32_small by done. cbn [andb]. pose proof (u32_range xx) as Hu.
  assert (10 ^ Z.of_nat 32 = 100000000000000000000000000000000) as P1 by reflexivity.
  assert (16 ^ Z.of_nat 32 = 340282366920938463463374607431768211456) as P2 by reflexivity.
  assert (10 ^ Z.of_nat 10 = 10000000000) as P3 by reflexivity. assert (16 ^ Z.of_nat 8 = 4294967296) as P4 by reflexivity.
  destruct (print_digits_value 16 ltac:(lia) 32 (u32 xx) ltac:(lia)) as [H16 _].
  pose proof (print_digits_length 16 ltac:(lia) 32 7 (u32 xx) ltac:(lia)) as L16.
  split_and!.
  - destruct (xx <? 0) eqn:E; bool_to_prop.
    + rewrite (u32_small (- xx)) by lia. rewrite rev_app_distr. cbn [rev app parse_int]. rewrite Z.eqb_refl.
      destruct (print_digits_value 10 ltac:(lia) 32 (- xx) ltac:(lia)) as [-> _]. lia.
    + rewrite (u32_small xx) by lia. apply digits_head. lia.
  - destruct (xx <? 0) eqn:E; bool_to_prop; rewrite length_rev, ?length_app.
    + pose proof (print_digits_length 10 ltac:(lia) 32 9 (u32 (- xx)) ltac:(pose proof (u32_range (- xx)); lia)). simpl length at 2. lia.
    + pose proof (print_digits_length 10 ltac:(lia) 32 9 (u32 xx) ltac:(lia)). lia.
  - exact H16.
  - by rewrite length_rev.
  - intros Hne. assert (0 < u32 xx) by (unfold u32 in *; zdm).
    pose proof (print_digits_last 16 ltac:(lia) 32 (u32 xx) ltac:(lia)) as Hl.
    intros Hh. apply Hl. rewrite <- (rev_involutive (print_digits 32 (u32 xx) 16)).
    destruct (rev _) as [|c l]; [done|]. injection Hh as ->. cbn [rev]. apply last_snoc.
Qed.

Lemma printint_roundtrip_witness : int_chars (-2147483648) 10 true = [45; 50; 49; 52; 55; 52; 56; 51; 54; 52; 56] /\
  parse_int (int_chars (-2147483648) 10 true) = -2147483648.
Proof. split; [reflexivity|]. apply (printint_roundtrip (-2147483648)). lia. Defined.
