(* ===== verification/Font.v ===== *)
(** * The font (src/xv6/font_bin.h)

    The bitmaps of the printable characters, in four parts: a row of the table is
    a character, an entry a line of 15 dots, the leftmost in bit 14. *)
From S2P Require Import Prelude.

(** The rows of the characters 32 to 56 *)
Definition font_rows_0 : list (list Z) :=
  [[0x0; 0x0; 0x0; 0x0; 0x0; 0x0; 0x0; 0x0; 0x0; 0x0;
    0x0; 0x0; 0x0; 0x0; 0x0; 0x0; 0x0; 0x0; 0x0; 0x0;
    0x0; 0x0; 0x0; 0x0; 0x0; 0x0; 0x0; 0x0; 0x0; 0x0];
   [0x0; 0x1C0; 0x1C0; 0x1C0; 0x1C0; 0x1C0; 0x1C0; 0x1C0; 0x1C0; 0x1C0;
    0x1C0; 0x180; 0x180; 0x180; 0x180; 0x180; 0x0; 0x0; 0x0; 0x1C0;
    0x3C0; 0x3C0; 0x1C0; 0x0; 0x0; 0x0; 0x0; 0x0; 0x0; 0x0];
   [0xC38; 0x1E38; 0x1E38; 0xE38; 0xE38; 0xC38; 0xC38; 0xC38; 0xC30; 0xC10;
    0x0; 0x0; 0x0; 0x0; 0x0; 0x0; 0x0; 0x0; 0x0; 0x0;
    0x0; 0x0; 0x0; 0x0; 0x0; 0x0; 0x0; 0x0; 0x0; 0x0];
   [0x0; 0x0; 0x318; 0x318; 0x318; 0x210; 0x630; 0x738; 0x3FFE; 0x3FFE;
    0x630; 0x630; 0x630; 0x630; 0x3FFC; 0x3FFC; 0x3FFC; 0xC60; 0xC60; 0xC60;
    0xC60; 0xC60; 0x18C0; 0x0; 0x0; 0x0; 0x0; 0x0; 0x0; 0x0];
   [0x180; 0x180; 0x3E0; 0x7F0; 0xFF8; 0xE18; 0x1C00; 0x1C00; 0x1E00; 0xF00;
    0xF80; 0x7C0; 0x3F0; 0x1F8; 0x78; 0x3C; 0x1C; 0x1C; 0x1C; 0x183C;
    0x1FF8; 0x1FF0; 0x7E0; 0x180; 0x180; 0x180; 0x80; 0x0; 0x0; 0x0];
   [0x0; 0x0; 0x1E00; 0x3F04; 0x330E; 0x730C; 0x6318; 0x6338; 0x6330; 0x3320;
    0x3700; 0x1E00; 0x800; 0x3C; 0x7C; 0x6C6; 0xCC6; 0x1CC6; 0x18C6; 0x38C6;
    0x30C6; 0x7C; 0x3C; 0x0; 0x0; 0x0; 0x0; 0x0; 0x0; 0x0];
   [0x0; 0x380; 0x7C0; 0xFE0; 0xC60; 0xC60; 0xC60; 0xC60; 0xEE0; 0xFC0;
    0xF80; 0x70E; 0xF0E; 0x1F8E; 0x1F8C; 0x39DC; 0x39FC; 0x38F8; 0x3878; 0x387C;
    0x3CFE; 0x1FFE; 0xFC4; 0x0; 0x0; 0x0; 0x0; 0x0; 0x0; 0x0];
   [0x1C0; 0x1C0; 0x1C0; 0x1C0; 0x1C0; 0x1C0; 0x1C0; 0x180; 0x180; 0x80;
    0x0; 0x0; 0x0; 0x0; 0x0; 0x0; 0x0; 0x0; 0x0; 0x0;
    0x0; 0x0; 0x0; 0x0; 0x0; 0x0; 0x0; 0x0; 0x0; 0x0];
   [0x38; 0x70; 0xE0; 0x1E0; 0x1C0; 0x380; 0x380; 0x380; 0x700; 0x700;
    0x700; 0x700; 0x700; 0x700; 0x700; 0x700; 0x700; 0x700; 0x700; 0x300;
    0x380; 0x380; 0x180; 0x1C0; 0xE0; 0xE0; 0x70; 0x38; 0x0; 0x0];
   [0xE00; 0xF00; 0x700; 0x380; 0x1C0; 0x1C0; 0xC0; 0xE0; 0xE0; 0xE0;
    0x60; 0x70; 0x70; 0x70; 0x70; 0x70; 0x70; 0x60; 0xE0; 0xE0;
    0xE0; 0xC0; 0x1C0; 0x380; 0x380; 0x700; 0xE00; 0xE00; 0x0; 0x0];
   [0x180; 0x180; 0x180; 0x1FF8; 0xFF8; 0x3E0; 0x3E0; 0x760; 0x630; 0x420;
    0x0; 0x0; 0x0; 0x0; 0x0; 0x0; 0x0; 0x0; 0x0; 0x0;
    0x0; 0x0; 0x0; 0x0; 0x0; 0x0; 0x0; 0x0; 0x0; 0x0];
   [0x0; 0x0; 0x0; 0x0; 0x0; 0x180; 0x180; 0x180; 0x180; 0x180;
    0x180; 0x3FFE; 0x3FFE; 0x1C0; 0x180; 0x180; 0x180; 0x180; 0x180; 0x180;
    0x0; 0x0; 0x0; 0x0; 0x0; 0x0; 0x0; 0x0; 0x0; 0x0];
   [0x0; 0x0; 0x0; 0x0; 0x0; 0x0; 0x0; 0x0; 0x0; 0x0;
    0x0; 0x0; 0x0; 0x0; 0x0; 0x0; 0x0; 0x0; 0x0; 0x3C0;
    0x3E0; 0x3E0; 0x1E0; 0x60; 0xC0; 0xC0; 0x380; 0x300; 0x200; 0x0];
   [0x0; 0x0; 0x0; 0x0; 0x0; 0x0; 0x0; 0x0; 0x0; 0x0;
    0x0; 0x0; 0x0; 0xFF0; 0xFF0; 0xFF0; 0x0; 0x0; 0x0; 0x0;
    0x0; 0x0; 0x0; 0x0; 0x0; 0x0; 0x0; 0x0; 0x0; 0x0];
   [0x0; 0x0; 0x0; 0x0; 0x0; 0x0; 0x0; 0x0; 0x0; 0x0;
    0x0; 0x0; 0x0; 0x0; 0x0; 0x0; 0x0; 0x0; 0x0; 0x1C0;
    0x3C0; 0x3C0; 0x1C0; 0x0; 0x0; 0x0; 0x0; 0x0; 0x0; 0x0];
   [0xC; 0xC; 0x1C; 0x18; 0x18; 0x30; 0x30; 0x30; 0x60; 0x60;
    0xE0; 0xC0; 0xC0; 0x180; 0x180; 0x180; 0x300; 0x300; 0x300; 0x600;
    0x600; 0xE00; 0xC00; 0xC00; 0x1800; 0x1800; 0x1800; 0x3000; 0x0; 0x0];
   [0x0; 0x0; 0x3E0; 0x7F0; 0xFF0; 0xE38; 0x1C38; 0x1C1C; 0x1C1C; 0x1C1C;
    0x3C1C; 0x3C1C; 0x3C1C; 0x3C1C; 0x1C1C; 0x1C1C; 0x1C1C; 0x1C1C; 0x1C38; 0xE38;
    0xF78; 0x7F0; 0x3E0; 0x0; 0x0; 0x0; 0x0; 0x0; 0x0; 0x0];
   [0x0; 0x0; 0x1C0; 0x7C0; 0xFC0; 0xFC0; 0x1C0; 0x1C0; 0x1C0; 0x1C0;
    0x1C0; 0x1C0; 0x1C0; 0x1C0; 0x1C0; 0x1C0; 0x1C0; 0x1C0; 0x1C0; 0x1C0;
    0x1FFC; 0x1FFC; 0x1FFC; 0x0; 0x0; 0x0; 0x0; 0x0; 0x0; 0x0];
   [0x0; 0x0; 0x7E0; 0x1FF0; 0x3FF0; 0x1838; 0x38; 0x38; 0x38; 0x38;
    0x38; 0x78; 0x70; 0xF0; 0xE0; 0x1C0; 0x3C0; 0x780; 0x700; 0xE00;
    0x1FFC; 0x3FFC; 0x3FFC; 0x0; 0x0; 0x0; 0x0; 0x0; 0x0; 0x0];
   [0x0; 0x0; 0x7E0; 0x1FF0; 0x1FF8; 0x1838; 0x38; 0x38; 0x38; 0x38;
    0xF0; 0x3E0; 0x3E0; 0x3F0; 0x78; 0x38; 0x1C; 0x1C; 0x1C; 0x1838;
    0x3EF8; 0x1FF0; 0xFE0; 0x0; 0x0; 0x0; 0x0; 0x0; 0x0; 0x0];
   [0x0; 0x0; 0xF0; 0xF0; 0x1F0; 0x1F0; 0x3F0; 0x370; 0x770; 0x670;
    0xE70; 0xC70; 0x1C70; 0x1870; 0x3878; 0x3FFC; 0x3FFC; 0x78; 0x70; 0x70;
    0x70; 0x70; 0x70; 0x0; 0x0; 0x0; 0x0; 0x0; 0x0; 0x0];
   [0x0; 0x0; 0xFF8; 0xFF8; 0xFF8; 0xE00; 0xE00; 0xE00; 0xC00; 0xC00;
    0xFE0; 0x1FF0; 0xC78; 0x38; 0x3C; 0x1C; 0x1C; 0x1C; 0x3C; 0x1038;
    0x3EF8; 0x1FF0; 0xFE0; 0x0; 0x0; 0x0; 0x0; 0x0; 0x0; 0x0];
   [0x0; 0x0; 0x1F0; 0x7F8; 0x7F8; 0xE08; 0x1E00; 0x1C00; 0x1C00; 0x1C00;
    0x1CE0; 0x1FF0; 0x1FF8; 0x1E3C; 0x1C1C; 0x1C1C; 0x1C1C; 0x1C1C; 0x1C1C; 0xE1C;
    0xF78; 0x7F0; 0x3E0; 0x0; 0x0; 0x0; 0x0; 0x0; 0x0; 0x0];
   [0x0; 0x0; 0x1FFC; 0x1FFC; 0x1FFC; 0x38; 0x38; 0x70; 0x70; 0xE0;
    0xE0; 0xE0; 0x1C0; 0x1C0; 0x1C0; 0x1C0; 0x3C0; 0x380; 0x380; 0x380;
    0x380; 0x380; 0x380; 0x0; 0x0; 0x0; 0x0; 0x0; 0x0; 0x0];
   [0x0; 0x0; 0x7E0; 0xFF0; 0xE78; 0x1C38; 0x1C18; 0x1C18; 0x1C18; 0x1E38;
    0xF30; 0x7F0; 0x7E0; 0xFF0; 0x1C78; 0x1C3C; 0x381C; 0x381C; 0x381C; 0x1C1C;
    0x1E3C; 0xFF8; 0x7F0; 0x0; 0x0; 0x0; 0x0; 0x0; 0x0; 0x0]].

(** The rows of the characters 57 to 81 *)
Definition font_rows_1 : list (list Z) :=
  [[0x0; 0x0; 0x7C0; 0xFE0; 0x1E70; 0x1C38; 0x1C38; 0x381C; 0x381C; 0x381C;
    0x1C1C; 0x1C3C; 0x1FFC; 0xFFC; 0x79C; 0x1C; 0x1C; 0x38; 0x38; 0x878;
    0x1CF0; 0x1FE0; 0xFC0; 0x0; 0x0; 0x0; 0x0; 0x0; 0x0; 0x0];
   [0x0; 0x0; 0x0; 0x0; 0x0; 0x0; 0x0; 0x180; 0x3C0; 0x3C0;
    0x3C0; 0x1C0; 0x0; 0x0; 0x0; 0x0; 0x0; 0x0; 0x0; 0x1C0;
    0x3C0; 0x3C0; 0x1C0; 0x0; 0x0; 0x0; 0x0; 0x0; 0x0; 0x0];
   [0x0; 0x0; 0x0; 0x0; 0x0; 0x0; 0x0; 0x180; 0x3C0; 0x3C0;
    0x3C0; 0x1C0; 0x0; 0x0; 0x0; 0x0; 0x0; 0x0; 0x0; 0x3C0;
    0x3E0; 0x3E0; 0x1E0; 0x60; 0xC0; 0xC0; 0x380; 0x300; 0x200; 0x0];
   [0x0; 0x0; 0x0; 0x0; 0x0; 0x0; 0x6; 0x1E; 0xFE; 0x3F0;
    0x1F80; 0x3E00; 0x3C00; 0x3F00; 0x7E0; 0x1FC; 0x3E; 0xE; 0x0; 0x0;
    0x0; 0x0; 0x0; 0x0; 0x0; 0x0; 0x0; 0x0; 0x0; 0x0];
   [0x0; 0x0; 0x0; 0x0; 0x0; 0x0; 0x0; 0x3FFC; 0x3FFE; 0x3FFE;
    0x0; 0x0; 0x0; 0x0; 0x0; 0x3FFE; 0x3FFE; 0x0; 0x0; 0x0;
    0x0; 0x0; 0x0; 0x0; 0x0; 0x0; 0x0; 0x0; 0x0; 0x0];
   [0x0; 0x0; 0x0; 0x0; 0x0; 0x0; 0x2000; 0x3C00; 0x3F00; 0xFE0;
    0x1F8; 0x3C; 0x1C; 0xFC; 0x7F0; 0x3F80; 0x3E00; 0x3000; 0x0; 0x0;
    0x0; 0x0; 0x0; 0x0; 0x0; 0x0; 0x0; 0x0; 0x0; 0x0];
   [0x0; 0x7E0; 0xFF0; 0x1E78; 0x838; 0x38; 0x38; 0x38; 0x38; 0x70;
    0xF0; 0xE0; 0x1C0; 0x1C0; 0x380; 0x380; 0x0; 0x0; 0x0; 0x3C0;
    0x3C0; 0x3C0; 0x3C0; 0x0; 0x0; 0x0; 0x0; 0x0; 0x0; 0x0];
   [0x0; 0x0; 0x1E0; 0x7F0; 0xF38; 0xC1C; 0x1C0C; 0x180C; 0x380C; 0x380C;
    0x301C; 0x307C; 0x31FC; 0x31CC; 0x338C; 0x338C; 0x338C; 0x339C; 0x31FC; 0x31E4;
    0x3800; 0x1800; 0x1800; 0x1C00; 0xE00; 0x738; 0x3F8; 0xE0; 0x0; 0x0];
   [0x0; 0x0; 0x3E0; 0x3E0; 0x7E0; 0x7E0; 0x770; 0x770; 0x670; 0xE70;
    0xE70; 0xE38; 0xE38; 0xC38; 0x1FF8; 0x1FF8; 0x1FFC; 0x1C1C; 0x381C; 0x381C;
    0x381C; 0x380E; 0x380E; 0x0; 0x0; 0x0; 0x0; 0x0; 0x0; 0x0];
   [0x0; 0x0; 0x1FE0; 0x1FF8; 0x1C78; 0x1C3C; 0x1C3C; 0x1C3C; 0x1C38; 0x1C38;
    0x1EF0; 0x1FE0; 0x1FF8; 0x1C3C; 0x1C1C; 0x1C1C; 0x1C1C; 0x1C1C; 0x1C1C; 0x1C3C;
    0x1FF8; 0x1FF0; 0x1FE0; 0x0; 0x0; 0x0; 0x0; 0x0; 0x0; 0x0];
   [0x0; 0xE0; 0x3F8; 0x7FC; 0xF9C; 0xE00; 0x1E00; 0x1C00; 0x1C00; 0x1C00;
    0x3C00; 0x3C00; 0x3C00; 0x3C00; 0x3C00; 0x1C00; 0x1C00; 0x1C00; 0x1E00; 0xF0C;
    0xFFE; 0x7FC; 0x1F8; 0x0; 0x0; 0x0; 0x0; 0x0; 0x0; 0x0];
   [0x0; 0x0; 0x1FC0; 0x1FF0; 0x1CF0; 0x1C78; 0x1C38; 0x1C3C; 0x1C1C; 0x1C1C;
    0x1C1C; 0x1C1C; 0x1C1C; 0x1C1C; 0x1C1C; 0x1C1C; 0x1C1C; 0x1C3C; 0x1C38; 0x1C78;
    0x1FF0; 0x1FE0; 0x1F80; 0x0; 0x0; 0x0; 0x0; 0x0; 0x0; 0x0];
   [0x0; 0x0; 0x1FFC; 0x1FFC; 0x1E00; 0x1E00; 0x1E00; 0x1E00; 0x1E00; 0x1E00;
    0x1FF0; 0x1FF0; 0x1FF0; 0x1E00; 0x1E00; 0x1E00; 0x1E00; 0x1E00; 0x1E00; 0x1E00;
    0x1FFC; 0x1FFC; 0x1FFC; 0x0; 0x0; 0x0; 0x0; 0x0; 0x0; 0x0];
   [0x0; 0x0; 0xFFC; 0xFFC; 0xE00; 0xE00; 0xE00; 0xE00; 0xE00; 0xE00;
    0xE00; 0xFF8; 0xFF8; 0xFF8; 0xE00; 0xE00; 0xE00; 0xE00; 0xE00; 0xE00;
    0xE00; 0xE00; 0xE00; 0x0; 0x0; 0x0; 0x0; 0x0; 0x0; 0x0];
   [0x0; 0xE0; 0x3F8; 0x7FC; 0xF1C; 0x1E08; 0x1C00; 0x1C00; 0x1C00; 0x3C00;
    0x3C00; 0x3800; 0x387C; 0x3C7C; 0x3C1C; 0x3C1C; 0x1C1C; 0x1C1C; 0x1E1C; 0xE1C;
    0xFFC; 0x7FC; 0x3F8; 0x0; 0x0; 0x0; 0x0; 0x0; 0x0; 0x0];
   [0x0; 0x0; 0x1C1C; 0x1C1C; 0x1C1C; 0x1C1C; 0x1C1C; 0x1C1C; 0x1C1C; 0x1C1C;
    0x1FFC; 0x1FFC; 0x1FFC; 0x1C1C; 0x1C1C; 0x1C1C; 0x1C1C; 0x1C1C; 0x1C1C; 0x1C1C;
    0x1C1C; 0x1C1C; 0x1C1C; 0x0; 0x0; 0x0; 0x0; 0x0; 0x0; 0x0];
   [0x0; 0x0; 0x1FFC; 0x1FFC; 0x3C0; 0x1C0; 0x1C0; 0x1C0; 0x1C0; 0x1C0;
    0x1C0; 0x1C0; 0x1C0; 0x1C0; 0x1C0; 0x1C0; 0x1C0; 0x1C0; 0x1C0; 0x1C0;
    0x1FFC; 0x1FFC; 0x1FFC; 0x0; 0x0; 0x0; 0x0; 0x0; 0x0; 0x0];
   [0x0; 0x0; 0x38; 0x38; 0x38; 0x38; 0x38; 0x38; 0x38; 0x38;
    0x38; 0x38; 0x38; 0x38; 0x38; 0x38; 0x38; 0x38; 0x38; 0x1838;
    0x1FF8; 0x1FF0; 0x7E0; 0x0; 0x0; 0x0; 0x0; 0x0; 0x0; 0x0];
   [0x0; 0x0; 0x1C1C; 0x1C3C; 0x1C38; 0x1C70; 0x1C70; 0x1CE0; 0x1CE0; 0x1DC0;
    0x1DE0; 0x1FE0; 0x1FE0; 0x1FF0; 0x1E70; 0x1E70; 0x1C38; 0x1C38; 0x1C38; 0x1C1C;
    0x1C1C; 0x1C1C; 0x1C0E; 0x0; 0x0; 0x0; 0x0; 0x0; 0x0; 0x0];
   [0x0; 0x0; 0xE00; 0xE00; 0xE00; 0xE00; 0xE00; 0xE00; 0xE00; 0xE00;
    0xE00; 0xE00; 0xE00; 0xE00; 0xE00; 0xE00; 0xE00; 0xE00; 0xE00; 0xE00;
    0xFFC; 0xFFC; 0xFFC; 0x0; 0x0; 0x0; 0x0; 0x0; 0x0; 0x0];
   [0x0; 0x0; 0x3C1C; 0x3C1C; 0x3C3C; 0x3C3C; 0x3E3C; 0x3E3C; 0x3E7C; 0x3E6C;
    0x3B6C; 0x3B4C; 0x3BCC; 0x39CC; 0x39CC; 0x398C; 0x398C; 0x380C; 0x380C; 0x380C;
    0x380C; 0x380C; 0x380C; 0x0; 0x0; 0x0; 0x0; 0x0; 0x0; 0x0];
   [0x0; 0x0; 0x1C1C; 0x1E1C; 0x1E1C; 0x1E1C; 0x1F1C; 0x1F1C; 0x1B1C; 0x1B1C;
    0x199C; 0x199C; 0x199C; 0x18DC; 0x18DC; 0x18DC; 0x18FC; 0x187C; 0x187C; 0x187C;
    0x183C; 0x183C; 0x183C; 0x0; 0x0; 0x0; 0x0; 0x0; 0x0; 0x0];
   [0x0; 0x1C0; 0x7F0; 0xFF0; 0x1E78; 0x1C38; 0x1C1C; 0x3C1C; 0x3C1C; 0x381C;
    0x381C; 0x381C; 0x381C; 0x381C; 0x381C; 0x381C; 0x3C1C; 0x1C1C; 0x1C3C; 0x1E38;
    0xFF8; 0xFF0; 0x3E0; 0x0; 0x0; 0x0; 0x0; 0x0; 0x0; 0x0];
   [0x0; 0x0; 0x1FF0; 0x1FF8; 0x1C7C; 0x1C1C; 0x1C1C; 0x1C1E; 0x1C1E; 0x1C1C;
    0x1C1C; 0x1C3C; 0x1FF8; 0x1FF0; 0x1FC0; 0x1C00; 0x1C00; 0x1C00; 0x1C00; 0x1C00;
    0x1C00; 0x1C00; 0x1C00; 0x0; 0x0; 0x0; 0x0; 0x0; 0x0; 0x0];
   [0x0; 0x1C0; 0x7F0; 0xFF0; 0x1E78; 0x1C38; 0x1C1C; 0x3C1C; 0x3C1C; 0x381C;
    0x381C; 0x381C; 0x381C; 0x381C; 0x381C; 0x381C; 0x3C1C; 0x1C1C; 0x1C3C; 0x1C38;
    0xF78; 0xFF0; 0x3E0; 0x1C0; 0x1C0; 0xF0; 0x7E; 0x3E; 0xC; 0x0]].

(** The rows of the characters 82 to 106 *)
Definition font_rows_2 : list (list Z) :=
  [[0x0; 0x0; 0x1FF0; 0x1FF8; 0x1C7C; 0x1C3C; 0x1C1C; 0x1C1C; 0x1C1C; 0x1C1C;
    0x1C3C; 0x1C78; 0x1FF8; 0x1FE0; 0x1CE0; 0x1CF0; 0x1C70; 0x1C70; 0x1C38; 0x1C38;
    0x1C3C; 0x1C1C; 0x1C1E; 0x0; 0x0; 0x0; 0x0; 0x0; 0x0; 0x0];
   [0x0; 0x1C0; 0x7F0; 0xFF8; 0x1E38; 0x1C00; 0x1C00; 0x1C00; 0x1E00; 0x1F00;
    0xF80; 0x7E0; 0x3F0; 0xF8; 0x7C; 0x3C; 0x1C; 0x1C; 0x81C; 0x1C3C;
    0x3FF8; 0x1FF8; 0x7E0; 0x0; 0x0; 0x0; 0x0; 0x0; 0x0; 0x0];
   [0x0; 0x0; 0x3FFE; 0x3FFE; 0x3C0; 0x1C0; 0x1C0; 0x1C0; 0x1C0; 0x1C0;
    0x1C0; 0x1C0; 0x1C0; 0x1C0; 0x1C0; 0x1C0; 0x1C0; 0x1C0; 0x1C0; 0x1C0;
    0x1C0; 0x1C0; 0x1C0; 0x0; 0x0; 0x0; 0x0; 0x0; 0x0; 0x0];
   [0x0; 0x0; 0x1C1C; 0x1C1C; 0x1C1C; 0x1C1C; 0x1C1C; 0x1C1C; 0x1C1C; 0x1C1C;
    0x1C1C; 0x1C1C; 0x1C1C; 0x1C1C; 0x1C1C; 0x1C1C; 0x1C1C; 0x1C1C; 0x1C1C; 0x1C3C;
    0x1FF8; 0xFF8; 0x7E0; 0x0; 0x0; 0x0; 0x0; 0x0; 0x0; 0x0];
   [0x0; 0x0; 0x381E; 0x381C; 0x381C; 0x3C1C; 0x1C1C; 0x1C1C; 0x1C38; 0x1C38;
    0xE38; 0xE38; 0xE38; 0xE30; 0xE70; 0x670; 0x770; 0x760; 0x760; 0x7E0;
    0x3E0; 0x3E0; 0x3C0; 0x0; 0x0; 0x0; 0x0; 0x0; 0x0; 0x0];
   [0x0; 0x0; 0x7006; 0x7006; 0x3006; 0x300E; 0x300E; 0x31CE; 0x31CE; 0x39CE;
    0x39CC; 0x39CC; 0x3BCC; 0x3BCC; 0x3B6C; 0x1B6C; 0x1A6C; 0x1E7C; 0x1E7C; 0x1E3C;
    0x1E3C; 0x1E38; 0x1C38; 0x0; 0x0; 0x0; 0x0; 0x0; 0x0; 0x0];
   [0x0; 0x0; 0x3C1C; 0x1C1C; 0x1C38; 0xE38; 0xE38; 0xE70; 0x770; 0x7E0;
    0x3E0; 0x3E0; 0x3C0; 0x3E0; 0x7E0; 0x770; 0xE70; 0xE70; 0xE38; 0x1C38;
    0x1C3C; 0x3C1C; 0x381C; 0x0; 0x0; 0x0; 0x0; 0x0; 0x0; 0x0];
   [0x0; 0x0; 0x381E; 0x3C1C; 0x1C1C; 0x1C38; 0x1C38; 0xE38; 0xE30; 0xE70;
    0x770; 0x7E0; 0x3E0; 0x3E0; 0x3C0; 0x1C0; 0x1C0; 0x1C0; 0x1C0; 0x1C0;
    0x1C0; 0x1C0; 0x1C0; 0x0; 0x0; 0x0; 0x0; 0x0; 0x0; 0x0];
   [0x0; 0x0; 0x1FFC; 0x1FFC; 0x3C; 0x38; 0x78; 0x70; 0xF0; 0xE0;
    0x1E0; 0x1C0; 0x3C0; 0x380; 0x780; 0x700; 0x700; 0xE00; 0xE00; 0x1C00;
    0x1FFC; 0x3FFC; 0x3FFC; 0x0; 0x0; 0x0; 0x0; 0x0; 0x0; 0x0];
   [0x3F8; 0x3F8; 0x300; 0x300; 0x300; 0x300; 0x300; 0x300; 0x300; 0x300;
    0x300; 0x300; 0x300; 0x300; 0x300; 0x300; 0x300; 0x300; 0x300; 0x300;
    0x300; 0x300; 0x300; 0x300; 0x300; 0x300; 0x3F8; 0x3F8; 0x0; 0x0];
   [0x3000; 0x1800; 0x1800; 0x1800; 0xC00; 0xC00; 0xE00; 0x600; 0x600; 0x300;
    0x300; 0x300; 0x180; 0x180; 0x180; 0xC0; 0xC0; 0xE0; 0x60; 0x60;
    0x30; 0x30; 0x30; 0x18; 0x18; 0x18; 0xC; 0xC; 0x0; 0x0];
   [0xFC0; 0xFC0; 0xC0; 0xC0; 0xC0; 0xC0; 0xC0; 0xC0; 0xC0; 0xC0;
    0xC0; 0xC0; 0xC0; 0xC0; 0xC0; 0xC0; 0xC0; 0xC0; 0xC0; 0xC0;
    0xC0; 0xC0; 0xC0; 0xC0; 0xC0; 0xC0; 0xFC0; 0xFC0; 0x0; 0x0];
   [0x0; 0x1C0; 0x3C0; 0x3C0; 0x3E0; 0x760; 0x660; 0x670; 0xE30; 0xE30;
    0xC38; 0x1C18; 0x1C1C; 0x181C; 0x0; 0x0; 0x0; 0x0; 0x0; 0x0;
    0x0; 0x0; 0x0; 0x0; 0x0; 0x0; 0x0; 0x0; 0x0; 0x0];
   [0x0; 0x0; 0x0; 0x0; 0x0; 0x0; 0x0; 0x0; 0x0; 0x0;
    0x0; 0x0; 0x0; 0x0; 0x0; 0x0; 0x0; 0x0; 0x0; 0x0;
    0x0; 0x0; 0x0; 0x0; 0x0; 0x1FFC; 0x1FFC; 0x0; 0x0; 0x0];
   [0x780; 0x380; 0x180; 0x1C0; 0x0; 0x0; 0x0; 0x0; 0x0; 0x0;
    0x0; 0x0; 0x0; 0x0; 0x0; 0x0; 0x0; 0x0; 0x0; 0x0;
    0x0; 0x0; 0x0; 0x0; 0x0; 0x0; 0x0; 0x0; 0x0; 0x0];
   [0x0; 0x0; 0x0; 0x0; 0x0; 0x0; 0x0; 0x7E0; 0x1FF8; 0xE78;
    0x38; 0x3C; 0x1C; 0xFC; 0x7FC; 0xF1C; 0x1C1C; 0x1C1C; 0x1C1C; 0x1C3C;
    0x1E7C; 0x1FFC; 0xF9C; 0x0; 0x0; 0x0; 0x0; 0x0; 0x0; 0x0];
   [0x0; 0x1C00; 0x1C00; 0x1C00; 0x1C00; 0x1C00; 0x1C00; 0x1DF0; 0x1FF8; 0x1F78;
    0x1E3C; 0x1C1C; 0x1C1C; 0x1C1C; 0x1C1C; 0x1C1C; 0x1C1C; 0x1C1C; 0x1C3C; 0x1C3C;
    0x1F78; 0x1FF0; 0x19E0; 0x0; 0x0; 0x0; 0x0; 0x0; 0x0; 0x0];
   [0x0; 0x0; 0x0; 0x0; 0x0; 0x0; 0x0; 0x3F8; 0x7FC; 0xF98;
    0xE00; 0x1E00; 0x1C00; 0x1C00; 0x1C00; 0x1C00; 0x1C00; 0x1C00; 0x1E00; 0xE00;
    0xF9C; 0x7FC; 0x3F8; 0x0; 0x0; 0x0; 0x0; 0x0; 0x0; 0x0];
   [0x0; 0x3C; 0x3C; 0x3C; 0x3C; 0x3C; 0x3C; 0x7FC; 0xFFC; 0x1F7C;
    0x1E3C; 0x1C3C; 0x3C3C; 0x3C3C; 0x3C3C; 0x3C3C; 0x3C3C; 0x3C3C; 0x1C3C; 0x1C3C;
    0x1E7C; 0xFFC; 0x79C; 0x0; 0x0; 0x0; 0x0; 0x0; 0x0; 0x0];
   [0x0; 0x0; 0x0; 0x0; 0x0; 0x0; 0x0; 0x3F0; 0x7F8; 0xF38;
    0x1C1C; 0x1C1C; 0x1C1C; 0x3C1C; 0x3FFC; 0x3FFC; 0x3C00; 0x1C00; 0x1C00; 0x1E00;
    0xF18; 0x7F8; 0x3F8; 0x0; 0x0; 0x0; 0x0; 0x0; 0x0; 0x0];
   [0x38; 0xFE; 0x1FE; 0x1C0; 0x3C0; 0x380; 0x380; 0x1FFC; 0x1FFC; 0x1FF8;
    0x380; 0x380; 0x380; 0x380; 0x380; 0x380; 0x380; 0x380; 0x380; 0x380;
    0x380; 0x380; 0x380; 0x0; 0x0; 0x0; 0x0; 0x0; 0x0; 0x0];
   [0x0; 0x0; 0x0; 0x0; 0x0; 0x0; 0x0; 0x7FE; 0xFFE; 0x1E7C;
    0x1C30; 0x1C38; 0x1C38; 0x1C38; 0x1C30; 0xE70; 0xFE0; 0xD80; 0x1C00; 0x1C00;
    0x1E00; 0xFFC; 0xFFC; 0x1C1E; 0x180E; 0x380E; 0x381C; 0x1E7C; 0xFF8; 0x3C0];
   [0x0; 0x1C00; 0x1C00; 0x1C00; 0x1C00; 0x1C00; 0x1C00; 0x1CF8; 0x1FF8; 0x1FFC;
    0x1E1C; 0x1C1C; 0x1C1C; 0x1C1C; 0x1C1C; 0x1C1C; 0x1C1C; 0x1C1C; 0x1C1C; 0x1C1C;
    0x1C1C; 0x1C1C; 0x1C1C; 0x0; 0x0; 0x0; 0x0; 0x0; 0x0; 0x0];
   [0xE0; 0x1E0; 0x1E0; 0xE0; 0x0; 0x0; 0x0; 0x1FE0; 0x1FE0; 0x1FE0;
    0xE0; 0xE0; 0xE0; 0xE0; 0xE0; 0xE0; 0xE0; 0xE0; 0xE0; 0xE0;
    0xE0; 0xE0; 0xE0; 0x0; 0x0; 0x0; 0x0; 0x0; 0x0; 0x0];
   [0xE0; 0x1E0; 0x1E0; 0xE0; 0x0; 0x0; 0x0; 0x1FE0; 0x1FE0; 0x1FE0;
    0xE0; 0xE0; 0xE0; 0xE0; 0xE0; 0xE0; 0xE0; 0xE0; 0xE0; 0xE0;
    0xE0; 0xE0; 0xE0; 0xE0; 0xE0; 0xE0; 0x1BE0; 0x3FC0; 0x3F80; 0x0]].

(** The rows of the characters 107 to 126 *)
Definition font_rows_3 : list (list Z) :=
  [[0x0; 0x1C00; 0x1C00; 0x1C00; 0x1C00; 0x1C00; 0x1C00; 0x1C1C; 0x1C3C; 0x1C38;
    0x1C70; 0x1CF0; 0x1CE0; 0x1DC0; 0x1FE0; 0x1FE0; 0x1FF0; 0x1E70; 0x1C38; 0x1C38;
    0x1C1C; 0x1C1C; 0x1C1E; 0x0; 0x0; 0x0; 0x0; 0x0; 0x0; 0x0];
   [0x0; 0x1F80; 0x1F80; 0x380; 0x380; 0x380; 0x380; 0x380; 0x380; 0x380;
    0x380; 0x380; 0x380; 0x380; 0x380; 0x380; 0x380; 0x380; 0x380; 0x3C0;
    0x1E8; 0x1FC; 0xFC; 0x0; 0x0; 0x0; 0x0; 0x0; 0x0; 0x0];
   [0x0; 0x0; 0x0; 0x0; 0x0; 0x0; 0x0; 0x37BC; 0x3FFC; 0x3FFE;
    0x39CE; 0x398E; 0x398E; 0x398E; 0x398E; 0x398E; 0x398E; 0x398E; 0x398E; 0x398E;
    0x398E; 0x398E; 0x398E; 0x0; 0x0; 0x0; 0x0; 0x0; 0x0; 0x0];
   [0x0; 0x0; 0x0; 0x0; 0x0; 0x0; 0x0; 0x18F8; 0x1FF8; 0x1FFC;
    0x1E1C; 0x1C1C; 0x1C1C; 0x1C1C; 0x1C1C; 0x1C1C; 0x1C1C; 0x1C1C; 0x1C1C; 0x1C1C;
    0x1C1C; 0x1C1C; 0x1C1C; 0x0; 0x0; 0x0; 0x0; 0x0; 0x0; 0x0];
   [0x0; 0x0; 0x0; 0x0; 0x0; 0x0; 0x0; 0x7E0; 0xFF0; 0x1F78;
    0x1C3C; 0x1C1C; 0x3C1C; 0x3C1C; 0x381C; 0x381C; 0x3C1C; 0x3C1C; 0x1C1C; 0x1C3C;
    0x1F78; 0xFF0; 0x7E0; 0x0; 0x0; 0x0; 0x0; 0x0; 0x0; 0x0];
   [0x0; 0x0; 0x0; 0x0; 0x0; 0x0; 0x0; 0x19F0; 0x1FF8; 0x1F78;
    0x1E3C; 0x1C1C; 0x1C1C; 0x1C1C; 0x1C1C; 0x1C1C; 0x1C1C; 0x1C1C; 0x1C3C; 0x1C3C;
    0x1F78; 0x1FF0; 0x1DE0; 0x1C00; 0x1C00; 0x1C00; 0x1C00; 0x1C00; 0x1C00; 0x0];
   [0x0; 0x0; 0x0; 0x0; 0x0; 0x0; 0x0; 0x7DC; 0xFFC; 0x1F7C;
    0x1C3C; 0x1C3C; 0x3C3C; 0x3C3C; 0x383C; 0x383C; 0x3C3C; 0x3C3C; 0x1C3C; 0x1C3C;
    0x1E7C; 0xFFC; 0x7BC; 0x3C; 0x3C; 0x3C; 0x3C; 0x3C; 0x3C; 0x0];
   [0x0; 0x0; 0x0; 0x0; 0x0; 0x0; 0x0; 0xE7C; 0xEFC; 0xFFC;
    0xF80; 0xF00; 0xF00; 0xE00; 0xE00; 0xE00; 0xE00; 0xE00; 0xE00; 0xE00;
    0xE00; 0xE00; 0xE00; 0x0; 0x0; 0x0; 0x0; 0x0; 0x0; 0x0];
   [0x0; 0x0; 0x0; 0x0; 0x0; 0x0; 0x0; 0x7F0; 0xFF8; 0x1E38;
    0x1C00; 0x1C00; 0x1E00; 0xF80; 0x7E0; 0x1F8; 0x78; 0x3C; 0x1C; 0x1C;
    0x1C3C; 0x1FF8; 0xFF0; 0x0; 0x0; 0x0; 0x0; 0x0; 0x0; 0x0];
   [0x0; 0x0; 0x0; 0x380; 0x380; 0x380; 0x380; 0x3FFC; 0x3FFC; 0x1FF8;
    0x780; 0x780; 0x780; 0x780; 0x780; 0x780; 0x780; 0x780; 0x780; 0x380;
    0x3C0; 0x3FC; 0x1FC; 0x0; 0x0; 0x0; 0x0; 0x0; 0x0; 0x0];
   [0x0; 0x0; 0x0; 0x0; 0x0; 0x0; 0x0; 0x3C3C; 0x3C3C; 0x3C3C;
    0x3C3C; 0x3C3C; 0x3C3C; 0x3C3C; 0x3C3C; 0x3C3C; 0x3C3C; 0x3C3C; 0x3C3C; 0x3C7C;
    0x1FFC; 0x1FDC; 0xF9C; 0x0; 0x0; 0x0; 0x0; 0x0; 0x0; 0x0];
   [0x0; 0x0; 0x0; 0x0; 0x0; 0x0; 0x0; 0x381E; 0x381C; 0x3C1C;
    0x1C1C; 0x1C18; 0x1C38; 0xE38; 0xE38; 0xE30; 0xE70; 0x770; 0x760; 0x7E0;
    0x3E0; 0x3E0; 0x3C0; 0x0; 0x0; 0x0; 0x0; 0x0; 0x0; 0x0];
   [0x0; 0x0; 0x0; 0x0; 0x0; 0x0; 0x0; 0x7006; 0x7186; 0x71CE;
    0x31CE; 0x31CE; 0x31CE; 0x3BCE; 0x3B4C; 0x3B4C; 0x3B6C; 0x1A7C; 0x1E7C; 0x1E7C;
    0x1E3C; 0x1E38; 0x1E38; 0x0; 0x0; 0x0; 0x0; 0x0; 0x0; 0x0];
   [0x0; 0x0; 0x0; 0x0; 0x0; 0x0; 0x0; 0x3C1C; 0x1C3C; 0x1E38;
    0xE38; 0x770; 0x7E0; 0x3E0; 0x3C0; 0x3C0; 0x7E0; 0x7F0; 0xE70; 0xE78;
    0x1C38; 0x1C3C; 0x381C; 0x0; 0x0; 0x0; 0x0; 0x0; 0x0; 0x0];
   [0x0; 0x0; 0x0; 0x0; 0x0; 0x0; 0x0; 0x381E; 0x381C; 0x1C1C;
    0x1C1C; 0x1C18; 0xE38; 0xE38; 0xE38; 0x630; 0x770; 0x770; 0x370; 0x3E0;
    0x3E0; 0x1E0; 0x1C0; 0x1C0; 0x1C0; 0x380; 0x1F80; 0x1F00; 0x1E00; 0x0];
   [0x0; 0x0; 0x0; 0x0; 0x0; 0x0; 0x0; 0xFFC; 0xFFC; 0xFF8;
    0x38; 0x70; 0xE0; 0xE0; 0x1C0; 0x3C0; 0x380; 0x700; 0xF00; 0xE00;
    0x1FFC; 0x1FFC; 0x1FFC; 0x0; 0x0; 0x0; 0x0; 0x0; 0x0; 0x0];
   [0xF8; 0x1F8; 0x1C0; 0x180; 0x180; 0x180; 0x180; 0x180; 0x180; 0x180;
    0x180; 0x180; 0x380; 0xF00; 0xF00; 0x380; 0x180; 0x180; 0x180; 0x180;
    0x180; 0x180; 0x180; 0x180; 0x180; 0x1C0; 0x1F8; 0xF8; 0x0; 0x0];
   [0x180; 0x180; 0x180; 0x180; 0x180; 0x180; 0x180; 0x180; 0x180; 0x180;
    0x180; 0x180; 0x180; 0x180; 0x180; 0x180; 0x180; 0x180; 0x180; 0x180;
    0x180; 0x180; 0x180; 0x180; 0x180; 0x180; 0x180; 0x180; 0x180; 0x180];
   [0xF00; 0xF80; 0x1C0; 0x1C0; 0x1C0; 0x1C0; 0x1C0; 0x1C0; 0x180; 0x180;
    0x180; 0x1C0; 0x1E0; 0x78; 0xF8; 0x1E0; 0x1C0; 0x180; 0x180; 0x1C0;
    0x1C0; 0x1C0; 0x1C0; 0x1C0; 0x1C0; 0x1C0; 0xF80; 0xF00; 0x0; 0x0];
   [0x0; 0x0; 0x0; 0x0; 0x0; 0x0; 0x0; 0x0; 0x0; 0x0;
    0x1F00; 0x3F86; 0x31FE; 0x20FC; 0x30; 0x0; 0x0; 0x0; 0x0; 0x0;
    0x0; 0x0; 0x0; 0x0; 0x0; 0x0; 0x0; 0x0; 0x0; 0x0]].

Definition font_table : list (list Z) := font_rows_0 ++ font_rows_1 ++ font_rows_2 ++ font_rows_3.

(** [font_bin[i][j]]; [outside] is what the memory around the table holds. *)
Definition font_bin (outside : Z -> Z -> Z) (i j : Z) : Z :=
  if (0 <=? i) && (i <? 95) && (0 <=? j) && (j <? 30) then
    default 0 (font_table !! Z.to_nat i ≫= fun row => row !! Z.to_nat j)
  else outside i j.

(** ** The table *)

(** Every character has 30 lines of 15 dots. *)
Definition font_wf : bool :=
  (length font_table =? 95)%nat &&
  forallb (fun row => (length row =? 30)%nat && forallb (fun w => (0 <=? w) && (w <? 32768)) row) font_table.

Lemma font_table_wf : font_wf = true.
Proof. vm_compute. reflexivity. Qed.

Lemma font_table_NoDup : NoDup font_table.
Proof. apply (bool_decide_unpack _). vm_compute. exact I. Qed.

Lemma font_row c : 32 <= c < 127 -> exists row, font_table !! Z.to_nat (c - 32) = Some row /\ length row = 30%nat /\ Forall (fun w => 0 <= w < 32768) row.
Proof.
  intros Hc. pose proof font_table_wf as H. unfold font_wf in H. apply andb_prop in H as [Hl H].
  apply Nat.eqb_eq in Hl. destruct (lookup_lt_is_Some_2 font_table (Z.to_nat (c - 32))) as [row Hr]; [lia|].
  exists row. split; [done|]. rewrite forallb_forall in H.
  assert (In row font_table) as Hin by (apply list_elem_of_In; by eapply list_elem_of_lookup_2).
  apply H, andb_prop in Hin as [Hn Hw]. apply Nat.eqb_eq in Hn. split; [done|].
  rewrite forallb_forall in Hw. apply Forall_forall. intros w Hin. apply list_elem_of_In, Hw, andb_prop in Hin as [H1 H2].
  bool_to_prop. lia.
Qed.

Section Bitmap.
Context (outside : Z -> Z -> Z).

Lemma font_bin_row c row j : 32 <= c < 127 -> font_table !! Z.to_nat (c - 32) = Some row -> 0 <= j < 30 ->
  row !! Z.to_nat j = Some (font_bin outside (c - 32) j).
Proof.
  intros Hc Hr Hj. destruct (font_row c Hc) as (row' & Hr' & Hl & _). simplify_eq.
  unfold font_bin. rewrite (proj2 (Z.leb_le 0 _)), (proj2 (Z.ltb_lt _ 95)), (proj2 (Z.leb_le 0 _)), (proj2 (Z.ltb_lt _ 30)) by lia.
  simpl. rewrite Hr. simpl. destruct (lookup_lt_is_Some_2 row (Z.to_nat j)) as [w ->]; [lia|done].
Qed.

Lemma font_bin_range c j : 32 <= c < 127 -> 0 <= j < 30 -> 0 <= font_bin outside (c - 32) j < 32768.
Proof.
  intros Hc Hj. destruct (font_row c Hc) as (row & Hr & _ & Hw).
  exact (Forall_lookup_1 _ _ _ _ Hw (font_bin_row c row j Hc Hr Hj)).
Qed.

(** No two characters have the same bitmap. *)
Lemma font_bin_inj c c' : 32 <= c < 127 -> 32 <= c' < 127 ->
  (forall j, 0 <= j < 30 -> font_bin outside (c - 32) j = font_bin outside (c' - 32) j) -> c = c'.
Proof.
  intros Hc Hc' H. destruct (font_row c Hc) as (row & Hr & Hl & _), (font_row c' Hc') as (row' & Hr' & Hl' & _).
  assert (row = row') as <-.
  { apply list_eq. intros i. destruct (decide (i < 30)%nat) as [Hi|Hi].
    - rewrite <- (Nat2Z.id i), (font_bin_row c row _ Hc Hr), (font_bin_row c' row' _ Hc' Hr') by lia. f_equal. apply H. lia.
    - by rewrite !lookup_ge_None_2 by lia. }
  pose proof (NoDup_lookup _ _ _ _ font_table_NoDup Hr Hr'). lia.
Qed.

End Bitmap.
