(* ===== verification/Terminal.v ===== *)
(** * The screen of the console

    What graphic.c, font.c and the table of bitmaps put in the frame buffer, as a
    picture: [graphic_putc] acts on the screen as a terminal of 20 lines of 53
    characters acts on its text, and the text can be read off the screen. *)
From S2P Require Import Prelude Mem Mmu Vm Device Console Font.

(** ** Pixels *)
Definition pixel_at (d : display) (m : mem) (x y : Z) : graphic_pixel :=
  let a := d_vvram_addr d + 4 * (y * d_pixels_per_line d + x) in
  Pixel (ld8 m a) (ld8 m (a + 1)) (ld8 m (a + 2)).

Definition px (s : con) (x y : Z) : graphic_pixel := pixel_at (screen s) (vram s) x y.

#[global] Instance graphic_pixel_eq_dec : EqDecision graphic_pixel.
Proof. solve_decision. Defined.

(** A frame buffer with room for the text, below the end of the address space. *)
Record display_ok (d : display) : Prop := {
  do_base : 0 <= d_vvram_addr d;
  do_width : 797 <= d_pixels_per_line d;
  do_height : 600 <= d_vres d;
  do_size : d_vram_size d = 4 * d_pixels_per_line d * d_vres d;
  do_end : d_vvram_addr d + d_vram_size d < 4294967296;
}.

(** ** The abstract terminal *)
Record term : Type := Term {
  cells : list Z;
  cursor : Z;
}.

(** The text moves up by a line; the new line is blank. *)
Definition term_scroll (t : term) : term := Term (drop 53 (cells t) ++ replicate 53 32) (cursor t - 53).

Definition term_room (t : term) : term := if 1060 <=? cursor t then term_scroll t else t.

Definition term_putc (t : term) (c : Z) : term :=
  if c =? newline then term_room (Term (cells t) (cursor t + 53 - cursor t mod 53))
  else if c =? BACKSPACE then Term (cells t) (Z.max 0 (cursor t - 1))
  else let t := term_room t in Term (<[Z.to_nat (cursor t) := c]> (cells t)) (cursor t + 1).

Definition printable (c : Z) : Prop := 32 <= c < 127.

Definition typable (c : Z) : Prop := printable c \/ c = newline \/ c = BACKSPACE.

#[global] Instance typable_dec c : Decision (typable c).
Proof. unfold typable, printable. apply _. Defined.

(** The corner of the cell at position [p]. *)
Definition cell_x (p : Z) : Z := p mod 53 * 15 + 2.

Definition cell_y (p : Z) : Z := p / 53 * 30.

(** ** Pictures

    A routine paints the picture [f] when it returns, having set each pixel
    [(x, y)] of the frame buffer to [p] if [f x y] is [Some p], and changed no
    other. *)
Definition picture : Type := Z -> Z -> option graphic_pixel.

Definition on_screen (d : display) (x y : Z) : Prop := 0 <= x < d_pixels_per_line d /\ 0 <= y < d_vres d.

(** What drawing leaves alone. *)
Definition rest (s : con) := (screen s, console_pos s, panicked s).

Definition paints (d : display) (m : M con unit) (f : picture) : Prop :=
  forall s, screen s = d ->
  wp m (fun _ s' => rest s' = rest s /\ forall x y, on_screen d x y -> px s' x y = default (px s x y) (f x y)) s.

Fixpoint pics {I} (F : I -> picture) (l : list I) : picture := fun x y =>
  match l with
  | [] => None
  | i :: l' => match pics F l' x y with Some p => Some p | None => F i x y end
  end.

Definition dot_picture (x y : Z) (p : graphic_pixel) : picture :=
  fun x' y' => if decide (x' = x /\ y' = y) then Some p else None.

Definition pixel_ok (p : graphic_pixel) : Prop := 0 <= px_blue p < 256 /\ 0 <= px_green p < 256 /\ 0 <= px_red p < 256.

Section Pictures.
Context (d : display) (Hd : display_ok d).

(** Lines of the frame buffer do not overlap. *)
Lemma line_order y y' : y < y' -> y * d_pixels_per_line d + d_pixels_per_line d <= y' * d_pixels_per_line d.
Proof. destruct Hd. nia. Qed.

Lemma pixel_inside x y : on_screen d x y -> 0 <= y * d_pixels_per_line d /\
  d_vvram_addr d + 4 * (y * d_pixels_per_line d + x) + 4 <= d_vvram_addr d + d_vram_size d.
Proof. intros [Hx Hy]. pose proof (line_order y (d_vres d) ltac:(lia)). destruct Hd as [H1 H2 H3 H4 H5]. split; [nia|lia]. Qed.

Lemma pixel_apart x y x' y' : on_screen d x y -> on_screen d x' y' -> ~ (x' = x /\ y' = y) ->
  y * d_pixels_per_line d + x <> y' * d_pixels_per_line d + x'.
Proof.
  intros [Hx Hy] [Hx' Hy'] Hn. destruct (decide (y' = y)) as [->|Hne]; [lia|].
  destruct (decide (y < y')); [pose proof (line_order y y' ltac:(lia))|pose proof (line_order y' y ltac:(lia))]; lia.
Qed.

Lemma paints_pixel x y p : on_screen d x y -> pixel_ok p -> paints d (graphic_draw_pixel x y p) (dot_picture x y p).
Proof.
  intros Hon (Hb & Hg & Hr) s Hs. unfold graphic_draw_pixel. wp_steps. split; [done|]. intros x' y' Hon'.
  pose proof (pixel_inside _ _ Hon) as [? ?]. pose proof (pixel_inside _ _ Hon') as [? ?].
  pose proof (do_base _ Hd). pose proof (do_end _ Hd). destruct (Hon) as [? ?].
  unfold px, pixel_at, dot_picture. simpl. rewrite !Hs. rewrite !u32_small by (rewrite ?u32_small; lia).
  case_decide as E; simpl.
  - destruct E as [-> ->]. rewrite !ld8_st8. repeat case_bool; try lia. rewrite !u8_small by lia. by destruct p.
  - pose proof (pixel_apart _ _ _ _ Hon Hon' E). by rewrite !ld8_st8_ne by lia.
Qed.

Lemma paints_seq m n f g : paints d m f -> paints d n g ->
  paints d (m ;; n) (fun x y => match g x y with Some p => Some p | None => f x y end).
Proof.
  intros Hm Hn s Hs. apply wp_bind. eapply wp_mono; [by apply Hm|]. intros [] s1 [R1 P1].
  eapply wp_mono; [apply Hn; by injection R1 as ->|]. intros [] s2 [R2 P2]. split; [congruence|].
  intros x y Hon. rewrite P2 by done. destruct (g x y); simpl; [done|by apply P1].
Qed.

Lemma paints_ext m f g : (forall x y, on_screen d x y -> f x y = g x y) -> paints d m f -> paints d m g.
Proof.
  intros E Hm s Hs. eapply wp_mono; [by apply Hm|]. intros [] s' [R P]. split; [done|].
  intros x y Hon. rewrite <- E by done. by apply P.
Qed.

Lemma paints_for_each {I} (l : list I) (body : I -> M con unit) F :
  (forall i, i ∈ l -> paints d (body i) (F i)) -> paints d (for_each l body) (pics F l).
Proof.
  induction l as [|i l IH]; intros H; simpl.
  - intros s Hs. apply wp_ret. by split.
  - apply paints_seq; [apply H; left|apply IH; intros; apply H; by right].
Qed.

End Pictures.

Lemma pics_cases {I} (F : I -> picture) l x y :
  (pics F l x y = None /\ forall i, i ∈ l -> F i x y = None) \/
  (exists i, i ∈ l /\ pics F l x y = F i x y /\ F i x y <> None).
Proof.
  induction l as [|i l [[E H]|(j & Hj & E & N)]]; simpl.
  - left. split; [done|]. intros i Hi. by apply elem_of_nil in Hi.
  - rewrite E. destruct (F i x y) eqn:Ei.
    + right. exists i. rewrite Ei. split; [left|done].
    + left. split; [done|]. intros k [->|Hk]%elem_of_cons; [done|by apply H].
  - right. exists j. rewrite E. split; [by right|]. split; [|done]. by destruct (F j x y).
Qed.

(** Pictures that agree with [h] and cover it. *)
Lemma pics_union {I} (F : I -> picture) l (h : picture) x y :
  (forall i, i ∈ l -> F i x y = None \/ F i x y = h x y) ->
  (h x y <> None -> exists i, i ∈ l /\ F i x y = h x y) -> pics F l x y = h x y.
Proof.
  intros Hc Hh. destruct (pics_cases F l x y) as [[E H]|(i & Hi & E & N)].
  - rewrite E. destruct (h x y) eqn:Eh; [|done]. destruct Hh as (i & Hi & Ei); [done|]. rewrite H in Ei by done. congruence.
  - rewrite E. destruct (Hc i Hi); [congruence|done].
Qed.

(** ** Characters *)
Section Screen.
Context (outside : Z -> Z -> Z).

(** The dot in column [x] and line [y] of the bitmap of [c]. *)
Definition dot (c x y : Z) : graphic_pixel :=
  if Z.testbit (font_bin outside (c - 32) y) (14 - x) then white_pixel else black_pixel.

Definition char_picture (x y c : Z) : picture := fun x' y' =>
  if decide (x <= x' < x + 15 /\ y <= y' < y + 30) then Some (dot c (x' - x) (y' - y)) else None.

Lemma land_bit a j : 0 <= j -> (Z.land a (Z.shiftl 1 j) =? Z.shiftl 1 j) = Z.testbit a j.
Proof.
  intros Hj. rewrite Z.shiftl_1_l. destruct (Z.testbit a j) eqn:E.
  - apply Z.eqb_eq, Z.bits_inj'. intros n Hn. rewrite Z.land_spec, Z.pow2_bits_eqb by done.
    destruct (j =? n) eqn:Ej; bool_to_prop; [subst; by rewrite E|apply andb_false_r].
  - apply Z.eqb_neq. intros H. apply (f_equal (fun z => Z.testbit z j)) in H.
    rewrite Z.land_spec, Z.pow2_bits_true, E in H by done. done.
Qed.

Lemma dot_ok c x y : pixel_ok (dot c x y).
Proof. unfold dot. destruct (Z.testbit _ _); unfold pixel_ok; simpl; lia. Qed.

(** The blank has no dots. *)
Lemma dot_blank x y : 0 <= x < 15 -> 0 <= y < 30 -> dot 32 x y = black_pixel.
Proof.
  intros Hx Hy. unfold dot. replace (font_bin outside (32 - 32) y) with 0; [by rewrite Z.testbit_0_l|].
  destruct (font_row 32 ltac:(lia)) as (row & Hr & _ & _).
  pose proof (font_bin_row outside 32 row y ltac:(lia) Hr Hy) as Hl.
  vm_compute in Hr. injection Hr as <-. change (repeat 0 30 !! Z.to_nat y = Some (font_bin outside (32 - 32) y)) in Hl.
  apply list_elem_of_lookup_2, list_elem_of_In, repeat_spec in Hl. done.
Qed.

Lemma testbit_high a n : 0 <= a < 32768 -> 15 <= n -> Z.testbit a n = false.
Proof. intros Ha Hn. rewrite <- (Z.mod_small a (2 ^ 15)) by lia. apply Z.mod_pow2_bits_high. lia. Qed.

(** Two characters differ in a dot. *)
Lemma dots_inj c c' : printable c -> printable c' ->
  (forall x y, 0 <= x < 15 -> 0 <= y < 30 -> dot c x y = dot c' x y) -> c = c'.
Proof.
  intros Hc Hc' H. apply (font_bin_inj outside); [done..|]. intros y Hy.
  pose proof (font_bin_range outside c y Hc Hy). pose proof (font_bin_range outside c' y Hc' Hy).
  apply Z.bits_inj'. intros n Hn. destruct (decide (n < 15)) as [Hl|Hl].
  - specialize (H (14 - n) y ltac:(lia) Hy). unfold dot in H. replace (14 - (14 - n)) with n in H by lia.
    by destruct (Z.testbit _ n), (Z.testbit _ n).
  - by rewrite !testbit_high by lia.
Qed.

Section Display.
Context (d : display) (Hd : display_ok d).

(** [font_render] paints the bitmap. *)
Lemma paints_font_render x y c : 0 <= x -> x + 15 <= d_pixels_per_line d -> 0 <= y -> y + 30 <= d_vres d ->
  paints d (font_render (font_bin outside) x y c) (char_picture x y c).
Proof.
  intros Hx Hx' Hy Hy'. unfold font_render.
  apply (paints_ext d _ (pics (fun i => pics (fun j => dot_picture (x + (14 - j)) (y + i) (dot c (14 - j) i)) (rev (seqZ 0 15))) (seqZ 0 30))).
  - intros x' y' _. apply pics_union.
    + intros i Hi%elem_of_seqZ. destruct (pics_cases (fun j => dot_picture (x + (14 - j)) (y + i) (dot c (14 - j) i)) (rev (seqZ 0 15)) x' y')
        as [[E _]|(j & Hj & E & N)]; [by left|right]. rewrite E.
      apply list_elem_of_In, in_rev, list_elem_of_In, elem_of_seqZ in Hj.
      unfold dot_picture, char_picture in *. case_decide as Ex; [|done]. destruct Ex as [-> ->].
      rewrite decide_True by lia. do 2 f_equal; lia.
    + unfold char_picture. case_decide as E; [intros _|done]. exists (y' - y). split; [apply elem_of_seqZ; lia|].
      apply pics_union with (h := fun x' y' => Some (dot c (x' - x) (y' - y))).
      * intros j _. unfold dot_picture. case_decide as Ex; [right|by left]. do 2 f_equal; lia.
      * intros _. exists (14 - (x' - x)). split; [apply list_elem_of_In, in_rev; rewrite rev_involutive; apply list_elem_of_In, elem_of_seqZ; lia|].
        unfold dot_picture. rewrite decide_True by lia. do 2 f_equal; lia.
  - apply paints_for_each. intros i Hi%elem_of_seqZ. apply paints_for_each.
    intros j Hj%list_elem_of_In%in_rev%list_elem_of_In%elem_of_seqZ. cbv zeta. rewrite land_bit by lia.
    unfold dot. replace (14 - (14 - j)) with j by lia.
    destruct (Z.testbit _ j); (apply paints_pixel; [done|split; lia|unfold pixel_ok; simpl; lia]).
Qed.

(** [graphic_scroll_up] moves the picture up and blackens the lines below. *)
Lemma wp_scroll_up s Q : screen s = d ->
  (forall s', rest s' = rest s ->
     (forall x y, on_screen d x y -> px s' x y = if decide (y + 30 < d_vres d) then px s x (y + 30) else black_pixel) -> Q tt s') ->
  wp (graphic_scroll_up 30) Q s.
Proof.
  intros Hs HQ. unfold graphic_scroll_up. wp_steps. apply HQ; [done|]. intros x y Hon.
  pose proof (pixel_inside d Hd _ _ Hon) as [? Hin]. destruct Hon as [Hx Hy]. pose proof (line_order d Hd) as Ho.
  destruct Hd as [H1 H2 H3 H4 H5]. pose proof (Ho 29 (d_vres d) ltac:(lia)) as Hh.
  unfold px, pixel_at. simpl. rewrite !Hs. set (w := d_pixels_per_line d) in *.
  rewrite !(u32_small (4 * w * 30)) by lia. rewrite !u32_small by (rewrite ?u32_small; lia).
  rewrite !memset_bytes, !memmove_bytes by lia. change (u8 0) with 0.
  destruct (decide (y + 30 < d_vres d)) as [Ey|Ey].
  - pose proof (Ho (y + 30) (d_vres d) ltac:(lia)).
    repeat case_decide; try lia. do 2 f_equal; lia.
  - pose proof (Z.mul_le_mono_nonneg_r (d_vres d) (y + 30) w ltac:(lia) ltac:(lia)).
    repeat case_decide; try lia. done.
Qed.

(** ** The screen shows a text *)
Record shows_text (s : con) (text : list Z) : Prop := {
  st_screen : screen s = d;
  st_run : panicked s = false;
  st_len : length text = 1060%nat;
  st_chars : Forall printable text;
  st_cell : forall p c x y, text !! Z.to_nat p = Some c -> 0 <= p -> 0 <= x < 15 -> 0 <= y < 30 ->
    px s (cell_x p + x) (cell_y p + y) = dot c x y;
  st_below : forall x y, 2 <= x < 797 -> 600 <= y < d_vres d -> px s x y = black_pixel;
}.

(** The screen and the cursor show the terminal [t]. *)
Definition shows (s : con) (t : term) : Prop :=
  shows_text s (cells t) /\ console_pos s = cursor t /\ 0 <= cursor t <= 1060.

(** The character whose bitmap is shown at [p], and the text on the screen. *)
Definition cell_shows (s : con) (p c : Z) : bool :=
  forallb (fun y => forallb (fun x => bool_decide (px s (cell_x p + x) (cell_y p + y) = dot c x y)) (seqZ 0 15)) (seqZ 0 30).

Definition read_cell (s : con) (p : Z) : option Z := find (cell_shows s p) (seqZ 32 95).

Definition read_screen (s : con) : option (list Z) := mapM (read_cell s) (seqZ 0 1060).

Lemma cell_on_screen p x y : 0 <= p < 1060 -> 0 <= x < 15 -> 0 <= y < 30 -> on_screen d (cell_x p + x) (cell_y p + y).
Proof. intros Hp Hx Hy. destruct Hd. unfold cell_x, cell_y, on_screen. split; zdm. Qed.

Lemma cell_shows_spec s p c : cell_shows s p c = true <->
  forall x y, 0 <= x < 15 -> 0 <= y < 30 -> px s (cell_x p + x) (cell_y p + y) = dot c x y.
Proof.
  unfold cell_shows. rewrite forallb_forall. setoid_rewrite forallb_forall. split.
  - intros H x y Hx Hy. apply (bool_decide_eq_true_1 _), H; apply list_elem_of_In, elem_of_seqZ; lia.
  - intros H y Hy%list_elem_of_In%elem_of_seqZ x Hx%list_elem_of_In%elem_of_seqZ. apply bool_decide_eq_true_2, H; lia.
Qed.

Lemma read_cell_char s p c : printable c ->
  (forall x y, 0 <= x < 15 -> 0 <= y < 30 -> px s (cell_x p + x) (cell_y p + y) = dot c x y) -> read_cell s p = Some c.
Proof.
  intros Hc H. unfold read_cell. destruct (find _ _) as [c'|] eqn:E.
  - apply find_some in E as [Hin%list_elem_of_In%elem_of_seqZ Hs]. f_equal. apply dots_inj; [unfold printable; lia|done|].
    intros x y Hx Hy. rewrite <- H by done. symmetry. by apply (proj1 (cell_shows_spec s p c') Hs).
  - apply find_none with (x := c) in E; [|apply list_elem_of_In, elem_of_seqZ; unfold printable in Hc; lia].
    rewrite (proj2 (cell_shows_spec s p c) H) in E. done.
Qed.

(** The text of the terminal can be read off the screen. *)
Lemma shows_read s text : shows_text s text -> read_screen s = Some text.
Proof.
  intros [_ _ Hl Hc Hcell _]. unfold read_screen. apply mapM_Some, Forall2_same_length_lookup_2.
  { rewrite length_seqZ. lia. }
  intros i p c [-> Hi]%lookup_seqZ Hlk. apply read_cell_char; [by eapply Forall_lookup_1|].
  intros x y Hx Hy. apply Hcell; try lia. by replace (Z.to_nat (0 + Z.of_nat i)) with i by lia.
Qed.

(** Only the frame buffer matters. *)
Lemma shows_text_same s s' text :
  vram s' = vram s -> screen s' = screen s -> panicked s' = panicked s -> shows_text s text -> shows_text s' text.
Proof.
  intros Ev Es Ep [H1 H2 H3 H4 H5 H6]. assert (px s' = px s) as Ex by (unfold px; by rewrite Ev, Es).
  split; rewrite ?Ex; first [done|congruence].
Qed.

Lemma shows_text_pos s f text : shows_text s text -> shows_text (upd_console_pos f s) text.
Proof. by apply shows_text_same. Qed.

(** Scrolling the frame buffer scrolls the text. *)
Lemma scroll_shows s text : shows_text s text ->
  wp (graphic_scroll_up 30) (fun _ s' => console_pos s' = console_pos s /\ shows_text s' (drop 53 text ++ replicate 53 32)) s.
Proof.
  intros [H1 H2 H3 H4 H5 H6]. apply wp_scroll_up; [done|]. intros s' [= Hr1 Hr2 Hr3] Hp. split; [done|].
  destruct (Hd) as [_ Hw Hh _ _].
  assert (length (drop 53 text ++ replicate 53 32) = 1060%nat) as Hlen by (rewrite length_app, length_drop, length_replicate; lia).
  split; try congruence.
  - apply Forall_app. split; [by apply Forall_drop|]. apply Forall_replicate. unfold printable. lia.
  - intros p c x y Hl Hp0 Hx Hy. pose proof (lookup_lt_Some _ _ _ Hl) as Hp1.
    rewrite Hp by (apply cell_on_screen; lia). destruct (decide (p < 1007)) as [Hlow|Hlast].
    + rewrite lookup_app_l, lookup_drop in Hl by (rewrite length_drop; lia).
      rewrite decide_True by (unfold cell_y; zdm).
      rewrite <- (H5 (p + 53) c x y); [|replace (Z.to_nat (p + 53)) with (53 + Z.to_nat p)%nat by lia; done|lia..].
      f_equal; unfold cell_x, cell_y; zdm.
    + rewrite lookup_app_r in Hl by (rewrite length_drop; lia). apply lookup_replicate_1 in Hl as [-> _].
      rewrite dot_blank by done. case_decide; [|done]. apply H6; unfold cell_x, cell_y in *; zdm.
  - intros x y Hx Hy. rewrite Hp by (split; lia). case_decide; [apply H6; lia|done].
Qed.

(** Drawing a character puts it in its cell. *)
Lemma render_shows s text p c : shows_text s text -> 0 <= p < 1060 -> printable c ->
  wp (font_render (font_bin outside) (cell_x p) (cell_y p) c)
    (fun _ s' => console_pos s' = console_pos s /\ shows_text s' (<[Z.to_nat p := c]> text)) s.
Proof.
  intros [H1 H2 H3 H4 H5 H6] Hp Hc. destruct (Hd) as [_ Hw Hh _ _].
  eapply wp_mono; [apply paints_font_render; [unfold cell_x, cell_y; zdm..|done]|].
  intros [] s' [[= Hr1 Hr2 Hr3] Hx]. split; [done|]. split; try congruence.
  - by rewrite length_insert.
  - by apply Forall_insert.
  - intros q c' x y Hl Hq Hx0 Hy0. pose proof (lookup_lt_Some _ _ _ Hl) as Hq1. rewrite length_insert in Hq1.
    rewrite Hx by (apply cell_on_screen; lia). unfold char_picture. destruct (decide (q = p)) as [->|Hne].
    + rewrite list_lookup_insert_eq in Hl by lia. injection Hl as <-. rewrite decide_True by lia. simpl. f_equal; lia.
    + rewrite list_lookup_insert_ne in Hl by lia. rewrite decide_False by (unfold cell_x, cell_y; zdm). by apply H5.
  - intros x y Hx0 Hy0. rewrite Hx by (split; lia). unfold char_picture.
    rewrite decide_False by (unfold cell_x, cell_y; zdm). by apply H6.
Qed.

(** The scroll that makes room for the cursor. *)
Lemma room_shows s t : shows_text s (cells t) -> console_pos s = cursor t -> 0 <= cursor t <= 1113 ->
  wp (when (CONSOLE_VERTICAL_MAX * CONSOLE_HORIZONTAL_MAX <=? cursor t)
       (modify (upd_console_pos (fun p => p - CONSOLE_HORIZONTAL_MAX)) ;; graphic_scroll_up 30))
    (fun _ s' => shows_text s' (cells (term_room t)) /\ console_pos s' = cursor (term_room t) /\ 0 <= cursor (term_room t)) s.
Proof.
  intros Ht Hc Hb. change (CONSOLE_VERTICAL_MAX * CONSOLE_HORIZONTAL_MAX) with 1060. unfold when, term_room.
  destruct (1060 <=? cursor t) eqn:E; bool_to_prop; [|apply wp_ret; split; [done|lia]].
  wp_steps. eapply wp_mono; [by apply scroll_shows, shows_text_pos|].
  intros [] s' [Hp Hs]. simpl in *. split; [done|]. rewrite Hp. unfold CONSOLE_HORIZONTAL_MAX. lia.
Qed.

Lemma room_cursor t : 0 <= cursor t <= 1113 -> 0 <= cursor (term_room t) <= 1060 /\ (cursor t <= 1060 -> cursor (term_room t) < 1060).
Proof. intros H. unfold term_room. case_bool; simpl; lia. Qed.

(** [graphic_putc] is the terminal's step. *)
Lemma graphic_putc_shows s t c : shows s t -> typable c ->
  wp (graphic_putc (font_bin outside) c) (fun _ s' => shows s' (term_putc t c)) s.
Proof.
  intros (Ht & Hp & Hb) Hc. unfold graphic_putc, term_putc. wp_steps. rewrite Hp.
  destruct (c =? newline) eqn:En; bool_to_prop; [|destruct (c =? BACKSPACE) eqn:Eb; bool_to_prop].
  - rewrite Z.rem_mod_nonneg by (unfold CONSOLE_HORIZONTAL_MAX; lia). wp_steps. pose proof (Z.mod_pos_bound (cursor t) 53 ltac:(lia)).
    assert (0 <= cursor t + 53 - cursor t mod 53 <= 1113) as Hb' by zdm.
    pose proof (room_cursor (Term (cells t) (cursor t + 53 - cursor t mod 53)) Hb') as [Hr _].
    eapply wp_mono; [apply (room_shows _ (Term (cells t) (cursor t + 53 - cursor t mod 53))); [|done|done]|].
    + by apply shows_text_pos.
    + intros [] s' (H1 & H2 & _). by split.
  - unfold when. destruct (0 <? cursor t) eqn:E; bool_to_prop; wp_steps; (split; [|simpl; rewrite ?Hp; lia]).
    + by apply shows_text_pos.
    + done.
  - assert (printable c) as Hpc by (by destruct Hc as [?|[?|?]]).
    pose proof (room_cursor t ltac:(lia)) as [Hr1 Hr2]. specialize (Hr2 ltac:(lia)).
    apply wp_bind. eapply wp_mono; [apply room_shows; [done..|lia]|]. intros [] s1 (H1 & H2 & H3). wp_steps. rewrite H2.
    rewrite Z.rem_mod_nonneg, Z.quot_div_nonneg by (unfold CONSOLE_HORIZONTAL_MAX; lia).
    eapply wp_mono; [apply (render_shows _ _ (cursor (term_room t)) c H1); [lia|done]|].
    intros [] s2 [H4 H5]. wp_steps. split; [by apply shows_text_pos|]. simpl. rewrite H4. lia.
Qed.

Lemma shows_same s s' t :
  vram s' = vram s -> screen s' = screen s -> panicked s' = panicked s -> console_pos s' = console_pos s -> shows s t -> shows s' t.
Proof. intros ? ? ? Hc (H1 & H2 & H3). split; [by eapply shows_text_same|]. by rewrite Hc. Qed.

(** The serial port leaves the screen alone. *)
Lemma uart_wait_shows n s t : shows s t -> wp (uart_wait n) (fun _ s' => shows s' t) s.
Proof.
  revert s. induction n as [|n IH]; intros s Hs; simpl; [by apply wp_ret|]. unfold inb. wp_steps.
  destruct (io_in s); wp_steps; (case_bool; [apply IH|apply wp_ret]); by apply (shows_same s).
Qed.

Lemma uartputc_shows c s t : shows s t -> wp (uartputc c) (fun _ s' => shows s' t) s.
Proof.
  intros Hs. unfold uartputc. wp_steps. destruct (uart s); cbn [negb]; [|by apply wp_ret].
  apply wp_bind. eapply wp_mono; [by apply uart_wait_shows|]. intros [] s' H. unfold outb. wp_steps.
  by apply (shows_same s').
Qed.

Lemma consputc_shows s t c : shows s t -> typable c ->
  wp (consputc (font_bin outside) c) (fun _ s' => shows s' (term_putc t c)) s.
Proof.
  intros Hs Hc. unfold consputc. wp_steps; [by apply st_run with (text := cells t), Hs|].
  apply wp_mono with (Q1 := fun _ s' => shows s' t).
  - destruct (c =? BACKSPACE); [|by apply uartputc_shows].
    apply wp_bind. eapply wp_mono; [by apply uartputc_shows|]. intros [] s1 H1. apply wp_bind.
    eapply wp_mono; [by apply uartputc_shows|]. intros [] s2 H2. by apply uartputc_shows.
  - intros [] s' H. by apply graphic_putc_shows.
Qed.

Lemma consputs_shows cs s t : shows s t -> Forall typable cs ->
  wp (for_each cs (consputc (font_bin outside))) (fun _ s' => shows s' (foldl term_putc t cs)) s.
Proof.
  intros Hs Hc. revert s t Hs. induction Hc as [|c cs Hc _ IH]; intros s t Hs; simpl; [by apply wp_ret|].
  apply wp_bind. eapply wp_mono; [by apply consputc_shows|]. intros [] s' H. by apply IH.
Qed.

End Display.
End Screen.

(** ** The display *)
Lemma graphic_init_display cfg s :
  frame_size cfg = 4 * pixels_per_line cfg * vertical_resolution cfg -> frame_size cfg <= DEVSPACE ->
  797 <= pixels_per_line cfg -> 600 <= vertical_resolution cfg ->
  wp (graphic_init cfg) (fun _ s' => display_ok (screen s') /\ vram s' = vram s) s.
Proof.
  intros Hs Hd Hw Hh. unfold graphic_init. wp_steps. split; [|done]. unfold DEVSPACE in *. simpl.
  assert (4 * pixels_per_line cfg * 600 <= frame_size cfg) by nia.
  assert (4 * 797 * vertical_resolution cfg <= frame_size cfg) by nia.
  change 4294967295 with (Z.ones 32). rewrite !Z.land_ones, !(Z.mod_small (pixels_per_line _)), !(Z.mod_small (vertical_resolution _)) by lia.
  rewrite !(u32_small (frame_size cfg)), !(u32_small (_ - _)), !(u32_small (pixels_per_line cfg)), !(u32_small (vertical_resolution cfg)) by lia.
  split; simpl; lia.
Qed.

(** A blank frame buffer shows blanks. *)
Lemma blank_shows outside d s : screen s = d -> panicked s = false -> vram s = ∅ ->
  shows_text outside d s (replicate 1060 32).
Proof.
  intros Hs Hp Hv. assert (forall x y, px s x y = black_pixel) as Hb by (intros; unfold px; by rewrite Hv).
  split; [done|done|by rewrite length_replicate|apply Forall_replicate; unfold printable; lia| |intros; apply Hb].
  intros p c x y [-> _]%lookup_replicate_1 _ Hx Hy. by rewrite Hb, dot_blank.
Qed.

(** ** The console is a terminal *)

(** C23: the screen behaves as a terminal of 20 lines of 53 characters.  From a
    screen that shows the text of a terminal, any sequence of printable
    characters, newlines and backspaces given to [consputc] ends with a screen
    that shows what the terminal shows after them: characters go to the cell of
    the cursor and no other cell changes, the text scrolls with a blank line at
    the bottom when the cursor runs off the screen, a backspace moves the cursor
    and erases nothing.  The text can be read off the pixels, as no two
    characters have the same bitmap. *)
Theorem console_is_terminal outside d cs s t :
  display_ok d -> shows outside d s t -> Forall typable cs ->
  wp (for_each cs (consputc (font_bin outside)))
    (fun _ s' => shows outside d s' (foldl term_putc t cs) /\
       read_screen outside s' = Some (cells (foldl term_putc t cs))) s.
Proof.
  intros Hd Hs Hc. eapply wp_mono; [by apply consputs_shows|].
  intros [] s' H. split; [done|]. by eapply shows_read, H.
Qed.

(** "Hi", a newline, "xv", a backspace and "6" on a blank screen of 800 by 600
    pixels, with the cursor where the kernel starts it: the text ends on the
    last line, after two scrolls. *)
Definition svga : display := Display 4227858432 4259492864 1920000 800 600 800.

Definition blank_con : con :=
  Con false true false 1060 (replicate 128 0) 0 0 0 true 0 [] [] ∅ svga (Env 0 false []).

Lemma console_is_terminal_witness :
  wp (for_each [72; 105; 10; 120; 118; 256; 54] (consputc (font_bin (fun _ _ => 0))))
    (fun _ s' => read_screen (fun _ _ => 0) s' = Some (replicate 954 32 ++ [72; 105] ++ replicate 51 32 ++ [120; 54] ++ replicate 51 32))
    blank_con.
Proof.
  eapply wp_mono.
  - apply (console_is_terminal (fun _ _ => 0) svga [72; 105; 10; 120; 118; 256; 54] blank_con (Term (replicate 1060 32) 1060)).
    + split; simpl; lia.
    + split; [by apply blank_shows|]. split; [done|simpl; lia].
    + apply (bool_decide_unpack _). vm_compute. exact I.
  - intros [] s' [_ H]. rewrite H. vm_compute. reflexivity.
Defined.
