(* ===== verification/User.v ===== *)
(** * User space: system calls, the C library and printf
      (src/xv6/user.h, ulib.c, printf.c)

    A user process sees the kernel through its system calls: the class [Os].
    The instance for programs keeps the trace of the calls a process has made and
    the answers the kernel will give to the next ones; the answers are arbitrary,
    so a theorem about a program holds for every kernel.  A call whose answer has
    not come blocks the process.  [exit] does not return: it is the outcome
    [Panic].  A [char *] is
    the list of the bytes from the pointer to the end of its array, a C string
    the bytes before the first NUL. *)
From S2P Require Import Prelude.

(** ** System calls *)
Inductive ucall : Type :=
| Cfork
| Cexit
| Cwait
| Cpipe
| Cwrite (fd : Z) (bs : list Z)
| Cread (fd n : Z)
| Cclose (fd : Z)
| Ckill (pid : Z)
| Cexec (path : list Z) (argv : list (list Z))
| Copen (path : list Z) (mode : Z)
| Cmknod (path : list Z) (major minor : Z)
| Cunlink (path : list Z)
| Cfstat (fd : Z)
| Clink (old new : list Z)
| Cmkdir (path : list Z)
| Cchdir (path : list Z)
| Cdup (fd : Z)
| Cgetpid
| Csbrk (n : Z)
| Csleep (n : Z).

(** What a call returns, and the bytes it stores through its pointer argument. *)
Record answer : Type := Answer {
  a_ret : Z;
  a_bytes : list Z;
}.

(** What a process can ask of a kernel in a state [St]. *)
Class Os (St : Type) : Type := {
  sys : ucall -> M St answer;
  uexit : forall {A}, M St A;
}.

(** [trace] is newest first. *)
Record ust : Type := Ust {
  trace : list ucall;
  answers : list answer;
}.

Definition trace_call (c : ucall) : M ust answer := fun s =>
  match answers s with
  | [] => (Sleep 0, Ust (c :: trace s) [])
  | a :: rest => (Ret a, Ust (c :: trace s) rest)
  end.

Definition trace_exit {A} : M ust A := fun s => (Panic "exit", Ust (Cexit :: trace s) (answers s)).

#[export] Instance trace_os : Os ust := { sys := trace_call; uexit := @trace_exit }.

Section Calls.
Context {St : Type} `{Os St}.

Definition sys_ret (c : ucall) : M St Z := a ← sys c; ret (s32 (a_ret a)).

Definition uwrite (fd : Z) (bs : list Z) : M St Z := sys_ret (Cwrite fd bs).

(** At most [n] bytes come back. *)
Definition uread (fd n : Z) : M St (Z * list Z) :=
  a ← sys (Cread fd n);
  let r := Z.min (s32 (a_ret a)) n in
  ret (r, take (Z.to_nat r) (a_bytes a ++ repeat 0 (Z.to_nat r))).

Definition uclose (fd : Z) : M St Z := sys_ret (Cclose fd).

Definition uopen (path : list Z) (mode : Z) : M St Z := sys_ret (Copen path mode).

Definition ufork : M St Z := sys_ret Cfork.

Definition uwait : M St Z := sys_ret Cwait.

Definition uexec (path : list Z) (argv : list (list Z)) : M St Z := sys_ret (Cexec path argv).

Definition udup (fd : Z) : M St Z := sys_ret (Cdup fd).
End Calls.

(** A loop whose body returns [inl] of the next values of its variables or
    [inr] of its result. *)
Fixpoint iter {St A B} (fuel : nat) (body : A -> M St (A + B)) (a : A) : M St B :=
  match fuel with
  | O => sleep_on 0
  | S k =>
      r ← body a;
      match r with
      | inl a' => iter k body a'
      | inr b => ret b
      end
  end.

(** A loop that makes a system call in every round: it ends, or blocks, before
    the answers are used up. *)
Definition call_loop {A B} (body : A -> M ust (A + B)) (a : A) : M ust B :=
  n ← gets (fun s => length (answers s));
  iter (S n) body a.

(** ** Characters and strings *)
Definition str (s : string) : list Z :=
  (fun a => Z.of_N (Ascii.N_of_ascii a)) <$> String.list_ascii_of_string s.

(** A text and its newline. *)
Definition line (s : string) : list Z := str s ++ [10].

Definition hd0 (l : list Z) : Z := match l with [] => 0 | c :: _ => c end.

(** The C string that starts at a pointer. *)
Fixpoint cstr (l : list Z) : list Z :=
  match l with
  | [] => []
  | c :: l' => if c =? 0 then [] else c :: cstr l'
  end.

(** ** ulib.c *)

(** The array [s] after the copy. *)
Fixpoint strcpy (s t : list Z) : list Z :=
  match t with
  | [] => 0 :: tail s
  | c :: t' => if c =? 0 then 0 :: tail s else c :: strcpy (tail s) t'
  end.

Fixpoint strcmp (p q : list Z) : Z :=
  match p with
  | [] => 0 - u8 (hd0 q)
  | c :: p' =>
      if negb (c =? 0) && (c =? hd0 q) then strcmp p' (tail q)
      else u8 c - u8 (hd0 q)
  end.

Fixpoint strlen (s : list Z) : Z :=
  match s with
  | [] => 0
  | c :: s' => if c =? 0 then 0 else 1 + strlen s'
  end.

(** The array [dst] after [stosb] has stored [n] bytes. *)
Definition memset (dst : list Z) (c n : Z) : list Z :=
  repeat (u8 c) (Z.to_nat n) ++ drop (Z.to_nat n) dst.

(** The offset of the first [c], [None] for the null pointer. *)
Fixpoint strchr (s : list Z) (c : Z) : option Z :=
  match s with
  | [] => None
  | d :: s' =>
      if d =? 0 then None
      else if d =? c then Some 0
      else Z.succ <$> strchr s' c
  end.

(** Copying inside one array, from offset [src] to offset [dst], one byte after
    the other in increasing order. *)
Fixpoint memmove (a : list Z) (dst src n : nat) : list Z :=
  match n with
  | O => a
  | S k => memmove (<[dst := default 0 (a !! src)]> a) (S dst) (S src) k
  end.

Fixpoint atoi_loop (n : Z) (s : list Z) : Z :=
  match s with
  | [] => n
  | c :: s' =>
      if (48 <=? c) && (c <=? 57) then atoi_loop (s32 (s32 (n * 10) + c - 48)) s' else n
  end.

Definition atoi (s : list Z) : Z := atoi_loop 0 s.

(** The characters [gets] has stored after [room] rounds at most. *)
Fixpoint gets_loop (room : nat) : M ust (list Z) :=
  match room with
  | O => ret []
  | S k =>
      '(cc, bs) ← uread 0 1;
      if cc <? 1 then ret []
      else
        let c := hd0 bs in
        if (c =? 10) || (c =? 13) then ret [c]
        else rest ← gets_loop k; ret (c :: rest)
  end.

(** [gets]: the contents of [buf], terminator included. *)
Definition ugets (max : Z) : M ust (list Z) :=
  l ← gets_loop (Z.to_nat (max - 1)); ret (l ++ [0]).

(** [struct stat] as [fstat] stores it. *)
Definition le16 (bs : list Z) (i : nat) : Z := default 0 (bs !! i) + 256 * default 0 (bs !! S i).

Definition le32 (bs : list Z) (i : nat) : Z := le16 bs i + 65536 * le16 bs (S (S i)).

Definition st_type (bs : list Z) : Z := s16 (le16 bs 0).

Definition st_ino (bs : list Z) : Z := le32 bs 8.

Definition st_size (bs : list Z) : Z := le32 bs 16.

Section Stat.
Context {St : Type} `{Os St}.

Definition ufstat (fd : Z) : M St (Z * list Z) :=
  a ← sys (Cfstat fd); ret (s32 (a_ret a), a_bytes a).

(** The result, and the bytes of [*st]. *)
Definition stat (n : list Z) : M St (Z * list Z) :=
  fd ← uopen n 0;
  if fd <? 0 then ret (-1, [])
  else
    '(r, st) ← ufstat fd;
    uclose fd ;;
    ret (r, st).

End Stat.

(** ** printf.c *)

(** An argument: a word, or a pointer to a string. *)
Inductive uarg : Type :=
| UInt (v : Z)
| UStr (s : option (list Z)).

Section Printf.
Context {St : Type} `{Os St}.

Definition putc (fd c : Z) : M St unit := uwrite fd [u8 c] ;; ret tt.

(** [digits[d]] *)
Definition upper_digit (d : Z) : Z := if d <? 10 then 48 + d else 55 + d.

(** The [do] loop: the contents of [buf]; a word has at most 32 digits. *)
Fixpoint upper_digits (fuel : nat) (x base : Z) : list Z :=
  match fuel with
  | O => []
  | S k =>
      upper_digit (x mod base) ::
      (if negb (x / base =? 0) then upper_digits k (x / base) base else [])
  end.

Definition printint_chars (xx base : Z) (sgn : bool) : list Z :=
  let neg := sgn && (s32 xx <? 0) in
  let x := if neg then u32 (- s32 xx) else u32 xx in
  let buf := upper_digits 32 x base in
  rev (if neg then buf ++ [45] else buf).

Definition printint (fd xx base : Z) (sgn : bool) : M St unit :=
  for_each (printint_chars xx base sgn) (putc fd).

(** An argument of the other kind is a pointer printed as a number or a number
    used as a pointer. *)
Definition bad_conversion : M St unit := panic "undefined behaviour: argument".

(** The loop of [printf]; [percent] is [state == '%']. *)
Fixpoint printf_loop (fd : Z) (percent : bool) (fmt : list Z) (ap : list uarg) : M St unit :=
  match fmt with
  | [] => ret tt
  | c :: fmt =>
      if c =? 0 then ret tt
      else if negb percent then
        if c =? 37 then printf_loop fd true fmt ap
        else putc fd c ;; printf_loop fd false fmt ap
      else if c =? 100 then
        match ap with
        | UInt v :: ap => printint fd v 10 true ;; printf_loop fd false fmt ap
        | _ => bad_conversion
        end
      else if (c =? 120) || (c =? 112) then
        match ap with
        | UInt v :: ap => printint fd v 16 false ;; printf_loop fd false fmt ap
        | _ => bad_conversion
        end
      else if c =? 115 then
        match ap with
        | UStr s :: ap => for_each (cstr (default (str "(null)") s)) (putc fd) ;; printf_loop fd false fmt ap
        | _ => bad_conversion
        end
      else if c =? 99 then
        match ap with
        | UInt v :: ap => putc fd v ;; printf_loop fd false fmt ap
        | _ => bad_conversion
        end
      else if c =? 37 then
        putc fd c ;; printf_loop fd false fmt ap
      else
        putc fd 37 ;; putc fd c ;; printf_loop fd false fmt ap
  end.

Definition printf (fd : Z) (fmt : list Z) (ap : list uarg) : M St unit := printf_loop fd false fmt ap.
End Printf.

(** ** Strings: laws *)
Lemma strlen_length s : strlen s = Z.of_nat (length (cstr s)).
Proof. induction s as [|c s IH]; [done|]. cbn [strlen cstr]. destruct (c =? 0); [done|]. rewrite IH. simpl length. lia. Qed.

Lemma cstr_no_nul s : Forall (fun c => c <> 0) (cstr s).
Proof. induction s as [|c s IH]; [constructor|]. cbn [cstr]. destruct (c =? 0) eqn:E; bool_to_prop; constructor; done. Qed.

Lemma cstr_id s : Forall (fun c => c <> 0) s -> cstr s = s.
Proof. induction 1 as [|c s Hc Hs IH]; [done|]. cbn [cstr]. destruct (c =? 0) eqn:E; bool_to_prop; [done|by rewrite IH]. Qed.

Lemma cstr_app s t : Forall (fun c => c <> 0) s -> cstr (s ++ 0 :: t) = s.
Proof. induction 1 as [|c s Hc Hs IH]; [done|]. cbn [cstr app]. destruct (c =? 0) eqn:E; bool_to_prop; [done|by rewrite IH]. Qed.

(** [strchr] splits its string at the first occurrence. *)
Lemma strchr_Some s c k : c <> 0 -> strchr s c = Some k ->
  exists a b, s = a ++ c :: b /\ k = Z.of_nat (length a) /\ Forall (fun d => d <> 0 /\ d <> c) a.
Proof.
  intros Hc. revert k. induction s as [|d s IH]; intros k; [done|]. cbn [strchr].
  destruct (d =? 0) eqn:E; [done|]. destruct (d =? c) eqn:E2; bool_to_prop.
  - intros [= <-]. subst. by exists [], s.
  - destruct (strchr s c) as [k'|]; [|done]. intros [= <-].
    destruct (IH k' eq_refl) as (a & b & -> & -> & Ha). exists (d :: a), b. split_and!; [done|simpl length; lia|by constructor].
Qed.

Lemma strchr_app s c t : Forall (fun d => d <> 0 /\ d <> c) s -> c <> 0 -> strchr (s ++ c :: t) c = Some (Z.of_nat (length s)).
Proof.
  induction 1 as [|d s [H1 H2] Hs IH]; intros Hc; cbn [app strchr].
  - apply Z.eqb_neq in Hc as ->. by rewrite Z.eqb_refl.
  - apply Z.eqb_neq in H1 as ->. apply Z.eqb_neq in H2 as ->. rewrite IH by done. cbn [length fmap option_fmap option_map]. f_equal. lia.
Qed.

Lemma strchr_None s c t : Forall (fun d => d <> 0 /\ d <> c) s -> strchr (s ++ 0 :: t) c = None.
Proof.
  induction 1 as [|d s [H1 H2] Hs IH]; cbn [app strchr]; [done|].
  apply Z.eqb_neq in H1 as ->. apply Z.eqb_neq in H2 as ->. by rewrite IH.
Qed.

(** ** Answered calls *)
Lemma sys_ok c a rest s : answers s = a :: rest -> sys c s = (Ret a, Ust (c :: trace s) rest).
Proof. unfold sys, trace_os, trace_call. by intros ->. Qed.

Lemma uwrite_ok fd bs a rest s : answers s = a :: rest ->
  uwrite fd bs s = (Ret (s32 (a_ret a)), Ust (Cwrite fd bs :: trace s) rest).
Proof. intros H. unfold uwrite, sys_ret. by rewrite (bind_Ret _ _ _ _ _ (sys_ok _ _ _ _ H)). Qed.

(** A read that brings a piece of the input. *)
Lemma uread_ok fd n c rest s : answers s = Answer (Z.of_nat (length c)) c :: rest ->
  Z.of_nat (length c) <= n -> n <= 4096 ->
  uread fd n s = (Ret (Z.of_nat (length c), c), Ust (Cread fd n :: trace s) rest).
Proof.
  intros H Hn Hm. unfold uread. rewrite (bind_Ret _ _ _ _ _ (sys_ok _ _ _ _ H)). cbn [a_ret a_bytes].
  rewrite s32_small by lia. rewrite Z.min_l by lia. rewrite Nat2Z.id, take_app_le, take_ge by lia. done.
Qed.

Lemma uread_end fd n a rest s : answers s = a :: rest -> s32 (a_ret a) <= 0 -> 0 <= n ->
  exists r bs, uread fd n s = (Ret (r, bs), Ust (Cread fd n :: trace s) rest) /\ r <= 0.
Proof.
  intros H Ha Hn. unfold uread. rewrite (bind_Ret _ _ _ _ _ (sys_ok _ _ _ _ H)). eexists _, _. split; [reflexivity|]. lia.
Qed.
