(* ===== verification/Grep.v ===== *)
(** * grep (src/xv6/grep.c)

    The matcher of patterns with [^], [.], [*] and [$], the loop that cuts the
    input into lines, and the language the matcher decides. *)
From S2P Require Import Prelude User.

Definition caret : Z := 94.

Definition dot : Z := 46.

Definition star : Z := 42.

Definition dollar : Z := 36.

(** ** The matcher *)

(** [matchstar(c, re, text)], [here] being [matchhere] at [re] *)
Fixpoint matchstar_at (here : list Z -> bool) (c : Z) (text : list Z) : bool :=
  if here text then true
  else
    match text with
    | [] => false
    | t :: text' =>
        if negb (t =? 0) && ((t =? c) || (c =? dot)) then matchstar_at here c text' else false
    end.

Fixpoint matchhere (re text : list Z) {struct re} : bool :=
  match re with
  | [] => true
  | c :: re1 =>
      if c =? 0 then true
      else
        let one :=
          if (c =? dollar) && (hd0 re1 =? 0) then hd0 text =? 0
          else if negb (hd0 text =? 0) && ((c =? dot) || (c =? hd0 text)) then matchhere re1 (tail text)
          else false in
        match re1 with
        | d :: re2 => if d =? star then matchstar_at (matchhere re2) c text else one
        | [] => one
        end
  end.

Definition matchstar (c : Z) (re text : list Z) : bool := matchstar_at (matchhere re) c text.

(** The [do] loop of [match]. *)
Fixpoint match_loop (re text : list Z) : bool :=
  if matchhere re text then true
  else
    match text with
    | [] => false
    | t :: text' => if t =? 0 then false else match_loop re text'
    end.

Definition match_ (re text : list Z) : bool :=
  if hd0 re =? caret then matchhere (tail re) text else match_loop re text.

(** ** The line loop *)
Definition BUFSIZE : Z := 1024.

(** [while((q = strchr(p, '\n')) != 0)]: the buffer and [p - buf] afterwards *)
Fixpoint grep_scan (fuel : nat) (pattern buf : list Z) (p : nat) : M ust (list Z * nat) :=
  match fuel with
  | O => ret (buf, p)
  | S k =>
      match strchr (drop p buf) 10 with
      | None => ret (buf, p)
      | Some d =>
          let q := (p + Z.to_nat d)%nat in
          let buf := <[q := 0]> buf in
          if match_ pattern (drop p buf) then
            let buf := <[q := 10]> buf in
            uwrite 1 (take (q + 1 - p) (drop p buf)) ;;
            grep_scan k pattern buf (q + 1)
          else grep_scan k pattern buf (q + 1)
      end
  end.

(** One round of the outer loop. *)
Definition grep_round (pattern : list Z) (fd : Z) (st : list Z * nat) : M ust ((list Z * nat) + list Z) :=
  let '(buf, m) := st in
  '(n, bs) ← uread fd (BUFSIZE - Z.of_nat m - 1);
  if n <=? 0 then ret (inr buf)
  else
    let buf := take m buf ++ bs ++ drop (m + length bs) buf in
    let m := (m + Z.to_nat n)%nat in
    let buf := <[m := 0]> buf in
    '(buf, p) ← grep_scan (S (length buf)) pattern buf 0;
    let m := if decide (p = 0%nat) then 0%nat else m in
    if decide (m = 0%nat) then ret (inl (buf, m))
    else ret (inl (memmove buf 0 p (m - p), (m - p)%nat)).

(** [buf] is the global array, whose contents outlive a call. *)
Definition grep (pattern : list Z) (fd : Z) (buf : list Z) : M ust (list Z) :=
  call_loop (grep_round pattern fd) (buf, 0%nat).

Fixpoint grep_files (pattern : list Z) (files : list (list Z)) (buf : list Z) : M ust unit :=
  match files with
  | [] => uexit
  | f :: files =>
      fd ← uopen f 0;
      if fd <? 0 then printf 1 (line "grep: cannot open %s") [UStr (Some f)] ;; uexit
      else
        buf ← grep pattern fd buf;
        uclose fd ;;
        grep_files pattern files buf
  end.

Definition grep_main (argv : list (list Z)) : M ust unit :=
  let buf := repeat 0 1024 in
  match argv with
  | _ :: pattern :: files =>
      match files with
      | [] => grep pattern 0 buf ;; uexit
      | _ => grep_files pattern files buf
      end
  | _ => printf 2 (line "usage: grep pattern [file ...]") [] ;; uexit
  end.

(** ** The language of a pattern *)

(** A pattern is a sequence of characters and starred characters, possibly
    followed by the end anchor. *)
Inductive item : Type :=
| One (c : Z)
| Star (c : Z).

Fixpoint items (re : list Z) : list item :=
  match re with
  | [] => []
  | c :: re1 =>
      match re1 with
      | [] => if c =? dollar then [] else [One c]
      | d :: re2 => if d =? star then Star c :: items re2 else One c :: items re1
      end
  end.

(** Does the pattern end in an anchor? *)
Fixpoint at_end (re : list Z) : bool :=
  match re with
  | [] => false
  | c :: re1 =>
      match re1 with
      | [] => c =? dollar
      | d :: re2 => if d =? star then at_end re2 else at_end re1
      end
  end.

Definition sat (c x : Z) : Prop := c = dot \/ x = c.

Inductive lang : list item -> list Z -> Prop :=
| lang_nil : lang [] []
| lang_one c x l t : sat c x -> lang l t -> lang (One c :: l) (x :: t)
| lang_star c t1 l t2 : Forall (sat c) t1 -> lang l t2 -> lang (Star c :: l) (t1 ++ t2).

(** [re] matches at the start of [text]. *)
Definition prefix_match (re text : list Z) : Prop :=
  exists mid post, text = mid ++ post /\ lang (items re) mid /\ (at_end re = true -> post = []).

(** [re] matches somewhere in [text]; a leading [^] fixes the place. *)
Definition occurs (re text : list Z) : Prop :=
  match re with
  | c :: re' =>
      if c =? caret then prefix_match re' text
      else exists pre rest, text = pre ++ rest /\ prefix_match re rest
  | [] => True
  end.

(** ** The matcher decides the language *)
Lemma prefix_nil t : prefix_match [] t.
Proof. exists [], t. split_and!; [done|constructor|done]. Qed.

Lemma prefix_one c re1 text : head re1 <> Some star -> ~ (c = dollar /\ re1 = []) ->
  prefix_match (c :: re1) text <-> exists x t, text = x :: t /\ sat c x /\ prefix_match re1 t.
Proof.
  intros Hs Hd.
  assert (items (c :: re1) = One c :: items re1 /\ at_end (c :: re1) = at_end re1) as [Hi He].
  { destruct re1 as [|d re2]; cbn [items at_end].
    - destruct (c =? dollar) eqn:E; bool_to_prop; [exfalso; by apply Hd|done].
    - destruct (d =? star) eqn:E; bool_to_prop; [by subst|done]. }
  unfold prefix_match. rewrite Hi, He. split.
  - intros (mid & post & -> & Hl & Hp). inversion Hl; subst. cbn [app]. eexists _, _. split; [done|]. split; [done|]. by exists t, post.
  - intros (x & t & -> & Hx & mid & post & -> & Hl & Hp). exists (x :: mid), post. split; [done|]. split; [by constructor|done].
Qed.

Lemma prefix_star c re2 text :
  prefix_match (c :: star :: re2) text <-> exists t1 t2, text = t1 ++ t2 /\ Forall (sat c) t1 /\ prefix_match re2 t2.
Proof.
  unfold prefix_match. cbn [items at_end]. rewrite Z.eqb_refl. split.
  - intros (mid & post & -> & Hl & Hp). inversion Hl; subst. exists t1, (t2 ++ post). rewrite app_assoc. split; [done|]. split; [done|]. by exists t2, post.
  - intros (t1 & t2 & -> & Ht & mid & post & -> & Hl & Hp). exists (t1 ++ mid), post. rewrite app_assoc. split; [done|]. split; [by constructor|done].
Qed.

Lemma prefix_dollar text : prefix_match [dollar] text <-> text = [].
Proof.
  unfold prefix_match. cbn [items at_end]. rewrite Z.eqb_refl. split.
  - intros (mid & post & -> & Hl & Hp). inversion Hl; subst. by apply Hp.
  - intros ->. exists [], []. split_and!; [done|constructor|done].
Qed.

Lemma cstr_cons c l : c <> 0 -> cstr (c :: l) = c :: cstr l.
Proof. intros H. cbn [cstr]. by apply Z.eqb_neq in H as ->. Qed.

Lemma hd0_cstr l : hd0 l = hd0 (cstr l).
Proof. destruct l as [|c l]; [done|]. cbn [cstr]. destruct (c =? 0) eqn:E; bool_to_prop; [by subst|done]. Qed.

Lemma hd0_zero l : hd0 l = 0 <-> cstr l = [].
Proof.
  rewrite hd0_cstr. pose proof (cstr_no_nul l) as H. destruct (cstr l); [done|]. inversion H; subst. split; [done|discriminate].
Qed.

Lemma cstr_cons_inv l x t : cstr l = x :: t -> exists l', l = x :: l' /\ cstr l' = t /\ x <> 0.
Proof. destruct l as [|c l]; [done|]. cbn [cstr]. destruct (c =? 0) eqn:E; [done|]. bool_to_prop. intros [= -> <-]. by exists l. Qed.

Lemma matchstar_at_spec (here : list Z -> bool) (P : list Z -> Prop) c text :
  (forall t, here t = true <-> P (cstr t)) ->
  matchstar_at here c text = true <-> exists t1 t2, cstr text = t1 ++ t2 /\ Forall (sat c) t1 /\ P t2.
Proof.
  intros HP. induction text as [|t text IH]; cbn [matchstar_at].
  - destruct (here []) eqn:E.
    + split; [intros _; exists [], []; split_and!; [done|constructor|by apply (HP [])]|done].
    + split; [done|]. intros (t1 & t2 & H & _ & H2). symmetry in H. apply app_eq_nil in H as [-> ->]. apply (HP []) in H2. congruence.
  - destruct (here (t :: text)) eqn:E.
    + split; [intros _|done]. exists [], (cstr (t :: text)). split_and!; [done|constructor|by apply HP].
    + destruct (t =? 0) eqn:E0; bool_to_prop; cbn [negb andb].
      * split; [done|]. intros (t1 & t2 & H & _ & H2). cbn [cstr] in H. rewrite E0 in H. cbn in H. symmetry in H.
        apply app_eq_nil in H as [-> ->]. subst t. assert (here (0 :: text) = true) by (by apply HP). congruence.
      * rewrite cstr_cons by done. destruct ((t =? c) || (c =? dot)) eqn:E1.
        { rewrite IH. assert (sat c t) by (unfold sat; bool_to_prop; [by right|by left]). split.
          - intros (t1 & t2 & H1 & H2 & H3). exists (t :: t1), t2. rewrite H1. split_and!; [done|by constructor|done].
          - intros (t1 & t2 & H1 & H2 & H3). destruct t1 as [|y t1]; cbn [app] in H1.
            + exfalso. subst t2. rewrite <- cstr_cons in H3 by done. apply HP in H3. congruence.
            + injection H1 as -> H1. exists t1, t2. inversion H2; subst. done. }
        { split; [done|]. intros (t1 & t2 & H1 & H2 & H3). bool_to_prop. destruct t1 as [|y t1]; cbn [app] in H1.
          - exfalso. subst t2. rewrite <- cstr_cons in H3 by done. apply HP in H3. congruence.
          - injection H1 as -> H1. inversion H2 as [|? ? Hs]; subst. unfold sat in Hs. destruct Hs; done. }
Qed.

Lemma matchhere_one c re1 text : c <> 0 -> hd0 re1 <> star ->
  matchhere (c :: re1) text =
    (if (c =? dollar) && (hd0 re1 =? 0) then hd0 text =? 0
     else if negb (hd0 text =? 0) && ((c =? dot) || (c =? hd0 text)) then matchhere re1 (tail text) else false).
Proof.
  intros Hc Hs. cbn [matchhere]. apply Z.eqb_neq in Hc as ->. destruct re1 as [|d re2]; [done|].
  apply Z.eqb_neq in Hs. cbn [hd0] in Hs. by rewrite Hs.
Qed.

Lemma matchhere_spec re text : matchhere re text = true <-> prefix_match (cstr re) (cstr text).
Proof.
  revert re text. induction re as [re IH] using (induction_ltof1 _ (@length Z)). intros text. unfold ltof in IH.
  destruct re as [|c re1]; [split; [intros _; apply prefix_nil|done]|].
  destruct (decide (c = 0)) as [->|Hc]; [split; [intros _; apply prefix_nil|done]|].
  rewrite cstr_cons by done. destruct (decide (hd0 re1 = star)) as [Hs|Hs].
  - destruct re1 as [|d re2]; [done|]. cbn [hd0] in Hs. subst d. rewrite cstr_cons by done. cbn [matchhere].
    apply Z.eqb_neq in Hc as ->. rewrite Z.eqb_refl, prefix_star. apply matchstar_at_spec. intros t. apply IH. simpl. lia.
  - rewrite matchhere_one by done. destruct ((c =? dollar) && (hd0 re1 =? 0)) eqn:E.
    { bool_to_prop. subst c. apply hd0_zero in H0. rewrite H0, prefix_dollar, Z.eqb_eq. apply hd0_zero. }
    rewrite prefix_one.
    2:{ intros Hh. apply Hs. rewrite hd0_cstr. by destruct (cstr re1) as [|? ?]; [|injection Hh as ->]. }
    2:{ intros [-> Hn]. apply hd0_zero in Hn. by rewrite Hn in E. }
    destruct (negb (hd0 text =? 0) && ((c =? dot) || (c =? hd0 text))) eqn:E1.
    + apply andb_true_iff in E1 as [E1 E2]. apply negb_true_iff, Z.eqb_neq in E1.
      destruct text as [|x t]; [done|]. cbn [hd0 tail] in *. rewrite cstr_cons by done. rewrite IH by (simpl; lia). split.
      * intros H. exists x, (cstr t). split_and!; [done| |done]. unfold sat. clear E. bool_to_prop; [by left|by right].
      * intros (x' & t' & [= -> ->] & _ & H). done.
    + split; [done|]. intros (x & t & Ht & Hx & _). apply cstr_cons_inv in Ht as (l' & -> & _ & Hx0). cbn [hd0] in E1.
      apply Z.eqb_neq in Hx0. rewrite Hx0 in E1. cbn [negb andb] in E1. clear E. bool_to_prop. unfold sat in Hx. destruct Hx; congruence.
Qed.

Lemma match_loop_spec re text : match_loop re text = true <-> exists pre rest, cstr text = pre ++ rest /\ prefix_match (cstr re) rest.
Proof.
  induction text as [|t text IH]; cbn [match_loop].
  - destruct (matchhere re []) eqn:E.
    + split; [intros _|done]. exists [], []. split; [done|]. by apply (matchhere_spec re []).
    + split; [done|]. intros (pre & rest & H & Hp). symmetry in H. apply app_eq_nil in H as [-> ->]. apply (matchhere_spec re []) in Hp. congruence.
  - destruct (matchhere re (t :: text)) eqn:E.
    + split; [intros _|done]. exists [], (cstr (t :: text)). split; [done|]. by apply matchhere_spec.
    + destruct (t =? 0) eqn:E0; bool_to_prop.
      * split; [done|]. intros (pre & rest & H & Hp). cbn [cstr] in H. rewrite E0 in H. cbn in H. symmetry in H. apply app_eq_nil in H as [-> ->].
        subst t. assert (matchhere re (0 :: text) = true) by (by apply matchhere_spec). congruence.
      * rewrite IH, cstr_cons by done. split.
        -- intros (pre & rest & -> & Hp). by exists (t :: pre), rest.
        -- intros (pre & rest & H & Hp). destruct pre as [|y pre]; cbn [app] in H.
           ++ exfalso. subst rest. rewrite <- cstr_cons in Hp by done. apply matchhere_spec in Hp. congruence.
           ++ injection H as -> H. by exists pre, rest.
Qed.

(** C32: the matcher of grep decides the language of its pattern.  For every
    pattern and text, [match] answers 1 exactly when the text has a part in the
    language of the pattern: a character stands for itself, [.] for any
    character, a starred one for any number of them; the part starts the text
    when the pattern starts with [^] and ends it when the pattern ends with [$].
    An anchor anywhere else, and a star that follows nothing, are ordinary
    characters. *)
Theorem match_decides re text : match_ re text = true <-> occurs (cstr re) (cstr text).
Proof.
  unfold match_, occurs. destruct (hd0 re =? caret) eqn:E; bool_to_prop.
  - destruct re as [|c re']; [done|]. cbn [hd0] in E. subst c. rewrite cstr_cons by done. cbn [tail]. rewrite Z.eqb_refl. apply matchhere_spec.
  - rewrite match_loop_spec. rewrite hd0_cstr in E. destruct (cstr re) as [|c re'].
    + split; [done|]. intros _. exists [], (cstr text). split; [done|apply prefix_nil].
    + cbn [hd0] in E. by apply Z.eqb_neq in E as ->.
Qed.

Example match_examples :
  match_ (str "^a.*d$") (str "abcd") = true /\ match_ (str "b*c") (str "xxc") = true /\
  match_ (str "b$") (str "abc") = false /\ match_ (str "$b") (str "a$b") = true /\ match_ (str "*b") (str "a*b") = true.
Proof. by vm_compute. Qed.

(** ** The line loop: reference *)

(** The complete lines of a text, without their newlines, and what follows the
    last newline. *)
Fixpoint split_lines (t : list Z) : list (list Z) * list Z :=
  match t with
  | [] => ([], [])
  | c :: t' =>
      let '(ls, r) := split_lines t' in
      if c =? 10 then ([] :: ls, r)
      else match ls with
           | [] => ([], c :: r)
           | l :: ls' => ((c :: l) :: ls', r)
           end
  end.

Definition join (ls : list (list Z)) : list Z := concat ((fun l => l ++ [10]) <$> ls).

Definition matching (pattern : list Z) (ls : list (list Z)) : list (list Z) :=
  filter (fun l => match_ pattern l = true) ls.

(** What a process has written to its standard output. *)
Fixpoint written (tr : list ucall) : list Z :=
  match tr with
  | [] => []
  | Cwrite fd bs :: tr' => written tr' ++ (if fd =? 1 then bs else [])
  | _ :: tr' => written tr'
  end.

(** The answers of a kernel that delivers the input in the pieces [cs] and then
    its end: a piece for each read, then an answer for every line written. *)
Inductive feeds (pattern : list Z) : list Z -> list (list Z) -> list answer -> Prop :=
| feeds_end r a : s32 (a_ret a) <= 0 -> feeds pattern r [] [a]
| feeds_piece r c cs ws ans :
    length ws = length (matching pattern (fst (split_lines (r ++ c)))) ->
    feeds pattern (snd (split_lines (r ++ c))) cs ans ->
    feeds pattern r (c :: cs) (Answer (Z.of_nat (length c)) c :: ws ++ ans).

(** Text, in pieces that fit the buffer and have a newline each. *)
Fixpoint pieces_ok (r : list Z) (cs : list (list Z)) : Prop :=
  match cs with
  | [] => True
  | c :: cs' =>
      10 ∈ c /\ Forall (fun x => x <> 0) c /\ Z.of_nat (length r + length c) < BUFSIZE /\
      pieces_ok (snd (split_lines (r ++ c))) cs'
  end.

(** *** Lines *)
Definition in_line (x : Z) : Prop := x <> 0 /\ x <> 10.

Lemma split_lines_join t : t = join (fst (split_lines t)) ++ snd (split_lines t).
Proof.
  induction t as [|c t IH]; [done|]. cbn [split_lines]. destruct (split_lines t) as [ls r]. cbn [fst snd] in IH.
  destruct (c =? 10) eqn:E; bool_to_prop; cbn [fst snd].
  - subst c. unfold join in *. cbn [fmap list_fmap concat app]. by f_equal.
  - destruct ls as [|l ls]; cbn [fst snd]; unfold join in *; cbn [fmap list_fmap concat app] in *; by f_equal.
Qed.

Lemma split_lines_text t : Forall (fun x => x <> 0) t ->
  Forall (Forall in_line) (fst (split_lines t)) /\ Forall in_line (snd (split_lines t)).
Proof.
  induction 1 as [|c t Hc Ht IH]; [split; constructor|]. cbn [split_lines]. destruct (split_lines t) as [ls r].
  destruct IH as [H1 H2]. cbn [fst snd] in *. destruct (c =? 10) eqn:E; bool_to_prop; cbn [fst snd].
  - split; [|done]. constructor; [constructor|done].
  - destruct ls as [|l ls]; cbn [fst snd].
    + split; [constructor|]. constructor; [by split|done].
    + inversion H1; subst. split; [|done]. constructor; [|done]. constructor; [by split|done].
Qed.

Lemma split_lines_app a b :
  split_lines (a ++ b) =
    (fst (split_lines a) ++ fst (split_lines (snd (split_lines a) ++ b)), snd (split_lines (snd (split_lines a) ++ b))).
Proof.
  induction a as [|c a IH]; [cbn [app split_lines fst snd]; by destruct (split_lines b)|].
  cbn [app split_lines]. rewrite IH. destruct (split_lines a) as [ls r]. cbn [fst snd].
  destruct (c =? 10) eqn:E; cbn [fst snd]; [done|].
  destruct ls as [|l ls]; cbn [fst snd app]; [|done]. cbn [split_lines]. rewrite E.
  destruct (split_lines (r ++ b)) as [[|l' ls'] r']; done.
Qed.

Lemma split_lines_newline t : 10 ∈ t -> fst (split_lines t) <> [].
Proof.
  induction t as [|c t IH]; [by intros H; inversion H|]. intros H. cbn [split_lines]. destruct (split_lines t) as [ls r].
  cbn [fst] in *. destruct (c =? 10) eqn:E; bool_to_prop; [done|]. apply elem_of_cons in H as [H|H]; [by subst|].
  specialize (IH H). by destruct ls.
Qed.

(** *** The scan of the buffer *)
(** The matcher sees the bytes before the first NUL only. *)
Lemma match_cstr re t1 t2 : cstr t1 = cstr t2 -> match_ re t1 = match_ re t2.
Proof.
  intros H. unfold match_. destruct (hd0 re =? caret); apply eq_iff_eq_true.
  - by rewrite !matchhere_spec, H.
  - by rewrite !match_loop_spec, H.
Qed.

Lemma match_line pattern l t : Forall in_line l -> match_ pattern (l ++ 0 :: t) = match_ pattern l.
Proof.
  intros Hl. assert (Forall (fun x => x <> 0) l) by (eapply Forall_impl; [exact Hl|by intros ? []]).
  apply match_cstr. by rewrite cstr_app, cstr_id.
Qed.

Lemma strchr_line l t : Forall in_line l -> strchr (l ++ 10 :: t) 10 = Some (Z.of_nat (length l)).
Proof. intros H. by apply strchr_app. Qed.

Lemma insert_mid (pre l t : list Z) c d : <[(length pre + length l)%nat := d]> (pre ++ l ++ c :: t) = pre ++ l ++ d :: t.
Proof. rewrite !app_assoc, <- length_app. by rewrite insert_app_r_alt, Nat.sub_diag by lia. Qed.

Lemma drop_pre (pre t : list Z) : drop (length pre) (pre ++ t) = t.
Proof. by rewrite drop_app_length. Qed.

Lemma take_line (l t : list Z) n : take (n + length l + 1 - n) (l ++ 10 :: t) = l ++ [10].
Proof.
  replace (n + length l + 1 - n)%nat with (length (l ++ [10])) by (rewrite length_app; simpl; lia).
  change (10 :: t) with ([10] ++ t). by rewrite app_assoc, take_app_length.
Qed.

Lemma grep_scan_spec pattern ls fuel pre r junk s ws rest :
  Forall (Forall in_line) ls -> Forall in_line r -> (length ls < fuel)%nat ->
  answers s = ws ++ rest -> length ws = length (matching pattern ls) ->
  exists pre' s', grep_scan fuel pattern (pre ++ join ls ++ r ++ 0 :: junk) (length pre) s =
      (Ret (pre' ++ r ++ 0 :: junk, length pre'), s') /\
    length pre' = (length pre + length (join ls))%nat /\ answers s' = rest /\
    written (trace s') = written (trace s) ++ join (matching pattern ls).
Proof.
  revert fuel pre s ws. induction ls as [|l ls IH]; intros [|fuel] pre s ws Hls Hr Hf Ha Hw; try (simpl in Hf; lia).
  - exists pre, s. cbn [grep_scan join fmap list_fmap concat app]. rewrite drop_pre, strchr_None by done.
    destruct ws; [|done]. split_and!; [done|simpl; lia|done|by rewrite app_nil_r].
  - inversion Hls as [|? ? Hl Hls']; subst. unfold join; cbn [fmap list_fmap concat]; fold (join ls).
    rewrite <- !app_assoc. cbn [app grep_scan]. rewrite drop_pre, strchr_line by done. cbv zeta.
    rewrite Nat2Z.id, !insert_mid, drop_pre, match_line by done.
    assert (forall c (t : list Z), pre ++ l ++ c :: t = (pre ++ l ++ [c]) ++ t) as Hsh by (intros; by rewrite <- !app_assoc).
    assert (length pre + length l + 1 = length (pre ++ l ++ [0%Z]))%nat as Hq0 by (rewrite !length_app; simpl; lia).
    assert (length pre + length l + 1 = length (pre ++ l ++ [10%Z]))%nat as Hq1 by (rewrite !length_app; simpl; lia).
    assert (length (l ++ 10%Z :: join ls) = length l + 1 + length (join ls))%nat as Hj by (rewrite !length_app; simpl; lia).
    unfold matching in *. rewrite filter_cons in *.
    destruct (match_ pattern l) eqn:Em.
    + destruct (decide (true = true)) as [_|]; [|done]. destruct ws as [|a ws]; [done|].
      change (answers s = a :: (ws ++ rest)) in Ha. rewrite drop_pre, take_line. rewrite (bind_Ret _ _ _ _ _ (uwrite_ok _ _ _ _ _ Ha)).
      rewrite Hsh, Hq1. destruct (IH fuel (pre ++ l ++ [10]) (Ust (Cwrite 1 (l ++ [10]) :: trace s) (ws ++ rest)) ws)
        as (pre' & s' & -> & H1 & H2 & H3); [done|done|simpl in Hf; lia|done|by injection Hw|].
      exists pre', s'. split_and!; [done|rewrite H1, <- Hq1; lia|done|]. rewrite H3. cbn [trace written]. rewrite Z.eqb_refl.
      unfold join. cbn [fmap list_fmap concat]. by rewrite <- !app_assoc.
    + destruct (decide (false = true)) as [|_]; [done|].
      rewrite Hsh, Hq0. destruct (IH fuel (pre ++ l ++ [0]) s ws) as (pre' & s' & -> & H1 & H2 & H3); [done|done|simpl in Hf; lia|done|done|].
      exists pre', s'. split_and!; [done|rewrite H1, <- Hq0; lia|done|done].
Qed.

(** Copying towards the start of an array, as [memmove] of ulib.c does it. *)
Lemma memmove_down n a dst src : (dst <= src)%nat -> (src + n <= length a)%nat ->
  length (memmove a dst src n) = length a /\
  forall i, memmove a dst src n !! i =
    if decide (dst <= i < dst + n)%nat then a !! (src + (i - dst))%nat else a !! i.
Proof.
  revert a dst src. induction n as [|n IH]; intros a dst src Hd Hs; cbn [memmove].
  - split; [done|]. intros i. destruct (decide _); [lia|done].
  - destruct (IH (<[dst:=default 0 (a !! src)]> a) (S dst) (S src)) as [H1 H2]; [lia|rewrite length_insert; lia|].
    rewrite length_insert in H1. split; [done|]. intros i. rewrite H2.
    destruct (decide (S dst <= i < S dst + n)%nat) as [Hi|Hi].
    + destruct (decide (dst <= i < dst + S n)%nat); [|lia]. rewrite list_lookup_insert_ne by lia. f_equal. lia.
    + destruct (decide (dst = i)) as [->|Hne].
      * destruct (decide (i <= i < i + S n)%nat); [|lia]. rewrite list_lookup_insert_eq by lia.
        destruct (lookup_lt_is_Some_2 a src) as [x Hx]; [lia|]. rewrite Nat.sub_diag, Nat.add_0_r, Hx. done.
      * rewrite list_lookup_insert_ne by done. destruct (decide (dst <= i < dst + S n)%nat); [lia|done].
Qed.

Lemma memmove_front (pre r t : list Z) :
  exists junk, memmove (pre ++ r ++ t) 0 (length pre) (length r) = r ++ junk /\
    length (r ++ junk) = length (pre ++ r ++ t).
Proof.
  destruct (memmove_down (length r) (pre ++ r ++ t) 0 (length pre)) as [H1 H2]; [lia|rewrite !length_app; lia|].
  set (b := memmove _ _ _ _) in *. assert (take (length r) b = r) as Ht.
  { apply list_eq. intros i. destruct (decide (i < length r)%nat) as [Hi|Hi].
    - rewrite lookup_take_lt, H2 by lia. destruct (decide _); [|lia].
      rewrite lookup_app_r, lookup_app_l by lia. f_equal. lia.
    - rewrite lookup_take_ge, (lookup_ge_None_2 r) by lia. done. }
  exists (drop (length r) b). assert (r ++ drop (length r) b = b) as -> by (rewrite <- Ht at 1; apply take_drop). done.
Qed.

Lemma length_join_pos ls : ls <> [] -> length (join ls) <> 0%nat.
Proof. destruct ls as [|l ls]; [done|]. intros _. unfold join. cbn [fmap list_fmap concat]. rewrite !length_app. simpl. lia. Qed.

(** A round that reads a piece with a newline writes its matching lines and
    leaves the unfinished line at the start of the buffer. *)
Lemma grep_round_spec pattern fd r c t s ws rest :
  Forall in_line r -> Forall (fun x => x <> 0) c -> 10 ∈ c ->
  length (r ++ t) = 1024%nat -> Z.of_nat (length r + length c) < BUFSIZE ->
  answers s = Answer (Z.of_nat (length c)) c :: ws ++ rest ->
  length ws = length (matching pattern (fst (split_lines (r ++ c)))) ->
  exists t' s', grep_round pattern fd (r ++ t, length r) s =
      (Ret (inl (snd (split_lines (r ++ c)) ++ t', length (snd (split_lines (r ++ c))))), s') /\
    length (snd (split_lines (r ++ c)) ++ t') = 1024%nat /\ answers s' = rest /\
    written (trace s') = written (trace s) ++ join (matching pattern (fst (split_lines (r ++ c)))).
Proof.
  intros Hr Hc Hn Hlen Hfit Ha Hw. unfold BUFSIZE in *. unfold grep_round, BUFSIZE.
  rewrite (bind_Ret _ _ _ _ _ (uread_ok fd (1024 - Z.of_nat (length r) - 1) _ _ _ Ha ltac:(lia) ltac:(lia))). cbv zeta beta.
  assert (c <> []) by (intros ->; by apply elem_of_nil in Hn).
  destruct (Z.of_nat (length c) <=? 0) eqn:E; bool_to_prop; [destruct c; simpl in *; [done|lia]|].
  rewrite take_app_length, Nat2Z.id, drop_app. rewrite (drop_ge r) by lia. cbn [app].
  replace (length r + length c - length r)%nat with (length c) by lia.
  assert (length c < length t)%nat by (rewrite length_app in Hlen; lia).
  destruct (drop (length c) t) as [|d junk] eqn:Ed; [apply (f_equal length) in Ed; rewrite length_drop in Ed; simpl in Ed; lia|].
  assert (length junk + 1 + length c = length t)%nat as Hjunk by (apply (f_equal length) in Ed; rewrite length_drop in Ed; simpl in Ed; lia).
  rewrite insert_mid. pose proof (split_lines_join (r ++ c)) as Hj.
  assert (Forall (fun x => x <> 0) (r ++ c)) as Hz by (apply Forall_app; split; [eapply Forall_impl; [exact Hr|by intros ? []]|done]).
  destruct (split_lines_text _ Hz) as [Hl1 Hl2].
  assert (fst (split_lines (r ++ c)) <> []) as Hne by (apply split_lines_newline; set_solver).
  destruct (split_lines (r ++ c)) as [ls r']. cbn [fst snd] in *.
  replace (r ++ c ++ 0 :: junk) with ([] ++ join ls ++ r' ++ 0 :: junk) by (cbn [app]; rewrite (app_assoc r c), Hj; by rewrite <- app_assoc).
  assert (length ls <= length (join ls))%nat as Hll.
  { clear. induction ls as [|l ls IH]; [done|]. unfold join in *. cbn [fmap list_fmap concat length]. rewrite !length_app. simpl. lia. }
  destruct (grep_scan_spec pattern ls (S (length ([] ++ join ls ++ r' ++ 0 :: junk))) [] r' junk
     (Ust (Cread fd (1024 - Z.of_nat (length r) - 1) :: trace s) (ws ++ rest)) ws rest) as (pre' & s' & Hs & H1 & H2 & H3);
    [done|done|rewrite !length_app; simpl; lia|done|done|].
  cbn [length] in Hs, H1. rewrite (bind_Ret _ _ _ _ _ Hs). pose proof (length_join_pos ls Hne).
  apply (f_equal length) in Hj. rewrite !length_app in Hj.
  destruct (decide (length pre' = 0%nat)); [lia|]. destruct (decide (_ = 0%nat)); [lia|].
  replace (length r + length c - length pre')%nat with (length r') by lia.
  destruct (memmove_front pre' r' (0 :: junk)) as (t' & -> & Ht'). exists t', s'. split_and!; [done| |done|done].
  rewrite Ht', !length_app. rewrite length_app in Hlen. cbn [length]. lia.
Qed.

Lemma grep_rounds pattern fd cs : forall r t s ans rest fuel,
  feeds pattern r cs ans -> pieces_ok r cs -> Forall in_line r -> length (r ++ t) = 1024%nat -> (length r < 1024)%nat ->
  (length cs < fuel)%nat -> answers s = ans ++ rest ->
  exists buf' s', iter fuel (grep_round pattern fd) (r ++ t, length r) s = (Ret buf', s') /\ answers s' = rest /\
    written (trace s') = written (trace s) ++ join (matching pattern (fst (split_lines (r ++ concat cs)))).
Proof.
  induction cs as [|c cs IH]; intros r t s ans rest [|fuel] Hf Hok Hr Hlen Hlr Hfu Ha; try (simpl in Hfu; lia).
  - inversion Hf as [? a Ha0|]; subst. cbn [app] in Ha. cbn [iter]. unfold grep_round, BUFSIZE at 1.
    destruct (uread_end fd (1024 - Z.of_nat (length r) - 1) _ _ _ Ha Ha0 ltac:(lia)) as (r' & bs & Hrd & Hr').
    exists (r ++ t), (Ust (Cread fd (1024 - Z.of_nat (length r) - 1) :: trace s) rest). unfold bind at 1.
    rewrite (bind_Ret _ _ _ _ _ Hrd). destruct (r' <=? 0) eqn:E; bool_to_prop; [|lia]. split_and!; [done|done|].
    cbn [concat]. rewrite app_nil_r. assert (fst (split_lines r) = []) as ->; [|by rewrite app_nil_r].
    clear -Hr. induction Hr as [|x r [_ Hx] Hr IH]; [done|]. cbn [split_lines]. destruct (split_lines r) as [ls r']. cbn [fst] in *. subst.
    by apply Z.eqb_neq in Hx as ->.
  - inversion Hf as [|? ? ? ws ans' Hws Hf']; subst. destruct Hok as (Hn & Hnz & Hfit & Hok). cbn [app] in Ha. rewrite <- app_assoc in Ha.
    destruct (grep_round_spec pattern fd r c t s ws (ans' ++ rest) Hr Hnz Hn Hlen Hfit Ha Hws) as (t' & s1 & H1 & H2 & H3 & H4).
    cbn [iter]. rewrite (bind_Ret _ _ _ _ _ H1). cbn [concat]. rewrite app_assoc, (split_lines_app (r ++ c)). cbn [fst].
    assert (Forall (fun x => x <> 0) (r ++ c)) as Hz by (apply Forall_app; split; [eapply Forall_impl; [exact Hr|by intros ? []]|done]).
    destruct (split_lines_text _ Hz) as [_ Hl2]. pose proof (f_equal length (split_lines_join (r ++ c))) as Hj. rewrite !length_app in Hj.
    unfold BUFSIZE in Hfit.
    destruct (IH _ t' s1 ans' rest fuel Hf' Hok Hl2 H2) as (buf' & s' & Hi & Hs & Hw); [lia|simpl in Hfu; lia|done|].
    exists buf', s'. split_and!; [exact Hi|done|]. rewrite Hw, H4. unfold matching, join. rewrite filter_app, fmap_app, concat_app. by rewrite app_assoc.
Qed.

Lemma feeds_length pattern r cs ans : feeds pattern r cs ans -> (length cs < length ans)%nat.
Proof. induction 1; simpl; rewrite ?length_app; lia. Qed.

(** what grep prints.  However the kernel cuts a text into the pieces it
    returns from [read], as long as every piece has a newline and fits the
    buffer, [grep] returns at the end of the input and has written exactly the
    complete lines that match, each with its newline, in their order. *)
Theorem grep_prints_matches pattern fd buf cs ans rest s :
  feeds pattern [] cs ans -> pieces_ok [] cs -> length buf = 1024%nat -> answers s = ans ++ rest ->
  exists buf' s', grep pattern fd buf s = (Ret buf', s') /\ answers s' = rest /\
    written (trace s') = written (trace s) ++ join (matching pattern (fst (split_lines (concat cs)))).
Proof.
  intros Hf Hok Hlen Ha. unfold grep, call_loop, Prelude.gets, bind at 1. rewrite Ha, length_app.
  pose proof (feeds_length _ _ _ _ Hf). apply (grep_rounds pattern fd cs [] buf s ans rest); try done; simpl; lia.
Qed.

Definition sample_pieces : list (list Z) := [line "abc" ++ line "bad"; line "xbd"].

Definition sample_answers : list answer :=
  [Answer 8 (line "abc" ++ line "bad"); Answer 4 []; Answer 4 (line "xbd"); Answer 4 []; Answer 0 []].

Lemma grep_prints_matches_witness : exists buf' s',
  grep (str "b.$") 0 (repeat 0 1024) (Ust [] sample_answers) = (Ret buf', s') /\ written (trace s') = line "abc" ++ line "xbd".
Proof.
  pose proof (grep_prints_matches (str "b.$") 0 (repeat 0 1024) sample_pieces sample_answers [] (Ust [] sample_answers)) as H.
  destruct H as (buf' & s' & H1 & _ & H2).
  - exact (feeds_piece (str "b.$") [] (line "abc" ++ line "bad") [line "xbd"] [Answer 4 []] [Answer 4 (line "xbd"); Answer 4 []; Answer 0 []] eq_refl
      (feeds_piece (str "b.$") [] (line "xbd") [] [Answer 4 []] [Answer 0 []] eq_refl
        (feeds_end (str "b.$") [] (Answer 0 []) (Z.le_refl 0)))).
  - cbn [pieces_ok sample_pieces]. split_and!; try by vm_compute.
    + apply list_elem_of_lookup. by exists 3%nat.
    + repeat constructor; by vm_compute.
    + apply list_elem_of_lookup. by exists 3%nat.
    + repeat constructor; by vm_compute.
  - reflexivity.
  - reflexivity.
  - exists buf', s'. split; [exact H1|]. rewrite H2. by vm_compute.
Defined.

(** A piece without a newline is lost: the end of a line that arrives in a
    second read is matched without its beginning. *)
Example grep_loses_partial_line : exists buf' s',
  grep (str "a") 0 (repeat 0 1024) (Ust [] [Answer 2 (str "ab"); Answer 2 (str "c" ++ [10]); Answer 0 []]) = (Ret buf', s') /\
  written (trace s') = [].
Proof. eexists _, _. split; [vm_compute; reflexivity|reflexivity]. Qed.
