(* ===== verification/Programs.v ===== *)
(** * User programs (src/xv6/cat.c, echo.c, wc.c, kill.c, ln.c, mkdir.c, rm.c,
      init.c, zombie.c, hello.c, hello2.c, ls.c, forktest.c, stressfs.c)

    Each program is its [main] over the system calls of [User]; [argv] holds the
    strings of the argument vector, the program's name first. *)
From S2P Require Import Prelude User.

(** ** cat.c *)
Definition cat_round (fd : Z) (_ : unit) : M ust (unit + unit) :=
  '(n, buf) ← uread fd 512;
  if 0 <? n then
    w ← uwrite 1 buf;
    if negb (w =? n) then printf 1 (line "cat: write error") [] ;; uexit
    else ret (inl tt)
  else if n <? 0 then printf 1 (line "cat: read error") [] ;; uexit
  else ret (inr tt).

Definition cat (fd : Z) : M ust unit := call_loop (cat_round fd) tt.

Fixpoint cat_files (files : list (list Z)) : M ust unit :=
  match files with
  | [] => uexit
  | f :: files =>
      fd ← uopen f 0;
      if fd <? 0 then printf 1 (line "cat: cannot open %s") [UStr (Some f)] ;; uexit
      else cat fd ;; uclose fd ;; cat_files files
  end.

Definition cat_main (argv : list (list Z)) : M ust unit :=
  match tail argv with
  | [] => cat 0 ;; uexit
  | files => cat_files files
  end.

(** ** echo.c *)
Fixpoint echo_args (args : list (list Z)) : M ust unit :=
  match args with
  | [] => uexit
  | a :: args =>
      printf 1 (str "%s%s") [UStr (Some a); UStr (Some (match args with [] => [10] | _ => [32] end))] ;;
      echo_args args
  end.

Definition echo_main (argv : list (list Z)) : M ust unit := echo_args (tail argv).

(** ** wc.c *)
Record counts : Type := Counts {
  wc_l : Z;
  wc_w : Z;
  wc_c : Z;
  inword : bool;
}.

(** [strchr(" \r\t\n\v", c)]; the string's terminator is not found by [strchr]. *)
Definition wc_space (c : Z) : bool :=
  match strchr [32; 13; 9; 10; 11] c with Some _ => true | None => false end.

(** The body of the [for] loop. *)
Definition wc_byte (k : counts) (b : Z) : counts :=
  let c := s32 (wc_c k + 1) in
  let l := if b =? 10 then s32 (wc_l k + 1) else wc_l k in
  if wc_space b then Counts l (wc_w k) c false
  else if negb (inword k) then Counts l (s32 (wc_w k + 1)) c true
  else Counts l (wc_w k) c true.

Definition wc_round (fd : Z) (k : counts) : M ust (counts + counts) :=
  '(n, buf) ← uread fd 512;
  if 0 <? n then ret (inl (foldl wc_byte k buf))
  else if n <? 0 then printf 1 (line "wc: read error") [] ;; uexit
  else ret (inr k).

(** The counting loop. *)
Definition wc_count (fd : Z) : M ust counts := call_loop (wc_round fd) (Counts 0 0 0 false).

Definition wc (fd : Z) (name : list Z) : M ust unit :=
  k ← wc_count fd;
  printf 1 (line "%d %d %d %s") [UInt (wc_l k); UInt (wc_w k); UInt (wc_c k); UStr (Some name)].

Fixpoint wc_files (files : list (list Z)) : M ust unit :=
  match files with
  | [] => uexit
  | f :: files =>
      fd ← uopen f 0;
      if fd <? 0 then printf 1 (line "wc: cannot open %s") [UStr (Some f)] ;; uexit
      else wc fd f ;; uclose fd ;; wc_files files
  end.

Definition wc_main (argv : list (list Z)) : M ust unit :=
  match tail argv with
  | [] => wc 0 [] ;; uexit
  | files => wc_files files
  end.

(** ** kill.c, ln.c, mkdir.c, rm.c *)
Definition kill_main (argv : list (list Z)) : M ust unit :=
  match tail argv with
  | [] => printf 2 (line "usage: kill pid...") [] ;; uexit
  | pids => for_each pids (fun p => sys_ret (Ckill (atoi p)) ;; ret tt) ;; uexit
  end.

Definition ln_main (argv : list (list Z)) : M ust unit :=
  match argv with
  | [_; old; new] =>
      r ← sys_ret (Clink old new);
      when (r <? 0) (printf 2 (line "link %s %s: failed") [UStr (Some old); UStr (Some new)]) ;;
      uexit
  | _ => printf 2 (line "Usage: ln old new") [] ;; uexit
  end.

Definition mkdir_main (argv : list (list Z)) : M ust unit :=
  match tail argv with
  | [] => printf 2 (line "Usage: mkdir files...") [] ;; uexit
  | files =>
      for_until files (fun f =>
        r ← sys_ret (Cmkdir f);
        if r <? 0 then printf 2 (line "mkdir: %s failed to create") [UStr (Some f)] ;; ret (Some tt)
        else ret None) ;;
      uexit
  end.

Definition rm_main (argv : list (list Z)) : M ust unit :=
  match tail argv with
  | [] => printf 2 (line "Usage: rm files...") [] ;; uexit
  | files =>
      for_until files (fun f =>
        r ← sys_ret (Cunlink f);
        if r <? 0 then printf 2 (line "rm: %s failed to delete") [UStr (Some f)] ;; ret (Some tt)
        else ret None) ;;
      uexit
  end.

(** ** init.c *)
Definition OPEN_RDWR : Z := 2.

(** [while((wpid=wait()) >= 0 && wpid != pid)] *)
Definition init_wait (pid : Z) : M ust unit :=
  call_loop (fun _ : unit =>
    wpid ← uwait;
    if (0 <=? wpid) && negb (wpid =? pid) then printf 1 (line "zombie!") [] ;; ret (inl tt)
    else ret (inr tt)) tt.

Definition init_round (_ : unit) : M ust (unit + unit) :=
  printf 1 (line "init: starting sh") [] ;;
  pid ← ufork;
  if pid <? 0 then printf 1 (line "init: fork failed") [] ;; uexit
  else if pid =? 0 then
    uexec (str "sh") [str "sh"] ;;
    printf 1 (line "init: exec sh failed") [] ;;
    uexit
  else init_wait pid ;; ret (inl tt).

Definition init_main : M ust unit :=
  fd ← uopen (str "console") OPEN_RDWR;
  when (fd <? 0)
    (sys_ret (Cmknod (str "console") 1 1) ;; uopen (str "console") OPEN_RDWR ;; ret tt) ;;
  udup 0 ;;
  udup 0 ;;
  call_loop init_round tt.

(** ** zombie.c, hello.c, hello2.c *)
Definition zombie_main : M ust unit :=
  pid ← ufork;
  when (0 <? pid) (sys_ret (Csleep 5) ;; ret tt) ;;
  uexit.

Definition hello_main : M ust unit := printf 1 (line "Hello world!") [] ;; uexit.

Definition hello2_main : M ust unit :=
  printf 1 (line "Hello world!") [] ;;
  printf 1 (line "My student # is 202101480.") [] ;;
  uexit.

(** ** ls.c *)
Definition NAMESIZ : nat := 14.

(** What follows the last slash of a path. *)
Fixpoint after_slash (path : list Z) : list Z :=
  match path with
  | [] => []
  | c :: path' =>
      if existsb (fun d => d =? 47) path' then after_slash path'
      else if c =? 47 then path' else path
  end.

(** [fmtname]: the name of a path, padded with blanks to 14 characters; the
    static [buf] ends in the NUL that nothing overwrites. *)
Definition fmtname (path : list Z) : list Z :=
  let p := after_slash (cstr path) in
  if (NAMESIZ <=? length p)%nat then p
  else p ++ repeat 32 (NAMESIZ - length p).

Definition ls_line (name st : list Z) : M ust unit :=
  printf 1 (line "%s %d %d %d") [UStr (Some name); UInt (st_type st); UInt (st_ino st); UInt (st_size st)].

(** One entry of a directory; [path] includes the slash. *)
Definition ls_entry (fd : Z) (path : list Z) (_ : unit) : M ust (unit + unit) :=
  '(n, de) ← uread fd 16;
  if negb (n =? 16) then ret (inr tt)
  else if le16 de 0 =? 0 then ret (inl tt)
  else
    let buf := path ++ cstr (take NAMESIZ (drop 2 de)) in
    '(r, st) ← stat buf;
    if r <? 0 then printf 1 (line "ls: cannot stat %s") [UStr (Some buf)] ;; ret (inl tt)
    else ls_line (fmtname buf) st ;; ret (inl tt).

Definition ls (path : list Z) : M ust unit :=
  fd ← uopen path 0;
  if fd <? 0 then printf 2 (line "ls: cannot open %s") [UStr (Some path)]
  else
    '(r, st) ← ufstat fd;
    if r <? 0 then
      printf 2 (line "ls: cannot stat %s") [UStr (Some path)] ;;
      uclose fd ;; ret tt
    else
      (if st_type st =? 2 then ls_line (fmtname path) st
       else if st_type st =? 1 then
         if 512 <? strlen path + 1 + Z.of_nat NAMESIZ + 1 then printf 1 (line "ls: path too long") []
         else call_loop (ls_entry fd (cstr path ++ [47])) tt
       else ret tt) ;;
      uclose fd ;; ret tt.

Definition ls_main (argv : list (list Z)) : M ust unit :=
  match tail argv with
  | [] => ls (str ".") ;; uexit
  | paths => for_each paths ls ;; uexit
  end.

(** ** forktest.c *)
Definition FORKS : nat := 1000.

(** [printf] of forktest.c writes its format in one call. *)
Definition forktest_printf (fd : Z) (s : list Z) : M ust unit := uwrite fd (cstr s) ;; ret tt.

(** The first loop: [n] when it stops. *)
Fixpoint fork_children (left : nat) (n : nat) : M ust nat :=
  match left with
  | O => ret n
  | S k =>
      pid ← ufork;
      if pid <? 0 then ret n
      else if pid =? 0 then uexit
      else fork_children k (S n)
  end.

Definition forktest : M ust unit :=
  forktest_printf 1 (line "fork test") ;;
  n ← fork_children FORKS 0;
  if decide (n = FORKS) then forktest_printf 1 (line "fork claimed to work N times!") ;; uexit
  else
    for_each (seq 0 n) (fun _ =>
      r ← uwait;
      if r <? 0 then forktest_printf 1 (line "wait stopped early") ;; uexit else ret tt) ;;
    r ← uwait;
    if negb (r =? -1) then forktest_printf 1 (line "wait got too many") ;; uexit
    else forktest_printf 1 (line "fork test OK").

Definition forktest_main : M ust unit := forktest ;; uexit.

(** ** stressfs.c *)
Definition stressfs_main : M ust unit :=
  printf 1 (line "stressfs starting") [] ;;
  let data := memset (repeat 0 512) 97 512 in
  r ← for_until [0; 1; 2; 3] (fun i =>
        pid ← ufork;
        if 0 <? pid then ret (Some i) else ret None);
  let i := default 4 r in
  printf 1 (line "write %d") [UInt i] ;;
  let path := str "stressfs" ++ [48 + i] in
  fd ← uopen path (Z.lor 512 OPEN_RDWR);
  for_each (seq 0 20) (fun _ => uwrite fd data ;; ret tt) ;;
  uclose fd ;;
  printf 1 (line "read") [] ;;
  fd ← uopen path 0;
  for_each (seq 0 20) (fun _ => uread fd 512 ;; ret tt) ;;
  uclose fd ;;
  uwait ;;
  uexit.

(** ** wc counts lines, words and bytes *)

(** The runs of bytes between white space, empty ones included. *)
Fixpoint split_space (t : list Z) : list (list Z) :=
  match t with
  | [] => [[]]
  | c :: t' =>
      if wc_space c then [] :: split_space t'
      else match split_space t' with
           | [] => [[c]]
           | w :: ws => (c :: w) :: ws
           end
  end.

Definition words (t : list Z) : list (list Z) := filter (fun w => w <> []) (split_space t).

Definition newlines (t : list Z) : list Z := filter (fun c => c = 10) t.

Lemma split_space_cons t : exists w ws, split_space t = w :: ws.
Proof. destruct t as [|c t]; [by eexists _, _|]. cbn [split_space]. destruct (wc_space c); [by eexists _, _|]. destruct (split_space t); by eexists _, _. Qed.

Lemma wc_newline_space c : c = 10 -> wc_space c = true.
Proof. by intros ->. Qed.

(** Counting from a state in the middle of a text; a run that continues a word
    does not start a new one. *)
Lemma foldl_wc_byte t k w ws : 
  0 <= wc_l k -> 0 <= wc_w k -> 0 <= wc_c k ->
  wc_l k + Z.of_nat (length t) < 2147483648 -> wc_w k + Z.of_nat (length t) < 2147483648 -> wc_c k + Z.of_nat (length t) < 2147483648 ->
  split_space t = w :: ws ->
  wc_l (foldl wc_byte k t) = wc_l k + Z.of_nat (length (newlines t)) /\
  wc_c (foldl wc_byte k t) = wc_c k + Z.of_nat (length t) /\
  wc_w (foldl wc_byte k t) = wc_w k + Z.of_nat (length (words t)) - (if inword k && negb (bool_decide (w = [])) then 1 else 0).
Proof.
  revert k w ws. induction t as [|c t IH]; intros k w ws Hl Hw Hc H1 H2 H3 Hs.
  - injection Hs as <- <-. rewrite bool_decide_eq_true_2, andb_false_r by done. cbn [foldl]. change (length (words [])) with 0%nat. change (length (newlines [])) with 0%nat. cbn [length]. lia.
  - cbn [foldl]. destruct (split_space_cons t) as (w' & ws' & Hs'). cbn [length] in *.
    assert (wc_c (wc_byte k c) = wc_c k + 1) as Ec.
    { unfold wc_byte. destruct (wc_space c); [|destruct (negb (inword k))]; cbn [wc_c]; apply s32_small; lia. }
    assert (wc_l (wc_byte k c) = wc_l k + if decide (c = 10) then 1 else 0) as El.
    { unfold wc_byte. assert ((if c =? 10 then s32 (wc_l k + 1) else wc_l k) = wc_l k + if decide (c = 10) then 1 else 0) as E.
      { destruct (c =? 10) eqn:E; bool_to_prop; destruct (decide (c = 10)); try done; [apply s32_small; lia|lia]. }
      destruct (wc_space c); [|destruct (negb (inword k))]; exact E. }
    assert (wc_w (wc_byte k c) = wc_w k + (if wc_space c then 0 else if inword k then 0 else 1) /\ inword (wc_byte k c) = negb (wc_space c)) as [Ew Ei].
    { unfold wc_byte. destruct (wc_space c); [cbn; lia|]. destruct (inword k); cbn [negb wc_w inword]; [split; [lia|done]|]. split; [apply s32_small; lia|done]. }
    destruct (IH (wc_byte k c) w' ws') as (G1 & G2 & G3); try done.
    + rewrite El. destruct (decide _); lia.
    + rewrite Ew. destruct (wc_space c), (inword k); lia.
    + rewrite Ec. lia.
    + rewrite El. destruct (decide _); lia.
    + rewrite Ew. destruct (wc_space c), (inword k); lia.
    + rewrite Ec. lia.
    + rewrite G1, G2, G3, El, Ec, Ew, Ei. unfold newlines, words in *. rewrite filter_cons. cbn [split_space] in *. rewrite Hs' in *.
      split; [destruct (decide (c = 10)); cbn [length]; lia|]. split; [lia|].
      destruct (wc_space c) eqn:Esp; cbn [negb andb]; injection Hs as <- <-; rewrite !filter_cons; rewrite ?bool_decide_eq_true_2, ?bool_decide_eq_false_2 by done.
      * destruct (decide ([] <> [])); [done|]. rewrite andb_false_r. cbn [negb]. lia.
      * destruct (decide (c :: w' <> [])) as [_|[]]; [|done]. rewrite andb_true_r. cbn [negb].
        destruct w' as [|x w'].
        { rewrite (bool_decide_eq_true_2 ([] = [])) by done. destruct (decide ([] <> [])); [done|]. cbn [negb length]. destruct (inword k); lia. }
        { rewrite (bool_decide_eq_false_2 (x :: w' = [])) by done. destruct (decide (x :: w' <> [])) as [_|[]]; [|done]. cbn [negb length]. destruct (inword k); lia. }
Qed.

Lemma wc_rounds fd cs : forall k s a rest fuel,
  Forall (fun c => (0 < length c <= 512)%nat) cs -> a_ret a = 0 -> (length cs < fuel)%nat ->
  answers s = ((fun c => Answer (Z.of_nat (length c)) c) <$> cs) ++ a :: rest ->
  exists s', iter fuel (wc_round fd) k s = (Ret (foldl wc_byte k (concat cs)), s') /\ answers s' = rest.
Proof.
  induction cs as [|c cs IH]; intros k s a rest [|fuel] Hcs Ha Hf Hs; try (simpl in Hf; lia); cbn [iter]; unfold wc_round at 1.
  - cbn [fmap list_fmap app] in Hs. unfold uread. unfold bind at 1 2. rewrite (bind_Ret _ _ _ _ _ (sys_ok _ _ _ _ Hs)), Ha. by eexists.
  - inversion Hcs; subst. cbn [fmap list_fmap app] in Hs. unfold bind at 1.
    rewrite (bind_Ret _ _ _ _ _ (uread_ok fd 512 _ _ _ Hs ltac:(lia) ltac:(lia))).
    destruct (0 <? Z.of_nat (length c)) eqn:E; bool_to_prop; [|lia]. cbn [ret].
    destruct (IH (foldl wc_byte k c) (Ust (Cread fd 512 :: trace s) (((fun c => Answer (Z.of_nat (length c)) c) <$> cs) ++ a :: rest)) a rest fuel)
      as (s' & H1' & H2'); [done|exact Ha|simpl in Hf; lia|reflexivity|].
    exists s'. cbn [concat]. rewrite foldl_app. split; [exact H1'|done].
Qed.

(** what wc counts.  However the input is cut into the pieces [read]
    returns, the counting loop ends at the end of the input with the number of
    newlines, of maximal runs of bytes that are not white space, and of bytes
    of the whole text; a word that straddles two pieces counts once. *)
Theorem wc_counts fd cs a rest s :
  Forall (fun c => (0 < length c <= 512)%nat) cs -> Z.of_nat (length (concat cs)) < 2147483648 -> a_ret a = 0 ->
  answers s = ((fun c => Answer (Z.of_nat (length c)) c) <$> cs) ++ a :: rest ->
  exists k s', wc_count fd s = (Ret k, s') /\ answers s' = rest /\
    wc_l k = Z.of_nat (length (newlines (concat cs))) /\
    wc_w k = Z.of_nat (length (words (concat cs))) /\
    wc_c k = Z.of_nat (length (concat cs)).
Proof.
  intros Hcs Hlen Ha Hs. unfold wc_count, call_loop, Prelude.gets, bind at 1. rewrite Hs, length_app, length_fmap.
  edestruct (wc_rounds fd cs (Counts 0 0 0 false) s a rest) as (s' & H1 & H2); [done|done| |done|]; [|eexists _, s'; split; [exact H1|]].
  { cbn [length]. lia. }
  destruct (split_space_cons (concat cs)) as (w & ws & Hw).
  destruct (foldl_wc_byte (concat cs) (Counts 0 0 0 false) w ws) as (G1 & G2 & G3); cbn [wc_l wc_w wc_c inword andb] in *; try lia; try done.
  split_and!; [done|rewrite G1; lia|rewrite G3; lia|rewrite G2; lia].
Qed.

Lemma wc_counts_witness : exists k s',
  wc_count 0 (Ust [] [Answer 6 (str "one tw"); Answer 3 (line "o "); Answer 0 []]) = (Ret k, s') /\ wc_l k = 1 /\ wc_w k = 2 /\ wc_c k = 9.
Proof.
  destruct (wc_counts 0 [str "one tw"; line "o "] (Answer 0 []) [] (Ust [] [Answer 6 (str "one tw"); Answer 3 (line "o "); Answer 0 []]))
    as (k & s' & H1 & _ & H2 & H3 & H4).
  - repeat constructor; by vm_compute; lia.
  - by vm_compute.
  - done.
  - done.
  - exists k, s'. split; [exact H1|]. rewrite H2, H3, H4. by vm_compute.
Defined.
