(* ===== verification/Sh.v ===== *)
(** * The shell (src/xv6/sh.c)

    A pointer into the command line is an offset from its start; while the
    parser runs, [*ps] is the text from the pointer to [es].  The parse tree has
    one constructor per command structure, with the pointers the C structures
    hold.  [malloc] is taken to succeed, as the code does. *)
From S2P Require Import Prelude User.

Definition MAXARGS : nat := 10.

(** The start and the end of a string in the line. *)
Record token : Type := Token {
  tq : nat;
  teq : nat;
}.

(** The fields of [struct redircmd] other than the command. *)
Record redir : Type := Redir {
  r_file : token;
  r_mode : Z;
  r_fd : Z;
}.

Inductive cmd : Type :=
| EXEC (argv : list token)
| REDIR (c : cmd) (r : redir)
| PIPE (left right : cmd)
| LIST (left right : cmd)
| BACK (c : cmd).

Definition sh_panic {A} (s : list Z) : M ust A := printf 2 (line "%s") [UStr (Some s)] ;; uexit.

Definition fork1 : M ust Z :=
  pid ← ufork;
  if pid =? -1 then sh_panic (str "fork") else ret pid.

(** ** Parsing *)
Definition whitespace : list Z := [32; 9; 13; 10; 11].

(** [<|>&;()] *)
Definition symbols : list Z := [60; 124; 62; 38; 59; 40; 41].

Definition among (cs : list Z) (c : Z) : bool :=
  match strchr cs c with Some _ => true | None => false end.

Definition is_space (c : Z) : bool := among whitespace c.

Definition is_symbol (c : Z) : bool := among symbols c.

(** [while(s < es && strchr(whitespace, *s)) s++;] *)
Fixpoint skip_space (t : list Z) : list Z :=
  match t with
  | [] => []
  | c :: t' => if is_space c then skip_space t' else t
  end.

(** [while(s < es && !strchr(whitespace, *s) && !strchr(symbols, *s)) s++;] *)
Fixpoint skip_word (t : list Z) : list Z :=
  match t with
  | [] => []
  | c :: t' => if negb (is_space c) && negb (is_symbol c) then skip_word t' else t
  end.

(** What [gettoken] returns: the kind of the token, the text from its start,
    the text from its end, and the text that [*ps] points to afterwards. *)
Definition gettoken (ps : list Z) : Z * list Z * list Z * list Z :=
  let s := skip_space ps in
  let '(r, e) :=
    match s with
    | [] => (0, s)
    | c :: s' =>
        if c =? 0 then (0, s)
        else if among [124; 40; 41; 59; 38; 60] c then (c, s')
        else if c =? 62 then
          if hd0 s' =? 62 then (43, tail s') else (c, s')
        else (97, skip_word s)
    end in
  (r, s, e, skip_space e).

Definition peek (ps toks : list Z) : bool * list Z :=
  let s := skip_space ps in
  (negb (hd0 s =? 0) && among toks (hd0 s), s).

(** What a pass over the text found, and the text that is left. *)
Abbreviation parse A := (M ust (A * list Z)) (only parsing).

Definition O_WRONLY_CREATE : Z := Z.lor 1 512.

Section Parser.
(** [es]: the length of the line *)
Context (es : nat).

Definition pos (t : list Z) : nat := (es - length t)%nat.

(** The redirections [parseredirs] puts around its command, the first one
    innermost. *)
Fixpoint redirs (fuel : nat) (ps : list Z) : parse (list redir) :=
  match fuel with
  | O => panic "fuel"
  | S k =>
      let '(b, ps) := peek ps [60; 62] in
      if negb b then ret ([], ps)
      else
        let '(tok, _, _, ps) := gettoken ps in
        let '(tok2, q, eq, ps) := gettoken ps in
        if negb (tok2 =? 97) then sh_panic (str "missing file for redirection")
        else
          let file := Token (pos q) (pos eq) in
          let here :=
            if tok =? 60 then [Redir file 0 0]
            else if tok =? 62 then [Redir file O_WRONLY_CREATE 1]
            else if tok =? 43 then [Redir file O_WRONLY_CREATE 1]
            else [] in
          '(rest, ps) ← redirs k ps;
          ret (here ++ rest, ps)
  end.

Definition wrap (c : cmd) (rs : list redir) : cmd := foldl REDIR c rs.

Definition parseredirs (c : cmd) (ps : list Z) : parse cmd :=
  '(rs, ps) ← redirs (S (length ps)) ps;
  ret (wrap c rs, ps).

(** The argument loop of [parseexec]: the arguments and the redirections met;
    [left] is [MAXARGS - argc]. *)
Fixpoint parse_args (left : nat) (ps : list Z) : parse (list token * list redir) :=
  match left with
  | O => sh_panic (str "too many args")
  | S k =>
      let '(b, ps) := peek ps [124; 41; 38; 59] in
      if b then ret ([], [], ps)
      else
        let '(tok, q, eq, ps) := gettoken ps in
        if tok =? 0 then ret ([], [], ps)
        else if negb (tok =? 97) then sh_panic (str "syntax")
        else if decide (k = 0%nat) then sh_panic (str "too many args")
        else
          '(rs, ps) ← redirs (S (length ps)) ps;
          '(args, rs', ps) ← parse_args k ps;
          ret (Token (pos q) (pos eq) :: args, rs ++ rs', ps)
  end.

(** [while(peek(ps, es, "&"))] *)
Fixpoint parse_back (fuel : nat) (c : cmd) (ps : list Z) : parse cmd :=
  match fuel with
  | O => panic "fuel"
  | S k =>
      let '(b, ps) := peek ps [38] in
      if b then
        let '(_, _, _, ps) := gettoken ps in
        parse_back k (BACK c) ps
      else ret (c, ps)
  end.

(** The recursive descent.  Every call passes a smaller [fuel]; running out of
    it is the outcome ["fuel"], which file [ShParse] excludes. *)
Fixpoint parseline (fuel : nat) (ps : list Z) : parse cmd :=
  match fuel with
  | O => panic "fuel"
  | S k =>
      '(c, ps) ← parsepipe k ps;
      '(c, ps) ← parse_back (S (length ps)) c ps;
      let '(b, ps) := peek ps [59] in
      if b then
        let '(_, _, _, ps) := gettoken ps in
        '(r, ps) ← parseline k ps;
        ret (LIST c r, ps)
      else ret (c, ps)
  end
with parsepipe (fuel : nat) (ps : list Z) : parse cmd :=
  match fuel with
  | O => panic "fuel"
  | S k =>
      '(c, ps) ← parseexec k ps;
      let '(b, ps) := peek ps [124] in
      if b then
        let '(_, _, _, ps) := gettoken ps in
        '(r, ps) ← parsepipe k ps;
        ret (PIPE c r, ps)
      else ret (c, ps)
  end
with parseexec (fuel : nat) (ps : list Z) : parse cmd :=
  match fuel with
  | O => panic "fuel"
  | S k =>
      let '(b, ps) := peek ps [40] in
      if b then parseblock k ps
      else
        '(rs, ps) ← redirs (S (length ps)) ps;
        '(args, rs', ps) ← parse_args MAXARGS ps;
        ret (wrap (EXEC args) (rs ++ rs'), ps)
  end
with parseblock (fuel : nat) (ps : list Z) : parse cmd :=
  match fuel with
  | O => panic "fuel"
  | S k =>
      let '(b, ps) := peek ps [40] in
      if negb b then sh_panic (str "parseblock")
      else
        let '(_, _, _, ps) := gettoken ps in
        '(c, ps) ← parseline k ps;
        let '(b, ps) := peek ps [41] in
        if negb b then sh_panic (str "syntax - missing )")
        else
          let '(_, _, _, ps) := gettoken ps in
          parseredirs c ps
  end.

End Parser.

Definition parse_fuel_for (t : list Z) : nat := (4 * length t + 4)%nat.

(** [*eargv[i] = 0] *)
Definition cut (buf : list Z) (t : token) : list Z := <[teq t := 0]> buf.

(** The line after [nulterminate]. *)
Fixpoint nulterminate (c : cmd) (buf : list Z) : list Z :=
  match c with
  | EXEC argv => foldl cut buf argv
  | REDIR c r => cut (nulterminate c buf) (r_file r)
  | PIPE l r => nulterminate r (nulterminate l buf)
  | LIST l r => nulterminate r (nulterminate l buf)
  | BACK c => nulterminate c buf
  end.

(** The tree, and the array after [nulterminate]. *)
Definition parsecmd (buf : list Z) : M ust (cmd * list Z) :=
  let s := cstr buf in
  '(c, s') ← parseline (length s) (parse_fuel_for s) s;
  let s' := snd (peek s' []) in
  if negb (length s' =? 0)%nat then
    printf 2 (line "leftovers: %s") [UStr (Some s')] ;;
    sh_panic (str "syntax")
  else ret (c, nulterminate c buf).

(** ** Running *)
Definition string_at (buf : list Z) (t : token) : list Z := cstr (drop (tq t) buf).

Fixpoint runcmd (buf : list Z) (c : cmd) : M ust unit :=
  match c with
  | EXEC argv =>
      match string_at buf <$> argv with
      | [] => uexit
      | path :: args =>
          uexec path (path :: args) ;;
          printf 2 (line "exec %s failed") [UStr (Some path)] ;;
          uexit
      end
  | REDIR c r =>
      uclose (r_fd r) ;;
      fd ← uopen (string_at buf (r_file r)) (r_mode r);
      if fd <? 0 then
        printf 2 (line "open %s failed") [UStr (Some (string_at buf (r_file r)))] ;;
        uexit
      else runcmd buf c ;; uexit
  | LIST l r =>
      pid ← fork1;
      when (pid =? 0) (runcmd buf l) ;;
      uwait ;;
      runcmd buf r ;;
      uexit
  | PIPE l r =>
      a ← sys Cpipe;
      let p0 := s32 (le32 (a_bytes a) 0) in
      let p1 := s32 (le32 (a_bytes a) 4) in
      when (s32 (a_ret a) <? 0) (sh_panic (str "pipe")) ;;
      pid ← fork1;
      when (pid =? 0)
        (uclose 1 ;; udup p1 ;; uclose p0 ;; uclose p1 ;; runcmd buf l) ;;
      pid ← fork1;
      when (pid =? 0)
        (uclose 0 ;; udup p0 ;; uclose p0 ;; uclose p1 ;; runcmd buf r) ;;
      uclose p0 ;;
      uclose p1 ;;
      uwait ;;
      uwait ;;
      uexit
  | BACK c =>
      pid ← fork1;
      when (pid =? 0) (runcmd buf c) ;;
      uexit
  end.

Definition CMDBUF : Z := 100.

(** The result and the contents of [buf]. *)
Definition getcmd (nbuf : Z) : M ust (Z * list Z) :=
  printf 2 (str "$ ") [] ;;
  l ← ugets nbuf;
  let buf := l ++ drop (length l) (memset (repeat 0 (Z.to_nat nbuf)) 0 nbuf) in
  ret (if hd0 buf =? 0 then -1 else 0, buf).

(** [while((fd = open("console", O_RDWR)) >= 0)] *)
Definition open_console (_ : unit) : M ust (unit + unit) :=
  fd ← uopen (str "console") 2;
  if fd <? 0 then ret (inr tt)
  else if 3 <=? fd then uclose fd ;; ret (inr tt)
  else ret (inl tt).

Definition sh_round (_ : unit) : M ust (unit + unit) :=
  '(r, buf) ← getcmd CMDBUF;
  if r <? 0 then ret (inr tt)
  else if (hd0 buf =? 99) && (hd0 (drop 1 buf) =? 100) && (hd0 (drop 2 buf) =? 32) then
    let buf := <[Z.to_nat (strlen buf - 1) := 0]> buf in
    d ← sys_ret (Cchdir (cstr (drop 3 buf)));
    when (d <? 0) (printf 2 (line "cannot cd %s") [UStr (Some (drop 3 buf))]) ;;
    ret (inl tt)
  else
    pid ← fork1;
    when (pid =? 0) ('(c, buf) ← parsecmd buf; runcmd buf c) ;;
    uwait ;;
    ret (inl tt).

Definition sh_main : M ust unit :=
  call_loop open_console tt ;;
  call_loop sh_round tt ;;
  uexit.

Example parse_example :
  let b := str "a b|(c;d)>f &" ++ [10; 0] in
  parsecmd b (Ust [] []) =
    (Ret (BACK (PIPE (EXEC [Token 0 1; Token 2 3])
                     (REDIR (LIST (EXEC [Token 5 6]) (EXEC [Token 7 8])) (Redir (Token 10 11) 513 1))),
          str "a" ++ [0] ++ str "b" ++ [0] ++ str "(c" ++ [0] ++ str "d" ++ [0] ++ str ">f" ++ [0] ++ str "&" ++ [10; 0]), Ust [] []).
Proof. by vm_compute. Qed.
