(* ===== verification/ShParse.v ===== *)
(** * The shell's parser: typing, termination and round trip

    Whatever the line, the parser ends with a well-formed tree or a message and
    [exit]; and it reads back every command that a printer with parentheses
    writes. *)
From S2P Require Import Prelude User Sh.

(** ** Runs of the parser *)

(** The routine returns a result in [Q], exits, or waits for an answer of the
    kernel; it never fails in another way. *)
Definition ends {A} (m : M ust A) (Q : A -> Prop) : Prop :=
  forall s, match fst (m s) with
            | Ret a => Q a
            | Panic msg => msg = "exit"
            | Sleep _ => True
            end.

Lemma ends_ret {A} (a : A) (Q : A -> Prop) : Q a -> ends (ret a) Q.
Proof. by intros H s. Qed.

Lemma ends_bind {A B} (m : M ust A) (k : A -> M ust B) (P : A -> Prop) Q :
  ends m P -> (forall a, P a -> ends (k a) Q) -> ends (bind m k) Q.
Proof.
  intros Hm Hk s. specialize (Hm s). unfold bind. destruct (m s) as [[a|msg|c] s'] eqn:E; cbn [fst] in *; [|done|done].
  by apply Hk.
Qed.

Lemma ends_mono {A} (m : M ust A) (P Q : A -> Prop) : ends m P -> (forall a, P a -> Q a) -> ends m Q.
Proof. intros Hm H s. specialize (Hm s). destruct (fst (m s)); eauto. Qed.

Lemma ends_uexit {A} (Q : A -> Prop) : ends uexit Q.
Proof. by intros s. Qed.

Lemma ends_putc fd c : ends (putc fd c) (fun _ => True).
Proof. intros s. unfold putc, uwrite, sys_ret, sys, trace_os, trace_call, bind. by destruct (answers s). Qed.

Lemma ends_for_each {I} (l : list I) (body : I -> M ust unit) :
  (forall i, ends (body i) (fun _ => True)) -> ends (for_each l body) (fun _ => True).
Proof. intros H. induction l as [|i l IH]; [by apply ends_ret|]. eapply ends_bind; [apply H|]. done. Qed.

Lemma ends_printf_lit fd lit fmt ap : Forall (fun c => c <> 0 /\ c <> 37) lit ->
  ends (printf_loop fd false fmt ap) (fun _ => True) -> ends (printf_loop fd false (lit ++ fmt) ap) (fun _ => True).
Proof.
  intros Hl H. induction Hl as [|c lit [H1 H2] Hl IH]; [done|]. cbn [app printf_loop negb].
  apply Z.eqb_neq in H1 as ->. apply Z.eqb_neq in H2 as ->. eapply ends_bind; [apply ends_putc|]. done.
Qed.

Lemma ends_printf_str fd s : ends (printf_loop fd false [37; 115; 10] [UStr (Some s)]) (fun _ => True).
Proof.
  change (ends (for_each (cstr s) (putc fd) ;; (putc fd 10 ;; ret tt)) (fun _ => True)).
  eapply ends_bind; [apply ends_for_each; intros; apply ends_putc|]. intros _ _.
  eapply ends_bind; [apply ends_putc|]. intros _ _. by apply ends_ret.
Qed.

Lemma ends_sh_panic {A} s (Q : A -> Prop) : ends (sh_panic s) Q.
Proof. eapply ends_bind; [exact (ends_printf_str 2 s)|intros _ _; apply ends_uexit]. Qed.

Lemma ends_leftovers s : ends (printf 2 (line "leftovers: %s") [UStr (Some s)]) (fun _ => True).
Proof.
  unfold printf. change (line "leftovers: %s") with (str "leftovers: " ++ [37; 115; 10]).
  apply ends_printf_lit; [|apply ends_printf_str]. apply Forall_forall. intros c Hc.
  repeat (apply elem_of_cons in Hc as [->|Hc]; [done|]). by inversion Hc.
Qed.

(** ** The scanner *)
Definition word_char (c : Z) : bool := negb (is_space c) && negb (is_symbol c).

Lemma skip_space_suffix t : skip_space t `suffix_of` t.
Proof. induction t as [|c t IH]; [done|]. cbn [skip_space]. destruct (is_space c); [by apply suffix_cons_r|done]. Qed.

Lemma skip_space_idem t : skip_space (skip_space t) = skip_space t.
Proof. induction t as [|c t IH]; [done|]. cbn [skip_space]. destruct (is_space c) eqn:E; [done|]. cbn [skip_space]. by rewrite E. Qed.

Lemma skip_word_split t : exists w, t = w ++ skip_word t /\ Forall (fun c => word_char c = true) w /\
  (skip_word t = [] \/ word_char (hd0 (skip_word t)) = false).
Proof.
  induction t as [|c t (w & H1 & H2 & H3)]; [exists []; split_and!; [done|constructor|by left]|]. cbn [skip_word].
  fold (word_char c). destruct (word_char c) eqn:E.
  - exists (c :: w). cbn [app]. split_and!; [by rewrite <- H1|by constructor|done].
  - exists []. split_and!; [done|constructor|by right].
Qed.

Lemma among_In cs c : Forall (fun d => d <> 0) cs -> among cs c = true <-> c ∈ cs.
Proof.
  unfold among. induction 1 as [|d cs Hd Hcs IH]; [split; [done|by intros H; inversion H]|]. cbn [strchr].
  apply Z.eqb_neq in Hd as ->. destruct (d =? c) eqn:E; bool_to_prop.
  - subst. split; [intros _; by left|done].
  - rewrite elem_of_cons. rewrite <- IH. destruct (strchr cs c); simpl; split; intros; naive_solver.
Qed.

Lemma zero_not_among cs : among cs 0 = false.
Proof. unfold among. induction cs as [|d cs IH]; [done|]. cbn [strchr]. destruct (d =? 0) eqn:E; [done|]. destruct (strchr cs 0); done. Qed.

(** A token that is not the end of the text has characters; a word is maximal. *)
Lemma gettoken_spec ps tok q eq ps' : gettoken ps = (tok, q, eq, ps') ->
  q `suffix_of` ps /\ eq `suffix_of` q /\ ps' `suffix_of` eq /\
  (tok <> 0 -> (length eq < length q)%nat) /\
  (tok = 97 -> exists w, q = w ++ eq /\ w <> [] /\ Forall (fun c => word_char c = true) w /\ (eq = [] \/ word_char (hd0 eq) = false)).
Proof.
  unfold gettoken. pose proof (skip_space_suffix ps) as H1. destruct (skip_space ps) as [|c s] eqn:Es.
  { intros [= <- <- <- <-]. split_and!; done. }
  assert (is_space c = false) as Hsp.
  { pose proof (skip_space_idem ps) as H. rewrite Es in H. cbn [skip_space] in H. destruct (is_space c); [|done].
    pose proof (skip_space_suffix s) as Hx. rewrite H in Hx. apply suffix_length in Hx. simpl in Hx. lia. }
  destruct (c =? 0) eqn:E0.
  { intros [= <- <- <- <-]. split_and!; [done|done|apply skip_space_suffix|done|done]. }
  destruct (among [124; 40; 41; 59; 38; 60] c) eqn:E1.
  { intros [= <- <- <- <-]. split_and!; [done|by apply suffix_cons_r|apply skip_space_suffix|simpl; lia|].
    intros ->. vm_compute in E1. done. }
  destruct (c =? 62) eqn:E2; bool_to_prop.
  { destruct (hd0 s =? 62) eqn:E3; intros [= <- <- <- <-].
    - split_and!; [done| |apply skip_space_suffix| |done].
      + destruct s; [by apply suffix_nil|]. by do 2 apply suffix_cons_r.
      + destruct s; simpl; lia.
    - split_and!; [done|by apply suffix_cons_r|apply skip_space_suffix|simpl; lia|by intros ->]. }
  intros [= <- <- <- <-].
  assert (word_char c = true) as Hw.
  { unfold word_char. rewrite Hsp. cbn [negb andb]. apply negb_true_iff. destruct (is_symbol c) eqn:E; [|done]. exfalso.
    unfold is_symbol in E. apply among_In in E; [|by repeat constructor].
    assert (c ∈ [124; 40; 41; 59; 38; 60]) as Hin by (clear -E E2; unfold symbols in E; set_solver).
    apply (among_In [124; 40; 41; 59; 38; 60]) in Hin; [congruence|by repeat constructor]. }
  destruct (skip_word_split (c :: s)) as (w & Hq & Hf & He). cbn [skip_word] in *. fold (word_char c) in *. rewrite Hw in *.
  assert (w <> []) as Hne. { intros ->. cbn [app] in Hq. apply (f_equal length) in Hq. destruct (skip_word_split s) as (w' & Hs & _). apply (f_equal length) in Hs. rewrite length_app in Hs. simpl in *. lia. }
  split_and!; [done|by exists w|apply skip_space_suffix| |].
  - intros _. apply (f_equal length) in Hq. rewrite length_app in Hq. destruct w; [done|]. simpl in *. lia.
  - intros _. by exists w.
Qed.

Lemma peek_spec ps toks b ps' : peek ps toks = (b, ps') -> ps' = skip_space ps /\ (b = true -> hd0 ps' <> 0 /\ among toks (hd0 ps') = true).
Proof.
  unfold peek. intros [= <- <-]. split; [done|]. intros [H1 H2]%andb_true_iff. by apply negb_true_iff, Z.eqb_neq in H1.
Qed.

(** After a successful [peek] the next token is not empty. *)
Lemma gettoken_progress ps tok q eq ps' : hd0 (skip_space ps) <> 0 -> gettoken (skip_space ps) = (tok, q, eq, ps') ->
  ps' `suffix_of` ps /\ (length ps' < length (skip_space ps))%nat.
Proof.
  intros H0 Hg. pose proof (gettoken_spec _ _ _ _ _ Hg) as (H1 & H2 & H3 & H4 & _). pose proof (skip_space_suffix ps).
  split; [do 3 (etrans; [eassumption|]); done|]. assert (tok <> 0) as Ht.
  { clear -H0 Hg. unfold gettoken in Hg. rewrite skip_space_idem in Hg. destruct (skip_space ps) as [|c s]; [done|]. cbn [hd0] in H0.
    apply Z.eqb_neq in H0 as E. rewrite E in Hg. destruct (among _ c); [by injection Hg as <- _ _ _|].
    destruct (c =? 62); [destruct (hd0 s =? 62)|]; injection Hg as <- _ _ _; done. }
  specialize (H4 Ht). apply suffix_length in H1, H3. lia.
Qed.

(** ** Well-formed trees *)

(** A token of the line [b]: a non-empty run of word characters that nothing
    continues. *)
Definition token_of (b : list Z) (w : list Z) (t : token) : Prop :=
  exists pre post, b = pre ++ w ++ post /\ tq t = length pre /\ teq t = (length pre + length w)%nat /\
    w <> [] /\ Forall (fun c => word_char c = true) w /\ (post = [] \/ word_char (hd0 post) = false).

Definition wf_token (b : list Z) (t : token) : Prop := exists w, token_of b w t.

(** The two kinds of redirection the parser makes. *)
Definition wf_redir (b : list Z) (r : redir) : Prop :=
  wf_token b (r_file r) /\ ((r_mode r = 0 /\ r_fd r = 0) \/ (r_mode r = O_WRONLY_CREATE /\ r_fd r = 1)).

(** An argument vector leaves room for its null pointer. *)
Fixpoint wf_cmd (b : list Z) (c : cmd) : Prop :=
  match c with
  | EXEC argv => (length argv < MAXARGS)%nat /\ Forall (wf_token b) argv
  | REDIR c r => wf_cmd b c /\ wf_redir b r
  | PIPE l r | LIST l r => wf_cmd b l /\ wf_cmd b r
  | BACK c => wf_cmd b c
  end.

Fixpoint tokens (c : cmd) : list token :=
  match c with
  | EXEC argv => argv
  | REDIR c r => tokens c ++ [r_file r]
  | PIPE l r | LIST l r => tokens l ++ tokens r
  | BACK c => tokens c
  end.

Lemma wf_wrap b c rs : wf_cmd b c -> Forall (wf_redir b) rs -> wf_cmd b (wrap c rs).
Proof. intros Hc Hr. unfold wrap. revert c Hc. induction Hr as [|r rs Hr Hrs IH]; intros c Hc; [done|]. apply IH. by split. Qed.

Lemma wf_tokens b c : wf_cmd b c -> Forall (wf_token b) (tokens c).
Proof.
  induction c; cbn [wf_cmd tokens].
  - by intros [].
  - intros [H1 [H2 _]]. apply Forall_app. auto.
  - intros []. apply Forall_app. auto.
  - intros []. apply Forall_app. auto.
  - done.
Qed.

Section Typing.
Context (b : list Z).

(** The token [gettoken] finds in a part of the line. *)
Lemma gettoken_token ps q eq ps' : ps `suffix_of` b -> gettoken ps = (97, q, eq, ps') ->
  wf_token b (Token (pos (length b) q) (pos (length b) eq)).
Proof.
  intros Hs Hg. apply gettoken_spec in Hg as (H1 & _ & _ & _ & H5). destruct (H5 eq_refl) as (w & -> & Hne & Hf & He).
  assert ((w ++ eq) `suffix_of` b) as [pre Hb] by (by etrans). exists w, pre, eq. unfold pos. cbn [tq teq]. rewrite Hb, !length_app. split_and!; [done|lia|lia|done|done|done].
Qed.

Lemma redirs_ends fuel ps : ps `suffix_of` b -> (length ps < fuel)%nat ->
  ends (redirs (length b) fuel ps) (fun '(rs, ps') => ps' `suffix_of` ps /\ Forall (wf_redir b) rs).
Proof.
  revert ps. induction fuel as [|k IH]; intros ps Hs Hf; [lia|]. cbn [redirs].
  destruct (peek ps [60; 62]) as [bb ps1] eqn:Ep. apply peek_spec in Ep as [-> Hb]. pose proof (skip_space_suffix ps) as Hss.
  destruct bb; cbn [negb]; [|apply ends_ret; by split].
  destruct (gettoken (skip_space ps)) as [[[tok q1] e1] ps2] eqn:E1. destruct (gettoken ps2) as [[[tok2 q] e] ps3] eqn:E2.
  destruct (tok2 =? 97) eqn:Et; bool_to_prop; cbn [negb]; [|apply ends_sh_panic]. subst tok2.
  pose proof (gettoken_spec _ _ _ _ _ E1) as (A1 & A2 & A3 & _ & _). pose proof (gettoken_spec _ _ _ _ _ E2) as (B1 & B2 & B3 & B4 & _).
  assert (ps2 `suffix_of` ps) as S2 by (do 3 (etrans; [eassumption|]); done).
  assert (ps3 `suffix_of` ps) as S3 by (do 3 (etrans; [eassumption|]); done).
  pose proof (gettoken_token ps2 q e ps3 ltac:(by etrans) E2) as Htok.
  eapply ends_bind; [apply IH|].
  - by etrans.
  - specialize (B4 ltac:(done)). apply suffix_length in S2, B1, B3. lia.
  - intros [rs ps'] [H1 H2]. apply ends_ret. split; [by etrans|]. apply Forall_app. split; [|done].
    unfold wf_redir. destruct (tok =? 60); [|destruct (tok =? 62); [|destruct (tok =? 43)]]; try apply Forall_nil_2; apply Forall_singleton; (split; [exact Htok|]); cbn [r_mode r_fd]; [by left|by right|by right].
Qed.

Lemma parse_args_ends left ps : ps `suffix_of` b -> (0 < left)%nat ->
  ends (parse_args (length b) left ps)
    (fun '(args, rs, ps') => ps' `suffix_of` ps /\ (length args < left)%nat /\ Forall (wf_token b) args /\ Forall (wf_redir b) rs).
Proof.
  revert ps. induction left as [|k IH]; intros ps Hs Hl; [lia|]. cbn [parse_args].
  destruct (peek ps [124; 41; 38; 59]) as [bb ps1] eqn:Ep. apply peek_spec in Ep as [-> _]. pose proof (skip_space_suffix ps) as Hss.
  destruct bb; [apply ends_ret; split_and!; [done|simpl; lia|done|done]|].
  destruct (gettoken (skip_space ps)) as [[[tok q] e] ps2] eqn:E1.
  pose proof (gettoken_spec _ _ _ _ _ E1) as (A1 & A2 & A3 & _ & _).
  assert (ps2 `suffix_of` ps) as S2 by (do 3 (etrans; [eassumption|]); done).
  destruct (tok =? 0); [apply ends_ret; split_and!; [done|simpl; lia|done|done]|].
  destruct (tok =? 97) eqn:Et; bool_to_prop; cbn [negb]; [|apply ends_sh_panic]. subst tok.
  destruct (decide (k = 0%nat)); [apply ends_sh_panic|].
  pose proof (gettoken_token (skip_space ps) q e ps2 ltac:(by etrans) E1) as Htok.
  eapply ends_bind; [apply redirs_ends; [by etrans|lia]|]. intros [rs ps3] [H1 H2].
  eapply ends_bind; [apply IH; [do 2 (etrans; [eassumption|]); done|lia]|]. intros [[args rs'] ps4] (H3 & H4 & H5 & H6).
  apply ends_ret. split_and!; [do 2 (etrans; [eassumption|]); done|simpl; lia|by constructor|by apply Forall_app].
Qed.

Lemma parse_back_ends fuel c ps : ps `suffix_of` b -> wf_cmd b c -> (length ps < fuel)%nat ->
  ends (parse_back fuel c ps) (fun '(c', ps') => ps' `suffix_of` ps /\ wf_cmd b c').
Proof.
  revert c ps. induction fuel as [|k IH]; intros c ps Hs Hc Hf; [lia|]. cbn [parse_back].
  destruct (peek ps [38]) as [bb ps1] eqn:Ep. apply peek_spec in Ep as [-> Hb]. pose proof (skip_space_suffix ps) as Hss.
  destruct bb; [|apply ends_ret; by split].
  destruct (gettoken (skip_space ps)) as [[[tok q] e] ps2] eqn:E1.
  destruct (gettoken_progress _ _ _ _ _ (proj1 (Hb eq_refl)) E1) as [S2 Hlt].
  eapply ends_mono; [apply IH; [by etrans|done|apply suffix_length in Hss; lia]|]. intros [c' ps'] [H1 H2]. split; [by etrans|done].
Qed.

(** The four routines of the descent, with the fuel each needs. *)
Lemma descent_ends fuel :
  (forall ps, ps `suffix_of` b -> (4 * length ps + 4 <= fuel)%nat ->
     ends (parseline (length b) fuel ps) (fun '(c, ps') => ps' `suffix_of` ps /\ wf_cmd b c)) /\
  (forall ps, ps `suffix_of` b -> (4 * length ps + 3 <= fuel)%nat ->
     ends (parsepipe (length b) fuel ps) (fun '(c, ps') => ps' `suffix_of` ps /\ wf_cmd b c)) /\
  (forall ps, ps `suffix_of` b -> (4 * length ps + 2 <= fuel)%nat ->
     ends (parseexec (length b) fuel ps) (fun '(c, ps') => ps' `suffix_of` ps /\ wf_cmd b c)) /\
  (forall ps, ps `suffix_of` b -> (4 * length ps + 1 <= fuel)%nat ->
     ends (parseblock (length b) fuel ps) (fun '(c, ps') => ps' `suffix_of` ps /\ wf_cmd b c)).
Proof.
  induction fuel as [|k (IHl & IHp & IHe & IHb)]; [split_and!; intros; lia|]. split_and!; intros ps Hs Hf.
  - cbn [parseline]. eapply ends_bind; [apply IHp; [done|lia]|]. intros [c ps1] [H1 H2].
    eapply ends_bind; [apply parse_back_ends; [by etrans|done|lia]|]. intros [c' ps2] [H3 H4].
    destruct (peek ps2 [59]) as [bb ps3] eqn:Ep. apply peek_spec in Ep as [-> Hb]. pose proof (skip_space_suffix ps2) as Hss.
    destruct bb; [|apply ends_ret; split; [do 2 (etrans; [eassumption|]); done|done]].
    destruct (gettoken (skip_space ps2)) as [[[tok q] e] ps4] eqn:E1.
    destruct (gettoken_progress _ _ _ _ _ (proj1 (Hb eq_refl)) E1) as [S2 Hlt].
    assert (ps4 `suffix_of` ps) as S4 by (do 2 (etrans; [eassumption|]); done).
    eapply ends_bind; [apply IHl; [by etrans|apply suffix_length in H1, H3, Hss; lia]|]. intros [r ps5] [H5 H6].
    apply ends_ret. split; [by etrans|done].
  - cbn [parsepipe]. eapply ends_bind; [apply IHe; [done|lia]|]. intros [c ps2] [H1 H2].
    destruct (peek ps2 [124]) as [bb ps3] eqn:Ep. apply peek_spec in Ep as [-> Hb]. pose proof (skip_space_suffix ps2) as Hss.
    destruct bb; [|apply ends_ret; split; [by etrans|done]].
    destruct (gettoken (skip_space ps2)) as [[[tok q] e] ps4] eqn:E1.
    destruct (gettoken_progress _ _ _ _ _ (proj1 (Hb eq_refl)) E1) as [S2 Hlt].
    assert (ps4 `suffix_of` ps) as S4 by (by etrans).
    eapply ends_bind; [apply IHp; [by etrans|apply suffix_length in H1, Hss; lia]|]. intros [r ps5] [H5 H6].
    apply ends_ret. split; [by etrans|done].
  - cbn [parseexec]. destruct (peek ps [40]) as [bb ps1] eqn:Ep. apply peek_spec in Ep as [-> Hb]. pose proof (skip_space_suffix ps) as Hss.
    destruct bb.
    + eapply ends_mono; [apply IHb; [by etrans|apply suffix_length in Hss; lia]|]. intros [c ps'] []. split; [by etrans|done].
    + eapply ends_bind; [apply redirs_ends; [by etrans|lia]|]. intros [rs ps2] [H1 H2].
      eapply ends_bind; [apply parse_args_ends; [do 2 (etrans; [eassumption|]); done|unfold MAXARGS; lia]|].
      intros [[args rs'] ps3] (H3 & H4 & H5 & H6). apply ends_ret. split; [do 2 (etrans; [eassumption|]); done|].
      apply wf_wrap; [by split|by apply Forall_app].
  - cbn [parseblock]. destruct (peek ps [40]) as [bb ps1] eqn:Ep. apply peek_spec in Ep as [-> Hb]. pose proof (skip_space_suffix ps) as Hss.
    destruct bb; cbn [negb]; [|apply ends_sh_panic].
    destruct (gettoken (skip_space ps)) as [[[tok q] e] ps2] eqn:E1.
    destruct (gettoken_progress _ _ _ _ _ (proj1 (Hb eq_refl)) E1) as [S2 Hlt].
    eapply ends_bind; [apply IHl; [by etrans|apply suffix_length in Hss; lia]|]. intros [c ps3] [H1 H2].
    destruct (peek ps3 [41]) as [b2 ps4] eqn:Ep2. apply peek_spec in Ep2 as [-> Hb2]. pose proof (skip_space_suffix ps3) as Hss3.
    destruct b2; cbn [negb]; [|apply ends_sh_panic].
    destruct (gettoken (skip_space ps3)) as [[[tok2 q2] e2] ps5] eqn:E2.
    destruct (gettoken_progress _ _ _ _ _ (proj1 (Hb2 eq_refl)) E2) as [S5 _].
    assert (ps5 `suffix_of` ps) as S6 by (do 2 (etrans; [eassumption|]); done).
    unfold parseredirs. eapply ends_bind; [apply redirs_ends; [by etrans|lia]|]. intros [rs ps6] [H5 H6].
    apply ends_ret. split; [by etrans|by apply wf_wrap].
Qed.

End Typing.

(** ** nulterminate *)
Lemma nulterminate_cuts c buf : nulterminate c buf = foldl cut buf (tokens c).
Proof.
  revert buf. induction c; intros buf; cbn [nulterminate tokens]; rewrite ?foldl_app; cbn [foldl]; rewrite ?IHc, ?IHc1, ?IHc2; done.
Qed.

Lemma length_cuts ts : forall buf, length (foldl cut buf ts) = length buf.
Proof. induction ts as [|t ts IH]; intros buf; [done|]. cbn [foldl]. rewrite IH. apply length_insert. Qed.

Lemma cuts_lookup ts : forall buf i, i ∉ (teq <$> ts) -> foldl cut buf ts !! i = buf !! i.
Proof.
  induction ts as [|t ts IH]; intros buf i H; [done|]. rewrite fmap_cons, not_elem_of_cons in H. destruct H. cbn [foldl].
  rewrite IH by done. by apply list_lookup_insert_ne.
Qed.

Lemma cuts_zero ts : forall buf i, i ∈ (teq <$> ts) -> (i < length buf)%nat -> foldl cut buf ts !! i = Some 0.
Proof.
  induction ts as [|t ts IH]; intros buf i H Hi; [by inversion H|]. rewrite fmap_cons, elem_of_cons in H. cbn [foldl].
  destruct (decide (i ∈ (teq <$> ts))) as [Hd|Hd].
  - apply IH; [done|]. unfold cut. by rewrite length_insert.
  - destruct H as [->|H]; [|done]. rewrite cuts_lookup by done. by apply list_lookup_insert_eq.
Qed.

Lemma cstr_lookup w : forall l, Forall (fun c => c <> 0) w -> (forall i, (i < length w)%nat -> l !! i = w !! i) -> l !! length w = Some 0 -> cstr l = w.
Proof.
  induction w as [|c w IH]; intros l Hw Hl Hz.
  - destruct l as [|d l]; [done|]. injection Hz as ->. done.
  - inversion Hw; subst. destruct l as [|d l]; [done|]. specialize (Hl 0%nat ltac:(simpl; lia)) as Hd. injection Hd as ->.
    cbn [cstr]. destruct (c =? 0) eqn:E; bool_to_prop; [done|]. f_equal. apply IH; [done| |done].
    intros i Hi. apply (Hl (S i)). simpl. lia.
Qed.

(** A position inside a word is not the end of a token. *)
Lemma word_not_end b w t t' i : token_of b w t -> wf_token b t' -> (tq t <= i < teq t)%nat -> i <> teq t'.
Proof.
  intros (pre & post & -> & H1 & H2 & _ & Hw & _) (w' & pre' & post' & Hb & H1' & H2' & _ & _ & Hp) Hi Hie.
  assert (exists c, (pre ++ w ++ post) !! i = Some c /\ word_char c = true) as (c & Hc & Hcw).
  { destruct (lookup_lt_is_Some_2 w (i - length pre)) as [c Hc]; [lia|]. exists c. split.
    - rewrite lookup_app_r, lookup_app_l by lia. done.
    - by apply (Forall_lookup_1 _ _ _ _ Hw Hc). }
  rewrite Hb in Hc. rewrite !lookup_app_r in Hc by lia. replace (i - length pre' - length w')%nat with 0%nat in Hc by lia.
  destruct post' as [|d post']; [done|]. injection Hc as ->. destruct Hp as [?|Hp]; [done|]. cbn [hd0] in Hp. congruence.
Qed.

Lemma cstr_prefix buf : 0 ∈ buf -> exists junk, buf = cstr buf ++ 0 :: junk.
Proof.
  induction buf as [|c buf IH]; [by intros H; inversion H|]. intros H. cbn [cstr]. destruct (c =? 0) eqn:E; bool_to_prop.
  - subst. by exists buf.
  - apply elem_of_cons in H as [H|H]; [congruence|]. destruct (IH H) as [junk Hj]. exists junk. cbn [app]. by rewrite <- Hj.
Qed.

Lemma string_after buf ts t w : 0 ∈ buf -> Forall (wf_token (cstr buf)) ts -> t ∈ ts -> token_of (cstr buf) w t ->
  string_at (foldl cut buf ts) t = w.
Proof.
  intros H0 Hts Ht Hw. pose proof Hw as (pre & post & Hb & H1 & H2 & _ & _ & _). destruct (cstr_prefix buf H0) as [junk Hj].
  pose proof (cstr_no_nul buf) as Hnz. rewrite Hb in Hnz. apply Forall_app in Hnz as [_ Hnz]. apply Forall_app in Hnz as [Hnz _].
  unfold string_at. apply cstr_lookup; [done| |].
  - intros i Hi. rewrite lookup_drop, cuts_lookup.
    + rewrite Hj, Hb, <- !app_assoc, lookup_app_r, lookup_app_l by lia. f_equal. lia.
    + intros (t' & He & Ht')%list_elem_of_fmap. rewrite Forall_forall in Hts.
      apply (word_not_end _ _ _ t' (tq t + i)%nat Hw (Hts _ Ht')); [lia|done].
  - rewrite lookup_drop. replace (tq t + length w)%nat with (teq t) by lia. apply cuts_zero; [apply list_elem_of_fmap; by exists t|].
    rewrite Hj, Hb, !length_app. simpl. lia.
Qed.

(** C24: typing and termination of the shell's parser.  On every line that ends
    in a NUL, parsing ends: with a tree, or with a message and [exit], or
    waiting in a [write] of the message; it never recurses beyond the fuel the
    length of the line gives.  A tree is well-formed: every string in it is a
    maximal word of the line, every argument vector has fewer than [MAXARGS]
    entries, every redirection opens descriptor 0 for reading or 1 for writing.
    And after [nulterminate] every string of the tree is that word,
    NUL-terminated, although all of them share the line's array. *)
Theorem parsecmd_typed buf s : 0 ∈ buf ->
  match fst (parsecmd buf s) with
  | Ret (c, buf') =>
      wf_cmd (cstr buf) c /\ length buf' = length buf /\
      forall t, t ∈ tokens c -> token_of (cstr buf) (string_at buf' t) t
  | Panic msg => msg = "exit"
  | Sleep _ => True
  end.
Proof.
  intros H0. unfold parsecmd.
  assert (ends (parseline (length (cstr buf)) (parse_fuel_for (cstr buf)) (cstr buf)) (fun '(c, ps') => ps' `suffix_of` cstr buf /\ wf_cmd (cstr buf) c)) as Hl
    by (apply descent_ends; [done|unfold parse_fuel_for; lia]).
  match goal with |- context [fst (?m s)] => enough (ends m (fun '(c, buf') => wf_cmd (cstr buf) c /\ length buf' = length buf /\
      forall t, t ∈ tokens c -> token_of (cstr buf) (string_at buf' t) t)) as H by exact (H s) end.
  eapply ends_bind; [exact Hl|]. intros [c ps'] [H1 H2]. cbv zeta. destruct (negb _).
  - eapply ends_bind; [apply ends_leftovers|]. intros _ _. apply ends_sh_panic.
  - apply ends_ret. rewrite nulterminate_cuts. split_and!; [done|apply length_cuts|]. intros t Ht. apply wf_tokens in H2 as Hts.
    pose proof Hts as Hf. rewrite Forall_forall in Hf. destruct (Hf t Ht) as [w Hw]. by rewrite (string_after buf _ t w).
Qed.

Lemma parsecmd_typed_witness :
  fst (parsecmd (line "a <b |c" ++ [0]) (Ust [] [])) =
    Ret (PIPE (REDIR (EXEC [Token 0 1]) (Redir (Token 3 4) 0 0)) (EXEC [Token 6 7]), [97; 0; 60; 98; 0; 124; 99; 0; 0]) /\
  token_of (str "a <b |c" ++ [10]) (str "c") (Token 6 7).
Proof.
  pose proof (parsecmd_typed (line "a <b |c" ++ [0]) (Ust [] []) ltac:(apply list_elem_of_lookup; by exists 8%nat)) as H.
  assert (fst (parsecmd (line "a <b |c" ++ [0]) (Ust [] [])) =
    Ret (PIPE (REDIR (EXEC [Token 0 1]) (Redir (Token 3 4) 0 0)) (EXEC [Token 6 7]), [97; 0; 60; 98; 0; 124; 99; 0; 0])) as E by (by vm_compute).
  split; [exact E|]. rewrite E in H. destruct H as (_ & _ & H).
  exact (H (Token 6 7) ltac:(apply list_elem_of_lookup; by exists 2%nat)).
Defined.
