(* ===== verification/ShPrint.v ===== *)
(** * The shell's parser reads back what a printer writes

    Commands as trees of words, a printer that puts parentheses where the
    grammar needs them, and the round trip through [parsecmd]. *)
From S2P Require Import Prelude User Sh ShParse.

Inductive tree : Type :=
| TExec (args : list (list Z))
| TRedir (t : tree) (out : bool) (file : list Z)
| TPipe (l r : tree)
| TList (l r : tree)
| TBack (t : tree).

(** The tree of a parsed command, given the string of every token. *)
Fixpoint tree_of (string : token -> list Z) (c : cmd) : tree :=
  match c with
  | EXEC argv => TExec (string <$> argv)
  | REDIR c r => TRedir (tree_of string c) (r_fd r =? 1) (string (r_file r))
  | PIPE l r => TPipe (tree_of string l) (tree_of string r)
  | LIST l r => TList (tree_of string l) (tree_of string r)
  | BACK c => TBack (tree_of string c)
  end.

(** ** The printer *)
Definition show_words (ws : list (list Z)) : list Z := concat ((fun w => w ++ [32]) <$> ws).

Definition show_redir (r : bool * list Z) : list Z := (if fst r then 62 else 60) :: snd r ++ [32].

(** The level of the grammar a tree belongs to: 0 a line, 1 a command with [&],
    2 a pipeline, 3 a simple command. *)
Definition level (t : tree) : nat :=
  match t with
  | TList _ _ => 0
  | TBack _ => 1
  | TPipe _ _ => 2
  | _ => 3
  end.

Fixpoint show (lvl : nat) (t : tree) : list Z :=
  let body :=
    match t with
    | TExec ws => show_words ws
    | TRedir t out f => show 3 t ++ show_redir (out, f)
    | TPipe l r => show 3 l ++ 124 :: show 2 r
    | TList l r => show 1 l ++ 59 :: show 0 r
    | TBack t => show 1 t ++ [38]
    end in
  if (lvl <=? level t)%nat then body else 40 :: body ++ [41].

Definition good_word (w : list Z) : Prop := w <> [] /\ Forall (fun c => word_char c = true /\ c <> 0) w.

Fixpoint wf_tree (t : tree) : Prop :=
  match t with
  | TExec ws => (length ws < MAXARGS)%nat /\ Forall good_word ws
  | TRedir t _ f => wf_tree t /\ good_word f
  | TPipe l r | TList l r => wf_tree l /\ wf_tree r
  | TBack t => wf_tree t
  end.

(** ** The scanner on printed text *)
Lemma word_char_not_space c : word_char c = true -> is_space c = false.
Proof. unfold word_char. by destruct (is_space c). Qed.

Lemma word_not_symbol cs c : word_char c = true -> (forall d, d ∈ cs -> d ∈ symbols) -> Forall (fun d => d <> 0) cs -> among cs c = false.
Proof.
  intros Hw Hs Hz. destruct (among cs c) eqn:E; [|done]. apply among_In in E; [|done]. apply Hs in E.
  unfold word_char in Hw. apply andb_true_iff in Hw as [_ Hw]. apply negb_true_iff in Hw.
  unfold is_symbol in Hw. assert (among symbols c = true) by (apply among_In; [by repeat constructor|done]). congruence.
Qed.

Lemma skip_space_word w r : good_word w -> skip_space (w ++ r) = w ++ r.
Proof. intros [Hne Hw]. destruct w as [|c w]; [done|]. inversion Hw as [|? ? [Hc _]]; subst. cbn [app skip_space]. by rewrite word_char_not_space. Qed.

Lemma skip_word_app w r : Forall (fun c => word_char c = true /\ c <> 0) w -> r = [] \/ word_char (hd0 r) = false -> skip_word (w ++ r) = r.
Proof.
  intros Hw Hr. induction Hw as [|c w [Hc _] Hw IH]; cbn [app].
  - destruct r as [|d r]; [done|]. destruct Hr as [?|Hr]; [done|]. cbn [skip_word hd0] in *. unfold word_char in Hr. by rewrite Hr.
  - cbn [skip_word]. unfold word_char in Hc. rewrite Hc. done.
Qed.

(** [gettoken] and [peek] see the text after the leading blanks. *)
Lemma gettoken_word ps w r : skip_space ps = w ++ r -> good_word w -> r = [] \/ word_char (hd0 r) = false ->
  gettoken ps = (97, w ++ r, r, skip_space r).
Proof.
  intros Hs Hg Hr. pose proof Hg as [Hne Hw]. unfold gettoken. rewrite Hs. destruct w as [|c w]; [done|]. inversion Hw as [|? ? [Hc H0] _]; subst.
  change ((c :: w) ++ r) with (c :: (w ++ r)) at 1. cbv iota.
  assert (among [124; 40; 41; 59; 38; 60] c = false) as -> by (apply word_not_symbol; [done|unfold symbols; set_solver|by repeat constructor]).
  destruct (c =? 0) eqn:E; bool_to_prop; [done|]. destruct (c =? 62) eqn:E2; bool_to_prop; [subst c; by vm_compute in Hc|].
  by rewrite skip_word_app.
Qed.

Lemma gettoken_symbol ps c r : skip_space ps = c :: r -> c ∈ [124; 40; 41; 59; 38; 60] -> gettoken ps = (c, c :: r, r, skip_space r).
Proof.
  intros Hs Hc. unfold gettoken. rewrite Hs. assert ((c =? 0) = false) as ->. { apply Z.eqb_neq. intros ->. set_solver. }
  assert (among [124; 40; 41; 59; 38; 60] c = true) as -> by (apply among_In; [by repeat constructor|done]). done.
Qed.

Lemma gettoken_out ps r : skip_space ps = 62 :: r -> hd0 r <> 62 -> gettoken ps = (62, 62 :: r, r, skip_space r).
Proof. intros Hs Hc. unfold gettoken. rewrite Hs. apply Z.eqb_neq in Hc. cbn -[skip_space]. by rewrite Hc. Qed.

Lemma peek_yes ps toks c r : skip_space ps = c :: r -> c <> 0 -> c ∈ toks -> Forall (fun d => d <> 0) toks -> peek ps toks = (true, c :: r).
Proof. intros Hs H0 Hc Hz. unfold peek. rewrite Hs. cbn [hd0]. apply Z.eqb_neq in H0 as ->. apply among_In in Hc; [|done]. by rewrite Hc. Qed.

Lemma peek_no ps toks r : skip_space ps = r -> (hd0 r ∉ toks) -> Forall (fun d => d <> 0) toks -> peek ps toks = (false, r).
Proof.
  intros Hs Hc Hz. unfold peek. rewrite Hs. destruct (among toks (hd0 r)) eqn:E; [|by rewrite andb_false_r]. apply among_In in E; done.
Qed.

Lemma word_hd w r cs : good_word w -> (forall d, d ∈ cs -> d ∈ symbols) -> Forall (fun d => d <> 0) cs -> hd0 (w ++ r) ∉ cs.
Proof.
  intros [Hne Hw] Hs Hz Hin. destruct w as [|c w]; [done|]. inversion Hw as [|? ? [Hc _] _]; subst. cbn [app hd0] in Hin.
  apply (among_In _ _ Hz) in Hin. rewrite (word_not_symbol cs c) in Hin; done.
Qed.

(** ** Round trip *)
Definition word_at (b : list Z) (t : token) : list Z := take (teq t - tq t) (drop (tq t) b).

Section RoundTrip.
Context (b : list Z).

Lemma word_at_suffix w r : (w ++ r) `suffix_of` b -> word_at b (Token (pos (length b) (w ++ r)) (pos (length b) r)) = w.
Proof.
  intros [pre ->]. unfold word_at, pos. cbn [tq teq]. rewrite !length_app.
  replace (length pre + (length w + length r) - (length w + length r))%nat with (length pre) by lia.
  rewrite drop_app_length. replace (length pre + (length w + length r) - length r - length pre)%nat with (length w) by lia.
  by rewrite take_app_length.
Qed.

Definition redir_of (r : redir) : bool * list Z := (r_fd r =? 1, word_at b (r_file r)).

Lemma tree_of_wrap c rs : tree_of (word_at b) (wrap c rs) = foldl (fun t r => TRedir t (fst r) (snd r)) (tree_of (word_at b) c) (redir_of <$> rs).
Proof. revert c. induction rs as [|r rs IH]; intros c; [done|]. unfold wrap in *. cbn [foldl]. by rewrite IH. Qed.

Definition show_redirs (rs : list (bool * list Z)) : list Z := concat (show_redir <$> rs).

Lemma show_redirs_cons r rs rest : show_redirs (r :: rs) ++ rest = (if fst r then 62 else 60) :: snd r ++ 32 :: show_redirs rs ++ rest.
Proof. unfold show_redirs. cbn [fmap list_fmap concat]. unfold show_redir. cbn [app]. by rewrite <- !app_assoc. Qed.

Lemma skip_redirs rs rest : rs <> [] -> skip_space (show_redirs rs ++ rest) = show_redirs rs ++ rest.
Proof. destruct rs as [|[[] f] rs]; [done| |]; intros _; rewrite show_redirs_cons; done. Qed.

Lemma length_show_redirs rs : (length rs <= length (show_redirs rs))%nat.
Proof.
  induction rs as [|r rs IH]; [done|]. unfold show_redirs in *. cbn [fmap list_fmap concat length]. rewrite length_app.
  assert (1 <= length (show_redir r))%nat by (unfold show_redir; simpl; lia). lia.
Qed.

Lemma redirs_show rs : forall ps rest fuel s,
  Forall (fun r => good_word (snd r)) rs -> skip_space ps = skip_space (show_redirs rs ++ rest) -> skip_space ps `suffix_of` b ->
  (hd0 (skip_space rest) ∉ [60; 62]) -> (length rs < fuel)%nat ->
  exists rs', redirs (length b) fuel ps s = (Ret (rs', skip_space rest), s) /\ redir_of <$> rs' = rs.
Proof.
  induction rs as [|[out f] rs IH]; intros ps rest [|fuel] s Hg Hs Hb Hr Hf; try (simpl in Hf; lia); cbn [redirs].
  - rewrite (peek_no ps _ (skip_space rest)); [|exact Hs|done|by repeat constructor]. cbn [negb]. by exists [].
  - inversion Hg as [|? ? Hf1 Hg']; subst. cbn [snd] in Hf1. rewrite skip_redirs, show_redirs_cons in Hs by done. cbn [fst snd] in Hs.
    rewrite (peek_yes ps _ _ _ Hs); [|by destruct out|destruct out; set_solver|by repeat constructor]. cbn [negb].
    assert (gettoken ((if out then 62 else 60) :: f ++ 32 :: show_redirs rs ++ rest) =
      (if out then 62 else 60, (if out then 62 else 60) :: f ++ 32 :: show_redirs rs ++ rest, f ++ 32 :: show_redirs rs ++ rest, f ++ 32 :: show_redirs rs ++ rest)) as ->.
    { destruct out.
      - rewrite (gettoken_out _ (f ++ 32 :: show_redirs rs ++ rest)); [by rewrite skip_space_word|done|].
        intros E. apply (word_hd f (32 :: show_redirs rs ++ rest) [62]); [done|unfold symbols; set_solver|by repeat constructor|]. rewrite E. set_solver.
      - rewrite (gettoken_symbol _ 60 (f ++ 32 :: show_redirs rs ++ rest)); [by rewrite skip_space_word|done|set_solver]. }
    rewrite (gettoken_word _ f (32 :: show_redirs rs ++ rest)); [|by rewrite skip_space_word|done|by right].
    cbn [negb Z.eqb Pos.eqb]. rewrite Hs in Hb.
    destruct (IH (skip_space (32 :: show_redirs rs ++ rest)) rest fuel s) as (rs' & H1 & H2); [done|by rewrite skip_space_idem| |done|simpl in Hf; lia|].
    { rewrite skip_space_idem. etrans; [apply skip_space_suffix|]. etrans; [|exact Hb]. apply suffix_cons_r. by exists f. }
    rewrite (bind_Ret _ _ _ _ _ H1). eexists. split; [reflexivity|]. rewrite fmap_app, H2.
    assert (word_at b (Token (pos (length b) (f ++ 32 :: show_redirs rs ++ rest)) (pos (length b) (32 :: show_redirs rs ++ rest))) = f) as Hw
      by (apply word_at_suffix; etrans; [|exact Hb]; by apply suffix_cons_r).
    destruct out; cbn [Z.eqb Pos.eqb fmap list_fmap app]; unfold redir_of; cbn [r_fd r_file Z.eqb Pos.eqb]; by rewrite Hw.
Qed.

Lemma show_words_cons w ws rest : show_words (w :: ws) ++ rest = w ++ 32 :: show_words ws ++ rest.
Proof. unfold show_words. cbn [fmap list_fmap concat]. by rewrite <- !app_assoc. Qed.

(** What may follow a simple command, a pipeline and a line. *)
Definition follows (cs : list Z) (rest : list Z) : Prop := skip_space rest = [] \/ hd0 (skip_space rest) ∈ cs.

Lemma follows_not cs ds rest : follows cs rest -> (forall c, c ∈ ds -> c ∉ cs) -> Forall (fun d => d <> 0) ds -> hd0 (skip_space rest) ∉ ds.
Proof.
  intros [H|H] Hd Hz Hin; [rewrite H in Hin; cbn [hd0] in Hin; rewrite Forall_forall in Hz; by apply (Hz 0)|]. by apply (Hd _ Hin).
Qed.

Lemma args_show ws : forall left ps rest rs s,
  Forall good_word ws -> Forall (fun r => good_word (snd r)) rs -> (length ws < left)%nat ->
  skip_space ps = skip_space (show_words ws ++ show_redirs rs ++ rest) -> skip_space ps `suffix_of` b ->
  follows [124; 41; 38; 59] rest -> (ws = [] -> rs = []) ->
  exists ts rs', parse_args (length b) left ps s = (Ret (ts, rs', skip_space rest), s) /\ word_at b <$> ts = ws /\ redir_of <$> rs' = rs.
Proof.
  induction ws as [|w ws IH]; intros [|left] ps rest rs s Hw Hr Hl Hs Hb Hf He; try (simpl in Hl; lia); cbn [parse_args].
  - rewrite (He eq_refl) in *. cbn [show_words show_redirs fmap list_fmap concat app] in Hs. exists [], []. destruct Hf as [Hf|Hf].
    + rewrite Hf in *. rewrite (peek_no ps _ [] Hs); [|cbn; set_solver|by repeat constructor]. done.
    + destruct (skip_space rest) as [|c r] eqn:E; [cbn [hd0] in Hf; set_solver|]. cbn [hd0] in Hf.
      rewrite (peek_yes ps _ c r Hs); [done|intros ->; set_solver|done|by repeat constructor].
  - inversion Hw as [|? ? Hw1 Hw']; subst. rewrite show_words_cons, skip_space_word in Hs by done.
    rewrite (peek_no ps _ _ Hs); [|apply word_hd; [done|unfold symbols; set_solver|by repeat constructor]|by repeat constructor].
    rewrite (gettoken_word _ w (32 :: show_words ws ++ show_redirs rs ++ rest)); [|by rewrite skip_space_word|done|by right].
    cbn [Z.eqb negb Pos.eqb]. destruct (decide (left = 0%nat)); [simpl in Hl; lia|]. rewrite Hs in Hb.
    assert (skip_space (32 :: show_words ws ++ show_redirs rs ++ rest) `suffix_of` b) as Hb2.
    { etrans; [apply skip_space_suffix|]. etrans; [|exact Hb]. by exists w. }
    set (ps1 := skip_space (32 :: show_words ws ++ show_redirs rs ++ rest)) in *.
    assert (skip_space ps1 = skip_space (show_words ws ++ show_redirs rs ++ rest)) as Hs1 by (subst ps1; by rewrite skip_space_idem).
    assert (skip_space ps1 `suffix_of` b) as Hb3 by (subst ps1; by rewrite skip_space_idem).
    assert (word_at b (Token (pos (length b) (w ++ 32 :: show_words ws ++ show_redirs rs ++ rest)) (pos (length b) (32 :: show_words ws ++ show_redirs rs ++ rest))) = w) as Hwa
      by (by apply word_at_suffix).
    destruct ws as [|w2 ws].
    + destruct (redirs_show rs ps1 rest (S (length ps1)) s) as (rs1 & R1 & R2); [done|exact Hs1|done| | |].
      { eapply follows_not; [done|set_solver|by repeat constructor]. }
      { destruct rs as [|r rs]; [simpl; lia|]. assert (ps1 = show_redirs (r :: rs) ++ rest) as ->.
        { subst ps1. change (show_words [] ++ show_redirs (r :: rs) ++ rest) with (show_redirs (r :: rs) ++ rest). cbn [skip_space]. by apply (skip_redirs (r :: rs)). }
        rewrite length_app. pose proof (length_show_redirs (r :: rs)). lia. }
      rewrite (bind_Ret _ _ _ _ _ R1).
      destruct (IH left (skip_space rest) rest [] s) as (ts & rs' & P1 & P2 & P3); [done|done|simpl in *; lia|cbn; by rewrite skip_space_idem| |done|done|].
      { rewrite skip_space_idem. etrans; [apply skip_space_suffix|]. etrans; [|exact Hb]. exists (w ++ 32 :: show_redirs rs). rewrite <- app_assoc. done. }
      rewrite (bind_Ret _ _ _ _ _ P1). eexists _, _. split; [reflexivity|]. rewrite fmap_cons, fmap_app, P2, P3, R2, Hwa, app_nil_r. done.
    + inversion Hw' as [|? ? Hw2 _]; subst.
      destruct (redirs_show [] ps1 (show_words (w2 :: ws) ++ show_redirs rs ++ rest) (S (length ps1)) s) as (rs1 & R1 & R2); [done|exact Hs1|done| |simpl; lia|].
      { rewrite show_words_cons, skip_space_word by done. apply word_hd; [done|unfold symbols; set_solver|by repeat constructor]. }
      apply fmap_nil_inv in R2 as ->. rewrite (bind_Ret _ _ _ _ _ R1).
      destruct (IH left (skip_space (show_words (w2 :: ws) ++ show_redirs rs ++ rest)) rest rs s) as (ts & rs' & P1 & P2 & P3);
        [done|done|simpl in *; lia|by rewrite skip_space_idem|rewrite <- Hs1, skip_space_idem; done|done|done|].
      rewrite (bind_Ret _ _ _ _ _ P1). eexists _, _. split; [reflexivity|]. cbn [app]. rewrite fmap_cons, P2, P3, Hwa. done.
Qed.

(** ** The levels of the grammar *)
Definition add_redirs (t : tree) (rs : list (bool * list Z)) : tree := foldl (fun t r => TRedir t (fst r) (snd r)) t rs.

Lemma spine t : wf_tree t -> exists base rs, t = add_redirs base rs /\ wf_tree base /\ Forall (fun r => good_word (snd r)) rs /\
  show 3 t = show 3 base ++ show_redirs rs /\ (forall t' o f, base <> TRedir t' o f).
Proof.
  induction t as [ws|t IH o f|l IHl r IHr|l IHl r IHr|t IH]; intros Hw.
  2:{ destruct Hw as [Hw Hf]. destruct (IH Hw) as (base & rs & H1 & H2 & H3 & H4 & H5). exists base, (rs ++ [(o, f)]).
      split_and!; [by rewrite H1; unfold add_redirs; rewrite foldl_app|done|by apply Forall_app; split; [|by constructor]| |done].
      change (show 3 (TRedir t o f)) with (show 3 t ++ show_redir (o, f)). rewrite H4, <- app_assoc. unfold show_redirs.
      rewrite fmap_app, concat_app. cbn [fmap list_fmap concat]. by rewrite app_nil_r. }
  all: eexists _, []; split_and!; [reflexivity|done|constructor|by rewrite app_nil_r|done].
Qed.

(** A tree with [n] trailing ampersands. *)
Lemma ampersands t : exists base n, t = Nat.iter n TBack base /\ show 1 t = show 2 base ++ repeat 38 n /\
  (wf_tree t -> wf_tree base).
Proof.
  induction t as [ws|t IH o f|l IHl r IHr|l IHl r IHr|t (base & n & H1 & H2 & H3)].
  5:{ exists base, (S n). split_and!; [by rewrite H1|change (show 1 (TBack t)) with (show 1 t ++ [38])|done].
      rewrite H2, <- app_assoc. f_equal. change [38] with (repeat 38 1). by rewrite <- repeat_app, Nat.add_1_r. }
  all: eexists _, 0%nat; split_and!; [reflexivity|cbn [repeat]; by rewrite app_nil_r|done].
Qed.

Lemma show_paren t : (forall ws, t <> TExec ws) -> (forall t' o f, t <> TRedir t' o f) -> show 3 t = 40 :: show 0 t ++ [41].
Proof. destruct t; intros H1 H2; try done; [by destruct (H1 args)|by destruct (H2 t out file)]. Qed.

Lemma show_21 t : (forall l r, t <> TPipe l r) -> show 2 t = show 3 t.
Proof. destruct t; intros H; try done. by destruct (H t1 t2). Qed.

Lemma show_01 t : (forall l r, t <> TList l r) -> show 0 t = show 1 t.
Proof. destruct t; intros H; try done. by destruct (H t1 t2). Qed.

Lemma back_show n : forall c ps rest fuel s,
  skip_space ps = skip_space (repeat 38 n ++ rest) -> (hd0 (skip_space rest) ∉ [38]) -> (n < fuel)%nat ->
  parse_back fuel c ps s = (Ret (Nat.iter n BACK c, skip_space rest), s).
Proof.
  induction n as [|n IH]; intros c ps rest [|fuel] s Hs Hr Hf; try lia; cbn [parse_back].
  - rewrite (peek_no ps _ (skip_space rest)); [done|exact Hs|done|by repeat constructor].
  - change (skip_space ps = 38 :: repeat 38 n ++ rest) in Hs.
    rewrite (peek_yes ps _ _ _ Hs); [|done|set_solver|by repeat constructor].
    rewrite (gettoken_symbol _ 38 (repeat 38 n ++ rest)); [|done|set_solver].
    rewrite (IH (BACK c) _ rest fuel s); [by rewrite Nat.iter_succ_r|by rewrite skip_space_idem|done|lia].
Qed.

Lemma tree_of_back f n c : tree_of f (Nat.iter n BACK c) = Nat.iter n TBack (tree_of f c).
Proof. induction n as [|n IH]; [done|]. simpl. by f_equal. Qed.

Definition reads (routine : nat -> list Z -> M ust (cmd * list Z)) (fuel lvl need : nat) (stop : list Z) : Prop :=
  forall t ps rest s, wf_tree t -> skip_space ps = skip_space (show lvl t ++ rest) -> skip_space ps `suffix_of` b ->
    follows stop rest -> (4 * length ps + need <= fuel)%nat ->
    exists c, routine fuel ps s = (Ret (c, skip_space rest), s) /\ tree_of (word_at b) c = t.

(** A suffix of the line that starts after the next symbol. *)
Lemma suffix_step ps (x rest : list Z) c : skip_space ps = x ++ c :: rest -> skip_space ps `suffix_of` b -> skip_space rest `suffix_of` b.
Proof. intros H Hb. rewrite H in Hb. etrans; [apply skip_space_suffix|]. etrans; [|exact Hb]. exists (x ++ [c]). by rewrite <- app_assoc. Qed.

Lemma skip_suffix t : skip_space t `suffix_of` b -> skip_space (skip_space t) `suffix_of` b.
Proof. by rewrite skip_space_idem. Qed.

Lemma skip_length t : (length (skip_space t) <= length t)%nat.
Proof. apply suffix_length, skip_space_suffix. Qed.

Lemma skip_space_keeps x c rest : is_space c = false -> (c :: rest) `suffix_of` skip_space (x ++ c :: rest).
Proof.
  intros Hc. induction x as [|d x IH]; cbn [app skip_space]; [by rewrite Hc|].
  destruct (is_space d); [done|]. by exists (d :: x).
Qed.

(** The text after the symbol [c] that follows a printed part. *)
Lemma suffix_middle ps x c rest : skip_space ps = skip_space (x ++ c :: rest) -> is_space c = false -> skip_space ps `suffix_of` b ->
  (length rest < length ps)%nat /\ skip_space rest `suffix_of` b.
Proof.
  intros Hs Hc Hb. pose proof (skip_space_keeps x c rest Hc) as Hk. rewrite <- Hs in Hk. pose proof (skip_length ps).
  apply suffix_length in Hk as Hl. cbn [length] in Hl. split; [lia|]. etrans; [apply skip_space_suffix|].
  assert (rest `suffix_of` (c :: rest)) by (by apply suffix_cons_r). by do 2 (etrans; [eassumption|]).
Qed.

Definition reads_block (fuel : nat) : Prop :=
  forall t rs ps rest s, wf_tree t -> Forall (fun r => good_word (snd r)) rs ->
    skip_space ps = 40 :: show 0 t ++ 41 :: show_redirs rs ++ rest -> skip_space ps `suffix_of` b ->
    follows [124; 41; 38; 59] rest -> (4 * length ps + 1 <= fuel)%nat ->
    exists c, parseblock (length b) fuel ps s = (Ret (c, skip_space rest), s) /\ tree_of (word_at b) c = add_redirs t rs.

Lemma redirs_show_text rs rest s : Forall (fun r => good_word (snd r)) rs -> skip_space (show_redirs rs ++ rest) `suffix_of` b ->
  (hd0 (skip_space rest) ∉ [60; 62]) ->
  exists rs', redirs (length b) (S (length (skip_space (show_redirs rs ++ rest)))) (skip_space (show_redirs rs ++ rest)) s = (Ret (rs', skip_space rest), s) /\
    redir_of <$> rs' = rs.
Proof.
  intros Hr Hb Hf. apply redirs_show; [done|by rewrite skip_space_idem|by rewrite skip_space_idem|done|].
  destruct rs as [|r rs]; [simpl; lia|]. rewrite skip_redirs, length_app by done. pose proof (length_show_redirs (r :: rs)). lia.
Qed.

Lemma block_step k : reads (parseline (length b)) k 0 4 [41] -> reads_block (S k).
Proof.
  intros IH t rs ps rest s Ht Hr Hs Hb Hf Hk. cbn [parseblock].
  rewrite (peek_yes ps _ _ _ Hs); [|done|set_solver|by repeat constructor]. cbn [negb].
  rewrite (gettoken_symbol _ 40 (show 0 t ++ 41 :: show_redirs rs ++ rest)); [|done|set_solver].
  pose proof (suffix_step ps [] _ _ Hs Hb) as Hb1. pose proof (f_equal length Hs) as Hlen. pose proof (skip_length ps) as Hsl.
  destruct (IH t (skip_space (show 0 t ++ 41 :: show_redirs rs ++ rest)) (41 :: show_redirs rs ++ rest) s) as (c & H1 & H2);
    [done|by rewrite skip_space_idem|by apply skip_suffix|right; cbn; set_solver|pose proof (skip_length (show 0 t ++ 41 :: show_redirs rs ++ rest)); simpl in Hlen; lia|].
  rewrite (bind_Ret _ _ _ _ _ H1). change (skip_space (41 :: show_redirs rs ++ rest)) with (41 :: show_redirs rs ++ rest).
  rewrite (peek_yes _ _ 41 (show_redirs rs ++ rest)); [|done|done|set_solver|by repeat constructor]. cbn [negb].
  rewrite (gettoken_symbol _ 41 (show_redirs rs ++ rest)); [|done|set_solver]. unfold parseredirs.
  destruct (redirs_show_text rs rest s) as (rs' & R1 & R2);
    [done|exact (suffix_step ps (40 :: show 0 t) _ 41 Hs Hb)|eapply follows_not; [done|set_solver|by repeat constructor]|].
  rewrite (bind_Ret _ _ _ _ _ R1). eexists. split; [reflexivity|]. by rewrite tree_of_wrap, H2, R2.
Qed.

(** A simple command of words and redirections. *)
Lemma simple_show k ws rs ps rest s : wf_tree (TExec ws) -> Forall (fun r => good_word (snd r)) rs ->
  skip_space ps = skip_space (show_words ws ++ show_redirs rs ++ rest) -> skip_space ps `suffix_of` b -> follows [124; 41; 38; 59] rest ->
  exists c, parseexec (length b) (S k) ps s = (Ret (c, skip_space rest), s) /\ tree_of (word_at b) c = add_redirs (TExec ws) rs.
Proof.
  intros [Hlw Hw] Hr Hs Hb Hf. cbn [parseexec].
  assert (hd0 (skip_space rest) ∉ [60; 62]) as Hf2 by (eapply follows_not; [done|set_solver|by repeat constructor]).
  assert (hd0 (skip_space ps) ∉ [40]) as Hhd.
  { rewrite Hs. destruct ws as [|w ws]; [destruct rs as [|[[] f] rs]|].
    - eapply follows_not; [done|set_solver|by repeat constructor].
    - change (show_words [] ++ show_redirs ((true, f) :: rs) ++ rest) with (show_redirs ((true, f) :: rs) ++ rest). rewrite show_redirs_cons. cbn. set_solver.
    - change (show_words [] ++ show_redirs ((false, f) :: rs) ++ rest) with (show_redirs ((false, f) :: rs) ++ rest). rewrite show_redirs_cons. cbn. set_solver.
    - inversion Hw; subst. rewrite show_words_cons, skip_space_word by done. apply word_hd; [done|unfold symbols; set_solver|by repeat constructor]. }
  rewrite (peek_no ps _ _ eq_refl); [|done|by repeat constructor]. rewrite Hs in *. destruct ws as [|w ws].
  - change (show_words [] ++ show_redirs rs ++ rest) with (show_redirs rs ++ rest) in *.
    destruct (redirs_show_text rs rest s Hr Hb Hf2) as (rs1 & R1 & R2). rewrite (bind_Ret _ _ _ _ _ R1).
    destruct (args_show [] MAXARGS (skip_space rest) rest [] s) as (ts & rs2 & P1 & P2 & P3); [done|done|unfold MAXARGS; simpl; lia|cbn; by rewrite skip_space_idem| |done|done|].
    { rewrite skip_space_idem. destruct rs as [|r rs]; [done|]. rewrite skip_redirs in Hb by done.
      etrans; [apply skip_space_suffix|]. etrans; [|exact Hb]. by exists (show_redirs (r :: rs)). }
    rewrite (bind_Ret _ _ _ _ _ P1). eexists. split; [reflexivity|]. apply fmap_nil_inv in P2 as ->. apply fmap_nil_inv in P3 as ->.
    rewrite tree_of_wrap, app_nil_r, R2. done.
  - destruct (redirs_show_text [] (show_words (w :: ws) ++ show_redirs rs ++ rest) s) as (rs1 & R1 & R2); [done|done| |].
    { inversion Hw; subst. rewrite show_words_cons, skip_space_word by done. apply word_hd; [done|unfold symbols; set_solver|by repeat constructor]. }
    apply fmap_nil_inv in R2 as ->. rewrite (bind_Ret _ _ _ _ _ R1).
    destruct (args_show (w :: ws) MAXARGS (skip_space (show_words (w :: ws) ++ show_redirs rs ++ rest)) rest rs s) as (ts & rs2 & P1 & P2 & P3);
      [done|done|done|by rewrite skip_space_idem|by apply skip_suffix|done|done|].
    rewrite (bind_Ret _ _ _ _ _ P1). eexists. split; [reflexivity|]. rewrite tree_of_wrap. cbn [app tree_of]. by rewrite P2, P3.
Qed.

Lemma exec_step k : reads_block k -> reads (parseexec (length b)) (S k) 3 2 [124; 41; 38; 59].
Proof.
  intros IH t ps rest s Ht Hs Hb Hf Hk. destruct (spine t Ht) as (base & rs & -> & Hbase & Hrs & Hshow & Hnr).
  rewrite Hshow, <- app_assoc in Hs. assert ((exists ws, base = TExec ws) \/ ~ (exists ws, base = TExec ws)) as [[ws ->]|Hne] by (destruct base; naive_solver).
  { by apply simple_show. }
  rewrite show_paren in Hs; [|intros ws ->; eauto|done]. cbn [app] in Hs. rewrite <- app_assoc in Hs.
  change (skip_space (40 :: show 0 base ++ [41] ++ show_redirs rs ++ rest)) with (40 :: show 0 base ++ 41 :: show_redirs rs ++ rest) in Hs.
  cbn [parseexec]. rewrite (peek_yes ps _ _ _ Hs); [|done|set_solver|by repeat constructor]. rewrite Hs in Hb.
  apply IH; [done|done|done|done|done|]. apply (f_equal length) in Hs. pose proof (skip_length ps). lia.
Qed.

Lemma pipe_step k : reads (parseexec (length b)) k 3 2 [124; 41; 38; 59] -> reads (parsepipe (length b)) k 2 3 [41; 38; 59] ->
  reads (parsepipe (length b)) (S k) 2 3 [41; 38; 59].
Proof.
  intros IHe IHp t ps rest s Ht Hs Hb Hf Hk. cbn [parsepipe]. 
  assert ((exists l r, t = TPipe l r) \/ ~ (exists l r, t = TPipe l r)) as [(l & r & ->)|Hne] by (destruct t; naive_solver).
  - destruct Ht as [Hl Hr]. change (show 2 (TPipe l r)) with (show 3 l ++ 124 :: show 2 r) in Hs. rewrite <- app_assoc in Hs. cbn [app] in Hs.
    destruct (IHe l ps (124 :: show 2 r ++ rest) s) as (c & H1 & H2); [done|exact Hs|done|right; cbn; set_solver|lia|].
    rewrite (bind_Ret _ _ _ _ _ H1). change (skip_space (124 :: show 2 r ++ rest)) with (124 :: show 2 r ++ rest).
    rewrite (peek_yes _ _ 124 (show 2 r ++ rest)); [|done|done|set_solver|by repeat constructor].
    rewrite (gettoken_symbol _ 124 (show 2 r ++ rest)); [|done|set_solver].
    destruct (suffix_middle ps (show 3 l) 124 (show 2 r ++ rest)) as [Hlen Hsuf]; [done|done|done|].
    destruct (IHp r (skip_space (show 2 r ++ rest)) rest s) as (c2 & G1 & G2);
      [done|by rewrite skip_space_idem|by apply skip_suffix|done|pose proof (skip_length (show 2 r ++ rest)); lia|].
    rewrite (bind_Ret _ _ _ _ _ G1). eexists. split; [reflexivity|]. cbn [tree_of]. by rewrite H2, G2.
  - rewrite show_21 in Hs by (intros l r ->; eauto).
    destruct (IHe t ps rest s) as (c & H1 & H2); [done|exact Hs|done|destruct Hf; [by left|right; set_solver]|lia|].
    rewrite (bind_Ret _ _ _ _ _ H1). rewrite (peek_no _ _ (skip_space rest)); [|apply skip_space_idem| |by repeat constructor].
    { eexists. by split. }
    eapply follows_not; [done|set_solver|by repeat constructor].
Qed.

Lemma line_step k : reads (parsepipe (length b)) k 2 3 [41; 38; 59] -> reads (parseline (length b)) k 0 4 [41] ->
  reads (parseline (length b)) (S k) 0 4 [41].
Proof.
  intros IHp IHl t ps rest s Ht Hs Hb Hf Hk. cbn [parseline].
  assert (forall t0 rest0, wf_tree t0 -> skip_space ps = skip_space (show 1 t0 ++ rest0) -> follows [41; 59] rest0 ->
    exists c, (('(c, ps) ← parsepipe (length b) k ps; parse_back (S (length ps)) c ps) s = (Ret (c, skip_space rest0), s)) /\
      tree_of (word_at b) c = t0) as Hamp.
  { intros t0 rest0 Ht0 Hs0 Hf0. destruct (ampersands t0) as (base & n & -> & Hshow & Hwf). rewrite Hshow, <- app_assoc in Hs0.
    destruct (IHp base ps (repeat 38 n ++ rest0) s) as (c & H1 & H2); [auto|exact Hs0|done| |lia|].
    { destruct n as [|n]; [destruct Hf0; [by left|right; set_solver]|]. right. cbn. set_solver. }
    rewrite (bind_Ret _ _ _ _ _ H1). exists (Nat.iter n BACK c). split; [|by rewrite tree_of_back, H2].
    apply back_show; [by rewrite skip_space_idem|eapply follows_not; [done|set_solver|by repeat constructor]|].
    destruct n as [|n]; [lia|]. change (skip_space (repeat 38 (S n) ++ rest0)) with (repeat 38 (S n) ++ rest0).
    rewrite length_app, repeat_length. lia. }
  assert ((exists l r, t = TList l r) \/ ~ (exists l r, t = TList l r)) as [(l & r & ->)|Hne] by (destruct t; naive_solver).
  - destruct Ht as [Hl Hr]. change (show 0 (TList l r)) with (show 1 l ++ 59 :: show 0 r) in Hs. rewrite <- app_assoc in Hs. cbn [app] in Hs.
    destruct (Hamp l (59 :: show 0 r ++ rest)) as (c & H1 & H2); [done|exact Hs|right; cbn; set_solver|].
    apply bind_Ret_inv in H1 as ([c0 ps0] & s0 & P1 & P2). rewrite (bind_Ret _ _ _ _ _ P1), (bind_Ret _ _ _ _ _ P2).
    change (skip_space (59 :: show 0 r ++ rest)) with (59 :: show 0 r ++ rest).
    rewrite (peek_yes _ _ 59 (show 0 r ++ rest)); [|done|done|set_solver|by repeat constructor].
    rewrite (gettoken_symbol _ 59 (show 0 r ++ rest)); [|done|set_solver].
    destruct (suffix_middle ps (show 1 l) 59 (show 0 r ++ rest)) as [Hlen Hsuf]; [done|done|done|].
    destruct (IHl r (skip_space (show 0 r ++ rest)) rest s) as (c2 & G1 & G2);
      [done|by rewrite skip_space_idem|by apply skip_suffix|done|pose proof (skip_length (show 0 r ++ rest)); lia|].
    rewrite (bind_Ret _ _ _ _ _ G1). eexists. split; [reflexivity|]. cbn [tree_of]. by rewrite H2, G2.
  - rewrite show_01 in Hs by (intros l r ->; eauto).
    destruct (Hamp t rest) as (c & H1 & H2); [done|exact Hs|destruct Hf; [by left|right; set_solver]|].
    apply bind_Ret_inv in H1 as ([c0 ps0] & s0 & P1 & P2). rewrite (bind_Ret _ _ _ _ _ P1), (bind_Ret _ _ _ _ _ P2).
    rewrite (peek_no _ _ (skip_space rest)); [|apply skip_space_idem| |by repeat constructor].
    { eexists. by split. }
    eapply follows_not; [done|set_solver|by repeat constructor].
Qed.

Lemma all_levels fuel :
  reads (parseline (length b)) fuel 0 4 [41] /\ reads (parsepipe (length b)) fuel 2 3 [41; 38; 59] /\
  reads (parseexec (length b)) fuel 3 2 [124; 41; 38; 59] /\ reads_block fuel.
Proof.
  induction fuel as [|k (Hl & Hp & He & Hbl)].
  - split_and!; unfold reads, reads_block; intros; lia.
  - split_and!; [by apply line_step|by apply pipe_step|by apply exec_step|by apply block_step].
Qed.

End RoundTrip.

Lemma tree_of_ext f g c : (forall t, t ∈ tokens c -> f t = g t) -> tree_of f c = tree_of g c.
Proof.
  induction c as [argv|c IH r|l IHl r IHr|l IHl r IHr|c IH]; cbn [tree_of tokens]; intros H.
  - f_equal. apply list_fmap_ext. intros i t Ht. apply H. by apply list_elem_of_lookup_2 in Ht.
  - rewrite IH, H by set_solver. done.
  - rewrite IHl, IHr by set_solver. done.
  - rewrite IHl, IHr by set_solver. done.
  - by rewrite IH.
Qed.

Lemma token_word b w t : token_of b w t -> word_at b t = w.
Proof.
  intros (pre & post & -> & H1 & H2 & _). unfold word_at. rewrite H1, H2, drop_app_length.
  replace (length pre + length w - length pre)%nat with (length w) by lia. by rewrite take_app_length.
Qed.

Lemma show_nonzero t lvl : wf_tree t -> Forall (fun c => c <> 0) (show lvl t).
Proof.
  assert (forall w, good_word w -> Forall (fun c => c <> 0) w) as Hgw by (intros w [_ H]; eapply Forall_impl; [exact H|by intros ? []]).
  revert lvl. induction t as [ws|t IH o f|l IHl r IHr|l IHl r IHr|t IH]; intros lvl Hw; cbn [show];
    (match goal with |- Forall ?P (if _ then ?x else _) => enough (Forall P x) as He; [destruct (_ <=? _)%nat; [done|constructor; [done|apply Forall_app; split; [done|by repeat constructor]]]|] end).
  - destruct Hw as [_ Hw]. unfold show_words. induction Hw as [|w ws Hw1 Hw IH]; [constructor|]. cbn [fmap list_fmap concat].
    apply Forall_app. split; [apply Forall_app; split; [auto|by repeat constructor]|done].
  - destruct Hw as [Hw Hf]. apply Forall_app. split; [auto|]. constructor; [by destruct o|]. apply Forall_app. split; [auto|by repeat constructor].
  - destruct Hw. apply Forall_app. split; [auto|]. constructor; [done|auto].
  - destruct Hw. apply Forall_app. split; [auto|]. constructor; [done|auto].
  - apply Forall_app. split; [auto|by repeat constructor].
Qed.

(** C13: the shell reads back what the printer writes.  For every command tree
    whose words are non-empty and free of blanks and symbols and whose argument
    lists are shorter than [MAXARGS], whatever its nesting of pipes, lists,
    background commands, redirections and parentheses, [parsecmd] accepts its
    text and returns that tree, with the strings as [nulterminate] leaves them
    in the line. *)
Theorem parse_roundtrip t junk s : wf_tree t ->
  exists c buf', parsecmd (show 0 t ++ 0 :: junk) s = (Ret (c, buf'), s) /\ tree_of (string_at buf') c = t.
Proof.
  intros Hw. pose proof (show_nonzero t 0 Hw) as Hnz. pose proof (cstr_app (show 0 t) junk Hnz) as Hc.
  unfold parsecmd. cbv zeta. rewrite Hc. set (b := show 0 t) in *. unfold parse_fuel_for.
  destruct (proj1 (all_levels b (4 * length b + 4)) t b [] s) as (c & H1 & H2);
    [done|subst b; by rewrite app_nil_r|apply skip_space_suffix|by left|lia|].
  rewrite (bind_Ret _ _ _ _ _ H1). cbn [skip_space peek snd hd0 length Nat.eqb negb]. eexists _, _. split; [reflexivity|].
  rewrite <- H2. apply tree_of_ext. intros tk Ht. rewrite nulterminate_cuts.
  assert (wf_cmd b c) as Hwf.
  { pose proof (proj1 (descent_ends b (4 * length b + 4)) b ltac:(done) ltac:(lia) s) as He. rewrite H1 in He. by destruct He. }
  pose proof (wf_tokens _ _ Hwf) as Hts. pose proof Hts as Hf. rewrite Forall_forall in Hf. destruct (Hf tk Ht) as [w Hwt].
  rewrite <- Hc in Hts, Hwt. rewrite (string_after _ _ tk w); [|set_solver|done|done|done]. rewrite Hc in Hwt. by rewrite (token_word _ w).
Qed.

Lemma parse_roundtrip_witness : exists c buf',
  parsecmd (str "(cat x ;echo y z )|wc <f &" ++ [0]) (Ust [] []) = (Ret (c, buf'), Ust [] []) /\
  tree_of (string_at buf') c =
    TBack (TPipe (TList (TExec [str "cat"; str "x"]) (TExec [str "echo"; str "y"; str "z"])) (TRedir (TExec [str "wc"]) false (str "f"))).
Proof.
  pose proof (parse_roundtrip
    (TBack (TPipe (TList (TExec [str "cat"; str "x"]) (TExec [str "echo"; str "y"; str "z"])) (TRedir (TExec [str "wc"]) false (str "f")))) [] (Ust [] [])) as H.
  destruct H as (c & buf' & H1 & H2).
  - cbn [wf_tree]. unfold good_word. repeat split; try (by vm_compute; lia); repeat constructor; by vm_compute.
  - exists c, buf'. split; [exact H1|exact H2].
Defined.
