(* ===== verification/Umalloc.v ===== *)
(** * The user memory allocator (src/xv6/umalloc.c)

    The allocator of Kernighan and Ritchie over the byte memory of the process.
    A [Header] has two words: the next free block and the size in units of
    eight bytes.  [base] is the address of the static header.  [sbrk] returns
    the old break and moves it, unless the kernel has no memory for the request.
    The loops take fuel; file [UmallocRun] shows how much is enough. *)
From S2P Require Import Prelude Mem.

Definition HSIZE : Z := 8.

(** The memory, the static [freep], the break of the process and the number of
    calls of [sbrk]. *)
Record heap : Type := Heap {
  hmem : mem;
  freep : Z;
  brk : Z;
  calls : nat;
}.

Definition with_mem (f : mem -> mem) (h : heap) : heap := Heap (f (hmem h)) (freep h) (brk h) (calls h).

Definition with_freep (p : Z) (h : heap) : heap := Heap (hmem h) p (brk h) (calls h).

(** [p->s.ptr], [p->s.size] and [p + n] *)
Definition hptr (m : mem) (p : Z) : Z := ld32 m p.

Definition hsize (m : mem) (p : Z) : Z := ld32 m (p + 4).

Definition set_ptr (p v : Z) (m : mem) : mem := st32 m p v.

Definition set_size (p v : Z) (m : mem) : mem := st32 m (p + 4) v.

Definition hadd (p n : Z) : Z := u32 (p + HSIZE * n).

(** The [for] loop of [free]: the block after which [bp] goes. *)
Fixpoint free_find (fuel : nat) (m : mem) (bp p : Z) : option Z :=
  match fuel with
  | O => None
  | S k =>
      if (p <? bp) && (bp <? hptr m p) then Some p
      else if (hptr m p <=? p) && ((p <? bp) || (bp <? hptr m p)) then Some p
      else free_find k m bp (hptr m p)
  end.

(** Joining [bp] with the next block, or linking it in front of it. *)
Definition join_next (bp p : Z) (m : mem) : mem :=
  if hadd bp (hsize m bp) =? hptr m p then
    let m := set_size bp (u32 (hsize m bp + hsize m (hptr m p))) m in
    set_ptr bp (hptr m (hptr m p)) m
  else set_ptr bp (hptr m p) m.

(** Joining [p] with [bp], or linking [bp] after it. *)
Definition join_prev (bp p : Z) (m : mem) : mem :=
  if hadd p (hsize m p) =? bp then
    let m := set_size p (u32 (hsize m p + hsize m bp)) m in
    set_ptr p (hptr m bp) m
  else set_ptr p bp m.

Definition free (fuel : nat) (ap : Z) : M heap unit :=
  let bp := u32 (ap - HSIZE) in
  h ← get;
  match free_find fuel (hmem h) bp (freep h) with
  | None => panic "fuel"
  | Some p =>
      modify (with_mem (join_next bp p)) ;;
      modify (with_mem (join_prev bp p)) ;;
      modify (with_freep p)
  end.

Definition HEAP_MAX : Z := 2147483648.

Section Kernel.
(** Does the kernel have memory for the [n]-th request? *)
Context (grant : nat -> bool).

Definition sbrk (n : Z) : M heap Z := fun h =>
  if grant (calls h) && (brk h + n <=? HEAP_MAX) then
    (Ret (brk h), Heap (hmem h) (freep h) (brk h + n) (S (calls h)))
  else (Ret 4294967295, Heap (hmem h) (freep h) (brk h) (S (calls h))).

(** The null pointer is 0. *)
Definition morecore (fuel : nat) (nu : Z) : M heap Z :=
  let nu := if nu <? 4096 then 4096 else nu in
  p ← sbrk (s32 (u32 (nu * HSIZE)));
  if p =? 4294967295 then ret 0
  else
    modify (with_mem (set_size p nu)) ;;
    free fuel (hadd p 1) ;;
    gets freep.

(** Taking [nunits] units from the block [p], whose predecessor is [prevp]. *)
Definition take_block (nunits prevp p : Z) : M heap Z :=
  h ← get;
  let n := hsize (hmem h) p in
  if n =? nunits then
    modify (with_mem (set_ptr prevp (hptr (hmem h) p))) ;;
    modify (with_freep prevp) ;;
    ret (hadd p 1)
  else
    modify (with_mem (set_size p (u32 (n - nunits)))) ;;
    h ← get;
    let q := hadd p (hsize (hmem h) p) in
    modify (with_mem (set_size q nunits)) ;;
    modify (with_freep prevp) ;;
    ret (hadd q 1).

Fixpoint malloc_loop (fuel : nat) (nunits prevp p : Z) : M heap Z :=
  match fuel with
  | O => panic "fuel"
  | S k =>
      h ← get;
      if nunits <=? hsize (hmem h) p then take_block nunits prevp p
      else if p =? freep h then
        p ← morecore fuel nunits;
        if p =? 0 then ret 0
        else
          h ← get;
          malloc_loop k nunits p (hptr (hmem h) p)
      else malloc_loop k nunits p (hptr (hmem h) p)
  end.

Definition nunits_of (nbytes : Z) : Z := u32 (u32 (nbytes + HSIZE - 1) / HSIZE + 1).

Definition malloc (fuel : nat) (base nbytes : Z) : M heap Z :=
  let nunits := nunits_of nbytes in
  prevp ← gets freep;
  when (prevp =? 0)
    (modify (with_mem (set_ptr base base)) ;;
     modify (with_freep base) ;;
     modify (with_mem (set_size base 0))) ;;
  prevp ← gets freep;
  h ← get;
  malloc_loop fuel nunits prevp (hptr (hmem h) prevp).

End Kernel.
