(* ===== verification/UmallocInv.v ===== *)
(** * The allocator keeps live blocks apart

    The free list seen as a sorted list of blocks, the invariant of the heap,
    and the proof that [malloc] and [free] keep it over any run of a program
    that writes only to its own blocks. *)
From S2P Require Import Prelude Mem Umalloc.

(** ** Blocks: an address and a size in units *)
Abbreviation blk := (Z * Z)%type.

Definition bend (x : blk) : Z := fst x + 8 * snd x.

Definition disj (x y : blk) : Prop := bend x <= fst y \/ bend y <= fst x.

Definition hda (l : list blk) (stop : Z) : Z := match l with [] => stop | x :: _ => fst x end.

(** The blocks of [l] are linked in this order, the last one to [stop]. *)
Fixpoint seg (m : mem) (l : list blk) (stop : Z) : Prop :=
  match l with
  | [] => True
  | x :: l' => hptr m (fst x) = hda l' stop /\ hsize m (fst x) = snd x /\ seg m l' stop
  end.

(** Increasing addresses, and no two blocks that touch. *)
Fixpoint sorted (l : list blk) : Prop :=
  match l with
  | [] => True
  | x :: l' => Forall (fun y => bend x < fst y) l' /\ sorted l'
  end.

Lemma links_app m l1 l2 stop : seg m (l1 ++ l2) stop <-> seg m l1 (hda l2 stop) /\ seg m l2 stop.
Proof.
  induction l1 as [|x l1 IH]; [simpl; tauto|]. cbn [app seg]. rewrite IH.
  assert (hda (l1 ++ l2) stop = hda l1 (hda l2 stop)) as -> by (by destruct l1). tauto.
Qed.

Lemma sorted_app l1 l2 : sorted (l1 ++ l2) <-> sorted l1 /\ sorted l2 /\ forall x y, x ∈ l1 -> y ∈ l2 -> bend x < fst y.
Proof.
  induction l1 as [|x l1 IH]; cbn [app sorted]; [split; [intros H; split_and!; [done|done|set_solver]|tauto]|].
  rewrite IH, Forall_app, !Forall_forall. split.
  - intros ([H1 H2] & H3 & H4 & H5). split_and!; [done|done|done|]. intros x' y [->|Hx]%elem_of_cons Hy; auto.
  - intros ([H1 H2] & H3 & H4). split_and!; [done| |done|done|]; intros; apply H4; set_solver.
Qed.

(** Two memories that agree on the headers of a list. *)
Definition same_headers (m m' : mem) (l : list blk) : Prop :=
  forall x b, x ∈ l -> fst x <= b < fst x + 8 -> ld8 m' b = ld8 m b.

Lemma hptr_same m m' a : (forall b, a <= b < a + 8 -> ld8 m' b = ld8 m b) -> hptr m' a = hptr m a /\ hsize m' a = hsize m a.
Proof. intros H. unfold hptr, hsize. split; apply ld32_ext; intros b Hb; apply H; lia. Qed.

Lemma seg_frame m m' l stop : same_headers m m' l -> seg m l stop -> seg m' l stop.
Proof.
  induction l as [|x l IH]; [done|]. intros Hs (H1 & H2 & H3). cbn [seg].
  destruct (hptr_same m m' (fst x)) as [-> ->]; [intros b Hb; apply (Hs x); set_solver|]. split_and!; [done|done|].
  apply IH; [|done]. intros y b Hy. apply Hs. set_solver.
Qed.

(** Stores to headers. *)
Lemma hptr_set_ptr_eq p v m : 0 <= v < 4294967296 -> hptr (set_ptr p v m) p = v.
Proof. intros. by apply ld32_st32_eq. Qed.

Lemma hsize_set_size_eq p v m : 0 <= v < 4294967296 -> hsize (set_size p v m) p = v.
Proof. intros. by apply ld32_st32_eq. Qed.

Lemma hsize_set_ptr_eq p v m : hsize (set_ptr p v m) p = hsize m p.
Proof. apply ld32_st32_ne. lia. Qed.

Lemma hptr_set_size_eq p v m : hptr (set_size p v m) p = hptr m p.
Proof. apply ld32_st32_ne. lia. Qed.

Definition apart (p q : Z) : Prop := p + 8 <= q \/ q + 8 <= p.

Lemma hptr_set_ptr_ne p q v m : apart p q -> hptr (set_ptr p v m) q = hptr m q.
Proof. intros H. apply ld32_st32_ne. unfold apart in H. lia. Qed.

Lemma hsize_set_size_ne p q v m : apart p q -> hsize (set_size p v m) q = hsize m q.
Proof. intros H. apply ld32_st32_ne. unfold apart in H. lia. Qed.

Lemma hsize_set_ptr_ne p q v m : apart p q -> hsize (set_ptr p v m) q = hsize m q.
Proof. intros H. apply ld32_st32_ne. unfold apart in H. lia. Qed.

Lemma hptr_set_size_ne p q v m : apart p q -> hptr (set_size p v m) q = hptr m q.
Proof. intros H. apply ld32_st32_ne. unfold apart in H. lia. Qed.

Lemma ld8_set_ptr p v m b : ~ (p <= b < p + 8) -> ld8 (set_ptr p v m) b = ld8 m b.
Proof. intros H. apply ld8_st32_ne. lia. Qed.

Lemma ld8_set_size p v m b : ~ (p <= b < p + 8) -> ld8 (set_size p v m) b = ld8 m b.
Proof. intros H. apply ld8_st32_ne. lia. Qed.

(** ** The invariant *)
Section Heap.
Context (base lo : Z) (Hbase : 0 < base) (Hlo : base + 8 <= lo).

Definition in_heap (hi : Z) (x : blk) : Prop := 0 < snd x /\ lo <= fst x /\ bend x <= hi.

(** [fl] are the free blocks, [al] the live ones. *)
Record inv (hi : Z) (h : heap) (fl al : list blk) : Prop := Inv {
  inv_hi : lo <= hi < 4294967296;
  inv_seg : seg (hmem h) ((base, 0) :: fl) base;
  inv_sorted : sorted fl;
  inv_free : Forall (in_heap hi) fl;
  inv_live : Forall (fun x => in_heap hi x /\ hsize (hmem h) (fst x) = snd x) al;
  inv_freep : freep h ∈ (fst <$> (base, 0) :: fl);
  inv_disj : forall x y, x ∈ al -> y ∈ fl -> disj x y;
  inv_live_disj : ForallOrdPairs disj al;
}.

Lemma nodes_sorted hi h fl al : inv hi h fl al -> sorted ((base, 0) :: fl).
Proof.
  intros H. cbn [sorted]. split; [|apply H]. eapply Forall_impl; [apply H|]. intros x (H1 & H2 & H3). unfold bend. simpl. lia.
Qed.

Lemma nodes_bounds hi h fl al x : inv hi h fl al -> x ∈ ((base, 0) :: fl) -> base <= fst x /\ fst x < hi + 1 /\ 0 <= snd x /\ bend x <= hi.
Proof.
  intros H [->|Hx]%elem_of_cons; [destruct H as [Hh _ _ _ _ _ _ _]; unfold bend; simpl; lia|]. pose proof (inv_free _ _ _ _ H) as Hf. rewrite Forall_forall in Hf.
  destruct (Hf x Hx) as (H1 & H2 & H3). unfold bend in *. lia.
Qed.

(** Headers of different nodes do not overlap. *)
Lemma nodes_apart hi h fl al l1 l2 x y : inv hi h fl al -> (base, 0) :: fl = l1 ++ l2 -> x ∈ l1 -> y ∈ l2 -> fst x + 8 <= fst y.
Proof.
  intros H E Hx Hy. pose proof (nodes_sorted _ _ _ _ H) as Hs. rewrite E in Hs. apply sorted_app in Hs as (_ & _ & Hs). specialize (Hs x y Hx Hy).
  assert (x ∈ ((base, 0) :: fl) /\ y ∈ ((base, 0) :: fl)) as [Hx' Hy'] by (rewrite E; set_solver).
  pose proof (inv_free _ _ _ _ H) as Hf. rewrite Forall_forall in Hf. unfold bend in Hs.
  apply elem_of_cons in Hx' as [->|Hx']; apply elem_of_cons in Hy' as [->|Hy']; simpl in *.
  - lia.
  - destruct (Hf y Hy') as (_ & H2 & _). lia.
  - destruct (Hf x Hx') as (H2 & _ & _). lia.
  - destruct (Hf x Hx') as (H2 & _ & _). lia.
Qed.

(** ** The search of free *)

(** Where a block at [bp] goes: after [p], the last node below it. *)
Lemma split_at l bp : sorted ((base, 0) :: l) -> base < bp -> (forall x, x ∈ l -> fst x <> bp) ->
  Forall (fun x => 0 <= snd x) l ->
  exists L p R, (base, 0) :: l = L ++ p :: R /\ (forall x, x ∈ L -> fst x < bp) /\ fst p < bp /\ (forall x, x ∈ R -> bp < fst x).
Proof.
  intros Hs Hb Hne Hn. induction l as [|x l IH] using rev_ind.
  - exists [], (base, 0), []. split_and!; [done|set_solver|done|set_solver].
  - rewrite app_comm_cons in Hs. apply sorted_app in Hs as (Hs1 & _ & Hs2). apply Forall_app in Hn as [Hn Hx]. inversion Hx; subst.
    destruct (decide (fst x < bp)) as [Hlt|Hge].
    + exists ((base, 0) :: l), x, []. split_and!; [done| |done|set_solver]. intros y Hy. specialize (Hs2 y x Hy ltac:(set_solver)).
      assert (0 <= snd y) by (apply elem_of_cons in Hy as [->|Hy]; [simpl; lia|rewrite Forall_forall in Hn; auto]). unfold bend in Hs2. lia.
    + destruct IH as (L & p & R & E & H1' & H2' & H3'); [done|set_solver|done|]. exists L, p, (R ++ [x]).
      split_and!; [|done|done|]. { rewrite app_comm_cons, E, <- app_assoc. done. }
      intros y [Hy|Hy]%elem_of_app; [auto|]. apply list_elem_of_singleton in Hy as ->. assert (fst x <> bp) by set_solver. lia.
Qed.

Section Find.
Context (m : mem) (L R : list blk) (p : blk) (bp : Z).
Context (Hseg : seg m (L ++ p :: R) base).
Context (HL : forall x, x ∈ L -> base <= fst x < bp) (Hp : base <= fst p < bp) (HR : forall x, x ∈ R -> bp < fst x).
Context (Hsorted : forall l1 l2 x y, L ++ p :: R = l1 ++ l2 -> x ∈ l1 -> y ∈ l2 -> fst x < fst y).

Lemma find_at fuel : (0 < fuel)%nat -> free_find fuel m bp (fst p) = Some (fst p).
Proof.
  intros Hf. destruct fuel as [|k]; [lia|]. cbn [free_find]. apply links_app in Hseg as (_ & H1 & _). rewrite H1.
  destruct R as [|r R']; cbn [hda].
  - destruct (bp <? base) eqn:E; bool_to_prop; [lia|]. rewrite andb_false_r.
    destruct (fst p <? bp) eqn:E2; bool_to_prop; [|lia]. destruct (base <=? fst p) eqn:E3; bool_to_prop; [done|lia].
  - assert (bp < fst r) by (apply HR; set_solver). destruct (fst p <? bp) eqn:E2; bool_to_prop; [|lia].
    destruct (bp <? fst r) eqn:E3; bool_to_prop; [done|lia].
Qed.

Lemma find_below L1 L2 x fuel : L = L1 ++ x :: L2 -> (length L2 + 1 < fuel)%nat -> free_find fuel m bp (fst x) = Some (fst p).
Proof.
  revert L1 x fuel. induction L2 as [|y L2 IH]; intros L1 x fuel HLe Hf; (destruct fuel as [|k]; [simpl in Hf; lia|]); cbn [free_find].
  - assert (hptr m (fst x) = fst p) as ->. { rewrite HLe, <- app_assoc in Hseg. apply links_app in Hseg as (_ & H1 & _). done. }
    assert (fst x < fst p). { apply (Hsorted (L1 ++ [x]) (p :: R)); [rewrite HLe, <- app_assoc; done|set_solver|set_solver]. }
    destruct (bp <? fst p) eqn:E1; bool_to_prop; [lia|]. rewrite andb_false_r. destruct (fst p <=? fst x) eqn:E2; bool_to_prop; [lia|].
    cbn [andb]. apply find_at. simpl in Hf. lia.
  - assert (hptr m (fst x) = fst y) as ->. { rewrite HLe, <- app_assoc in Hseg. apply links_app in Hseg as (_ & H1 & _). done. }
    assert (fst x < fst y). { apply (Hsorted (L1 ++ [x]) (y :: L2 ++ p :: R)); [rewrite HLe, <- !app_assoc; done|set_solver|set_solver]. }
    assert (fst y < bp) by (apply HL; rewrite HLe; set_solver).
    destruct (bp <? fst y) eqn:E1; bool_to_prop; [lia|]. rewrite andb_false_r. destruct (fst y <=? fst x) eqn:E2; bool_to_prop; [lia|].
    cbn [andb]. apply (IH (L1 ++ [x])); [by rewrite <- app_assoc|simpl in Hf; lia].
Qed.

Lemma find_base fuel : hda (L ++ [p]) 0 = base -> (length L + 1 < fuel)%nat -> free_find fuel m bp base = Some (fst p).
Proof.
  intros Hb Hf. assert (L = [] \/ exists x L', L = x :: L') as [E|(x & L' & E)] by (clear; destruct L; naive_solver).
  - rewrite E in Hb. cbn [app hda] in Hb. rewrite <- Hb at 1. apply find_at. lia.
  - rewrite E in Hb. cbn [app hda] in Hb. rewrite <- Hb at 1. apply (find_below [] L' x); [done|]. apply (f_equal length) in E. simpl in E. lia.
Qed.

Lemma find_above R1 R2 x fuel : hda (L ++ [p]) 0 = base -> R = R1 ++ x :: R2 -> (length R2 + length L + 2 < fuel)%nat -> free_find fuel m bp (fst x) = Some (fst p).
Proof.
  intros Hb. revert R1 x fuel. induction R2 as [|y R2 IH]; intros R1 x fuel HRe Hf; (destruct fuel as [|k]; [simpl in Hf; lia|]); cbn [free_find];
    (assert (bp < fst x) by (apply HR; rewrite HRe; set_solver)); (destruct (fst x <? bp) eqn:E0; bool_to_prop; [lia|]); cbn [andb orb].
  - assert (hptr m (fst x) = base) as ->. { rewrite HRe in Hseg. rewrite app_comm_cons, app_assoc in Hseg. apply links_app in Hseg as (_ & H1 & _). done. }
    destruct (bp <? base) eqn:E1; bool_to_prop; [lia|]. rewrite andb_false_r. apply find_base; [done|simpl in Hf; lia].
  - assert (hptr m (fst x) = fst y) as ->. { rewrite HRe in Hseg. rewrite app_comm_cons, app_assoc in Hseg. apply links_app in Hseg as (_ & H1 & _). done. }
    assert (fst x < fst y). { apply (Hsorted (L ++ p :: R1 ++ [x]) (y :: R2)); [rewrite HRe; rewrite <- !app_assoc; cbn [app]; by rewrite <- app_assoc|set_solver|set_solver]. }
    destruct (fst y <=? fst x) eqn:E2; bool_to_prop; [lia|]. cbn [andb]. apply (IH (R1 ++ [x])); [by rewrite <- app_assoc|simpl in Hf; lia].
Qed.

(** The search ends at [p] from wherever [freep] points, after two rounds at most. *)
Lemma find_any x fuel : hda (L ++ [p]) 0 = base -> x ∈ (L ++ p :: R) -> (length (L ++ p :: R) + length L + 2 < fuel)%nat ->
  free_find fuel m bp (fst x) = Some (fst p).
Proof.
  intros Hb Hx Hf. rewrite length_app in Hf. cbn [length] in Hf. apply elem_of_app in Hx as [Hx|[->|Hx]%elem_of_cons].
  - apply list_elem_of_split in Hx as (L1 & L2 & E). apply (find_below L1 L2); [done|]. pose proof (f_equal length E) as Hl. rewrite length_app in Hl. cbn [length] in Hl. lia.
  - apply find_at. lia.
  - apply list_elem_of_split in Hx as (R1 & R2 & E). apply (find_above R1 R2); [done|done|]. pose proof (f_equal length E) as Hl. rewrite length_app in Hl. cbn [length] in Hl. lia.
Qed.

End Find.

(** ** Joining a block with its neighbours *)
Definition merge_next (x : blk) (R : list blk) : list blk :=
  match R with
  | r :: R' => if bend x =? fst r then (fst x, snd x + snd r) :: R' else x :: R
  | [] => [x]
  end.

Definition merge_prev (p : blk) (l : list blk) : list blk :=
  match l with
  | x :: l' => if bend p =? fst x then (fst p, snd p + snd x) :: l' else p :: l
  | [] => [p]
  end.

Lemma merge_next_head x R : exists n R', merge_next x R = (fst x, n) :: R'.
Proof. destruct x as [b n], R as [|r R']; simpl; [by eexists _, _|]. destruct (_ =? _); by eexists _, _. Qed.

Lemma merge_next_sorted x R : sorted R -> (forall y, y ∈ R -> bend x <= fst y) -> (forall y, y ∈ R -> 0 <= snd y) -> sorted (merge_next x R).
Proof.
  intros Hs Hx Hn. destruct R as [|r R']; cbn [merge_next]; [done|]. destruct Hs as [Hr Hs].
  assert (bend x <= fst r /\ 0 <= snd r) as [H1 H2] by (split; [apply Hx|apply Hn]; set_solver).
  rewrite Forall_forall in Hr. destruct (bend x =? fst r) eqn:E; bool_to_prop; cbn [sorted].
  - split; [|done]. apply Forall_forall. intros y Hy. specialize (Hr y Hy). unfold bend in *. simpl. lia.
  - split_and!; [|by apply Forall_forall|done]. apply Forall_forall. intros y [->|Hy]%elem_of_cons; [lia|]. specialize (Hr y Hy). unfold bend in *. lia.
Qed.

Lemma merge_prev_sorted L p l : sorted (L ++ [p]) -> sorted l -> (forall y z, y ∈ L ++ [p] -> z ∈ l -> bend y <= fst z) ->
  (forall y, y ∈ l -> 0 < snd y) -> 0 <= snd p -> sorted (L ++ merge_prev p l).
Proof.
  intros HL Hl Hyz Hn Hp. apply sorted_app in HL as (H1 & _ & H3).
  assert (forall y, y ∈ L -> bend y < fst p) as HLp by (intros; apply H3; set_solver).
  destruct l as [|x l']; cbn [merge_prev]; [apply sorted_app; split_and!; [done|done|intros y z Hy Hz; apply list_elem_of_singleton in Hz as ->; auto]|].
  destruct Hl as [Hx Hl]. rewrite Forall_forall in Hx. assert (0 < snd x) by (apply Hn; set_solver).
  assert (bend p <= fst x) by (apply Hyz; set_solver).
  assert (forall z, z ∈ l' -> bend x < fst z) as Hxz by auto.
  destruct (bend p =? fst x) eqn:E; bool_to_prop; apply sorted_app; cbn [sorted]; split_and!; try done.
  - apply Forall_forall. intros z Hz. specialize (Hxz z Hz). unfold bend in *. simpl. lia.
  - intros y z Hy [->|Hz]%elem_of_cons; specialize (HLp y Hy); [done|]. specialize (Hxz z Hz). unfold bend in *. simpl in *. lia.
  - apply Forall_forall. intros z [->|Hz]%elem_of_cons; [lia|]. specialize (Hxz z Hz). unfold bend in *. lia.
  - by apply Forall_forall.
  - intros y z Hy [->|[->|Hz]%elem_of_cons]%elem_of_cons; specialize (HLp y Hy); [done|unfold bend in *; lia|]. specialize (Hxz z Hz). unfold bend in *. lia.
Qed.

(** A property of blocks that joining preserves holds of the joined lists. *)
Lemma merge_next_Forall (P : blk -> Prop) x R :
  (forall a n k, P (a, n) -> P (a + 8 * n, k) -> P (a, n + k)) -> P x -> Forall P R -> Forall P (merge_next x R).
Proof.
  intros Hj Hx HR. destruct x as [b n], R as [|[r k] R']; cbn [merge_next fst snd]; [by constructor|]. inversion HR; subst.
  destruct (bend (b, n) =? r) eqn:E; bool_to_prop; [|by constructor]. constructor; [|done]. unfold bend in E. simpl in E. subst r. auto.
Qed.

Lemma merge_prev_Forall (P : blk -> Prop) p l :
  (forall a n k, P (a, n) -> P (a + 8 * n, k) -> P (a, n + k)) -> P p -> Forall P l -> Forall P (merge_prev p l).
Proof.
  intros Hj Hx Hl. destruct p as [b n], l as [|[r k] l']; cbn [merge_prev fst snd]; [by constructor|]. inversion Hl; subst.
  destruct (bend (b, n) =? r) eqn:E; bool_to_prop; [|by constructor]. constructor; [|done]. unfold bend in E. simpl in E. subst r. auto.
Qed.

Definition units (l : list blk) : Z := foldr (fun x acc => snd x + acc) 0 l.

Lemma merge_next_units x R : units (merge_next x R) = snd x + units R.
Proof. destruct R as [|r R']; [done|]. simpl. destruct (_ =? _); simpl; lia. Qed.

Lemma merge_prev_units p l : units (merge_prev p l) = snd p + units l.
Proof. destruct l as [|r l']; [done|]. simpl. destruct (_ =? _); simpl; lia. Qed.

Lemma join_next_spec m (p x : blk) (R : list blk) :
  hptr m (fst p) = hda R base -> hsize m (fst x) = snd x -> seg m R base ->
  apart (fst x) (fst p) -> (forall y, y ∈ R -> apart (fst x) (fst y)) ->
  base < fst x -> 0 < snd x -> (forall y, y ∈ R -> 0 <= snd y /\ bend y < 4294967296) -> bend x < 4294967296 ->
  seg (join_next (fst x) (fst p) m) (merge_next x R) base /\
  (forall b, ~ (fst x <= b < fst x + 8) -> ld8 (join_next (fst x) (fst p) m) b = ld8 m b).
Proof.
  intros Hp Hx HR Hap HaR Hb Hn Hbd Hbx.
  assert (forall v w, seg (set_ptr (fst x) v (set_size (fst x) w m)) R base) as Hfr1.
  { intros v w. eapply seg_frame; [|exact HR]. intros y b Hy Hyb. pose proof (HaR y Hy) as Ha. unfold apart in Ha. rewrite ld8_set_ptr, ld8_set_size by lia. done. }
  assert (forall v, seg (set_ptr (fst x) v m) R base) as Hfr2.
  { intros v. eapply seg_frame; [|exact HR]. intros y b Hy Hyb. pose proof (HaR y Hy) as Ha. unfold apart in Ha. rewrite ld8_set_ptr by lia. done. }
  unfold join_next, hadd, HSIZE. rewrite Hx, Hp. pose proof (ld32_range m (fst p)) as Hrp. fold (hptr m (fst p)) in Hrp. rewrite Hp in Hrp.
  rewrite (u32_small (fst x + 8 * snd x)) by (unfold bend in *; lia). destruct R as [|r R']; cbn [hda merge_next] in *.
  - destruct (_ =? base) eqn:E; bool_to_prop; [lia|]. cbn [seg hda]. rewrite hptr_set_ptr_eq, hsize_set_ptr_eq, Hx by lia. split; [done|]. intros b Hbb. by apply ld8_set_ptr.
  - destruct (Hbd r) as [Hr1 Hr2]; [set_solver|]. assert (apart (fst x) (fst r)) as Har by (apply HaR; set_solver). fold (bend x).
    destruct HR as (R1 & R2 & R3). destruct (bend x =? fst r) eqn:E; bool_to_prop.
    + rewrite (hptr_set_size_ne (fst x) (fst p)), Hp by done. rewrite (hptr_set_size_ne (fst x) (fst r)), R1, R2 by done.
      rewrite (u32_small (snd x + snd r)) by (unfold bend in *; lia). cbn [seg fst snd]. pose proof (ld32_range m (fst r)) as Hrr. fold (hptr m (fst r)) in Hrr. rewrite R1 in Hrr.
      rewrite hptr_set_ptr_eq, hsize_set_ptr_eq, hsize_set_size_eq by (unfold bend in *; lia). split.
      * split_and!; [done|done|]. destruct (Hfr1 (hda R' base) (snd x + snd r)) as (_ & _ & H3). exact H3.
      * intros b Hbb. rewrite ld8_set_ptr, ld8_set_size by done. done.
    + cbn [seg fst snd hda]. rewrite hptr_set_ptr_eq, hsize_set_ptr_eq, Hx by lia. split; [split_and!; [done|done|apply (Hfr2 (fst r))..]|]. intros b Hbb. by apply ld8_set_ptr.
Qed.

Lemma join_prev_spec m (p x : blk) (l : list blk) stop :
  hsize m (fst p) = snd p -> seg m (x :: l) stop ->
  apart (fst p) (fst x) -> (forall y, y ∈ l -> apart (fst p) (fst y)) ->
  0 < fst p -> 0 <= snd p -> 0 <= snd x -> bend p < 4294967296 -> bend x < 4294967296 -> 0 <= fst x ->
  seg (join_prev (fst x) (fst p) m) (merge_prev p (x :: l)) stop /\
  (forall b, ~ (fst p <= b < fst p + 8) -> ld8 (join_prev (fst x) (fst p) m) b = ld8 m b).
Proof.
  intros Hp (X1 & X2 & X3) Hap Hal Hp0 Hp1 Hx1 Hbp Hbx Hx0.
  assert (forall m', (forall b, ~ (fst p <= b < fst p + 8) -> ld8 m' b = ld8 m b) -> seg m' (x :: l) stop) as Hfr.
  { intros m' Hm'. eapply seg_frame; [|split_and!; [exact X1|exact X2|exact X3]]. intros y b Hy Hyb. apply Hm'.
    assert (apart (fst p) (fst y)) as Ha by (apply elem_of_cons in Hy as [->|Hy]; auto). unfold apart in Ha. lia. }
  unfold join_prev, hadd, HSIZE. rewrite Hp. rewrite (u32_small (fst p + 8 * snd p)) by (unfold bend in *; lia). fold (bend p). cbn [merge_prev].
  destruct (bend p =? fst x) eqn:E; bool_to_prop.
  - assert (forall b, ~ (fst p <= b < fst p + 8) -> ld8 (set_ptr (fst p) (hptr m (fst x)) (set_size (fst p) (u32 (snd p + hsize m (fst x))) m)) b = ld8 m b) as Hm'
      by (intros b Hbb; by rewrite ld8_set_ptr, ld8_set_size).
    rewrite hptr_set_size_ne by done. split; [|done]. destruct (Hfr _ Hm') as (_ & _ & H3). cbn [seg fst snd]. pose proof (ld32_range m (fst x)) as Hrx. fold (hptr m (fst x)) in Hrx.
    rewrite hptr_set_ptr_eq, hsize_set_ptr_eq, hsize_set_size_eq by (try apply u32_range; lia).
    rewrite X2, (u32_small (snd p + snd x)) by (unfold bend in *; lia). rewrite X2, (u32_small (snd p + snd x)) in H3 by (unfold bend in *; lia). done.
  - assert (forall b, ~ (fst p <= b < fst p + 8) -> ld8 (set_ptr (fst p) (fst x) m) b = ld8 m b) as Hm' by (intros b Hbb; by rewrite ld8_set_ptr).
    split; [|done]. pose proof (Hfr _ Hm') as H3. change (seg (set_ptr (fst p) (fst x) m) (p :: x :: l) stop) with
      (hptr (set_ptr (fst p) (fst x) m) (fst p) = fst x /\ hsize (set_ptr (fst p) (fst x) m) (fst p) = snd p /\ seg (set_ptr (fst p) (fst x) m) (x :: l) stop).
    rewrite hptr_set_ptr_eq, hsize_set_ptr_eq by (unfold bend in *; lia). done.
Qed.

(** ** free *)

(** The nodes after [x] has gone between [p] and [R]. *)
Definition inserted (L : list blk) (p x : blk) (R : list blk) : list blk := L ++ merge_prev p (merge_next x R).

Lemma merge_prev_head p l : hda (merge_prev p l) 0 = fst p /\ merge_prev p l <> [].
Proof. destruct l as [|x l]; simpl; [done|]. by destruct (_ =? _). Qed.

(** [base] stays in front. *)
Lemma inserted_base L p x R fl : (base, 0) :: fl = L ++ p :: R -> base < fst x -> exists fl', inserted L p x R = (base, 0) :: fl'.
Proof.
  intros E Hx. unfold inserted. destruct L as [|y L]; cbn [app] in *.
  - injection E as <- <-. destruct (merge_next_head x fl) as (n & R' & ->). cbn [merge_prev]. unfold bend. cbn [fst snd].
    destruct (_ =? _) eqn:E2; bool_to_prop; [lia|]. by eexists.
  - injection E as <- E. by eexists.
Qed.

Lemma inserted_Forall (P : blk -> Prop) L p x R :
  (forall a n k, P (a, n) -> P (a + 8 * n, k) -> P (a, n + k)) -> P x -> Forall P (L ++ p :: R) -> Forall P (inserted L p x R).
Proof.
  intros Hj Hx [HL HpR]%Forall_app. inversion HpR; subst. apply Forall_app. split; [done|].
  apply merge_prev_Forall; [done|done|]. by apply merge_next_Forall.
Qed.

Lemma inserted_units L p x R : units (inserted L p x R) = units (L ++ p :: R) + snd x.
Proof.
  unfold inserted. induction L as [|y L IH]; cbn [app]; [rewrite merge_prev_units, merge_next_units; simpl; lia|]. simpl. lia.
Qed.

Lemma inserted_length L p x R : (length (inserted L p x R) <= S (length (L ++ p :: R)))%nat.
Proof.
  unfold inserted. rewrite !length_app. enough (length (merge_prev p (merge_next x R)) <= S (S (length R)))%nat by (simpl; lia).
  destruct R as [|r R]; cbn [merge_next]; [|destruct (bend x =? fst r)]; cbn [merge_prev]; destruct (_ =? _); simpl; lia.
Qed.

(** The block that was freed is part of a free block. *)
Lemma inserted_fit L p x R : 0 <= snd p -> (forall y, y ∈ R -> 0 <= snd y) -> base < fst x -> exists y, y ∈ inserted L p x R /\ snd x <= snd y.
Proof.
  intros Hp HR Hx. assert (exists n R', merge_next x R = (fst x, n) :: R' /\ snd x <= n) as (n & R' & E & Hn).
  { destruct x as [b k], R as [|r R]; cbn [merge_next fst snd]; [by eexists _, _|]. specialize (HR r ltac:(set_solver)).
    destruct (_ =? _); eexists _, _; (split; [reflexivity|lia]). }
  unfold inserted. rewrite E. cbn [merge_prev]. destruct (_ =? _).
  - exists (fst p, snd p + n). split; [set_solver|simpl; lia].
  - exists (fst x, n). split; [set_solver|done].
Qed.

Section FreeStep.
Context (hi : Z) (h : heap) (fl al : list blk) (x : blk) (Hinv : inv hi h fl (x :: al)).

Lemma freed_facts : in_heap hi x /\ hsize (hmem h) (fst x) = snd x /\ (forall y, y ∈ fl -> disj x y) /\ base + 8 <= fst x.
Proof.
  pose proof (inv_live _ _ _ _ Hinv) as H. inversion H as [|? ? [H1 H2] _]; subst. split_and!; [done|done| |destruct H1; lia].
  intros y Hy. apply (inv_disj _ _ _ _ Hinv); set_solver.
Qed.

Lemma freed_split : exists L p R, (base, 0) :: fl = L ++ p :: R /\ (forall y, y ∈ L ++ [p] -> bend y <= fst x /\ fst y + 8 <= fst x) /\
  (forall y, y ∈ R -> bend x <= fst y /\ fst x + 8 <= fst y).
Proof.
  destruct freed_facts as ((Hx1 & Hx2 & Hx3) & _ & Hd & Hb). pose proof (inv_free _ _ _ _ Hinv) as Hf. rewrite Forall_forall in Hf.
  destruct (split_at fl (fst x)) as (L & p & R & E & H1 & H2 & H3).
  - by eapply nodes_sorted.
  - lia.
  - intros y Hy He. specialize (Hd y Hy). specialize (Hf y Hy) as (? & ? & ?). unfold disj, bend in *. lia.
  - apply Forall_forall. intros y Hy. specialize (Hf y Hy) as (? & ? & ?). lia.
  - exists L, p, R. split_and!; [done| |].
    + intros y Hy. assert (fst y < fst x) by (apply elem_of_app in Hy as [?|?%list_elem_of_singleton]; [auto|by subst]).
      assert (y ∈ (base, 0) :: fl) as Hy' by (rewrite E; set_solver). apply elem_of_cons in Hy' as [->|Hy']; [unfold bend; simpl; lia|].
      specialize (Hd y Hy'). specialize (Hf y Hy') as (? & ? & ?). unfold disj, bend in *. lia.
    + intros y Hy. specialize (H3 y Hy). assert (y ∈ (base, 0) :: fl) as Hy' by (rewrite E; set_solver).
      apply elem_of_cons in Hy' as [->|Hy']; [simpl in *; lia|]. specialize (Hd y Hy'). specialize (Hf y Hy') as (? & ? & ?). unfold disj, bend in *. lia.
Qed.

(** The memory after both joins. *)
Lemma freed_memory L p R : (base, 0) :: fl = L ++ p :: R ->
  (forall y, y ∈ L ++ [p] -> bend y <= fst x /\ fst y + 8 <= fst x) -> (forall y, y ∈ R -> bend x <= fst y /\ fst x + 8 <= fst y) ->
  let m := join_prev (fst x) (fst p) (join_next (fst x) (fst p) (hmem h)) in
  seg m (inserted L p x R) base /\
  (forall b, ~ (fst x <= b < fst x + 8) -> ~ (fst p <= b < fst p + 8) -> ld8 m b = ld8 (hmem h) b).
Proof.
  intros E HL HR. destruct freed_facts as ((Hx1 & Hx2 & Hx3) & Hxs & _ & Hb). cbv zeta.
  pose proof (inv_hi _ _ _ _ Hinv) as Hhi. pose proof (inv_seg _ _ _ _ Hinv) as Hseg. rewrite E in Hseg.
  assert (forall y, y ∈ L ++ p :: R -> base <= fst y /\ fst y < hi + 1 /\ 0 <= snd y /\ bend y <= hi) as Hnb by (intros y Hy; eapply nodes_bounds; [done|by rewrite E]).
  apply links_app in Hseg as (S1 & S2 & S3 & S4). destruct (HL p ltac:(set_solver)) as [Hp1 Hp2]. destruct (Hnb p ltac:(set_solver)) as (Hp3 & Hp4 & Hp5 & Hp6).
  destruct (join_next_spec (hmem h) p x R) as [J1 J2]; try done; try lia.
  { unfold apart. lia. }
  { intros y Hy. destruct (HR y Hy). unfold apart. lia. }
  { intros y Hy. destruct (Hnb y ltac:(set_solver)) as (_ & _ & ? & ?). lia. }
  set (m1 := join_next (fst x) (fst p) (hmem h)) in *.
  assert (Forall (fun y => 0 < snd y /\ bend y <= hi /\ fst p + 8 <= fst y) (merge_next x R)) as HF.
  { apply merge_next_Forall; [intros a n k; unfold bend; simpl; lia|lia|]. apply Forall_forall. intros y Hy. destruct (HR y Hy) as [_ ?].
    assert (y ∈ (base, 0) :: fl) as Hy' by (rewrite E; set_solver). apply elem_of_cons in Hy' as [->|Hy']; [simpl in *; lia|].
    pose proof (inv_free _ _ _ _ Hinv) as Hf. rewrite Forall_forall in Hf. destruct (Hf y Hy') as (? & ? & ?). lia. }
  destruct (merge_next_head x R) as (n' & R' & EM). rewrite EM in *. inversion HF as [|? ? (F1 & F2 & F3) HF']; subst. cbn [fst snd] in *.
  destruct (join_prev_spec m1 p (fst x, n') R' base) as [K1 K2]; cbn [fst snd]; try done; try lia.
  { destruct (hptr_same (hmem h) m1 (fst p)) as [_ ->]; [intros b Hbb; apply J2; lia|done]. }
  { unfold apart. lia. }
  { intros y Hy. rewrite Forall_forall in HF'. destruct (HF' y Hy) as (_ & _ & ?). unfold apart. lia. }
  cbn [fst] in K1, K2. unfold inserted. rewrite EM. split.
  - apply links_app. split; [|done]. assert (hda (merge_prev p ((fst x, n') :: R')) base = fst p) as -> by (cbn [merge_prev]; by destruct (_ =? _)).
    eapply seg_frame; [|exact S1]. intros y b Hy Hyb. destruct (HL y ltac:(set_solver)) as [_ ?].
    assert (fst y + 8 <= fst p) by (eapply (nodes_apart hi h fl (x :: al) L (p :: R)); [done|done|done|set_solver]). rewrite K2, J2 by lia. done.
  - intros b Hb1 Hb2. rewrite K2, J2 by done. done.
Qed.

Lemma join_disj w a n k : 0 < snd w -> disj w (a, n) -> disj w (a + 8 * n, k) -> disj w (a, n + k).
Proof. unfold disj, bend. simpl. lia. Qed.

(** What the invariant says of the other live blocks. *)
Lemma live_facts w : w ∈ al -> in_heap hi w /\ hsize (hmem h) (fst w) = snd w /\ disj w x /\ (forall y, y ∈ fl -> disj w y).
Proof.
  intros Hw. pose proof (inv_live _ _ _ _ Hinv) as Hl. rewrite Forall_forall in Hl. destruct (Hl w ltac:(set_solver)) as [H1 H2].
  pose proof (inv_live_disj _ _ _ _ Hinv) as Ho. inversion Ho as [|? ? Hxw _]; subst. rewrite Forall_forall in Hxw. specialize (Hxw w Hw).
  split_and!; [done|done|unfold disj in *; lia|]. intros y Hy. apply (inv_disj _ _ _ _ Hinv); set_solver.
Qed.

Section Placed.
Context (L R : list blk) (p : blk) (E : (base, 0) :: fl = L ++ p :: R).
Context (HL : forall y, y ∈ L ++ [p] -> bend y <= fst x /\ fst y + 8 <= fst x) (HR : forall y, y ∈ R -> bend x <= fst y /\ fst x + 8 <= fst y).

Lemma placed_bounds y : y ∈ L ++ p :: R -> base <= fst y /\ fst y < hi + 1 /\ 0 <= snd y /\ bend y <= hi.
Proof. intros Hy. eapply nodes_bounds; [exact Hinv|by rewrite E]. Qed.

Lemma above_free y : y ∈ R -> in_heap hi y.
Proof.
  intros Hy. destruct (HR y Hy). destruct freed_facts as (_ & _ & _ & Hb). assert (y ∈ (base, 0) :: fl) as Hy' by (rewrite E; set_solver).
  apply elem_of_cons in Hy' as [->|Hy']; [simpl in *; lia|]. pose proof (inv_free _ _ _ _ Hinv) as Hff. rewrite Forall_forall in Hff. auto.
Qed.

Definition freed_heap : heap := Heap (join_prev (fst x) (fst p) (join_next (fst x) (fst p) (hmem h))) (fst p) (brk h) (calls h).

Lemma freed_run fuel : (2 * length fl + 4 < fuel)%nat -> free fuel (hadd (fst x) 1) h = (Ret tt, freed_heap).
Proof.
  intros Hf. destruct freed_facts as ((Hx1 & Hx2 & Hx3) & _ & _ & Hb). pose proof (inv_hi _ _ _ _ Hinv) as Hhi. unfold free, hadd, HSIZE. unfold bend in Hx3.
  rewrite (u32_small (fst x + 8 * 1)) by lia. replace (fst x + 8 * 1 - 8) with (fst x) by lia. rewrite u32_small by lia.
  unfold bind at 1, get. pose proof (inv_freep _ _ _ _ Hinv) as Hfp. rewrite E in Hfp. apply list_elem_of_fmap in Hfp as (q & -> & Hq).
  rewrite (find_any (hmem h) L R p (fst x)); [done| | | | | | |done|].
  - rewrite <- E. apply Hinv.
  - intros y Hy. destruct (HL y ltac:(set_solver)). destruct (placed_bounds y ltac:(set_solver)). lia.
  - destruct (HL p ltac:(set_solver)). destruct (placed_bounds p ltac:(set_solver)). lia.
  - intros y Hy. destruct (HR y Hy). lia.
  - intros l1 l2 y z El Hy Hz. pose proof (nodes_apart _ _ _ _ l1 l2 y z Hinv ltac:(by rewrite E) Hy Hz). lia.
  - clear -E. destruct L; injection E as <- _; done.
  - rewrite <- E. pose proof (f_equal length E) as El. rewrite length_app in El. simpl in *. lia.
Qed.

Lemma freed_frame w b : w ∈ al -> fst w <= b < bend w -> ld8 (hmem freed_heap) b = ld8 (hmem h) b.
Proof.
  intros Hw Hwb. destruct (live_facts w Hw) as ((? & ? & ?) & _ & Hwx & Hwf). destruct freed_facts as ((? & ? & ?) & _).
  apply (freed_memory L p R E HL HR); unfold disj, bend in *; [lia|].
  assert (p ∈ (base, 0) :: fl) as Hp by (rewrite E; set_solver). apply elem_of_cons in Hp as [->|Hp]; [simpl; lia|].
  specialize (Hwf p Hp). pose proof (inv_free _ _ _ _ Hinv) as Hff. rewrite Forall_forall in Hff. destruct (Hff p Hp) as (? & ? & ?). unfold bend in *. lia.
Qed.

Lemma freed_nodes : Forall (fun y => y = (base, 0) \/ (in_heap hi y /\ forall w, w ∈ al -> disj w y)) (inserted L p x R).
Proof.
  apply inserted_Forall.
  - intros a n k [H1|[H1 H1']] [H2|[H2 H2']].
    + injection H1 as -> ->. injection H2 as _ ->. by left.
    + injection H1 as -> ->. destruct H2 as (_ & H2 & _). simpl in H2. lia.
    + injection H2 as H2 ->. destruct H1 as (H1 & H3 & _). simpl in *. lia.
    + right. split; [destruct H1 as (? & ? & ?), H2 as (? & ? & ?); unfold in_heap, bend in *; simpl in *; lia|].
      intros w Hw. apply join_disj; [by destruct (live_facts w Hw) as ((? & _) & _)|auto|auto].
  - right. split; [apply freed_facts|]. intros w Hw. by destruct (live_facts w Hw) as (_ & _ & ? & _).
  - rewrite <- E. constructor; [by left|]. pose proof (inv_free _ _ _ _ Hinv) as Hff. rewrite Forall_forall in *. intros y Hy. right. split; [auto|].
    intros w Hw. destruct (live_facts w Hw) as (_ & _ & _ & ?). auto.
Qed.

Lemma freed_sorted : sorted (inserted L p x R).
Proof.
  pose proof (nodes_sorted _ _ _ _ Hinv) as Hs. rewrite E in Hs. apply sorted_app in Hs as (Hs1 & [_ Hs5] & Hs3). apply merge_prev_sorted.
  - apply sorted_app. split_and!; [done|done|]. intros y z Hy Hz. apply Hs3; set_solver.
  - apply merge_next_sorted; [done|intros y Hy; by apply HR|intros y Hy; by apply placed_bounds; set_solver].
  - intros y z Hy Hz. assert (Forall (fun z => bend y <= fst z) (merge_next x R)) as HFz; [|rewrite Forall_forall in HFz; auto].
    destruct freed_facts as ((? & _) & _). apply merge_next_Forall; [intros a n k; simpl; lia|by apply HL|]. apply Forall_forall. intros z' Hz'. destruct (HR z' Hz'). destruct (HL y Hy). unfold bend in *. lia.
  - intros y Hy. assert (Forall (fun z => 0 < snd z) (merge_next x R)) as HFz; [|rewrite Forall_forall in HFz; auto].
    apply merge_next_Forall; [intros a n k; simpl; lia|apply freed_facts|]. apply Forall_forall. intros z' Hz'. by apply above_free.
  - apply placed_bounds. set_solver.
Qed.

Lemma freed_inv fl' : inserted L p x R = (base, 0) :: fl' -> inv hi freed_heap fl' al.
Proof.
  intros E'. pose proof freed_sorted as Hs. rewrite E' in Hs. destruct Hs as [Hs1 Hs2]. rewrite Forall_forall in Hs1.
  pose proof freed_nodes as HF. rewrite E' in HF. inversion HF as [|? ? _ HF']; subst. rewrite Forall_forall in HF'.
  assert (forall y, y ∈ fl' -> in_heap hi y /\ forall w, w ∈ al -> disj w y) as Hfl'.
  { intros y Hy. destruct (HF' y Hy) as [->|?]; [|done]. specialize (Hs1 _ Hy). unfold bend in Hs1. simpl in Hs1. lia. }
  constructor.
  - apply (inv_hi _ _ _ _ Hinv).
  - rewrite <- E'. apply (freed_memory L p R E HL HR).
  - done.
  - apply Forall_forall. intros y Hy. by apply Hfl'.
  - apply Forall_forall. intros w Hw. destruct (live_facts w Hw) as (H1 & H2 & _). split; [done|]. rewrite <- H2.
    destruct (hptr_same (hmem h) (hmem freed_heap) (fst w)) as [_ ->]; [|done].
    intros b Hbb. apply (freed_frame w); [done|]. destruct H1 as (? & ? & ?). unfold bend. lia.
  - rewrite <- E'. unfold inserted. rewrite fmap_app, elem_of_app. right. destruct (merge_prev_head p (merge_next x R)) as [Hh Hne].
    destruct (merge_prev p _) as [|q l]; [done|]. cbn [hda] in Hh. cbn [freed_heap freep]. rewrite <- Hh. set_solver.
  - intros w y Hw Hy. by apply Hfl'.
  - pose proof (inv_live_disj _ _ _ _ Hinv) as Ho. by inversion Ho.
Qed.

End Placed.

(** [free] returns, and the heap keeps its invariant without the block. *)
Lemma free_ok fuel : (2 * length fl + 4 < fuel)%nat ->
  exists h' fl', free fuel (hadd (fst x) 1) h = (Ret tt, h') /\ inv hi h' fl' al /\ brk h' = brk h /\ calls h' = calls h /\
    units fl' = units fl + snd x /\ (length fl' <= S (length fl))%nat /\ (exists y, y ∈ fl' /\ snd x <= snd y) /\
    (forall y b, y ∈ al -> fst y <= b < bend y -> ld8 (hmem h') b = ld8 (hmem h) b).
Proof.
  intros Hf. destruct freed_facts as ((Hx1 & _) & _ & _ & Hb). destruct freed_split as (L & p & R & E & HL & HR).
  destruct (inserted_base L p x R fl E ltac:(lia)) as [fl' E']. exists (freed_heap p), fl'.
  split_and!; [by apply (freed_run L R)|by apply (freed_inv L R)|done|done| | | |intros y b; by apply (freed_frame L R)].
  - pose proof (inserted_units L p x R) as Hu. rewrite E', <- E in Hu. simpl in Hu. lia.
  - pose proof (inserted_length L p x R) as Hu. rewrite E', <- E in Hu. simpl in Hu. lia.
  - destruct (inserted_fit L p x R) as (y & Hy & Hn); [by apply (placed_bounds L R p E); set_solver|intros y Hy; by apply (placed_bounds L R p E); set_solver|lia|].
    rewrite E' in Hy. apply elem_of_cons in Hy as [->|Hy]; [simpl in Hn; lia|]. by exists y.
Qed.

End FreeStep.

End Heap.
