(* ===== verification/UmallocRun.v ===== *)
(** * malloc, and runs of a program that allocates *)
From S2P Require Import Prelude Mem Umalloc UmallocInv.

Section Malloc.
Context (grant : nat -> bool) (base lo : Z) (Hbase : 0 < base) (Hlo : base + 8 <= lo).

(** ** Walking the free list *)
Fixpoint lasta (l : list blk) (d : Z) : Z := match l with [] => d | x :: l' => lasta l' (fst x) end.

Lemma lasta_snoc l x d : lasta (l ++ [x]) d = fst x.
Proof. revert d. induction l as [|y l IH]; intros d; [done|]. apply IH. Qed.

Lemma walk_skip V1 y V2 stop nunits fuel h : forall prev,
  seg (hmem h) (V1 ++ y :: V2) stop -> (forall z, z ∈ V1 -> snd z < nunits /\ fst z <> freep h) ->
  malloc_loop grant (length V1 + fuel) nunits prev (hda (V1 ++ [y]) 0) h = malloc_loop grant fuel nunits (lasta V1 prev) (fst y) h.
Proof.
  induction V1 as [|z V1 IH]; intros prev Hs Hz; [done|]. cbn [app hda length Nat.add malloc_loop lasta].
  destruct Hs as (H1 & H2 & H3). destruct (Hz z ltac:(set_solver)) as [Hz1 Hz2]. unfold bind at 1, get at 1. rewrite H2.
  destruct (nunits <=? snd z) eqn:E; bool_to_prop; [lia|]. destruct (fst z =? freep h) eqn:E2; bool_to_prop; [done|]. rewrite H1.
  assert (hda (V1 ++ y :: V2) stop = hda (V1 ++ [y]) 0) as -> by (by destruct V1). apply IH; [done|]. intros; apply Hz; set_solver.
Qed.

(** The free list from the block after [freep] round to [freep]. *)
Lemma rotation hi h fl al : inv base lo hi h fl al -> exists A f B, (base, 0) :: fl = A ++ f :: B /\ fst f = freep h /\
  (forall stop, stop = hda B base -> seg (hmem h) (B ++ A ++ [f]) stop) /\ hptr (hmem h) (freep h) = hda (B ++ A ++ [f]) 0.
Proof.
  intros Hi. pose proof (inv_freep _ _ _ _ _ _ Hi) as Hf. apply list_elem_of_fmap in Hf as (f & Hf & Hin).
  apply list_elem_of_split in Hin as (A & B & E). pose proof (inv_seg _ _ _ _ _ _ Hi) as Hs. rewrite E in Hs.
  apply links_app in Hs as (S1 & S2 & S3 & S4). exists A, f, B.
  assert (hda (A ++ [f]) (hda B base) = base) as Hb by (destruct A; injection E as <- _; done).
  split_and!; [done|done| |].
  - intros stop ->. apply links_app. split; [by rewrite Hb|]. apply links_app. done.
  - rewrite Hf, S2. destruct B; [|done]. cbn [app hda]. destruct A; injection E as <- _; done.
Qed.

(** The first block that fits, if there is one. *)
Lemma first_fit (n : Z) (W : list blk) : (exists V1 x V2, W = V1 ++ x :: V2 /\ (forall z, z ∈ V1 -> snd z < n) /\ n <= snd x) \/ (forall z, z ∈ W -> snd z < n).
Proof.
  induction W as [|x W [(V1 & y & V2 & -> & H1 & H2)|H]].
  - right. set_solver.
  - left. destruct (decide (n <= snd x)); [by exists [], x, (V1 ++ y :: V2); split_and!; [|set_solver|]|].
    exists (x :: V1), y, V2. split_and!; [done| |done]. intros z [->|Hz]%elem_of_cons; [lia|auto].
  - destruct (decide (n <= snd x)); [left; by exists [], x, W; split_and!; [|set_solver|]|]. right. intros z [->|Hz]%elem_of_cons; [lia|auto].
Qed.

(** Positions in the list of nodes are determined by addresses. *)
Lemma split_unique (l1 l2 r1 r2 : list blk) x y : sorted (l1 ++ x :: r1) -> (forall z, z ∈ l1 ++ x :: r1 -> 0 <= snd z) ->
  l1 ++ x :: r1 = l2 ++ y :: r2 -> fst x = fst y -> l1 = l2.
Proof.
  revert l2. induction l1 as [|a l1 IH]; intros [|b l2] Hs Hn E Hxy; cbn [app] in *; [done| | |].
  - injection E as -> ->. destruct Hs as [Hs _]. rewrite Forall_forall in Hs. specialize (Hs y ltac:(set_solver)).
    specialize (Hn b ltac:(set_solver)). unfold bend in Hs. lia.
  - injection E as -> <-. destruct Hs as [Hs _]. rewrite Forall_forall in Hs. specialize (Hs x ltac:(set_solver)).
    specialize (Hn y ltac:(set_solver)). unfold bend in Hs. lia.
  - injection E as -> E. f_equal. apply (IH l2); [by destruct Hs|set_solver|done|done].
Qed.

(** The node that points to a free block is the one before it. *)
Lemma predecessor hi h fl al x prev : inv base lo hi h fl al -> x ∈ fl -> prev ∈ (fst <$> (base, 0) :: fl) -> hptr (hmem h) prev = fst x ->
  exists L q R, (base, 0) :: fl = L ++ q :: x :: R /\ fst q = prev.
Proof.
  intros Hi Hx Hp Hptr. apply list_elem_of_fmap in Hp as (q & -> & Hq). apply list_elem_of_split in Hq as (P & Q & E).
  pose proof (inv_seg _ _ _ _ _ _ Hi) as Hs. rewrite E in Hs. apply links_app in Hs as (_ & S2 & _). rewrite Hptr in S2.
  pose proof (inv_free _ _ _ _ _ _ Hi) as Hf. rewrite Forall_forall in Hf. destruct (Hf x Hx) as (Hx1 & Hx2 & _).
  destruct Q as [|x' Q]; cbn [hda] in S2; [lia|]. exists P, q, Q. split; [|done]. rewrite E. do 2 f_equal.
  apply list_elem_of_split in Hx as (P2 & Q2 & E2).
  assert ((base, 0) :: P2 = P ++ [q]) as Hl.
  { pose proof (nodes_sorted base lo Hlo _ _ _ _ Hi) as Hso. rewrite E2 in Hso. apply (split_unique ((base, 0) :: P2) (P ++ [q]) Q2 Q x x'); [exact Hso| | |done].
    - intros z Hz. eapply (nodes_bounds base lo Hlo); [exact Hi|]. rewrite E2. exact Hz.
    - cbn [app]. rewrite <- E2, E, <- app_assoc. done. }
  rewrite E2, app_comm_cons, Hl, <- app_assoc in E. cbn [app] in E. apply app_inv_head in E. by injection E as -> _.
Qed.

(** ** Taking units from a block *)

Section Take.
Context (hi : Z) (h : heap) (fl al L R : list blk) (q x : blk) (nunits : Z).
Context (Hi : inv base lo hi h fl al) (E : (base, 0) :: fl = L ++ q :: x :: R) (Hn : 0 < nunits <= snd x).

Lemma take_list : exists F, L ++ [q] = (base, 0) :: F /\ fl = F ++ x :: R.
Proof.
  assert ((base, 0) :: fl = (L ++ [q]) ++ x :: R) as E2 by (by rewrite <- app_assoc).
  destruct (L ++ [q]) as [|y F] eqn:EL; [by destruct L|]. injection E2 as <- E2. by exists F.
Qed.

Lemma take_facts : in_heap lo hi x /\ x ∈ fl /\ fst q + 8 <= fst x /\ (forall y, y ∈ R -> bend x < fst y) /\
  (forall y, y ∈ L ++ [q] -> fst y + 8 <= fst x) /\ hptr (hmem h) (fst q) = fst x /\ hsize (hmem h) (fst x) = snd x /\ hptr (hmem h) (fst x) = hda R base.
Proof.
  destruct take_list as (F & E1 & E2). assert (x ∈ fl) as Hx by (rewrite E2; set_solver). pose proof (inv_free _ _ _ _ _ _ Hi) as Hf. rewrite Forall_forall in Hf.
  assert (forall y, y ∈ L ++ [q] -> fst y + 8 <= fst x) as Hlt.
  { intros y Hy. apply (nodes_apart base lo Hbase Hlo hi h fl al (L ++ [q]) (x :: R)); [done|by rewrite <- app_assoc|done|set_solver]. }
  pose proof (inv_seg _ _ _ _ _ _ Hi) as Hs. rewrite E in Hs. apply links_app in Hs as (_ & S2 & _ & S3 & S4 & _).
  split_and!; [auto|done|apply Hlt; set_solver| |done|done|done|done].
  intros y Hy. pose proof (inv_sorted _ _ _ _ _ _ Hi) as Hso. rewrite E2 in Hso. apply sorted_app in Hso as (_ & [Hso _] & _). rewrite Forall_forall in Hso. auto.
Qed.

(** The part of [x] that is taken away, and what stays in the list. *)
Context (h' : heap) (F Q : list blk) (a : Z).
Context (EF : L ++ [q] = (base, 0) :: F) (Efl : fl = F ++ x :: R).
Context (Ha : fst x <= a /\ a + 8 * nunits <= bend x).
Context (HQ : Q = R \/ exists k, Q = (fst x, k) :: R /\ 0 < k /\ fst x + 8 * k <= a).
Context (Hfreep : freep h' = fst q) (Hseg : seg (hmem h') ((base, 0) :: F ++ Q) base) (Hsize : hsize (hmem h') a = nunits).
Context (Hframe : forall w b, w ∈ al -> fst w <= b < bend w -> ld8 (hmem h') b = ld8 (hmem h) b).

Lemma rest_facts y : y ∈ F ++ Q -> in_heap lo hi y /\ (disj (a, nunits) y) /\ (forall w, w ∈ al -> disj w y).
Proof.
  pose proof (inv_free _ _ _ _ _ _ Hi) as Hf. rewrite Forall_forall in Hf. destruct take_facts as ((? & ? & ?) & Hx & _ & HR & _).
  pose proof (inv_sorted _ _ _ _ _ _ Hi) as Hso. rewrite Efl in Hso. apply sorted_app in Hso as (_ & _ & Hso).
  intros Hy. assert (y ∈ F \/ y ∈ R \/ (fst y = fst x /\ 0 < snd y /\ bend y <= a)) as [Hy'|[Hy'|(Hy1 & Hy2 & Hy3)]].
  { apply elem_of_app in Hy as [Hy|Hy]; [by left|]. destruct HQ as [->|(k & -> & Hk1 & Hk2)]; [by right; left|].
    apply elem_of_cons in Hy as [->|Hy]; [right; right; unfold bend; simpl; lia|by right; left]. }
  - assert (y ∈ fl) as Hyf by (rewrite Efl; set_solver). split_and!; [auto| |intros w Hw; apply (inv_disj _ _ _ _ _ _ Hi); done].
    specialize (Hso y x Hy' ltac:(set_solver)). unfold disj, bend in *. simpl. lia.
  - assert (y ∈ fl) as Hyf by (rewrite Efl; set_solver). split_and!; [auto| |intros w Hw; apply (inv_disj _ _ _ _ _ _ Hi); done].
    specialize (HR y Hy'). unfold disj, bend in *. simpl. lia.
  - split_and!; [unfold in_heap, bend in *; lia|unfold disj, bend in *; simpl; lia|].
    intros w Hw. pose proof (inv_disj _ _ _ _ _ _ Hi w x Hw Hx) as Hd. unfold disj, bend in *. lia.
Qed.

Lemma take_inv : inv base lo hi h' (F ++ Q) ((a, nunits) :: al).
Proof.
  destruct take_facts as ((? & ? & ?) & Hx & _ & HR & _). pose proof (inv_sorted _ _ _ _ _ _ Hi) as Hso. rewrite Efl in Hso. apply sorted_app in Hso as (So1 & [So2 So3] & So4).
  constructor.
  - apply Hi.
  - done.
  - apply sorted_app. split_and!; [done| |].
    + destruct HQ as [->|(k & -> & Hk1 & Hk2)]; [done|]. cbn [sorted]. split; [|done]. apply Forall_forall. intros y Hy. specialize (HR y Hy). unfold bend in *. simpl. lia.
    + intros y z Hy Hz. destruct HQ as [->|(k & -> & Hk1 & Hk2)]; [apply So4; set_solver|].
      apply elem_of_cons in Hz as [->|Hz]; [specialize (So4 y x Hy ltac:(set_solver)); done|apply So4; set_solver].
  - apply Forall_forall. intros y Hy. by apply rest_facts.
  - constructor; [split; [unfold in_heap, bend in *; simpl; lia|done]|]. pose proof (inv_live _ _ _ _ _ _ Hi) as Hl. rewrite Forall_forall in *.
    intros w Hw. destruct (Hl w Hw) as [Hw1 Hw2]. split; [done|]. rewrite <- Hw2. destruct Hw1 as (? & ? & ?).
    destruct (hptr_same (hmem h) (hmem h') (fst w)) as [_ ->]; [|done]. intros b Hb. apply (Hframe w); [done|]. unfold bend. lia.
  - rewrite Hfreep. rewrite app_comm_cons, fmap_app, <- EF. set_solver.
  - intros w y [->|Hw]%elem_of_cons Hy; destruct (rest_facts y Hy) as (_ & ? & ?); auto.
  - constructor; [|apply Hi]. apply Forall_forall. intros w Hw. pose proof (inv_disj _ _ _ _ _ _ Hi w x Hw Hx) as Hd. unfold disj, bend in *. simpl. lia.
Qed.

End Take.

(** What taking a block does. *)
Definition taken (hi : Z) (h : heap) (fl al : list blk) (nunits : Z) (r : outcome Z * heap) : Prop :=
  exists h' fl' a, r = (Ret (hadd a 1), h') /\ inv base lo hi h' fl' ((a, nunits) :: al) /\
    brk h' = brk h /\ calls h' = calls h /\ units fl = units fl' + nunits /\ (length fl' <= length fl)%nat /\
    (forall y b, y ∈ al -> fst y <= b < bend y -> ld8 (hmem h') b = ld8 (hmem h) b).

Section TakeRuns.
Context (hi : Z) (h : heap) (fl al L R : list blk) (q x : blk) (nunits : Z).
Context (Hi : inv base lo hi h fl al) (E : (base, 0) :: fl = L ++ q :: x :: R) (Hn : 0 < nunits <= snd x).

Lemma live_apart_q w b : w ∈ al -> fst w <= b < bend w -> ~ (fst q <= b < fst q + 8).
Proof.
  intros Hw Hwb. pose proof (inv_live _ _ _ _ _ _ Hi) as Hl. rewrite Forall_forall in Hl. destruct (Hl w Hw) as [(? & ? & ?) _].
  assert (q ∈ (base, 0) :: fl) as Hq by (rewrite E; set_solver). apply elem_of_cons in Hq as [->|Hq]; [simpl; lia|].
  pose proof (inv_free _ _ _ _ _ _ Hi) as Hf. rewrite Forall_forall in Hf. destruct (Hf q Hq) as (? & ? & ?).
  pose proof (inv_disj _ _ _ _ _ _ Hi w q Hw Hq) as Hd. unfold disj, bend in *. lia.
Qed.

Lemma unlinked_seg : let m := set_ptr (fst q) (hda R base) (hmem h) in seg m (L ++ q :: R) base.
Proof.
  destruct (take_facts hi h fl al L R q x nunits Hi E Hn) as ((Hx1 & _) & _ & Hqx & HR & HL & P1 & P2 & P3).
  pose proof (inv_seg _ _ _ _ _ _ Hi) as Hs. rewrite E in Hs. apply links_app in Hs as (S1 & _ & S3 & _ & _ & S4). cbv zeta. apply links_app. cbn [seg hda].
  pose proof (ld32_range (hmem h) (fst x)) as Hr. fold (hptr (hmem h) (fst x)) in Hr. rewrite P3 in Hr. rewrite hptr_set_ptr_eq, hsize_set_ptr_eq by lia.
  split; [|split_and!; [done|done|]].
  - eapply seg_frame; [|exact S1]. intros y b Hy Hyb. apply ld8_set_ptr.
    assert (fst y + 8 <= fst q) by (apply (nodes_apart base lo Hbase Hlo hi h fl al L (q :: x :: R)); [done|done|done|set_solver]). lia.
  - eapply seg_frame; [|exact S4]. intros y b Hy Hyb. apply ld8_set_ptr. specialize (HR y Hy). unfold bend in *. lia.
Qed.

Lemma take_exact : snd x = nunits -> taken hi h fl al nunits (take_block nunits (fst q) (fst x) h).
Proof.
  intros En. destruct (take_list fl L R q x E) as (F & EF & Efl).
  destruct (take_facts hi h fl al L R q x nunits Hi E Hn) as ((Hx1 & Hx2 & Hx3) & Hx & Hqx & HR & HL & P1 & P2 & P3).
  unfold take_block. unfold bind at 1, get at 1. rewrite P2. destruct (snd x =? nunits) eqn:En2; bool_to_prop; [|done].
  unfold bind, modify, ret, with_freep, with_mem; cbn [hmem freep brk calls]. rewrite P3. eexists _, (F ++ R), (fst x). split; [reflexivity|].
  assert (forall w b, w ∈ al -> fst w <= b < bend w -> ld8 (set_ptr (fst q) (hda R base) (hmem h)) b = ld8 (hmem h) b) as Hfr
    by (intros w b Hw Hwb; by apply ld8_set_ptr, (live_apart_q w)).
  split; [|split_and!; [done|done| |rewrite Efl, !length_app; simpl; lia|exact Hfr]].
  - apply (take_inv hi h fl al L R q x nunits Hi E Hn _ F R); [done|done|unfold bend; lia|by left|done| | |exact Hfr]; cbn [hmem].
    + rewrite app_comm_cons, <- EF, <- app_assoc. apply unlinked_seg.
    + rewrite hsize_set_ptr_ne by (unfold apart; lia). lia.
  - rewrite Efl. clear -En. induction F as [|y F IH]; simpl; lia.
Qed.

Lemma take_split : snd x <> nunits -> taken hi h fl al nunits (take_block nunits (fst q) (fst x) h).
Proof.
  intros En. destruct (take_list fl L R q x E) as (F & EF & Efl). pose proof (inv_hi _ _ _ _ _ _ Hi) as Hhi.
  destruct (take_facts hi h fl al L R q x nunits Hi E Hn) as ((Hx1 & Hx2 & Hx3) & Hx & Hqx & HR & HL & P1 & P2 & P3).
  pose proof (inv_seg _ _ _ _ _ _ Hi) as Hs. rewrite E in Hs. change (L ++ q :: x :: R) with (L ++ [q] ++ x :: R) in Hs. rewrite app_assoc in Hs.
  apply links_app in Hs as (S1 & S2a & S2b & S2c). unfold bend in Hx3.
  unfold take_block. unfold bind at 1, get at 1. rewrite P2. destruct (snd x =? nunits) eqn:En2; bool_to_prop; [done|].
  unfold bind, modify, get, ret, with_freep, with_mem; cbn [hmem freep brk calls].
  rewrite (u32_small (snd x - nunits)) by lia. rewrite hsize_set_size_eq by lia.
  set (a := hadd (fst x) (snd x - nunits)). assert (a = fst x + 8 * (snd x - nunits)) as Ha by (unfold a, hadd, HSIZE; apply u32_small; lia).
  eexists _, (F ++ (fst x, snd x - nunits) :: R), a. split; [reflexivity|].
  assert (forall b, ~ (fst x <= b < fst x + 8) -> ~ (a <= b < a + 8) -> ld8 (set_size a nunits (set_size (fst x) (snd x - nunits) (hmem h))) b = ld8 (hmem h) b) as Hf0
    by (intros b Hb1 Hb2; by rewrite !ld8_set_size).
  assert (forall w b, w ∈ al -> fst w <= b < bend w -> ld8 (set_size a nunits (set_size (fst x) (snd x - nunits) (hmem h))) b = ld8 (hmem h) b) as Hfr.
  { intros w b Hw Hwb. pose proof (inv_disj _ _ _ _ _ _ Hi w x Hw Hx) as Hd. unfold disj, bend in *. apply Hf0; lia. }
  split; [|split_and!; [done|done| |rewrite Efl, !length_app; simpl; lia|exact Hfr]].
  - apply (take_inv hi h fl al L R q x nunits Hi E Hn _ F _); [done|done|unfold bend; lia|right; eexists; split_and!; [reflexivity|lia|lia]|done| | |exact Hfr]; cbn [hmem].
    + rewrite app_comm_cons, <- EF. apply links_app. split.
      * cbn [hda fst]. eapply seg_frame; [|exact S1]. intros y b Hy Hyb. specialize (HL y Hy). apply Hf0; lia.
      * cbn [seg fst snd]. rewrite hptr_set_size_ne, hptr_set_size_eq by (unfold apart; lia). rewrite hsize_set_size_ne, hsize_set_size_eq by (unfold apart in *; lia).
        split_and!; [done|done|]. eapply seg_frame; [|exact S2c]. intros y b Hy Hyb. specialize (HR y Hy). unfold bend in *. apply Hf0; lia.
    + apply hsize_set_size_eq. lia.
  - rewrite Efl. clear. induction F as [|y F IH]; simpl; lia.
Qed.

Lemma take_ok : taken hi h fl al nunits (take_block nunits (fst q) (fst x) h).
Proof. destruct (decide (snd x = nunits)); [by apply take_exact|by apply take_split]. Qed.

End TakeRuns.

(** ** The loop of malloc *)
Lemma rotated_apart hi h fl al A f B z : inv base lo hi h fl al -> (base, 0) :: fl = A ++ f :: B -> z ∈ B ++ A -> fst z <> fst f.
Proof.
  intros Hi E [Hz|Hz]%elem_of_app.
  - enough (fst f + 8 <= fst z) by lia. apply (nodes_apart base lo Hbase Hlo hi h fl al (A ++ [f]) B); [done|by rewrite <- app_assoc|set_solver|done].
  - enough (fst z + 8 <= fst f) by lia. apply (nodes_apart base lo Hbase Hlo hi h fl al A (f :: B)); [done|done|done|set_solver].
Qed.

(** A block that fits is found before the loop asks for more memory. *)
Lemma loop_fit hi h fl al nunits fuel : inv base lo hi h fl al -> 0 < nunits -> (exists y, y ∈ fl /\ nunits <= snd y) -> (length fl + 1 < fuel)%nat ->
  taken hi h fl al nunits (malloc_loop grant fuel nunits (freep h) (hptr (hmem h) (freep h)) h).
Proof.
  intros Hi Hn (y & Hy & Hny) Hf. destruct (rotation _ _ _ _ Hi) as (A & f & B & E & Hff & HW & Hp). specialize (HW _ eq_refl).
  assert (forall z, z ∈ B ++ A ++ [f] <-> z ∈ (base, 0) :: fl) as Hmem by (intros z; rewrite E; set_solver).
  destruct (first_fit nunits (B ++ A ++ [f])) as [(V1 & x & V2 & EW & H1 & H2)|Hno].
  2:{ exfalso. specialize (Hno y ltac:(apply Hmem; set_solver)). lia. }
  assert (length V1 <= length (B ++ A))%nat as HlV.
  { apply (f_equal length) in EW. rewrite !length_app in EW. rewrite length_app. simpl in EW. lia. }
  assert (forall z, z ∈ V1 -> z ∈ B ++ A) as Hsub.
  { intros z Hz. apply list_elem_of_lookup in Hz as [i Hz]. apply list_elem_of_lookup. exists i. pose proof (lookup_lt_Some _ _ _ Hz).
    rewrite <- (lookup_app_l (B ++ A) [f]) by lia. rewrite <- app_assoc, EW, lookup_app_l by lia. done. }
  assert (length (B ++ A) = length fl) as Hlen.
  { apply (f_equal length) in E. rewrite !length_app in *. simpl in E. lia. }
  rewrite EW in HW. rewrite Hp, EW. assert (hda (V1 ++ x :: V2) 0 = hda (V1 ++ [x]) 0) as -> by (by destruct V1).
  replace fuel with (length V1 + S (fuel - S (length V1)))%nat by lia. rewrite (walk_skip V1 x V2 _ _ _ _ _ HW).
  2:{ intros z Hz. split; [auto|]. rewrite <- Hff. eapply rotated_apart; [done|done|auto]. }
  cbn [malloc_loop]. unfold bind at 1, get at 1. apply links_app in HW as HW'. destruct HW' as (_ & _ & Hsz & _). rewrite Hsz.
  destruct (nunits <=? snd x) eqn:Ex; bool_to_prop; [|lia].
  assert (x ∈ fl) as Hxf. { assert (x ∈ (base, 0) :: fl) as Hx by (apply Hmem; rewrite EW; set_solver). apply elem_of_cons in Hx as [->|Hx]; [simpl in *; lia|done]. }
  destruct (predecessor hi h fl al x (lasta V1 (freep h)) Hi Hxf) as (L & q & R & EL & Hq).
  - destruct V1 as [|v V1 _] using rev_ind; [apply Hi|]. rewrite lasta_snoc. apply list_elem_of_fmap. exists v. split; [done|]. apply Hmem. rewrite EW. set_solver.
  - destruct V1 as [|v V1 _] using rev_ind; [cbn [lasta]; rewrite Hp, EW; done|]. rewrite lasta_snoc. rewrite <- app_assoc in HW.
    apply links_app in HW as (_ & HW & _). done.
  - rewrite <- Hq. by apply (take_ok hi h fl al L R q x).
Qed.

(** When nothing fits, the loop comes to [freep]. *)
Lemma loop_nofit hi h fl al nunits fuel : inv base lo hi h fl al -> 0 < nunits -> (forall y, y ∈ fl -> snd y < nunits) ->
  exists prev, malloc_loop grant (length fl + fuel) nunits (freep h) (hptr (hmem h) (freep h)) h = malloc_loop grant fuel nunits prev (freep h) h /\ hsize (hmem h) (freep h) < nunits.
Proof.
  intros Hi Hn Hno. destruct (rotation _ _ _ _ Hi) as (A & f & B & E & Hff & HW & Hp). specialize (HW _ eq_refl).
  assert (length (B ++ A) = length fl) as Hlen.
  { apply (f_equal length) in E. rewrite !length_app in *. simpl in E. lia. }
  assert (forall z, z ∈ B ++ A ++ [f] -> snd z < nunits) as Hall.
  { intros z Hz. assert (z ∈ (base, 0) :: fl) as Hz' by (rewrite E; set_solver). apply elem_of_cons in Hz' as [->|Hz']; [simpl; lia|auto]. }
  rewrite app_assoc in HW, Hp. exists (lasta (B ++ A) (freep h)). split.
  - rewrite <- Hlen, Hp. rewrite (walk_skip (B ++ A) f [] _ _ _ _ _ HW); [by rewrite Hff|].
    intros z Hz. split; [apply Hall; set_solver|]. rewrite <- Hff. by eapply rotated_apart.
  - rewrite <- Hff. apply links_app in HW as (_ & _ & -> & _). apply Hall. set_solver.
Qed.

(** ** More memory *)
Definition core_units (nu : Z) : Z := if nu <? 4096 then 4096 else nu.

Lemma inv_grow hi h fl al nu n : inv base lo hi h fl al -> hi + 8 * nu < 4294967296 -> 0 < nu ->
  inv base lo (hi + 8 * nu) (Heap (set_size hi nu (hmem h)) (freep h) (hi + 8 * nu) n) fl ((hi, nu) :: al).
Proof.
  intros Hi Hb Hnu. pose proof (inv_hi _ _ _ _ _ _ Hi) as Hhi. pose proof (inv_free _ _ _ _ _ _ Hi) as Hf. pose proof (inv_live _ _ _ _ _ _ Hi) as Hl. rewrite Forall_forall in Hf, Hl.
  assert (forall b, b < hi -> ld8 (set_size hi nu (hmem h)) b = ld8 (hmem h) b) as Hfr by (intros b Hlt; apply ld8_set_size; lia).
  constructor; cbn [hmem freep].
  - lia.
  - eapply seg_frame; [|apply Hi]. intros y b [->|Hy]%elem_of_cons Hyb; apply Hfr; [simpl in *; lia|]. destruct (Hf y Hy) as (? & ? & ?). unfold bend in *. lia.
  - apply Hi.
  - apply Forall_forall. intros y Hy. destruct (Hf y Hy) as (? & ? & ?). unfold in_heap. lia.
  - constructor; [split; [unfold in_heap, bend; simpl; lia|cbn [fst snd]; apply hsize_set_size_eq; lia]|]. apply Forall_forall. intros w Hw. destruct (Hl w Hw) as [(? & ? & ?) Hs].
    split; [unfold in_heap; lia|]. rewrite <- Hs. destruct (hptr_same (hmem h) (set_size hi nu (hmem h)) (fst w)) as [_ ->]; [|done].
    intros b Hwb. apply Hfr. unfold bend in *. lia.
  - apply Hi.
  - intros w y [->|Hw]%elem_of_cons Hy; [|by apply (inv_disj _ _ _ _ _ _ Hi)]. destruct (Hf y Hy) as (? & ? & ?). unfold disj, bend in *. simpl. lia.
  - constructor; [|apply Hi]. apply Forall_forall. intros w Hw. destruct (Hl w Hw) as [(? & ? & ?) _]. unfold disj, bend in *. simpl. lia.
Qed.

(** The bytes of live blocks are left alone. *)
Definition same_live (al : list blk) (h h' : heap) : Prop := forall y b, y ∈ al -> fst y <= b < bend y -> ld8 (hmem h') b = ld8 (hmem h) b.

Lemma morecore_run nunits fuel h : 0 < nunits -> 8 * core_units nunits < 2147483648 ->
  morecore grant fuel nunits h =
    (if grant (calls h) && (brk h + 8 * core_units nunits <=? HEAP_MAX) then
       if brk h =? 4294967295 then (Ret 0, Heap (hmem h) (freep h) (brk h + 8 * core_units nunits) (S (calls h)))
       else (free fuel (hadd (brk h) 1) ;; gets freep) (Heap (set_size (brk h) (core_units nunits) (hmem h)) (freep h) (brk h + 8 * core_units nunits) (S (calls h)))
     else (Ret 0, Heap (hmem h) (freep h) (brk h) (S (calls h)))).
Proof.
  intros Hn Hs. assert (0 < core_units nunits) by (unfold core_units; destruct (_ <? _) eqn:Ec; bool_to_prop; lia).
  unfold morecore. fold (core_units nunits). cbv zeta. unfold HSIZE. replace (core_units nunits * 8) with (8 * core_units nunits) by lia.
  rewrite (u32_small (8 * core_units nunits)), s32_small by lia. unfold bind at 1, sbrk. destruct (_ && _); [|done].
  by destruct (brk h =? 4294967295).
Qed.

(** Asking the kernel: nothing changes, or the free list gets a block that fits. *)
Lemma morecore_ok h fl al nunits fuel : inv base lo (brk h) h fl al -> brk h <= HEAP_MAX -> 0 < nunits -> 8 * core_units nunits < 2147483648 ->
  (2 * length fl + 4 < fuel)%nat ->
  (exists n, morecore grant fuel nunits h = (Ret 0, Heap (hmem h) (freep h) (brk h) n)) \/
  (exists h' fl', morecore grant fuel nunits h = (Ret (freep h'), h') /\ inv base lo (brk h') h' fl' al /\ brk h <= brk h' <= HEAP_MAX /\
    (length fl' <= S (length fl))%nat /\ (exists y, y ∈ fl' /\ nunits <= snd y) /\ same_live al h h').
Proof.
  intros Hi Hbk Hn Hs Hf. rewrite morecore_run by done. destruct (grant _ && _) eqn:Eg; [|left; by eexists]. right. bool_to_prop. unfold HEAP_MAX in *.
  destruct (brk h =? 4294967295) eqn:Eb; bool_to_prop; [lia|].
  assert (nunits <= core_units nunits /\ 0 < core_units nunits) as [Hc1 Hc2] by (unfold core_units; destruct (_ <? _) eqn:Ec; bool_to_prop; lia).
  pose proof (inv_grow (brk h) h fl al (core_units nunits) (S (calls h)) Hi ltac:(lia) Hc2) as Hg.
  destruct (free_ok base lo Hbase Hlo _ _ _ _ _ Hg fuel Hf) as (h' & fl' & H1 & H2 & H3 & H4 & H5 & H6 & (y & Hy & Hyn) & H7). cbn [fst snd brk] in *.
  rewrite (bind_Ret _ _ _ _ _ H1). exists h', fl'. rewrite H3. split_and!; [done|done|lia|lia|done|exists y; split; [done|lia]|].
  intros w b Hw Hwb. rewrite (H7 w b Hw Hwb). cbn [hmem]. apply ld8_set_size. pose proof (inv_live _ _ _ _ _ _ Hi) as Hl. rewrite Forall_forall in Hl. destruct (Hl w Hw) as [(? & ? & ?) _]. lia.
Qed.

Lemma nodes_positive hi h fl al : inv base lo hi h fl al -> 0 < freep h < 4294967296.
Proof.
  intros Hi. pose proof (inv_freep _ _ _ _ _ _ Hi) as Hf. apply list_elem_of_fmap in Hf as (f & -> & Hf).
  pose proof (nodes_bounds base lo Hlo _ _ _ _ f Hi Hf). pose proof (inv_hi _ _ _ _ _ _ Hi). unfold bend in *. lia.
Qed.

(** What [malloc] promises: a block of its own, or the null pointer. *)
Definition malloc_post (h : heap) (fl al : list blk) (nunits : Z) (r : outcome Z * heap) : Prop :=
  exists h' fl', brk h <= brk h' <= HEAP_MAX /\ (length fl' <= S (length fl))%nat /\ same_live al h h' /\
    ((r = (Ret 0, h') /\ inv base lo (brk h') h' fl' al) \/
     (exists a, r = (Ret (hadd a 1), h') /\ inv base lo (brk h') h' fl' ((a, nunits) :: al))).

Lemma loop_ok h fl al nunits fuel : inv base lo (brk h) h fl al -> brk h <= HEAP_MAX -> 0 < nunits -> 8 * core_units nunits < 2147483648 ->
  (4 * length fl + 12 < fuel)%nat ->
  malloc_post h fl al nunits (malloc_loop grant fuel nunits (freep h) (hptr (hmem h) (freep h)) h).
Proof.
  intros Hi Hbk Hn Hs Hf. destruct (first_fit nunits fl) as [(V1 & x & V2 & Efl & _ & Hx)|Hno].
  { destruct (loop_fit (brk h) h fl al nunits fuel Hi Hn) as (h' & fl' & b & H1 & H2 & H3 & H4 & H5 & H6 & H7); [exists x; split; [rewrite Efl; set_solver|done]|lia|].
    exists h', fl'. rewrite H3. split_and!; [lia|done|lia|done|]. right. by exists b. }
  destruct (loop_nofit (brk h) h fl al nunits (fuel - length fl) Hi Hn Hno) as (prev & Hloop & Hsz).
  replace (length fl + (fuel - length fl))%nat with fuel in Hloop by lia. rewrite Hloop. clear Hloop.
  destruct (fuel - length fl)%nat as [|k] eqn:Ek; [lia|]. cbn [malloc_loop]. unfold bind at 1, get at 1.
  destruct (nunits <=? hsize (hmem h) (freep h)) eqn:E1; bool_to_prop; [lia|]. rewrite Z.eqb_refl.
  destruct (morecore_ok h fl al nunits (S k) Hi Hbk Hn Hs) as [(n & Hm)|(h' & fl' & M1 & M2 & M3 & M6 & M7 & M8)]; [lia| |].
  - rewrite (bind_Ret _ _ _ _ _ Hm), Z.eqb_refl. exists (Heap (hmem h) (freep h) (brk h) n), fl. split_and!; [cbn; lia|done|lia|done|]. left. split; [done|].
    cbn [brk]. destruct Hi. by constructor.
  - rewrite (bind_Ret _ _ _ _ _ M1). pose proof (nodes_positive _ _ _ _ M2). destruct (freep h' =? 0) eqn:E2; bool_to_prop; [lia|].
    unfold bind at 1, get at 1. destruct (loop_fit (brk h') h' fl' al nunits k M2 Hn M7) as (h2 & fl2 & b & H1 & H2 & H3 & H4 & H5 & H6 & H7); [lia|].
    exists h2, fl2. rewrite H3. split_and!; [lia|lia|lia| |right; by exists b].
    intros y c Hy Hyc. by rewrite (H7 y c Hy Hyc), (M8 y c Hy Hyc).
Qed.

(** ** Runs of a program *)

(** The largest request considered. *)
Definition MAXREQ : Z := 1073741824.

Lemma nunits_facts n : 0 <= n <= MAXREQ -> 0 < nunits_of n /\ n <= 8 * (nunits_of n - 1) /\ 8 * core_units (nunits_of n) < 2147483648.
Proof.
  unfold MAXREQ, nunits_of, HSIZE. intros Hn. rewrite (u32_small (n + 8 - 1)) by lia.
  rewrite (u32_small ((n + 8 - 1) / 8 + 1)) by zdm. assert ((n + 8 - 1) / 8 <= 134217728) by zdm. split_and!; [zdm|zdm|].
  unfold core_units. destruct (_ <? _); lia.
Qed.

(** A live pointer with the bytes that were asked for, and its block. *)
Definition rep (l : Z * Z) (x : blk) : Prop := fst l = hadd (fst x) 1 /\ snd l <= 8 * (snd x - 1).

Definition state_ok (k : nat) (h : heap) (live : list (Z * Z)) : Prop :=
  (freep h = 0 /\ live = [] /\ lo <= brk h <= HEAP_MAX) \/
  (exists fl al, inv base lo (brk h) h fl al /\ brk h <= HEAP_MAX /\ Forall2 rep live al /\ (length fl <= k)%nat).

Definition same_bytes (live : list (Z * Z)) (h h' : heap) : Prop :=
  forall l b, l ∈ live -> fst l <= b < fst l + snd l -> ld8 (hmem h') b = ld8 (hmem h) b.

Lemma rep_range hi h fl al l x : inv base lo hi h fl al -> x ∈ al -> rep l x -> fst l = fst x + 8 /\ fst l + snd l <= bend x /\ lo <= fst l /\ bend x <= hi.
Proof.
  intros Hi Hx [H1 H2]. pose proof (inv_live _ _ _ _ _ _ Hi) as Hl. rewrite Forall_forall in Hl. destruct (Hl x Hx) as [(? & ? & ?) _].
  pose proof (inv_hi _ _ _ _ _ _ Hi). unfold hadd, HSIZE, bend in *. rewrite u32_small in H1 by lia. lia.
Qed.

Lemma same_live_bytes hi h fl al live h' : inv base lo hi h fl al -> Forall2 rep live al -> same_live al h h' -> same_bytes live h h'.
Proof.
  intros Hi Hr Hs l b Hl Hb. apply list_elem_of_lookup in Hl as [i Hl]. destruct (Forall2_lookup_l _ _ _ _ _ Hr Hl) as (x & Hx & Hrx).
  apply list_elem_of_lookup_2 in Hx. destruct (rep_range _ _ _ _ _ _ Hi Hx Hrx) as (? & ? & _). apply (Hs x); [done|lia].
Qed.

Lemma init_inv h : lo <= brk h <= HEAP_MAX ->
  inv base lo (brk h) (Heap (set_size base 0 (set_ptr base base (hmem h))) base (brk h) (calls h)) [] [].
Proof.
  unfold HEAP_MAX. intros Hb. constructor; cbn [hmem freep]; try done; try lia; try constructor.
  - cbn [fst hda]. rewrite hptr_set_size_eq. apply hptr_set_ptr_eq. lia.
  - split; [|done]. cbn [fst snd]. apply hsize_set_size_eq. lia.
  - set_solver.
Qed.

Lemma malloc_state k h live n fuel : state_ok k h live -> 0 <= n <= MAXREQ -> (4 * k + 12 < fuel)%nat ->
  exists r h', malloc grant fuel base n h = (Ret r, h') /\ same_bytes live h h' /\ state_ok (S k) h' (if r =? 0 then live else (r, n) :: live).
Proof.
  intros Hok Hn Hf. destruct (nunits_facts n Hn) as (Hu1 & Hu2 & Hu3).
  assert (forall h1 fl al, inv base lo (brk h1) h1 fl al -> brk h1 <= HEAP_MAX -> Forall2 rep live al -> (length fl <= k)%nat ->
    exists r h', malloc_loop grant fuel (nunits_of n) (freep h1) (hptr (hmem h1) (freep h1)) h1 = (Ret r, h') /\ same_bytes live h1 h' /\
      state_ok (S k) h' (if r =? 0 then live else (r, n) :: live)) as Hloop.
  { intros h1 fl al Hi Hb Hr Hk. destruct (loop_ok h1 fl al (nunits_of n) fuel Hi Hb Hu1 Hu3) as (h' & fl' & L1 & L2 & L3 & [[-> L4]|(a & -> & L4)]); [lia| |];
      (eexists _, h'; split; [reflexivity|]; split; [by eapply same_live_bytes|]).
    - rewrite Z.eqb_refl. right. exists fl', al. split_and!; [done|lia|done|lia].
    - assert (rep (hadd a 1, n) (a, nunits_of n)) as Hrep by (split; [done|simpl; lia]).
      destruct (rep_range _ _ _ _ _ _ L4 ltac:(by left) Hrep) as (? & _). cbn [fst] in *. pose proof (inv_live _ _ _ _ _ _ L4) as Hl. inversion Hl as [|? ? [(? & ? & ?) _] _]; subst. cbn [fst snd] in *.
      destruct (hadd a 1 =? 0) eqn:E0; bool_to_prop; [lia|]. right. exists fl', ((a, nunits_of n) :: al). split_and!; [done|lia|by constructor|lia]. }
  unfold malloc. cbv zeta. unfold bind at 1, gets at 1. destruct Hok as [(H0 & -> & Hb)|(fl & al & Hi & Hb & Hr & Hk)].
  - rewrite H0, Z.eqb_refl. unfold when, bind, modify, gets, get, with_mem, with_freep. cbn [hmem freep brk calls].
    destruct (Hloop (Heap (set_size base 0 (set_ptr base base (hmem h))) base (brk h) (calls h)) [] [] (init_inv h Hb)) as (r & h' & H1 & H2 & H3); [cbn; lia|constructor|simpl; lia|].
    exists r, h'. split_and!; [exact H1|intros l b Hl; by inversion Hl|done].
  - pose proof (nodes_positive _ _ _ _ Hi). destruct (freep h =? 0) eqn:E0; bool_to_prop; [lia|]. unfold when, bind, ret, gets, get. by apply (Hloop h fl al).
Qed.

Lemma inv_front hi h fl a1 x a2 : inv base lo hi h fl (a1 ++ x :: a2) -> inv base lo hi h fl (x :: a1 ++ a2).
Proof.
  intros Hi. constructor; try apply Hi.
  - pose proof (inv_live _ _ _ _ _ _ Hi) as Hl. apply Forall_app in Hl as [H1 H2]. inversion H2; subst. constructor; [done|]. by apply Forall_app.
  - intros w y Hw. apply (inv_disj _ _ _ _ _ _ Hi). set_solver.
  - pose proof (inv_live_disj _ _ _ _ _ _ Hi) as Ho. clear Hi. induction a1 as [|z a1 IH]; [done|]. cbn [app] in *. inversion Ho as [|? ? Hz Ho']; subst.
    specialize (IH Ho'). inversion IH as [|? ? Hx Ho2]; subst. apply Forall_app in Hz as [Hz1 Hz2]. inversion Hz2; subst. constructor; [constructor; [unfold disj in *; lia|done]|].
    constructor; [by apply Forall_app|done].
Qed.

Lemma free_state k h l1 l2 r n fuel : state_ok k h (l1 ++ (r, n) :: l2) -> (4 * k + 12 < fuel)%nat ->
  exists h', free fuel r h = (Ret tt, h') /\ same_bytes (l1 ++ l2) h h' /\ state_ok (S k) h' (l1 ++ l2).
Proof.
  intros [(_ & Hl & _)|(fl & al & Hi & Hb & Hr & Hk)] Hf; [by destruct l1|].
  apply Forall2_app_inv_l in Hr as (a1 & a2' & H1 & H2 & ->). inversion H2 as [|? x ? a2 Hx H2']; subst. apply inv_front in Hi.
  destruct (free_ok base lo Hbase Hlo _ _ _ _ _ Hi fuel) as (h' & fl' & F1 & F2 & F3 & F4 & F5 & F6 & F7 & F8); [lia|].
  destruct Hx as [Hx _]. cbn [fst] in Hx. rewrite <- Hx in F1. exists h'. split_and!; [done| |].
  - assert (Forall2 rep (l1 ++ l2) (a1 ++ a2)) as Hrep by (by apply Forall2_app). intros l b Hl Hlb.
    apply list_elem_of_lookup in Hl as [i Hl]. destruct (Forall2_lookup_l _ _ _ _ _ Hrep Hl) as (y & Hy & Hry). apply list_elem_of_lookup_2 in Hy.
    destruct (rep_range _ _ _ _ _ _ Hi ltac:(by right) Hry) as (? & ? & _). apply (F8 y); [done|lia].
  - right. exists fl', (a1 ++ a2). rewrite F3. split_and!; [done|lia|by apply Forall2_app|lia].
Qed.

(** The program writes to one of its blocks. *)
Lemma store_state k h live l b v : state_ok k h live -> l ∈ live -> fst l <= b < fst l + snd l -> state_ok k (with_mem (fun m => st8 m b v) h) live.
Proof.
  intros [(_ & -> & _)|(fl & al & Hi & Hb & Hr & Hk)] Hl Hlb; [by inversion Hl|]. right. exists fl, al. cbn [with_mem brk]. split_and!; [|done|done|done].
  apply list_elem_of_lookup in Hl as [i Hl]. destruct (Forall2_lookup_l _ _ _ _ _ Hr Hl) as (x & Hx & Hrx). apply list_elem_of_lookup_2 in Hx.
  destruct (rep_range _ _ _ _ _ _ Hi Hx Hrx) as (R1 & R2 & R3 & R4). pose proof (inv_free _ _ _ _ _ _ Hi) as Hf. rewrite Forall_forall in Hf.
  pose proof (inv_live _ _ _ _ _ _ Hi) as Hlv. rewrite Forall_forall in Hlv. destruct (Hlv x Hx) as [(? & ? & ?) _].
  constructor; cbn [hmem freep with_mem]; try apply Hi.
  - eapply seg_frame; [|apply Hi]. intros y c [->|Hy]%elem_of_cons Hc; apply ld8_st8_ne; [simpl in *; lia|].
    pose proof (inv_disj _ _ _ _ _ _ Hi x y Hx Hy) as Hd. destruct (Hf y Hy) as (? & ? & ?). unfold disj, bend in *. lia.
  - apply Forall_forall. intros w Hw. destruct (Hlv w Hw) as [Hwh Hws]. split; [done|]. rewrite <- Hws. destruct Hwh as (? & ? & ?).
    destruct (hptr_same (hmem h) (st8 (hmem h) b v) (fst w)) as [_ ->]; [|done]. intros c Hc. apply ld8_st8_ne. intros <-.
    destruct (decide (w = x)) as [->|Hne]; [lia|]. pose proof (inv_live_disj _ _ _ _ _ _ Hi) as Ho.
    apply list_elem_of_lookup in Hw as [j Hw]. apply list_elem_of_lookup in Hx as [i2 Hx].
    assert (disj w x \/ disj x w) as Hd.
    { clear -Ho Hw Hx Hne. revert i2 j Hw Hx. induction Ho as [|z l Hz Ho IH]; intros i2 j Hw Hx; [done|]. rewrite Forall_forall in Hz.
      destruct i2, j; simpl in *; [congruence|injection Hx as ->; right; apply Hz; by eapply list_elem_of_lookup_2|injection Hw as ->; left; apply Hz; by eapply list_elem_of_lookup_2|eauto]. }
    unfold disj, bend in *. lia.
Qed.

(** The heaps a program can produce with [k] calls of the allocator: it frees
    only what it holds and writes only to the bytes it asked for. *)
Inductive reach : nat -> heap -> list (Z * Z) -> Prop :=
| reach_init h : freep h = 0 -> lo <= brk h <= HEAP_MAX -> reach 0 h []
| reach_malloc k h live n fuel r h' :
    reach k h live -> 0 <= n <= MAXREQ -> (4 * k + 12 < fuel)%nat -> malloc grant fuel base n h = (Ret r, h') ->
    reach (S k) h' (if r =? 0 then live else (r, n) :: live)
| reach_free k h l1 l2 r n fuel h' :
    reach k h (l1 ++ (r, n) :: l2) -> (4 * k + 12 < fuel)%nat -> free fuel r h = (Ret tt, h') -> reach (S k) h' (l1 ++ l2)
| reach_store k h live l b v :
    reach k h live -> l ∈ live -> fst l <= b < fst l + snd l -> reach k (with_mem (fun m => st8 m b v) h) live.

Lemma reach_ok k h live : reach k h live -> state_ok k h live.
Proof.
  induction 1 as [h H0 Hb|k h live n fuel r h' _ IH Hn Hf Hm|k h l1 l2 r n fuel h' _ IH Hf Hm|k h live l b v _ IH Hl Hb].
  - by left.
  - destruct (malloc_state k h live n fuel IH Hn Hf) as (r' & h2 & H1 & _ & H2). rewrite Hm in H1. by injection H1 as <- <-.
  - destruct (free_state k h l1 l2 r n fuel IH Hf) as (h2 & H1 & _ & H2). rewrite Hm in H1. by injection H1 as <-.
  - by eapply store_state.
Qed.

Definition ranges_disj (l1 l2 : Z * Z) : Prop := fst l1 + snd l1 <= fst l2 \/ fst l2 + snd l2 <= fst l1.

Lemma live_ranges hi h fl al live : inv base lo hi h fl al -> Forall2 rep live al ->
  Forall (fun l => lo <= fst l /\ fst l + snd l <= hi) live /\ ForallOrdPairs ranges_disj live.
Proof.
  intros Hi Hr. pose proof (inv_live_disj _ _ _ _ _ _ Hi) as Ho.
  assert (forall l x, x ∈ al -> rep l x -> fst l = fst x + 8 /\ fst l + snd l <= bend x /\ lo <= fst l /\ bend x <= hi) as Hrr by (intros; by eapply rep_range).
  clear Hi. induction Hr as [|l x live al Hlx Hr IH]; [split; constructor|]. inversion Ho as [|? ? Hx Ho']; subst. rewrite Forall_forall in Hx.
  destruct IH as [IH1 IH2]; [done|intros; apply Hrr; [by right|done]|]. destruct (Hrr l x ltac:(by left) Hlx) as (R1 & R2 & R3 & R4).
  split; [constructor; [lia|done]|]. constructor; [|done]. apply Forall_forall. intros l2 Hl2. apply list_elem_of_lookup in Hl2 as [i Hl2].
  destruct (Forall2_lookup_l _ _ _ _ _ Hr Hl2) as (y & Hy & Hry). apply list_elem_of_lookup_2 in Hy. specialize (Hx y Hy).
  destruct (Hrr l2 y ltac:(by right) Hry) as (? & ? & ? & ?). unfold disj, ranges_disj, bend in *. lia.
Qed.


End Malloc.

(** Two allocations, the second of which is given back. *)
Definition demo0 : heap := Heap ∅ 0 8192 0.

Definition demo1 : heap := snd (malloc (fun _ => true) 100 4096 10 demo0).

Definition demo2 : heap := snd (malloc (fun _ => true) 100 4096 100 demo1).

Definition demo3 : heap := snd (free 100 40832 demo2).

Lemma demo_runs :
  malloc (fun _ => true) 100 4096 10 demo0 = (Ret 40944, demo1) /\ malloc (fun _ => true) 100 4096 100 demo1 = (Ret 40832, demo2) /\
  free 100 40832 demo2 = (Ret tt, demo3).
Proof. split_and!; unfold demo1, demo2, demo3; vm_compute; reflexivity. Qed.

