(* ===== verification/Ide.v ===== *)
(** * The IDE disk driver (src/xv6/ide.c)

    The queue of requests is the linked list of the code, through [idequeue] and
    [qnext].  The controller is a parameter: what [inb] and [insl] read is an
    arbitrary function of everything that has happened on the ports, and the
    only thing required of it is that it becomes ready after finitely many
    polls.  A process that waits for its request sleeps on its buffer. *)
From S2P Require Import Prelude.

Definition SECTOR_SIZE : Z := 512.

Definition IDE_BSY : Z := 128.

Definition IDE_DRDY : Z := 64.

Definition IDE_DF : Z := 32.

Definition IDE_ERR : Z := 1.

Definition IDE_CMD_READ : Z := 32.

Definition IDE_CMD_WRITE : Z := 48.

Definition IDE_CMD_RDMUL : Z := 196.

Definition IDE_CMD_WRMUL : Z := 197.

Definition IRQ_IDE : Z := 14.

Definition DISK_BSIZE : Z := 512.

Definition DISK_BLOCKS : Z := 1000.

Definition VALID_FLAG : Z := 2.

Definition DIRTY_FLAG : Z := 4.

(** What happens on the ports, the start of interrupt delivery and the debug
    line of [iderw]. *)
Inductive event : Type :=
| EIn (port : Z)
| EOut (port v : Z)
| EInsl (port : Z)
| EOutsl (port : Z) (data : list Z)
| EIoapic (irq cpu : Z)
| EPrint (dev have : Z).

(** The fields of [struct buf] the driver uses; [q_locked] says whether the
    current process holds the buffer's sleep lock. *)
Record ibuf : Type := IBuf {
  q_flags : Z;
  q_dev : Z;
  q_blockno : Z;
  q_locked : bool;
  q_next : option nat;
  q_data : list Z;
}.

Definition upd_q_flags (f : Z -> Z) (b : ibuf) : ibuf := IBuf (f (q_flags b)) (q_dev b) (q_blockno b) (q_locked b) (q_next b) (q_data b).

Definition upd_q_next (n : option nat) (b : ibuf) : ibuf := IBuf (q_flags b) (q_dev b) (q_blockno b) (q_locked b) n (q_data b).

Definition upd_q_data (d : list Z) (b : ibuf) : ibuf := IBuf (q_flags b) (q_dev b) (q_blockno b) (q_locked b) (q_next b) d.

(** [events] is newest first. *)
Record ide : Type := Ide {
  idelock : bool;
  idequeue : option nat;
  havedisk1 : Z;
  ibufs : list ibuf;
  events : list event;
  ide_env : env;
}.

Definition upd_idelock (f : bool -> bool) (s : ide) : ide := Ide (f (idelock s)) (idequeue s) (havedisk1 s) (ibufs s) (events s) (ide_env s).

Definition set_idequeue (q : option nat) (s : ide) : ide := Ide (idelock s) q (havedisk1 s) (ibufs s) (events s) (ide_env s).

Definition set_havedisk1 (v : Z) (s : ide) : ide := Ide (idelock s) (idequeue s) v (ibufs s) (events s) (ide_env s).

Definition upd_ibufs (f : list ibuf -> list ibuf) (s : ide) : ide := Ide (idelock s) (idequeue s) (havedisk1 s) (f (ibufs s)) (events s) (ide_env s).

Definition upd_events (f : list event -> list event) (s : ide) : ide := Ide (idelock s) (idequeue s) (havedisk1 s) (ibufs s) (f (events s)) (ide_env s).

Definition upd_ide_env (f : env -> env) (s : ide) : ide := Ide (idelock s) (idequeue s) (havedisk1 s) (ibufs s) (events s) (f (ide_env s)).

Definition idelockl : lens ide bool := Lens idelock upd_idelock.

Definition ide_envl : lens ide env := Lens ide_env upd_ide_env.

Definition null_ibuf : ibuf := IBuf 0 0 0 false None [].

Definition ibuf_at (s : ide) (i : nat) : ibuf := default null_ibuf (ibufs s !! i).

Definition updb (i : nat) (f : ibuf -> ibuf) : M ide unit := modify (upd_ibufs (alter f i)).

Definition emit (e : event) : M ide unit := modify (upd_events (cons e)).

(** The address of a buffer, as a sleep channel. *)
Definition buf_chan (i : nat) : Z := 5000 + Z.of_nat i.

Section Driver.
(** What the controller answers to [inb] and [insl] after a history of the
    ports, and a bound on the polls before it is ready. *)
Context (dev_in : list event -> Z) (dev_data : list event -> list Z) (polls : nat).

Definition ide_inb (port : Z) : M ide Z :=
  emit (EIn port) ;;
  s ← get;
  ret (dev_in (events s)).

Definition ide_outb (port v : Z) : M ide unit := emit (EOut port v).

(** The polling loop of [idewait]. *)
Fixpoint idewait_loop (fuel : nat) : M ide Z :=
  match fuel with
  | O => sleep_on 0
  | S k =>
      r ← ide_inb 503;
      if negb (Z.land r (Z.lor IDE_BSY IDE_DRDY) =? IDE_DRDY) then idewait_loop k else ret r
  end.

Definition idewait (checkerr : bool) : M ide Z :=
  r ← idewait_loop polls;
  if checkerr && negb (Z.land r (Z.lor IDE_DF IDE_ERR) =? 0) then ret (-1) else ret 0.

Definition ideinit (ncpu : Z) : M ide unit :=
  emit (EIoapic IRQ_IDE (ncpu - 1)) ;;
  idewait false ;;
  ide_outb 502 (Z.lor 224 (Z.shiftl 1 4)) ;;
  r ← for_until (seq 0 1000) (fun _ =>
        v ← ide_inb 503;
        if negb (v =? 0) then ret (Some tt) else ret None);
  when (match r with Some _ => true | None => false end) (modify (set_havedisk1 1)) ;;
  ide_outb 502 (Z.lor 224 (Z.shiftl 0 4)).

(** [b]: [None] is the null pointer *)
Definition idestart (b : option nat) : M ide unit :=
  match b with
  | None => panic "idestart"
  | Some i =>
      s ← get;
      let b := ibuf_at s i in
      panic_if (DISK_BLOCKS <=? q_blockno b) "incorrect blockno" ;;
      let sector_per_block := DISK_BSIZE / SECTOR_SIZE in
      let sector := s32 (q_blockno b * sector_per_block) in
      let read_cmd := if sector_per_block =? 1 then IDE_CMD_READ else IDE_CMD_RDMUL in
      let write_cmd := if sector_per_block =? 1 then IDE_CMD_WRITE else IDE_CMD_WRMUL in
      panic_if (7 <? sector_per_block) "idestart" ;;
      idewait false ;;
      ide_outb 1014 0 ;;
      ide_outb 498 sector_per_block ;;
      ide_outb 499 (Z.land sector 255) ;;
      ide_outb 500 (Z.land (Z.shiftr sector 8) 255) ;;
      ide_outb 501 (Z.land (Z.shiftr sector 16) 255) ;;
      ide_outb 502 (Z.lor (Z.lor 224 (Z.shiftl (Z.land (q_dev b) 1) 4)) (Z.land (Z.shiftr sector 24) 15)) ;;
      if negb (Z.land (q_flags b) DIRTY_FLAG =? 0) then
        ide_outb 503 write_cmd ;;
        emit (EOutsl 496 (q_data b))
      else ide_outb 503 read_cmd
  end.

Definition ideintr : M ide unit :=
  acquire_flag idelockl ;;
  q ← gets idequeue;
  match q with
  | None => release_flag idelockl
  | Some i =>
      b ← gets (fun s => ibuf_at s i);
      modify (set_idequeue (q_next b)) ;;
      (if Z.land (q_flags b) DIRTY_FLAG =? 0 then
         r ← idewait true;
         when (0 <=? r)
           (emit (EInsl 496) ;;
            s ← get;
            updb i (upd_q_data (dev_data (events s))))
       else ret tt) ;;
      updb i (upd_q_flags (fun f => Z.lor f VALID_FLAG)) ;;
      updb i (upd_q_flags (fun f => Z.land f (Z.lnot DIRTY_FLAG))) ;;
      wakeup_ev ide_envl (buf_chan i) ;;
      q ← gets idequeue;
      when (match q with Some _ => true | None => false end) (idestart q) ;;
      release_flag idelockl
  end.

(** The loop over [pp]: the buffer whose [qnext] field [pp] points to at the end,
    [None] when it points to [idequeue]. *)
Fixpoint queue_end (fuel : nat) (s : ide) (last : option nat) (p : option nat) : option nat :=
  match fuel, p with
  | S k, Some i => queue_end k s (Some i) (q_next (ibuf_at s i))
  | _, _ => last
  end.

(** [*pp = b] *)
Definition store_pp (pp : option nat) (b : nat) : M ide unit :=
  match pp with
  | None => modify (set_idequeue (Some b))
  | Some i => updb i (upd_q_next (Some b))
  end.

(** The waiting loop of [iderw]: what happens until the process sleeps or the
    request is done. *)
Definition iderw_wait (i : nat) : M ide unit :=
  b ← gets (fun s => ibuf_at s i);
  if negb (Z.land (q_flags b) (Z.lor VALID_FLAG DIRTY_FLAG) =? VALID_FLAG) then sleep_flag idelockl (buf_chan i)
  else release_flag idelockl.

Definition iderw (i : nat) : M ide unit :=
  s ← get;
  let b := ibuf_at s i in
  emit (EPrint (q_dev b) (havedisk1 s)) ;;
  panic_if (negb (q_locked b)) "iderw: buf not locked" ;;
  panic_if (Z.land (q_flags b) (Z.lor VALID_FLAG DIRTY_FLAG) =? VALID_FLAG) "iderw: nothing to do" ;;
  panic_if (negb (q_dev b =? 0) && (havedisk1 s =? 0)) "iderw: ide disk 1 not present" ;;
  acquire_flag idelockl ;;
  updb i (upd_q_next None) ;;
  s ← get;
  store_pp (queue_end (length (ibufs s)) s None (idequeue s)) i ;;
  q ← gets idequeue;
  when (match q with Some j => (j =? i)%nat | None => false end) (idestart (Some i)) ;;
  iderw_wait i.

(** A process that [wakeup] has woken goes round the loop again. *)
Definition iderw_resume (i : nat) : M ide unit :=
  acquire_flag idelockl ;;
  iderw_wait i.

End Driver.
