(* ===== verification/IdeFifo.v ===== *)
(** * The disk queue is first in, first out

    The commands the controller receives, decoded from the registers, over any
    interleaving of requests and interrupts. *)
From S2P Require Import Prelude Ide.

(** ** The controller's view *)

(** The value last written to a port. *)
Fixpoint reg (port : Z) (tr : list event) : Z :=
  match tr with
  | [] => 0
  | EOut p v :: tr' => if p =? port then v else reg port tr'
  | _ :: tr' => reg port tr'
  end.

(** A command: the code, the drive, the first sector and the number of sectors. *)
Record command : Type := Command {
  c_code : Z;
  c_drive : Z;
  c_sector : Z;
  c_count : Z;
}.

Definition decode (code : Z) (tr : list event) : command :=
  Command code (Z.land (Z.shiftr (reg 502 tr) 4) 1)
    (reg 499 tr + 256 * reg 500 tr + 65536 * reg 501 tr + 16777216 * Z.land (reg 502 tr) 15) (reg 498 tr).

(** The commands in a history of the ports, the first one first. *)
Fixpoint commands (tr : list event) : list command :=
  match tr with
  | [] => []
  | EOut p v :: tr' => if p =? 503 then commands tr' ++ [decode v tr'] else commands tr'
  | _ :: tr' => commands tr'
  end.

(** The command a request stands for. *)
Definition command_of (b : ibuf) : command :=
  Command (if Z.land (q_flags b) DIRTY_FLAG =? 0 then IDE_CMD_READ else IDE_CMD_WRITE) (Z.land (q_dev b) 1) (q_blockno b) 1.

(** A buffer the driver may be asked to transfer. *)
Definition needs_work (b : ibuf) : Prop := Z.land (q_flags b) (Z.lor VALID_FLAG DIRTY_FLAG) <> VALID_FLAG.

Definition request_ok (s : ide) (i : nat) : Prop :=
  let b := ibuf_at s i in
  (i < length (ibufs s))%nat /\ q_locked b = true /\ needs_work b /\ 0 <= q_blockno b < DISK_BLOCKS /\
  (q_dev b = 0 \/ havedisk1 s <> 0).

(** The linked list from [p] has the elements [l]. *)
Fixpoint linked (bs : list ibuf) (p : option nat) (l : list nat) : Prop :=
  match l with
  | [] => p = None
  | i :: l' => p = Some i /\ exists b, bs !! i = Some b /\ linked bs (q_next b) l'
  end.

Lemma linked_frame bs bs' l : forall p, (forall i, i ∈ l -> q_next <$> bs' !! i = q_next <$> bs !! i) -> linked bs p l -> linked bs' p l.
Proof.
  induction l as [|i l IH]; intros p H; [done|]. intros (-> & b & Hb & Hl). split; [done|].
  specialize (H i ltac:(by left)) as Hi. rewrite Hb in Hi. destruct (bs' !! i) as [b'|]; [|done]. injection Hi as Hi. exists b'. split; [done|].
  rewrite Hi. apply IH; [|done]. intros j Hj. apply H. by right.
Qed.

Lemma linked_bound bs l : forall p, linked bs p l -> Forall (fun i => i < length bs)%nat l.
Proof. induction l as [|i l IH]; intros p; [constructor|]. intros (_ & b & Hb & Hl). constructor; [by eapply lookup_lt_Some|by eapply IH]. Qed.

(** The queue is not longer than the array of buffers. *)
Lemma linked_length bs p l : NoDup l -> linked bs p l -> (length l <= length bs)%nat.
Proof.
  intros Hn Hl. apply linked_bound in Hl. rewrite <- (length_seq (length bs) 0). apply submseteq_length, NoDup_submseteq; [done|].
  intros i Hi. rewrite Forall_forall in Hl. apply elem_of_seq. specialize (Hl i Hi). lia.
Qed.

Lemma queue_end_spec s l : forall fuel last p, linked (ibufs s) p l -> (length l <= fuel)%nat ->
  queue_end fuel s last p = match list.last l with Some i => Some i | None => last end.
Proof.
  induction l as [|i l IH]; intros fuel last p.
  - intros -> _. by destruct fuel.
  - intros (-> & b & Hb & Hl) Hf. destruct fuel as [|k]; [simpl in Hf; lia|]. cbn [queue_end]. unfold ibuf_at. rewrite Hb. simpl default.
    rewrite (IH k (Some i)) by (done || simpl in Hf; lia). rewrite last_cons. by destruct (list.last l).
Qed.

(** Appending at the end. *)
Lemma linked_snoc bs l i b : forall p, linked bs p l -> NoDup l -> (i ∉ l) -> bs !! i = Some b -> q_next b = None ->
  match list.last l with
  | None => linked bs (Some i) (l ++ [i])
  | Some j => linked (alter (upd_q_next (Some i)) j bs) p (l ++ [i])
  end.
Proof.
  induction l as [|j l IH]; intros p Hl Hn Hi Hb Hq.
  - cbn. split; [done|]. exists b. by rewrite Hq.
  - destruct Hl as (-> & c & Hc & Hl). inversion Hn as [|? ? Hj Hn']; subst. rewrite last_cons. apply not_elem_of_cons in Hi as [Hij Hi].
    specialize (IH (q_next c) Hl Hn' Hi Hb Hq). destruct (list.last l) as [k|] eqn:El.
    + cbn [app linked]. split; [done|]. assert (j <> k) by (intros ->; apply Hj; by apply last_Some_elem_of in El || (apply last_Some in El as [l' ->]; set_solver)).
      exists c. rewrite list_lookup_alter_ne by done. split; [done|]. exact IH.
    + apply last_None in El. subst l. cbn [app linked]. split; [done|]. exists (upd_q_next (Some i) c). rewrite list_lookup_alter_eq, Hc. split; [done|].
      cbn [q_next upd_q_next]. split; [done|]. exists b. rewrite list_lookup_alter_ne by done. by rewrite Hq.
Qed.

Lemma commands_polls n tr : commands (replicate n (EIn 503) ++ tr) = commands tr /\ forall p, reg p (replicate n (EIn 503) ++ tr) = reg p tr.
Proof. induction n as [|n [IH1 IH2]]; [done|]. cbn [replicate app commands reg]. done. Qed.

(** The registers [idestart] writes denote the block and the drive. *)
Definition registers_ok (n : Z) : bool :=
  forallb (fun d =>
    let devreg := Z.lor (Z.lor 224 (Z.shiftl d 4)) (Z.land (Z.shiftr n 24) 15) in
    (Z.land (Z.shiftr devreg 4) 1 =? d) &&
    (Z.land n 255 + 256 * Z.land (Z.shiftr n 8) 255 + 65536 * Z.land (Z.shiftr n 16) 255 + 16777216 * Z.land devreg 15 =? n)) [0; 1].

Lemma registers_decode n d : 0 <= n < 1000 ->
  let devreg := Z.lor (Z.lor 224 (Z.shiftl (Z.land d 1) 4)) (Z.land (Z.shiftr n 24) 15) in
  Z.land (Z.shiftr devreg 4) 1 = Z.land d 1 /\
  Z.land n 255 + 256 * Z.land (Z.shiftr n 8) 255 + 65536 * Z.land (Z.shiftr n 16) 255 + 16777216 * Z.land devreg 15 = n.
Proof.
  intros Hn. pose proof (below_spec 1000 registers_ok n ltac:(by vm_compute) Hn) as H. unfold registers_ok in H. cbv zeta.
  assert (Z.land d 1 = 0 \/ Z.land d 1 = 1) as Hd.
  { change 1 with (2 ^ 1 - 1). rewrite land_ones_mod by lia. change (2 ^ 1) with 2. zdm. }
  rewrite forallb_forall in H. specialize (H (Z.land d 1) ltac:(destruct Hd as [->| ->]; simpl; auto)). cbv zeta in H. bool_to_prop. done.
Qed.

(** What [idestart] does on the ports for a buffer. *)
Definition start_registers (b : ibuf) (tr : list event) : list event :=
  EOut 502 (Z.lor (Z.lor 224 (Z.shiftl (Z.land (q_dev b) 1) 4)) (Z.land (Z.shiftr (q_blockno b) 24) 15)) ::
  EOut 501 (Z.land (Z.shiftr (q_blockno b) 16) 255) :: EOut 500 (Z.land (Z.shiftr (q_blockno b) 8) 255) ::
  EOut 499 (Z.land (q_blockno b) 255) :: EOut 498 1 :: EOut 1014 0 :: tr.

Definition start_events (b : ibuf) (tr : list event) : list event :=
  if Z.land (q_flags b) DIRTY_FLAG =? 0 then EOut 503 IDE_CMD_READ :: start_registers b tr
  else EOutsl 496 (q_data b) :: EOut 503 IDE_CMD_WRITE :: start_registers b tr.

Lemma commands_out p v tr : (p =? 503) = false -> commands (EOut p v :: tr) = commands tr.
Proof. intros H. cbn [commands]. by rewrite H. Qed.

Lemma reg_eq p v tr : reg p (EOut p v :: tr) = v.
Proof. cbn [reg]. by rewrite Z.eqb_refl. Qed.

Lemma reg_ne p p' v tr : (p =? p') = false -> reg p' (EOut p v :: tr) = reg p' tr.
Proof. intros H. cbn [reg]. by rewrite H. Qed.

Lemma start_registers_decode b tr code : 0 <= q_blockno b < 1000 ->
  decode code (start_registers b tr) = Command code (Z.land (q_dev b) 1) (q_blockno b) 1 /\ commands (start_registers b tr) = commands tr.
Proof.
  intros Hb. destruct (registers_decode (q_blockno b) (q_dev b) Hb) as [R1 R2]. unfold decode, start_registers. split.
  - rewrite reg_eq, !(reg_ne 502), (reg_eq 501), !(reg_ne 501), (reg_eq 500), !(reg_ne 500), (reg_eq 499), !(reg_ne 499), reg_eq by done. by rewrite R1, R2.
  - by rewrite !commands_out.
Qed.

Lemma commands_start_events b tr : 0 <= q_blockno b < 1000 -> commands (start_events b tr) = commands tr ++ [command_of b].
Proof.
  intros Hb. unfold start_events, command_of. destruct (start_registers_decode b tr IDE_CMD_READ Hb) as [D1 C1]. destruct (start_registers_decode b tr IDE_CMD_WRITE Hb) as [D2 _].
  destruct (_ =? 0); cbn [commands]; rewrite Z.eqb_refl, C1; [by rewrite D1|by rewrite D2].
Qed.

Section Fifo.
Context (dev_in : list event -> Z) (dev_data : list event -> list Z) (polls : nat).

(** The controller becomes ready within [polls] polls, whatever has happened. *)
Definition becomes_ready : Prop :=
  forall tr, exists k, (k < polls)%nat /\ Z.land (dev_in (replicate (S k) (EIn 503) ++ tr)) (Z.lor IDE_BSY IDE_DRDY) = IDE_DRDY.

Context (Hready : becomes_ready).

Lemma idewait_loop_run k : forall fuel s, (k < fuel)%nat ->
  Z.land (dev_in (replicate (S k) (EIn 503) ++ events s)) (Z.lor IDE_BSY IDE_DRDY) = IDE_DRDY ->
  exists n r, idewait_loop dev_in fuel s = (Ret r, upd_events (app (replicate n (EIn 503))) s).
Proof.
  induction k as [|k IH]; intros [|fuel] s Hk H; try lia; cbn [idewait_loop].
  - change (replicate 1 (EIn 503) ++ events s) with (EIn 503 :: events s) in H. exists 1%nat. eexists. unfold ide_inb, emit, bind, modify, get, ret. cbn [events upd_events]. rewrite H. reflexivity.
  - unfold ide_inb, emit. unfold bind at 1 2 3, modify at 1, get, ret at 1. cbn [events upd_events].
    destruct (negb _) eqn:E.
    + destruct (IH fuel (upd_events (cons (EIn 503)) s)) as (n & r & Hr); [lia| |].
      { cbn [events upd_events]. rewrite replicate_S_end, <- app_assoc in H. exact H. }
      exists (S n), r. fold (upd_events (cons (EIn 503)) s) in *. rewrite Hr. unfold upd_events. cbn [events idelock idequeue havedisk1 ibufs ide_env].
      rewrite replicate_S_end, <- app_assoc. done.
    + exists 1%nat. eexists. reflexivity.
Qed.

Lemma idewait_run c s : exists n r, idewait dev_in polls c s = (Ret r, upd_events (app (replicate n (EIn 503))) s).
Proof.
  destruct (Hready (events s)) as (k & Hk & H). destruct (idewait_loop_run k polls s Hk H) as (n & r & Hr). unfold idewait.
  rewrite (bind_Ret _ _ _ _ _ Hr). destruct (c && _); by eexists n, _.
Qed.

(** Starting a request sends its command and nothing else. *)
Lemma idestart_run s i : 0 <= q_blockno (ibuf_at s i) < DISK_BLOCKS ->
  exists tr, idestart dev_in polls (Some i) s = (Ret tt, upd_events (fun _ => tr) s) /\ commands tr = commands (events s) ++ [command_of (ibuf_at s i)].
Proof.
  unfold DISK_BLOCKS. intros Hb. unfold idestart. run_pure. set (b := ibuf_at s i) in *.
  replace (DISK_BLOCKS <=? q_blockno b) with false by (symmetry; apply Z.leb_gt; unfold DISK_BLOCKS; lia). run_pure. cbv zeta.
  change (DISK_BSIZE / SECTOR_SIZE) with 1. change (7 <? 1) with false. run_pure. rewrite Z.mul_1_r, s32_small by lia.
  destruct (idewait_run false s) as (n & r & Hr). rewrite (bind_Ret _ _ _ _ _ Hr). change (1 =? 1) with true. cbv iota.
  exists (start_events b (replicate n (EIn 503) ++ events s)). split.
  - unfold ide_outb, emit, bind, modify, start_events. by destruct (Z.land (q_flags b) DIRTY_FLAG =? 0).
  - rewrite commands_start_events by done. by destruct (commands_polls n (events s)) as [-> _].
Qed.

(** ** The steps of the driver *)
Record queue_ok (s : ide) (q : list nat) : Prop := QueueOk {
  qo_lock : idelock s = false;
  qo_linked : linked (ibufs s) (idequeue s) q;
  qo_nodup : NoDup q;
  qo_blocks : Forall (fun i => 0 <= q_blockno (ibuf_at s i) < DISK_BLOCKS) q;
}.

(** The same buffers, but for the links. *)
Definition same_requests (s s' : ide) : Prop := forall i, upd_q_next None (ibuf_at s' i) = upd_q_next None (ibuf_at s i).

Lemma same_command s s' i : same_requests s s' -> command_of (ibuf_at s' i) = command_of (ibuf_at s i) /\
  q_blockno (ibuf_at s' i) = q_blockno (ibuf_at s i) /\ q_flags (ibuf_at s' i) = q_flags (ibuf_at s i).
Proof.
  intros H. specialize (H i). destruct (ibuf_at s' i) as [f d n k x y], (ibuf_at s i) as [f' d' n' k' x' y']. unfold upd_q_next in H. cbn [q_flags q_dev q_blockno q_locked q_next q_data] in *.
  injection H as -> -> -> -> ->. done.
Qed.

Lemma ibuf_at_alter s i f j : (i < length (ibufs s))%nat ->
  ibuf_at (upd_ibufs (alter f i) s) j = if decide (i = j) then f (ibuf_at s j) else ibuf_at s j.
Proof.
  intros Hi. unfold ibuf_at. cbn [ibufs upd_ibufs]. destruct (decide (i = j)) as [->|Hne].
  - rewrite list_lookup_alter_eq. destruct (lookup_lt_is_Some_2 (ibufs s) j Hi) as [b ->]. done.
  - by rewrite list_lookup_alter_ne.
Qed.

Lemma next_frame (bs : list ibuf) (i : nat) v (l : list nat) : (i ∉ l) -> forall j, j ∈ l -> q_next <$> alter (upd_q_next v) i bs !! j = q_next <$> bs !! j.
Proof. intros Hi j Hj. rewrite list_lookup_alter_ne; [done|by intros ->]. Qed.

(** Putting a request at the end of the queue. *)
Lemma enqueue_run s q i : queue_ok s q -> (i ∉ q) -> (i < length (ibufs s))%nat ->
  let s1 := upd_ibufs (alter (upd_q_next None) i) (upd_idelock (fun _ => true) s) in
  exists s', store_pp (queue_end (length (ibufs s1)) s1 None (idequeue s1)) i s1 = (Ret tt, s') /\
    linked (ibufs s') (idequeue s') (q ++ [i]) /\ same_requests s s' /\ events s' = events s /\ havedisk1 s' = havedisk1 s /\
    ide_env s' = ide_env s /\ idelock s' = true /\ length (ibufs s') = length (ibufs s).
Proof.
  intros [Hl Hq Hn _] Hi Hlt s1. assert (linked (ibufs s1) (idequeue s1) q) as Hq1.
  { eapply linked_frame; [|exact Hq]. cbn [ibufs s1 upd_ibufs upd_idelock]. by apply next_frame. }
  rewrite (queue_end_spec s1 q); [|done|by apply (linked_length _ _ _ Hn Hq1)].
  destruct (lookup_lt_is_Some_2 (ibufs s) i Hlt) as [b Hb].
  assert (ibufs s1 !! i = Some (upd_q_next None b)) as Hb1 by (cbn [ibufs s1 upd_ibufs upd_idelock]; by rewrite list_lookup_alter_eq, Hb).
  pose proof (linked_snoc (ibufs s1) q i (upd_q_next None b) _ Hq1 Hn Hi Hb1 eq_refl) as Hs.
  assert (same_requests s s1) as Hsame. { intros j. unfold s1. rewrite ibuf_at_alter by done. by destruct (decide (i = j)). }
  destruct (list.last q) as [j|] eqn:El; cbn [store_pp]; unfold updb, modify; eexists; (split; [reflexivity|]); cbn [ibufs idequeue events havedisk1 ide_env idelock upd_ibufs set_idequeue s1 upd_idelock].
  - split_and!; [exact Hs| |done|done|done|done|by rewrite !length_alter].
    assert (j < length (ibufs s1))%nat as Hj.
    { pose proof (linked_bound _ _ _ Hq1) as Hbd. rewrite Forall_forall in Hbd. apply Hbd. apply last_Some in El as [l' ->]. set_solver. }
    intros k. rewrite <- (Hsame k). unfold s1 at 1. rewrite (ibuf_at_alter s1) by exact Hj. by destruct (decide (j = k)).
  - apply last_None in El. subst q. split_and!; [exact Hs| |done|done|done|done|by rewrite length_alter]. intros k. exact (Hsame k).
Qed.

Lemma iderw_run s q i : queue_ok s q -> (i ∉ q) -> request_ok s i ->
  exists s', iderw dev_in polls i s = (Sleep (buf_chan i), s') /\ queue_ok s' (q ++ [i]) /\ same_requests s s' /\ havedisk1 s' = havedisk1 s /\
    commands (events s') = commands (events s) ++ (match q with [] => [command_of (ibuf_at s i)] | _ => [] end).
Proof.
  intros Hok Hi (Hlt & Hlk & Hw & Hb & Hd). unfold iderw. run_pure. cbv zeta. unfold emit. run_pure. rewrite Hlk. cbn [negb]. run_pure.
  unfold needs_work in Hw. apply Z.eqb_neq in Hw as Hw'. rewrite Hw'. run_pure.
  replace (negb (q_dev (ibuf_at s i) =? 0) && (havedisk1 s =? 0)) with false; [run_pure|].
  2:{ symmetry. destruct Hd as [-> |Hd]; [done|]. apply Z.eqb_neq in Hd as ->. apply andb_false_r. }
  set (s0 := upd_events (cons (EPrint (q_dev (ibuf_at s i)) (havedisk1 s))) s).
  assert (queue_ok s0 q) as Hok0 by (destruct Hok; by constructor).
  rewrite (bind_Ret _ _ _ tt (upd_idelock (fun _ => true) s0)) by (apply acquire_flag_run; apply Hok). unfold updb at 1. run_pure. run_pure.
  destruct (enqueue_run s0 q i Hok0 Hi Hlt) as (s1 & Hs1 & L1 & L2 & L3 & L4 & L5 & L6 & L7). cbv zeta in Hs1. rewrite (bind_Ret _ _ _ _ _ Hs1). run_pure.
  assert (forall j, command_of (ibuf_at s1 j) = command_of (ibuf_at s j) /\ q_blockno (ibuf_at s1 j) = q_blockno (ibuf_at s j) /\ q_flags (ibuf_at s1 j) = q_flags (ibuf_at s j)) as Hsame
    by (intros j; apply (same_command s0 s1 j L2)).
  assert (forall s2, ibufs s2 = ibufs s1 -> idequeue s2 = idequeue s1 -> idelock s2 = true ->
    iderw_wait i s2 = (Sleep (buf_chan i), upd_idelock (fun _ => false) s2) /\ queue_ok (upd_idelock (fun _ => false) s2) (q ++ [i]) /\ same_requests s (upd_idelock (fun _ => false) s2)) as Hwait.
  { intros s2 E1 E2 E3. assert (forall j, ibuf_at s2 j = ibuf_at s1 j) as Eb by (intros j; unfold ibuf_at; by rewrite E1). split_and!.
    - unfold iderw_wait. run_pure. rewrite Eb. destruct (Hsame i) as (_ & _ & ->). rewrite Hw'. cbn [negb]. unfold sleep_flag, bind. rewrite release_flag_run by exact E3. done.
    - constructor; cbn [idelock upd_idelock ibufs idequeue]; [done|by rewrite E1, E2| |].
      + apply NoDup_app. split_and!; [apply Hok|set_solver|apply NoDup_singleton].
      + apply Forall_app. split; [|apply Forall_singleton; unfold ibuf_at at 1 2; cbn [ibufs upd_idelock]; rewrite E1; fold (ibuf_at s1 i); destruct (Hsame i) as (_ & -> & _); done].
        eapply Forall_impl; [apply Hok|]. intros j Hj. cbv beta in *. unfold ibuf_at at 1 2. cbn [ibufs upd_idelock]. rewrite E1. fold (ibuf_at s1 j). destruct (Hsame j) as (_ & -> & _). done.
    - intros j. unfold ibuf_at at 1. cbn [ibufs upd_idelock]. rewrite E1. apply (L2 j). }
  destruct q as [|j q'].
  - assert (idequeue s1 = Some i) as Eq by (by destruct L1). rewrite Eq, Nat.eqb_refl. cbn [when].
    destruct (idestart_run s1 i) as (tr & Hst & Htr); [destruct (Hsame i) as (_ & -> & _); done|]. rewrite (bind_Ret _ _ _ _ _ Hst).
    destruct (Hwait (upd_events (fun _ => tr) s1)) as (W1 & W2 & W3); [done|done|done|]. rewrite W1. eexists. split_and!; [reflexivity|exact W2|exact W3|exact L4|].
    cbn [events upd_events upd_idelock]. rewrite Htr, L3. destruct (Hsame i) as (-> & _). done.
  - assert (idequeue s1 = Some j) as Eq by (by destruct L1). rewrite Eq. destruct (Nat.eqb_spec j i) as [->|_]; [set_solver|]. cbn [when]. run_pure.
    destruct (Hwait s1) as (W1 & W2 & W3); [done|done|done|]. rewrite W1. eexists. split_and!; [reflexivity|exact W2|exact W3|exact L4|].
    cbn [events upd_idelock]. rewrite L3, app_nil_r. done.
Qed.

(** The transfer of [ideintr]: the data of the buffer, if at all. *)
Lemma transfer_run s i : (i < length (ibufs s))%nat ->
  exists s', (if Z.land (q_flags (ibuf_at s i)) DIRTY_FLAG =? 0 then
         r ← idewait dev_in polls true;
         when (0 <=? r) (emit (EInsl 496) ;; s ← get; updb i (upd_q_data (dev_data (events s))))
       else ret tt) s = (Ret tt, s') /\
    idelock s' = idelock s /\ idequeue s' = idequeue s /\ havedisk1 s' = havedisk1 s /\ ide_env s' = ide_env s /\ commands (events s') = commands (events s) /\
    (ibufs s' = ibufs s \/ exists d, ibufs s' = alter (upd_q_data d) i (ibufs s)).
Proof.
  intros Hi. destruct (_ =? 0); [|exists s; split_and!; try done; by left]. destruct (idewait_run true s) as (n & r & Hr). rewrite (bind_Ret _ _ _ _ _ Hr).
  destruct (commands_polls n (events s)) as [Hc _]. destruct (0 <=? r); cbn [when].
  - unfold emit, updb. run_pure. run_pure. unfold modify. eexists. split; [reflexivity|]. cbn [idelock idequeue havedisk1 ide_env events ibufs upd_ibufs upd_events commands].
    split_and!; try done. right. by eexists.
  - eexists. split; [reflexivity|]. cbn [idelock idequeue havedisk1 ide_env events ibufs upd_events]. split_and!; try done. by left.
Qed.

Definition completed (f : Z) : Z := Z.land (Z.lor f VALID_FLAG) (Z.lnot DIRTY_FLAG).

Lemma completed_done f : Z.land (completed f) (Z.lor VALID_FLAG DIRTY_FLAG) = VALID_FLAG.
Proof.
  unfold completed, VALID_FLAG, DIRTY_FLAG. change (Z.lor 2 4) with 6. apply Z.bits_inj'. intros n Hn. rewrite !Z.land_spec, Z.lor_spec, Z.lnot_spec by done.
  assert (n = 0 \/ n = 1 \/ n = 2 \/ 3 <= n) as [->|[->|[->|Hn3]]] by lia; [by rewrite andb_false_r|by rewrite orb_true_r|by rewrite !andb_false_r|].
  assert (Z.testbit 6 n = false) as -> by (apply Z.bits_above_log2; [lia|]; change (Z.log2 6) with 2; lia).
  assert (Z.testbit 2 n = false) as -> by (apply Z.bits_above_log2; [lia|]; change (Z.log2 2) with 1; lia). by rewrite andb_false_r.
Qed.

(** The buffers after the head of the queue has been completed. *)
Definition finished (s : ide) (i : nat) (s' : ide) : Prop :=
  (forall j, j <> i -> ibuf_at s' j = ibuf_at s j) /\ q_next (ibuf_at s' i) = q_next (ibuf_at s i) /\ q_flags (ibuf_at s' i) = completed (q_flags (ibuf_at s i)) /\
  length (ibufs s') = length (ibufs s).

Lemma finish_run s i : (i < length (ibufs s))%nat -> forall s1, (ibufs s1 = ibufs s \/ exists d, ibufs s1 = alter (upd_q_data d) i (ibufs s)) ->
  exists s', (updb i (upd_q_flags (fun f => Z.lor f VALID_FLAG)) ;; updb i (upd_q_flags (fun f => Z.land f (Z.lnot DIRTY_FLAG))) ;; wakeup_ev ide_envl (buf_chan i)) s1 = (Ret tt, s') /\
    finished s i s' /\ idelock s' = idelock s1 /\ idequeue s' = idequeue s1 /\ havedisk1 s' = havedisk1 s1 /\ events s' = events s1 /\
    woken (ide_env s') = buf_chan i :: woken (ide_env s1).
Proof.
  intros Hi s1 Hs1. unfold updb, wakeup_ev. run_pure. run_pure. unfold modify. eexists. split; [reflexivity|].
  split; [|cbn [idelock idequeue havedisk1 events ide_env upd_ibufs upd_ide_env over ide_envl env_wake woken]; done].
  unfold finished, ibuf_at. cbn [ibufs upd_ibufs over ide_envl upd_ide_env]. rewrite !list_lookup_alter_eq, !length_alter.
  destruct (lookup_lt_is_Some_2 (ibufs s) i Hi) as [b Hb].
  assert ((forall j, j <> i -> ibufs s1 !! j = ibufs s !! j) /\ (exists d, ibufs s1 !! i = Some (upd_q_data d b)) /\ length (ibufs s1) = length (ibufs s)) as (H1 & [d H2] & H3).
  { destruct Hs1 as [->|[d ->]].
    - split_and!; [done|exists (q_data b); rewrite Hb; by destruct b|done].
    - split_and!; [intros j Hj; by apply list_lookup_alter_ne|exists d; by rewrite list_lookup_alter_eq, Hb|apply length_alter]. }
  rewrite H2, Hb, H3. split_and!; try done. intros j Hj. rewrite !list_lookup_alter_ne by done. by rewrite H1.
Qed.

Lemma ideintr_run s i q : queue_ok s (i :: q) ->
  exists s', ideintr dev_in dev_data polls s = (Ret tt, s') /\ queue_ok s' q /\ finished s i s' /\ havedisk1 s' = havedisk1 s /\
    woken (ide_env s') = buf_chan i :: woken (ide_env s) /\
    commands (events s') = commands (events s) ++ (match q with [] => [] | j :: _ => [command_of (ibuf_at s j)] end).
Proof.
  intros [Hl Hq Hn Hb]. destruct Hq as (Hq0 & b & Hbi & Hq). inversion Hn as [|? ? Hi Hn']; subst. inversion Hb as [|? ? _ Hb']; subst.
  assert (i < length (ibufs s))%nat as Hlt by (by eapply lookup_lt_Some). assert (ibuf_at s i = b) as Eb by (unfold ibuf_at; by rewrite Hbi).
  unfold ideintr. rewrite (bind_Ret _ _ _ tt (upd_idelock (fun _ => true) s)) by (apply acquire_flag_run; done). run_pure. cbn [idequeue upd_idelock]. rewrite Hq0. run_pure. run_pure.
  change (ibuf_at (upd_idelock (fun _ => true) s) i) with (ibuf_at s i). set (s1 := set_idequeue (q_next (ibuf_at s i)) (upd_idelock (fun _ => true) s)).
  destruct (transfer_run s1 i Hlt) as (s2 & T1 & T2 & T3 & T4 & T5 & T6 & T7). change (ibuf_at s1 i) with (ibuf_at s i) in T1. rewrite (bind_Ret _ _ _ _ _ T1).
  destruct (finish_run s i Hlt s2 T7) as (s3 & F1 & F2 & F3 & F4 & F5 & F6 & F7). apply bind_Ret_inv in F1 as ([] & s2a & F1a & F1). apply bind_Ret_inv in F1 as ([] & s2b & F1b & F1).
  rewrite (bind_Ret _ _ _ _ _ F1a), (bind_Ret _ _ _ _ _ F1b), (bind_Ret _ _ _ _ _ F1). run_pure. rewrite F4, T3. cbn [idequeue s1 set_idequeue]. rewrite Eb.
  assert (linked (ibufs s3) (q_next b) q) as Hq3.
  { eapply linked_frame; [|exact Hq]. intros j Hj. destruct F2 as (G1 & _ & _ & G4). assert (j <> i) as Hne by (by intros ->). specialize (G1 j Hne). unfold ibuf_at in G1.
    assert (j < length (ibufs s))%nat as Hjl by (pose proof (linked_bound _ _ _ Hq) as Hbd; rewrite Forall_forall in Hbd; auto).
    destruct (lookup_lt_is_Some_2 (ibufs s) j Hjl) as [c Hc]. destruct (lookup_lt_is_Some_2 (ibufs s3) j ltac:(lia)) as [c' Hc']. rewrite Hc, Hc' in *. simpl in G1. by subst. }
  assert (forall s4, ibufs s4 = ibufs s3 -> idequeue s4 = idequeue s3 -> queue_ok (upd_idelock (fun _ => false) s4) q /\ finished s i (upd_idelock (fun _ => false) s4)) as Hend.
  { intros s4 E1 E2. split.
    - constructor; cbn [idelock ibufs idequeue upd_idelock]; [done|rewrite E1, E2, F4, T3; cbn [idequeue s1 set_idequeue]; by rewrite Eb|done|].
      rewrite Forall_forall in *. intros j Hj. destruct F2 as (G1 & _). specialize (G1 j ltac:(by intros ->)). unfold ibuf_at in *. cbn [ibufs upd_idelock]. rewrite E1, G1. auto.
    - destruct F2 as (G1 & G2 & G3 & G4). unfold finished, ibuf_at in *. cbn [ibufs upd_idelock]. rewrite E1. done. }
  assert (idelock s3 = true) as Hlk by (rewrite F3, T2; done). assert (events s3 = events s2) as He by done.
  destruct q as [|j q'].
  - change (q_next b = None) in Hq. rewrite Hq. cbn [when]. run_pure. rewrite release_flag_run by exact Hlk. eexists. split; [reflexivity|].
    change (set idelockl false s3) with (upd_idelock (fun _ => false) s3). destruct (Hend s3 eq_refl eq_refl) as [E1 E2]. split_and!; [done|done|exact (eq_trans F5 T4)|exact (eq_trans F7 (f_equal (fun e => buf_chan i :: woken e) T5))|].
    cbn [events upd_idelock]. rewrite He, T6, app_nil_r. done.
  - destruct Hq as (-> & c & Hc & _). cbn [when]. assert (ibuf_at s3 j = ibuf_at s j) as Ej by (destruct F2 as (G1 & _); apply G1; intros ->; set_solver).
    destruct (idestart_run s3 j) as (tr & Hst & Htr); [rewrite Ej; by inversion Hb'|]. rewrite (bind_Ret _ _ _ _ _ Hst), release_flag_run by exact Hlk. eexists. split; [reflexivity|].
    change (set idelockl false ?x) with (upd_idelock (fun _ => false) x). destruct (Hend (upd_events (fun _ => tr) s3) eq_refl eq_refl) as [E1 E2].
    split_and!; [exact E1|exact E2|exact (eq_trans F5 T4)|exact (eq_trans F7 (f_equal (fun e => buf_chan i :: woken e) T5))|]. cbn [events upd_idelock upd_events]. by rewrite Htr, Ej, He, T6.
Qed.

(** ** Any interleaving *)

(** The states requests, interrupts and woken processes can produce, with the
    commands of all requests in the order of their arrival and the buffers still
    in the queue.  The buffer cache may use a buffer that is not queued. *)
Inductive run : ide -> list command -> list nat -> Prop :=
| run_init s : idelock s = false -> idequeue s = None -> commands (events s) = [] -> run s [] []
| run_request s arr q i s' :
    run s arr q -> (i ∉ q) -> request_ok s i -> iderw dev_in polls i s = (Sleep (buf_chan i), s') ->
    run s' (arr ++ [command_of (ibuf_at s i)]) (q ++ [i])
| run_interrupt s arr q s' : run s arr q -> ideintr dev_in dev_data polls s = (Ret tt, s') -> run s' arr (tail q)
| run_resume s arr q i o s' : run s arr q -> iderw_resume i s = (o, s') -> run s' arr q
| run_other s arr q i f : run s arr q -> (i ∉ q) -> run (upd_ibufs (alter f i) s) arr q.

Definition fifo_ok (s : ide) (arr : list command) (q : list nat) : Prop :=
  exists started, arr = started ++ ((fun i => command_of (ibuf_at s i)) <$> q) /\
    commands (events s) = started ++ take 1 ((fun i => command_of (ibuf_at s i)) <$> q).

Lemma resume_run s q i : queue_ok s q -> iderw_resume i s =
  (if Z.land (q_flags (ibuf_at s i)) (Z.lor VALID_FLAG DIRTY_FLAG) =? VALID_FLAG then Ret tt else Sleep (buf_chan i), s).
Proof.
  intros [Hl _ _ _]. unfold iderw_resume. rewrite (bind_Ret _ _ _ tt (upd_idelock (fun _ => true) s)) by (by apply acquire_flag_run).
  unfold iderw_wait. run_pure. change (ibuf_at (upd_idelock (fun _ => true) s) i) with (ibuf_at s i).
  assert (set idelockl false (upd_idelock (fun _ => true) s) = s) as Hs by (destruct s; cbn in *; by subst).
  destruct (_ =? VALID_FLAG); cbn [negb]; [|unfold sleep_flag, bind]; rewrite release_flag_run by done; by rewrite Hs.
Qed.

Lemma intr_empty s : queue_ok s [] -> ideintr dev_in dev_data polls s = (Ret tt, s).
Proof.
  intros [Hl Hq _ _]. unfold ideintr. rewrite (bind_Ret _ _ _ tt (upd_idelock (fun _ => true) s)) by (by apply acquire_flag_run). run_pure.
  cbn [idequeue upd_idelock]. change (idequeue s = None) in Hq. rewrite Hq, release_flag_run by done. destruct s. cbn in *. by subst.
Qed.

Lemma pending_same s s' (q : list nat) : (forall i, i ∈ q -> command_of (ibuf_at s' i) = command_of (ibuf_at s i)) ->
  (fun i => command_of (ibuf_at s' i)) <$> q = (fun i => command_of (ibuf_at s i)) <$> q.
Proof. intros H. apply list_fmap_ext. intros k i Hi. apply H. by apply list_elem_of_lookup_2 in Hi. Qed.

Lemma run_ok s arr q : run s arr q -> queue_ok s q /\ fifo_ok s arr q.
Proof.
  induction 1 as [s Hl Hq Hc|s arr q i s' _ [IH1 IH2] Hi Hr Hrun|s arr q s' _ [IH1 IH2] Hrun|s arr q i o s' _ [IH1 IH2] Hrun|s arr q i f _ [IH1 IH2] Hi].
  - split; [by constructor; try constructor|]. exists []. by rewrite Hc.
  - destruct (iderw_run s q i IH1 Hi Hr) as (s2 & R1 & R2 & R3 & R4 & R5). rewrite Hrun in R1. injection R1 as <-. split; [done|].
    destruct IH2 as (st & E1 & E2). exists st. rewrite (pending_same s s') by (intros j _; by apply same_command). rewrite fmap_app, R5, E2, E1.
    destruct q as [|j q]; cbn [fmap list_fmap app take]; [by rewrite !app_nil_r|by rewrite app_nil_r, <- app_assoc].
  - destruct q as [|i q]; [rewrite (intr_empty s IH1) in Hrun; by injection Hrun as <-|].
    destruct (ideintr_run s i q IH1) as (s2 & R1 & R2 & R3 & R4 & R5 & R6). rewrite Hrun in R1. injection R1 as <-. split; [done|]. cbn [tail].
    destruct IH2 as (st & E1 & E2). exists (st ++ [command_of (ibuf_at s i)]). cbn [fmap list_fmap take] in E1, E2.
    assert (forall j, j ∈ q -> command_of (ibuf_at s' j) = command_of (ibuf_at s j)) as Hj.
    { intros j Hj. destruct R3 as (G1 & _). pose proof (qo_nodup _ _ IH1) as Hn. inversion Hn; subst. by rewrite G1 by (by intros ->). }
    rewrite (pending_same s s') by exact Hj. rewrite E1, R6, E2, <- !app_assoc. split; [done|]. by destruct q.
  - rewrite (resume_run s q i IH1) in Hrun. by injection Hrun as _ <-.
  - assert (forall j, j ∈ q -> ibuf_at (upd_ibufs (alter f i) s) j = ibuf_at s j) as Hj.
    { intros j Hj. unfold ibuf_at. cbn [ibufs upd_ibufs]. rewrite list_lookup_alter_ne; [done|by intros ->]. }
    split.
    + destruct IH1 as [H1 H2 H3 H4]. constructor; [done| |done|].
      * eapply linked_frame; [|exact H2]. intros j Hjq. cbn [ibufs upd_ibufs]. rewrite list_lookup_alter_ne; [done|by intros ->].
      * rewrite Forall_forall in *. intros j Hjq. rewrite Hj by done. auto.
    + destruct IH2 as (st & E1 & E2). exists st. rewrite (pending_same s) by (intros j Hjq; by rewrite Hj). done.
Qed.

End Fifo.

(** C15: the disk queue is first in, first out, with one command at a time.  For
    every controller that becomes ready in time, over any interleaving of
    requests, interrupts and woken processes: the controller has received
    exactly the commands of the requests that are finished and of the first one
    pending, in the order of their arrival, each for the block, drive and
    direction of its buffer; a request never panics and sleeps until its
    interrupt; an interrupt finishes the first pending request, whose process is
    woken and finds it done; and a spurious one changes nothing. *)
Theorem ide_fifo dev_in dev_data polls s arr q :
  becomes_ready dev_in polls -> run dev_in dev_data polls s arr q ->
  fifo_ok s arr q /\
  (forall i, (i ∉ q) -> request_ok s i -> exists s', iderw dev_in polls i s = (Sleep (buf_chan i), s')) /\
  (forall i q', q = i :: q' -> exists s', ideintr dev_in dev_data polls s = (Ret tt, s') /\
     woken (ide_env s') = buf_chan i :: woken (ide_env s) /\ iderw_resume i s' = (Ret tt, s')) /\
  (q = [] -> ideintr dev_in dev_data polls s = (Ret tt, s)).
Proof.
  intros Hr Hrun. destruct (run_ok dev_in dev_data polls Hr s arr q Hrun) as [Hq Hf]. split_and!; [done| | |].
  - intros i Hi Hok. destruct (iderw_run dev_in polls Hr s q i Hq Hi Hok) as (s' & H & _). eauto.
  - intros i q' ->. destruct (ideintr_run dev_in dev_data polls Hr s i q' Hq) as (s' & H1 & H2 & H3 & _ & H5 & _). exists s'. split_and!; [done|done|].
    rewrite (resume_run s' q' i H2). destruct H3 as (_ & _ & -> & _). by rewrite completed_done.
  - intros ->. by apply intr_empty.
Qed.

(** A controller that is always ready. *)
Definition ready_disk : list event -> Z := fun _ => 64.

Definition two_bufs : ide :=
  Ide false None 0 [IBuf 0 0 7 true None []; IBuf 4 0 9 true None [1]] [] (Env 1 false []).

Definition after_one : ide := snd (iderw ready_disk 1 0 two_bufs).

Definition after_two : ide := snd (iderw ready_disk 1 1 after_one).

Definition two_data : list event -> list Z := fun _ => [5].

Lemma requests_ok : request_ok two_bufs 0 /\ request_ok after_one 1.
Proof.
  assert (ibuf_at after_one 1 = IBuf 4 0 9 true None [1]) as E by (vm_compute; reflexivity).
  assert (length (ibufs after_one) = 2%nat) as El by (vm_compute; reflexivity).
  unfold request_ok, needs_work, DISK_BLOCKS. rewrite E, El. change (ibuf_at two_bufs 0) with (IBuf 0 0 7 true None []). change (length (ibufs two_bufs)) with 2%nat.
  cbn [q_locked q_flags q_blockno q_dev]. repeat split; first [done | lia | by left | by vm_compute].
Qed.

Lemma requests_run : iderw ready_disk 1 0 two_bufs = (Sleep (buf_chan 0), after_one) /\ iderw ready_disk 1 1 after_one = (Sleep (buf_chan 1), after_two).
Proof. split; unfold after_two, after_one; vm_compute; reflexivity. Qed.

Lemma two_requests : run ready_disk two_data 1 after_two (([] ++ [command_of (ibuf_at two_bufs 0)]) ++ [command_of (ibuf_at after_one 1)]) (([] ++ [0%nat]) ++ [1%nat]).
Proof.
  apply (run_request _ _ _ after_one); [|set_solver|apply requests_ok|apply requests_run].
  apply (run_request _ _ _ two_bufs); [by apply run_init|set_solver|apply requests_ok|apply requests_run].
Qed.

Lemma ready_disk_ok : becomes_ready ready_disk 1.
Proof. intros tr. exists 0%nat. split; [lia|done]. Qed.

Lemma ide_fifo_witness :
  commands (events after_two) = [Command 32 0 7 1] /\
  exists s', ideintr ready_disk two_data 1 after_two = (Ret tt, s') /\ iderw_resume 0 s' = (Ret tt, s').
Proof.
  split; [vm_compute; reflexivity|].
  destruct (ide_fifo ready_disk two_data 1 after_two _ _ ready_disk_ok two_requests) as (_ & _ & H & _).
  destruct (H 0%nat [1%nat] eq_refl) as (s' & E1 & _ & E2). exists s'. split; [exact E1|exact E2].
Defined.
