(* ===== verification/Nic.v ===== *)
(** * The network card and PCI (src/xv6/i8254.c, i8254.h, pci.c, pci.h)

    Memory and the card's memory-mapped registers are one byte memory, addressed
    by kernel virtual addresses; the global arrays of the network code live at
    addresses that are parameters.  The configuration space of PCI and what the
    card puts into its EEPROM register are parameters.  Console messages are
    left out.  [frames] records the packets handed to the card. *)
From S2P Require Import Prelude Mem.

Definition NIC_KERNBASE : Z := 2147483648.

Definition PCI_VP_OFFSET : Z := 1073741824.

(** [struct pci_dev] *)
Record pci_dev : Type := PciDev {
  bus_num : Z;
  device_num : Z;
  function_num : Z;
  device_id : Z;
  vendor_id : Z;
  base_class : Z;
  sub_class : Z;
  interface : Z;
  revision_id : Z;
  bar0 : Z;
  bar1 : Z;
}.

(** The memory, the pages [kalloc] will return, the scalar globals of the
    network code, the last configuration address, and the frames sent, the last
    one first. *)
Record net : Type := Net {
  nmem : mem;
  pages : list Z;
  base_addr : Z;
  intr_addr : Z;
  ip_id : Z;
  send_id : Z;
  seq_num : Z;
  fin_flag : Z;
  pci_writes : list (Z * Z);
  pci_found : list pci_dev;
  frames : list (list Z);
}.

Definition upd_nmem (f : mem -> mem) (s : net) : net :=
  Net (f (nmem s)) (pages s) (base_addr s) (intr_addr s) (ip_id s) (send_id s) (seq_num s) (fin_flag s) (pci_writes s) (pci_found s) (frames s).

Definition set_pages (v : list Z) (s : net) : net :=
  Net (nmem s) v (base_addr s) (intr_addr s) (ip_id s) (send_id s) (seq_num s) (fin_flag s) (pci_writes s) (pci_found s) (frames s).

Definition set_base_addr (v : Z) (s : net) : net :=
  Net (nmem s) (pages s) v (intr_addr s) (ip_id s) (send_id s) (seq_num s) (fin_flag s) (pci_writes s) (pci_found s) (frames s).

Definition set_intr_addr (v : Z) (s : net) : net :=
  Net (nmem s) (pages s) (base_addr s) v (ip_id s) (send_id s) (seq_num s) (fin_flag s) (pci_writes s) (pci_found s) (frames s).

Definition set_ip_id (v : Z) (s : net) : net :=
  Net (nmem s) (pages s) (base_addr s) (intr_addr s) v (send_id s) (seq_num s) (fin_flag s) (pci_writes s) (pci_found s) (frames s).

Definition set_send_id (v : Z) (s : net) : net :=
  Net (nmem s) (pages s) (base_addr s) (intr_addr s) (ip_id s) v (seq_num s) (fin_flag s) (pci_writes s) (pci_found s) (frames s).

Definition set_seq_num (v : Z) (s : net) : net :=
  Net (nmem s) (pages s) (base_addr s) (intr_addr s) (ip_id s) (send_id s) v (fin_flag s) (pci_writes s) (pci_found s) (frames s).

Definition set_fin_flag (v : Z) (s : net) : net :=
  Net (nmem s) (pages s) (base_addr s) (intr_addr s) (ip_id s) (send_id s) (seq_num s) v (pci_writes s) (pci_found s) (frames s).

Definition add_pci_write (w : Z * Z) (s : net) : net :=
  Net (nmem s) (pages s) (base_addr s) (intr_addr s) (ip_id s) (send_id s) (seq_num s) (fin_flag s) (w :: pci_writes s) (pci_found s) (frames s).

Definition add_pci_found (d : pci_dev) (s : net) : net :=
  Net (nmem s) (pages s) (base_addr s) (intr_addr s) (ip_id s) (send_id s) (seq_num s) (fin_flag s) (pci_writes s) (d :: pci_found s) (frames s).

Definition add_frame (f : list Z) (s : net) : net :=
  Net (nmem s) (pages s) (base_addr s) (intr_addr s) (ip_id s) (send_id s) (seq_num s) (fin_flag s) (pci_writes s) (pci_found s) (f :: frames s).

(** ** Accesses *)
Definition rd8 (a : Z) : M net Z := gets (fun s => ld8 (nmem s) (u32 a)).

Definition rd16 (a : Z) : M net Z := gets (fun s => ld16 (nmem s) (u32 a)).

Definition rd32 (a : Z) : M net Z := gets (fun s => ld32 (nmem s) (u32 a)).

Definition wr8 (a v : Z) : M net unit := modify (upd_nmem (fun m => st8 m (u32 a) v)).

Definition wr16 (a v : Z) : M net unit := modify (upd_nmem (fun m => st16 m (u32 a) v)).

Definition wr32 (a v : Z) : M net unit := modify (upd_nmem (fun m => st32 m (u32 a) v)).

Definition copy (dst src n : Z) : M net unit := modify (upd_nmem (fun m => memmove m (u32 dst) (u32 src) n)).

(** The null pointer is 0. *)
Definition net_kalloc : M net Z :=
  s ← get;
  match pages s with
  | [] => ret 0
  | p :: rest => modify (set_pages rest) ;; ret p
  end.

Definition net_kfree (p : Z) : M net unit := s ← get; modify (set_pages (p :: pages s)).

(** ** pci.c *)
Definition pci_config_addr (bus dev func reg : Z) : Z :=
  Z.lor (Z.lor (Z.lor (Z.lor (Z.shiftl (Z.land bus 255) 16) (Z.shiftl (Z.land dev 31) 11)) (Z.shiftl (Z.land func 7) 8)) (Z.land reg 252)) 2147483648.

Definition PCI_CMD_BUS_MASTER : Z := 4.

Definition I8254_DEVICE_ID : Z := 4110.

Definition I8254_VENDOR_ID : Z := 32902.

Definition I8254_RECV_DESC_NUM : Z := 256.

Definition I8254_SEND_DESC_NUM : Z := 256.

Section Card.
(** What the configuration space holds at an address, and what the EEPROM
    register reads at its [n]-th poll after a request. *)
Context (pci_config : Z -> Z) (eerd_at : Z -> nat -> Z) (polls : nat).

(** The address of [mac_addr] *)
Context (mac : Z).

Definition pci_access_config (bus dev func reg : Z) : M net Z := ret (u32 (pci_config (pci_config_addr bus dev func reg))).

Definition pci_write_config_register (bus dev func reg data : Z) : M net unit :=
  modify (add_pci_write (pci_config_addr bus dev func reg, data)).

(** ** i8254.c *)

(** The polling loop: the number of the poll that found the ready bit. *)
Fixpoint eeprom_poll (fuel : nat) (addr : Z) (n : nat) : option nat :=
  match fuel with
  | O => None
  | S k => if negb (Z.land (eerd_at addr n) (Z.shiftl 1 4) =? 0) then Some n else eeprom_poll k addr (S n)
  end.

Definition i8254_read_eeprom (addr : Z) : M net Z :=
  b ← gets base_addr;
  wr32 (b + 20) (Z.lor (Z.shiftl (Z.land addr 255) 8) 1) ;;
  match eeprom_poll polls addr 0 with
  | None => sleep_on 0
  | Some n => ret (Z.land (Z.shiftr (u32 (eerd_at addr (S n))) 16) 65535)
  end.

(** Filling the buffer addresses of a descriptor ring. *)
Definition fill_ring (desc : Z) : M net (option unit) :=
  for_until (Z.of_nat <$> seq 0 128) (fun i =>
    buf ← net_kalloc;
    if buf =? 0 then ret (Some tt)
    else
      wr32 (desc + 16 * i) (u32 (buf - NIC_KERNBASE)) ;;
      wr32 (desc + 16 * (i + 1)) (u32 (buf + 2048 - NIC_KERNBASE)) ;;
      ret None).

Definition i8254_init_recv : M net unit :=
  data_l ← i8254_read_eeprom 0;
  wr8 mac (Z.land data_l 255) ;;
  wr8 (mac + 1) (Z.shiftr data_l 8) ;;
  data_m ← i8254_read_eeprom 1;
  wr8 (mac + 2) (Z.land data_m 255) ;;
  wr8 (mac + 3) (Z.shiftr data_m 8) ;;
  data_h ← i8254_read_eeprom 2;
  wr8 (mac + 4) (Z.land data_h 255) ;;
  wr8 (mac + 5) (Z.shiftr data_h 8) ;;
  b ← gets base_addr;
  wr32 (b + 21504) (Z.lor data_l (Z.shiftl data_m 16)) ;;
  wr32 (b + 21508) (Z.lor (Z.lor data_h 0) (Z.shiftl 1 31)) ;;
  for_each (Z.of_nat <$> seq 0 128) (fun i => wr32 (b + 20992 + 4 * i) 0) ;;
  wr32 (b + 208) 220 ;;
  wr32 (b + 200) 220 ;;
  wr32 (b + 10280) 0 ;;
  wr32 (b + 256) (Z.lor (Z.lor (Z.lor 8 16) 32768) 67108864) ;;
  desc ← net_kalloc;
  wr32 (b + 10240) (u32 (desc - NIC_KERNBASE)) ;;
  wr32 (b + 10244) 0 ;;
  wr32 (b + 10248) (16 * I8254_RECV_DESC_NUM) ;;
  wr32 (b + 10256) 0 ;;
  wr32 (b + 10264) I8254_RECV_DESC_NUM ;;
  for_each (Z.of_nat <$> seq 0 256) (fun i =>
    wr32 (desc + 16 * i + 4) 0 ;;
    wr16 (desc + 16 * i + 8) 0 ;;
    wr16 (desc + 16 * i + 10) 0 ;;
    wr8 (desc + 16 * i + 12) 0 ;;
    wr8 (desc + 16 * i + 13) 0 ;;
    wr16 (desc + 16 * i + 14) 0) ;;
  fill_ring desc ;;
  rctl ← rd32 (b + 256);
  wr32 (b + 256) (Z.lor rctl 2).

Definition i8254_init_send : M net unit :=
  b ← gets base_addr;
  wr32 (b + 14376) (Z.lor (Z.shiftl 1 16) (Z.shiftl 1 24)) ;;
  desc ← net_kalloc;
  wr32 (b + 14336) (u32 (desc - NIC_KERNBASE)) ;;
  wr32 (b + 14340) 0 ;;
  wr32 (b + 14344) (16 * I8254_SEND_DESC_NUM) ;;
  wr32 (b + 14352) 0 ;;
  wr32 (b + 14360) 0 ;;
  for_each (Z.of_nat <$> seq 0 256) (fun i =>
    wr32 (desc + 16 * i + 4) 0 ;;
    wr16 (desc + 16 * i + 8) 0 ;;
    wr8 (desc + 16 * i + 10) 0 ;;
    wr8 (desc + 16 * i + 11) 0 ;;
    wr8 (desc + 16 * i + 12) 0 ;;
    wr8 (desc + 16 * i + 13) 0 ;;
    wr16 (desc + 16 * i + 14) 0) ;;
  fill_ring desc ;;
  wr32 (b + 1024) (Z.lor (Z.lor (Z.lor 2 8) (Z.shiftl 64 12)) (Z.shiftl 15 4)) ;;
  wr32 (b + 1040) (Z.lor (Z.lor 10 (Z.shiftl 10 10)) (Z.shiftl 10 20)).

Definition i8254_init (d : pci_dev) : M net unit :=
  cmd_reg ← pci_access_config (bus_num d) (device_num d) (function_num d) 4;
  pci_write_config_register (bus_num d) (device_num d) (function_num d) 4 (Z.lor cmd_reg PCI_CMD_BUS_MASTER) ;;
  let b := u32 (bar0 d + PCI_VP_OFFSET) in
  modify (set_base_addr b) ;;
  wr32 (b + 216) 4294967295 ;;
  ctrl ← rd32 b;
  wr32 b (Z.lor ctrl (Z.shiftl 1 26)) ;;
  wr32 (b + 216) 4294967295 ;;
  ctrl ← rd32 b;
  wr32 b (Z.lor ctrl (Z.shiftl 1 6)) ;;
  ctrl ← rd32 b;
  wr32 b (u32 (Z.land ctrl (Z.lor (Z.lor (Z.lnot (Z.shiftl 1 31)) (Z.lnot (Z.shiftl 1 30))) (Z.lnot (Z.shiftl 1 7))))) ;;
  p ← net_kalloc;
  modify (set_intr_addr p) ;;
  wr32 p 0 ;;
  i8254_init_recv ;;
  i8254_init_send ;;
  wr32 (b + 216) 0.

Definition i8254_intr : M net unit := a ← gets intr_addr; wr32 a 15658734.

(** The bytes of a packet, for the record of frames. *)
Definition packet_bytes (m : mem) (a : Z) (n : nat) : list Z := (fun i => ld8 m (a + Z.of_nat i)) <$> seq 0 n.

Definition i8254_send (pkt_addr len : Z) : M net Z :=
  b ← gets base_addr;
  tdh ← rd32 (b + 14352);
  tdt ← rd32 (b + 14360);
  tdbal ← rd32 (b + 14336);
  let txdesc := u32 (tdbal + NIC_KERNBASE) in
  let tx_available := s32 (I8254_SEND_DESC_NUM - u32 (I8254_SEND_DESC_NUM - tdh + tdt) mod I8254_SEND_DESC_NUM) in
  let index := tdt mod I8254_SEND_DESC_NUM in
  if 0 <? tx_available then
    buf ← rd32 (txdesc + 16 * index);
    modify (fun s => add_frame (packet_bytes (nmem s) pkt_addr (Z.to_nat len)) s) ;;
    copy (buf + NIC_KERNBASE) pkt_addr len ;;
    wr16 (txdesc + 16 * index + 8) len ;;
    wr8 (txdesc + 16 * index + 12) 0 ;;
    wr8 (txdesc + 16 * index + 13) 0 ;;
    wr8 (txdesc + 16 * index + 11) 11 ;;
    wr16 (txdesc + 16 * index + 14) 0 ;;
    wr8 (txdesc + 16 * index + 10) 0 ;;
    tdt ← rd32 (b + 14360);
    wr32 (b + 14360) (u32 (tdt + 1) mod I8254_SEND_DESC_NUM) ;;
    ret (s32 len)
  else ret (-1).

(** ** Finding devices *)
Definition pci_init_device (bus dev func : Z) : M net unit :=
  data ← pci_access_config bus dev func 0;
  let device_id := Z.shiftr data 16 in
  let vendor_id := Z.land data 65535 in
  cls ← pci_access_config bus dev func 8;
  b0 ← pci_access_config bus dev func 16;
  b1 ← pci_access_config bus dev func 20;
  let d := PciDev (u8 bus) (u8 dev) (u8 func) device_id vendor_id (u8 (Z.shiftr cls 24)) (Z.land (Z.shiftr cls 16) 255)
             (Z.land (Z.shiftr cls 8) 255) (Z.land cls 255) b0 b1 in
  modify (add_pci_found d) ;;
  when ((device_id =? I8254_DEVICE_ID) && (vendor_id =? I8254_VENDOR_ID)) (i8254_init d).

Definition pci_init : M net unit :=
  for_each (Z.of_nat <$> seq 0 256) (fun i =>
    for_each (Z.of_nat <$> seq 0 32) (fun j =>
      for_each (Z.of_nat <$> seq 0 8) (fun k =>
        data ← pci_access_config i j k 0;
        when (negb (Z.land data 65535 =? 65535)) (pci_init_device i j k)))).

End Card.
