(* ===== verification/Net.v ===== *)
(** * Network protocols (src/xv6/eth.c, arp.c, ipv4.c, icmp.c, tcp.c, http.c)

    Packets are bytes in memory at the offsets of the packed structures of
    pkts_hdr.h.  The global arrays [mac_addr], [my_ip] and [arp_table] live at
    the addresses [mac], [my_ip] and [arp_table]. *)
From S2P Require Import Prelude Mem Nic.

(** Sizes of the packed structures. *)
Definition ETH_SIZE : Z := 14.

Definition ARP_SIZE : Z := 30.

Definition IPV4_SIZE : Z := 20.

Definition ICMP_SIZE : Z := 64.

Definition TCP_SIZE : Z := 20.

Definition ARP_ENTRY_SIZE : Z := 11.

Definition ARP_TABLE_MAX : Z := 64.

Definition ARP_HARDWARE_TYPE : Z := 256.

Definition ARP_PROTOCOL_TYPE : Z := 8.

Definition ARP_OPS_REQUEST : Z := 256.

Definition ARP_OPS_REPLY : Z := 512.

Definition ARP_UPDATED_TABLE : Z := 1.

Definition ARP_CREATED_REPLY : Z := 2.

Definition IPV4_TYPE_ICMP : Z := 1.

Definition IPV4_TYPE_TCP : Z := 6.

Definition ICMP_TYPE_ECHO_REQUEST : Z := 8.

Definition ICMP_TYPE_ECHO_REPLY : Z := 0.

Definition TCP_CODEBITS_ACK : Z := 16.

Definition TCP_CODEBITS_PSH : Z := 8.

Definition TCP_CODEBITS_SYN : Z := 2.

Definition TCP_CODEBITS_FIN : Z := 1.

(** ** Byte order *)
Definition N2H_ushort (value : Z) : Z := u16 (Z.shiftl (Z.land value 255) 8 + Z.shiftr value 8).

Definition H2N_ushort (value : Z) : Z := u16 (Z.shiftl (Z.land value 255) 8 + Z.shiftr value 8).

Definition H2N_uint (value : Z) : Z :=
  u32 (Z.shiftl (Z.land value 15) 24 + Z.shiftl (Z.land value 240) 8 + Z.shiftr (Z.land value 3840) 8 + Z.shiftr (Z.land value 61440) 24).

Definition N2H_uint (value : Z) : Z :=
  u32 (Z.shiftl (Z.land value 255) 24 + Z.shiftl (Z.land value 65280) 8 + Z.shiftr (Z.land value 16711680) 8 + Z.shiftr (Z.land value 4278190080) 24).

(** ** Checksums *)

(** The body of the summing loops: the carry goes round. *)
Definition chk_add (chk_sum w : Z) : Z :=
  let chk_sum := u32 (chk_sum + w) in
  if 65535 <? chk_sum then Z.land chk_sum 65535 + 1 else chk_sum.

(** [(bin[i*2]<<8)+bin[i*2+1]] *)
Definition be16 (m : mem) (a : Z) : Z := Z.shiftl (ld8 m a) 8 + ld8 m (a + 1).

(** The words of [n] half-words at [a]. *)
Definition words_at (m : mem) (a : Z) (n : nat) : list Z := (fun i => be16 m (a + 2 * Z.of_nat i)) <$> seq 0 n.

Definition chk_fold (ws : list Z) : Z := foldl chk_add 0 ws.

Definition ipv4_chksum (m : mem) (a : Z) : Z :=
  let len := u8 (Z.land (ld8 m a) 15 * 2) in
  u16 (Z.lnot (chk_fold (words_at m a (Z.to_nat len)))).

Definition icmp_chksum (m : mem) (a : Z) : Z := u16 (Z.lnot (chk_fold (words_at m a 32))).

Section Protocols.
Context (mac my_ip arp_table : Z).

(** Copying a local array or a literal. *)
Definition put (dst : Z) (bs : list Z) : M net unit :=
  for_each (imap (fun i b => (Z.of_nat i, b)) bs) (fun x => wr8 (dst + fst x) (snd x)).

Definition cmp (a b n : Z) : M net Z := gets (fun s => memcmp (nmem s) (u32 a) (u32 b) (Z.to_nat n)).

(** ** arp.c *)
Definition arp_entry (i : Z) : Z := arp_table + ARP_ENTRY_SIZE * i.

(** The loop of [arp_table_search]: [inl] of the index found, [inr] of [empty]. *)
Fixpoint arp_search_loop (m : mem) (ip : Z) (idx : list Z) (empty : Z) : Z + Z :=
  match idx with
  | [] => inr empty
  | i :: rest =>
      if memcmp m (arp_entry i) ip 4 =? 0 then inl i
      else arp_search_loop m ip rest (if (ld8 m (arp_entry i + 10) =? 0) && (empty =? 1) then - i else empty)
  end.

Definition arp_table_search (m : mem) (ip : Z) : Z :=
  match arp_search_loop m ip (Z.of_nat <$> seq 0 (Z.to_nat ARP_TABLE_MAX)) 1 with
  | inl i => i
  | inr empty => empty - 1
  end.

Definition arp_table_update (recv_arp : Z) : M net unit :=
  m ← gets nmem;
  let index := arp_table_search m (recv_arp + 14) in
  if -1 <? index then copy (arp_entry index + 4) (recv_arp + 8) 6
  else
    let index := - (index + 1) in
    copy (arp_entry index + 4) (recv_arp + 8) 6 ;;
    copy (arp_entry index) (recv_arp + 14) 4 ;;
    wr8 (arp_entry index + 10) 1.

(** The fields both ARP packets share; returns the size. *)
Definition arp_header (send op : Z) : M net unit :=
  let a := send + ETH_SIZE in
  wr16 a ARP_HARDWARE_TYPE ;;
  wr16 (a + 2) ARP_PROTOCOL_TYPE ;;
  wr8 (a + 4) 6 ;;
  wr8 (a + 5) 4 ;;
  wr16 (a + 6) op.

Definition arp_reply_pkt_create (arp_recv send : Z) : M net Z :=
  let a := send + ETH_SIZE in
  wr8 (send + 12) 8 ;;
  wr8 (send + 13) 6 ;;
  copy send (arp_recv + 8) 6 ;;
  copy (send + 6) mac 6 ;;
  arp_header send ARP_OPS_REPLY ;;
  copy (a + 18) (arp_recv + 8) 6 ;;
  copy (a + 24) (arp_recv + 14) 4 ;;
  copy (a + 8) mac 6 ;;
  copy (a + 14) my_ip 4 ;;
  ret (ETH_SIZE + ARP_SIZE).

Definition arp_broadcast (send ip : Z) : M net Z :=
  let a := send + ETH_SIZE in
  wr8 (send + 12) 8 ;;
  wr8 (send + 13) 6 ;;
  put send [255; 255; 255; 255; 255; 255] ;;
  copy (send + 6) mac 6 ;;
  arp_header send ARP_OPS_REQUEST ;;
  put (a + 18) [0; 0; 0; 0; 0; 0] ;;
  put (a + 24) [10; 0; 1; u8 ip] ;;
  copy (a + 8) mac 6 ;;
  copy (a + 14) my_ip 4 ;;
  ret (ETH_SIZE + ARP_SIZE).

Definition arp_proc (a : Z) : M net Z :=
  hrd ← rd16 a;
  pro ← rd16 (a + 2);
  hlen ← rd8 (a + 4);
  plen ← rd8 (a + 5);
  to_me ← cmp my_ip (a + 24) 4;
  from_me ← cmp my_ip (a + 14) 4;
  op ← rd16 (a + 6);
  if negb (hrd =? ARP_HARDWARE_TYPE) then ret (-1)
  else if negb (pro =? ARP_PROTOCOL_TYPE) then ret (-1)
  else if negb (hlen =? 6) then ret (-1)
  else if negb (plen =? 4) then ret (-1)
  else if negb (to_me =? 0) && negb (from_me =? 0) then ret (-1)
  else if (op =? ARP_OPS_REQUEST) && (to_me =? 0) then
    send ← net_kalloc;
    send_size ← arp_reply_pkt_create a send;
    i8254_send send send_size ;;
    net_kfree send ;;
    ret ARP_CREATED_REPLY
  else if (op =? ARP_OPS_REPLY) && (to_me =? 0) then
    arp_table_update a ;;
    ret ARP_UPDATED_TABLE
  else ret (-1).

(** [while(res == -1)]: the card makes room in finitely many rounds. *)
Fixpoint send_retry (fuel : nat) (send size : Z) : M net unit :=
  match fuel with
  | O => sleep_on 0
  | S k =>
      res ← i8254_send send size;
      if res =? -1 then send_retry k send size else ret tt
  end.

Definition arp_scan (fuel : nat) : M net unit :=
  for_each (Z.of_nat <$> seq 0 256) (fun i =>
    send ← net_kalloc;
    send_size ← arp_broadcast send i;
    send_retry fuel send send_size ;;
    net_kfree send).

(** ** icmp.c *)

(** The Ethernet and IPv4 headers of a reply, which [icmp_reply_pkt_create] and
    [tcp_pkt_create] both write. *)
Definition ipv4_header (recv_addr send_addr total fragment protocol : Z) : M net unit :=
  let r := recv_addr + ETH_SIZE in
  let p := send_addr + ETH_SIZE in
  copy send_addr (recv_addr + 6) 6 ;;
  copy (send_addr + 6) mac 6 ;;
  wr8 (send_addr + 12) 8 ;;
  wr8 (send_addr + 13) 0 ;;
  wr8 p (Z.shiftl 4 4 + Z.land (IPV4_SIZE / 4) 15) ;;
  wr8 (p + 1) 0 ;;
  wr16 (p + 2) (H2N_ushort (u16 total)) ;;
  id ← gets send_id;
  wr16 (p + 4) id ;;
  modify (set_send_id (u16 (id + 1))) ;;
  wr16 (p + 6) (H2N_ushort fragment) ;;
  wr8 (p + 8) 255 ;;
  wr8 (p + 9) protocol ;;
  copy (p + 12) my_ip 4 ;;
  copy (p + 16) (r + 12) 4 ;;
  wr16 (p + 10) 0 ;;
  m ← gets nmem;
  wr16 (p + 10) (H2N_ushort (ipv4_chksum m (u32 p))).

Definition icmp_reply_pkt_create (recv_addr send_addr : Z) : M net Z :=
  let r := recv_addr + ETH_SIZE in
  let p := send_addr + ETH_SIZE in
  ver ← rd8 r;
  let ir := r + Z.land ver 15 * 4 in
  let ip := p + IPV4_SIZE in
  ipv4_header recv_addr send_addr (IPV4_SIZE + ICMP_SIZE) 16384 IPV4_TYPE_ICMP ;;
  wr8 ip ICMP_TYPE_ECHO_REPLY ;;
  wr8 (ip + 1) 0 ;;
  id ← rd16 (ir + 4);
  wr16 (ip + 4) id ;;
  sq ← rd16 (ir + 6);
  wr16 (ip + 6) sq ;;
  copy (ip + 8) (ir + 8) 8 ;;
  copy (ip + 16) (ir + 16) 48 ;;
  wr16 (ip + 2) 0 ;;
  m ← gets nmem;
  wr16 (ip + 2) (H2N_ushort (icmp_chksum m (u32 ip))) ;;
  ret (ETH_SIZE + IPV4_SIZE + ICMP_SIZE).

Definition icmp_proc (buffer_addr : Z) : M net unit :=
  let r := buffer_addr + ETH_SIZE in
  ver ← rd8 r;
  let ir := r + Z.land ver 15 * 4 in
  code ← rd8 (ir + 1);
  type ← rd8 ir;
  when ((code =? 0) && (type =? ICMP_TYPE_ECHO_REQUEST))
    (send_addr ← net_kalloc;
     send_size ← icmp_reply_pkt_create buffer_addr send_addr;
     i8254_send send_addr send_size ;;
     net_kfree send_addr).

(** ** http.c *)

(** The bytes before the terminator go to [dst + start_index]; their number. *)
Definition http_strcpy (dst : Z) (src : list Z) (start_index : Z) : M net Z :=
  put (dst + start_index) src ;;
  ret (Z.of_nat (length src)).

Definition text (s : string) : list Z := (fun a => Z.of_N (Ascii.N_of_ascii a)) <$> String.list_ascii_of_string s.

(** [tcp_fin] of tcp.c *)
Definition tcp_fin : M net unit := modify (set_fin_flag 1).

Definition http_proc (send : Z) : M net Z :=
  len ← http_strcpy send (text "HTTP/1.0 200 OK " ++ [13; 10]) 0;
  len1 ← http_strcpy send (text "Content-Type: text/html " ++ [13; 10]) len;
  let len := len + len1 in
  len2 ← http_strcpy send ([13; 10] ++ text "Hello World!" ++ [13; 10]) len;
  let len := len + len2 in
  when (negb (Z.rem len 2 =? 0)) (wr8 (send + len) 0) ;;
  tcp_fin ;;
  ret len.

(** ** tcp.c *)

(** The pseudo header and the segment, summed without wrapping the carry until
    the end. *)
Definition tcp_chksum (m : mem) (tcp_addr : Z) : Z :=
  let tcp_len := H2N_ushort (u16 (N2H_ushort (ld16 m (tcp_addr + 2)) - IPV4_SIZE)) in
  let dummy := [be16 m my_ip; be16 m (my_ip + 2); be16 m (tcp_addr + 12); be16 m (tcp_addr + 14); IPV4_TYPE_TCP; N2H_ushort tcp_len] in
  let n := N2H_ushort tcp_len / 2 in
  let chk_sum := foldl (fun s w => u32 (s + w)) 0 (dummy ++ words_at m (tcp_addr + IPV4_SIZE) (Z.to_nat n)) in
  let chk_sum := u32 (chk_sum + Z.shiftr chk_sum 16) in
  u16 (Z.lnot chk_sum).

Definition tcp_pkt_create (recv_addr send_addr pkt_type payload_size : Z) : M net Z :=
  let r := recv_addr + ETH_SIZE in
  let p := send_addr + ETH_SIZE in
  ver ← rd8 r;
  let tr := r + Z.land ver 15 * 4 in
  let tp := p + IPV4_SIZE in
  ipv4_header recv_addr send_addr (IPV4_SIZE + TCP_SIZE + payload_size) 0 IPV4_TYPE_TCP ;;
  dport ← rd16 (tr + 2);
  wr16 tp dport ;;
  sport ← rd16 tr;
  wr16 (tp + 2) sport ;;
  sq ← gets seq_num;
  wr32 (tp + 4) (H2N_uint sq) ;;
  rsq ← rd32 (tr + 4);
  wr32 (tp + 8) (u32 (rsq + Z.shiftl 1 24)) ;;
  wr8 (tp + 12) 0 ;;
  wr8 (tp + 13) 0 ;;
  wr8 (tp + 12) (Z.shiftl 5 4) ;;
  wr8 (tp + 13) pkt_type ;;
  wr16 (tp + 14) (H2N_ushort 14480) ;;
  wr16 (tp + 18) 0 ;;
  wr16 (tp + 16) 0 ;;
  m ← gets nmem;
  wr16 (tp + 16) (H2N_ushort (u16 (tcp_chksum m (u32 p) + 8))) ;;
  ret (ETH_SIZE + IPV4_SIZE + TCP_SIZE + payload_size).

(** Both branches of the test for GET do the same on the wire. *)
Definition tcp_reply_page (buffer_addr send_addr : Z) : M net Z :=
  send_size ← tcp_pkt_create buffer_addr send_addr TCP_CODEBITS_ACK 0;
  i8254_send send_addr send_size ;;
  payload_size ← http_proc (send_addr + ETH_SIZE + IPV4_SIZE + TCP_SIZE);
  tcp_pkt_create buffer_addr send_addr (Z.lor TCP_CODEBITS_ACK TCP_CODEBITS_PSH) payload_size.

Definition tcp_proc (buffer_addr : Z) : M net unit :=
  let r := buffer_addr + ETH_SIZE in
  ver ← rd8 r;
  let tp := r + Z.land ver 15 * 4 in
  send_addr ← net_kalloc;
  bits ← rd8 (tp + 13);
  (if negb (Z.land bits TCP_CODEBITS_SYN =? 0) then
     send_size ← tcp_pkt_create buffer_addr send_addr (Z.lor TCP_CODEBITS_ACK TCP_CODEBITS_SYN) 0;
     i8254_send send_addr send_size ;;
     sq ← gets seq_num;
     modify (set_seq_num (u32 (sq + 1)))
   else if bits =? Z.lor TCP_CODEBITS_PSH TCP_CODEBITS_ACK then
     send_size ← tcp_reply_page buffer_addr send_addr;
     i8254_send send_addr send_size ;;
     sq ← gets seq_num;
     modify (set_seq_num (u32 (sq + 1)))
   else if bits =? TCP_CODEBITS_ACK then
     fin ← gets fin_flag;
     when (fin =? 1)
       (send_size ← tcp_pkt_create buffer_addr send_addr TCP_CODEBITS_FIN 0;
        i8254_send send_addr send_size ;;
        modify (set_fin_flag 0))
   else ret tt) ;;
  net_kfree send_addr.

(** ** ipv4.c, eth.c and the receive loop of i8254.c *)
Definition ipv4_proc (buffer_addr : Z) : M net unit :=
  let r := buffer_addr + 14 in
  id ← rd16 (r + 4);
  last ← gets ip_id;
  from_me ← cmp my_ip (r + 12) 4;
  when (negb (last =? id) && negb (from_me =? 0))
    (modify (set_ip_id id) ;;
     protocol ← rd8 (r + 9);
     if protocol =? IPV4_TYPE_ICMP then icmp_proc buffer_addr
     else when (protocol =? IPV4_TYPE_TCP) (tcp_proc buffer_addr)).

Definition eth_proc (buffer_addr : Z) : M net unit :=
  t0 ← rd8 (buffer_addr + 12);
  t1 ← rd8 (buffer_addr + 13);
  if (t0 =? 8) && (t1 =? 6) then arp_proc (buffer_addr + ETH_SIZE) ;; ret tt
  else when ((t0 =? 8) && (t1 =? 0)) (ipv4_proc buffer_addr).

(** One round of the endless loop of [i8254_recv]. *)
Definition i8254_recv_round : M net unit :=
  b ← gets base_addr;
  rdbal ← rd32 (b + 10240);
  rdt ← rd32 (b + 10264);
  rdh ← rd32 (b + 10256);
  let desc := u32 (rdbal + NIC_KERNBASE) in
  let rx_available := s32 (u32 (I8254_RECV_DESC_NUM - rdt + rdh) mod I8254_RECV_DESC_NUM) in
  when (0 <? rx_available)
    (buf ← rd32 (desc + 16 * rdt);
     wr32 (b + 10264) (u32 (rdt + 1) mod I8254_RECV_DESC_NUM) ;;
     eth_proc (u32 (buf + NIC_KERNBASE))) ;;
  rdt ← rd32 (b + 10264);
  rdh ← rd32 (b + 10256);
  when (rdt =? rdh) (wr32 (b + 10264) (u32 (rdt - 1))).

End Protocols.
