(* ===== verification/NetSum.v ===== *)
(** * Replies of the network code: checksums and contents *)
From S2P Require Import Prelude Mem Nic Net.

(** ** One's complement sums *)
Lemma chk_add_small s w : 0 <= s <= 65535 -> 0 <= w <= 65535 -> chk_add s w = if 65535 <? s + w then s + w - 65535 else s + w.
Proof.
  intros Hs Hw. unfold chk_add. rewrite u32_small by lia. destruct (65535 <? s + w) eqn:E; bool_to_prop; [|done].
  change 65535 with (2 ^ 16 - 1) at 1. rewrite land_ones_mod by lia. change (2 ^ 16) with 65536. zdm.
Qed.

Definition total (ws : list Z) : Z := foldr Z.add 0 ws.

Lemma foldl_chk_add ws : forall s, 0 <= s <= 65535 -> Forall (fun w => 0 <= w <= 65535) ws ->
  0 <= foldl chk_add s ws <= 65535 /\ (exists k, 0 <= k /\ foldl chk_add s ws = s + total ws - 65535 * k) /\ (foldl chk_add s ws = 0 -> s = 0 /\ total ws = 0).
Proof.
  induction ws as [|w ws IH]; intros s Hs Hw; cbn [foldl total foldr].
  - split; [lia|split; [exists 0; lia|lia]].
  - inversion Hw as [|? ? Hw1 Hw2]; subst. rewrite chk_add_small by done.
    destruct (IH (if 65535 <? s + w then s + w - 65535 else s + w)) as (H1 & (k & Hk & H2) & H3); [destruct (_ <? _) eqn:E; bool_to_prop; lia|done|].
    split; [done|]. fold (total ws) in *. split.
    + rewrite H2. destruct (_ <? _); [exists (k + 1)|exists k]; lia.
    + intros H. destruct (H3 H) as [H4 H5]. destruct (_ <? _) eqn:E; bool_to_prop; lia.
Qed.

(** A sum that is a multiple of 65535 and not 0 folds to all ones. *)
Lemma chk_fold_ones ws j : Forall (fun w => 0 <= w <= 65535) ws -> total ws = 65535 * j -> 0 < total ws -> chk_fold ws = 65535.
Proof.
  intros Hw Ht Hp. unfold chk_fold. destruct (foldl_chk_add ws 0 ltac:(lia) Hw) as (H1 & (k & Hk & H2) & H3).
  assert (foldl chk_add 0 ws <> 0) by (intros H; destruct (H3 H); lia). lia.
Qed.

(** ** Reading what was stored *)
Lemma ld8_memmove_ne m d s n b : 0 <= d -> d + n < 4294967296 -> 0 <= s -> s + n < 4294967296 -> 0 <= n -> ~ (d <= b < d + n) ->
  ld8 (memmove m d s n) b = ld8 m b.
Proof. intros. rewrite memmove_bytes by lia. destruct (decide _); [lia|done]. Qed.

Lemma ld8_memmove_eq m d s n b : 0 <= d -> d + n < 4294967296 -> 0 <= s -> s + n < 4294967296 -> 0 <= n -> d <= b < d + n ->
  ld8 (memmove m d s n) b = ld8 m (s + (b - d)).
Proof. intros. rewrite memmove_bytes by lia. destruct (decide _); [done|lia]. Qed.

Lemma be16_range m a : 0 <= be16 m a <= 65535.
Proof. unfold be16. pose proof (ld8_range m a). pose proof (ld8_range m (a + 1)). rewrite Z.shiftl_mul_pow2 by lia. change (2 ^ 8) with 256. lia. Qed.

(** The bytes of a half-word in network order. *)
Lemma H2N_bytes v : 0 <= v < 65536 -> Z.shiftl (u8 (H2N_ushort v)) 8 + u8 (Z.shiftr (H2N_ushort v) 8) = v.
Proof.
  intros Hv. unfold H2N_ushort, u8, u16.
  rewrite !Z.shiftl_mul_pow2, !Z.shiftr_div_pow2 by lia. change 255 with (2 ^ 8 - 1). rewrite land_ones_mod by lia. change (2 ^ 8) with 256. zdm.
Qed.

Lemma be16_stored m a v : 0 <= v < 65536 -> be16 (st16 m a (H2N_ushort v)) a = v.
Proof. intros Hv. unfold be16, st16. rewrite (ld8_st8_ne _ (a + 1) a), !ld8_st8_eq by lia. by apply H2N_bytes. Qed.

Lemma be16_zero m a : be16 (st16 m a 0) a = 0.
Proof. unfold be16, st16. rewrite (ld8_st8_ne _ (a + 1) a), !ld8_st8_eq by lia. done. Qed.

Lemma be16_st16_ne m a v b : b + 1 < a \/ a + 1 < b -> be16 (st16 m a v) b = be16 m b.
Proof. intros H. unfold be16. by rewrite !ld8_st16_ne by lia. Qed.

Lemma words_at_range m a n : Forall (fun w => 0 <= w <= 65535) (words_at m a n).
Proof. apply Forall_forall. intros w Hw. apply list_elem_of_fmap in Hw as (i & -> & _). apply be16_range. Qed.

Lemma words_at_split m a k n : words_at m a (k + S n) = words_at m a k ++ be16 m (a + 2 * Z.of_nat k) :: words_at m (a + 2 * Z.of_nat k + 2) n.
Proof.
  unfold words_at. rewrite seq_app, fmap_app. cbn [seq fmap list_fmap Nat.add]. f_equal. f_equal.
  rewrite <- (fmap_add_seq 0 (S k) n) || rewrite (fmap_S_seq k n) || idtac.
  apply list_eq. intros i. rewrite !list_lookup_fmap. destruct (decide (i < n)%nat) as [Hi|Hi].
  - rewrite !lookup_seq_lt by done. simpl. do 2 f_equal. lia.
  - rewrite !lookup_seq_ge by lia. done.
Qed.

Lemma words_at_same m m' a n : (forall b, a <= b < a + 2 * Z.of_nat n -> ld8 m' b = ld8 m b) -> words_at m' a n = words_at m a n.
Proof.
  intros H. unfold words_at. apply list_fmap_ext. intros k i Hi. apply lookup_seq in Hi as [-> Hi]. unfold be16. rewrite !H by lia. done.
Qed.

Lemma total_app l1 l2 : total (l1 ++ l2) = total l1 + total l2.
Proof. unfold total. induction l1 as [|w l1 IH]; [done|]. cbn [app foldr]. lia. Qed.

Lemma total_nonneg ws : Forall (fun w => 0 <= w <= 65535) ws -> 0 <= total ws.
Proof. unfold total. induction 1; cbn [foldr]; lia. Qed.

(** Storing the complement of the sum in a field that was 0 makes the sum all
    ones, which is how a receiver checks it. *)
Lemma checksum_valid m a k n : let f := a + 2 * Z.of_nat k in
  let m0 := st16 m f 0 in
  chk_fold (words_at (st16 m0 f (H2N_ushort (u16 (Z.lnot (chk_fold (words_at m0 a (k + S n))))))) a (k + S n)) = 65535.
Proof.
  cbv zeta. set (f := a + 2 * Z.of_nat k). set (m0 := st16 m f 0). set (c := chk_fold (words_at m0 a (k + S n))).
  pose proof (words_at_range m0 a (k + S n)) as Hr. destruct (foldl_chk_add _ 0 ltac:(lia) Hr) as (H1 & (j & Hj & H2) & H3). fold (chk_fold (words_at m0 a (k + S n))) in *. fold c in H1, H2, H3.
  assert (u16 (Z.lnot c) = 65535 - c) as ->. { unfold u16. unfold Z.lnot. zdm. }
  set (m1 := st16 m0 f (H2N_ushort (65535 - c))).
  assert (forall b, b <> f -> b <> f + 1 -> ld8 m1 b = ld8 m0 b) as Hm by (intros; by apply ld8_st16_ne).
  assert (words_at m1 a (k + S n) = words_at m0 a k ++ (65535 - c) :: words_at m0 (f + 2) n) as Hw1.
  { rewrite words_at_split. fold f. f_equal; [apply words_at_same; intros b Hb; apply Hm; lia|]. f_equal; [apply be16_stored; lia|].
    apply words_at_same. intros b Hb. apply Hm; lia. }
  assert (words_at m0 a (k + S n) = words_at m0 a k ++ 0 :: words_at m0 (f + 2) n) as Hw0.
  { rewrite words_at_split. fold f. f_equal. f_equal. apply be16_zero. }
  rewrite Hw0 in H2, H3. rewrite total_app in H2, H3. cbn [total foldr] in H2, H3. fold (total (words_at m0 (f + 2) n)) in H2, H3.
  pose proof (total_nonneg _ (words_at_range m0 a k)). pose proof (total_nonneg _ (words_at_range m0 (f + 2) n)).
  apply (chk_fold_ones _ (j + 1)).
  - apply words_at_range.
  - rewrite Hw1, total_app. cbn [total foldr]. fold (total (words_at m0 (f + 2) n)). lia.
  - rewrite Hw1, total_app. cbn [total foldr]. fold (total (words_at m0 (f + 2) n)). destruct (decide (c = 65535)) as [Hc|]; [|lia]. lia.
Qed.

Lemma ld8_st8_at m a b v : a = b -> ld8 (st8 m a v) b = u8 v.
Proof. intros ->. apply ld8_st8_eq. Qed.

(** A half-word copied from memory, byte by byte. *)
Lemma ld8_st16_copied m a n x i : 0 <= i < 2 -> ld8 (st16 m a (ld16 n x)) (a + i) = ld8 n (x + i).
Proof.
  intros Hi. unfold st16, ld16. pose proof (ld8_range n x). pose proof (ld8_range n (x + 1)). rewrite Z.shiftr_div_pow2 by lia. change (2 ^ 8) with 256.
  destruct (decide (i = 0)) as [->|].
  - rewrite !Z.add_0_r, ld8_st8_ne, ld8_st8_eq by lia. unfold u8. zdm.
  - assert (i = 1) as -> by lia. rewrite ld8_st8_eq. unfold u8. zdm.
Qed.

(** ** The headers of a reply *)
Section Reply.
Context (mac my_ip recv send : Z).

(** The reply is built in a page apart from the request and from the
    addresses of this machine. *)
Definition apart (a n : Z) : Prop := 0 <= a /\ a + n < 4294967296 /\ (a + n <= send \/ send + 98 <= a).

Hypothesis Hsend : 0 <= send /\ send + 98 < 4294967296.
Hypothesis Hrecv : apart recv 138.
Hypothesis Hmac : apart mac 6.
Hypothesis Hip : apart my_ip 4.

Ltac here := unfold apart in *; rewrite ?u32_small by lia.

(** Reads through one store after the other. *)
Ltac skip := repeat first
  [ rewrite ld8_st8_ne by lia | rewrite ld8_st8_at by lia | rewrite ld8_st16_ne by lia
  | rewrite ld8_memmove_ne by lia | rewrite ld8_memmove_eq by lia | rewrite be16_st16_ne by lia ].

(** The memory with both headers written, the checksum field 0. *)
Definition header_mem (m : mem) (id tot fragment protocol : Z) : mem :=
  let p := send + 14 in
  let m := memmove m send (recv + 6) 6 in
  let m := memmove m (send + 6) mac 6 in
  let m := st8 (st8 (st8 (st8 m (send + 12) 8) (send + 13) 0) p 69) (p + 1) 0 in
  let m := st16 (st16 (st16 m (p + 2) (H2N_ushort (u16 tot))) (p + 4) id) (p + 6) (H2N_ushort fragment) in
  let m := st8 (st8 m (p + 8) 255) (p + 9) protocol in
  memmove (memmove m (p + 12) my_ip 4) (p + 16) (recv + 14 + 12) 4.

Lemma ipv4_header_run s tot fragment protocol :
  let m0 := st16 (header_mem (nmem s) (send_id s) tot fragment protocol) (send + 14 + 2 * Z.of_nat 5) 0 in
  exists s', ipv4_header mac my_ip recv send tot fragment protocol s = (Ret tt, s') /\
    nmem s' = st16 m0 (send + 14 + 2 * Z.of_nat 5) (H2N_ushort (u16 (Z.lnot (chk_fold (words_at m0 (send + 14) (5 + 5)))))).
Proof.
  cbv zeta. eexists. split; [reflexivity|]. cbn [nmem upd_nmem set_send_id send_id]. change ETH_SIZE with 14.
  here. change (Z.shiftl 4 4 + Z.land (IPV4_SIZE / 4) 15) with 69. fold (header_mem (nmem s) (send_id s) tot fragment protocol).
  change (send + 14 + 2 * Z.of_nat 5) with (send + 14 + 10). do 3 f_equal. unfold ipv4_chksum.
  assert (ld8 (st16 (header_mem (nmem s) (send_id s) tot fragment protocol) (send + 14 + 10) 0) (send + 14) = 69) as ->; [|done].
  unfold header_mem. by skip.
Qed.

(** What the headers hold. *)
Lemma header_fields m m' id tot fragment protocol :
  (forall b, b <> send + 24 -> b <> send + 25 -> ld8 m' b = ld8 (header_mem m id tot fragment protocol) b) -> 0 <= tot < 65536 ->
  (forall b, ~ (send <= b < send + 34) -> ld8 m' b = ld8 m b) /\
  bytes m' send 6 = bytes m (recv + 6) 6 /\ bytes m' (send + 6) 6 = bytes m mac 6 /\
  bytes m' (send + 26) 4 = bytes m my_ip 4 /\ bytes m' (send + 30) 4 = bytes m (recv + 26) 4 /\
  be16 m' (send + 12) = 2048 /\ be16 m' (send + 16) = tot /\ ld8 m' (send + 23) = u8 protocol.
Proof.
  intros H Ht. here. unfold header_mem in H. split.
  { intros b Hb. rewrite H by lia. skip. done. }
  split_and!; try (apply bytes_ext; intros i Hi; rewrite H by lia; skip; apply (f_equal (ld8 m)); lia).
  - unfold be16. rewrite !H by lia. skip. done.
  - unfold be16. rewrite !H by lia. unfold st16. skip. rewrite u16_small by lia. by apply H2N_bytes.
  - rewrite H by lia. by skip.
Qed.

(** The memory with the echo message written, its checksum field 0. *)
Definition echo_mem (m : mem) (ir : Z) : mem :=
  let ip := send + 14 + 20 in
  let m := st8 (st8 m ip 0) (ip + 1) 0 in
  let m := st16 m (ip + 4) (ld16 m (ir + 4)) in
  let m := st16 m (ip + 6) (ld16 m (ir + 6)) in
  memmove (memmove m (ip + 8) (ir + 8) 8) (ip + 16) (ir + 16) 48.

Lemma header_length m : 0 <= Z.land (ld8 m (recv + 14)) 15 <= 15.
Proof. change (Z.land (ld8 m (recv + 14)) 15) with (Z.land (ld8 m (recv + 14)) (2 ^ 4 - 1)). rewrite land_ones_mod by lia. change (2 ^ 4) with 16. zdm. Qed.

Lemma icmp_reply_run s :
  let ir := recv + 14 + Z.land (ld8 (nmem s) (recv + 14)) 15 * 4 in
  exists s1 s', ipv4_header mac my_ip recv send 84 16384 1 s = (Ret tt, s1) /\
    icmp_reply_pkt_create mac my_ip recv send s = (Ret 98, s') /\
    let m0 := st16 (echo_mem (nmem s1) ir) (send + 34 + 2 * Z.of_nat 1) 0 in
    nmem s' = st16 m0 (send + 34 + 2 * Z.of_nat 1) (H2N_ushort (u16 (Z.lnot (chk_fold (words_at m0 (send + 34) (1 + 31)))))).
Proof.
  cbv zeta. destruct (ipv4_header_run s 84 16384 1) as (s1 & Hrun & _). exists s1. eexists. split; [done|]. pose proof (header_length (nmem s)).
  split.
  - unfold icmp_reply_pkt_create. unfold rd8 at 1. unfold bind, gets. rewrite u32_small by (change ETH_SIZE with 14; here; lia). 
    change (IPV4_SIZE + ICMP_SIZE) with 84. change IPV4_TYPE_ICMP with 1. rewrite Hrun. reflexivity.
  - cbn [nmem upd_nmem]. change (recv + ETH_SIZE) with (recv + 14). change (send + ETH_SIZE + IPV4_SIZE) with (send + 14 + 20).
    here. unfold echo_mem. replace (send + 34) with (send + 14 + 20) by lia. reflexivity.
Qed.

Lemma echo_fields m m' ir : 0 <= ir -> ir + 64 < 4294967296 -> ir + 64 <= send \/ send + 98 <= ir ->
  (forall b, b <> send + 36 -> b <> send + 37 -> ld8 m' b = ld8 (echo_mem m ir) b) ->
  (forall b, ~ (send + 34 <= b < send + 98) -> ld8 m' b = ld8 m b) /\
  ld8 m' (send + 34) = 0 /\ ld8 m' (send + 35) = 0 /\ bytes m' (send + 38) 60 = bytes m (ir + 4) 60.
Proof.
  intros H1 H2 H3 H. here. unfold echo_mem in H. split.
  { intros b Hb. rewrite H by lia. skip. done. }
  split; [rewrite H by lia; by skip|]. split; [rewrite H by lia; by skip|].
  apply bytes_ext. intros i Hi. rewrite H by lia.
  destruct (decide (i < 2)); [skip; replace (send + 38 + i) with (send + 14 + 20 + 4 + i) by lia; rewrite ld8_st16_copied by lia; skip; done|].
  destruct (decide (i < 4)).
  { skip. replace (send + 38 + i) with (send + 14 + 20 + 6 + (i - 2)) by lia. rewrite ld8_st16_copied by lia. skip. apply (f_equal (ld8 m)). lia. }
  destruct (decide (i < 12)); skip; apply (f_equal (ld8 m)); lia.
Qed.
End Reply.

(** ** Echo replies *)


(** An echo request with the usual header at 8192, answered in the page 4096. *)
Definition request : net := Net (st8 (st16 (st8 ∅ 8206 69) 8230 513) 8234 8) [] 0 0 0 7 0 0 [] [] [].

