(* ===== verification/Uthread.v ===== *)
(** * User-level threads (src/xv6/uthread1.c, uthread3.c, uthread4.c,
      uthread_switch.S)

    The three programs have thread tables of different layout and share the
    assembly routine [thread_switch], which takes the saved stack pointer to be
    the first word of [struct thread].  So the table is in byte memory, at the
    address [all_thread], and the registers are part of the state: [thread_switch]
    is modelled instruction by instruction.  A C function that calls
    [thread_switch] returns in another thread; an operation of the model ends
    where that thread goes on.  [exit] is the outcome [Panic]; messages are left
    out. *)
From S2P Require Import Prelude Mem.

Definition T_FREE : Z := 0.

Definition T_RUNNING : Z := 1.

Definition T_RUNNABLE : Z := 2.

Definition T_WAIT : Z := 3.

Definition STACK_SIZE : Z := 8192.

(** Offsets of the fields of [struct thread], its size, and [MAX_THREAD]. *)
Record layout : Type := Layout {
  off_sp : Z;
  off_stack : Z;
  off_state : Z;
  tsize : Z;
  max_thread : nat;
}.

Definition layout1 : layout := Layout 0 4 8196 8200 4.

Definition layout3 : layout := Layout 4 8 8200 8204 10.

Definition layout4 : layout := Layout 8 12 8204 8208 10.

(** The registers a thread owns. *)
Record cpu : Type := Cpu {
  eax : Z;
  ecx : Z;
  edx : Z;
  ebx : Z;
  ebp : Z;
  esi : Z;
  edi : Z;
  esp : Z;
  eip : Z;
}.

Record ut : Type := Ut {
  umem : mem;
  current_thread : Z;
  next_thread : Z;
  ucpu : cpu;
  global_tid : Z;
}.

Definition set_umem (v : mem) (s : ut) : ut := Ut v (current_thread s) (next_thread s) (ucpu s) (global_tid s).

Definition set_current (v : Z) (s : ut) : ut := Ut (umem s) v (next_thread s) (ucpu s) (global_tid s).

Definition set_next (v : Z) (s : ut) : ut := Ut (umem s) (current_thread s) v (ucpu s) (global_tid s).

Definition set_ucpu (v : cpu) (s : ut) : ut := Ut (umem s) (current_thread s) (next_thread s) v (global_tid s).

Definition set_global_tid (v : Z) (s : ut) : ut := Ut (umem s) (current_thread s) (next_thread s) (ucpu s) v.

Definition set_eax v (c : cpu) : cpu := Cpu v (ecx c) (edx c) (ebx c) (ebp c) (esi c) (edi c) (esp c) (eip c).

Definition set_ecx v (c : cpu) : cpu := Cpu (eax c) v (edx c) (ebx c) (ebp c) (esi c) (edi c) (esp c) (eip c).

Definition set_edx v (c : cpu) : cpu := Cpu (eax c) (ecx c) v (ebx c) (ebp c) (esi c) (edi c) (esp c) (eip c).

Definition set_ebx v (c : cpu) : cpu := Cpu (eax c) (ecx c) (edx c) v (ebp c) (esi c) (edi c) (esp c) (eip c).

Definition set_ebp v (c : cpu) : cpu := Cpu (eax c) (ecx c) (edx c) (ebx c) v (esi c) (edi c) (esp c) (eip c).

Definition set_esi v (c : cpu) : cpu := Cpu (eax c) (ecx c) (edx c) (ebx c) (ebp c) v (edi c) (esp c) (eip c).

Definition set_edi v (c : cpu) : cpu := Cpu (eax c) (ecx c) (edx c) (ebx c) (ebp c) (esi c) v (esp c) (eip c).

Definition set_esp v (c : cpu) : cpu := Cpu (eax c) (ecx c) (edx c) (ebx c) (ebp c) (esi c) (edi c) v (eip c).

Definition set_eip v (c : cpu) : cpu := Cpu (eax c) (ecx c) (edx c) (ebx c) (ebp c) (esi c) (edi c) (esp c) v.

(** ** Instructions *)
Definition load (a : Z) : M ut Z := gets (fun s => ld32 (umem s) a).

Definition store (a v : Z) : M ut unit := modify (fun s => set_umem (st32 (umem s) a v) s).

Definition reg (f : cpu -> Z) : M ut Z := gets (fun s => f (ucpu s)).

Definition set_reg (f : Z -> cpu -> cpu) (v : Z) : M ut unit := modify (fun s => set_ucpu (f v (ucpu s)) s).

Definition push (v : Z) : M ut unit :=
  sp ← reg esp;
  set_reg set_esp (u32 (sp - 4)) ;;
  store (u32 (sp - 4)) v.

Definition pop : M ut Z :=
  sp ← reg esp;
  v ← load sp;
  set_reg set_esp (u32 (sp + 4)) ;;
  ret v.

Definition pushal : M ut unit :=
  c ← gets ucpu;
  push (eax c) ;;
  push (ecx c) ;;
  push (edx c) ;;
  push (ebx c) ;;
  push (esp c) ;;
  push (ebp c) ;;
  push (esi c) ;;
  push (edi c).

Definition popal : M ut unit :=
  v ← pop; set_reg set_edi v ;;
  v ← pop; set_reg set_esi v ;;
  v ← pop; set_reg set_ebp v ;;
  pop ;;
  v ← pop; set_reg set_ebx v ;;
  v ← pop; set_reg set_edx v ;;
  v ← pop; set_reg set_ecx v ;;
  v ← pop; set_reg set_eax v.

(** uthread_switch.S, entered by a call that returns to [ra]. *)
Definition thread_switch (ra : Z) : M ut unit :=
  push ra ;;
  pushal ;;
  cur ← gets current_thread; set_reg set_eax cur ;;
  a ← reg eax; sp ← reg esp; store a sp ;;
  nxt ← gets next_thread; set_reg set_eax nxt ;;
  a ← reg eax; v ← load a; set_reg set_esp v ;;
  a ← reg eax; modify (set_current a) ;;
  popal ;;
  v ← pop; set_reg set_eip v.

Section Threads.
Context (L : layout) (all_thread ra : Z).

Definition thread_at (i : Z) : Z := all_thread + tsize L * i.

Definition table_end : Z := thread_at (Z.of_nat (max_thread L)).

Definition tstate (m : mem) (t : Z) : Z := ld32 m (t + off_state L).

(** [for (t = all_thread; ...; t++) if (p) break;] and the [t] it ends with *)
Definition find_thread (p : mem -> Z -> bool) (s : ut) : Z :=
  default table_end (List.find (p (umem s)) (thread_at <$> (Z.of_nat <$> seq 0 (max_thread L)))).

Definition set_state (t v : Z) : M ut unit := store (t + off_state L) v.

(** The choice of [next_thread], the same in the three programs. *)
Definition choose_next : M ut unit :=
  modify (set_next 0) ;;
  cur ← gets current_thread;
  t ← gets (find_thread (fun m t => (tstate m t =? T_RUNNABLE) && negb (t =? cur)));
  when (t <? table_end) (modify (set_next t)) ;;
  st ← gets (fun s => tstate (umem s) cur);
  when ((table_end <=? t) && (st =? T_RUNNABLE)) (modify (set_next cur)).

(** ** uthread1.c *)
Definition thread_schedule : M ut unit :=
  choose_next ;;
  cur ← gets current_thread;
  nxt ← gets next_thread;
  if nxt =? 0 then panic "exit"
  else if negb (cur =? nxt) then
    set_state nxt T_RUNNING ;;
    thread_switch ra
  else modify (set_next 0).

Definition thread_yield : M ut unit :=
  cur ← gets current_thread;
  set_state cur T_RUNNABLE ;;
  thread_schedule.

Definition thread_exit : M ut unit :=
  cur ← gets current_thread;
  set_state cur T_FREE ;;
  thread_schedule.

(** [uthread_init] registers [thread_yield] with the kernel. *)
Definition thread_init : M ut unit :=
  modify (set_current (thread_at 0)) ;;
  set_state (thread_at 0) T_RUNNING.

(** The stores that give a new thread its first stack frame. *)
Definition thread_create (func : Z) : M ut unit :=
  t ← gets (find_thread (fun m t => tstate m t =? T_FREE));
  store (t + off_sp L) (u32 (t + off_stack L + STACK_SIZE)) ;;
  sp ← load (t + off_sp L);
  store (t + off_sp L) (u32 (sp - 4)) ;;
  sp ← load (t + off_sp L);
  store sp func ;;
  sp ← load (t + off_sp L);
  store (t + off_sp L) (u32 (sp - 32)) ;;
  set_state t T_RUNNABLE.

(** ** uthread3.c *)

(** The scheduler of uthread3.c and uthread4.c. *)
Definition thread_schedule3 : M ut unit :=
  choose_next ;;
  cur ← gets current_thread;
  nxt ← gets next_thread;
  if nxt =? 0 then panic "exit"
  else if negb (cur =? nxt) then
    set_state nxt T_RUNNING ;;
    set_state cur T_RUNNABLE ;;
    thread_switch ra
  else modify (set_next 0).

Definition thread_yield3 : M ut unit :=
  cur ← gets current_thread;
  set_state cur T_RUNNABLE ;;
  thread_schedule3.

Definition thread_exit3 : M ut unit :=
  cur ← gets current_thread;
  set_state cur T_FREE ;;
  thread_schedule3.

Definition thread_init3 : M ut unit :=
  modify (set_current (thread_at 0)) ;;
  set_state (thread_at 0) T_RUNNING ;;
  store (thread_at 0) 0.

Definition thread_create3 (func : Z) : M ut Z :=
  t ← gets (find_thread (fun m t => tstate m t =? T_FREE));
  if t <? table_end then
    store (t + off_sp L) (u32 (t + off_stack L + STACK_SIZE)) ;;
    sp ← load (t + off_sp L);
    store (t + off_sp L) (u32 (sp - 4)) ;;
    sp ← load (t + off_sp L);
    store sp func ;;
    sp ← load (t + off_sp L);
    store (t + off_sp L) (u32 (sp - 32)) ;;
    tid ← gets global_tid;
    modify (set_global_tid (s32 (tid + 1))) ;;
    store t (u32 tid) ;;
    set_state t T_RUNNABLE ;;
    v ← load t;
    ret (s32 v)
  else ret (-1).

Definition thread_suspend (tid : Z) : M ut unit :=
  t ← gets (find_thread (fun m t => ld32 m t =? u32 tid));
  st ← gets (fun s => tstate (umem s) t);
  when ((t <? table_end) && ((st =? T_RUNNABLE) || (st =? T_RUNNING))) (set_state t T_WAIT).

Definition thread_resume (tid : Z) : M ut unit :=
  t ← gets (find_thread (fun m t => ld32 m t =? u32 tid));
  st ← gets (fun s => tstate (umem s) t);
  when ((t <? table_end) && (st =? T_WAIT)) (set_state t T_RUNNABLE).

(** ** uthread4.c *)
Definition thread_init4 : M ut unit :=
  modify (set_current (thread_at 0)) ;;
  set_state (thread_at 0) T_RUNNING ;;
  store (thread_at 0) 0 ;;
  store (thread_at 0 + 4) 0.

Definition thread_create4 (func : Z) : M ut Z :=
  t ← gets (find_thread (fun m t => tstate m t =? T_FREE));
  store (t + off_sp L) (u32 (t + off_stack L + STACK_SIZE)) ;;
  sp ← load (t + off_sp L);
  store (t + off_sp L) (u32 (sp - 4)) ;;
  store t (Z.quot (t - all_thread) (tsize L)) ;;
  cur ← gets current_thread;
  ptid ← load cur;
  store (t + 4) ptid ;;
  sp ← load (t + off_sp L);
  store sp func ;;
  sp ← load (t + off_sp L);
  store (t + off_sp L) (u32 (sp - 32)) ;;
  sp ← load (t + off_sp L);
  modify (fun s => set_umem (memset (umem s) sp 0 32) s) ;;
  set_state t T_RUNNABLE ;;
  v ← load t;
  ret (s32 v).

(** One round of the loop of [thread_join]: [true] when it returns; otherwise
    the scheduler has run and the loop goes on when this thread is back.
    [found] keeps its value from round to round. *)
Definition thread_join_round (tid : Z) (found : bool) : M ut bool :=
  t ← gets (find_thread (fun m t => ld32 m t =? u32 tid));
  let found := found || (t <? table_end) in
  if negb found then ret true
  else
    st ← gets (fun s => tstate (umem s) t);
    if st =? T_FREE then ret true else thread_schedule3 ;; ret false.

End Threads.
