(* ===== verification/UthreadRun.v ===== *)
(** * User-level threads resume where they were suspended

    For uthread1.c, whose table has the stack pointer where [thread_switch]
    expects it.  A thread's saved context is what [thread_switch] would load;
    other threads work on their own stacks and on memory outside the table. *)
From S2P Require Import Prelude Mem Uthread.

(** ** Instructions *)
Lemma push_run v m cur nxt a c d b bp si di sp ip g : 4 <= sp < 4294967296 ->
  push v (Ut m cur nxt (Cpu a c d b bp si di sp ip) g) = (Ret tt, Ut (st32 m (sp - 4) v) cur nxt (Cpu a c d b bp si di (sp - 4) ip) g).
Proof. intros H. unfold push, bind, reg, set_reg, store, gets, modify. cbn. rewrite u32_small by lia. done. Qed.

Lemma pop_run m cur nxt a c d b bp si di sp ip g : 0 <= sp -> sp + 4 < 4294967296 ->
  pop (Ut m cur nxt (Cpu a c d b bp si di sp ip) g) = (Ret (ld32 m sp), Ut m cur nxt (Cpu a c d b bp si di (sp + 4) ip) g).
Proof. intros H1 H2. unfold pop, bind, reg, set_reg, load, gets, modify, ret. cbn. rewrite u32_small by lia. done. Qed.

(** The frame [thread_switch] pushes: the registers below the return address. *)
Definition frame (m : mem) (k : cpu) (ra : Z) : mem :=
  let e := esp k in
  st32 (st32 (st32 (st32 (st32 (st32 (st32 (st32 (st32 m (e - 4) ra) (e - 8) (eax k)) (e - 12) (ecx k)) (e - 16) (edx k)) (e - 20) (ebx k)) (e - 24) (e - 4)) (e - 28) (ebp k)) (e - 32) (esi k)) (e - 36) (edi k).

Lemma pushal_run m cur nxt k g ra : 36 <= esp k < 4294967296 ->
  exists a c d b bp si di ip, bind (push ra) (fun _ => pushal) (Ut m cur nxt k g) = (Ret tt, Ut (frame m k ra) cur nxt (Cpu a c d b bp si di (esp k - 36) ip) g).
Proof.
  destruct k as [a c d b bp si di e ip]. cbn [esp]. intros He. exists a, c, d, b, bp, si, di, ip.
 erewrite bind_Ret by (apply push_run; lia). unfold pushal. unfold bind at 1, gets at 1. cbn [ucpu eax ecx edx ebx esp ebp esi edi].
  do 7 (erewrite bind_Ret by (apply push_run; lia)). rewrite push_run by lia.
  unfold frame. cbn [eax ecx edx ebx esp ebp esi edi]. rewrite <- !Z.sub_add_distr. reflexivity.
Qed.

(** A word popped into a register, and the rest. *)
Lemma pop_set {B} f (K : unit -> M ut B) s sp : esp (ucpu s) = sp -> 0 <= sp -> sp + 4 < 4294967296 ->
  bind pop (fun v => bind (set_reg f v) K) s = K tt (set_ucpu (f (ld32 (umem s) sp) (set_esp (sp + 4) (ucpu s))) s).
Proof. intros <- H1 H2. unfold pop, bind, reg, set_reg, load, gets, modify, ret. rewrite u32_small by lia. by destruct s as [m cur nxt [] g]. Qed.

Lemma pop_last f s sp : esp (ucpu s) = sp -> 0 <= sp -> sp + 4 < 4294967296 ->
  bind pop (set_reg f) s = (Ret tt, set_ucpu (f (ld32 (umem s) sp) (set_esp (sp + 4) (ucpu s))) s).
Proof. intros <- H1 H2. unfold pop, bind, reg, set_reg, load, gets, modify, ret. rewrite u32_small by lia. by destruct s as [m cur nxt [] g]. Qed.

Ltac fields := cbv beta iota delta [set_ucpu umem current_thread next_thread ucpu global_tid set_edi set_esi set_ebp set_ebx set_edx set_ecx set_eax set_esp set_eip eax ecx edx ebx ebp esi edi esp eip].

Lemma popal_run m cur nxt a c d b bp si di sp ip g : 0 <= sp -> sp + 36 < 4294967296 ->
  popal (Ut m cur nxt (Cpu a c d b bp si di sp ip) g) =
    (Ret tt, Ut m cur nxt (Cpu (ld32 m (sp + 28)) (ld32 m (sp + 24)) (ld32 m (sp + 20)) (ld32 m (sp + 16)) (ld32 m (sp + 8)) (ld32 m (sp + 4)) (ld32 m sp) (sp + 32) ip) g).
Proof.
  intros H1 H2. unfold popal. rewrite (pop_set _ _ _ sp) by (fields; lia). fields.
  rewrite (pop_set _ _ _ (sp + 4)) by (fields; lia). fields.
  rewrite (pop_set _ _ _ (sp + 8)) by (fields; lia). fields.
  replace (sp + 8 + 4) with (sp + 12) by lia. erewrite bind_Ret by (apply pop_run; lia).
  rewrite (pop_set _ _ _ (sp + 16)) by (fields; lia). fields.
  rewrite (pop_set _ _ _ (sp + 20)) by (fields; lia). fields.
  rewrite (pop_set _ _ _ (sp + 24)) by (fields; lia). fields.
  rewrite (pop_last _ _ (sp + 28)) by (fields; lia). fields. rewrite <- Z.add_assoc. reflexivity.
Qed.

Section Threads1.
(** The table, the return address of the call of [thread_switch], and the stack
    [main] runs on, outside the table. *)
Context (all ra lo0 hi0 : Z).
Hypothesis Hall : 0 < all /\ all + 32800 < 4294967296.
Hypothesis Hra : 0 <= ra < 4294967296.
Hypothesis Hmain : 0 <= lo0 <= hi0 /\ hi0 < 4294967296 /\ (hi0 <= all \/ all + 32800 <= lo0).

Definition th (i : Z) : Z := thread_at layout1 all i.

Definition lo (i : Z) : Z := if i =? 0 then lo0 else th i + 4.

Definition hi (i : Z) : Z := if i =? 0 then hi0 else th i + 8196.

Definition st_of (s : ut) (i : Z) : Z := tstate layout1 (umem s) (th i).

Definition word (v : Z) : Prop := 0 <= v < 4294967296.

Definition cpu_ok (k : cpu) : Prop := word (eax k) /\ word (ecx k) /\ word (edx k) /\ word (ebx k) /\ word (ebp k) /\ word (esi k) /\ word (edi k).

(** The context [thread_switch] loads for thread [i]. *)
Definition load_ctx (m : mem) (i : Z) : cpu :=
  let sp := ld32 m (th i) in
  Cpu (ld32 m (sp + 28)) (ld32 m (sp + 24)) (ld32 m (sp + 20)) (ld32 m (sp + 16)) (ld32 m (sp + 8)) (ld32 m (sp + 4)) (ld32 m sp) (sp + 36) (ld32 m (sp + 32)).

(** The saved context of [i] lies in its stack. *)
Definition saved (m : mem) (i : Z) : Prop := lo i <= ld32 m (th i) /\ ld32 m (th i) + 36 <= hi i.

(** Bytes that belong to thread [i]: its stack and the word of its stack
    pointer; and the word of its state, which the scheduler writes. *)
Definition owned (i b : Z) : Prop := lo i <= b < hi i \/ th i <= b < th i + 4.

Definition state_word (i b : Z) : Prop := th i + 8196 <= b < th i + 8200.

Record inv (s : ut) (c : Z) : Prop := Inv {
  inv_cur : current_thread s = th c;
  inv_range : 0 <= c < 4;
  inv_running : st_of s c = T_RUNNING \/ st_of s c = T_RUNNABLE;
  inv_cpu : cpu_ok (ucpu s);
  inv_saved : forall i, 0 <= i < 4 -> i <> c -> st_of s i = T_RUNNABLE -> saved (umem s) i;
}.

(** Room for a return address and the registers. *)
Definition room (s : ut) (c : Z) : Prop := lo c + 36 <= esp (ucpu s) <= hi c.

Lemma th_eq i : th i = all + 8200 * i.
Proof. done. Qed.

(** Where the stacks are. *)
Lemma stack_of i : (i = 0 /\ lo i = lo0 /\ hi i = hi0) \/ (i <> 0 /\ lo i = all + 8200 * i + 4 /\ hi i = all + 8200 * i + 8196).
Proof. unfold lo, hi. rewrite th_eq. destruct (Z.eqb_spec i 0); [left|right]; done. Qed.

(** What is not owned by [i] does not show in what [i] saved. *)
Lemma load_ctx_ext m m' i : 0 <= i < 4 -> saved m i -> (forall b, owned i b -> ld8 m' b = ld8 m b) -> load_ctx m' i = load_ctx m i /\ saved m' i.
Proof.
  intros Hi Hs H. unfold saved in *.
  assert (ld32 m' (th i) = ld32 m (th i)) as E by (apply ld32_ext; intros b Hb; apply H; unfold owned; lia).
  unfold load_ctx. rewrite E. split; [|done].
  f_equal; apply ld32_ext; intros b Hb; apply H; unfold owned; lia.
Qed.

Lemma tstate_ext m m' i : (forall b, state_word i b -> ld8 m' b = ld8 m b) -> tstate layout1 m' (th i) = tstate layout1 m (th i).
Proof. intros H. apply ld32_ext. intros b Hb. apply H. unfold state_word. cbn in Hb. lia. Qed.

(** Threads own different bytes. *)
Lemma owned_apart i j b : 0 <= i < 4 -> 0 <= j < 4 -> i <> j -> owned i b -> ~ owned j b.
Proof. intros Hi Hj Hn H1 H2. unfold owned in *. rewrite !th_eq in *. pose proof (stack_of i). pose proof (stack_of j). lia. Qed.

(** ** The switch *)
Lemma frame_other m k b : ~ (esp k - 36 <= b < esp k) -> ld8 (frame m k ra) b = ld8 m b.
Proof. intros H. unfold frame. rewrite !ld8_st32_ne by lia. done. Qed.

Lemma frame_ctx m k i : cpu_ok k -> lo i + 36 <= esp k <= hi i -> 0 <= i < 4 ->
  load_ctx (st32 (frame m k ra) (th i) (esp k - 36)) i = set_eip ra k.
Proof.
  intros (R1 & R2 & R3 & R4 & R5 & R6 & R7) He Hi. pose proof (stack_of i). unfold word in *. unfold load_ctx. rewrite ld32_st32_eq by lia.
  rewrite th_eq in *. unfold frame. destruct k as [a c d b bp si di e ip]. cbn [eax ecx edx ebx ebp esi edi esp eip] in *. fields.
  replace (e - 36 + 28) with (e - 8) by lia. replace (e - 36 + 24) with (e - 12) by lia. replace (e - 36 + 20) with (e - 16) by lia.
  replace (e - 36 + 16) with (e - 20) by lia. replace (e - 36 + 8) with (e - 28) by lia. replace (e - 36 + 4) with (e - 32) by lia.
  replace (e - 36 + 36) with e by lia. replace (e - 36 + 32) with (e - 4) by lia.
  f_equal; repeat rewrite ld32_st32_ne by lia; apply ld32_st32_eq; lia.
Qed.

(** [thread_switch] saves the running thread's context and loads the other's. *)
Lemma thread_switch_run s c n : current_thread s = th c -> next_thread s = th n -> 0 <= c < 4 -> 0 <= n < 4 -> c <> n ->
  room s c -> saved (umem s) n ->
  thread_switch ra s = (Ret tt, Ut (st32 (frame (umem s) (ucpu s) ra) (th c) (esp (ucpu s) - 36)) (th n) (th n) (load_ctx (umem s) n) (global_tid s)).
Proof.
  intros Hc Hn H1 H2 Hne Hr Hs. destruct s as [m cur nxt k g]. cbn [current_thread next_thread umem ucpu global_tid] in *. subst cur nxt.
  unfold room in Hr. cbn [ucpu] in Hr. pose proof (stack_of c). pose proof (stack_of n).
  destruct (pushal_run m (th c) (th n) k g ra) as (a & cx & d & b & bp & si & di & ip & Hp); [lia|].
  unfold thread_switch. rewrite <- (bind_assoc (push ra) (fun _ => pushal)). rewrite (bind_Ret _ _ _ _ _ Hp).
  set (m' := st32 (frame m k ra) (th c) (esp k - 36)).
  assert (forall b', owned n b' -> ld8 m' b' = ld8 m b') as Hm.
  { intros b' Hb. pose proof (owned_apart n c b' H2 H1 ltac:(done) Hb) as Hb'. unfold owned in Hb'. unfold m'. rewrite ld8_st32_ne by lia. apply frame_other. lia. }
  destruct (load_ctx_ext m m' n H2 Hs Hm) as [<- [Hs1 Hs2]].
  transitivity (bind popal (fun _ => bind pop (set_reg set_eip)) (Ut m' (th n) (th n) (Cpu (th n) cx d b bp si di (ld32 m' (th n)) ip) g)); [reflexivity|].
  erewrite bind_Ret by (apply popal_run; lia). rewrite (pop_last _ _ (ld32 m' (th n) + 32)) by (fields; lia). fields.
  rewrite <- Z.add_assoc. reflexivity.
Qed.

Lemma state_apart i j b : 0 <= i < 4 -> 0 <= j < 4 -> owned i b -> ~ state_word j b.
Proof. intros Hi Hj H1 H2. unfold owned, state_word in *. rewrite !th_eq in *. pose proof (stack_of i). lia. Qed.

Lemma states_apart i j b : 0 <= i < 4 -> 0 <= j < 4 -> i <> j -> state_word i b -> ~ state_word j b.
Proof. unfold state_word. rewrite !th_eq. lia. Qed.

(** ** The scheduler *)
Lemma find_cases p s :
  (exists i, 0 <= i < 4 /\ find_thread layout1 all p s = th i /\ p (umem s) (th i) = true) \/
  (find_thread layout1 all p s = all + 32800 /\ forall i, 0 <= i < 4 -> p (umem s) (th i) = false).
Proof.
  unfold find_thread. destruct (List.find _ _) as [t|] eqn:E; cbn [default].
  - left. apply List.find_some in E as [Hin Hp]. apply list_elem_of_In, list_elem_of_fmap in Hin as (i & -> & Hi).
    apply list_elem_of_fmap in Hi as (j & -> & Hj). apply elem_of_seq in Hj. cbn in Hj. exists (Z.of_nat j). split; [lia|]. split; [done|exact Hp].
  - right. split; [done|]. intros i Hi. apply (List.find_none _ _ E). apply list_elem_of_In, list_elem_of_fmap. exists i. split; [done|].
    apply list_elem_of_fmap. exists (Z.to_nat i). split; [lia|]. apply elem_of_seq. cbn. lia.
Qed.

Lemma choose_run s c : current_thread s = th c -> 0 <= c < 4 ->
  (exists n, 0 <= n < 4 /\ n <> c /\ st_of s n = T_RUNNABLE /\ choose_next layout1 all s = (Ret tt, set_next (th n) s)) \/
  ((forall n, 0 <= n < 4 -> n <> c -> st_of s n <> T_RUNNABLE) /\
   choose_next layout1 all s = (Ret tt, set_next (if st_of s c =? T_RUNNABLE then th c else 0) s)).
Proof.
  intros Hc Hr. unfold choose_next, bind, modify, gets. cbn [current_thread set_next]. rewrite Hc.
  destruct (find_cases (fun m t => (tstate layout1 m t =? T_RUNNABLE) && negb (t =? th c)) (set_next 0 s)) as [(n & Hn & -> & Hp)|[-> Hp]].
  - left. exists n. bool_to_prop. change (table_end layout1 all) with (all + 8200 * 4). rewrite th_eq in *.
    split; [done|]. split; [intros ->; rewrite th_eq in *; congruence|]. split; [done|].
    assert ((all + 8200 * n <? all + 8200 * 4) = true) as -> by lia. assert ((all + 8200 * 4 <=? all + 8200 * n) = false) as -> by lia. done.
  - right. split.
    + intros n Hn Hne Hst. specialize (Hp n Hn). cbn [umem set_next] in Hp. unfold st_of in Hst. rewrite Hst in Hp. rewrite !th_eq in Hp. destruct (Z.eqb_spec (all + 8200 * n) (all + 8200 * c)); [lia|done].
    + assert ((all + 32800 <? table_end layout1 all) = false) as ->. { change (table_end layout1 all) with (all + 8200 * 4). lia. }
      assert ((table_end layout1 all <=? all + 32800) = true) as ->. { change (table_end layout1 all) with (all + 8200 * 4). lia. }
      cbn [when andb]. unfold ret. change (umem (set_next 0 s)) with (umem s). fold (st_of s c). destruct (st_of s c =? T_RUNNABLE); done.
Qed.

(** Leaving the processor with state [v]: [thread_yield] and [thread_exit]. *)
Definition leave (v : Z) : M ut unit := bind (gets current_thread) (fun cur => bind (set_state layout1 cur v) (fun _ => thread_schedule layout1 all ra)).

(** Another thread is running: [s1] after [s], [c] left with state [v]. *)
Record switched (s s1 : ut) (c n v : Z) : Prop := Switched {
  sw_range : 0 <= n < 4 /\ n <> c;
  sw_chosen : st_of s n = T_RUNNABLE;
  sw_cur : current_thread s1 = th n;
  sw_cpu : ucpu s1 = load_ctx (umem s) n;
  sw_saved : load_ctx (umem s1) c = set_eip ra (ucpu s) /\ saved (umem s1) c;
  sw_left : st_of s1 c = v;
  sw_runs : st_of s1 n = T_RUNNING;
  sw_bytes : forall b, ~ owned c b -> ~ state_word c b -> ~ state_word n b -> ld8 (umem s1) b = ld8 (umem s) b;
}.

Lemma switch_facts s c n v : inv s c -> room s c -> 0 <= n < 4 -> n <> c -> st_of s n = T_RUNNABLE -> 0 <= v < 4 ->
  let m2 := st32 (st32 (umem s) (th c + 8196) v) (th n + 8196) T_RUNNING in
  switched s (Ut (st32 (frame m2 (ucpu s) ra) (th c) (esp (ucpu s) - 36)) (th n) (th n) (load_ctx (umem s) n) (global_tid s)) c n v.
Proof.
  intros Hi Hr Hn Hne Hst Hv m2. pose proof (inv_range _ _ Hi) as Hc. pose proof (stack_of c) as Sc. pose proof (stack_of n) as Sn. unfold room in Hr.
  assert (forall b, ~ owned c b -> ld8 (st32 (frame m2 (ucpu s) ra) (th c) (esp (ucpu s) - 36)) b = ld8 m2 b) as Hm.
  { intros b Hb. unfold owned in Hb. rewrite ld8_st32_ne, frame_other by lia. done. }
  split; [done..| | | |]; cbn [umem ucpu].
  - split; [apply frame_ctx; [apply (inv_cpu _ _ Hi)|done|done]|]. unfold saved. rewrite ld32_st32_eq by lia. lia.
  - unfold st_of. cbn [umem]. rewrite (tstate_ext m2) by (intros b Hb; apply Hm; intros Ho; exact (state_apart c c b Hc Hc Ho Hb)).
    unfold tstate, m2. cbn [off_state layout1]. rewrite th_eq, ld32_st32_ne, ld32_st32_eq by (rewrite ?th_eq; lia). done.
  - unfold st_of. cbn [umem]. rewrite (tstate_ext m2) by (intros b Hb; apply Hm; intros Ho; exact (state_apart c n b Hc Hn Ho Hb)).
    unfold tstate, m2. cbn [off_state layout1]. by rewrite ld32_st32_eq.
  - intros b H1 H2 H3. rewrite Hm by done. unfold m2, state_word in *. rewrite !ld8_st32_ne by lia. done.
Qed.

Lemma leave_run s c v : inv s c -> room s c -> v = T_RUNNABLE \/ v = T_FREE ->
  (exists n s1, leave v s = (Ret tt, s1) /\ switched s s1 c n v) \/
  ((forall n, 0 <= n < 4 -> n <> c -> st_of s n <> T_RUNNABLE) /\
   if v =? T_RUNNABLE then leave v s = (Ret tt, Ut (st32 (umem s) (th c + 8196) v) (th c) 0 (ucpu s) (global_tid s))
   else exists s1, leave v s = (Panic "exit", s1)).
Proof.
  intros Hi Hr Hv. pose proof (inv_range _ _ Hi) as Hc. pose proof (inv_cur _ _ Hi) as Hcur.
  set (s0 := set_umem (st32 (umem s) (th c + 8196) v) s).
  assert (leave v s = thread_schedule layout1 all ra s0) as ->. { unfold leave, bind at 1, gets. rewrite Hcur. reflexivity. }
  assert (forall n, 0 <= n < 4 -> n <> c -> st_of s0 n = st_of s n) as Hst.
  { intros n Hn Hne. apply tstate_ext. intros b Hb. cbn [umem s0 set_umem]. apply ld8_st32_ne. unfold state_word in Hb. rewrite !th_eq in *. lia. }
  assert (st_of s0 c = v) as Hv0. { unfold st_of, tstate. cbn [umem s0 set_umem off_state layout1]. apply ld32_st32_eq. destruct Hv as [-> | ->]; done. }
  destruct (choose_run s0 c Hcur Hc) as [(n & Hn & Hne & Hsn & Hch)|[Hno Hch]].
  - left. exists n. rewrite Hst in Hsn by done. eexists. split; [|apply switch_facts; try done; destruct Hv as [-> | ->]; done].
    unfold thread_schedule. rewrite (bind_Ret _ _ _ _ _ Hch). unfold bind at 1 2, gets. cbn [current_thread next_thread set_next s0 set_umem]. rewrite Hcur.
    assert ((th n =? 0) = false) as -> by (rewrite th_eq; lia). assert ((th c =? th n) = false) as -> by (rewrite !th_eq; lia). cbn [negb].
    set (m2 := st32 (st32 (umem s) (th c + 8196) v) (th n + 8196) T_RUNNING).
    destruct (load_ctx_ext (umem s) m2 n Hn (inv_saved _ _ Hi n Hn Hne Hsn)) as [Hl Hs].
    { intros b Hb. pose proof (state_apart n c b Hn Hc Hb). pose proof (state_apart n n b Hn Hn Hb). unfold state_word in *. unfold m2. rewrite !ld8_st32_ne by lia. done. }
    transitivity (thread_switch ra (Ut m2 (current_thread s) (th n) (ucpu s) (global_tid s))); [reflexivity|].
    rewrite (thread_switch_run _ c n) by done. cbn [umem ucpu global_tid]. by rewrite Hl.
  - right. split; [intros n Hn Hne; rewrite <- Hst by done; auto|]. rewrite Hv0 in Hch.
    assert (thread_schedule layout1 all ra s0 = if v =? T_RUNNABLE then (Ret tt, set_next 0 s0) else (Panic "exit", set_next 0 s0)) as ->.
    { unfold thread_schedule. rewrite (bind_Ret _ _ _ _ _ Hch). unfold bind at 1 2, gets. cbn [current_thread next_thread set_next s0 set_umem]. rewrite Hcur.
      destruct (v =? T_RUNNABLE); [|done]. assert ((th c =? 0) = false) as -> by (rewrite th_eq; lia). by rewrite Z.eqb_refl. }
    destruct Hv as [-> | ->]; cbn; [unfold set_next, s0, set_umem; cbn; by rewrite Hcur|by eexists].
Qed.

(** ** Other threads at work *)

(** What a change outside the bytes of [i] leaves of it. *)
Lemma kept s s1 i : 0 <= i < 4 -> (forall b, owned i b \/ state_word i b -> ld8 (umem s1) b = ld8 (umem s) b) ->
  st_of s1 i = st_of s i /\ (saved (umem s) i -> load_ctx (umem s1) i = load_ctx (umem s) i /\ saved (umem s1) i).
Proof. intros Hi H. split; [apply tstate_ext; auto|]. intros Hs. apply load_ctx_ext; auto. Qed.

Lemma switched_kept s s1 c n v i : 0 <= c < 4 -> switched s s1 c n v -> 0 <= i < 4 -> i <> c -> i <> n ->
  st_of s1 i = st_of s i /\ (saved (umem s) i -> load_ctx (umem s1) i = load_ctx (umem s) i /\ saved (umem s1) i).
Proof.
  intros Hc Hsw Hi H1 H2. pose proof (sw_range _ _ _ _ _ Hsw) as [Hn _]. apply kept; [done|]. intros b Hb. apply (sw_bytes _ _ _ _ _ Hsw).
  - intros Ho. destruct Hb as [Hb|Hb]; [exact (owned_apart i c b Hi Hc H1 Hb Ho)|exact (state_apart c i b Hc Hi Ho Hb)].
  - intros Ho. destruct Hb as [Hb|Hb]; [exact (state_apart i c b Hi Hc Hb Ho)|exact (states_apart i c b Hi Hc H1 Hb Ho)].
  - intros Ho. destruct Hb as [Hb|Hb]; [exact (state_apart i n b Hi Hn Hb Ho)|exact (states_apart i n b Hi Hn H2 Hb Ho)].
Qed.

Lemma load_ctx_ok m i : cpu_ok (load_ctx m i).
Proof. unfold cpu_ok, load_ctx, word. cbn [eax ecx edx ebx ebp esi edi]. split_and!; apply ld32_range. Qed.

Lemma switched_inv s s1 c n v : inv s c -> switched s s1 c n v -> inv s1 n.
Proof.
  intros Hi Hsw. pose proof (inv_range _ _ Hi) as Hc. pose proof (sw_range _ _ _ _ _ Hsw) as [Hn Hne]. split.
  - apply (sw_cur _ _ _ _ _ Hsw).
  - done.
  - left. apply (sw_runs _ _ _ _ _ Hsw).
  - rewrite (sw_cpu _ _ _ _ _ Hsw). apply load_ctx_ok.
  - intros i Hr Hin Hst. destruct (decide (i = c)) as [->|Hic]; [apply (sw_saved _ _ _ _ _ Hsw)|].
    destruct (switched_kept s s1 c n v i Hc Hsw Hr Hic Hin) as [E H]. apply H. apply (inv_saved _ _ Hi); [done|done|congruence].
Qed.

Lemma create_run s c f : inv s c -> word f -> st_of s 0 <> T_FREE -> (exists i, 0 <= i < 4 /\ st_of s i = T_FREE) ->
  exists t m', 0 < t < 4 /\ t <> c /\ st_of s t = T_FREE /\ thread_create layout1 all f s = (Ret tt, set_umem m' s) /\
    saved m' t /\ tstate layout1 m' (th t) = T_RUNNABLE /\ eip (load_ctx m' t) = f /\
    forall b, ~ owned t b -> ~ state_word t b -> ld8 m' b = ld8 (umem s) b.
Proof.
  intros Hi Hf H0 [j [Hj Hfree]].
  destruct (find_cases (fun m t => tstate layout1 m t =? T_FREE) s) as [(t & Ht & Hfind & Hp)|[_ Hp]].
  2: { specialize (Hp j Hj). unfold st_of in Hfree. rewrite Hfree in Hp. done. }
  apply Z.eqb_eq in Hp. fold (st_of s t) in Hp. assert (t <> 0) by congruence.
  assert (t <> c) by (intros ->; destruct (inv_running _ _ Hi) as [E|E]; rewrite Hp in E; done).
  pose proof (stack_of t) as St. set (p := th t) in *. assert (p = all + 8200 * t) as Hpe by done.
  set (m3 := st32 (st32 (st32 (umem s) p (p + 8196)) p (p + 8192)) (p + 8192) f).
  exists t, (st32 (st32 m3 p (p + 8160)) (p + 8196) T_RUNNABLE). split; [lia|]. do 2 (split; [done|]). split.
  { unfold thread_create. unfold bind at 1, gets at 1. rewrite Hfind. unfold bind, load, store, set_state, gets, modify. cbn [umem set_umem off_sp off_stack off_state layout1]. rewrite !Z.add_0_r.
    change (p + 4 + STACK_SIZE) with (p + 4 + 8192). replace (p + 4 + 8192) with (p + 8196) by lia. rewrite (u32_small (p + 8196)) by lia.
    rewrite (ld32_st32_eq _ _ (p + 8196)) by lia. replace (p + 8196 - 4) with (p + 8192) by lia. rewrite (u32_small (p + 8192)) by lia.
    rewrite !(ld32_st32_eq _ _ (p + 8192)) by lia. rewrite (ld32_st32_ne _ (p + 8192) p), (ld32_st32_eq _ _ (p + 8192)) by lia.
    replace (p + 8192 - 32) with (p + 8160) by lia. rewrite (u32_small (p + 8160)) by lia. reflexivity. }
  assert (ld32 (st32 (st32 m3 p (p + 8160)) (p + 8196) T_RUNNABLE) p = p + 8160) as Hsp by (rewrite ld32_st32_ne, ld32_st32_eq by lia; done).
  split. { unfold saved. fold p. rewrite Hsp. lia. }
  split. { unfold tstate. cbn [off_state layout1]. by rewrite ld32_st32_eq. }
  split. { unfold load_ctx. fold p. cbn [eip]. rewrite Hsp. unfold m3. replace (p + 8160 + 32) with (p + 8192) by lia. rewrite !(ld32_st32_ne _ _ (p + 8192)), ld32_st32_eq by (unfold word in *; lia). done. }
  intros b Ho Hw. unfold owned, state_word in *. fold p in Ho, Hw. unfold m3. rewrite !ld8_st32_ne by lia. done.
Qed.

(** What the running thread can do: compute, create a thread, yield, exit. *)
Inductive uev : Type :=
| Work (m : mem) (k : cpu)
| Create (f : Z)
| Yield
| Exit.

Definition act (e : uev) : M ut unit :=
  match e with
  | Work m k => modify (fun s => set_ucpu k (set_umem m s))
  | Create f => thread_create layout1 all f
  | Yield => thread_yield layout1 all ra
  | Exit => thread_exit layout1 all ra
  end.

(** Thread [r] computes on its own stack and on memory outside the table; a
    thread is created while an entry is free and [main] has not exited; there is
    room for the frame of a switch. *)
Definition allowed (s : ut) (r : Z) (e : uev) : Prop :=
  match e with
  | Work m k => cpu_ok k /\ (forall i b, 0 <= i < 4 -> (i <> r /\ owned i b) \/ state_word i b -> ld8 m b = ld8 (umem s) b)
  | Create f => word f /\ st_of s 0 <> T_FREE /\ (exists i, 0 <= i < 4 /\ st_of s i = T_FREE)
  | Yield | Exit => room s r
  end.

(** Steps of threads other than [c]. *)
Inductive away (c : Z) : ut -> ut -> Prop :=
| away_here s : away c s s
| away_step s s1 s2 r e : current_thread s = th r -> r <> c -> allowed s r e -> act e s = (Ret tt, s1) -> away c s1 s2 -> away c s s2.

(** [c] is suspended with context [k], or has just got the processor with it. *)
Definition suspended (s : ut) (c : Z) (k : cpu) : Prop :=
  (inv s c /\ ucpu s = k) \/ (exists r, r <> c /\ inv s r /\ st_of s c = T_RUNNABLE /\ load_ctx (umem s) c = k).

Lemma leave_suspended s s1 r c k v : 0 <= c < 4 -> r <> c -> inv s r -> st_of s c = T_RUNNABLE -> load_ctx (umem s) c = k -> room s r ->
  v = T_RUNNABLE \/ v = T_FREE -> leave v s = (Ret tt, s1) -> suspended s1 c k.
Proof.
  intros Hc Hrc Hi Hst Hk Hr Hv Hrun. destruct (leave_run s r v Hi Hr Hv) as [(n & s1' & Hrun' & Hsw)|[Hno _]]; [|by destruct (Hno c Hc (not_eq_sym Hrc))].
  rewrite Hrun' in Hrun. injection Hrun as ->. pose proof (switched_inv _ _ _ _ _ Hi Hsw) as Hi1. destruct (decide (n = c)) as [->|Hnc].
  - left. split; [done|]. by rewrite (sw_cpu _ _ _ _ _ Hsw).
  - right. exists n. do 2 (split; [done|]). destruct (switched_kept s s1 r n v c (inv_range _ _ Hi) Hsw Hc ltac:(done) ltac:(done)) as [E H].
    split; [congruence|]. rewrite <- Hk. apply H. apply (inv_saved _ _ Hi); [done|by apply not_eq_sym|done].
Qed.

Lemma work_inv s r m k : inv s r -> allowed s r (Work m k) -> inv (set_ucpu k (set_umem m s)) r /\
  forall i, 0 <= i < 4 -> i <> r -> st_of (set_ucpu k (set_umem m s)) i = st_of s i /\ (saved (umem s) i -> load_ctx m i = load_ctx (umem s) i /\ saved m i).
Proof.
  intros Hi [Hk Hm]. pose proof (inv_range _ _ Hi) as Hr. set (s1 := set_ucpu k (set_umem m s)).
  assert (forall i, 0 <= i < 4 -> i <> r -> st_of s1 i = st_of s i /\ (saved (umem s) i -> load_ctx m i = load_ctx (umem s) i /\ saved m i)) as Hkept.
  { intros i Hir Hne. apply (kept s s1 i Hir). intros b [Hb|Hb]; apply (Hm i); auto. }
  split; [|done]. split.
  - apply (inv_cur _ _ Hi).
  - done.
  - assert (st_of s1 r = st_of s r) as -> by (apply tstate_ext; intros b Hb; apply (Hm r); auto). apply (inv_running _ _ Hi).
  - done.
  - intros i Hir Hne Hst. destruct (Hkept i Hir Hne) as [E H]. apply H. apply (inv_saved _ _ Hi); [done|done|congruence].
Qed.

Lemma create_inv s s1 r f : inv s r -> allowed s r (Create f) -> act (Create f) s = (Ret tt, s1) -> inv s1 r /\
  forall i, 0 <= i < 4 -> st_of s i <> T_FREE -> st_of s1 i = st_of s i /\ (saved (umem s) i -> load_ctx (umem s1) i = load_ctx (umem s) i /\ saved (umem s1) i).
Proof.
  intros Hi (Hf & H0 & Hex) Hrun. destruct (create_run s r f Hi Hf H0 Hex) as (t & m' & Ht & Htr & Hfree & Hrun' & Hs & Hst & _ & Hm).
  cbn [act] in Hrun. rewrite Hrun' in Hrun. injection Hrun as <-. pose proof (inv_range _ _ Hi) as Hr.
  assert (forall i, 0 <= i < 4 -> i <> t -> st_of (set_umem m' s) i = st_of s i /\ (saved (umem s) i -> load_ctx m' i = load_ctx (umem s) i /\ saved m' i)) as Hkept.
  { intros i Hir Hne. apply (kept s (set_umem m' s) i Hir). intros b [Hb|Hb]; apply Hm.
    - exact (owned_apart i t b Hir ltac:(lia) Hne Hb). - exact (state_apart i t b Hir ltac:(lia) Hb).
    - intros Ho. exact (state_apart t i b ltac:(lia) Hir Ho Hb). - exact (states_apart i t b Hir ltac:(lia) Hne Hb). }
  split; [|intros i Hir Hnf; apply (Hkept i Hir); congruence]. split.
  - apply (inv_cur _ _ Hi).
  - done.
  - destruct (Hkept r Hr ltac:(congruence)) as [-> _]. apply (inv_running _ _ Hi).
  - apply (inv_cpu _ _ Hi).
  - intros i Hir Hne Hsi. destruct (decide (i = t)) as [->|Hit]; [done|]. destruct (Hkept i Hir Hit) as [E H]. apply H. apply (inv_saved _ _ Hi); [done|done|congruence].
Qed.

Lemma act_suspended s s1 r c k e : 0 <= c < 4 -> r <> c -> inv s r -> st_of s c = T_RUNNABLE -> load_ctx (umem s) c = k ->
  allowed s r e -> act e s = (Ret tt, s1) -> suspended s1 c k.
Proof.
  intros Hc Hrc Hi Hst Hk Ha Hrun. pose proof (inv_saved _ _ Hi c Hc (not_eq_sym Hrc) Hst) as Hs. destruct e as [m k'|f| |].
  - destruct (work_inv s r m k' Hi Ha) as [Hi1 H]. injection Hrun as <-. destruct (H c Hc (not_eq_sym Hrc)) as [E H1]. destruct (H1 Hs) as [E1 _].
    right. exists r. split_and!; [done|done|congruence|cbn [umem set_ucpu set_umem]; congruence].
  - destruct (create_inv s s1 r f Hi Ha Hrun) as [Hi1 H]. destruct (H c Hc) as [E H1]; [rewrite Hst; done|]. destruct (H1 Hs) as [E1 _].
    right. exists r. split_and!; [done|done|congruence|congruence].
  - apply (leave_suspended s s1 r c k T_RUNNABLE); auto.
  - apply (leave_suspended s s1 r c k T_FREE); auto.
Qed.

Lemma away_suspended c k s s2 : 0 <= c < 4 -> away c s s2 -> suspended s c k -> suspended s2 c k.
Proof.
  intros Hc Ha. induction Ha as [|s s1 s2 r e Hcur Hrc Hal Hrun Ha IH]; intros Hsus; [done|]. apply IH.
  destruct Hsus as [[Hi _]|(r' & Hr' & Hi & Hst & Hk)].
  - rewrite (inv_cur _ _ Hi), !th_eq in Hcur. lia.
  - rewrite (inv_cur _ _ Hi), !th_eq in Hcur. assert (r' = r) as -> by lia. by apply (act_suspended s s1 r c k e).
Qed.

End Threads1.

(** ** A run *)
Definition cpu0 : cpu := Cpu 1 2 3 4 5 6 7 2000 100.

(** [main] has created one thread, at 512. *)
Definition started : ut := Eval vm_compute in snd (bind (thread_init layout1 65536) (fun _ => thread_create layout1 65536 512) (Ut ∅ 0 0 cpu0 0)).

Definition in_child : ut := Eval vm_compute in snd (thread_yield layout1 65536 4096 started).

Definition back : ut := Eval vm_compute in snd (thread_yield layout1 65536 4096 in_child).

Lemma started_inv : inv 65536 1000 3000 started 0.
Proof.
  split; [vm_compute; reflexivity|lia|left; vm_compute; reflexivity|vm_compute; intuition discriminate|].
  intros i Hi Hne. assert (i = 1 \/ i = 2 \/ i = 3) as [-> | [-> | ->]] by lia; vm_compute; intuition discriminate.
Qed.

Lemma in_child_run : thread_yield layout1 65536 4096 started = (Ret tt, in_child).
Proof. vm_compute. reflexivity. Qed.

Lemma back_run : act 65536 4096 Yield in_child = (Ret tt, back).
Proof. vm_compute. reflexivity. Qed.

Lemma child_away : away 65536 4096 1000 3000 0 in_child back.
Proof.
  apply (away_step _ _ _ _ _ _ back back 1 Yield); [vm_compute; reflexivity|done|vm_compute; intuition discriminate|apply back_run|apply away_here].
Qed.

Lemma in_child_away : current_thread in_child <> th 65536 0.
Proof. vm_compute. discriminate. Qed.

Lemma back_current : current_thread back = th 65536 0.
Proof. vm_compute. reflexivity. Qed.

Lemma started_room : room 65536 1000 3000 started 0.
Proof. vm_compute. intuition discriminate. Qed.

Lemma child_entry : eip (ucpu in_child) = 512.
Proof. vm_compute. reflexivity. Qed.

Lemma child_step (P : ut -> Prop) : (exists s1, thread_yield layout1 65536 4096 started = (Ret tt, s1) /\ P s1) -> P in_child.
Proof. intros (s1 & H & HP). rewrite in_child_run in H. assert (in_child = s1) as -> by exact (f_equal snd H). exact HP. Qed.

Definition child_claim (s1 : ut) : Prop := (current_thread s1 = th 65536 0 -> ucpu s1 = ucpu started) /\
  (current_thread s1 <> th 65536 0 -> forall s2, away 65536 4096 1000 3000 0 s1 s2 -> current_thread s2 = th 65536 0 -> ucpu s2 = set_eip 4096 (ucpu started)).


(** In uthread3.c the first word of the table's entries is [tid], so the first
    switch loads the stack pointer from it: the new thread starts with its
    identifier, 1, as its stack pointer. *)
Example uthread3_stack_pointer :
  let s := snd (bind (thread_init3 layout3 65536) (fun _ => thread_create3 layout3 65536 512) (Ut ∅ 0 0 cpu0 1)) in
  let '(_, s1) := bind (set_state layout3 65536 T_RUNNABLE) (fun _ => choose_next layout3 65536) s in
  next_thread s1 = thread_at layout3 65536 1 /\ ld32 (umem s1) (next_thread s1) = 1 /\ ld32 (umem s1) (next_thread s1 + off_sp layout3) = next_thread s1 + 8200 - 36.
Proof. vm_compute. done. Qed.

(** Of three threads that keep yielding the third never runs: the scan always
    starts at the first entry. *)
Example third_thread_starves :
  let create := thread_create layout1 65536 in
  let s := snd (bind (thread_init layout1 65536) (fun _ => bind (create 512) (fun _ => bind (create 600) (fun _ => bind (create 700) (fun _ => thread_schedule layout1 65536 4096)))) (Ut ∅ 0 0 cpu0 0)) in
  let y s := snd (thread_yield layout1 65536 4096 s) in
  current_thread s = thread_at layout1 65536 1 /\ current_thread (y s) = thread_at layout1 65536 2 /\ current_thread (y (y s)) = thread_at layout1 65536 1 /\
  current_thread (y (y (y s))) = thread_at layout1 65536 2.
Proof. vm_compute. done. Qed.
