(* ===== verification/Mp.v ===== *)
(** * Processors from the firmware's tables (src/xv6/mp_uefi.c, mp_uefi.h)

    The boot parameters and the MADT are bytes in memory.  The theorem shows
    that the parser reads back every well-formed table; a record of a type the
    parser does not know, or of length 0, makes it spin. *)
From S2P Require Import Prelude Mem.

Definition BOOTPARAM : Z := 327680.

Definition MP_KERNBASE : Z := 2147483648.

Definition NCPU : Z := 4.

(** [sizeof(struct uefi_madt)] *)
Definition MADT_SIZE : Z := 44.

(** The memory and the globals; [apicids] holds [cpus[i].apicid]. *)
Record mps : Type := Mps {
  mp_mem : mem;
  lapic : Z;
  ncpu : Z;
  apicids : list Z;
  ioapicid : Z;
}.

Definition set_lapic (v : Z) (s : mps) : mps := Mps (mp_mem s) v (ncpu s) (apicids s) (ioapicid s).

Definition set_ncpu (v : Z) (s : mps) : mps := Mps (mp_mem s) (lapic s) v (apicids s) (ioapicid s).

Definition set_apicid (i v : Z) (s : mps) : mps := Mps (mp_mem s) (lapic s) (ncpu s) (<[Z.to_nat i := v]> (apicids s)) (ioapicid s).

Definition set_ioapicid (v : Z) (s : mps) : mps := Mps (mp_mem s) (lapic s) (ncpu s) (apicids s) v.

Definition byte_at (a : Z) : M mps Z := gets (fun s => ld8 (mp_mem s) (u32 a)).

Definition word_at (a : Z) : M mps Z := gets (fun s => ld32 (mp_mem s) (u32 a)).

(** The body of the loop over the records, for the record at offset [i]; the
    offset of the next one. *)
Definition madt_record (madt i : Z) : M mps Z :=
  entry_type ← byte_at (madt + i);
  record_len ← byte_at (madt + i + 1);
  if entry_type =? 0 then
    lapic_id ← byte_at (madt + i + 3);
    n ← gets ncpu;
    when (n <? NCPU)
      (modify (set_apicid n lapic_id) ;;
       modify (set_ncpu (n + 1))) ;;
    ret (u32 (i + record_len))
  else if entry_type =? 1 then
    ioapic_id ← byte_at (madt + i + 2);
    modify (set_ioapicid ioapic_id) ;;
    ret (u32 (i + record_len))
  else if entry_type =? 2 then ret (u32 (i + record_len))
  else if entry_type =? 4 then ret (u32 (i + record_len))
  else if entry_type =? 5 then ret (u32 (i + 12))
  else ret i.

(** [while(i < madt->len)]: out of fuel, the routine has not returned. *)
Fixpoint madt_loop (fuel : nat) (madt i : Z) : M mps unit :=
  match fuel with
  | O => sleep_on 0
  | S k =>
      len ← word_at (madt + 4);
      if i <? len then
        i ← madt_record madt i;
        madt_loop k madt i
      else ret tt
  end.

Definition mpinit_uefi (fuel : nat) : M mps unit :=
  a ← word_at (MP_KERNBASE + BOOTPARAM + 8);
  let madt := u32 (a + MP_KERNBASE) in
  l ← word_at (madt + 36);
  modify (set_lapic l) ;;
  modify (set_ncpu 0) ;;
  madt_loop fuel madt MADT_SIZE.

(** ** Tables as firmware writes them *)

(** Processor (its number and APIC id), I/O APIC (its id), and records that are
    skipped: interrupt source overrides (2), non-maskable interrupts (4) and the
    address override (5), with the bytes after what the parser reads. *)
Inductive record : Type :=
| RLapic (processor apicid : Z) (rest : list Z)
| RIoapic (apicid : Z) (rest : list Z)
| ROther (type : Z) (rest : list Z)
| RAddress (rest : list Z).

Definition payload (r : record) : list Z :=
  match r with
  | RLapic p i rest => p :: i :: rest
  | RIoapic i rest => i :: rest
  | ROther _ rest | RAddress rest => rest
  end.

Definition rtype (r : record) : Z :=
  match r with
  | RLapic _ _ _ => 0
  | RIoapic _ _ => 1
  | ROther t _ => t
  | RAddress _ => 5
  end.

Definition encode (r : record) : list Z := rtype r :: (2 + Z.of_nat (length (payload r))) :: payload r.

Definition record_ok (r : record) : Prop :=
  (length (payload r) <= 253)%nat /\
  match r with
  | ROther t _ => t = 2 \/ t = 4
  | RAddress rest => length rest = 10%nat
  | _ => True
  end.

(** The APIC ids of the processors, and of the I/O APICs. *)
Definition processors (rs : list record) : list Z := omap (fun r => match r with RLapic _ i _ => Some i | _ => None end) rs.

Definition ioapics (rs : list record) : list Z := omap (fun r => match r with RIoapic i _ => Some i | _ => None end) rs.

Definition table (rs : list record) : list Z := concat (encode <$> rs).

(** ** Proof *)
Lemma bytes_split m a n1 n2 : bytes m a (n1 + n2) = bytes m a n1 ++ bytes m (a + Z.of_nat n1) n2.
Proof.
  revert a. induction n1 as [|n1 IH]; intros a; [by rewrite Z.add_0_r|]. cbn [Nat.add bytes app]. rewrite IH. do 3 f_equal. lia.
Qed.

(** What one record does to the globals. *)
Definition apply_record (s : mps) (r : record) : mps :=
  match r with
  | RLapic _ i _ => if ncpu s <? NCPU then set_ncpu (ncpu s + 1) (set_apicid (ncpu s) i s) else s
  | RIoapic i _ => set_ioapicid i s
  | _ => s
  end.

Lemma bytes_S m a k l : bytes m a (S k) = l -> exists x l', l = x :: l' /\ ld8 m a = x /\ bytes m (a + 1) k = l'.
Proof. intros <-. cbn [bytes]. eauto. Qed.

Lemma record_run madt i r s : 0 <= madt -> 0 <= i -> madt + i + Z.of_nat (length (encode r)) < 4294967296 -> record_ok r ->
  bytes (mp_mem s) (madt + i) (length (encode r)) = encode r ->
  madt_record madt i s = (Ret (i + Z.of_nat (length (encode r))), apply_record s r).
Proof.
  intros Hm Hi Hb [Hl Hr] He. destruct s as [m la n ids io]. cbn [mp_mem] in He. unfold encode in *. cbn [length] in *.
  apply bytes_S in He as (x & l & E & H0 & He). injection E as <- <-. apply bytes_S in He as (x & l & E & H1 & He). injection E as <- <-.
  unfold madt_record, byte_at, bind, gets. cbn [mp_mem]. rewrite (u32_small (madt + i)), (u32_small (madt + i + 1)) by lia. rewrite H0, H1.
  destruct r as [p a rest|a rest|t rest|rest]; cbn [rtype payload length] in *.
  - apply bytes_S in He as (x & l & E & H2 & He). injection E as <- <-. apply bytes_S in He as (x & l & E & H3 & He). injection E as <- <-.
    cbn [Z.eqb ncpu mp_mem]. rewrite (u32_small (madt + i + 3)) by lia. replace (madt + i + 1 + 1 + 1) with (madt + i + 3) in H3 by lia. rewrite H3.
    cbn [ncpu apply_record]. destruct (n <? NCPU); cbn [when]; unfold modify, ret, bind; rewrite u32_small by lia; do 2 f_equal; lia.
  - apply bytes_S in He as (x & l & E & H2 & He). injection E as <- <-. cbn [Z.eqb Pos.eqb ncpu mp_mem]. rewrite (u32_small (madt + i + 2)) by lia.
    replace (madt + i + 1 + 1) with (madt + i + 2) in H2 by lia. rewrite H2. unfold modify, ret. rewrite u32_small by lia. do 2 f_equal. lia.
  - destruct Hr as [-> | ->]; cbn [Z.eqb Pos.eqb]; unfold ret; rewrite u32_small by lia; do 2 f_equal; lia.
  - cbn [Z.eqb Pos.eqb]. unfold ret. rewrite u32_small by lia. do 2 f_equal. lia.
Qed.

Lemma apply_record_mem s r : mp_mem (apply_record s r) = mp_mem s /\ lapic (apply_record s r) = lapic s.
Proof. destruct r; cbn [apply_record]; try done. by destruct (_ <? _). Qed.

Lemma loop_run rs : forall fuel madt i s, (length rs < fuel)%nat -> 0 <= madt -> 4 <= i -> madt + i + Z.of_nat (length (table rs)) < 4294967296 ->
  ld32 (mp_mem s) (madt + 4) = i + Z.of_nat (length (table rs)) -> Forall record_ok rs ->
  bytes (mp_mem s) (madt + i) (length (table rs)) = table rs -> madt_loop fuel madt i s = (Ret tt, foldl apply_record s rs).
Proof.
  induction rs as [|r rs IH]; intros fuel madt i s Hf Hm Hi Hb Hlen Hok Hbytes; (destruct fuel as [|fuel]; [cbn [length] in Hf; lia|]); cbn [madt_loop]; unfold bind at 1, word_at, gets; rewrite u32_small by lia.
  - rewrite Hlen. change (length (table [])) with 0%nat. rewrite Z.add_0_r, Z.ltb_irrefl. done.
  - inversion Hok as [|? ? Hr Hrs]; subst. unfold table in *. cbn [fmap list_fmap concat] in *. fold (table rs) in *. rewrite length_app in *.
    rewrite Hlen. assert (0 < length (encode r))%nat by (unfold encode; cbn [length]; lia). assert ((i <? i + Z.of_nat (length (encode r) + length (table rs))) = true) as -> by (apply Z.ltb_lt; lia).
    rewrite bytes_split in Hbytes. apply app_inj_1 in Hbytes as [H1 H2]; [|by rewrite length_bytes].
    rewrite (bind_Ret _ _ _ _ _ (record_run madt i r s Hm ltac:(lia) ltac:(lia) Hr H1)). destruct (apply_record_mem s r) as [Em _].
    apply IH; rewrite ?Em; try done; try lia; [cbn [length] in Hf; lia|]. rewrite <- H2 at 2. f_equal. lia.
Qed.

(** The globals after the records. *)
Lemma apply_records rs : forall s, 0 <= ncpu s <= NCPU -> length (apicids s) = Z.to_nat NCPU ->
  let s' := foldl apply_record s rs in
  ncpu s' = Z.min NCPU (ncpu s + Z.of_nat (length (processors rs))) /\
  take (Z.to_nat (ncpu s')) (apicids s') = take (Z.to_nat NCPU) (take (Z.to_nat (ncpu s)) (apicids s) ++ processors rs) /\
  ioapicid s' = default (ioapicid s) (last (ioapics rs)) /\ lapic s' = lapic s.
Proof.
  induction rs as [|r rs IH]; intros s Hn Hl; cbn [foldl].
  - cbn. rewrite app_nil_r, take_take. split_and!; try done; [lia|]. f_equal. lia.
  - destruct r as [p i rest|i rest|t rest|rest]; cbn [apply_record processors ioapics omap list_omap]; fold (processors rs); fold (ioapics rs).
    + destruct (ncpu s <? NCPU) eqn:E; bool_to_prop.
      * set (s1 := set_ncpu (ncpu s + 1) (set_apicid (ncpu s) i s)).
        assert (take (Z.to_nat (ncpu s1)) (apicids s1) = take (Z.to_nat (ncpu s)) (apicids s) ++ [i]) as Ht.
        { cbn [s1 ncpu apicids set_ncpu set_apicid]. replace (Z.to_nat (ncpu s + 1)) with (S (Z.to_nat (ncpu s))) by lia.
          rewrite (take_S_r _ _ i) by (apply list_lookup_insert_eq; rewrite Hl; lia). by rewrite take_insert_ge by lia. }
        destruct (IH s1) as (H1 & H2 & H3 & H4); [cbn [s1 ncpu set_ncpu]; lia|cbn [s1 apicids set_ncpu set_apicid]; by rewrite length_insert|].
        rewrite H1, H3, H4. rewrite H1 in H2. rewrite H2, Ht, <- app_assoc. split; [cbn [s1 ncpu set_ncpu length]; lia|]. done.
      * destruct (IH s) as (H1 & H2 & H3 & H4); [done..|]. rewrite H1, H3, H4. rewrite H1 in H2. rewrite H2. split; [cbn [length]; lia|]. split; [|done].
        assert (length (take (Z.to_nat (ncpu s)) (apicids s)) = Z.to_nat NCPU) as Hlt by (rewrite length_take; lia).
        by rewrite !take_app_le by lia.
    + destruct (IH (set_ioapicid i s)) as (H1 & H2 & H3 & H4); [done..|]. rewrite H1, H3, H4. rewrite H1 in H2. rewrite H2. do 2 (split; [done|]). split; [|done].
      rewrite last_cons. by destruct (last (ioapics rs)).
    + by apply IH.
    + by apply IH.
Qed.

Lemma mpinit_run fuel rs s madt n :
  madt = u32 (ld32 (mp_mem s) (MP_KERNBASE + BOOTPARAM + 8) + MP_KERNBASE) -> n = Z.of_nat (length (table rs)) ->
  madt + 44 + n < 4294967296 -> Forall record_ok rs -> length (apicids s) = Z.to_nat NCPU ->
  ld32 (mp_mem s) (madt + 4) = 44 + n -> bytes (mp_mem s) (madt + 44) (length (table rs)) = table rs -> (length rs < fuel)%nat ->
  exists s', mpinit_uefi fuel s = (Ret tt, s') /\
    ncpu s' = Z.min NCPU (Z.of_nat (length (processors rs))) /\
    take (Z.to_nat (ncpu s')) (apicids s') = take (Z.to_nat NCPU) (processors rs) /\
    ioapicid s' = default (ioapicid s) (last (ioapics rs)) /\ lapic s' = ld32 (mp_mem s) (madt + 36).
Proof.
  intros Hmadt Hn Hb Hok Hl Hlen Hbytes Hf. pose proof (u32_range (ld32 (mp_mem s) (MP_KERNBASE + BOOTPARAM + 8) + MP_KERNBASE)) as Hr. rewrite <- Hmadt in Hr.
  set (s1 := set_ncpu 0 (set_lapic (ld32 (mp_mem s) (madt + 36)) s)). exists (foldl apply_record s1 rs). split.
  - unfold mpinit_uefi, bind, word_at, gets, modify. rewrite (u32_small (MP_KERNBASE + BOOTPARAM + 8)) by (unfold MP_KERNBASE, BOOTPARAM; lia).
    rewrite <- Hmadt. rewrite u32_small by lia. apply loop_run; unfold MADT_SIZE; try done; try lia. etransitivity; [exact Hlen|lia].
  - destruct (apply_records rs s1) as (H1 & H2 & H3 & H4); [cbn [s1 ncpu set_ncpu]; unfold NCPU; lia|done|]. by split_and!.
Qed.

(** C34: [mpinit_uefi] reads back every table of well-formed records: it
    returns, and [ncpu] and the [apicid]s are those of the processors of the
    table in order, up to [NCPU] of them, the I/O APIC is the last one named,
    and [lapic] the address in the header; records of other kinds and longer
    records than the parser expects do not disturb it. *)
Theorem mpinit_reads fuel rs s madt n :
  madt = u32 (ld32 (mp_mem s) (MP_KERNBASE + BOOTPARAM + 8) + MP_KERNBASE) -> n = Z.of_nat (length (table rs)) ->
  madt + 44 + n < 4294967296 -> Forall record_ok rs -> length (apicids s) = Z.to_nat NCPU ->
  ld32 (mp_mem s) (madt + 4) = 44 + n -> bytes (mp_mem s) (madt + 44) (length (table rs)) = table rs -> (length rs < fuel)%nat ->
  exists s', mpinit_uefi fuel s = (Ret tt, s') /\
    ncpu s' = Z.min NCPU (Z.of_nat (length (processors rs))) /\
    take (Z.to_nat (ncpu s')) (apicids s') = take (Z.to_nat NCPU) (processors rs) /\
    ioapicid s' = default (ioapicid s) (last (ioapics rs)) /\ lapic s' = ld32 (mp_mem s) (madt + 36).
Proof. apply mpinit_run. Qed.

(** A table of a processor, an I/O APIC, an override and a second processor. *)
Definition sample : list record := [RLapic 0 7 [1; 0; 0; 0]; RIoapic 2 [0; 0; 0; 0; 0; 0; 0; 0; 0]; ROther 2 [0; 0; 2; 0; 0; 0; 0; 0]; RLapic 1 9 [1; 0; 0; 0]].

Fixpoint write_bytes (m : mem) (a : Z) (l : list Z) : mem :=
  match l with
  | [] => m
  | b :: rest => write_bytes (st8 m a b) (a + 1) rest
  end.

(** The table at 65536, physical. *)
Definition sample_mem : mem := write_bytes (st32 (st32 (st32 ∅ 2147811336 65536) 2147549188 82) 2147549220 4276092928) 2147549228 (table sample).

Lemma sample_ok : Forall record_ok sample.
Proof. repeat constructor; vm_compute; auto with lia. Qed.

Lemma mpinit_reads_witness : exists s', mpinit_uefi 5 (Mps sample_mem 0 0 [0; 0; 0; 0] 0) = (Ret tt, s') /\ ncpu s' = 2 /\
  take (Z.to_nat (ncpu s')) (apicids s') = [7; 9] /\ ioapicid s' = 2 /\ lapic s' = 4276092928.
Proof.
  destruct (mpinit_reads 5 sample (Mps sample_mem 0 0 [0; 0; 0; 0] 0) 2147549184 38) as (s' & H1 & H2 & H3 & H4 & H5);
    [vm_compute; reflexivity|vm_compute; reflexivity|lia|exact sample_ok|reflexivity|vm_compute; reflexivity|vm_compute; reflexivity|cbn; lia|].
  exists s'. split; [exact H1|]. split; [exact H2|]. split; [exact H3|]. split; [exact H4|exact H5].
Defined.

(** A record of type 3, which the parser does not know, is never passed. *)
Lemma unknown_record_spins madt i s : 0 <= madt -> madt + i < 4294967295 -> 4 <= i < ld32 (mp_mem s) (madt + 4) -> ld8 (mp_mem s) (madt + i) = 3 ->
  forall fuel, madt_loop fuel madt i s = (Sleep 0, s).
Proof.
  intros Hm Hb Hi Ht fuel. induction fuel as [|fuel IH]; [done|]. cbn [madt_loop]. unfold bind, word_at, gets. rewrite u32_small by lia.
  assert ((i <? ld32 (mp_mem s) (madt + 4)) = true) as -> by (apply Z.ltb_lt; lia).
  unfold madt_record, byte_at, bind, gets. rewrite u32_small by lia. rewrite Ht. exact IH.
Qed.
