(* ===== verification/Boot.v ===== *)
(** * The boot loader (src/xv6/bootmain.c)

    The boot disk is a function from byte positions to bytes.  The controller's
    ports keep what was last written to them; a read command fetches the sector
    the address ports name.  What the status port shows at each poll is a
    parameter. *)
From S2P Require Import Prelude Mem.

Definition SECTSIZE : Z := 512.

Definition BOOT_ELF_MAGIC : Z := 1179403647.

(** Memory, the controller's ports, the number of polls of the status port, and
    the address jumped to. *)
Record boot : Type := Boot {
  b_mem : mem;
  b_ports : gmap Z Z;
  b_polls : nat;
  b_jumped : option Z;
}.

Definition set_b_mem (v : mem) (s : boot) : boot := Boot v (b_ports s) (b_polls s) (b_jumped s).

Definition set_b_port (p v : Z) (s : boot) : boot := Boot (b_mem s) (<[p := u8 v]> (b_ports s)) (b_polls s) (b_jumped s).

Definition set_b_polls (v : nat) (s : boot) : boot := Boot (b_mem s) (b_ports s) v (b_jumped s).

Definition set_b_jumped (v : option Z) (s : boot) : boot := Boot (b_mem s) (b_ports s) (b_polls s) v.

Section Loader.
Context (disk : Z -> Z) (status : nat -> Z) (polls : nat).

Definition boot_outb (p v : Z) : M boot unit := modify (set_b_port p v).

Definition port (s : boot) (p : Z) : Z := default 0 (b_ports s !! p).

(** The sector the address ports name. *)
Definition lba (s : boot) : Z :=
  port s 499 + 256 * port s 500 + 65536 * port s 501 + 16777216 * Z.land (port s 502) 15.

(** [n] bytes from position [pos] of the disk to [dst]. *)
Fixpoint transfer (m : mem) (dst pos : Z) (n : nat) : mem :=
  match n with
  | O => m
  | S k => transfer (st8 m dst (disk pos)) (u32 (dst + 1)) (pos + 1) k
  end.

Definition boot_insl (dst cnt : Z) : M boot unit :=
  modify (fun s => set_b_mem (transfer (b_mem s) dst (SECTSIZE * lba s) (Z.to_nat (4 * cnt))) s).

Fixpoint waitdisk_loop (fuel : nat) : M boot unit :=
  match fuel with
  | O => sleep_on 0
  | S k =>
      n ← gets b_polls;
      modify (set_b_polls (S n)) ;;
      if negb (Z.land (status n) 192 =? 64) then waitdisk_loop k else ret tt
  end.

Definition waitdisk : M boot unit := waitdisk_loop polls.

Definition readsect (dst offset : Z) : M boot unit :=
  waitdisk ;;
  boot_outb 498 1 ;;
  boot_outb 499 offset ;;
  boot_outb 500 (Z.shiftr offset 8) ;;
  boot_outb 501 (Z.shiftr offset 16) ;;
  boot_outb 502 (Z.lor (Z.shiftr offset 24) 224) ;;
  boot_outb 503 32 ;;
  waitdisk ;;
  boot_insl dst (SECTSIZE / 4).

Fixpoint readseg_loop (fuel : nat) (pa epa offset : Z) : M boot unit :=
  match fuel with
  | O => sleep_on 0
  | S k =>
      if pa <? epa then
        readsect pa offset ;;
        readseg_loop k (u32 (pa + SECTSIZE)) epa (u32 (offset + 1))
      else ret tt
  end.

Definition readseg (fuel : nat) (pa count offset : Z) : M boot unit :=
  let epa := u32 (pa + count) in
  let pa := u32 (pa - offset mod SECTSIZE) in
  let offset := u32 (offset / SECTSIZE + 1) in
  readseg_loop fuel pa epa offset.

Definition b_ld32 (a : Z) : M boot Z := gets (fun s => ld32 (b_mem s) (u32 a)).

Definition b_ld16 (a : Z) : M boot Z := gets (fun s => ld16 (b_mem s) (u32 a)).

(** The body of the loop over the program headers, for the one at [ph]. *)
Definition load_segment (fuel : nat) (ph : Z) : M boot unit :=
  pa ← b_ld32 (ph + 12);
  filesz ← b_ld32 (ph + 16);
  off ← b_ld32 (ph + 4);
  readseg fuel pa filesz off ;;
  memsz ← b_ld32 (ph + 20);
  filesz ← b_ld32 (ph + 16);
  when (filesz <? memsz)
    (modify (fun s => set_b_mem (stosb (b_mem s) (u32 (pa + filesz)) 0 (Z.to_nat (memsz - filesz))) s)).

(** [for(; ph < eph; ph++)] makes at most [phnum] rounds. *)
Fixpoint segments_loop (fuel n : nat) (ph eph : Z) : M boot unit :=
  match n with
  | O => ret tt
  | S k =>
      if ph <? eph then
        load_segment fuel ph ;;
        segments_loop fuel k (u32 (ph + 32)) eph
      else ret tt
  end.

Definition bootmain (fuel : nat) : M boot unit :=
  let elf := 65536 in
  readseg fuel elf 4096 0 ;;
  magic ← b_ld32 elf;
  if negb (magic =? BOOT_ELF_MAGIC) then ret tt
  else
    phoff ← b_ld32 (elf + 28);
    phnum ← b_ld16 (elf + 44);
    let ph := u32 (elf + phoff) in
    segments_loop fuel (Z.to_nat phnum) ph (u32 (ph + 32 * phnum)) ;;
    entry ← b_ld32 (elf + 24);
    modify (set_b_jumped (Some entry)).


(** ** Reading sectors *)

(** The status port shows the disk ready within [polls] polls. *)
Hypothesis Hready : forall n, exists k, (k < polls)%nat /\ Z.land (status (n + k)) 192 = 64.

(** [m'] is [m] with the bytes of [lo, hi) read from position [pos]. *)
Definition loaded (m m' : mem) (lo hi pos : Z) : Prop :=
  forall b, ld8 m' b = if decide (lo <= b < hi) then u8 (disk (pos + (b - lo))) else ld8 m b.

Lemma transfer_loaded n : forall m dst pos, 0 <= dst -> dst + Z.of_nat n < 4294967296 -> loaded m (transfer m dst pos n) dst (dst + Z.of_nat n) pos.
Proof.
  induction n as [|n IH]; intros m dst pos H1 H2 b; cbn [transfer].
  - destruct (decide _); [lia|done].
  - rewrite u32_small by lia. rewrite (IH _ (dst + 1) (pos + 1)) by lia. destruct (decide (b = dst)) as [->|].
    + rewrite decide_False, decide_True by lia. rewrite ld8_st8_eq, Z.sub_diag, Z.add_0_r. done.
    + rewrite ld8_st8_ne by lia. destruct (decide (dst + 1 <= b < dst + 1 + Z.of_nat n)); [rewrite decide_True by lia; do 2 f_equal; lia|]. by rewrite decide_False by lia.
Qed.

Lemma waitdisk_run s : exists n, waitdisk s = (Ret tt, set_b_polls n s).
Proof.
  destruct (Hready (b_polls s)) as (k & Hk & Hst). unfold waitdisk. revert s Hst. revert Hk. generalize polls as fuel. induction k as [|k IH]; intros [|fuel] Hk s Hst; try lia; cbn [waitdisk_loop]; unfold bind, gets, modify.
  - rewrite Nat.add_0_r in Hst. rewrite Hst. by eexists.
  - destruct (negb _); [|by eexists]. destruct (IH fuel ltac:(lia) (set_b_polls (S (b_polls s)) s)) as [n Hn]; [cbn [b_polls set_b_polls]; by replace (S (b_polls s) + k)%nat with (b_polls s + S k)%nat by lia|].
    exists n. by rewrite Hn.
Qed.

Lemma low_nibble x : 0 <= x < 16 -> Z.land (u8 (Z.lor x 224)) 15 = x.
Proof.
  intros H. assert (forallb (fun n => Z.land (u8 (Z.lor (Z.of_nat n) 224)) 15 =? Z.of_nat n) (seq 0 16) = true) as Hall by (vm_compute; reflexivity).
  rewrite forallb_forall in Hall. specialize (Hall (Z.to_nat x)). rewrite Z2Nat.id in Hall by lia. apply Z.eqb_eq, Hall. apply in_seq. lia.
Qed.

(** The address ports hold the sector number. *)
Lemma lba_ports s offset : 0 <= offset < 268435456 ->
  lba (set_b_port 503 32 (set_b_port 502 (Z.lor (Z.shiftr offset 24) 224) (set_b_port 501 (Z.shiftr offset 16) (set_b_port 500 (Z.shiftr offset 8) (set_b_port 499 offset s))))) = offset.
Proof.
  intros H. unfold lba, port, set_b_port. cbn [b_ports].
  rewrite (lookup_insert_ne _ 503 499), (lookup_insert_ne _ 502 499), (lookup_insert_ne _ 501 499), (lookup_insert_ne _ 500 499), (lookup_insert_ne _ 503 500),
    (lookup_insert_ne _ 502 500), (lookup_insert_ne _ 501 500), (lookup_insert_ne _ 503 501), (lookup_insert_ne _ 502 501), (lookup_insert_ne _ 503 502), !lookup_insert_eq by done.
  cbn [from_option id]. rewrite !Z.shiftr_div_pow2 by lia. rewrite low_nibble by (change (2 ^ 24) with 16777216; zdm).
  unfold u8. change (2 ^ 8) with 256. change (2 ^ 16) with 65536. change (2 ^ 24) with 16777216. zdm.
Qed.

Lemma readsect_run s dst offset : 0 <= offset < 268435456 -> 0 <= dst -> dst + 512 < 4294967296 ->
  exists s', readsect dst offset s = (Ret tt, s') /\ b_jumped s' = b_jumped s /\ loaded (b_mem s) (b_mem s') dst (dst + 512) (512 * offset).
Proof.
  intros Ho Hd Hd'. unfold readsect. destruct (waitdisk_run s) as [n1 Hw]. rewrite (bind_Ret _ _ _ _ _ Hw).
  unfold bind at 1 2 3 4 5 6, boot_outb, modify. match goal with |- context [bind waitdisk _ ?t] => set (s2 := t) end.
  destruct (waitdisk_run s2) as [n2 Hw2]. rewrite (bind_Ret _ _ _ _ _ Hw2). eexists. split; [reflexivity|]. split; [done|].
  cbn [b_mem set_b_mem]. change (lba (set_b_polls n2 s2)) with (lba s2). unfold s2. rewrite lba_ports by done. apply (transfer_loaded 512); lia.
Qed.

Lemma readseg_loop_run fuel : forall s pa epa offset, 0 <= pa -> 0 <= epa -> epa + 512 < 4294967296 -> 0 <= offset -> epa - pa + 512 * offset < 137438953472 ->
  epa - pa < 512 * (Z.of_nat fuel - 1) -> (1 <= fuel)%nat ->
  exists s' hi, readseg_loop fuel pa epa offset s = (Ret tt, s') /\ b_jumped s' = b_jumped s /\ pa <= hi /\ epa <= hi /\ (hi = pa \/ hi < epa + 512) /\
    loaded (b_mem s) (b_mem s') pa hi (512 * offset).
Proof.
  induction fuel as [|fuel IH]; intros s pa epa offset H1 H2 H3 H4 H5 H6 H7; [lia|]. cbn [readseg_loop]. destruct (pa <? epa) eqn:E; bool_to_prop.
  - destruct (readsect_run s pa offset ltac:(lia) H1 ltac:(lia)) as (s1 & Hr & Hj & Hl). rewrite (bind_Ret _ _ _ _ _ Hr).
    unfold SECTSIZE. rewrite !u32_small by lia. destruct (IH s1 (pa + 512) epa (offset + 1)) as (s2 & hi & Hr2 & Hj2 & B1 & B2 & B3 & Hl2); [lia..|].
    exists s2, hi. split; [done|]. split; [congruence|]. split; [lia|]. split; [lia|]. split; [lia|]. intros b. rewrite Hl2, Hl.
    destruct (decide (pa + 512 <= b < hi)); [rewrite decide_True by lia; do 2 f_equal; lia|]. destruct (decide (pa <= b < pa + 512)); [by rewrite decide_True by lia|by rewrite decide_False by lia].
  - exists s, pa. split; [done|]. split; [done|]. split; [lia|]. split; [lia|]. split; [lia|]. intros b. by rewrite decide_False by lia.
Qed.

Lemma readseg_run fuel s pa count off : off mod 512 <= pa -> 0 <= count -> pa + count + 512 < 4294967296 -> 0 <= off -> off + count + 2048 < 4294967296 ->
  count + 512 < 512 * (Z.of_nat fuel - 1) ->
  exists s' hi, readseg fuel pa count off s = (Ret tt, s') /\ b_jumped s' = b_jumped s /\ pa + count <= hi /\ hi < pa + count + 512 /\
    loaded (b_mem s) (b_mem s') (pa - off mod 512) hi (512 + off - off mod 512).
Proof.
  intros H1 H2 H3 H4 H5 H6. unfold readseg, SECTSIZE. pose proof (Z.mod_pos_bound off 512 ltac:(lia)). rewrite !u32_small by (try lia; zdm).
  assert (off mod 512 + 512 * (off / 512) = off) as Hdm by zdm.
  destruct (readseg_loop_run fuel s (pa - off mod 512) (pa + count) (off / 512 + 1)) as (s' & hi & Hr & Hj & B1 & B2 & B3 & Hl); [lia|lia|lia|zdm|zdm|lia|lia|].
  exists s', hi. split; [done|]. split; [done|]. split; [done|]. split; [|by replace (512 + off - off mod 512) with (512 * (off / 512 + 1)) by lia]. lia.
Qed.

(** ** The kernel's image *)

(** Its bytes start at the second sector. *)
Definition file8 (i : Z) : Z := u8 (disk (512 + i)).

Definition file16 (i : Z) : Z := file8 i + 256 * file8 (i + 1).

Definition file32 (i : Z) : Z := file8 i + 256 * file8 (i + 1) + 65536 * file8 (i + 2) + 16777216 * file8 (i + 3).

(** A program header: where the segment is in the file and in memory. *)
Record seg : Type := Seg {
  sg_off : Z;
  sg_paddr : Z;
  sg_filesz : Z;
  sg_memsz : Z;
}.

Definition seg_file (i : Z) : seg := Seg (file32 (i + 4)) (file32 (i + 12)) (file32 (i + 16)) (file32 (i + 20)).

Definition file_segs : list seg := (fun j => seg_file (file32 28 + 32 * Z.of_nat j)) <$> seq 0 (Z.to_nat (file16 44)).

(** The bytes loading a segment may write: whole sectors, and the rest of the
    segment's memory. *)
Definition touched (g : seg) (b : Z) : Prop :=
  sg_paddr g - sg_off g mod 512 <= b < sg_paddr g + sg_filesz g + 511 \/ sg_paddr g <= b < sg_paddr g + sg_memsz g.

Definition wanted (g : seg) (b : Z) : Prop := sg_paddr g <= b < sg_paddr g + Z.max (sg_filesz g) (sg_memsz g).

(** The segment is in memory, with zeros after the bytes of the file. *)
Definition placed (m : mem) (g : seg) : Prop :=
  (forall i, 0 <= i < sg_filesz g -> ld8 m (sg_paddr g + i) = file8 (sg_off g + i)) /\
  (forall i, sg_filesz g <= i < sg_memsz g -> ld8 m (sg_paddr g + i) = 0).

(** The loader's scratch page. *)
Definition scratch (b : Z) : Prop := 65536 <= b < 69632.

Record seg_ok (fuel : nat) (g : seg) : Prop := SegOk {
  so_low : sg_off g mod 512 <= sg_paddr g;
  so_high : sg_paddr g + Z.max (sg_filesz g) (sg_memsz g) + 512 < 4294967296;
  so_off : sg_off g + sg_filesz g + 2048 < 4294967296;
  so_fuel : sg_filesz g + 512 < 512 * (Z.of_nat fuel - 1);
  so_scratch : forall b, touched g b -> ~ scratch b;
}.

Definition header_loaded (m : mem) : Prop := forall i, 0 <= i < 4096 -> ld8 m (65536 + i) = file8 i.

Lemma header_ld32 m i : header_loaded m -> 0 <= i <= 4092 -> ld32 m (65536 + i) = file32 i.
Proof. intros H Hi. unfold ld32, file32. rewrite <- !Z.add_assoc. rewrite !H by lia. done. Qed.

Lemma header_ld16 m i : header_loaded m -> 0 <= i <= 4092 -> ld16 m (65536 + i) = file16 i.
Proof. intros H Hi. unfold ld16, file16. rewrite <- !Z.add_assoc. rewrite !H by lia. done. Qed.

Lemma file32_range i : 0 <= file32 i < 4294967296.
Proof. unfold file32, file8. pose proof (u8_range (disk (512 + i))). pose proof (u8_range (disk (512 + (i + 1)))). pose proof (u8_range (disk (512 + (i + 2)))). pose proof (u8_range (disk (512 + (i + 3)))). lia. Qed.

Lemma load_segment_run fuel s i : header_loaded (b_mem s) -> 0 <= i <= 4064 -> seg_ok fuel (seg_file i) ->
  exists s', load_segment fuel (65536 + i) s = (Ret tt, s') /\ b_jumped s' = b_jumped s /\ placed (b_mem s') (seg_file i) /\
    (forall b, ~ touched (seg_file i) b -> ld8 (b_mem s') b = ld8 (b_mem s) b).
Proof.
  intros Hh Hi Hok. pose proof (file32_range (i + 4)) as R1. pose proof (file32_range (i + 12)) as R2. pose proof (file32_range (i + 16)) as R3. pose proof (file32_range (i + 20)) as R4.
  destruct Hok as [O1 O2 O3 O4 O5]. unfold touched, wanted, placed in *. cbn [sg_off sg_paddr sg_filesz sg_memsz seg_file] in *.
  set (off := file32 (i + 4)) in *. set (pa := file32 (i + 12)) in *. set (fs := file32 (i + 16)) in *. set (ms := file32 (i + 20)) in *.
  destruct (readseg_run fuel s pa fs off) as (s1 & hi & Hr & Hj & B1 & B2 & Hl); [lia..|]. pose proof (Z.mod_pos_bound off 512 ltac:(lia)) as Hmod.
  assert (header_loaded (b_mem s1)) as Hh1.
  { intros k Hk. rewrite Hl, decide_False; [by apply Hh|]. intros Hc. apply (O5 (65536 + k)); [left; lia|unfold scratch; lia]. }
  assert (forall k, 0 <= k < fs -> ld8 (b_mem s1) (pa + k) = file8 (off + k)) as Hfile.
  { intros k Hk. rewrite Hl, decide_True by lia. unfold file8. do 2 f_equal. lia. }
  assert (forall s, header_loaded (b_mem s) -> forall k, 0 <= k <= 28 -> b_ld32 (65536 + i + k) s = (Ret (file32 (i + k)), s)) as Hld.
  { intros s2 H2 k Hk. unfold b_ld32, gets. rewrite u32_small by lia. rewrite <- Z.add_assoc, header_ld32 by (done || lia). done. }
  unfold load_segment. rewrite (bind_Ret _ _ _ _ _ (Hld s Hh 12 ltac:(lia))), (bind_Ret _ _ _ _ _ (Hld s Hh 16 ltac:(lia))), (bind_Ret _ _ _ _ _ (Hld s Hh 4 ltac:(lia))).
  fold pa fs off. rewrite (bind_Ret _ _ _ _ _ Hr). rewrite (bind_Ret _ _ _ _ _ (Hld s1 Hh1 20 ltac:(lia))), (bind_Ret _ _ _ _ _ (Hld s1 Hh1 16 ltac:(lia))). fold ms fs.
  destruct (fs <? ms) eqn:E; bool_to_prop; cbn [when]; eexists; (split; [reflexivity|]); (split; [done|]); cbn [b_mem set_b_mem].
  - rewrite u32_small by lia. split; [split|].
    + intros k Hk. rewrite ld8_stosb, decide_False by lia. by apply Hfile.
    + intros k Hk. by rewrite ld8_stosb, decide_True by lia.
    + intros b Hb. rewrite ld8_stosb, decide_False by lia. rewrite Hl, decide_False by lia. done.
  - split; [split; [done|lia]|]. intros b Hb. rewrite Hl, decide_False by lia. done.
Qed.

(** Loading does not disturb the segments before. *)
Definition later_apart (g : seg) (gs : list seg) : Prop := Forall (fun h => forall b, wanted g b -> ~ touched h b) gs.

Fixpoint apart_all (gs : list seg) : Prop :=
  match gs with
  | [] => True
  | g :: rest => later_apart g rest /\ apart_all rest
  end.

Lemma placed_ext m m' g : (forall b, wanted g b -> ld8 m' b = ld8 m b) -> 0 <= sg_filesz g -> placed m g -> placed m' g.
Proof. intros H H0 [H1 H2]. unfold wanted in H. split; intros i Hi; rewrite H by lia; auto. Qed.

Lemma segments_run fuel n : forall s i, header_loaded (b_mem s) -> 0 <= i -> i + 32 * Z.of_nat n <= 4096 ->
  let gs := (fun j => seg_file (i + 32 * Z.of_nat j)) <$> seq 0 n in
  Forall (seg_ok fuel) gs -> apart_all gs ->
  exists s', segments_loop fuel n (65536 + i) (65536 + i + 32 * Z.of_nat n) s = (Ret tt, s') /\ b_jumped s' = b_jumped s /\ header_loaded (b_mem s') /\
    Forall (placed (b_mem s')) gs /\ (forall b, Forall (fun g => ~ touched g b) gs -> ld8 (b_mem s') b = ld8 (b_mem s) b).
Proof.
  induction n as [|n IH]; intros s i Hh Hi Hn gs Hok Hap.
  - exists s. split; [done|]. done.
  - assert (gs = seg_file i :: ((fun j => seg_file (i + 32 + 32 * Z.of_nat j)) <$> seq 0 n)) as Hgs.
    { unfold gs. cbn [seq fmap list_fmap]. f_equal; [f_equal; lia|]. rewrite <- fmap_S_seq, <- list_fmap_compose. apply list_fmap_ext. intros k j _. cbn. f_equal. lia. }
    rewrite Hgs in *. clear gs Hgs. set (rest := (fun j => seg_file (i + 32 + 32 * Z.of_nat j)) <$> seq 0 n) in *.
    inversion Hok as [|? ? Hok1 Hok2]; subst. destruct Hap as [Hap1 Hap2].
    destruct (load_segment_run fuel s i Hh ltac:(lia) Hok1) as (s1 & Hr & Hj & Hp & Hf). 
    assert (header_loaded (b_mem s1)) as Hh1. { intros k Hk. rewrite Hf; [by apply Hh|]. intros Ht. apply (so_scratch _ _ Hok1 _ Ht). unfold scratch. lia. }
    destruct (IH s1 (i + 32) Hh1 ltac:(lia) ltac:(lia) Hok2 Hap2) as (s2 & Hr2 & Hj2 & Hh2 & Hp2 & Hf2). fold rest in Hp2, Hf2.
    exists s2. split.
    { cbn [segments_loop]. assert ((65536 + i <? 65536 + i + 32 * Z.of_nat (S n)) = true) as -> by (apply Z.ltb_lt; lia). rewrite (bind_Ret _ _ _ _ _ Hr).
      rewrite u32_small by lia. rewrite <- Hr2. replace (65536 + i + 32) with (65536 + (i + 32)) by lia. replace (65536 + i + 32 * Z.of_nat (S n)) with (65536 + (i + 32) + 32 * Z.of_nat n) by lia. done. }
    split; [congruence|]. split; [done|]. split.
    + constructor; [|done]. apply (placed_ext (b_mem s1)); [|apply file32_range|done]. intros b Hb. apply Hf2. eapply Forall_impl; [exact Hap1|]. cbn. auto.
    + intros b Hb. inversion Hb; subst. rewrite Hf2, Hf by done. done.
Qed.

(** C16: Started on a disk whose image begins with the ELF magic number and has
    its program headers in the first page, [bootmain] loads every segment to
    its physical address, byte for byte, clears the rest of the segment's
    memory, and jumps to the entry point, although it reads whole sectors and
    may write up to a sector on either side of a segment: it is enough that no
    segment's sectors overlap the scratch page or a segment loaded before. *)
Theorem bootmain_loads fuel s : file32 0 = BOOT_ELF_MAGIC -> file32 28 + 32 * file16 44 <= 4096 -> (11 <= fuel)%nat ->
  Forall (seg_ok fuel) file_segs -> apart_all file_segs ->
  exists s', bootmain fuel s = (Ret tt, s') /\ b_jumped s' = Some (file32 24) /\ Forall (placed (b_mem s')) file_segs.
Proof.
  intros Hmagic Hhdr Hfuel Hok Hap. destruct (readseg_run fuel s 65536 4096 0) as (s1 & hi & Hr & Hj & B1 & B2 & Hl); [rewrite ?Z.mod_0_l; lia..|].
  assert (header_loaded (b_mem s1)) as Hh. { intros k Hk. rewrite Hl, decide_True by (rewrite Z.mod_0_l; lia). unfold file8. do 2 f_equal. rewrite Z.mod_0_l; lia. }
  assert (forall s k, header_loaded (b_mem s) -> 0 <= k <= 4092 -> b_ld32 (65536 + k) s = (Ret (file32 k), s)) as Hld.
  { intros s2 k H2 Hk. unfold b_ld32, gets. rewrite u32_small, header_ld32 by (done || lia). done. }
  pose proof (file32_range 28). assert (0 <= file16 44) by (unfold file16, file8; pose proof (u8_range (disk (512 + 44))); pose proof (u8_range (disk (512 + (44 + 1)))); lia).
  destruct (segments_run fuel (Z.to_nat (file16 44)) s1 (file32 28) Hh ltac:(lia) ltac:(lia) Hok Hap) as (s2 & Hr2 & Hj2 & Hh2 & Hp2 & _).
  eexists. split.
  - unfold bootmain. rewrite (bind_Ret _ _ _ _ _ Hr). rewrite (bind_Ret _ _ _ _ _ (Hld s1 0 Hh ltac:(lia) : b_ld32 65536 s1 = _)). rewrite Hmagic, Z.eqb_refl. cbn [negb].
    rewrite (bind_Ret _ _ _ _ _ (Hld s1 28 Hh ltac:(lia))). unfold b_ld16. unfold bind at 1, gets at 1. rewrite (u32_small (65536 + 44)), header_ld16 by (done || lia).
    rewrite !u32_small by lia. rewrite Z2Nat.id in Hr2 by done. rewrite (bind_Ret _ _ _ _ _ Hr2). rewrite (bind_Ret _ _ _ _ _ (Hld s2 24 Hh2 ltac:(lia))). reflexivity.
  - split; [done|exact Hp2].
Qed.
End Loader.

(** ** A small image: one segment of 8 bytes and 8 zeros at 1 MB *)
Definition sample_header : list Z :=
  [127; 69; 76; 70; 0; 0; 0; 0; 0; 0; 0; 0; 0; 0; 0; 0; 2; 0; 3; 0; 1; 0; 0; 0; 12; 0; 16; 0; 52; 0; 0; 0; 0; 0; 0; 0; 0; 0; 0; 0; 52; 0; 32; 0; 1; 0; 0; 0; 0; 0; 0; 0;
   1; 0; 0; 0; 0; 16; 0; 0; 0; 0; 16; 128; 0; 0; 16; 0; 8; 0; 0; 0; 16; 0; 0; 0; 7; 0; 0; 0; 0; 16; 0; 0].

Definition sample_disk (pos : Z) : Z :=
  let i := pos - 512 in
  if i <? 84 then default 0 (sample_header !! Z.to_nat i)
  else if (4096 <=? i) && (i <? 4104) then i - 4095 else 0.

Lemma sample_segs : file_segs sample_disk = [Seg 4096 1048576 8 16].
Proof. vm_compute. reflexivity. Qed.

Lemma sample_seg_ok : Forall (seg_ok 11) (file_segs sample_disk).
Proof.
  rewrite sample_segs. constructor; [|constructor].
  split; [vm_compute; discriminate|vm_compute; reflexivity|vm_compute; reflexivity|vm_compute; reflexivity|].
  intros b Ht Hs. unfold touched, scratch in *. cbn [sg_off sg_paddr sg_filesz sg_memsz] in Ht. change (4096 mod 512) with 0 in Ht. lia.
Qed.

Lemma sample_apart : apart_all (file_segs sample_disk).
Proof. rewrite sample_segs. split; [constructor|exact I]. Qed.

Lemma sample_ready n : exists k, (k < 1)%nat /\ Z.land ((fun _ : nat => 64) (n + k)%nat) 192 = 64.
Proof. exists 0%nat. split; [lia|reflexivity]. Qed.

Lemma bootmain_loads_witness : exists s', bootmain sample_disk (fun _ => 64) 1 11 (Boot ∅ ∅ 0 None) = (Ret tt, s') /\
  b_jumped s' = Some (file32 sample_disk 24) /\ Forall (placed sample_disk (b_mem s')) (file_segs sample_disk).
Proof.
  apply (bootmain_loads sample_disk (fun _ => 64) 1 sample_ready 11 (Boot ∅ ∅ 0 None));
    [vm_compute; reflexivity|vm_compute; discriminate|lia|exact sample_seg_ok|exact sample_apart].
Defined.
