(* ===== verification/Apic.v ===== *)
(** * Interrupt controllers and the real-time clock (src/xv6/lapic.c, ioapic.c,
      picirq.c)

    The registers of the local APIC and of the I/O APIC are maps from indices
    to words; what the hardware answers by itself (the delivery status, the
    registers of the clock) is a parameter, indexed by the number of reads. *)
From S2P Require Import Prelude Mem.

(** ** lapic.c *)
Definition ID : Z := 8.

Definition VER : Z := 12.

Definition TPR : Z := 32.

Definition EOI : Z := 44.

Definition SVR : Z := 60.

Definition ENABLE : Z := 256.

Definition ESR : Z := 160.

Definition ICRLO : Z := 192.

Definition INIT : Z := 1280.

Definition STARTUP : Z := 1536.

Definition DELIVS : Z := 4096.

Definition ASSERT : Z := 16384.

Definition LEVEL : Z := 32768.

Definition BCAST : Z := 524288.

Definition ICRHI : Z := 196.

Definition TIMER : Z := 200.

Definition X1 : Z := 11.

Definition PERIODIC : Z := 131072.

Definition PCINT : Z := 208.

Definition LINT0 : Z := 212.

Definition LINT1 : Z := 216.

Definition ERROR : Z := 220.

Definition MASKED : Z := 65536.

Definition TICR : Z := 224.

Definition TDCR : Z := 248.

Definition APIC_IRQ0 : Z := 32.

Definition CMOS_PORT : Z := 112.

Definition CMOS_STATA : Z := 10.

Definition CMOS_STATB : Z := 11.

Definition CMOS_UIP : Z := 128.

(** [struct rtcdate] *)
Record rtcdate : Type := Rtc {
  second : Z;
  minute : Z;
  hour : Z;
  day : Z;
  month : Z;
  year : Z;
}.

#[global] Instance rtcdate_eq_dec : EqDecision rtcdate.
Proof. solve_decision. Defined.

(** [lapic_set]: [lapic] is not null.  [lwrites] is the sequence of register
    writes, newest first; [apic_reads] counts the reads of the hardware. *)
Record apic : Type := Apic {
  lapic_set : bool;
  lregs : gmap Z Z;
  lwrites : list (Z * Z);
  ioregs : gmap Z Z;
  ioreg : Z;
  outs : list (Z * Z);
  low : mem;
  apic_reads : nat;
}.

Definition lwrite (i v : Z) (s : apic) : apic := Apic (lapic_set s) (<[i := v]> (lregs s)) ((i, v) :: lwrites s) (ioregs s) (ioreg s) (outs s) (low s) (apic_reads s).

Definition set_ioreg (v : Z) (s : apic) : apic := Apic (lapic_set s) (lregs s) (lwrites s) (ioregs s) v (outs s) (low s) (apic_reads s).

Definition iowrite (v : Z) (s : apic) : apic := Apic (lapic_set s) (lregs s) (lwrites s) (<[ioreg s := v]> (ioregs s)) (ioreg s) (outs s) (low s) (apic_reads s).

Definition add_out (p v : Z) (s : apic) : apic := Apic (lapic_set s) (lregs s) (lwrites s) (ioregs s) (ioreg s) ((p, u8 v) :: outs s) (low s) (apic_reads s).

Definition set_low (m : mem) (s : apic) : apic := Apic (lapic_set s) (lregs s) (lwrites s) (ioregs s) (ioreg s) (outs s) m (apic_reads s).

Definition count_read (s : apic) : apic := Apic (lapic_set s) (lregs s) (lwrites s) (ioregs s) (ioreg s) (outs s) (low s) (S (apic_reads s)).

Definition apic_outb (p v : Z) : M apic unit := modify (add_out p v).

Section Controllers.
(** What ICRLO reads, and what the clock's register reads, at the [n]-th read. *)
Context (icrlo_at : nat -> Z) (cmos_at : nat -> Z -> Z) (polls : nat).

(** The read of [lapic[ID]] that waits for the write has no other effect. *)
Definition lapicw (index value : Z) : M apic unit := modify (lwrite index (u32 value)).

Definition lapicr (index : Z) : M apic Z := gets (fun s => default 0 (lregs s !! index)).

Fixpoint wait_delivery (fuel : nat) : M apic unit :=
  match fuel with
  | O => sleep_on 0
  | S k =>
      n ← gets apic_reads;
      modify count_read ;;
      if negb (Z.land (icrlo_at n) DELIVS =? 0) then wait_delivery k else ret tt
  end.

Definition lapicinit : M apic unit :=
  on ← gets lapic_set;
  when on
    (lapicw SVR (Z.lor ENABLE (APIC_IRQ0 + 31)) ;;
     lapicw TDCR X1 ;;
     lapicw TIMER (Z.lor PERIODIC (APIC_IRQ0 + 0)) ;;
     lapicw TICR 10000000 ;;
     lapicw LINT0 MASKED ;;
     lapicw LINT1 MASKED ;;
     ver ← lapicr VER;
     when (4 <=? Z.land (Z.shiftr ver 16) 255) (lapicw PCINT MASKED) ;;
     lapicw ERROR (APIC_IRQ0 + 19) ;;
     lapicw ESR 0 ;;
     lapicw ESR 0 ;;
     lapicw EOI 0 ;;
     lapicw ICRHI 0 ;;
     lapicw ICRLO (Z.lor (Z.lor BCAST INIT) LEVEL) ;;
     wait_delivery polls ;;
     lapicw TPR 0).

Definition lapicid : M apic Z :=
  on ← gets lapic_set;
  if negb on then ret 0
  else id ← lapicr ID; ret (Z.shiftr id 24).

Definition lapiceoi : M apic unit :=
  on ← gets lapic_set;
  when on (lapicw EOI 0).

(** [microdelay] does nothing. *)
Definition lapicstartap (apicid addr : Z) : M apic unit :=
  apic_outb CMOS_PORT 15 ;;
  apic_outb (CMOS_PORT + 1) 10 ;;
  modify (fun s => set_low (st16 (low s) (2147483648 + 1127) 0) s) ;;
  modify (fun s => set_low (st16 (low s) (2147483648 + 1129) (Z.shiftr addr 4)) s) ;;
  lapicw ICRHI (Z.shiftl apicid 24) ;;
  lapicw ICRLO (Z.lor (Z.lor INIT LEVEL) ASSERT) ;;
  lapicw ICRLO (Z.lor INIT LEVEL) ;;
  for_each (seq 0 2) (fun _ =>
    lapicw ICRHI (Z.shiftl apicid 24) ;;
    lapicw ICRLO (Z.lor STARTUP (Z.shiftr addr 12))).

Definition cmos_read (r : Z) : M apic Z :=
  apic_outb CMOS_PORT r ;;
  n ← gets apic_reads;
  modify count_read ;;
  ret (u8 (cmos_at n r)).

Definition fill_rtcdate : M apic rtcdate :=
  s ← cmos_read 0;
  m ← cmos_read 2;
  h ← cmos_read 4;
  d ← cmos_read 7;
  mo ← cmos_read 8;
  y ← cmos_read 9;
  ret (Rtc s m h d mo y).

(** The loop of [cmostime]: two equal readings with no update in between. *)
Fixpoint cmos_loop (fuel : nat) : M apic rtcdate :=
  match fuel with
  | O => sleep_on 0
  | S k =>
      t1 ← fill_rtcdate;
      a ← cmos_read CMOS_STATA;
      if negb (Z.land a CMOS_UIP =? 0) then cmos_loop k
      else
        t2 ← fill_rtcdate;
        if decide (t1 = t2) then ret t1 else cmos_loop k
  end.

(** [CONV] *)
Definition conv (x : Z) : Z := Z.shiftr x 4 * 10 + Z.land x 15.

Definition cmostime (fuel : nat) : M apic rtcdate :=
  sb ← cmos_read CMOS_STATB;
  let bcd := Z.land sb 4 =? 0 in
  t1 ← cmos_loop fuel;
  let t1 := if bcd then Rtc (conv (second t1)) (conv (minute t1)) (conv (hour t1)) (conv (day t1)) (conv (month t1)) (conv (year t1)) else t1 in
  ret (Rtc (second t1) (minute t1) (hour t1) (day t1) (month t1) (u32 (year t1 + 2000))).

End Controllers.

(** ** ioapic.c *)
Definition REG_ID : Z := 0.

Definition REG_VER : Z := 1.

Definition REG_TABLE : Z := 16.

Definition INT_DISABLED : Z := 65536.

Definition ioapicread (r : Z) : M apic Z :=
  modify (set_ioreg r) ;;
  gets (fun s => default 0 (ioregs s !! ioreg s)).

Definition ioapicwrite (r data : Z) : M apic unit :=
  modify (set_ioreg r) ;;
  modify (iowrite data).

(** A wrong [id] is only reported. *)
Definition ioapicinit : M apic unit :=
  ver ← ioapicread REG_VER;
  let maxintr := Z.land (Z.shiftr ver 16) 255 in
  ioapicread REG_ID ;;
  for_each (Z.of_nat <$> seq 0 (Z.to_nat (maxintr + 1))) (fun i =>
    ioapicwrite (REG_TABLE + 2 * i) (Z.lor INT_DISABLED (APIC_IRQ0 + i)) ;;
    ioapicwrite (REG_TABLE + 2 * i + 1) 0).

Definition ioapicenable (irq cpunum : Z) : M apic unit :=
  ioapicwrite (REG_TABLE + 2 * irq) (APIC_IRQ0 + irq) ;;
  ioapicwrite (REG_TABLE + 2 * irq + 1) (u32 (Z.shiftl cpunum 24)).

(** ** picirq.c *)
Definition picinit : M apic unit :=
  apic_outb 33 255 ;;
  apic_outb 161 255.

(** ** Routing *)

(** The redirection entry of an interrupt. *)
Definition redirection (s : apic) (irq : Z) : Z * Z :=
  (default 0 (ioregs s !! (REG_TABLE + 2 * irq)), default 0 (ioregs s !! (REG_TABLE + 2 * irq + 1))).

Lemma ioapicwrite_run r v s : ioapicwrite r v s = (Ret tt, iowrite v (set_ioreg r s)).
Proof. done. Qed.

(** Enabling an interrupt changes its entry and no other. *)
Lemma ioapicenable_routes irq cpunum s : 0 <= irq ->
  exists s', ioapicenable irq cpunum s = (Ret tt, s') /\ redirection s' irq = (APIC_IRQ0 + irq, u32 (Z.shiftl cpunum 24)) /\
    forall j, 0 <= j -> j <> irq -> redirection s' j = redirection s j.
Proof.
  intros Hi. eexists. split; [reflexivity|]. unfold redirection, iowrite. cbn [ioregs ioreg set_ioreg]. unfold REG_TABLE. split.
  - rewrite lookup_insert_ne by lia. by rewrite !lookup_insert_eq.
  - intros j Hj Hne. by rewrite !lookup_insert_ne by lia.
Qed.

(** After [ioapicinit] every interrupt is disabled and goes nowhere. *)
Lemma ioapicinit_disables s : let maxintr := Z.land (Z.shiftr (default 0 (ioregs s !! REG_VER)) 16) 255 in
  exists s', ioapicinit s = (Ret tt, s') /\ forall i, 0 <= i <= maxintr -> redirection s' i = (Z.lor INT_DISABLED (APIC_IRQ0 + i), 0).
Proof.
  intros maxintr. unfold ioapicinit. set (n := Z.to_nat (maxintr + 1)).
  assert (forall k s0, exists s', for_each (Z.of_nat <$> seq 0 k) (fun i => ioapicwrite (REG_TABLE + 2 * i) (Z.lor INT_DISABLED (APIC_IRQ0 + i)) ;; ioapicwrite (REG_TABLE + 2 * i + 1) 0) s0 = (Ret tt, s') /\
    forall i, 0 <= i < Z.of_nat k -> redirection s' i = (Z.lor INT_DISABLED (APIC_IRQ0 + i), 0)) as H.
  { induction k as [|k IH]; intros s0; [exists s0; split; [done|lia]|]. rewrite seq_S, fmap_app, for_each_app.
    destruct (IH s0) as (s1 & Hr & Hs). rewrite (bind_Ret _ _ _ _ _ Hr). eexists. split; [reflexivity|].
    intros i Hi. unfold redirection, iowrite in *. cbn [ioregs ioreg set_ioreg]. unfold REG_TABLE in *. destruct (decide (i = Z.of_nat k)) as [->|Hne].
    - rewrite Nat.add_0_l, lookup_insert_ne by lia. by rewrite !lookup_insert_eq.
    - rewrite Nat.add_0_l, !lookup_insert_ne by lia. apply Hs. lia. }
  destruct (H n (set_ioreg REG_ID (set_ioreg REG_VER s))) as (s' & Hr & Hs). exists s'. split; [exact Hr|]. intros i Hi. apply Hs. unfold n. lia.
Qed.

(** ** The date *)

(** Two decimal digits in a byte. *)
Definition bcd (x : Z) : Z := 16 * (x / 10) + x mod 10.

Lemma conv_bcd x : 0 <= x < 100 -> u8 (bcd x) = bcd x /\ conv (bcd x) = x.
Proof.
  intros H. assert (forallb (fun n => (u8 (bcd (Z.of_nat n)) =? bcd (Z.of_nat n)) && (conv (bcd (Z.of_nat n)) =? Z.of_nat n)) (seq 0 100) = true) as Hall by (vm_compute; reflexivity).
  rewrite forallb_forall in Hall. specialize (Hall (Z.to_nat x)). rewrite Z2Nat.id in Hall by lia. apply andb_true_iff in Hall as [H1 H2]; [|apply in_seq; lia]. bool_to_prop. done.
Qed.

(** A clock that shows a date in decimal digits while it is read. *)
Definition shows (cmos_at : nat -> Z -> Z) (d : rtcdate) : Prop := forall n,
  cmos_at n 0 = bcd (second d) /\ cmos_at n 2 = bcd (minute d) /\ cmos_at n 4 = bcd (hour d) /\ cmos_at n 7 = bcd (day d) /\
  cmos_at n 8 = bcd (month d) /\ cmos_at n 9 = bcd (year d) /\ Z.land (u8 (cmos_at n CMOS_STATA)) CMOS_UIP = 0 /\ Z.land (u8 (cmos_at n CMOS_STATB)) 4 = 0.

Definition two_digits (d : rtcdate) : Prop :=
  0 <= second d < 100 /\ 0 <= minute d < 100 /\ 0 <= hour d < 100 /\ 0 <= day d < 100 /\ 0 <= month d < 100 /\ 0 <= year d < 100.

Lemma fill_shows cmos_at d s : shows cmos_at d -> two_digits d ->
  exists s', fill_rtcdate cmos_at s = (Ret (Rtc (bcd (second d)) (bcd (minute d)) (bcd (hour d)) (bcd (day d)) (bcd (month d)) (bcd (year d))), s').
Proof.
  intros Hs (D1 & D2 & D3 & D4 & D5 & D6).
  unfold fill_rtcdate, cmos_read, bind, apic_outb, modify, gets, ret. eexists. f_equal. f_equal.
  f_equal; match goal with |- u8 (cmos_at ?n _) = _ => destruct (Hs n) as (-> & _) || destruct (Hs n) as (_ & -> & _) || destruct (Hs n) as (_ & _ & -> & _) || destruct (Hs n) as (_ & _ & _ & -> & _) || destruct (Hs n) as (_ & _ & _ & _ & -> & _) || destruct (Hs n) as (_ & _ & _ & _ & _ & -> & _) end; by apply conv_bcd.
Qed.

(** [cmostime] decodes the date a steady clock shows, at the first attempt. *)
Lemma cmostime_decodes cmos_at d s fuel : shows cmos_at d -> two_digits d -> (0 < fuel)%nat ->
  exists s', cmostime cmos_at fuel s = (Ret (Rtc (second d) (minute d) (hour d) (day d) (month d) (year d + 2000)), s').
Proof.
  intros Hs Hd Hf. destruct fuel as [|fuel]; [lia|]. set (t := Rtc (bcd (second d)) (bcd (minute d)) (bcd (hour d)) (bcd (day d)) (bcd (month d)) (bcd (year d))).
  assert (exists s1, cmos_loop cmos_at (S fuel) (count_read (add_out CMOS_PORT CMOS_STATB s)) = (Ret t, s1)) as [s1 Hl].
  { cbn [cmos_loop]. destruct (fill_shows cmos_at d (count_read (add_out CMOS_PORT CMOS_STATB s)) Hs Hd) as [s1 H1]. rewrite (bind_Ret _ _ _ _ _ H1).
    unfold bind at 1, cmos_read at 1. unfold bind, apic_outb, modify, gets, ret. cbn [apic_reads add_out].
    destruct (Hs (apic_reads s1)) as (_ & _ & _ & _ & _ & _ & -> & _). cbn [Z.eqb negb].
    destruct (fill_shows cmos_at d (count_read (add_out CMOS_PORT CMOS_STATA s1)) Hs Hd) as [s2 H2]. rewrite H2. fold t. rewrite decide_True by done. by eexists. }
  exists s1. unfold cmostime. unfold bind at 1, cmos_read at 1. unfold bind at 1 2 3, apic_outb, modify, gets, ret. cbn [apic_reads add_out].
  destruct (Hs (apic_reads s)) as (_ & _ & _ & _ & _ & _ & _ & ->). rewrite (bind_Ret _ _ _ _ _ Hl). cbn [Z.eqb second minute hour day month year t].
  destruct Hd as (D1 & D2 & D3 & D4 & D5 & D6). rewrite !(fun x H => proj2 (conv_bcd x H)) by done. rewrite u32_small by lia. done.
Qed.
