(* ===== verification/Mkfs.v ===== *)
(** * Building the file system image (src/xv6/mkfs.c)

    The image file is a map from sector numbers to sectors.  The host's file
    operations succeed; a read past the end of the image is the error exit, an
    assertion that fails and an error exit are panics.  The host is
    little-endian.  The structures on
    disk are those of fs.h, as Fs.v and Log.v have them.  A file to be copied is
    its name and the pieces [read] returns, or [None] when it cannot be opened. *)
From S2P Require Import Prelude Block Log Fs.

Definition FSSIZE : Z := 1000.

Definition NINODES : Z := 200.

Definition nbitmap : Z := FSSIZE / (Z.of_nat BSIZE * 8) + 1.

Definition ninodeblocks : Z := NINODES / IPB + 1.

Definition nlog : Z := LOGSIZE.

Definition nmeta : Z := 2 + nlog + ninodeblocks + nbitmap.

(** The bytes of [x] are stored in [y], which the host reads back. *)
Definition xshort (x : Z) : Z := get16 [u8 x; u8 (Z.shiftr x 8)] 0.

Definition xint (x : Z) : Z := get32 [u8 x; u8 (Z.shiftr x 8); u8 (Z.shiftr x 16); u8 (Z.shiftr x 24)] 0.

(** The superblock [main] computes. *)
Definition mk_sb : superblock :=
  Superblock (xint FSSIZE) (xint (FSSIZE - nmeta)) (xint NINODES) (xint nlog) (xint 2) (xint (2 + nlog)) (xint (2 + nlog + ninodeblocks)).

(** The image and the globals [freeinode] and [freeblock]. *)
Record mk : Type := Mk {
  sectors : gmap Z block;
  freeinode : Z;
  freeblock : Z;
}.

Definition set_sector (i : Z) (b : block) (s : mk) : mk := Mk (<[i := b]> (sectors s)) (freeinode s) (freeblock s).

Definition set_freeinode (v : Z) (s : mk) : mk := Mk (sectors s) v (freeblock s).

Definition set_freeblock (v : Z) (s : mk) : mk := Mk (sectors s) (freeinode s) v.

Definition wsect (sec : Z) (buf : block) : M mk unit := modify (set_sector sec buf).

Definition rsect (sec : Z) : M mk block :=
  s ← get;
  match sectors s !! sec with
  | Some b => ret b
  | None => panic "read"
  end.

Definition winode (inum : Z) (ip : dinode) : M mk unit :=
  let bn := IBLOCK inum mk_sb in
  buf ← rsect bn;
  wsect bn (put_dinode (dip_off inum) ip buf).

Definition rinode (inum : Z) : M mk dinode :=
  let bn := IBLOCK inum mk_sb in
  buf ← rsect bn;
  ret (get_dinode (dip_off inum) buf).

Definition mk_ialloc (type : Z) : M mk Z :=
  inum ← gets freeinode;
  modify (set_freeinode (u32 (inum + 1))) ;;
  winode inum (Dinode (s16 (xshort type)) 0 0 (s16 (xshort 1)) (xint 0) (replicate 13 0)) ;;
  ret inum.

(** [buf[i/8] = buf[i/8] | (0x1 << (i%8))] *)
Definition set_bit (buf : block) (i : Z) : block :=
  <[Z.to_nat (i / 8) := Z.lor (get8 buf (Z.to_nat (i / 8))) (Z.shiftl 1 (i mod 8))]> buf.

Definition mk_balloc (used : Z) : M mk unit :=
  panic_if (BPB <=? used) "assert" ;;
  wsect (sb_bmapstart mk_sb) (foldl set_bit zero_block (Z.of_nat <$> seq 0 (Z.to_nat used))).

Definition din_set_addr (i : nat) (a : Z) (d : dinode) : dinode :=
  Dinode (d_type d) (d_major d) (d_minor d) (d_nlink d) (d_size d) (<[i := a]> (d_addrs d)).

Definition din_set_size (n : Z) (d : dinode) : dinode :=
  Dinode (d_type d) (d_major d) (d_minor d) (d_nlink d) n (d_addrs d).

(** [freeblock++] *)
Definition next_block : M mk Z :=
  x ← gets freeblock;
  modify (set_freeblock (u32 (x + 1))) ;;
  ret x.

(** The sector [x] of file block [fbn], allocated if need be, and the inode. *)
Definition file_sector (fbn : nat) (din : dinode) : M mk (dinode * Z) :=
  if (fbn <? NDIRECT)%nat then
    din ← (if xint (default 0 (d_addrs din !! fbn)) =? 0 then x ← next_block; ret (din_set_addr fbn (xint x) din) else ret din);
    ret (din, xint (default 0 (d_addrs din !! fbn)))
  else
    din ← (if xint (default 0 (d_addrs din !! NDIRECT)) =? 0 then x ← next_block; ret (din_set_addr NDIRECT (xint x) din) else ret din);
    let ind := xint (default 0 (d_addrs din !! NDIRECT)) in
    let k := (4 * (fbn - NDIRECT))%nat in
    indirect ← rsect ind;
    indirect ← (if get32 indirect k =? 0 then
                  x ← next_block;
                  let indirect := put32 k (xint x) indirect in
                  wsect ind indirect ;;
                  ret indirect
                else ret indirect);
    ret (din, xint (get32 indirect k)).

Fixpoint iappend_loop (fuel : nat) (din : dinode) (off : Z) (p : list Z) : M mk (dinode * Z) :=
  match fuel with
  | O => panic "fuel"
  | S k =>
      if Z.of_nat (length p) <=? 0 then ret (din, off)
      else
        let fbn := off / bs in
        panic_if (MAXFILE <=? fbn) "assert" ;;
        '(din, x) ← file_sector (Z.to_nat fbn) din;
        let n1 := Z.min (Z.of_nat (length p)) ((fbn + 1) * bs - off) in
        buf ← rsect x;
        wsect x (put_bytes (Z.to_nat (off - fbn * bs)) (take (Z.to_nat n1) p) buf) ;;
        iappend_loop k din (off + n1) (drop (Z.to_nat n1) p)
  end.

(** Each round consumes a byte at least. *)
Definition iappend (inum : Z) (xp : list Z) : M mk unit :=
  din ← rinode inum;
  '(din, off) ← iappend_loop (S (length xp)) din (xint (d_size din)) xp;
  winode inum (din_set_size (xint off) din).

(** The leading underscore of the build's binaries is skipped. *)
Definition skip_underscore (name : list Z) : list Z :=
  match name with
  | c :: rest => if c =? 95 then rest else name
  | [] => []
  end.

Definition add_file (rootino : Z) (f : list Z * option (list (list Z))) : M mk unit :=
  panic_if (existsb (Z.eqb 47) (fst f)) "assert" ;;
  match snd f with
  | None => panic "open"
  | Some pieces =>
      let name := skip_underscore (fst f) in
      inum ← mk_ialloc T_FILE;
      iappend rootino (mk_dirent (xshort inum) name) ;;
      for_each pieces (iappend inum)
  end.

Definition sb_bytes (sb : superblock) : block :=
  put_bytes 0 (le32 (sb_size sb) ++ le32 (sb_nblocks sb) ++ le32 (sb_ninodes sb) ++ le32 (sb_nlog sb) ++ le32 (sb_logstart sb) ++
               le32 (sb_inodestart sb) ++ le32 (sb_bmapstart sb)) zero_block.

(** [main], given the files named by the arguments after the image. *)
Definition mkfs_main (files : list (list Z * option (list (list Z)))) : M mk unit :=
  modify (set_freeblock nmeta) ;;
  for_each (Z.of_nat <$> seq 0 (Z.to_nat FSSIZE)) (fun i => wsect i zero_block) ;;
  wsect 1 (sb_bytes mk_sb) ;;
  rootino ← mk_ialloc T_DIR;
  panic_if (negb (rootino =? ROOTINO)) "assert" ;;
  iappend rootino (mk_dirent (xshort rootino) [46]) ;;
  iappend rootino (mk_dirent (xshort rootino) [46; 46]) ;;
  for_each files (add_file rootino) ;;
  din ← rinode rootino;
  let off := (xint (d_size din) / bs + 1) * bs in
  winode rootino (din_set_size (xint off) din) ;;
  fb ← gets freeblock;
  mk_balloc fb.

(** The zero-initialised globals, [freeinode] being 1. *)
Definition mk0 : mk := Mk ∅ 1 0.
