(* ===== verification/MkfsImage.v ===== *)
(** * The image mkfs.c builds, as the kernel reads it

    Files are described with the kernel's own definitions: the inode on disk
    ([get_dinode]), the sector of a file block ([addr_of]) and the bytes of a
    file ([file_byte]) of Fs.v and FsFile.v. *)
From S2P Require Import Prelude Mem Block Log Tx Sleeplock Fs FsAlloc FsFile FsRw Mkfs.

(** ** Byte order *)
Lemma xint_small x : 0 <= x < 4294967296 -> xint x = x.
Proof. intros H. etransitivity; [|exact (le32_bytes x H)]. unfold xint, get32, get8. cbn [lookup list_lookup Nat.add default from_option id]. reflexivity. Qed.

Lemma xshort_small x : 0 <= x < 65536 -> xshort x = x.
Proof. intros H. unfold xshort, get16, get8. cbn [lookup list_lookup Nat.add default from_option id]. unfold u8. rewrite Z.shiftr_div_pow2 by lia. change (2 ^ 8) with 256. zdm. Qed.

(** ** Images *)
Definition disk_of (s : mk) (b : Z) : block := default zero_block (sectors s !! b).

Definition disk_view (D : Z -> block) : tview := TView FSSIZE D ∅ 0 ∅ ∅.

Definition addr (D : Z -> block) (l : list Z) (bn : nat) : Z := addr_of (disk_view D) l bn.

Definition fbyte (D : Z -> block) (l : list Z) (k : Z) : Z := file_byte (disk_view D) l k.

(** Every sector is there, the blocks not given out yet are zero. *)
Record sane (s : mk) : Prop := Sane {
  sn_all : forall b, 0 <= b < FSSIZE -> exists d, sectors s !! b = Some d /\ length d = BSIZE;
  sn_fb : nmeta <= freeblock s <= FSSIZE;
  sn_zero : forall b, freeblock s <= b < FSSIZE -> disk_of s b = zero_block;
}.

Lemma rsect_run s b : sane s -> 0 <= b < FSSIZE -> rsect b s = (Ret (disk_of s b), s) /\ length (disk_of s b) = BSIZE.
Proof. intros Hs Hb. destruct (sn_all _ Hs b Hb) as (d & E & Hl). unfold rsect, bind, get, disk_of. by rewrite E. Qed.

Lemma disk_of_set s b d x : disk_of (set_sector b d s) x = upd_fn (disk_of s) b d x.
Proof. unfold disk_of, upd_fn. cbn [sectors set_sector]. case_decide as E; [subst; by rewrite lookup_insert_eq|by rewrite lookup_insert_ne]. Qed.

(** Writing a sector that has been given out. *)
Lemma sane_write s b d : sane s -> 0 <= b < freeblock s -> length d = BSIZE -> sane (set_sector b d s).
Proof.
  intros [H1 H2 H3] Hb Hd. split; [|done|].
  - intros x Hx. cbn [sectors set_sector]. destruct (decide (x = b)) as [->|]; [exists d; by rewrite lookup_insert_eq|rewrite lookup_insert_ne by done; by apply H1].
  - intros x Hx. cbn [freeblock set_sector] in Hx. rewrite disk_of_set, upd_fn_ne by lia. by apply H3.
Qed.

Lemma next_block_run s : sane s -> freeblock s < FSSIZE ->
  next_block s = (Ret (freeblock s), set_freeblock (freeblock s + 1) s) /\ sane (set_freeblock (freeblock s + 1) s).
Proof.
  intros [H1 H2 H3] Hf. split.
  - unfold next_block, bind, gets, modify, ret. rewrite u32_small; [done|]. change nmeta with 59 in H2. change FSSIZE with 1000 in *. lia.
  - split; [done|cbn [freeblock set_freeblock]; lia|]. intros b Hb. apply H3. cbn [freeblock set_freeblock] in Hb. lia.
Qed.

(** ** Files of [nb] blocks *)
Record fok (D : Z -> block) (fb : Z) (l : list Z) (nb : nat) : Prop := Fok {
  fo_len : length l = 13%nat;
  fo_addr : forall bn, (bn < nb)%nat -> nmeta <= addr D l bn < fb;
  fo_none : forall bn, (nb <= bn < 140)%nat -> addr D l bn = 0;
  fo_ind : (ind l = 0 /\ (nb <= 12)%nat) \/ nmeta <= ind l < fb;
  fo_inj : forall bn bn', (bn < nb)%nat -> (bn' < nb)%nat -> addr D l bn = addr D l bn' -> bn = bn';
  fo_apart : forall bn, (bn < nb)%nat -> addr D l bn <> ind l;
}.

(** The blocks of a file: its data and its indirect block. *)
Definition owned_by (D : Z -> block) (l : list Z) (nb : nat) (b : Z) : Prop :=
  (exists bn, (bn < nb)%nat /\ addr D l bn = b) \/ (ind l = b /\ b <> 0).

Lemma addr_direct D l bn : (bn < 12)%nat -> addr D l bn = default 0 (l !! bn).
Proof. intros H. unfold addr, addr_of. change NDIRECT with 12%nat. by apply Nat.ltb_lt in H as ->. Qed.

Lemma addr_indirect D l bn : (12 <= bn)%nat -> ind l <> 0 -> addr D l bn = get32 (D (ind l)) (4 * (bn - 12)).
Proof.
  intros H Hi. unfold addr, addr_of. change NDIRECT with 12%nat. apply Nat.ltb_ge in H as ->. by apply Z.eqb_neq in Hi as ->.
Qed.

Lemma addr_frame D D' l bn : (ind l <> 0 -> D' (ind l) = D (ind l)) -> addr D' l bn = addr D l bn.
Proof. intros H. apply addr_of_frame. exact H. Qed.

(** A file is not disturbed by changes elsewhere, and by more blocks given out. *)
Lemma fok_frame D D' fb fb' l nb : fok D fb l nb -> fb <= fb' -> (forall b, owned_by D l nb b -> D' b = D b) ->
  fok D' fb' l nb /\ (forall b, owned_by D' l nb b <-> owned_by D l nb b) /\ (forall bn, addr D' l bn = addr D l bn).
Proof.
  intros [H1 H2 H3 H4 H5 H6] Hfb Hd.
  assert (forall bn, addr D' l bn = addr D l bn) as Ha. { intros bn. apply addr_frame. intros Hi. apply Hd. right. done. }
  split; [|split; [intros b; unfold owned_by; by setoid_rewrite Ha|done]]. split; intros *; rewrite ?Ha; auto.
  - intros Hbn. specialize (H2 _ Hbn). lia.
  - destruct H4 as [?|?]; [left|right]; lia.
Qed.

Lemma fbyte_frame D D' fb l nb k : fok D fb l nb -> 0 <= k < 512 * Z.of_nat nb -> (nb <= 140)%nat -> (forall b, owned_by D l nb b -> D' b = D b) -> fbyte D' l k = fbyte D l k.
Proof.
  intros Hf Hk Hn Hd. destruct (fok_frame D D' fb fb l nb Hf ltac:(lia) Hd) as (_ & _ & Ha). unfold fbyte, file_byte. fold (addr D' l (Z.to_nat (k / bs))). fold (addr D l (Z.to_nat (k / bs))).
  rewrite Ha. cbn [tv_blk disk_view]. rewrite Hd; [done|]. left. exists (Z.to_nat (k / bs)). split; [|done]. change bs with 512. zdm.
Qed.

Lemma nmeta_pos : 0 < nmeta.
Proof. done. Qed.

(** ** One more block *)
Lemma fok_direct D fb l nb : fok D fb l nb -> nmeta <= fb -> (nb < 12)%nat ->
  let l' := <[nb := fb]> l in
  fok D (fb + 1) l' (S nb) /\ addr D l' nb = fb /\ ind l' = ind l /\ (forall bn, bn <> nb -> addr D l' bn = addr D l bn).
Proof.
  intros [H1 H2 H3 H4 H5 H6] Hfb Hnb l'. pose proof nmeta_pos.
  assert (ind l' = ind l) as Hind. { unfold ind, l'. change NDIRECT with 12%nat. by rewrite list_lookup_insert_ne by lia. }
  assert (addr D l' nb = fb) as Hn. { rewrite addr_direct by done. unfold l'. by rewrite list_lookup_insert_eq by lia. }
  assert (forall bn, bn <> nb -> addr D l' bn = addr D l bn) as Ho.
  { intros bn Hbn. unfold addr, addr_of. rewrite Hind. destruct (bn <? NDIRECT)%nat; [|done]. unfold l'. by rewrite list_lookup_insert_ne by done. }
  split; [|done]. split.
  - unfold l'. by rewrite length_insert.
  - intros bn Hbn. destruct (decide (bn = nb)) as [->|]; [rewrite Hn; lia|rewrite Ho by done]. specialize (H2 bn ltac:(lia)). lia.
  - intros bn Hbn. rewrite Ho by lia. apply H3. lia.
  - rewrite Hind. destruct H4 as [?|?]; [left|right]; lia.
  - intros bn bn' Hb Hb' E. destruct (decide (bn = nb)) as [->|Hne]; destruct (decide (bn' = nb)) as [->|Hne']; [done| | |].
    + rewrite Hn, Ho in E by done. specialize (H2 bn' ltac:(lia)). lia.
    + rewrite Hn, Ho in E by done. specialize (H2 bn ltac:(lia)). lia.
    + rewrite !Ho in E by done. apply H5; [lia|lia|done].
  - intros bn Hb. rewrite Hind. destruct (decide (bn = nb)) as [->|Hne]; [rewrite Hn; lia|rewrite Ho by done; apply H6; lia].
Qed.

Lemma fok_indirect D fb l nb : fok D fb l nb -> nmeta <= fb -> ind l = 0 -> D fb = zero_block ->
  let l' := <[12%nat := fb]> l in
  fok D (fb + 1) l' nb /\ ind l' = fb /\ (forall bn, (bn < nb)%nat -> addr D l' bn = addr D l bn).
Proof.
  intros [H1 H2 H3 H4 H5 H6] Hfb Hi Hz l'. pose proof nmeta_pos.
  assert (ind l' = fb) as Hind. { unfold ind, l'. change NDIRECT with 12%nat. by rewrite list_lookup_insert_eq by lia. }
  assert (nb <= 12)%nat as Hnb by (destruct H4 as [[_ ?]|?]; [done|lia]).
  assert (forall bn, (bn < 12)%nat -> addr D l' bn = addr D l bn) as Ho. { intros bn Hbn. rewrite !addr_direct by done. unfold l'. by rewrite list_lookup_insert_ne by lia. }
  split; [|split; [done|intros; apply Ho; lia]]. split.
  - unfold l'. by rewrite length_insert.
  - intros bn Hbn. rewrite Ho by lia. specialize (H2 bn Hbn). lia.
  - intros bn Hbn. destruct (decide (bn < 12)%nat); [rewrite Ho by done; apply H3; lia|]. rewrite addr_indirect, Hind, Hz by lia. apply get32_zero.
  - right. lia.
  - intros bn bn' Hb Hb' E. rewrite !Ho in E by lia. by apply H5.
  - intros bn Hb. rewrite Ho, Hind by lia. specialize (H2 bn Hb). lia.
Qed.

Lemma fok_entry D fb l nb : fok D fb l nb -> nmeta <= fb < FSSIZE -> (12 <= nb < 140)%nat -> ind l <> 0 -> length (D (ind l)) = BSIZE ->
  let D' := upd_fn D (ind l) (put32 (4 * (nb - 12)) fb (D (ind l))) in
  fok D' (fb + 1) l (S nb) /\ addr D' l nb = fb /\ (forall bn, bn <> nb -> (bn < 140)%nat -> addr D' l bn = addr D l bn).
Proof.
  intros [H1 H2 H3 H4 H5 H6] Hfb Hnb Hi Hlen D'. pose proof nmeta_pos. change FSSIZE with 1000 in *. change BSIZE with 512%nat in *.
  destruct H4 as [[H4 _]|H4]; [done|].
  assert (D' (ind l) = put32 (4 * (nb - 12)) fb (D (ind l))) as HD by (unfold D'; by rewrite upd_fn_eq).
  assert (addr D' l nb = fb) as Hn. { rewrite addr_indirect, HD, get32_put32 by lia. apply u32_small. lia. }
  assert (forall bn, bn <> nb -> (bn < 140)%nat -> addr D' l bn = addr D l bn) as Ho.
  { intros bn Hbn Hb. destruct (decide (bn < 12)%nat); [by rewrite !addr_direct by done|]. rewrite !addr_indirect, HD by lia. unfold put32. apply get32_put_out. change (length (le32 fb)) with 4%nat. lia. }
  split; [|done]. split.
  - done.
  - intros bn Hbn. destruct (decide (bn = nb)) as [->|]; [rewrite Hn; lia|rewrite Ho by lia]. specialize (H2 bn ltac:(lia)). lia.
  - intros bn Hbn. rewrite Ho by lia. apply H3. lia.
  - right. lia.
  - intros bn bn' Hb Hb' E. destruct (decide (bn = nb)) as [->|Hne]; destruct (decide (bn' = nb)) as [->|Hne']; [done| | |].
    + rewrite Hn, Ho in E by lia. specialize (H2 bn' ltac:(lia)). lia.
    + rewrite Hn, Ho in E by lia. specialize (H2 bn ltac:(lia)). lia.
    + rewrite !Ho in E by lia. apply H5; [lia|lia|done].
  - intros bn Hb. destruct (decide (bn = nb)) as [->|Hne]; [rewrite Hn; lia|rewrite Ho by lia; apply H6; lia].
Qed.

(** ** [file_sector] *)
Lemma xint_addr D fb l nb bn : fok D fb l nb -> fb <= FSSIZE -> (bn < nb)%nat -> xint (addr D l bn) = addr D l bn.
Proof. intros Hf Hfb Hb. pose proof (fo_addr _ _ _ _ Hf bn Hb). pose proof nmeta_pos. change FSSIZE with 1000 in *. apply xint_small. lia. Qed.

Lemma xint_ind D fb l nb : fok D fb l nb -> fb <= FSSIZE -> xint (ind l) = ind l.
Proof. intros Hf Hfb. pose proof nmeta_pos. change FSSIZE with 1000 in *. apply xint_small. destruct (fo_ind _ _ _ _ Hf); lia. Qed.

Lemma file_sector_old s din fbn nb : sane s -> fok (disk_of s) (freeblock s) (d_addrs din) nb -> (fbn < nb)%nat ->
  file_sector fbn din s = (Ret (din, addr (disk_of s) (d_addrs din) fbn), s).
Proof.
  intros Hs Hf Hb. pose proof (sn_fb _ Hs) as Hfb. pose proof nmeta_pos. pose proof (xint_addr _ _ _ _ _ Hf ltac:(lia) Hb) as Hx. pose proof (fo_addr _ _ _ _ Hf _ Hb) as Hr.
  unfold file_sector. change NDIRECT with 12%nat. destruct (Nat.ltb_spec fbn 12) as [Hd|Hd].
  - rewrite addr_direct in * by done. rewrite Hx. assert ((default 0 (d_addrs din !! fbn) =? 0) = false) as -> by lia. unfold bind, ret. by rewrite Hx.
  - assert (ind (d_addrs din) <> 0) as Hi. { intros E. unfold addr, addr_of in Hr. change NDIRECT with 12%nat in Hr. apply Nat.ltb_ge in Hd. rewrite Hd, E in Hr. cbn in Hr. lia. }
    change (default 0 (d_addrs din !! 12%nat)) with (ind (d_addrs din)). rewrite (xint_ind _ _ _ _ Hf) by lia.
    assert ((ind (d_addrs din) =? 0) = false) as -> by lia. unfold bind at 1, ret at 1. change (default 0 (d_addrs din !! 12%nat)) with (ind (d_addrs din)). rewrite (xint_ind _ _ _ _ Hf) by lia.
    destruct (rsect_run s (ind (d_addrs din)) Hs) as [Hr1 _]; [destruct (fo_ind _ _ _ _ Hf); lia|].
    rewrite (bind_Ret _ _ _ _ _ Hr1). rewrite addr_indirect in * by done. assert ((get32 (disk_of s (ind (d_addrs din))) (4 * (fbn - 12)) =? 0) = false) as -> by lia.
    unfold bind, ret. by rewrite Hx.
Qed.

(** A file has an indirect block when it needs one. *)
Definition exact (l : list Z) (nb : nat) : Prop := ind l = 0 <-> (nb <= 12)%nat.

(** The number of blocks of a file of [nb] data blocks. *)
Definition cost (nb : nat) : Z := Z.of_nat nb + if (nb <=? 12)%nat then 0 else 1.

(** What a new block changes. *)
Record grew (s s' : mk) (l l' : list Z) (nb : nat) (x : Z) : Prop := Grew {
  gr_sane : sane s';
  gr_inode : freeinode s' = freeinode s;
  gr_fb : freeblock s < freeblock s' <= freeblock s + 2;
  gr_ok : fok (disk_of s') (freeblock s') l' (S nb);
  gr_addr : addr (disk_of s') l' nb = x;
  gr_x : freeblock s <= x < freeblock s';
  gr_same : forall bn, (bn < nb)%nat -> addr (disk_of s') l' bn = addr (disk_of s) l bn;
  gr_disk : forall b, (ind l' <> 0 -> b <> ind l') -> disk_of s' b = disk_of s b;
  gr_ind : ind l' = ind l \/ freeblock s <= ind l' < freeblock s';
}.

(** The entry of the indirect block. *)
Lemma entry_run s din nb : sane s -> fok (disk_of s) (freeblock s) (d_addrs din) nb -> (12 <= nb < 140)%nat -> ind (d_addrs din) <> 0 -> freeblock s < FSSIZE ->
  exists s', (indirect ← rsect (ind (d_addrs din));
    indirect ← (if get32 indirect (4 * (nb - 12)) =? 0 then x ← next_block; let indirect := put32 (4 * (nb - 12)) (xint x) indirect in wsect (ind (d_addrs din)) indirect ;; ret indirect else ret indirect);
    ret (din, xint (get32 indirect (4 * (nb - 12))))) s = (Ret (din, freeblock s), s') /\ freeblock s' = freeblock s + 1 /\
    grew s s' (d_addrs din) (d_addrs din) nb (freeblock s).
Proof.
  intros Hs Hf Hnb Hi Hfb. set (l := d_addrs din) in *. pose proof (sn_fb _ Hs) as Hb. pose proof nmeta_pos.
  assert (nmeta <= ind l < freeblock s) as Hir by (destruct (fo_ind _ _ _ _ Hf) as [[? _]|?]; [done|done]).
  destruct (rsect_run s (ind l) Hs ltac:(lia)) as [Hr Hlen]. rewrite (bind_Ret _ _ _ _ _ Hr).
  pose proof (fo_none _ _ _ _ Hf nb ltac:(lia)) as H0. rewrite addr_indirect in H0 by lia. rewrite H0. cbn [Z.eqb].
  destruct (next_block_run s Hs Hfb) as [Hnx Hs1]. set (s1 := set_freeblock (freeblock s + 1) s) in *.
  assert (xint (freeblock s) = freeblock s) as Hx by (apply xint_small; change FSSIZE with 1000 in *; lia).
  set (d' := put32 (4 * (nb - 12)) (freeblock s) (disk_of s (ind l))).
  exists (set_sector (ind l) d' s1). split.
  { rewrite (bind_Ret _ _ _ (d') (set_sector (ind l) d' s1)).
    - unfold ret. unfold d'. change BSIZE with 512%nat in *. rewrite get32_put32 by lia. do 3 f_equal. rewrite u32_small; [exact Hx|change FSSIZE with 1000 in *; lia].
    - rewrite (bind_Ret _ _ _ _ _ Hnx). cbv zeta. rewrite Hx. reflexivity. }
  split; [done|]. destruct (fok_entry (disk_of s) (freeblock s) l nb Hf ltac:(lia) Hnb Hi Hlen) as (Hok & Ha & Ho). fold d' in Hok, Ha, Ho.
  assert (forall b, disk_of (set_sector (ind l) d' s1) b = upd_fn (disk_of s) (ind l) d' b) as HD by (intros b; exact (disk_of_set s1 (ind l) d' b)).
  assert (forall bn, addr (disk_of (set_sector (ind l) d' s1)) l bn = addr (upd_fn (disk_of s) (ind l) d') l bn) as HA by (intros bn; apply addr_frame; intros _; apply HD).
  split.
  - apply sane_write; [done|cbn [freeblock s1 set_freeblock]; lia|]. unfold d', put32. by rewrite length_put_bytes.
  - done.
  - cbn [freeblock set_sector s1 set_freeblock]. lia.
  - cbn [freeblock set_sector s1 set_freeblock]. apply (fok_frame _ _ _ _ _ _ Hok); [lia|]. intros b _. apply HD.
  - by rewrite HA.
  - cbn [freeblock set_sector s1 set_freeblock]. lia.
  - intros bn Hbn. rewrite HA. apply Ho; lia.
  - intros b Hb'. rewrite HD. apply upd_fn_ne. intros E. by apply (Hb' Hi).
  - by left.
Qed.

Lemma file_sector_new s din nb : sane s -> fok (disk_of s) (freeblock s) (d_addrs din) nb -> (nb < 140)%nat -> exact (d_addrs din) nb ->
  freeblock s + cost (S nb) - cost nb <= FSSIZE ->
  exists s' l' x, file_sector nb din s = (Ret (Dinode (d_type din) (d_major din) (d_minor din) (d_nlink din) (d_size din) l', x), s') /\
    grew s s' (d_addrs din) l' nb x /\ exact l' (S nb) /\ freeblock s' = freeblock s + cost (S nb) - cost nb.
Proof.
  intros Hs Hf Hnb Hex Hfb. unfold cost in *. unfold exact in *. pose proof (sn_fb _ Hs) as Hb. pose proof nmeta_pos. assert (xint (freeblock s) = freeblock s) as Hx by (apply xint_small; change FSSIZE with 1000 in *; lia).
  assert (freeblock s + 1 <= FSSIZE) as Hfb1 by (destruct (Nat.leb_spec nb 12); destruct (Nat.leb_spec (S nb) 12); lia).
  destruct (next_block_run s Hs ltac:(lia)) as [Hnx Hs1]. set (s1 := set_freeblock (freeblock s + 1) s) in *.
  unfold file_sector. change NDIRECT with 12%nat. destruct (Nat.ltb_spec nb 12) as [Hd|Hd].
  - pose proof (fo_none _ _ _ _ Hf nb ltac:(lia)) as H0. rewrite addr_direct in H0 by done. rewrite H0. change (xint 0 =? 0) with true. cbn [andb].
    destruct (fok_direct _ _ _ _ Hf (proj1 Hb) Hd) as (Hok & Ha & Hi & Ho). set (l' := <[nb := freeblock s]> (d_addrs din)) in *.
    exists s1, l', (freeblock s). split.
    + erewrite bind_Ret; [|rewrite (bind_Ret _ _ _ _ _ Hnx); reflexivity]. rewrite Hx. unfold din_set_addr, ret. cbn [d_addrs]. fold l'.
      rewrite addr_direct in Ha by done. rewrite Ha, Hx. done.
    + split; [split; cbn [freeblock s1 set_freeblock]; try done; try lia; try (by left); intros bn Hbn; apply Ho; lia|].
      cbn [freeblock s1 set_freeblock]. rewrite Hi. split; [lia|]. assert ((nb <=? 12)%nat = true) as -> by (apply Nat.leb_le; lia). assert ((S nb <=? 12)%nat = true) as -> by (apply Nat.leb_le; lia). lia.
  - set (l := d_addrs din) in *. destruct (decide (ind l = 0)) as [Hi|Hi].
    + assert (nb = 12%nat) as Hnb12 by lia. assert ((nb <=? 12)%nat = true) as E1 by (apply Nat.leb_le; lia). assert ((S nb <=? 12)%nat = false) as E2 by (apply Nat.leb_gt; lia). rewrite E1, E2 in *.
      change (default 0 (l !! 12%nat)) with (ind l). rewrite Hi. change (xint 0 =? 0) with true. cbn [andb].
      destruct (fok_indirect _ _ _ _ Hf (proj1 Hb) Hi (sn_zero _ Hs (freeblock s) ltac:(lia))) as (Hok & Hi1 & Ho). set (l1 := <[12%nat := freeblock s]> l) in *.
      erewrite bind_Ret; [|rewrite (bind_Ret _ _ _ _ _ Hnx); reflexivity]. rewrite Hx. cbn [din_set_addr d_addrs]. fold l. fold l1. change (default 0 (l1 !! 12%nat)) with (ind l1). rewrite Hi1, Hx.
      destruct (entry_run s1 (din_set_addr 12 (freeblock s) din) nb Hs1 Hok ltac:(lia)) as (s2 & Hr & Hf2 & Hg); [cbn [din_set_addr d_addrs]; fold l l1; lia|cbn [s1 freeblock set_freeblock]; lia|].
      cbn [din_set_addr d_addrs] in Hr, Hg. fold l l1 in Hr, Hg. rewrite Hi1 in Hr. exists s2, l1, (freeblock s1). split; [exact Hr|].
      destruct Hg as [G1 G2 G3 G4 G5 G6 G7 G8 G9]. cbn [s1 freeblock set_freeblock] in Hf2, G3, G6. change (disk_of s1) with (disk_of s) in *.
      split; [|split; [lia|lia]]. split; try done; cbn [s1 freeblock set_freeblock]; try lia.
      intros bn Hbn. rewrite G7 by done. by apply Ho.
    + destruct (entry_run s din nb Hs Hf ltac:(lia) Hi ltac:(lia)) as (s2 & Hr & Hf2 & Hg). exists s2, l, (freeblock s).
      assert ((nb <=? 12)%nat = false) as E1 by (apply Nat.leb_gt; lia). assert ((S nb <=? 12)%nat = false) as E2 by (apply Nat.leb_gt; lia). rewrite E1, E2. split; [|split; [done|split; [lia|lia]]].
      change (default 0 (l !! 12%nat)) with (ind l). rewrite (xint_ind _ _ _ _ Hf) by lia. assert ((ind l =? 0) = false) as -> by lia. unfold bind at 1, ret at 1.
      fold l. change (default 0 (l !! 12%nat)) with (ind l). rewrite (xint_ind _ _ _ _ Hf) by lia. fold l in Hr. etransitivity; [exact Hr|]. by destruct din.
Qed.

(** ** Writing into a block of a file *)
Lemma write_block D fb l nb fbn d : fok D fb l nb -> (fbn < nb)%nat -> (nb <= 140)%nat ->
  let D2 := upd_fn D (addr D l fbn) d in
  fok D2 fb l nb /\ (forall b, owned_by D2 l nb b <-> owned_by D l nb b) /\
  (forall k, 0 <= k < 512 * Z.of_nat nb -> fbyte D2 l k = if (Z.to_nat (k / 512) =? fbn)%nat then get8 d (Z.to_nat (k mod 512)) else fbyte D l k).
Proof.
  intros Hf Hb Hn D2. pose proof Hf as [H1 H2 H3 H4 H5 H6]. pose proof nmeta_pos.
  assert (forall bn, addr D2 l bn = addr D l bn) as Ha. { intros bn. apply addr_frame. intros Hi. unfold D2. apply upd_fn_ne. by apply H6. }
  split; [split; intros *; rewrite ?Ha; auto|]. split; [intros b; unfold owned_by; by setoid_rewrite Ha|].
  intros k Hk. unfold fbyte, file_byte. fold (addr D2 l (Z.to_nat (k / bs))) (addr D l (Z.to_nat (k / bs))). rewrite Ha. change bs with 512. cbn [tv_blk disk_view].
  assert (Z.to_nat (k / 512) < nb)%nat as Hkb by zdm. pose proof (H2 _ Hkb) as Hr. assert ((addr D l (Z.to_nat (k / 512)) =? 0) = false) as -> by lia.
  unfold D2. destruct (Nat.eqb_spec (Z.to_nat (k / 512)) fbn) as [->|Hne]; [by rewrite upd_fn_eq|]. rewrite upd_fn_ne; [done|]. intros E. apply Hne. symmetry. by apply H5.
Qed.

(** ** Contents *)
Definition nblk (n : nat) : nat := ((n + 511) / 512)%nat.

Record stores (D : Z -> block) (fb : Z) (l : list Z) (w : list Z) : Prop := Stores {
  ho_ok : fok D fb l (nblk (length w));
  ho_exact : exact l (nblk (length w));
  ho_size : (length w <= 140 * 512)%nat;
  ho_bytes : forall k, (k < length w)%nat -> fbyte D l (Z.of_nat k) = default 0 (w !! k);
}.

Lemma nblk_bounds n : (512 * nblk n < n + 512)%nat /\ (n <= 512 * nblk n)%nat.
Proof. unfold nblk. pose proof (Nat.div_mod_eq (n + 511) 512). pose proof (Nat.mod_upper_bound (n + 511) 512). lia. Qed.

Lemma nblk_le n : (n <= 140 * 512)%nat -> (nblk n <= 140)%nat.
Proof. intros H. pose proof (nblk_bounds n). lia. Qed.

(** What appending does to the state: [s2] after [s], the file of [l] with
    contents [w] having become that of [l2] with contents [w2]. *)
Record appended (s s2 : mk) (l l2 : list Z) (w w2 : list Z) : Prop := Appended {
  ap_sane : sane s2;
  ap_inode : freeinode s2 = freeinode s;
  ap_holds : stores (disk_of s2) (freeblock s2) l2 w2;
  ap_fb : freeblock s2 = freeblock s + cost (nblk (length w2)) - cost (nblk (length w));
  ap_mono : freeblock s <= freeblock s2;
  ap_frame : forall b, b < freeblock s -> ~ owned_by (disk_of s) l (nblk (length w)) b -> disk_of s2 b = disk_of s b;
  ap_owned : forall b, owned_by (disk_of s2) l2 (nblk (length w2)) b -> owned_by (disk_of s) l (nblk (length w)) b \/ freeblock s <= b;
}.

Lemma appended_refl s l w : sane s -> stores (disk_of s) (freeblock s) l w -> appended s s l l w w.
Proof. intros Hs Hh. split; try done; [lia|auto]. Qed.

Lemma appended_trans s s1 s2 l l1 l2 w w1 w2 : appended s s1 l l1 w w1 -> appended s1 s2 l1 l2 w1 w2 -> appended s s2 l l2 w w2.
Proof.
  intros [A1 A2 A3 A4 A5 A6 A7] [B1 B2 B3 B4 B5 B6 B7]. split; [done|congruence|done|lia|lia| |].
  - intros b Hb Ho. rewrite B6; [by apply A6|lia|]. intros H. destruct (A7 b H); [done|lia].
  - intros b H. destruct (B7 b H) as [H'|H']; [by apply A7|right; lia].
Qed.

(** The part of a block a chunk fills. *)
Lemma lookup_app_default (w c : list Z) k : (length w <= k < length w + length c)%nat -> default 0 ((w ++ c) !! k) = default 0 (c !! (k - length w)%nat).
Proof. intros H. by rewrite lookup_app_r by lia. Qed.

(** Writing the chunk [c] at the end of a file whose last block is there. *)
Lemma fill_block s l w c nb : sane s -> fok (disk_of s) (freeblock s) l nb -> exact l nb -> (length w + length c <= 140 * 512)%nat ->
  nb = nblk (length w + length c) -> (0 < length c)%nat -> (length w mod 512 + length c <= 512)%nat ->
  (forall k, (k < length w)%nat -> fbyte (disk_of s) l (Z.of_nat k) = default 0 (w !! k)) ->
  let x := addr (disk_of s) l (length w / 512) in
  let s2 := set_sector x (put_bytes (length w mod 512) c (disk_of s x)) s in
  sane s2 /\ stores (disk_of s2) (freeblock s) l (w ++ c) /\ (forall b, owned_by (disk_of s2) l nb b <-> owned_by (disk_of s) l nb b) /\
  (forall b, b <> x -> disk_of s2 b = disk_of s b) /\ 0 <= x < freeblock s.
Proof.
  intros Hs Hf Hex Hsz Hnb Hc Hfit Hw x s2. pose proof nmeta_pos. set (fbn := (length w / 512)%nat) in *.
  pose proof (Nat.div_mod_eq (length w) 512) as Hdm. pose proof (Nat.mod_upper_bound (length w) 512 ltac:(lia)) as Hmod. fold fbn in Hdm.
  assert (fbn < nb)%nat as Hfn. { rewrite Hnb. pose proof (nblk_bounds (length w + length c)). lia. }
  assert (nb <= 140)%nat as Hn140 by (rewrite Hnb; by apply nblk_le).
  pose proof (fo_addr _ _ _ _ Hf _ Hfn) as Hx. fold x in Hx. destruct (rsect_run s x Hs) as [_ Hlen]; [pose proof (sn_fb _ Hs); lia|].
  set (d := put_bytes (length w mod 512) c (disk_of s x)) in *.
  destruct (write_block (disk_of s) (freeblock s) l nb fbn d Hf Hfn Hn140) as (Hok & Hown & Hby). fold x in Hok, Hown, Hby.
  assert (forall b, disk_of s2 b = upd_fn (disk_of s) x d b) as HD by (intros b; apply disk_of_set).
  destruct (fok_frame _ (disk_of s2) _ (freeblock s) _ _ Hok ltac:(lia) (fun b _ => HD b)) as (Hok2 & Hown2 & _).
  split; [apply sane_write; [done|lia|unfold d; by rewrite length_put_bytes]|]. split; [|split; [intros b; by rewrite Hown2, Hown|split; [|lia]]].
  - split; rewrite ?length_app, <- ?Hnb; [done|done|done|]. intros k Hk.
    pose proof (nblk_bounds (length w + length c)) as Hnbb. rewrite <- Hnb in Hnbb.
    rewrite (fbyte_frame _ _ _ _ nb _ Hok); [|lia|lia|intros b _; apply HD]. rewrite Hby by lia.
    replace (Z.to_nat (Z.of_nat k / 512)) with (k / 512)%nat by (rewrite <- (Nat2Z.id (k / 512)), Nat2Z.inj_div; done).
    replace (Z.to_nat (Z.of_nat k mod 512)) with (k mod 512)%nat by (rewrite <- (Nat2Z.id (k mod 512)), Nat2Z.inj_mod; done).
    pose proof (Nat.div_mod_eq k 512) as Hkd. pose proof (Nat.mod_upper_bound k 512 ltac:(lia)) as Hkm.
    destruct (Nat.eqb_spec (k / 512) fbn) as [E|E].
    + destruct (decide (k < length w)%nat) as [Hkw|Hkw].
      * rewrite lookup_app_l by done. rewrite <- Hw by done. unfold d. rewrite get8_put_out by lia. unfold fbyte, file_byte. change bs with 512.
        replace (Z.to_nat (Z.of_nat k / 512)) with fbn by (rewrite <- E, <- (Nat2Z.id (k / 512)), Nat2Z.inj_div; done).
        replace (Z.to_nat (Z.of_nat k mod 512)) with (k mod 512)%nat by (rewrite <- (Nat2Z.id (k mod 512)), Nat2Z.inj_mod; done).
        fold (addr (disk_of s) l fbn). fold x. assert ((x =? 0) = false) as -> by lia. done.
      * rewrite lookup_app_default by lia. unfold d. change BSIZE with 512%nat in Hlen.
        replace (k mod 512)%nat with (length w mod 512 + (k - length w))%nat by lia. apply get8_put_in; lia.
    + destruct (decide (k < length w)%nat) as [Hkw|Hkw]; [by rewrite lookup_app_l, <- Hw by done|]. exfalso. apply E.
      symmetry. apply (Nat.div_unique k 512 fbn (k - 512 * fbn)); lia.
  - intros b Hb. rewrite HD. by apply upd_fn_ne.
Qed.

(** ** One round of [iappend] *)
Definition din_with_addrs (d : dinode) (l : list Z) : dinode := Dinode (d_type d) (d_major d) (d_minor d) (d_nlink d) (d_size d) l.

Lemma fbyte_same D D' l l' k : let bn := Z.to_nat (k / 512) in
  addr D' l' bn = addr D l bn -> D' (addr D l bn) = D (addr D l bn) -> fbyte D' l' k = fbyte D l k.
Proof.
  intros bn Ha Hd. unfold fbyte, file_byte. change bs with 512. fold bn. fold (addr D' l' bn) (addr D l bn). rewrite Ha. cbn [tv_blk disk_view]. by rewrite Hd.
Qed.

(** The block the chunk goes to: the next one, or the last. *)
Lemma nblk_next n c : (0 < c)%nat -> (n mod 512 + c <= 512)%nat ->
  (n mod 512 = 0 /\ n / 512 = nblk n /\ nblk (n + c) = S (nblk n))%nat \/ (n / 512 < nblk n /\ nblk (n + c) = nblk n)%nat.
Proof.
  intros Hc Hf. pose proof (Nat.div_mod_eq n 512). pose proof (nblk_bounds n). pose proof (nblk_bounds (n + c)). pose proof (Nat.mod_upper_bound n 512 ltac:(lia)).
  destruct (decide (n mod 512 = 0)%nat); [left|right]; lia.
Qed.

Lemma round_run s din w c : sane s -> stores (disk_of s) (freeblock s) (d_addrs din) w -> (0 < length c)%nat -> (length w mod 512 + length c <= 512)%nat ->
  (length w + length c <= 140 * 512)%nat -> freeblock s + cost (nblk (length w + length c)) - cost (nblk (length w)) <= FSSIZE ->
  exists s1 l2 x, file_sector (length w / 512) din s = (Ret (din_with_addrs din l2, x), s1) /\ rsect x s1 = (Ret (disk_of s1 x), s1) /\
    appended s (set_sector x (put_bytes (length w mod 512) c (disk_of s1 x)) s1) (d_addrs din) l2 w (w ++ c).
Proof.
  intros Hs Hh Hc Hfit Hsz Hsp. pose proof Hh as [Hok Hex _ Hby]. set (l := d_addrs din) in *. set (nb := nblk (length w)) in *. pose proof nmeta_pos.
  assert (nb <= 140)%nat as Hn by (apply nblk_le; lia). pose proof (nblk_bounds (length w)) as Hnbw. fold nb in Hnbw.
  destruct (nblk_next (length w) (length c) Hc Hfit) as [(Hm & Hd & Hnb)|[Hd Hnb]]; fold nb in Hd, Hnb; rewrite Hnb in Hsp.
  - assert (nb < 140)%nat as Hn1. { pose proof (nblk_bounds (length w + length c)). lia. }
    destruct (file_sector_new s din nb Hs Hok Hn1 Hex Hsp) as (s1 & l2 & x & Hr & [G1 G2 G3 G4 G5 G6 G7 G8 G9] & Hex2 & Hfb).
    rewrite Hd. exists s1, l2, x. split; [exact Hr|]. split; [apply rsect_run; [done|pose proof (sn_fb _ G1); pose proof (sn_fb _ Hs); lia]|].
    assert (forall k, (k < length w)%nat -> fbyte (disk_of s1) l2 (Z.of_nat k) = default 0 (w !! k)) as Hw1.
    { intros k Hk. rewrite <- Hby by done. assert (Z.to_nat (Z.of_nat k / 512) < nb)%nat as Hkb by zdm. apply fbyte_same; [by apply G7|]. apply G8. intros _. rewrite <- G7 by done. apply (fo_apart _ _ _ _ G4). lia. }
    destruct (fill_block s1 l2 w c (S nb) G1 G4 Hex2 Hsz ltac:(done) Hc Hfit Hw1) as (F1 & F2 & F3 & F4 & F5). rewrite Hd, G5 in *.
    split; cbn [freeblock freeinode set_sector]; rewrite ?length_app, ?Hnb; try done; [lia| |].
    + intros b Hb Ho. rewrite F4 by lia. apply G8. intros Hi E. apply Ho. right. destruct G9 as [G9|]; [|lia]. fold l in G9. split; congruence.
    + intros b Ho. apply F3 in Ho as [(bn & Hbn & Ha)|[Hi Hne]].
      * destruct (decide (bn = nb)) as [->|]; [right; lia|]. left. left. exists bn. split; [lia|]. rewrite <- Ha. symmetry. apply G7. lia.
      * destruct G9 as [G9|]; [left; right; fold l in G9; split; congruence|right; lia].
  - rewrite (file_sector_old s din (length w / 512) nb Hs Hok Hd). fold l. exists s, l, (addr (disk_of s) l (length w / 512)).
    split; [by destruct din|]. pose proof (fo_addr _ _ _ _ Hok _ Hd) as Hx. split; [apply rsect_run; [done|pose proof (sn_fb _ Hs); lia]|].
    destruct (fill_block s l w c nb Hs Hok Hex Hsz ltac:(done) Hc Hfit Hby) as (F1 & F2 & F3 & F4 & F5).
    split; cbn [freeblock freeinode set_sector]; rewrite ?length_app, ?Hnb; fold nb; try done; [lia| |].
    + intros b Hb Ho. apply F4. intros ->. apply Ho. left. by exists (length w / 512)%nat.
    + intros b Ho. left. by apply F3.
Qed.

(** ** [iappend] *)
Lemma nblk_mono n n' : (n <= n')%nat -> (nblk n <= nblk n')%nat.
Proof. intros H. pose proof (nblk_bounds n). pose proof (nblk_bounds n'). lia. Qed.

Lemma cost_mono n n' : (n <= n')%nat -> cost n <= cost n'.
Proof. intros H. unfold cost. destruct (Nat.leb_spec n 12); destruct (Nat.leb_spec n' 12); lia. Qed.

Lemma append_loop_run fuel : forall s din w p, (length p < fuel)%nat -> sane s -> stores (disk_of s) (freeblock s) (d_addrs din) w ->
  (length w + length p <= 140 * 512)%nat -> freeblock s + cost (nblk (length w + length p)) - cost (nblk (length w)) <= FSSIZE ->
  exists s2 l2, iappend_loop fuel din (Z.of_nat (length w)) p s = (Ret (din_with_addrs din l2, Z.of_nat (length w + length p)), s2) /\
    appended s s2 (d_addrs din) l2 w (w ++ p).
Proof.
  induction fuel as [|fuel IH]; intros s din w p Hf Hs Hh Hsz Hsp; [lia|]. cbn [iappend_loop]. destruct p as [|b p'].
  - exists s, (d_addrs din). rewrite app_nil_r. split; [|by apply appended_refl]. cbn [length]. rewrite Nat.add_0_r. by destruct din.
  - set (p := b :: p') in *. assert ((Z.of_nat (length p) <=? 0) = false) as -> by (unfold p; cbn [length]; apply Z.leb_gt; lia).
    assert (0 < length p)%nat as Hp0 by (unfold p; cbn [length]; lia). clearbody p. change bs with 512.
    pose proof (Nat.div_mod_eq (length w) 512) as Hdm. pose proof (Nat.mod_upper_bound (length w) 512 ltac:(lia)) as Hmod.
    assert (Z.of_nat (length w) / 512 = Z.of_nat (length w / 512)) as Hq by (by rewrite Nat2Z.inj_div). rewrite Hq.
    assert ((MAXFILE <=? Z.of_nat (length w / 512)) = false) as -> by (unfold MAXFILE; apply Z.leb_gt; lia).
    cbn [panic_if]. unfold bind at 1, ret at 1. rewrite Nat2Z.id.
    set (n1 := Z.min (Z.of_nat (length p)) ((Z.of_nat (length w / 512) + 1) * 512 - Z.of_nat (length w))).
    set (c := take (Z.to_nat n1) p). assert (length c = Z.to_nat n1) as Hlc by (unfold c; rewrite length_take; lia).
    assert (drop (Z.to_nat n1) p = drop (length c) p) as Hdrop by (by rewrite Hlc). assert (p = c ++ drop (length c) p) as Hpc by (rewrite Hlc; unfold c; by rewrite take_drop).
    assert (length p = length c + length (drop (length c) p))%nat as Hlp by (rewrite length_drop; lia).
    assert (0 < length c /\ length w mod 512 + length c <= 512)%nat as [Hc Hfit] by lia.
    destruct (round_run s din w c Hs Hh Hc Hfit ltac:(lia)) as (s1 & l1 & x & Hr & Hr2 & Hap).
    { pose proof (cost_mono _ _ (nblk_mono (length w + length c) (length w + length p) ltac:(lia))). lia. }
    rewrite (bind_Ret _ _ _ _ _ Hr). rewrite (bind_Ret _ _ _ _ _ Hr2). unfold bind at 1, wsect, modify.
    replace (Z.to_nat (Z.of_nat (length w) - Z.of_nat (length w / 512) * 512)) with (length w mod 512)%nat by lia. fold c. rewrite Hdrop.
    set (s2 := set_sector x _ s1) in *.
    destruct (IH s2 (din_with_addrs din l1) (w ++ c) (drop (length c) p)) as (s3 & l3 & Hr3 & Hap3); [lia|apply (ap_sane _ _ _ _ _ _ Hap)|apply (ap_holds _ _ _ _ _ _ Hap)|rewrite length_app; lia| |].
    { pose proof (ap_fb _ _ _ _ _ _ Hap) as E. rewrite length_app in *. replace (length w + length c + length (drop (length c) p))%nat with (length w + length p)%nat by lia. lia. }
    exists s3, l3. rewrite length_app in Hr3. replace (Z.of_nat (length w) + n1) with (Z.of_nat (length w + length c)) by lia. rewrite Hr3.
    split; [by rewrite Hlp, Nat.add_assoc|]. rewrite Hpc at 1. rewrite app_assoc. by apply (appended_trans s s2 s3 _ l1 _ w (w ++ c)).
Qed.

(** ** Inodes on disk *)
Definition dino (s : mk) (i : Z) : dinode := get_dinode (dip_off i) (disk_of s (IBLOCK i mk_sb)).

Lemma iblock_range i : 0 <= i < 208 -> IBLOCK i mk_sb = i / 8 + 32 /\ 32 <= IBLOCK i mk_sb < 58.
Proof. intros Hi. unfold IBLOCK. change (sb_inodestart mk_sb) with 32. change IPB with 8. rewrite u32_small by zdm. zdm. Qed.

Lemma get_dinode_other off off' d b : length (d_addrs d) = 13%nat -> (off' + 64 <= off \/ off + 64 <= off')%nat -> get_dinode off' (put_dinode off d b) = get_dinode off' b.
Proof.
  intros Hl Ho. unfold put_dinode, get_dinode, put_addrs, put32, put16. pose proof (length_le32_concat (d_addrs d)) as Hlen. rewrite Hl in Hlen.
  f_equal; try (f_equal; rewrite !get16_put_out by (rewrite ?Hlen; cbn [length le16 le32]; lia); done).
  - rewrite !get32_put_out by (rewrite ?Hlen; cbn [length le16 le32]; lia). done.
  - apply list_fmap_ext. intros k x Hx. apply lookup_seq in Hx as [-> Hk]. change (NDIRECT + 1)%nat with 13%nat in Hk. rewrite !get32_put_out by (rewrite ?Hlen; cbn [length le16 le32]; lia). done.
Qed.

Lemma dip_off_range i : (dip_off i + 64 <= 512)%nat.
Proof. unfold dip_off, sizeof_dinode. change IPB with 8. pose proof (Z.mod_pos_bound i 8 ltac:(lia)). lia. Qed.

Lemma winode_run s i d : sane s -> 0 <= i < 208 -> dinode_ok d ->
  exists s', winode i d s = (Ret tt, s') /\ sane s' /\ freeinode s' = freeinode s /\ freeblock s' = freeblock s /\ dino s' i = d /\
    (forall j, 0 <= j < 208 -> j <> i -> dino s' j = dino s j) /\ (forall b, ~ (32 <= b < 58) -> disk_of s' b = disk_of s b).
Proof.
  intros Hs Hi Hd. destruct (iblock_range i Hi) as [Hib Hibr]. pose proof (sn_fb _ Hs) as Hfb. change nmeta with 59 in Hfb.
  destruct (rsect_run s (IBLOCK i mk_sb) Hs) as [Hr Hlen]; [change FSSIZE with 1000; lia|]. pose proof (dip_off_range i) as Hoff. change BSIZE with 512%nat in Hlen.
  eexists. split; [unfold winode; rewrite (bind_Ret _ _ _ _ _ Hr); reflexivity|]. split; [apply sane_write; [done|lia|by rewrite length_put_dinode]|]. do 2 (split; [done|]).
  unfold dino. split; [|split].
  - rewrite disk_of_set, upd_fn_eq. apply get_put_dinode; [done|lia].
  - intros j Hj Hne. rewrite disk_of_set. unfold upd_fn. case_decide as E; [|done]. rewrite E. rewrite get_dinode_other; [done|apply (dk_len _ Hd)|].
    destruct (iblock_range j Hj) as [Hjb _]. unfold dip_off, sizeof_dinode. change IPB with 8.
    assert (i mod 8 <> j mod 8) by zdm. pose proof (Z.mod_pos_bound i 8 ltac:(lia)). pose proof (Z.mod_pos_bound j 8 ltac:(lia)). lia.
  - intros b Hb. rewrite disk_of_set. apply upd_fn_ne. lia.
Qed.
