(* ===== verification/MkfsFiles.v ===== *)
(** * The files of the image mkfs.c builds *)
From S2P Require Import Prelude Block Log Tx Sleeplock Fs FsAlloc FsFile FsRw FsDir Mkfs MkfsImage.

(** ** The invariant

    [files] lists the type and the contents of the inodes given out so far,
    from inode 1 on. *)
Definition addrs (s : mk) (i : nat) : list Z := d_addrs (dino s (Z.of_nat i + 1)).

Definition blocks_of (files : list (Z * list Z)) : Z := foldr (fun f a => cost (nblk (length f.2)) + a) 0 files.

Record built (s : mk) (files : list (Z * list Z)) : Prop := Built {
  bu_sane : sane s;
  bu_count : freeinode s = 1 + Z.of_nat (length files);
  bu_few : (length files <= 200)%nat;
  bu_file : forall i t w, files !! i = Some (t, w) -> 0 <= t < 32768 /\
    dino s (Z.of_nat i + 1) = Dinode t 0 0 1 (Z.of_nat (length w)) (addrs s i) /\ stores (disk_of s) (freeblock s) (addrs s i) w;
  bu_apart : forall i j f g b, i <> j -> files !! i = Some f -> files !! j = Some g ->
    owned_by (disk_of s) (addrs s i) (nblk (length f.2)) b -> ~ owned_by (disk_of s) (addrs s j) (nblk (length g.2)) b;
  bu_blocks : freeblock s = nmeta + blocks_of files;
}.

Lemma owned_range D fb l w b : stores D fb l w -> owned_by D l (nblk (length w)) b -> nmeta <= b < fb.
Proof.
  intros Hh [(bn & Hb & <-)|[Hi Hne]]; [apply (fo_addr _ _ _ _ (ho_ok _ _ _ _ Hh) _ Hb)|]. destruct (fo_ind _ _ _ _ (ho_ok _ _ _ _ Hh)) as [[? _]|?]; [congruence|lia].
Qed.

Lemma stores_frame D D' fb fb' l w : stores D fb l w -> fb <= fb' -> (forall b, owned_by D l (nblk (length w)) b -> D' b = D b) ->
  stores D' fb' l w /\ (forall b, owned_by D' l (nblk (length w)) b <-> owned_by D l (nblk (length w)) b).
Proof.
  intros [H1 H2 H3 H4] Hfb Hd. destruct (fok_frame _ D' _ fb' _ _ H1 Hfb Hd) as (F1 & F2 & _). split; [|done]. split; try done.
  intros k Hk. rewrite <- H4 by done. pose proof (nblk_bounds (length w)). apply (fbyte_frame _ _ _ _ _ _ H1); [lia|by apply nblk_le|done].
Qed.

Lemma stores_dinode_ok s t w l : sane s -> stores (disk_of s) (freeblock s) l w -> 0 <= t < 32768 -> dinode_ok (Dinode t 0 0 1 (Z.of_nat (length w)) l).
Proof.
  intros Hs Hh Ht. pose proof (ho_size _ _ _ _ Hh). split; cbn [d_type d_major d_minor d_nlink d_size d_addrs]; try lia; [apply (fo_len _ _ _ _ (ho_ok _ _ _ _ Hh))|].
  apply Forall_forall. intros a Ha. apply list_elem_of_lookup in Ha as [bn Hbn]. pose proof (ho_ok _ _ _ _ Hh) as Hf. pose proof (fo_len _ _ _ _ Hf) as Hl. pose proof (lookup_lt_Some _ _ _ Hbn).
  pose proof (sn_fb _ Hs). change FSSIZE with 1000 in *. pose proof nmeta_pos. destruct (decide (bn = 12%nat)) as [->|].
  - assert (ind l = a) as <- by (unfold ind; change NDIRECT with 12%nat; by rewrite Hbn). destruct (fo_ind _ _ _ _ Hf); lia.
  - assert (addr (disk_of s) l bn = a) as <- by (rewrite addr_direct by lia; by rewrite Hbn).
    destruct (decide (bn < nblk (length w))%nat); [pose proof (fo_addr _ _ _ _ Hf bn ltac:(done)); lia|rewrite (fo_none _ _ _ _ Hf) by lia; lia].
Qed.

Lemma blocks_of_insert files i t w w' : files !! i = Some (t, w) -> blocks_of (<[i := (t, w')]> files) = blocks_of files + cost (nblk (length w')) - cost (nblk (length w)).
Proof.
  revert i. induction files as [|f files IH]; intros i Hi; [done|]. destruct i as [|i].
  - injection Hi as ->. unfold blocks_of. cbn. lia.
  - change (blocks_of (<[S i := (t, w')]> (f :: files))) with (cost (nblk (length f.2)) + blocks_of (<[i := (t, w')]> files)). rewrite (IH i Hi). unfold blocks_of. cbn [foldr]. lia.
Qed.

Lemma blocks_of_app l1 l2 : blocks_of (l1 ++ l2) = blocks_of l1 + blocks_of l2.
Proof. unfold blocks_of. induction l1 as [|f l1 IH]; [done|]. cbn [app foldr]. lia. Qed.

(** Appending to one file leaves the others alone. *)
Lemma iappend_built s files i t w p : built s files -> files !! i = Some (t, w) -> (length w + length p <= 140 * 512)%nat ->
  nmeta + blocks_of (<[i := (t, w ++ p)]> files) <= FSSIZE ->
  exists s', iappend (Z.of_nat i + 1) p s = (Ret tt, s') /\ built s' (<[i := (t, w ++ p)]> files) /\ disk_of s' 1 = disk_of s 1.
Proof.
  intros Hb Hi Hsz Hsp. pose proof Hb as [B1 B2 B3 B4 B5 B6]. destruct (B4 i t w Hi) as (Ht & Hd & Hh). pose proof (lookup_lt_Some _ _ _ Hi) as Hil.
  rewrite (blocks_of_insert _ _ _ _ _ Hi), length_app in Hsp.
  set (I := Z.of_nat i + 1) in *. assert (0 <= I < 208) as HI by (unfold I; lia).
  destruct (iblock_range I HI) as [_ Hibr]. destruct (rsect_run s (IBLOCK I mk_sb) B1) as [Hr _]; [change FSSIZE with 1000; lia|].
  destruct (append_loop_run (S (length p)) s (dino s I) w p ltac:(lia) B1) as (s1 & l1 & Hl & Hap); [done|done|lia|].
  fold (addrs s i) in Hap. pose proof Hap as [A1 A2 A3 A4 A5 A6 A7].
  assert (dinode_ok (Dinode t 0 0 1 (Z.of_nat (length (w ++ p))) l1)) as Hok by (by apply (stores_dinode_ok s1)).
  destruct (winode_run s1 I _ A1 HI Hok) as (s2 & Hw & W1 & W2 & W3 & W4 & W5 & W6).
  exists s2. split.
  { unfold iappend, rinode. erewrite bind_Ret by (rewrite (bind_Ret _ _ _ _ _ Hr); reflexivity). fold (dino s I). rewrite Hd at 2. cbn [d_size].
    rewrite (xint_small (Z.of_nat (length w))) by lia. rewrite (bind_Ret _ _ _ _ _ Hl).
    rewrite Hd. unfold din_set_size, din_with_addrs. cbn [d_type d_major d_minor d_nlink d_size d_addrs].
    rewrite (xint_small (Z.of_nat (length w + length p))) by lia. rewrite <- length_app. exact Hw. }
  pose proof nmeta_pos. pose proof (sn_fb _ B1) as Hfb. change nmeta with 59 in *.
  assert (forall b, 59 <= b -> disk_of s2 b = disk_of s1 b) as HW by (intros b Hbb; apply W6; lia).
  assert (forall j, (j < length files)%nat -> j <> i -> dino s2 (Z.of_nat j + 1) = dino s (Z.of_nat j + 1)) as Hdino.
  { intros j Hj Hne. rewrite W5 by lia. unfold dino. destruct (iblock_range (Z.of_nat j + 1) ltac:(lia)). rewrite A6; [done|lia|].
    intros Ho. apply (owned_range _ _ _ _ _ Hh) in Ho. change nmeta with 59 in Ho. lia. }
  assert (forall j, (j < length files)%nat -> j <> i -> addrs s2 j = addrs s j) as Haddr by (intros j Hj Hne; unfold addrs; by rewrite Hdino).
  assert (addrs s2 i = l1) as Hai by (unfold addrs; fold I; by rewrite W4).
  destruct (stores_frame _ (disk_of s2) _ (freeblock s2) _ _ A3 ltac:(lia)) as [Hi2 Oi].
  { intros b Ho. apply HW. apply (owned_range _ _ _ _ _ A3) in Ho. change nmeta with 59 in Ho. lia. }
  assert (forall j t' w', files !! j = Some (t', w') -> j <> i -> stores (disk_of s2) (freeblock s2) (addrs s j) w' /\
    (forall b, owned_by (disk_of s2) (addrs s j) (nblk (length w')) b <-> owned_by (disk_of s) (addrs s j) (nblk (length w')) b)) as Hj.
  { intros j t' w' Hj Hne. destruct (B4 j t' w' Hj) as (_ & _ & Hhj). apply (stores_frame _ _ _ _ _ _ Hhj); [lia|]. intros b Ho.
    pose proof (owned_range _ _ _ _ _ Hhj Ho) as Hr'. change nmeta with 59 in Hr'. rewrite HW by lia. apply A6; [lia|]. intros Ho'.
    exact (B5 j i _ _ b Hne Hj Hi Ho Ho'). }
  assert (forall j f b, j <> i -> files !! j = Some f -> owned_by (disk_of s2) l1 (nblk (length (w ++ p))) b -> owned_by (disk_of s2) (addrs s j) (nblk (length f.2)) b -> False) as Hex.
  { intros j [t' w'] b Hne Hfj Ho Ho'. apply (Hj j t' w' Hfj Hne) in Ho'. destruct (B4 j t' w' Hfj) as (_ & _ & Hhj). pose proof (owned_range _ _ _ _ _ Hhj Ho').
    apply Oi, A7 in Ho as [Ho|Ho]; [exact (B5 j i _ _ b Hne Hfj Hi Ho' Ho)|lia]. }
  split; [split|].
  - done.
  - rewrite W2, A2, length_insert. done.
  - by rewrite length_insert.
  - intros j t' w' Hfj. destruct (decide (j = i)) as [->|Hne].
    + rewrite list_lookup_insert_eq in Hfj by done. injection Hfj as <- <-. rewrite Hai. by fold I.
    + rewrite list_lookup_insert_ne in Hfj by done. pose proof (lookup_lt_Some _ _ _ Hfj). rewrite Haddr, Hdino by done. destruct (B4 j t' w' Hfj) as (? & ? & _). by destruct (Hj j t' w' Hfj Hne).
  - intros j k f g b Hjk Hfj Hfk. destruct (decide (j = i)) as [->|Hnj]; [|destruct (decide (k = i)) as [->|Hnk]].
    + rewrite list_lookup_insert_eq in Hfj by done. injection Hfj as <-. rewrite list_lookup_insert_ne in Hfk by done. pose proof (lookup_lt_Some _ _ _ Hfk). rewrite Hai, (Haddr k) by lia. intros Ho Ho'. by apply (Hex k g b (not_eq_sym Hjk)).
    + rewrite list_lookup_insert_eq in Hfk by done. injection Hfk as <-. rewrite list_lookup_insert_ne in Hfj by done. pose proof (lookup_lt_Some _ _ _ Hfj). rewrite Hai, (Haddr j) by lia. intros Ho Ho'. by apply (Hex j f b).
    + rewrite list_lookup_insert_ne in Hfj, Hfk by done. pose proof (lookup_lt_Some _ _ _ Hfj). pose proof (lookup_lt_Some _ _ _ Hfk). rewrite (Haddr j), (Haddr k) by lia. destruct f as [tj wj], g as [tk wk].
      intros Ho Ho'. apply (Hj j tj wj Hfj Hnj) in Ho. apply (Hj k tk wk Hfk Hnk) in Ho'. exact (B5 j k _ _ b Hjk Hfj Hfk Ho Ho').
  - change nmeta with 59. rewrite (blocks_of_insert _ _ _ _ _ Hi), W3, A4, B6. lia.
  - rewrite W6 by lia. apply A6; [lia|]. intros Ho. apply (owned_range _ _ _ _ _ Hh) in Ho. change nmeta with 59 in Ho. lia.
Qed.

(** ** A new inode *)
Lemma stores_empty D fb : stores D fb (replicate 13 0) [].
Proof.
  assert (forall bn, addr D (replicate 13 0) bn = 0) as Ha.
  { intros bn. unfold addr, addr_of. change (ind (replicate 13 0)) with 0. change NDIRECT with 12%nat. destruct (bn <? 12)%nat; [|done].
    destruct (replicate 13 0 !! bn) as [x|] eqn:E; [|done]. by apply lookup_replicate in E as [-> _]. }
  change (nblk (length [])) with 0%nat. split; change (nblk (length ([] : list Z))) with 0%nat.
  - split; intros; try done; try lia; try apply Ha; left; split; [done|lia].
  - split; [lia|done].
  - change (length ([] : list Z)) with 0%nat. lia.
  - change (length ([] : list Z)) with 0%nat. lia.
Qed.

Lemma not_owned_empty D b : ~ owned_by D (replicate 13 0) 0 b.
Proof. intros [(bn & H & _)|[H1 H2]]; [lia|]. by destruct H2. Qed.

Lemma ialloc_built s files t : built s files -> (length files < 200)%nat -> 0 <= t < 32768 ->
  exists s', mk_ialloc t s = (Ret (1 + Z.of_nat (length files)), s') /\ built s' (files ++ [(t, [])]) /\ disk_of s' 1 = disk_of s 1.
Proof.
  intros Hb Hn Ht. pose proof Hb as [B1 B2 B3 B4 B5 B6]. set (n := length files) in *. set (I := 1 + Z.of_nat n) in *.
  set (d := Dinode t 0 0 1 0 (replicate 13 0)).
  assert (sane (set_freeinode (I + 1) s)) as Hs1 by (destruct B1; by split).
  assert (dinode_ok d) as Hok. { split; cbn; try lia. repeat constructor; lia. }
  destruct (winode_run (set_freeinode (I + 1) s) I d Hs1 ltac:(lia) Hok) as (s2 & Hw & W1 & W2 & W3 & W4 & W5 & W6). cbn [freeinode freeblock set_freeinode] in W2, W3.
  change (disk_of (set_freeinode (I + 1) s)) with (disk_of s) in W6. change (dino (set_freeinode (I + 1) s)) with (dino s) in W5.
  exists s2. split.
  { unfold mk_ialloc. unfold bind at 1 2, gets, modify. rewrite B2. fold I. rewrite (u32_small (I + 1)) by lia.
    change (s16 (xshort 1)) with 1. change (xint 0) with 0. assert (s16 (xshort t) = t) as ->. { rewrite xshort_small by lia. apply s16_small. lia. }
    rewrite (bind_Ret _ _ _ _ _ Hw). done. }
  split; [|apply W6; lia].
  assert (forall j, (j < n)%nat -> dino s2 (Z.of_nat j + 1) = dino s (Z.of_nat j + 1)) as Hdino by (intros j Hj; apply W5; lia).
  assert (forall j, (j < n)%nat -> addrs s2 j = addrs s j) as Haddr by (intros j Hj; unfold addrs; by rewrite Hdino).
  assert (addrs s2 n = replicate 13 0) as Hnew. { unfold addrs. replace (Z.of_nat n + 1) with I by lia. by rewrite W4. }
  assert (forall j t' w', files !! j = Some (t', w') -> stores (disk_of s2) (freeblock s2) (addrs s j) w' /\
    (forall b, owned_by (disk_of s2) (addrs s j) (nblk (length w')) b <-> owned_by (disk_of s) (addrs s j) (nblk (length w')) b)) as Hj.
  { intros j t' w' Hfj. destruct (B4 j t' w' Hfj) as (_ & _ & Hhj). apply (stores_frame _ _ _ _ _ _ Hhj); [lia|]. intros b Ho.
    pose proof (owned_range _ _ _ _ _ Hhj Ho) as Hr'. change nmeta with 59 in Hr'. apply W6. lia. }
  assert (forall j f, (files ++ [(t, [])]) !! j = Some f -> (files !! j = Some f /\ (j < n)%nat) \/ (j = n /\ f = (t, []))) as Hcases.
  { intros j f Hfj. destruct (decide (j < n)%nat) as [Hl|Hl]; [rewrite lookup_app_l in Hfj by done; by left|]. rewrite lookup_app_r in Hfj by lia. right.
    apply list_lookup_singleton_Some in Hfj as [E ->]. split; [fold n in E; lia|done]. }
  split.
  - done.
  - rewrite W2, length_app. cbn [length]. fold n. lia.
  - rewrite length_app. cbn [length]. fold n. lia.
  - intros j t' w' Hfj. destruct (Hcases j _ Hfj) as [[Hf Hl]|[-> E]].
    + rewrite Haddr, Hdino by done. destruct (B4 j t' w' Hf) as (? & ? & _). by destruct (Hj j t' w' Hf).
    + injection E as -> ->. rewrite Hnew. replace (Z.of_nat n + 1) with I by lia. rewrite W4. split; [done|]. split; [done|apply stores_empty].
  - intros j k f g b Hjk Hfj Hfk. destruct (Hcases j _ Hfj) as [[Hf Hl]|[-> ->]]; [|rewrite Hnew; cbn [snd]; intros Ho; by apply not_owned_empty in Ho].
    destruct (Hcases k _ Hfk) as [[Hg Hlk]|[-> ->]]; [|rewrite Hnew; cbn [snd]; intros _ Ho; by apply not_owned_empty in Ho].
    rewrite !Haddr by done. destruct f as [tj wj], g as [tk wk]. intros Ho Ho'. apply (Hj j tj wj Hf) in Ho. apply (Hj k tk wk Hg) in Ho'. exact (B5 j k _ _ b Hjk Hf Hg Ho Ho').
  - rewrite blocks_of_app, W3, B6. change (blocks_of [(t, [])]) with 0. lia.
Qed.

(** ** Whole files *)
Lemma blocks_of_nonneg files : 0 <= blocks_of files.
Proof. unfold blocks_of. induction files as [|f files IH]; cbn [foldr]; [lia|]. pose proof (cost_mono 0 (nblk (length f.2)) ltac:(lia)) as H. change (cost 0) with 0 in H. lia. Qed.

Lemma blocks_of_insert_mono files i t w w1 w2 : files !! i = Some (t, w) -> (length w1 <= length w2)%nat -> blocks_of (<[i := (t, w1)]> files) <= blocks_of (<[i := (t, w2)]> files).
Proof. intros Hi Hl. rewrite !(blocks_of_insert _ _ _ _ _ Hi). pose proof (cost_mono _ _ (nblk_mono _ _ Hl)). lia. Qed.

Lemma pieces_built ps : forall s files i t w, built s files -> files !! i = Some (t, w) -> (length w + length (concat ps) <= 140 * 512)%nat ->
  nmeta + blocks_of (<[i := (t, w ++ concat ps)]> files) <= FSSIZE ->
  exists s', for_each ps (iappend (Z.of_nat i + 1)) s = (Ret tt, s') /\ built s' (<[i := (t, w ++ concat ps)]> files) /\ disk_of s' 1 = disk_of s 1.
Proof.
  induction ps as [|p ps IH]; intros s files i t w Hb Hi Hsz Hsp; cbn [for_each concat] in *.
  - exists s. rewrite app_nil_r. split; [done|]. split; [|done]. by rewrite list_insert_id.
  - rewrite length_app in Hsz. destruct (iappend_built s files i t w p Hb Hi ltac:(lia)) as (s1 & Hr & Hb1 & Hd1).
    { pose proof (blocks_of_insert_mono files i t w (w ++ p) (w ++ p ++ concat ps) Hi) as H. rewrite !length_app in H. specialize (H ltac:(lia)). lia. }
    rewrite (bind_Ret _ _ _ _ _ Hr). pose proof (lookup_lt_Some _ _ _ Hi) as Hil.
    destruct (IH s1 (<[i := (t, w ++ p)]> files) i t (w ++ p) Hb1) as (s2 & Hr2 & Hb2 & Hd2); [by apply list_lookup_insert_eq|rewrite length_app; lia|rewrite list_insert_insert_eq, <- app_assoc; done|].
    exists s2. rewrite list_insert_insert_eq, <- app_assoc in Hb2. split; [done|]. split; [done|congruence].
Qed.

(** The image of the files [fs], each a name and its pieces: the root directory
    and the files, in order. *)
Definition dir_bytes (fs : list (list Z * list (list Z))) : list Z :=
  mk_dirent 1 [46] ++ mk_dirent 1 [46; 46] ++ concat (imap (fun j f => mk_dirent (Z.of_nat j + 2) (skip_underscore f.1)) fs).

Definition mkfs_files (fs : list (list Z * list (list Z))) : list (Z * list Z) := (T_DIR, dir_bytes fs) :: ((fun f => (T_FILE, concat f.2)) <$> fs).

Definition args (fs : list (list Z * list (list Z))) : list (list Z * option (list (list Z))) := (fun f => (f.1, Some f.2)) <$> fs.

Lemma dir_bytes_snoc fs f : dir_bytes (fs ++ [f]) = dir_bytes fs ++ mk_dirent (Z.of_nat (length fs) + 2) (skip_underscore f.1).
Proof. unfold dir_bytes. rewrite imap_app, concat_app. cbn [imap concat]. rewrite Nat.add_0_r, app_nil_r. by rewrite <- !app_assoc. Qed.

Lemma length_dir_bytes fs : length (dir_bytes fs) = (16 * (length fs + 2))%nat.
Proof.
  induction fs as [|f fs IH] using rev_ind; [unfold dir_bytes; by rewrite !length_app, !length_mk_dirent|]. rewrite dir_bytes_snoc, !length_app, IH, length_mk_dirent. cbn [length]. lia.
Qed.

Lemma blocks_of_image_app f1 f2 : blocks_of (mkfs_files f1) <= blocks_of (mkfs_files (f1 ++ f2)).
Proof.
  unfold mkfs_files. cbn [blocks_of foldr]. fold (blocks_of ((fun f => (T_FILE, concat f.2)) <$> f1)) (blocks_of ((fun f => (T_FILE, concat f.2)) <$> (f1 ++ f2))). cbn [snd]. rewrite fmap_app, blocks_of_app.
  pose proof (blocks_of_nonneg ((fun f => (T_FILE, concat f.2)) <$> f2)). pose proof (cost_mono _ _ (nblk_mono (length (dir_bytes f1)) (length (dir_bytes (f1 ++ f2))) ltac:(rewrite !length_dir_bytes, length_app; lia))). lia.
Qed.

Definition file_fits (f : list Z * list (list Z)) : Prop := existsb (Z.eqb 47) f.1 = false /\ (length (concat f.2) <= 140 * 512)%nat.

Lemma add_file_built s done f : built s (mkfs_files done) -> (length done < 198)%nat -> file_fits f -> nmeta + blocks_of (mkfs_files (done ++ [f])) <= FSSIZE ->
  exists s', add_file 1 (f.1, Some f.2) s = (Ret tt, s') /\ built s' (mkfs_files (done ++ [f])) /\ disk_of s' 1 = disk_of s 1.
Proof.
  intros Hb Hn [Hname Hsz] Hsp. set (n := length done) in *. assert (length (mkfs_files done) = S n) as Hli by (unfold mkfs_files; cbn [length]; by rewrite length_fmap).
  destruct (ialloc_built s (mkfs_files done) T_FILE Hb ltac:(lia) ltac:(done)) as (s1 & Hr1 & Hb1 & Hd1). rewrite Hli in Hr1.
  set (L1 := mkfs_files done ++ [(T_FILE, [])]) in *. set (de := mk_dirent (Z.of_nat n + 2) (skip_underscore f.1)).
  assert (<[0%nat := (T_DIR, dir_bytes done ++ de)]> L1 = (T_DIR, dir_bytes (done ++ [f])) :: ((fun f => (T_FILE, concat f.2)) <$> done) ++ [(T_FILE, [])]) as HL2.
  { rewrite dir_bytes_snoc. done. }
  set (L2 := (T_DIR, dir_bytes (done ++ [f])) :: ((fun f => (T_FILE, concat f.2)) <$> done) ++ [(T_FILE, [])]) in *.
  assert (L2 !! S n = Some (T_FILE, [])) as Hl2. { unfold L2. cbn [lookup list_lookup]. apply list_lookup_middle. by rewrite length_fmap. }
  assert (<[S n := (T_FILE, [] ++ concat f.2)]> L2 = mkfs_files (done ++ [f])) as HL3.
  { unfold L2, mkfs_files. rewrite fmap_app. transitivity ((T_DIR, dir_bytes (done ++ [f])) :: <[n := (T_FILE, concat f.2)]> (((fun f => (T_FILE, concat f.2)) <$> done) ++ [(T_FILE, [])])); [done|]. f_equal. rewrite insert_app_r_alt by (rewrite length_fmap; done). rewrite length_fmap. fold n. by rewrite Nat.sub_diag. }
  destruct (iappend_built s1 L1 0 T_DIR (dir_bytes done) de Hb1 ltac:(done)) as (s2 & Hr2 & Hb2 & Hd2).
  { unfold de. rewrite length_dir_bytes, length_mk_dirent. fold n. lia. }
  { rewrite HL2. pose proof (blocks_of_insert_mono L2 (S n) T_FILE [] [] ([] ++ concat f.2) Hl2 ltac:(cbn [length]; lia)) as Ht. rewrite HL3, (list_insert_id L2) in Ht by done. lia. }
  rewrite HL2 in Hb2. destruct (pieces_built f.2 s2 L2 (S n) T_FILE [] Hb2 Hl2) as (s3 & Hr3 & Hb3 & Hd3); [cbn [length]; lia|rewrite HL3; done|].
  exists s3. split; [|split; [by rewrite <- HL3|congruence]].
  unfold add_file. cbn [fst snd]. rewrite Hname. cbn [panic_if]. unfold bind at 1, ret at 1. rewrite (bind_Ret _ _ _ _ _ Hr1).
  replace (1 + Z.of_nat (S n)) with (Z.of_nat (S n) + 1) by lia. rewrite (xshort_small (Z.of_nat (S n) + 1)) by lia.
  replace (mk_dirent (Z.of_nat (S n) + 1) (skip_underscore f.1)) with de by (unfold de; f_equal; lia).
  rewrite (bind_Ret _ _ _ _ _ (Hr2 : iappend 1 de s1 = _)). exact Hr3.
Qed.

Lemma add_files_built todo : forall s done, built s (mkfs_files done) -> (length done + length todo <= 198)%nat -> Forall file_fits todo -> nmeta + blocks_of (mkfs_files (done ++ todo)) <= FSSIZE ->
  exists s', for_each (args todo) (add_file 1) s = (Ret tt, s') /\ built s' (mkfs_files (done ++ todo)) /\ disk_of s' 1 = disk_of s 1.
Proof.
  induction todo as [|f todo IH]; intros s done Hb Hn Hf Hsp; cbn [args fmap list_fmap for_each].
  - exists s. by rewrite app_nil_r.
  - inversion Hf; subst. replace (done ++ f :: todo) with ((done ++ [f]) ++ todo) in * by (by rewrite <- app_assoc).
    cbn [length] in Hn. pose proof (blocks_of_image_app (done ++ [f]) todo).
    destruct (add_file_built s done f Hb ltac:(lia) ltac:(done) ltac:(lia)) as (s1 & Hr1 & Hb1 & Hd1). rewrite (bind_Ret _ _ _ _ _ Hr1).
    destruct (IH s1 (done ++ [f]) Hb1) as (s2 & Hr2 & Hb2 & Hd2); [rewrite length_app; cbn [length]; lia|done|done|]. exists s2. split; [done|]. split; [done|congruence].
Qed.

(** ** The bitmap *)
Lemma set_bits_spec n : (n <= 4096)%nat -> let b := foldl set_bit zero_block (Z.of_nat <$> seq 0 n) in
  length b = BSIZE /\ forall x, 0 <= x < 4096 -> Z.testbit (get8 b (Z.to_nat (x / 8))) (x mod 8) = (x <? Z.of_nat n).
Proof.
  induction n as [|n IH]; intros Hn; cbv zeta.
  - cbn [seq fmap list_fmap foldl]. split; [done|]. intros x Hx. rewrite get8_zero.
    rewrite Z.bits_0. symmetry. apply Z.ltb_ge. lia.
  - rewrite seq_S, fmap_app, foldl_app. cbn [fmap list_fmap foldl]. destruct (IH ltac:(lia)) as [Hl Hb]. set (b := foldl set_bit zero_block (Z.of_nat <$> seq 0 n)) in *. rewrite Nat.add_0_l.
    unfold set_bit. split; [by rewrite length_insert|]. intros x Hx. change BSIZE with 512%nat in Hl.
    pose proof (Z.mod_pos_bound (Z.of_nat n) 8 ltac:(lia)). pose proof (Z.mod_pos_bound x 8 ltac:(lia)).
    destruct (decide (x / 8 = Z.of_nat n / 8)) as [E|E].
    + rewrite E. unfold get8 at 1. rewrite list_lookup_insert_eq by (rewrite Hl; zdm). cbn [default from_option id]. rewrite Z.lor_spec, Z.shiftl_1_l, Z.pow2_bits_eqb by lia.
      rewrite <- E, Hb by lia. destruct (Z.eqb_spec (Z.of_nat n mod 8) (x mod 8)); [rewrite orb_true_r; symmetry; apply Z.ltb_lt; zdm|rewrite orb_false_r; destruct (Z.ltb_spec x (Z.of_nat n)); symmetry; [apply Z.ltb_lt; lia|apply Z.ltb_ge; zdm]].
    + unfold get8 at 1. rewrite list_lookup_insert_ne by zdm. fold (get8 b (Z.to_nat (x / 8))). rewrite Hb by lia. destruct (Z.ltb_spec x (Z.of_nat n)); symmetry; [apply Z.ltb_lt; lia|apply Z.ltb_ge; zdm].
Qed.

(** ** The first steps of [main] *)
Lemma zero_sectors n s : exists s', for_each (Z.of_nat <$> seq 0 n) (fun i => wsect i zero_block) s = (Ret tt, s') /\
  freeinode s' = freeinode s /\ freeblock s' = freeblock s /\ forall i, 0 <= i < Z.of_nat n -> sectors s' !! i = Some zero_block.
Proof.
  induction n as [|n IH]; [exists s; split; [done|split; [done|split; [done|lia]]]|]. destruct IH as (s1 & Hr & H1 & H2 & H3).
  rewrite seq_S, fmap_app, for_each_app, (bind_Ret _ _ _ _ _ Hr). eexists. split; [reflexivity|]. split; [done|]. split; [done|].
  intros i Hi. cbn [sectors set_sector]. rewrite Nat.add_0_l. destruct (decide (i = Z.of_nat n)) as [->|]; [by rewrite lookup_insert_eq|]. rewrite lookup_insert_ne by done. apply H3. lia.
Qed.

Lemma sb_on_disk : decode_sb (sb_bytes mk_sb) = mk_sb.
Proof. vm_compute. reflexivity. Qed.

(** The state after the image has been cleared and the superblock written. *)
Lemma clear_run : exists s, (modify (set_freeblock nmeta) ;; for_each (Z.of_nat <$> seq 0 (Z.to_nat FSSIZE)) (fun i => wsect i zero_block) ;; wsect 1 (sb_bytes mk_sb)) mk0 = (Ret tt, s) /\
  built s [] /\ disk_of s 1 = sb_bytes mk_sb.
Proof.
  destruct (zero_sectors (Z.to_nat FSSIZE) (set_freeblock nmeta mk0)) as (s1 & Hr & H1 & H2 & H3). change (freeblock (set_freeblock nmeta mk0)) with 59 in H2.
  assert (sane s1) as Hs.
  { split.
    - intros b Hb. exists zero_block. split; [apply H3; change FSSIZE with 1000 in *; lia|done].
    - rewrite H2. change nmeta with 59. change FSSIZE with 1000. lia.
    - intros b Hb. unfold disk_of. rewrite H3; [done|]. change FSSIZE with 1000 in *. lia. }
  exists (set_sector 1 (sb_bytes mk_sb) s1). split; [|split].
  - unfold bind at 1, modify at 1. rewrite (bind_Ret _ _ _ _ _ Hr). done.
  - split; [apply sane_write; [done|rewrite H2; lia|vm_compute; reflexivity]|cbn [freeinode set_sector length]; rewrite H1; done|cbn [length]; lia|done|done|cbn [freeblock set_sector]; rewrite H2; done].
  - rewrite disk_of_set. apply upd_fn_eq.
Qed.

(** ** Entries of the root directory *)
Lemma dir_entry fs j f k : fs !! j = Some f -> (k < 16)%nat -> dir_bytes fs !! (16 * (j + 2) + k)%nat = mk_dirent (Z.of_nat j + 2) (skip_underscore f.1) !! k.
Proof.
  induction fs as [|g fs IH] using rev_ind; intros Hj Hk; [done|]. rewrite dir_bytes_snoc. apply lookup_app_Some in Hj as [Hj|[Hl Hj]].
  - pose proof (lookup_lt_Some _ _ _ Hj). rewrite lookup_app_l by (rewrite length_dir_bytes; lia). by apply IH.
  - apply list_lookup_singleton_Some in Hj as [Hj ->]. assert (j = length fs) as -> by lia. rewrite lookup_app_r by (rewrite length_dir_bytes; lia). rewrite length_dir_bytes. f_equal. lia.
Qed.

(** ** What the kernel's theorems ask of a file *)
Lemma bblock_mk x : 0 <= x < FSSIZE -> BBLOCK x mk_sb = 58.
Proof. intros Hx. unfold BBLOCK. change (sb_bmapstart mk_sb) with 58. change BPB with 4096. change FSSIZE with 1000 in Hx. rewrite u32_small by zdm. zdm. Qed.

Lemma built_file_wf D fb l w ib : stores D fb l w -> fb <= FSSIZE -> 32 <= ib < 58 -> (forall x, 0 <= x < FSSIZE -> bit_at mk_sb D x = (x <? fb)) ->
  file_wf mk_sb ib (disk_view D) l.
Proof.
  intros Hh Hfb Hib Hbit. pose proof (ho_ok _ _ _ _ Hh) as Hf. pose proof (nblk_le _ (ho_size _ _ _ _ Hh)) as Hn. change nblocks with 140%nat in *.
  assert (forall a, nmeta <= a < fb -> data_ok mk_sb ib (disk_view D) a) as Hd.
  { intros a Ha. change nmeta with 59 in Ha. change FSSIZE with 1000 in *. split.
    - change (sb_size mk_sb) with 1000. lia.
    - cbn [tv_blk disk_view]. rewrite Hbit by lia. apply Z.ltb_lt. lia.
    - intros y Hy. rewrite bblock_mk by (change FSSIZE with 1000; exact Hy). lia.
    - lia.
    - split; set_solver. }
  assert (forall bn, (bn < 140)%nat -> addr D l bn <> 0 -> (bn < nblk (length w))%nat) as Hlt.
  { intros bn Hbn Hne. destruct (decide (bn < nblk (length w))%nat); [done|]. destruct Hne. apply (fo_none _ _ _ _ Hf). lia. }
  pose proof nmeta_pos. split.
  - apply (fo_len _ _ _ _ Hf).
  - intros bn Hbn Hne. apply Hd. apply (fo_addr _ _ _ _ Hf). by apply Hlt.
  - intros Hi. apply Hd. destruct (fo_ind _ _ _ _ Hf) as [[? _]|?]; [done|done].
  - intros bn bn' Hbn Hbn' Hne E. apply (fo_inj _ _ _ _ Hf); [by apply Hlt| |done]. apply Hlt; [done|]. intros E0. apply Hne. unfold addr in *. congruence.
  - intros bn Hbn Hne. apply (fo_apart _ _ _ _ Hf). by apply Hlt.
Qed.

(** The last two steps: the size of the root directory is rounded up to whole
    blocks, and the bitmap is written. *)
Lemma mkfs_finish s files d0 rest : built s files -> files = (T_DIR, d0) :: rest -> (length d0 <= 3200)%nat ->
  exists s', (din ← rinode 1; winode 1 (din_set_size (xint ((xint (d_size din) / bs + 1) * bs)) din) ;; fb ← gets freeblock; mk_balloc fb) s = (Ret tt, s') /\
    sane s' /\ disk_of s' 1 = disk_of s 1 /\ freeblock s' = freeblock s /\
    dino s' 1 = Dinode T_DIR 0 0 1 (512 * (Z.of_nat (length d0) / 512 + 1)) (addrs s 0) /\
    (forall i, (0 < i < 200)%nat -> dino s' (Z.of_nat i + 1) = dino s (Z.of_nat i + 1)) /\
    (forall b, 59 <= b -> disk_of s' b = disk_of s b) /\
    (forall x, 0 <= x < FSSIZE -> bit_at mk_sb (disk_of s') x = (x <? freeblock s)).
Proof.
  intros Hb -> Hd0. pose proof Hb as [B1 B2 B3 B4 B5 B6]. destruct (B4 0%nat T_DIR d0 eq_refl) as (Ht & Hdi & Hh). change (Z.of_nat 0 + 1) with 1 in Hdi.
  pose proof (sn_fb _ B1) as Hfb. change nmeta with 59 in Hfb. change FSSIZE with 1000 in *.
  set (sz := 512 * (Z.of_nat (length d0) / 512 + 1)). assert (0 <= sz < 4294967296) as Hsz by (unfold sz; zdm).
  assert (dinode_ok (Dinode T_DIR 0 0 1 sz (addrs s 0))) as Hok. { destruct (stores_dinode_ok s _ _ _ B1 Hh Ht). by split. }
  destruct (winode_run s 1 _ B1 ltac:(lia) Hok) as (s1 & Hw & W1 & W2 & W3 & W4 & W5 & W6).
  destruct (iblock_range 1 ltac:(lia)) as [_ Hib]. destruct (rsect_run s (IBLOCK 1 mk_sb) B1) as [Hr _]; [change FSSIZE with 1000; lia|].
  set (bm := foldl set_bit zero_block (Z.of_nat <$> seq 0 (Z.to_nat (freeblock s)))).
  destruct (set_bits_spec (Z.to_nat (freeblock s)) ltac:(lia)) as [Hbl Hbm]. fold bm in Hbl, Hbm.
  assert (forall b, b <> 58 -> disk_of (set_sector 58 bm s1) b = disk_of s1 b) as HD by (intros b Hne; rewrite disk_of_set; by apply upd_fn_ne).
  assert (forall i, 0 <= i < 208 -> dino (set_sector 58 bm s1) i = dino s1 i) as Hdn. { intros i Hi. unfold dino. rewrite HD; [done|]. destruct (iblock_range i Hi). lia. }
  exists (set_sector 58 bm s1). split; [|split; [apply sane_write; [done|rewrite W3; lia|done]|split; [rewrite HD by lia; apply W6; lia|split; [done|split; [by rewrite Hdn by lia|split; [|split]]]]]].
  - unfold rinode. erewrite bind_Ret by (rewrite (bind_Ret _ _ _ _ _ Hr); reflexivity). fold (dino s 1). rewrite Hdi. cbn [d_size]. change bs with 512.
    rewrite (xint_small (Z.of_nat (length d0))) by lia. replace ((Z.of_nat (length d0) / 512 + 1) * 512) with sz by (unfold sz; lia). rewrite xint_small by done.
    unfold din_set_size. cbn [d_type d_major d_minor d_nlink d_size d_addrs]. rewrite (bind_Ret _ _ _ _ _ Hw). unfold bind at 1, gets. rewrite W3. unfold mk_balloc. change BPB with 4096.
    assert ((4096 <=? freeblock s) = false) as -> by (apply Z.leb_gt; lia). done.
  - intros i Hi. rewrite Hdn by lia. apply W5; lia.
  - intros b Hb'. rewrite HD by lia. apply W6. lia.
  - intros x Hx. unfold bit_at. rewrite bblock_mk by done. rewrite disk_of_set, upd_fn_eq. change BPB with 4096. rewrite (Z.mod_small x 4096) by lia. rewrite Hbm by lia. by rewrite Z2Nat.id by lia.
Qed.

Lemma image_file fs j f : fs !! j = Some f -> mkfs_files fs !! S j = Some (T_FILE, concat f.2).
Proof. intros Hj. change (((fun f => (T_FILE, concat f.2)) <$> fs) !! j = Some (T_FILE, concat f.2)). by rewrite list_lookup_fmap, Hj. Qed.

(** [main] from its phases. *)
Lemma mkfs_main_run fs s0 s1 s2 s3 s4 :
  (modify (set_freeblock nmeta) ;; for_each (Z.of_nat <$> seq 0 (Z.to_nat FSSIZE)) (fun i => wsect i zero_block) ;; wsect 1 (sb_bytes mk_sb)) mk0 = (Ret tt, s0) ->
  mk_ialloc T_DIR s0 = (Ret 1, s1) -> for_each [mk_dirent 1 [46]; mk_dirent 1 [46; 46]] (iappend 1) s1 = (Ret tt, s2) ->
  for_each (args fs) (add_file 1) s2 = (Ret tt, s3) ->
  (din ← rinode 1; winode 1 (din_set_size (xint ((xint (d_size din) / bs + 1) * bs)) din) ;; fb ← gets freeblock; mk_balloc fb) s3 = (Ret tt, s4) ->
  mkfs_main (args fs) mk0 = (Ret tt, s4).
Proof.
  intros H0 H1 H2 H3 H4. apply bind_Ret_inv in H0 as ([] & a1 & H0a & H0). apply bind_Ret_inv in H0 as ([] & a2 & H0b & H0c).
  cbn [for_each] in H2. apply bind_Ret_inv in H2 as ([] & b1 & H2a & H2). apply bind_Ret_inv in H2 as ([] & b2 & H2b & H2c). injection H2c as <-.
  unfold mkfs_main. rewrite (bind_Ret _ _ _ _ _ H0a), (bind_Ret _ _ _ _ _ H0b), (bind_Ret _ _ _ _ _ H0c), (bind_Ret _ _ _ _ _ H1).
  change (negb (1 =? ROOTINO)) with false. cbn [panic_if]. unfold bind at 1, ret at 1. change (xshort 1) with 1.
  rewrite (bind_Ret _ _ _ _ _ H2a), (bind_Ret _ _ _ _ _ H2b), (bind_Ret _ _ _ _ _ H3). exact H4.
Qed.

(** Files survive changes outside the data blocks. *)
Lemma built_kept s s' files i t w : built s files -> (forall b, 59 <= b -> disk_of s' b = disk_of s b) -> files !! i = Some (t, w) ->
  dino s (Z.of_nat i + 1) = Dinode t 0 0 1 (Z.of_nat (length w)) (addrs s i) /\ stores (disk_of s') (freeblock s) (addrs s i) w.
Proof.
  intros Hb Hd Hi. destruct (bu_file _ _ Hb _ _ _ Hi) as (_ & E & Hh). split; [done|]. apply (stores_frame _ _ _ _ _ _ Hh); [lia|].
  intros b Ho. apply Hd. by apply (owned_range _ _ _ _ _ Hh) in Ho as [? _].
Qed.

(** The image of the files [fs], as it is on disk when [main] is done. *)
Record image_ok (m : mk) (fs : list (list Z * list (list Z))) : Prop := ImageOk {
  im_sane : sane m;
  im_blocks : freeblock m = nmeta + blocks_of (mkfs_files fs);
  im_sb : decode_sb (disk_of m 1) = mk_sb;
  im_root : dino m 1 = Dinode T_DIR 0 0 1 (512 * (Z.of_nat (length (dir_bytes fs)) / 512 + 1)) (d_addrs (dino m 1));
  im_dir : stores (disk_of m) (freeblock m) (d_addrs (dino m 1)) (dir_bytes fs);
  im_file : forall j f, fs !! j = Some f -> let i := Z.of_nat j + 2 in
    dino m i = Dinode T_FILE 0 0 1 (Z.of_nat (length (concat f.2))) (d_addrs (dino m i)) /\
    stores (disk_of m) (freeblock m) (d_addrs (dino m i)) (concat f.2);
  im_bits : forall x, 0 <= x < FSSIZE -> bit_at mk_sb (disk_of m) x = (x <? freeblock m);
}.

Lemma mkfs_run fs : (length fs <= 198)%nat -> Forall file_fits fs -> nmeta + blocks_of (mkfs_files fs) <= FSSIZE ->
  exists s, mkfs_main (args fs) mk0 = (Ret tt, s) /\ image_ok s fs.
Proof.
  intros Hn Hfit Hsp. destruct clear_run as (s0 & Hr0 & Hb0 & Hd0).
  destruct (ialloc_built s0 [] T_DIR Hb0 ltac:(cbn; lia) ltac:(done)) as (s1 & Hr1 & Hb1 & Hd1). cbn [app length] in Hb1, Hr1.
  assert (nmeta + blocks_of [(T_DIR, dir_bytes [])] <= FSSIZE) as Hsp0 by (pose proof (blocks_of_image_app [] fs); cbn [app] in *; unfold mkfs_files in *; cbn [fmap list_fmap] in *; lia).
  destruct (pieces_built [mk_dirent 1 [46]; mk_dirent 1 [46; 46]] s1 _ 0 T_DIR [] Hb1 eq_refl) as (s2 & Hr2 & Hb2 & Hd2); [cbn [concat length]; rewrite !length_app, !length_mk_dirent; cbn [length]; lia|exact Hsp0|].
  change (<[0%nat := (T_DIR, [] ++ concat [mk_dirent 1 [46]; mk_dirent 1 [46; 46]])]> [(T_DIR, [])]) with (mkfs_files []) in Hb2. 
  destruct (add_files_built fs s2 [] Hb2 ltac:(cbn [length]; lia) Hfit Hsp) as (s3 & Hr3 & Hb3 & Hd3). cbn [app] in Hb3.
  destruct (mkfs_finish s3 (mkfs_files fs) (dir_bytes fs) _ Hb3 eq_refl) as (s4 & Hr4 & F0 & F1 & F2 & F3 & F4 & F5 & F6); [rewrite length_dir_bytes; lia|].
  exists s4. split; [by apply (mkfs_main_run fs s0 s1 s2 s3)|].
  pose proof (fun i t w => built_kept s3 s4 (mkfs_files fs) i t w Hb3 F5) as Hk. assert (d_addrs (dino s4 1) = addrs s3 0) as Ea0 by (by rewrite F3). split.
  - done.
  - rewrite F2. apply (bu_blocks _ _ Hb3).
  - rewrite F1, Hd3, Hd2, Hd1, Hd0. apply sb_on_disk.
  - by rewrite Ea0, F3.
  - rewrite Ea0, F2. by destruct (Hk 0%nat _ _ eq_refl).
  - intros j f Hj i. pose proof (lookup_lt_Some _ _ _ Hj) as Hjl. destruct (Hk _ _ _ (image_file fs j _ Hj)) as [Hdj Hhj].
    replace (Z.of_nat (S j) + 1) with i in Hdj by lia. assert (dino s4 i = dino s3 i) as E4 by (replace i with (Z.of_nat (S j) + 1) by lia; apply F4; lia).
    assert (d_addrs (dino s4 i) = addrs s3 (S j)) as Ea by (rewrite E4, Hdj; done). rewrite Ea, F2. split; [by rewrite E4|done].
  - intros x Hx. rewrite F2. by apply F6.
Qed.

(** C17: [mkfs] builds an image the kernel can use: for any files that fit, with
    names without slashes, it ends without error, and in the image the
    superblock reads back as computed, the root directory (inode 1) has an entry
    for each file, under its name without the leading underscore, each file is
    an inode of type file whose size and bytes, read with the kernel's map from
    file blocks to disk blocks, are those of the file however it was read in
    pieces, files have the structure that the kernel's theorems on reading and
    writing ask for, and exactly the blocks used are marked in the bitmap. *)
Theorem mkfs_image fs : (length fs <= 198)%nat -> Forall file_fits fs -> nmeta + blocks_of (mkfs_files fs) <= FSSIZE ->
  exists s, mkfs_main (args fs) mk0 = (Ret tt, s) /\ let v := disk_view (disk_of s) in
    decode_sb (disk_of s 1) = mk_sb /\ d_type (dino s 1) = T_DIR /\ (16 * Z.of_nat (length fs + 2) <= d_size (dino s 1)) /\
    (forall j name pieces, fs !! j = Some (name, pieces) -> let w := concat pieces in let i := Z.of_nat j + 2 in
       dino s i = Dinode T_FILE 0 0 1 (Z.of_nat (length w)) (d_addrs (dino s i)) /\
       file_wf mk_sb (IBLOCK i mk_sb) v (d_addrs (dino s i)) /\
       (forall k, (k < length w)%nat -> file_byte v (d_addrs (dino s i)) (Z.of_nat k) = default 0 (w !! k)) /\
       (forall k, (k < 16)%nat -> file_byte v (d_addrs (dino s 1)) (16 * i + Z.of_nat k) = default 0 (mk_dirent i (skip_underscore name) !! k))) /\
    (forall x, 0 <= x < FSSIZE -> bit_at mk_sb (disk_of s) x = (x <? nmeta + blocks_of (mkfs_files fs))).
Proof.
  intros Hn Hfit Hsp. destruct (mkfs_run fs Hn Hfit Hsp) as (s & Hr & Him). pose proof Him as [I1 I2 I3 I4 I5 I6 I7]. exists s. split; [done|]. cbv zeta.
  split; [done|]. split; [by rewrite I4|]. split; [rewrite I4, length_dir_bytes; cbn [d_size]; zdm|]. split; [|by rewrite <- I2].
  intros j name pieces Hj. destruct (I6 j _ Hj) as [Hd Hs]. pose proof (lookup_lt_Some _ _ _ Hj). split; [exact Hd|]. split; [|split].
  - destruct (iblock_range (Z.of_nat j + 2) ltac:(lia)) as [_ Hib]. apply (built_file_wf _ _ _ _ _ Hs); [apply (sn_fb _ I1)|done|done].
  - intros k Hk. by apply (ho_bytes _ _ _ _ Hs).
  - intros k Hk. pose proof (dir_entry fs j _ k Hj Hk) as Hde. cbn [fst] in Hde. rewrite <- Hde. replace (16 * (Z.of_nat j + 2) + Z.of_nat k) with (Z.of_nat (16 * (j + 2) + k)) by lia.
    apply (ho_bytes _ _ _ _ I5). rewrite length_dir_bytes. lia.
Qed.

(** An image with one file, of three bytes read in two pieces. *)
Lemma mkfs_image_witness : exists s, mkfs_main [([95; 97], Some [[1; 2]; [3]])] mk0 = (Ret tt, s) /\ d_size (dino s 2) = 3.
Proof.
  destruct (mkfs_image [([95; 97], [[1; 2]; [3]])]) as (s & Hr & _ & _ & _ & Hf & _).
  - cbn [length]. lia.
  - apply Forall_singleton. split; [reflexivity|]. cbn [snd concat app length]. lia.
  - vm_compute. discriminate.
  - exists s. split; [exact Hr|]. destruct (Hf 0%nat [95; 97] [[1; 2]; [3]] eq_refl) as [E _]. change (Z.of_nat 0 + 2) with 2 in E. by rewrite E.
Defined.
