(* ===== verification/MkfsBoot.v ===== *)
(** * The kernel on the image that mkfs.c builds

    [iinit], [namei], [ilock] and [readi] of fs.c, over any transaction layer whose
    disk is the image. *)
From S2P Require Import Prelude Block Bio Log Crash Tx Sleeplock Fs FsAlloc FsFile FsRw FsDir FsPath Mkfs MkfsImage MkfsFiles.

(** What a reader sees at the start of a transaction of [lim] blocks. *)
Definition boot_view (m : mk) (lim : nat) : tview := TView FSSIZE (disk_of m) ∅ lim ∅ ∅.

Lemma boot_quiet m lim b : quiet (boot_view m lim) b.
Proof. split; set_solver. Qed.

Section Image.
Context (m : mk) (fs : list (list Z * list (list Z))) (Him : image_ok m fs) (lim : nat).

Lemma boot_can_alloc : can_alloc mk_sb (boot_view m lim).
Proof.
  pose proof (sn_fb _ (im_sane _ _ Him)) as Hfb. change nmeta with 59 in Hfb. change FSSIZE with 1000 in Hfb.
  split; [|done|intros; apply boot_quiet|intros; apply boot_quiet]. split; cbn [tv_n tv_blk boot_view].
  - done.
  - done.
  - intros b Hb. by destruct (rsect_run m b (im_sane _ _ Him) Hb).
  - intros x y Hx Hy Hbit. rewrite bblock_mk by exact Hy. rewrite (im_bits _ _ Him x Hx) in Hbit. apply Z.ltb_ge in Hbit. lia.
Qed.

Lemma boot_ready i : 0 <= i < 208 -> fs_ready mk_sb (IBLOCK i mk_sb) (boot_view m lim).
Proof.
  intros Hi. destruct (iblock_range i Hi) as [_ Hib]. pose proof (sn_fb _ (im_sane _ _ Him)) as Hfb. change nmeta with 59 in Hfb. change FSSIZE with 1000 in Hfb.
  assert (forall x, 0 <= x < 59 -> bit_at mk_sb (disk_of m) x = true) as Hbit by (intros x Hx; rewrite (im_bits _ _ Him) by (change FSSIZE with 1000; lia); apply Z.ltb_lt; lia).
  split; [apply boot_can_alloc|apply Hbit; lia|split; [change (sb_size mk_sb) with 1000; lia|apply Hbit; lia]| |apply boot_quiet].
  intros y Hy. rewrite bblock_mk by exact Hy. lia.
Qed.

Lemma boot_file_wf l w i : stores (disk_of m) (freeblock m) l w -> 0 <= i < 208 -> file_wf mk_sb (IBLOCK i mk_sb) (boot_view m lim) l.
Proof.
  intros Hs Hi. destruct (iblock_range i Hi) as [_ Hib].
  destruct (built_file_wf _ _ _ _ _ Hs ltac:(apply (sn_fb _ (im_sane _ _ Him))) Hib (im_bits _ _ Him)) as [W1 W2 W3 W4 W5].
  split; [exact W1| | |exact W4|exact W5].
  - intros bn Hbn Hne. destruct (W2 bn Hbn Hne). split; try done; apply boot_quiet.
  - intros Hne. destruct (W3 Hne). split; try done; apply boot_quiet.
Qed.

Lemma boot_dense l w sz : stores (disk_of m) (freeblock m) l w -> sz <= 512 * Z.of_nat (nblk (length w)) -> dense (boot_view m lim) l 0 sz.
Proof.
  intros Hs Hsz k Hk. change (addr (disk_of m) l (Z.to_nat (k / bs)) <> 0). change bs with 512. pose proof nmeta_pos.
  assert (Z.to_nat (k / 512) < nblk (length w))%nat as Hb by zdm. pose proof (fo_addr _ _ _ _ (ho_ok _ _ _ _ Hs) _ Hb). lia.
Qed.

(** Every file, and the root directory when it does not fill its blocks. *)
Lemma boot_on_image l w t sz i : stores (disk_of m) (freeblock m) l w -> dino m i = Dinode t 0 0 1 sz l -> 0 <= i < 208 -> 0 < t < 3 -> 0 <= sz <= 71680 ->
  sz <= 512 * Z.of_nat (nblk (length w)) -> on_image mk_sb (boot_view m lim) i (Dinode t 0 0 1 sz l).
Proof.
  intros Hs Hd Hi Ht Hsz Hb. split; cbn [d_type d_size d_addrs].
  - exact Hd.
  - destruct (stores_dinode_ok m t w l (im_sane _ _ Him) Hs ltac:(lia)). by split; cbn [d_type d_major d_minor d_nlink d_size d_addrs] in *; try lia.
  - unfold T_DEV. lia.
  - by apply boot_ready.
  - by apply (boot_file_wf l w).
  - done.
  - by apply (boot_dense l w).
Qed.

(** Entries of the root directory. *)
Lemma boot_dirent i d : (i < length fs + 2)%nat -> length d = 16%nat -> (forall k, (k < 16)%nat -> dir_bytes fs !! (16 * i + k)%nat = d !! k) ->
  dirent_at (boot_view m lim) (d_addrs (dino m 1)) i = d.
Proof.
  intros Hi Hl Hk. apply list_eq. intros k. unfold dirent_at. rewrite list_lookup_fmap. destruct (decide (k < 16)%nat) as [Hk16|Hk16].
  - rewrite lookup_seqZ_lt by lia. cbn [fmap option_fmap option_map]. rewrite <- Hk by done.
    replace (16 * Z.of_nat i + Z.of_nat k) with (Z.of_nat (16 * i + k)) by lia. change (file_byte (boot_view m lim)) with (fbyte (disk_of m)).
    rewrite (ho_bytes _ _ _ _ (im_dir _ _ Him)) by (rewrite length_dir_bytes; lia).
    destruct (lookup_lt_is_Some_2 (dir_bytes fs) (16 * i + k)%nat) as [x ->]; [rewrite length_dir_bytes; lia|done].
  - rewrite lookup_seqZ_ge by lia. symmetry. apply lookup_ge_None_2. lia.
Qed.

Lemma boot_file_dirent j f : fs !! j = Some f -> dirent_at (boot_view m lim) (d_addrs (dino m 1)) (j + 2) = mk_dirent (Z.of_nat j + 2) (skip_underscore f.1).
Proof.
  intros Hj. pose proof (lookup_lt_Some _ _ _ Hj). apply boot_dirent; [lia|apply length_mk_dirent|]. intros k Hk. by apply dir_entry.
Qed.

Lemma boot_dot_dirent : dirent_at (boot_view m lim) (d_addrs (dino m 1)) 0 = mk_dirent 1 [46] /\
  dirent_at (boot_view m lim) (d_addrs (dino m 1)) 1 = mk_dirent 1 [46; 46].
Proof.
  split; (apply boot_dirent; [lia|apply length_mk_dirent|]); intros k Hk; unfold dir_bytes.
  - by rewrite lookup_app_l by (rewrite length_mk_dirent; lia).
  - rewrite lookup_app_r by (rewrite length_mk_dirent; lia). rewrite length_mk_dirent, lookup_app_l by (rewrite length_mk_dirent; lia). f_equal. lia.
Qed.

Lemma first_some_first {B} (g : nat -> option B) n j b : (j < n)%nat -> g j = Some b -> (forall i, (i < j)%nat -> g i = None) -> first_some g (seq 0 n) = Some b.
Proof.
  intros Hj Hb Hno. replace n with (j + S (n - S j))%nat by lia. rewrite seq_app, first_some_app. cbn [seq first_some]. rewrite Nat.add_0_l, Hb.
  destruct (first_some g (seq 0 j)) as [b'|] eqn:E; [|done]. pose proof (first_some_spec g (seq 0 j)) as H. rewrite E in H. destruct H as (l1 & x & l2 & El & Hx & _).
  assert (x ∈ seq 0 j) as Hin by (rewrite El; set_solver). apply elem_of_seq in Hin. by rewrite Hno in Hx by lia.
Qed.

(** The root directory maps the name of a file to its inode. *)
Definition first_with (j : nat) (name : list Z) : Prop :=
  ~ same_name name [46] /\ ~ same_name name [46; 46] /\ forall i f, (i < j)%nat -> fs !! i = Some f -> ~ same_name name (skip_underscore f.1).

Lemma boot_dir_map j name pieces n : (length fs <= 198)%nat -> fs !! j = Some (name, pieces) -> first_with j (skip_underscore name) -> (length fs + 2 <= n)%nat ->
  dir_map (boot_view m lim) (d_addrs (dino m 1)) n (skip_underscore name) = Some ((j + 2)%nat, Z.of_nat j + 2).
Proof.
  intros Hn Hj (H1 & H2 & H3) Hle. pose proof (lookup_lt_Some _ _ _ Hj) as Hlt. destruct boot_dot_dirent as [D0 D1].
  unfold dir_map, dir_search. apply (first_some_first _ n (j + 2)); [lia| |].
  - rewrite (boot_file_dirent _ _ Hj), entry_for_new by lia. cbn [fst]. by rewrite decide_True.
  - intros i Hi. destruct i as [|[|i]]; [rewrite D0, entry_for_new by lia; by rewrite decide_False|rewrite D1, entry_for_new by lia; by rewrite decide_False|].
    destruct (lookup_lt_is_Some_2 fs i) as [f Hf]; [lia|]. replace (S (S i)) with (i + 2)%nat by lia.
    rewrite (boot_file_dirent _ _ Hf), entry_for_new by lia. rewrite decide_False; [done|]. apply (H3 i); [lia|done].
Qed.
End Image.

Section Boot.
Context {T : Type} {HT : TxBlocks T} {HTL : TxBlocksLaws T} (devsw : Z -> devops (T := T)).
Implicit Types s : Fs.fs T.

(** [iinit] reads the superblock. *)
Lemma wp_iinit s v (Q : unit -> Fs.fs T -> Prop) :
  Forall (fun x => x = null_inode) (inodes s) -> (NINODE <= length (inodes s))%nat -> tabs (ftx s) v -> room 1 v -> 1 < tv_n v -> quiet v 1 ->
  (forall t, tabs t v -> Q tt (Fs false (inodes s) (decode_sb (tv_blk v 1)) t)) -> wp (iinit ROOTDEV) Q s.
Proof.
  intros Hnull Hlen Ha Hrm Hn [Hq1 Hq2] HQ. unfold iinit. apply wp_bind, wp_modify. apply wp_bind.
  eapply (wp_for_each _ _ (fun l s' => (forall i, i ∈ l -> (i < length (inodes s))%nat) /\ ic_lock s' = false /\ inodes s' = inodes s /\ tabs (ftx s') v)).
  - split; [|done]. intros i Hi. apply elem_of_seq in Hi. lia.
  - intros i l s' (Hl & H1 & H2 & H3). assert (i < length (inodes s'))%nat as Hi by (rewrite H2; apply Hl; left).
    eapply wp_inode_sl; [done|reflexivity|]. cbn [fst snd on_lock]. split; [intros k Hk; apply Hl; by right|]. cbn [ic_lock with_inode inodes ftx]. split; [done|]. split; [|by apply tx_env_abs].
    rewrite <- H2. destruct (lookup_lt_is_Some_2 _ _ Hi) as [x Hx]. apply list_insert_id. unfold inode_at. rewrite Hx. cbn [default from_option id].
    rewrite H2 in Hx. by rewrite (Forall_lookup_1 _ _ _ _ Hnull Hx).
  - intros [lk l sb t] (_ & H1 & H2 & H3). cbn [ic_lock inodes ftx] in *. subst lk l. unfold readsb_fs. apply wp_bind. eapply (wp_fs_bread _ v); [exact H3|lia|done|by eapply room_avail|].
    intros i t1 Ht1 Hi1 _. apply wp_bind. eapply wp_fs_data; [exact Ht1|exact Hi1|]. apply wp_bind, wp_modify.
    eapply (wp_release_read _ v); [exact Ht1|exact Hi1|done|done|]. intros t2 Ht2 _. by apply HQ.
Qed.

(** C18: what [mkfs] writes, the kernel reads: on the image of any files that fit,
    a kernel that starts with an empty inode cache finds every file under its
    name, without the leading underscore, and reads exactly its bytes.  The cache
    of blocks and the log below are any that meet their interface.  The root
    directory must not fill its last block: then its size covers a block it
    does not have. *)
Theorem mkfs_then_read fs m s j name pieces buf cwd n lim :
  let w := concat pieces in let nm := skip_underscore name in
  mkfs_main (args fs) mk0 = (Ret tt, m) ->
  (length fs <= 198)%nat -> Forall file_fits fs -> nmeta + blocks_of (mkfs_files fs) <= FSSIZE -> ((length fs + 2) mod 32 <> 0)%nat ->
  fs !! j = Some (name, pieces) -> file_name nm -> first_with fs j nm ->
  tabs (ftx s) (boot_view m lim) -> (1 <= lim)%nat -> (1 <= tx_cap)%nat ->
  Forall (fun x => x = null_inode) (inodes s) -> (NINODE <= length (inodes s))%nat ->
  length buf = DIRSIZ -> Z.of_nat (length w) <= n < 2147483648 ->
  wp (iinit ROOTDEV ;;
      ip ← namei devsw cwd (slash :: nm) buf;
      ilock ip ;;
      readi devsw (default 0%nat ip) 0 n)
    (fun r _ => r = (Z.of_nat (length w), w)) s.
Proof.
  intros w nm Hrun Hn Hfit Hsp Hmod Hj Hnm Hfirst Ha Hlim Hcap Hnull Hlen Hbuf Hsz.
  destruct (mkfs_run fs Hn Hfit Hsp) as (m' & Hrun' & Him). rewrite Hrun in Hrun'. injection Hrun' as <-.
  assert (room (T := T) 1 (boot_view m lim)) as Hrm by (split; cbn [tv_logged tv_held tv_limit boot_view]; rewrite ?union_empty_l_L, size_empty; lia).
  pose proof (lookup_lt_Some _ _ _ Hj) as Hjl. pose proof (im_root _ _ Him) as Hroot. destruct (im_file _ _ Him j _ Hj) as [Hd Hs]. cbn [snd] in Hd, Hs. fold w in Hd, Hs.
  pose proof (length_dir_bytes fs) as Hld. pose proof (nblk_bounds (length (dir_bytes fs))) as Hnb. pose proof (nblk_bounds (length w)) as Hnw. pose proof (ho_size _ _ _ _ Hs).
  set (N := (32 * (length (dir_bytes fs) / 512 + 1))%nat). set (sz := 512 * (Z.of_nat (length (dir_bytes fs)) / 512 + 1)) in *.
  assert (sz = 16 * Z.of_nat N) as HszN by (unfold sz, N; rewrite Nat2Z.inj_mul, Nat2Z.inj_add, Nat2Z.inj_div; lia).
  assert (0 <= sz <= 71680 /\ sz <= 512 * Z.of_nat (nblk (length (dir_bytes fs))) /\ (length fs + 2 <= N)%nat) as (Hs1 & Hs2 & HN).
  { rewrite HszN. unfold N. pose proof (Nat.div_mod_eq (length fs + 2) 32). pose proof (Nat.mod_upper_bound (length fs + 2) 32). pose proof (Nat.div_mod_eq (length (dir_bytes fs)) 512). pose proof (Nat.mod_upper_bound (length (dir_bytes fs)) 512). lia. }
  apply wp_bind. eapply (wp_iinit s); [done|done|exact Ha|done|done|apply boot_quiet|]. intros t1 Ht1. cbn [tv_blk boot_view]. rewrite (im_sb _ _ Him).
  set (s1 := Fs false (inodes s) mk_sb t1). apply wp_bind.
  eapply (wp_namei_root devsw s1 (boot_view m lim) (Dinode T_DIR 0 0 1 sz (d_addrs (dino m 1))) N nm buf cwd (j + 2) (Z.of_nat j + 2));
    [reflexivity|unfold s1, NINODE in *; cbn [inodes]; lia|exact Hnull|exact Ht1|exact Hrm| |reflexivity|exact HszN|cbn [d_nlink]; lia|exact Hnm|exact Hbuf|
     by apply (boot_dir_map m fs Him lim j name pieces N)|unfold ROOTINO; lia|].
  { apply (boot_on_image m fs Him lim _ (dir_bytes fs)); [apply (im_dir _ _ Him)|exact Hroot|unfold ROOTINO; lia|unfold T_DIR; lia|exact Hs1|exact Hs2]. }
  intros s2 t2 Hl2 Hsb2 Htx2 Ht2 Htk2. rewrite <- Htx2 in Ht2. cbn [default from_option id].
  apply wp_bind. set (l := d_addrs (dino m (Z.of_nat j + 2))) in *. eapply (wp_ilock_image s2 (boot_view m lim) 1 (Z.of_nat j + 2) (Dinode T_FILE 0 0 1 (Z.of_nat (length w)) l)); [rewrite Hl2; unfold s1, NINODE in *; cbn [inodes]; lia|exact Htk2| |exact Ht2|exact Hrm|].
  { rewrite Hsb2. apply (boot_on_image m fs Him lim l w T_FILE (Z.of_nat (length w))); [exact Hs|exact Hd|lia|unfold T_FILE; lia|lia|lia]. }
  intros t3 pid Hfa. set (s3 := with_inode s2 1 _ t3) in *. assert (i_size (inode_at s3 1) = Z.of_nat (length w)) as Esz.
  { unfold s3. rewrite with_inode_at; [done|]. rewrite Hl2. unfold s1, NINODE in *. cbn [inodes]. lia. }
  eapply wp_readi; [exact Hfa|done|lia|lia|]. intros t4 _ _. rewrite Esz, Z.sub_0_r, Z.min_r by lia. f_equal.
  apply list_eq. intros k. rewrite list_lookup_fmap. destruct (w !! k) as [b|] eqn:E.
  - pose proof (lookup_lt_Some _ _ _ E). rewrite lookup_seqZ_lt by lia. cbn [fmap option_fmap option_map d_addrs]. rewrite Z.add_0_l.
    change (file_byte (boot_view m lim)) with (fbyte (disk_of m)). by rewrite (ho_bytes _ _ _ _ Hs), E by done.
  - apply lookup_ge_None_1 in E. by rewrite lookup_seqZ_ge by lia.
Qed.
End Boot.

(** ** A kernel on a small image *)
Lemma image_tabs (m : mk) : exists t : lst Bio.bio, tabs t (boot_view m 30).
Proof.
  set (disk := disk_of m <$> seqZ 0 1000). assert (length disk = 1000%nat) as Hl by (unfold disk; by rewrite length_fmap, length_seqZ).
  destruct (bio_fresh disk) as [c Hc]; [rewrite Hl; lia|]. rewrite Hl in Hc.
  assert (tabs (Lst (Log false 2 31 1 0 1 0 (replicate 30 0)) c) (TView 1000 (Bio.disk_fn disk) ∅ 30 ∅ ∅)) as Ht.
  { exists (fresh_view 1000 (Bio.disk_fn disk)), []. split; try done; constructor. }
  exists (Lst (Log false 2 31 1 0 1 0 (replicate 30 0)) c). eapply tabs_ext; [exact Ht|done..|].
  intros b Hb. cbn [tv_n tv_blk boot_view] in *. unfold Bio.disk_fn, disk. rewrite list_lookup_fmap, lookup_seqZ_lt by lia. cbn [fmap option_fmap option_map default from_option id]. f_equal. lia.
Qed.

Definition one_file : list (list Z * list (list Z)) := [([95; 97], [[1; 2]; [3]])].

Lemma one_file_fits : Forall file_fits one_file.
Proof. apply Forall_singleton. split; [reflexivity|]. cbn [snd concat app length]. lia. Qed.

Lemma mkfs_then_read_witness : exists m s, mkfs_main (args one_file) mk0 = (Ret tt, m) /\
  wp (iinit ROOTDEV ;; ip ← namei (T := lst Bio.bio) (fun _ => Devops None None) 0 [47; 97] (replicate 14 0); ilock ip ;; readi (fun _ => Devops None None) (default 0%nat ip) 0 100)
    (fun r _ => r = (3, [1; 2; 3])) s.
Proof.
  assert (nmeta + blocks_of (mkfs_files one_file) <= FSSIZE) as Hsp by (vm_compute; discriminate).
  destruct (mkfs_run one_file ltac:(cbn [length one_file]; lia) one_file_fits Hsp) as (m & Hrun & _). destruct (image_tabs m) as [t Ht].
  exists m, (Fs false (replicate NINODE null_inode) mk_sb t). split; [exact Hrun|].
  apply (mkfs_then_read (fun _ => Devops None None) one_file m (Fs false (replicate NINODE null_inode) mk_sb t) 0 [95; 97] [[1; 2]; [3]] (replicate 14 0) 0 100 30);
    try first [exact Hrun|exact one_file_fits|exact Hsp|exact Ht].
  - cbn [length one_file]. lia.
  - vm_compute. discriminate.
  - reflexivity.
  - split; [discriminate|]. repeat constructor; discriminate.
  - split; [vm_compute; discriminate|]. split; [vm_compute; discriminate|]. intros i f Hi. lia.
  - lia.
  - change (1 <= cap (C := Bio.bio))%nat. rewrite bio_cap. lia.
  - apply Forall_replicate. reflexivity.
  - vm_compute. reflexivity.
  - reflexivity.
  - cbn [concat app length]. lia.
Defined.
