(* ===== verification/Startup.v ===== *)
(** * Starting the other processors (src/xv6/main.c: startothers, mpenter,
      mpmain, entrypgdir)

    The boot processor copies the code of entryother.S below its own memory,
    leaves three words in front of it (a stack, the address of [mpenter], a page
    directory) and sends start-up interrupts; the started processor reads the
    words and sets [started], for which the boot processor waits.  Every CPU
    runs a program of steps, one memory operation or one call each; a schedule is
    the list of CPUs that take a step. *)
From S2P Require Import Prelude Mem Spinlock Kalloc Mmu Vm Apic.

Definition set_started (v : Z) (c : cpu) : cpu := Cpu (apicid c) v (ncli c) (intena c) (cproc c) (sched_policy c).

Definition PTE_PS : Z := 128.

(** [entrypgdir[i]] *)
Definition entrypgdir (i : Z) : Z :=
  if i =? 0 then Z.lor (Z.lor (Z.lor 0 PTE_P) PTE_W) PTE_PS
  else if i =? Z.shiftr KERNBASE PDXSHIFT then Z.lor (Z.lor (Z.lor 0 PTE_P) PTE_W) PTE_PS
  else 0.

(** Where the boot processor is in [startothers]. *)
Inductive bsp_pc : Type :=
| BspCopy
| BspFor (c : nat)
| BspAlloc (c : nat)
| BspStack (c : nat) (stack : Z)
| BspEntry (c : nat)
| BspPgdir (c : nat)
| BspStart (c : nat)
| BspWait (c : nat)
| BspDone.

#[export] Instance bsp_pc_eq_dec : EqDecision bsp_pc.
Proof. solve_decision. Defined.

(** Where another processor is: halted, in entryother.S at a physical address,
    in [mpenter], in [mpmain], in the scheduler. *)
Inductive ap_pc : Type :=
| ApHalt
| ApReal (start : Z)
| ApPaged (start : Z)
| ApStacked (start : Z)
| ApLost
| ApSwitchkvm
| ApSeginit
| ApLapicinit
| ApIdtinit
| ApStarted
| ApScheduler.

Record ap : Type := Ap {
  a_pc : ap_pc;
  a_esp : Z;
}.

Definition set_a_pc (v : ap_pc) (a : ap) : ap := Ap v (a_esp a).

Definition set_a_esp (v : Z) (a : ap) : ap := Ap (a_pc a) v.

(** Memory and the processors' tables, a local APIC for each processor, which of
    them have loaded the interrupt table, and where they are; CR3 is in [v_desc]. *)
Record startup : Type := Startup {
  s_vm : vst;
  s_apics : list apic;
  s_idt : list bool;
  s_aps : list ap;
  s_bsp : bsp_pc;
}.

Definition upd_vm (f : vst -> vst) (s : startup) : startup := Startup (f (s_vm s)) (s_apics s) (s_idt s) (s_aps s) (s_bsp s).

Definition upd_apics (f : list apic -> list apic) (s : startup) : startup := Startup (s_vm s) (f (s_apics s)) (s_idt s) (s_aps s) (s_bsp s).

Definition upd_idts (f : list bool -> list bool) (s : startup) : startup := Startup (s_vm s) (s_apics s) (f (s_idt s)) (s_aps s) (s_bsp s).

Definition upd_aps (f : list ap -> list ap) (s : startup) : startup := Startup (s_vm s) (s_apics s) (s_idt s) (f (s_aps s)) (s_bsp s).

Definition set_bsp (v : bsp_pc) (s : startup) : startup := Startup (s_vm s) (s_apics s) (s_idt s) (s_aps s) v.

Definition svm : lens startup vst := Lens s_vm upd_vm.

Definition null_apic : apic := Apic false ∅ [] ∅ 0 [] ∅ 0.

(** The local APIC of processor [i]; low memory is that of the machine. *)
Definition apic_at (s : startup) (i : nat) : apic := set_low (vmem (s_vm s)) (default null_apic (s_apics s !! i)).

Definition put_apic (i : nat) (a : apic) (s : startup) : startup :=
  upd_vm (upd_kmem (set_pmem (fun _ => low a))) (upd_apics (<[i := a]>) s).

Definition apicl (i : nat) : lens startup apic := Lens (fun s => apic_at s i) (fun f s => put_apic i (f (apic_at s i)) s).

Definition cpu_at (s : startup) (i : nat) : cpu := default (Cpu 0 0 0 0 None 0) (cpus (v_mach (s_vm s)) !! i).

Definition ap_at (s : startup) (i : nat) : ap := default (Ap ApHalt 0) (s_aps s !! i).

Definition upd_ap (i : nat) (f : ap -> ap) : M startup unit := modify (upd_aps (alter f i)).

(** The processor with this APIC id runs, with interrupts off. *)
Definition run_as (id : Z) (m : mach) : mach := Mach (cpus m) id 0 (lk m) (stack m).

Section Startup.
(** The addresses of the per-CPU descriptor tables, of [mpenter] and of
    [entrypgdir], the code of entryother.S, the boot processor, what ICRLO reads
    and how often it is read. *)
Context (cpu_gdt : nat -> Z) (mpenter_addr entrypgdir_addr : Z) (entryother : list Z) (bsp : nat).
Context (icrlo_at : nat -> Z) (polls : nat).

(** [code] *)
Definition CODE : Z := P2V 28672.

Definition ncpus (s : startup) : nat := length (cpus (v_mach (s_vm s))).

(** [startothers], one step. *)
Definition startothers_step (pc : bsp_pc) : M startup bsp_pc :=
  match pc with
  | BspCopy =>
      zoom svm (copy_in CODE entryother) ;;
      ret (BspFor 0)
  | BspFor c =>
      n ← gets ncpus;
      if decide (c < n)%nat then
        me ← zoom svm vmycpu;
        if decide (c = me) then ret (BspFor (S c)) else ret (BspAlloc c)
      else ret BspDone
  | BspAlloc c =>
      stack ← zoom svm vkalloc;
      ret (BspStack c stack)
  | BspStack c stack =>
      zoom svm (store (CODE - 4) (u32 (stack + KSTACKSIZE))) ;;
      ret (BspEntry c)
  | BspEntry c =>
      zoom svm (store (CODE - 8) mpenter_addr) ;;
      ret (BspPgdir c)
  | BspPgdir c =>
      zoom svm (store (CODE - 12) (V2P entrypgdir_addr)) ;;
      ret (BspStart c)
  | BspStart c =>
      id ← gets (fun s => apicid (cpu_at s c));
      zoom (apicl bsp) (lapicstartap id (V2P CODE)) ;;
      ret (BspWait c)
  | BspWait c =>
      started ← gets (fun s => started (cpu_at s c));
      ret (if started =? 0 then pc else BspFor (S c))
  | BspDone => ret BspDone
  end.

(** The start-up interrupt that the boot processor's APIC holds: for which id,
    and at which physical address to start. *)
Definition sipi (s : startup) : option (Z * Z) :=
  let lo := default 0 (lregs (apic_at s bsp) !! ICRLO) in
  let hi := default 0 (lregs (apic_at s bsp) !! ICRHI) in
  if Z.land lo 1792 =? STARTUP then Some (Z.shiftr hi 24, Z.shiftl (Z.land lo 255) 12) else None.

Definition phys_word (a : Z) : M startup Z := gets (fun s => ld32 (vmem (s_vm s)) (P2V a)).

(** entryother.S, then [mpenter] and [mpmain], one step of processor [i]; the
    scheduler does not come back. *)
Definition ap_step (i : nat) (pc : ap_pc) : M startup ap_pc :=
  match pc with
  | ApHalt =>
      s ← get;
      ret (match sipi s with
           | Some (id, addr) => if id =? apicid (cpu_at s i) then ApReal addr else ApHalt
           | None => ApHalt
           end)
  | ApReal start =>
      dir ← phys_word (start - 12);
      zoom svm (modify (upd_desc (alter (set_cr3 dir) i))) ;;
      ret (ApPaged start)
  | ApPaged start =>
      esp ← phys_word (start - 4);
      upd_ap i (set_a_esp esp) ;;
      ret (ApStacked start)
  | ApStacked start =>
      entry ← phys_word (start - 8);
      ret (if entry =? mpenter_addr then ApSwitchkvm else ApLost)
  | ApLost => ret ApLost
  | ApSwitchkvm =>
      zoom svm switchkvm ;;
      ret ApSeginit
  | ApSeginit =>
      zoom svm (seginit cpu_gdt) ;;
      ret ApLapicinit
  | ApLapicinit =>
      zoom (apicl i) (lapicinit icrlo_at polls) ;;
      ret ApIdtinit
  | ApIdtinit =>
      zoom svm vmycpu ;;
      modify (upd_idts (<[i := true]>)) ;;
      ret ApStarted
  | ApStarted =>
      zoom svm (zoom mach_lens (mycpu_update (set_started 1))) ;;
      ret ApScheduler
  | ApScheduler => ret ApScheduler
  end.

(** One step of processor [i]. *)
Definition cpu_step (i : nat) : M startup unit :=
  s ← get;
  modify (upd_vm (upd_mach (run_as (apicid (cpu_at s i))))) ;;
  if decide (i = bsp) then
    pc ← startothers_step (s_bsp s);
    modify (set_bsp pc)
  else
    pc ← ap_step i (a_pc (ap_at s i));
    upd_ap i (set_a_pc pc).

Definition schedule (l : list nat) : M startup unit := for_each l cpu_step.
End Startup.
