(* ===== verification/StartupRun.v ===== *)
(** * Starting the other processors: the handshake

    The invariant of all interleavings of [startothers] with the processors it
    starts, and a bound on the steps of any fair schedule. *)
From S2P Require Import Prelude Mem Spinlock Kalloc Mmu Vm VmMap VmUser Apic Startup.

(** ** The routines it calls *)
Lemma find_index_first {A} (p : A -> bool) (l : list A) i x : l !! i = Some x -> p x = true ->
  (forall j y, (j < i)%nat -> l !! j = Some y -> p y = false) -> find_index p l = Some i.
Proof.
  revert i. induction l as [|y l IH]; intros [|i] H1 H2 H3; try done; cbn [find_index].
  - simpl in H1. injection H1 as ->. by rewrite H2.
  - rewrite (H3 0%nat y) by (done || lia). rewrite (IH i); [done|done|done|]. intros j z Hj Hz. apply (H3 (S j)); [lia|done].
Qed.

Lemma mycpu_as m i c : NoDup (apicid <$> cpus m) -> cpus m !! i = Some c -> mycpu (run_as (apicid c) m) = (Ret i, run_as (apicid c) m).
Proof.
  intros Hn Hc. unfold mycpu, readeflags. run_pure. change (if_on (eflags (run_as (apicid c) m))) with false. run_pure. run_pure.
  rewrite (find_index_first _ _ i c); [done|done|cbn; apply Z.eqb_refl|]. intros j y Hj Hy. change (cpus m !! j = Some y) in Hy. cbn [lapicid run_as]. apply Z.eqb_neq. intros E.
  enough (j = i) by lia. eapply NoDup_lookup; [exact Hn| |]; rewrite list_lookup_fmap; [by rewrite Hy|]. rewrite Hc. simpl. by rewrite E.
Qed.

(** The hardware reports the delivery within the polls, whenever it is asked. *)
Definition delivers (icrlo_at : nat -> Z) (polls : nat) : Prop := forall k, exists j, (j < polls)%nat /\ Z.land (icrlo_at (k + j)%nat) DELIVS = 0.

Lemma wait_delivery_run icrlo_at fuel a : (exists j, (j < fuel)%nat /\ Z.land (icrlo_at (apic_reads a + j)%nat) DELIVS = 0) ->
  wp (wait_delivery icrlo_at fuel) (fun _ a' => low a' = low a) a.
Proof.
  revert a. induction fuel as [|k IH]; intros a (j & Hj & E); [lia|]. cbn [wait_delivery]. wp_steps. destruct (negb _) eqn:B; [|by wp_steps].
  destruct j as [|j]; [rewrite Nat.add_0_r in E; by rewrite E in B|].
  eapply wp_mono; [apply (IH (count_read a))|done]. exists j. split; [lia|]. cbn [apic_reads count_read]. by replace (S (apic_reads a) + j)%nat with (apic_reads a + S j)%nat by lia.
Qed.

Lemma lapicw_run i v (Q : unit -> apic -> Prop) a : Q tt (lwrite i (u32 v) a) -> wp (lapicw i v) Q a.
Proof. intros H. unfold lapicw. by wp_steps. Qed.

Lemma lapicinit_run icrlo_at polls a : delivers icrlo_at polls -> wp (lapicinit icrlo_at polls) (fun _ a' => low a' = low a) a.
Proof.
  intros Hd. unfold lapicinit. wp_steps. destruct (lapic_set a); [|by wp_steps]. unfold when at 1.
  repeat (first [apply wp_bind|apply lapicw_run]; cbv beta). unfold lapicr. wp_steps.
  destruct (4 <=? _); unfold when; repeat (first [apply lapicw_run|wp_step]; cbv beta);
    (eapply wp_mono; [apply wait_delivery_run, Hd|]; cbv beta; intros _ a' E; apply lapicw_run; cbn [low lwrite]; by rewrite E).
Qed.

(** What [lapicstartap] leaves: the start-up interrupt, and the warm reset
    vector. *)
Lemma lapicstartap_run id addr a : exists a', lapicstartap id addr a = (Ret tt, a') /\
  lregs a' !! ICRHI = Some (u32 (Z.shiftl id 24)) /\ lregs a' !! ICRLO = Some (u32 (Z.lor STARTUP (Z.shiftr addr 12))) /\
  forall b, ~ (2147484775 <= b < 2147484779) -> ld8 (low a') b = ld8 (low a) b.
Proof.
  eexists. split; [reflexivity|]. cbn [lregs low lwrite set_low add_out]. split; [|split].
  - rewrite lookup_insert_ne by done. by rewrite lookup_insert_eq.
  - by rewrite lookup_insert_eq.
  - intros b Hb. rewrite !ld8_st16_ne by lia. done.
Qed.

Section Kinv.
Context (kend : Z).

(** The allocator does not depend on memory below the kernel's end. *)
Lemma is_list_above m m' h l : (forall a, kend <= a -> ld8 m' a = ld8 m a) -> Forall (valid_page kend) l -> is_list m h l -> is_list m' h l.
Proof.
  intros Hm. revert h. induction l as [|p l IH]; intros h Hv; simpl; [done|]. inversion Hv as [|? ? Hp Hl]; subst. intros [-> H]. split; [done|].
  rewrite (ld32_ext m m'); [by apply IH|]. intros b Hb. apply Hm. destruct Hp as (_ & ? & _). lia.
Qed.

Lemma kinv_above k m' l : kinv kend k l -> (forall a, kend <= a -> ld8 m' a = ld8 (pmem k) a) -> kinv kend (set_pmem (fun _ => m') k) l.
Proof. intros [H1 H2 H3 H4] Hm. split; [|done|done|done]. cbn [pmem set_pmem freelist]. by eapply is_list_above. Qed.
End Kinv.

(** ** The boot page directory *)

(** What the MMU makes of an entry for a large page. *)
Definition large_page (dir : Z -> Z) (va : Z) : option Z :=
  let e := dir (va / 4194304) in
  if (Z.land e PTE_P =? 0) || (Z.land e PTE_PS =? 0) then None else Some (Z.land e 4290772992 + va mod 4194304).

(** The first four megabytes are mapped at 0 and at KERNBASE, and nothing else:
    the code in front of which the words lie runs at the same address before and
    after paging is turned on. *)
Lemma entrypgdir_maps va : 0 <= va < 4294967296 ->
  large_page entrypgdir va =
    if va <? 4194304 then Some va else if (KERNBASE <=? va) && (va <? KERNBASE + 4194304) then Some (va - KERNBASE) else None.
Proof.
  intros Hva. unfold large_page, entrypgdir. change (Z.shiftr KERNBASE PDXSHIFT) with 512. unfold KERNBASE.
  assert (forall va', (if (Z.land 131 PTE_P =? 0) || (Z.land 131 PTE_PS =? 0) then None else Some (Z.land 131 4290772992 + va')) = Some va') as K by done.
  change (Z.lor (Z.lor (Z.lor 0 PTE_P) PTE_W) PTE_PS) with 131. destruct (va / 4194304 =? 0) eqn:E1; [|destruct (va / 4194304 =? 512) eqn:E2]; bool_to_prop; rewrite ?K; case_bools; try (f_equal; zdm); try zdm.
Qed.

(** ** The invariant *)
Definition stage (p : ap_pc) : Z :=
  match p with
  | ApHalt => 0
  | ApReal _ => 1
  | ApPaged _ => 2
  | ApStacked _ => 3
  | ApLost => -1
  | ApSwitchkvm => 4
  | ApSeginit => 5
  | ApLapicinit => 6
  | ApIdtinit => 7
  | ApStarted => 8
  | ApScheduler => 9
  end.

Definition desc_at (s : startup) (i : nat) : desc := default null_desc (v_desc (s_vm s) !! i).

Definition idt_at (s : startup) (i : nat) : bool := default false (s_idt s !! i).

Section Handshake.
Context (cpu_gdt : nat -> Z) (mpenter_addr entrypgdir_addr kend : Z) (entryother : list Z) (bsp : nat).
Context (icrlo_at : nat -> Z) (polls : nat).
(** The APIC ids, the kernel's page directory and the free pages at the start. *)
Context (ids : list Z) (kpg : Z) (l0 : list Z).

Abbreviation n := (length ids).

(** The number of processors other than the boot processor below [c]: the
    pages of [l0] that have been handed out. *)
Definition rank (c : nat) : nat := if decide (c <= bsp)%nat then c else (c - 1)%nat.

(** The page of processor [c]. *)
Definition stack_page (c : nat) : Z := default 0 (l0 !! rank c).

Definition cur (pc : bsp_pc) : nat :=
  match pc with
  | BspCopy => 0
  | BspFor c | BspAlloc c | BspStack c _ | BspEntry c | BspPgdir c | BspStart c | BspWait c => c
  | BspDone => n
  end.

Definition used (pc : bsp_pc) : nat :=
  match pc with
  | BspCopy => 0
  | BspFor c | BspAlloc c => rank c
  | BspStack c _ | BspEntry c | BspPgdir c | BspStart c | BspWait c => S (rank c)
  | BspDone => rank n
  end.

Definition pc_ok (pc : bsp_pc) : Prop :=
  match pc with
  | BspCopy | BspDone => True
  | BspFor c => (c <= n)%nat
  | BspStack c st => (c < n)%nat /\ c <> bsp /\ st = stack_page c
  | BspAlloc c | BspEntry c | BspPgdir c | BspStart c | BspWait c => (c < n)%nat /\ c <> bsp
  end.

(** The words in front of the code. *)
Definition words_ok (m : mem) (pc : bsp_pc) : Prop :=
  let st c := ld32 m (CODE - 4) = u32 (stack_page c + KSTACKSIZE) in
  let en := ld32 m (CODE - 8) = mpenter_addr in
  let pg := ld32 m (CODE - 12) = V2P entrypgdir_addr in
  match pc with
  | BspEntry c => st c
  | BspPgdir c => st c /\ en
  | BspStart c | BspWait c => st c /\ en /\ pg
  | _ => True
  end.

Definition sipi_ok (o : option (Z * Z)) (pc : bsp_pc) : Prop :=
  match pc with
  | BspWait c => exists id, ids !! c = Some id /\ o = Some (id, 28672)
  | _ => forall id a, o = Some (id, a) -> exists j, (j < cur pc)%nat /\ j <> bsp /\ ids !! j = Some id
  end.

(** What holds of a processor at each point of its program. *)
Record ap_ok (s : startup) (j : nat) : Prop := ApOk {
  ao_lost : a_pc (ap_at s j) <> ApLost;
  ao_start : forall x, a_pc (ap_at s j) = ApReal x \/ a_pc (ap_at s j) = ApPaged x \/ a_pc (ap_at s j) = ApStacked x -> x = 28672;
  ao_started : started (cpu_at s j) = if stage (a_pc (ap_at s j)) =? 9 then 1 else 0;
  ao_entry : 2 <= stage (a_pc (ap_at s j)) < 5 -> cr3 (desc_at s j) = V2P entrypgdir_addr;
  ao_kernel : 5 <= stage (a_pc (ap_at s j)) -> cr3 (desc_at s j) = V2P kpg;
  ao_esp : 3 <= stage (a_pc (ap_at s j)) -> a_esp (ap_at s j) = u32 (stack_page j + KSTACKSIZE);
  ao_gdt : 6 <= stage (a_pc (ap_at s j)) -> gdtr (desc_at s j) = (cpu_gdt j, 47);
  ao_idt : 8 <= stage (a_pc (ap_at s j)) -> idt_at s j = true;
}.

(** Processors before the current one run, those behind it are halted. *)
Definition in_order (pc : bsp_pc) (j : nat) (p : ap_pc) : Prop :=
  ((j < cur pc)%nat -> p = ApScheduler) /\ ((cur pc <= j)%nat -> pc <> BspWait j -> p = ApHalt).

Record inv (s : startup) : Prop := Inv {
  iv_ids : apicid <$> cpus (v_mach (s_vm s)) = ids;
  iv_aps_len : length (s_aps s) = n;
  iv_apics_len : length (s_apics s) = n;
  iv_idt_len : length (s_idt s) = n;
  iv_desc_len : length (v_desc (s_vm s)) = n;
  iv_kpg : v_kpgdir (s_vm s) = kpg;
  iv_free : kinv kend (v_kmem (s_vm s)) (drop (used (s_bsp s)) l0);
  iv_pc : pc_ok (s_bsp s);
  iv_words : words_ok (vmem (s_vm s)) (s_bsp s);
  iv_sipi : sipi_ok (sipi bsp s) (s_bsp s);
  iv_ap : forall j, (j < n)%nat -> j <> bsp -> ap_ok s j /\ in_order (s_bsp s) j (a_pc (ap_at s j));
}.

(** The layout and the machine. *)
Record layout : Prop := Layout {
  ly_nodup : NoDup ids;
  ly_ids : Forall (fun id => 0 <= id < 256) ids;
  ly_bsp : (bsp < n)%nat;
  ly_pages : (n <= length l0)%nat;
  ly_kend : kend <= KERNBASE + PHYSTOP;
  ly_code : CODE + Z.of_nat (length entryother) <= kend;
  ly_mpenter : 0 <= mpenter_addr < 4294967296;
  ly_delivers : delivers icrlo_at polls;
}.

Context (HL : layout).

(** ** Progress *)

(** The steps that are left. *)
Definition mu (s : startup) : Z :=
  let left c k := 20 * (Z.of_nat n - Z.of_nat c) + k in
  match s_bsp s with
  | BspCopy => left O 20
  | BspFor c => left c 19
  | BspAlloc c => left c 18
  | BspStack c _ => left c 17
  | BspEntry c => left c 16
  | BspPgdir c => left c 15
  | BspStart c => left c 14
  | BspWait c => left c (10 - stage (a_pc (ap_at s c)))
  | BspDone => 0
  end.

(** The processor whose turn it is. *)
Definition who (s : startup) : nat :=
  match s_bsp s with
  | BspWait c => if stage (a_pc (ap_at s c)) <? 9 then c else bsp
  | _ => bsp
  end.

(** A step keeps the invariant and either comes closer to the end or leaves every
    processor where it is. *)
Record advance (s s' : startup) (i : nat) : Prop := Advance {
  ad_inv : inv s';
  ad_move : mu s' < mu s \/ (s_bsp s' = s_bsp s /\ forall j, a_pc (ap_at s' j) = a_pc (ap_at s j));
  ad_turn : i = who s -> s_bsp s <> BspDone -> mu s' < mu s;
}.

Lemma wp_svm {A} (m : M vst A) (Q : A -> startup -> Prop) s : wp m (fun a v => Q a (upd_vm (fun _ => v) s)) (s_vm s) -> wp (zoom svm m) Q s.
Proof. unfold wp, zoom. cbn [Prelude.view svm]. by destruct (m (s_vm s)) as [[] ?]. Qed.

Lemma stage_range p : -1 <= stage p <= 9.
Proof. destruct p; simpl; lia. Qed.

(** The state in which processor [i] runs. *)
Definition as_cpu (i : nat) (s : startup) : startup := upd_vm (upd_mach (run_as (apicid (cpu_at s i)))) s.

Definition frame (s s' : startup) : Prop :=
  s_aps s' = s_aps s /\ s_idt s' = s_idt s /\ v_desc (s_vm s') = v_desc (s_vm s) /\
  cpus (v_mach (s_vm s')) = cpus (v_mach (s_vm s)) /\ v_kpgdir (s_vm s') = v_kpgdir (s_vm s).

Lemma ap_ok_frame s s' j : frame s s' -> ap_ok s j -> ap_ok s' j.
Proof.
  intros (E1 & E2 & E3 & E4 & E5). assert (ap_at s' j = ap_at s j) as K1 by (unfold ap_at; by rewrite E1). assert (cpu_at s' j = cpu_at s j) as K2 by (unfold cpu_at; by rewrite E4).
  assert (desc_at s' j = desc_at s j) as K3 by (unfold desc_at; by rewrite E3). assert (idt_at s' j = idt_at s j) as K4 by (unfold idt_at; by rewrite E2).
  intros []. by split; rewrite ?K1, ?K2, ?K3, ?K4.
Qed.

Lemma sipi_same s s' : s_apics s' !! bsp = s_apics s !! bsp -> sipi bsp s' = sipi bsp s.
Proof. intros E. unfold sipi, apic_at. rewrite E. done. Qed.

(** Steps of the boot processor. *)
Lemma inv_bsp s s' : inv s -> frame s s' -> length (s_apics s') = n ->
  kinv kend (v_kmem (s_vm s')) (drop (used (s_bsp s')) l0) -> pc_ok (s_bsp s') -> words_ok (vmem (s_vm s')) (s_bsp s') ->
  sipi_ok (sipi bsp s') (s_bsp s') ->
  (forall j, (j < n)%nat -> j <> bsp -> in_order (s_bsp s) j (a_pc (ap_at s j)) -> in_order (s_bsp s') j (a_pc (ap_at s j))) -> inv s'.
Proof.
  intros HI HF H1 H2 H3 H4 H5 H6. pose proof HF as (E1 & E2 & E3 & E4 & E5). destruct HI. split; try done; try congruence.
  intros j Hj Hb. destruct (iv_ap0 j Hj Hb) as [K1 K2]. split; [by eapply ap_ok_frame|]. replace (ap_at s' j) with (ap_at s j) by (unfold ap_at; by rewrite E1). by apply H6.
Qed.

Lemma cpu_in s i : inv s -> (i < n)%nat -> exists c, cpus (v_mach (s_vm s)) !! i = Some c /\ cpu_at s i = c /\ ids !! i = Some (apicid c).
Proof.
  intros HI Hi. destruct (cpus (v_mach (s_vm s)) !! i) as [c|] eqn:E.
  - exists c. split; [done|]. split; [unfold cpu_at; by rewrite E|]. rewrite <- (iv_ids _ HI), list_lookup_fmap, E. done.
  - apply lookup_ge_None in E. rewrite <- (iv_ids _ HI), length_fmap in Hi. lia.
Qed.

Lemma wp_vmycpu s i (Q : nat -> vst -> Prop) : inv s -> (i < n)%nat ->
  Q i (upd_mach (fun _ => run_as (apicid (cpu_at s i)) (v_mach (s_vm s))) (s_vm (as_cpu i s))) -> wp vmycpu Q (s_vm (as_cpu i s)).
Proof.
  intros HI Hi HQ. destruct (cpu_in s i HI Hi) as (c & Hc & Ec & _). rewrite Ec in HQ. unfold as_cpu, vmycpu, wp, zoom. rewrite Ec. cbn [Prelude.view mach_lens v_mach s_vm upd_vm upd_mach].
  rewrite (mycpu_as _ i c); [exact HQ| |done]. rewrite (iv_ids _ HI). apply HL.
Qed.

(** Memory below the end of the kernel is written. *)
Lemma free_kept s m' l : kinv kend (v_kmem (s_vm s)) l -> (forall a, kend <= a -> ld8 m' a = ld8 (vmem (s_vm s)) a) ->
  kinv kend (set_pmem (fun _ => m') (v_kmem (s_vm s))) l.
Proof. apply kinv_above. Qed.

Lemma code_below a : CODE - 12 <= a < CODE -> a < kend.
Proof. pose proof (ly_code HL). lia. Qed.

Definition bsp_turn (s : startup) : Prop :=
  wp (startothers_step mpenter_addr entrypgdir_addr entryother bsp (s_bsp s)) (fun pc s' => advance s (set_bsp pc s') bsp) (as_cpu bsp s).

Lemma sipi_idle o pc : (forall c, pc <> BspWait c) ->
  sipi_ok o pc <-> forall id a, o = Some (id, a) -> exists j, (j < cur pc)%nat /\ j <> bsp /\ ids !! j = Some id.
Proof. intros H. destruct pc; try done. by edestruct H. Qed.

(** Steps that change memory only: [pc] is the new place, [m'] the new memory. *)
Lemma bsp_writes s pc m' : inv s -> (forall a, kend <= a -> ld8 m' a = ld8 (vmem (s_vm s)) a) -> used pc = used (s_bsp s) -> cur pc = cur (s_bsp s) ->
  pc_ok pc -> words_ok m' pc -> (forall c, pc <> BspWait c) -> (forall c, s_bsp s <> BspWait c) ->
  inv (set_bsp pc (upd_vm (fun _ => upd_kmem (set_pmem (fun _ => m')) (s_vm (as_cpu bsp s))) (as_cpu bsp s))).
Proof.
  intros HI Hm Hu Hc Hp Hw N1 N2. eapply (inv_bsp s); try done.
  - apply HI.
  - cbn [s_vm set_bsp upd_vm v_kmem upd_kmem as_cpu upd_mach s_bsp]. rewrite Hu. apply free_kept; [apply HI|done].
  - cbn [s_bsp set_bsp]. rewrite (sipi_same s) by done. apply sipi_idle; [done|]. rewrite Hc. apply sipi_idle; [done|apply HI].
  - intros j Hj Hb [K1 K2]. cbn [s_bsp set_bsp]. split; rewrite Hc; [done|]. intros Hle _. apply K2; [done|apply N2].
Qed.

Ltac bsp_start E := unfold bsp_turn; rewrite E; cbn [startothers_step].

(** The parts of [advance] for a step of the boot processor that moves. *)
Lemma advance_moved s s' i : inv s' -> mu s' < mu s -> advance s s' i.
Proof. intros H1 H2. split; [done|by left|done]. Qed.

Ltac mu_less E := unfold mu; rewrite E; cbn [s_bsp set_bsp]; lia.

Lemma code_at : CODE = 2147512320.
Proof. done. Qed.

Lemma turn_copy s : inv s -> s_bsp s = BspCopy -> bsp_turn s.
Proof.
  intros HI E. bsp_start E. apply wp_bind, wp_svm. unfold copy_in. wp_steps. apply advance_moved; [|mu_less E].
  apply (bsp_writes s (BspFor 0)); try done; rewrite ?E; try done; [|simpl; lia].
  intros a Ha. pose proof (ly_code HL). pose proof (ly_kend HL). unfold KERNBASE, PHYSTOP in *. rewrite code_at in *. rewrite ld8_st_bytes by lia. by rewrite decide_False by lia.
Qed.

Lemma turn_stack s c st : inv s -> s_bsp s = BspStack c st -> bsp_turn s.
Proof.
  intros HI E. pose proof (iv_pc _ HI) as Hp. rewrite E in Hp. destruct Hp as (Hc & Hb & ->). bsp_start E. apply wp_bind, wp_svm. unfold store. wp_steps. apply advance_moved; [|mu_less E].
  apply (bsp_writes s (BspEntry c)); try done; rewrite ?E; try done.
  - intros a Ha. pose proof (code_below a). apply ld8_st32_ne. rewrite code_at in *. lia.
  - unfold words_ok. apply ld32_st32_eq, u32_range.
Qed.

Lemma turn_entry s c : inv s -> s_bsp s = BspEntry c -> bsp_turn s.
Proof.
  intros HI E. pose proof (iv_pc _ HI) as Hp. pose proof (iv_words _ HI) as Hw. rewrite E in Hp, Hw. bsp_start E. apply wp_bind, wp_svm. unfold store. wp_steps. apply advance_moved; [|mu_less E].
  apply (bsp_writes s (BspPgdir c)); try done; rewrite ?E; try done.
  - intros a Ha. pose proof (code_below a). apply ld8_st32_ne. rewrite code_at in *. lia.
  - unfold words_ok in *. split; [rewrite ld32_st32_ne by lia; exact Hw|apply ld32_st32_eq, HL].
Qed.

Lemma turn_pgdir s c : inv s -> s_bsp s = BspPgdir c -> bsp_turn s.
Proof.
  intros HI E. pose proof (iv_pc _ HI) as Hp. pose proof (iv_words _ HI) as Hw. rewrite E in Hp, Hw. bsp_start E. apply wp_bind, wp_svm. unfold store. wp_steps. apply advance_moved; [|mu_less E].
  apply (bsp_writes s (BspStart c)); try done; rewrite ?E; try done.
  - intros a Ha. pose proof (code_below a). apply ld8_st32_ne. rewrite code_at in *. lia.
  - unfold words_ok in *. destruct Hw as [H1 H2]. rewrite !(ld32_st32_ne _ (CODE - 12)) by lia. split; [exact H1|split; [exact H2|]]. apply ld32_st32_eq, u32_range.
Qed.

(** A step that only moves to [pc]; memory, the APIC and the processors stay. *)
Lemma bsp_moves s s' pc : inv s -> frame s s' -> s_apics s' = s_apics s -> v_kmem (s_vm s') = v_kmem (s_vm s) -> used pc = used (s_bsp s) ->
  pc_ok pc -> words_ok (vmem (s_vm s)) pc -> (forall c, pc <> BspWait c) -> sipi_ok (sipi bsp s) pc ->
  (forall j, (j < n)%nat -> j <> bsp -> in_order (s_bsp s) j (a_pc (ap_at s j)) -> in_order pc j (a_pc (ap_at s j))) -> inv (set_bsp pc s').
Proof.
  intros HI HF Ha Hk Hu Hp Hw N Hs Ho. eapply (inv_bsp s); try done.
  - cbn [s_apics set_bsp]. rewrite Ha. apply HI.
  - cbn [s_vm set_bsp s_bsp]. rewrite Hk, Hu. apply HI.
  - cbn [s_vm set_bsp s_bsp]. unfold vmem. by rewrite Hk.
  - cbn [s_bsp set_bsp]. rewrite (sipi_same s) by (cbn [s_apics set_bsp]; by rewrite Ha). done.
Qed.

Lemma rank_next c : c <> bsp -> rank (S c) = S (rank c).
Proof. intros H. unfold rank. repeat case_decide; lia. Qed.

Lemma rank_bsp : rank (S bsp) = rank bsp.
Proof. unfold rank. repeat case_decide; lia. Qed.

Lemma rank_below c : (c < n)%nat -> c <> bsp -> (rank c < length l0)%nat.
Proof. intros Hc Hb. pose proof (ly_pages HL). unfold rank. case_decide; lia. Qed.

Lemma turn_for s c : inv s -> s_bsp s = BspFor c -> bsp_turn s.
Proof.
  intros HI E. pose proof (iv_pc _ HI) as Hp. pose proof (iv_sipi _ HI) as Hs. rewrite E in Hp, Hs. simpl in Hp. cbn [sipi_ok cur] in Hs.
  assert (ncpus (as_cpu bsp s) = n) as En by (unfold ncpus, as_cpu; cbn; rewrite <- (iv_ids _ HI), length_fmap; done).
  bsp_start E. apply wp_bind, wp_gets. rewrite En. case_decide as Hc.
  - apply wp_bind, wp_svm, (wp_vmycpu s bsp); [done|apply HL|]. case_decide as Hb; wp_steps; (apply advance_moved; [|mu_less E]); (apply (bsp_moves s); try done; rewrite ?E; cbn [used cur pc_ok sipi_ok]; try done).
    + subst. apply rank_bsp.
    + intros id a H. destruct (Hs id a H) as (j & Hj & K). exists j. split; [lia|done].
    + intros j Hj Hjb [K1 K2]. cbn [cur] in *. split; intros; cbn [cur] in *; [apply K1; lia|apply K2; [lia|done]].
    + intros j Hj Hjb [K1 K2]. split; intros; cbn [cur] in *; [by apply K1|by apply K2].
  - wp_steps. apply advance_moved; [|mu_less E]. assert (c = n) as -> by lia. apply (bsp_moves s); try done; rewrite ?E; try done.
    intros j Hj Hjb [K1 K2]. split; intros; cbn [cur] in *; [by apply K1|by apply K2].
Qed.

Lemma turn_alloc s c : inv s -> s_bsp s = BspAlloc c -> bsp_turn s.
Proof.
  intros HI E. pose proof (iv_pc _ HI) as Hp. pose proof (iv_free _ HI) as Hf. pose proof (iv_sipi _ HI) as Hs. rewrite E in Hp, Hf, Hs. destruct Hp as [Hc Hb]. cbn [used] in Hf.
  pose proof (rank_below c Hc Hb) as Hr. destruct (lookup_lt_is_Some_2 l0 (rank c) Hr) as [p Hl]. rewrite (drop_S _ p _ Hl) in Hf. destruct (kalloc_inv _ _ _ _ Hf) as (k' & Hk & Hf' & Hm & _).
  bsp_start E. apply wp_bind, wp_svm. eapply wp_eq; [apply zoom_kmem; exact Hk|]. wp_steps. apply advance_moved; [|mu_less E]. eapply (inv_bsp s); try done.
  - apply HI.
  - cbn [pc_ok s_bsp set_bsp]. split; [done|]. split; [done|]. unfold stack_page. by rewrite Hl.
  - rewrite E. intros j Hj Hjb [K1 K2]. split; intros; cbn [cur s_bsp set_bsp] in *; [by apply K1|by apply K2].
Qed.

Lemma startup_ipi id : 0 <= id < 256 -> Z.shiftr (u32 (Z.shiftl id 24)) 24 = id.
Proof.
  intros H. rewrite Z.shiftl_mul_pow2 by lia. change (2 ^ 24) with 16777216. rewrite u32_small by lia. rewrite Z.shiftr_div_pow2 by lia. change (2 ^ 24) with 16777216. apply Z.div_mul. lia.
Qed.

Lemma turn_start s c : inv s -> s_bsp s = BspStart c -> bsp_turn s.
Proof.
  intros HI E. pose proof (iv_pc _ HI) as Hp. pose proof (iv_words _ HI) as Hw. rewrite E in Hp, Hw. destruct Hp as [Hc Hb]. bsp_start E. apply wp_bind, wp_gets, wp_bind.
  change (cpu_at (as_cpu bsp s) c) with (cpu_at s c). destruct (cpu_in s c HI Hc) as (x & Hx & -> & Hid). pose proof (Forall_lookup_1 _ _ _ _ (ly_ids HL) Hid) as Hr. cbv beta in Hr.
  destruct (lapicstartap_run (apicid x) (V2P CODE) (apic_at (as_cpu bsp s) bsp)) as (a' & H1 & H2 & H3 & H4). change (low (apic_at (as_cpu bsp s) bsp)) with (vmem (s_vm s)) in H4.
  eapply wp_eq; [unfold zoom; cbn [Prelude.view apicl]; by rewrite H1|]. wp_steps. pose proof (ly_code HL) as Hcode. rewrite code_at in Hcode.
  apply advance_moved; [eapply (inv_bsp s); try done|].
  - cbn. rewrite length_insert. apply HI.
  - pose proof (iv_free _ HI) as Hf. rewrite E in Hf. apply free_kept; [exact Hf|]. intros a Ha. apply H4. lia.
  - destruct Hw as (W1 & W2 & W3). unfold words_ok. cbv zeta. cbn [s_bsp set_bsp]. rewrite <- W1, <- W2, <- W3. rewrite code_at. repeat split; apply ld32_ext; intros b Hb'; apply H4; lia.
  - exists (apicid x). split; [done|]. unfold sipi, apic_at. cbn [s_apics set_bsp Prelude.set apicl over put_apic upd_vm upd_apics as_cpu]. rewrite list_lookup_insert_eq by (rewrite (iv_apics_len _ HI); apply HL).
    cbn [default from_option id lregs set_low]. rewrite H2, H3. cbn [default from_option id]. by rewrite startup_ipi by done.
  - rewrite E. intros j Hj Hjb [K1 K2]. split; intros; cbn [cur s_bsp set_bsp] in *; [by apply K1|by apply K2].
  - destruct (iv_ap _ HI c Hc Hb) as [_ [_ K2]]. rewrite E in K2. cbn [cur] in K2. unfold mu. rewrite E. cbn [s_bsp set_bsp].
    change (ap_at (set_bsp (BspWait c) _) c) with (ap_at s c). rewrite K2 by done. cbn [stage]. lia.
Qed.

Lemma turn_wait s c : inv s -> s_bsp s = BspWait c -> bsp_turn s.
Proof.
  intros HI E. pose proof (iv_pc _ HI) as Hp. pose proof (iv_sipi _ HI) as Hs. rewrite E in Hp, Hs. destruct Hp as [Hc Hb]. destruct Hs as (id & Hid & Hsi). destruct (iv_ap _ HI c Hc Hb) as [Ha _].
  pose proof (stage_range (a_pc (ap_at s c))) as Hr. pose proof (iv_words _ HI) as Hw. rewrite E in Hw.
  bsp_start E. apply wp_bind, wp_gets. change (cpu_at (as_cpu bsp s) c) with (cpu_at s c). rewrite (ao_started _ _ Ha). wp_steps. destruct (stage (a_pc (ap_at s c)) =? 9) eqn:E9; bool_to_prop; cbv iota.
  - change (1 =? 0) with false. cbv iota. assert (a_pc (ap_at s c) = ApScheduler) as Ep by (destruct (a_pc (ap_at s c)); done). apply advance_moved; [|mu_less E].
    apply (bsp_moves s); try done; rewrite ?E; cbn [used pc_ok]; try done.
    + by apply rank_next.
    + intros id' a H. rewrite Hsi in H. injection H as <- <-. exists c. cbn [cur]. split; [lia|done].
    + intros j Hj Hjb [K1 K2]. split; intros; cbn [cur] in *; [destruct (decide (j = c)) as [->|]; [done|apply K1; lia]|apply K2; [lia|intros [= ?]; lia]].
  - change (0 =? 0) with true. cbv iota. split; [|by right|].
    + eapply (inv_bsp s); try done; cbn [s_bsp set_bsp]; rewrite ?E; try done.
      * apply HI.
      * pose proof (iv_free _ HI) as Hf. by rewrite E in Hf.
      * rewrite (sipi_same s) by done. by exists id.
    + unfold who. rewrite E. intros Hw'. exfalso. destruct (_ <? 9) eqn:B; bool_to_prop; [congruence|lia].
Qed.

Lemma turn_done s : inv s -> s_bsp s = BspDone -> bsp_turn s.
Proof.
  intros HI E. bsp_start E. wp_steps. split; [|by right|done]. eapply (inv_bsp s); try done; cbn [s_bsp set_bsp]; rewrite <- ?E; try done; try apply HI.
Qed.

Lemma bsp_advances s : inv s -> bsp_turn s.
Proof. destruct (s_bsp s) eqn:E; eauto using turn_copy, turn_for, turn_alloc, turn_stack, turn_entry, turn_pgdir, turn_start, turn_wait, turn_done. Qed.

(** ** Steps of the other processors *)
Definition others (s s' : startup) (i : nat) : Prop :=
  forall j, j <> i -> ap_at s' j = ap_at s j /\ cpu_at s' j = cpu_at s j /\ desc_at s' j = desc_at s j /\ idt_at s' j = idt_at s j.

(** What a step of processor [i] keeps. *)
Record ap_frame (s s' : startup) (i : nat) : Prop := ApFrame {
  af_kmem : v_kmem (s_vm s') = v_kmem (s_vm s);
  af_apic : s_apics s' !! bsp = s_apics s !! bsp;
  af_apics : length (s_apics s') = length (s_apics s);
  af_bsp : s_bsp s' = s_bsp s;
  af_kpg : v_kpgdir (s_vm s') = v_kpgdir (s_vm s);
  af_ids : apicid <$> cpus (v_mach (s_vm s')) = apicid <$> cpus (v_mach (s_vm s));
  af_aps : length (s_aps s') = length (s_aps s);
  af_idt : length (s_idt s') = length (s_idt s);
  af_desc : length (v_desc (s_vm s')) = length (v_desc (s_vm s));
  af_others : others s s' i;
}.

Lemma inv_ap s s' i : inv s -> ap_frame s s' i -> ap_ok s' i -> in_order (s_bsp s) i (a_pc (ap_at s' i)) -> inv s'.
Proof.
  intros HI HF Ha Ho. destruct HF. destruct HI. split; rewrite ?af_bsp0, ?(sipi_same s) by done; unfold vmem in *; rewrite ?af_kmem0; try congruence.
  intros j Hj Hb. destruct (decide (j = i)) as [->|Hne]; [by split|]. destruct (af_others0 j Hne) as (E1 & E2 & E3 & E4). destruct (iv_ap0 j Hj Hb) as [[] K]. rewrite E1. split; [|done].
  by split; rewrite ?E1, ?E2, ?E3, ?E4.
Qed.

Lemma ap_busy s i : inv s -> (i < n)%nat -> i <> bsp -> 0 < stage (a_pc (ap_at s i)) < 9 -> s_bsp s = BspWait i.
Proof.
  intros HI Hi Hb Hs. destruct (iv_ap _ HI i Hi Hb) as [_ [K1 K2]]. destruct (decide (s_bsp s = BspWait i)) as [|N]; [done|]. exfalso.
  destruct (decide (i < cur (s_bsp s))%nat); [rewrite K1 in Hs by done|rewrite K2 in Hs by (done || lia)]; simpl in Hs; lia.
Qed.

(** A step that moves the processor the boot processor waits for. *)
Lemma ap_moved s s' i : inv s -> s_bsp s = BspWait i -> ap_frame s s' i -> ap_ok s' i -> stage (a_pc (ap_at s i)) < stage (a_pc (ap_at s' i)) -> advance s s' i.
Proof.
  intros HI E HF Ha Hs. apply advance_moved.
  - eapply inv_ap; [done|done|done|]. rewrite E. split; simpl; [lia|done].
  - unfold mu. rewrite (af_bsp _ _ _ HF), E. lia.
Qed.

(** A step that stays. *)
Lemma ap_stays s s' i : inv s -> i <> bsp -> ap_frame s s' i -> ap_ok s' i -> a_pc (ap_at s' i) = a_pc (ap_at s i) -> in_order (s_bsp s) i (a_pc (ap_at s i)) ->
  ~ (0 < stage (a_pc (ap_at s i)) < 9) -> (s_bsp s = BspWait i -> stage (a_pc (ap_at s i)) <> 0) -> advance s s' i.
Proof.
  intros HI Hb HF Ha E Ho Hs Hw. split.
  - eapply inv_ap; [done|done|done|]. by rewrite E.
  - right. split; [apply HF|]. intros j. destruct (decide (j = i)) as [->|Hne]; [done|]. by destruct (af_others _ _ _ HF j Hne) as (-> & _).
  - intros Hi Hd. exfalso. unfold who in Hi. destruct (s_bsp s) as [| | | | | | |c|]; try congruence. destruct (_ <? 9) eqn:B; bool_to_prop; [subst c|congruence].
    pose proof (stage_range (a_pc (ap_at s i))). specialize (Hw eq_refl). pose proof (ao_lost _ _ Ha) as N. rewrite E in N. destruct (a_pc (ap_at s i)); simpl in *; try lia; try done.
Qed.

Definition ap_turn (s : startup) (i : nat) : Prop :=
  wp (ap_step cpu_gdt mpenter_addr bsp icrlo_at polls i (a_pc (ap_at s i))) (fun pc s' => advance s (upd_aps (alter (set_a_pc pc) i) s') i) (as_cpu i s).

Lemma ap_at_alter s f i : (i < length (s_aps s))%nat -> ap_at (upd_aps (alter f i) s) i = f (ap_at s i).
Proof. intros H. unfold ap_at. cbn [s_aps upd_aps]. rewrite list_lookup_alter_eq. destruct (s_aps s !! i) eqn:E; [done|]. apply lookup_ge_None in E. lia. Qed.

Lemma ap_at_other s f i j : j <> i -> ap_at (upd_aps (alter f i) s) j = ap_at s j.
Proof. intros H. unfold ap_at. cbn [s_aps upd_aps]. by rewrite list_lookup_alter_ne. Qed.

(** A frame: only the place and the stack of processor [i] change. *)
Lemma frame_aps s f i : ap_frame s (upd_aps (alter f i) (as_cpu i s)) i.
Proof.
  split; try done.
  - cbn [s_aps upd_aps]. by rewrite length_alter.
  - intros j Hj. split; [|done]. by rewrite ap_at_other.
Qed.

Lemma frame_trans s s1 s2 i : ap_frame s s1 i -> ap_frame s1 s2 i -> ap_frame s s2 i.
Proof.
  intros [] []. split; try congruence. intros j Hj. destruct (af_others0 j Hj) as (E1 & E2 & E3 & E4). destruct (af_others1 j Hj) as (K1 & K2 & K3 & K4).
  repeat split; congruence.
Qed.

Lemma frame_pc s f i : ap_frame s (upd_aps (alter f i) s) i.
Proof.
  split; try done.
  - cbn [s_aps upd_aps]. by rewrite length_alter.
  - intros j Hj. split; [|done]. by rewrite ap_at_other.
Qed.

Lemma frame_as s i : ap_frame s (as_cpu i s) i.
Proof. by split. Qed.

Lemma frame_desc s f i : ap_frame s (upd_vm (upd_desc (alter f i)) s) i.
Proof.
  split; try done.
  - cbn. by rewrite length_alter.
  - intros j Hj. repeat split; try done. unfold desc_at. cbn. by rewrite list_lookup_alter_ne.
Qed.

Lemma frame_idt s i : ap_frame s (upd_idts (<[i := true]>) s) i.
Proof.
  split; try done.
  - cbn. by rewrite length_insert.
  - intros j Hj. repeat split; try done. unfold idt_at. cbn. by rewrite list_lookup_insert_ne.
Qed.

Lemma desc_at_alter s f i : (i < length (v_desc (s_vm s)))%nat -> desc_at (upd_vm (upd_desc (alter f i)) s) i = f (desc_at s i).
Proof. intros H. unfold desc_at. cbn. rewrite list_lookup_alter_eq. destruct (v_desc (s_vm s) !! i) eqn:E; [done|]. apply lookup_ge_None in E. lia. Qed.

Section Turn.
Context (s : startup) (i : nat) (HI : inv s) (Hi : (i < n)%nat) (Hb : i <> bsp).

Lemma ap_okay : ap_ok s i.
Proof. by apply HI. Qed.

Lemma phys_words c : s_bsp s = BspWait c ->
  ld32 (vmem (s_vm s)) (P2V (28672 - 12)) = V2P entrypgdir_addr /\ ld32 (vmem (s_vm s)) (P2V (28672 - 4)) = u32 (stack_page c + KSTACKSIZE) /\
  ld32 (vmem (s_vm s)) (P2V (28672 - 8)) = mpenter_addr.
Proof. intros E. pose proof (iv_words _ HI) as W. rewrite E in W. destruct W as (W1 & W2 & W3). split; [exact W3|]. split; [exact W1|exact W2]. Qed.

Definition goes (s1 : startup) (pc : ap_pc) : startup := upd_aps (alter (set_a_pc pc) i) s1.

Lemma goes_frame s1 pc : ap_frame s s1 i -> ap_frame s (goes s1 pc) i.
Proof. intros H. eapply frame_trans; [exact H|apply frame_pc]. Qed.

Lemma goes_at s1 pc : ap_frame s s1 i -> ap_at (goes s1 pc) i = set_a_pc pc (ap_at s1 i).
Proof. intros H. apply ap_at_alter. rewrite (af_aps _ _ _ H), (iv_aps_len _ HI). done. Qed.

(** The processor moves on to [pc]. *)
Lemma ap_to s1 pc : s_bsp s = BspWait i -> ap_frame s s1 i -> stage (a_pc (ap_at s i)) < stage pc ->
  (forall x, pc = ApReal x \/ pc = ApPaged x \/ pc = ApStacked x -> x = 28672) -> started (cpu_at s1 i) = (if stage pc =? 9 then 1 else 0) ->
  (2 <= stage pc < 5 -> cr3 (desc_at s1 i) = V2P entrypgdir_addr) -> (5 <= stage pc -> cr3 (desc_at s1 i) = V2P kpg) ->
  (3 <= stage pc -> a_esp (ap_at s1 i) = u32 (stack_page i + KSTACKSIZE)) -> (6 <= stage pc -> gdtr (desc_at s1 i) = (cpu_gdt i, 47)) ->
  (8 <= stage pc -> idt_at s1 i = true) -> advance s (goes s1 pc) i.
Proof.
  intros E HF Hs H1 H2 H3 H4 H5 H6 H7. pose proof (goes_at s1 pc HF) as Ea. apply ap_moved; [done|done|by apply goes_frame| |by rewrite Ea].
  split; rewrite ?Ea; cbn [a_pc a_esp set_a_pc]; try done. intros ->. pose proof (stage_range (a_pc (ap_at s i))). simpl in *. lia.
Qed.

Lemma not_started : stage (a_pc (ap_at s i)) <> 9 -> started (cpu_at s i) = 0.
Proof. intros H. rewrite (ao_started _ _ ap_okay). destruct (_ =? 9) eqn:E; bool_to_prop; done. Qed.

(** A halted or running processor that does not move. *)
Lemma ap_idle : ~ (0 < stage (a_pc (ap_at s i)) < 9) -> (s_bsp s = BspWait i -> stage (a_pc (ap_at s i)) <> 0) -> advance s (goes (as_cpu i s) (a_pc (ap_at s i))) i.
Proof.
  intros H1 H2. pose proof (goes_at _ (a_pc (ap_at s i)) (frame_as s i)) as Ea. destruct (iv_ap _ HI i Hi Hb) as [[] Ho].
  apply ap_stays; [done|done|apply goes_frame, frame_as| |by rewrite Ea|done|done|done]. split; rewrite ?Ea; done.
Qed.

(** A start-up interrupt for a halted processor was sent for it. *)
Lemma sipi_mine id addr : a_pc (ap_at s i) = ApHalt -> ids !! i = Some id -> sipi bsp s = Some (id, addr) -> s_bsp s = BspWait i /\ addr = 28672.
Proof.
  intros E Hid Es. destruct (iv_ap _ HI i Hi Hb) as [_ [O1 _]]. pose proof (iv_sipi _ HI) as Hs.
  assert (forall j, ids !! j = Some id -> j = i) as Huniq by (intros j Hj; eapply NoDup_lookup; [apply HL|exact Hj|exact Hid]).
  assert ((exists j, (j < cur (s_bsp s))%nat /\ j <> bsp /\ ids !! j = Some id) -> False) as K.
  { intros (j & Hj & _ & Hk). rewrite (Huniq j Hk) in Hj. by rewrite O1 in E. }
  destruct (s_bsp s) as [| | | | | | |c|]; cbn [sipi_ok] in Hs; try (exfalso; by eapply K, Hs).
  destruct Hs as (id' & Hc & Hs). rewrite Es in Hs. injection Hs as <- ->. by rewrite (Huniq c Hc).
Qed.

Lemma turn_halt : a_pc (ap_at s i) = ApHalt -> ap_turn s i.
Proof.
  intros E. destruct (cpu_in s i HI Hi) as (c & Hc & Ec & Hid). unfold ap_turn. rewrite E. cbn [ap_step]. wp_steps. rewrite (sipi_same s (as_cpu i s)) by done.
  change (cpu_at (as_cpu i s) i) with (cpu_at s i). rewrite Ec.
  assert ((s_bsp s = BspWait i -> sipi bsp s <> Some (apicid c, 28672)) -> advance s (goes (as_cpu i s) ApHalt) i) as Hstay.
  { intros N. pose proof ap_idle as K. rewrite E in K. apply K; simpl; [lia|]. intros W. exfalso. apply (N W). pose proof (iv_sipi _ HI) as Hs. rewrite W in Hs. destruct Hs as (id & H1 & H2). congruence. }
  destruct (sipi bsp s) as [[id addr]|] eqn:Es; [destruct (id =? apicid c) eqn:B; bool_to_prop|].
  - subst id. destruct (sipi_mine _ _ E Hid Es) as [W ->]. apply ap_to; [done|apply frame_as|rewrite E; simpl; lia| | |simpl; lia..].
    + intros x [[=]|[|]]; done.
    + apply not_started. by rewrite E.
  - apply Hstay. intros _ [= ? ?]. congruence.
  - by apply Hstay.
Qed.

Ltac ap_start E W := assert (s_bsp s = BspWait i) as W by (apply ap_busy; [done|done|done|rewrite E; simpl; lia]); unfold ap_turn; rewrite E; cbn [ap_step].

(** What a step carries over from the state before it. *)
Ltac ap_carry E :=
  first [simpl; lia | rewrite E; simpl; lia | apply not_started; by rewrite E | intros ? [[=]|[[=]|[=]]]; done
    | intros _; first [apply (ao_esp _ _ ap_okay) | apply (ao_entry _ _ ap_okay) | apply (ao_kernel _ _ ap_okay) | apply (ao_gdt _ _ ap_okay) | apply (ao_idt _ _ ap_okay)]; rewrite E; simpl; lia].

Lemma desc_len : (i < length (v_desc (s_vm (as_cpu i s))))%nat.
Proof. pose proof (iv_desc_len _ HI). cbn in *. lia. Qed.

Lemma turn_real x : a_pc (ap_at s i) = ApReal x -> ap_turn s i.
Proof.
  intros E. assert (x = 28672) as -> by (eapply (ao_start _ _ ap_okay); rewrite E; auto). ap_start E W. destruct (phys_words i W) as (W1 & _ & _). unfold phys_word. wp_steps. apply wp_svm. wp_steps.
  change (vmem (s_vm (as_cpu i s))) with (vmem (s_vm s)). rewrite W1. apply (ap_to (upd_vm (upd_desc (alter (set_cr3 _) i)) (as_cpu i s))); [done| |..]; try ap_carry E.
  - eapply frame_trans; [apply frame_as|apply frame_desc].
  - intros _. by rewrite desc_at_alter by apply desc_len.
Qed.

Lemma turn_paged x : a_pc (ap_at s i) = ApPaged x -> ap_turn s i.
Proof.
  intros E. assert (x = 28672) as -> by (eapply (ao_start _ _ ap_okay); rewrite E; auto). ap_start E W. destruct (phys_words i W) as (_ & W1 & _). unfold phys_word, upd_ap. wp_steps.
  change (vmem (s_vm (as_cpu i s))) with (vmem (s_vm s)). rewrite W1. apply (ap_to (upd_aps (alter (set_a_esp _) i) (as_cpu i s))); [done| |..]; try ap_carry E.
  - apply frame_aps.
  - intros _. rewrite ap_at_alter; [done|]. pose proof (iv_aps_len _ HI). cbn in *. lia.
Qed.

Lemma turn_stacked x : a_pc (ap_at s i) = ApStacked x -> ap_turn s i.
Proof.
  intros E. assert (x = 28672) as -> by (eapply (ao_start _ _ ap_okay); rewrite E; auto). ap_start E W. destruct (phys_words i W) as (_ & _ & W1). unfold phys_word. wp_steps.
  change (vmem (s_vm (as_cpu i s))) with (vmem (s_vm s)). rewrite W1, Z.eqb_refl. apply (ap_to (as_cpu i s)); [done| |..]; try ap_carry E.
  - apply frame_as.
Qed.

Lemma turn_switchkvm : a_pc (ap_at s i) = ApSwitchkvm -> ap_turn s i.
Proof.
  intros E. ap_start E W. apply wp_bind, wp_svm. unfold switchkvm, lcr3, mydesc. wp_steps. apply (wp_vmycpu s i); [done|done|]. wp_steps.
  apply (ap_to (upd_vm (upd_desc (alter (set_cr3 _) i)) (as_cpu i s))); [done| |..]; try ap_carry E.
  - eapply frame_trans; [apply frame_as|apply frame_desc].
  - intros _. rewrite desc_at_alter by apply desc_len. cbn [cr3 set_cr3]. by rewrite <- (iv_kpg _ HI).
Qed.

Lemma turn_seginit : a_pc (ap_at s i) = ApSeginit -> ap_turn s i.
Proof.
  intros E. ap_start E W. apply wp_bind, wp_svm. unfold seginit. apply wp_bind, (wp_vmycpu s i); [done|done|]. unfold lgdt. wp_steps.
  apply (ap_to (upd_vm (upd_desc (alter (set_gdtr (cpu_gdt i, 47)) i)) (upd_vm (upd_desc (alter (set_gdt _) i)) (as_cpu i s)))); [done| |..]; try ap_carry E.
  - eapply frame_trans; [eapply frame_trans; [apply frame_as|apply frame_desc]|apply frame_desc].
  - intros _. rewrite desc_at_alter by (cbn; rewrite length_alter; apply desc_len). rewrite desc_at_alter by apply desc_len. apply (ao_kernel _ _ ap_okay). rewrite E. simpl. lia.
  - intros _. by rewrite desc_at_alter by (cbn; rewrite length_alter; apply desc_len).
Qed.

Lemma wp_apicl (m : M apic unit) (Q : unit -> startup -> Prop) s1 : wp m (fun a t => Q a (put_apic i t s1)) (apic_at s1 i) -> wp (zoom (apicl i) m) Q s1.
Proof. unfold wp, zoom. cbn [Prelude.view apicl]. by destruct (m (apic_at s1 i)) as [[] ?]. Qed.

(** The local APIC of [i] changes, memory does not. *)
Lemma frame_apic s1 a : low a = vmem (s_vm s1) -> ap_frame s1 (put_apic i a s1) i.
Proof.
  intros Hl. split; try done; cbn.
  - rewrite Hl. unfold vmem. by destruct (v_kmem (s_vm s1)).
  - by rewrite list_lookup_insert_ne by done.
  - apply length_insert.
Qed.

Lemma turn_lapicinit : a_pc (ap_at s i) = ApLapicinit -> ap_turn s i.
Proof.
  intros E. ap_start E W. apply wp_bind, wp_apicl. eapply wp_mono; [apply lapicinit_run, HL|]. cbv beta. intros _ a Ha. wp_steps.
  apply (ap_to (put_apic i a (as_cpu i s))); [done| |..]; try ap_carry E. eapply frame_trans; [apply frame_as|]. by apply frame_apic.
Qed.

Lemma turn_idtinit : a_pc (ap_at s i) = ApIdtinit -> ap_turn s i.
Proof.
  intros E. ap_start E W. apply wp_bind, wp_svm, (wp_vmycpu s i); [done|done|]. wp_steps.
  apply (ap_to (upd_idts (<[i := true]>) (as_cpu i s))); [done| |..]; try ap_carry E.
  - eapply frame_trans; [apply frame_as|apply frame_idt].
  - intros _. unfold idt_at. cbn. rewrite list_lookup_insert_eq; [done|]. by rewrite (iv_idt_len _ HI).
Qed.

Lemma frame_cpus s1 f : (forall c, apicid (f c) = apicid c) -> ap_frame s1 (upd_vm (upd_mach (set_cpus (alter f i))) s1) i.
Proof.
  intros Hf. split; try done; cbn.
  - apply list_eq. intros k. rewrite !list_lookup_fmap. destruct (decide (k = i)) as [->|]; [rewrite list_lookup_alter_eq|by rewrite list_lookup_alter_ne by done].
    destruct (cpus (v_mach (s_vm s1)) !! i); [|done]. simpl. by rewrite Hf.
  - intros j Hj. repeat split; try done. unfold cpu_at. cbn. by rewrite list_lookup_alter_ne.
Qed.

Lemma turn_started : a_pc (ap_at s i) = ApStarted -> ap_turn s i.
Proof.
  intros E. destruct (cpu_in s i HI Hi) as (c & Hc & Ec & _). ap_start E W. apply wp_bind, wp_svm. unfold as_cpu. rewrite Ec. cbn [s_vm upd_vm]. unfold mycpu_update.
  assert (NoDup (apicid <$> cpus (v_mach (s_vm s)))) as Hn by (rewrite (iv_ids _ HI); apply HL).
  eapply wp_eq; [unfold zoom; cbn [Prelude.view mach_lens v_mach upd_mach]; by rewrite (bind_Ret _ _ _ _ _ (mycpu_as _ i c Hn Hc))|]. wp_steps.
  change (advance s (goes (upd_vm (upd_mach (set_cpus (alter (set_started 1) i))) (upd_vm (upd_mach (run_as (apicid c))) s)) ApScheduler) i). rewrite <- Ec. fold (as_cpu i s).
  apply ap_to; [done| |..]; try ap_carry E.
  - eapply frame_trans; [apply frame_as|by apply frame_cpus].
  - unfold cpu_at. cbn. rewrite list_lookup_alter_eq, Hc. done.
Qed.

Lemma ap_advances : ap_turn s i.
Proof.
  destruct (a_pc (ap_at s i)) eqn:E; eauto using turn_halt, turn_real, turn_paged, turn_stacked, turn_switchkvm, turn_seginit, turn_lapicinit, turn_idtinit, turn_started.
  - by destruct (ao_lost _ _ ap_okay).
  - unfold ap_turn. rewrite E. cbn [ap_step]. wp_steps. pose proof ap_idle as K. rewrite E in K. apply K; simpl; [lia|done].
Qed.
End Turn.

(** Every step of every processor. *)
Lemma cpu_advances s i : inv s -> (i < n)%nat -> wp (cpu_step cpu_gdt mpenter_addr entrypgdir_addr entryother bsp icrlo_at polls i) (fun _ s' => advance s s' i) s.
Proof.
  intros HI Hi. unfold cpu_step. wp_steps. fold (as_cpu i s). case_decide as Hb.
  - subst i. wp_steps. eapply wp_mono; [apply (bsp_advances s HI)|]. intros pc s' H. by wp_steps.
  - wp_steps. eapply wp_mono; [apply (ap_advances s i HI Hi Hb)|]. intros pc s' H. unfold upd_ap. by wp_steps.
Qed.

Abbreviation runs := (schedule cpu_gdt mpenter_addr entrypgdir_addr entryother bsp icrlo_at polls).

Lemma mu_nonneg s : inv s -> 0 <= mu s.
Proof.
  intros HI. pose proof (iv_pc _ HI) as Hp. unfold mu. destruct (s_bsp s); simpl in Hp; try lia. pose proof (stage_range (a_pc (ap_at s c))). lia.
Qed.

(** A whole schedule keeps the invariant and never goes back. *)
Lemma sched_advances l s : inv s -> Forall (fun i => (i < n)%nat) l -> wp (runs l) (fun _ s' => inv s' /\ mu s' <= mu s) s.
Proof.
  revert s. induction l as [|i l IH]; intros s HI Hl; unfold schedule; cbn [for_each]; [wp_steps; split; [done|lia]|]. inversion Hl as [|? ? Hi Hl']; subst.
  apply wp_bind. eapply wp_mono; [by apply cpu_advances|]. intros _ s1 [H1 H2 _]. eapply wp_mono; [by apply (IH s1)|]. intros _ s2 [H3 H4]. split; [done|].
  destruct H2 as [|[E1 E2]]; [lia|]. enough (mu s1 = mu s) by lia. unfold mu. rewrite E1. destruct (s_bsp s); try done. by rewrite E2.
Qed.

Lemma who_same s s' : s_bsp s' = s_bsp s -> (forall j, a_pc (ap_at s' j) = a_pc (ap_at s j)) -> who s' = who s /\ mu s' = mu s.
Proof. intros E1 E2. unfold who, mu. rewrite E1. destruct (s_bsp s); try done. by rewrite E2. Qed.

(** A round in which every processor has a turn comes closer to the end. *)
Lemma round_advances l s : inv s -> Forall (fun i => (i < n)%nat) l -> who s ∈ l -> s_bsp s <> BspDone -> wp (runs l) (fun _ s' => inv s' /\ mu s' < mu s) s.
Proof.
  revert s. induction l as [|i l IH]; intros s HI Hl Hw Hd; [by apply elem_of_nil in Hw|]. unfold schedule. cbn [for_each]. inversion Hl as [|? ? Hi Hl']; subst.
  apply wp_bind. eapply wp_mono; [by apply cpu_advances|]. intros _ s1 [H1 H2 H3].
  destruct (decide (mu s1 < mu s)) as [Hlt|Hge].
  - eapply wp_mono; [by apply (sched_advances l s1)|]. intros _ s2 [H4 H5]. split; [done|lia].
  - destruct H2 as [|[E1 E2]]; [lia|]. destruct (who_same s s1 E1 E2) as [Ew Em]. rewrite <- Em. apply IH; [done|done| |by rewrite E1].
    rewrite Ew. apply elem_of_cons in Hw as [Hw|]; [|done]. exfalso. by specialize (H3 (eq_sym Hw) Hd).
Qed.

(** ** The handshake *)

(** The state in which [main] calls [startothers]. *)
Record ready (s : startup) : Prop := Ready {
  rd_ids : apicid <$> cpus (v_mach (s_vm s)) = ids;
  rd_aps : length (s_aps s) = n;
  rd_apics : length (s_apics s) = n;
  rd_idt : length (s_idt s) = n;
  rd_desc : length (v_desc (s_vm s)) = n;
  rd_kpg : v_kpgdir (s_vm s) = kpg;
  rd_free : kinv kend (v_kmem (s_vm s)) l0;
  rd_bsp : s_bsp s = BspCopy;
  rd_sipi : sipi bsp s = None;
  rd_halt : forall j, (j < n)%nat -> j <> bsp -> a_pc (ap_at s j) = ApHalt /\ started (cpu_at s j) = 0;
}.

Lemma ready_inv s : ready s -> inv s.
Proof.
  intros []. split; try done; rewrite ?rd_bsp0; try done.
  - simpl. intros id a H. congruence.
  - intros j Hj Hb. destruct (rd_halt0 j Hj Hb) as [E1 E2]. split; [|split; cbn [cur]; [lia|done]]. split; rewrite ?E1; try (simpl; lia); try done. by intros x [|[|]].
Qed.

(** A schedule that can be cut into [k] rounds, in each of which every processor
    has a turn. *)
Definition rounds (k : nat) (l : list nat) : Prop :=
  exists rs, l = concat rs /\ (k <= length rs)%nat /\ Forall (fun r => forall i, (i < n)%nat -> i ∈ r) rs.

Lemma mu_zero s : inv s -> mu s <= 0 -> s_bsp s = BspDone.
Proof.
  intros HI H. pose proof (iv_pc _ HI) as Hp. unfold mu in H. destruct (s_bsp s); simpl in Hp; try lia; try done. pose proof (stage_range (a_pc (ap_at s c))). lia.
Qed.

Lemma who_below s : inv s -> (who s < n)%nat.
Proof. intros HI. pose proof (iv_pc _ HI) as Hp. pose proof (ly_bsp HL). unfold who. destruct (s_bsp s); simpl in Hp; try done. case_bools. Qed.

Lemma sched_app l1 l2 (Q : unit -> startup -> Prop) s : wp (runs l1) (fun _ s' => wp (runs l2) Q s') s -> wp (runs (l1 ++ l2)) Q s.
Proof. intros H. unfold wp, schedule in *. rewrite for_each_app. unfold bind. by destruct (for_each l1 _ s) as [[] ?]. Qed.

Lemma rounds_end rs s : inv s -> Forall (fun i => (i < n)%nat) (concat rs) -> Forall (fun r => forall i, (i < n)%nat -> i ∈ r) rs -> mu s <= Z.of_nat (length rs) ->
  wp (runs (concat rs)) (fun _ s' => inv s' /\ s_bsp s' = BspDone) s.
Proof.
  revert s. induction rs as [|r rs IH]; intros s HI Hl Hr Hm; cbn [concat length] in *.
  - unfold schedule. cbn [for_each]. wp_steps. split; [done|]. by apply mu_zero.
  - apply Forall_app in Hl as [Hl1 Hl2]. inversion Hr as [|? ? Hr1 Hr2]; subst. apply sched_app. destruct (decide (s_bsp s = BspDone)) as [Hd|Hd].
    + eapply wp_mono; [by apply sched_advances|]. intros _ s1 [H1 H2]. apply IH; try done. assert (mu s = 0) by (unfold mu; by rewrite Hd). lia.
    + eapply wp_mono; [apply round_advances; try done; apply Hr1, who_below, HI|]. intros _ s1 [H1 H2]. apply IH; try done. lia.
Qed.

(** A processor has its stack when it is behind the load of ESP. *)
Definition has_stack (s : startup) (i : nat) : Prop := (i < n)%nat /\ i <> bsp /\ 3 <= stage (a_pc (ap_at s i)).

Lemma rank_inj i j : i <> bsp -> j <> bsp -> rank i = rank j -> i = j.
Proof. intros Hi Hj. unfold rank. repeat case_decide; lia. Qed.

Lemma stack_used s i : inv s -> has_stack s i -> (rank i < used (s_bsp s))%nat.
Proof.
  intros HI (Hi & Hb & Hs). destruct (iv_ap _ HI i Hi Hb) as [_ [_ O2]]. pose proof (iv_pc _ HI) as Hp.
  assert ((i < cur (s_bsp s))%nat \/ s_bsp s = BspWait i) as [Hc|Hc].
  { destruct (decide (s_bsp s = BspWait i)); [by right|left]. destruct (decide (i < cur (s_bsp s))%nat); [done|]. rewrite O2 in Hs by (done || lia). simpl in Hs. lia. }
  - assert (rank i < rank (cur (s_bsp s)))%nat as Hr by (unfold rank; repeat case_decide; lia). destruct (s_bsp s); cbn [cur used] in *; lia.
  - rewrite Hc. simpl. lia.
Qed.

Lemma page_lookup i : (i < n)%nat -> i <> bsp -> l0 !! rank i = Some (stack_page i).
Proof. intros Hi Hb. destruct (lookup_lt_is_Some_2 l0 (rank i) (rank_below i Hi Hb)) as [p Hp]. unfold stack_page. by rewrite Hp. Qed.

(** What the processors can rely on. *)
Record safe (s : startup) : Prop := Safe {
  sf_lost : forall i, (i < n)%nat -> i <> bsp -> a_pc (ap_at s i) <> ApLost;
  sf_stack : forall i, has_stack s i -> stack_page i ∈ l0 /\ a_esp (ap_at s i) = stack_page i + KSTACKSIZE;
  sf_own : forall i j, has_stack s i -> has_stack s j -> i <> j -> stack_page i <> stack_page j;
  sf_free : exists l, kinv kend (v_kmem (s_vm s)) l /\ forall i, has_stack s i -> stack_page i ∉ l;
  sf_done : s_bsp s = BspDone -> forall i, (i < n)%nat -> i <> bsp ->
    a_pc (ap_at s i) = ApScheduler /\ started (cpu_at s i) = 1 /\ cr3 (desc_at s i) = V2P kpg /\ gdtr (desc_at s i) = (cpu_gdt i, 47) /\ idt_at s i = true;
}.

Lemma inv_safe s : NoDup l0 -> Forall (valid_page kend) l0 -> inv s -> safe s.
Proof.
  intros Hn Hv HI. split.
  - intros i Hi Hb. apply (iv_ap _ HI i Hi Hb).
  - intros i (Hi & Hb & Hs). pose proof (page_lookup i Hi Hb) as Hl. split; [by eapply list_elem_of_lookup_2|]. destruct (iv_ap _ HI i Hi Hb) as [Ha _]. rewrite (ao_esp _ _ Ha Hs). apply u32_small.
    pose proof (Forall_lookup_1 _ _ _ _ Hv Hl) as (_ & _ & K). unfold KERNBASE, PHYSTOP, KSTACKSIZE in *. lia.
  - intros i j (Hi & Hb & _) (Hj & Hc & _) Hne E. apply Hne, rank_inj; [done|done|]. eapply NoDup_lookup; [exact Hn|by apply page_lookup|]. rewrite E. by apply page_lookup.
  - eexists. split; [apply HI|]. intros i Hs Hin. pose proof (stack_used s i HI Hs) as Hu. destruct Hs as (Hi & Hb & _). apply list_elem_of_lookup_1 in Hin as [k Hk]. rewrite lookup_drop in Hk.
    pose proof (NoDup_lookup _ _ _ _ Hn (page_lookup i Hi Hb) Hk). lia.
  - intros E i Hi Hb. destruct (iv_ap _ HI i Hi Hb) as [Ha [O1 _]]. rewrite E in O1. cbn [cur] in O1. specialize (O1 Hi). pose proof (ao_started _ _ Ha) as K. rewrite O1 in K.
    split; [done|]. split; [exact K|]. split; [apply (ao_kernel _ _ Ha)|split; [apply (ao_gdt _ _ Ha)|apply (ao_idt _ _ Ha)]]; rewrite O1; simpl; lia.
Qed.

(** C21: starting the other processors.  Run [startothers] on the boot processor
    against the others under any schedule, one memory access or call at a time:
    no step panics and no started processor jumps anywhere but to [mpenter]; each
    has as its stack a page of its own, which is no longer free; and when
    [startothers] is over, every processor is in the scheduler with its own
    segments, the kernel's page directory and the interrupt table.  It is over
    after a bounded number of rounds in which each processor has a turn. *)
Theorem startothers_handshake s l : ready s -> Forall (fun i => (i < n)%nat) l ->
  wp (schedule cpu_gdt mpenter_addr entrypgdir_addr entryother bsp icrlo_at polls l)
    (fun _ s' => safe s' /\ (rounds (20 * (n + 1)) l -> s_bsp s' = BspDone)) s.
Proof.
  intros HR Hl. pose proof (ready_inv s HR) as HI. destruct (rd_free _ HR) as [_ Hn Hv _].
  assert (wp (runs l) (fun _ s' => inv s') s) as K1 by (eapply wp_mono; [by apply sched_advances|]; by intros _ s' [? _]).
  destruct (wp_returns _ _ _ K1) as ([] & s' & E & HI'). eapply wp_eq; [exact E|]. split; [by apply inv_safe|]. intros (rs & -> & Hk & Hr).
  assert (mu s <= Z.of_nat (length rs)) as Hm by (unfold mu; rewrite (rd_bsp _ HR); lia). pose proof (rounds_end rs s HI Hl Hr Hm) as K2. unfold wp in K2. rewrite E in K2. apply K2.
Qed.
End Handshake.

(** ** Two processors *)
Definition duo_pages : list Z := [2149580800; 2149584896].

Definition duo_cpus : list cpu := [Cpu 4 0 0 0 None 0; Cpu 9 0 0 0 None 0].

Definition duo : startup :=
  Startup (Vst (Kmem false false 2149580800 (st32 (st32 ∅ 2149580800 2149584896) 2149584896 0)) [] (Gpu 0 0 0) 2149588992
             (Mach duo_cpus 4 0 (Spinlock 0 "" None []) ∅) [null_desc; null_desc])
    [null_apic; null_apic] [false; false] [Ap ApHalt 0; Ap ApHalt 0] BspCopy.

Lemma duo_layout : layout 2148540416 2148532224 [144; 144; 144] 0 (fun _ => 0) 1 [4; 9] duo_pages.
Proof.
  split.
  - by apply (bool_decide_unpack _).
  - repeat constructor; lia.
  - simpl. lia.
  - simpl. lia.
  - unfold KERNBASE, PHYSTOP. lia.
  - rewrite code_at. simpl. lia.
  - lia.
  - intros k. exists 0%nat. split; [lia|done].
Qed.

Lemma duo_ready : ready 2148532224 0 [4; 9] 2149588992 duo_pages duo.
Proof.
  split; try done.
  - split; [by vm_compute|by apply (bool_decide_unpack _)| |done]. apply Forall_forall. intros p [<-|[<-|[]]]%list_elem_of_In; (split; [reflexivity|unfold KERNBASE, PHYSTOP; lia]).
  - intros [|[|j]] Hj Hb; simpl in *; try lia; done.
Qed.

Lemma duo_rounds : rounds [4; 9] 60 (concat (replicate 60 [0; 1]%nat)).
Proof.
  exists (replicate 60 [0; 1]%nat). split; [done|]. split; [simpl; lia|]. apply Forall_replicate. intros [|[|i]] Hi; apply list_elem_of_In; simpl in *; [by left|right; by left|lia].
Qed.

(** Both processors get sixty turns. *)
Lemma startothers_handshake_witness : exists s', schedule (fun _ => 0) 2148540416 2148544512 [144; 144; 144] 0 (fun _ => 0) 1 (concat (replicate 60 [0; 1]%nat)) duo = (Ret tt, s') /\
  s_bsp s' = BspDone /\ a_esp (ap_at s' 1) = 2149584896.
Proof.
  assert (Forall (fun i => (i < 2)%nat) (concat (replicate 60 [0; 1]%nat))) as Hl by (by apply (bool_decide_unpack _)).
  pose proof (startothers_handshake (fun _ => 0) 2148540416 2148544512 2148532224 [144; 144; 144] 0 (fun _ => 0) 1 [4; 9] 2149588992 duo_pages duo_layout duo _ duo_ready Hl) as H.
  destruct (wp_returns _ _ _ H) as ([] & s' & E & HS & HD). pose proof (HD duo_rounds) as Hd. exists s'. split; [exact E|]. split; [exact Hd|]. clear E H HD.
  destruct (sf_done _ _ _ _ _ _ _ HS Hd 1%nat ltac:(simpl; lia) ltac:(lia)) as [Hp _].
  destruct (sf_stack _ _ _ _ _ _ _ HS 1%nat) as [_ K]; [split; [simpl; lia|]; split; [lia|]; rewrite Hp; simpl; lia|]. rewrite K. reflexivity.
Defined.
