(* ===== verification/Loader.v ===== *)
(** * The UEFI loader (src/MyLoaderPkg)

    loader.c, relocate.c, file_loader.c, memory_map.c and graphic.c run on the
    boot services of EDK2, which are not part of the repository: they are the
    record [services], operations on a world of physical memory, allocated page
    ranges and whatever else the firmware keeps.  Messages are left out.  A
    variable that is read without having been set holds a [junk] value.  A call
    that reports an error is a status for which [EFI_ERROR] holds. *)
From S2P Require Import Prelude Mem.

Definition u64 (z : Z) : Z := z mod 18446744073709551616.

Definition ld64 (m : mem) (a : Z) : Z := ld32 m a + 4294967296 * ld32 m (a + 4).

Definition st64 (m : mem) (a v : Z) : mem := st32 (st32 m a (v mod 4294967296)) (a + 4) (v / 4294967296 mod 4294967296).

(** [struct graphic_config] *)
Record efi_graphic : Type := EfiGraphic {
  eg_frame_base : Z;
  eg_frame_size : Z;
  eg_horizontal_resolution : Z;
  eg_vertical_resolution : Z;
  eg_pixels_per_scan_line : Z;
}.

(** The types of memory that GetMemoryType names. *)
Inductive EFI_MEMORY_TYPE : Type :=
| EfiReservedMemoryType | EfiLoaderCode | EfiLoaderData | EfiBootServicesCode | EfiBootServicesData | EfiRuntimeServicesCode
| EfiRuntimeServicesData | EfiConventionalMemory | EfiUnusableMemory | EfiACPIReclaimMemory | EfiACPIMemoryNVS | EfiMemoryMappedIO
| EfiMemoryMappedIOPortSpace | EfiPalCode | EfiPersistentMemory | EfiMaxMemoryType | OtherMemoryType.

Record EFI_MEMORY_DESCRIPTOR : Type := MemoryDescriptor {
  md_Type : Z;
  md_PhysicalStart : Z;
  md_VirtualStart : Z;
  md_NumberOfPages : Z;
  md_Attribute : Z;
}.

(** Physical memory, the page ranges that are allocated (start and length in
    bytes), and the rest of the firmware's state. *)
Record world (R : Type) : Type := World {
  w_mem : mem;
  w_used : list (Z * Z);
  w_rest : R;
}.

Arguments World {R}.
Arguments w_mem {R}.
Arguments w_used {R}.
Arguments w_rest {R}.

Section Loader.
Context {R : Type}.

Definition set_w_mem (f : mem -> mem) (w : world R) : world R := World (f (w_mem w)) (w_used w) (w_rest w).

(** What the loader calls.  An operation that can fail returns its status first. *)
Record services : Type := Services {
  EFI_ERROR : Z -> bool;
  EFI_SUCCESS : Z;
  EFI_BUFFER_TOO_SMALL : Z;
  EFI_MEMORY_RUNTIME : Z;
  LocateProtocol : M (world R) Z;
  OpenVolume : M (world R) Z;
  Open : string -> bool -> M (world R) (Z * Z);
  GetInfo : Z -> M (world R) (Z * Z);
  Read : Z -> Z -> Z -> M (world R) Z;
  Write : Z -> list Z -> M (world R) Z;
  Close : Z -> M (world R) Z;
  AllocateAnyPages : Z -> M (world R) (Z * Z);
  AllocateAddress : Z -> Z -> M (world R) (Z * Z);
  AllocatePool : Z -> M (world R) (Z * Z);
  FreePages : Z -> Z -> M (world R) unit;
  CopyMem : Z -> Z -> Z -> M (world R) unit;
  SetMem : Z -> Z -> Z -> M (world R) unit;
  AsciiStrnCmp : mem -> Z -> list Z -> Z -> Z;
  GetMemoryMap : Z -> Z -> M (world R) (Z * (Z * Z * Z));
  memory_type : Z -> EFI_MEMORY_TYPE;
  memory_descriptor : mem -> Z -> EFI_MEMORY_DESCRIPTOR;
  AsciiSPrint : Z -> Z -> string -> Z -> Z -> Z -> string -> Z -> list Z;
  ExitBootServices : Z -> M (world R) Z;
  EfiGetSystemConfigurationTable : M (world R) (Z * Z);
  LocateHandleBuffer : M (world R) Z;
  OpenProtocol : M (world R) Z;
  MaxMode : Z;
  QueryMode : Z -> M (world R) (Z * (Z * Z));
  gop_mode : efi_graphic;
}.

Context (sv : services).

Definition w_ld (ld : mem -> Z -> Z) (a : Z) : M (world R) Z := gets (fun w => ld (w_mem w) (u64 a)).

Definition w_st (st : mem -> Z -> Z -> mem) (a v : Z) : M (world R) unit := modify (set_w_mem (fun m => st m (u64 a) v)).

(** ** file_loader.c *)

(** The status, and on success the address and the number of pages. *)
Definition LoadFile (FileName : string) : M (world R) (Z * (Z * Z)) :=
  Status ← LocateProtocol sv;
  if EFI_ERROR sv Status then ret (Status, (0, 0))
  else
    Status ← OpenVolume sv;
    if EFI_ERROR sv Status then ret (Status, (0, 0))
    else
      '(Status, File) ← Open sv FileName false;
      if EFI_ERROR sv Status then ret (Status, (0, 0))
      else
        '(Status, FileSize) ← GetInfo sv File;
        if EFI_ERROR sv Status then ret (Status, (0, 0))
        else
          let FilePageSize := u64 (FileSize + 4095) / 4096 in
          '(Status, FileAddr) ← AllocateAnyPages sv FilePageSize;
          if EFI_ERROR sv Status then ret (Status, (FileAddr, FilePageSize))
          else
            Status ← Read sv File FileSize FileAddr;
            ret (Status, (FileAddr, FilePageSize)).

(** ** relocate.c *)
Definition PT_LOAD : Z := 1.

(** [Phdr[i]] of the table at [phdr]. *)
Definition Phdr (phdr i : Z) : Z := phdr + 32 * i.

(** [(end_address + mask) & ~mask] for a segment's end. *)
Definition round_end (end_address align : Z) : Z :=
  let mask := u32 (align - 1) in
  Z.ldiff (u64 (end_address + mask)) mask.

(** The first loop: the addresses to allocate, and [init]. *)
Definition measure_segment (phdr i : Z) (acc : Z * Z * bool) : M (world R) (Z * Z * bool) :=
  p_type ← w_ld ld32 (Phdr phdr i);
  if p_type =? PT_LOAD then
    start_address ← w_ld ld32 (Phdr phdr i + 12);
    p_memsz ← w_ld ld32 (Phdr phdr i + 20);
    p_align ← w_ld ld32 (Phdr phdr i + 28);
    let end_address := round_end (u64 (start_address + p_memsz)) p_align in
    let '(alloc_start, alloc_end, init) := acc in
    if negb init then ret (start_address, end_address, true)
    else
      let alloc_start := if start_address <? alloc_start then start_address else alloc_start in
      let alloc_end := if alloc_end <? end_address then end_address else alloc_end in
      ret (alloc_start, alloc_end, init)
  else ret acc.

(** [for(i = 0; i < Ehdr->e_phnum; i++)]; [e_phnum] has 16 bits. *)
Definition phdr_fuel : nat := Z.to_nat 65536.

Fixpoint measure_loop (fuel : nat) (ehdr phdr i : Z) (acc : Z * Z * bool) : M (world R) (Z * Z * bool) :=
  match fuel with
  | O => sleep_on 0
  | S k =>
      e_phnum ← w_ld ld16 (ehdr + 44);
      if i <? e_phnum then
        acc ← measure_segment phdr i acc;
        measure_loop k ehdr phdr (i + 1) acc
      else ret acc
  end.

(** The second loop: one segment copied to its place and its rest cleared. *)
Definition place_segment (buffer phdr i : Z) : M (world R) unit :=
  p_type ← w_ld ld32 (Phdr phdr i);
  when (p_type =? PT_LOAD)
    (start_address ← w_ld ld32 (Phdr phdr i + 12);
     p_offset ← w_ld ld32 (Phdr phdr i + 4);
     p_filesz ← w_ld ld32 (Phdr phdr i + 16);
     CopyMem sv start_address (u64 (buffer + p_offset)) p_filesz ;;
     p_memsz ← w_ld ld32 (Phdr phdr i + 20);
     p_filesz ← w_ld ld32 (Phdr phdr i + 16);
     when (p_filesz <? p_memsz) (SetMem sv (u64 (start_address + p_filesz)) (u32 (p_memsz - p_filesz)) 0)).

Fixpoint place_loop (fuel : nat) (ehdr phdr i : Z) : M (world R) unit :=
  match fuel with
  | O => sleep_on 0
  | S k =>
      e_phnum ← w_ld ld16 (ehdr + 44);
      if i <? e_phnum then
        place_segment ehdr phdr i ;;
        place_loop k ehdr phdr (i + 1)
      else ret tt
  end.

(** The status, and the entry point when it was stored. *)
Definition RelocateELF (junk : Z * Z) (KernelPath : string) : M (world R) (Z * option Z) :=
  '(Status, (BufferAddress, BufferPageSize)) ← LoadFile KernelPath;
  if EFI_ERROR sv Status then ret (Status, None)
  else
    e_phoff ← w_ld ld32 (BufferAddress + 28);
    let phdr := u64 (BufferAddress + e_phoff) in
    '(alloc_start, alloc_end, _) ← measure_loop phdr_fuel BufferAddress phdr 0 (junk, false);
    let page_size := u64 (u64 (alloc_end - alloc_start) / 4096 + 1) in
    '(Status, alloc_start) ← AllocateAddress sv page_size alloc_start;
    if EFI_ERROR sv Status then ret (Status, None)
    else
      place_loop phdr_fuel BufferAddress phdr 0 ;;
      e_entry ← w_ld ld32 (BufferAddress + 24);
      FreePages sv BufferAddress BufferPageSize ;;
      ret (Status, Some e_entry).

(** ** memory_map.c *)
Definition MEM_MAP_SIZE : Z := 8192.

Definition GetMemoryType (Type_ : EFI_MEMORY_TYPE) : string :=
  match Type_ with
  | EfiReservedMemoryType => "EfiReservedMemoryType"
  | EfiLoaderCode => "EfiLoaderCode"
  | EfiLoaderData => "EfiLoaderData"
  | EfiBootServicesCode => "EfiBootServicesCode"
  | EfiBootServicesData => "EfiBootServicesData"
  | EfiRuntimeServicesCode => "EfiRuntimeServicesCode"
  | EfiRuntimeServicesData => "EfiRuntimeServicesData"
  | EfiConventionalMemory => "EfiConventionalMemory"
  | EfiUnusableMemory => "EfiUnusableMemory"
  | EfiACPIReclaimMemory => "EfiACPIReclaimMemory"
  | EfiACPIMemoryNVS => "EfiACPIMemoryNVS"
  | EfiMemoryMappedIO => "EfiMemoryMappedIO"
  | EfiMemoryMappedIOPortSpace => "EfiMemoryMappedIOPortSpace"
  | EfiPalCode => "EfiPalCode"
  | EfiPersistentMemory => "EfiPersistentMemory"
  | EfiMaxMemoryType => "EfiMaxMemoryType"
  | OtherMemoryType => "InvalidMemoryType"
  end.

Definition ascii_bytes (s : string) : list Z := (fun c => Z.of_nat (Ascii.nat_of_ascii c)) <$> String.list_ascii_of_string s.

Definition memmap_header : list Z :=
  ascii_bytes "| Index | Type     | PhysicalStart | VirtualStart  | NumberOfPages | Attribute |" ++ [10] ++
  ascii_bytes "|-------|----------|---------------|---------------|---------------|-----------|" ++ [10].

(** The text of one line of the file. *)
Definition memmap_line (i : Z) (d : EFI_MEMORY_DESCRIPTOR) : list Z :=
  AsciiSPrint sv i (md_Type d) (GetMemoryType (memory_type sv (md_Type d))) (md_PhysicalStart d) (md_VirtualStart d) (md_NumberOfPages d)
    (if negb (Z.land (md_Attribute d) (EFI_MEMORY_RUNTIME sv) =? 0) then "RT" else "") (Z.land (md_Attribute d) 1048575).

(** The loop over the descriptors: [Some] status is a return. *)
Fixpoint memmap_loop (fuel : nat) (File Buffer MapSize DescriptorSize Iter i : Z) : M (world R) (option Z) :=
  match fuel with
  | O => sleep_on 0
  | S k =>
      if Iter <? u64 (Buffer + MapSize) then
        d ← gets (fun w => memory_descriptor sv (w_mem w) Iter);
        Status ← Write sv File (memmap_line i d);
        if EFI_ERROR sv Status then ret (Some Status)
        else memmap_loop k File Buffer MapSize DescriptorSize (u64 (Iter + DescriptorSize)) (i + 1)
      else ret None
  end.

Definition GetMemoryMapFile (fuel : nat) : M (world R) Z :=
  '(Status, Buffer) ← AllocatePool sv MEM_MAP_SIZE;
  if EFI_ERROR sv Status then ret Status
  else
    '(Status, (MapSize, _, DescriptorSize)) ← GetMemoryMap sv MEM_MAP_SIZE Buffer;
    if Status =? EFI_BUFFER_TOO_SMALL sv then ret Status
    else
      Status ← LocateProtocol sv;
      if EFI_ERROR sv Status then ret Status
      else
        Status ← OpenVolume sv;
        if EFI_ERROR sv Status then ret Status
        else
          '(Status, File) ← Open sv "\memmap" true;
          if EFI_ERROR sv Status then ret Status
          else
            Status ← Write sv File memmap_header;
            if EFI_ERROR sv Status then ret Status
            else
              r ← memmap_loop fuel File Buffer MapSize DescriptorSize Buffer 0;
              match r with
              | Some Status => ret Status
              | None => Close sv File
              end.

(** ** graphic.c *)

(** Modes 16:9 or 4:3 only; the products are 32 bits wide. *)
Definition mode_allowed (H V : Z) : bool := (u32 (H * 9) =? u32 (V * 16)) || (u32 (H * 3) =? u32 (V * 4)).

(** The search for the largest mode: [inl] a status is a return. *)
Fixpoint mode_loop (n : nat) (i index resolution : Z) : M (world R) (Z + Z * Z) :=
  match n with
  | O => ret (inr (index, resolution))
  | S k =>
      '(Status, (H, V)) ← QueryMode sv i;
      if EFI_ERROR sv Status then ret (inl Status)
      else if negb (mode_allowed H V) then mode_loop k (i + 1) index resolution
      else if resolution <? u32 (H * V) then mode_loop k (i + 1) i (u32 (H * V))
      else mode_loop k (i + 1) index resolution
  end.

(** The status, and the configuration when it was stored: that of the current
    mode. *)
Definition GetGraphicMode : M (world R) (Z * option efi_graphic) :=
  Status ← LocateHandleBuffer sv;
  if EFI_ERROR sv Status then ret (Status, None)
  else
    Status ← OpenProtocol sv;
    if EFI_ERROR sv Status then ret (Status, None)
    else
      r ← mode_loop (Z.to_nat (MaxMode sv)) 0 0 0;
      match r with
      | inl Status => ret (Status, None)
      | inr _ => ret (EFI_SUCCESS sv, Some (gop_mode sv))
      end.

Definition loader_draw_pixel (x y bmp_addr : Z) (g : efi_graphic) : M (world R) unit :=
  let addr := u64 (u64 (y * eg_pixels_per_scan_line g + x) * 4 + eg_frame_base g) in
  CopyMem sv addr bmp_addr 3.

Definition DrawBMP (file_name : string) (g : efi_graphic) : M (world R) Z :=
  '(Status, (bmp_addr, _)) ← LoadFile file_name;
  if EFI_ERROR sv Status then ret Status
  else
    let bmp_addr := u64 (bmp_addr + 54) in
    let max := u64 (eg_horizontal_resolution g * eg_vertical_resolution g) in
    for_each (seqZ 0 max) (fun i =>
      let x := i mod eg_horizontal_resolution g in
      let y := u64 (eg_vertical_resolution g - 1 - i / eg_horizontal_resolution g) in
      loader_draw_pixel x y (u64 (bmp_addr + i * 3)) g) ;;
    ret Status.

(** ** loader.c *)
Definition STA_X : Z := 8.

Definition STA_W : Z := 2.

Definition STA_R : Z := 2.

(** Offsets in [struct boot_param] and its size. *)
Definition bp_kernel_entry : Z := 0.

Definition bp_madt_addr : Z := 8.

Definition bp_graphic_config : Z := 16.

Definition bp_bootstrap_gdt : Z := 56.

Definition bp_bootstrap_gdt_desc : Z := 80.

Definition bp_kernel_addr : Z := 90.

Definition sizeof_boot_param : Z := 98.

Definition set_gdt (gdt type base lim : Z) : M (world R) unit :=
  w_st st16 gdt (Z.land (Z.shiftr lim 12) 65535) ;;
  w_st st16 (gdt + 2) (Z.land base 65535) ;;
  w_st st8 (gdt + 4) (Z.land (Z.shiftr base 16) 255) ;;
  w_st st8 (gdt + 5) (Z.lor 144 type) ;;
  w_st st8 (gdt + 6) (Z.lor 192 (Z.land (Z.shiftr lim 28) 15)) ;;
  w_st st8 (gdt + 7) (Z.land (Z.shiftr base 24) 255).

(** [boot_param->graphic_config = gconfig] *)
Definition store_graphic (a : Z) (g : efi_graphic) : M (world R) unit :=
  w_st st64 a (eg_frame_base g) ;;
  w_st st64 (a + 8) (eg_frame_size g) ;;
  w_st st64 (a + 16) (eg_horizontal_resolution g) ;;
  w_st st64 (a + 24) (eg_vertical_resolution g) ;;
  w_st st64 (a + 32) (eg_pixels_per_scan_line g).

(** The tables of the XSDT: the MADT is copied behind the boot parameters.
    [boot_param+sizeof(struct boot_param)] counts in structures. *)
Definition xsdt_entry (bp xsdt i acpi_madt : Z) : M (world R) Z :=
  h ← w_ld ld64 (xsdt + 36 + 8 * i);
  w ← get;
  if AsciiStrnCmp sv (w_mem w) h (ascii_bytes "APIC") 4 =? 0 then
    w_st st64 (bp + bp_madt_addr) (u64 (bp + sizeof_boot_param * sizeof_boot_param)) ;;
    madt_addr ← w_ld ld64 (bp + bp_madt_addr);
    len ← w_ld ld32 (h + 4);
    CopyMem sv madt_addr h len ;;
    ret h
  else ret acpi_madt.

Fixpoint xsdt_loop (n : nat) (bp xsdt i acpi_madt : Z) : M (world R) Z :=
  match n with
  | O => ret acpi_madt
  | S k =>
      acpi_madt ← xsdt_entry bp xsdt i acpi_madt;
      xsdt_loop k bp xsdt (i + 1) acpi_madt
  end.

(** The walk over the records of the copy, which prints them; the offset of the
    next record. *)
Definition print_record (bp i : Z) : M (world R) Z :=
  madt_addr ← w_ld ld64 (bp + bp_madt_addr);
  entry_type ← w_ld ld8 (madt_addr + i);
  record_len ← w_ld ld8 (madt_addr + i + 1);
  if (entry_type =? 0) || (entry_type =? 1) || (entry_type =? 2) || (entry_type =? 4) then ret (u64 (i + record_len))
  else if entry_type =? 5 then ret (u64 (i + 12))
  else ret i.

Fixpoint print_loop (fuel : nat) (bp acpi_madt i : Z) : M (world R) unit :=
  match fuel with
  | O => sleep_on 0
  | S k =>
      len ← w_ld ld32 (acpi_madt + 4);
      if i <? len then
        i ← print_record bp i;
        print_loop k bp acpi_madt i
      else ret tt
  end.

(** Values of variables that may be read unset: the addresses of relocate.c, the
    entry point, the configuration and [acpi_madt]. *)
Record junk : Type := Junk {
  jk_alloc : Z * Z;
  jk_kernel : Z;
  jk_graphic : efi_graphic;
  jk_madt : Z;
}.

(** What follows the relocation: [inl] a status when the loader returned, [inr] an
    address when it jumped there. *)
Definition prepare_boot (jk : junk) (fuel : nat) (KernelBaseAddr : Z) : M (world R) (Z + Z) :=
  GetMemoryMapFile fuel ;;
  '(_, vendor_table) ← EfiGetSystemConfigurationTable sv;
  '(_, bp) ← AllocateAddress sv 1 327680;
  xsdt ← w_ld ld64 (vendor_table + 24);
  w_st st64 (bp + bp_kernel_entry) KernelBaseAddr ;;
  '(_, gconfig) ← GetGraphicMode;
  store_graphic (bp + bp_graphic_config) (default (jk_graphic jk) gconfig) ;;
  len ← w_ld ld32 (xsdt + 4);
  let entries := u64 (len - 36) / 8 in
  acpi_madt ← xsdt_loop (Z.to_nat entries) bp xsdt 0 (jk_madt jk);
  print_loop fuel bp acpi_madt 44 ;;
  w_st st64 (bp + bp_kernel_addr) KernelBaseAddr ;;
  w_st st16 (bp + bp_bootstrap_gdt_desc) 24 ;;
  w_st st64 (bp + bp_bootstrap_gdt_desc + 2) (u64 (bp + bp_bootstrap_gdt)) ;;
  w_st st16 (bp + bp_bootstrap_gdt) 0 ;;
  w_st st16 (bp + bp_bootstrap_gdt + 2) 0 ;;
  w_st st8 (bp + bp_bootstrap_gdt + 4) 0 ;;
  w_st st8 (bp + bp_bootstrap_gdt + 5) 0 ;;
  w_st st8 (bp + bp_bootstrap_gdt + 6) 0 ;;
  w_st st8 (bp + bp_bootstrap_gdt + 7) 0 ;;
  set_gdt (bp + bp_bootstrap_gdt + 8) (Z.lor STA_X STA_R) 0 4294967295 ;;
  set_gdt (bp + bp_bootstrap_gdt + 16) STA_W 0 4294967295 ;;
  '(Status, Buffer) ← AllocatePool sv 4096;
  if EFI_ERROR sv Status then ret (inl Status)
  else
    '(_, (_, MapKey, _)) ← GetMemoryMap sv 4096 Buffer;
    ExitBootServices sv MapKey ;;
    kernel_addr ← w_ld ld64 (bp + bp_kernel_addr);
    ret (inr kernel_addr).

Definition UefiMain (jk : junk) (fuel : nat) : M (world R) (Z + Z) :=
  '(_, entry) ← RelocateELF (jk_alloc jk) "\kernel";
  prepare_boot jk fuel (default (jk_kernel jk) entry).
End Loader.
