(* ===== verification/LoaderElf.v ===== *)
(** * Loading the kernel with relocate.c

    What the boot services promise ([laws]) and that [RelocateELF] puts every
    loadable segment of a well-formed file in its place, inside memory that it
    has allocated. *)
From S2P Require Import Prelude Mem Loader.

Section Elf.
Context {R : Type} (sv : services (R := R)).

Definition same (w w' : world R) : Prop := w_mem w' = w_mem w /\ w_used w' = w_used w.

(** The range [a, a + n) lies in physical memory and meets no allocated range. *)
Definition fresh (a n : Z) (used : list (Z * Z)) : Prop :=
  0 <= a /\ 0 <= n /\ a + n <= 4503599627370496 /\ Forall (fun r => a + n <= r.1 \/ r.1 + r.2 <= a) used.

(** [b] lies in an allocated range. *)
Definition in_use (used : list (Z * Z)) (b : Z) : Prop := Exists (fun r => r.1 <= b < r.1 + r.2) used.

(** What the UEFI specification says of the services, for files with contents
    [file]. *)
Record laws (file : string -> list Z) (name_of : Z -> string) : Prop := Laws {
  lw_locate : forall w, exists st w', LocateProtocol sv w = (Ret st, w') /\ same w w';
  lw_volume : forall w, exists st w', OpenVolume sv w = (Ret st, w') /\ same w w';
  lw_open : forall n b w, exists st f w', Open sv n b w = (Ret (st, f), w') /\ same w w' /\ (EFI_ERROR sv st = false -> name_of f = n);
  lw_info : forall f w, exists st n w', GetInfo sv f w = (Ret (st, n), w') /\ same w w' /\
    (EFI_ERROR sv st = false -> n = Z.of_nat (length (file (name_of f))));
  lw_any : forall n w, exists st a w', AllocateAnyPages sv n w = (Ret (st, a), w') /\ w_mem w' = w_mem w /\
    (EFI_ERROR sv st = false -> w_used w' = (a, 4096 * n) :: w_used w /\ fresh a (4096 * n) (w_used w)) /\ (EFI_ERROR sv st = true -> w_used w' = w_used w);
  lw_at : forall n a w, exists st w', AllocateAddress sv n a w = (Ret (st, a), w') /\ w_mem w' = w_mem w /\
    (EFI_ERROR sv st = false -> w_used w' = (a, 4096 * n) :: w_used w /\ fresh a (4096 * n) (w_used w)) /\ (EFI_ERROR sv st = true -> w_used w' = w_used w);
  lw_read : forall f n a w, exists st w', Read sv f n a w = (Ret st, w') /\ w_used w' = w_used w /\
    (forall b, ~ (a <= b < a + n) -> ld8 (w_mem w') b = ld8 (w_mem w) b) /\
    (EFI_ERROR sv st = false -> forall i, 0 <= i < Z.min n (Z.of_nat (length (file (name_of f)))) -> ld8 (w_mem w') (a + i) = u8 (default 0 (file (name_of f) !! Z.to_nat i)));
  lw_copy : forall d s n w, exists w', CopyMem sv d s n w = (Ret tt, w') /\ w_used w' = w_used w /\
    forall b, ld8 (w_mem w') b = if decide (d <= b < d + n) then ld8 (w_mem w) (s + (b - d)) else ld8 (w_mem w) b;
  lw_set : forall d n v w, exists w', SetMem sv d n v w = (Ret tt, w') /\ w_used w' = w_used w /\
    forall b, ld8 (w_mem w') b = if decide (d <= b < d + n) then u8 v else ld8 (w_mem w) b;
  lw_free : forall a n w, exists w', FreePages sv a n w = (Ret tt, w') /\
    forall b, ~ (a <= b < a + 4096 * n) -> ld8 (w_mem w') b = ld8 (w_mem w) b /\ (in_use (w_used w) b -> in_use (w_used w') b);
}.

(** What was allocated stays so and is not changed. *)
Definition keeps (w w' : world R) : Prop := forall b, in_use (w_used w) b -> ld8 (w_mem w') b = ld8 (w_mem w) b /\ in_use (w_used w') b.

Lemma keeps_refl w : keeps w w.
Proof. by intros b Hb. Qed.

Lemma keeps_trans w1 w2 w3 : keeps w1 w2 -> keeps w2 w3 -> keeps w1 w3.
Proof. intros H1 H2 b Hb. destruct (H1 b Hb) as [E1 U1]. destruct (H2 b U1) as [E2 U2]. split; [congruence|done]. Qed.

Lemma same_keeps w w' : same w w' -> keeps w w'.
Proof. intros [E1 E2] b Hb. by rewrite E1, E2. Qed.

Lemma alloc_keeps w w' r : w_mem w' = w_mem w -> w_used w' = r :: w_used w -> keeps w w'.
Proof. intros E1 E2 b Hb. rewrite E1, E2. split; [done|by right]. Qed.

Lemma fresh_not_used a n used b : fresh a n used -> in_use used b -> ~ (a <= b < a + n).
Proof. intros (_ & _ & _ & H) Hb. apply Exists_exists in Hb as (r & Hr & Hb). rewrite Forall_forall in H. specialize (H r Hr). lia. Qed.

Context (file : string -> list Z) (name_of : Z -> string) (HL : laws file name_of).

(** ** The file in memory *)
Definition f8 (F : list Z) (i : Z) : Z := u8 (default 0 (F !! Z.to_nat i)).

Definition f16 (F : list Z) (i : Z) : Z := f8 F i + 256 * f8 F (i + 1).

Definition f32 (F : list Z) (i : Z) : Z := f8 F i + 256 * f8 F (i + 1) + 65536 * f8 F (i + 2) + 16777216 * f8 F (i + 3).

Definition file_in (m : mem) (a : Z) (F : list Z) : Prop := forall i, 0 <= i < Z.of_nat (length F) -> ld8 m (a + i) = f8 F i.

Lemma file_in_ld32 m a F i : file_in m a F -> 0 <= i -> i + 4 <= Z.of_nat (length F) -> ld32 m (a + i) = f32 F i.
Proof. intros H Hi Hl. unfold ld32, f32. rewrite <- !Z.add_assoc. by rewrite !H by lia. Qed.

Lemma file_in_ld16 m a F i : file_in m a F -> 0 <= i -> i + 2 <= Z.of_nat (length F) -> ld16 m (a + i) = f16 F i.
Proof. intros H Hi Hl. unfold ld16, f16. rewrite <- !Z.add_assoc. by rewrite !H by lia. Qed.

Lemma f32_range F i : 0 <= f32 F i < 4294967296.
Proof. unfold f32, f8. pose proof (u8_range (default 0 (F !! Z.to_nat i))). pose proof (u8_range (default 0 (F !! Z.to_nat (i + 1)))). pose proof (u8_range (default 0 (F !! Z.to_nat (i + 2)))). pose proof (u8_range (default 0 (F !! Z.to_nat (i + 3)))). lia. Qed.

Lemma f16_range F i : 0 <= f16 F i < 65536.
Proof. unfold f16, f8. pose proof (u8_range (default 0 (F !! Z.to_nat i))). pose proof (u8_range (default 0 (F !! Z.to_nat (i + 1)))). lia. Qed.

Lemma u64_small x : 0 <= x < 18446744073709551616 -> u64 x = x.
Proof. intros H. by apply Z.mod_small. Qed.

(** [LoadFile] puts the file into pages of its own. *)
Lemma load_file_run name w : Z.of_nat (length (file name)) < 4294967296 ->
  exists st a n w', LoadFile sv name w = (Ret (st, (a, n)), w') /\ keeps w w' /\
    (EFI_ERROR sv st = false -> w_used w' = (a, 4096 * n) :: w_used w /\ fresh a (4096 * n) (w_used w) /\ Z.of_nat (length (file name)) <= 4096 * n /\
      file_in (w_mem w') a (file name) /\ forall b, ~ (a <= b < a + 4096 * n) -> ld8 (w_mem w') b = ld8 (w_mem w) b).
Proof.
  intros Hlen. unfold LoadFile.
  destruct (lw_locate _ _ HL w) as (st1 & w1 & -> % (bind_Ret _ _ _ _ _) & [M1 U1]). assert (keeps w w1) as K1 by (by apply same_keeps). destruct (EFI_ERROR sv st1) eqn:E1; [by exists st1, 0, 0, w1; rewrite E1|].
  destruct (lw_volume _ _ HL w1) as (st2 & w2 & -> % (bind_Ret _ _ _ _ _) & [M2 U2]). assert (keeps w w2) as K2 by (eapply keeps_trans; [exact K1|by apply same_keeps]). destruct (EFI_ERROR sv st2) eqn:E2; [by exists st2, 0, 0, w2; rewrite E2|].
  destruct (lw_open _ _ HL name false w2) as (st3 & f & w3 & -> % (bind_Ret _ _ _ _ _) & [M3 U3] & Hf). assert (keeps w w3) as K3 by (eapply keeps_trans; [exact K2|by apply same_keeps]). destruct (EFI_ERROR sv st3) eqn:E3; [by exists st3, 0, 0, w3; rewrite E3|]. specialize (Hf eq_refl).
  destruct (lw_info _ _ HL f w3) as (st4 & n & w4 & -> % (bind_Ret _ _ _ _ _) & [M4 U4] & Hn). assert (keeps w w4) as K4 by (eapply keeps_trans; [exact K3|by apply same_keeps]). destruct (EFI_ERROR sv st4) eqn:E4; [by exists st4, 0, 0, w4; rewrite E4|]. specialize (Hn eq_refl). rewrite Hf in Hn.
  cbv zeta. rewrite (u64_small (n + 4095)) by lia. set (pages := (n + 4095) / 4096). assert (n <= 4096 * pages) as Hp by (unfold pages; zdm).
  destruct (lw_any _ _ HL pages w4) as (st5 & a & w5 & -> % (bind_Ret _ _ _ _ _) & M5 & Ha & Ha'). destruct (EFI_ERROR sv st5) eqn:E5; [exists st5, a, pages, w5; rewrite E5; split; [done|]; split; [eapply keeps_trans; [exact K4|]; apply same_keeps; split; auto|done]|]. destruct (Ha eq_refl) as [U5 Hfr].
  destruct (lw_read _ _ HL f n a w5) as (st6 & w6 & -> % (bind_Ret _ _ _ _ _) & U6 & Hout & Hin). exists st6, a, pages, w6. split; [done|].
  assert (keeps w4 w6) as K6. { intros b Hb. rewrite U6, U5. split; [|by right]. pose proof (fresh_not_used _ _ _ _ Hfr Hb). rewrite Hout by lia. by rewrite M5. }
  split; [by eapply keeps_trans|]. intros E6.
  assert (w_used w4 = w_used w) as Eu by congruence. rewrite Eu in U5, Hfr. split; [congruence|]. split; [done|]. split; [lia|]. split.
  - intros i Hi. rewrite (Hin E6) by (rewrite Hf; lia). by rewrite Hf.
  - intros b Hb. rewrite Hout by lia. congruence.
Qed.

(** ** Segments *)
Record eseg : Type := ESeg {
  es_type : Z;
  es_off : Z;
  es_paddr : Z;
  es_filesz : Z;
  es_memsz : Z;
  es_align : Z;
}.

Definition eseg_at (F : list Z) (i : Z) : eseg :=
  let p := f32 F 28 + 32 * i in
  ESeg (f32 F p) (f32 F (p + 4)) (f32 F (p + 12)) (f32 F (p + 16)) (f32 F (p + 20)) (f32 F (p + 28)).

(** The indices of the loadable segments. *)
Definition loadable (F : list Z) (i : Z) : Prop := 0 <= i < f16 F 44 /\ es_type (eseg_at F i) = PT_LOAD.

(** A file whose headers and segments lie in it, whose alignments are powers of
    two and whose segments do not overlap in memory. *)
Record elf_ok (F : list Z) : Prop := ElfOk {
  ek_len : 52 <= Z.of_nat (length F) < 4294967296;
  ek_phdr : f32 F 28 + 32 * f16 F 44 <= Z.of_nat (length F);
  ek_seg : forall i, loadable F i -> let g := eseg_at F i in
    es_off g + es_filesz g <= Z.of_nat (length F) /\ es_filesz g <= es_memsz g /\ exists k, 0 <= k < 32 /\ es_align g = 2 ^ k;
  ek_apart : forall i j, loadable F i -> loadable F j -> i <> j -> let g := eseg_at F i in let h := eseg_at F j in
    es_paddr g + es_memsz g <= es_paddr h \/ es_paddr h + es_memsz h <= es_paddr g;
}.

(** The segment is in memory: the bytes of the file, then zeros. *)
Definition seg_placed (m : mem) (F : list Z) (g : eseg) : Prop :=
  (forall i, 0 <= i < es_filesz g -> ld8 m (es_paddr g + i) = f8 F (es_off g + i)) /\
  (forall i, es_filesz g <= i < es_memsz g -> ld8 m (es_paddr g + i) = 0).

Lemma round_end_le e align k : 0 <= e < 8589934592 -> 0 <= k < 32 -> align = 2 ^ k -> e <= round_end e align < e + 4294967296.
Proof.
  intros He Hk ->. assert (2 ^ k <= 2 ^ 31) as Hp by (apply Z.pow_le_mono_r; lia). change (2 ^ 31) with 2147483648 in Hp. assert (0 < 2 ^ k) by (apply Z.pow_pos_nonneg; lia).
  unfold round_end. rewrite u32_small, u64_small by lia. replace (2 ^ k - 1) with (Z.ones k) by (rewrite Z.ones_equiv; lia).
  rewrite Z.ldiff_ones_r, Z.shiftr_div_pow2, Z.shiftl_mul_pow2 by lia. rewrite Z.ones_equiv. pose proof (Z.div_mod (e + Z.pred (2 ^ k)) (2 ^ k) ltac:(lia)). pose proof (Z.mod_pos_bound (e + Z.pred (2 ^ k)) (2 ^ k) ltac:(lia)). lia.
Qed.

Section Run.
Context (F : list Z) (HF : elf_ok F) (buf : Z) (Hbuf : 0 <= buf <= 4503599627370496).

Let phdr := u64 (buf + f32 F 28).

Lemma phdr_field (w : world R) i k : file_in (w_mem w) buf F -> 0 <= i < f16 F 44 -> 0 <= k <= 28 ->
  w_ld ld32 (Phdr phdr i + k) w = (Ret (f32 F (f32 F 28 + 32 * i + k)), w).
Proof.
  intros Hin Hi Hk. unfold w_ld, gets, Phdr, phdr. pose proof (f32_range F 28). pose proof (f16_range F 44). pose proof (ek_phdr _ HF). rewrite !u64_small by (rewrite ?u64_small; lia).
  replace (buf + f32 F 28 + 32 * i + k) with (buf + (f32 F 28 + 32 * i + k)) by lia. by rewrite (file_in_ld32 _ _ F) by (done || lia).
Qed.

Lemma phnum_field (w : world R) : file_in (w_mem w) buf F -> w_ld ld16 (buf + 44) w = (Ret (f16 F 44), w).
Proof. intros Hin. unfold w_ld, gets. pose proof (ek_len _ HF). rewrite u64_small by lia. by rewrite (file_in_ld16 _ _ F) by (done || lia). Qed.

(** ** The addresses to allocate *)
Definition covers (acc : Z * Z * bool) (i : Z) : Prop :=
  let '(s, e, init) := acc in
  (init = true -> 0 <= s < 4294967296 /\ s <= e < 17179869184) /\
  forall j, loadable F j -> j < i -> init = true /\ s <= es_paddr (eseg_at F j) /\ es_paddr (eseg_at F j) + es_memsz (eseg_at F j) <= e.

Lemma measure_run (w : world R) i acc : file_in (w_mem w) buf F -> 0 <= i < f16 F 44 -> covers acc i ->
  exists acc', measure_segment phdr i acc w = (Ret acc', w) /\ covers acc' (i + 1).
Proof.
  intros Hin Hi Hc. unfold measure_segment. pose proof (phdr_field w i 0 Hin Hi ltac:(lia)) as H0. rewrite !Z.add_0_r in H0. rewrite (bind_Ret _ _ _ _ _ H0).
  change (f32 F (f32 F 28 + 32 * i)) with (es_type (eseg_at F i)). destruct (Z.eqb_spec (es_type (eseg_at F i)) PT_LOAD) as [Hty|Hty].
  - rewrite (bind_Ret _ _ _ _ _ (phdr_field w i 12 Hin Hi ltac:(lia))), (bind_Ret _ _ _ _ _ (phdr_field w i 20 Hin Hi ltac:(lia))), (bind_Ret _ _ _ _ _ (phdr_field w i 28 Hin Hi ltac:(lia))).
    assert (loadable F i) as Hl by done. destruct (ek_seg _ HF i Hl) as (_ & _ & k & Hk & Hal). unfold eseg_at in Hal. cbn [es_align] in Hal.
    pose proof (f32_range F (f32 F 28 + 32 * i + 12)) as R1. pose proof (f32_range F (f32 F 28 + 32 * i + 20)) as R2.
    change (f32 F (f32 F 28 + 32 * i + 12)) with (es_paddr (eseg_at F i)) in *. change (f32 F (f32 F 28 + 32 * i + 20)) with (es_memsz (eseg_at F i)) in *. rewrite u64_small by lia.
    pose proof (round_end_le (es_paddr (eseg_at F i) + es_memsz (eseg_at F i)) _ k ltac:(lia) Hk Hal) as Hr. set (e' := round_end _ _) in *.
    destruct acc as [[s e] init]. destruct Hc as [Hc1 Hc2]. destruct init; cbn [negb].
    + eexists. split; [reflexivity|]. destruct (Hc1 eq_refl) as [B1 B2]. split.
      * intros _. destruct (Z.ltb_spec (es_paddr (eseg_at F i)) s); destruct (Z.ltb_spec e e'); lia.
      * intros j Hj Hji. split; [done|]. destruct (decide (j = i)) as [->|Hne].
        -- destruct (Z.ltb_spec (es_paddr (eseg_at F i)) s); destruct (Z.ltb_spec e e'); lia.
        -- destruct (Hc2 j Hj ltac:(lia)) as (_ & C1 & C2). destruct (Z.ltb_spec (es_paddr (eseg_at F i)) s); destruct (Z.ltb_spec e e'); lia.
    + eexists. split; [reflexivity|]. split; [lia|]. intros j Hj Hji. split; [done|]. destruct (decide (j = i)) as [->|Hne]; [lia|]. by destruct (Hc2 j Hj ltac:(lia)).
  - exists acc. split; [done|]. destruct acc as [[s e] init]. destruct Hc as [Hc1 Hc2]. split; [done|]. intros j Hj Hji. apply Hc2; [done|]. destruct (decide (j = i)) as [->|]; [by destruct Hj|lia].
Qed.

Lemma measure_loop_run fuel : forall (w : world R) i acc, file_in (w_mem w) buf F -> 0 <= i <= f16 F 44 -> f16 F 44 - i < Z.of_nat fuel -> covers acc i ->
  exists acc', measure_loop fuel buf phdr i acc w = (Ret acc', w) /\ covers acc' (f16 F 44).
Proof.
  induction fuel as [|fuel IH]; intros w i acc Hin Hi Hf Hc; [lia|]. cbn [measure_loop]. rewrite (bind_Ret _ _ _ _ _ (phnum_field w Hin)).
  destruct (Z.ltb_spec i (f16 F 44)).
  - destruct (measure_run w i acc Hin ltac:(lia) Hc) as (acc1 & Hr & Hc1). rewrite (bind_Ret _ _ _ _ _ Hr). apply IH; [done|lia|lia|done].
  - exists acc. split; [done|]. by replace (f16 F 44) with i by lia.
Qed.

(** ** Placing the segments *)
Definition seg_range (i b : Z) : Prop := es_paddr (eseg_at F i) <= b < es_paddr (eseg_at F i) + es_memsz (eseg_at F i).

(** No segment overlaps the buffer. *)
Definition off_buffer : Prop := forall i, loadable F i -> es_paddr (eseg_at F i) + es_memsz (eseg_at F i) <= buf \/ buf + Z.of_nat (length F) <= es_paddr (eseg_at F i).

Lemma file_in_kept (m m' : mem) : file_in m buf F -> (forall b, buf <= b < buf + Z.of_nat (length F) -> ld8 m' b = ld8 m b) -> file_in m' buf F.
Proof. intros H Hk i Hi. rewrite Hk by lia. by apply H. Qed.

Lemma place_run (w : world R) i : file_in (w_mem w) buf F -> off_buffer -> 0 <= i < f16 F 44 ->
  exists w', place_segment sv buf phdr i w = (Ret tt, w') /\ w_used w' = w_used w /\ file_in (w_mem w') buf F /\
    (loadable F i -> seg_placed (w_mem w') F (eseg_at F i)) /\ (forall b, ~ (loadable F i /\ seg_range i b) -> ld8 (w_mem w') b = ld8 (w_mem w) b).
Proof.
  intros Hin Hob Hi. unfold place_segment. pose proof (phdr_field w i 0 Hin Hi ltac:(lia)) as H0. rewrite !Z.add_0_r in H0. rewrite (bind_Ret _ _ _ _ _ H0).
  change (f32 F (f32 F 28 + 32 * i)) with (es_type (eseg_at F i)). destruct (Z.eqb_spec (es_type (eseg_at F i)) PT_LOAD) as [Hty|Hty]; cbn [when].
  2: { exists w. split; [done|]. split; [done|]. split; [done|]. split; [by intros [_ ?]|done]. }
  assert (loadable F i) as Hl by done. destruct (ek_seg _ HF i Hl) as (Hoff & Hsz & _). specialize (Hob i Hl). pose proof (ek_len _ HF) as Hlen.
  rewrite (bind_Ret _ _ _ _ _ (phdr_field w i 12 Hin Hi ltac:(lia))), (bind_Ret _ _ _ _ _ (phdr_field w i 4 Hin Hi ltac:(lia))), (bind_Ret _ _ _ _ _ (phdr_field w i 16 Hin Hi ltac:(lia))).
  pose proof (f32_range F (f32 F 28 + 32 * i + 12)) as R1. pose proof (f32_range F (f32 F 28 + 32 * i + 20)) as R2. pose proof (f32_range F (f32 F 28 + 32 * i + 16)) as R3. pose proof (f32_range F (f32 F 28 + 32 * i + 4)) as R4.
  change (f32 F (f32 F 28 + 32 * i + 12)) with (es_paddr (eseg_at F i)) in *. change (f32 F (f32 F 28 + 32 * i + 20)) with (es_memsz (eseg_at F i)) in *.
  change (f32 F (f32 F 28 + 32 * i + 16)) with (es_filesz (eseg_at F i)) in *. change (f32 F (f32 F 28 + 32 * i + 4)) with (es_off (eseg_at F i)) in *.
  unfold seg_range. set (g := eseg_at F i) in *. rewrite u64_small by lia.
  destruct (lw_copy _ _ HL (es_paddr g) (buf + es_off g) (es_filesz g) w) as (w1 & -> % (bind_Ret _ _ _ _ _) & U1 & M1).
  assert (file_in (w_mem w1) buf F) as Hin1 by (apply (file_in_kept _ _ Hin); intros b Hb; rewrite M1, decide_False by lia; done).
  assert (forall k, 0 <= k < es_filesz g -> ld8 (w_mem w1) (es_paddr g + k) = f8 F (es_off g + k)) as Hfile.
  { intros k Hk. rewrite M1, decide_True by lia. replace (buf + es_off g + (es_paddr g + k - es_paddr g)) with (buf + (es_off g + k)) by lia. apply Hin. lia. }
  rewrite (bind_Ret _ _ _ _ _ (phdr_field w1 i 20 Hin1 Hi ltac:(lia))), (bind_Ret _ _ _ _ _ (phdr_field w1 i 16 Hin1 Hi ltac:(lia))).
  change (f32 F (f32 F 28 + 32 * i + 20)) with (es_memsz g). change (f32 F (f32 F 28 + 32 * i + 16)) with (es_filesz g).
  destruct (Z.ltb_spec (es_filesz g) (es_memsz g)) as [Hlt|Hge]; cbn [when].
  - rewrite u64_small, u32_small by lia. destruct (lw_set _ _ HL (es_paddr g + es_filesz g) (es_memsz g - es_filesz g) 0 w1) as (w2 & -> & U2 & M2).
    exists w2. split; [done|]. split; [congruence|]. split; [apply (file_in_kept _ _ Hin1); intros b Hb; rewrite M2, decide_False by lia; done|]. split.
    + intros _. split; intros k Hk; [rewrite M2, decide_False by lia; by apply Hfile|by rewrite M2, decide_True by lia].
    + intros b Hb. assert (~ (es_paddr g <= b < es_paddr g + es_memsz g)) by (intros ?; by apply Hb). rewrite M2, decide_False, M1, decide_False by lia. done.
  - exists w1. split; [done|]. split; [done|]. split; [done|]. split; [intros _; split; [done|lia]|].
    intros b Hb. assert (~ (es_paddr g <= b < es_paddr g + es_memsz g)) by (intros ?; by apply Hb). rewrite M1, decide_False by lia. done.
Qed.

Lemma seg_placed_kept (m m' : mem) i : loadable F i -> (forall b, seg_range i b -> ld8 m' b = ld8 m b) -> seg_placed m F (eseg_at F i) -> seg_placed m' F (eseg_at F i).
Proof.
  intros Hl Hk [P1 P2]. destruct (ek_seg _ HF i Hl) as (_ & Hsz & _). unfold seg_range in Hk. pose proof (f32_range F (f32 F 28 + 32 * i + 16)) as R3.
  change (f32 F (f32 F 28 + 32 * i + 16)) with (es_filesz (eseg_at F i)) in R3. split; intros k Hk'; rewrite Hk by lia; [by apply P1|by apply P2].
Qed.

Lemma place_loop_run fuel : forall (w : world R) i, file_in (w_mem w) buf F -> off_buffer -> 0 <= i <= f16 F 44 -> f16 F 44 - i < Z.of_nat fuel ->
  (forall j, loadable F j -> j < i -> seg_placed (w_mem w) F (eseg_at F j)) ->
  exists w', place_loop sv fuel buf phdr i w = (Ret tt, w') /\ w_used w' = w_used w /\ file_in (w_mem w') buf F /\
    (forall j, loadable F j -> seg_placed (w_mem w') F (eseg_at F j)) /\
    (forall b, (forall j, loadable F j -> ~ seg_range j b) -> ld8 (w_mem w') b = ld8 (w_mem w) b).
Proof.
  induction fuel as [|fuel IH]; intros w i Hin Hob Hi Hf Hp; [lia|]. cbn [place_loop]. rewrite (bind_Ret _ _ _ _ _ (phnum_field w Hin)).
  destruct (Z.ltb_spec i (f16 F 44)).
  - destruct (place_run w i Hin Hob ltac:(lia)) as (w1 & Hr & U1 & Hin1 & Hpl & Hfr). rewrite (bind_Ret _ _ _ _ _ Hr).
    destruct (IH w1 (i + 1) Hin1 Hob ltac:(lia) ltac:(lia)) as (w2 & Hr2 & U2 & Hin2 & Hp2 & Hfr2).
    { intros j Hj Hji. destruct (decide (j = i)) as [->|Hne]; [by apply Hpl|]. apply (seg_placed_kept (w_mem w)); [done| |apply Hp; [done|lia]].
      intros b Hb. apply Hfr. intros [Hli Hbi]. unfold seg_range in Hb, Hbi. destruct (ek_apart _ HF i j Hli Hj ltac:(lia)); lia. }
    exists w2. split; [done|]. split; [congruence|]. split; [done|]. split; [done|]. intros b Hb. rewrite Hfr2, Hfr by (done || (intros [? ?]; by apply (Hb i))). done.
  - exists w. split; [done|]. split; [done|]. split; [done|]. split; [|done]. intros j Hj. apply Hp; [done|]. destruct Hj; lia.
Qed.
End Run.

Lemma relocate_run jk path w : elf_ok (file path) ->
  wp (RelocateELF sv jk path) (fun r w' => keeps w w' /\ (EFI_ERROR sv r.1 = false ->
    r.2 = Some (f32 (file path) 24) /\ (forall i, loadable (file path) i -> seg_placed (w_mem w') (file path) (eseg_at (file path) i)) /\
    (forall i b, loadable (file path) i -> seg_range (file path) i b -> in_use (w_used w') b))) w.
Proof.
  intros HF. set (F := file path) in *. pose proof (ek_len _ HF) as Hlen. pose proof (f16_range F 44) as R16. unfold RelocateELF.
  destruct (load_file_run path w ltac:(fold F; lia)) as (st & buf & n & w1 & Hr & K1 & Hok). apply wp_bind. eapply wp_eq; [exact Hr|]. cbv beta iota.
  destruct (EFI_ERROR sv st) eqn:E1; [apply wp_ret; cbn [fst]; split; [done|congruence]|]. destruct (Hok eq_refl) as (U1 & (A1 & A2 & A3 & A4) & Hn & Hin & Hfr). fold F in Hn, Hin.
  assert (0 <= buf <= 4503599627370496) as Hbuf by lia.
  apply wp_bind, wp_gets. rewrite (u64_small (buf + 28)) by lia. rewrite (file_in_ld32 _ _ F) by (done || lia).
  destruct (measure_loop_run F HF buf Hbuf phdr_fuel w1 0 (jk, false) Hin ltac:(lia) ltac:(unfold phdr_fuel; lia)) as (acc & Hm & Hc); [destruct jk; split; [done|intros j [? _]; lia]|].
  apply wp_bind. eapply wp_eq; [exact Hm|]. destruct acc as [[s e] init]. cbv beta iota.
  set (ps := u64 (u64 (e - s) / 4096 + 1)). destruct (lw_at _ _ HL ps s w1) as (st2 & w2 & Hal & M2 & Hal1 & Hal2). apply wp_bind. eapply wp_eq; [exact Hal|]. cbv beta iota.
  destruct (EFI_ERROR sv st2) eqn:E2; [apply wp_ret; cbn [fst]; split; [eapply keeps_trans; [exact K1|]; apply same_keeps; split; auto|congruence]|]. destruct (Hal1 eq_refl) as (U2 & B1 & B2 & B3 & B4). rewrite U1 in B4. inversion B4 as [|? ? Hdb Hdu]; subst. cbn [fst snd] in Hdb.
  destruct Hc as [Hc1 Hc2]. assert (init = true -> e - s < 4096 * ps) as Hps.
  { intros Hinit. destruct (Hc1 Hinit) as [C1 C2]. unfold ps. rewrite (u64_small (e - s)), u64_small by zdm. zdm. }
  assert (forall j b, loadable F j -> seg_range F j b -> s <= b < s + 4096 * ps) as Hseg.
  { intros j b Hj Hb. destruct (Hc2 j Hj ltac:(apply Hj)) as (Hinit & C1 & C2). specialize (Hps Hinit). unfold seg_range in Hb. lia. }
  assert (off_buffer F buf) as Hob. { intros j Hj. destruct (Hc2 j Hj ltac:(apply Hj)) as (Hinit & C1 & C2). specialize (Hps Hinit). pose proof (f32_range F (f32 F 28 + 32 * j + 20)) as R2. change (f32 F (f32 F 28 + 32 * j + 20)) with (es_memsz (eseg_at F j)) in R2. lia. }
  destruct (place_loop_run F HF buf Hbuf phdr_fuel w2 0 ltac:(by rewrite M2) Hob ltac:(lia) ltac:(unfold phdr_fuel; lia)) as (w3 & Hpl & U3 & Hin3 & Hp3 & Hfr3); [intros j [? _]; lia|].
  apply wp_bind. eapply wp_eq; [exact Hpl|]. cbv beta. apply wp_bind, wp_gets. rewrite (u64_small (buf + 24)) by lia. rewrite (file_in_ld32 _ _ F) by (done || lia).
  destruct (lw_free _ _ HL buf n w3) as (w4 & Hfree & M4). apply wp_bind. eapply wp_eq; [exact Hfree|]. apply wp_ret. cbn [fst snd]. split; [|intros _; split; [done|split]].
  - intros b Hb. assert (~ (buf <= b < buf + 4096 * n)) as Hnb by (apply (fresh_not_used _ _ (w_used w)); [by split_and!|done]).
    assert (~ (s <= b < s + 4096 * ps)) as Hns by (apply (fresh_not_used _ _ (w_used w)); [by split_and!|done]).
    destruct (M4 b Hnb) as [E4 U4]. split; [rewrite E4, Hfr3; [rewrite M2; by apply Hfr|]|apply U4; rewrite U3, U2, U1; by do 2 right].
    intros j Hj Hs. by apply Hns, (Hseg j b).
  - intros j Hj. eapply (seg_placed_kept F) with (m := w_mem w3); [exact HF|exact buf|exact Hj| |by apply Hp3]. intros b Hb. apply M4. pose proof (Hseg j b Hj Hb). lia.
  - intros j b Hj Hb. pose proof (Hseg j b Hj Hb) as Hr'. destruct (M4 b ltac:(lia)) as [_ U4]. apply U4. rewrite U3, U2. by left.
Qed.

End Elf.
