(* ===== verification/LoaderBoot.v ===== *)
(** * What the loader hands to the kernel

    loader.c leaves the boot parameters at a fixed address and a copy of the
    firmware's processor table behind them; mp_uefi.c reads both. *)
From S2P Require Import Prelude Mem Mp Loader LoaderElf.

(** ** 16 and 64 bit accesses *)
Lemma ld8_st64_ne m a v b : ~ (a <= b < a + 8) -> ld8 (st64 m a v) b = ld8 m b.
Proof. intros H. unfold st64. by rewrite !ld8_st32_ne by lia. Qed.

Lemma ld64_st64 m a v : 0 <= v < 18446744073709551616 -> ld64 (st64 m a v) a = v.
Proof.
  intros Hv. unfold ld64, st64. rewrite ld32_st32_eq by zdm. rewrite ld32_st32_ne by lia. rewrite ld32_st32_eq by zdm. zdm.
Qed.

Lemma ld64_ext m m' a : (forall b, a <= b < a + 8 -> ld8 m' b = ld8 m b) -> ld64 m' a = ld64 m a.
Proof. intros H. unfold ld64. rewrite (ld32_ext m m' a), (ld32_ext m m' (a + 4)); [done|intros; apply H; lia..]. Qed.

Lemma ld64_stored m m' a v : 0 <= v < 18446744073709551616 -> (forall b, a <= b < a + 8 -> ld8 m' b = ld8 (st64 m a v) b) -> ld64 m' a = v.
Proof. intros Hv H. transitivity (ld64 (st64 m a v) a); [by apply ld64_ext|by apply ld64_st64]. Qed.

Lemma ld64_range m a : 0 <= ld64 m a < 18446744073709551616.
Proof. unfold ld64. pose proof (ld32_range m a). pose proof (ld32_range m (a + 4)). lia. Qed.

Section Handover.
Context {R : Type} (sv : services (R := R)) (file : string -> list Z) (name_of : Z -> string) (HL : laws sv file name_of).

(** The rest of the services the loader uses; the configuration table for ACPI
    is at [rsdp].  Pools are above the first megabyte. *)
Record boot_laws (rsdp : Z) : Prop := BootLaws {
  bl_pool : forall n w, exists st a w', AllocatePool sv n w = (Ret (st, a), w') /\ w_mem w' = w_mem w /\
    (EFI_ERROR sv st = false -> w_used w' = (a, n) :: w_used w /\ fresh a n (w_used w) /\ 1048576 <= a) /\ (EFI_ERROR sv st = true -> w_used w' = w_used w);
  bl_map : forall n a w, exists st ms key ds w', GetMemoryMap sv n a w = (Ret (st, (ms, key, ds)), w') /\ w_used w' = w_used w /\
    (forall b, ~ (a <= b < a + n) -> ld8 (w_mem w') b = ld8 (w_mem w) b) /\ (st = EFI_BUFFER_TOO_SMALL sv \/ 0 <= ms <= n /\ 1 <= ds <= n);
  bl_write : forall f l w, exists st w', Write sv f l w = (Ret st, w') /\ same w w';
  bl_close : forall f w, exists st w', Close sv f w = (Ret st, w') /\ same w w';
  bl_exit : forall k w, exists st w', ExitBootServices sv k w = (Ret st, w') /\ same w w';
  bl_config : forall w, exists st w', EfiGetSystemConfigurationTable sv w = (Ret (st, rsdp), w') /\ same w w';
  bl_handles : forall w, exists st w', LocateHandleBuffer sv w = (Ret st, w') /\ same w w';
  bl_protocol : forall w, exists st w', OpenProtocol sv w = (Ret st, w') /\ same w w';
  bl_query : forall i w, exists st h v w', QueryMode sv i w = (Ret (st, (h, v)), w') /\ same w w';
  bl_cmp : forall m a l, Forall (fun c => 0 < c < 256) l -> AsciiStrnCmp sv m a l (Z.of_nat (length l)) = 0 <-> bytes m a (length l) = l;
}.

Context (rsdp : Z) (HB : boot_laws rsdp).

(** ** Services that change nothing *)
Lemma same_chain (w1 w2 w3 : world R) : same w1 w2 -> same w2 w3 -> same w1 w3.
Proof. intros [] []. split; congruence. Qed.

Lemma mode_loop_run n : forall i ix res w, exists r w', mode_loop sv n i ix res w = (Ret r, w') /\ same w w'.
Proof.
  induction n as [|n IH]; intros i ix res w; cbn [mode_loop]; [by exists (inr (ix, res)), w|].
  destruct (bl_query _ HB i w) as (st & h & v & w1 & -> % (bind_Ret _ _ _ _ _) & S1). cbv beta iota.
  destruct (EFI_ERROR sv st); [by exists (inl st), w1|]. destruct (negb _); [|destruct (res <? _)];
    (edestruct IH as (r & w2 & Hr & K2); exists r, w2; split; [exact Hr|by eapply same_chain]).
Qed.

Lemma graphic_mode_run w : exists st g w', GetGraphicMode sv w = (Ret (st, g), w') /\ same w w' /\ (g = None \/ g = Some (gop_mode sv)).
Proof.
  unfold GetGraphicMode. destruct (bl_handles _ HB w) as (st & w1 & -> % (bind_Ret _ _ _ _ _) & S1). destruct (EFI_ERROR sv st); [exists st, None, w1; auto|].
  destruct (bl_protocol _ HB w1) as (st2 & w2 & -> % (bind_Ret _ _ _ _ _) & S2). assert (same w w2) as K2 by (by eapply same_chain). destruct (EFI_ERROR sv st2); [exists st2, None, w2; auto|].
  destruct (mode_loop_run (Z.to_nat (MaxMode sv)) 0 0 0 w2) as (r & w3 & -> % (bind_Ret _ _ _ _ _) & K3). assert (same w w3) as K by (by eapply same_chain).
  destruct r as [st3|?]; [exists st3, None, w3; auto|exists (EFI_SUCCESS sv), (Some (gop_mode sv)), w3; auto].
Qed.

Lemma memmap_loop_run fuel : forall f buf ms ds it i w, 0 <= it <= buf + ms + ds -> Z.max 0 (buf + ms - it) < Z.of_nat fuel -> 0 <= buf -> 0 <= ms -> 1 <= ds -> buf + ms + ds < 18446744073709551616 ->
  exists r w', memmap_loop sv fuel f buf ms ds it i w = (Ret r, w') /\ keeps w w'.
Proof.
  induction fuel as [|fuel IH]; intros f buf ms ds it i w H0 Hf Hb Hm Hd Hmax; [lia|]. cbn [memmap_loop]. rewrite (u64_small (buf + ms)) by lia.
  destruct (Z.ltb_spec it (buf + ms)); [|exists None, w; split; [done|apply keeps_refl]]. unfold bind at 1, gets.
  match goal with |- context [Write sv f ?l] => destruct (bl_write _ HB f l w) as (st & w1 & -> % (bind_Ret _ _ _ _ _) & S1 % same_keeps) end.
  destruct (EFI_ERROR sv st); [by exists (Some st), w1|]. rewrite u64_small by lia.
  destruct (IH f buf ms ds (it + ds) (i + 1) w1) as (r & w2 & Hr & K2); [lia..|]. exists r, w2. split; [done|by eapply keeps_trans].
Qed.

Lemma pool_map_run n w : exists st a w1, AllocatePool sv n w = (Ret (st, a), w1) /\ keeps w w1 /\ w_mem w1 = w_mem w /\
  (EFI_ERROR sv st = false -> 1048576 <= a <= 4503599627370496 /\ exists st2 ms key ds w2, GetMemoryMap sv n a w1 = (Ret (st2, (ms, key, ds)), w2) /\ keeps w w2 /\
    (forall b, b < 1048576 -> ld8 (w_mem w2) b = ld8 (w_mem w) b) /\ (st2 = EFI_BUFFER_TOO_SMALL sv \/ 0 <= ms <= n /\ 1 <= ds <= n)).
Proof.
  destruct (bl_pool _ HB n w) as (st & a & w1 & E & M1 & Hok & Hno). exists st, a, w1. split; [done|]. destruct (EFI_ERROR sv st) eqn:Ee.
  - split; [apply same_keeps; split; auto|]. split; [done|congruence].
  - destruct (Hok eq_refl) as (U1 & Hfr & Ha). assert (keeps w w1) as K1 by (by eapply alloc_keeps). split; [done|]. split; [done|]. intros _. split; [destruct Hfr; lia|].
    destruct (bl_map _ HB n a w1) as (st2 & ms & key & ds & w2 & E2 & U2 & M2 & Hd). exists st2, ms, key, ds, w2. split; [done|]. split; [|split; [|done]].
    + intros b Hb. pose proof (fresh_not_used _ _ _ _ Hfr Hb). destruct (K1 b Hb). rewrite M2 by lia. by rewrite U2.
    + intros b Hb. rewrite M2 by lia. congruence.
Qed.

Lemma memmap_file_run fuel w : MEM_MAP_SIZE < Z.of_nat fuel -> exists st w', GetMemoryMapFile sv fuel w = (Ret st, w') /\ keeps w w'.
Proof.
  intros Hf. unfold GetMemoryMapFile. destruct (pool_map_run MEM_MAP_SIZE w) as (st & a & w1 & -> % (bind_Ret _ _ _ _ _) & K1 & _ & Hm). cbv beta iota.
  destruct (EFI_ERROR sv st) eqn:E1; [by exists st, w1|]. destruct (Hm eq_refl) as (Ha & st2 & ms & key & ds & w2 & -> % (bind_Ret _ _ _ _ _) & K2 & _ & Hd). cbv beta iota.
  destruct (Z.eqb_spec st2 (EFI_BUFFER_TOO_SMALL sv)); [by exists st2, w2|]. destruct Hd as [?|[Hms Hds]]; [done|].
  destruct (lw_locate _ _ _ HL w2) as (st3 & w3 & -> % (bind_Ret _ _ _ _ _) & S3 % same_keeps). assert (keeps w w3) as K3 by (by eapply keeps_trans). destruct (EFI_ERROR sv st3); [by exists st3, w3|].
  destruct (lw_volume _ _ _ HL w3) as (st4 & w4 & -> % (bind_Ret _ _ _ _ _) & S4 % same_keeps). assert (keeps w w4) as K4 by (by eapply keeps_trans). destruct (EFI_ERROR sv st4); [by exists st4, w4|].
  destruct (lw_open _ _ _ HL "\memmap"%string true w4) as (st5 & f & w5 & -> % (bind_Ret _ _ _ _ _) & S5 % same_keeps & _). assert (keeps w w5) as K5 by (by eapply keeps_trans). cbv beta iota. destruct (EFI_ERROR sv st5); [by exists st5, w5|].
  destruct (bl_write _ HB f memmap_header w5) as (st6 & w6 & -> % (bind_Ret _ _ _ _ _) & S6 % same_keeps). assert (keeps w w6) as K6 by (by eapply keeps_trans). destruct (EFI_ERROR sv st6); [by exists st6, w6|].
  unfold MEM_MAP_SIZE in *. destruct (memmap_loop_run fuel f a ms ds a 0 w6) as (r & w7 & -> % (bind_Ret _ _ _ _ _) & K7); [lia..|]. assert (keeps w w7) as K by (by eapply keeps_trans).
  destruct r as [st7|]; [by exists st7, w7|]. destruct (bl_close _ HB f w7) as (st8 & w8 & E8 & S8 % same_keeps). exists st8, w8. split; [done|by eapply keeps_trans].
Qed.

(** ** The firmware's tables *)
Context (w0 : world R) (xsdt : Z) (n k : nat) (rs : list record).

Definition BP : Z := 327680.

Definition COPY : Z := 337284.

Definition madt_len : Z := 44 + Z.of_nat (length (table rs)).

(** The memory the loader writes: the parameters and the copy of the table. *)
Definition area (b : Z) : Prop := BP <= b < COPY + madt_len.

Definition stable (b : Z) : Prop := in_use (w_used w0) b /\ ~ area b.

Definition table_at (i : nat) : Z := ld64 (w_mem w0) (xsdt + 36 + 8 * Z.of_nat i).

(** The root table lists [n] tables, of which number [k] is the MADT, with the
    records [rs].  All are in allocated memory that the loader does not write. *)
Record tables : Prop := Tables {
  tb_size : COPY + madt_len <= 1048576;
  tb_addr : 0 <= rsdp <= 4503599627370496 /\ 0 <= xsdt <= 4503599627370496 /\ forall i, (i < n)%nat -> 0 <= table_at i <= 4503599627370496;
  tb_rsdp : ld64 (w_mem w0) (rsdp + 24) = xsdt /\ forall b, rsdp + 24 <= b < rsdp + 32 -> stable b;
  tb_xsdt : ld32 (w_mem w0) (xsdt + 4) = 36 + 8 * Z.of_nat n /\ forall b, xsdt <= b < xsdt + 36 + 8 * Z.of_nat n -> stable b;
  tb_sig : forall i, (i < n)%nat -> (bytes (w_mem w0) (table_at i) 4 = ascii_bytes "APIC" <-> i = k) /\ forall b, table_at i <= b < table_at i + 8 -> stable b;
  tb_k : (k < n)%nat;
  tb_madt : ld32 (w_mem w0) (table_at k + 4) = madt_len /\ forall b, table_at k <= b < table_at k + madt_len -> stable b;
  tb_records : bytes (w_mem w0) (table_at k + 44) (length (table rs)) = table rs /\ Forall record_ok rs;
}.

Context (HT : tables).

(** The tables are still there. *)
Definition intact (w : world R) : Prop := forall b, stable b -> ld8 (w_mem w) b = ld8 (w_mem w0) b /\ in_use (w_used w) b.

Lemma intact_start : intact w0.
Proof. intros b [Hb _]. done. Qed.

Lemma intact_keeps w w' : intact w -> keeps w w' -> intact w'.
Proof. intros H K b Hb. destruct (H b Hb) as [E U]. destruct (K b U) as [E' U']. split; [congruence|done]. Qed.

(** Writes inside the area. *)
Lemma intact_area w w' : intact w -> w_used w' = w_used w -> (forall b, ~ area b -> ld8 (w_mem w') b = ld8 (w_mem w) b) -> intact w'.
Proof. intros H U M b Hb. destruct (H b Hb) as [E U']. rewrite U, M by (by destruct Hb). done. Qed.

Lemma intact_ld64 w a : intact w -> (forall b, a <= b < a + 8 -> stable b) -> ld64 (w_mem w) a = ld64 (w_mem w0) a.
Proof. intros H Hs. apply ld64_ext. intros b Hb. by apply H, Hs. Qed.

Lemma intact_ld32 w a : intact w -> (forall b, a <= b < a + 4 -> stable b) -> ld32 (w_mem w) a = ld32 (w_mem w0) a.
Proof. intros H Hs. apply ld32_ext. intros b Hb. by apply H, Hs. Qed.

(** The copy of the table and its address. *)
Definition copied (m : mem) : Prop :=
  ld64 m (BP + 8) = COPY /\ forall i, 0 <= i < madt_len -> ld8 m (COPY + i) = ld8 (w_mem w0) (table_at k + i).

(** The parameters before and after the address of the table. *)
Definition front (b : Z) : Prop := BP <= b < BP + 8 \/ BP + 16 <= b < BP + 98.

Lemma copied_ext m m' : copied m -> (forall b, area b -> ~ (BP <= b < BP + 8 \/ BP + 16 <= b < BP + 98) -> ld8 m' b = ld8 m b) -> copied m'.
Proof.
  intros [C1 C2] H. split.
  - rewrite <- C1. apply ld64_ext. intros b Hb. apply H; unfold area, BP, COPY, madt_len in *; lia.
  - intros i Hi. rewrite H by (unfold area, BP, COPY, madt_len in *; lia). by apply C2.
Qed.

Lemma xsdt_entry_run w i acc : intact w -> (i < n)%nat ->
  exists w', xsdt_entry sv BP xsdt (Z.of_nat i) acc w = (Ret (if decide (i = k) then table_at k else acc), w') /\ intact w' /\
    (i = k -> copied (w_mem w')) /\ (i <> k -> w' = w) /\ (forall b, front b -> ld8 (w_mem w') b = ld8 (w_mem w) b).
Proof.
  intros Hw Hi. destruct (tb_addr HT) as (_ & Hx & Hh). specialize (Hh i Hi). destruct (tb_xsdt HT) as [Hxl Hxs]. pose proof (ld32_range (w_mem w0) (xsdt + 4)) as Hnr. rewrite Hxl in Hnr. destruct (tb_sig HT i Hi) as [Hsig Hss]. pose proof (tb_size HT) as Hsz. unfold madt_len in Hsz.
  unfold xsdt_entry. unfold bind at 1, w_ld at 1, gets. rewrite (u64_small (xsdt + 36 + 8 * Z.of_nat i)) by lia. rewrite (intact_ld64 w) by (done || (intros b Hb; apply Hxs; lia)). fold (table_at i).
  unfold bind at 1, get. change (AsciiStrnCmp sv (w_mem w) (table_at i) (ascii_bytes "APIC") 4) with (AsciiStrnCmp sv (w_mem w) (table_at i) (ascii_bytes "APIC") (Z.of_nat (length (ascii_bytes "APIC")))). pose proof (bl_cmp _ HB (w_mem w) (table_at i) (ascii_bytes "APIC") ltac:(repeat constructor)) as Hcmp.
  rewrite (bytes_ext _ (w_mem w0) (table_at i) (table_at i)) in Hcmp. 2: { intros j Hj. apply Hw, Hss. change (length (ascii_bytes "APIC")) with 4%nat in Hj. lia. }
  destruct (Z.eqb_spec (AsciiStrnCmp sv (w_mem w) (table_at i) (ascii_bytes "APIC") (Z.of_nat (length (ascii_bytes "APIC")))) 0) as [E|E].
  - apply Hcmp, Hsig in E as ->. rewrite decide_True by done. unfold bind at 1, w_st, modify. set (w1 := set_w_mem _ w).
    assert (w_mem w1 = st64 (w_mem w) (BP + 8) COPY) as Em1 by (cbn [w1 w_mem set_w_mem]; rewrite !u64_small by (unfold BP, bp_madt_addr, sizeof_boot_param; lia); done).
    assert (intact w1) as Hw1. { apply (intact_area w); [done|done|]. intros b Hb. rewrite Em1. apply ld8_st64_ne. unfold area, BP, COPY, madt_len in *. lia. }
    unfold bind at 1, w_ld at 1, gets. rewrite (u64_small (BP + bp_madt_addr)) by (unfold BP, bp_madt_addr; lia). unfold bp_madt_addr. rewrite Em1. rewrite ld64_st64 by (unfold COPY; lia).
    unfold bind at 1, w_ld, gets. rewrite (u64_small (table_at k + 4)) by lia. destruct (tb_madt HT) as [Hml Hms]. rewrite (intact_ld32 w1) by (done || (intros b Hb; apply Hms; unfold madt_len in *; lia)). rewrite Hml.
    destruct (lw_copy _ _ _ HL COPY (table_at k) madt_len w1) as (w2 & -> % (bind_Ret _ _ _ _ _) & U2 & M2).
    exists w2. split; [done|]. split; [|split; [|split; [done|]]].
    + apply (intact_area w1); [done|done|]. intros b Hb. rewrite M2, decide_False; [done|]. unfold area, BP, COPY in *. lia.
    + intros _. split.
      * rewrite <- (ld64_st64 (w_mem w) (BP + 8) COPY) by (unfold COPY; lia). rewrite <- Em1. apply ld64_ext. intros b Hb. rewrite M2, decide_False by (unfold BP, COPY in *; lia). done.
      * intros j Hj. rewrite M2, decide_True by lia. replace (table_at k + (COPY + j - COPY)) with (table_at k + j) by lia. apply Hw1, Hms. lia.
    + intros b Hb. rewrite M2, decide_False by (unfold front, BP, COPY in *; lia). rewrite Em1. apply ld8_st64_ne. unfold front in Hb. lia.
  - rewrite decide_False by (intros ->; by apply E, Hcmp, Hsig). exists w. split; [done|]. split; [done|]. split; [intros ->; by destruct E; apply Hcmp, Hsig|]. done.
Qed.

Lemma xsdt_loop_run fuel : forall w i acc, intact w -> (i + fuel = n)%nat -> ((k < i)%nat -> copied (w_mem w) /\ acc = table_at k) ->
  exists w', xsdt_loop sv fuel BP xsdt (Z.of_nat i) acc w = (Ret (table_at k), w') /\ intact w' /\ copied (w_mem w') /\ (forall b, front b -> ld8 (w_mem w') b = ld8 (w_mem w) b).
Proof.
  induction fuel as [|fuel IH]; intros w i acc Hw Hi Hc; cbn [xsdt_loop].
  - pose proof (tb_k HT). destruct Hc as [Hc ->]; [lia|]. by exists w.
  - destruct (xsdt_entry_run w i acc Hw ltac:(lia)) as (w1 & Hr & Hw1 & Hc1 & Hsame & Hf1). rewrite (bind_Ret _ _ _ _ _ Hr). replace (Z.of_nat i + 1) with (Z.of_nat (S i)) by lia.
    destruct (IH w1 (S i) (if decide (i = k) then table_at k else acc) Hw1 ltac:(lia)) as (w2 & Hr2 & Hw2 & Hc2 & Hf2).
    { intros Hk. destruct (decide (i = k)) as [->|Hne]; [by split; [apply Hc1|]|]. rewrite (Hsame Hne). apply Hc. lia. }
    exists w2. split; [done|]. split; [done|]. split; [done|]. intros b Hb. by rewrite Hf2, Hf1.
Qed.

(** The walk over the copy. *)
Lemma print_record_run (w : world R) i r : copied (w_mem w) -> 0 <= i -> i + Z.of_nat (length (encode r)) <= madt_len -> record_ok r -> bytes (w_mem w) (COPY + i) (length (encode r)) = encode r ->
  print_record BP i w = (Ret (i + Z.of_nat (length (encode r))), w).
Proof.
  intros [C1 _] Hi Hle [Hl Hr] He. pose proof (tb_size HT) as Hsz. unfold encode in *. cbn [length] in *.
  apply bytes_S in He as (x & l & E & H0 & He). injection E as <- <-. apply bytes_S in He as (x & l & E & H1 & He). injection E as <- <-.
  unfold print_record, bind, w_ld, gets, bp_madt_addr. rewrite (u64_small (BP + 8)) by (unfold BP; lia). rewrite C1. rewrite (u64_small (COPY + i)), (u64_small (COPY + i + 1)) by (unfold COPY in *; lia). rewrite H0, H1.
  destruct r as [p a rest|a rest|ty rest|rest]; cbn [rtype payload length] in *; [| |destruct Hr as [-> | ->]|]; cbn [Z.eqb Pos.eqb orb]; unfold ret; rewrite u64_small by (unfold COPY in *; lia); do 2 f_equal; lia.
Qed.

Lemma print_loop_run rs' : forall fuel i (w : world R), intact w -> copied (w_mem w) -> (length rs' < fuel)%nat -> 0 <= i -> i + Z.of_nat (length (table rs')) = madt_len -> Forall record_ok rs' ->
  bytes (w_mem w) (COPY + i) (length (table rs')) = table rs' -> print_loop fuel BP (table_at k) i w = (Ret tt, w).
Proof.
  destruct (tb_addr HT) as (_ & _ & Hh). specialize (Hh k (tb_k HT)). destruct (tb_madt HT) as [Hml Hms].
  induction rs' as [|r rs' IH]; intros fuel i w Hw Hc Hf Hi Hlen Hok Hb; (destruct fuel as [|fuel]; [cbn [length] in Hf; lia|]); cbn [print_loop]; unfold bind at 1, w_ld, gets; rewrite u64_small by lia;
    rewrite (intact_ld32 w) by (done || (intros b Hb'; apply Hms; unfold madt_len in *; lia)); rewrite Hml.
  - change (length (table [])) with 0%nat in Hlen. assert ((i <? madt_len) = false) as -> by (apply Z.ltb_ge; lia). done.
  - inversion Hok as [|? ? Hr Hrs]; subst. unfold table in Hlen, Hb. cbn [fmap list_fmap concat] in Hlen, Hb. fold (table rs') in Hlen, Hb. rewrite length_app in Hlen, Hb.
    assert (0 < length (encode r))%nat by (unfold encode; cbn [length]; lia). assert ((i <? madt_len) = true) as -> by (apply Z.ltb_lt; lia).
    rewrite bytes_split in Hb. apply app_inj_1 in Hb as [H1 H2]; [|by rewrite length_bytes].
    rewrite (bind_Ret _ _ _ _ _ (print_record_run w i r Hc Hi ltac:(lia) Hr H1)). apply IH; try done; [cbn [length] in Hf; lia|lia|lia|]. rewrite <- H2 at 2. f_equal. lia.
Qed.

Lemma copied_records m : copied m -> bytes m (COPY + 44) (length (table rs)) = table rs.
Proof.
  intros [_ C]. destruct (tb_records HT) as [E _]. rewrite <- E at 2. apply bytes_ext. intros j Hj. rewrite <- Z.add_assoc. rewrite C by (unfold madt_len; lia). f_equal. lia.
Qed.

(** ** The parameters *)
Lemma w_st_run (st : mem -> Z -> Z -> mem) a v (w : world R) : 0 <= a < 18446744073709551616 -> w_st st a v w = (Ret tt, set_w_mem (fun m => st m a v) w).
Proof. intros H. unfold w_st. by rewrite u64_small. Qed.

(** The descriptors: none, code and data, both over the whole address space. *)
Definition flat_gdt : list Z := replicate 8 0 ++ [255; 255; 0; 0; 0; 154; 207; 0] ++ [255; 255; 0; 0; 0; 146; 207; 0].

Definition gdt_bytes (m : mem) : mem :=
  let g := BP + 56 in
  let flat m a acc := st8 (st8 (st8 (st8 (st16 (st16 m a 65535) (a + 2) 0) (a + 4) 0) (a + 5) acc) (a + 6) 207) (a + 7) 0 in
  let m := st8 (st8 (st8 (st8 (st16 (st16 m g 0) (g + 2) 0) (g + 4) 0) (g + 5) 0) (g + 6) 0) (g + 7) 0 in
  flat (flat m (g + 8) 154) (g + 16) 146.

Lemma gdt_bytes_ne m b : ~ (BP + 56 <= b < BP + 80) -> ld8 (gdt_bytes m) b = ld8 m b.
Proof. intros H. unfold gdt_bytes. cbv zeta. rewrite ?ld8_st8_ne, ?ld8_st16_ne, ?ld8_st8_ne, ?ld8_st16_ne, ?ld8_st8_ne, ?ld8_st16_ne by lia. done. Qed.

Ltac gdt_byte := rewrite ?ld8_st8_eq; first [reflexivity|rewrite ld8_st8_ne by (unfold BP; lia); gdt_byte].

Lemma gdt_bytes_flat m : bytes (gdt_bytes m) (BP + 56) 24 = flat_gdt.
Proof. unfold gdt_bytes, st16, flat_gdt, BP. cbv zeta. cbn [bytes replicate app]. repeat (apply (f_equal2 cons); [gdt_byte|]). reflexivity. Qed.

Definition graphic_ok (g : efi_graphic) : Prop :=
  0 <= eg_frame_base g < 18446744073709551616 /\ 0 <= eg_frame_size g < 18446744073709551616 /\ 0 <= eg_horizontal_resolution g < 18446744073709551616 /\
  0 <= eg_vertical_resolution g < 18446744073709551616 /\ 0 <= eg_pixels_per_scan_line g < 18446744073709551616.

(** The entry point and the configuration, where the kernel looks for them. *)
Definition params (m : mem) (e : Z) (g : efi_graphic) : Prop :=
  ld64 m BP = e /\ ld64 m (BP + 16) = eg_frame_base g /\ ld64 m (BP + 24) = eg_frame_size g /\ ld64 m (BP + 32) = eg_horizontal_resolution g /\
  ld64 m (BP + 40) = eg_vertical_resolution g /\ ld64 m (BP + 48) = eg_pixels_per_scan_line g.

Lemma params_ext m m' e g : params m e g -> (forall b, BP <= b < BP + 8 \/ BP + 16 <= b < BP + 56 -> ld8 m' b = ld8 m b) -> params m' e g.
Proof. intros (H1 & H2 & H3 & H4 & H5 & H6) H. unfold params. rewrite <- H1, <- H2, <- H3, <- H4, <- H5, <- H6. split_and!; apply ld64_ext; intros b Hb; apply H; lia. Qed.

Lemma params_stored m e g : 0 <= e < 18446744073709551616 -> graphic_ok g ->
  params (st64 (st64 (st64 (st64 (st64 (st64 m BP e) (BP + 16) (eg_frame_base g)) (BP + 24) (eg_frame_size g)) (BP + 32) (eg_horizontal_resolution g)) (BP + 40) (eg_vertical_resolution g)) (BP + 48) (eg_pixels_per_scan_line g)) e g.
Proof.
  intros He (G1 & G2 & G3 & G4 & G5). unfold params.
  split_and!; (eapply ld64_stored; [done|]; intros b Hb; rewrite ?ld8_st64_ne by lia; reflexivity).
Qed.

(** Everything the kernel finds in low memory. *)
Record handed (m : mem) (e : Z) (g : efi_graphic) : Prop := Handed {
  hd_params : params m e g;
  hd_copied : copied m;
  hd_kernel : ld64 m (BP + 90) = e;
  hd_desc : ld16 m (BP + 80) = 24 /\ ld64 m (BP + 82) = BP + 56;
  hd_gdt : bytes m (BP + 56) 24 = flat_gdt;
}.

Lemma handed_ext m m' e g : handed m e g -> (forall b, area b -> ld8 m' b = ld8 m b) -> handed m' e g.
Proof.
  intros [H1 H2 H3 [H4 H4'] H5] H. assert (forall b, BP <= b < BP + 98 -> ld8 m' b = ld8 m b) as H' by (intros b Hb; apply H; unfold area, BP, COPY, madt_len in *; lia). split.
  - apply (params_ext m); [done|]. intros b Hb. apply H'. lia.
  - apply (copied_ext m); [done|]. intros b Hb _. by apply H.
  - rewrite <- H3. apply ld64_ext. intros b Hb. apply H'. lia.
  - split; [rewrite <- H4; unfold ld16; by rewrite !H' by lia|rewrite <- H4'; apply ld64_ext; intros b Hb; apply H'; lia].
  - rewrite <- H5. apply bytes_ext. intros j Hj. apply H'. lia.
Qed.

(** The descriptor register's value and the table itself. *)
Definition desc_mem (e : Z) (m : mem) : mem := gdt_bytes (st64 (st16 (st64 m (BP + 90) e) (BP + 80) 24) (BP + 82) (BP + 56)).

Lemma desc_mem_ne e m b : ~ (BP + 56 <= b < BP + 98) -> ld8 (desc_mem e m) b = ld8 m b.
Proof. intros H. unfold desc_mem. rewrite gdt_bytes_ne, ld8_st64_ne, ld8_st16_ne, ld8_st64_ne by lia. done. Qed.

Lemma desc_handed e g m : params m e g -> copied m -> 0 <= e < 18446744073709551616 -> handed (desc_mem e m) e g.
Proof.
  intros Hp Hc He. split.
  - apply (params_ext m); [done|]. intros b Hb. apply desc_mem_ne. lia.
  - apply (copied_ext m); [done|]. intros b _ Hb. apply desc_mem_ne. lia.
  - apply (ld64_stored m); [done|]. intros b Hb. unfold desc_mem. rewrite gdt_bytes_ne, ld8_st64_ne, ld8_st16_ne by lia. done.
  - split.
    + unfold desc_mem, ld16. rewrite !gdt_bytes_ne, !ld8_st64_ne by lia. unfold st16. by rewrite ld8_st8_ne, !ld8_st8_eq by lia.
    + apply (ld64_stored (st16 (st64 m (BP + 90) e) (BP + 80) 24)); [unfold BP; lia|]. intros b Hb. unfold desc_mem. by rewrite gdt_bytes_ne by lia.
  - apply gdt_bytes_flat.
Qed.

(** ** [prepare_boot] *)
Ltac w_store := erewrite bind_Ret; [|apply w_st_run; unfold BP, bp_kernel_entry, bp_graphic_config, bp_kernel_addr, bp_bootstrap_gdt_desc, bp_bootstrap_gdt; lia].

Lemma store_graphic_run a g (w : world R) : 0 <= a <= 4503599627370496 ->
  store_graphic a g w = (Ret tt, set_w_mem (fun m => st64 (st64 (st64 (st64 (st64 m a (eg_frame_base g)) (a + 8) (eg_frame_size g)) (a + 16) (eg_horizontal_resolution g)) (a + 24) (eg_vertical_resolution g)) (a + 32) (eg_pixels_per_scan_line g)) w).
Proof. intros H. unfold store_graphic. do 4 (erewrite bind_Ret; [|apply w_st_run; lia]). rewrite w_st_run by lia. by destruct w. Qed.

Lemma set_gdt_run a type (w : world R) : 0 <= a <= 4503599627370496 -> 
  set_gdt a type 0 4294967295 w = (Ret tt, set_w_mem (fun m => st8 (st8 (st8 (st8 (st16 (st16 m a 65535) (a + 2) 0) (a + 4) 0) (a + 5) (Z.lor 144 type)) (a + 6) 207) (a + 7) 0) w).
Proof. intros H. unfold set_gdt. do 5 (erewrite bind_Ret; [|apply w_st_run; lia]). rewrite w_st_run by lia. by destruct w. Qed.

Lemma intact_low w w' : intact w -> w_used w' = w_used w -> (forall b, ~ (BP <= b < BP + 98) -> ld8 (w_mem w') b = ld8 (w_mem w) b) -> intact w'.
Proof. intros H U M. apply (intact_area w); [done|done|]. intros b Hb. apply M. unfold area, BP, COPY, madt_len in *. lia. Qed.

Lemma prepare_run jk fuel e : 0 <= e < 18446744073709551616 -> graphic_ok (gop_mode sv) -> graphic_ok (jk_graphic jk) -> MEM_MAP_SIZE < Z.of_nat fuel -> (length rs < fuel)%nat ->
  wp (prepare_boot sv jk fuel e) (fun r w => intact w /\ match r with inl _ => True | inr a => a = e /\ exists g, (g = gop_mode sv \/ g = jk_graphic jk) /\ handed (w_mem w) e g end) w0.
Proof.
  intros He Hg1 Hg2 Hf1 Hf2. pose proof (tb_size HT) as Hsz. destruct (tb_addr HT) as (Ha1 & Ha2 & _). unfold prepare_boot.
  destruct (memmap_file_run fuel w0 Hf1) as (st1 & w1 & E1 & K1). apply wp_bind. eapply wp_eq; [exact E1|]. pose proof (intact_keeps _ _ intact_start K1) as I1.
  destruct (bl_config _ HB w1) as (st2 & w2 & E2 & K2 % same_keeps). apply wp_bind. eapply wp_eq; [exact E2|]. cbv beta iota. pose proof (intact_keeps _ _ I1 K2) as I2.
  destruct (lw_at _ _ _ HL 1 327680 w2) as (st3 & w3 & E3 & M3 & A3 & B3). apply wp_bind. eapply wp_eq; [exact E3|]. cbv beta iota.
  assert (intact w3) as I3. { apply (intact_keeps _ _ I2). destruct (EFI_ERROR sv st3); [apply same_keeps; split; auto|]. destruct (A3 eq_refl) as [U3 _]. by eapply alloc_keeps. }
  apply wp_bind, wp_gets. rewrite (u64_small (rsdp + 24)) by lia. destruct (tb_rsdp HT) as [Hr1 Hr2]. rewrite (intact_ld64 w3) by (done || (intros b Hb; apply Hr2; lia)). rewrite Hr1.
  change 327680 with BP. apply wp_bind. eapply wp_eq; [apply w_st_run; unfold BP, bp_kernel_entry; lia|]. set (w4 := set_w_mem _ w3).
  assert (intact w4) as I4. { apply (intact_low w3); [done|done|]. intros b Hb. cbn [w4 w_mem set_w_mem]. apply ld8_st64_ne. unfold bp_kernel_entry. lia. }
  destruct (graphic_mode_run w4) as (st5 & g0 & w5 & E5 & [M5 U5] & Hg0). pose proof (intact_keeps _ _ I4 (same_keeps _ _ (conj M5 U5))) as I5. apply wp_bind. eapply wp_eq; [exact E5|]. cbv beta iota.
  set (g := default (jk_graphic jk) g0). assert (g = gop_mode sv \/ g = jk_graphic jk) as Hg by (unfold g; destruct Hg0 as [-> | ->]; auto). assert (graphic_ok g) as Hgo by (by destruct Hg as [-> | ->]). clearbody g.
  apply wp_bind. eapply wp_eq; [apply store_graphic_run; unfold BP, bp_graphic_config; lia|]. set (w6 := set_w_mem _ w5).
  assert (params (w_mem w6) e g) as P6. { cbn [w6 w_mem set_w_mem]. rewrite M5. cbn [w4 w_mem set_w_mem]. exact (params_stored (w_mem w3) e g He Hgo). }
  assert (intact w6) as I6. { apply (intact_low w5); [done|done|]. intros b Hb. cbn [w6 w_mem set_w_mem]. rewrite !ld8_st64_ne by (unfold bp_graphic_config; lia). done. }
  destruct (tb_xsdt HT) as [Hx1 Hx2]. apply wp_bind, wp_gets. rewrite (u64_small (xsdt + 4)) by lia. rewrite (intact_ld32 w6) by (done || (intros b Hb; apply Hx2; lia)). rewrite Hx1.
  pose proof (ld32_range (w_mem w0) (xsdt + 4)) as Hnr. rewrite Hx1 in Hnr. rewrite u64_small by lia. replace ((36 + 8 * Z.of_nat n - 36) / 8) with (Z.of_nat n) by zdm. rewrite Nat2Z.id.
  destruct (xsdt_loop_run n w6 0 (jk_madt jk) I6 eq_refl ltac:(lia)) as (w7 & E7 & I7 & C7 & F7). apply wp_bind. eapply wp_eq; [exact E7|].
  assert (params (w_mem w7) e g) as P7. { apply (params_ext (w_mem w6)); [done|]. intros b Hb. apply F7. unfold front. lia. }
  destruct (tb_records HT) as [_ Hrok]. apply wp_bind. eapply wp_eq; [apply (print_loop_run rs fuel 44 w7 I7 C7); [done|lia|done|done|by apply copied_records]|].
  do 9 (apply wp_bind; eapply wp_eq; [apply w_st_run; unfold BP, bp_kernel_addr, bp_bootstrap_gdt_desc, bp_bootstrap_gdt; lia|]).
  do 2 (apply wp_bind; eapply wp_eq; [apply set_gdt_run; unfold BP, bp_bootstrap_gdt; lia|]). match goal with |- wp _ _ ?st => set (w8 := st) end.
  assert (w_mem w8 = desc_mem e (w_mem w7)) as M8. { cbn [w8 w_mem set_w_mem]. unfold bp_kernel_addr, bp_bootstrap_gdt_desc, bp_bootstrap_gdt. rewrite (u64_small (BP + 56)) by (unfold BP; lia). reflexivity. }
  assert (intact w8) as I8. { apply (intact_low w7); [done|done|]. intros b Hb. rewrite M8. apply desc_mem_ne. lia. }
  assert (handed (w_mem w8) e g) as H8 by (rewrite M8; by apply desc_handed).
  destruct (pool_map_run 4096 w8) as (st9 & a & w9 & E9 & K9 & M9 & Hm). apply wp_bind. eapply wp_eq; [exact E9|]. cbv beta iota. destruct (EFI_ERROR sv st9) eqn:Ee; [apply wp_ret; split; [by apply (intact_keeps _ _ I8)|done]|].
  destruct (Hm eq_refl) as (_ & st10 & ms & key & ds & w10 & E10 & K10 & M10 & _). apply wp_bind. eapply wp_eq; [exact E10|]. cbv beta iota.
  destruct (bl_exit _ HB key w10) as (st11 & w11 & E11 & [M11 U11]). apply wp_bind. eapply wp_eq; [exact E11|]. apply wp_bind, wp_gets.
  assert (handed (w_mem w11) e g) as H11. { apply (handed_ext (w_mem w8)); [done|]. intros b Hb. rewrite M11. apply M10. unfold area in Hb. lia. }
  apply wp_ret. split; [apply (intact_keeps w10); [by apply (intact_keeps _ _ I8)|by apply same_keeps]|]. rewrite u64_small by (unfold BP, bp_kernel_addr; lia). split; [apply (hd_kernel _ _ _ H11)|]. by exists g.
Qed.
End Handover.

(** ** From the loader to the kernel *)
Section Boot.
Context {R : Type} (sv : services (R := R)) (file : string -> list Z) (name_of : Z -> string) (rsdp : Z) (HL : laws sv file name_of) (HB : boot_laws sv rsdp).

Lemma tables_keep (w w1 : world R) xsdt n k rs : tables rsdp w xsdt n k rs -> keeps w w1 -> tables rsdp w1 xsdt n k rs.
Proof.
  intros [T1 T2 [T3 T3'] [T4 T4'] T5 T6 [T7 T7'] [T8 T8']] K.
  assert (forall b, stable w rs b -> stable w1 rs b /\ ld8 (w_mem w1) b = ld8 (w_mem w) b) as Hs by (intros b [Hb Ha]; destruct (K b Hb); done).
  assert (forall i, (i < n)%nat -> table_at w1 xsdt i = table_at w xsdt i) as Ht by (intros i Hi; apply ld64_ext; intros b Hb; apply Hs, T4'; lia).
  split.
  - done.
  - destruct T2 as (A1 & A2 & A3). do 2 (split; [done|]). intros i Hi. rewrite Ht by done. by apply A3.
  - split; [rewrite <- T3; apply ld64_ext; intros b Hb; apply Hs, T3'; lia|intros b Hb; by apply Hs, T3'].
  - split; [rewrite <- T4; apply ld32_ext; intros b Hb; apply Hs, T4'; lia|intros b Hb; by apply Hs, T4'].
  - intros i Hi. destruct (T5 i Hi) as [S1 S2]. rewrite Ht by done. split; [|intros b Hb; by apply Hs, S2]. rewrite <- S1. assert (bytes (w_mem w1) (table_at w xsdt i) 4 = bytes (w_mem w) (table_at w xsdt i) 4) as -> by (apply bytes_ext; intros j Hj; apply Hs, S2; lia). done.
  - done.
  - rewrite Ht by done. split; [rewrite <- T7; apply ld32_ext; intros b Hb; apply Hs, T7'; unfold madt_len in *; lia|intros b Hb; by apply Hs, T7'].
  - rewrite Ht by done. split; [|done]. rewrite <- T8 at 2. apply bytes_ext. intros j Hj. apply Hs, T7'. unfold madt_len. lia.
Qed.

(** The kernel's view of low memory. *)
Definition mapped_low (km m : mem) : Prop := forall b, 0 <= b < 1048576 -> ld8 km (MP_KERNBASE + b) = ld8 m b.

(** [mpinit_uefi] reads the copy of the table. *)
Lemma mpinit_handed (w : world R) m e g xsdt n k rs km fuel ids io : tables rsdp w xsdt n k rs -> handed w xsdt k rs m e g -> mapped_low km m -> length ids = Z.to_nat NCPU -> (length rs < fuel)%nat ->
  exists s', mpinit_uefi fuel (Mps km 0 0 ids io) = (Ret tt, s') /\ ncpu s' = Z.min NCPU (Z.of_nat (length (processors rs))) /\
    take (Z.to_nat (ncpu s')) (apicids s') = take (Z.to_nat NCPU) (processors rs) /\ ioapicid s' = default io (last (ioapics rs)) /\ lapic s' = ld32 (w_mem w) (table_at w xsdt k + 36).
Proof.
  intros HT Hh Hm Hids Hf. pose proof (tb_size _ _ _ _ _ _ HT) as Hsz. unfold COPY, madt_len in Hsz. destruct (hd_copied _ _ _ _ _ _ _ Hh) as [C1 C2].
  destruct (tb_records _ _ _ _ _ _ HT) as [Hrec Hok]. destruct (tb_madt _ _ _ _ _ _ HT) as [Hlen _].
  assert (forall a, 0 <= a -> a + 4 <= 1048576 -> ld32 km (MP_KERNBASE + a) = ld32 m a) as H32 by (intros a H0 H1; unfold ld32; rewrite <- !Z.add_assoc; by rewrite !Hm by lia).
  assert (ld32 m (BP + 8) = COPY) as Ead. { pose proof (ld32_range m (BP + 8)). pose proof (ld32_range m (BP + 8 + 4)). unfold ld64 in C1. unfold COPY in *. lia. }
  assert (forall i, 0 <= i -> i + 4 <= madt_len rs -> ld32 m (COPY + i) = ld32 (w_mem w) (table_at w xsdt k + i)) as Hc32.
  { intros i H0 H1. unfold ld32. rewrite <- !Z.add_assoc. by rewrite !C2 by lia. }
  destruct (mpinit_run fuel rs (Mps km 0 0 ids io) (MP_KERNBASE + COPY) (Z.of_nat (length (table rs)))) as (s' & H1 & H2 & H3 & H4 & H5); cbn [mp_mem].
  - replace (MP_KERNBASE + BOOTPARAM + 8) with (MP_KERNBASE + (BP + 8)) by (unfold MP_KERNBASE, BOOTPARAM, BP; lia). rewrite H32 by (unfold BP; lia). by rewrite Ead.
  - done.
  - unfold MP_KERNBASE, COPY. lia.
  - done.
  - done.
  - rewrite <- Z.add_assoc, H32 by (unfold COPY; lia). rewrite Hc32 by (unfold madt_len; lia). exact Hlen.
  - rewrite <- (copied_records rsdp w xsdt n k rs HT m (conj C1 C2)) at 2. apply bytes_ext. intros j Hj. rewrite <- !Z.add_assoc. by rewrite Hm by (unfold COPY; lia).
  - done.
  - exists s'. split; [done|]. split; [done|]. split; [done|]. split; [done|]. rewrite H5. cbn [mp_mem]. rewrite <- Z.add_assoc, H32 by (unfold COPY; lia). apply Hc32; unfold madt_len; lia.
Qed.

End Boot.
