(* ===== verification/LoaderImage.v ===== *)
(** * A small firmware

    Concrete services that satisfy the laws, with a kernel of one segment and
    tables that list two processors. *)
From S2P Require Import Prelude Mem Mp Loader LoaderElf LoaderBoot.

(** ** Memory operations *)
Lemma ld8_write_bytes l : forall m a b, ld8 (write_bytes m a l) b = if decide (a <= b < a + Z.of_nat (length l)) then u8 (default 0 (l !! Z.to_nat (b - a))) else ld8 m b.
Proof.
  induction l as [|x l IH]; intros m a b; cbn [write_bytes length].
  - by rewrite decide_False by lia.
  - rewrite IH. destruct (decide (a + 1 <= b < a + 1 + Z.of_nat (length l))) as [Hin|Hout].
    + rewrite decide_True by lia. replace (Z.to_nat (b - a)) with (S (Z.to_nat (b - (a + 1)))) by lia. done.
    + destruct (decide (b = a)) as [->|Hne].
      * rewrite ld8_st8_eq, decide_True by lia. by rewrite Z.sub_diag.
      * rewrite ld8_st8_ne by lia. by rewrite decide_False by lia.
Qed.

Lemma lookup_bytes m a n i : (i < n)%nat -> bytes m a n !! i = Some (ld8 m (a + Z.of_nat i)).
Proof.
  revert a i. induction n as [|n IH]; intros a i Hi; [lia|]. destruct i as [|i]; cbn [bytes lookup list_lookup]; [by rewrite Z.add_0_r|].
  change (bytes m (a + 1) n !! i = Some (ld8 m (a + Z.of_nat (S i)))). rewrite IH by lia. do 2 f_equal. lia.
Qed.

(** ** Services *)
Definition sample_elf : list Z :=
  [127; 69; 76; 70; 0; 0; 0; 0; 0; 0; 0; 0; 0; 0; 0; 0; 2; 0; 3; 0; 1; 0; 0; 0; 12; 0; 16; 0; 52; 0; 0; 0; 0; 0; 0; 0; 0; 0; 0; 0; 52; 0; 32; 0; 1; 0; 0; 0; 0; 0; 0; 0;
   1; 0; 0; 0; 84; 0; 0; 0; 0; 0; 16; 128; 0; 0; 16; 0; 8; 0; 0; 0; 16; 0; 0; 0; 7; 0; 0; 0; 0; 16; 0; 0;
   1; 2; 3; 4; 5; 6; 7; 8].

Definition fw_file (name : string) : list Z := if String.eqb name "\kernel" then sample_elf else [].

Definition fw_name (f : Z) : string := "\kernel".

Definition FW := world unit.

(** The first address above everything allocated. *)
Definition top (used : list (Z * Z)) : Z := foldr (fun r a => Z.max (r.1 + r.2) a) 16777216 used.

Definition fw_alloc (n : Z) : M FW (Z * Z) :=
  w ← get;
  let a := top (w_used w) in
  if (0 <=? n) && (a + n <=? 4503599627370496) then modify (fun w => World (w_mem w) ((a, n) :: w_used w) tt) ;; ret (0, a) else ret (1, 0).

Definition fw_alloc_at (n a : Z) : M FW (Z * Z) :=
  w ← get;
  if (0 <=? a) && (0 <=? n) && (a + n <=? 4503599627370496) && forallb (fun r => (a + n <=? r.1) || (r.1 + r.2 <=? a)) (w_used w)
  then modify (fun w => World (w_mem w) ((a, n) :: w_used w) tt) ;; ret (0, a) else ret (1, a).

Definition fw : services (R := unit) := {|
  EFI_ERROR st := negb (st =? 0);
  EFI_SUCCESS := 0;
  EFI_BUFFER_TOO_SMALL := 5;
  EFI_MEMORY_RUNTIME := 1;
  LocateProtocol := ret 0;
  OpenVolume := ret 0;
  Open name create := ret (if String.eqb name "\kernel" then 0 else 14, 1);
  GetInfo f := ret (0, Z.of_nat (length (fw_file (fw_name f))));
  Read f n a := modify (set_w_mem (fun m => write_bytes m a (take (Z.to_nat n) (fw_file (fw_name f))))) ;; ret 0;
  Write f l := ret 0;
  Close f := ret 0;
  AllocateAnyPages n := fw_alloc (4096 * n);
  AllocateAddress n a := fw_alloc_at (4096 * n) a;
  AllocatePool n := fw_alloc n;
  FreePages a n := ret tt;
  CopyMem d s n := modify (set_w_mem (fun m => write_bytes m d (bytes m s (Z.to_nat n))));
  SetMem d n v := modify (set_w_mem (fun m => write_bytes m d (replicate (Z.to_nat n) v)));
  AsciiStrnCmp m a l n := if decide (bytes m a (length l) = l) then 0 else 1;
  GetMemoryMap n a := ret (if 1 <=? n then 0 else 5, (Z.min n 48, 7, Z.min n 48));
  memory_type t := OtherMemoryType;
  memory_descriptor m a := MemoryDescriptor 0 0 0 0 0;
  AsciiSPrint i t s p v n r a := [];
  ExitBootServices k := ret 0;
  EfiGetSystemConfigurationTable := ret (0, 917504);
  LocateHandleBuffer := ret 0;
  OpenProtocol := ret 0;
  MaxMode := 1;
  QueryMode i := ret (0, (1024, 768));
  gop_mode := EfiGraphic 2147483648 3145728 1024 768 1024;
|}.

Lemma top_above used : 16777216 <= top used /\ Forall (fun r => r.1 + r.2 <= top used) used.
Proof.
  induction used as [|r used [IH1 IH2]]; [split; [done|constructor]|]. cbn [top foldr]. fold (top used). split; [lia|]. constructor; [lia|]. eapply Forall_impl; [exact IH2|]. cbn. lia.
Qed.

Lemma fw_alloc_law n w : exists st a w', fw_alloc n w = (Ret (st, a), w') /\ w_mem w' = w_mem w /\
  (negb (st =? 0) = false -> w_used w' = (a, n) :: w_used w /\ fresh a n (w_used w) /\ 1048576 <= a) /\ (negb (st =? 0) = true -> w_used w' = w_used w).
Proof.
  destruct (top_above (w_used w)) as [H1 H2]. unfold fw_alloc, bind, get. destruct ((0 <=? n) && _) eqn:E.
  - bool_to_prop. eexists _, _, _. split; [reflexivity|]. split; [done|]. split; [|done]. intros _. split; [done|]. split; [|lia]. split; [lia|]. split; [lia|]. split; [lia|]. eapply Forall_impl; [exact H2|]. cbn. lia.
  - exists 1, 0, w. done.
Qed.

Lemma fw_alloc_at_law n a w : exists st w', fw_alloc_at n a w = (Ret (st, a), w') /\ w_mem w' = w_mem w /\
  (negb (st =? 0) = false -> w_used w' = (a, n) :: w_used w /\ fresh a n (w_used w)) /\ (negb (st =? 0) = true -> w_used w' = w_used w).
Proof.
  unfold fw_alloc_at, bind, get. destruct ((0 <=? a) && _ && _ && _) eqn:E; [|exists 1, w; done].
  apply andb_true_iff in E as [E E4]. apply andb_true_iff in E as [E E3]. apply andb_true_iff in E as [E1 E2]. eexists _, _. split; [reflexivity|]. split; [done|]. split; [|done]. intros _. split; [done|].
  split; [lia|]. split; [lia|]. split; [lia|]. apply Forall_forall. intros r Hr. rewrite forallb_forall in E4. specialize (E4 r (proj1 (list_elem_of_In _ _) Hr)). apply orb_true_iff in E4. lia.
Qed.

Lemma fw_laws : laws fw fw_file fw_name.
Proof.
  split; cbn [EFI_ERROR LocateProtocol OpenVolume Open GetInfo Read AllocateAnyPages AllocateAddress CopyMem SetMem FreePages fw].
  - intros w. by exists 0, w.
  - intros w. by exists 0, w.
  - intros n b w. eexists _, _, w. split; [reflexivity|]. split; [done|]. destruct (String.eqb_spec n "\kernel"); [by subst|done].
  - intros f w. eexists _, _, w. split; [reflexivity|]. done.
  - intros n w. destruct (fw_alloc_law (4096 * n) w) as (st & a & w' & H1 & H2 & H3 & H4). exists st, a, w'. split; [done|]. split; [done|]. split; [|done]. intros E. by destruct (H3 E) as (? & ? & _).
  - intros n a w. apply fw_alloc_at_law.
  - intros f n a w. eexists _, _. split; [reflexivity|]. split; [done|]. cbn [w_mem set_w_mem]. split.
    + intros b Hb. rewrite ld8_write_bytes, decide_False; [done|]. rewrite length_take. lia.
    + intros _ i Hi. rewrite ld8_write_bytes, decide_True by (rewrite length_take; lia). replace (Z.to_nat (a + i - a)) with (Z.to_nat i) by lia. by rewrite lookup_take_lt by lia.
  - intros d s n w. eexists. split; [reflexivity|]. split; [done|]. intros b. cbn [w_mem set_w_mem]. rewrite ld8_write_bytes, length_bytes. destruct (decide (d <= b < d + n)).
    + rewrite decide_True by lia. rewrite lookup_bytes by lia. cbn [default from_option id]. rewrite Z2Nat.id by lia. apply u8_small, ld8_range.
    + by rewrite decide_False by lia.
  - intros d n v w. eexists. split; [reflexivity|]. split; [done|]. intros b. cbn [w_mem set_w_mem]. rewrite ld8_write_bytes, length_replicate. destruct (decide (d <= b < d + n)).
    + rewrite decide_True by lia. by rewrite lookup_replicate_2 by lia.
    + by rewrite decide_False by lia.
  - intros a n w. exists w. done.
Qed.

Lemma fw_boot_laws : boot_laws fw 917504.
Proof.
  split; cbn [EFI_ERROR EFI_BUFFER_TOO_SMALL AllocatePool GetMemoryMap Write Close ExitBootServices EfiGetSystemConfigurationTable LocateHandleBuffer OpenProtocol QueryMode AsciiStrnCmp fw].
  - intros n w. apply fw_alloc_law.
  - intros n a w. eexists _, _, _, _, w. split; [reflexivity|]. split; [done|]. split; [done|]. destruct (Z.leb_spec 1 n); [right; lia|by left].
  - intros f l w. by exists 0, w.
  - intros f w. by exists 0, w.
  - intros k w. by exists 0, w.
  - intros w. by exists 0, w.
  - intros w. by exists 0, w.
  - intros w. by exists 0, w.
  - intros i w. by exists 0, 1024, 768, w.
  - intros m a l _. case_decide; split; intros; done.
Qed.

Lemma elf_sample_ok : elf_ok (fw_file "\kernel").
Proof.
  assert (forall i, loadable (fw_file "\kernel") i -> i = 0) as H0. { intros i [Hi _]. change (f16 (fw_file "\kernel") 44) with 1 in Hi. lia. }
  split.
  - vm_compute. split; [discriminate|reflexivity].
  - vm_compute. discriminate.
  - intros i Hi. rewrite (H0 i Hi). split; [vm_compute; discriminate|]. split; [vm_compute; discriminate|]. exists 12. split; [lia|reflexivity].
  - intros i j Hi Hj Hne. destruct Hne. by rewrite (H0 i Hi), (H0 j Hj).
Qed.

(** The root pointer at 917504, the root table behind it with two entries, a table
    of another kind and the MADT. *)
Definition fw_mem : mem :=
  let m := st64 ∅ 917528 917568 in
  let m := st64 (st64 (st32 m 917572 52) 917604 917632) 917612 917760 in
  let m := write_bytes m 917632 [70; 65; 67; 80; 36; 0; 0; 0] in
  let m := st32 (st32 (write_bytes m 917760 [65; 80; 73; 67]) 917764 82) 917796 4276092928 in
  write_bytes m 917804 (table sample).

Definition fw_world : FW := World fw_mem [(917504, 4096)] tt.

Lemma fw_stable b : 917504 <= b < 921600 -> stable fw_world sample b.
Proof. intros Hb. split; [by constructor|]. unfold area, BP, COPY, madt_len. change (length (table sample)) with 38%nat. lia. Qed.

Lemma fw_tables : tables 917504 fw_world 917568 2 1 sample.
Proof.
  assert (table_at fw_world 917568 0 = 917632 /\ table_at fw_world 917568 1 = 917760) as [E0 E1] by (split; vm_compute; reflexivity).
  split.
  - vm_compute. discriminate.
  - split; [lia|]. split; [lia|]. intros i Hi. destruct i as [|[|i]]; [rewrite E0|rewrite E1|]; lia.
  - split; [vm_compute; reflexivity|]. intros b Hb. apply fw_stable. lia.
  - split; [vm_compute; reflexivity|]. intros b Hb. apply fw_stable. lia.
  - intros i Hi. destruct i as [|[|i]]; [rewrite E0|rewrite E1|lia].
    + split; [split; [vm_compute; discriminate|done]|]. intros b Hb. apply fw_stable. lia.
    + split; [split; [done|intros _; vm_compute; reflexivity]|]. intros b Hb. apply fw_stable. lia.
  - lia.
  - rewrite E1. split; [vm_compute; reflexivity|]. intros b Hb. apply fw_stable. unfold madt_len in Hb. change (length (table sample)) with 38%nat in Hb. lia.
  - rewrite E1. split; [vm_compute; reflexivity|exact sample_ok].
Qed.


(** The relocation succeeds. *)
Lemma fw_relocates : exists st e w1, RelocateELF fw (0, 0) "\kernel" fw_world = (Ret (st, e), w1) /\ EFI_ERROR fw st = false.
Proof.
  assert (match RelocateELF fw (0, 0) "\kernel" fw_world with (Ret (st, _), _) => st =? 0 | _ => false end = true) as H by (vm_compute; reflexivity).
  destruct (RelocateELF fw (0, 0) "\kernel" fw_world) as [[[st e]|?|?] w1]; [|done|done]. exists st, e, w1. split; [reflexivity|]. apply Z.eqb_eq in H as ->. reflexivity.
Qed.

Definition fw_junk : junk := Junk (0, 0) 0 (EfiGraphic 0 0 0 0 0) 0.

Lemma fw_apart i b : loadable (fw_file "\kernel") i -> seg_range (fw_file "\kernel") i b -> ~ area sample b.
Proof.
  intros [Hi _] Hb. change (f16 (fw_file "\kernel") 44) with 1 in Hi. assert (i = 0) as -> by lia. unfold seg_range in Hb. change (es_paddr (eseg_at (fw_file "\kernel") 0)) with 1048576 in Hb.
  unfold area, BP, COPY, madt_len. change (length (table sample)) with 38%nat. lia.
Qed.

