(* ===== verification/Usertests.v ===== *)
(** * The system's own tests (src/xv6/usertests.c)

    Each test is a program over any kernel ([Os]); its globals are [buf], [name],
    [uninit] and [randstate].  The tests that look at memory behind the kernel's
    back ([mem], [sbrktest], [validatetest]) are left out.  A loop that goes on as
    long as the kernel answers takes a number of rounds; an endless loop of a
    child that waits to be killed is a process that blocks. *)
From S2P Require Import Prelude Fs Sysfile User.

Record uts (St : Type) : Type := Uts {
  u_os : St;
  u_buf : list Z;
  u_name : list Z;
  u_uninit : list Z;
  u_rand : Z;
}.

Arguments Uts {St}.
Arguments u_os {St}.
Arguments u_buf {St}.
Arguments u_name {St}.
Arguments u_uninit {St}.
Arguments u_rand {St}.

(** [sizeof(buf)] *)
Definition BUF : Z := 8192.

(** The zero-initialised globals. *)
Definition uts0 {St} (k : St) : uts St := Uts k (replicate (Z.to_nat BUF) 0) [0; 0; 0] (replicate (Z.to_nat 10000) 0) 1.

Section Usertests.
Context {St : Type} `{Os St} (rounds : nat).

Definition osl : lens (uts St) St := Lens u_os (fun f s => Uts (f (u_os s)) (u_buf s) (u_name s) (u_uninit s) (u_rand s)).

#[export] Instance uts_os : Os (uts St) := {
  sys := fun c => zoom osl (sys c);
  uexit := fun A => zoom osl uexit;
}.

Definition upd_buf (f : list Z -> list Z) : M (uts St) unit := modify (fun s => Uts (u_os s) (f (u_buf s)) (u_name s) (u_uninit s) (u_rand s)).

Definition upd_name (f : list Z -> list Z) : M (uts St) unit := modify (fun s => Uts (u_os s) (u_buf s) (f (u_name s)) (u_uninit s) (u_rand s)).

(** [over_bytes bs a]: the array [a] after [bs] were stored at its start. *)
Definition over_bytes (bs a : list Z) : list Z := bs ++ drop (length bs) a.

(** ** System calls *)
Abbreviation T := (M (uts St)).

Definition mkdir (p : list Z) : T Z := sys_ret (Cmkdir p).

Definition chdir (p : list Z) : T Z := sys_ret (Cchdir p).

Definition unlink (p : list Z) : T Z := sys_ret (Cunlink p).

Definition link (old new : list Z) : T Z := sys_ret (Clink old new).

Definition getpid : T Z := sys_ret Cgetpid.

Definition ukill (pid : Z) : T Z := sys_ret (Ckill pid).

Definition usleep (n : Z) : T Z := sys_ret (Csleep n).

(** The result and the two descriptors. *)
Definition upipe : T (Z * (Z * Z)) := a ← sys Cpipe; ret (s32 (a_ret a), (s32 (le32 (a_bytes a) 0), s32 (le32 (a_bytes a) 4))).

(** [read(fd, buf, n)] *)
Definition read_buf (fd n : Z) : T Z :=
  '(r, bs) ← uread fd n;
  upd_buf (over_bytes bs) ;;
  ret r.

(** [write(fd, buf, n)] *)
Definition write_buf (fd n : Z) : T Z := buf ← gets u_buf; uwrite fd (take (Z.to_nat n) buf).

(** [memset(buf, c, n)] *)
Definition memset_buf (c n : Z) : T unit := upd_buf (fun b => memset b c n).

(** [if(bad){ printf(1, fmt, ap); exit(); }] *)
Definition fail_if (bad : bool) (fmt : list Z) (ap : list uarg) : T unit := when bad (printf 1 fmt ap ;; uexit).

(** [for(;;) ;] *)
Definition spin {A} : T A := sleep_on 0.

Definition say (fmt : list Z) : T unit := printf 1 fmt [].

(** A loop on what the kernel answers. *)
Definition loop {A B} (body : A -> T (A + B)) (a : A) : T B := iter rounds body a.

(** ** Directories and the references of the current directory *)
Definition iputtest : T unit :=
  say (line "iput test") ;;
  r ← mkdir (str "iputdir");
  fail_if (r <? 0) (line "mkdir failed") [] ;;
  r ← chdir (str "iputdir");
  fail_if (r <? 0) (line "chdir iputdir failed") [] ;;
  r ← unlink (str "../iputdir");
  fail_if (r <? 0) (line "unlink ../iputdir failed") [] ;;
  r ← chdir (str "/");
  fail_if (r <? 0) (line "chdir / failed") [] ;;
  say (line "iput test ok").

Definition exitiputtest : T unit :=
  say (line "exitiput test") ;;
  pid ← ufork;
  fail_if (pid <? 0) (line "fork failed") [] ;;
  when (pid =? 0)
    (r ← mkdir (str "iputdir");
     fail_if (r <? 0) (line "mkdir failed") [] ;;
     r ← chdir (str "iputdir");
     fail_if (r <? 0) (line "child chdir failed") [] ;;
     r ← unlink (str "../iputdir");
     fail_if (r <? 0) (line "unlink ../iputdir failed") [] ;;
     uexit) ;;
  uwait ;;
  say (line "exitiput test ok").

Definition openiputtest : T unit :=
  say (line "openiput test") ;;
  r ← mkdir (str "oidir");
  fail_if (r <? 0) (line "mkdir oidir failed") [] ;;
  pid ← ufork;
  fail_if (pid <? 0) (line "fork failed") [] ;;
  when (pid =? 0)
    (fd ← uopen (str "oidir") O_RDWR;
     fail_if (0 <=? fd) (line "open directory for write succeeded") [] ;;
     uexit) ;;
  usleep 1 ;;
  r ← unlink (str "oidir");
  fail_if (negb (r =? 0)) (line "unlink failed") [] ;;
  uwait ;;
  say (line "openiput test ok").

(** ** Files *)
Definition opentest : T unit :=
  say (line "open test") ;;
  fd ← uopen (str "echo") 0;
  fail_if (fd <? 0) (line "open echo failed!") [] ;;
  uclose fd ;;
  fd ← uopen (str "doesnotexist") 0;
  fail_if (0 <=? fd) (line "open doesnotexist succeeded!") [] ;;
  say (line "open test ok").

Definition writetest : T unit :=
  say (line "small file test") ;;
  fd ← uopen (str "small") (Z.lor O_CREATE O_RDWR);
  (if 0 <=? fd then say (line "creat small succeeded; ok")
   else say (line "error: creat small failed!") ;; uexit) ;;
  for_each (seqZ 0 100) (fun i =>
    r ← uwrite fd (str "aaaaaaaaaa");
    fail_if (negb (r =? 10)) (line "error: write aa %d new file failed") [UInt i] ;;
    r ← uwrite fd (str "bbbbbbbbbb");
    fail_if (negb (r =? 10)) (line "error: write bb %d new file failed") [UInt i]) ;;
  say (line "writes ok") ;;
  uclose fd ;;
  fd ← uopen (str "small") O_RDONLY;
  (if 0 <=? fd then say (line "open small succeeded ok")
   else say (line "error: open small failed!") ;; uexit) ;;
  i ← read_buf fd 2000;
  (if i =? 2000 then say (line "read succeeded ok")
   else say (line "read failed") ;; uexit) ;;
  uclose fd ;;
  r ← unlink (str "small");
  fail_if (r <? 0) (line "unlink small failed") [] ;;
  say (line "small file test ok").

(** The bytes of the first [int] of [buf] when it is set to [i]. *)
Definition int_bytes (i : Z) : list Z := [u8 i; u8 (Z.shiftr i 8); u8 (Z.shiftr i 16); u8 (Z.shiftr i 24)].

(** One block read back; [n] counts them. *)
Definition big_block (fd n : Z) : T (Z + Z) :=
  i ← read_buf fd 512;
  if i =? 0 then
    fail_if (n =? MAXFILE - 1) (str "read only %d blocks from big") [UInt n] ;;
    ret (inr n)
  else
    fail_if (negb (i =? 512)) (line "read failed %d") [UInt i] ;;
    buf ← gets u_buf;
    let v := s32 (le32 buf 0) in
    fail_if (negb (v =? n)) (line "read content of block %d is %d") [UInt n; UInt v] ;;
    ret (inl (n + 1)).

Definition writetest1 : T unit :=
  say (line "big files test") ;;
  fd ← uopen (str "big") (Z.lor O_CREATE O_RDWR);
  fail_if (fd <? 0) (line "error: creat big failed!") [] ;;
  for_each (seqZ 0 MAXFILE) (fun i =>
    upd_buf (over_bytes (int_bytes i)) ;;
    r ← write_buf fd 512;
    fail_if (negb (r =? 512)) (line "error: write big file failed") [UInt i]) ;;
  uclose fd ;;
  fd ← uopen (str "big") O_RDONLY;
  fail_if (fd <? 0) (line "error: open big failed!") [] ;;
  loop (big_block fd) 0 ;;
  uclose fd ;;
  r ← unlink (str "big");
  fail_if (r <? 0) (line "unlink big failed") [] ;;
  say (line "big files ok").

(** [name[1] = '0' + i], and the name as a string. *)
Definition set_name1 (i : Z) : T (list Z) :=
  upd_name (<[1%nat := u8 (48 + i)]>) ;;
  n ← gets u_name;
  ret (cstr n).

Definition createtest : T unit :=
  say (line "many creates, followed by unlink test") ;;
  upd_name (fun n => <[2%nat := 0]> (<[0%nat := 97]> n)) ;;
  for_each (seqZ 0 52) (fun i =>
    name ← set_name1 i;
    fd ← uopen name (Z.lor O_CREATE O_RDWR);
    uclose fd ;; ret tt) ;;
  upd_name (fun n => <[2%nat := 0]> (<[0%nat := 97]> n)) ;;
  for_each (seqZ 0 52) (fun i =>
    name ← set_name1 i;
    unlink name ;; ret tt) ;;
  say (line "many creates, followed by unlink; ok").

Definition dirtest : T unit :=
  say (line "mkdir test") ;;
  r ← mkdir (str "dir0");
  fail_if (r <? 0) (line "mkdir failed") [] ;;
  r ← chdir (str "dir0");
  fail_if (r <? 0) (line "chdir dir0 failed") [] ;;
  r ← chdir (str "..");
  fail_if (r <? 0) (line "chdir .. failed") [] ;;
  r ← unlink (str "dir0");
  fail_if (r <? 0) (line "unlink dir0 failed") [] ;;
  say (line "mkdir test ok").

Definition echoargv : list (list Z) := [str "echo"; str "ALL"; str "TESTS"; str "PASSED"].

Definition exectest : T unit :=
  say (line "exec test") ;;
  r ← uexec (str "echo") echoargv;
  fail_if (r <? 0) (line "exec echo failed") [].

(** ** Processes and pipes *)

(** The child of [pipe1] writes five pieces of the numbers from 0 on. *)
Definition pipe1_child (fds : Z * Z) : T unit :=
  uclose fds.1 ;;
  for_each (seqZ 0 5) (fun n =>
    upd_buf (over_bytes (u8 <$> seqZ (1033 * n) 1033)) ;;
    r ← write_buf fds.2 1033;
    fail_if (negb (r =? 1033)) (line "pipe1 oops 1") []) ;;
  uexit.

(** A piece read by the parent: [seq], [total] and [cc]; [inr None] when the
    numbers are wrong. *)
Definition pipe1_piece (fd : Z) (st : Z * Z * Z) : T (Z * Z * Z + option Z) :=
  let '(seq, total, cc) := st in
  n ← read_buf fd cc;
  if 0 <? n then
    buf ← gets u_buf;
    if existsb (fun i => negb (Z.land (default 0 (buf !! Z.to_nat i)) 255 =? Z.land (seq + i) 255)) (seqZ 0 n) then
      say (line "pipe1 oops 2") ;;
      ret (inr None)
    else
      let cc := cc * 2 in
      ret (inl (seq + n, total + n, if BUF <? cc then BUF else cc))
  else ret (inr (Some total)).

Definition pipe1 : T unit :=
  '(r, fds) ← upipe;
  fail_if (negb (r =? 0)) (line "pipe() failed") [] ;;
  pid ← ufork;
  if pid =? 0 then pipe1_child fds
  else if 0 <? pid then
    uclose fds.2 ;;
    r ← loop (pipe1_piece fds.1) (0, 0, 1);
    match r with
    | None => ret tt
    | Some total =>
        fail_if (negb (total =? 5 * 1033)) (line "pipe1 oops 3 total %d") [UInt total] ;;
        uclose fds.1 ;;
        uwait ;;
        say (line "pipe1 ok")
    end
  else say (line "fork() failed") ;; uexit.

Definition preempt : T unit :=
  say (str "preempt: ") ;;
  pid1 ← ufork;
  when (pid1 =? 0) spin ;;
  pid2 ← ufork;
  when (pid2 =? 0) spin ;;
  '(_, pfds) ← upipe;
  pid3 ← ufork;
  when (pid3 =? 0)
    (uclose pfds.1 ;;
     r ← uwrite pfds.2 (str "x");
     when (negb (r =? 1)) (say (str "preempt write error")) ;;
     uclose pfds.2 ;;
     spin) ;;
  uclose pfds.2 ;;
  r ← read_buf pfds.1 BUF;
  if negb (r =? 1) then say (str "preempt read error")
  else
    uclose pfds.1 ;;
    say (str "kill... ") ;;
    ukill pid1 ;;
    ukill pid2 ;;
    ukill pid3 ;;
    say (str "wait... ") ;;
    uwait ;;
    uwait ;;
    uwait ;;
    say (line "preempt ok").

Definition exitwait : T unit :=
  r ← for_until (seqZ 0 100) (fun _ =>
    pid ← ufork;
    if pid <? 0 then say (line "fork failed") ;; ret (Some tt)
    else if negb (pid =? 0) then
      w ← uwait;
      if negb (w =? pid) then say (line "wait wrong pid") ;; ret (Some tt) else ret None
    else uexit);
  match r with
  | Some _ => ret tt
  | None => say (line "exitwait ok")
  end.

(** A piece of the shared file: the local array, and how many bytes are 'c' and
    how many 'p'; all of the array is counted. *)
Definition shared_piece (fd : Z) (st : list Z * Z * Z) : T (list Z * Z * Z + Z * Z) :=
  let '(buf, nc, np) := st in
  '(n, bs) ← uread fd 10;
  let buf := over_bytes bs buf in
  if 0 <? n then
    let count c := Z.of_nat (length (filter (fun b => b = c) buf)) in
    ret (inl (buf, nc + count 99, np + count 112))
  else ret (inr (nc, np)).

Definition sharedfd : T unit :=
  say (line "sharedfd test") ;;
  unlink (str "sharedfd") ;;
  fd ← uopen (str "sharedfd") (Z.lor O_CREATE O_RDWR);
  if fd <? 0 then say (str "fstests: cannot open sharedfd for writing")
  else
    pid ← ufork;
    let buf := replicate 10 (if pid =? 0 then 99 else 112) in
    for_until (seqZ 0 1000) (fun _ =>
      r ← uwrite fd buf;
      if negb (r =? 10) then say (line "fstests: write sharedfd failed") ;; ret (Some tt) else ret None) ;;
    (if pid =? 0 then uexit else uwait ;; ret tt) ;;
    uclose fd ;;
    fd ← uopen (str "sharedfd") 0;
    if fd <? 0 then say (line "fstests: cannot open sharedfd for reading")
    else
      '(nc, np) ← loop (shared_piece fd) (buf, 0, 0);
      uclose fd ;;
      unlink (str "sharedfd") ;;
      if (nc =? 10000) && (np =? 10000) then say (line "sharedfd ok")
      else printf 1 (line "sharedfd oops %d %d") [UInt nc; UInt np] ;; uexit.

(** ** Several processes on the file system *)

(** The child of [fourfiles]. *)
Definition fourfiles_child (fname : list Z) (pi : Z) : T unit :=
  fd ← uopen fname (Z.lor O_CREATE O_RDWR);
  fail_if (fd <? 0) (line "create failed") [] ;;
  memset_buf (48 + pi) 512 ;;
  for_each (seqZ 0 12) (fun _ =>
    n ← write_buf fd 500;
    fail_if (negb (n =? 500)) (line "write failed %d") [UInt n]) ;;
  uexit.

Definition fourfiles_piece (fd i total : Z) : T (Z + Z) :=
  n ← read_buf fd BUF;
  if 0 <? n then
    buf ← gets u_buf;
    fail_if (existsb (fun c => negb (c =? 48 + i)) (take (Z.to_nat n) buf)) (line "wrong char") [] ;;
    ret (inl (total + n))
  else ret (inr total).

(** [names[pi]] *)
Definition four_name (pi : Z) : list Z := [102; 48 + pi].

Definition fourfiles : T unit :=
  say (line "fourfiles test") ;;
  for_each (seqZ 0 4) (fun pi =>
    unlink (four_name pi) ;;
    pid ← ufork;
    fail_if (pid <? 0) (line "fork failed") [] ;;
    when (pid =? 0) (fourfiles_child (four_name pi) pi)) ;;
  for_each (seqZ 0 4) (fun _ => uwait ;; ret tt) ;;
  for_each (seqZ 0 2) (fun i =>
    fd ← uopen (four_name i) 0;
    total ← loop (fourfiles_piece fd i) 0;
    uclose fd ;;
    fail_if (negb (total =? 12 * 500)) (line "wrong length %d") [UInt total] ;;
    unlink (four_name i) ;; ret tt) ;;
  say (line "fourfiles ok").

(** [name] with the letter 'p' + [k] and the digit '0' + [i] *)
Definition cd_name (k i : Z) : list Z := [u8 (112 + k); u8 (48 + i)].

Definition createdelete_child (pi : Z) : T unit :=
  for_each (seqZ 0 20) (fun i =>
    fd ← uopen (cd_name pi i) (Z.lor O_CREATE O_RDWR);
    fail_if (fd <? 0) (line "create failed") [] ;;
    uclose fd ;;
    when ((0 <? i) && (i mod 2 =? 0))
      (r ← unlink (cd_name pi (i / 2));
       fail_if (r <? 0) (line "unlink failed") [])) ;;
  uexit.

Definition createdelete_check (i pi : Z) : T unit :=
  let name := cd_name pi i in
  fd ← uopen name 0;
  (if ((i =? 0) || (10 <=? i)) && (fd <? 0) then printf 1 (line "oops createdelete %s didn't exist") [UStr (Some name)] ;; uexit
   else if ((1 <=? i) && (i <? 10)) && (0 <=? fd) then printf 1 (line "oops createdelete %s did exist") [UStr (Some name)] ;; uexit
   else ret tt) ;;
  when (0 <=? fd) (uclose fd ;; ret tt).

Definition createdelete : T unit :=
  say (line "createdelete test") ;;
  for_each (seqZ 0 4) (fun pi =>
    pid ← ufork;
    fail_if (pid <? 0) (line "fork failed") [] ;;
    when (pid =? 0) (createdelete_child pi)) ;;
  for_each (seqZ 0 4) (fun _ => uwait ;; ret tt) ;;
  for_each (seqZ 0 20) (fun i => for_each (seqZ 0 4) (createdelete_check i)) ;;
  for_each (seqZ 0 20) (fun i => for_each (seqZ 0 4) (fun _ => unlink (cd_name i i) ;; ret tt)) ;;
  say (line "createdelete ok").

(** ** Names and links *)
Definition unlinkread : T unit :=
  say (line "unlinkread test") ;;
  fd ← uopen (str "unlinkread") (Z.lor O_CREATE O_RDWR);
  fail_if (fd <? 0) (line "create unlinkread failed") [] ;;
  uwrite fd (str "hello") ;;
  uclose fd ;;
  fd ← uopen (str "unlinkread") O_RDWR;
  fail_if (fd <? 0) (line "open unlinkread failed") [] ;;
  r ← unlink (str "unlinkread");
  fail_if (negb (r =? 0)) (line "unlink unlinkread failed") [] ;;
  fd1 ← uopen (str "unlinkread") (Z.lor O_CREATE O_RDWR);
  uwrite fd1 (str "yyy") ;;
  uclose fd1 ;;
  r ← read_buf fd BUF;
  fail_if (negb (r =? 5)) (str "unlinkread read failed") [] ;;
  buf ← gets u_buf;
  fail_if (negb (hd0 buf =? 104)) (line "unlinkread wrong data") [] ;;
  r ← write_buf fd 10;
  fail_if (negb (r =? 10)) (line "unlinkread write failed") [] ;;
  uclose fd ;;
  unlink (str "unlinkread") ;;
  say (line "unlinkread ok").

Definition linktest : T unit :=
  say (line "linktest") ;;
  unlink (str "lf1") ;;
  unlink (str "lf2") ;;
  fd ← uopen (str "lf1") (Z.lor O_CREATE O_RDWR);
  fail_if (fd <? 0) (line "create lf1 failed") [] ;;
  r ← uwrite fd (str "hello");
  fail_if (negb (r =? 5)) (line "write lf1 failed") [] ;;
  uclose fd ;;
  r ← link (str "lf1") (str "lf2");
  fail_if (r <? 0) (line "link lf1 lf2 failed") [] ;;
  unlink (str "lf1") ;;
  r ← uopen (str "lf1") 0;
  fail_if (0 <=? r) (line "unlinked lf1 but it is still there!") [] ;;
  fd ← uopen (str "lf2") 0;
  fail_if (fd <? 0) (line "open lf2 failed") [] ;;
  r ← read_buf fd BUF;
  fail_if (negb (r =? 5)) (line "read lf2 failed") [] ;;
  uclose fd ;;
  r ← link (str "lf2") (str "lf2");
  fail_if (0 <=? r) (line "link lf2 lf2 succeeded! oops") [] ;;
  unlink (str "lf2") ;;
  r ← link (str "lf2") (str "lf1");
  fail_if (0 <=? r) (line "link non-existant succeeded! oops") [] ;;
  r ← link (str ".") (str "lf1");
  fail_if (0 <=? r) (line "link . lf1 succeeded! oops") [] ;;
  say (line "linktest ok").

(** [char] *)
Definition schar (c : Z) : Z := if c <? 128 then c else c - 256.

(** [file] of [concreate] *)
Definition con_name (i : Z) : list Z := [67; 48 + i].

Definition concreate_make (i : Z) : T unit :=
  let file := con_name i in
  unlink file ;;
  pid ← ufork;
  (if negb (pid =? 0) && (i mod 3 =? 1) then link (str "C0") file ;; ret tt
   else if (pid =? 0) && (i mod 5 =? 1) then link (str "C0") file ;; ret tt
   else
     fd ← uopen file (Z.lor O_CREATE O_RDWR);
     fail_if (fd <? 0) (line "concreate create %s failed") [UStr (Some file)] ;;
     uclose fd ;; ret tt) ;;
  if pid =? 0 then uexit else uwait ;; ret tt.

(** One entry of the directory: the local [de], the marks [fa] and [n]. *)
Definition concreate_entry (fd : Z) (st : list Z * list Z * Z) : T (list Z * list Z * Z + Z) :=
  let '(de, fa, n) := st in
  '(r, bs) ← uread fd 16;
  let de := over_bytes bs de in
  if 0 <? r then
    if le16 de 0 =? 0 then ret (inl (de, fa, n))
    else if (default 0 (de !! 2%nat) =? 67) && (default 0 (de !! 4%nat) =? 0) then
      let i := schar (default 0 (de !! 3%nat)) - 48 in
      fail_if ((i <? 0) || (40 <=? i)) (line "concreate weird file %s") [UStr (Some (cstr (drop 2 de)))] ;;
      fail_if (negb (default 0 (fa !! Z.to_nat i) =? 0)) (line "concreate duplicate file %s") [UStr (Some (cstr (drop 2 de)))] ;;
      ret (inl (de, <[Z.to_nat i := 1]> fa, n + 1))
    else ret (inl (de, fa, n))
  else ret (inr n).

Definition concreate_remove (i : Z) : T unit :=
  let file := con_name i in
  pid ← ufork;
  fail_if (pid <? 0) (line "fork failed") [] ;;
  (if ((i mod 3 =? 0) && (pid =? 0)) || ((i mod 3 =? 1) && negb (pid =? 0)) then
     for_each (seq 0 4) (fun _ => fd ← uopen file 0; uclose fd ;; ret tt)
   else for_each (seq 0 4) (fun _ => unlink file ;; ret tt)) ;;
  if pid =? 0 then uexit else uwait ;; ret tt.

(** [de] is not set before it is read into. *)
Definition concreate (de : list Z) : T unit :=
  say (line "concreate test") ;;
  for_each (seqZ 0 40) concreate_make ;;
  fd ← uopen (str ".") 0;
  n ← loop (concreate_entry fd) (de, replicate 40 0, 0);
  uclose fd ;;
  fail_if (negb (n =? 40)) (line "concreate not enough files in directory listing") [] ;;
  for_each (seqZ 0 40) concreate_remove ;;
  say (line "concreate ok").

Fixpoint linkunlink_loop (i : nat) (x : Z) : T unit :=
  match i with
  | O => ret tt
  | S k =>
      let x := u32 (x * 1103515245 + 12345) in
      (if x mod 3 =? 0 then fd ← uopen (str "x") (Z.lor O_RDWR O_CREATE); uclose fd ;; ret tt
       else if x mod 3 =? 1 then link (str "cat") (str "x") ;; ret tt
       else unlink (str "x") ;; ret tt) ;;
      linkunlink_loop k x
  end.

Definition linkunlink : T unit :=
  say (line "linkunlink test") ;;
  unlink (str "x") ;;
  pid ← ufork;
  fail_if (pid <? 0) (line "fork failed") [] ;;
  linkunlink_loop 100 (if negb (pid =? 0) then 1 else 97) ;;
  (if negb (pid =? 0) then uwait ;; ret tt else uexit) ;;
  say (line "linkunlink ok").

(** [name] of [bigdir] *)
Definition bd_name (i : Z) : list Z := [120; 48 + i / 64; 48 + i mod 64].

Definition bigdir : T unit :=
  say (line "bigdir test") ;;
  unlink (str "bd") ;;
  fd ← uopen (str "bd") O_CREATE;
  fail_if (fd <? 0) (line "bigdir create failed") [] ;;
  uclose fd ;;
  for_each (seqZ 0 500) (fun i =>
    r ← link (str "bd") (bd_name i);
    fail_if (negb (r =? 0)) (line "bigdir link failed") []) ;;
  unlink (str "bd") ;;
  for_each (seqZ 0 500) (fun i =>
    r ← unlink (bd_name i);
    fail_if (negb (r =? 0)) (str "bigdir unlink failed") []) ;;
  say (line "bigdir ok").

(** [subdir]: the files and directories are made ... *)
Definition subdir_make : T unit :=
  unlink (str "ff") ;;
  r ← mkdir (str "dd");
  fail_if (negb (r =? 0)) (line "subdir mkdir dd failed") [] ;;
  fd ← uopen (str "dd/ff") (Z.lor O_CREATE O_RDWR);
  fail_if (fd <? 0) (line "create dd/ff failed") [] ;;
  uwrite fd (str "ff") ;;
  uclose fd ;;
  r ← unlink (str "dd");
  fail_if (0 <=? r) (line "unlink dd (non-empty dir) succeeded!") [] ;;
  r ← mkdir (str "/dd/dd");
  fail_if (negb (r =? 0)) (line "subdir mkdir dd/dd failed") [] ;;
  fd ← uopen (str "dd/dd/ff") (Z.lor O_CREATE O_RDWR);
  fail_if (fd <? 0) (line "create dd/dd/ff failed") [] ;;
  uwrite fd (str "FF") ;;
  uclose fd ;;
  fd ← uopen (str "dd/dd/../ff") 0;
  fail_if (fd <? 0) (line "open dd/dd/../ff failed") [] ;;
  cc ← read_buf fd BUF;
  buf ← gets u_buf;
  fail_if (negb (cc =? 2) || negb (hd0 buf =? 102)) (line "dd/dd/../ff wrong content") [] ;;
  uclose fd ;;
  r ← link (str "dd/dd/ff") (str "dd/dd/ffff");
  fail_if (negb (r =? 0)) (line "link dd/dd/ff dd/dd/ffff failed") [] ;;
  r ← unlink (str "dd/dd/ff");
  fail_if (negb (r =? 0)) (line "unlink dd/dd/ff failed") [] ;;
  r ← uopen (str "dd/dd/ff") O_RDONLY;
  fail_if (0 <=? r) (line "open (unlinked) dd/dd/ff succeeded") [].

(** ... the current directory goes down and up ... *)
Definition subdir_walk : T unit :=
  r ← chdir (str "dd");
  fail_if (negb (r =? 0)) (line "chdir dd failed") [] ;;
  r ← chdir (str "dd/../../dd");
  fail_if (negb (r =? 0)) (line "chdir dd/../../dd failed") [] ;;
  r ← chdir (str "dd/../../../dd");
  fail_if (negb (r =? 0)) (line "chdir dd/../../dd failed") [] ;;
  r ← chdir (str "./..");
  fail_if (negb (r =? 0)) (line "chdir ./.. failed") [] ;;
  fd ← uopen (str "dd/dd/ffff") 0;
  fail_if (fd <? 0) (line "open dd/dd/ffff failed") [] ;;
  r ← read_buf fd BUF;
  fail_if (negb (r =? 2)) (line "read dd/dd/ffff wrong len") [] ;;
  uclose fd ;;
  r ← uopen (str "dd/dd/ff") O_RDONLY;
  fail_if (0 <=? r) (line "open (unlinked) dd/dd/ff succeeded!") [].

(** ... what must fail fails ... *)
Definition subdir_refuse : T unit :=
  r ← uopen (str "dd/ff/ff") (Z.lor O_CREATE O_RDWR);
  fail_if (0 <=? r) (line "create dd/ff/ff succeeded!") [] ;;
  r ← uopen (str "dd/xx/ff") (Z.lor O_CREATE O_RDWR);
  fail_if (0 <=? r) (line "create dd/xx/ff succeeded!") [] ;;
  r ← uopen (str "dd") O_CREATE;
  fail_if (0 <=? r) (line "create dd succeeded!") [] ;;
  r ← uopen (str "dd") O_RDWR;
  fail_if (0 <=? r) (line "open dd rdwr succeeded!") [] ;;
  r ← uopen (str "dd") O_WRONLY;
  fail_if (0 <=? r) (line "open dd wronly succeeded!") [] ;;
  r ← link (str "dd/ff/ff") (str "dd/dd/xx");
  fail_if (r =? 0) (line "link dd/ff/ff dd/dd/xx succeeded!") [] ;;
  r ← link (str "dd/xx/ff") (str "dd/dd/xx");
  fail_if (r =? 0) (line "link dd/xx/ff dd/dd/xx succeeded!") [] ;;
  r ← link (str "dd/ff") (str "dd/dd/ffff");
  fail_if (r =? 0) (line "link dd/ff dd/dd/ffff succeeded!") [] ;;
  r ← mkdir (str "dd/ff/ff");
  fail_if (r =? 0) (line "mkdir dd/ff/ff succeeded!") [] ;;
  r ← mkdir (str "dd/xx/ff");
  fail_if (r =? 0) (line "mkdir dd/xx/ff succeeded!") [] ;;
  r ← mkdir (str "dd/dd/ffff");
  fail_if (r =? 0) (line "mkdir dd/dd/ffff succeeded!") [] ;;
  r ← unlink (str "dd/xx/ff");
  fail_if (r =? 0) (line "unlink dd/xx/ff succeeded!") [] ;;
  r ← unlink (str "dd/ff/ff");
  fail_if (r =? 0) (line "unlink dd/ff/ff succeeded!") [] ;;
  r ← chdir (str "dd/ff");
  fail_if (r =? 0) (line "chdir dd/ff succeeded!") [] ;;
  r ← chdir (str "dd/xx");
  fail_if (r =? 0) (line "chdir dd/xx succeeded!") [].

(** ... and everything is removed. *)
Definition subdir_clean : T unit :=
  r ← unlink (str "dd/dd/ffff");
  fail_if (negb (r =? 0)) (line "unlink dd/dd/ff failed") [] ;;
  r ← unlink (str "dd/ff");
  fail_if (negb (r =? 0)) (line "unlink dd/ff failed") [] ;;
  r ← unlink (str "dd");
  fail_if (r =? 0) (line "unlink non-empty dd succeeded!") [] ;;
  r ← unlink (str "dd/dd");
  fail_if (r <? 0) (line "unlink dd/dd failed") [] ;;
  r ← unlink (str "dd");
  fail_if (r <? 0) (line "unlink dd failed") [].

Definition subdir : T unit :=
  say (line "subdir test") ;;
  subdir_make ;;
  subdir_walk ;;
  subdir_refuse ;;
  subdir_clean ;;
  say (line "subdir ok").

(** [sz] is 499, 970, ... below 12*512. *)
Definition bigwrite_sizes : list Z := (fun k => 499 + 471 * k) <$> seqZ 0 12.

Definition bigwrite : T unit :=
  say (line "bigwrite test") ;;
  unlink (str "bigwrite") ;;
  for_each bigwrite_sizes (fun sz =>
    fd ← uopen (str "bigwrite") (Z.lor O_CREATE O_RDWR);
    fail_if (fd <? 0) (line "cannot create bigwrite") [] ;;
    for_each (seqZ 0 2) (fun _ =>
      cc ← write_buf fd sz;
      fail_if (negb (cc =? sz)) (line "write(%d) ret %d") [UInt sz; UInt cc]) ;;
    uclose fd ;;
    unlink (str "bigwrite") ;; ret tt) ;;
  say (line "bigwrite ok").

(** One piece read back: [i] and [total]. *)
Definition bigfile_piece (fd : Z) (st : Z * Z) : T (Z * Z + Z) :=
  let '(i, total) := st in
  cc ← read_buf fd 300;
  fail_if (cc <? 0) (line "read bigfile failed") [] ;;
  if cc =? 0 then ret (inr total)
  else
    fail_if (negb (cc =? 300)) (line "short read bigfile") [] ;;
    buf ← gets u_buf;
    fail_if (negb (schar (hd0 buf) =? i / 2) || negb (schar (default 0 (buf !! 299%nat)) =? i / 2)) (line "read bigfile wrong data") [] ;;
    ret (inl (i + 1, total + cc)).

Definition bigfile : T unit :=
  say (line "bigfile test") ;;
  unlink (str "bigfile") ;;
  fd ← uopen (str "bigfile") (Z.lor O_CREATE O_RDWR);
  fail_if (fd <? 0) (str "cannot create bigfile") [] ;;
  for_each (seqZ 0 20) (fun i =>
    memset_buf i 600 ;;
    r ← write_buf fd 600;
    fail_if (negb (r =? 600)) (line "write bigfile failed") []) ;;
  uclose fd ;;
  fd ← uopen (str "bigfile") 0;
  fail_if (fd <? 0) (line "cannot open bigfile") [] ;;
  total ← loop (bigfile_piece fd) (0, 0);
  uclose fd ;;
  fail_if (negb (total =? 20 * 600)) (line "read bigfile wrong total") [] ;;
  unlink (str "bigfile") ;;
  say (line "bigfile test ok").

Definition fourteen : T unit :=
  say (line "fourteen test") ;;
  r ← mkdir (str "12345678901234");
  fail_if (negb (r =? 0)) (line "mkdir 12345678901234 failed") [] ;;
  r ← mkdir (str "12345678901234/123456789012345");
  fail_if (negb (r =? 0)) (line "mkdir 12345678901234/123456789012345 failed") [] ;;
  fd ← uopen (str "123456789012345/123456789012345/123456789012345") O_CREATE;
  fail_if (fd <? 0) (line "create 123456789012345/123456789012345/123456789012345 failed") [] ;;
  uclose fd ;;
  fd ← uopen (str "12345678901234/12345678901234/12345678901234") 0;
  fail_if (fd <? 0) (line "open 12345678901234/12345678901234/12345678901234 failed") [] ;;
  uclose fd ;;
  r ← mkdir (str "12345678901234/12345678901234");
  fail_if (r =? 0) (line "mkdir 12345678901234/12345678901234 succeeded!") [] ;;
  r ← mkdir (str "123456789012345/12345678901234");
  fail_if (r =? 0) (line "mkdir 12345678901234/123456789012345 succeeded!") [] ;;
  say (line "fourteen ok").

Definition rmdot : T unit :=
  say (line "rmdot test") ;;
  r ← mkdir (str "dots");
  fail_if (negb (r =? 0)) (line "mkdir dots failed") [] ;;
  r ← chdir (str "dots");
  fail_if (negb (r =? 0)) (line "chdir dots failed") [] ;;
  r ← unlink (str ".");
  fail_if (r =? 0) (line "rm . worked!") [] ;;
  r ← unlink (str "..");
  fail_if (r =? 0) (line "rm .. worked!") [] ;;
  r ← chdir (str "/");
  fail_if (negb (r =? 0)) (line "chdir / failed") [] ;;
  r ← unlink (str "dots/.");
  fail_if (r =? 0) (line "unlink dots/. worked!") [] ;;
  r ← unlink (str "dots/..");
  fail_if (r =? 0) (line "unlink dots/.. worked!") [] ;;
  r ← unlink (str "dots");
  fail_if (negb (r =? 0)) (line "unlink dots failed!") [] ;;
  say (line "rmdot ok").

Definition dirfile : T unit :=
  say (line "dir vs file") ;;
  fd ← uopen (str "dirfile") O_CREATE;
  fail_if (fd <? 0) (line "create dirfile failed") [] ;;
  uclose fd ;;
  r ← chdir (str "dirfile");
  fail_if (r =? 0) (line "chdir dirfile succeeded!") [] ;;
  fd ← uopen (str "dirfile/xx") 0;
  fail_if (0 <=? fd) (line "create dirfile/xx succeeded!") [] ;;
  fd ← uopen (str "dirfile/xx") O_CREATE;
  fail_if (0 <=? fd) (line "create dirfile/xx succeeded!") [] ;;
  r ← mkdir (str "dirfile/xx");
  fail_if (r =? 0) (line "mkdir dirfile/xx succeeded!") [] ;;
  r ← unlink (str "dirfile/xx");
  fail_if (r =? 0) (line "unlink dirfile/xx succeeded!") [] ;;
  r ← link (str "README") (str "dirfile/xx");
  fail_if (r =? 0) (line "link to dirfile/xx succeeded!") [] ;;
  r ← unlink (str "dirfile");
  fail_if (negb (r =? 0)) (line "unlink dirfile failed!") [] ;;
  fd ← uopen (str ".") O_RDWR;
  fail_if (0 <=? fd) (line "open . for writing succeeded!") [] ;;
  fd ← uopen (str ".") 0;
  r ← uwrite fd (str "x");
  fail_if (0 <? r) (line "write . succeeded!") [] ;;
  uclose fd ;;
  say (line "dir vs file OK").

(** [if(fd >= 0) close(fd);] *)
Definition close_open (fd : Z) : T unit := when (0 <=? fd) (uclose fd ;; ret tt).

Definition iref : T unit :=
  say (line "empty file name") ;;
  for_each (seqZ 0 51) (fun _ =>
    r ← mkdir (str "irefd");
    fail_if (negb (r =? 0)) (line "mkdir irefd failed") [] ;;
    r ← chdir (str "irefd");
    fail_if (negb (r =? 0)) (line "chdir irefd failed") [] ;;
    mkdir [] ;;
    link (str "README") [] ;;
    fd ← uopen [] O_CREATE;
    close_open fd ;;
    fd ← uopen (str "xx") O_CREATE;
    close_open fd ;;
    unlink (str "xx") ;; ret tt) ;;
  chdir (str "/") ;;
  say (line "empty file name OK").

(** ** Limits *)

(** The first loop of [forktest]: [n] when it stops. *)
Fixpoint forktest_forks (left n : nat) : T nat :=
  match left with
  | O => ret n
  | S k =>
      pid ← ufork;
      if pid <? 0 then ret n
      else if pid =? 0 then uexit
      else forktest_forks k (S n)
  end.

Definition forktest_u : T unit :=
  say (line "fork test") ;;
  n ← forktest_forks 1000 0;
  fail_if (n =? 1000)%nat (line "fork claimed to work 1000 times!") [] ;;
  for_each (seq 0 n) (fun _ =>
    r ← uwait;
    fail_if (r <? 0) (line "wait stopped early") []) ;;
  r ← uwait;
  fail_if (negb (r =? -1)) (line "wait got too many") [] ;;
  say (line "fork test OK").

Definition bsstest : T unit :=
  say (line "bss test") ;;
  u ← gets u_uninit;
  fail_if (existsb (fun c => negb (c =? 0)) u) (line "bss test failed") [] ;;
  say (line "bss test ok").

(** An argument of [bigargtest]; there are MAXARG - 1 of them. *)
Definition bigarg : list Z := line "bigargs test: failed" ++ repeat 32 199.

Definition bigargtest : T unit :=
  unlink (str "bigarg-ok") ;;
  pid ← ufork;
  (if pid =? 0 then
     say (line "bigarg test") ;;
     uexec (str "echo") (replicate 31 bigarg) ;;
     say (line "bigarg test ok") ;;
     fd ← uopen (str "bigarg-ok") O_CREATE;
     uclose fd ;;
     uexit
   else fail_if (pid <? 0) (line "bigargtest: fork failed") []) ;;
  uwait ;;
  fd ← uopen (str "bigarg-ok") 0;
  fail_if (fd <? 0) (line "bigarg test failed!") [] ;;
  uclose fd ;;
  unlink (str "bigarg-ok") ;; ret tt.

(** [name] of [fsfull] *)
Definition full_name (nfiles : Z) : list Z :=
  [102; u8 (48 + nfiles / 1000); u8 (48 + nfiles mod 1000 / 100); u8 (48 + nfiles mod 100 / 10); u8 (48 + nfiles mod 10)].

(** Writing a file until the disk is full. *)
Definition full_block (fd total : Z) : T (Z + Z) :=
  cc ← write_buf fd 512;
  if cc <? 512 then ret (inr total) else ret (inl (total + cc)).

Definition full_file (nfiles : Z) : T (Z + Z) :=
  let name := full_name nfiles in
  printf 1 (line "writing %s") [UStr (Some name)] ;;
  fd ← uopen name (Z.lor O_CREATE O_RDWR);
  if fd <? 0 then
    printf 1 (line "open %s failed") [UStr (Some name)] ;;
    ret (inr nfiles)
  else
    total ← loop (full_block fd) 0;
    printf 1 (line "wrote %d bytes") [UInt total] ;;
    uclose fd ;;
    ret (if total =? 0 then inr nfiles else inl (nfiles + 1)).

Definition fsfull : T unit :=
  say (line "fsfull test") ;;
  nfiles ← loop full_file 0;
  for_each (rev (seqZ 0 (nfiles + 1))) (fun k => unlink (full_name k) ;; ret tt) ;;
  say (line "fsfull test finished").

(** An instruction that is refused in user mode: the process is killed. *)
Definition fault {A} : T A := panic "trap".

Definition uio : T unit :=
  say (line "uio test") ;;
  pid ← ufork;
  (if pid =? 0 then fault else fail_if (pid <? 0) (line "fork failed") []) ;;
  uwait ;;
  say (line "uio test done").

(** The buffer of the [read] is the last byte of the heap. *)
Definition argptest : T unit :=
  fd ← uopen (str "init") O_RDONLY;
  when (fd <? 0) (printf 2 (line "open failed") [] ;; uexit) ;;
  sys (Csbrk 0) ;;
  uread fd (-1) ;;
  uclose fd ;;
  say (line "arg test passed").

Definition rand : T Z :=
  modify (fun s => Uts (u_os s) (u_buf s) (u_name s) (u_uninit s) (u32 (u_rand s * 1664525 + 1013904223))) ;;
  gets u_rand.
End Usertests.
