(* ===== verification/System.v ===== *)
(** * User programs on the modelled kernel

    A machine put together from the components: the file system that mkfs.c
    builds, on the memory disk, under the buffer cache, the log, fs.c, file.c and
    the system calls, entered through [trap]; a process with four pages of
    memory; and the stubs of usys.S, which put the arguments on the user stack.
    With it a program of user space runs on the kernel's own definitions. *)
From S2P Require Import Prelude Mem Spinlock Kalloc Mmu Vm Block Sleeplock Log Bio Tx Fs Pipe File Proc Kernel Syscall Exec Sysfile.
From S2P Require Import Machine KernelImage Sysproc Trap Mkfs User.

Abbreviation T := (lst Bio.bio).

Abbreviation machine := (pst (mst (kst T))).

(** ** The machine *)

(** The console takes what it is given; nothing is typed. *)
Definition console_dev (major : Z) : devops (T := T) :=
  if major =? 1 then Devops None (Some (fun _ bs n => ret n)) else Devops None None.

Definition kernel_end : Z := 2152726528.

Definition dir_page : Z := 2153775104.

Definition table_page : Z := dir_page + 4096.

Definition user_page (i : Z) : Z := dir_page + 8192 + 4096 * i.

(** A page directory that maps four user pages. *)
Definition user_mem : mem :=
  foldl (fun m i => st32 m (table_page + 4 * i) (V2P (user_page i) + 7)) (st32 ∅ dir_page (V2P table_page + 7)) [0; 1; 2; 3].

Definition machine_vm : vst :=
  Vst (Kmem false true 0 user_mem) [] (Gpu 0 0 0) dir_page (Mach [Cpu 0 1 0 0 None 0] 0 0 (Spinlock 0 "" None []) ∅) [null_desc].

Definition machine_fs (disk : list block) : Fs.fs T :=
  Fs false (replicate NINODE null_inode) (Superblock 0 0 0 0 0 0 0) (Lst log0 (Bio.Bio false (replicate 31 Bio.null_buf) disk [] (Env 1 false []))).

Definition test_proc : proc :=
  upd_p_ofile (fun _ => replicate NOFILE 0) (upd_p_kstack (fun _ => user_page 4)
    (upd_p_sz (fun _ => 16384) (upd_p_pgdir (fun _ => dir_page) (upd_p_state (fun _ => RUNNING) (upd_p_pid (fun _ => 1) null_proc))))).

Definition machine0 (disk : list block) : machine :=
  one_proc test_proc (Mst (Kst false (replicate NFILE null_file) ∅ machine_vm (machine_fs disk)) 0 false [] []).

#[local] Instance machine_ks : KernelServices (kst T) := kernel_services console_dev kernel_end (fun _ => 0) [].

Definition name_buf : list Z := replicate DIRSIZ 0.

(** ** System calls *)

(** There is one process: no other one runs, and no device interrupts. *)
Definition enter (tf : trapframe) : M machine unit :=
  trap console_dev kernel_end (fun _ => 0) name_buf (fun _ _ => ret tt) 0 0 (fun _ _ => ret tt) 0 0 (ret tt) (ret tt) (ret tt) (ret tt) (ret tt) (fun _ => ret tt) 0 0 tf.

(** Where the stubs put a first and a second string, a buffer and the arguments. *)
Definition USTR1 : Z := 1100.

Definition USTR2 : Z := 1400.

Definition UBUF : Z := 4096.

Definition UESP : Z := 1020.

Definition on_kernel {A} (m : M (pst (kst T)) A) : M machine A := zoom knl m.

Definition put_user (a : Z) (bs : list Z) : M machine unit := on_kernel (ustore 0 a bs).

Definition call_frame (num : Z) : trapframe := Trapframe 0 0 0 0 0 0 0 num 0 0 35 35 T_SYSCALL 0 0 27 512 UESP 35.

(** [movl $SYS_x, %eax; int $T_SYSCALL] *)
Definition stub (num : Z) (args : list Z) : M machine Z :=
  for_each (zip (seqZ 0 3) args) (fun '(i, v) => put_user (UESP + 4 + 4 * i) (Block.le32 v)) ;;
  enter (call_frame num) ;;
  p ← curproc 0;
  tf ← getp p p_tf_data;
  ret (tf_eax tf).

Definition on_path (num : Z) (p : list Z) (args : list Z) : M machine answer :=
  put_user USTR1 (p ++ [0]) ;;
  r ← stub num (USTR1 :: args);
  ret (Answer r []).

Definition kernel_call (c : ucall) : M machine answer :=
  match c with
  | Copen p mode => on_path SYS_open p [mode]
  | Cmknod p major minor => on_path SYS_mknod p [major; minor]
  | Cmkdir p => on_path SYS_mkdir p []
  | Cchdir p => on_path SYS_chdir p []
  | Cunlink p => on_path SYS_unlink p []
  | Clink old new => put_user USTR2 (new ++ [0]) ;; on_path SYS_link old [USTR2]
  | Cclose fd => r ← stub SYS_close [fd]; ret (Answer r [])
  | Cdup fd => r ← stub SYS_dup [fd]; ret (Answer r [])
  | Cwrite fd bs =>
      put_user UBUF bs ;;
      r ← stub SYS_write [fd; UBUF; Z.of_nat (length bs)];
      ret (Answer r [])
  | Cread fd n =>
      r ← stub SYS_read [fd; UBUF; n];
      bs ← on_kernel (uload 0 UBUF (Z.to_nat (s32 r)));
      ret (Answer r bs)
  | Cgetpid => r ← stub SYS_getpid []; ret (Answer r [])
  | Csbrk n => r ← stub SYS_sbrk [n]; ret (Answer r [])
  | _ => ret (Answer (-1) [])
  end.

#[export] Instance kernel_os : Os machine := {
  sys := kernel_call;
  uexit := fun A => panic "exit";
}.

(** ** Start *)

(** What main.c and the first process do for the file system, and init.c for the
    console. *)
Definition start_machine : M machine unit :=
  on_kernel (svc (zoom fs_lens (zoom tx_lens (zoom lc_lens Bio.binit)))) ;;
  on_kernel (svc (zoom fs_lens (iinit ROOTDEV))) ;;
  on_kernel (svc (zoom tx_of (tx_init ROOTDEV))) ;;
  r ← on_kernel (svc (zoom fs_lens (namei console_dev 0 [slash] name_buf)));
  updp 0 (upd_p_cwd (fun _ => ptr_of r)) ;;
  fd ← uopen (str "console") O_RDWR;
  when (fd <? 0)
    (sys (Cmknod (str "console") 1 1) ;;
     uopen (str "console") O_RDWR ;; ret tt) ;;
  udup 0 ;;
  udup 0 ;;
  ret tt.

Definition disk_files : list (list Z * option (list (list Z))) :=
  [(str "README", Some [str "xv6"]); (str "_echo", Some [str "ELF"]); (str "_cat", Some [str "ELF"]); (str "_init", Some [str "ELF"])].

(** The blocks of the image. *)
Definition disk_image : list block :=
  match mkfs_main disk_files mk0 with
  | (Ret _, m) => (fun b => default zero_block (sectors m !! b)) <$> seqZ 0 FSSIZE
  | _ => []
  end.

(** A program on the machine that was started on the image. *)
Definition run_on_image (prog : M machine unit) : outcome unit := fst ((start_machine ;; prog) (machine0 disk_image)).
