(* ===== verification/UsertestsRun.v ===== *)
(** * The tests on the modelled kernel and on a reference kernel

    The reference is a kernel as the tests expect it, for one process: a tree of
    directories and files, sixteen descriptors, a current directory and a console.
    It has no disk, no log and no locks.  Both kernels are run side by side, on
    the same calls, and have to give the same answers. *)
From S2P Require Import Prelude Fs Proc Sysfile User Usertests System.

Inductive node : Type :=
| NFile (data : list Z)
| NDir (entries : list (list Z * nat)).

(** What a descriptor stands for. *)
Inductive opened : Type :=
| OConsole
| ONode (n : nat) (off : Z) (readable writable : bool).

(** [r_out] is newest first. *)
Record ros : Type := Ros {
  r_nodes : gmap nat node;
  r_next : nat;
  r_fds : list (option opened);
  r_cwd : nat;
  r_out : list Z;
}.

Definition with_node (i : nat) (x : node) (s : ros) : ros := Ros (<[i := x]> (r_nodes s)) (r_next s) (r_fds s) (r_cwd s) (r_out s).

Definition with_fd (fd : nat) (o : option opened) (s : ros) : ros := Ros (r_nodes s) (r_next s) (<[fd := o]> (r_fds s)) (r_cwd s) (r_out s).

Definition with_cwd (i : nat) (s : ros) : ros := Ros (r_nodes s) (r_next s) (r_fds s) i (r_out s).

Definition print (bs : list Z) (s : ros) : ros := Ros (r_nodes s) (r_next s) (r_fds s) (r_cwd s) (rev bs ++ r_out s).

(** ** Paths *)

(** The elements of a path, cut to 14 characters. *)
Fixpoint elements (cur p : list Z) : list (list Z) :=
  let add l := match cur with [] => l | _ => take DIRSIZ (rev cur) :: l end in
  match p with
  | [] => add []
  | c :: p' => if c =? 47 then add (elements [] p') else elements (c :: cur) p'
  end.

Definition entry_of (s : ros) (d : nat) (name : list Z) : option nat :=
  match r_nodes s !! d with
  | Some (NDir es) => snd <$> List.find (fun e => bool_decide (e.1 = name)) es
  | _ => None
  end.

Definition is_dir (s : ros) (d : nat) : bool := match r_nodes s !! d with Some (NDir _) => true | _ => false end.

Fixpoint walk (s : ros) (d : nat) (es : list (list Z)) : option nat :=
  match es with
  | [] => Some d
  | e :: es' =>
      match entry_of s d e with
      | Some d' => walk s d' es'
      | None => None
      end
  end.

Definition start (s : ros) (p : list Z) : nat := if hd0 p =? 47 then 0%nat else r_cwd s.

Definition lookup_path (s : ros) (p : list Z) : option nat := walk s (start s p) (elements [] p).

(** The directory of the last element, and that element. *)
Definition parent_path (s : ros) (p : list Z) : option (nat * list Z) :=
  match last (elements [] p) with
  | None => None
  | Some name =>
      match walk s (start s p) (removelast (elements [] p)) with
      | Some d => if is_dir s d then Some (d, name) else None
      | None => None
      end
  end.

Definition set_entries (d : nat) (f : list (list Z * nat) -> list (list Z * nat)) (s : ros) : ros :=
  match r_nodes s !! d with
  | Some (NDir es) => with_node d (NDir (f es)) s
  | _ => s
  end.

(** A new node under a name. *)
Definition make (d : nat) (name : list Z) (x : nat -> node) (s : ros) : ros :=
  let i := r_next s in
  set_entries d (fun es => es ++ [(name, i)]) (Ros (<[i := x i]> (r_nodes s)) (S i) (r_fds s) (r_cwd s) (r_out s)).

(** ** Calls *)
Definition free_fd (s : ros) : option nat := fst <$> list_find (fun o => o = None) (r_fds s).

Definition fd_at (s : ros) (fd : Z) : option opened := if fd <? 0 then None else default None (r_fds s !! Z.to_nat fd).

Definition error : answer := Answer (-1) [].

Definition ok (r : Z) : answer := Answer r [].

Definition r_open (p : list Z) (mode : Z) (s : ros) : answer * ros :=
  let open i s :=
    match free_fd s with
    | Some fd => (ok (Z.of_nat fd), with_fd fd (Some (ONode i 0 (open_readable mode =? 1) (open_writable mode =? 1))) s)
    | None => (error, s)
    end in
  if negb (Z.land mode O_CREATE =? 0) then
    match parent_path s p with
    | None => (error, s)
    | Some (d, name) =>
        match entry_of s d name with
        | Some i => if is_dir s i then (error, s) else open i s
        | None => open (r_next s) (make d name (fun _ => NFile []) s)
        end
    end
  else
    match lookup_path s p with
    | None => (error, s)
    | Some i => if is_dir s i && negb (mode =? O_RDONLY) then (error, s) else open i s
    end.

Definition r_write (fd : Z) (bs : list Z) (s : ros) : answer * ros :=
  match fd_at s fd with
  | Some OConsole => (ok (Z.of_nat (length bs)), print bs s)
  | Some (ONode i off rd true) =>
      match r_nodes s !! i with
      | Some (NFile data) =>
          let k := Z.to_nat off in
          let n := Z.of_nat (length bs) in
          if MAXFILE * 512 <? off + n then (error, s)
          else (ok n, with_fd (Z.to_nat fd) (Some (ONode i (off + n) rd true)) (with_node i (NFile (take k data ++ bs ++ drop (k + length bs) data)) s))
      | _ => (error, s)
      end
  | _ => (error, s)
  end.

Definition r_read (fd n : Z) (s : ros) : answer * ros :=
  match fd_at s fd with
  | Some (ONode i off true wr) =>
      match r_nodes s !! i with
      | Some (NFile data) =>
          if n <? 0 then (error, s)
          else
            let bs := take (Z.to_nat n) (drop (Z.to_nat off) data) in
            (Answer (Z.of_nat (length bs)) bs, with_fd (Z.to_nat fd) (Some (ONode i (off + Z.of_nat (length bs)) true wr)) s)
      | _ => (error, s)
      end
  | _ => (error, s)
  end.

Definition r_mkdir (p : list Z) (s : ros) : answer * ros :=
  match parent_path s p with
  | None => (error, s)
  | Some (d, name) =>
      match entry_of s d name with
      | Some _ => (error, s)
      | None => (ok 0, make d name (fun i => NDir [(dot, i); (dotdot, d)]) s)
      end
  end.

Definition r_link (old new : list Z) (s : ros) : answer * ros :=
  match lookup_path s old with
  | None => (error, s)
  | Some i =>
      if is_dir s i then (error, s)
      else
        match parent_path s new with
        | None => (error, s)
        | Some (d, name) =>
            match entry_of s d name with
            | Some _ => (error, s)
            | None => (ok 0, set_entries d (fun es => es ++ [(name, i)]) s)
            end
        end
  end.

Definition r_unlink (p : list Z) (s : ros) : answer * ros :=
  match parent_path s p with
  | None => (error, s)
  | Some (d, name) =>
      if bool_decide (name = dot) || bool_decide (name = dotdot) then (error, s)
      else
        match entry_of s d name with
        | None => (error, s)
        | Some i =>
            let nonempty := match r_nodes s !! i with Some (NDir es) => (2 <? length es)%nat | _ => false end in
            if nonempty then (error, s) else (ok 0, set_entries d (filter (fun e => e.1 <> name)) s)
        end
  end.

Definition r_chdir (p : list Z) (s : ros) : answer * ros :=
  match lookup_path s p with
  | Some i => if is_dir s i then (ok 0, with_cwd i s) else (error, s)
  | None => (error, s)
  end.

Definition r_close (fd : Z) (s : ros) : answer * ros :=
  match fd_at s fd with
  | Some _ => (ok 0, with_fd (Z.to_nat fd) None s)
  | None => (error, s)
  end.

(** The calls the tests of one process make; any other fails. *)
Definition r_call (c : ucall) (s : ros) : answer * ros :=
  match c with
  | Copen p mode => r_open p mode s
  | Cwrite fd bs => r_write fd bs s
  | Cread fd n => r_read fd n s
  | Cclose fd => r_close fd s
  | Cmkdir p => r_mkdir p s
  | Clink old new => r_link old new s
  | Cunlink p => r_unlink p s
  | Cchdir p => r_chdir p s
  | Csbrk _ => (ok 16384, s)
  | _ => (error, s)
  end.

#[export] Instance ros_os : Os ros := {
  sys := fun c s => let '(a, s') := r_call c s in (Ret a, s');
  uexit := fun A => panic "exit";
}.

(** ** Side by side *)

(** The same value, and the same bytes behind the pointer. *)
Definition same_answer (a b : answer) : bool := (s32 (a_ret a) =? s32 (a_ret b)) && bool_decide (a_bytes a = a_bytes b).

Definition both_call (c : ucall) : M (machine * ros) answer := fun s =>
  let '(o, k) := sys c s.1 in
  let '(b, r) := r_call c s.2 in
  match o with
  | Ret a => if same_answer a b then (Ret a, (k, r)) else (Panic "the answers differ", (k, r))
  | Panic msg => (Panic msg, (k, r))
  | Sleep ch => (Sleep ch, (k, r))
  end.

#[export] Instance both_os : Os (machine * ros) := { sys := both_call; uexit := fun A => panic "exit" }.

(** The tree that mkfs built, and the console that init opened. *)
Definition ros0 : ros :=
  Ros (<[0%nat := NDir ([(dot, 0%nat); (dotdot, 0%nat)] ++ zip [str "README"; str "echo"; str "cat"; str "init"; str "console"] (seq 1 5))]>
        (<[1%nat := NFile (str "xv6")]> (list_to_map ((fun i => (i, NFile (str "ELF"))) <$> seq 2 4))))
    6 (replicate 3 (Some OConsole) ++ replicate 13 None) 0 [].

(** A test on both, after the kernel has been started on the image. *)
Definition run_both (t : M (uts (machine * ros)) unit) : outcome unit * list Z :=
  match start_machine (machine0 disk_image) with
  | (Ret _, k) => let '(o, s) := t (uts0 (k, ros0)) in (o, rev (r_out (u_os s).2))
  | (Panic msg, _) => (Panic msg, [])
  | (Sleep ch, _) => (Sleep ch, [])
  end.

(** The tests of one process that fit in a short run. *)
Definition small_tests : M (uts (machine * ros)) unit :=
  argptest ;;
  opentest ;;
  iputtest ;;
  dirtest ;;
  rmdot ;;
  fourteen ;;
  subdir ;;
  linktest ;;
  unlinkread ;;
  dirfile.

Definition transcript : list Z :=
  concat (line <$> ["arg test passed"; "open test"; "open test ok"; "iput test"; "iput test ok"; "mkdir test"; "mkdir test ok"; "rmdot test"; "rmdot ok";
    "fourteen test"; "fourteen ok"; "subdir test"; "subdir ok"; "linktest"; "linktest ok"; "unlinkread test"; "unlinkread ok"; "dir vs file"; "dir vs file OK"]%string).

(** The longer tests of one process, on the reference kernel alone: it answers as
    the tests demand. *)
Definition long_tests : M (uts ros) unit :=
  writetest ;;
  createtest ;;
  bigwrite ;;
  bigfile 300 ;;
  iref ;;
  bsstest.

Lemma reference_passes : (long_tests (uts0 ros0)).1 = Ret tt.
Proof. vm_compute. reflexivity. Qed.

